(* ===== verification/_CoqProject ===== *)
-Q . S2P
Prelude.v
Kconfig.v
Transport.v
Stats.v
Apdu.v
Service.v
Router.v
Ndef.v
Envelope.v
StoreRam.v
World.v
Dispatch.v
NdefListener.v
Store.v
StoreSpec.v
Stack.v
System.v
Reach.v
Session.v
NdefPoller.v
Serial.v
Word32.v
Crc.v
Response.v
Aliro.v
AliroListener.v
AliroPoller.v
Iso15693.v
Iso15693Wire.v
Iso15693Listener.v
Iso15693Poller.v
Iso15693Loopback.v
SlixListener.v
SlixPoller.v
Crypto1.v
ClassicCipher.v
Classic.v
ClassicListener.v
ClassicPoller.v
ClassicReads.v
Felica.v
Emv.v
EmvListener.v
EmvPoller.v
Desfire.v
DesfireListener.v
DesfirePoller.v
DesfireLoopback.v
Ultralight.v
UltralightNdef.v
Des.v
TripleDes.v
UltralightT2.v
UltralightPoller.v
UltralightLoopback.v
UltralightT4.v
Reader.v
ReaderSpec.v
ReaderBuild.v
ReaderNdef.v
Loopback.v
Scenario.v
Witnesses.v
CardWitnesses.v
UltralightWitnesses.v
DesfireWitnesses.v
AliroWitnesses.v
EmvWitnesses.v
ReaderWitnesses.v
VicinityWitnesses.v
ClassicWitnesses.v
