(* ===== verification/Prelude.v ===== *)
(** * A verification of the NFC stack

    The program is the NFC stack of a Zephyr application ([src/nfc]): it emulates cards towards an
    NFC reader, reads cards in the field, and keeps card images in a store.  This library models
    its own logic in Gallina, function by function, and proves that the parts and their
    composition do what they promise.

    ** The program and its parts

    Listening: the transport delivers command APDUs to [framing/apdu_assembler.c], which parses
    them and hands them to [router/aid_router.c]; the router keeps a table of application
    identifiers and a selected service; services are tables of callbacks ([router/service.h]), one
    per protocol ([protocols/*/*_listener.c]).  The protocols without APDUs (Type 2, ISO 15693,
    SLIX, MIFARE Classic, FeliCa) get whole frames instead.  Storing: [store/nfc_store.c] asks the
    services to serialize themselves into a checksummed envelope and gives it to a registered
    backend, and back; [store/nfc_store_ram.c] is the RAM backend.  [nfc_stack/nfc_stack.c] brings
    all of it up and down and is the interface of the application.  Reading: the jobs of
    [reader/nfc_reader_engine.c] walk the table of [reader/nfc_reader_poller_registry.c], whose
    pollers ([protocols/*/*_poller.c]) drive a card; what was read is bound to the listener of its
    protocol and saved.  Each card technology has a data model with its persistent form
    ([protocols/*/*.c]).

    ** The files

    - [Prelude] (this file): machine integers with their wrap-around, C objects as lists whose
      accessors have no result outside the object, the monad [M] of stateful code in which [None]
      is such an access, tactics, hint databases and generic lemmas.  [Word32]: words of 32 bits
      and their bytes.
    - [Kconfig]: the build options as a class and the ranges they declare as another; everything
      is parametric in them.  [Transport]: the transport's data.  [Stats]: the counters of
      [src/stats.h].
    - [Apdu]: [apdu_parse] and the commands it accepts.  [Service]: the service table.  [Router]:
      the AID table.  [World]: the state of all modules as one record, and the class [Platform]
      for what is not under [src/] (transport, buffers, application callbacks).  [Dispatch]: the
      router's and assembler's handlers, against the class [Services] of what a service promises.
    - [Ndef], [NdefListener]: the NDEF model and listener, against the Type 4 Tag specification
      [tag_step].
    - [Envelope], [StoreRam], [Store], [StoreSpec]: the blob format, the RAM slots as a finite map,
      the store's operations, and what saving and loading mean, against the class [Persist] of
      what a persistent service promises.
    - [Stack], [System], [Reach]: the stack's operations, the invariant of all modules, and the
      step relation of the whole program with its reachable states.
    - [Session]: the reader's session, through which every poller reaches its card, and the class
      [CardWhile] of what any card promises.  [NdefPoller], [Loopback]: the NDEF poller, against
      the class [Type4Card] of what a tag promises, and the poller of one device reading the
      listener of another.
    - [Serial]: the shared idiom of the card models' serializers.  One file per card model:
      [Aliro], [Iso15693] (with SLIX), [Felica], [Emv], [Ultralight] with [UltralightNdef],
      [Desfire], [Classic].
    - [Crc]: the three checksums as one linear shift register ([CrcReg], [CrcCodec]).  [Response]:
      the static response buffer of the frame listeners ([RespBuf]) and the link between such a
      listener and a poller.
    - Per protocol a listener against the card it emulates, a poller, and the poller in front of
      that card: [AliroListener], [AliroPoller]; [EmvListener], [EmvPoller]; [DesfireListener],
      [DesfirePoller], [DesfireLoopback] (class [DesfireCard]); [Iso15693Wire] (the parsers both
      sides share), [Iso15693Listener], [Iso15693Poller], [Iso15693Loopback] (class
      [VicinityCard]); [SlixListener], [SlixPoller]; [ClassicListener],
      [ClassicPoller], [ClassicReads] (class [MifareCard]); [UltralightT2], [UltralightPoller],
      [UltralightLoopback] (class [ReadableT2]); [UltralightT4], which shows an Ultralight card
      through the NDEF listener.
    - [Des], [TripleDes]: the cipher of Ultralight C.  [Crypto1], [ClassicCipher]: the cipher of
      MIFARE Classic and its authentication.
    - [Reader], [ReaderSpec], [ReaderBuild], [ReaderNdef]: the engine with its work items and the
      registry, its invariant and its jobs against the interface [ReaderParts], the registry made
      of the program's own parts, and reading a Type 4 Tag up to the saved card.
    - [Scenario] and the files named [*Witnesses]: concrete builds, runs and cards at which the
      properties' hypotheses hold, by evaluation.

    A static variable of a C file is a field of that file's state record ([assembler], [router],
    [store], [ram], [stack] and [ndef_listener] in [World]; [df_state], [aliro_st], [emv_st],
    [t2_state], [iso_state], [slix_state], [classic_state], [reader] and so on in their files); a C function is the
    definition of the same name; a pointer argument that may be NULL is an [option]; an output
    argument is returned; an error number is the negative [int] the code returns; an automatic
    array that is read before it is fully written is an argument.  Spinlocks around counters and
    slots are not state: each operation runs alone on the stack's work queue.

    ** What is shown

    - Parsing and routing: [apdu_parse] accepts exactly the well-formed commands; every inbound
      buffer is routed once, to the service the routes give or to a status word, and released once.
    - The emulated tag: the listener refines the Type 4 Tag specification, alone and, in every
      reachable state of the NDEF build, through assembler, router and listener together.
    - The store: envelopes are accepted exactly when well-formed; the RAM backend is a finite map;
      a save writes exactly what the services persist, a load gives it back, neither leaves its
      buffers whatever is stored.
    - The system, in the build whose only emulated protocol is the NDEF tag (class [NdefBuild] of
      [System]; the listeners of DESFire and EMV can leave their arrays after a load that was
      refused, see [desfire_rejected_load_overruns] and [emv_deserialize_overruns], so this does not
      hold of every build): from boot, under any sequence of the calls of stack, store and RAM
      backend, transport events and environment changes, the
      invariant of all modules holds and no access leaves an object; the stack's states follow its
      state machine.
    - The listeners: each refines a card given as a function of its model, its session and the
      command.  What is protected stays secret without the key or password, as statements about two
      cards that differ in it (DESFire files, Type 2 pages, MIFARE Classic sectors) or about the
      password that was given (SLIX privacy mode), and the Aliro listener authenticates its reader.
    - The pollers: safe against any card, and exact in front of the program's own listener of the
      protocol; where the two disagree (ISO 15693 block security beyond 32 blocks, the SLIX
      signature, Ultralight page counts) the theorem says what is read instead.
    - The ciphers: DES, 3DES and their modes are inverted by decryption, and both ends of an
      Ultralight C authentication accept each other; the cipher the code calls Crypto1 is shown to
      lose six of its eighteen feedback taps.
    - The checksums: each code detects every burst of two neighbouring bytes.
    - The reader, in the build whose only protocol is NDEF ([NdefReader] of [ReaderNdef]; other
      pollers can be held for ever by a card, see the findings): its busy flags and queue are
      consistent under every sequence of events, every
      job is carried out, and reading a Type 4 Tag stores exactly that tag.
    - Card models: each persistent form is read back, and what is accepted is characterized; where
      the code falls short of that (EMV images, oversized NDEF lengths, the RAM backend's
      registration, the message pointer of an Ultralight card) the failure is a theorem.

    ** Bounds and fuel

    Loops over arrays recur on the array or on a count that the loop's C bound gives.  The loops
    without such a count run on fuel, and their theorems include that the fuel is enough:
    [load_entries] of the store gets one turn per byte of the payload, since an entry has at least
    three; [read_loop] of the NDEF poller one per byte of the message, since a turn that does not
    fail reads at least one; [ultralight_scan_loop] one per byte of the scanned area;
    [read_records] of the EMV poller and [security_loop] of the ISO 15693 listener, whose counters
    are bytes, 256 and 257 turns; [send_chunks_loop] of the DESFire poller at least 256,
    for a card whose further frames bring data ([FramesProgress]; one that keeps announcing empty
    frames holds the C loop for ever).  Sizes are the declared [range]s of the options; [size_t] sums stay far below 2^32 under
    them and are written without wrap-around, narrower types wrap explicitly.

    ** Not modelled

    The transports ([hal/]) and the controller drivers below them; the listener and poller
    of FeliCa; the applets, the shell commands, [main.c] and the threads behind the work queue.  They are parameters where modelled code calls them: [Platform] for transport,
    buffers and application callbacks, [PollTransport] for discovery, [listener_ops] for the other
    listeners in the stack, [crc16_ccitt] (Zephyr) for the store's checksum, [tag_transceive] for
    the card in front of a poller. *)

From stdpp Require Import base list numbers option.

#[global] Open Scope Z_scope.

(** ** Machine integers *)

(** [uint8_t], [uint16_t] and [uint32_t] conversions, and the two's complement reading of a
    32-bit word as [int32_t]. *)
Definition u8 (z : Z) : Z := z mod 256.
Definition u16 (z : Z) : Z := z mod 65536.
Definition u32 (z : Z) : Z := z mod 4294967296.
Definition i32 (z : Z) : Z := (z + 2147483648) mod 4294967296 - 2147483648.

(** The two byte orders of a 16-bit field: [((uint16_t)hi << 8) | lo] and
    [lo | ((uint16_t)hi << 8)]; and the two bytes of a 16-bit value. *)
Definition be16 (hi lo : Z) : Z := u16 (Z.lor (Z.shiftl hi 8) lo).
Definition le16 (lo hi : Z) : Z := u16 (Z.lor lo (Z.shiftl hi 8)).
Definition lo8 (v : Z) : Z := u8 (Z.land v 255).
Definition hi8 (v : Z) : Z := u8 (Z.land (Z.shiftr v 8) 255).

Definition is_byte (b : Z) : Prop := 0 <= b < 256.
Definition bytes (l : list Z) : Prop := Forall is_byte l.

(** ** Error numbers *)

(** [errno.h] as picolibc and newlib number it. *)
Definition ENOENT : Z := 2.
Definition EIO : Z := 5.
Definition ENOMEM : Z := 12.
Definition EACCES : Z := 13.
Definition EBUSY : Z := 16.
Definition ENODEV : Z := 19.
Definition EINVAL : Z := 22.
Definition ENOSPC : Z := 28.
Definition ENODATA : Z := 61.
Definition EBADMSG : Z := 77.
Definition ETIMEDOUT : Z := 116.
Definition EALREADY : Z := 120.
Definition ENOTSUP : Z := 134.

(** ** C objects as byte lists

    An array object is a list; an access outside it has no defined result, so the accessors
    return [None] there.  [len] is the size of the object. *)

Definition len {A} (l : list A) : Z := Z.of_nat (length l).

(** [l[i]] *)
Definition ld {A} (l : list A) (i : Z) : option A :=
  if (0 <=? i) then l !! Z.to_nat i else None.

(** [l[i] = v] *)
Definition st {A} (l : list A) (i : Z) (v : A) : option (list A) :=
  if (0 <=? i) && (i <? len l) then Some (<[Z.to_nat i := v]> l) else None.

(** The [n] elements at [&l[off]]. *)
Definition sub {A} (l : list A) (off n : Z) : option (list A) :=
  if (0 <=? off) && (0 <=? n) && (off + n <=? len l)
  then Some (take (Z.to_nat n) (drop (Z.to_nat off) l)) else None.

(** Storing the elements [src] at [&dst[off]]. *)
Definition blit {A} (dst : list A) (off : Z) (src : list A) : option (list A) :=
  if (0 <=? off) && (off + len src <=? len dst)
  then Some (take (Z.to_nat off) dst ++ src ++ drop (Z.to_nat (off + len src)) dst)
  else None.

(** [memcpy(&dst[doff], &src[soff], n)], [memset(&dst[off], v, n)] and
    [memcmp(&a[aoff], &b[boff], n) == 0]. *)
Definition memcpy (dst : list Z) (doff : Z) (src : list Z) (soff n : Z) : option (list Z) :=
  s ← sub src soff n; blit dst doff s.
Definition memset (dst : list Z) (off v n : Z) : option (list Z) :=
  blit dst off (replicate (Z.to_nat n) v).
Definition memcmp_eq (a : list Z) (aoff : Z) (b : list Z) (boff n : Z) : option bool :=
  x ← sub a aoff n; y ← sub b boff n; Some (bool_decide (x = y)).

Definition zeros (n : Z) : list Z := replicate (Z.to_nat n) 0.

(** A C string is read up to its first NUL, and a list without one is the string of all its elements: the
    strings that the callers pass are terminated, and the program's own arrays keep their terminator
    (the tags of the RAM slots by the invariant [slot_ok] of [StoreRam]). *)
Fixpoint c_str (l : list Z) : list Z :=
  match l with
  | [] => []
  | c :: l' => if c =? 0 then [] else c :: c_str l'
  end.
Definition strlen (l : list Z) : Z := len (c_str l).
Definition strcmp_eq (a b : list Z) : bool := bool_decide (c_str a = c_str b).

(** [strncpy(dst, src, n)]: at most [n] characters, the rest of the [n] filled with NUL. *)
Definition strncpy (dst : list Z) (src : list Z) (n : Z) : option (list Z) :=
  let s := take (Z.to_nat n) (c_str src) in
  blit dst 0 (s ++ replicate (Z.to_nat n - length s) 0).

(** ** Stateful code

    A function of the program over the state [W]: [None] is an access outside an object. *)

Definition M (W A : Type) : Type := W → option (A * W).
#[global] Instance M_ret W : MRet (M W) := λ A a w, Some (a, w).
#[global] Instance M_bind W : MBind (M W) := λ A B k m w,
  match m w with Some (a, w') => k a w' | None => None end.
Definition gets {W A} (f : W → A) : M W A := λ w, Some (f w, w).
Definition modify {W} (f : W → W) : M W unit := λ w, Some (tt, f w).
Definition lift {W A} (o : option A) : M W A :=
  λ w, match o with Some a => Some (a, w) | None => None end.

(** A loop [for (i = 0; i < n; i++)] whose body may return early with a value. *)
Fixpoint for_each {W A R} (f : A → M W (option R)) (l : list A) : M W (option R) :=
  match l with
  | [] => mret None
  | a :: l' => r ← f a; match r with Some e => mret (Some e) | None => for_each f l' end
  end.

(** Running a sequence of calls, one call at a time. *)
Section Run.
Context {W A B : Type}.
Implicit Types (k : A → M W B).

Lemma run_gets (f : W → A) k w : (gets f ≫= k) w = k (f w) w.
Proof. done. Qed.
Lemma run_modify (f : W → W) (k : unit → M W B) w : (modify f ≫= k) w = k tt (f w).
Proof. done. Qed.
Lemma run_lift_Some (a : A) k w : (lift (Some a) ≫= k) w = k a w.
Proof. done. Qed.
Lemma run_lift_None k w : (lift None ≫= k) w = None.
Proof. done. Qed.
Lemma run_ret (a : A) k w : (mret a ≫= k) w = k a w.
Proof. done. Qed.
Lemma run_mret (a : A) (w : W) : (mret a : M W A) w = Some (a, w).
Proof. done. Qed.
Lemma run_bind {C} (m : M W C) (h : C → M W A) k w :
  ((m ≫= h) ≫= k) w = (m ≫= λ c, h c ≫= k) w.
Proof. unfold mbind, M_bind. by destruct (m w) as [[]|]. Qed.
Lemma run_call (m : M W A) k w a w' : m w = Some (a, w') → (m ≫= k) w = k a w'.
Proof. unfold mbind, M_bind. by intros ->. Qed.
Lemma run_none (m : M W A) k w : m w = None → (m ≫= k) w = None.
Proof. unfold mbind, M_bind. by intros ->. Qed.
Lemma run_inv (m : M W A) k w r :
  (m ≫= k) w = Some r → ∃ a w', m w = Some (a, w') ∧ k a w' = Some r.
Proof. unfold mbind, M_bind. destruct (m w) as [[a w']|]; [eauto|done]. Qed.
End Run.

(** [ensures m w Q]: run in [w], [m] returns, and [Q] holds of its result and final state. *)
Definition ensures {W A} (m : M W A) (w : W) (Q : A → W → Prop) : Prop :=
  ∃ a w', m w = Some (a, w') ∧ Q a w'.

Lemma ensures_bind {W A B} (m : M W A) (k : A → M W B) w (Q : A → W → Prop) (R : B → W → Prop) :
  ensures m w Q → (∀ a w', Q a w' → ensures (k a) w' R) → ensures (m ≫= k) w R.
Proof.
  intros (a & w' & Hm & HQ) Hk. destruct (Hk a w' HQ) as (b & w'' & Hb & HR).
  exists b, w''. split; [|done]. by rewrite (run_call _ _ _ _ _ Hm).
Qed.

Lemma ensures_ret {W A} (a : A) (w : W) (Q : A → W → Prop) : Q a w → ensures (mret a) w Q.
Proof. by exists a, w. Qed.

Lemma ensures_lift {W A B} (o : option A) (a : A) (k : A → M W B) w (R : B → W → Prop) :
  o = Some a → ensures (k a) w R → ensures (lift o ≫= k) w R.
Proof. intros -> (b & w' & Hk & HR). by exists b, w'. Qed.

Lemma ensures_weaken {W A} (m : M W A) w (Q R : A → W → Prop) :
  ensures m w Q → (∀ a w', Q a w' → R a w') → ensures m w R.
Proof. intros (a & w' & Hm & HQ) HR. exists a, w'. auto. Qed.

(** ** Tactics *)

(** [run]: takes the calls at the head of a stateful computation whose effect is known. *)
Ltac run_step :=
  first [ rewrite run_gets | rewrite run_modify | rewrite run_lift_Some | rewrite run_lift_None
        | rewrite run_ret | rewrite run_bind | rewrite run_mret ].

(** [dlia]: [lia] with the quotients and remainders in scope unfolded. *)
Ltac dlia := Z.div_mod_to_equations; lia.

(** [bool_prop]: turns the boolean tests of the code in the context into propositions. *)
Ltac bool_prop :=
  repeat match goal with
  | H : (_ && _) = true |- _ => apply andb_true_iff in H as [? ?]
  | H : (_ || _) = false |- _ => apply orb_false_iff in H as [? ?]
  | H : negb _ = true |- _ => apply negb_true_iff in H
  | H : negb _ = false |- _ => apply negb_false_iff in H
  | H : (_ =? _) = true |- _ => apply Z.eqb_eq in H
  | H : (_ =? _) = false |- _ => apply Z.eqb_neq in H
  | H : (_ <? _) = true |- _ => apply Z.ltb_lt in H
  | H : (_ <? _) = false |- _ => apply Z.ltb_ge in H
  | H : (_ <=? _) = true |- _ => apply Z.leb_le in H
  | H : (_ <=? _) = false |- _ => apply Z.leb_gt in H
  | H : bool_decide _ = true |- _ => apply bool_decide_eq_true in H
  | H : bool_decide _ = false |- _ => apply bool_decide_eq_false in H
  end.

(** [case_bool]: splits on the next boolean test of the goal. *)
Ltac case_bool :=
  match goal with
  | |- context [if ?b then _ else _] =>
      lazymatch b with context [if _ then _ else _] => fail | _ => idtac end;
      let E := fresh "E" in destruct b eqn:E
  end.

(** [mred]: evaluates monadic plumbing. *)
Ltac mred :=
  cbn [mbind mret M_bind M_ret option_bind option_ret gets modify lift for_each fst snd].
Tactic Notation "mred" "in" hyp(H) :=
  cbn [mbind mret M_bind M_ret option_bind option_ret gets modify lift for_each fst snd] in H.

(** [zadds]: evaluates the sums of numerals in the goal. *)
Ltac zadds :=
  repeat match goal with
  | |- context [Z.add ?a ?b] =>
      let isnum z := lazymatch z with Z0 => idtac | Zpos _ => idtac | Zneg _ => idtac end in
      isnum a; isnum b; let r := eval vm_compute in (a + b) in change (Z.add a b) with r
  end.

(** ** Lemmas on machine integers *)

Create HintDb nfc.

Lemma u8_id z : is_byte z → u8 z = z.
Proof. intros H. apply Z.mod_small, H. Qed.

Lemma u8_range z : is_byte (u8 z).
Proof. apply Z.mod_pos_bound. lia. Qed.

Lemma u16_range z : 0 <= u16 z < 65536.
Proof. apply Z.mod_pos_bound. lia. Qed.

Lemma u16_id z : 0 <= z < 65536 → u16 z = z.
Proof. apply Z.mod_small. Qed.

Lemma u32_id z : 0 <= z < 4294967296 → u32 z = z.
Proof. apply Z.mod_small. Qed.

Lemma u32_range z : 0 <= u32 z < 4294967296.
Proof. apply Z.mod_pos_bound. lia. Qed.

Lemma testbit_above b n i : 0 <= b < 2 ^ n → n <= i → Z.testbit b i = false.
Proof.
  intros Hb Hi. destruct (Z.ltb_spec n 0) as [Hn|Hn].
  - rewrite Z.pow_neg_r in Hb by lia. lia.
  - rewrite <-(Z.mod_small b (2 ^ n)) by done. by apply Z.mod_pow2_bits_high.
Qed.

(** Bitwise or of a shifted value and one below the shift is their sum. *)
Lemma lor_shiftl_add a b n : 0 <= n → 0 <= b < 2 ^ n → Z.lor (Z.shiftl a n) b = a * 2 ^ n + b.
Proof.
  intros Hn Hb. rewrite <-Z.shiftl_mul_pow2 by lia.
  assert (Z.land (Z.shiftl a n) b = 0) as Hl.
  { apply Z.bits_inj'. intros i Hi. rewrite Z.land_spec, Z.bits_0.
    destruct (Z.ltb_spec i n).
    - by rewrite Z.shiftl_spec_low by lia.
    - rewrite (testbit_above b n) by lia. apply andb_false_r. }
  pose proof (Z.add_lor_land (Z.shiftl a n) b). lia.
Qed.

Lemma be16_eq hi lo : is_byte hi → is_byte lo → be16 hi lo = 256 * hi + lo.
Proof.
  unfold is_byte, be16. intros. rewrite lor_shiftl_add by (change (2 ^ 8) with 256; lia).
  change (2 ^ 8) with 256. rewrite u16_id; lia.
Qed.

Lemma le16_eq lo hi : is_byte hi → is_byte lo → le16 lo hi = 256 * hi + lo.
Proof. intros. unfold le16. rewrite Z.lor_comm. by apply be16_eq. Qed.

Lemma lo8_eq v : lo8 v = v mod 256.
Proof.
  unfold lo8, u8. change 255 with (Z.ones 8). rewrite Z.land_ones by lia.
  change (2 ^ 8) with 256. apply Z.mod_mod. lia.
Qed.

Lemma hi8_eq v : hi8 v = (v / 256) mod 256.
Proof.
  unfold hi8, u8. change 255 with (Z.ones 8). rewrite Z.land_ones, Z.shiftr_div_pow2 by lia.
  change (2 ^ 8) with 256. apply Z.mod_mod. lia.
Qed.

Lemma lo8_range v : is_byte (lo8 v).
Proof. rewrite lo8_eq. apply Z.mod_pos_bound. lia. Qed.

Lemma hi8_range v : is_byte (hi8 v).
Proof. rewrite hi8_eq. apply Z.mod_pos_bound. lia. Qed.

#[export] Hint Resolve u8_range lo8_range hi8_range : nfc.

(** A 16-bit value read back from its two bytes. *)
Lemma le16_split v : 0 <= v < 65536 → le16 (lo8 v) (hi8 v) = v.
Proof.
  intros. rewrite le16_eq by auto with nfc. rewrite lo8_eq, hi8_eq.
  rewrite (Z.mod_small (v / 256)) by dlia. dlia.
Qed.

Lemma be16_split v : 0 <= v < 65536 → be16 (hi8 v) (lo8 v) = v.
Proof.
  intros. rewrite be16_eq by auto with nfc. rewrite lo8_eq, hi8_eq.
  rewrite (Z.mod_small (v / 256)) by dlia. dlia.
Qed.

Lemma lo8_le16 lo hi : is_byte lo → is_byte hi → lo8 (le16 lo hi) = lo.
Proof. intros. unfold is_byte in *. rewrite lo8_eq, le16_eq by done. dlia. Qed.

Lemma hi8_le16 lo hi : is_byte lo → is_byte hi → hi8 (le16 lo hi) = hi.
Proof. intros. unfold is_byte in *. rewrite hi8_eq, le16_eq by done. dlia. Qed.

(** ** Lemmas on objects *)

Lemma len_nonneg {A} (l : list A) : 0 <= len l.
Proof. unfold len. lia. Qed.

Lemma len_nil {A} : len (@nil A) = 0.
Proof. done. Qed.

Lemma len_cons {A} (a : A) l : len (a :: l) = 1 + len l.
Proof. unfold len. cbn [length]. lia. Qed.

Lemma len_app {A} (l k : list A) : len (l ++ k) = len l + len k.
Proof. unfold len. rewrite length_app. lia. Qed.

Lemma len_replicate {A} n (a : A) : len (replicate n a) = Z.of_nat n.
Proof. unfold len. by rewrite length_replicate. Qed.

Lemma len_zeros n : 0 <= n → len (zeros n) = n.
Proof. intros. unfold zeros. rewrite len_replicate. lia. Qed.

Lemma len_insert {A} (l : list A) i v : len (<[i := v]> l) = len l.
Proof. unfold len. by rewrite length_insert. Qed.

Lemma len_take {A} n (l : list A) : len (take n l) = Z.min (Z.of_nat n) (len l).
Proof. unfold len. rewrite length_take. lia. Qed.

Lemma len_drop {A} n (l : list A) : len (drop n l) = Z.max 0 (len l - Z.of_nat n).
Proof. unfold len. rewrite length_drop. lia. Qed.

Create Rewrite HintDb len.
#[export] Hint Rewrite @len_nil @len_cons @len_app @len_replicate @len_insert @len_take
  @len_drop : len.

(** [llia]: arithmetic about sizes of objects. *)
Ltac llia :=
  unfold zeros in *; autorewrite with len in *; unfold len in *; cbn [length] in *;
  rewrite ?length_app, ?length_replicate, ?length_take, ?length_drop, ?length_insert in *; lia.

Lemma ld_Some {A} (l : list A) i : 0 <= i < len l → ∃ a, ld l i = Some a.
Proof.
  intros [H1 H2]. unfold ld. rewrite (proj2 (Z.leb_le 0 i)) by lia.
  apply lookup_lt_is_Some. unfold len in H2. lia.
Qed.

Lemma ld_eq {A} (l : list A) i a : 0 <= i → l !! Z.to_nat i = Some a → ld l i = Some a.
Proof. intros ? H. unfold ld. by rewrite (proj2 (Z.leb_le 0 i)) by lia. Qed.

Lemma ld_Some_inv {A} (l : list A) i a :
  ld l i = Some a → 0 <= i < len l ∧ l !! Z.to_nat i = Some a.
Proof.
  unfold ld. case_bool; [|done]. bool_prop. intros H. split; [|done].
  apply lookup_lt_Some in H. unfold len. lia.
Qed.

(** Access behind a prefix. *)
Lemma ld_app_r {A} (k l : list A) i : 0 <= i → ld (k ++ l) (len k + i) = ld l i.
Proof.
  intros Hi. unfold ld, len. rewrite !(proj2 (Z.leb_le _ _)) by lia.
  rewrite lookup_app_r by lia. f_equal. lia.
Qed.

Lemma drop_app_len {A} (k l : list A) n : n = len k → drop (Z.to_nat n) (k ++ l) = l.
Proof. intros ->. unfold len. rewrite Nat2Z.id. apply drop_app_length. Qed.

Lemma ld_byte l i a : bytes l → ld l i = Some a → is_byte a.
Proof. intros Hl [_ H]%ld_Some_inv. eapply Forall_lookup_1; eauto. Qed.

Lemma st_ok {A} (l : list A) i v : 0 <= i < len l → st l i v = Some (<[Z.to_nat i := v]> l).
Proof.
  intros. unfold st. by rewrite (proj2 (Z.leb_le 0 i)), (proj2 (Z.ltb_lt i (len l))) by lia.
Qed.

(** Access and update of the element behind a prefix. *)
Lemma ld_mid {A} (k : list A) x l i : i = len k → ld (k ++ x :: l) i = Some x.
Proof.
  intros ->. apply ld_eq; [apply len_nonneg|]. unfold len. rewrite Nat2Z.id. by apply list_lookup_middle.
Qed.

Lemma st_mid {A} (k : list A) x l i y : i = len k → st (k ++ x :: l) i y = Some (k ++ y :: l).
Proof.
  intros ->. pose proof (len_nonneg k). pose proof (len_nonneg l).
  rewrite st_ok by (rewrite len_app, len_cons; lia). f_equal.
  replace (Z.to_nat (len k)) with (length k + 0)%nat by (unfold len; lia). by rewrite insert_app_r.
Qed.

Lemma len_fmap {A B} (f : A → B) l : len (f <$> l) = len l.
Proof. unfold len. by rewrite length_fmap. Qed.

Lemma sub_ok {A} (l : list A) off n :
  0 <= off → 0 <= n → off + n <= len l →
  sub l off n = Some (take (Z.to_nat n) (drop (Z.to_nat off) l)).
Proof.
  intros. unfold sub. by rewrite (proj2 (Z.leb_le 0 off)), (proj2 (Z.leb_le 0 n)),
    (proj2 (Z.leb_le (off + n) (len l))) by lia.
Qed.

Lemma sub_Some_inv {A} (l : list A) off n s :
  sub l off n = Some s →
  0 <= off ∧ 0 <= n ∧ off + n <= len l ∧ s = take (Z.to_nat n) (drop (Z.to_nat off) l).
Proof. unfold sub. case_bool; [|done]. bool_prop. intros [= <-]. eauto. Qed.

Lemma sub_len {A} (l : list A) off n s : sub l off n = Some s → len s = n.
Proof. intros (?&?&?&->)%sub_Some_inv. autorewrite with len. lia. Qed.

Lemma bytes_app l k : bytes (l ++ k) ↔ bytes l ∧ bytes k.
Proof. apply Forall_app. Qed.

Lemma bytes_take n l : bytes l → bytes (take n l).
Proof. apply Forall_take. Qed.

Lemma bytes_drop n l : bytes l → bytes (drop n l).
Proof. apply Forall_drop. Qed.

Lemma bytes_zeros n : bytes (zeros n).
Proof. apply Forall_replicate. unfold is_byte. lia. Qed.

Lemma bytes_insert l i v : bytes l → is_byte v → bytes (<[i := v]> l).
Proof. intros. by apply Forall_insert. Qed.

Lemma sub_bytes l off n s : bytes l → sub l off n = Some s → bytes s.
Proof. intros ? (?&?&?&->)%sub_Some_inv. by apply bytes_take, bytes_drop. Qed.

(** Bytes by evaluation. *)
Lemma bytes_check l : forallb (λ b, (0 <=? b) && (b <? 256)) l = true → bytes l.
Proof.
  induction l as [|b l IH]; cbn; intros Hl; [by constructor|]. bool_prop.
  constructor; [by split|by apply IH].
Qed.

#[export] Hint Resolve bytes_take bytes_drop bytes_zeros bytes_insert : nfc.

Lemma sub_app_mid {A} (a s b : list A) off n :
  off = len a → n = len s → sub (a ++ s ++ b) off n = Some s.
Proof.
  intros -> ->. rewrite sub_ok by llia. unfold len. rewrite !Nat2Z.id.
  by rewrite drop_app_length, take_app_length.
Qed.

Lemma sub_prefix {A} (s b : list A) n : n = len s → sub (s ++ b) 0 n = Some s.
Proof. intros ->. by apply (sub_app_mid []). Qed.

Lemma sub_whole {A} (l : list A) n : len l = n → sub l 0 n = Some l.
Proof. intros <-. rewrite <-(app_nil_r l) at 1. by apply sub_prefix. Qed.

Lemma memcmp_whole a b n : len a = n → len b = n → memcmp_eq a 0 b 0 n = Some (bool_decide (a = b)).
Proof. intros Ha Hb. unfold memcmp_eq. by rewrite !sub_whole. Qed.

Lemma blit_ok {A} (dst : list A) off src :
  0 <= off → off + len src <= len dst →
  blit dst off src =
    Some (take (Z.to_nat off) dst ++ src ++ drop (Z.to_nat (off + len src)) dst).
Proof.
  intros. unfold blit. by rewrite (proj2 (Z.leb_le 0 off)),
    (proj2 (Z.leb_le (off + len src) (len dst))) by lia.
Qed.

Lemma blit_Some_inv {A} (dst : list A) off src r :
  blit dst off src = Some r →
  0 <= off ∧ off + len src <= len dst ∧
  r = take (Z.to_nat off) dst ++ src ++ drop (Z.to_nat (off + len src)) dst.
Proof. unfold blit. case_bool; [|done]. bool_prop. intros [= <-]. eauto. Qed.

Lemma blit_len {A} (dst : list A) off src r : blit dst off src = Some r → len r = len dst.
Proof.
  intros (?&?&->)%blit_Some_inv. autorewrite with len. pose proof (len_nonneg src). lia.
Qed.

(** Overwriting the middle of a split object. *)
Lemma blit_app_mid {A} (a s b t : list A) off :
  off = len a → len s = len t → blit (a ++ s ++ b) off t = Some (a ++ t ++ b).
Proof.
  intros -> Hs. rewrite blit_ok by llia. do 2 f_equal.
  - unfold len. by rewrite Nat2Z.id, take_app_length.
  - f_equal. rewrite <-Hs. unfold len. rewrite <-Nat2Z.inj_add, Nat2Z.id.
    rewrite <-length_app, (assoc_L (++)). by rewrite drop_app_length.
Qed.

(** What was stored is what is read back, and the rest is untouched. *)
Lemma sub_blit {A} (dst : list A) off src r :
  blit dst off src = Some r → sub r off (len src) = Some src.
Proof.
  intros (?&?&->)%blit_Some_inv. apply sub_app_mid; [|done].
  autorewrite with len. pose proof (len_nonneg src). lia.
Qed.

Lemma blit_bytes dst off src r : bytes dst → bytes src → blit dst off src = Some r → bytes r.
Proof.
  intros ? ? (?&?&->)%blit_Some_inv. rewrite !bytes_app. auto with nfc.
Qed.

Lemma memcpy_ok dst doff src soff n :
  0 <= soff → 0 <= n → soff + n <= len src →
  memcpy dst doff src soff n = blit dst doff (take (Z.to_nat n) (drop (Z.to_nat soff) src)).
Proof. intros. unfold memcpy. by rewrite sub_ok. Qed.

Lemma memcpy_prefix dst doff src n :
  0 <= n <= len src → memcpy dst doff src 0 n = blit dst doff (take (Z.to_nat n) src).
Proof. intros. rewrite memcpy_ok by lia. by rewrite drop_0. Qed.

(** A copy inside both objects. *)
Lemma memcpy_fits dst doff src soff n :
  0 <= doff → 0 <= soff → 0 <= n → doff + n <= len dst → soff + n <= len src →
  ∃ r, memcpy dst doff src soff n = Some r ∧ len r = len dst ∧ (bytes dst → bytes src → bytes r).
Proof.
  intros Hd Hs Hn Hdl Hsl. set (t := take (Z.to_nat n) (drop (Z.to_nat soff) src)).
  assert (len t = n) as Ht by (unfold t; llia).
  assert (blit dst doff t = Some (take (Z.to_nat doff) dst ++ t ++ drop (Z.to_nat (doff + len t)) dst)) as Hb
    by (apply blit_ok; lia).
  rewrite memcpy_ok by done. eexists. split; [exact Hb|]. split; [by apply (blit_len _ _ _ _ Hb)|].
  intros Bd Bs. apply (blit_bytes dst doff t _ Bd); [|done]. by apply bytes_take, bytes_drop.
Qed.

Lemma memcpy_all dst doff src n : n = len src → memcpy dst doff src 0 n = blit dst doff src.
Proof.
  intros ->. pose proof (len_nonneg src). rewrite memcpy_prefix by lia.
  rewrite take_ge; [done|llia].
Qed.

(** A copy over the whole object. *)
Lemma memcpy_over (dst src : list Z) n : len dst = n → len src = n → memcpy dst 0 src 0 n = Some src.
Proof.
  intros Hd Hs. rewrite memcpy_all by done. rewrite <-(app_nil_r dst).
  rewrite (blit_app_mid [] dst [] src) by (done || lia). by rewrite app_nil_r.
Qed.

(** A whole array filled from the middle of another. *)
Lemma memcpy_field dst src off n l : sub src off n = Some l → len dst = n → memcpy dst 0 src off n = Some l.
Proof.
  intros Hsub Hd. pose proof (sub_len _ _ _ _ Hsub) as Hl. unfold memcpy. rewrite Hsub. mred.
  rewrite <-(app_nil_r dst). rewrite (blit_app_mid [] dst [] l) by (done || lia). cbn [app]. by rewrite app_nil_r.
Qed.

(** An object cut in two. *)
Lemma len_split {A} (l : list A) n : 0 <= n <= len l → ∃ s l', l = s ++ l' ∧ len s = n.
Proof.
  intros Hn. exists (take (Z.to_nat n) l), (drop (Z.to_nat n) l).
  rewrite take_drop. split; [done|llia].
Qed.

Lemma len_split_cons {A} (l : list A) : 1 <= len l → ∃ a l', l = a :: l'.
Proof. destruct l as [|a l]; [rewrite len_nil; lia|eauto]. Qed.

(** A buffer that begins with [bs]: what storing and copying piece by piece leaves. *)
Definition over (bs out : list Z) : list Z := bs ++ drop (length bs) out.

Lemma put_exact out bs v : len bs < len out → st (over bs out) (len bs) v = Some (over (bs ++ [v]) out).
Proof.
  intros Hl. unfold over. rewrite length_app. cbn [length].
  destruct (drop (length bs) out) as [|x r] eqn:E; [exfalso; apply (f_equal length) in E; rewrite length_drop in E; cbn in E; unfold len in Hl; lia|].
  rewrite st_mid by done. assert (drop (length bs + 1) out = r) as -> by (by rewrite <-drop_drop, E).
  by rewrite <-(assoc_L (++)).
Qed.

Lemma over_nil out : over [] out = out.
Proof. done. Qed.
(** Storing the bytes of a command. *)
Lemma st_first (tx : list Z) a : 1 <= len tx → st tx 0 a = Some (over [a] tx).
Proof. intros Hl. rewrite <-(over_nil tx) at 1. apply (put_exact tx [] a). llia. Qed.
Lemma st_next (tx bs : list Z) a n : n = len bs → len bs < len tx → st (over bs tx) n a = Some (over (bs ++ [a]) tx).
Proof. intros -> Hl. by apply put_exact. Qed.

Lemma over_len bs out : len bs <= len out → len (over bs out) = len out.
Proof. unfold over. llia. Qed.

Lemma sub_over bs out : sub (over bs out) 0 (len bs) = Some bs.
Proof. by apply sub_prefix. Qed.

Lemma copy_exact out bs src n : len bs + n <= len out → 0 <= n <= len src →
  memcpy (over bs out) (len bs) src 0 n = Some (over (bs ++ take (Z.to_nat n) src) out).
Proof.
  intros Hl Hn. pose proof (len_nonneg bs). unfold over.
  set (t := take (Z.to_nat n) src). assert (len t = n) as Ht by (unfold t; llia).
  rewrite memcpy_prefix by done. fold t.
  destruct (len_split (drop (length bs) out) n) as (a & b & E & La); [unfold len in *; rewrite length_drop; lia|].
  rewrite E, (blit_app_mid bs a b t) by lia. rewrite <-(assoc_L (++)). do 3 f_equal.
  rewrite length_app, <-drop_drop, E. rewrite drop_app_length' by (unfold len in *; lia). done.
Qed.

(** Comparing what is stored of two zero-padded objects compares the objects. *)
Lemma memcmp_padded a b k n : 0 <= k <= n → len a = n → len b = n →
  drop (Z.to_nat k) a = zeros (n - k) → drop (Z.to_nat k) b = zeros (n - k) →
  memcmp_eq a 0 b 0 k = Some (bool_decide (a = b)).
Proof.
  intros Hk Ha Hb Hda Hdb. unfold memcmp_eq. rewrite !sub_ok by lia. mred. f_equal.
  change (Z.to_nat 0) with 0%nat. rewrite !drop_0. apply bool_decide_ext. split; [|by intros ->].
  intros Ht. rewrite <-(take_drop (Z.to_nat k) a), <-(take_drop (Z.to_nat k) b). congruence.
Qed.

Lemma memcmp_all a b n : len a = n → len b = n → memcmp_eq a 0 b 0 n = Some (bool_decide (a = b)).
Proof.
  intros Ha Hb. pose proof (len_nonneg a). apply (memcmp_padded _ _ n n); try done; [lia|..];
    by rewrite drop_ge, Z.sub_diag by llia.
Qed.

(** ** Lemmas on C strings *)

Lemma c_str_idemp l : c_str (c_str l) = c_str l.
Proof.
  induction l as [|c l IH]; [done|]. cbn. destruct (c =? 0) eqn:E; [done|].
  cbn. by rewrite E, IH.
Qed.

Lemma c_str_no_nul l : Forall (λ c, c ≠ 0) (c_str l).
Proof.
  induction l as [|c l IH]; [constructor|]. cbn.
  destruct (Z.eqb_spec c 0); by constructor.
Qed.

Lemma c_str_app_nul s r : Forall (λ c, c ≠ 0) s → c_str (s ++ 0 :: r) = s.
Proof.
  induction 1 as [|c s Hc _ IH]; [done|]. cbn.
  destruct (Z.eqb_spec c 0); [done|]. by rewrite IH.
Qed.

(** A bounded copy that has room for the string and its NUL keeps the string. *)
Lemma strncpy_c_str dst src n :
  0 <= n → n < len dst → strlen src <= n → ∃ r, strncpy dst src n = Some r ∧ len r = len dst ∧
    ∀ r', st r n 0 = Some r' → c_str r' = c_str src.
Proof.
  intros H0 Hn Hs. unfold strncpy, strlen in *.
  assert (take (Z.to_nat n) (c_str src) = c_str src) as -> by (apply take_ge; llia).
  rewrite blit_ok by llia. eexists; split; [done|].
  split; [llia|]. cbn [Z.to_nat take app].
  set (k := (Z.to_nat n - length (c_str src))%nat).
  intros r'. rewrite st_ok by (subst k; llia). intros [= <-].
  replace (Z.to_nat n) with (length (c_str src ++ replicate k 0%Z) + 0)%nat
    by (rewrite length_app, length_replicate; subst k; llia).
  rewrite insert_app_r, <-(assoc_L (++)).
  destruct (drop _ dst) as [|d ds] eqn:E.
  { apply (f_equal length) in E. rewrite length_drop in E. cbn in E. subst k. llia. }
  cbn [insert list_insert]. clearbody k. destruct k; cbn [replicate app];
    apply c_str_app_nul, c_str_no_nul.
Qed.

(** An array of which the first [i] elements are those of [l] and the others those of [b]. *)
Definition mix {A} (i : Z) (l b : list A) : list A := take (Z.to_nat i) l ++ drop (Z.to_nat i) b.

Section Mix.
Context {A : Type} (l b : list A) (Hlb : length l = length b).

Lemma mix_lookup i : 0 <= i → ld (mix i l b) i = ld b i.
Proof.
  intros Hi. unfold mix, ld. rewrite (proj2 (Z.leb_le _ _)) by done.
  destruct (decide (Z.to_nat i < length l)%nat).
  - rewrite lookup_app_r by (rewrite length_take; lia). rewrite lookup_drop, length_take. f_equal. lia.
  - rewrite !lookup_ge_None_2 by (rewrite ?length_app, ?length_take, ?length_drop; lia). done.
Qed.

Lemma mix_step i x : 0 <= i → ld l i = Some x → st (mix i l b) i x = Some (mix (i + 1) l b).
Proof.
  intros Hi [Hin Hx]%ld_Some_inv. destruct (lookup_lt_is_Some_2 b (Z.to_nat i)) as [y Hy]; [unfold len in Hin; lia|].
  unfold mix. rewrite (drop_S b y) by done. rewrite st_mid by (rewrite len_take; lia).
  replace (Z.to_nat (i + 1)) with (S (Z.to_nat i)) by lia. rewrite (take_S_r l _ x) by done. by rewrite <-(assoc_L (++)).
Qed.

Lemma mix_all i : len l <= i → mix i l b = l.
Proof. intros Hi. unfold mix, len in *. rewrite take_ge, drop_ge by lia. apply app_nil_r. Qed.

(** A copy of the next elements. *)
Lemma blit_mix i n : 0 <= i → 0 <= n → i + n <= len l →
  blit (mix i l b) i (take (Z.to_nat n) (drop (Z.to_nat i) l)) = Some (mix (i + n) l b).
Proof.
  intros Hi Hn Hl. unfold len in Hl. unfold mix. rewrite <-(take_drop (Z.to_nat n) (drop (Z.to_nat i) b)).
  rewrite blit_app_mid by (unfold len; rewrite ?length_take, ?length_drop; lia).
  rewrite (assoc_L (++)). f_equal. f_equal.
  - rewrite <-(take_drop (Z.to_nat i) (take (Z.to_nat (i + n)) l)), take_take, Nat.min_l by lia. f_equal.
    rewrite take_drop_commute. f_equal. f_equal. lia.
  - rewrite drop_drop. f_equal. lia.
Qed.
End Mix.

(** [ld_case i x]: the access at [i] in the goal is inside its object; [x] is what it reads. *)
Ltac ld_case i x :=
  match goal with
  | |- context [ld ?l i] =>
      let H := fresh "Hld" in
      destruct (ld_Some l i) as [x H]; [|rewrite H; mred]
  end.

(** [inv_bytes]: the elements of explicit byte strings in the context are bytes. *)
Ltac inv_bytes :=
  unfold bytes in *;
  repeat match goal with
  | H : Forall is_byte (_ :: _) |- _ => apply Forall_cons_iff in H as [? H]
  | H : Forall is_byte (_ ++ _) |- _ => apply Forall_app in H as [? H]
  end.

(** [bytes_list]: an explicit list is made of bytes. *)
Ltac bytes_list :=
  unfold bytes;
  repeat first
    [ apply Forall_nil_2
    | apply Forall_cons_2; [first [assumption | apply u8_range | unfold is_byte; lia | by split; vm_compute]|] ].
