(* ===== verification/Kconfig.v ===== *)
(** * Build configuration ([Kconfig] files of the stack)

    The options the modelled code reads.  The development is parametric in them; what it uses
    of their values is the [range] each option declares. *)

From stdpp Require Import base numbers.
From S2P Require Import Prelude.

Class Kconfig := {
  CONFIG_NFC_APDU_EXTENDED_SUPPORT : bool;
  CONFIG_NFC_ROUTER_MAX_AIDS : Z;
  CONFIG_NFC_STORE : bool;
  CONFIG_NFC_STORE_BLOB_SIZE : Z;
  CONFIG_NFC_STORE_MAX_TAG_LEN : Z;
  CONFIG_NFC_STORE_RAM : bool;
  CONFIG_NFC_STORE_RAM_SLOT_COUNT : Z;
  CONFIG_NFC_NDEF_MAX_SIZE : Z;
  CONFIG_NFC_ULTRALIGHT_MAX_PAGES : Z;
  CONFIG_NFC_CLASSIC_BLOCK_COUNT : Z;
  CONFIG_NFC_EMV_MAX_RECORDS : Z;
  CONFIG_NFC_EMV_RECORD_SIZE : Z;
  CONFIG_NFC_ALIRO_MAX_TRANSCRIPT : Z;
  CONFIG_NFC_DESFIRE_MAX_APPS : Z;
  CONFIG_NFC_DESFIRE_MAX_FILES_PER_APP : Z;
  CONFIG_NFC_DESFIRE_MAX_FILE_SIZE : Z;
  CONFIG_NFC_DESFIRE_FREE_MEMORY : Z;
  CONFIG_NFC_ROLE_LISTEN : bool;
  CONFIG_NFC_LISTEN_STACK : bool;
  CONFIG_NFC_STACK_DEFAULT_PROFILE : Z;
  CONFIG_NFC_PROTOCOL_NDEF : bool;
  CONFIG_NFC_PROTOCOL_DESFIRE : bool;
  CONFIG_NFC_PROTOCOL_EMV : bool;
  CONFIG_NFC_PROTOCOL_ALIRO : bool;
  CONFIG_NFC_ALIRO_PROTOCOL_VERIFIED : bool;
  CONFIG_NFC_PROTOCOL_ULTRALIGHT : bool;
  CONFIG_NFC_PROTOCOL_CLASSIC : bool;
  CONFIG_NFC_PROTOCOL_FELICA : bool;
  CONFIG_NFC_PROTOCOL_ISO15693_3 : bool;
  CONFIG_NFC_PROTOCOL_SLIX : bool;
}.

(** The [range] lines of the options. *)
Class KconfigRanges `{Kconfig} : Prop := {
  max_aids_range : 1 <= CONFIG_NFC_ROUTER_MAX_AIDS <= 32;
  blob_size_range : 512 <= CONFIG_NFC_STORE_BLOB_SIZE <= 16384;
  max_tag_len_range : 8 <= CONFIG_NFC_STORE_MAX_TAG_LEN <= 32;
  slot_count_range : 1 <= CONFIG_NFC_STORE_RAM_SLOT_COUNT <= 16;
  ndef_max_size_range : 1 <= CONFIG_NFC_NDEF_MAX_SIZE <= 4096;
  ultralight_max_pages_range : 16 <= CONFIG_NFC_ULTRALIGHT_MAX_PAGES <= 256;
  classic_block_count_range : 64 <= CONFIG_NFC_CLASSIC_BLOCK_COUNT <= 256;
  emv_max_records_range : 1 <= CONFIG_NFC_EMV_MAX_RECORDS <= 4;
  emv_record_size_range : 32 <= CONFIG_NFC_EMV_RECORD_SIZE <= 128;
  aliro_max_transcript_range : 128 <= CONFIG_NFC_ALIRO_MAX_TRANSCRIPT <= 1024;
  desfire_max_apps_range : 1 <= CONFIG_NFC_DESFIRE_MAX_APPS <= 4;
  desfire_max_files_range : 1 <= CONFIG_NFC_DESFIRE_MAX_FILES_PER_APP <= 8;
  desfire_max_file_size_range : 16 <= CONFIG_NFC_DESFIRE_MAX_FILE_SIZE <= 256;
  desfire_free_memory_range : 0 <= CONFIG_NFC_DESFIRE_FREE_MEMORY <= 65535;
}.

(** The size of a response buffer, which every profile shares ([src/nfc/hal/nfc_transport.h]). *)
Definition NFC_TRANSPORT_MAX_RESPONSE_LEN : Z := 255.

(** The card-emulation profile with the options at their defaults. *)
Definition card_emulation_config : Kconfig := {|
  CONFIG_NFC_APDU_EXTENDED_SUPPORT := false;
  CONFIG_NFC_ROUTER_MAX_AIDS := 8;
  CONFIG_NFC_STORE := true;
  CONFIG_NFC_STORE_BLOB_SIZE := 4096;
  CONFIG_NFC_STORE_MAX_TAG_LEN := 16;
  CONFIG_NFC_STORE_RAM := true;
  CONFIG_NFC_STORE_RAM_SLOT_COUNT := 4;
  CONFIG_NFC_NDEF_MAX_SIZE := 500;
  CONFIG_NFC_ULTRALIGHT_MAX_PAGES := 256;
  CONFIG_NFC_CLASSIC_BLOCK_COUNT := 256;
  CONFIG_NFC_EMV_MAX_RECORDS := 2;
  CONFIG_NFC_EMV_RECORD_SIZE := 64;
  CONFIG_NFC_ALIRO_MAX_TRANSCRIPT := 512;
  CONFIG_NFC_DESFIRE_MAX_APPS := 4;
  CONFIG_NFC_DESFIRE_MAX_FILES_PER_APP := 8;
  CONFIG_NFC_DESFIRE_MAX_FILE_SIZE := 256;
  CONFIG_NFC_DESFIRE_FREE_MEMORY := 7520;
  CONFIG_NFC_ROLE_LISTEN := true;
  CONFIG_NFC_LISTEN_STACK := true;
  CONFIG_NFC_STACK_DEFAULT_PROFILE := 1;
  CONFIG_NFC_PROTOCOL_NDEF := true;
  CONFIG_NFC_PROTOCOL_DESFIRE := true;
  CONFIG_NFC_PROTOCOL_EMV := true;
  CONFIG_NFC_PROTOCOL_ALIRO := true;
  CONFIG_NFC_ALIRO_PROTOCOL_VERIFIED := false;
  CONFIG_NFC_PROTOCOL_ULTRALIGHT := true;
  CONFIG_NFC_PROTOCOL_CLASSIC := false;
  CONFIG_NFC_PROTOCOL_FELICA := false;
  CONFIG_NFC_PROTOCOL_ISO15693_3 := false;
  CONFIG_NFC_PROTOCOL_SLIX := false;
|}.

Lemma card_emulation_ranges : @KconfigRanges card_emulation_config.
Proof. constructor; cbn; lia. Qed.
