(* ===== verification/Transport.v ===== *)
(** * The transport's interface ([src/nfc/hal/nfc_transport.h])

    The data the transport and its callers exchange: identifiers of cards and tags, technologies,
    the state of the controller.  Its calls are those of the classes [Platform] (listening, in
    [World]) and [PollTransport] (reading, in [Reader]). *)

From stdpp Require Import base list numbers option.
From S2P Require Import Prelude.

(** [nfc_uid_t] *)
Record nfc_uid_t := { uid_bytes : list Z; uid_len : Z }.

Definition NFC_UID_LEN_SINGLE : Z := 4.
Definition NFC_UID_LEN_DOUBLE : Z := 7.
Definition NFC_UID_LEN_TRIPLE : Z := 10.

(** The technologies, one bit each. *)
Definition NFC_TECH_ISO_DEP_A : Z := 1.
Definition NFC_TECH_ISO14443_3A_RAW : Z := 2.
Definition NFC_TECH_ISO14443_3B_RAW : Z := 4.
Definition NFC_TECH_TYPE2 : Z := 8.
Definition NFC_TECH_TYPE3_FELICA : Z := 16.
Definition NFC_TECH_ISO15693 : Z := 32.
Definition NFC_TECH_ALL_READER : Z :=
  Z.lor NFC_TECH_ISO_DEP_A (Z.lor NFC_TECH_ISO14443_3A_RAW (Z.lor NFC_TECH_ISO14443_3B_RAW
    (Z.lor NFC_TECH_TYPE2 (Z.lor NFC_TECH_TYPE3_FELICA NFC_TECH_ISO15693)))).

Inductive nfc_transport_state_t :=
  | NFC_TRANSPORT_STATE_UNINITIALIZED
  | NFC_TRANSPORT_STATE_INITIALIZED
  | NFC_TRANSPORT_STATE_STARTED
  | NFC_TRANSPORT_STATE_STOPPED.
#[global] Instance nfc_transport_state_eq_dec : EqDecision nfc_transport_state_t.
Proof. solve_decision. Defined.

(** [nfc_transport_tag_info_t] *)
Record nfc_transport_tag_info_t := {
  ti_uid : nfc_uid_t;
  ti_protocol : Z;
  ti_interface : Z;
  ti_mode_tech : Z;
  ti_valid : bool;
}.

Definition tag_info_zero : nfc_transport_tag_info_t :=
  {| ti_uid := {| uid_bytes := zeros 10; uid_len := 0 |}; ti_protocol := 0; ti_interface := 0;
     ti_mode_tech := 0; ti_valid := false |}.
