(* ===== verification/Stats.v ===== *)
(** * Module statistics ([src/stats.h])

    Every module keeps one statically allocated statistics structure.  A structure is a map
    from its field names (an enumeration) to values, so that the macros, which are applied to
    field names, are written once.  Counters are [uint32_t]; [last_error_code] is [int32_t].
    The spinlock around each update only excludes other writers: in the sequential model the
    macro is its body. *)

From stdpp Require Import base numbers.
From S2P Require Import Prelude.

(** The two fields [STATS_ERROR] requires of a statistics structure. *)
Class StatFields (F : Type) := {
  stat_eq_dec :: EqDecision F;
  error_count : F;
  last_error_code : F;
  stat_fields_ne : error_count ≠ last_error_code;
}.

Section Stats.
Context {F : Type} `{StatFields F}.

Definition stats : Type := F → Z.

Definition set_stat (s : stats) (f : F) (v : Z) : stats :=
  λ g, if decide (g = f) then v else s g.

Definition STATS_INC (s : stats) (f : F) : stats := set_stat s f (u32 (s f + 1)).
Definition STATS_ADD (s : stats) (f : F) (v : Z) : stats := set_stat s f (u32 (s f + v)).
Definition STATS_DEC (s : stats) (f : F) : stats := set_stat s f (u32 (s f - 1)).
Definition STATS_ERROR (s : stats) (code : Z) : stats :=
  set_stat (STATS_INC s error_count) last_error_code (i32 code).
Definition STATS_RESET : stats := λ _, 0.

(** [stats_copy_out]: the destination is [None] for a NULL pointer. *)
Definition stats_copy_out (src : stats) (dst : option stats) : Z * option stats :=
  match dst with
  | None => (- EINVAL, None)
  | Some _ => (0, Some src)
  end.

Lemma STATS_INC_same s f : STATS_INC s f f = u32 (s f + 1).
Proof. unfold STATS_INC, set_stat. by rewrite decide_True. Qed.

Lemma STATS_INC_other s f g : g ≠ f → STATS_INC s f g = s g.
Proof. intros. unfold STATS_INC, set_stat. by rewrite decide_False. Qed.

Lemma STATS_ERROR_count s code : STATS_ERROR s code error_count = u32 (s error_count + 1).
Proof.
  unfold STATS_ERROR, set_stat. rewrite decide_False by apply stat_fields_ne.
  apply STATS_INC_same.
Qed.

Lemma STATS_ERROR_code s code : STATS_ERROR s code last_error_code = i32 code.
Proof. unfold STATS_ERROR, set_stat. by rewrite decide_True. Qed.

Lemma STATS_ERROR_other s code g :
  g ≠ error_count → g ≠ last_error_code → STATS_ERROR s code g = s g.
Proof.
  intros. unfold STATS_ERROR, set_stat at 1. rewrite decide_False by done.
  by apply STATS_INC_other.
Qed.
End Stats.
Arguments stats : clear implicits.
