(* ===== verification/Apdu.v ===== *)
(** * Command APDUs ([src/nfc/framing/apdu_types.h], [apdu_parse] of [apdu_assembler.c])

    The parsed view of a C-APDU, the parser, and its specification: the ISO 7816-4 encodings
    the stack accepts. *)

From stdpp Require Import base list numbers option.
From S2P Require Import Prelude.

(** ** Constants *)

Definition NFC_SW_OK : Z := 0x9000.
Definition NFC_SW_WRONG_LENGTH : Z := 0x6700.
Definition NFC_SW_CLA_NOT_SUPPORTED : Z := 0x6E00.
Definition NFC_SW_INS_NOT_SUPPORTED : Z := 0x6D00.
Definition NFC_SW_WRONG_P1P2 : Z := 0x6A86.
Definition NFC_SW_FILE_NOT_FOUND : Z := 0x6A82.
Definition NFC_SW_WRONG_OFFSET : Z := 0x6B00.
Definition NFC_SW_NO_EF : Z := 0x6986.
Definition NFC_SW_CONDITIONS_NOT_SAT : Z := 0x6985.

Definition NFC_CLA_ISO7816 : Z := 0x00.
Definition NFC_INS_SELECT : Z := 0xA4.
Definition NFC_INS_READ_BINARY : Z := 0xB0.
Definition NFC_INS_UPDATE_BINARY : Z := 0xD6.
Definition NFC_SELECT_P1_BY_FILE_ID : Z := 0x00.
Definition NFC_SELECT_P1_BY_AID : Z := 0x04.
Definition NFC_AID_MAX_LEN : Z := 16.

(** ** The parsed view *)

(** [data] points into the receive buffer: the bytes from there to its end. *)
Record nfc_apdu_t := {
  cla : Z; ins : Z; p1 : Z; p2 : Z;
  data : option (list Z);
  lc : Z; le : Z;
  has_le : bool; extended : bool;
}.

(** [nfc_apdu_t parsed = { 0 };] *)
Definition apdu_zero : nfc_apdu_t :=
  {| cla := 0; ins := 0; p1 := 0; p2 := 0; data := None; lc := 0; le := 0;
     has_le := false; extended := false |}.

Inductive apdu_parse_result_t :=
  | APDU_PARSE_OK
  | APDU_PARSE_REJECT_TOO_SHORT
  | APDU_PARSE_REJECT_LENGTH_MISMATCH
  | APDU_PARSE_REJECT_EXTENDED_DISABLED.

#[global] Instance apdu_parse_result_eq_dec : EqDecision apdu_parse_result_t.
Proof. solve_decision. Defined.

(** A SELECT by name. *)
Definition selects (a : nfc_apdu_t) : bool := (cla a =? 0x00) && (ins a =? 0xA4) && (p1 a =? 0x04).
(** A status word on the wire. *)
Definition sw_bytes (sw : Z) : list Z := [hi8 sw; lo8 sw].

(** ** The parser *)

(** [apdu_parse(data, len, extended_ok, out)]: the result and the object [out] points to
    afterwards; [None] for a pointer is NULL. *)
Definition apdu_parse (data : option (list Z)) (dlen : Z) (extended_ok : bool)
    (out : option nfc_apdu_t) : option (apdu_parse_result_t * option nfc_apdu_t) :=
  match data, out with
  | None, _ | _, None => Some (APDU_PARSE_REJECT_TOO_SHORT, out)
  | Some data, Some _ =>
    if dlen <? 4 then Some (APDU_PARSE_REJECT_TOO_SHORT, out) else
    d0 ← ld data 0; d1 ← ld data 1; d2 ← ld data 2; d3 ← ld data 3;
    let out := {| cla := d0; ins := d1; p1 := d2; p2 := d3; data := None; lc := 0; le := 0;
                  has_le := false; extended := false |} in
    if dlen =? 4 then Some (APDU_PARSE_OK, Some out) else
    d4 ← ld data 4;
    if dlen =? 5 then
      Some (APDU_PARSE_OK,
            Some {| cla := d0; ins := d1; p1 := d2; p2 := d3; data := None; lc := 0;
                    le := d4; has_le := true; extended := false |})
    else if negb (d4 =? 0) then
      let lc_s := d4 in
      if dlen =? 5 + lc_s then
        Some (APDU_PARSE_OK,
              Some {| cla := d0; ins := d1; p1 := d2; p2 := d3; data := Some (drop 5 data);
                      lc := lc_s; le := 0; has_le := false; extended := false |})
      else if dlen =? 6 + lc_s then
        dle ← ld data (5 + lc_s);
        Some (APDU_PARSE_OK,
              Some {| cla := d0; ins := d1; p1 := d2; p2 := d3; data := Some (drop 5 data);
                      lc := lc_s; le := dle; has_le := true; extended := false |})
      else Some (APDU_PARSE_REJECT_LENGTH_MISMATCH, Some out)
    else if negb extended_ok then Some (APDU_PARSE_REJECT_EXTENDED_DISABLED, Some out)
    else if dlen =? 7 then
      d5 ← ld data 5; d6 ← ld data 6;
      Some (APDU_PARSE_OK,
            Some {| cla := d0; ins := d1; p1 := d2; p2 := d3; data := None; lc := 0;
                    le := be16 d5 d6; has_le := true; extended := true |})
    else Some (APDU_PARSE_REJECT_LENGTH_MISMATCH, Some out)
  end.

(** ** Specification: the accepted encodings *)

(** The body of a command: ISO 7816-4 cases 1, 2S, 3S, 4S and 2E. *)
Inductive apdu_body :=
  | Case1
  | Case2S (ne : Z)
  | Case3S (payload : list Z)
  | Case4S (payload : list Z) (ne : Z)
  | Case2E (ne : Z).

Record command := { c_cla : Z; c_ins : Z; c_p1 : Z; c_p2 : Z; c_body : apdu_body }.

Definition encode_body (b : apdu_body) : list Z :=
  match b with
  | Case1 => []
  | Case2S n => [n]
  | Case3S d => len d :: d
  | Case4S d n => len d :: d ++ [n]
  | Case2E n => [0; n / 256; n mod 256]
  end.

Definition encode (c : command) : list Z :=
  [c_cla c; c_ins c; c_p1 c; c_p2 c] ++ encode_body (c_body c).

Definition payload_ok (d : list Z) : Prop := bytes d ∧ 1 <= len d <= 255.

Definition body_ok (b : apdu_body) : Prop :=
  match b with
  | Case1 => True
  | Case2S n => is_byte n
  | Case3S d => payload_ok d
  | Case4S d n => payload_ok d ∧ is_byte n
  | Case2E n => 0 <= n < 65536
  end.

Definition command_ok (c : command) : Prop :=
  is_byte (c_cla c) ∧ is_byte (c_ins c) ∧ is_byte (c_p1 c) ∧ is_byte (c_p2 c) ∧
  body_ok (c_body c).

Definition is_extended (c : command) : bool :=
  match c_body c with Case2E _ => true | _ => false end.

(** The command a parsed view denotes. *)
Definition denote_body (a : nfc_apdu_t) : apdu_body :=
  match data a, has_le a, extended a with
  | None, true, true => Case2E (le a)
  | None, true, false => Case2S (le a)
  | None, false, _ => Case1
  | Some d, true, _ => Case4S (take (Z.to_nat (lc a)) d) (le a)
  | Some d, false, _ => Case3S (take (Z.to_nat (lc a)) d)
  end.

Definition denote (a : nfc_apdu_t) : command :=
  {| c_cla := cla a; c_ins := ins a; c_p1 := p1 a; c_p2 := p2 a; c_body := denote_body a |}.

(** What the handlers may rely on: [lc] bytes are readable at [data], and the widths. *)
Definition apdu_ok (a : nfc_apdu_t) : Prop :=
  is_byte (cla a) ∧ is_byte (ins a) ∧ is_byte (p1 a) ∧ is_byte (p2 a) ∧
  0 <= lc a <= 255 ∧ 0 <= le a < 65536 ∧
  match data a with
  | None => lc a = 0
  | Some d => bytes d ∧ 1 <= lc a <= len d
  end.

(** ** Correctness *)

Section Parse.
Context (ext : bool) (o : nfc_apdu_t).

Definition parse (b : list Z) := apdu_parse (Some b) (len b) ext (Some o).

(** The parser on a buffer of at least six bytes, by the length byte. *)
Lemma parse_long d0 d1 d2 d3 d4 d5 (r : list Z) :
  let b := d0 :: d1 :: d2 :: d3 :: d4 :: d5 :: r in
  parse b =
    if negb (d4 =? 0) then
      if len b =? 5 + d4 then
        Some (APDU_PARSE_OK, Some {| cla := d0; ins := d1; p1 := d2; p2 := d3;
          data := Some (d5 :: r); lc := d4; le := 0; has_le := false; extended := false |})
      else if len b =? 6 + d4 then
        dle ← ld b (5 + d4);
        Some (APDU_PARSE_OK, Some {| cla := d0; ins := d1; p1 := d2; p2 := d3;
          data := Some (d5 :: r); lc := d4; le := dle; has_le := true; extended := false |})
      else Some (APDU_PARSE_REJECT_LENGTH_MISMATCH, Some {| cla := d0; ins := d1; p1 := d2;
          p2 := d3; data := None; lc := 0; le := 0; has_le := false; extended := false |})
    else if negb ext then Some (APDU_PARSE_REJECT_EXTENDED_DISABLED, Some {| cla := d0;
          ins := d1; p1 := d2; p2 := d3; data := None; lc := 0; le := 0; has_le := false;
          extended := false |})
    else if len b =? 7 then
      d6 ← ld b 6;
      Some (APDU_PARSE_OK, Some {| cla := d0; ins := d1; p1 := d2; p2 := d3; data := None;
          lc := 0; le := be16 d5 d6; has_le := true; extended := true |})
    else Some (APDU_PARSE_REJECT_LENGTH_MISMATCH, Some {| cla := d0; ins := d1; p1 := d2;
          p2 := d3; data := None; lc := 0; le := 0; has_le := false; extended := false |}).
Proof.
  intros b. unfold parse, apdu_parse.
  assert (6 <= len b) by (subst b; llia).
  rewrite (proj2 (Z.ltb_ge _ _)), (proj2 (Z.eqb_neq (len b) 4)),
    (proj2 (Z.eqb_neq (len b) 5)) by lia.
  done.
Qed.

(** Every branch stays inside the buffer. *)
Lemma parse_total b : bytes b → ∃ r a, parse b = Some (r, Some a).
Proof.
  intros Hb. destruct b as [|d0 [|d1 [|d2 [|d3 [|d4 [|d5 b]]]]]]; try (eexists _, _; reflexivity).
  rewrite parse_long. unfold bytes in Hb. rewrite !Forall_cons_iff in Hb.
  destruct Hb as (?&?&?&?&[? ?]&?&_). repeat case_bool; bool_prop; eauto.
  - ld_case (5 + d4) x; [lia|eauto].
  - ld_case 6 x; [lia|eauto].
Qed.

(** An accepted buffer is the encoding of the command its view denotes. *)
Lemma parse_sound b a : bytes b → parse b = Some (APDU_PARSE_OK, Some a) →
  command_ok (denote a) ∧ b = encode (denote a) ∧ apdu_ok a ∧
  (is_extended (denote a) = true → ext = true).
Proof.
  intros Hb. destruct b as [|d0 [|d1 [|d2 [|d3 [|d4 [|d5 r]]]]]]; try done;
    [..|rewrite parse_long]; unfold bytes in Hb; rewrite !Forall_cons_iff in Hb;
    destruct_and!.
  - intros [= <-]. unfold command_ok, apdu_ok. cbn. split_and!; try lia; done.
  - intros [= <-]. unfold command_ok, apdu_ok, is_byte in *. cbn. split_and!; try lia; done.
  - assert (bytes (d5 :: r)) as Hd by (by apply Forall_cons_iff).
    repeat case_bool; try done; bool_prop; rewrite !len_cons in *;
      [intros [= <-]|destruct (ld _ _) as [x|] eqn:Hx; [|done]; intros [= <-]..].
    + assert (take (Z.to_nat d4) (d5 :: r) = d5 :: r) as Ht by (apply take_ge; cbn; llia).
      unfold command_ok, apdu_ok, encode, is_byte in *. cbn -[take].
      rewrite Ht. cbn [app]. unfold payload_ok. rewrite !len_cons.
      split_and!; try done; try lia. do 4 f_equal. f_equal. lia.
    + apply ld_Some_inv in Hx as [_ Hx].
      replace (Z.to_nat (5 + d4)) with (5 + Z.to_nat d4)%nat in Hx
        by (unfold is_byte in *; lia). cbn [lookup list_lookup Nat.add] in Hx.
      assert (is_byte x) by exact (Forall_lookup_1 _ _ _ _ Hd Hx).
      assert (d5 :: r = take (Z.to_nat d4) (d5 :: r) ++ [x]) as Ht.
      { rewrite <-take_S_r by done. symmetry. apply take_ge. cbn. llia. }
      assert (len (take (Z.to_nat d4) (d5 :: r)) = d4) as Hl
        by (unfold is_byte in *; llia).
      unfold command_ok, apdu_ok, encode, is_byte in *. cbn -[take].
      unfold payload_ok. rewrite Hl, len_cons.
      split_and!; try done; try lia; [by apply bytes_take|].
      rewrite <-Ht. done.
    + destruct r as [|y [|z r]]; rewrite ?len_cons, ?len_nil in *;
        [lia| |pose proof (len_nonneg r); lia].
      apply ld_Some_inv in Hx as [_ [= ->]]. subst d4.
      assert (is_byte x) by (by rewrite !Forall_cons_iff in *; destruct_and!).
      unfold command_ok, apdu_ok, encode. cbn. rewrite be16_eq by done.
      unfold is_byte in *. split_and!; try lia; try done.
      do 5 f_equal. repeat f_equal; dlia.
Qed.

(** Every encoding the configuration admits is accepted, as itself. *)
Lemma parse_complete c : command_ok c → (is_extended c = true → ext = true) →
  ∃ a, parse (encode c) = Some (APDU_PARSE_OK, Some a) ∧ denote a = c.
Proof.
  destruct c as [c0 c1 c2 c3 [|n|d|d n|n]]; intros (?&?&?&?&Hok) Hext; cbn in Hok.
  - eexists; split; reflexivity.
  - eexists; split; reflexivity.
  - destruct Hok as [Hd Hl]. destruct d as [|x d]; [rewrite len_nil in Hl; lia|].
    pose proof (len_nonneg d).
    cbn [encode encode_body c_cla c_ins c_p1 c_p2 c_body app]. rewrite parse_long.
    rewrite (proj2 (Z.eqb_neq (len (x :: d)) 0)), (proj2 (Z.eqb_eq _ (5 + _)))
      by (rewrite ?len_cons; lia).
    eexists; split; [done|]. unfold denote. cbn -[take len].
    rewrite take_ge by llia. done.
  - destruct Hok as [[Hd Hl] Hn]. destruct d as [|x d]; [rewrite len_nil in Hl; lia|].
    pose proof (len_nonneg d).
    cbn [encode encode_body c_cla c_ins c_p1 c_p2 c_body app]. rewrite parse_long.
    rewrite (proj2 (Z.eqb_neq (len (x :: d)) 0)), (proj2 (Z.eqb_neq _ (5 + _))),
      (proj2 (Z.eqb_eq _ (6 + _))) by (rewrite ?len_cons, ?len_app, ?len_cons, ?len_nil; lia).
    cbn [negb]. rewrite (ld_eq _ _ n); [| |].
    { cbn [mbind option_bind]. eexists; split; [done|]. unfold denote. cbn -[take len].
      change (x :: d ++ [n]) with ((x :: d) ++ [n]).
      by rewrite take_app_length' by llia. }
    { pose proof (len_nonneg (x :: d)). lia. }
    replace (Z.to_nat (5 + len (x :: d))) with (5 + length (x :: d))%nat by llia.
    cbn [lookup list_lookup Nat.add]. change (x :: d ++ [n]) with ((x :: d) ++ [n]).
    by apply list_lookup_middle.
  - unfold parse. rewrite Hext by done. cbn.
    eexists; split; [done|]. unfold denote. cbn.
    rewrite be16_eq by (unfold is_byte; dlia). do 2 f_equal. dlia.
Qed.
End Parse.

(** C4: The parser accepts exactly the supported encodings and never reads outside the buffer: on
    any bytes it returns a verdict, which is OK if and only if the buffer is the encoding of a
    well-formed command of cases 1, 2S, 3S, 4S or (with extended length enabled) 2E; the view it
    then fills denotes that command, and every byte a handler may read through it is in the
    buffer. *)
Theorem apdu_parse_exact ext o b : bytes b →
  ∃ res a, apdu_parse (Some b) (len b) ext (Some o) = Some (res, Some a) ∧
    (res = APDU_PARSE_OK ↔
       ∃ c, command_ok c ∧ (is_extended c = true → ext = true) ∧ b = encode c) ∧
    (res = APDU_PARSE_OK → b = encode (denote a) ∧ command_ok (denote a) ∧ apdu_ok a).
Proof.
  intros Hb. destruct (parse_total ext o b Hb) as (res & a & Hp). exists res, a.
  split; [exact Hp|]. assert (res = APDU_PARSE_OK → command_ok (denote a) ∧ b = encode (denote a) ∧
    apdu_ok a ∧ (is_extended (denote a) = true → ext = true)) as Hsound.
  { intros ->. by eapply parse_sound. }
  split; [split|].
  - intros Hres. destruct (Hsound Hres) as (?&?&?&?). eauto.
  - intros (c & Hc & Hext & ->). destruct (parse_complete ext o c Hc Hext) as (a' & Hp' & _).
    rewrite Hp in Hp'. by injection Hp'.
  - intros Hres. destruct (Hsound Hres) as (?&?&?&?). eauto.
Qed.

(** Encoding and parsing a command are inverse: parsing the encoding of any well-formed
    command the configuration admits succeeds, and the view denotes the very command that was
    encoded. *)
Theorem apdu_encode_parse ext o c :
  command_ok c → (is_extended c = true → ext = true) →
  ∃ a, apdu_parse (Some (encode c)) (len (encode c)) ext (Some o) = Some (APDU_PARSE_OK, Some a) ∧
    denote a = c.
Proof. apply parse_complete. Qed.
