(* ===== verification/Service.v ===== *)
(** * Services ([src/nfc/router/service.h])

    A protocol is reached through a constant vtable, [nfc_service_t].  The program refers to
    vtables by address only: [svc_ptr] enumerates the vtable objects the listeners define, and
    a NULL pointer is [None]. *)

From stdpp Require Import base list numbers option.
From S2P Require Import Prelude Apdu.

Inductive svc_ptr :=
  | SVC_NDEF
  | SVC_DESFIRE
  | SVC_ULTRALIGHT
  | SVC_ULTRALIGHT_T2
  | SVC_EMV
  | SVC_ALIRO
  | SVC_CLASSIC
  | SVC_FELICA
  | SVC_ISO15693
  | SVC_SLIX.

#[global] Instance svc_ptr_eq_dec : EqDecision svc_ptr.
Proof. solve_decision. Defined.

(** Stable identifiers of the persisted protocols. *)
Definition NFC_PERSIST_ID_NDEF : Z := 0x01.
Definition NFC_PERSIST_ID_DESFIRE : Z := 0x02.
Definition NFC_PERSIST_ID_ULTRALIGHT : Z := 0x03.
Definition NFC_PERSIST_ID_EMV : Z := 0x04.
Definition NFC_PERSIST_ID_ALIRO : Z := 0x05.
Definition NFC_PERSIST_ID_CLASSIC : Z := 0x06.
Definition NFC_PERSIST_ID_FELICA : Z := 0x07.
Definition NFC_PERSIST_ID_ISO15693 : Z := 0x08.
Definition NFC_PERSIST_ID_SLIX : Z := 0x09.
Definition NFC_PERSIST_ID_ST25TB : Z := 0x0A.
Definition NFC_PERSIST_ID_MAX : Z := 0x0A.

(** [serialize(out, out_max, &out_len)]: the return value, the buffer and [*out_len]
    afterwards.  [deserialize(in, in_len)] gets the bytes at [in] to the end of its object. *)
Definition serialize_fn (W : Type) : Type := list Z → Z → Z → M W (Z * list Z * Z).
Definition deserialize_fn (W : Type) : Type := list Z → Z → M W Z.

(** The vtable; a NULL member is [None].  Every [user_ctx] in the program is NULL and unused. *)
Record nfc_service_t (W : Type) := {
  on_select : option (list Z → Z → M W unit);
  on_apdu : option (nfc_apdu_t → M W unit);
  on_tag_cmd : option (list Z → Z → M W unit);
  on_deselect : option (M W unit);
  on_field_off : option (M W unit);
  serialize : option (serialize_fn W);
  deserialize : option (deserialize_fn W);
  persist_id : Z;
}.
Arguments on_select {W} _.
Arguments on_apdu {W} _.
Arguments on_tag_cmd {W} _.
Arguments on_deselect {W} _.
Arguments on_field_off {W} _.
Arguments serialize {W} _.
Arguments deserialize {W} _.
Arguments persist_id {W} _.

(** [nfc_persist_id_name] ([src/nfc/store/nfc_persist_name.c]), the names as an enumeration. *)
Inductive persist_name :=
  | name_ndef | name_desfire | name_ultralight | name_emv | name_aliro | name_classic
  | name_felica | name_iso15693 | name_slix | name_st25tb | name_unknown.

Definition nfc_persist_id_name (persist_id : Z) : persist_name :=
  if persist_id =? NFC_PERSIST_ID_NDEF then name_ndef
  else if persist_id =? NFC_PERSIST_ID_DESFIRE then name_desfire
  else if persist_id =? NFC_PERSIST_ID_ULTRALIGHT then name_ultralight
  else if persist_id =? NFC_PERSIST_ID_EMV then name_emv
  else if persist_id =? NFC_PERSIST_ID_ALIRO then name_aliro
  else if persist_id =? NFC_PERSIST_ID_CLASSIC then name_classic
  else if persist_id =? NFC_PERSIST_ID_FELICA then name_felica
  else if persist_id =? NFC_PERSIST_ID_ISO15693 then name_iso15693
  else if persist_id =? NFC_PERSIST_ID_SLIX then name_slix
  else if persist_id =? NFC_PERSIST_ID_ST25TB then name_st25tb
  else name_unknown.
