(* ===== verification/Router.v ===== *)
(** * AID router, local operations ([src/nfc/router/aid_router.c])

    The static data of the module and the operations that touch nothing else: initialisation,
    shutdown, registration, clearing and table search.  Dispatch, which calls services and the
    transport, is in [Dispatch]. *)

From stdpp Require Import base list numbers option.
From S2P Require Import Prelude Kconfig Stats Apdu Service.

(** [aid_router_stats_t] *)
Inductive router_stat :=
  | rs_error_count | rs_last_error_code | rs_select_matched_count | rs_select_unmatched_count
  | rs_apdu_routed_count | rs_apdu_no_service_count | rs_field_off_count
  | rs_register_table_full_count.

#[global] Instance router_stat_eq_dec : EqDecision router_stat.
Proof. solve_decision. Defined.

#[global] Instance router_stat_fields : StatFields router_stat.
Proof. by refine {| error_count := rs_error_count; last_error_code := rs_last_error_code |}. Defined.

Inductive aid_router_state_t := AID_ROUTER_STATE_UNINITIALIZED | AID_ROUTER_STATE_INITIALIZED.

#[global] Instance aid_router_state_eq_dec : EqDecision aid_router_state_t.
Proof. solve_decision. Defined.

Record aid_router_entry_t := {
  e_aid : list Z;
  e_aid_len : Z;
  e_svc : option svc_ptr;
}.

(** The statics of [aid_router.c]. *)
Record router := {
  r_max_aids : Z;
  r_stats : stats router_stat;
  r_state : aid_router_state_t;
  r_table : list aid_router_entry_t;
  r_table_count : Z;
  r_active_svc : option svc_ptr;
}.

Definition r_with_stats (s : stats router_stat) (r : router) : router :=
  {| r_max_aids := r_max_aids r; r_stats := s; r_state := r_state r; r_table := r_table r;
     r_table_count := r_table_count r; r_active_svc := r_active_svc r |}.

Definition r_with_active (a : option svc_ptr) (r : router) : router :=
  {| r_max_aids := r_max_aids r; r_stats := r_stats r; r_state := r_state r;
     r_table := r_table r; r_table_count := r_table_count r; r_active_svc := a |}.

Definition r_inc (f : router_stat) (r : router) : router :=
  r_with_stats (STATS_INC (r_stats r) f) r.

Definition r_error (code : Z) (r : router) : router :=
  r_with_stats (STATS_ERROR (r_stats r) code) r.

Section Router.
Context `{Kconfig}.

Definition empty_entry : aid_router_entry_t :=
  {| e_aid := zeros NFC_AID_MAX_LEN; e_aid_len := 0; e_svc := None |}.

(** The statics before [main]. *)
Definition router_boot : router :=
  {| r_max_aids := 0; r_stats := STATS_RESET; r_state := AID_ROUTER_STATE_UNINITIALIZED;
     r_table := replicate (Z.to_nat CONFIG_NFC_ROUTER_MAX_AIDS) empty_entry;
     r_table_count := 0; r_active_svc := None |}.

Definition aid_router_init (r : router) : Z * router :=
  if bool_decide (r_state r = AID_ROUTER_STATE_INITIALIZED) then (- EALREADY, r) else
  (0, {| r_max_aids := u8 CONFIG_NFC_ROUTER_MAX_AIDS; r_stats := STATS_RESET;
         r_state := AID_ROUTER_STATE_INITIALIZED; r_table := r_table r;
         r_table_count := 0; r_active_svc := None |}).

Definition aid_router_shutdown (r : router) : Z * router :=
  (0, {| r_max_aids := r_max_aids r; r_stats := r_stats r;
         r_state := AID_ROUTER_STATE_UNINITIALIZED; r_table := r_table r;
         r_table_count := 0; r_active_svc := None |}).

Definition aid_router_clear (r : router) : router :=
  {| r_max_aids := r_max_aids r; r_stats := r_stats r; r_state := r_state r;
     r_table := r_table r; r_table_count := 0; r_active_svc := None |}.

Definition aid_router_register (aid : option (list Z)) (aid_len : Z) (svc : option svc_ptr)
    (r : router) : option (Z * router) :=
  if negb (bool_decide (r_state r = AID_ROUTER_STATE_INITIALIZED)) then Some (- ENODEV, r)
  else match aid, svc with
  | None, _ | _, None => Some (- EINVAL, r)
  | Some aid, Some svc =>
    if (aid_len =? 0) || (NFC_AID_MAX_LEN <? aid_len) then Some (- EINVAL, r)
    else if r_max_aids r <=? r_table_count r then
      Some (- ENOMEM, r_inc rs_register_table_full_count r)
    else
      e ← ld (r_table r) (r_table_count r);
      a ← memcpy (e_aid e) 0 aid 0 aid_len;
      t ← st (r_table r) (r_table_count r)
            {| e_aid := a; e_aid_len := u8 aid_len; e_svc := Some svc |};
      Some (0, {| r_max_aids := r_max_aids r; r_stats := r_stats r; r_state := r_state r;
                  r_table := t; r_table_count := u8 (r_table_count r + 1);
                  r_active_svc := r_active_svc r |})
  end.

(** [find_aid]: the loop over [i < s_table_count], [n] iterations left. *)
Fixpoint find_aid_loop (n : nat) (i : Z) (t : list aid_router_entry_t) (aid : list Z)
    (aid_len : Z) : option (option aid_router_entry_t) :=
  match n with
  | O => Some None
  | S n' =>
    e ← ld t i;
    if e_aid_len e =? aid_len then
      eq ← memcmp_eq (e_aid e) 0 aid 0 aid_len;
      if eq : bool then Some (Some e) else find_aid_loop n' (i + 1) t aid aid_len
    else find_aid_loop n' (i + 1) t aid aid_len
  end.

Definition find_aid (r : router) (aid : list Z) (aid_len : Z)
    : option (option aid_router_entry_t) :=
  find_aid_loop (Z.to_nat (r_table_count r)) 0 (r_table r) aid aid_len.
End Router.

Definition apdu_is_select_by_aid (apdu : nfc_apdu_t) : bool :=
  (cla apdu =? NFC_CLA_ISO7816) && (ins apdu =? NFC_INS_SELECT) &&
  (p1 apdu =? NFC_SELECT_P1_BY_AID) && (0 <? lc apdu).

(** ** Abstraction and invariant *)

(** The AID an entry answers to, and the registered routes in registration order. *)
Definition entry_key (e : aid_router_entry_t) : list Z :=
  take (Z.to_nat (e_aid_len e)) (e_aid e).

Definition live (r : router) : list aid_router_entry_t :=
  take (Z.to_nat (r_table_count r)) (r_table r).

Definition routes (r : router) : list (list Z * option svc_ptr) :=
  (λ e, (entry_key e, e_svc e)) <$> live r.

(** The specification of routing: the first registration of an AID decides. *)
Fixpoint first_route (l : list (list Z * option svc_ptr)) (aid : list Z)
    : option (option svc_ptr) :=
  match l with
  | [] => None
  | (k, s) :: l' => if decide (k = aid) then Some s else first_route l' aid
  end.

Record entry_ok (e : aid_router_entry_t) : Prop := {
  entry_aid_size : len (e_aid e) = NFC_AID_MAX_LEN;
  entry_len_range : 0 <= e_aid_len e <= NFC_AID_MAX_LEN;
}.

(** The invariant of the module. *)
Record router_ok `{Kconfig} (r : router) : Prop := {
  ro_table_size : len (r_table r) = CONFIG_NFC_ROUTER_MAX_AIDS;
  ro_count : 0 <= r_table_count r <= CONFIG_NFC_ROUTER_MAX_AIDS;
  ro_entries : Forall entry_ok (r_table r);
  ro_live : Forall (λ e, 1 <= e_aid_len e ∧ is_Some (e_svc e)) (live r);
  ro_max : r_state r = AID_ROUTER_STATE_INITIALIZED → r_max_aids r = CONFIG_NFC_ROUTER_MAX_AIDS;
  ro_active : ∀ s, r_active_svc r = Some s → ∃ k, (k, Some s) ∈ routes r;
}.

Lemma first_route_elem l aid s : first_route l aid = Some s → (aid, s) ∈ l.
Proof.
  induction l as [|[k s'] l IH]; cbn; [done|].
  case_decide as E; [intros [= ->]; subst; left|intros; right; auto].
Qed.

Lemma first_route_app l1 l2 aid :
  first_route (l1 ++ l2) aid =
    match first_route l1 aid with Some s => Some s | None => first_route l2 aid end.
Proof. induction l1 as [|[k s] l1 IH]; cbn; [done|]. by case_decide. Qed.

Section RouterFacts.
Context `{KconfigRanges}.

(** The search loop from [i] on, against the routes from [i] on. *)
Lemma find_aid_loop_spec (t : list aid_router_entry_t) aid n (k i : nat) :
  Forall entry_ok t → 0 <= n <= len aid → (i + k <= length t)%nat →
  ∃ o, find_aid_loop k (Z.of_nat i) t aid n = Some o ∧
    e_svc <$> o = first_route ((λ e, (entry_key e, e_svc e)) <$> take k (drop i t))
                    (take (Z.to_nat n) aid) ∧
    ∀ e, o = Some e → e ∈ take k (drop i t).
Proof.
  intros Ht Hn. revert i. induction k as [|k IH]; intros i Hi; [by exists None|].
  destruct (lookup_lt_is_Some_2 t i) as [e He]; [lia|].
  pose proof (Forall_lookup_1 _ _ _ _ Ht He) as [Hs Hr].
  cbn [find_aid_loop]. rewrite (ld_eq _ _ e) by (rewrite ?Nat2Z.id; lia || done). mred.
  rewrite (drop_S t e i) by done. cbn [take fmap list_fmap first_route].
  destruct (IH (S i) ltac:(lia)) as (o & Ho & Hr' & Hin).
  replace (Z.of_nat i + 1) with (Z.of_nat (S i)) by lia.
  assert (∀ e', o = Some e' → e' ∈ e :: take k (drop (S i) t)) as Hin'.
  { intros e' ->. right. by apply Hin. }
  destruct (e_aid_len e =? n) eqn:E; bool_prop.
  - unfold memcmp_eq. rewrite !sub_ok by (unfold NFC_AID_MAX_LEN in *; lia). mred.
    rewrite !drop_0. subst n. case_bool; bool_prop.
    + exists (Some e). split; [done|]. unfold entry_key. rewrite decide_True by done.
      split; [done|]. intros e' [= <-]. left.
    + exists o. unfold entry_key. by rewrite decide_False.
  - exists o. split; [done|]. rewrite decide_False; [done|].
    unfold entry_key. intros Hk. apply (f_equal len) in Hk.
    autorewrite with len in Hk. lia.
Qed.

(** [find_aid] returns an entry for the first matching route. *)
Lemma find_aid_spec r aid n :
  router_ok r → 0 <= n <= len aid →
  ∃ o, find_aid r aid n = Some o ∧
    e_svc <$> o = first_route (routes r) (take (Z.to_nat n) aid) ∧
    ∀ e, o = Some e → e ∈ live r.
Proof.
  intros Hr Hn. unfold find_aid.
  destruct (find_aid_loop_spec (r_table r) aid n (Z.to_nat (r_table_count r)) 0)
    as (o & Ho & Hs & Hin).
  - apply Hr. - done.
  - pose proof (ro_count r Hr). pose proof (ro_table_size r Hr). llia.
  - exists o. unfold routes, live. rewrite drop_0 in *. done.
Qed.

Lemma router_boot_ok : router_ok router_boot.
Proof.
  pose proof max_aids_range. constructor; cbn; try done; try lia.
  - rewrite len_replicate. lia.
  - apply Forall_replicate. constructor; [by apply len_zeros|cbn; unfold NFC_AID_MAX_LEN; lia].
Qed.

(** Clearing the table and the selection keeps the invariant. *)
Lemma router_reset_ok r r' :
  router_ok r → r_table r' = r_table r → r_table_count r' = 0 → r_active_svc r' = None →
  (r_state r' = AID_ROUTER_STATE_INITIALIZED →
   r_max_aids r' = CONFIG_NFC_ROUTER_MAX_AIDS) → router_ok r'.
Proof.
  intros Hr Ht Hc Ha Hm. pose proof max_aids_range.
  constructor; rewrite ?Ht, ?Hc, ?Ha; try apply Hr; try done; try lia.
  unfold live. rewrite Hc. by rewrite take_0.
Qed.

Lemma aid_router_init_ok r : router_ok r → router_ok (aid_router_init r).2.
Proof.
  intros Hr. unfold aid_router_init. case_bool; [done|]. cbn.
  eapply router_reset_ok; eauto. cbn. intros _.
  pose proof max_aids_range. apply u8_id. unfold is_byte. lia.
Qed.

Lemma aid_router_shutdown_ok r : router_ok r → router_ok (aid_router_shutdown r).2.
Proof. intros Hr. by eapply router_reset_ok. Qed.

Lemma aid_router_clear_ok r : router_ok r → router_ok (aid_router_clear r).
Proof. intros Hr. eapply router_reset_ok; eauto. cbn. apply Hr. Qed.

Lemma r_with_stats_ok s r : router_ok r → router_ok (r_with_stats s r).
Proof. by intros []. Qed.

Lemma r_with_active_ok a r :
  router_ok r → (∀ s, a = Some s → ∃ k, (k, Some s) ∈ routes r) → router_ok (r_with_active a r).
Proof. by intros [] ?. Qed.

(** A registration that is not refused appends its route. *)
Lemma aid_router_register_spec r aid n svc :
  router_ok r → r_state r = AID_ROUTER_STATE_INITIALIZED → 1 <= n <= NFC_AID_MAX_LEN →
  n <= len aid → r_table_count r < CONFIG_NFC_ROUTER_MAX_AIDS →
  ∃ r', aid_router_register (Some aid) n (Some svc) r = Some (0, r') ∧ router_ok r' ∧
    routes r' = routes r ++ [(take (Z.to_nat n) aid, Some svc)] ∧
    r_active_svc r' = r_active_svc r ∧ r_state r' = r_state r ∧ r_max_aids r' = r_max_aids r ∧
    r_table_count r' = r_table_count r + 1.
Proof.
  intros Hr Hs Hn Ha Hc. pose proof max_aids_range as Hmax.
  pose proof (ro_table_size r Hr) as Hts. pose proof (ro_count r Hr) as Hcnt.
  unfold NFC_AID_MAX_LEN in *.
  destruct (ld_Some (r_table r) (r_table_count r)) as [e He]; [lia|].
  pose proof (ld_Some_inv _ _ _ He) as [_ He'].
  pose proof (Forall_lookup_1 _ _ _ _ (ro_entries r Hr) He') as [Hes _].
  unfold NFC_AID_MAX_LEN in *.
  unfold aid_router_register. rewrite bool_decide_true by done. cbn [negb].
  rewrite (proj2 (Z.eqb_neq n 0)), (proj2 (Z.ltb_ge NFC_AID_MAX_LEN n)),
    (proj2 (Z.leb_gt _ _)) by (rewrite ?(ro_max r Hr Hs); unfold NFC_AID_MAX_LEN; lia).
  cbn [orb]. rewrite He. mred. unfold memcpy. rewrite sub_ok by lia. mred.
  rewrite drop_0. set (k := take (Z.to_nat n) aid).
  assert (len k = n) as Hk by (subst k; llia).
  rewrite blit_ok by lia. mred. change (Z.to_nat 0) with 0%nat. rewrite take_0, app_nil_l.
  rewrite st_ok by lia. mred.
  set (e' := {| e_aid := _ |}).
  assert (u8 (r_table_count r + 1) = r_table_count r + 1) as Hu by (apply u8_id; split; lia).
  assert (u8 n = n) as Hun by (apply u8_id; split; lia).
  assert (entry_key e' = k) as Hkey.
  { unfold entry_key, e'. cbn [e_aid e_aid_len]. rewrite Hun.
    apply take_app_length'. llia. }
  assert (entry_ok e') as He'ok.
  { constructor; unfold e', NFC_AID_MAX_LEN; cbn; rewrite ?Hun; [llia|lia]. }
  set (r' := {| r_table := _ |}).
  assert (live r' = live r ++ [e']) as Hlive.
  { unfold live, r'. cbn [r_table r_table_count]. rewrite Hu.
    replace (Z.to_nat (r_table_count r + 1)) with (S (Z.to_nat (r_table_count r))) by lia.
    rewrite (take_S_r _ _ e') by (apply list_lookup_insert_eq; llia).
    by rewrite take_insert_ge by lia. }
  assert (routes r' = routes r ++ [(k, Some svc)]) as Hroutes.
  { unfold routes. rewrite Hlive, fmap_app. cbn. by rewrite Hkey. }
  exists r'. split; [done|]. split; [|done].
  constructor; cbn [r_table r_table_count r_state r_max_aids r_active_svc r'].
  - by rewrite len_insert.
  - rewrite Hu. lia.
  - apply Forall_insert; [apply Hr|done].
  - rewrite Hlive. apply Forall_app. split; [apply Hr|]. constructor; [|constructor].
    cbn. rewrite Hun. split; [lia|eauto].
  - apply Hr.
  - intros s Hact. destruct (ro_active r Hr s Hact) as [k' Hk'].
    exists k'. rewrite Hroutes. apply elem_of_app. by left.
Qed.

(** Registration is safe and never takes an AID away from its service: on an initialized
    router, for any AID buffer and length, [aid_router_register] stays inside the table, keeps
    the invariant and answers -EINVAL exactly for the lengths 0 and above 16, -ENOMEM exactly
    when the table is full, and 0 otherwise; afterwards a look-up finds what it found before, or,
    if it found nothing and the registration succeeded, the new service for the new AID. *)
Theorem router_register_lookup r aid n svc :
  router_ok r → r_state r = AID_ROUTER_STATE_INITIALIZED → 0 <= n <= len aid →
  let ret := if (n =? 0) || (16 <? n) then - EINVAL
             else if r_table_count r =? CONFIG_NFC_ROUTER_MAX_AIDS then - ENOMEM else 0 in
  ∃ r', aid_router_register (Some aid) n (Some svc) r = Some (ret, r') ∧ router_ok r' ∧
    ∀ key m, 0 <= m <= len key → ∃ o, find_aid r' key m = Some o ∧
      e_svc <$> o =
        match first_route (routes r) (take (Z.to_nat m) key) with
        | Some s => Some s
        | None => if (ret =? 0) && bool_decide (take (Z.to_nat n) aid = take (Z.to_nat m) key)
                  then Some (Some svc) else None
        end.
Proof.
  intros Hr Hs Hn ret. pose proof (ro_count r Hr) as Hc. pose proof (ro_max r Hr Hs) as Hm.
  assert (∃ r', aid_router_register (Some aid) n (Some svc) r = Some (ret, r') ∧ router_ok r' ∧
    routes r' = routes r ++ if ret =? 0 then [(take (Z.to_nat n) aid, Some svc)] else []) as Hreg.
  { subst ret. destruct ((n =? 0) || (16 <? n)) eqn:En.
    { exists r. split; [|by rewrite app_nil_r].
      unfold aid_router_register, NFC_AID_MAX_LEN. rewrite bool_decide_true by done. by rewrite En. }
    bool_prop. destruct (r_table_count r =? CONFIG_NFC_ROUTER_MAX_AIDS) eqn:Ec; bool_prop.
    { exists (r_inc rs_register_table_full_count r).
      split; [|split; [by apply r_with_stats_ok|by rewrite app_nil_r]].
      unfold aid_router_register, NFC_AID_MAX_LEN. rewrite bool_decide_true by done. cbn [negb].
      rewrite (proj2 (Z.eqb_neq n 0)), (proj2 (Z.ltb_ge _ n)), (proj2 (Z.leb_le _ _)) by lia. done. }
    destruct (aid_router_register_spec r aid n svc Hr Hs) as (r' & Hrun & Hr' & Hro & _);
      [unfold NFC_AID_MAX_LEN; lia..|]. eauto. }
  destruct Hreg as (r' & Hrun & Hr' & Hro). exists r'. split; [done|]. split; [done|].
  intros key m Hkm. destruct (find_aid_spec r' key m Hr' Hkm) as (o & Ho & Hf & _).
  exists o. split; [done|]. rewrite Hf, Hro, first_route_app.
  destruct (first_route (routes r) (take (Z.to_nat m) key)); [done|].
  destruct (ret =? 0); [|done]. cbn. case_decide as Hk; [by rewrite bool_decide_true|by rewrite bool_decide_false].
Qed.
End RouterFacts.
