(* ===== verification/Ndef.v ===== *)
(** * NDEF data model ([src/nfc/protocols/ndef/ndef.c], [ndef.h])

    The cloned or emulated Type 4 Tag: capability container and NDEF file, and its persistent
    form: a format byte, the 15 bytes of the CC and the NDEF file (NLEN and message). *)

From stdpp Require Import base list numbers option.
From S2P Require Import Prelude Kconfig Service.

Definition NFC_NDEF_FORMAT_VERSION : Z := 0x01.
Definition NFC_NDEF_CC_LEN : Z := 15.
Definition NFC_NDEF_NLEN_FIELD_LEN : Z := 2.

Record ndef_data_t := {
  cc : list Z;
  ndef_file : list Z;
  cc_len : Z;
  ndef_file_len : Z;
}.

Definition nd_with_cc (c : list Z) (d : ndef_data_t) : ndef_data_t :=
  {| cc := c; ndef_file := ndef_file d; cc_len := cc_len d; ndef_file_len := ndef_file_len d |}.
Definition nd_with_file (f : list Z) (d : ndef_data_t) : ndef_data_t :=
  {| cc := cc d; ndef_file := f; cc_len := cc_len d; ndef_file_len := ndef_file_len d |}.
Definition nd_with_cc_len (n : Z) (d : ndef_data_t) : ndef_data_t :=
  {| cc := cc d; ndef_file := ndef_file d; cc_len := n; ndef_file_len := ndef_file_len d |}.
Definition nd_with_file_len (n : Z) (d : ndef_data_t) : ndef_data_t :=
  {| cc := cc d; ndef_file := ndef_file d; cc_len := cc_len d; ndef_file_len := n |}.

Section Ndef.
Context `{Kconfig}.

(** [sizeof(data->ndef_file)], [NDEF_FILE_BUF_SIZE] of the listener. *)
Definition NDEF_FILE_BUF_SIZE : Z := NFC_NDEF_NLEN_FIELD_LEN + CONFIG_NFC_NDEF_MAX_SIZE.

Definition ndef_data_zero : ndef_data_t :=
  {| cc := zeros NFC_NDEF_CC_LEN; ndef_file := zeros NDEF_FILE_BUF_SIZE; cc_len := 0;
     ndef_file_len := 0 |}.

Definition ndef_data_reset (d : option ndef_data_t) : option ndef_data_t :=
  match d with None => None | Some _ => Some ndef_data_zero end.

Definition ndef_persist_id : Z := NFC_PERSIST_ID_NDEF.

Definition ndef_blob_payload_len (d : ndef_data_t) : Z := NFC_NDEF_CC_LEN + ndef_file_len d.

Definition ndef_blob_total_len (d : ndef_data_t) : Z := 1 + ndef_blob_payload_len d.

(** [ndef_serialize(data, out, out_max, out_len)]: the return value and what [out] and
    [out_len] point to afterwards. *)
Definition ndef_serialize (d : option ndef_data_t) (out : option (list Z)) (out_max : Z)
    (out_len : option Z) : option (Z * option (list Z) * option Z) :=
  match d, out_len, out with
  | None, _, _ | _, None, _ | _, _, None => Some (- EINVAL, out, out_len)
  | Some d, Some _, Some o =>
    if negb (cc_len d =? NFC_NDEF_CC_LEN) then Some (- EINVAL, out, out_len)
    else if NDEF_FILE_BUF_SIZE <? ndef_file_len d then Some (- EINVAL, out, out_len)
    else
      let need := ndef_blob_total_len d in
      if out_max <? need then Some (- ENOSPC, out, out_len) else
      o ← st o 0 NFC_NDEF_FORMAT_VERSION;
      o ← memcpy o 1 (cc d) 0 NFC_NDEF_CC_LEN;
      o ← memcpy o (1 + NFC_NDEF_CC_LEN) (ndef_file d) 0 (ndef_file_len d);
      Some (0, Some o, Some need)
  end.

(** [ndef_nlen_from_file(ndef_file, ndef_file_len, &nlen)]: the return value and [nlen]. *)
Definition ndef_nlen_from_file (f : list Z) (flen : Z) (nlen : Z) : option (Z * Z) :=
  if flen <? NFC_NDEF_NLEN_FIELD_LEN then Some (- EBADMSG, nlen) else
  f0 ← ld f 0; f1 ← ld f 1;
  let nlen := be16 f0 f1 in
  if CONFIG_NFC_NDEF_MAX_SIZE <? nlen then Some (- EBADMSG, nlen)
  else if negb (u16 (NFC_NDEF_NLEN_FIELD_LEN + nlen) =? flen) then Some (- EBADMSG, nlen)
  else Some (0, nlen).

(** [ndef_deserialize(data, in, in_len)]: the return value and what [data] points to
    afterwards; the model has already been reset when a later check fails. *)
Definition ndef_deserialize (d : option ndef_data_t) (inp : option (list Z)) (in_len : Z)
    : option (Z * option ndef_data_t) :=
  match d, inp with
  | None, _ | _, None => Some (- EINVAL, d)
  | Some _, Some inp =>
    if in_len <? 1 + NFC_NDEF_CC_LEN + NFC_NDEF_NLEN_FIELD_LEN then Some (- EBADMSG, d) else
    v ← ld inp 0;
    if negb (v =? NFC_NDEF_FORMAT_VERSION) then Some (- EBADMSG, d) else
    let payload_len := in_len - 1 in
    if payload_len <? NFC_NDEF_CC_LEN + NFC_NDEF_NLEN_FIELD_LEN
    then Some (- EBADMSG, d) else
    let m := nd_with_cc_len NFC_NDEF_CC_LEN ndef_data_zero in
    c ← memcpy (cc m) 0 inp 1 NFC_NDEF_CC_LEN;
    let m := nd_with_file_len (u16 (payload_len - NFC_NDEF_CC_LEN)) (nd_with_cc c m) in
    if NDEF_FILE_BUF_SIZE <? ndef_file_len m then Some (- EBADMSG, Some m) else
    f ← memcpy (ndef_file m) 0 inp (1 + NFC_NDEF_CC_LEN) (ndef_file_len m);
    let m := nd_with_file f m in
    '(ret, _) ← ndef_nlen_from_file (ndef_file m) (ndef_file_len m) 0;
    Some (ret, Some m)
  end.
End Ndef.

(** ** Well-formed models and their persistent form *)

Section NdefFacts.
Context `{KconfigRanges}.

(** The C type: array sizes and member widths. *)
Record ndef_ok (d : ndef_data_t) : Prop := {
  nd_cc_size : len (cc d) = NFC_NDEF_CC_LEN;
  nd_cc_bytes : bytes (cc d);
  nd_file_size : len (ndef_file d) = NDEF_FILE_BUF_SIZE;
  nd_file_bytes : bytes (ndef_file d);
  nd_cc_len : 0 <= cc_len d < 65536;
  nd_file_len : 0 <= ndef_file_len d < 65536;
}.

(** The NLEN field of the file. *)
Definition nlen (d : ndef_data_t) : Z :=
  be16 (default 0 (ndef_file d !! 0%nat)) (default 0 (ndef_file d !! 1%nat)).

(** A model whose file is exactly its NLEN field and message. *)
Record ndef_consistent (d : ndef_data_t) : Prop := {
  nc_ok : ndef_ok d;
  nc_cc_len : cc_len d = NFC_NDEF_CC_LEN;
  nc_nlen : nlen d <= CONFIG_NFC_NDEF_MAX_SIZE;
  nc_file_len : ndef_file_len d = NFC_NDEF_NLEN_FIELD_LEN + nlen d;
  nc_padding : drop (Z.to_nat (ndef_file_len d)) (ndef_file d) =
               zeros (NDEF_FILE_BUF_SIZE - ndef_file_len d);
}.

Definition ndef_blob (d : ndef_data_t) : list Z :=
  NFC_NDEF_FORMAT_VERSION :: cc d ++ take (Z.to_nat (ndef_file_len d)) (ndef_file d).

Lemma ndef_data_zero_ok : ndef_ok ndef_data_zero.
Proof.
  pose proof ndef_max_size_range.
  constructor; cbn; try lia; try apply bytes_zeros; apply len_zeros;
    unfold NFC_NDEF_CC_LEN, NDEF_FILE_BUF_SIZE, NFC_NDEF_NLEN_FIELD_LEN; lia.
Qed.

Lemma ndef_buf_size : NDEF_FILE_BUF_SIZE = 2 + CONFIG_NFC_NDEF_MAX_SIZE.
Proof. done. Qed.

Lemma ndef_file_01 d : ndef_ok d → ∃ f0 f1, ld (ndef_file d) 0 = Some f0 ∧
  ld (ndef_file d) 1 = Some f1 ∧ is_byte f0 ∧ is_byte f1 ∧ nlen d = be16 f0 f1.
Proof.
  intros Hd. pose proof ndef_max_size_range. pose proof (nd_file_size d Hd) as Hs.
  rewrite ndef_buf_size in Hs.
  destruct (ld_Some (ndef_file d) 0) as [f0 H0']; [lia|].
  destruct (ld_Some (ndef_file d) 1) as [f1 H1']; [lia|].
  pose proof (ld_byte _ _ _ (nd_file_bytes d Hd) H0').
  pose proof (ld_byte _ _ _ (nd_file_bytes d Hd) H1').
  exists f0, f1. split_and!; try done.
  unfold nlen. apply ld_Some_inv in H0' as [_ H0'], H1' as [_ H1'].
  change (Z.to_nat 0) with 0%nat in H0'. change (Z.to_nat 1) with 1%nat in H1'.
  by rewrite H0', H1'.
Qed.

Lemma nlen_range d : ndef_ok d → 0 <= nlen d < 65536.
Proof. intros _. apply u16_range. Qed.

Lemma ndef_blob_len d : ndef_ok d → ndef_file_len d <= NDEF_FILE_BUF_SIZE →
  len (ndef_blob d) = ndef_blob_total_len d.
Proof.
  intros Hd Hl. unfold ndef_blob, ndef_blob_total_len, ndef_blob_payload_len.
  pose proof (nd_cc_size d Hd). pose proof (nd_file_size d Hd). pose proof (nd_file_len d Hd).
  autorewrite with len. lia.
Qed.

(** Serialization writes the blob at the start of the buffer. *)
Lemma ndef_serialize_spec d o n l :
  ndef_ok d → cc_len d = NFC_NDEF_CC_LEN → ndef_file_len d <= NDEF_FILE_BUF_SIZE →
  ndef_blob_total_len d <= n <= len o →
  ndef_serialize (Some d) (Some o) n (Some l) =
    Some (0, Some (ndef_blob d ++ drop (length (ndef_blob d)) o), Some (len (ndef_blob d))).
Proof.
  intros Hd Hc Hf Hn. rewrite (ndef_blob_len d) by done.
  assert (length (ndef_blob d) = Z.to_nat (ndef_blob_total_len d)) as Hlb
    by (rewrite <-ndef_blob_len by done; unfold len; lia).
  pose proof (nd_cc_size d Hd) as Hcs. pose proof (nd_file_size d Hd) as Hfs.
  pose proof (nd_file_len d Hd) as Hfl.
  unfold ndef_serialize. rewrite (proj2 (Z.eqb_eq _ _)), (proj2 (Z.ltb_ge _ _)) by lia.
  cbn [negb]. rewrite (proj2 (Z.ltb_ge _ _)) by lia.
  unfold ndef_blob_total_len, ndef_blob_payload_len, NFC_NDEF_CC_LEN in *.
  set (f := take (Z.to_nat (ndef_file_len d)) (ndef_file d)).
  assert (len f = ndef_file_len d) as Hlf by (subst f; llia).
  (* the buffer, split where the three parts go *)
  destruct o as [|x o]; [rewrite len_nil in Hn; lia|]. rewrite len_cons in Hn.
  set (rest := drop (Z.to_nat (15 + ndef_file_len d)) o).
  assert (∃ a b, o = a ++ b ++ rest ∧ len a = 15 ∧ len b = ndef_file_len d)
    as (a & b & Ho & Ha & Hb).
  { exists (take 15 o), (take (Z.to_nat (ndef_file_len d)) (drop 15 o)). split_and!.
    - subst rest. rewrite Z2Nat.inj_add, <-drop_drop, take_drop by lia.
      change (Z.to_nat 15) with 15%nat. by rewrite take_drop.
    - llia.
    - llia. }
  rewrite st_ok by (rewrite len_cons; pose proof (len_nonneg o); lia). mred.
  change (<[Z.to_nat 0:=NFC_NDEF_FORMAT_VERSION]> (x :: o)) with (NFC_NDEF_FORMAT_VERSION :: o).
  rewrite memcpy_all by lia.
  rewrite Ho. change (NFC_NDEF_FORMAT_VERSION :: a ++ b ++ rest)
    with ([NFC_NDEF_FORMAT_VERSION] ++ a ++ b ++ rest).
  rewrite blit_app_mid by (rewrite ?Ha; done). mred.
  rewrite memcpy_prefix by lia. fold f.
  rewrite (assoc_L (++) [_]). rewrite blit_app_mid by llia. mred.
  do 4 f_equal. rewrite Hlb. unfold ndef_blob. fold f.
  replace (Z.to_nat (1 + (15 + ndef_file_len d))) with
    (S (Z.to_nat (15 + ndef_file_len d))) by lia.
  cbn [drop app]. rewrite <-Ho. fold rest. by rewrite <-(assoc_L (++)).
Qed.

(** The check of the NLEN field against the stored length. *)
Lemma ndef_nlen_from_file_spec d n0 :
  ndef_ok d →
  ndef_nlen_from_file (ndef_file d) (ndef_file_len d) n0 =
    if ndef_file_len d <? 2 then Some (- EBADMSG, n0)
    else if (nlen d <=? CONFIG_NFC_NDEF_MAX_SIZE) && (2 + nlen d =? ndef_file_len d)
    then Some (0, nlen d) else Some (- EBADMSG, nlen d).
Proof.
  intros Hd. pose proof ndef_max_size_range.
  destruct (ndef_file_01 d Hd) as (f0 & f1 & H0' & H1' & _ & _ & Hn).
  unfold ndef_nlen_from_file, NFC_NDEF_NLEN_FIELD_LEN. case_bool; [done|].
  rewrite H0', H1'. mred. rewrite <-Hn.
  destruct (Z.leb_spec (nlen d) CONFIG_NFC_NDEF_MAX_SIZE); cbn [andb].
  - rewrite (proj2 (Z.ltb_ge _ _)) by lia.
    pose proof (nlen_range d Hd). rewrite (u16_id (2 + nlen d)) by lia.
    by destruct (2 + nlen d =? ndef_file_len d).
  - by rewrite (proj2 (Z.ltb_lt _ _)) by lia.
Qed.

(** The model [ndef_deserialize] builds from a blob whose file fits. *)
Definition ndef_of_blob (c f : list Z) : ndef_data_t :=
  {| cc := c; ndef_file := f ++ zeros (NDEF_FILE_BUF_SIZE - len f); cc_len := NFC_NDEF_CC_LEN;
     ndef_file_len := len f |}.

Lemma ndef_of_blob_ok c f : len c = NFC_NDEF_CC_LEN → bytes c → bytes f →
  len f <= NDEF_FILE_BUF_SIZE → ndef_ok (ndef_of_blob c f).
Proof.
  intros Hc Hbc Hbf Hf. pose proof ndef_max_size_range. pose proof (len_nonneg f).
  rewrite ndef_buf_size in *.
  constructor; cbn; try done.
  - rewrite len_app, len_zeros; rewrite ?ndef_buf_size; lia.
  - apply bytes_app. auto with nfc.
  - lia.
Qed.

(** Deserialization of the [len (v :: c ++ f)] bytes at the start of an object. *)
Lemma ndef_deserialize_spec d v c f rest :
  len c = NFC_NDEF_CC_LEN → bytes c → bytes f → 2 <= len f < 65536 →
  let m := ndef_of_blob c f in
  ndef_deserialize (Some d) (Some (v :: c ++ f ++ rest)) (len (v :: c ++ f)) =
    if negb (v =? NFC_NDEF_FORMAT_VERSION) then Some (- EBADMSG, Some d)
    else if NDEF_FILE_BUF_SIZE <? len f then
      Some (- EBADMSG, Some {| cc := c; ndef_file := zeros NDEF_FILE_BUF_SIZE;
                               cc_len := NFC_NDEF_CC_LEN; ndef_file_len := len f |})
    else if (nlen m <=? CONFIG_NFC_NDEF_MAX_SIZE) && (2 + nlen m =? len f)
    then Some (0, Some m) else Some (- EBADMSG, Some m).
Proof.
  intros Hc Hbc Hbf Hf m. pose proof ndef_max_size_range. pose proof ndef_buf_size as Hbuf.
  unfold ndef_deserialize. rewrite len_cons, len_app, Hc.
  unfold NFC_NDEF_CC_LEN, NFC_NDEF_NLEN_FIELD_LEN in *.
  rewrite (proj2 (Z.ltb_ge _ _)) by lia.
  change (ld (v :: c ++ f ++ rest) 0) with (Some v). mred.
  case_bool; [done|]. rewrite (proj2 (Z.ltb_ge _ _)) by lia.
  cbn [cc nd_with_cc_len ndef_data_zero]. unfold NFC_NDEF_CC_LEN.
  assert (sub (v :: c ++ f ++ rest) 1 15 = Some c) as Hsc
    by by apply (sub_app_mid [v] c (f ++ rest)).
  assert (sub (v :: c ++ f ++ rest) (1 + 15) (len f) = Some f) as Hsf.
  { apply (sub_app_mid ([v] ++ c) f rest); [rewrite len_app, Hc|]; done. }
  unfold memcpy. rewrite Hsc. mred.
  rewrite blit_ok by (rewrite ?len_zeros; lia). mred.
  change (Z.to_nat 0) with 0%nat. rewrite take_0, app_nil_l.
  rewrite drop_ge, app_nil_r by llia.
  cbn [ndef_file_len nd_with_file_len nd_with_cc ndef_file nd_with_file cc cc_len nd_with_cc_len
       ndef_data_zero].
  replace (1 + (15 + len f) - 1 - 15) with (len f) by lia. rewrite u16_id by lia.
  case_bool; [done|]. bool_prop.
  rewrite Hsf. mred.
  rewrite blit_ok by (rewrite ?len_zeros; lia). mred.
  change (Z.to_nat 0) with 0%nat. rewrite take_0, app_nil_l.
  assert (drop (Z.to_nat (0 + len f)) (zeros NDEF_FILE_BUF_SIZE) =
          zeros (NDEF_FILE_BUF_SIZE - len f)) as ->.
  { unfold zeros. rewrite drop_replicate. f_equal. lia. }
  change (f ++ zeros (NDEF_FILE_BUF_SIZE - len f)) with (ndef_file m).
  change (len f) with (ndef_file_len m) at 1.
  rewrite ndef_nlen_from_file_spec by (apply ndef_of_blob_ok; done || lia).
  cbn [ndef_file_len m ndef_of_blob]. rewrite (proj2 (Z.ltb_ge _ _)) by lia.
  by case_bool.
Qed.

Lemma ndef_consistent_of_blob d : ndef_consistent d →
  ndef_of_blob (cc d) (take (Z.to_nat (ndef_file_len d)) (ndef_file d)) = d.
Proof.
  intros [Hd Hc Hn Hf Hp]. pose proof (nlen_range d Hd). pose proof (nd_file_size d Hd).
  rewrite ndef_buf_size in *. unfold NFC_NDEF_NLEN_FIELD_LEN in *.
  assert (len (take (Z.to_nat (ndef_file_len d)) (ndef_file d)) = ndef_file_len d) as Hl
    by llia.
  destruct d as [c f cl fl]; cbn in *. unfold ndef_of_blob. rewrite Hl, ndef_buf_size.
  f_equal; [|done]. rewrite <-(take_drop (Z.to_nat fl) f) at 2. f_equal. by rewrite Hp.
Qed.

(** A blob read back where serialization put it gives the model back. *)
Lemma ndef_deserialize_blob d d0 rest : ndef_consistent d →
  ndef_deserialize (Some d0) (Some (ndef_blob d ++ rest)) (len (ndef_blob d)) =
    Some (0, Some d).
Proof.
  intros Hd. pose proof (ndef_consistent_of_blob d Hd) as Hb.
  destruct Hd as [Hok Hc Hn Hf Hp]. pose proof (nlen_range d Hok).
  pose proof (nd_file_size d Hok). pose proof ndef_max_size_range.
  rewrite ndef_buf_size in *. unfold NFC_NDEF_NLEN_FIELD_LEN in *.
  set (f := take (Z.to_nat (ndef_file_len d)) (ndef_file d)) in *.
  assert (len f = ndef_file_len d) as Hl by (subst f; llia).
  unfold ndef_blob. fold f. cbn [app]. rewrite <-(assoc_L (++)).
  rewrite ndef_deserialize_spec; [|apply Hok|apply Hok|apply bytes_take, Hok|lia].
  rewrite Hb. cbn [Z.eqb NFC_NDEF_FORMAT_VERSION Pos.eqb negb].
  rewrite ndef_buf_size, (proj2 (Z.ltb_ge _ _)), (proj2 (Z.leb_le _ _)),
    (proj2 (Z.eqb_eq _ _)) by lia.
  done.
Qed.

(** Whatever the input, deserialization stays inside it and leaves a well-typed model. *)
Lemma ndef_deserialize_total d inp n :
  ndef_ok d → bytes inp → 0 <= n <= len inp →
  ∃ r m, ndef_deserialize (Some d) (Some inp) n = Some (r, Some m) ∧ ndef_ok m ∧
    (m = d ∨ cc_len m = NFC_NDEF_CC_LEN) ∧
    (r = 0 → cc_len m = NFC_NDEF_CC_LEN ∧ nlen m <= CONFIG_NFC_NDEF_MAX_SIZE ∧
             ndef_file_len m = 2 + nlen m).
Proof.
  intros Hd Hb Hn. unfold ndef_deserialize. pose proof ndef_max_size_range.
  pose proof ndef_buf_size as Hbuf. unfold NFC_NDEF_CC_LEN, NFC_NDEF_NLEN_FIELD_LEN in *.
  case_bool; [exists (- EBADMSG), d; split_and!; done || by left|]. bool_prop.
  ld_case 0 v; [lia|]. case_bool; [exists (- EBADMSG), d; split_and!; done || by left|].
  rewrite (proj2 (Z.ltb_ge _ _)) by lia.
  cbn [cc nd_with_cc_len ndef_data_zero]. rewrite memcpy_ok by lia.
  set (c := take _ (drop _ inp)). assert (len c = 15) as Hc by (subst c; llia).
  assert (bytes c) by (subst c; auto with nfc).
  rewrite blit_ok by (rewrite ?len_zeros; unfold NFC_NDEF_CC_LEN; lia). mred.
  change (Z.to_nat 0) with 0%nat. rewrite take_0, app_nil_l.
  rewrite drop_ge, app_nil_r by (unfold NFC_NDEF_CC_LEN; llia).
  cbn [ndef_file_len nd_with_file_len nd_with_cc ndef_file nd_with_file cc cc_len nd_with_cc_len
       ndef_data_zero].
  pose proof (u16_range (n - 1 - 15)). pose proof (Z.mod_le (n - 1 - 15) 65536).
  assert (u16 (n - 1 - 15) <= n - 1 - 15) by (apply Z.mod_le; lia).
  case_bool; [eexists _, _; split; [done|]; split; [|split; [by right|done]]; constructor; cbn;
    try done; try apply len_zeros; try apply bytes_zeros; lia|].
  bool_prop. rewrite memcpy_ok by lia. set (f := take _ (drop _ inp)).
  assert (len f = u16 (n - 1 - 15)) as Hf by (subst f; llia).
  assert (bytes f) by (subst f; auto with nfc).
  rewrite blit_ok by (rewrite ?len_zeros; lia). mred.
  match goal with |- context [nd_with_file ?x ?y] => set (m := nd_with_file x y) end.
  assert (ndef_ok m) as Hm.
  { constructor; cbn; try done; try lia; [|rewrite !bytes_app; auto with nfc].
    llia. }
  change (ndef_nlen_from_file _ _ 0) with (ndef_nlen_from_file (ndef_file m) (ndef_file_len m) 0).
  rewrite (ndef_nlen_from_file_spec m) by done.
  repeat case_bool; bool_prop; eexists _, _; (split; [done|]); (split; [done|]);
    (split; [by right|done]).
Qed.

(** Only the [n] bytes that are announced matter. *)
Lemma ndef_deserialize_take d inp n :
  0 <= n <= len inp →
  ndef_deserialize d (Some (take (Z.to_nat n) inp)) n = ndef_deserialize d (Some inp) n.
Proof.
  intros Hn. unfold ndef_deserialize. destruct d as [d|]; [|done].
  destruct (n <? _) eqn:E0; [done|]. bool_prop. unfold NFC_NDEF_CC_LEN, NFC_NDEF_NLEN_FIELD_LEN in *.
  assert (ld (take (Z.to_nat n) inp) 0 = ld inp 0) as ->.
  { unfold ld. cbn [Z.leb Z.compare]. apply lookup_take_lt. lia. }
  assert (∀ off k, 0 <= off → off + k <= n → sub (take (Z.to_nat n) inp) off k = sub inp off k) as Hsub.
  { intros off k Ho Hk. unfold sub. rewrite len_take.
    destruct (0 <=? k) eqn:Ek; [|by rewrite !andb_false_r]. bool_prop.
    rewrite (proj2 (Z.leb_le (off + k) _)), (proj2 (Z.leb_le (off + k) (len inp))) by lia.
    destruct (0 <=? off); [|done]. cbn [andb].
    rewrite skipn_firstn_comm, take_take. do 2 f_equal. lia. }
  destruct (ld inp 0) as [v|]; [|done]. mred. destruct (negb _); [done|].
  destruct (n - 1 <? _); [done|]. unfold memcpy. rewrite (Hsub 1 15) by lia.
  destruct (sub inp 1 15); [|done]. mred. destruct (blit _ _ _); [|done]. mred.
  destruct (_ <? _) eqn:E1; [done|]. rewrite Hsub; [done|lia|].
  cbn. unfold u16. pose proof (Z.mod_le (n - 1 - 15) 65536). lia.
Qed.

(** A successful deserialization is of exactly the blob of the model it leaves. *)
Lemma ndef_deserialize_sound d b m :
  bytes b → len b < 65536 → ndef_deserialize (Some d) (Some b) (len b) = Some (0, Some m) →
  ndef_consistent m ∧ ndef_blob m = b.
Proof.
  intros Hb Hl Hm. pose proof ndef_max_size_range. pose proof ndef_buf_size as Hbuf.
  destruct (Z.ltb_spec (len b) 18) as [Hs|Hs].
  { unfold ndef_deserialize in Hm. rewrite (proj2 (Z.ltb_lt _ _)) in Hm by (unfold NFC_NDEF_CC_LEN, NFC_NDEF_NLEN_FIELD_LEN; lia). done. }
  destruct b as [|v b]; [rewrite len_nil in Hs; lia|].
  assert (∃ c f, b = c ++ f ∧ len c = NFC_NDEF_CC_LEN) as (c & f & -> & Hc).
  { exists (take 15 b), (drop 15 b). rewrite take_drop. split; [done|].
    unfold NFC_NDEF_CC_LEN. llia. }
  apply Forall_cons_iff in Hb as [_ [Hbc Hbf]%bytes_app].
  rewrite len_cons, len_app, Hc in *. unfold NFC_NDEF_CC_LEN in *.
  pose proof (ndef_deserialize_spec d v c f [] Hc Hbc Hbf ltac:(lia)) as Hsp.
  rewrite app_nil_r, len_cons, len_app, Hc in Hsp. unfold NFC_NDEF_CC_LEN in *.
  rewrite Hsp in Hm. clear Hsp.
  destruct (v =? NFC_NDEF_FORMAT_VERSION) eqn:Ev; [|done]. cbn [negb] in Hm.
  destruct (_ <? len f) eqn:Ef; [done|].
  destruct (_ && _) eqn:En; [|done]. bool_prop. injection Hm as <-. subst v.
  split; [constructor|].
  - by apply ndef_of_blob_ok.
  - done.
  - done.
  - cbn. unfold NFC_NDEF_NLEN_FIELD_LEN. lia.
  - cbn. rewrite drop_app_length' by llia. done.
  - unfold ndef_blob. cbn. rewrite take_app_length' by llia. done.
Qed.

(** The persistent form of the NDEF model round-trips, and deserialization accepts nothing
    else. Serializing a consistent model into a buffer that has room succeeds, writes exactly its
    blob at the start of the buffer and reports the blob's length, and deserializing that many
    bytes restores the model, whatever the model held before. Conversely, on any byte string
    shorter than 64 KiB deserialization stays inside its input, and if it reports success the
    input is exactly the persistent form of the consistent model it leaves (format byte, CC, and
    a file whose length agrees with its NLEN field). *)
Theorem ndef_codec :
  (∀ d d0 o, ndef_consistent d → ndef_blob_total_len d <= len o →
    ∃ o', ndef_serialize (Some d) (Some o) (len o) (Some 0) = Some (0, Some o', Some (len (ndef_blob d))) ∧
      sub o' 0 (len (ndef_blob d)) = Some (ndef_blob d) ∧ len o' = len o ∧
      ndef_deserialize (Some d0) (Some o') (len (ndef_blob d)) = Some (0, Some d)) ∧
  (∀ d b, ndef_ok d → bytes b → len b < 65536 →
    ∃ r m, ndef_deserialize (Some d) (Some b) (len b) = Some (r, Some m) ∧ ndef_ok m ∧
      (r = 0 → ndef_consistent m ∧ ndef_blob m = b)).
Proof.
  split.
  - intros d d0 o Hd Ho. pose proof (nc_nlen d Hd). pose proof (nc_file_len d Hd).
    unfold NFC_NDEF_NLEN_FIELD_LEN in *.
    assert (ndef_file_len d <= NDEF_FILE_BUF_SIZE) by (rewrite ndef_buf_size; lia).
    pose proof (ndef_blob_len d (nc_ok d Hd) ltac:(done)).
    eexists. split; [apply ndef_serialize_spec; try apply Hd; lia|].
    split; [by apply (sub_app_mid [])|]. split; [llia|]. by apply ndef_deserialize_blob.
  - intros d b Hd Hb Hl. pose proof (len_nonneg b).
    destruct (ndef_deserialize_total d b (len b) Hd Hb ltac:(lia)) as (r & m & Hm & Hok & _ & _).
    exists r, m. split; [done|]. split; [done|]. intros ->. by eapply ndef_deserialize_sound.
Qed.
End NdefFacts.
