(* ===== verification/Envelope.v ===== *)
(** * Card envelope ([src/nfc/store/nfc_store.h] and the buffer routines of [nfc_store.c])

    A stored card is an envelope: a 6-byte header (magic, version, reserved, little-endian
    payload length), a payload of type-length-value entries, one per service, and the CRC-16 of
    everything before it. *)

From stdpp Require Import base list numbers option.
From S2P Require Import Prelude Kconfig Service.

Definition NFC_STORE_BLOB_MAGIC_0 : Z := 0x4E.
Definition NFC_STORE_BLOB_MAGIC_1 : Z := 0x46.
Definition NFC_STORE_BLOB_VERSION_V1 : Z := 0x01.
Definition NFC_STORE_BLOB_VERSION : Z := 0x02.
Definition NFC_STORE_BLOB_HDR_SIZE : Z := 6.
Definition NFC_STORE_BLOB_CRC_SIZE : Z := 2.
Definition NFC_STORE_ENVELOPE_OVERHEAD : Z := NFC_STORE_BLOB_HDR_SIZE + NFC_STORE_BLOB_CRC_SIZE.
Definition NFC_STORE_ENTRY_OVERHEAD_V1 : Z := 3.
Definition NFC_STORE_ENTRY_OVERHEAD : Z := 4.

Definition NFC_STORE_ENTRY_FLAG_READER_CAPTURED : Z := 1.
Definition NFC_STORE_ENTRY_FLAG_HAND_AUTHORED : Z := 2.
Definition NFC_STORE_ENTRY_FLAG_EMULATION_COMPLETE : Z := 4.

(** Zephyr's [crc16_ccitt(seed, src, len)], applied to the [len] bytes; it returns [uint16_t]. *)
Class Crc16 := {
  crc16_ccitt : Z → list Z → Z;
  crc16_range : ∀ seed l, 0 <= crc16_ccitt seed l < 65536;
}.

(** [k_persist_hand_flags] *)
Definition k_persist_hand_flags : list Z :=
  [0; NFC_STORE_ENTRY_FLAG_EMULATION_COMPLETE; NFC_STORE_ENTRY_FLAG_EMULATION_COMPLETE;
   NFC_STORE_ENTRY_FLAG_EMULATION_COMPLETE; NFC_STORE_ENTRY_FLAG_EMULATION_COMPLETE;
   NFC_STORE_ENTRY_FLAG_EMULATION_COMPLETE; 0; 0; 0; 0; 0].

Definition nfc_store_flags_for_persist_id (persist_id : Z) (reader_capture : bool) : option Z :=
  flags ← (if persist_id <=? NFC_PERSIST_ID_MAX then ld k_persist_hand_flags persist_id
           else Some 0);
  Some (if reader_capture then Z.lor flags NFC_STORE_ENTRY_FLAG_READER_CAPTURED
        else Z.lor flags NFC_STORE_ENTRY_FLAG_HAND_AUTHORED).

(** [nfc_store_write_header(buf, buf_max, payload_len, &pos)]: return value, [buf], [pos]. *)
Definition nfc_store_write_header (buf : list Z) (buf_max payload_len pos : Z)
    : option (Z * list Z * Z) :=
  if buf_max <? NFC_STORE_BLOB_HDR_SIZE then Some (- ENOSPC, buf, pos) else
  b ← st buf 0 NFC_STORE_BLOB_MAGIC_0;
  b ← st b 1 NFC_STORE_BLOB_MAGIC_1;
  b ← st b 2 NFC_STORE_BLOB_VERSION;
  b ← st b 3 0;
  b ← st b 4 (lo8 payload_len);
  b ← st b 5 (hi8 payload_len);
  Some (0, b, NFC_STORE_BLOB_HDR_SIZE).

Section Crc.
Context `{Crc16}.

(** [nfc_store_append_crc(buf, buf_max, payload_end, &total)]: return value, [buf], [total]. *)
Definition nfc_store_append_crc (buf : list Z) (buf_max payload_end total : Z)
    : option (Z * list Z * Z) :=
  if buf_max <? payload_end + NFC_STORE_BLOB_CRC_SIZE then Some (- ENOSPC, buf, total) else
  s ← sub buf 0 payload_end;
  let crc := crc16_ccitt 0xFFFF s in
  b ← st buf payload_end (lo8 crc);
  b ← st b (payload_end + 1) (hi8 crc);
  Some (0, b, payload_end + NFC_STORE_BLOB_CRC_SIZE).

(** The checks on the bytes of an envelope, shared by [nfc_store_read_envelope] (on the
    staging buffer) and [nfc_store_validate_blob_buf]: 0 or [-EBADMSG], with the payload
    length and the version once they have been read. *)
Definition check_envelope (blob : list Z) (blen payload_len version : Z)
    : option (Z * Z * Z) :=
  if blen <? NFC_STORE_ENVELOPE_OVERHEAD then Some (- EBADMSG, payload_len, version) else
  b0 ← ld blob 0; b1 ← ld blob 1;
  if negb (b0 =? NFC_STORE_BLOB_MAGIC_0) || negb (b1 =? NFC_STORE_BLOB_MAGIC_1)
  then Some (- EBADMSG, payload_len, version) else
  b2 ← ld blob 2;
  if negb (b2 =? NFC_STORE_BLOB_VERSION) && negb (b2 =? NFC_STORE_BLOB_VERSION_V1)
  then Some (- EBADMSG, payload_len, version) else
  let version := b2 in
  b4 ← ld blob 4; b5 ← ld blob 5;
  let payload_len := le16 b4 b5 in
  if negb (NFC_STORE_BLOB_HDR_SIZE + payload_len + NFC_STORE_BLOB_CRC_SIZE =? blen)
  then Some (- EBADMSG, payload_len, version) else
  c0 ← ld blob (NFC_STORE_BLOB_HDR_SIZE + payload_len);
  c1 ← ld blob (NFC_STORE_BLOB_HDR_SIZE + payload_len + 1);
  let crc_stored := le16 c0 c1 in
  s ← sub blob 0 (NFC_STORE_BLOB_HDR_SIZE + payload_len);
  let crc_calc := crc16_ccitt 0xFFFF s in
  if negb (crc_calc =? crc_stored) then Some (- EBADMSG, payload_len, version)
  else Some (0, payload_len, version).

(** [nfc_store_validate_blob_buf(blob, len, &payload_len, &version)] *)
Definition nfc_store_validate_blob_buf (blob : option (list Z)) (blen payload_len version : Z)
    : option (Z * Z * Z) :=
  match blob with
  | None => Some (- EINVAL, payload_len, version)
  | Some blob => check_envelope blob blen payload_len version
  end.

Definition nfc_store_validate_blob (blob : option (list Z)) (blen : Z) : option Z :=
  '(ret, _, _) ← nfc_store_validate_blob_buf blob blen 0 0; Some ret.
End Crc.

(** ** Specification: well-formed envelopes *)

Record entry := { en_id : Z; en_flags : Z; en_body : list Z }.

Definition encode_entry (version : Z) (e : entry) : list Z :=
  if version =? NFC_STORE_BLOB_VERSION_V1
  then [en_id e; lo8 (len (en_body e)); hi8 (len (en_body e))] ++ en_body e
  else [en_id e; en_flags e; lo8 (len (en_body e)); hi8 (len (en_body e))] ++ en_body e.

Definition encode_entries (version : Z) (es : list entry) : list Z :=
  concat (encode_entry version <$> es).

Definition header (version reserved payload_len : Z) : list Z :=
  [NFC_STORE_BLOB_MAGIC_0; NFC_STORE_BLOB_MAGIC_1; version; reserved;
   lo8 payload_len; hi8 payload_len].

Definition version_ok (v : Z) : Prop := v = NFC_STORE_BLOB_VERSION ∨ v = NFC_STORE_BLOB_VERSION_V1.

Section EnvelopeSpec.
Context `{Crc16}.

Definition seal (body : list Z) : list Z :=
  let crc := crc16_ccitt 0xFFFF body in body ++ [lo8 crc; hi8 crc].

Definition envelope (version reserved : Z) (payload : list Z) : list Z :=
  seal (header version reserved (len payload) ++ payload).

Lemma envelope_len v r p : len (envelope v r p) = 8 + len p.
Proof. unfold envelope, seal. rewrite !len_app. cbn. unfold len. cbn. lia. Qed.

Lemma header_bytes v r n : is_byte v → is_byte r → bytes (header v r n).
Proof.
  intros. unfold header, bytes. rewrite !Forall_cons_iff. split_and!; auto with nfc;
    unfold is_byte, NFC_STORE_BLOB_MAGIC_0, NFC_STORE_BLOB_MAGIC_1; lia.
Qed.

Lemma envelope_bytes v r p : is_byte v → is_byte r → bytes p → bytes (envelope v r p).
Proof.
  intros. unfold envelope, seal. rewrite !bytes_app. split_and!; auto using header_bytes.
  unfold bytes. rewrite !Forall_cons_iff. auto with nfc.
Qed.

(** The checks on an object that starts with a header, a payload of the length the header
    announces, and two more bytes. *)
Lemma check_envelope_eval b0 b1 b2 b3 b4 b5 p c0 c1 rest pl0 v0 :
  le16 b4 b5 = len p →
  let h := [b0; b1; b2; b3; b4; b5] ++ p in
  check_envelope (h ++ c0 :: c1 :: rest) (8 + len p) pl0 v0 =
    if negb (b0 =? NFC_STORE_BLOB_MAGIC_0) || negb (b1 =? NFC_STORE_BLOB_MAGIC_1)
    then Some (- EBADMSG, pl0, v0)
    else if negb (b2 =? NFC_STORE_BLOB_VERSION) && negb (b2 =? NFC_STORE_BLOB_VERSION_V1)
    then Some (- EBADMSG, pl0, v0)
    else if negb (crc16_ccitt 0xFFFF h =? le16 c0 c1) then Some (- EBADMSG, len p, b2)
    else Some (0, len p, b2).
Proof.
  intros Hpl h. pose proof (len_nonneg p).
  unfold check_envelope, NFC_STORE_ENVELOPE_OVERHEAD, NFC_STORE_BLOB_HDR_SIZE,
    NFC_STORE_BLOB_CRC_SIZE.
  rewrite (proj2 (Z.ltb_ge _ _)) by lia.
  assert (len h = 6 + len p) as Hl by (unfold h; rewrite len_app; done).
  assert (length h = Z.to_nat (6 + len p)) as Hl' by (rewrite <-Hl; unfold len; lia).
  set (b := h ++ c0 :: c1 :: rest).
  change (ld b 0) with (Some b0). change (ld b 1) with (Some b1).
  change (ld b 2) with (Some b2). change (ld b 4) with (Some b4).
  change (ld b 5) with (Some b5). mred. rewrite Hpl. subst b.
  case_bool; [done|]. case_bool; [done|]. rewrite (proj2 (Z.eqb_eq _ _)) by lia. cbn [negb].
  rewrite (ld_eq _ (6 + len p) c0), (ld_eq _ (6 + len p + 1) c1); [|lia| |lia|].
  2: { rewrite lookup_app_r by lia. rewrite Hl'.
       by replace (Z.to_nat (6 + len p + 1) - Z.to_nat (6 + len p))%nat with 1%nat by lia. }
  2: { rewrite lookup_app_r by lia. by rewrite Hl', Nat.sub_diag. }
  mred. by rewrite (sub_prefix h) by lia.
Qed.

(** The checks accept an envelope wherever it starts an object. *)
Lemma check_envelope_complete v r p rest pl0 v0 :
  version_ok v → len p < 65536 →
  check_envelope (envelope v r p ++ rest) (len (envelope v r p)) pl0 v0 =
    Some (0, len p, v).
Proof.
  intros Hv Hp. pose proof (len_nonneg p). rewrite envelope_len.
  unfold envelope, seal, header. rewrite <-(assoc_L (++) _ [_; _]).
  etransitivity; [apply check_envelope_eval, le16_split; lia|].
  rewrite le16_split by apply crc16_range. rewrite !Z.eqb_refl.
  destruct Hv as [-> | ->]; done.
Qed.

(** The checks read inside the object. *)
Lemma check_envelope_total b n pl0 v0 :
  0 <= n <= len b →
  ∃ ret pl v, check_envelope b n pl0 v0 = Some (ret, pl, v) ∧
    (ret = 0 ∨ ret = - EBADMSG) ∧
    (ret = 0 → version_ok v ∧ 0 <= pl < 65536 ∧ n = 8 + pl ∧
      pl = le16 (default 0 (b !! 4%nat)) (default 0 (b !! 5%nat))).
Proof.
  intros Hn. unfold check_envelope, NFC_STORE_ENVELOPE_OVERHEAD, NFC_STORE_BLOB_HDR_SIZE,
    NFC_STORE_BLOB_CRC_SIZE.
  assert (∀ pl v, ∃ ret pl' v', Some (- EBADMSG, pl, v) = Some (ret, pl', v') ∧
    (ret = 0 ∨ ret = - EBADMSG) ∧ (ret = 0 → version_ok v' ∧ 0 <= pl' < 65536 ∧ n = 8 + pl' ∧
      pl' = le16 (default 0 (b !! 4%nat)) (default 0 (b !! 5%nat)))) as Hrej.
  { intros pl v. exists (- EBADMSG), pl, v. split; [done|]. split; [by right|done]. }
  case_bool; [apply Hrej|]. bool_prop. ld_case 0 b0; [lia|]. ld_case 1 b1; [lia|].
  case_bool; [apply Hrej|]. ld_case 2 b2; [lia|]. case_bool; [apply Hrej|].
  ld_case 4 b4; [lia|]. ld_case 5 b5; [lia|].
  pose proof (u16_range (Z.lor b4 (Z.shiftl b5 8))). fold (le16 b4 b5) in *.
  case_bool; [apply Hrej|]. bool_prop. ld_case (6 + le16 b4 b5) c0; [lia|]. ld_case (6 + le16 b4 b5 + 1) c1; [lia|].
  rewrite sub_ok by lia. mred. case_bool; [apply Hrej|].
  eexists _, _, _. split; [done|]. split; [by left|]. intros _.
  split; [|split_and!; try lia; apply ld_Some_inv in Hld2 as [_ H4], Hld3 as [_ H5];
    change (Z.to_nat 4) with 4%nat in H4; change (Z.to_nat 5) with 5%nat in H5;
    by rewrite H4, H5].
  unfold version_ok. apply andb_false_iff in E1 as [E1|E1]; bool_prop; auto.
Qed.

(** Accepted bytes are an envelope. *)
Lemma check_envelope_sound b pl v pl0 v0 :
  bytes b → check_envelope b (len b) pl0 v0 = Some (0, pl, v) →
  ∃ r p, b = envelope v r p ∧ len p = pl ∧ version_ok v.
Proof.
  intros Hb Hc.
  destruct (check_envelope_total b (len b) pl0 v0) as (?&?&?&Hc'&_&Hv);
    [pose proof (len_nonneg b); lia|].
  rewrite Hc in Hc'. injection Hc' as <- <- <-.
  destruct (Hv eq_refl) as (Hver & Hpl & Hlen & Hle).
  assert (∃ b0 b1 b2 b3 b4 b5 p c0 c1,
    b = ([b0; b1; b2; b3; b4; b5] ++ p) ++ [c0; c1] ∧ len p = pl)
    as (b0 & b1 & b2 & b3 & b4 & b5 & p & c0 & c1 & -> & Hp).
  { destruct b as [|b0 [|b1 [|b2 [|b3 [|b4 [|b5 q]]]]]];
      autorewrite with len in Hlen; try lia.
    exists b0, b1, b2, b3, b4, b5, (take (Z.to_nat pl) q).
    destruct (drop (Z.to_nat pl) q) as [|c0 [|c1 [|]]] eqn:Ed;
      apply (f_equal len) in Ed as Hld; autorewrite with len in Hld;
      try (pose proof (@len_nonneg Z l)); try lia.
    exists c0, c1. rewrite <-Ed, <-(assoc_L (++)), take_drop. split; [done|]. llia. }
  inv_bytes.
  cbn in Hle.
  rewrite !len_app, Hp in Hc. change (len [_; _; _; _; _; _]) with 6 in Hc.
  change (len [_; _]) with 2 in Hc. replace (6 + pl + 2) with (8 + len p) in Hc by lia.
  rewrite check_envelope_eval in Hc by lia.
  destruct (_ || _) eqn:E1 in Hc; [done|]. destruct (_ && _) eqn:E2 in Hc; [done|].
  destruct (negb _) eqn:E3 in Hc; [done|]. injection Hc as _ <-. bool_prop. subst b0 b1.
  exists b3, p. split; [|done]. unfold envelope, seal, header.
  rewrite Hp, Hle, lo8_le16, hi8_le16 by done. rewrite E3.
  by rewrite lo8_le16, hi8_le16 by done.
Qed.

Lemma validate_blob_total b : bytes b → ∃ ret, nfc_store_validate_blob (Some b) (len b) = Some ret.
Proof.
  intros Hb. pose proof (len_nonneg b).
  destruct (check_envelope_total b (len b) 0 0) as (ret & pl & v & Hc & _); [lia|].
  exists ret. unfold nfc_store_validate_blob, nfc_store_validate_blob_buf. by rewrite Hc.
Qed.

(** C8: Blob validation accepts exactly the well-formed envelopes: on any byte string it
    stays inside the string, and it returns 0 if and only if the string is the magic, a
    known version, any reserved byte, a payload with its little-endian length, and the CRC
    of all of these; otherwise it returns [-EBADMSG]. *)
Theorem validate_blob_exact b :
  bytes b →
  ∃ ret, nfc_store_validate_blob (Some b) (len b) = Some ret ∧
    (ret = 0 ∨ ret = - EBADMSG) ∧
    (ret = 0 ↔ ∃ v r p, version_ok v ∧ len p < 65536 ∧ b = envelope v r p).
Proof.
  intros Hb. pose proof (len_nonneg b).
  destruct (check_envelope_total b (len b) 0 0) as (ret & pl & v & Hc & Hret & Hv); [lia|].
  exists ret. unfold nfc_store_validate_blob, nfc_store_validate_blob_buf.
  rewrite Hc. mred. split; [done|]. split; [done|]. split.
  - intros ->. destruct (Hv eq_refl) as (? & ? & _).
    destruct (check_envelope_sound b pl v 0 0 Hb Hc) as (r & p & -> & <- & _).
    exists v, r, p. split_and!; [done|lia|done].
  - intros (v' & r & p & Hv' & Hp & ->).
    pose proof (check_envelope_complete v' r p [] 0 0 Hv' Hp) as Hc'.
    rewrite app_nil_r in Hc'. congruence.
Qed.
End EnvelopeSpec.
