(* ===== verification/StoreRam.v ===== *)
(** * RAM store backend, slot table ([src/nfc/store/nfc_store_ram.c])

    The slot table and the save and load callbacks, which touch nothing else, and the theorem
    that the table implements a finite map from slot names to blobs of bounded size. *)

From stdpp Require Import base list numbers option gmap.
From S2P Require Import Prelude Kconfig.

Record nfc_store_ram_slot_t := {
  sl_tag : list Z;
  sl_blob : list Z;
  sl_len : Z;
  sl_occupied : bool;
}.

(** The statics of [nfc_store_ram.c]. *)
Record ram := {
  ram_slots : list nfc_store_ram_slot_t;
  ram_ready : bool;
}.

Definition ram_with_slots (l : list nfc_store_ram_slot_t) (m : ram) : ram :=
  {| ram_slots := l; ram_ready := ram_ready m |}.
Definition ram_with_ready (b : bool) (m : ram) : ram :=
  {| ram_slots := ram_slots m; ram_ready := b |}.

Section StoreRam.
Context `{Kconfig}.

Definition ram_boot : ram :=
  {| ram_slots := replicate (Z.to_nat CONFIG_NFC_STORE_RAM_SLOT_COUNT)
       {| sl_tag := zeros CONFIG_NFC_STORE_MAX_TAG_LEN;
          sl_blob := zeros CONFIG_NFC_STORE_BLOB_SIZE; sl_len := 0; sl_occupied := false |};
     ram_ready := false |}.

(** [nfc_store_ram_find_tag] and [nfc_store_ram_find_free]: the loops from index [i] on. *)
Fixpoint find_tag_from (i : Z) (l : list nfc_store_ram_slot_t) (tag : list Z) : Z :=
  match l with
  | [] => -1
  | s :: l' => if sl_occupied s && strcmp_eq (sl_tag s) tag then i
               else find_tag_from (i + 1) l' tag
  end.
Definition nfc_store_ram_find_tag (m : ram) (tag : list Z) : Z :=
  find_tag_from 0 (ram_slots m) tag.

Fixpoint find_free_from (i : Z) (l : list nfc_store_ram_slot_t) : Z :=
  match l with
  | [] => -1
  | s :: l' => if negb (sl_occupied s) then i else find_free_from (i + 1) l'
  end.
Definition nfc_store_ram_find_free (m : ram) : Z := find_free_from 0 (ram_slots m).

Definition reset_slot (s : nfc_store_ram_slot_t) : option nfc_store_ram_slot_t :=
  t ← st (sl_tag s) 0 0;
  Some {| sl_tag := t; sl_blob := sl_blob s; sl_len := 0; sl_occupied := false |}.

Definition nfc_store_ram_reset (m : ram) : option ram :=
  l ← mapM reset_slot (ram_slots m); Some (ram_with_slots l m).

Definition nfc_store_ram_save_cb (tag blob : option (list Z)) (blen : Z) (m : ram)
    : option (Z * ram) :=
  match tag, blob with
  | None, _ | _, None => Some (- EINVAL, m)
  | Some tag, Some blob =>
    let tag_len := strlen tag in
    if (tag_len =? 0) || (CONFIG_NFC_STORE_MAX_TAG_LEN <=? tag_len) then Some (- EINVAL, m)
    else if CONFIG_NFC_STORE_BLOB_SIZE <? blen then Some (- ENOSPC, m) else
    let slot_idx := nfc_store_ram_find_tag m tag in
    let slot_idx := if slot_idx <? 0 then nfc_store_ram_find_free m else slot_idx in
    if slot_idx <? 0 then Some (- ENOSPC, m) else
    s ← ld (ram_slots m) slot_idx;
    t ← strncpy (sl_tag s) tag (CONFIG_NFC_STORE_MAX_TAG_LEN - 1);
    t ← st t (CONFIG_NFC_STORE_MAX_TAG_LEN - 1) 0;
    b ← memcpy (sl_blob s) 0 blob 0 blen;
    l ← st (ram_slots m) slot_idx
          {| sl_tag := t; sl_blob := b; sl_len := blen; sl_occupied := true |};
    Some (0, ram_with_slots l m)
  end.

(** [nfc_store_ram_load_cb(tag, out, max, out_len)]: return value, [*out], [*out_len]. *)
Definition nfc_store_ram_load_cb (tag out : option (list Z)) (max : Z) (out_len : option Z)
    (m : ram) : option (Z * option (list Z) * option Z) :=
  match tag, out, out_len with
  | None, _, _ | _, None, _ | _, _, None => Some (- EINVAL, out, out_len)
  | Some tag, Some o, Some _ =>
    let slot_idx := nfc_store_ram_find_tag m tag in
    if slot_idx <? 0 then Some (- ENOENT, out, out_len) else
    s ← ld (ram_slots m) slot_idx;
    let n := sl_len s in
    if max <? n then Some (- ENOSPC, out, out_len) else
    o ← memcpy o 0 (sl_blob s) 0 n;
    Some (0, Some o, Some n)
  end.
End StoreRam.

(** ** The map the slots implement *)

Section RamFacts.
Context `{KconfigRanges}.

Record slot_ok (s : nfc_store_ram_slot_t) : Prop := {
  so_tag : len (sl_tag s) = CONFIG_NFC_STORE_MAX_TAG_LEN;
  so_blob : len (sl_blob s) = CONFIG_NFC_STORE_BLOB_SIZE;
  so_len : 0 <= sl_len s <= CONFIG_NFC_STORE_BLOB_SIZE;
  so_bytes : bytes (sl_blob s);
  so_terminated : sl_occupied s = true → strlen (sl_tag s) < CONFIG_NFC_STORE_MAX_TAG_LEN;
}.

Definition slot_name (s : nfc_store_ram_slot_t) : list Z := c_str (sl_tag s).
Definition slot_data (s : nfc_store_ram_slot_t) : list Z :=
  take (Z.to_nat (sl_len s)) (sl_blob s).

Definition occupied (l : list nfc_store_ram_slot_t) : list nfc_store_ram_slot_t :=
  filter (λ s, sl_occupied s = true) l.

(** The abstract store. *)
Definition ram_map (m : ram) : gmap (list Z) (list Z) :=
  list_to_map ((λ s, (slot_name s, slot_data s)) <$> occupied (ram_slots m)).

(** The invariant: slot sizes, and no two occupied slots under one name. *)
Record ram_ok (m : ram) : Prop := {
  ram_count : len (ram_slots m) = CONFIG_NFC_STORE_RAM_SLOT_COUNT;
  ram_sizes : Forall slot_ok (ram_slots m);
  ram_names : NoDup (slot_name <$> occupied (ram_slots m));
}.

Lemma occupied_app l1 l2 : occupied (l1 ++ l2) = occupied l1 ++ occupied l2.
Proof. apply filter_app. Qed.

Lemma occupied_cons s l :
  occupied (s :: l) = if sl_occupied s then s :: occupied l else occupied l.
Proof.
  unfold occupied. rewrite filter_cons. case_decide as E; [by rewrite E|].
  by destruct (sl_occupied s).
Qed.

(** The two searches. *)
Lemma find_tag_from_spec l tag i :
  (find_tag_from i l tag = -1 ∧
     Forall (λ s, sl_occupied s = true → slot_name s ≠ c_str tag) l) ∨
  (∃ (n : nat) s, find_tag_from i l tag = i + Z.of_nat n ∧ l !! n = Some s ∧
     sl_occupied s = true ∧ slot_name s = c_str tag).
Proof.
  revert i. induction l as [|s l IH]; intros i; [by left|]. cbn.
  destruct (sl_occupied s && strcmp_eq (sl_tag s) tag) eqn:E.
  - right. unfold strcmp_eq in E. bool_prop. exists 0%nat, s. split_and!; [lia|done..].
  - destruct (IH (i + 1)) as [[-> Hl]|(n & s' & -> & Hn)].
    + left. split; [done|]. constructor; [|done]. intros Ho. rewrite Ho in E.
      unfold strcmp_eq in E. cbn in E. by bool_prop.
    + right. exists (S n), s'. split; [lia|done].
Qed.

Lemma find_free_from_spec l i :
  (find_free_from i l = -1 ∧ occupied l = l) ∨
  (∃ (n : nat) s, find_free_from i l = i + Z.of_nat n ∧ l !! n = Some s ∧
     sl_occupied s = false).
Proof.
  revert i. induction l as [|s l IH]; intros i; [by left|].
  cbn [find_free_from]. destruct (sl_occupied s) eqn:E; cbn [negb].
  - destruct (IH (i + 1)) as [[-> Hl]|(n & s' & -> & Hn)].
    + left. split; [done|]. by rewrite occupied_cons, E, Hl.
    + right. exists (S n), s'. split; [lia|done].
  - right. exists 0%nat, s. split; [lia|done].
Qed.

Lemma occupied_length l : (length (occupied l) <= length l)%nat.
Proof. apply length_filter. Qed.

Lemma ram_map_size m : ram_ok m → size (ram_map m) = length (occupied (ram_slots m)).
Proof.
  intros Hm. unfold ram_map. rewrite map_size_list_to_map, length_fmap; [done|].
  rewrite <-list_fmap_compose. apply Hm.
Qed.

Lemma ram_map_notin m k :
  Forall (λ s, sl_occupied s = true → slot_name s ≠ k) (ram_slots m) →
  k ∉ slot_name <$> occupied (ram_slots m).
Proof.
  rewrite Forall_forall. intros Hl (s & -> & Hs)%list_elem_of_fmap.
  apply list_elem_of_filter in Hs as [Ho Hs]. exact (Hl s Hs Ho eq_refl).
Qed.

(** Writing slot [n] with an occupied slot named [k]: either it replaces the slot of that
    name, or the slot was free and the name unused. *)
Lemma ram_write m n s s' :
  ram_ok m → ram_slots m !! n = Some s → slot_ok s' → sl_occupied s' = true →
  (sl_occupied s = true ∧ slot_name s = slot_name s') ∨
  (sl_occupied s = false ∧ slot_name s' ∉ slot_name <$> occupied (ram_slots m)) →
  let m' := ram_with_slots (<[n := s']> (ram_slots m)) m in
  ram_ok m' ∧ ram_map m' = <[slot_name s' := slot_data s']> (ram_map m).
Proof.
  intros Hm Hn Hs' Ho' Hcase m'. destruct Hm as [Hc Hz Hd].
  set (l1 := take n (ram_slots m)). set (l2 := drop (S n) (ram_slots m)).
  assert (ram_slots m = l1 ++ s :: l2) as Hl by (symmetry; by apply take_drop_middle).
  assert (ram_slots m' = l1 ++ s' :: l2) as Hl'.
  { cbn. rewrite insert_take_drop by (by eapply lookup_lt_Some). done. }
  set (kv := λ s : nfc_store_ram_slot_t, (slot_name s, slot_data s)).
  set (rest := occupied l1 ++ occupied l2).
  assert (occupied (ram_slots m') ≡ₚ s' :: rest) as Hp'.
  { rewrite Hl', occupied_app, occupied_cons, Ho'. symmetry. apply Permutation_middle. }
  assert (NoDup (slot_name <$> s' :: rest) ∧
    <[slot_name s' := slot_data s']> (ram_map m) =
    list_to_map (kv <$> s' :: rest)) as [Hnd Hmap].
  { unfold ram_map. fold kv. cbn [fmap list_fmap list_to_map foldr]. fold kv.
    rewrite Hl, occupied_app, occupied_cons in *. cbn [fst snd kv].
    destruct Hcase as [[Hos Hname]|[Hos Hname]]; rewrite Hos in *.
    - assert (NoDup (slot_name <$> s :: rest)) as Hnd.
      { revert Hd. apply NoDup_Permutation_proper, fmap_Permutation, Permutation_middle. }
      split; [rewrite <-Hname; exact Hnd|].
      rewrite (list_to_map_proper _ (kv <$> s :: rest)).
      + cbn. rewrite Hname. by rewrite insert_insert_eq.
      + rewrite <-list_fmap_compose. apply Hd.
      + symmetry. apply fmap_Permutation, Permutation_middle.
    - fold rest in Hd, Hname |- *. split; [by constructor|done]. }
  split; [constructor|].
  - cbn. by rewrite len_insert.
  - cbn. by apply Forall_insert.
  - revert Hnd. apply NoDup_Permutation_proper. by rewrite Hp'.
  - rewrite Hmap. unfold ram_map. fold kv. apply list_to_map_proper.
    + rewrite <-list_fmap_compose. change (fst ∘ kv) with slot_name.
      revert Hnd. apply NoDup_Permutation_proper. by rewrite Hp'.
    + by rewrite Hp'.
Qed.

Definition tag_ok (tag : list Z) : Prop := 0 < strlen tag < CONFIG_NFC_STORE_MAX_TAG_LEN.

(** The slot [nfc_store_ram_save_cb] chooses, if any. *)
Lemma ram_choose_slot m tag :
  ram_ok m →
  let i := nfc_store_ram_find_tag m tag in
  let idx := if i <? 0 then nfc_store_ram_find_free m else i in
  (idx = -1 ∧ ram_map m !! c_str tag = None ∧
     Z.of_nat (size (ram_map m)) = CONFIG_NFC_STORE_RAM_SLOT_COUNT) ∨
  (∃ (n : nat) s, idx = Z.of_nat n ∧ ram_slots m !! n = Some s ∧
     ((sl_occupied s = true ∧ slot_name s = c_str tag) ∨
      (sl_occupied s = false ∧ c_str tag ∉ slot_name <$> occupied (ram_slots m))) ∧
     (is_Some (ram_map m !! c_str tag) ∨
      Z.of_nat (size (ram_map m)) < CONFIG_NFC_STORE_RAM_SLOT_COUNT)).
Proof.
  intros Hm i idx. pose proof (ram_count m Hm) as Hc. rewrite (ram_map_size m Hm).
  destruct (find_tag_from_spec (ram_slots m) tag 0) as [[Hi Hno]|(n & s & Hi & Hs & Ho & Hn)].
  - apply ram_map_notin in Hno as Hk.
    assert (i = -1) as Hi' by done. unfold idx. rewrite Hi'. cbn [Z.ltb Z.compare].
    unfold nfc_store_ram_find_free.
    destruct (find_free_from_spec (ram_slots m) 0) as [[-> Hf]|(n & s & -> & Hs & Ho)].
    + left. split; [done|]. rewrite Hf. split; [|done].
      apply not_elem_of_list_to_map. by rewrite <-list_fmap_compose.
    + right. exists n, s. split; [lia|]. split; [done|]. split; [by right|]. right.
      rewrite <-Hc. unfold len. apply Nat2Z.inj_lt.
      rewrite <-(take_drop_middle _ _ _ Hs), occupied_app, occupied_cons, Ho.
      rewrite !length_app. cbn [length].
      pose proof (occupied_length (take n (ram_slots m))).
      pose proof (occupied_length (drop (S n) (ram_slots m))). lia.
  - right. exists n, s. assert (i = Z.of_nat n) as Hi' by (unfold i, nfc_store_ram_find_tag; lia).
    unfold idx. rewrite Hi', (proj2 (Z.ltb_ge _ _)) by lia.
    split; [done|]. split; [done|]. split; [by left|]. left.
    destruct (ram_map m !! c_str tag) eqn:E; [eauto|].
    apply not_elem_of_list_to_map_2 in E. destruct E. rewrite <-list_fmap_compose.
    apply list_elem_of_fmap. exists s. split; [by rewrite <-Hn|].
    apply list_elem_of_filter. split; [done|]. by eapply list_elem_of_lookup_2.
Qed.

Lemma ram_save_spec m tag blob n :
  ram_ok m → tag_ok tag → bytes blob → 0 <= n <= len blob →
  ∃ ret m', nfc_store_ram_save_cb (Some tag) (Some blob) n m = Some (ret, m') ∧ ram_ok m' ∧
    if (n <=? CONFIG_NFC_STORE_BLOB_SIZE) &&
       bool_decide (is_Some (ram_map m !! c_str tag) ∨
                    Z.of_nat (size (ram_map m)) < CONFIG_NFC_STORE_RAM_SLOT_COUNT)
    then ret = 0 ∧ ram_map m' = <[c_str tag := take (Z.to_nat n) blob]> (ram_map m) ∧
         ram_ready m' = ram_ready m
    else ret = - ENOSPC ∧ m' = m.
Proof.
  intros Hm Ht Hbb Hn. unfold tag_ok in Ht. unfold nfc_store_ram_save_cb.
  rewrite (proj2 (Z.eqb_neq _ _)), (proj2 (Z.leb_gt _ _)) by lia. cbn [orb].
  pose proof blob_size_range. pose proof max_tag_len_range.
  destruct (Z.leb_spec n CONFIG_NFC_STORE_BLOB_SIZE) as [Hle|Hgt]; cbn [andb];
    [|rewrite (proj2 (Z.ltb_lt _ _)) by lia; by exists (- ENOSPC), m].
  rewrite (proj2 (Z.ltb_ge _ _)) by lia.
  destruct (ram_choose_slot m tag Hm) as [(-> & Hk & Hsz)|(k & s & -> & Hs & Hcase & Hroom)].
  { cbn [Z.ltb Z.compare]. rewrite bool_decide_false; [by exists (- ENOSPC), m|]. rewrite Hk.
    intros [[? ?]|?]; [done|lia]. }
  rewrite bool_decide_true by done. rewrite (proj2 (Z.ltb_ge _ _)) by lia.
  rewrite (ld_eq _ _ s) by (rewrite ?Nat2Z.id; lia || done). mred.
  destruct (Forall_lookup_1 _ _ _ _ (ram_sizes m Hm) Hs) as [Hst Hsb Hsl Hbs _].
  destruct (strncpy_c_str (sl_tag s) tag (CONFIG_NFC_STORE_MAX_TAG_LEN - 1))
    as (t & -> & Htl & Htc); [lia..|]. mred.
  rewrite st_ok in Htc |- * by lia. mred. specialize (Htc _ eq_refl).
  rewrite memcpy_prefix, blit_ok by llia. mred.
  rewrite st_ok by (apply lookup_lt_Some in Hs; unfold len; lia). mred.
  rewrite Nat2Z.id.
  set (s' := {| sl_tag := <[_ := 0]> t; sl_blob := _; sl_len := n; sl_occupied := true |}).
  assert (slot_name s' = c_str tag) as Hname by done.
  assert (slot_data s' = take (Z.to_nat n) blob) as Hdata.
  { unfold slot_data, s'. cbn [sl_len sl_blob]. change (Z.to_nat 0) with 0%nat.
    rewrite take_0, app_nil_l. apply take_app_length'. llia. }
  destruct (ram_write m k s s' Hm Hs) as [Hok Hmap].
  - constructor; unfold s'; cbn [sl_tag sl_blob sl_len]; [by rewrite len_insert; lia|llia|lia| |].
    + rewrite !bytes_app. auto with nfc.
    + intros _. unfold slot_name, s' in Hname. cbn [sl_tag] in Hname. unfold strlen. rewrite Hname. apply Ht.
  - done.
  - rewrite Hname. exact Hcase.
  - eexists _, _. split; [done|]. split; [exact Hok|]. split; [done|].
    split; [|done]. by rewrite Hmap, Hname, Hdata.
Qed.

Lemma ram_load_spec m tag out n0 :
  ram_ok m →
  nfc_store_ram_load_cb (Some tag) (Some out) (len out) (Some n0) m =
    match ram_map m !! c_str tag with
    | None => Some (- ENOENT, Some out, Some n0)
    | Some d => if len out <? len d then Some (- ENOSPC, Some out, Some n0)
                else Some (0, Some (d ++ drop (length d) out), Some (len d))
    end.
Proof.
  intros Hm. unfold nfc_store_ram_load_cb, nfc_store_ram_find_tag.
  destruct (find_tag_from_spec (ram_slots m) tag 0) as [[-> Hno]|(k & s & -> & Hs & Ho & Hn)].
  - cbn [Z.ltb Z.compare]. unfold ram_map. rewrite not_elem_of_list_to_map_1; [done|].
    rewrite <-list_fmap_compose. by apply ram_map_notin.
  - rewrite (proj2 (Z.ltb_ge _ _)) by lia. rewrite (ld_eq _ _ s) by (lia ||
      by replace (Z.to_nat (0 + Z.of_nat k)) with k by lia). mred.
    destruct (Forall_lookup_1 _ _ _ _ (ram_sizes m Hm) Hs) as [Hst Hsb Hsl Hbs].
    assert (ram_map m !! c_str tag = Some (slot_data s)) as ->.
    { apply elem_of_list_to_map_1.
      - rewrite <-list_fmap_compose. apply Hm.
      - apply list_elem_of_fmap. exists s. split; [by rewrite <-Hn|].
        apply list_elem_of_filter. split; [done|]. by eapply list_elem_of_lookup_2. }
    assert (len (slot_data s) = sl_len s) as Hl by (unfold slot_data; llia).
    rewrite Hl. case_bool; [done|]. bool_prop.
    rewrite memcpy_prefix by lia. fold (slot_data s). rewrite blit_ok by lia. mred.
    change (Z.to_nat 0) with 0%nat. rewrite take_0, app_nil_l.
    replace (Z.to_nat (0 + len (slot_data s))) with (length (slot_data s)) by llia.
    done.
Qed.
Lemma ram_boot_ok : ram_ok ram_boot.
Proof.
  pose proof slot_count_range. pose proof blob_size_range. pose proof max_tag_len_range.
  assert (∀ n, occupied (replicate n {| sl_tag := zeros CONFIG_NFC_STORE_MAX_TAG_LEN;
    sl_blob := zeros CONFIG_NFC_STORE_BLOB_SIZE; sl_len := 0; sl_occupied := false |}) = []) as Ho.
  { induction n as [|n IH]; [done|]. cbn [replicate]. by rewrite occupied_cons. }
  constructor; cbn.
  - rewrite len_replicate. lia.
  - apply Forall_replicate. constructor; cbn; [apply len_zeros; lia..|lia|apply bytes_zeros|done].
  - rewrite Ho. constructor.
Qed.

Lemma ram_ready_ok b m : ram_ok m → ram_ok (ram_with_ready b m).
Proof. by intros []. Qed.

(** Saving under any name, with any bytes. *)
Lemma ram_save_any m tag blob : ram_ok m → bytes blob →
  ∃ ret m', nfc_store_ram_save_cb tag (Some blob) (len blob) m = Some (ret, m') ∧ ram_ok m'.
Proof.
  intros Hm Hb. pose proof (len_nonneg blob). destruct tag as [tag|]; [|by exists (- EINVAL), m].
  destruct (decide (tag_ok tag)) as [Ht|Ht].
  - destruct (ram_save_spec m tag blob (len blob) Hm Ht Hb ltac:(lia)) as (ret & m' & Hs & Hok & _).
    by exists ret, m'.
  - exists (- EINVAL), m. split; [|done]. unfold nfc_store_ram_save_cb.
    destruct (Z.eqb_spec (strlen tag) 0), (Z.leb_spec CONFIG_NFC_STORE_MAX_TAG_LEN (strlen tag)); try done.
    destruct Ht. pose proof (len_nonneg (c_str tag)). unfold tag_ok, strlen in *. lia.
Qed.

(** Resetting the backend removes every card. *)
Lemma reset_slots_spec l : Forall slot_ok l → 
  ∃ l', mapM reset_slot l = Some l' ∧ len l' = len l ∧ Forall slot_ok l' ∧ occupied l' = [].
Proof.
  pose proof max_tag_len_range. induction 1 as [|s l Hs _ (l' & Hl & Hn & Hok & Ho)]; [by exists []|].
  destruct Hs as [Ht Hd [Hl1 Hl2] Hb _]. destruct (st (sl_tag s) 0 0) as [t|] eqn:Et; [|rewrite st_ok in Et by lia; done].
  assert (len t = CONFIG_NFC_STORE_MAX_TAG_LEN) as Hlt by (rewrite st_ok in Et by lia; injection Et as <-; by rewrite len_insert).
  assert (reset_slot s = Some {| sl_tag := t; sl_blob := sl_blob s; sl_len := 0; sl_occupied := false |})
    as Hr by (unfold reset_slot; by rewrite Et).
  cbn [mapM]. rewrite Hr. cbn. rewrite Hl. cbn.
  eexists. split; [done|]. split; [llia|]. split; [|by rewrite occupied_cons].
  constructor; [|done]. constructor; cbn; [done|done|lia|done|done].
Qed.

Lemma ram_reset_spec m : ram_ok m →
  ∃ m', nfc_store_ram_reset m = Some m' ∧ ram_ok m' ∧ ram_map m' = ∅.
Proof.
  intros [Hc Hs _]. destruct (reset_slots_spec (ram_slots m) Hs) as (l' & Hl & Hn & Hok & Ho).
  unfold nfc_store_ram_reset. rewrite Hl. eexists. split; [done|]. split.
  - constructor; cbn [ram_slots ram_with_slots]; [by rewrite Hn|done|]. rewrite Ho. constructor.
  - unfold ram_map. cbn [ram_slots ram_with_slots]. by rewrite Ho.
Qed.

Lemma ram_map_bytes m k d : ram_ok m → ram_map m !! k = Some d →
  bytes d ∧ len d <= CONFIG_NFC_STORE_BLOB_SIZE.
Proof.
  intros Hm Hd. apply elem_of_list_to_map_2, list_elem_of_fmap in Hd as (s & [= -> ->] & Hs).
  apply list_elem_of_filter in Hs as [_ Hs]. apply list_elem_of_lookup_1 in Hs as [i Hs].
  destruct (Forall_lookup_1 _ _ _ _ (ram_sizes m Hm) Hs) as [? ? ? ? ?].
  unfold slot_data. split; [by apply bytes_take|llia].
Qed.

(** C9: The RAM backend implements a finite map of at most [CONFIG_NFC_STORE_RAM_SLOT_COUNT]
    names. Saving under a legal name never leaves its objects and keeps the slot invariant; it
    refuses blobs larger than a slot, and new names when all slots are taken, with [-ENOSPC] and
    no change; otherwise it returns 0 and the map is updated at that name only. Loading looks the
    name up in the same map: a missing name gives [-ENOENT], a blob larger than the caller's
    buffer [-ENOSPC], and otherwise the blob is copied to the start of the buffer and its length
    reported, the rest of the buffer unchanged. *)
Theorem ram_backend_refines m tag : ram_ok m →
  (∀ blob n, tag_ok tag → bytes blob → 0 <= n <= len blob →
    ∃ ret m', nfc_store_ram_save_cb (Some tag) (Some blob) n m = Some (ret, m') ∧ ram_ok m' ∧
      if (n <=? CONFIG_NFC_STORE_BLOB_SIZE) &&
         bool_decide (is_Some (ram_map m !! c_str tag) ∨
                      Z.of_nat (size (ram_map m)) < CONFIG_NFC_STORE_RAM_SLOT_COUNT)
      then ret = 0 ∧ ram_map m' = <[c_str tag := take (Z.to_nat n) blob]> (ram_map m) ∧
           ram_ready m' = ram_ready m
      else ret = - ENOSPC ∧ m' = m) ∧
  (∀ out n0, nfc_store_ram_load_cb (Some tag) (Some out) (len out) (Some n0) m =
    match ram_map m !! c_str tag with
    | None => Some (- ENOENT, Some out, Some n0)
    | Some d => if len out <? len d then Some (- ENOSPC, Some out, Some n0)
                else Some (0, Some (d ++ drop (length d) out), Some (len d))
    end).
Proof. intros Hm. split; intros; [by apply ram_save_spec|by apply ram_load_spec]. Qed.
End RamFacts.
