(* ===== verification/World.v ===== *)
(** * The state of the stack

    The static data of the modules whose code calls other modules, and the whole state: one
    record of the statics of every modelled module, and the environment [E], which holds the
    transport, the buffer pool and anything else outside the model.  The interface of the
    environment is [Platform]. *)

From stdpp Require Import base list numbers option.
From S2P Require Import Prelude Kconfig Transport Stats Apdu Service Router Ndef Envelope StoreRam.

(** ** [apdu_assembler.c] *)

Inductive asm_stat :=
  | as_error_count | as_last_error_code | as_apdu_rx_count | as_apdu_parse_ok_count
  | as_apdu_parse_reject_count | as_field_on_count | as_field_off_count.
#[global] Instance asm_stat_eq_dec : EqDecision asm_stat.
Proof. solve_decision. Defined.
#[global] Instance asm_stat_fields : StatFields asm_stat.
Proof. by refine {| error_count := as_error_count; last_error_code := as_last_error_code |}. Defined.

Inductive apdu_assembler_state_t :=
  APDU_ASSEMBLER_STATE_UNINITIALIZED | APDU_ASSEMBLER_STATE_INITIALIZED.
#[global] Instance apdu_assembler_state_eq_dec : EqDecision apdu_assembler_state_t.
Proof. solve_decision. Defined.

Record assembler := {
  a_extended : bool;
  a_stats : stats asm_stat;
  a_state : apdu_assembler_state_t;
}.

Definition a_inc (f : asm_stat) (a : assembler) : assembler :=
  {| a_extended := a_extended a; a_stats := STATS_INC (a_stats a) f; a_state := a_state a |}.

(** ** [nfc_store.c] *)

Inductive store_stat :=
  | ss_error_count | ss_last_error_code | ss_save_count | ss_load_count
  | ss_serialize_skip_count | ss_deserialize_skip_count | ss_corrupt_blob_count
  | ss_partial_load_count | ss_live_commit_count.
#[global] Instance store_stat_eq_dec : EqDecision store_stat.
Proof. solve_decision. Defined.
#[global] Instance store_stat_fields : StatFields store_stat.
Proof. by refine {| error_count := ss_error_count; last_error_code := ss_last_error_code |}. Defined.

Inductive nfc_store_state_t := NFC_STORE_STATE_UNINITIALIZED | NFC_STORE_STATE_INITIALIZED.
#[global] Instance nfc_store_state_eq_dec : EqDecision nfc_store_state_t.
Proof. solve_decision. Defined.

(** The functions a callback pointer of the store can hold: the module's inert defaults, the
    RAM backend's, or one supplied by the application. *)
Inductive store_fn := FN_DEFAULT | FN_RAM | FN_APP (n : nat).
#[global] Instance store_fn_eq_dec : EqDecision store_fn.
Proof. solve_decision. Defined.

Record store := {
  s_cfg_max_tag_len : Z;
  s_stats : stats store_stat;
  s_state : nfc_store_state_t;
  s_staging_buf : list Z;
  s_serialize_buf : list Z;
  s_save_cb : option store_fn;
  s_load_cb : option store_fn;
  s_commit_cb : option store_fn;
  s_resolved_max_tag_len : Z;
}.

Definition s_with_stats (x : stats store_stat) (s : store) : store :=
  {| s_cfg_max_tag_len := s_cfg_max_tag_len s; s_stats := x; s_state := s_state s;
     s_staging_buf := s_staging_buf s; s_serialize_buf := s_serialize_buf s;
     s_save_cb := s_save_cb s; s_load_cb := s_load_cb s; s_commit_cb := s_commit_cb s;
     s_resolved_max_tag_len := s_resolved_max_tag_len s |}.
Definition s_with_staging (b : list Z) (s : store) : store :=
  {| s_cfg_max_tag_len := s_cfg_max_tag_len s; s_stats := s_stats s; s_state := s_state s;
     s_staging_buf := b; s_serialize_buf := s_serialize_buf s;
     s_save_cb := s_save_cb s; s_load_cb := s_load_cb s; s_commit_cb := s_commit_cb s;
     s_resolved_max_tag_len := s_resolved_max_tag_len s |}.
Definition s_with_serialize_buf (b : list Z) (s : store) : store :=
  {| s_cfg_max_tag_len := s_cfg_max_tag_len s; s_stats := s_stats s; s_state := s_state s;
     s_staging_buf := s_staging_buf s; s_serialize_buf := b;
     s_save_cb := s_save_cb s; s_load_cb := s_load_cb s; s_commit_cb := s_commit_cb s;
     s_resolved_max_tag_len := s_resolved_max_tag_len s |}.
Definition s_with_cbs (sv ld cm : option store_fn) (st : nfc_store_state_t) (s : store) : store :=
  {| s_cfg_max_tag_len := s_cfg_max_tag_len s; s_stats := s_stats s; s_state := st;
     s_staging_buf := s_staging_buf s; s_serialize_buf := s_serialize_buf s;
     s_save_cb := sv; s_load_cb := ld; s_commit_cb := cm;
     s_resolved_max_tag_len := s_resolved_max_tag_len s |}.
Definition s_inc (f : store_stat) (s : store) : store :=
  s_with_stats (STATS_INC (s_stats s) f) s.
Definition s_error (code : Z) (s : store) : store :=
  s_with_stats (STATS_ERROR (s_stats s) code) s.

(** ** [nfc_stack.c] *)

Inductive stack_stat :=
  | ks_error_count | ks_last_error_code | ks_start_count | ks_stop_count | ks_load_count
  | ks_save_count.
#[global] Instance stack_stat_eq_dec : EqDecision stack_stat.
Proof. solve_decision. Defined.
#[global] Instance stack_stat_fields : StatFields stack_stat.
Proof. by refine {| error_count := ks_error_count; last_error_code := ks_last_error_code |}. Defined.

Inductive nfc_stack_state_t :=
  | NFC_STACK_STATE_UNINITIALIZED
  | NFC_STACK_STATE_INITIALIZED
  | NFC_STACK_STATE_STARTED
  | NFC_STACK_STATE_STOPPED
  | NFC_STACK_STATE_ERROR.
#[global] Instance nfc_stack_state_eq_dec : EqDecision nfc_stack_state_t.
Proof. solve_decision. Defined.

Record stack := {
  k_default_profile : Z;
  k_stats : stats stack_stat;
  k_state : nfc_stack_state_t;
  k_active_tag : list Z;
}.

Definition k_with_stats (x : stats stack_stat) (k : stack) : stack :=
  {| k_default_profile := k_default_profile k; k_stats := x; k_state := k_state k;
     k_active_tag := k_active_tag k |}.
Definition k_with_state (x : nfc_stack_state_t) (k : stack) : stack :=
  {| k_default_profile := k_default_profile k; k_stats := k_stats k; k_state := x;
     k_active_tag := k_active_tag k |}.
Definition k_with_tag (t : list Z) (k : stack) : stack :=
  {| k_default_profile := k_default_profile k; k_stats := k_stats k; k_state := k_state k;
     k_active_tag := t |}.
Definition k_inc (f : stack_stat) (k : stack) : stack :=
  k_with_stats (STATS_INC (k_stats k) f) k.
Definition k_error (code : Z) (k : stack) : stack :=
  k_with_stats (STATS_ERROR (k_stats k) code) k.

(** ** [ndef_listener.c] *)

Inductive ndef_file_sel_t := NDEF_FILE_NONE | NDEF_FILE_CC | NDEF_FILE_NDEF.
#[global] Instance ndef_file_sel_eq_dec : EqDecision ndef_file_sel_t.
Proof. solve_decision. Defined.

Record ndef_listener := {
  nl_model : ndef_data_t;
  nl_writable : bool;
  nl_initialized : bool;
  nl_file_sel : ndef_file_sel_t;
  nl_response_buf : list Z;
}.

Definition nl_with_model (m : ndef_data_t) (l : ndef_listener) : ndef_listener :=
  {| nl_model := m; nl_writable := nl_writable l; nl_initialized := nl_initialized l;
     nl_file_sel := nl_file_sel l; nl_response_buf := nl_response_buf l |}.
Definition nl_with_sel (x : ndef_file_sel_t) (l : ndef_listener) : ndef_listener :=
  {| nl_model := nl_model l; nl_writable := nl_writable l; nl_initialized := nl_initialized l;
     nl_file_sel := x; nl_response_buf := nl_response_buf l |}.
Definition nl_with_response (b : list Z) (l : ndef_listener) : ndef_listener :=
  {| nl_model := nl_model l; nl_writable := nl_writable l; nl_initialized := nl_initialized l;
     nl_file_sel := nl_file_sel l; nl_response_buf := b |}.

(** ** The whole state *)

Record world (E : Type) := {
  w_env : E;
  w_asm : assembler;
  w_router : router;
  w_store : store;
  w_ram : ram;
  w_stack : stack;
  w_ndef : ndef_listener;
}.
Arguments w_env {E} _.
Arguments w_asm {E} _.
Arguments w_router {E} _.
Arguments w_store {E} _.
Arguments w_ram {E} _.
Arguments w_stack {E} _.
Arguments w_ndef {E} _.

Section Setters.
Context {E : Type}.
Definition set_env (x : E) (w : world E) : world E :=
  {| w_env := x; w_asm := w_asm w; w_router := w_router w; w_store := w_store w;
     w_ram := w_ram w; w_stack := w_stack w; w_ndef := w_ndef w |}.
Definition set_asm (x : assembler) (w : world E) : world E :=
  {| w_env := w_env w; w_asm := x; w_router := w_router w; w_store := w_store w;
     w_ram := w_ram w; w_stack := w_stack w; w_ndef := w_ndef w |}.
Definition set_router (x : router) (w : world E) : world E :=
  {| w_env := w_env w; w_asm := w_asm w; w_router := x; w_store := w_store w;
     w_ram := w_ram w; w_stack := w_stack w; w_ndef := w_ndef w |}.
Definition set_store (x : store) (w : world E) : world E :=
  {| w_env := w_env w; w_asm := w_asm w; w_router := w_router w; w_store := x;
     w_ram := w_ram w; w_stack := w_stack w; w_ndef := w_ndef w |}.
Definition set_ram (x : ram) (w : world E) : world E :=
  {| w_env := w_env w; w_asm := w_asm w; w_router := w_router w; w_store := w_store w;
     w_ram := x; w_stack := w_stack w; w_ndef := w_ndef w |}.
Definition set_stack (x : stack) (w : world E) : world E :=
  {| w_env := w_env w; w_asm := w_asm w; w_router := w_router w; w_store := w_store w;
     w_ram := w_ram w; w_stack := x; w_ndef := w_ndef w |}.
Definition set_ndef (x : ndef_listener) (w : world E) : world E :=
  {| w_env := w_env w; w_asm := w_asm w; w_router := w_router w; w_store := w_store w;
     w_ram := w_ram w; w_stack := w_stack w; w_ndef := x |}.

Definition upd_asm (f : assembler → assembler) : M (world E) unit :=
  modify (λ w, set_asm (f (w_asm w)) w).
Definition upd_router (f : router → router) : M (world E) unit :=
  modify (λ w, set_router (f (w_router w)) w).
Definition upd_store (f : store → store) : M (world E) unit :=
  modify (λ w, set_store (f (w_store w)) w).
Definition upd_ram (f : ram → ram) : M (world E) unit :=
  modify (λ w, set_ram (f (w_ram w)) w).
Definition upd_stack (f : stack → stack) : M (world E) unit :=
  modify (λ w, set_stack (f (w_stack w)) w).
Definition upd_ndef (f : ndef_listener → ndef_listener) : M (world E) unit :=
  modify (λ w, set_ndef (f (w_ndef w)) w).
End Setters.

Section RunUpd.
Context {E B : Type}.
Implicit Types (k : unit → M (world E) B).
Lemma run_upd_asm f k w : (upd_asm f ≫= k) w = k tt (set_asm (f (w_asm w)) w).
Proof. done. Qed.
Lemma run_upd_router f k w : (upd_router f ≫= k) w = k tt (set_router (f (w_router w)) w).
Proof. done. Qed.
Lemma run_upd_store f k w : (upd_store f ≫= k) w = k tt (set_store (f (w_store w)) w).
Proof. done. Qed.
Lemma run_upd_ram f k w : (upd_ram f ≫= k) w = k tt (set_ram (f (w_ram w)) w).
Proof. done. Qed.
Lemma run_upd_stack f k w : (upd_stack f ≫= k) w = k tt (set_stack (f (w_stack w)) w).
Proof. done. Qed.
Lemma run_upd_ndef f k w : (upd_ndef f ≫= k) w = k tt (set_ndef (f (w_ndef w)) w).
Proof. done. Qed.
End RunUpd.

(** [wred]: takes the known steps at the head of a computation and reads the state. *)
Ltac wred :=
  repeat (cbv beta;
          first [ run_step | rewrite run_upd_asm | rewrite run_upd_router | rewrite run_upd_store
                | rewrite run_upd_ram | rewrite run_upd_stack | rewrite run_upd_ndef ]);
  cbn [fst snd set_env set_asm set_router set_store set_ram set_stack set_ndef
       w_env w_asm w_router w_store w_ram w_stack w_ndef].

(** ** The environment *)

(** A buffer of the inbound pool: its identity and the [len] bytes that were added to it. *)
Record net_buf := { nb_id : nat; nb_data : list Z }.

(** The listen side of [hal/nfc_transport.h], each call with its return value, and the buffer
    pool.  [nfc_transport_register_callbacks] is called with the stack's operations only.
    [nfc_transport_send_response] receives the bytes at [buf].  Application callbacks of the
    store run in the environment. *)
Class Platform (E : Type) := {
  hal_init : E → Z * E;
  hal_shutdown : E → Z * E;
  hal_register_callbacks : E → Z * E;
  hal_start : option nfc_uid_t → E → Z * E;
  hal_stop : E → Z * E;
  hal_send_response : list Z → E → Z * E;
  net_buf_unref : net_buf → E → E;
  app_save : nat → list Z → list Z → E → Z * E;
  app_load : nat → list Z → Z → E → Z * option (list Z) * E;
  app_commit : nat → svc_ptr → list Z → E → Z * E;
}.

Section EnvCalls.
Context {E : Type} `{Platform E}.

(** A call of an environment function. *)
Definition env_call (f : E → Z * E) : M (world E) Z :=
  λ w, Some ((f (w_env w)).1, set_env (f (w_env w)).2 w).

Lemma run_env_call {B} f (k : Z → M (world E) B) w :
  (env_call f ≫= k) w = k (f (w_env w)).1 (set_env (f (w_env w)).2 w).
Proof. done. Qed.

(** [nfc_transport_send_response(buf, len)] *)
Definition nfc_transport_send_response (buf : list Z) (n : Z) : M (world E) Z :=
  b ← lift (sub buf 0 n); env_call (hal_send_response b).

Definition do_net_buf_unref (b : net_buf) : M (world E) unit :=
  modify (λ w, set_env (net_buf_unref b (w_env w)) w).

(** The state after the transport took [resp]. *)
Definition after_send (resp : list Z) (w : world E) : world E :=
  set_env (hal_send_response resp (w_env w)).2 w.

Lemma run_send_response {B} buf n resp (k : Z → M (world E) B) w :
  sub buf 0 n = Some resp →
  (nfc_transport_send_response buf n ≫= k) w =
  k (hal_send_response resp (w_env w)).1 (after_send resp w).
Proof. intros Hs. unfold nfc_transport_send_response. by rewrite Hs. Qed.
End EnvCalls.

(** The statics of a module that is not a field of [world] are held by the environment; [on_held] runs
    an operation of that module. *)
Class Holds (S E : Type) := { held : E → S; hold : S → E → E; held_hold s e : held (hold s e) = s }.

Definition on_held {S E A} `{!Holds S E} (m : M S A) : M (world E) A := λ w,
  match m (held (w_env w)) with
  | Some (a, s) => Some (a, set_env (hold s (w_env w)) w)
  | None => None
  end.

(** ** Observing the environment *)

(** The responses handed to the transport and the buffers given back to the pool, in order.
    Callbacks of the application use neither. *)
Class Trace (E : Type) `{Platform E} := {
  tx : E → list (list Z);
  freed : E → list nat;
  tx_send : ∀ b e, tx (hal_send_response b e).2 = tx e ++ [b];
  freed_send : ∀ b e, freed (hal_send_response b e).2 = freed e;
  tx_unref : ∀ b e, tx (net_buf_unref b e) = tx e;
  freed_unref : ∀ b e, freed (net_buf_unref b e) = freed e ++ [nb_id b];
  tx_commit : ∀ n s t e, tx (app_commit n s t e).2 = tx e;
  freed_commit : ∀ n s t e, freed (app_commit n s t e).2 = freed e;
}.

(** An environment that does nothing but record: every call succeeds. *)
Record recorder := { rec_tx : list (list Z); rec_freed : list nat }.

#[global] Instance recorder_platform : Platform recorder := {|
  hal_init e := (0, e);
  hal_shutdown e := (0, e);
  hal_register_callbacks e := (0, e);
  hal_start _ e := (0, e);
  hal_stop e := (0, e);
  hal_send_response b e := (0, {| rec_tx := rec_tx e ++ [b]; rec_freed := rec_freed e |});
  net_buf_unref b e := {| rec_tx := rec_tx e; rec_freed := rec_freed e ++ [nb_id b] |};
  app_save _ _ _ e := (0, e);
  app_load _ _ _ e := (- ENOENT, None, e);
  app_commit _ _ _ e := (0, e);
|}.

#[global] Instance recorder_trace : Trace recorder.
Proof. by refine {| tx := rec_tx; freed := rec_freed |}. Defined.

Definition recorder_boot : recorder := {| rec_tx := []; rec_freed := [] |}.
