(* ===== verification/Dispatch.v ===== *)
(** * APDU dispatch ([src/nfc/framing/apdu_assembler.c], [aid_router_dispatch] and
      [aid_router_field_off] of [src/nfc/router/aid_router.c])

    The path of an inbound APDU: the assembler parses it and the router hands it to the selected
    service.  Services are reached through the vtables [vtab]. *)

From stdpp Require Import base list numbers option.
From S2P Require Import Prelude Kconfig Stats Apdu Service Router World.

Section Dispatch.
Context `{Kconfig} {E : Type} `{Platform E}.
Context (vtab : svc_ptr → nfc_service_t (world E)).

(** ** Router *)

Definition s_sw_file_not_found : list Z := [0x6A; 0x82].
Definition s_sw_no_ef : list Z := [0x69; 0x86].

Definition aid_router_send_sw (sw : list Z) (n : Z) : M (world E) unit :=
  ret ← nfc_transport_send_response sw n;
  if negb (ret =? 0) then upd_router (r_error ret) else mret tt.

(** Calling an optional member of a vtable. *)
Definition call_opt (f : option (M (world E) unit)) : M (world E) unit :=
  match f with Some g => g | None => mret tt end.

Definition aid_router_field_off : M (world E) unit :=
  active ← gets (λ w, r_active_svc (w_router w));
  match active with
  | Some s => call_opt (on_field_off (vtab s))
  | None => mret tt
  end ;;
  upd_router (r_with_active None) ;;
  upd_router (r_inc rs_field_off_count).

(** The SELECT-by-AID branch of [aid_router_dispatch]. *)
Definition dispatch_select (apdu : nfc_apdu_t) : M (world E) unit :=
  match data apdu with
  | None =>
    aid_router_send_sw s_sw_file_not_found 2 ;;
    upd_router (r_inc rs_select_unmatched_count)
  | Some aid =>
    if lc apdu =? 0 then
      aid_router_send_sw s_sw_file_not_found 2 ;;
      upd_router (r_inc rs_select_unmatched_count)
    else
    r ← gets w_router;
    m ← lift (find_aid r aid (u8 (lc apdu)));
    match m with
    | None =>
      aid_router_send_sw s_sw_file_not_found 2 ;;
      upd_router (r_inc rs_select_unmatched_count)
    | Some e =>
      match r_active_svc r with
      | Some s => if bool_decide (Some s = e_svc e) then mret tt
                  else call_opt (on_deselect (vtab s))
      | None => mret tt
      end ;;
      upd_router (r_with_active (e_svc e)) ;;
      s ← lift (e_svc e);
      match on_select (vtab s) with
      | Some f => f aid (lc apdu)
      | None => mret tt
      end ;;
      upd_router (r_inc rs_select_matched_count)
    end
  end.

Definition aid_router_dispatch (apdu : option nfc_apdu_t) : M (world E) unit :=
  match apdu with
  | None => upd_router (r_error (- EINVAL))
  | Some apdu =>
    st ← gets (λ w, r_state (w_router w));
    if negb (bool_decide (st = AID_ROUTER_STATE_INITIALIZED)) then
      upd_router (r_error (- ENODEV))
    else if apdu_is_select_by_aid apdu then dispatch_select apdu
    else
      active ← gets (λ w, r_active_svc (w_router w));
      match active with
      | None =>
        aid_router_send_sw s_sw_no_ef 2 ;;
        upd_router (r_inc rs_apdu_no_service_count)
      | Some s =>
        match on_apdu (vtab s) with
        | Some f => f apdu
        | None => mret tt
        end ;;
        upd_router (r_inc rs_apdu_routed_count)
      end
  end.

(** ** Assembler *)

Definition s_sw_reject_buf : list Z := [0x67; 0x00].

Definition assembler_boot : assembler :=
  {| a_extended := CONFIG_NFC_APDU_EXTENDED_SUPPORT; a_stats := STATS_RESET;
     a_state := APDU_ASSEMBLER_STATE_UNINITIALIZED |}.

(** [apdu_assembler_init(cfg)]; a configuration is its one member. *)
Definition apdu_assembler_init (cfg : option bool) (a : assembler) : Z * assembler :=
  if bool_decide (a_state a = APDU_ASSEMBLER_STATE_INITIALIZED) then (- EALREADY, a) else
  (0, {| a_extended := match cfg with
                       | Some c => c
                       | None => CONFIG_NFC_APDU_EXTENDED_SUPPORT
                       end;
         a_stats := STATS_RESET; a_state := APDU_ASSEMBLER_STATE_INITIALIZED |}).

Definition apdu_assembler_shutdown (a : assembler) : Z * assembler :=
  (0, {| a_extended := a_extended a; a_stats := a_stats a;
         a_state := APDU_ASSEMBLER_STATE_UNINITIALIZED |}).

Definition apdu_assembler_on_field_on_handler : M (world E) unit :=
  upd_asm (a_inc as_field_on_count).

Definition apdu_assembler_on_field_off_handler : M (world E) unit :=
  aid_router_field_off ;; upd_asm (a_inc as_field_off_count).

Definition apdu_assembler_on_apdu_handler (apdu : option net_buf) : M (world E) unit :=
  match apdu with
  | None => mret tt
  | Some b =>
    a ← gets w_asm;
    if negb (bool_decide (a_state a = APDU_ASSEMBLER_STATE_INITIALIZED)) then
      do_net_buf_unref b
    else
      upd_asm (a_inc as_apdu_rx_count) ;;
      '(result, parsed) ← lift (apdu_parse (Some (nb_data b)) (len (nb_data b)) (a_extended a)
                                  (Some apdu_zero));
      if negb (bool_decide (result = APDU_PARSE_OK)) then
        nfc_transport_send_response s_sw_reject_buf 2 ;;
        upd_asm (a_inc as_apdu_parse_reject_count) ;;
        do_net_buf_unref b
      else
        upd_asm (a_inc as_apdu_parse_ok_count) ;;
        aid_router_dispatch parsed ;;
        do_net_buf_unref b
  end.
End Dispatch.

(** ** Specification of routing *)

Inductive verdict :=
  | Refuse (sw : list Z)
  | Select (s : svc_ptr)
  | Forward (s : svc_ptr).

(** What the router does with a command: a SELECT by AID goes to the service registered first
    for that AID; any other command to the selected service. *)
Definition verdict_of (r : router) (a : nfc_apdu_t) : verdict :=
  if apdu_is_select_by_aid a then
    match first_route (routes r) (take (Z.to_nat (lc a)) (default [] (data a))) with
    | Some (Some s) => Select s
    | _ => Refuse [0x6A; 0x82]
    end
  else match r_active_svc r with
  | Some s => Forward s
  | None => Refuse [0x69; 0x86]
  end.

Section DispatchFacts.
Context `{KconfigRanges} {E : Type} `{Trace E}.

Definition tx_of (w : world E) : list (list Z) := tx (w_env w).
Definition freed_of (w : world E) : list nat := freed (w_env w).

(** [quiet w w']: the same router and assembler, and nothing sent or released. *)
Record quiet (w w' : world E) : Prop := {
  q_router : w_router w' = w_router w;
  q_asm : w_asm w' = w_asm w;
  q_tx : tx_of w' = tx_of w;
  q_freed : freed_of w' = freed_of w;
}.

(** [sends w w']: the same, but that responses may have been sent. *)
Record sends (w w' : world E) : Prop := {
  sn_router : w_router w' = w_router w;
  sn_asm : w_asm w' = w_asm w;
  sn_tx : ∃ l, tx_of w' = tx_of w ++ l;
  sn_freed : freed_of w' = freed_of w;
}.

(** The calls of a service for a selection and for a command. *)
Definition call_select (vtab : svc_ptr → nfc_service_t (world E)) (s : svc_ptr) (aid : list Z) (n : Z) : M (world E) unit :=
  match on_select (vtab s) with Some f => f aid n | None => mret tt end.
Definition call_apdu (vtab : svc_ptr → nfc_service_t (world E)) (s : svc_ptr) (a : nfc_apdu_t) : M (world E) unit :=
  match on_apdu (vtab s) with Some f => f a | None => mret tt end.

(** What the dispatcher expects of the services: [I] is an invariant of the rest of the
    program that does not mention the dispatcher's own state or the environment; the calls return
    and keep it, leave the dispatcher's state alone and release no buffer.  What a service sends, now
    or later, is its own affair.  [S] are the services that are registered. *)
Class Services (S : svc_ptr → Prop) (vtab : svc_ptr → nfc_service_t (world E))
    (I : world E → Prop) : Prop := {
  inv_router r w : I w → I (set_router r w);
  inv_asm a w : I w → I (set_asm a w);
  inv_env e w : I w → I (set_env e w);
  svc_select s w aid n : S s → I w → bytes aid → 1 <= n <= len aid →
    ∃ w', call_select vtab s aid n w = Some (tt, w') ∧ I w' ∧ sends w w';
  svc_apdu s w a : S s → I w → apdu_ok a →
    ∃ w', call_apdu vtab s a w = Some (tt, w') ∧ I w' ∧ sends w w';
  svc_deselect s w : S s → I w →
    ∃ w', call_opt (on_deselect (vtab s)) w = Some (tt, w') ∧ I w' ∧ quiet w w';
  svc_field_off s w : S s → I w →
    ∃ w', call_opt (on_field_off (vtab s)) w = Some (tt, w') ∧ I w' ∧ quiet w w';
}.

Context (S : svc_ptr → Prop) (vtab : svc_ptr → nfc_service_t (world E)) (I : world E → Prop)
  `{!Services S vtab I}.

(** Only services of [S] are registered. *)
Definition routed (r : router) : Prop := ∀ k s, (k, Some s) ∈ routes r → S s.

Lemma routed_active r s : router_ok r → routed r → r_active_svc r = Some s → S s.
Proof. intros Hr Hro Ha. destruct (ro_active r Hr s Ha) as [k Hk]. by eapply Hro. Qed.

(** [keep_inv]: [I] survives the dispatcher's own updates. *)
Ltac keep_inv :=
  repeat first [ eassumption | apply inv_router | apply inv_asm | apply inv_env ].

Lemma send_sw_run (sw : list Z) n w : n = len sw →
  ∃ f, aid_router_send_sw sw n w =
    Some (tt, set_router (f (w_router w)) (after_send sw w)) ∧
    ∀ r, ∃ st, f r = r_with_stats st r.
Proof.
  intros ->. unfold aid_router_send_sw.
  rewrite (run_send_response sw _ sw) by (rewrite <-(app_nil_r sw) at 1; by apply sub_prefix).
  set (ret := (hal_send_response sw (w_env w)).1). destruct (ret =? 0); cbn [negb].
  - exists (λ r, r). split; [by destruct w|]. intros r. exists (r_stats r). by destruct r.
  - exists (r_error ret). split; [done|]. intros r. by eexists.
Qed.

(** The same state but for the counters of the assembler and the router. *)
Definition counted (w w' : world E) : Prop := ∃ sa sr, w' =
  set_asm {| a_extended := a_extended (w_asm w); a_stats := sa; a_state := a_state (w_asm w) |}
    (set_router (r_with_stats sr (w_router w)) w).

Lemma counted_router st w : counted w (set_router (r_with_stats st (w_router w)) w).
Proof. exists (a_stats (w_asm w)), st. destruct w as [? [] ? ? ? ? ?]. done. Qed.

Lemma counted_trans w1 w2 w3 : counted w1 w2 → counted w2 w3 → counted w1 w3.
Proof. intros (sa & sr & ->) (sa' & sr' & ->). by exists sa', sr'. Qed.

Lemma counted_asm f w : counted w (set_asm (a_inc f (w_asm w)) w).
Proof. exists (STATS_INC (a_stats (w_asm w)) f), (r_stats (w_router w)). by destruct w as [? [] [] ? ? ? ?]. Qed.

(** Leaving the selected service for [s]. *)
Definition leave_for (s : svc_ptr) : M (world E) unit :=
  active ← gets (λ w, r_active_svc (w_router w));
  match active with
  | Some s' => if bool_decide (Some s' = Some s) then mret tt else call_opt (on_deselect (vtab s'))
  | None => mret tt
  end.

(** What a verdict asks for: a status word, or the calls of the service that is meant. *)
Definition serve (v : verdict) (a : nfc_apdu_t) : M (world E) unit :=
  match v with
  | Refuse sw => modify (after_send sw)
  | Forward s => call_apdu vtab s a
  | Select s =>
    leave_for s ;; upd_router (r_with_active (Some s)) ;; call_select vtab s (default [] (data a)) (lc a)
  end.

(** The outcome of a dispatch that ends in [w']: what every branch guarantees. *)
Record dispatched (w : world E) (v : verdict) (a : nfc_apdu_t) (w' : world E) : Prop := {
  d_inv : I w';
  d_router_ok : router_ok (w_router w');
  d_state : r_state (w_router w') = r_state (w_router w);
  d_routes : routes (w_router w') = routes (w_router w);
  d_active : r_active_svc (w_router w') =
    match v with Select s | Forward s => Some s | Refuse _ => r_active_svc (w_router w) end;
  d_asm : w_asm w' = w_asm w;
  d_freed : freed_of w' = freed_of w;
  d_serve : ∃ w1, serve v a w = Some (tt, w1) ∧ counted w1 w';
}.

(** A refusal: one status word and a counter. *)
Lemma dispatch_refuse sw a f w :
  I w → router_ok (w_router w) → len sw = 2 →
  ∃ w', (aid_router_send_sw sw 2 ;; upd_router (r_inc f)) w = Some (tt, w') ∧
    dispatched w (Refuse sw) a w'.
Proof.
  intros Hi Hr Hl. destruct (send_sw_run sw 2 w ltac:(done)) as (g & Hg & Hst).
  rewrite (run_call _ _ _ _ _ Hg). destruct (Hst (w_router w)) as [st Hs].
  eexists. split; [done|]. cbn [w_router set_router]. rewrite Hs. constructor; cbn; try done.
  - unfold after_send. keep_inv.
  - by apply r_with_stats_ok, r_with_stats_ok.
  - apply freed_send.
  - eexists. split; [done|]. apply (counted_router _ (after_send sw w)).
Qed.

Lemma dispatch_forward s a w :
  I w → S s → router_ok (w_router w) → apdu_ok a → r_active_svc (w_router w) = Some s →
  ∃ w', (match on_apdu (vtab s) with Some f => f a | None => mret tt end ;;
         upd_router (r_inc rs_apdu_routed_count)) w = Some (tt, w') ∧
    dispatched w (Forward s) a w'.
Proof.
  intros Hi HS Hr Ha Hs. destruct (svc_apdu s w a HS Hi Ha) as (w1 & Hf & Hi1 & []).
  fold (call_apdu vtab s a). rewrite (run_call _ _ _ _ _ Hf). eexists. split; [done|].
  constructor; cbn; try done; try congruence.
  - keep_inv.
  - apply r_with_stats_ok. by rewrite sn_router0.
  - by rewrite <-sn_router0.
  - exists w1. split; [done|]. apply counted_router.
Qed.

(** Deselecting the service that is left, if another one is selected. *)
Lemma dispatch_deselect s w : I w → router_ok (w_router w) → routed (w_router w) →
  ∃ w', leave_for s w = Some (tt, w') ∧ I w' ∧ quiet w w'.
Proof.
  intros Hi Hr Hro. unfold leave_for. wred. destruct (r_active_svc (w_router w)) as [s'|] eqn:Hact; [|by exists w].
  case_bool; [by exists w|]. apply svc_deselect; [|done]. by eapply routed_active.
Qed.

Lemma dispatch_select_spec a w :
  I w → router_ok (w_router w) → routed (w_router w) → apdu_ok a → apdu_is_select_by_aid a = true →
  ∃ w', dispatch_select vtab a w = Some (tt, w') ∧
    dispatched w (verdict_of (w_router w) a) a w'.
Proof.
  intros Hi Hr Hro Ha Hsel. unfold verdict_of, dispatch_select. rewrite Hsel.
  unfold apdu_is_select_by_aid in Hsel. bool_prop.
  destruct Ha as (_&_&_&_&Hlc&_&Ha). destruct (data a) as [aid|] eqn:Hdata; [|lia].
  destruct Ha as [Hb Hl]. rewrite (proj2 (Z.eqb_neq (lc a) 0)) by lia. wred. change (default [] (Some aid)) with aid.
  rewrite u8_id by (unfold is_byte; lia).
  destruct (find_aid_spec (w_router w) aid (lc a) Hr ltac:(lia)) as (o & Hf & Hroute & Hin).
  rewrite Hf. wred. destruct o as [e|]; cbn in Hroute; rewrite <-Hroute;
    [|by apply dispatch_refuse].
  specialize (Hin e eq_refl). apply list_elem_of_In in Hin.
  destruct (proj1 (Forall_forall _ _) (ro_live _ Hr) e Hin) as [_ [s Hs]].
  rewrite Hs in Hroute |- *.
  destruct (dispatch_deselect s w Hi Hr Hro) as (w1 & Hlv & Hi1 & Hq).
  pose proof Hlv as Hlv'. unfold leave_for in Hlv'. rewrite run_gets in Hlv'.
  rewrite (run_call _ _ _ _ _ Hlv'). wred.
  set (w2 := set_router _ w1).
  destruct (svc_select s w2 aid (lc a)) as (w3 & Hrun & Hi3 & Han);
    [|subst w2; keep_inv|done|lia|].
  { symmetry in Hroute. apply first_route_elem in Hroute. by eapply Hro. }
  pose proof Hrun as Hrun'. unfold call_select in Hrun'.
  rewrite (run_call _ _ _ _ _ Hrun'). eexists. split; [done|].
  destruct Hq as [Hq1 Hq2 Hq3 Hq4]. destruct Han as [Ha1 Ha2 Ha3 Ha4].
  assert (w_router w3 = r_with_active (Some s) (w_router w)) as Hr3
    by (rewrite Ha1; subst w2; cbn; by rewrite Hq1).
  constructor; cbn [w_router w_asm set_router]; try (rewrite Hr3; done).
  - keep_inv.
  - rewrite Hr3. apply r_with_stats_ok, r_with_active_ok; [done|].
    intros s' [= <-]. symmetry in Hroute. apply first_route_elem in Hroute. eauto.
  - rewrite Ha2. exact Hq2.
  - change (freed_of w3 = freed_of w). rewrite Ha4. exact Hq4.
  - exists w3. split; [|apply counted_router]. unfold serve. rewrite (run_call _ _ _ _ _ Hlv). wred. by rewrite Hdata.
Qed.

(** Dispatch by an initialized router follows the routing specification. *)
Lemma dispatch_spec a w :
  I w → router_ok (w_router w) → routed (w_router w) → r_state (w_router w) = AID_ROUTER_STATE_INITIALIZED →
  apdu_ok a →
  ∃ w', aid_router_dispatch vtab (Some a) w = Some (tt, w') ∧
    dispatched w (verdict_of (w_router w) a) a w'.
Proof.
  intros Hi Hr Hro Hst Ha. unfold aid_router_dispatch. wred.
  rewrite bool_decide_true by done. cbn [negb].
  destruct (apdu_is_select_by_aid a) eqn:Hsel; [by apply dispatch_select_spec|]. wred.
  unfold verdict_of. rewrite Hsel. destruct (r_active_svc (w_router w)) as [s|] eqn:Hs.
  - apply dispatch_forward; try done. by eapply routed_active.
  - by apply dispatch_refuse.
Qed.

(** Field loss deselects. *)
Lemma field_off_spec w :
  I w → router_ok (w_router w) → routed (w_router w) →
  ∃ w', aid_router_field_off vtab w = Some (tt, w') ∧ I w' ∧ router_ok (w_router w') ∧
    r_state (w_router w') = r_state (w_router w) ∧
    routes (w_router w') = routes (w_router w) ∧ r_active_svc (w_router w') = None ∧
    w_asm w' = w_asm w ∧ tx_of w' = tx_of w ∧ freed_of w' = freed_of w.
Proof.
  intros Hi Hr Hro. unfold aid_router_field_off. wred.
  assert (∃ w1, match r_active_svc (w_router w) with
                | Some s => call_opt (on_field_off (vtab s)) | None => mret tt end w =
            Some (tt, w1) ∧ I w1 ∧ quiet w w1) as (w1 & Hw1 & Hi1 & Hq).
  { destruct (r_active_svc (w_router w)) eqn:Hact; [|by exists w].
    apply svc_field_off; [|done]. by eapply routed_active. }
  destruct Hq as [Hq1 Hq2 Hq3 Hq4].
  rewrite (run_call _ _ _ _ _ Hw1). wred. eexists. split; [done|].
  split; [keep_inv|]. cbn. rewrite Hq1. split_and!; try done.
  by apply r_with_stats_ok, r_with_active_ok.
Qed.

(** What holds between two inbound events. *)
Record listening (w : world E) : Prop := {
  ls_inv : I w;
  ls_router : router_ok (w_router w);
  ls_routed : routed (w_router w);
  ls_router_state : r_state (w_router w) = AID_ROUTER_STATE_INITIALIZED;
  ls_asm_state : a_state (w_asm w) = APDU_ASSEMBLER_STATE_INITIALIZED;
}.

(** The result of an inbound buffer [b]: accepted as the command [a], or rejected. *)
Definition view_of (w : world E) (b : list Z) : option nfc_apdu_t :=
  match apdu_parse (Some b) (len b) (a_extended (w_asm w)) (Some apdu_zero) with
  | Some (APDU_PARSE_OK, Some a) => Some a
  | _ => None
  end.

(** What an inbound buffer asks for: 6700 when it is no command, else what its route asks for. *)
Definition answer_to (w : world E) (b : list Z) : M (world E) unit :=
  match view_of w b with
  | None => modify (after_send [0x67; 0x00])
  | Some a => serve (verdict_of (w_router w) a) a
  end.

(** The handling of the buffer [b] from [w] to [w']: apart from the counters, what the buffer asks
    for and nothing else, and then its release. *)
Definition handled (b : net_buf) (w w' : world E) : Prop :=
  ∃ w0 w1 w2, counted w w0 ∧ answer_to w (nb_data b) w0 = Some (tt, w1) ∧ counted w1 w2 ∧
    w' = set_env (net_buf_unref b (w_env w2)) w2.

Lemma on_apdu_handler_spec b w :
  listening w → bytes (nb_data b) →
  ∃ w', apdu_assembler_on_apdu_handler vtab (Some b) w = Some (tt, w') ∧ listening w' ∧
    handled b w w' ∧ freed_of w' = freed_of w ++ [nb_id b] ∧
    routes (w_router w') = routes (w_router w) ∧
    r_active_svc (w_router w') =
      match verdict_of (w_router w) <$> view_of w (nb_data b) with
      | Some (Select s | Forward s) => Some s
      | _ => r_active_svc (w_router w)
      end.
Proof.
  intros Hls Hb. destruct Hls as [Hi Hr Hro Hrs Has].
  unfold apdu_assembler_on_apdu_handler. wred. rewrite bool_decide_true by done. cbn [negb].
  wred. unfold handled, answer_to, view_of.
  destruct (parse_total (a_extended (w_asm w)) apdu_zero (nb_data b) Hb) as (res & a & Hp).
  unfold parse in Hp. rewrite Hp. wred.
  destruct (decide (res = APDU_PARSE_OK)) as [->|Hne].
  - rewrite bool_decide_true by done. cbn [negb]. wred.
    destruct (parse_sound (a_extended (w_asm w)) apdu_zero (nb_data b) a Hb Hp) as (_&_&Ha&_).
    set (w1 := set_asm _ _).
    destruct (dispatch_spec a w1) as (w2 & Hw2 & Hd); [subst w1; keep_inv|done..|].
    change (verdict_of (w_router w1) a) with (verdict_of (w_router w) a) in Hd.
    rewrite (run_call _ _ _ _ _ Hw2). eexists. split; [done|].
    destruct Hd as [D1 D2 D3 D4 D5 D6 D7 (w3 & D8 & D9)].
    split; [constructor; cbn; [keep_inv|done|unfold routed; by rewrite D4|by rewrite D3|by rewrite D6]|].
    split; [exists w1, w3, w2; split_and!; try done; subst w1;
      eapply counted_trans; [apply counted_asm|apply (counted_asm _ (set_asm _ w))]|].
    split; [unfold freed_of; cbn; rewrite freed_unref; by f_equal|].
    split; [exact D4|]. exact D5.
  - rewrite bool_decide_false by done. cbn [negb].
    rewrite (run_send_response _ _ s_sw_reject_buf) by done. wred.
    eexists. split; [done|].
    split; [constructor; cbn; [unfold after_send; keep_inv|done..]|].
    split.
    + exists (set_asm (a_inc as_apdu_rx_count (w_asm w)) w). eexists _, _. split; [apply counted_asm|].
      replace (match res with APDU_PARSE_OK => Some a | _ => None end) with (@None nfc_apdu_t) by (by destruct res).
      split; [done|]. split; [|done]. apply (counted_asm as_apdu_parse_reject_count).
    + split; [unfold freed_of; cbn; rewrite freed_unref, freed_send; done|].
      split; [done|]. by destruct res.
Qed.

Lemma counted_tx w w' : counted w w' → tx_of w' = tx_of w.
Proof. by intros (sa & sr & ->). Qed.

(** A refusal is one response. *)
Lemma handled_sends b w w' sw : handled b w w' →
  (∀ w0, answer_to w (nb_data b) w0 = modify (after_send sw) w0) → tx_of w' = tx_of w ++ [sw].
Proof.
  intros (w0 & w1 & w2 & Hc & Ha & Hc' & ->) Hsw. rewrite Hsw in Ha. injection Ha as <-.
  unfold tx_of at 1. cbn. rewrite tx_unref. change (tx (w_env w2)) with (tx_of w2).
  rewrite (counted_tx _ _ Hc'), <-(counted_tx _ _ Hc). unfold tx_of, after_send. cbn. by rewrite tx_send.
Qed.

(** What is accepted is the encoding of the command. *)
Lemma view_encodes w b a : bytes b → view_of w b = Some a → b = encode (denote a).
Proof.
  intros Hb Hview. unfold view_of in Hview.
  destruct (parse_total (a_extended (w_asm w)) apdu_zero b Hb) as (res & a' & Hp).
  unfold parse in Hp. rewrite Hp in Hview. destruct res; try done. injection Hview as ->.
  by apply (parse_sound (a_extended (w_asm w)) apdu_zero b a Hb Hp).
Qed.

(** ** Properties *)

(** Routing is correct on every branch: an initialized router hands a SELECT by AID to the
    service that was registered first under exactly that AID, which becomes the selected one,
    and every other command to the selected service; without a match it answers 6A82, without
    a selection 6986, and then nothing changes but a counter. The routes do not change and the
    invariants hold afterwards. *)
Theorem dispatch_follows_routes a w :
  listening w → apdu_ok a →
  ∃ w', aid_router_dispatch vtab (Some a) w = Some (tt, w') ∧
    dispatched w (verdict_of (w_router w) a) a w' ∧ listening w'.
Proof.
  intros [Hi Hr Hro Hrs Has] Ha. destruct (dispatch_spec a w Hi Hr Hro Hrs Ha) as (w' & Hw' & Hd).
  exists w'. split; [done|]. split; [done|].
  destruct Hd. constructor; try congruence; try done. unfold routed. by rewrite d_routes0.
Qed.

(** C5: Every inbound buffer, whatever bytes it holds, is routed exactly once and released exactly
    once, by an initialized assembler and router over registered services whose calls return, keep
    an invariant of their own, leave the dispatcher's state alone and release no buffer (what they
    send, at once or later, and how often, is not assumed). The buffer is a command when it is the encoding of one
    the parser accepts. Apart from counters, the handler then does what the route of the command
    asks for and nothing else: the service
    registered first for the AID of a SELECT is called, once, after the service it replaces has
    been deselected, and is selected afterwards; another command goes to the selected service. When no service is
    meant (6A82 without a registered AID, 6986 without a selection) or the buffer is no command
    (6700), that status word is the one response sent, and no service is called. *)
Theorem apdu_routed_once b w :
  listening w → bytes (nb_data b) →
  ∃ w', apdu_assembler_on_apdu_handler vtab (Some b) w = Some (tt, w') ∧ listening w' ∧
    handled b w w' ∧ freed_of w' = freed_of w ++ [nb_id b] ∧
    routes (w_router w') = routes (w_router w) ∧
    match view_of w (nb_data b) with
    | None => tx_of w' = tx_of w ++ [[0x67; 0x00]] ∧
              r_active_svc (w_router w') = r_active_svc (w_router w)
    | Some a =>
      nb_data b = encode (denote a) ∧
      match verdict_of (w_router w) a with
      | Refuse sw => tx_of w' = tx_of w ++ [sw] ∧
                     r_active_svc (w_router w') = r_active_svc (w_router w)
      | Select s | Forward s => r_active_svc (w_router w') = Some s
      end
    end.
Proof.
  intros Hls Hb.
  destruct (on_apdu_handler_spec b w Hls Hb) as (w' & Hw & Hls' & Hh & Hf & Hro & Hact).
  exists w'. do 5 (split; [done|]).
  destruct (view_of w (nb_data b)) as [a|] eqn:Hview.
  - split; [by apply (view_encodes w)|]. cbn in Hact.
    destruct (verdict_of (w_router w) a) as [sw|s|s] eqn:Hv; [|done..].
    split; [|done]. apply (handled_sends b w w' sw Hh). intros w0.
    unfold answer_to. by rewrite Hview, Hv.
  - split; [|done]. apply (handled_sends b w w' [0x67; 0x00] Hh). intros w0.
    unfold answer_to. by rewrite Hview.
Qed.

(** A buffer that arrives while the assembler is not initialized is released and nothing
    else happens: no response, no other state change. *)
Theorem apdu_dropped_before_init b w :
  a_state (w_asm w) ≠ APDU_ASSEMBLER_STATE_INITIALIZED →
  apdu_assembler_on_apdu_handler vtab (Some b) w =
    Some (tt, set_env (net_buf_unref b (w_env w)) w).
Proof.
  intros Ha. unfold apdu_assembler_on_apdu_handler. wred. by rewrite bool_decide_false by done.
Qed.

(** Losing the field deselects: afterwards no service is selected, so every command but a
    SELECT by AID is refused with 6986 until one is; nothing is sent or released, and the routes
    stay. *)
Theorem field_off_deselects w :
  listening w →
  ∃ w', apdu_assembler_on_field_off_handler vtab w = Some (tt, w') ∧ listening w' ∧
    tx_of w' = tx_of w ∧ freed_of w' = freed_of w ∧
    routes (w_router w') = routes (w_router w) ∧
    ∀ a, apdu_is_select_by_aid a = false → verdict_of (w_router w') a = Refuse [0x69; 0x86].
Proof.
  intros [Hi Hr Hro Hrs Has]. unfold apdu_assembler_on_field_off_handler.
  destruct (field_off_spec w Hi Hr Hro) as (w1 & Hw1 & Hi1 & Hr1 & Hs1 & Hrts & Hact & Hasm & Htx & Hfr).
  rewrite (run_call _ _ _ _ _ Hw1). eexists. split; [done|].
  split; [constructor; cbn; [keep_inv|done|unfold routed; by rewrite Hrts|congruence|by rewrite Hasm]|].
  do 3 (split; [done|]). intros a Ha. unfold verdict_of. cbn [w_router set_asm].
  by rewrite Ha, Hact.
Qed.
End DispatchFacts.
