(* ===== verification/NdefListener.v ===== *)
(** * NDEF listener ([src/nfc/protocols/ndef/ndef_listener.c])

    The Type 4 Tag emulation: file selection, READ BINARY and UPDATE BINARY on the emulated
    files, persistence, and the life cycle of the module.  [dirty] is
    [nfc_stack_on_service_dirty], which the stack module supplies. *)

From stdpp Require Import base list numbers option.
From S2P Require Import Prelude Kconfig Stats Apdu Service Router Ndef World.

Definition NDEF_FILE_ID_CC : Z := 0xE103.
Definition NDEF_FILE_ID_NDEF : Z := 0xE104.
Definition NDEF_SELECT_P2_FIRST_FCI : Z := 0x00.
Definition NDEF_SELECT_P2_NO_FCI : Z := 0x0C.
Definition NDEF_CC_WR_ACCESS_OPEN : Z := 0x00.
Definition NDEF_CC_WR_ACCESS_NONE : Z := 0xFF.

Section NdefListener.
Context `{Kconfig} {E : Type} `{Platform E}.
Context (dirty : svc_ptr → M (world E) unit).

Definition ndef_listener_boot : ndef_listener :=
  {| nl_model := ndef_data_zero; nl_writable := false; nl_initialized := false;
     nl_file_sel := NDEF_FILE_NONE; nl_response_buf := zeros NFC_TRANSPORT_MAX_RESPONSE_LEN |}.

Definition ndef_listener_send_sw (sw : Z) : M (world E) unit :=
  l ← gets w_ndef;
  b ← lift (st (nl_response_buf l) 0 (u8 (Z.shiftr sw 8)));
  b ← lift (st b 1 (u8 (Z.land sw 0xFF)));
  upd_ndef (nl_with_response b) ;;
  _ ← nfc_transport_send_response b 2; mret tt.

(** [ndef_listener_build_cc(cc, writable)] *)
Definition ndef_listener_build_cc (c : list Z) (writable : bool) : option (list Z) :=
  let mle := u16 (CONFIG_NFC_NDEF_MAX_SIZE + NFC_NDEF_NLEN_FIELD_LEN) in
  let mlc := u16 CONFIG_NFC_NDEF_MAX_SIZE in
  let max_ndef := u16 CONFIG_NFC_NDEF_MAX_SIZE in
  c ← st c 0 0x00; c ← st c 1 NFC_NDEF_CC_LEN; c ← st c 2 0x20;
  c ← st c 3 (u8 (Z.shiftr mle 8)); c ← st c 4 (u8 (Z.land mle 0xFF));
  c ← st c 5 (u8 (Z.shiftr mlc 8)); c ← st c 6 (u8 (Z.land mlc 0xFF));
  c ← st c 7 0x04; c ← st c 8 0x06; c ← st c 9 0xE1; c ← st c 10 0x04;
  c ← st c 11 (u8 (Z.shiftr max_ndef 8)); c ← st c 12 (u8 (Z.land max_ndef 0xFF));
  c ← st c 13 0x00;
  st c 14 (if writable then NDEF_CC_WR_ACCESS_OPEN else NDEF_CC_WR_ACCESS_NONE).

Definition ndef_listener_sync_file_len (m : ndef_data_t) : option ndef_data_t :=
  f0 ← ld (ndef_file m) 0; f1 ← ld (ndef_file m) 1;
  let n := be16 f0 f1 in
  Some (if n <=? CONFIG_NFC_NDEF_MAX_SIZE
        then nd_with_file_len (u16 (NFC_NDEF_NLEN_FIELD_LEN + n)) m else m).

Definition ndef_listener_pad_ndef_file (m : ndef_data_t) : option ndef_data_t :=
  m ← (if ndef_file_len m <? NDEF_FILE_BUF_SIZE then
         f ← memset (ndef_file m) (ndef_file_len m) 0 (NDEF_FILE_BUF_SIZE - ndef_file_len m);
         Some (nd_with_file f m)
       else Some m);
  Some (nd_with_file_len (u16 NDEF_FILE_BUF_SIZE) m).

(** The loop over [i < NFC_NDEF_CC_LEN], [n] iterations left. *)
Fixpoint cc_zero_from (n : nat) (i : Z) (c : list Z) : option bool :=
  match n with
  | O => Some true
  | S n' => x ← ld c i; if negb (x =? 0) then Some false else cc_zero_from n' (i + 1) c
  end.
Definition ndef_listener_cc_is_zero_placeholder (m : ndef_data_t) : option bool :=
  cc_zero_from (Z.to_nat NFC_NDEF_CC_LEN) 0 (cc m).

Definition ndef_listener_on_select (aid : list Z) (aid_len : Z) : M (world E) unit :=
  upd_ndef (nl_with_sel NDEF_FILE_NONE) ;;
  ndef_listener_send_sw NFC_SW_OK.

Definition ndef_listener_select_p2_valid (p2 : Z) : bool :=
  (p2 =? NDEF_SELECT_P2_FIRST_FCI) || (p2 =? NDEF_SELECT_P2_NO_FCI).

Definition ndef_listener_handle_select_file (apdu : nfc_apdu_t) : M (world E) unit :=
  if negb (p1 apdu =? NFC_SELECT_P1_BY_FILE_ID) then ndef_listener_send_sw NFC_SW_WRONG_P1P2
  else if negb (ndef_listener_select_p2_valid (p2 apdu)) then
    ndef_listener_send_sw NFC_SW_WRONG_P1P2
  else match data apdu with
  | None => ndef_listener_send_sw NFC_SW_WRONG_LENGTH
  | Some d =>
    if negb (lc apdu =? 2) then ndef_listener_send_sw NFC_SW_WRONG_LENGTH else
    d0 ← lift (ld d 0); d1 ← lift (ld d 1);
    let file_id := be16 d0 d1 in
    if file_id =? NDEF_FILE_ID_CC then
      upd_ndef (nl_with_sel NDEF_FILE_CC) ;; ndef_listener_send_sw NFC_SW_OK
    else if file_id =? NDEF_FILE_ID_NDEF then
      upd_ndef (nl_with_sel NDEF_FILE_NDEF) ;; ndef_listener_send_sw NFC_SW_OK
    else ndef_listener_send_sw NFC_SW_FILE_NOT_FOUND
  end.

Definition ndef_listener_read_ne (apdu : nfc_apdu_t) (available : Z) : Z :=
  if negb (has_le apdu) then available
  else if extended apdu && (le apdu =? 0) then
    (if available <? 65536 then available else 65536)
  else if negb (extended apdu) && (le apdu =? 0) then
    (if available <? 256 then available else 256)
  else le apdu.

(** The rest of READ BINARY, once the selected file is known. *)
Definition ndef_listener_read_file (apdu : nfc_apdu_t) (file_ptr : list Z) (file_length : Z)
    : M (world E) unit :=
  l ← gets w_ndef;
  let offset := Z.lor (Z.shiftl (p1 apdu) 8) (p2 apdu) in
  if file_length <=? offset then ndef_listener_send_sw NFC_SW_WRONG_OFFSET else
  let available := file_length - offset in
  let ne := ndef_listener_read_ne apdu available in
  if ne =? 0 then ndef_listener_send_sw NFC_SW_WRONG_OFFSET else
  let actual := if ne <? available then ne else available in
  let actual := if NFC_TRANSPORT_MAX_RESPONSE_LEN - 2 <? actual
                then NFC_TRANSPORT_MAX_RESPONSE_LEN - 2 else actual in
  b ← lift (memcpy (nl_response_buf l) 0 file_ptr offset actual);
  b ← lift (st b actual 0x90);
  b ← lift (st b (actual + 1) 0x00);
  upd_ndef (nl_with_response b) ;;
  _ ← nfc_transport_send_response b (actual + 2); mret tt.

Definition ndef_listener_handle_read_binary (apdu : nfc_apdu_t) : M (world E) unit :=
  l ← gets w_ndef;
  match nl_file_sel l with
  | NDEF_FILE_NONE => ndef_listener_send_sw NFC_SW_NO_EF
  | NDEF_FILE_CC => ndef_listener_read_file apdu (cc (nl_model l)) NFC_NDEF_CC_LEN
  | NDEF_FILE_NDEF => ndef_listener_read_file apdu (ndef_file (nl_model l)) NDEF_FILE_BUF_SIZE
  end.

Definition ndef_listener_handle_update_binary (apdu : nfc_apdu_t) : M (world E) unit :=
  l ← gets w_ndef;
  if bool_decide (nl_file_sel l = NDEF_FILE_NONE) then ndef_listener_send_sw NFC_SW_NO_EF
  else if bool_decide (nl_file_sel l = NDEF_FILE_CC) then
    ndef_listener_send_sw NFC_SW_CONDITIONS_NOT_SAT
  else if negb (nl_writable l) then ndef_listener_send_sw NFC_SW_CONDITIONS_NOT_SAT
  else match data apdu with
  | None => ndef_listener_send_sw NFC_SW_WRONG_LENGTH
  | Some d =>
    if lc apdu =? 0 then ndef_listener_send_sw NFC_SW_WRONG_LENGTH else
    let offset := Z.lor (Z.shiftl (p1 apdu) 8) (p2 apdu) in
    if NDEF_FILE_BUF_SIZE <? offset + lc apdu then
      ndef_listener_send_sw NFC_SW_WRONG_LENGTH
    else
    f ← lift (memcpy (ndef_file (nl_model l)) offset d 0 (lc apdu));
    upd_ndef (λ l, nl_with_model (nd_with_file f (nl_model l)) l) ;;
    (if CONFIG_NFC_LISTEN_STACK then dirty SVC_NDEF else mret tt) ;;
    ndef_listener_send_sw NFC_SW_OK
  end.

Definition ndef_listener_on_apdu (apdu : nfc_apdu_t) : M (world E) unit :=
  if negb (cla apdu =? 0x00) then ndef_listener_send_sw NFC_SW_CLA_NOT_SUPPORTED
  else if ins apdu =? NFC_INS_SELECT then ndef_listener_handle_select_file apdu
  else if ins apdu =? NFC_INS_READ_BINARY then ndef_listener_handle_read_binary apdu
  else if ins apdu =? NFC_INS_UPDATE_BINARY then ndef_listener_handle_update_binary apdu
  else ndef_listener_send_sw NFC_SW_INS_NOT_SUPPORTED.

Definition ndef_listener_on_deselect : M (world E) unit :=
  upd_ndef (nl_with_sel NDEF_FILE_NONE).

Definition ndef_listener_on_field_off : M (world E) unit :=
  upd_ndef (nl_with_sel NDEF_FILE_NONE).

(** [ndef_listener_serialize(out, out_max, &out_len)] *)
Definition ndef_listener_serialize : serialize_fn (world E) := λ out out_max out_len,
  l ← gets w_ndef;
  if negb (nl_initialized l) then mret (- ENODEV, out, out_len) else
  m ← lift (ndef_listener_sync_file_len (nl_model l));
  upd_ndef (nl_with_model m) ;;
  '(ret, o, n) ← lift (ndef_serialize (Some m) (Some out) out_max (Some out_len));
  mret (ret, default out o, default out_len n).

Definition ndef_listener_deserialize : deserialize_fn (world E) := λ inp in_len,
  l ← gets w_ndef;
  if negb (nl_initialized l) then mret (- ENODEV) else
  '(ret, m) ← lift (ndef_deserialize (Some (nl_model l)) (Some inp) in_len);
  m ← lift m;
  upd_ndef (nl_with_model m) ;;
  if negb (ret =? 0) then mret ret else
  z ← lift (ndef_listener_cc_is_zero_placeholder m);
  m ← lift (if z : bool then
              c ← ndef_listener_build_cc (cc m) (nl_writable l);
              Some (nd_with_cc_len NFC_NDEF_CC_LEN (nd_with_cc c m))
            else Some m);
  m ← lift (ndef_listener_pad_ndef_file m);
  upd_ndef (nl_with_model m) ;;
  mret 0.

(** [s_ndef_listener_service] *)
Definition s_ndef_listener_service : nfc_service_t (world E) := {|
  on_select := Some ndef_listener_on_select;
  on_apdu := Some ndef_listener_on_apdu;
  on_tag_cmd := None;
  on_deselect := Some ndef_listener_on_deselect;
  on_field_off := Some ndef_listener_on_field_off;
  serialize := Some ndef_listener_serialize;
  deserialize := Some ndef_listener_deserialize;
  persist_id := NFC_PERSIST_ID_NDEF;
|}.

(** [ndef_listener_init(model, cfg)]; a configuration is its [writable] member. *)
Definition ndef_listener_init (model : option ndef_data_t) (cfg : option bool)
    (l : ndef_listener) : option (Z * ndef_listener) :=
  if nl_initialized l then Some (- EALREADY, l) else
  let writable := match cfg with Some c => c | None => true end in
  let m := match model with Some m => m | None => ndef_data_zero end in
  m ← (if cc_len m =? NFC_NDEF_CC_LEN then
         c ← st (cc m) 14 (if writable then NDEF_CC_WR_ACCESS_OPEN else NDEF_CC_WR_ACCESS_NONE);
         Some (nd_with_cc c m)
       else
         c ← ndef_listener_build_cc (cc m) writable;
         Some (nd_with_cc_len NFC_NDEF_CC_LEN (nd_with_cc c m)));
  m ← ndef_listener_pad_ndef_file m;
  Some (0, {| nl_model := m; nl_writable := writable; nl_initialized := true;
              nl_file_sel := NDEF_FILE_NONE; nl_response_buf := nl_response_buf l |}).

Definition ndef_listener_shutdown (l : ndef_listener) : Z * ndef_listener :=
  if negb (nl_initialized l) then (0, l) else
  (0, {| nl_model := nl_model l; nl_writable := nl_writable l; nl_initialized := false;
         nl_file_sel := NDEF_FILE_NONE; nl_response_buf := nl_response_buf l |}).
End NdefListener.

(** ** Specification: a Type 4 Tag *)

(** What a reader can observe of the emulated tag. *)
Record tag := {
  t_cc : list Z;
  t_file : list Z;
  t_writable : bool;
  t_sel : ndef_file_sel_t;
}.

Definition tag_of (l : ndef_listener) : tag :=
  {| t_cc := cc (nl_model l); t_file := ndef_file (nl_model l); t_writable := nl_writable l;
     t_sel := nl_file_sel l |}.

Definition tag_select (s : ndef_file_sel_t) (t : tag) : tag :=
  {| t_cc := t_cc t; t_file := t_file t; t_writable := t_writable t; t_sel := s |}.

Definition tag_write (f : list Z) (t : tag) : tag :=
  {| t_cc := t_cc t; t_file := f; t_writable := t_writable t; t_sel := t_sel t |}.

Definition sw_bytes (sw : Z) : list Z := [sw / 256; sw mod 256].

(** The expected length of a response: [available] is what the file has from the offset. *)
Definition expected (a : nfc_apdu_t) (available : Z) : Z :=
  if negb (has_le a) then available
  else if le a =? 0 then Z.min available (if extended a then 65536 else 256)
  else le a.

(** SELECT, READ BINARY and UPDATE BINARY of the tag: the next tag and the response. *)
Definition tag_select_file (t : tag) (a : nfc_apdu_t) : tag * list Z :=
  if negb (p1 a =? 0) || negb ((p2 a =? 0x00) || (p2 a =? 0x0C)) then (t, sw_bytes 0x6A86)
  else match data a with
  | Some (d0 :: d1 :: _) =>
      if negb (lc a =? 2) then (t, sw_bytes 0x6700)
      else if 256 * d0 + d1 =? 0xE103 then (tag_select NDEF_FILE_CC t, sw_bytes 0x9000)
      else if 256 * d0 + d1 =? 0xE104 then (tag_select NDEF_FILE_NDEF t, sw_bytes 0x9000)
      else (t, sw_bytes 0x6A82)
  | _ => (t, sw_bytes 0x6700)
  end.

(** Reading a file of the tag. *)
Definition file_read (file : list Z) (a : nfc_apdu_t) : list Z :=
  let off := 256 * p1 a + p2 a in
  if len file <=? off then sw_bytes 0x6B00
  else let n := Z.min (Z.min (expected a (len file - off)) (len file - off)) 253 in
       take (Z.to_nat n) (drop (Z.to_nat off) file) ++ sw_bytes 0x9000.

Definition tag_read (t : tag) (a : nfc_apdu_t) : list Z :=
  match t_sel t with
  | NDEF_FILE_NONE => sw_bytes 0x6986
  | NDEF_FILE_CC => file_read (t_cc t) a
  | NDEF_FILE_NDEF => file_read (t_file t) a
  end.

Definition tag_update (t : tag) (a : nfc_apdu_t) : tag * list Z :=
  let off := 256 * p1 a + p2 a in
  match t_sel t with
  | NDEF_FILE_NONE => (t, sw_bytes 0x6986)
  | NDEF_FILE_CC => (t, sw_bytes 0x6985)
  | NDEF_FILE_NDEF =>
    if negb (t_writable t) then (t, sw_bytes 0x6985)
    else match data a with
    | None => (t, sw_bytes 0x6700)
    | Some d =>
      if len (t_file t) <? off + lc a then (t, sw_bytes 0x6700)
      else (tag_write (take (Z.to_nat off) (t_file t) ++ take (Z.to_nat (lc a)) d ++
                       drop (Z.to_nat (off + lc a)) (t_file t)) t, sw_bytes 0x9000)
    end
  end.

Definition tag_step (t : tag) (a : nfc_apdu_t) : tag * list Z :=
  if negb (cla a =? 0) then (t, sw_bytes 0x6E00)
  else if ins a =? NFC_INS_SELECT then tag_select_file t a
  else if ins a =? NFC_INS_READ_BINARY then (t, tag_read t a)
  else if ins a =? NFC_INS_UPDATE_BINARY then tag_update t a
  else (t, sw_bytes 0x6D00).

(** ** Invariant and interface *)

Section ListenerFacts.
Context `{KconfigRanges} {E : Type} `{Platform E}.

Record nl_ok (l : ndef_listener) : Prop := {
  nlo_model : ndef_ok (nl_model l);
  nlo_response : len (nl_response_buf l) = NFC_TRANSPORT_MAX_RESPONSE_LEN;
  nlo_cc_len : nl_initialized l = true → cc_len (nl_model l) = NFC_NDEF_CC_LEN;
}.

(** The rest of the program as the listener sees it: [I] is its invariant, [K] says what a
    command leaves alone outside the listener. *)
Class Frame (I : world E → Prop) (K : world E → world E → Prop) : Prop := {
  frame_trans w1 w2 w3 : K w1 w2 → K w2 w3 → K w1 w3;
  frame_ndef w l : K w (set_ndef l w);
  frame_inv_ndef w l : I w → I (set_ndef l w);
  frame_inv_env w e : I w → I (set_env e w);
}.

(** What the listener relies on when it reports a modified model: the call returns, a reader
    cannot tell that it happened, and it stays within the frame. *)
Class DirtyOk (dirty : svc_ptr → M (world E) unit) (I : world E → Prop)
    (K : world E → world E → Prop) : Prop := {
  dirty_returns : ∀ w, I w → nl_ok (w_ndef w) →
    ∃ w', dirty SVC_NDEF w = Some (tt, w') ∧ nl_ok (w_ndef w') ∧ K w w' ∧ I w' ∧
      tag_of (w_ndef w') = tag_of (w_ndef w) ∧
      nl_initialized (w_ndef w') = nl_initialized (w_ndef w);
}.

Context (I : world E → Prop) (K : world E → world E → Prop) `{!Frame I K}.

Lemma nl_with_response_ok b l :
  nl_ok l → len b = NFC_TRANSPORT_MAX_RESPONSE_LEN → nl_ok (nl_with_response b l).
Proof. by intros []. Qed.

Lemma nl_with_sel_ok s l : nl_ok l → nl_ok (nl_with_sel s l).
Proof. by intros []. Qed.

(** A status word goes out as its two bytes. *)
Lemma send_sw_spec sw w :
  nl_ok (w_ndef w) → 0 <= sw < 65536 →
  ∃ b, len b = NFC_TRANSPORT_MAX_RESPONSE_LEN ∧
    ndef_listener_send_sw sw w =
    Some (tt, after_send (sw_bytes sw) (set_ndef (nl_with_response b (w_ndef w)) w)).
Proof.
  intros [_ Hr _] Hsw. unfold NFC_TRANSPORT_MAX_RESPONSE_LEN in *.
  destruct (nl_response_buf (w_ndef w)) as [|x [|y r]] eqn:Eb;
    rewrite ?len_cons, ?len_nil in Hr; try lia.
  exists (sw / 256 :: sw mod 256 :: r). split; [by rewrite !len_cons|].
  unfold ndef_listener_send_sw. wred. rewrite Eb.
  rewrite st_ok by (rewrite !len_cons; lia). wred.
  rewrite st_ok by (rewrite len_insert, !len_cons; lia). wred.
  assert (u8 (Z.shiftr sw 8) = sw / 256) as ->.
  { rewrite Z.shiftr_div_pow2 by lia. change (2 ^ 8) with 256. apply u8_id. split; dlia. }
  assert (u8 (Z.land sw 0xFF) = sw mod 256) as -> by apply lo8_eq.
  change (<[Z.to_nat 1:=sw mod 256]> (<[Z.to_nat 0:=sw / 256]> (x :: y :: r)))
    with ([sw / 256; sw mod 256] ++ r).
  by rewrite (run_send_response _ _ (sw_bytes sw)) by by apply sub_prefix.
Qed.

(** What a command leaves alone. *)
Definition keeps (w w' : world E) : Prop :=
  K w w' ∧ (I w → I w') ∧ nl_initialized (w_ndef w') = nl_initialized (w_ndef w).

Lemma keeps_ndef w l : nl_initialized l = nl_initialized (w_ndef w) → keeps w (set_ndef l w).
Proof. split; [apply frame_ndef|split; [apply frame_inv_ndef|done]]. Qed.

Lemma keeps_refl w : keeps w w.
Proof. pose proof (keeps_ndef w (w_ndef w) eq_refl) as Hk. by destruct w. Qed.

Lemma keeps_trans w1 w2 w3 : keeps w1 w2 → keeps w2 w3 → keeps w1 w3.
Proof.
  intros (?&?&?) (?&?&?). split; [by eapply frame_trans|]. split; [auto|congruence].
Qed.

#[local] Hint Resolve keeps_ndef keeps_refl : core.

(** The outcome [o] of a command run in [w]: it returns, having sent exactly [resp] at its
    end, and the tag is then [t']. *)
Definition responds (w : world E) (out : tag * list Z) (o : option (unit * world E)) : Prop :=
  ∃ w1, o = Some (tt, after_send out.2 w1) ∧ tag_of (w_ndef w1) = out.1 ∧
    nl_ok (w_ndef w1) ∧ keeps w w1.

Lemma responds_sw sw w w0 t :
  nl_ok (w_ndef w) → 0 <= sw < 65536 → tag_of (w_ndef w) = t → keeps w0 w →
  responds w0 (t, sw_bytes sw) (ndef_listener_send_sw sw w).
Proof.
  intros Hok Hsw <- Hk. destruct (send_sw_spec sw w Hok Hsw) as (b & Hb & ->).
  eexists. split; [done|]. split; [done|]. split; [by apply nl_with_response_ok|].
  eapply keeps_trans; [exact Hk|auto].
Qed.

(** [sw_done]: the command answers a status word and leaves the rest of the tag alone. *)
Ltac sw_done := apply responds_sw; [try done; by apply nl_with_sel_ok|done|done|first [apply keeps_refl | by apply keeps_ndef]].

Lemma offset_eq a : apdu_ok a → Z.lor (Z.shiftl (p1 a) 8) (p2 a) = 256 * p1 a + p2 a.
Proof.
  intros (_&_&?&?&_). unfold is_byte in *.
  rewrite lor_shiftl_add by (change (2 ^ 8) with 256; lia). change (2 ^ 8) with 256. lia.
Qed.

Lemma read_ne_eq a n : 0 <= n → ndef_listener_read_ne a n = expected a n.
Proof.
  intros. unfold ndef_listener_read_ne, expected.
  destruct (has_le a), (extended a), (le a =? 0); cbn; try done; case_bool; bool_prop; lia.
Qed.

Lemma select_file_spec a w : nl_ok (w_ndef w) → apdu_ok a →
  responds w (tag_select_file (tag_of (w_ndef w)) a) (ndef_listener_handle_select_file a w).
Proof.
  intros Hok Ha. unfold ndef_listener_handle_select_file, tag_select_file,
    ndef_listener_select_p2_valid.
  change NFC_SELECT_P1_BY_FILE_ID with 0. change NDEF_SELECT_P2_FIRST_FCI with 0.
  change NDEF_SELECT_P2_NO_FCI with 0x0C.
  destruct (p1 a =? 0) eqn:E1; cbn [negb orb]; [|sw_done].
  destruct ((p2 a =? 0) || (p2 a =? 12)) eqn:E2; cbn [negb]; [|sw_done].
  destruct Ha as (_&_&_&_&_&_&Hd).
  destruct (data a) as [d|]; [|sw_done]. destruct Hd as [Hd Hl].
  destruct (lc a =? 2) eqn:E3; cbn [negb]; bool_prop.
  2: { by destruct d as [|? []]; apply responds_sw. }
  destruct d as [|d0 [|d1 d]]; rewrite ?len_cons, ?len_nil in Hl; try lia. inv_bytes.
  change (ld (d0 :: d1 :: d) 0) with (Some d0). change (ld (d0 :: d1 :: d) 1) with (Some d1).
  wred. rewrite be16_eq by done.
  unfold NDEF_FILE_ID_CC, NDEF_FILE_ID_NDEF. repeat case_bool; wred;
    sw_done.
Qed.

Lemma expected_pos a n : apdu_ok a → 0 < n → 0 < expected a n.
Proof.
  intros (_&_&_&_&_&?&_) ?. unfold expected.
  destruct (has_le a), (extended a), (le a =? 0) eqn:El; cbn; bool_prop; lia.
Qed.

(** The response buffer after a read of [n] bytes at [off] holds them and the status word. *)
Lemma read_response (b f : list Z) off n :
  len b = NFC_TRANSPORT_MAX_RESPONSE_LEN → 0 <= off → 0 <= n <= 253 → off + n <= len f →
  ∃ b1 b2 b3, memcpy b 0 f off n = Some b1 ∧ st b1 n 0x90 = Some b2 ∧
    st b2 (n + 1) 0x00 = Some b3 ∧ len b3 = NFC_TRANSPORT_MAX_RESPONSE_LEN ∧
    sub b3 0 (n + 2) = Some (take (Z.to_nat n) (drop (Z.to_nat off) f) ++ [0x90; 0x00]).
Proof.
  intros Hb Ho Hn Hf. unfold NFC_TRANSPORT_MAX_RESPONSE_LEN in *.
  set (d := take (Z.to_nat n) (drop (Z.to_nat off) f)).
  assert (len d = n) as Hd by (subst d; llia).
  rewrite memcpy_ok by lia. fold d. rewrite blit_ok by lia. change (Z.to_nat 0) with 0%nat.
  rewrite take_0, app_nil_l. replace (0 + len d) with n by lia.
  destruct (drop (Z.to_nat n) b) as [|x [|y r]] eqn:Er;
    apply (f_equal len) in Er; rewrite len_drop in Er; [llia..|rewrite !len_cons in Er].
  exists (d ++ x :: y :: r), (d ++ 0x90 :: y :: r), (d ++ 0x90 :: 0x00 :: r).
  split; [done|]. pose proof (len_nonneg r).
  rewrite !st_ok by (rewrite len_app, !len_cons; lia).
  replace (Z.to_nat n) with (length d + 0)%nat by llia.
  replace (Z.to_nat (n + 1)) with (length d + 1)%nat by llia.
  rewrite !insert_app_r. split; [done|]. split; [done|].
  split; [rewrite len_app, !len_cons; lia|].
  change (d ++ 0x90 :: 0x00 :: r) with (d ++ [0x90; 0x00] ++ r).
  rewrite (assoc_L (++)). apply sub_prefix. rewrite len_app, !len_cons, len_nil. lia.
Qed.

Lemma read_file_spec a f n w : nl_ok (w_ndef w) → apdu_ok a → n = len f →
  responds w (tag_of (w_ndef w), file_read f a) (ndef_listener_read_file a f n w).
Proof.
  intros Hok Ha ->. unfold ndef_listener_read_file, file_read. wred.
  rewrite (offset_eq a Ha). set (off := 256 * p1 a + p2 a).
  destruct (len f <=? off) eqn:E1; [sw_done|]. bool_prop.
  assert (0 <= off) by (destruct Ha as (_&_&?&?&_); unfold is_byte in *; lia).
  pose proof (expected_pos a (len f - off) Ha ltac:(lia)).
  rewrite read_ne_eq, (proj2 (Z.eqb_neq _ 0)) by lia.
  set (ne := expected _ _) in *. unfold NFC_TRANSPORT_MAX_RESPONSE_LEN.
  change (255 - 2) with 253.
  match goal with |- context [memcpy _ _ _ _ ?n] => set (m := n) end.
  assert (m = Z.min (Z.min ne (len f - off)) 253) as Hm
    by (subst m; repeat case_bool; bool_prop; lia).
  rewrite <-Hm. clearbody m.
  destruct (read_response (nl_response_buf (w_ndef w)) f off m)
    as (b1 & b2 & b3 & -> & Hb2 & Hb3 & Hb & Hs); [apply Hok|lia..|].
  wred. rewrite Hb2. wred. rewrite Hb3. wred.
  rewrite (run_send_response _ _ _ _ _ Hs).
  eexists. split; [done|]. split; [done|].
  split; [by apply nl_with_response_ok|auto].
Qed.

Lemma read_binary_spec a w : nl_ok (w_ndef w) → apdu_ok a →
  responds w (tag_of (w_ndef w), tag_read (tag_of (w_ndef w)) a)
    (ndef_listener_handle_read_binary a w).
Proof.
  intros Hok Ha. unfold ndef_listener_handle_read_binary, tag_read. wred. cbn [t_sel tag_of].
  destruct (nl_file_sel (w_ndef w)); [sw_done|..];
    apply (read_file_spec a _ _ w Hok Ha); symmetry; apply Hok.
Qed.

Lemma nl_with_file_ok f l : nl_ok l → len f = NDEF_FILE_BUF_SIZE → bytes f →
  nl_ok (nl_with_model (nd_with_file f (nl_model l)) l).
Proof. intros [[] ? ?] ? ?. by constructor. Qed.

Lemma update_binary_spec dirty `{!DirtyOk dirty I K} a w : I w → nl_ok (w_ndef w) → apdu_ok a →
  responds w (tag_update (tag_of (w_ndef w)) a) (ndef_listener_handle_update_binary dirty a w).
Proof.
  intros HI Hok Ha. unfold ndef_listener_handle_update_binary, tag_update. wred.
  rewrite (offset_eq a Ha). cbn [t_sel tag_of t_writable t_file].
  set (off := 256 * p1 a + p2 a).
  assert (0 <= off) by (destruct Ha as (_&_&?&?&_); unfold is_byte in *; lia).
  destruct (nl_file_sel (w_ndef w)) eqn:Es; try sw_done.
  rewrite !bool_decide_false by done.
  destruct (nl_writable (w_ndef w)) eqn:Ew; cbn [negb]; [|sw_done].
  destruct Ha as (_&_&_&_&_&_&Ha). destruct (data a) as [d|]; [|sw_done].
  destruct Ha as [Hd Hl]. rewrite (proj2 (Z.eqb_neq (lc a) 0)) by lia.
  pose proof (nlo_model _ Hok) as Hm. rewrite (nd_file_size _ Hm).
  destruct (NDEF_FILE_BUF_SIZE <? off + lc a) eqn:El; [sw_done|]. bool_prop.
  rewrite memcpy_prefix by lia.
  destruct (blit (ndef_file (nl_model (w_ndef w))) off (take (Z.to_nat (lc a)) d))
    as [f|] eqn:Hf; [|rewrite blit_ok in Hf by (rewrite ?(nd_file_size _ Hm); llia); done].
  pose proof (blit_len _ _ _ _ Hf) as Hlen. rewrite (nd_file_size _ Hm) in Hlen.
  assert (bytes f) as Hfb by (eapply blit_bytes, Hf; [apply Hm|by apply bytes_take]).
  apply blit_Some_inv in Hf as (_ & _ & ->).
  replace (len (take (Z.to_nat (lc a)) d)) with (lc a) in * by llia.
  wred. set (w1 := set_ndef _ w).
  assert (nl_ok (w_ndef w1)) as Hok1 by by apply nl_with_file_ok.
  destruct CONFIG_NFC_LISTEN_STACK.
  - destruct (dirty_returns w1) as (w2 & Hw2 & Hok2 & HK & HI2 & Ht & Hinit);
      [by apply frame_inv_ndef|done|].
    rewrite (run_call _ _ _ _ _ Hw2). apply responds_sw; [done..|by rewrite Ht|].
    eapply (keeps_trans _ w1); [by apply keeps_ndef|by repeat split].
  - wred. sw_done.
Qed.

(** Every command follows the specification of the tag. *)
Lemma on_apdu_spec dirty `{!DirtyOk dirty I K} a w : I w → nl_ok (w_ndef w) → apdu_ok a →
  responds w (tag_step (tag_of (w_ndef w)) a) (ndef_listener_on_apdu dirty a w).
Proof.
  intros HI Hok Ha. unfold ndef_listener_on_apdu, tag_step.
  destruct (cla a =? 0); cbn [negb]; [|sw_done].
  destruct (ins a =? NFC_INS_SELECT); [by apply select_file_spec|].
  destruct (ins a =? NFC_INS_READ_BINARY); [by apply read_binary_spec|].
  destruct (ins a =? NFC_INS_UPDATE_BINARY); [by eapply update_binary_spec|sw_done].
Qed.

(** ** Life cycle and persistence *)

(** The capability container the listener writes. *)
Definition cc_bytes (writable : bool) : list Z :=
  let n := CONFIG_NFC_NDEF_MAX_SIZE in
  [0x00; 15; 0x20; (n + 2) / 256; (n + 2) mod 256; n / 256; n mod 256; 0x04; 0x06; 0xE1; 0x04;
   n / 256; n mod 256; 0x00; if writable then 0x00 else 0xFF].

Lemma cc_bytes_ok b : len (cc_bytes b) = NFC_NDEF_CC_LEN ∧ bytes (cc_bytes b).
Proof.
  pose proof ndef_max_size_range. split; [done|].
  unfold cc_bytes, bytes. repeat constructor; unfold is_byte; try lia; try dlia;
    destruct b; lia.
Qed.

Lemma build_cc_spec c b : len c = NFC_NDEF_CC_LEN →
  ndef_listener_build_cc c b = Some (cc_bytes b).
Proof.
  intros Hc. pose proof ndef_max_size_range. unfold NFC_NDEF_CC_LEN in Hc.
  do 15 (destruct c as [|? c]; [rewrite ?len_cons, ?len_nil in Hc; lia|
    rewrite len_cons in Hc]).
  destruct c; [|rewrite len_cons in Hc; pose proof (len_nonneg c); lia].
  unfold ndef_listener_build_cc, cc_bytes, NFC_NDEF_NLEN_FIELD_LEN.
  rewrite !u16_id by lia.
  assert (∀ x, 0 <= x < 65536 → u8 (Z.shiftr x 8) = x / 256) as Hhi.
  { intros x Hx. rewrite Z.shiftr_div_pow2 by lia. change (2 ^ 8) with 256.
    apply u8_id. unfold is_byte. dlia. }
  rewrite !Hhi by lia. rewrite !(lo8_eq _ : u8 (Z.land _ 0xFF) = _).
  by destruct b.
Qed.

Lemma sync_spec m : ndef_ok m →
  ndef_listener_sync_file_len m =
  Some (if nlen m <=? CONFIG_NFC_NDEF_MAX_SIZE then nd_with_file_len (2 + nlen m) m else m).
Proof.
  intros Hm. destruct (ndef_file_01 m Hm) as (f0 & f1 & H0' & H1' & _ & _ & Hn).
  unfold ndef_listener_sync_file_len. rewrite H0', H1'. mred. rewrite <-Hn.
  pose proof ndef_max_size_range. pose proof (nlen_range m Hm).
  case_bool; [|done]. bool_prop. by rewrite u16_id by (unfold NFC_NDEF_NLEN_FIELD_LEN; lia).
Qed.

(** Padding clears what follows the stored length, and makes the whole buffer the file. *)
Definition padded (m : ndef_data_t) : ndef_data_t :=
  nd_with_file_len NDEF_FILE_BUF_SIZE
    (nd_with_file (take (Z.to_nat (ndef_file_len m)) (ndef_file m) ++
                   zeros (NDEF_FILE_BUF_SIZE - ndef_file_len m)) m).

Lemma pad_spec m : ndef_ok m → ndef_listener_pad_ndef_file m = Some (padded m).
Proof.
  intros Hm. pose proof ndef_max_size_range. pose proof ndef_buf_size.
  pose proof (nd_file_size m Hm). pose proof (nd_file_len m Hm).
  unfold ndef_listener_pad_ndef_file, padded. rewrite (u16_id NDEF_FILE_BUF_SIZE) by lia.
  destruct (Z.ltb_spec (ndef_file_len m) NDEF_FILE_BUF_SIZE) as [Hlt|Hge].
  - unfold memset. rewrite blit_ok by llia. mred.
    rewrite (drop_ge (ndef_file m)), app_nil_r by llia. done.
  - mred. unfold zeros. replace (Z.to_nat (NDEF_FILE_BUF_SIZE - _)) with 0%nat by lia.
    rewrite app_nil_r, take_ge by llia. by destruct m.
Qed.

Lemma padded_ok m : ndef_ok m → ndef_ok (padded m).
Proof.
  intros []. pose proof ndef_max_size_range. pose proof ndef_buf_size.
  constructor; cbn; try done; try lia; [llia|]. apply bytes_app. auto with nfc.
Qed.

Definition cc_zero (c : list Z) : bool := bool_decide (c = zeros NFC_NDEF_CC_LEN).

Lemma cc_zero_from_spec (k r : list Z) :
  cc_zero_from (length r) (len k) (k ++ r) = Some (bool_decide (r = replicate (length r) 0)).
Proof.
  revert k. induction r as [|x r IH]; intros k; [done|]. cbn [length cc_zero_from replicate].
  rewrite (ld_eq _ _ x); [|apply len_nonneg|unfold len; rewrite Nat2Z.id; by apply list_lookup_middle].
  mred. destruct (Z.eqb_spec x 0) as [->|Hne]; cbn [negb].
  - specialize (IH (k ++ [0])). rewrite <-(assoc_L (++)), len_app in IH.
    change (len [0]) with 1 in IH. cbn [app] in IH. rewrite IH. f_equal. apply bool_decide_ext.
    split; [by intros <-|by intros [=]].
  - by rewrite bool_decide_false by (by intros [=]).
Qed.

Lemma cc_is_zero_spec m : ndef_ok m →
  ndef_listener_cc_is_zero_placeholder m = Some (cc_zero (cc m)).
Proof.
  intros Hm. pose proof (nd_cc_size m Hm) as Hc.
  assert (length (cc m) = Z.to_nat NFC_NDEF_CC_LEN) as Hl by llia.
  pose proof (cc_zero_from_spec [] (cc m)) as Hs. rewrite Hl in Hs. exact Hs.
Qed.

(** What [ndef_listener_deserialize] makes of an accepted model. *)
Definition loaded (writable : bool) (m : ndef_data_t) : ndef_data_t :=
  padded (if cc_zero (cc m) then nd_with_cc (cc_bytes writable) m else m).

Lemma loaded_ok b m : ndef_ok m → ndef_ok (loaded b m).
Proof.
  intros Hm. apply padded_ok. destruct (cc_zero _); [|done].
  destruct (cc_bytes_ok b), Hm. by constructor.
Qed.

Lemma deserialize_spec (w : world E) inp n ret m :
  nl_ok (w_ndef w) → nl_initialized (w_ndef w) = true →
  ndef_deserialize (Some (nl_model (w_ndef w))) (Some inp) n = Some (ret, Some m) → ndef_ok m →
  (ret = 0 → cc_len m = NFC_NDEF_CC_LEN) →
  ndef_listener_deserialize inp n w =
  Some (ret, set_ndef (nl_with_model (if ret =? 0 then loaded (nl_writable (w_ndef w)) m else m)
                         (w_ndef w)) w).
Proof.
  intros Hok Hi Hd Hm Hcl. unfold ndef_listener_deserialize. wred. rewrite Hi. cbn [negb].
  rewrite Hd. wred. destruct (Z.eqb_spec ret 0) as [->|Hne]; cbn [negb]; [|done].
  rewrite cc_is_zero_spec by done. wred. cbv iota beta.
  assert ((if cc_zero (cc m) then
             c ← ndef_listener_build_cc (cc m) (nl_writable (w_ndef w));
             Some (nd_with_cc_len NFC_NDEF_CC_LEN (nd_with_cc c m))
           else Some m) =
          Some (if cc_zero (cc m) then nd_with_cc (cc_bytes (nl_writable (w_ndef w))) m else m))
    as ->.
  { destruct (cc_zero (cc m)); [|done]. rewrite build_cc_spec by apply Hm. mred.
    unfold nd_with_cc_len, nd_with_cc. cbn. by rewrite Hcl. }
  wred. rewrite pad_spec; [done|].
  destruct (cc_zero _); [|done]. destruct (cc_bytes_ok (nl_writable (w_ndef w))), Hm.
  by constructor.
Qed.

(** The model as it is serialized: the stored length follows the NLEN field if it can. *)
Definition synced (m : ndef_data_t) : ndef_data_t :=
  if nlen m <=? CONFIG_NFC_NDEF_MAX_SIZE then nd_with_file_len (2 + nlen m) m else m.

Lemma synced_ok m : ndef_ok m → ndef_ok (synced m).
Proof.
  intros Hm. pose proof (nlen_range m Hm). pose proof ndef_max_size_range. unfold synced.
  case_bool; [|done]. bool_prop. destruct Hm. constructor; cbn; try done. lia.
Qed.

Lemma serialize_spec (w : world E) out n n0 :
  nl_ok (w_ndef w) → nl_initialized (w_ndef w) = true → n <= len out →
  let m := synced (nl_model (w_ndef w)) in
  ndef_listener_serialize out n n0 w =
  Some (if NDEF_FILE_BUF_SIZE <? ndef_file_len m then (- EINVAL, out, n0)
        else if n <? ndef_blob_total_len m then (- ENOSPC, out, n0)
        else (0, ndef_blob m ++ drop (length (ndef_blob m)) out, len (ndef_blob m)),
        set_ndef (nl_with_model m (w_ndef w)) w).
Proof.
  intros Hok Hi Hn m. unfold ndef_listener_serialize. wred. rewrite Hi. cbn [negb].
  pose proof (nlo_model _ Hok) as Hm. rewrite sync_spec by done. fold (synced (nl_model (w_ndef w))).
  fold m. wred. assert (cc_len m = NFC_NDEF_CC_LEN) as Hc.
  { unfold m, synced. case_bool; by apply nlo_cc_len. }
  pose proof (synced_ok _ Hm) as Hm'. fold m in Hm'.
  repeat case_bool; bool_prop;
    [| |rewrite ndef_serialize_spec by (done || lia); by wred];
    unfold ndef_serialize; rewrite Hc, Z.eqb_refl; cbn [negb].
  - by rewrite (proj2 (Z.ltb_lt _ _)) by done.
  - by rewrite (proj2 (Z.ltb_ge _ _)), (proj2 (Z.ltb_lt _ _)) by lia.
Qed.

Lemma nl_with_model_ok m l : nl_ok l → ndef_ok m →
  (nl_initialized l = true → cc_len m = NFC_NDEF_CC_LEN) → nl_ok (nl_with_model m l).
Proof. intros [] ? ?. by constructor. Qed.

Lemma listener_boot_ok : nl_ok ndef_listener_boot.
Proof. constructor; [apply ndef_data_zero_ok|by apply len_zeros|done]. Qed.

(** Initialization from a given model, or from an empty one. *)
Lemma init_spec l model cfg :
  nl_ok l → nl_initialized l = false → (∀ m, model = Some m → ndef_ok m) →
  let m := default ndef_data_zero model in
  let writable := default true cfg in
  ∃ c, ndef_listener_init model cfg l =
    Some (0, {| nl_model := padded (nd_with_cc_len NFC_NDEF_CC_LEN (nd_with_cc c m));
                nl_writable := writable; nl_initialized := true;
                nl_file_sel := NDEF_FILE_NONE; nl_response_buf := nl_response_buf l |}) ∧
    len c = NFC_NDEF_CC_LEN ∧ bytes c ∧
    c !! 14%nat = Some (if writable then 0x00 else 0xFF) ∧
    (cc_len m ≠ NFC_NDEF_CC_LEN → c = cc_bytes writable).
Proof.
  intros Hok Hi Hmodel m writable. unfold ndef_listener_init. rewrite Hi.
  assert (match cfg with Some c => c | None => true end = writable) as -> by by destruct cfg.
  assert (match model with Some m => m | None => ndef_data_zero end = m) as -> by by destruct model.
  assert (ndef_ok m) as Hm.
  { unfold m. destruct model as [m'|]; [by apply Hmodel|apply ndef_data_zero_ok]. }
  pose proof (nd_cc_size m Hm) as Hcs. unfold NFC_NDEF_CC_LEN in *.
  set (acc := if writable then NDEF_CC_WR_ACCESS_OPEN else NDEF_CC_WR_ACCESS_NONE).
  assert (is_byte acc) by (unfold acc, is_byte; destruct writable; unfold NDEF_CC_WR_ACCESS_OPEN, NDEF_CC_WR_ACCESS_NONE; lia).
  destruct (Z.eqb_spec (cc_len m) 15) as [Hc|Hc].
  - rewrite st_ok by lia. mred. change (Z.to_nat 14) with 14%nat.
    exists (<[14%nat := acc]> (cc m)). destruct Hm.
    rewrite pad_spec by (constructor; cbn; rewrite ?len_insert; auto with nfc). mred.
    split; [|split_and!; [by rewrite len_insert|auto with nfc| |done]].
    + do 3 f_equal. unfold padded, nd_with_file, nd_with_file_len, nd_with_cc, nd_with_cc_len.
      cbn. by rewrite Hc.
    + rewrite list_lookup_insert_eq by llia. by unfold acc; destruct writable.
  - rewrite build_cc_spec by done. mred. exists (cc_bytes writable).
    destruct (cc_bytes_ok writable), Hm.
    rewrite pad_spec by (constructor; cbn; done || lia). mred. by destruct writable.
Qed.

Lemma init_ok l model cfg :
  nl_ok l → (∀ m, model = Some m → ndef_ok m) →
  ∃ ret l', ndef_listener_init model cfg l = Some (ret, l') ∧ nl_ok l' ∧
    nl_initialized l' = true ∧ (ret = 0 ∨ ret = - EALREADY).
Proof.
  intros Hok Hm. destruct (nl_initialized l) eqn:Hi.
  { exists (- EALREADY), l. unfold ndef_listener_init. rewrite Hi. by auto. }
  destruct (init_spec l model cfg Hok Hi Hm) as (c & -> & Hc & Hb & _).
  eexists _, _. split; [done|]. split; [|by auto].
  constructor; [|apply Hok|done]. apply padded_ok.
  assert (ndef_ok (default ndef_data_zero model)) as [].
  { destruct model; [by apply Hm|apply ndef_data_zero_ok]. }
  by constructor.
Qed.

Lemma nlen_of_blob m c k : ndef_ok m → 2 <= k →
  nlen (ndef_of_blob c (take (Z.to_nat k) (ndef_file m))) = nlen m.
Proof.
  intros Hm Hk. pose proof ndef_max_size_range. pose proof ndef_buf_size.
  pose proof (nd_file_size m Hm) as Hf. unfold nlen, ndef_of_blob. cbn [ndef_file].
  rewrite !lookup_app_l by llia. by rewrite !lookup_take_lt by lia.
Qed.

(** What deserialization makes of a blob the listener serialized. *)
Lemma reload m d rest :
  ndef_ok m → 2 <= ndef_file_len m <= NDEF_FILE_BUF_SIZE →
  let f := take (Z.to_nat (ndef_file_len m)) (ndef_file m) in
  ndef_deserialize (Some d) (Some (ndef_blob m ++ rest)) (len (ndef_blob m)) =
  Some (if (nlen m <=? CONFIG_NFC_NDEF_MAX_SIZE) && (2 + nlen m =? ndef_file_len m)
        then 0 else - EBADMSG, Some (ndef_of_blob (cc m) f)).
Proof.
  intros Hm Hl f. pose proof ndef_max_size_range. pose proof ndef_buf_size.
  pose proof (nd_file_size m Hm). assert (len f = ndef_file_len m) as Hlf by (subst f; llia).
  unfold ndef_blob. fold f. cbn [app]. rewrite <-(assoc_L (++)).
  rewrite ndef_deserialize_spec; [|apply Hm|apply Hm|apply bytes_take, Hm|lia].
  cbn [Z.eqb NFC_NDEF_FORMAT_VERSION Pos.eqb negb].
  rewrite (proj2 (Z.ltb_ge _ _)) by lia. unfold f at 1 2. rewrite nlen_of_blob by (done || lia).
  rewrite Hlf. by destruct (_ && _).
Qed.

(** Restoring a blob whose stored length agrees with its NLEN field. *)
Lemma restore (w : world E) m rest :
  nl_ok (w_ndef w) → nl_initialized (w_ndef w) = true → ndef_ok m →
  nlen m <= CONFIG_NFC_NDEF_MAX_SIZE → ndef_file_len m = 2 + nlen m →
  ∃ w', ndef_listener_deserialize (ndef_blob m ++ rest) (len (ndef_blob m)) w = Some (0, w') ∧
    nl_ok (w_ndef w') ∧
    tag_of (w_ndef w') =
      {| t_cc := if cc_zero (cc m) then cc_bytes (nl_writable (w_ndef w)) else cc m;
         t_file := take (Z.to_nat (ndef_file_len m)) (ndef_file m) ++
                   zeros (NDEF_FILE_BUF_SIZE - ndef_file_len m);
         t_writable := nl_writable (w_ndef w); t_sel := nl_file_sel (w_ndef w) |}.
Proof.
  intros Hok Hi Hm Hn Hk. pose proof ndef_max_size_range. pose proof ndef_buf_size as Hb.
  pose proof (nlen_range _ Hm). pose proof (nd_file_size _ Hm) as Hfs.
  pose proof (reload m (nl_model (w_ndef w)) rest Hm ltac:(lia)) as Hr.
  rewrite Hk, (proj2 (Z.leb_le _ _)), (proj2 (Z.eqb_eq _ _)) in Hr by lia. rewrite <-Hk in Hr.
  cbn [andb] in Hr. set (f := take (Z.to_nat (ndef_file_len m)) (ndef_file m)) in *.
  assert (len f = ndef_file_len m) as Hf by (subst f; llia).
  assert (ndef_ok (ndef_of_blob (cc m) f)) as Hbok.
  { apply ndef_of_blob_ok; [apply Hm..|apply bytes_take, Hm|lia]. }
  rewrite (deserialize_spec w _ _ _ _ Hok Hi Hr Hbok) by done.
  eexists. split; [done|]. cbn [Z.eqb]. split.
  { apply nl_with_model_ok; [done|by apply loaded_ok|].
    intros _. unfold loaded, padded. by case_bool. }
  assert (∀ z, take (Z.to_nat (len f)) (f ++ z) = f) as Htk by (intros; apply take_app_length'; llia).
  unfold tag_of. cbn -[zeros take]. unfold loaded, padded. cbn [cc ndef_of_blob].
  destruct (cc_zero (cc m)); cbn -[zeros take]; by rewrite Htk, Hf.
Qed.

(** No command changes the capability container or the access rights. *)
Lemma tag_step_cc t a : t_cc (tag_step t a).1 = t_cc t.
Proof.
  unfold tag_step, tag_select_file, tag_update.
  repeat first [done | case_bool | match goal with
    | |- context [match ?x with _ => _ end] => destruct x end].
Qed.

(** A command that writes the file and a command that reads the same range back. *)
Lemma update_read t up rd d :
  t_sel t = NDEF_FILE_NDEF → t_writable t = true → cla up = 0 → ins up = NFC_INS_UPDATE_BINARY →
  data up = Some d → 1 <= lc up <= len d → lc up <= 253 →
  0 <= 256 * p1 up + p2 up → 256 * p1 up + p2 up + lc up <= len (t_file t) →
  cla rd = 0 → ins rd = NFC_INS_READ_BINARY → p1 rd = p1 up → p2 rd = p2 up →
  has_le rd = true → le rd = lc up →
  let t' := (tag_step t up).1 in
  (tag_step t up).2 = sw_bytes 0x9000 ∧
  tag_step t' rd = (t', take (Z.to_nat (lc up)) d ++ sw_bytes 0x9000).
Proof.
  intros Hs Hw Hc Hi Hd Hl H253 Ho Hlen Hc' Hi' Hp1 Hp2 Hh Hle.
  unfold tag_step. rewrite Hc, Hi, Hc', Hi'.
  change (negb (0 =? 0)) with false. cbv iota.
  change (NFC_INS_UPDATE_BINARY =? NFC_INS_SELECT) with false.
  change (NFC_INS_UPDATE_BINARY =? NFC_INS_READ_BINARY) with false.
  change (NFC_INS_READ_BINARY =? NFC_INS_SELECT) with false.
  rewrite !Z.eqb_refl. unfold tag_update. rewrite Hs, Hw, Hd. cbn [negb].
  rewrite (proj2 (Z.ltb_ge _ _)) by lia. cbn [fst snd]. split; [done|]. f_equal.
  set (off := 256 * p1 up + p2 up) in *. unfold tag_read. cbn [t_sel tag_write]. rewrite Hs.
  unfold file_read. rewrite Hp1, Hp2. fold off. cbn [t_file tag_write].
  set (f := take _ (t_file t) ++ _). assert (len f = len (t_file t)) as Hf by (subst f; llia).
  rewrite (proj2 (Z.leb_gt _ _)) by lia. f_equal.
  unfold expected. rewrite Hh, Hle, (proj2 (Z.eqb_neq (lc up) 0)) by lia. cbn [negb].
  rewrite !Z.min_l by lia. subst f. rewrite drop_app_length' by llia.
  apply take_app_length'. llia.
Qed.

(** C3: every command APDU given to the NDEF listener is answered by exactly one response,
    which, like the state it leaves, is the one the Type 4 Tag specification [tag_step]
    prescribes; the listener's invariant holds afterwards and the router, the assembler and the stack
    are untouched. *)
Theorem ndef_on_apdu_refines dirty `{!DirtyOk dirty I K} a w : I w → nl_ok (w_ndef w) → apdu_ok a →
  responds w (tag_step (tag_of (w_ndef w)) a) (ndef_listener_on_apdu dirty a w).
Proof. by apply on_apdu_spec. Qed.

(** A write to the NDEF file can be read back: on a writable tag with the NDEF file
    selected, an UPDATE BINARY of at most 253 bytes inside the file answers 9000, and a READ
    BINARY of the same range then answers exactly those bytes and 9000; nothing else of the
    tag has changed in between. *)
Theorem ndef_update_then_read dirty `{!DirtyOk dirty I K} w up rd d :
  I w → nl_ok (w_ndef w) → apdu_ok up → apdu_ok rd →
  nl_file_sel (w_ndef w) = NDEF_FILE_NDEF → nl_writable (w_ndef w) = true →
  cla up = 0 → ins up = NFC_INS_UPDATE_BINARY → data up = Some d → lc up <= 253 →
  256 * p1 up + p2 up + lc up <= NDEF_FILE_BUF_SIZE →
  cla rd = 0 → ins rd = NFC_INS_READ_BINARY → p1 rd = p1 up → p2 rd = p2 up →
  has_le rd = true → le rd = lc up →
  ∃ w1 w2, ndef_listener_on_apdu dirty up w = Some (tt, after_send [0x90; 0x00] w1) ∧
    ndef_listener_on_apdu dirty rd (after_send [0x90; 0x00] w1) =
      Some (tt, after_send (take (Z.to_nat (lc up)) d ++ [0x90; 0x00]) w2) ∧
    tag_of (w_ndef w2) = tag_of (w_ndef w1) ∧
    cc (nl_model (w_ndef w2)) = cc (nl_model (w_ndef w)).
Proof.
  intros HI Hok Hup Hrd Hs Hw Hc Hi Hd Hl Hlen Hc' Hi' Hp1 Hp2 Hh Hle.
  destruct (update_read (tag_of (w_ndef w)) up rd d) as [H1' H2']; try done.
  { destruct Hup as (_&_&_&_&_&_&Hup). rewrite Hd in Hup. apply Hup. }
  { destruct Hup as (_&_&?&?&_). unfold is_byte in *. lia. }
  { cbn. by rewrite (nd_file_size _ (nlo_model _ Hok)). }
  destruct (on_apdu_spec dirty up w HI Hok Hup) as (w1 & E1 & Ht1 & Hok1 & _ & HI1 & _).
  rewrite H1' in E1.
  destruct (on_apdu_spec dirty rd (after_send [0x90; 0x00] w1) ltac:(apply frame_inv_env; auto) Hok1 Hrd)
    as (w2 & E2 & Ht2 & _ & _).
  change (w_ndef (after_send _ w1)) with (w_ndef w1) in E2, Ht2.
  rewrite Ht1, H2' in E2, Ht2. cbn [fst snd] in E2, Ht2.
  exists w1, w2. split; [done|]. split; [done|]. split; [by rewrite Ht2, Ht1|].
  change (t_cc (tag_of (w_ndef w2)) = t_cc (tag_of (w_ndef w))). rewrite Ht2.
  apply tag_step_cc.
Qed.

(** Persistence of the emulated tag: whatever the listener serializes while the NLEN field
    announces a message that fits, any initialized listener restores: the capability
    container (rebuilt if the stored one is all zero), the NLEN field and the whole message;
    what followed the message is cleared. Serializing does not change what a reader sees. *)
Theorem ndef_listener_reload (w w2 : world E) out n0 :
  nl_ok (w_ndef w) → nl_initialized (w_ndef w) = true →
  nl_ok (w_ndef w2) → nl_initialized (w_ndef w2) = true →
  nlen (nl_model (w_ndef w)) <= CONFIG_NFC_NDEF_MAX_SIZE →
  18 + nlen (nl_model (w_ndef w)) <= len out →
  let t := tag_of (w_ndef w) in
  let k := 2 + nlen (nl_model (w_ndef w)) in
  ∃ o n w', ndef_listener_serialize out (len out) n0 w = Some ((0, o, n), w') ∧
    tag_of (w_ndef w') = t ∧
    ∃ w2', ndef_listener_deserialize o n w2 = Some (0, w2') ∧ nl_ok (w_ndef w2') ∧
      tag_of (w_ndef w2') =
        {| t_cc := if cc_zero (t_cc t) then cc_bytes (nl_writable (w_ndef w2)) else t_cc t;
           t_file := take (Z.to_nat k) (t_file t) ++ zeros (NDEF_FILE_BUF_SIZE - k);
           t_writable := nl_writable (w_ndef w2); t_sel := nl_file_sel (w_ndef w2) |}.
Proof.
  intros Hok Hi Hok2 Hi2 Hn Ho t k. pose proof (nlo_model _ Hok) as Hm.
  pose proof ndef_max_size_range. pose proof ndef_buf_size as Hb.
  pose proof (nlen_range _ Hm). pose proof (nd_file_size _ Hm) as Hfs.
  set (m := synced (nl_model (w_ndef w))).
  assert (m = nd_with_file_len k (nl_model (w_ndef w))) as Hme
    by (unfold m, synced; by rewrite (proj2 (Z.leb_le _ _))).
  assert (ndef_file_len m = k) as Hk by by rewrite Hme.
  pose proof (synced_ok _ Hm) as Hmok. fold m in Hmok.
  assert (nlen m = nlen (nl_model (w_ndef w))) as Hnm by by rewrite Hme.
  rewrite (serialize_spec w) by (done || lia). fold m.
  unfold ndef_blob_total_len, ndef_blob_payload_len, NFC_NDEF_CC_LEN. rewrite Hk.
  rewrite (proj2 (Z.ltb_ge _ _)), (proj2 (Z.ltb_ge _ _)) by lia.
  eexists _, _, _. split; [done|]. split; [by rewrite Hme|].
  destruct (restore w2 m (drop (length (ndef_blob m)) out) Hok2 Hi2 Hmok) as (w2' & Hrun & Hok' & Htag);
    [by rewrite Hnm|by rewrite Hnm|].
  exists w2'. split; [done|]. split; [done|]. rewrite Htag, Hk, Hme. done.
Qed.

(** A message length the tag accepts but the store does not: when the reader leaves an
    NLEN field larger than [CONFIG_NFC_NDEF_MAX_SIZE] in the file, serializing succeeds (with
    the whole buffer as the file), and every later attempt to load what it wrote is refused
    with [-EBADMSG]. *)
Theorem ndef_oversized_nlen_unloadable (w w2 : world E) out n0 :
  nl_ok (w_ndef w) → nl_initialized (w_ndef w) = true →
  nl_ok (w_ndef w2) → nl_initialized (w_ndef w2) = true →
  ndef_file_len (nl_model (w_ndef w)) = NDEF_FILE_BUF_SIZE →
  CONFIG_NFC_NDEF_MAX_SIZE < nlen (nl_model (w_ndef w)) →
  16 + NDEF_FILE_BUF_SIZE <= len out →
  ∃ o n w', ndef_listener_serialize out (len out) n0 w = Some ((0, o, n), w') ∧
    ∃ w2', ndef_listener_deserialize o n w2 = Some (- EBADMSG, w2').
Proof.
  intros Hok Hi Hok2 Hi2 Hfl Hn Ho. pose proof (nlo_model _ Hok) as Hm.
  pose proof ndef_max_size_range. pose proof ndef_buf_size as Hb.
  pose proof (nd_file_size _ Hm) as Hfs.
  assert (synced (nl_model (w_ndef w)) = nl_model (w_ndef w)) as Hs
    by (unfold synced; by rewrite (proj2 (Z.leb_gt _ _))).
  rewrite (serialize_spec w) by (done || lia). rewrite Hs.
  unfold ndef_blob_total_len, ndef_blob_payload_len, NFC_NDEF_CC_LEN. rewrite Hfl.
  rewrite (proj2 (Z.ltb_ge _ _)), (proj2 (Z.ltb_ge _ _)) by lia.
  eexists _, _, _. split; [done|].
  set (m := nl_model (w_ndef w)) in *.
  pose proof (reload m (nl_model (w_ndef w2)) (drop (length (ndef_blob m)) out) Hm ltac:(lia)) as Hr.
  rewrite (proj2 (Z.leb_gt _ _)) in Hr by lia. cbn [andb] in Hr.
  rewrite (deserialize_spec w2 _ _ _ _ Hok2 Hi2 Hr); [by eexists| |done].
  apply ndef_of_blob_ok; [apply Hm..|apply bytes_take, Hm|llia].
Qed.
End ListenerFacts.
