(* ===== verification/Store.v ===== *)
(** * Card store ([src/nfc/store/nfc_store.c], life cycle of [nfc_store_ram.c])

    Saving collects one entry per service into an envelope and hands it to the registered
    backend; loading reads an envelope back and gives every entry to its service.  Services are
    reached through the vtables [vtab]. *)

From stdpp Require Import base list numbers option gmap.
From S2P Require Import Prelude Kconfig Stats Service Envelope StoreRam World.

Section Store.
Context `{Kconfig} `{Crc16} {E : Type} `{Platform E}.
Context (vtab : svc_ptr → nfc_service_t (world E)).

Definition store_boot : store :=
  {| s_cfg_max_tag_len := 0; s_stats := STATS_RESET; s_state := NFC_STORE_STATE_UNINITIALIZED;
     s_staging_buf := zeros CONFIG_NFC_STORE_BLOB_SIZE;
     s_serialize_buf := zeros CONFIG_NFC_STORE_BLOB_SIZE;
     s_save_cb := None; s_load_cb := None; s_commit_cb := None;
     s_resolved_max_tag_len := 0 |}.

(** ** Callbacks *)

Definition nfc_store_default_save : Z := - ENODEV.
Definition nfc_store_default_load : Z := - ENOENT.
Definition nfc_store_default_commit : Z := 0.

(** [cb(tag, blob, len, user_ctx)] *)
Definition call_save (cb : store_fn) (tag : option (list Z)) (blob : option (list Z)) (n : Z)
    : M (world E) Z :=
  match cb with
  | FN_DEFAULT => mret nfc_store_default_save
  | FN_RAM =>
    m ← gets w_ram;
    '(ret, m) ← lift (nfc_store_ram_save_cb tag blob n m);
    upd_ram (λ _, m) ;; mret ret
  | FN_APP k =>
    t ← lift tag; b ← lift blob; b ← lift (sub b 0 n); env_call (app_save k t b)
  end.

(** [cb(tag, s_staging_buf, sizeof(s_staging_buf), &out_len, user_ctx)]: the return value and
    [out_len]. *)
Definition call_load (cb : store_fn) (tag : option (list Z)) (out_len : Z)
    : M (world E) (Z * Z) :=
  match cb with
  | FN_DEFAULT => mret (nfc_store_default_load, out_len)
  | FN_RAM =>
    w ← gets (λ w, w);
    '(ret, o, n) ← lift (nfc_store_ram_load_cb tag (Some (s_staging_buf (w_store w)))
                           CONFIG_NFC_STORE_BLOB_SIZE (Some out_len) (w_ram w));
    o ← lift o; n ← lift n;
    upd_store (s_with_staging o) ;; mret (ret, n)
  | FN_APP k =>
    t ← lift tag;
    w ← gets (λ w, w);
    let '(ret, d, e) := app_load k t CONFIG_NFC_STORE_BLOB_SIZE (w_env w) in
    modify (set_env e) ;;
    match d with
    | None => mret (ret, out_len)
    | Some d =>
      b ← lift (blit (s_staging_buf (w_store w)) 0 d);
      upd_store (s_with_staging b) ;; mret (ret, len d)
    end
  end.

(** [cb(svc, tag, user_ctx)] *)
Definition call_commit (cb : store_fn) (svc : svc_ptr) (tag : list Z) : M (world E) Z :=
  match cb with
  | FN_DEFAULT | FN_RAM => mret nfc_store_default_commit
  | FN_APP k => env_call (app_commit k svc tag)
  end.

(** ** Helpers *)

Definition nfc_store_check_quiescent : M (world E) Z :=
  k ← gets w_stack;
  mret (if CONFIG_NFC_ROLE_LISTEN && bool_decide (k_state k = NFC_STACK_STATE_STARTED)
        then - EBUSY else 0).

Definition nfc_store_validate_tag (s : store) (tag : option (list Z)) : Z :=
  match tag with
  | None => - EINVAL
  | Some tag =>
    let n := strlen tag in
    if (n =? 0) || (s_resolved_max_tag_len s <=? n) then - EINVAL else 0
  end.

Fixpoint nfc_store_find_service (svcs : list (option svc_ptr)) (pid : Z) : option svc_ptr :=
  match svcs with
  | [] => None
  | None :: l => nfc_store_find_service l pid
  | Some s :: l => if persist_id (vtab s) =? pid then Some s else nfc_store_find_service l pid
  end.

Definition inc_store (f : store_stat) : M (world E) unit := upd_store (s_inc f).
Definition err_store (code : Z) : M (world E) unit := upd_store (s_error code).

(** [nfc_store_read_envelope(tag, &blob_len, &payload_len, &version)], [blob_len] 0: the return
    value, [payload_len] and [version]. *)
Definition nfc_store_read_envelope (tag : option (list Z)) : M (world E) (Z * Z * Z) :=
  s ← gets w_store;
  match s_load_cb s with
  | None => mret (- ENODEV, 0, 0)
  | Some cb =>
    '(ret, blob_len) ← call_load cb tag 0;
    if ret =? - ENOENT then mret (- ENOENT, 0, 0)
    else if negb (ret =? 0) then err_store ret ;; mret (- EIO, 0, 0)
    else
      s ← gets w_store;
      '(ret, pl, v) ← lift (check_envelope (s_staging_buf s) blob_len 0 0);
      if negb (ret =? 0) then inc_store ss_corrupt_blob_count ;; mret (ret, pl, v)
      else mret (0, pl, v)
  end.

(** ** Operations *)

Definition nfc_store_import_blob (tag blob : option (list Z)) (n : Z) : M (world E) Z :=
  match tag, blob with
  | None, _ | _, None => mret (- EINVAL)
  | Some _, Some _ =>
    '(ret, _, _) ← lift (nfc_store_validate_blob_buf blob n 0 0);
    if negb (ret =? 0) then inc_store ss_corrupt_blob_count ;; mret ret else
    s ← gets w_store;
    if negb (bool_decide (s_state s = NFC_STORE_STATE_INITIALIZED)) then mret (- ENODEV) else
    let ret := nfc_store_validate_tag s tag in
    if negb (ret =? 0) then mret ret else
    match s_save_cb s with
    | None => mret (- ENODEV)
    | Some cb =>
      ret ← call_save cb tag blob n;
      if negb (ret =? 0) then err_store ret ;; mret (- EIO) else mret 0
    end
  end.

(** [nfc_store_init(cfg)]; a configuration is its [max_tag_len] member. *)
Definition nfc_store_init (cfg : option Z) : M (world E) Z :=
  s ← gets w_store;
  if bool_decide (s_state s = NFC_STORE_STATE_INITIALIZED) then mret (- EALREADY) else
  let max := match cfg with Some c => c | None => 0 end in
  upd_store (λ s,
    {| s_cfg_max_tag_len := max; s_stats := STATS_RESET;
       s_state := NFC_STORE_STATE_INITIALIZED;
       s_staging_buf := s_staging_buf s; s_serialize_buf := s_serialize_buf s;
       s_save_cb := Some FN_DEFAULT; s_load_cb := Some FN_DEFAULT;
       s_commit_cb := Some FN_DEFAULT;
       s_resolved_max_tag_len := if max =? 0 then u8 CONFIG_NFC_STORE_MAX_TAG_LEN else max |}) ;;
  mret 0.

Definition nfc_store_shutdown : M (world E) Z :=
  upd_store (s_with_cbs (Some FN_DEFAULT) (Some FN_DEFAULT) (Some FN_DEFAULT)
               NFC_STORE_STATE_UNINITIALIZED) ;;
  mret 0.

(** The three registration functions: a NULL function selects the default. *)
Definition register (upd : store_fn → store → store) (fn : option store_fn) : M (world E) Z :=
  s ← gets w_store;
  if negb (bool_decide (s_state s = NFC_STORE_STATE_INITIALIZED)) then mret (- ENODEV) else
  upd_store (upd match fn with Some f => f | None => FN_DEFAULT end) ;; mret 0.
Definition nfc_store_register_save_cb : option store_fn → M (world E) Z :=
  register (λ f s, s_with_cbs (Some f) (s_load_cb s) (s_commit_cb s) (s_state s) s).
Definition nfc_store_register_load_cb : option store_fn → M (world E) Z :=
  register (λ f s, s_with_cbs (s_save_cb s) (Some f) (s_commit_cb s) (s_state s) s).
Definition nfc_store_register_commit_cb : option store_fn → M (world E) Z :=
  register (λ f s, s_with_cbs (s_save_cb s) (s_load_cb s) (Some f) (s_state s) s).

Definition nfc_store_on_dirty (svc : option svc_ptr) (tag : option (list Z)) : M (world E) Z :=
  s ← gets w_store;
  if negb (bool_decide (s_state s = NFC_STORE_STATE_INITIALIZED)) then mret (- ENODEV) else
  match svc, tag with
  | None, _ | _, None => mret (- EINVAL)
  | Some svc, Some tag =>
    if persist_id (vtab svc) =? 0 then mret (- EINVAL) else
    match serialize (vtab svc) with
    | None => mret (- EINVAL)
    | Some f =>
      '(ret, b, _) ← f (s_staging_buf s) CONFIG_NFC_STORE_BLOB_SIZE 0;
      upd_store (s_with_staging b) ;;
      if ret =? - ENOTSUP then mret 0
      else if negb (ret =? 0) then err_store ret ;; mret (- EIO)
      else
        s ← gets w_store;
        match s_commit_cb s with
        | None => mret (- ENODEV)
        | Some cb =>
          ret ← call_commit cb svc tag;
          if negb (ret =? 0) then err_store ret ;; mret ret
          else inc_store ss_live_commit_count ;; mret 0
        end
    end
  end.

(** The loop of [nfc_store_save] over the services: [inl] is an early return, [inr] the
    position and payload length at its end. *)
Fixpoint save_entries (svcs : list (option svc_ptr)) (pos payload_len : Z)
    : M (world E) (Z + Z * Z) :=
  match svcs with
  | [] => mret (inr (pos, payload_len))
  | None :: l => inc_store ss_serialize_skip_count ;; save_entries l pos payload_len
  | Some svc :: l =>
    if persist_id (vtab svc) =? 0 then
      inc_store ss_serialize_skip_count ;; save_entries l pos payload_len
    else match serialize (vtab svc) with
    | None => inc_store ss_serialize_skip_count ;; save_entries l pos payload_len
    | Some f =>
      s ← gets w_store;
      '(ret, b, body_len) ← f (s_serialize_buf s) CONFIG_NFC_STORE_BLOB_SIZE 0;
      upd_store (s_with_serialize_buf b) ;;
      if ret =? - ENOTSUP then
        inc_store ss_serialize_skip_count ;; save_entries l pos payload_len
      else if negb (ret =? 0) then err_store ret ;; mret (inl (- EIO))
      else
        let entry_len := NFC_STORE_ENTRY_OVERHEAD + body_len in
        if CONFIG_NFC_STORE_BLOB_SIZE <? pos + entry_len + NFC_STORE_BLOB_CRC_SIZE then
          err_store (- ENOMEM) ;; mret (inl (- ENOMEM))
        else
          flags ← lift (nfc_store_flags_for_persist_id (persist_id (vtab svc)) true);
          s ← gets w_store;
          g ← lift (st (s_staging_buf s) pos (persist_id (vtab svc)));
          g ← lift (st g (pos + 1) flags);
          g ← lift (st g (pos + 2) (lo8 body_len));
          g ← lift (st g (pos + 3) (hi8 body_len));
          g ← lift (memcpy g (pos + 4) (s_serialize_buf s) 0 body_len);
          upd_store (s_with_staging g) ;;
          save_entries l (pos + 4 + body_len) (payload_len + entry_len)
    end
  end.

(** The [n] pointers at [svcs]. *)
Definition svc_array (svcs : option (list (option svc_ptr))) (n : Z)
    : option (list (option svc_ptr)) :=
  match svcs with None => Some [] | Some l => sub l 0 n end.

Definition nfc_store_save (tag : option (list Z)) (svcs : option (list (option svc_ptr)))
    (n : Z) : M (world E) Z :=
  ret ← nfc_store_check_quiescent;
  if negb (ret =? 0) then mret ret else
  s ← gets w_store;
  if negb (bool_decide (s_state s = NFC_STORE_STATE_INITIALIZED)) then mret (- ENODEV) else
  let ret := nfc_store_validate_tag s tag in
  if negb (ret =? 0) then mret ret else
  if (0 <? n) && bool_decide (svcs = None) then mret (- EINVAL) else
  '(ret, b, _) ← lift (nfc_store_write_header (s_staging_buf s) CONFIG_NFC_STORE_BLOB_SIZE 0 0);
  upd_store (s_with_staging b) ;;
  if negb (ret =? 0) then mret ret else
  l ← lift (svc_array svcs n);
  r ← save_entries l NFC_STORE_BLOB_HDR_SIZE 0;
  match r with
  | inl ret => mret ret
  | inr (_, payload_len) =>
    s ← gets w_store;
    g ← lift (st (s_staging_buf s) 4 (lo8 payload_len));
    g ← lift (st g 5 (hi8 payload_len));
    '(ret, g, total) ← lift (nfc_store_append_crc g CONFIG_NFC_STORE_BLOB_SIZE
                               (NFC_STORE_BLOB_HDR_SIZE + payload_len) 0);
    upd_store (s_with_staging g) ;;
    if negb (ret =? 0) then err_store ret ;; mret (- ENOMEM) else
    match s_save_cb s with
    | None => mret (- ENODEV)
    | Some cb =>
      ret ← call_save cb tag (Some g) total;
      if negb (ret =? 0) then err_store ret ;; mret (- EIO)
      else inc_store ss_save_count ;; mret 0
    end
  end.

Definition entry_overhead_of (version : Z) : Z :=
  if version =? NFC_STORE_BLOB_VERSION_V1 then NFC_STORE_ENTRY_OVERHEAD_V1
  else NFC_STORE_ENTRY_OVERHEAD.

(** [nfc_store_peek_entry_meta(tag, &persist_id, &flags)]: the return value and the two
    outputs. *)
Definition nfc_store_peek_entry_meta (tag : option (list Z)) (persist_id flags : option Z)
    : M (world E) (Z * option Z * option Z) :=
  match persist_id, flags with
  | None, _ | _, None => mret (- EINVAL, persist_id, flags)
  | Some _, Some _ =>
    ret ← nfc_store_check_quiescent;
    if negb (ret =? 0) then mret (ret, persist_id, flags) else
    s ← gets w_store;
    if negb (bool_decide (s_state s = NFC_STORE_STATE_INITIALIZED))
    then mret (- ENODEV, persist_id, flags) else
    let ret := nfc_store_validate_tag s tag in
    if negb (ret =? 0) then mret (ret, persist_id, flags) else
    '(ret, payload_len, version) ← nfc_store_read_envelope tag;
    if negb (ret =? 0) then mret (ret, persist_id, flags) else
    if payload_len =? 0 then
      inc_store ss_corrupt_blob_count ;; mret (- EBADMSG, persist_id, flags)
    else
    let pos := NFC_STORE_BLOB_HDR_SIZE in
    if NFC_STORE_BLOB_HDR_SIZE + payload_len <? pos + entry_overhead_of version then
      inc_store ss_corrupt_blob_count ;; mret (- EBADMSG, persist_id, flags)
    else
    s ← gets w_store;
    pid ← lift (ld (s_staging_buf s) pos);
    if version =? NFC_STORE_BLOB_VERSION_V1 then mret (0, Some pid, Some 0)
    else f ← lift (ld (s_staging_buf s) (pos + 1)); mret (0, Some pid, Some f)
  end.

(** The loop of [nfc_store_load]: [inl] is an early return, [inr] the last error at its end.
    [fuel] bounds the iterations. *)
Fixpoint load_entries (fuel : nat) (svcs : list (option svc_ptr)) (version payload_len pos
    last_err : Z) : M (world E) (Z + Z) :=
  match fuel with
  | O => lift None
  | S fuel =>
    let limit := NFC_STORE_BLOB_HDR_SIZE + payload_len in
    if limit <=? pos then mret (inr last_err) else
    let entry_overhead := entry_overhead_of version in
    if limit <? pos + entry_overhead then
      inc_store ss_corrupt_blob_count ;; mret (inl (- EBADMSG))
    else
    s ← gets w_store;
    persist_id ← lift (ld (s_staging_buf s) pos);
    let pos := pos + 1 in
    pos ← (if negb (version =? NFC_STORE_BLOB_VERSION_V1)
           then _ ← lift (ld (s_staging_buf s) pos); mret (pos + 1) else mret pos);
    l0 ← lift (ld (s_staging_buf s) pos);
    l1 ← lift (ld (s_staging_buf s) (pos + 1));
    let entry_len := le16 l0 l1 in
    let pos := pos + 2 in
    if limit <? pos + entry_len then
      inc_store ss_corrupt_blob_count ;; mret (inl (- EBADMSG))
    else
    match nfc_store_find_service svcs persist_id with
    | None =>
      inc_store ss_deserialize_skip_count ;;
      load_entries fuel svcs version payload_len (pos + entry_len) last_err
    | Some svc =>
      match deserialize (vtab svc) with
      | None =>
        inc_store ss_deserialize_skip_count ;;
        load_entries fuel svcs version payload_len (pos + entry_len) last_err
      | Some f =>
        ret ← f (drop (Z.to_nat pos) (s_staging_buf s)) entry_len;
        if negb (ret =? 0) then
          inc_store ss_partial_load_count ;; err_store ret ;;
          load_entries fuel svcs version payload_len (pos + entry_len) ret
        else load_entries fuel svcs version payload_len (pos + entry_len) last_err
      end
    end
  end.

Definition nfc_store_load (tag : option (list Z)) (svcs : option (list (option svc_ptr)))
    (n : Z) : M (world E) Z :=
  ret ← nfc_store_check_quiescent;
  if negb (ret =? 0) then mret ret else
  s ← gets w_store;
  if negb (bool_decide (s_state s = NFC_STORE_STATE_INITIALIZED)) then mret (- ENODEV) else
  let ret := nfc_store_validate_tag s tag in
  if negb (ret =? 0) then mret ret else
  if (0 <? n) && bool_decide (svcs = None) then mret (- EINVAL) else
  '(ret, payload_len, version) ← nfc_store_read_envelope tag;
  if negb (ret =? 0) then mret ret else
  l ← lift (svc_array svcs n);
  r ← load_entries (S (Z.to_nat payload_len)) l version payload_len NFC_STORE_BLOB_HDR_SIZE 0;
  match r with
  | inl ret => mret ret
  | inr last_err =>
    if negb (last_err =? 0) then mret (- EBADMSG)
    else inc_store ss_load_count ;; mret 0
  end.

(** ** The RAM backend's life cycle *)

Definition nfc_store_ram_init : M (world E) Z :=
  m ← gets w_ram;
  if ram_ready m then mret 0 else
  ret ← nfc_store_init None;
  if negb (ret =? 0) && negb (ret =? - EALREADY) then mret ret else
  ret ← nfc_store_register_save_cb (Some FN_RAM);
  if negb (ret =? 0) then mret ret else
  ret ← nfc_store_register_load_cb (Some FN_RAM);
  if negb (ret =? 0) then mret ret else
  upd_ram (ram_with_ready true) ;; mret 0.

Definition nfc_store_ram_import (tag blob : option (list Z)) (n : Z) : M (world E) Z :=
  ret ← lift (nfc_store_validate_blob blob n);
  if negb (ret =? 0) then mret ret else
  ret ← nfc_store_ram_init;
  if negb (ret =? 0) then mret ret else
  call_save FN_RAM tag blob n.
End Store.

Section RunStore.
Context {E B : Type}.
Lemma run_inc_store f (k : unit → M (world E) B) w :
  (inc_store f ≫= k) w = k tt (set_store (s_inc f (w_store w)) w).
Proof. done. Qed.
Lemma run_err_store c (k : unit → M (world E) B) w :
  (err_store c ≫= k) w = k tt (set_store (s_error c (w_store w)) w).
Proof. done. Qed.
End RunStore.

(** [sred]: [wred], with the store's counters. *)
Ltac sred := wred; repeat first [rewrite run_inc_store; wred | rewrite run_err_store; wred].
