(* ===== verification/StoreSpec.v ===== *)
(** * Properties of the card store

    The interface a persisted service offers to the store ([Persist]), the reference behaviour
    of saving and loading in terms of entries ([entries_of], [feed]), and the theorems that the
    buffer-level code of [Store] implements it. *)

From stdpp Require Import base list numbers option gmap.
From S2P Require Import Prelude Kconfig Stats Service Envelope StoreRam World Store.

Section StoreSpec.
Context `{KconfigRanges} `{Crc16} {E : Type} `{Platform E}.

(** ** Invariant of the module *)

Record store_ok (s : store) : Prop := {
  sk_staging : len (s_staging_buf s) = CONFIG_NFC_STORE_BLOB_SIZE;
  sk_serialize : len (s_serialize_buf s) = CONFIG_NFC_STORE_BLOB_SIZE;
  sk_staging_bytes : bytes (s_staging_buf s);
  sk_serialize_bytes : bytes (s_serialize_buf s);
  sk_init : s_state s = NFC_STORE_STATE_INITIALIZED →
    is_Some (s_save_cb s) ∧ is_Some (s_load_cb s) ∧ is_Some (s_commit_cb s) ∧
    s_resolved_max_tag_len s = CONFIG_NFC_STORE_MAX_TAG_LEN;
}.

(** [conf s]: what the buffers and counters of the store do not affect. *)
Definition conf (s : store) :=
  (s_state s, s_save_cb s, s_load_cb s, s_commit_cb s, s_resolved_max_tag_len s).

Lemma store_boot_ok : store_ok store_boot.
Proof.
  pose proof blob_size_range. constructor; cbn; try done; try apply bytes_zeros;
    apply len_zeros; lia.
Qed.

Lemma store_ok_conf s s' :
  store_ok s → conf s' = conf s → len (s_staging_buf s') = CONFIG_NFC_STORE_BLOB_SIZE →
  len (s_serialize_buf s') = CONFIG_NFC_STORE_BLOB_SIZE →
  bytes (s_staging_buf s') → bytes (s_serialize_buf s') → store_ok s'.
Proof.
  intros [_ _ _ _ Hi] Hc ? ? ? ?. injection Hc as E1 E2 E3 E4 E5.
  constructor; try done. by rewrite E1, E2, E3, E4, E5.
Qed.

Lemma store_ok_stats x s : store_ok s → store_ok (s_with_stats x s).
Proof. by intros []. Qed.
Lemma store_ok_staging b s : store_ok s → len b = CONFIG_NFC_STORE_BLOB_SIZE → bytes b →
  store_ok (s_with_staging b s).
Proof. intros [] ? ?. by constructor. Qed.
Lemma store_ok_serialize b s : store_ok s → len b = CONFIG_NFC_STORE_BLOB_SIZE → bytes b →
  store_ok (s_with_serialize_buf b s).
Proof. intros [] ? ?. by constructor. Qed.

(** ** Interface of a persisted service *)

(** Everything but the state of the protocols is the same. *)
Record own (w w' : world E) : Prop := {
  own_env : w_env w' = w_env w;
  own_asm : w_asm w' = w_asm w;
  own_router : w_router w' = w_router w;
  own_store : w_store w' = w_store w;
  own_ram : w_ram w' = w_ram w;
  own_stack : w_stack w' = w_stack w;
}.

(** [P] is the invariant of the protocols, and [image s w] what service [s] persists in state
    [w]: an error code, or its bytes. *)
Class Persist (vtab : svc_ptr → nfc_service_t (world E)) (P : world E → Prop)
    (image : svc_ptr → world E → Z + list Z) : Prop := {
  per_id s : is_byte (persist_id (vtab s));
  per_store x w : P w → P (set_store x w);
  per_ram x w : P w → P (set_ram x w);
  per_env x w : P w → P (set_env x w);
  image_store s x w : image s (set_store x w) = image s w;
  image_ram s x w : image s (set_ram x w) = image s w;
  image_env s x w : image s (set_env x w) = image s w;
  image_bytes s w b : P w → image s w = inr b → bytes b ∧ len b <= CONFIG_NFC_STORE_BLOB_SIZE;
  image_error s w e : P w → image s w = inl e → e ≠ 0;
  per_serialize s f w out : P w → serialize (vtab s) = Some f →
    len out = CONFIG_NFC_STORE_BLOB_SIZE → bytes out →
    ∃ w', P w' ∧ own w w' ∧ (∀ s', image s' w' = image s' w) ∧
      f out CONFIG_NFC_STORE_BLOB_SIZE 0 w =
      Some match image s w with
           | inl e => ((e, out, 0), w')
           | inr b => ((0, b ++ drop (length b) out, len b), w')
           end;
  per_deserialize s f w inp n : P w → deserialize (vtab s) = Some f → bytes inp →
    0 <= n <= len inp →
    ∃ ret w', f inp n w = Some (ret, w') ∧ P w' ∧ own w w' ∧
      f (take (Z.to_nat n) inp) n w = f inp n w;
}.

Context (vtab : svc_ptr → nfc_service_t (world E)) (P : world E → Prop)
  (image : svc_ptr → world E → Z + list Z) `{!Persist vtab P image}.

(** ** Reference behaviour *)

(** The flags [nfc_store_save] records. *)
Definition flags_of (pid : Z) : Z :=
  if (1 <=? pid) && (pid <=? 5) then 5 else 1.

Definition entry_of (s : svc_ptr) (b : list Z) : entry :=
  {| en_id := persist_id (vtab s); en_flags := flags_of (persist_id (vtab s)); en_body := b |}.

Definition persisted (o : option svc_ptr) : option svc_ptr :=
  s ← o; if persist_id (vtab s) =? 0 then None else _ ← serialize (vtab s); Some s.

(** The entries a save collects from [svcs] when the next one goes to offset [pos]. *)
Fixpoint entries_of (w : world E) (svcs : list (option svc_ptr)) (pos : Z) : Z + list entry :=
  match svcs with
  | [] => inr []
  | o :: l =>
    match persisted o with
    | None => entries_of w l pos
    | Some s =>
      match image s w with
      | inl e => if e =? - ENOTSUP then entries_of w l pos else inl (- EIO)
      | inr b =>
        if CONFIG_NFC_STORE_BLOB_SIZE <? pos + (4 + len b) + 2 then inl (- ENOMEM)
        else match entries_of w l (pos + 4 + len b) with
             | inl e => inl e
             | inr es => inr (entry_of s b :: es)
             end
      end
    end
  end.

(** Giving the entries of a card to their services, in order; the last error remains. *)
Fixpoint feed (svcs : list (option svc_ptr)) (es : list entry) (last_err : Z) : M (world E) Z :=
  match es with
  | [] => mret last_err
  | e :: es =>
    match (s ← nfc_store_find_service vtab svcs (en_id e); deserialize (vtab s)) with
    | None => inc_store ss_deserialize_skip_count ;; feed svcs es last_err
    | Some f =>
      ret ← f (en_body e) (len (en_body e));
      if negb (ret =? 0) then
        inc_store ss_partial_load_count ;; err_store ret ;; feed svcs es ret
      else feed svcs es last_err
    end
  end.

(** ** Saving *)

Lemma flags_spec pid : is_byte pid → nfc_store_flags_for_persist_id pid true = Some (flags_of pid).
Proof.
  unfold is_byte, nfc_store_flags_for_persist_id, flags_of, NFC_PERSIST_ID_MAX. intros Hp.
  destruct (Z.leb_spec pid 10) as [Hle|Hgt].
  - assert (pid = 0 ∨ pid = 1 ∨ pid = 2 ∨ pid = 3 ∨ pid = 4 ∨ pid = 5 ∨ pid = 6 ∨ pid = 7 ∨
            pid = 8 ∨ pid = 9 ∨ pid = 10) as Hc by lia.
    by destruct_or! Hc; subst pid.
  - mred. rewrite (proj2 (Z.leb_gt pid 5)) by lia. by rewrite andb_false_r.
Qed.

(** The services' state [w'] and the store's configuration after a step from [w]. *)
Record kept (w w' : world E) : Prop := {
  kp_P : P w';
  kp_image : ∀ s, image s w' = image s w;
  kp_store : store_ok (w_store w');
  kp_conf : conf (w_store w') = conf (w_store w);
  kp_ram : w_ram w' = w_ram w;
  kp_env : w_env w' = w_env w;
  kp_stack : w_stack w' = w_stack w;
  kp_router : w_router w' = w_router w;
  kp_asm : w_asm w' = w_asm w;
}.

Lemma kept_refl w : P w → store_ok (w_store w) → kept w w.
Proof. by constructor. Qed.

Lemma kept_trans w1 w2 w3 : kept w1 w2 → kept w2 w3 → kept w1 w3.
Proof. intros [] []. constructor; try done; congruence. Qed.

(** An update of the store that keeps its configuration and sizes. *)
Lemma kept_store w x : P w → store_ok x → conf x = conf (w_store w) → kept w (set_store x w).
Proof.
  intros. constructor; cbn; try done; [by apply per_store|]. intros s. apply image_store.
Qed.

Lemma kept_own w w' : P w' → own w w' → store_ok (w_store w) →
  (∀ s, image s w' = image s w) → kept w w'.
Proof. intros ? [] ? ?. constructor; try done; congruence. Qed.

(** Writing an entry where the previous ones end. *)
Lemma write_entry (pre rest sbuf : list Z) (e : entry) :
  let n := len (en_body e) in
  take (Z.to_nat n) sbuf = en_body e → n <= len sbuf → 4 + n <= len rest →
  ∃ g1 g2 g3 g4, st (pre ++ rest) (len pre) (en_id e) = Some g1 ∧
    st g1 (len pre + 1) (en_flags e) = Some g2 ∧
    st g2 (len pre + 2) (lo8 n) = Some g3 ∧ st g3 (len pre + 3) (hi8 n) = Some g4 ∧
    memcpy g4 (len pre + 4) sbuf 0 n =
      Some (pre ++ encode_entry NFC_STORE_BLOB_VERSION e ++ drop (Z.to_nat (4 + n)) rest).
Proof.
  intros n Hb Hs Hr. pose proof (len_nonneg (en_body e)). pose proof (len_nonneg pre).
  destruct rest as [|x0 [|x1 [|x2 [|x3 r]]]]; rewrite ?len_cons, ?len_nil in Hr; try lia.
  assert (∀ (k : nat) (l : list Z) v, (k < length l)%nat →
    st (pre ++ l) (len pre + Z.of_nat k) v = Some (pre ++ <[k := v]> l)) as Hst.
  { intros k l v Hk. rewrite st_ok by llia.
    replace (Z.to_nat (len pre + Z.of_nat k)) with (length pre + k)%nat by llia.
    by rewrite insert_app_r. }
  pose proof (Hst 0%nat) as S0. rewrite Z.add_0_r in S0.
  rewrite S0 by (cbn; lia). eexists _, _, _, _. split; [done|].
  split; [apply (Hst 1%nat); cbn; lia|]. split; [apply (Hst 2%nat); cbn; lia|].
  split; [apply (Hst 3%nat); cbn; lia|].
  cbn [insert list_insert]. rewrite memcpy_prefix, Hb by lia.
  change (pre ++ en_id e :: en_flags e :: lo8 n :: hi8 n :: r) with
    (pre ++ [en_id e; en_flags e; lo8 n; hi8 n] ++ r).
  set (h := [en_id e; en_flags e; lo8 n; hi8 n]).
  rewrite <-(take_drop (length (en_body e)) r), (assoc_L (++)).
  rewrite blit_app_mid; [|rewrite len_app; done|llia].
  rewrite <-(assoc_L (++)). unfold encode_entry.
  change (NFC_STORE_BLOB_VERSION =? NFC_STORE_BLOB_VERSION_V1) with false.
  replace (Z.to_nat (4 + n)) with (4 + length (en_body e))%nat by (unfold n, len; lia).
  cbn [drop Nat.add]. rewrite take_drop. fold n. fold h. by rewrite <-!(assoc_L (++)).
Qed.

Lemma entries_of_image w w' l pos : (∀ s, image s w' = image s w) →
  entries_of w' l pos = entries_of w l pos.
Proof.
  intros Hi. revert pos. induction l as [|o l IH]; intros pos; [done|]. cbn [entries_of].
  destruct (persisted o) as [s|]; [|done]. rewrite Hi.
  destruct (image s w) as [e|b]; [by rewrite IH|]. by rewrite IH.
Qed.

Lemma encode_entries_cons v e es :
  encode_entries v (e :: es) = encode_entry v e ++ encode_entries v es.
Proof. done. Qed.

Lemma encode_entry_len e : len (encode_entry NFC_STORE_BLOB_VERSION e) = 4 + len (en_body e).
Proof.
  unfold encode_entry. change (NFC_STORE_BLOB_VERSION =? NFC_STORE_BLOB_VERSION_V1) with false.
  cbv iota. by rewrite len_app.
Qed.

Lemma entries_of_fit w l pos es : entries_of w l pos = inr es →
  pos + 2 <= CONFIG_NFC_STORE_BLOB_SIZE →
  pos + len (encode_entries NFC_STORE_BLOB_VERSION es) + 2 <= CONFIG_NFC_STORE_BLOB_SIZE.
Proof.
  revert pos es. induction l as [|o l IH]; intros pos es; cbn [entries_of].
  { intros [= <-]. cbn. unfold len. cbn. lia. }
  destruct (persisted o) as [s|]; [|apply IH].
  destruct (image s w) as [e|b]; [case_bool; [apply IH|done]|].
  case_bool; [done|]. bool_prop. destruct (entries_of w l _) as [|es'] eqn:El; [done|].
  intros [= <-] Hp. apply IH in El; [|lia].
  rewrite encode_entries_cons, len_app, encode_entry_len. cbn [en_body entry_of]. lia.
Qed.

Lemma kept_inc f w : P w → store_ok (w_store w) → kept w (set_store (s_inc f (w_store w)) w).
Proof. intros. by apply kept_store; [|apply store_ok_stats|]. Qed.
Lemma kept_err c w : P w → store_ok (w_store w) → kept w (set_store (s_error c (w_store w)) w).
Proof. intros. by apply kept_store; [|apply store_ok_stats|]. Qed.

Lemma save_entries_skip o l pos pl w : persisted o = None →
  save_entries vtab (o :: l) pos pl w =
  save_entries vtab l pos pl (set_store (s_inc ss_serialize_skip_count (w_store w)) w).
Proof.
  unfold persisted. destruct o as [s|]; [|done]. cbn [mbind option_bind save_entries].
  destruct (persist_id (vtab s) =? 0); [done|]. by destruct (serialize (vtab s)).
Qed.

Lemma persisted_Some o s : persisted o = Some s →
  o = Some s ∧ persist_id (vtab s) ≠ 0 ∧ ∃ f, serialize (vtab s) = Some f.
Proof.
  unfold persisted. destruct o as [s'|]; [|done]. cbn [mbind option_bind].
  destruct (persist_id (vtab s') =? 0) eqn:E0; [done|]. bool_prop.
  destruct (serialize (vtab s')) eqn:Es; [|done]. intros [= ->]. eauto.
Qed.

(** Serializing one service into the scratch buffer. *)
Lemma serialize_step s f w : P w → store_ok (w_store w) → serialize (vtab s) = Some f →
  ∃ w1 r o n, f (s_serialize_buf (w_store w)) CONFIG_NFC_STORE_BLOB_SIZE 0 w =
      Some ((r, o, n), w1) ∧
    let w2 := set_store (s_with_serialize_buf o (w_store w1)) w1 in
    kept w w2 ∧ s_staging_buf (w_store w2) = s_staging_buf (w_store w) ∧
    match image s w with
    | inl e => r = e
    | inr b => r = 0 ∧ n = len b ∧ take (Z.to_nat n) o = b ∧ n <= len o
    end.
Proof.
  intros HP Hs Hf.
  destruct (per_serialize s f w (s_serialize_buf (w_store w)) HP Hf) as (w1 & HP1 & Ho & Hi & Hr);
    [apply Hs..|].
  pose proof (own_store _ _ Ho) as Hst.
  assert (∀ o, len o = CONFIG_NFC_STORE_BLOB_SIZE → bytes o →
    kept w (set_store (s_with_serialize_buf o (w_store w1)) w1)) as Hk.
  { intros o Hlo Hbo. eapply kept_trans; [by apply (kept_own w w1)|].
    apply kept_store; [done| |done]. apply store_ok_serialize; [by rewrite Hst|done..]. }
  destruct (image s w) as [e|b] eqn:Eim.
  - eexists w1, _, _, _. split; [done|]. split; [apply Hk; apply Hs|].
    split; [cbn; by rewrite Hst|done].
  - destruct (image_bytes s w b HP Eim) as [Hbb Hbl].
    pose proof (sk_serialize _ Hs) as Hls. pose proof (sk_serialize_bytes _ Hs).
    eexists w1, _, _, _. split; [done|]. split; [apply Hk|].
    + llia.
    + apply bytes_app. auto with nfc.
    + split; [cbn; by rewrite Hst|]. split; [done|]. split; [done|].
      split; [apply take_app_length'; llia|llia].
Qed.

(** One iteration of the loop for a service that is asked. *)
Lemma save_entries_fail s f l pos pl w w1 e o n :
  persist_id (vtab s) ≠ 0 → serialize (vtab s) = Some f →
  f (s_serialize_buf (w_store w)) CONFIG_NFC_STORE_BLOB_SIZE 0 w = Some ((e, o, n), w1) →
  e ≠ 0 →
  let w2 := set_store (s_with_serialize_buf o (w_store w1)) w1 in
  save_entries vtab (Some s :: l) pos pl w =
    if e =? - ENOTSUP
    then save_entries vtab l pos pl (set_store (s_inc ss_serialize_skip_count (w_store w2)) w2)
    else Some (inl (- EIO), set_store (s_error e (w_store w2)) w2).
Proof.
  intros Hpid Hf Hrun He w2. cbn [save_entries].
  rewrite (proj2 (Z.eqb_neq _ _)) by done. rewrite Hf. wred.
  rewrite (run_call _ _ _ _ _ Hrun). sred. fold w2. destruct (e =? - ENOTSUP); [by sred|].
  by rewrite (proj2 (Z.eqb_neq _ _)) by done.
Qed.

Lemma save_entries_ok s f l pl w w1 o b pre rest :
  persist_id (vtab s) ≠ 0 → serialize (vtab s) = Some f →
  f (s_serialize_buf (w_store w)) CONFIG_NFC_STORE_BLOB_SIZE 0 w = Some ((0, o, len b), w1) →
  let w2 := set_store (s_with_serialize_buf o (w_store w1)) w1 in
  s_staging_buf (w_store w2) = pre ++ rest → take (Z.to_nat (len b)) o = b →
  len b <= len o → len (pre ++ rest) = CONFIG_NFC_STORE_BLOB_SIZE →
  save_entries vtab (Some s :: l) (len pre) pl w =
    if CONFIG_NFC_STORE_BLOB_SIZE <? len pre + (4 + len b) + 2
    then Some (inl (- ENOMEM), set_store (s_error (- ENOMEM) (w_store w2)) w2)
    else save_entries vtab l (len pre + 4 + len b) (pl + (4 + len b))
           (set_store (s_with_staging
              (pre ++ encode_entry NFC_STORE_BLOB_VERSION (entry_of s b) ++
               drop (Z.to_nat (4 + len b)) rest) (w_store w2)) w2).
Proof.
  intros Hpid Hf Hrun w2 Hst Hb Hbl Hsz. cbn [save_entries].
  rewrite (proj2 (Z.eqb_neq _ _)) by done. rewrite Hf. wred.
  rewrite (run_call _ _ _ _ _ Hrun). sred. fold w2.
  change (0 =? - ENOTSUP) with false. change (negb (0 =? 0)) with false. cbv iota.
  unfold NFC_STORE_ENTRY_OVERHEAD, NFC_STORE_BLOB_CRC_SIZE.
  case_bool; [by sred|]. bool_prop. rewrite flags_spec by apply per_id. wred.
  destruct (write_entry pre rest o (entry_of s b)) as (g1 & g2 & g3 & g4 & W1 & W2 & W3 & W4 & W5);
    [done|done| |].
  { rewrite len_app in Hsz. cbn. lia. }
  cbn [en_id en_flags en_body entry_of] in W1, W2, W3, W4, W5.
  change (s_serialize_buf (w_store w2)) with o. rewrite Hst, W1. wred.
  rewrite W2. wred. rewrite W3. wred. rewrite W4. wred. rewrite W5. by wred.
Qed.

Lemma encode_entry_bytes s b : bytes b →
  bytes (encode_entry NFC_STORE_BLOB_VERSION (entry_of s b)).
Proof.
  intros Hb. pose proof (per_id s). unfold encode_entry.
  change (NFC_STORE_BLOB_VERSION =? NFC_STORE_BLOB_VERSION_V1) with false. cbv iota.
  apply bytes_app. split; [|done]. cbn. unfold bytes. rewrite !Forall_cons_iff.
  split_and!; auto with nfc. unfold flags_of, is_byte. case_bool; lia.
Qed.

(** The loop over the services collects the entries the reference prescribes. *)
Lemma save_entries_spec svcs : ∀ w pre rest pl,
  P w → store_ok (w_store w) → s_staging_buf (w_store w) = pre ++ rest →
  ∃ w', kept w w' ∧
    match entries_of w svcs (len pre) with
    | inl e => save_entries vtab svcs (len pre) pl w = Some (inl e, w')
    | inr es =>
      let c := encode_entries NFC_STORE_BLOB_VERSION es in
      save_entries vtab svcs (len pre) pl w = Some (inr (len pre + len c, pl + len c), w') ∧
      s_staging_buf (w_store w') = pre ++ c ++ drop (length c) rest
    end.
Proof.
  induction svcs as [|o l IH]; intros w pre rest pl HP Hs Hst.
  { exists w. split; [by apply kept_refl|]. cbn. rewrite !Z.add_0_r. done. }
  cbn [entries_of]. destruct (persisted o) as [s|] eqn:Ep.
  2: { rewrite save_entries_skip by done.
    set (w1 := set_store _ w). pose proof (kept_inc ss_serialize_skip_count w HP Hs) as Hk.
    destruct (IH w1 pre rest pl) as (w' & Hk' & Hw'); [apply Hk..|exact Hst|].
    exists w'. split; [by eapply kept_trans|].
    by rewrite (entries_of_image w w1) in Hw' by apply Hk. }
  apply persisted_Some in Ep as (-> & Hpid & f & Hf).
  destruct (serialize_step s f w HP Hs Hf) as (w1 & r & o & n & Hrun & Hk & Hstg & Him).
  set (w2 := set_store _ w1) in *.
  destruct (image s w) as [e|b] eqn:Eim.
  { subst r. pose proof (image_error s w e HP Eim) as He.
    pose proof (save_entries_fail s f l (len pre) pl w w1 e o n Hpid Hf Hrun He) as Hrun'.
    fold w2 in Hrun'. rewrite Hrun'. destruct (e =? - ENOTSUP).
    - set (w3 := set_store (s_inc _ _) w2).
      assert (kept w2 w3) as Hk3 by (apply kept_inc; apply Hk).
      assert (kept w w3) as Hkw by by eapply kept_trans.
      destruct (IH w3 pre rest pl) as (w' & Hk' & Hw'); [apply Hk3..|by rewrite <-Hst, <-Hstg|].
      exists w'. split; [by eapply kept_trans|].
      by rewrite (entries_of_image w w3) in Hw' by apply Hkw.
    - eexists. split; [|done]. eapply kept_trans; [exact Hk|]. apply kept_err; apply Hk. }
  destruct Him as (-> & -> & Hb & Hbl).
  pose proof (save_entries_ok s f l pl w w1 o b pre rest Hpid Hf Hrun) as Hrun'.
  fold w2 in Hrun'.
  rewrite Hrun' by (done || (by rewrite <-Hst, <-Hstg) || (by rewrite <-Hst; apply Hs)).
  clear Hrun'.
  destruct (_ <? _) eqn:Efit; bool_prop.
  { eexists. split; [|done]. eapply kept_trans; [exact Hk|]. apply kept_err; apply Hk. }
  set (en := encode_entry _ _). set (rest' := drop _ rest).
  pose proof (sk_staging _ Hs) as Hsz. rewrite Hst, len_app in Hsz.
  assert (len en = 4 + len b) as Hen by apply encode_entry_len.
  pose proof (sk_staging_bytes _ Hs) as Hsb. rewrite Hst, bytes_app in Hsb.
  destruct Hsb as [Hb1 Hb2]. destruct (image_bytes s w b HP Eim) as [Hbb _].
  set (w3 := set_store (s_with_staging _ _) w2).
  assert (kept w w3) as Hk3.
  { eapply kept_trans; [exact Hk|]. apply kept_store; [apply Hk| |done].
    apply store_ok_staging; [apply Hk|subst rest'; llia|].
    rewrite !bytes_app. split; [done|]. split; [|by apply bytes_drop]. by apply encode_entry_bytes. }
  destruct (IH w3 (pre ++ en) rest' (pl + (4 + len b))) as (w' & Hk' & Hw'); [apply Hk3..| |].
  { cbn. by rewrite <-(assoc_L (++)). }
  exists w'. split; [by eapply kept_trans|].
  rewrite (entries_of_image w w3) in Hw' by apply Hk3. rewrite len_app, Hen in Hw'.
  rewrite <-(Z.add_assoc (len pre) 4 (len b)).
  destruct (entries_of w l _) as [e|es]; [done|]. destruct Hw' as [Hw1 Hw2].
  rewrite encode_entries_cons. fold en. rewrite Hw1, len_app, Hen. split; [do 4 f_equal; lia|].
  rewrite Hw2, <-!(assoc_L (++)). do 3 f_equal. unfold rest'. rewrite drop_drop, length_app.
  f_equal. unfold len in Hen |- *. lia.
Qed.

Lemma write_header_spec buf n : 6 <= len buf → 6 <= n →
  nfc_store_write_header buf n 0 0 =
  Some (0, header NFC_STORE_BLOB_VERSION 0 0 ++ drop 6 buf, 6).
Proof.
  intros Hl Hn. unfold nfc_store_write_header, NFC_STORE_BLOB_HDR_SIZE.
  rewrite (proj2 (Z.ltb_ge _ _)) by lia.
  do 6 (destruct buf as [|? buf]; [rewrite ?len_cons, ?len_nil in Hl; lia|]).
  pose proof (len_nonneg buf).
  do 6 (rewrite st_ok by (rewrite ?len_insert, !len_cons; lia); mred). done.
Qed.

(** Patching the payload length into the header. *)
Lemma patch_length v r p0 p rest :
  ∃ g, st (header v r p0 ++ rest) 4 (lo8 p) = Some g ∧
    st g 5 (hi8 p) = Some (header v r p ++ rest).
Proof.
  assert (∀ q, 6 <= len (header v r q ++ rest)) as Hl.
  { intros q. rewrite len_app. pose proof (len_nonneg rest). change (len (header v r q)) with 6. lia. }
  eexists. split; [apply st_ok; pose proof (Hl p0); lia|].
  rewrite st_ok; [done|]. rewrite len_insert. pose proof (Hl p0). lia.
Qed.

Lemma append_crc_spec h rest n : 2 <= len rest → len h + 2 <= n →
  nfc_store_append_crc (h ++ rest) n (len h) 0 = Some (0, seal h ++ drop 2 rest, len h + 2).
Proof.
  intros Hr Hn. unfold nfc_store_append_crc, NFC_STORE_BLOB_CRC_SIZE.
  pose proof (len_nonneg h). rewrite (proj2 (Z.ltb_ge _ _)) by lia.
  rewrite sub_prefix by done. mred.
  destruct rest as [|x [|y rest]]; rewrite ?len_cons, ?len_nil in Hr; try lia.
  rewrite st_ok by (rewrite len_app, !len_cons; lia). mred.
  replace (Z.to_nat (len h)) with (length h + 0)%nat by llia. rewrite insert_app_r.
  rewrite st_ok by (rewrite len_app, len_insert, !len_cons; lia). mred.
  replace (Z.to_nat (len h + 1)) with (length h + 1)%nat by llia. rewrite insert_app_r.
  unfold seal. rewrite <-(assoc_L (++)). done.
Qed.

Definition quiescent (w : world E) : Prop :=
  CONFIG_NFC_ROLE_LISTEN = true → k_state (w_stack w) ≠ NFC_STACK_STATE_STARTED.

Lemma run_quiescent {B} (k : Z → M (world E) B) w : quiescent w →
  (nfc_store_check_quiescent ≫= k) w = k 0 w.
Proof.
  intros Hq. unfold nfc_store_check_quiescent. wred.
  destruct CONFIG_NFC_ROLE_LISTEN eqn:Er; cbn [andb]; [|done].
  rewrite bool_decide_false; [done|]. by apply Hq.
Qed.

Lemma validate_tag_spec s tag : s_resolved_max_tag_len s = CONFIG_NFC_STORE_MAX_TAG_LEN →
  nfc_store_validate_tag s (Some tag) = if bool_decide (tag_ok tag) then 0 else - EINVAL.
Proof.
  intros Hs. unfold nfc_store_validate_tag, tag_ok. rewrite Hs.
  assert (0 <= strlen tag) by apply len_nonneg.
  destruct (Z.eqb_spec (strlen tag) 0), (Z.leb_spec CONFIG_NFC_STORE_MAX_TAG_LEN (strlen tag));
    cbn [orb]; first [rewrite bool_decide_true by lia | rewrite bool_decide_false by lia]; done.
Qed.

(** What [nfc_store_save] does with the finished envelope [g], [total] bytes long. *)
Definition commit_save (tag g : list Z) (total : Z) : M (world E) Z :=
  s ← gets w_store;
  match s_save_cb s with
  | None => mret (- ENODEV)
  | Some cb =>
    ret ← call_save cb (Some tag) (Some g) total;
    if negb (ret =? 0) then err_store ret ;; mret (- EIO)
    else inc_store ss_save_count ;; mret 0
  end.

(** The part of a save before its callback. *)
Lemma save_spec tag l w :
  P w → store_ok (w_store w) → quiescent w →
  s_state (w_store w) = NFC_STORE_STATE_INITIALIZED → tag_ok tag →
  ∃ w', kept w w' ∧
    match entries_of w l 6 with
    | inl e => nfc_store_save vtab (Some tag) (Some l) (len l) w = Some (e, w')
    | inr es =>
      let env := envelope NFC_STORE_BLOB_VERSION 0 (encode_entries NFC_STORE_BLOB_VERSION es) in
      ∃ rest, s_staging_buf (w_store w') = env ++ rest ∧
        nfc_store_save vtab (Some tag) (Some l) (len l) w =
        commit_save tag (env ++ rest) (len env) w'
    end.
Proof.
  intros HP Hs Hq Hst Ht. pose proof blob_size_range. pose proof (len_nonneg l).
  destruct (sk_init _ Hs Hst) as (_ & _ & _ & Hmax). pose proof (sk_staging _ Hs) as Hsz.
  unfold nfc_store_save. rewrite run_quiescent by done. cbn [Z.eqb negb]. wred.
  rewrite bool_decide_true by done. cbn [negb]. rewrite validate_tag_spec by done.
  rewrite bool_decide_true by done. cbn [Z.eqb negb]. rewrite (bool_decide_false (Some l = None)) by done.
  rewrite andb_false_r. rewrite write_header_spec by lia. wred. cbn [Z.eqb negb].
  unfold svc_array. rewrite sub_ok by lia. wred.
  rewrite drop_0, take_ge by llia.
  set (w1 := set_store (s_with_staging _ _) w). set (h := header _ 0 0) in *.
  assert (kept w w1) as Hk1.
  { apply kept_store; [done| |done]. apply store_ok_staging; [done|rewrite len_app, len_drop; change (len h) with 6; lia|].
    apply bytes_app. split; [|apply bytes_drop, Hs]. by apply header_bytes. }
  destruct (save_entries_spec l w1 h (drop 6 (s_staging_buf (w_store w))) 0) as (w2 & Hk2 & Hw2);
    [apply Hk1..|done|].
  change (len h) with 6 in Hw2. rewrite (entries_of_image w w1) in Hw2 by apply Hk1.
  assert (kept w w2) as Hkw2 by by eapply kept_trans.
  destruct (entries_of w l 6) as [e|es] eqn:Ees.
  { exists w2. split; [done|]. by rewrite (run_call _ _ _ _ _ Hw2). }
  destruct Hw2 as [Hrun Hstg]. set (c := encode_entries _ es) in *.
  pose proof (entries_of_fit w l 6 es Ees ltac:(lia)) as Hfit. fold c in Hfit.
  set (rest := drop (length c) _) in *.
  assert (2 <= len rest) as Hrest by (subst rest; llia).
  change NFC_STORE_BLOB_HDR_SIZE with 6.
  rewrite (run_call _ _ _ _ _ Hrun). wred. rewrite Hstg.
  destruct (patch_length NFC_STORE_BLOB_VERSION 0 0 (len c) (c ++ rest)) as (g & G1 & G2).
  change (0 + len c) with (len c). fold h in G1. rewrite G1. wred. rewrite G2. wred.
  set (hh := header NFC_STORE_BLOB_VERSION 0 (len c)) in *. rewrite (assoc_L (++)).
  replace (6 + len c) with (len (hh ++ c)) by (rewrite len_app; done).
  rewrite append_crc_spec by (rewrite ?len_app; change (len hh) with 6; lia). wred.
  cbn [Z.eqb negb]. change (seal (hh ++ c)) with (envelope NFC_STORE_BLOB_VERSION 0 c).
  set (env := envelope _ 0 c). replace (len (hh ++ c) + 2) with (len env)
    by (unfold env; rewrite envelope_len, len_app; change (len hh) with 6; lia).
  set (w3 := set_store (s_with_staging _ _) w2).
  assert (kept w2 w3) as Hk3.
  { pose proof (sk_staging _ (kp_store _ _ Hk2)) as Hsz2.
    pose proof (sk_staging_bytes _ (kp_store _ _ Hk2)) as Hsb2.
    rewrite Hstg in Hsz2, Hsb2. rewrite !len_app in Hsz2. change (len h) with 6 in Hsz2.
    rewrite !bytes_app in Hsb2. destruct Hsb2 as (_ & ? & ?).
    apply kept_store; [apply Hk2| |done]. apply store_ok_staging; [apply Hk2| |].
    - unfold env. rewrite len_app, envelope_len, len_drop. lia.
    - apply bytes_app. split; [by apply envelope_bytes|by apply bytes_drop]. }
  exists w3. split; [by eapply kept_trans|]. exists (drop 2 rest). split; [done|].
  unfold commit_save. by wred.
Qed.

(** ** Loading *)

Definition entry_ok (e : entry) : Prop := len (en_body e) < 65536.

(** The service an entry is for. *)
Definition target (svcs : list (option svc_ptr)) (e : entry) : option (deserialize_fn (world E)) :=
  s ← nfc_store_find_service vtab svcs (en_id e); deserialize (vtab s).

(** The bytes before the body of an entry. *)
Definition entry_head (v : Z) (e : entry) : list Z :=
  if v =? NFC_STORE_BLOB_VERSION_V1
  then [en_id e; lo8 (len (en_body e)); hi8 (len (en_body e))]
  else [en_id e; en_flags e; lo8 (len (en_body e)); hi8 (len (en_body e))].

Lemma encode_entry_split v e : encode_entry v e = entry_head v e ++ en_body e.
Proof. unfold encode_entry, entry_head. by destruct (v =? _). Qed.

Lemma entry_head_len v e : len (entry_head v e) = entry_overhead_of v.
Proof. unfold entry_head, entry_overhead_of. by destruct (v =? _). Qed.

(** One iteration of the loop on an encoded entry. *)
Lemma load_step fuel svcs v pl w pre e rest last :
  s_staging_buf (w_store w) = pre ++ encode_entry v e ++ rest → entry_ok e →
  let pos' := len pre + len (encode_entry v e) in
  pos' <= 6 + pl →
  load_entries vtab (S fuel) svcs v pl (len pre) last w =
  match target svcs e with
  | None => load_entries vtab fuel svcs v pl pos' last
              (set_store (s_inc ss_deserialize_skip_count (w_store w)) w)
  | Some f =>
    (ret ← f (en_body e ++ rest) (len (en_body e));
     if negb (ret =? 0) then
       inc_store ss_partial_load_count ;; err_store ret ;;
       load_entries vtab fuel svcs v pl pos' ret
     else load_entries vtab fuel svcs v pl pos' last) w
  end.
Proof.
  intros Hst Hok pos' Hpos. unfold target. cbn [load_entries].
  pose proof (entry_head_len v e) as Hh. rewrite encode_entry_split, <-(assoc_L (++)) in Hst.
  assert (pos' = len pre + entry_overhead_of v + len (en_body e)) as Hp'
    by (unfold pos'; rewrite encode_entry_split, len_app, Hh; lia).
  pose proof (len_nonneg (en_body e)). pose proof (len_nonneg pre).
  assert (3 <= entry_overhead_of v) by (unfold entry_overhead_of; by case_bool).
  unfold NFC_STORE_BLOB_HDR_SIZE.
  rewrite (proj2 (Z.leb_gt _ _)), (proj2 (Z.ltb_ge _ _)) by lia. wred. rewrite Hst.
  assert (ld (pre ++ entry_head v e ++ en_body e ++ rest) (len pre) = Some (en_id e)) as E0.
  { rewrite <-(Z.add_0_r (len pre)), ld_app_r by lia. unfold entry_head. by case_bool. }
  assert (∃ p, p = len pre + entry_overhead_of v - 2 ∧
    (if negb (v =? NFC_STORE_BLOB_VERSION_V1)
     then lift (ld (pre ++ entry_head v e ++ en_body e ++ rest) (len pre + 1)) ≫= λ _, mret (len pre + 1 + 1)
     else mret (len pre + 1) : M (world E) Z) w = Some (p, w) ∧
    ld (pre ++ entry_head v e ++ en_body e ++ rest) p = Some (lo8 (len (en_body e))) ∧
    ld (pre ++ entry_head v e ++ en_body e ++ rest) (p + 1) = Some (hi8 (len (en_body e))))
    as (p & Hp & Hrun & E1 & E2).
  { unfold entry_head, entry_overhead_of. eexists. split; [done|].
    destruct (v =? NFC_STORE_BLOB_VERSION_V1); cbn [negb];
      unfold NFC_STORE_ENTRY_OVERHEAD, NFC_STORE_ENTRY_OVERHEAD_V1.
    - rewrite <-!Z.add_sub_assoc, <-Z.add_assoc. rewrite !ld_app_r by lia. done.
    - rewrite <-!Z.add_sub_assoc, <-!Z.add_assoc. rewrite !ld_app_r by lia. done. }
  rewrite E0. wred. rewrite (run_call _ _ _ _ _ Hrun). rewrite E1. wred. rewrite E2. wred.
  rewrite le16_split by (unfold entry_ok in Hok; lia).
  rewrite (proj2 (Z.ltb_ge _ _)) by lia.
  replace (p + 2 + len (en_body e)) with pos' by lia.
  destruct (nfc_store_find_service vtab svcs (en_id e)) as [s|]; cbn [mbind option_bind];
    [|by sred].
  destruct (deserialize (vtab s)); [|by sred].
  rewrite (assoc_L (++)), drop_app_len by (rewrite len_app; lia). done.
Qed.

(** What loading leaves alone. *)
Record fed (w w' : world E) : Prop := {
  fd_P : P w';
  fd_store : store_ok (w_store w');
  fd_conf : conf (w_store w') = conf (w_store w);
  fd_staging : s_staging_buf (w_store w') = s_staging_buf (w_store w);
  fd_ram : w_ram w' = w_ram w;
  fd_env : w_env w' = w_env w;
  fd_stack : w_stack w' = w_stack w;
  fd_router : w_router w' = w_router w;
  fd_asm : w_asm w' = w_asm w;
}.

Lemma fed_refl w : P w → store_ok (w_store w) → fed w w.
Proof. by constructor. Qed.

Lemma fed_trans w1 w2 w3 : fed w1 w2 → fed w2 w3 → fed w1 w3.
Proof. intros [] []. constructor; try done; congruence. Qed.

Lemma fed_stats x w : P w → store_ok (w_store w) → fed w (set_store (s_with_stats x (w_store w)) w).
Proof. intros. constructor; cbn; try done; [by apply per_store|by apply store_ok_stats]. Qed.

Lemma fed_partial f c w : P w → store_ok (w_store w) →
  let w1 := set_store (s_inc f (w_store w)) w in
  fed w (set_store (s_error c (w_store w1)) w1).
Proof.
  intros HP Hs w1. eapply fed_trans; [by apply fed_stats|].
  apply (fed_stats _ w1); [by apply per_store|by apply store_ok_stats].
Qed.

Lemma fed_own w w' : P w' → store_ok (w_store w) → own w w' → fed w w'.
Proof. intros ? ? []. constructor; try done; congruence. Qed.

Lemma target_Some svcs e f : target svcs e = Some f → ∃ s, deserialize (vtab s) = Some f.
Proof. unfold target. destruct (nfc_store_find_service _ _ _); [eauto|done]. Qed.

(** The outcome of giving one body to its service. *)
Lemma deserialize_step f s w inp n : P w → store_ok (w_store w) →
  deserialize (vtab s) = Some f → bytes inp → 0 <= n <= len inp →
  ∃ ret w', f inp n w = Some (ret, w') ∧ fed w w' ∧ f (take (Z.to_nat n) inp) n w = Some (ret, w').
Proof.
  intros HP Hs Hf Hb Hn. destruct (per_deserialize s f w inp n HP Hf Hb Hn)
    as (ret & w' & Hr & HP' & Ho & Htk).
  exists ret, w'. split; [done|]. split; [by apply fed_own|by rewrite Htk].
Qed.

(** Feeding well-formed entries always returns. *)
Lemma feed_total svcs es : ∀ w last,
  P w → store_ok (w_store w) → Forall (λ e, bytes (en_body e)) es →
  ∃ r w', feed svcs es last w = Some (r, w') ∧ fed w w'.
Proof.
  induction es as [|e es IH]; intros w last HP Hs Hes.
  { exists last, w. split; [done|by apply fed_refl]. }
  apply Forall_cons_iff in Hes as [He Hes]. cbn [feed]. fold (target svcs e).
  assert (∀ w1 r, fed w w1 → ∃ r' w', feed svcs es r w1 = Some (r', w') ∧ fed w w') as Hnext.
  { intros w1 r Hw1. destruct (IH w1 r) as (r' & w' & Hr & Hf); [apply Hw1..|done|].
    exists r', w'. split; [done|by eapply fed_trans]. }
  destruct (target svcs e) as [f|] eqn:Ht.
  - apply target_Some in Ht as [s Hf]. pose proof (len_nonneg (en_body e)).
    destruct (deserialize_step f s w (en_body e) (len (en_body e)) HP Hs Hf He)
      as (ret & w1 & Hrun & Hw1 & _); [lia|].
    rewrite (run_call _ _ _ _ _ Hrun). destruct (ret =? 0); cbn [negb]; [by apply Hnext|].
    sred. apply Hnext. eapply fed_trans; [exact Hw1|]. apply fed_partial; apply Hw1.
  - sred. apply Hnext, fed_stats; done.
Qed.

(** The byte-level loop on encoded entries is [feed] on the entries. *)
Lemma load_entries_spec svcs v es : ∀ fuel w pre rest last pl,
  P w → store_ok (w_store w) → Forall entry_ok es →
  s_staging_buf (w_store w) = pre ++ encode_entries v es ++ rest →
  6 + pl = len pre + len (encode_entries v es) → (length es < fuel)%nat →
  load_entries vtab fuel svcs v pl (len pre) last w =
    match feed svcs es last w with Some (r, w') => Some (inr r, w') | None => None end.
Proof.
  induction es as [|e es IH]; intros fuel w pre rest last pl HP Hs Hes Hst Hpl Hfuel;
    (destruct fuel as [|fuel]; [cbn in Hfuel; lia|]).
  { cbn [load_entries feed]. unfold NFC_STORE_BLOB_HDR_SIZE.
    change (len (encode_entries v [])) with 0 in Hpl. by rewrite (proj2 (Z.leb_le _ _)) by lia. }
  apply Forall_cons_iff in Hes as [He Hes].
  rewrite encode_entries_cons, <-(assoc_L (++)) in Hst.
  rewrite encode_entries_cons, len_app in Hpl.
  pose proof (len_nonneg (encode_entries v es)).
  rewrite (load_step fuel svcs v pl w pre e (encode_entries v es ++ rest)) by (done || lia).
  cbn [feed]. fold (target svcs e).
  assert (∀ w1 r, fed w w1 →
    load_entries vtab fuel svcs v pl (len pre + len (encode_entry v e)) r w1 =
    match feed svcs es r w1 with Some (r', w') => Some (inr r', w') | None => None end) as Hnext.
  { intros w1 r Hw1. rewrite <-len_app. apply (IH fuel w1 _ rest); try apply Hw1; try done.
    - rewrite (fd_staging _ _ Hw1), Hst. by rewrite <-(assoc_L (++)).
    - rewrite len_app. lia.
    - cbn in Hfuel. lia. }
  destruct (target svcs e) as [f|] eqn:Ht.
  - apply target_Some in Ht as [s Hf]. pose proof (len_nonneg (en_body e)).
    pose proof (sk_staging_bytes _ Hs) as Hb.
    rewrite Hst, encode_entry_split, <-(assoc_L (++)), !bytes_app in Hb.
    destruct Hb as (_ & _ & Hb & Hb').
    destruct (deserialize_step f s w (en_body e ++ encode_entries v es ++ rest)
      (len (en_body e)) HP Hs Hf) as (ret & w1 & Hrun & Hw1 & Htk); [rewrite !bytes_app; done|llia|].
    rewrite take_app_length' in Htk by llia.
    rewrite (run_call _ _ _ _ _ Hrun), (run_call _ _ _ _ _ Htk).
    destruct (ret =? 0); cbn [negb]; [by apply Hnext|].
    sred. apply Hnext. eapply fed_trans; [exact Hw1|]. apply fed_partial; apply Hw1.
  - sred. apply Hnext, fed_stats; done.
Qed.

(** On any staged bytes the loop ends within its fuel and reads inside the buffer. *)
Lemma load_entries_total svcs v pl fuel : ∀ w pos last,
  P w → store_ok (w_store w) → 0 <= pos → 8 + pl <= CONFIG_NFC_STORE_BLOB_SIZE →
  6 + pl - pos < Z.of_nat fuel →
  (0 < fuel)%nat →
  ∃ r w', load_entries vtab fuel svcs v pl pos last w = Some (r, w') ∧ fed w w'.
Proof.
  induction fuel as [|fuel IH]; intros w pos last HP Hs Hpos Hpl Hf Hf0; [lia|].
  cbn [load_entries]. unfold NFC_STORE_BLOB_HDR_SIZE.
  pose proof (sk_staging _ Hs) as Hsz.
  assert (3 <= entry_overhead_of v) by (unfold entry_overhead_of; by case_bool).
  case_bool; [exists (inr last), w; split; [done|by apply fed_refl]|].
  case_bool; [eexists _, _; split; [by sred|by apply fed_stats]|]. bool_prop. wred.
  ld_case pos pid; [lia|]. wred.
  assert (∃ p, p = pos + entry_overhead_of v - 2 ∧
    (if negb (v =? NFC_STORE_BLOB_VERSION_V1)
     then lift (ld (s_staging_buf (w_store w)) (pos + 1)) ≫= λ _, mret (pos + 1 + 1)
     else mret (pos + 1) : M (world E) Z) w = Some (p, w)) as (p & Hp & Hrun).
  { unfold entry_overhead_of in *. eexists. split; [done|].
    destruct (v =? NFC_STORE_BLOB_VERSION_V1); cbn [negb];
      unfold NFC_STORE_ENTRY_OVERHEAD, NFC_STORE_ENTRY_OVERHEAD_V1 in *.
    - rewrite run_mret. do 2 f_equal. lia.
    - destruct (ld_Some (s_staging_buf (w_store w)) (pos + 1)) as [x ->]; [lia|].
      wred. do 2 f_equal. lia. }
  rewrite (run_call _ _ _ _ _ Hrun).
  ld_case p l0; [lia|]. wred. ld_case (p + 1) l1; [lia|]. wred.
  pose proof (u16_range (Z.lor l0 (Z.shiftl l1 8))) as Hn. fold (le16 l0 l1) in Hn.
  case_bool; [eexists _, _; split; [by sred|by apply fed_stats]|]. bool_prop.
  assert (∀ w1 r, fed w w1 → ∃ r' w',
    load_entries vtab fuel svcs v pl (p + 2 + le16 l0 l1) r w1 = Some (r', w') ∧ fed w w') as Hnext.
  { intros w1 r Hw1. destruct (IH w1 (p + 2 + le16 l0 l1) r) as (r' & w' & Hr & Hf');
      [apply Hw1..|lia|lia|lia|lia|].
    exists r', w'. split; [done|by eapply fed_trans]. }
  destruct (nfc_store_find_service vtab svcs pid) as [s|]; [|sred; by apply Hnext, fed_stats].
  destruct (deserialize (vtab s)) as [f|] eqn:Hde; [|sred; by apply Hnext, fed_stats].
  destruct (deserialize_step f s w (drop (Z.to_nat (p + 2)) (s_staging_buf (w_store w)))
    (le16 l0 l1) HP Hs Hde) as (ret & w1 & Hr1 & Hw1 & _);
    [apply bytes_drop, Hs|llia|].
  rewrite (run_call _ _ _ _ _ Hr1). destruct (ret =? 0); cbn [negb]; [by apply Hnext|].
  sred. apply Hnext. eapply fed_trans; [exact Hw1|]. apply fed_partial; apply Hw1.
Qed.

(** ** Reading the envelope from the backend *)

(** What a load callback of the application may return. *)
Class AppLoad : Prop := {
  app_load_fits k t n e : match (app_load k t n e).1.2 with
                          | Some d => len d <= n ∧ bytes d
                          | None => True
                          end;
}.

(** What reading from the backend leaves alone. *)
Record staged (w w' : world E) : Prop := {
  sg_P : P w';
  sg_store : store_ok (w_store w');
  sg_conf : conf (w_store w') = conf (w_store w);
  sg_ram : w_ram w' = w_ram w;
  sg_stack : w_stack w' = w_stack w;
  sg_router : w_router w' = w_router w;
  sg_asm : w_asm w' = w_asm w;
}.

Lemma staged_fed w w1 w2 : staged w w1 → fed w1 w2 → staged w w2.
Proof. intros [] []. constructor; try done; congruence. Qed.

Lemma staged_refl w : P w → store_ok (w_store w) → staged w w.
Proof. by constructor. Qed.

Lemma staged_store x w : P w → store_ok x → conf x = conf (w_store w) → staged w (set_store x w).
Proof. intros. constructor; cbn; try done. by apply per_store. Qed.

Lemma call_load_total `{!AppLoad} cb tag w :
  P w → store_ok (w_store w) → ram_ok (w_ram w) →
  ∃ ret n w', call_load cb (Some tag) 0 w = Some ((ret, n), w') ∧ staged w w' ∧
    0 <= n <= CONFIG_NFC_STORE_BLOB_SIZE.
Proof.
  intros HP Hs Hm. pose proof blob_size_range. pose proof (sk_staging _ Hs) as Hsz.
  pose proof (sk_staging_bytes _ Hs) as Hsb. destruct cb as [| |k]; unfold call_load.
  - eexists _, _, w. split; [done|]. split; [by apply staged_refl|lia].
  - wred. rewrite <-Hsz, ram_load_spec by done.
    destruct (ram_map (w_ram w) !! c_str tag) as [d|] eqn:Hd.
    + destruct (ram_map_bytes _ _ _ Hm Hd) as [Hdb Hdl].
      rewrite (proj2 (Z.ltb_ge _ _)) by lia. wred.
      eexists _, _, _. split; [done|]. pose proof (len_nonneg d). split; [|lia].
      apply staged_store; [done| |done].
      apply store_ok_staging; [done|llia|]. apply bytes_app. auto with nfc.
    + wred. eexists _, _, _. split; [done|]. split; [|lia].
      apply staged_store; [done| |done]. by apply store_ok_staging.
  - wred. pose proof (app_load_fits k tag CONFIG_NFC_STORE_BLOB_SIZE (w_env w)) as Hfit.
    destruct (app_load k tag CONFIG_NFC_STORE_BLOB_SIZE (w_env w)) as [[ret [d|]] e]; cbn in Hfit;
      wred.
    + destruct Hfit as [Hl Hb]. pose proof (len_nonneg d). rewrite blit_ok by lia. wred.
      eexists _, _, _. split; [done|]. split; [|lia].
      constructor; cbn; try done; [by apply per_store, per_env|].
      apply store_ok_staging; [done|llia|]. rewrite !bytes_app. auto with nfc.
    + eexists _, _, _. split; [done|]. split; [|lia]. constructor; cbn; try done. by apply per_env.
Qed.

Lemma read_envelope_total `{!AppLoad} tag w :
  P w → store_ok (w_store w) → ram_ok (w_ram w) →
  ∃ r pl v w', nfc_store_read_envelope (Some tag) w = Some ((r, pl, v), w') ∧ staged w w' ∧
    (r = 0 → 0 <= pl ∧ 8 + pl <= CONFIG_NFC_STORE_BLOB_SIZE ∧ version_ok v).
Proof.
  intros HP Hs Hm. unfold nfc_store_read_envelope. wred.
  destruct (s_load_cb (w_store w)) as [cb|].
  2: { eexists _, _, _, w. split; [done|]. split; [by apply staged_refl|done]. }
  destruct (call_load_total cb tag w HP Hs Hm) as (ret & n & w1 & Hrun & Hw1 & Hn).
  rewrite (run_call _ _ _ _ _ Hrun). case_bool; [eexists _, _, _, w1; done|].
  destruct (ret =? 0) eqn:Hret; cbn [negb].
  2: { sred. eexists _, _, _, _. split; [done|]. split; [|done].
       eapply staged_fed; [exact Hw1|]. apply fed_stats; apply Hw1. }
  wred. destruct (check_envelope_total (s_staging_buf (w_store w1)) n 0 0)
    as (r & pl & v & Hc & Hr & Hok).
  { rewrite (sk_staging _ (sg_store _ _ Hw1)). lia. }
  rewrite Hc. wred. destruct (Z.eqb_spec r 0) as [->|Hne]; cbn [negb].
  - eexists _, _, _, w1. split; [done|]. split; [done|]. intros _.
    destruct (Hok eq_refl) as (? & ? & ? & _). split_and!; try done; lia.
  - sred. eexists _, _, _, _. split; [done|]. split; [|done].
    eapply staged_fed; [exact Hw1|]. apply fed_stats; apply Hw1.
Qed.

(** Looking at the first entry of a card returns, whatever is stored. *)
Lemma peek_any `{!AppLoad} tag pid flags w : P w → store_ok (w_store w) → ram_ok (w_ram w) →
  ∃ r w', nfc_store_peek_entry_meta tag pid flags w = Some (r, w') ∧ staged w w'.
Proof.
  intros HP Hs Hm. destruct pid as [pid0|], flags as [flags0|]; try by (eexists _, w; split; [done|by apply staged_refl]).
  pose proof blob_size_range. pose proof (staged_refl w HP Hs) as Hrefl.
  unfold nfc_store_peek_entry_meta, nfc_store_check_quiescent. wred.
  destruct (negb (_ =? 0)); [by eexists _, w|]. wred. case_bool; [by eexists _, w|].
  destruct tag as [tag|]; [|by eexists _, w]. case_bool; [by eexists _, w|].
  destruct (read_envelope_total tag w HP Hs Hm) as (r & pl & v & w1 & Hrun & Hsg & Hok).
  rewrite (run_call _ _ _ _ _ Hrun).
  destruct (Z.eqb_spec r 0) as [->|]; cbn [negb]; [|by eexists _, w1].
  destruct (Hok eq_refl) as (? & ? & _).
  assert (∀ f, staged w (set_store (s_inc f (w_store w1)) w1)) as Hinc
    by (intros f; eapply staged_fed; [exact Hsg|]; apply fed_stats; apply Hsg).
  case_bool; [sred; eexists _, _; split; [done|apply Hinc]|].
  case_bool; [sred; eexists _, _; split; [done|apply Hinc]|]. wred. bool_prop.
  pose proof (sk_staging _ (sg_store _ _ Hsg)) as Hsz. unfold NFC_STORE_BLOB_HDR_SIZE, entry_overhead_of in *.
  ld_case 6 pid; [lia|]. wred. case_bool; [by eexists _, w1|].
  ld_case (6 + 1) f; [lia|]. wred. by eexists _, w1.
Qed.

Lemma peek_total `{!AppLoad} tag w : P w → store_ok (w_store w) → ram_ok (w_ram w) →
  ∃ r w', nfc_store_peek_entry_meta (Some tag) (Some 0) (Some 0) w = Some (r, w') ∧ staged w w'.
Proof. apply peek_any. Qed.

(** The state in which the store can be used. *)
Record ready (w : world E) : Prop := {
  rd_P : P w;
  rd_store : store_ok (w_store w);
  rd_ram : ram_ok (w_ram w);
  rd_state : s_state (w_store w) = NFC_STORE_STATE_INITIALIZED;
  rd_quiet : quiescent w;
}.

(** A new or existing name, or room for a new one. *)
Definition has_room (m : ram) (tag : list Z) : Prop :=
  is_Some (ram_map m !! c_str tag) ∨
  Z.of_nat (size (ram_map m)) < CONFIG_NFC_STORE_RAM_SLOT_COUNT.

Lemma commit_save_ram tag env rest w :
  s_save_cb (w_store w) = Some FN_RAM → P w → store_ok (w_store w) → ram_ok (w_ram w) → tag_ok tag →
  bytes (env ++ rest) → len (env ++ rest) <= CONFIG_NFC_STORE_BLOB_SIZE →
  ∃ m' x ret, commit_save tag (env ++ rest) (len env) w =
      Some (ret, set_store (s_with_stats x (w_store w)) (set_ram m' w)) ∧ ram_ok m' ∧
    ((has_room (w_ram w) tag ∧ ret = 0 ∧
      ram_map m' = <[c_str tag := env]> (ram_map (w_ram w))) ∨
     (¬ has_room (w_ram w) tag ∧ ret = - EIO ∧ m' = w_ram w)).
Proof.
  intros Hcb HP Hs Hm Ht Hb Hl. rewrite len_app in Hl.
  pose proof (len_nonneg env). pose proof (len_nonneg rest).
  unfold commit_save. wred. rewrite Hcb. unfold call_save. wred.
  destruct (ram_save_spec (w_ram w) tag (env ++ rest) (len env) Hm Ht Hb ltac:(llia))
    as (ret & m' & -> & Hok & Hres). wred.
  rewrite (proj2 (Z.leb_le _ _)) in Hres by lia. cbn [andb] in Hres.
  destruct (bool_decide _) eqn:Eroom; bool_prop.
  - destruct Hres as (-> & Hmap & _). cbn [Z.eqb negb]. sred.
    eexists m', _, 0. split; [done|]. split; [done|]. left. split; [done|]. split; [done|].
    rewrite Hmap. by rewrite take_app_length' by llia.
  - destruct Hres as (-> & ->). cbn [negb]. change (- ENOSPC =? 0) with false. cbn [negb]. sred.
    eexists (w_ram w), _, _. split; [done|]. split; [done|]. by right.
Qed.

(** Saving to the RAM backend. *)
Lemma save_ram_spec tag l w es :
  ready w → tag_ok tag → s_save_cb (w_store w) = Some FN_RAM → entries_of w l 6 = inr es →
  ∃ w' ret, nfc_store_save vtab (Some tag) (Some l) (len l) w = Some (ret, w') ∧
    P w' ∧ store_ok (w_store w') ∧ ram_ok (w_ram w') ∧ conf (w_store w') = conf (w_store w) ∧
    w_stack w' = w_stack w ∧ w_env w' = w_env w ∧ (∀ s, image s w' = image s w) ∧
    ((has_room (w_ram w) tag ∧ ret = 0 ∧
      ram_map (w_ram w') = <[c_str tag := envelope NFC_STORE_BLOB_VERSION 0
        (encode_entries NFC_STORE_BLOB_VERSION es)]> (ram_map (w_ram w))) ∨
     (¬ has_room (w_ram w) tag ∧ ret = - EIO ∧ w_ram w' = w_ram w)).
Proof.
  intros [HP Hs Hm Hst Hq] Ht Hcb Hes.
  destruct (save_spec tag l w HP Hs Hq Hst Ht) as (w1 & Hk & Hw1). rewrite Hes in Hw1.
  destruct Hw1 as (rest & Hstg & Hrun). set (env := envelope _ _ _) in *.
  pose proof (kp_conf _ _ Hk) as Hc. injection Hc as C1 C2 C3 C4 C5.
  destruct (commit_save_ram tag env rest w1) as (m' & x & ret & Hcs & Hmok & Hres).
  { congruence. } { apply Hk. } { apply Hk. } { by rewrite (kp_ram _ _ Hk). } { done. }
  { rewrite <-Hstg. apply Hk. } { rewrite <-Hstg, (sk_staging _ (kp_store _ _ Hk)). lia. }
  rewrite Hrun, Hcs. eexists _, ret. split; [done|]. rewrite (kp_ram _ _ Hk) in Hres.
  split; [apply per_store, per_ram, Hk|]. split; [apply store_ok_stats, Hk|].
  split; [done|]. split; [apply Hk|]. split; [apply Hk|]. split; [apply Hk|].
  split; [|done]. intros s. rewrite image_store, image_ram. apply Hk.
Qed.

Lemma encode_entries_len v es : Z.of_nat (length es) <= len (encode_entries v es).
Proof.
  induction es as [|e es IH]; [done|]. rewrite encode_entries_cons, len_app, encode_entry_split,
    len_app, entry_head_len. pose proof (len_nonneg (en_body e)).
  assert (3 <= entry_overhead_of v) by (unfold entry_overhead_of; by case_bool).
  cbn [length]. lia.
Qed.

(** What a load does with the entries of the card. *)
Definition feed_all (l : list (option svc_ptr)) (es : list entry) : M (world E) Z :=
  last_err ← feed l es 0;
  if negb (last_err =? 0) then mret (- EBADMSG) else inc_store ss_load_count ;; mret 0.

(** The state with [blob] in the staging buffer. *)
Definition with_staged (blob : list Z) (w : world E) : world E :=
  set_store (s_with_staging (blob ++ drop (length blob) (s_staging_buf (w_store w))) (w_store w)) w.

(** Loading a card the RAM backend holds. *)
Lemma load_ram_spec tag l w v r es :
  ready w → tag_ok tag → s_load_cb (w_store w) = Some FN_RAM → version_ok v →
  Forall entry_ok es →
  ram_map (w_ram w) !! c_str tag = Some (envelope v r (encode_entries v es)) →
  nfc_store_load vtab (Some tag) (Some l) (len l) w =
  feed_all l es (with_staged (envelope v r (encode_entries v es)) w).
Proof.
  intros [HP Hs Hm Hst Hq] Ht Hcb Hv Hes Hmap. pose proof blob_size_range.
  destruct (sk_init _ Hs Hst) as (_ & _ & _ & Hmax). pose proof (sk_staging _ Hs) as Hsz.
  set (env := envelope v r (encode_entries v es)) in *.
  destruct (ram_map_bytes _ _ _ Hm Hmap) as [Hdb Hdl].
  assert (len env = 8 + len (encode_entries v es)) as Hel by apply envelope_len.
  pose proof (len_nonneg (encode_entries v es)). pose proof (len_nonneg l).
  set (w1 := with_staged env w).
  assert (store_ok (w_store w1)) as Hs1.
  { apply store_ok_staging; [done|llia|]. apply bytes_app. split; [done|apply bytes_drop, Hs]. }
  assert (nfc_store_read_envelope (Some tag) w = Some ((0, len (encode_entries v es), v), w1)) as Hre.
  { unfold nfc_store_read_envelope. wred. rewrite Hcb. unfold call_load. wred.
    rewrite <-Hsz, ram_load_spec, Hmap by done. rewrite (proj2 (Z.ltb_ge _ _)) by lia. wred.
    change (0 =? - ENOENT) with false. cbn [Z.eqb negb]. wred.
    cbn [s_staging_buf s_with_staging]. unfold env. rewrite check_envelope_complete by (done || lia).
    wred. done. }
  unfold nfc_store_load. rewrite run_quiescent by done. cbn [Z.eqb negb]. wred.
  rewrite bool_decide_true by done. cbn [negb]. rewrite validate_tag_spec by done.
  rewrite bool_decide_true by done. cbn [Z.eqb negb].
  rewrite (bool_decide_false (Some l = None)), andb_false_r by done.
  rewrite (run_call _ _ _ _ _ Hre). cbn [Z.eqb negb]. unfold svc_array. rewrite sub_ok by lia.
  wred. rewrite drop_0, take_ge by llia.
  pose proof (load_entries_spec l v es (S (Z.to_nat (len (encode_entries v es)))) w1
    (header v r (len (encode_entries v es)))
    ([lo8 (crc16_ccitt 0xFFFF (header v r (len (encode_entries v es)) ++ encode_entries v es));
      hi8 (crc16_ccitt 0xFFFF (header v r (len (encode_entries v es)) ++ encode_entries v es))] ++
     drop (length env) (s_staging_buf (w_store w))) 0 (len (encode_entries v es))) as Hload.
  change (len (header v r (len (encode_entries v es)))) with 6 in Hload.
  unfold NFC_STORE_BLOB_HDR_SIZE. unfold feed_all.
  destruct (feed_total l es w1 0) as (last & w2 & Hfeed & Hfed).
  { by apply per_store. } { done. }
  { pose proof Hdb as Hb. unfold env, envelope, seal in Hb. rewrite !bytes_app in Hb.
    destruct Hb as ((_ & Hb) & _). clear -Hb. induction es as [|e es IH]; [constructor|].
    rewrite encode_entries_cons, encode_entry_split, !bytes_app in Hb.
    destruct Hb as ((_ & ?) & ?). constructor; auto. }
  rewrite Hfeed in Hload. rewrite (run_call _ _ _ _ _ (Hload ltac:(by apply per_store) Hs1 Hes
    ltac:(unfold w1, with_staged, env, envelope, seal; cbn; by rewrite <-!(assoc_L (++)))
    eq_refl ltac:(pose proof (encode_entries_len v es); lia))).
  rewrite (run_call _ _ _ _ _ Hfeed). done.
Qed.

Lemma entries_of_ok w l pos es : P w → entries_of w l pos = inr es → Forall entry_ok es.
Proof.
  intros HP. pose proof blob_size_range. revert pos es.
  induction l as [|o l IH]; intros pos es; cbn [entries_of]; [by intros [= <-]|].
  destruct (persisted o) as [s|]; [|apply IH].
  destruct (image s w) as [e|b] eqn:Eim; [case_bool; [apply IH|done]|].
  case_bool; [done|]. destruct (entries_of w l _) as [|es'] eqn:El; [done|].
  intros [= <-]. constructor; [|by eapply IH].
  destruct (image_bytes s w b HP Eim). unfold entry_ok, entry_of. cbn. lia.
Qed.

(** ** Live commits *)

(** What reporting a modified service leaves alone; the environment sees at most a commit. *)
Record noted (s : svc_ptr) (w w' : world E) : Prop := {
  nt_P : P w';
  nt_image : ∀ s', image s' w' = image s' w;
  nt_store : store_ok (w_store w');
  nt_conf : conf (w_store w') = conf (w_store w);
  nt_ram : w_ram w' = w_ram w;
  nt_stack : w_stack w' = w_stack w;
  nt_router : w_router w' = w_router w;
  nt_asm : w_asm w' = w_asm w;
  nt_env : w_env w' = w_env w ∨ ∃ k t, w_env w' = (app_commit k s t (w_env w)).2;
}.

Lemma kept_noted s w w' : kept w w' → noted s w w'.
Proof. intros []. constructor; auto. Qed.

Lemma noted_stats s x w w' : noted s w w' →
  noted s w (set_store (s_with_stats x (w_store w')) w').
Proof.
  intros []. constructor; cbn; try done; [by apply per_store| |by apply store_ok_stats].
  intros s'. by rewrite image_store.
Qed.

(** Serializing a service into the staging buffer. *)
Lemma dirty_serialize s f w : P w → store_ok (w_store w) → serialize (vtab s) = Some f →
  ∃ w1 r o n, f (s_staging_buf (w_store w)) CONFIG_NFC_STORE_BLOB_SIZE 0 w = Some ((r, o, n), w1) ∧
    kept w (set_store (s_with_staging o (w_store w1)) w1) ∧
    r = match image s w with inl e => e | inr _ => 0 end.
Proof.
  intros HP Hs Hf.
  destruct (per_serialize s f w (s_staging_buf (w_store w)) HP Hf) as (w1 & HP1 & Ho & Hi & Hr);
    [apply Hs..|].
  pose proof (own_store _ _ Ho) as Hst. pose proof (sk_staging _ Hs) as Hsz.
  assert (∀ o, len o = CONFIG_NFC_STORE_BLOB_SIZE → bytes o →
    kept w (set_store (s_with_staging o (w_store w1)) w1)) as Hk.
  { intros o Hlo Hbo. eapply kept_trans; [by apply (kept_own w w1)|].
    apply kept_store; [done| |done]. apply store_ok_staging; [by rewrite Hst|done..]. }
  destruct (image s w) as [e|b] eqn:Eim; eexists w1, _, _, _; (split; [done|]); (split; [|done]).
  - apply Hk; [done|apply Hs].
  - destruct (image_bytes s w b HP Eim). pose proof (sk_staging_bytes _ Hs). apply Hk; [llia|].
    apply bytes_app. auto with nfc.
Qed.

Lemma on_dirty_spec s tag w :
  P w → store_ok (w_store w) →
  ∃ ret w', nfc_store_on_dirty vtab (Some s) (Some tag) w = Some (ret, w') ∧ noted s w w'.
Proof.
  intros HP Hs. unfold nfc_store_on_dirty. wred.
  assert (noted s w w) as Hrefl by (apply kept_noted, kept_refl; done).
  case_bool; [eexists _, w; done|]. case_bool; [eexists _, w; done|].
  destruct (serialize (vtab s)) as [f|] eqn:Hf; [|eexists _, w; done].
  destruct (dirty_serialize s f w HP Hs Hf) as (w1 & r & o & n & Hrun & Hk & Hr).
  rewrite (run_call _ _ _ _ _ Hrun). wred. set (w2 := set_store _ w1) in *.
  pose proof (kp_env _ _ Hk) as Henv. apply (kept_noted s) in Hk.
  case_bool; [eexists _, _; split; [done|]; done|].
  destruct (r =? 0); cbn [negb]; [|sred; eexists _, _; split; [done|by apply noted_stats]].
  wred. destruct (s_commit_cb (w_store w2)) as [cb|]; [|eexists _, _; done].
  assert (∃ c w3, call_commit cb s tag w2 = Some (c, w3) ∧ noted s w w3) as (c & w3 & Hcb & Hn).
  { destruct cb as [| |k]; unfold call_commit; [eexists _, w2; done..|].
    eexists _, _. split; [done|]. destruct Hk. constructor; cbn; try done.
    - by apply per_env.
    - intros s'. by rewrite image_env.
    - right. exists k, tag. do 2 f_equal. exact Henv. }
  rewrite (run_call _ _ _ _ _ Hcb). destruct (c =? 0); cbn [negb]; sred;
    eexists _, _; (split; [done|by apply noted_stats]).
Qed.

(** Whatever backend is registered, a save returns. *)
Lemma call_save_total cb tag blob n w :
  P w → ram_ok (w_ram w) → store_ok (w_store w) → tag_ok tag → bytes blob → 0 <= n <= len blob →
  ∃ ret w', call_save cb (Some tag) (Some blob) n w = Some (ret, w') ∧
    P w' ∧ ram_ok (w_ram w') ∧ w_store w' = w_store w ∧ w_stack w' = w_stack w ∧
    w_router w' = w_router w ∧ w_asm w' = w_asm w.
Proof.
  intros HP Hm Hs Ht Hb Hn. destruct cb as [| |k]; unfold call_save.
  - eexists _, w. done.
  - wred. destruct (ram_save_spec (w_ram w) tag blob n Hm Ht Hb Hn) as (ret & m' & -> & Hok & _).
    wred. eexists _, _. split; [done|]. split; [by apply per_ram|done].
  - wred. rewrite sub_ok by lia. wred. eexists _, _. split; [done|]. split; [by apply per_env|done].
Qed.

(** The state a save or an import leaves. *)
Record saved (w w' : world E) : Prop := {
  sv_P : P w';
  sv_store : store_ok (w_store w');
  sv_ram : ram_ok (w_ram w');
  sv_conf : conf (w_store w') = conf (w_store w);
  sv_stack : w_stack w' = w_stack w;
  sv_router : w_router w' = w_router w;
  sv_asm : w_asm w' = w_asm w;
}.

Lemma saved_refl w : P w → store_ok (w_store w) → ram_ok (w_ram w) → saved w w.
Proof. by constructor. Qed.

Lemma saved_stats x w w' : saved w w' → saved w (set_store (s_with_stats x (w_store w')) w').
Proof. intros []. constructor; cbn; try done; [by apply per_store|by apply store_ok_stats]. Qed.

Lemma save_total tag l w :
  P w → store_ok (w_store w) → ram_ok (w_ram w) →
  ∃ ret w', nfc_store_save vtab tag (Some l) (len l) w = Some (ret, w') ∧ saved w w'.
Proof.
  intros HP Hs Hm. pose proof (saved_refl w HP Hs Hm) as Hrefl.
  destruct (CONFIG_NFC_ROLE_LISTEN && bool_decide (k_state (w_stack w) = NFC_STACK_STATE_STARTED))
    eqn:Eq; [unfold nfc_store_save, nfc_store_check_quiescent; wred; rewrite Eq; by eexists _, w|].
  assert (quiescent w) as Hq.
  { intros Hr. rewrite Hr in Eq. cbn in Eq. by bool_prop. }
  destruct (decide (s_state (w_store w) = NFC_STORE_STATE_INITIALIZED)) as [Hst|Hst].
  2: { unfold nfc_store_save. rewrite run_quiescent by done. cbn [Z.eqb negb]. wred.
       rewrite bool_decide_false by done. by eexists _, w. }
  destruct (sk_init _ Hs Hst) as (_ & _ & _ & Hmax).
  assert (nfc_store_validate_tag (w_store w) tag = 0 → ∃ t, tag = Some t ∧ tag_ok t) as Hval.
  { destruct tag as [t|]; [|done]. rewrite validate_tag_spec by done.
    case_bool; [|done]. bool_prop. by eexists. }
  destruct (Z.eqb_spec (nfc_store_validate_tag (w_store w) tag) 0) as [Hv|Hv].
  2: { unfold nfc_store_save. rewrite run_quiescent by done. cbn [Z.eqb negb]. wred.
       rewrite bool_decide_true, (proj2 (Z.eqb_neq _ _)) by done. by eexists _, w. }
  destruct (Hval Hv) as (t & -> & Ht).
  destruct (save_spec t l w HP Hs Hq Hst Ht) as (w1 & Hk & Hw1).
  assert (saved w w1) as Hsv.
  { constructor; try apply Hk. by rewrite (kp_ram _ _ Hk). }
  destruct (entries_of w l 6) as [e|es]; [by eexists _, w1|].
  destruct Hw1 as (rest & Hstg & ->). unfold commit_save. wred.
  destruct (s_save_cb (w_store w1)) as [cb|]; [|by eexists _, w1].
  set (env := envelope _ _ _) in *.
  destruct (call_save_total cb t (env ++ rest) (len env) w1)
    as (ret & w2 & Hrun & HP2 & Hm2 & Hs2 & Hst2 & Hr2 & Ha2);
    [apply Hk|by rewrite (kp_ram _ _ Hk)|apply Hk|done|rewrite <-Hstg; apply Hk|llia|].
  rewrite (run_call _ _ _ _ _ Hrun).
  assert (saved w w2) as Hsv2.
  { destruct Hsv. constructor; try done; rewrite ?Hs2; try done; congruence. }
  destruct (ret =? 0); cbn [negb]; sred; eexists _, _; (split; [done|by apply saved_stats]).
Qed.

Lemma import_total tag blob w :
  P w → store_ok (w_store w) → ram_ok (w_ram w) → bytes blob →
  ∃ ret w', nfc_store_import_blob tag (Some blob) (len blob) w = Some (ret, w') ∧ saved w w'.
Proof.
  intros HP Hs Hm Hb. pose proof (saved_refl w HP Hs Hm) as Hrefl. pose proof (len_nonneg blob).
  unfold nfc_store_import_blob. destruct tag as [tag|]; [|by eexists _, w].
  unfold nfc_store_validate_blob_buf.
  destruct (check_envelope_total blob (len blob) 0 0 ltac:(lia)) as (r & pl & v & -> & _). wred.
  destruct (r =? 0); cbn [negb]; [|sred; eexists _, _; split; [done|by apply saved_stats]].
  wred. case_bool; [by eexists _, w|]. bool_prop.
  destruct (sk_init _ Hs E0) as (_ & _ & _ & Hmax). rewrite validate_tag_spec by done.
  destruct (bool_decide (tag_ok tag)) eqn:Et; bool_prop; cbn [Z.eqb negb]; [|by eexists _, w].
  destruct (s_save_cb (w_store w)) as [cb|]; [|by eexists _, w].
  destruct (call_save_total cb tag blob (len blob) w)
    as (ret & w2 & Hrun & HP2 & Hm2 & Hs2 & Hst2 & Hr2 & Ha2); [done..|lia|].
  rewrite (run_call _ _ _ _ _ Hrun).
  assert (saved w w2) as Hsv2 by (constructor; try done; rewrite ?Hs2; done).
  destruct (ret =? 0); cbn [negb]; [by eexists _, w2|].
  sred; eexists _, _; (split; [done|by apply saved_stats]).
Qed.

(** Loading returns, whatever the backend holds. *)
Lemma load_total `{!AppLoad} tag l w :
  P w → store_ok (w_store w) → ram_ok (w_ram w) →
  ∃ ret w', nfc_store_load vtab tag (Some l) (len l) w = Some (ret, w') ∧ staged w w'.
Proof.
  intros HP Hs Hm. pose proof (len_nonneg l). unfold nfc_store_load, nfc_store_check_quiescent. wred.
  destruct (negb _); [eexists _, w; split; [done|by apply staged_refl]|]. wred.
  destruct (negb _); [eexists _, w; split; [done|by apply staged_refl]|].
  destruct tag as [tag|]; [|eexists _, w; split; [done|by apply staged_refl]].
  destruct (negb _); [eexists _, w; split; [done|by apply staged_refl]|].
  rewrite (bool_decide_false (Some l = None)), andb_false_r by done.
  destruct (read_envelope_total tag w HP Hs Hm) as (r & pl & v & w1 & Hrun & Hw1 & Hok).
  rewrite (run_call _ _ _ _ _ Hrun). destruct (Z.eqb_spec r 0) as [->|]; cbn [negb];
    [|eexists _, w1; done].
  destruct (Hok eq_refl) as (? & ? & _). unfold svc_array. rewrite sub_ok by lia. wred.
  destruct (load_entries_total (take (Z.to_nat (len l)) (drop (Z.to_nat 0) l)) v pl
    (S (Z.to_nat pl)) w1 NFC_STORE_BLOB_HDR_SIZE 0) as (res & w2 & Hrun2 & Hw2);
    [apply Hw1..|unfold NFC_STORE_BLOB_HDR_SIZE; lia|lia|unfold NFC_STORE_BLOB_HDR_SIZE; lia|lia|].
  rewrite (run_call _ _ _ _ _ Hrun2).
  assert (staged w w2) as Hw by by eapply staged_fed.
  destruct res as [ret|last]; [eexists _, w2; done|].
  case_bool; [eexists _, w2; done|]. sred. eexists _, _. split; [done|].
  eapply staged_fed; [exact Hw|]. apply fed_stats; apply Hw.
Qed.

(** ** Properties *)

(** C6: Saving a card writes what the services persist, and nothing else: a save that is not
    refused stores under its name an envelope of version 2 whose entries are, in order, the
    images of the services that have one, each with its identifier and flags; all other names
    keep their cards, the services keep what they persist, and when all slots are taken by other names the
    save reports [-EIO] and changes no card. *)
Theorem store_save_exact tag l w es :
  ready w → tag_ok tag → s_save_cb (w_store w) = Some FN_RAM → entries_of w l 6 = inr es →
  ∃ w' ret, nfc_store_save vtab (Some tag) (Some l) (len l) w = Some (ret, w') ∧
    ready w' ∧ (∀ s, image s w' = image s w) ∧
    ((has_room (w_ram w) tag ∧ ret = 0 ∧
      ram_map (w_ram w') = <[c_str tag := envelope NFC_STORE_BLOB_VERSION 0
        (encode_entries NFC_STORE_BLOB_VERSION es)]> (ram_map (w_ram w))) ∨
     (¬ has_room (w_ram w) tag ∧ ret = - EIO ∧ w_ram w' = w_ram w)).
Proof.
  intros Hr Ht Hcb Hes.
  destruct (save_ram_spec tag l w es Hr Ht Hcb Hes)
    as (w' & ret & Hrun & HP & Hs & Hm & Hc & Hst & _ & Him & Hres).
  exists w', ret. split; [done|]. split; [|done]. destruct Hr. injection Hc as C1 _ _ _ _.
  constructor; try done; [congruence|]. unfold quiescent in *. by rewrite Hst.
Qed.

(** A save that cannot be completed stores nothing: when a service fails to serialize (any
    error but [-ENOTSUP]) the save returns [-EIO], and when the collected entries do not fit
    the envelope buffer it returns [-ENOMEM]; the backend is not called, so every stored card is kept. *)
Theorem store_save_refused tag l w e :
  ready w → tag_ok tag → entries_of w l 6 = inl e →
  ∃ w', nfc_store_save vtab (Some tag) (Some l) (len l) w = Some (e, w') ∧
    (e = - EIO ∨ e = - ENOMEM) ∧ w_ram w' = w_ram w ∧ w_env w' = w_env w ∧ ready w'.
Proof.
  intros [HP Hs Hm Hst Hq] Ht He.
  destruct (save_spec tag l w HP Hs Hq Hst Ht) as (w1 & Hk & Hw1). rewrite He in Hw1.
  exists w1. split; [done|]. split.
  { clear -He. revert He. generalize 6. induction l as [|o l IH]; intros pos; cbn [entries_of]; [done|].
    destruct (persisted o) as [s|]; [|apply IH].
    destruct (image s w); [case_bool; [apply IH|intros [= <-]; by left]|].
    case_bool; [intros [= <-]; by right|].
    destruct (entries_of w l _) as [e'|] eqn:El; [|done]. intros [= <-]. by eapply IH. }
  split; [apply Hk|]. split; [apply Hk|].
  pose proof (kp_conf _ _ Hk) as Hc. injection Hc as C1 _ _ _ _.
  constructor; try apply Hk; [by rewrite (kp_ram _ _ Hk)|congruence|].
  unfold quiescent in *. by rewrite (kp_stack _ _ Hk).
Qed.

(** C7: Loading refines its reference: for a card in the RAM backend (either envelope version),
    the byte-level parser of [nfc_store_load] gives exactly the card's entries, in order, to
    the first service registered for their identifier, skips the others, and reports
    [-EBADMSG] if and only if one of the services refused its entry. *)
Theorem store_load_refines tag l w v r es :
  ready w → tag_ok tag → s_load_cb (w_store w) = Some FN_RAM → version_ok v →
  Forall entry_ok es →
  ram_map (w_ram w) !! c_str tag = Some (envelope v r (encode_entries v es)) →
  nfc_store_load vtab (Some tag) (Some l) (len l) w =
  feed_all l es (with_staged (envelope v r (encode_entries v es)) w).
Proof. apply load_ram_spec. Qed.

(** A saved card can be loaded: after a successful save, a load under an equal name, in any
    later state of the services that still has the card, gives the services the
    images they had when the card was saved. *)
Theorem store_save_load tag l w es w' :
  ready w → tag_ok tag → s_save_cb (w_store w) = Some FN_RAM → entries_of w l 6 = inr es →
  nfc_store_save vtab (Some tag) (Some l) (len l) w = Some (0, w') →
  ∀ tag2 w2, ready w2 → s_load_cb (w_store w2) = Some FN_RAM → c_str tag2 = c_str tag →
    ram_map (w_ram w2) !! c_str tag = ram_map (w_ram w') !! c_str tag →
    ∃ blob, nfc_store_load vtab (Some tag2) (Some l) (len l) w2 =
            feed_all l es (with_staged blob w2).
Proof.
  intros Hr Ht Hcb Hes Hrun tag2 w2 Hr2 Hcb2 Heq Hmap.
  destruct (save_ram_spec tag l w es Hr Ht Hcb Hes)
    as (w1 & ret & Hrun' & _ & _ & _ & _ & _ & _ & _ & Hres).
  rewrite Hrun in Hrun'. injection Hrun' as <- <-.
  destruct Hres as [(_ & _ & Hm')|(_ & ? & _)]; [|done].
  eexists. apply load_ram_spec; try done.
  - unfold tag_ok, strlen in *. by rewrite Heq.
  - by left.
  - eapply entries_of_ok, Hes. apply Hr.
  - by rewrite Heq, Hmap, Hm', lookup_insert_eq.
Qed.

(** While the stack is started, the store refuses to save, load or inspect a card with
    [-EBUSY] and changes nothing. *)
Theorem store_busy_while_started tag svcs n pid flags w :
  CONFIG_NFC_ROLE_LISTEN = true → k_state (w_stack w) = NFC_STACK_STATE_STARTED →
  nfc_store_save vtab tag svcs n w = Some (- EBUSY, w) ∧
  nfc_store_load vtab tag svcs n w = Some (- EBUSY, w) ∧
  nfc_store_peek_entry_meta tag (Some pid) (Some flags) w =
    Some ((- EBUSY, Some pid, Some flags), w).
Proof.
  intros Hr Hst. unfold nfc_store_save, nfc_store_load, nfc_store_peek_entry_meta,
    nfc_store_check_quiescent. wred. rewrite Hr, bool_decide_true by done. done.
Qed.
End StoreSpec.
(** ** Life cycle of the RAM backend *)

Section RamLifecycle.
Context `{KconfigRanges} `{Crc16} {E : Type} `{Platform E}.

Definition store_initialized (s : store) : store :=
  {| s_cfg_max_tag_len := 0; s_stats := STATS_RESET; s_state := NFC_STORE_STATE_INITIALIZED;
     s_staging_buf := s_staging_buf s; s_serialize_buf := s_serialize_buf s;
     s_save_cb := Some FN_DEFAULT; s_load_cb := Some FN_DEFAULT; s_commit_cb := Some FN_DEFAULT;
     s_resolved_max_tag_len := CONFIG_NFC_STORE_MAX_TAG_LEN |}.

Lemma store_init_spec (w : world E) : s_state (w_store w) ≠ NFC_STORE_STATE_INITIALIZED →
  nfc_store_init None w = Some (0, set_store (store_initialized (w_store w)) w).
Proof.
  intros Hs. pose proof max_tag_len_range. unfold nfc_store_init. wred.
  rewrite bool_decide_false by done. unfold store_initialized. wred. cbn [Z.eqb].
  by rewrite u8_id by (unfold is_byte; lia).
Qed.

Lemma store_initialized_ok s : store_ok s → store_ok (store_initialized s).
Proof. intros []. by constructor. Qed.

(** The store after the RAM backend registered itself. *)
Definition ram_registered (s : store) : store :=
  let s := if bool_decide (s_state s = NFC_STORE_STATE_INITIALIZED) then s
           else store_initialized s in
  s_with_cbs (Some FN_RAM) (Some FN_RAM) (s_commit_cb s) (s_state s) s.

Lemma ram_init_spec (w : world E) : ram_ready (w_ram w) = false →
  nfc_store_ram_init w =
  Some (0, set_ram (ram_with_ready true (w_ram w)) (set_store (ram_registered (w_store w)) w)).
Proof.
  intros Hr. unfold nfc_store_ram_init. wred. rewrite Hr.
  assert (∃ r, nfc_store_init None w = Some (r,
    set_store (if bool_decide (s_state (w_store w) = NFC_STORE_STATE_INITIALIZED)
               then w_store w else store_initialized (w_store w)) w) ∧ (r = 0 ∨ r = - EALREADY))
    as (r & Hrun & Hcase).
  { destruct (bool_decide _) eqn:Eb; bool_prop.
    - exists (- EALREADY). unfold nfc_store_init. wred. rewrite bool_decide_true by done.
      split; [by destruct w|by right].
    - exists 0. rewrite store_init_spec by done. by auto. }
  rewrite (run_call _ _ _ _ _ Hrun).
  assert (negb (r =? 0) && negb (r =? - EALREADY) = false) as -> by by destruct Hcase as [-> | ->].
  unfold nfc_store_register_save_cb, nfc_store_register_load_cb, register, ram_registered.
  destruct (bool_decide (s_state (w_store w) = _)) eqn:Eb; bool_prop; wred;
    rewrite (bool_decide_true (_ = NFC_STORE_STATE_INITIALIZED)) by done; cbn [negb]; wred;
    cbn [Z.eqb negb]; wred; rewrite (bool_decide_true (_ = NFC_STORE_STATE_INITIALIZED)) by done;
    cbn [negb]; wred; by cbn [Z.eqb negb].
Qed.

Lemma ram_registered_ok s : store_ok s → store_ok (ram_registered s).
Proof.
  intros Hs. unfold ram_registered. destruct (bool_decide _) eqn:Eb; bool_prop.
  - destruct Hs as [? ? ? ? Hi]. destruct (Hi Eb) as (_ & _ & ? & ?). by constructor.
  - destruct (store_initialized_ok s Hs) as [? ? ? ? Hi].
    by constructor.
Qed.

(** The RAM backend registers itself once per boot only: its initialization is not repeated
    after the store was shut down and initialized again. It then reports success, but the
    store keeps its inert callbacks: every card still in RAM is reported missing
    ([-ENOENT]) and the backend is not reached by saves. *)
Theorem ram_init_not_repeated (vtab : svc_ptr → nfc_service_t (world E)) (w : world E) tag l :
  ram_ready (w_ram w) = true → tag_ok tag → quiescent w →
  ∃ w', (_ ← nfc_store_shutdown; _ ← nfc_store_init None; nfc_store_ram_init) w = Some (0, w') ∧
    w_ram w' = w_ram w ∧ s_save_cb (w_store w') = Some FN_DEFAULT ∧
    nfc_store_load vtab (Some tag) (Some l) (len l) w' = Some (- ENOENT, w').
Proof.
  intros Hr Ht Hq. unfold nfc_store_shutdown. wred.
  set (w1 := set_store (s_with_cbs _ _ _ _ _) w).
  rewrite (run_call _ _ _ _ _ (store_init_spec w1 ltac:(done))).
  unfold nfc_store_ram_init. wred. cbn [w_ram set_store w1]. rewrite Hr.
  eexists. split; [done|]. split; [done|]. split; [done|].
  unfold nfc_store_load. rewrite run_quiescent by done. cbn [Z.eqb negb]. wred.
  rewrite bool_decide_true by done. cbn [negb]. rewrite validate_tag_spec by done.
  rewrite bool_decide_true by done. cbn [Z.eqb negb].
  rewrite (bool_decide_false (Some l = None)), andb_false_r by done.
  unfold nfc_store_read_envelope. wred. done.
Qed.
End RamLifecycle.
