(* ===== verification/Stack.v ===== *)
(** * Listen stack ([src/nfc/nfc_stack/nfc_stack.c])

    The orchestrator: it initializes the modules, registers the protocols' AIDs, starts and
    stops the transport, and loads and saves the active card.  [other s] stands for the listener
    modules of the other protocols the stack registers (DESFire, EMV, Aliro), which are modelled in
    files of their own. *)

From stdpp Require Import base list numbers option gmap.
From S2P Require Import Prelude Kconfig Transport Stats Apdu Service Router Ndef Envelope StoreRam World.
From S2P Require Import Dispatch NdefListener Store.

(** The vtable and the life cycle of a listener module. *)
Record listener_ops (W : Type) := {
  lo_service : nfc_service_t W;
  lo_init : M W Z;
  lo_shutdown : M W Z;
}.
Arguments lo_service {W} _.
Arguments lo_init {W} _.
Arguments lo_shutdown {W} _.

(** A vtable with no members, for protocols that are not part of the build. *)
Definition absent {W} : nfc_service_t W := {|
  on_select := None; on_apdu := None; on_tag_cmd := None; on_deselect := None;
  on_field_off := None; serialize := None; deserialize := None; persist_id := 0;
|}.

Definition NDEF_AID : list Z := [0xD2; 0x76; 0x00; 0x00; 0x85; 0x01; 0x01].
Definition desfire_aid : list Z := [0xD2; 0x76; 0x00; 0x00; 0x85; 0x01; 0x00].
Definition emv_ppse_aid : list Z :=
  [0x32; 0x50; 0x41; 0x59; 0x2E; 0x53; 0x59; 0x53; 0x2E; 0x44; 0x44; 0x46; 0x30; 0x31].
Definition emv_service_app_aid : list Z := [0xA0; 0x00; 0x00; 0x00; 0x03; 0x10; 0x10].
Definition aliro_expedited_aid : list Z :=
  [0xA0; 0x00; 0x00; 0x08; 0x58; 0x01; 0x01; 0x01; 0x00].
Definition aliro_stepup_aid : list Z :=
  [0xA0; 0x00; 0x00; 0x08; 0x58; 0x01; 0x01; 0x02; 0x00].

Definition NFC_PROFILE_NONE : Z := 0.
Definition NFC_PROFILE_NDEF : Z := 1.

Section Stack.
Context `{Kconfig} `{Crc16} {E : Type} `{Platform E}.
Context (other : svc_ptr → listener_ops (world E)).

Definition stack_boot : stack :=
  {| k_default_profile := NFC_PROFILE_NDEF; k_stats := STATS_RESET;
     k_state := NFC_STACK_STATE_UNINITIALIZED;
     k_active_tag := zeros CONFIG_NFC_STORE_MAX_TAG_LEN |}.

Definition when (b : bool) {A} (l : list A) : list A := if b then l else [].

(** The vtables of the build, for a given implementation of [nfc_stack_on_service_dirty]. *)
Definition vtab_with (dirty : svc_ptr → M (world E) unit) (s : svc_ptr)
    : nfc_service_t (world E) :=
  match s with
  | SVC_NDEF => s_ndef_listener_service dirty
  | SVC_DESFIRE => if CONFIG_NFC_PROTOCOL_DESFIRE then lo_service (other s) else absent
  | SVC_EMV => if CONFIG_NFC_PROTOCOL_EMV then lo_service (other s) else absent
  | SVC_ALIRO => if CONFIG_NFC_PROTOCOL_ALIRO then lo_service (other s) else absent
  | _ => absent
  end.

(** [nfc_stack_on_service_dirty(svc)]; the store uses the [serialize] member and the persistent
    identifier of the vtable only, which do not involve this function again. *)
Definition dirty_with (vtab : svc_ptr → nfc_service_t (world E)) (svc : option svc_ptr)
    : M (world E) unit :=
  if CONFIG_NFC_STORE then
    match svc with
    | None => mret tt
    | Some s =>
      k ← gets w_stack;
      c ← lift (ld (k_active_tag k) 0);
      if c =? 0 then mret tt else
      _ ← nfc_store_on_dirty vtab (Some s) (Some (k_active_tag k)); mret tt
    end
  else mret tt.

Definition nfc_stack_on_service_dirty : option svc_ptr → M (world E) unit :=
  dirty_with (vtab_with (λ _, mret tt)).

(** The vtables of the program. *)
Definition vtab : svc_ptr → nfc_service_t (world E) :=
  vtab_with (λ s, nfc_stack_on_service_dirty (Some s)).

Definition nfc_stack_listen_services (svcs : option (list (option svc_ptr))) (max : Z)
    : list (option svc_ptr) :=
  match svcs with
  | None => []
  | Some _ =>
    take (Z.to_nat max)
      (when CONFIG_NFC_PROTOCOL_NDEF [Some SVC_NDEF] ++
       when CONFIG_NFC_PROTOCOL_DESFIRE [Some SVC_DESFIRE] ++
       when CONFIG_NFC_PROTOCOL_EMV [Some SVC_EMV] ++
       when CONFIG_NFC_PROTOCOL_ALIRO [Some SVC_ALIRO])
  end.

(** The registrations, in the order of the code. *)
Definition listen_profiles : list (list Z * svc_ptr) :=
  when CONFIG_NFC_PROTOCOL_NDEF [(NDEF_AID, SVC_NDEF)] ++
  when CONFIG_NFC_PROTOCOL_EMV [(emv_ppse_aid, SVC_EMV); (emv_service_app_aid, SVC_EMV)] ++
  when CONFIG_NFC_PROTOCOL_DESFIRE [(desfire_aid, SVC_DESFIRE)] ++
  when CONFIG_NFC_PROTOCOL_ALIRO
    [(aliro_expedited_aid, SVC_ALIRO); (aliro_stepup_aid, SVC_ALIRO)].

Definition on_router (f : router → option (Z * router)) : M (world E) Z :=
  r ← gets w_router; '(ret, r) ← lift (f r); upd_router (λ _, r) ;; mret ret.
Definition on_asm (f : assembler → Z * assembler) : M (world E) Z :=
  λ w, Some ((f (w_asm w)).1, set_asm (f (w_asm w)).2 w).
Definition on_ndef (f : ndef_listener → option (Z * ndef_listener)) : M (world E) Z :=
  l ← gets w_ndef; '(ret, l) ← lift (f l); upd_ndef (λ _, l) ;; mret ret.

Fixpoint register_all (l : list (list Z * svc_ptr)) : M (world E) Z :=
  match l with
  | [] => mret 0
  | (aid, s) :: l =>
    ret ← on_router (aid_router_register (Some aid) (len aid) (Some s));
    if negb (ret =? 0) then mret ret else register_all l
  end.
Definition stack_register_listen_profiles : M (world E) Z := register_all listen_profiles.

Definition listener_init (s : svc_ptr) : M (world E) Z :=
  match s with
  | SVC_NDEF => on_ndef (ndef_listener_init None None)
  | _ => lo_init (other s)
  end.
Definition listener_shutdown (s : svc_ptr) : M (world E) Z :=
  match s with
  | SVC_NDEF => on_ndef (λ l, Some (ndef_listener_shutdown l))
  | _ => lo_shutdown (other s)
  end.

(** The listeners in the order they are initialized. *)
Definition listeners : list svc_ptr :=
  when CONFIG_NFC_PROTOCOL_NDEF [SVC_NDEF] ++ when CONFIG_NFC_PROTOCOL_DESFIRE [SVC_DESFIRE] ++
  when CONFIG_NFC_PROTOCOL_EMV [SVC_EMV] ++ when CONFIG_NFC_PROTOCOL_ALIRO [SVC_ALIRO].

Fixpoint init_all (l : list svc_ptr) : M (world E) Z :=
  match l with
  | [] => mret 0
  | s :: l =>
    ret ← listener_init s;
    if negb (ret =? 0) && negb (ret =? - EALREADY) then mret ret else init_all l
  end.
Definition stack_init_protocol_listeners : M (world E) Z := init_all listeners.

Fixpoint shutdown_all (l : list svc_ptr) : M (world E) unit :=
  match l with [] => mret tt | s :: l => _ ← listener_shutdown s; shutdown_all l end.
(** In reverse order. *)
Definition stack_shutdown_protocol_listeners : M (world E) unit := shutdown_all (rev listeners).

(** ** Transport callbacks *)

(** [apdu_assembler_get_ops] returns a table with all three members. *)
Definition nfc_stack_on_field_on : M (world E) unit := apdu_assembler_on_field_on_handler.
Definition nfc_stack_on_field_off : M (world E) unit := apdu_assembler_on_field_off_handler vtab.
Definition nfc_stack_on_apdu (apdu : option net_buf) : M (world E) unit :=
  apdu_assembler_on_apdu_handler vtab apdu.

(** ** Life cycle *)

(** The labels of [nfc_stack_init]'s error path, last to first. *)
Definition fail (ret : Z) : M (world E) Z :=
  upd_stack (λ k, k_error ret (k_with_state NFC_STACK_STATE_UNINITIALIZED k)) ;; mret (- EIO).
Definition fail_asm (ret : Z) : M (world E) Z := _ ← on_asm apdu_assembler_shutdown; fail ret.
Definition fail_router (ret : Z) : M (world E) Z :=
  _ ← on_router (λ r, Some (aid_router_shutdown r)); fail_asm ret.
Definition fail_store (ret : Z) : M (world E) Z := _ ← nfc_store_shutdown; fail_router ret.
Definition fail_transport (ret : Z) : M (world E) Z := _ ← env_call hal_shutdown; fail_store ret.
Definition fail_listeners (ret : Z) : M (world E) Z :=
  stack_shutdown_protocol_listeners ;; fail_transport ret.

(** [nfc_stack_init(cfg)]; a configuration is its [default_profile] member. *)
Definition nfc_stack_init (cfg : option Z) : M (world E) Z :=
  k ← gets w_stack;
  if negb (bool_decide (k_state k = NFC_STACK_STATE_UNINITIALIZED)) then mret (- EALREADY) else
  let profile := match cfg with Some c => c | None => NFC_PROFILE_NDEF end in
  let profile := if profile =? NFC_PROFILE_NONE then CONFIG_NFC_STACK_DEFAULT_PROFILE
                 else profile in
  t ← lift (st (k_active_tag k) 0 0);
  upd_stack (λ _, {| k_default_profile := profile; k_stats := STATS_RESET;
                     k_state := NFC_STACK_STATE_INITIALIZED; k_active_tag := t |}) ;;
  ret ← on_asm (apdu_assembler_init None);
  if negb (ret =? 0) then fail ret else
  ret ← on_router (λ r, Some (aid_router_init r));
  if negb (ret =? 0) then fail_asm ret else
  ret ← nfc_store_init None;
  if negb (ret =? 0) && negb (ret =? - EALREADY) then fail_router ret else
  ret ← (if CONFIG_NFC_STORE_RAM then nfc_store_ram_init else mret 0);
  if negb (ret =? 0) then fail_store ret else
  ret ← env_call hal_init;
  if negb (ret =? 0) && negb (ret =? - EALREADY) then fail_store ret else
  ret ← stack_init_protocol_listeners;
  if negb (ret =? 0) then fail_transport ret else
  ret ← env_call hal_register_callbacks;
  if negb (ret =? 0) then fail_listeners ret else
  ret ← stack_register_listen_profiles;
  if negb (ret =? 0) then fail_listeners ret else mret 0.

Definition uid_len_ok (u : nfc_uid_t) : bool :=
  (uid_len u =? NFC_UID_LEN_SINGLE) || (uid_len u =? NFC_UID_LEN_DOUBLE) ||
  (uid_len u =? NFC_UID_LEN_TRIPLE).

Definition nfc_stack_start (uid : option nfc_uid_t) : M (world E) Z :=
  k ← gets w_stack;
  if bool_decide (k_state k = NFC_STACK_STATE_STARTED) then mret 0 else
  if negb (bool_decide (k_state k = NFC_STACK_STATE_INITIALIZED)) &&
     negb (bool_decide (k_state k = NFC_STACK_STATE_STOPPED)) then mret (- ENODEV) else
  if match uid with Some u => negb (uid_len_ok u) | None => false end then mret (- EINVAL) else
  upd_stack (k_with_state NFC_STACK_STATE_STARTED) ;;
  ret ← env_call (hal_start uid);
  if negb (ret =? 0) then
    upd_stack (λ k, k_error ret (k_with_state NFC_STACK_STATE_ERROR k)) ;; mret (- EIO)
  else upd_stack (k_inc ks_start_count) ;; mret 0.

Definition nfc_stack_stop : M (world E) Z :=
  k ← gets w_stack;
  if bool_decide (k_state k = NFC_STACK_STATE_UNINITIALIZED) then mret (- ENODEV) else
  if bool_decide (k_state k = NFC_STACK_STATE_INITIALIZED) ||
     bool_decide (k_state k = NFC_STACK_STATE_STOPPED) then mret 0 else
  ret ← env_call hal_stop;
  if negb (ret =? 0) then
    upd_stack (λ k, k_error ret (k_with_state NFC_STACK_STATE_ERROR k)) ;; mret (- EIO)
  else
    upd_stack (λ k, k_inc ks_stop_count (k_with_state NFC_STACK_STATE_STOPPED k)) ;; mret 0.

Definition nfc_stack_shutdown : M (world E) Z :=
  k ← gets w_stack;
  if bool_decide (k_state k = NFC_STACK_STATE_UNINITIALIZED) then mret 0 else
  (if bool_decide (k_state k = NFC_STACK_STATE_STARTED) then _ ← nfc_stack_stop; mret tt
   else mret tt) ;;
  _ ← env_call hal_shutdown;
  stack_shutdown_protocol_listeners ;;
  _ ← nfc_store_shutdown;
  _ ← on_router (λ r, Some (aid_router_shutdown r));
  _ ← on_asm apdu_assembler_shutdown;
  upd_stack (k_with_state NFC_STACK_STATE_UNINITIALIZED) ;; mret 0.

(** ** Cards *)

(** [const nfc_service_t *svcs[6]]; its contents before it is filled do not matter. *)
Definition svcs_size : Z := 6.

(** The common shape of [nfc_stack_load] and [nfc_stack_save]: [op] is the store's operation,
    [count] the counter of the call. *)
Definition stack_card (op : option (list Z) → option (list (option svc_ptr)) → Z → M (world E) Z)
    (count : stack_stat) (tag : option (list Z)) : M (world E) Z :=
  k ← gets w_stack;
  if bool_decide (k_state k = NFC_STACK_STATE_STARTED) then mret (- EBUSY) else
  if negb (bool_decide (k_state k = NFC_STACK_STATE_INITIALIZED)) &&
     negb (bool_decide (k_state k = NFC_STACK_STATE_STOPPED)) then mret (- ENODEV) else
  match tag with
  | None => mret (- EINVAL)
  | Some name =>
    let svcs := nfc_stack_listen_services (Some []) svcs_size in
    if len svcs =? 0 then mret (- ENODEV) else
    ret ← op tag (Some svcs) (len svcs);
    if negb (ret =? 0) then mret ret else
    k ← gets w_stack;
    t ← lift (strncpy (k_active_tag k) name (CONFIG_NFC_STORE_MAX_TAG_LEN - 1));
    t ← lift (st t (CONFIG_NFC_STORE_MAX_TAG_LEN - 1) 0);
    upd_stack (k_with_tag t) ;;
    upd_stack (k_inc count) ;; mret 0
  end.

Definition nfc_stack_load : option (list Z) → M (world E) Z :=
  stack_card (nfc_store_load vtab) ks_load_count.
Definition nfc_stack_save : option (list Z) → M (world E) Z :=
  stack_card (nfc_store_save vtab) ks_save_count.

(** The whole program before [main]. *)
Definition boot (e : E) : world E :=
  {| w_env := e; w_asm := assembler_boot; w_router := router_boot; w_store := store_boot;
     w_ram := ram_boot; w_stack := stack_boot; w_ndef := ndef_listener_boot |}.
End Stack.
