(* ===== verification/System.v ===== *)
(** * The whole stack

    The build whose only emulated protocol is the NDEF tag (the minimal profile of
    [nfc_stack.h]): the listener discharges the interfaces of the store ([Persist]) and of the
    dispatcher ([Services]), and the invariant of the whole program holds in every state the
    program can reach, whatever its callers and the reader in the field do. *)

From stdpp Require Import base list numbers option gmap.
From S2P Require Import Prelude Kconfig Stats Apdu Service Router Ndef Envelope StoreRam World.
From S2P Require Import Dispatch NdefListener Store StoreSpec Stack.

(** The NDEF-only build. *)
Class NdefBuild `{Kconfig} : Prop := {
  build_ndef : CONFIG_NFC_PROTOCOL_NDEF = true;
  build_desfire : CONFIG_NFC_PROTOCOL_DESFIRE = false;
  build_emv : CONFIG_NFC_PROTOCOL_EMV = false;
  build_aliro : CONFIG_NFC_PROTOCOL_ALIRO = false;
}.

Section System.
Context `{KconfigRanges} `{!NdefBuild} `{Crc16} {E : Type} `{Trace E}.
Context (other : svc_ptr → listener_ops (world E)).

Lemma vtab_ndef d : vtab_with other d SVC_NDEF = s_ndef_listener_service d.
Proof. done. Qed.

Lemma vtab_absent d s : s ≠ SVC_NDEF → vtab_with other d s = absent.
Proof. destruct s; cbn; rewrite ?build_desfire, ?build_emv, ?build_aliro; done. Qed.

(** ** The NDEF listener as a persisted service *)

(** What the listener persists. *)
Definition image (s : svc_ptr) (w : world E) : Z + list Z :=
  match s with
  | SVC_NDEF =>
    if negb (nl_initialized (w_ndef w)) then inl (- ENODEV) else
    let m := synced (nl_model (w_ndef w)) in
    if NDEF_FILE_BUF_SIZE <? ndef_file_len m then inl (- EINVAL)
    else if CONFIG_NFC_STORE_BLOB_SIZE <? ndef_blob_total_len m then inl (- ENOSPC)
    else inr (ndef_blob m)
  | _ => inl (- ENOTSUP)
  end.

Lemma synced_idemp m : synced (synced m) = synced m.
Proof.
  unfold synced. destruct (nlen m <=? _) eqn:En; [|by rewrite En].
  change (nlen (nd_with_file_len _ m)) with (nlen m). by rewrite En.
Qed.

Lemma image_synced s w : nl_initialized (w_ndef w) = true →
  image s (set_ndef (nl_with_model (synced (nl_model (w_ndef w))) (w_ndef w)) w) = image s w.
Proof.
  intros Hi. destruct s; try done. unfold image.
  cbn [w_ndef set_ndef nl_initialized nl_model nl_with_model]. by rewrite synced_idemp.
Qed.

Lemma ndef_blob_bytes m : ndef_ok m → bytes (ndef_blob m).
Proof.
  intros []. unfold ndef_blob. apply Forall_cons_iff. split.
  - unfold is_byte, NFC_NDEF_FORMAT_VERSION. lia.
  - apply bytes_app. auto with nfc.
Qed.

(** Serialization by the listener, with its image. *)
Lemma listener_serialize (w : world E) out :
  nl_ok (w_ndef w) → len out = CONFIG_NFC_STORE_BLOB_SIZE →
  ∃ l', nl_ok l' ∧ tag_of l' = tag_of (w_ndef w) ∧
    nl_initialized l' = nl_initialized (w_ndef w) ∧
    (∀ s, image s (set_ndef l' w) = image s w) ∧
    ndef_listener_serialize out CONFIG_NFC_STORE_BLOB_SIZE 0 w =
    Some match image SVC_NDEF w with
         | inl e => ((e, out, 0), set_ndef l' w)
         | inr b => ((0, b ++ drop (length b) out, len b), set_ndef l' w)
         end.
Proof.
  intros Hok Hout. destruct (nl_initialized (w_ndef w)) eqn:Hi.
  - exists (nl_with_model (synced (nl_model (w_ndef w))) (w_ndef w)).
    split; [|split; [|split; [done|split; [intros s; by apply image_synced|]]]].
    + apply nl_with_model_ok; [done|apply synced_ok, Hok|]. intros _.
      unfold synced. case_bool; by apply nlo_cc_len.
    + unfold tag_of, synced. cbn. by case_bool.
    + unfold image. rewrite Hi. cbn [negb]. rewrite (serialize_spec w) by (done || lia).
      by repeat case_bool.
  - exists (w_ndef w). split; [done|]. split; [done|]. split; [done|].
    split; [by destruct w|]. unfold ndef_listener_serialize, image. wred. rewrite Hi. by destruct w.
Qed.

Lemma image_err s w e : image s w = inl e → e ≠ 0.
Proof. destruct s; cbn; repeat case_bool; by intros [= <-]. Qed.

Lemma image_ok s w b : nl_ok (w_ndef w) → image s w = inr b →
  bytes b ∧ len b <= CONFIG_NFC_STORE_BLOB_SIZE.
Proof.
  intros Hok. destruct s; try done. cbn. pose proof (synced_ok _ (nlo_model _ Hok)) as Hm.
  repeat case_bool; try done. bool_prop. intros [= <-].
  split; [by apply ndef_blob_bytes|]. by rewrite ndef_blob_len.
Qed.

Lemma listener_deserialize (w : world E) inp n :
  nl_ok (w_ndef w) → bytes inp → 0 <= n <= len inp →
  ∃ ret l', ndef_listener_deserialize inp n w = Some (ret, set_ndef l' w) ∧ nl_ok l' ∧
    nl_initialized l' = nl_initialized (w_ndef w) ∧
    ndef_listener_deserialize (take (Z.to_nat n) inp) n w = ndef_listener_deserialize inp n w.
Proof.
  intros Hok Hb Hn. destruct (nl_initialized (w_ndef w)) eqn:Hi.
  2: { exists (- ENODEV), (w_ndef w). unfold ndef_listener_deserialize. wred. rewrite Hi.
       split_and!; by destruct w. }
  destruct (ndef_deserialize_total (nl_model (w_ndef w)) inp n (nlo_model _ Hok) Hb Hn)
    as (r & m & Hd & Hm & Hcc & Hr).
  eexists r, _. rewrite (deserialize_spec w inp n r m) by (done || by intros; apply Hr).
  split; [done|]. split; [|split; [done|]].
  - apply nl_with_model_ok; [done| |].
    + case_bool; [by apply loaded_ok|done].
    + intros _. case_bool; bool_prop.
      * unfold loaded, padded. destruct (Hr E0) as (? & _). by case_bool.
      * destruct Hcc as [->|?]; [by apply nlo_cc_len|done].
  - apply deserialize_spec; try done; [by rewrite ndef_deserialize_take|by intros; apply Hr].
Qed.

(** The invariant of the protocols: the listener's, and whether it is initialized. *)
Definition ndef_inv (i : bool) (w : world E) : Prop :=
  nl_ok (w_ndef w) ∧ nl_initialized (w_ndef w) = i.

(** The listener discharges the store's interface, for any dirty notification. *)
#[export] Instance ndef_persist d i : Persist (vtab_with other d) (ndef_inv i) image.
Proof.
  constructor; try done.
  - intros s. destruct (decide (s = SVC_NDEF)) as [->|Hs]; [done|]. by rewrite vtab_absent.
  - intros s w b [Hok _] Hb. by eapply image_ok.
  - intros s w e _ He. by eapply image_err.
  - intros s f w out [Hok Hi] Hf Hout _.
    destruct (decide (s = SVC_NDEF)) as [->|Hs]; [|by rewrite vtab_absent in Hf].
    injection Hf as <-.
    destruct (listener_serialize w out Hok Hout) as (l' & Hl & _ & Hil & Him & Hrun).
    exists (set_ndef l' w). split; [split; [done|by rewrite <-Hi]|]. split; [done|]. split; [done|].
    rewrite Hrun. by destruct (image SVC_NDEF w).
  - intros s f w inp n [Hok Hi] Hf Hb Hn.
    destruct (decide (s = SVC_NDEF)) as [->|Hs]; [|by rewrite vtab_absent in Hf].
    injection Hf as <-.
    destruct (listener_deserialize w inp n Hok Hb Hn) as (r & l' & Hrun & Hl & Hil & Htk).
    eexists r, _. split; [done|]. split; [split; [done|by rewrite <-Hi]|done].
Qed.

(** The same vtables without deserialization, with an invariant that fixes what a reader sees:
    a dirty notification only serializes. *)
Definition muted (v : svc_ptr → nfc_service_t (world E)) (s : svc_ptr) : nfc_service_t (world E) :=
  {| on_select := on_select (v s); on_apdu := on_apdu (v s); on_tag_cmd := on_tag_cmd (v s);
     on_deselect := on_deselect (v s); on_field_off := on_field_off (v s);
     serialize := serialize (v s); deserialize := None; persist_id := persist_id (v s) |}.

Lemma on_dirty_muted v s t : nfc_store_on_dirty (muted v) s t = nfc_store_on_dirty v s t.
Proof. done. Qed.

#[export] Instance frozen_persist d t i :
  Persist (muted (vtab_with other d))
    (λ w, nl_ok (w_ndef w) ∧ tag_of (w_ndef w) = t ∧ nl_initialized (w_ndef w) = i) image.
Proof.
  constructor; try done.
  - intros s. destruct (decide (s = SVC_NDEF)) as [->|Hs]; [done|]. cbn. by rewrite vtab_absent.
  - intros s w b [Hok _] Hb. by eapply image_ok.
  - intros s w e _ He. by eapply image_err.
  - intros s f w out (Hok & Ht & Hi) Hf Hout _. cbn in Hf.
    destruct (decide (s = SVC_NDEF)) as [->|Hs]; [|by rewrite vtab_absent in Hf].
    injection Hf as <-.
    destruct (listener_serialize w out Hok Hout) as (l' & Hl & Htl & Hil & Him & Hrun).
    exists (set_ndef l' w). split; [cbn; split_and!; congruence|]. split; [done|].
    split; [done|]. rewrite Hrun. by destruct (image SVC_NDEF w).
Qed.

(** ** The frame of the listener *)

(** The RAM backend is registered only with a store that is initialized: shutting it down selects
    the default callbacks. *)
Definition hooked (s : store) : Prop :=
  s_state s = NFC_STORE_STATE_INITIALIZED ∨ (s_save_cb s ≠ Some FN_RAM ∧ s_load_cb s ≠ Some FN_RAM).

Lemma hooked_conf s s' : conf s' = conf s → hooked s → hooked s'.
Proof. unfold hooked. intros [= -> -> -> _ _]. done. Qed.

Record rest_ok (w : world E) : Prop := {
  rest_store : store_ok (w_store w);
  rest_hooked : hooked (w_store w);
  rest_ram : ram_ok (w_ram w);
  rest_tag : len (k_active_tag (w_stack w)) = CONFIG_NFC_STORE_MAX_TAG_LEN;
}.

Record frame (w w' : world E) : Prop := {
  fr_router : w_router w' = w_router w;
  fr_asm : w_asm w' = w_asm w;
  fr_stack : w_stack w' = w_stack w;
  fr_ram : w_ram w' = w_ram w;
  fr_conf : conf (w_store w') = conf (w_store w);
  fr_tx : tx_of w' = tx_of w;
  fr_freed : freed_of w' = freed_of w;
}.

#[export] Instance listener_frame : Frame rest_ok frame.
Proof.
  constructor; [|done|by intros w l []|by intros w e []].
  intros w1 w2 w3 [] []. constructor; congruence.
Qed.

Definition dirty (s : svc_ptr) : M (world E) unit := nfc_stack_on_service_dirty other (Some s).

#[export] Instance listener_dirty : DirtyOk dirty rest_ok frame.
Proof.
  constructor. intros w Hr Hok. unfold dirty, nfc_stack_on_service_dirty, dirty_with.
  assert (frame w w) as Hrefl by done.
  destruct CONFIG_NFC_STORE; [|exists w; done]. wred.
  pose proof max_tag_len_range. pose proof (rest_tag _ Hr).
  ld_case 0 c; [lia|]. wred. case_bool; [by exists w|].
  destruct (on_dirty_spec (muted (vtab_with other (λ _, mret tt))) _ image SVC_NDEF
    (k_active_tag (w_stack w)) w (conj Hok (conj eq_refl eq_refl)) (rest_store _ Hr))
    as (ret & w' & Hrun & Hn).
  rewrite on_dirty_muted in Hrun. rewrite (run_call _ _ _ _ _ Hrun).
  destruct Hn as [(Hok' & Ht & Hi) _ Hs Hc Hram Hst Hro Has Henv].
  exists w'. split; [done|]. split; [done|]. split_and!; try done.
  - constructor; try done; unfold tx_of, freed_of;
      destruct Henv as [->|(k & t & ->)]; by rewrite ?tx_commit, ?freed_commit.
  - constructor; [done|by eapply hooked_conf, Hr|by rewrite Hram; apply Hr|by rewrite Hst; apply Hr].
Qed.

(** ** The listener as a routed service *)

Definition inv (w : world E) : Prop := nl_ok (w_ndef w) ∧ rest_ok w.

Lemma frame_quiet w w' : frame w w' → quiet w w'.
Proof. by intros []. Qed.

(** A response after a step within the frame. *)
Lemma frame_sends w w1 resp : frame w w1 → sends w (after_send resp w1).
Proof.
  intros []. constructor; try done; unfold tx_of, freed_of, after_send; cbn.
  - exists [resp]. rewrite tx_send. by f_equal.
  - rewrite freed_send. done.
Qed.

(** What no inbound command or field event changes. *)
Record same (w0 w : world E) : Prop := {
  sm_stack : w_stack w = w_stack w0;
  sm_conf : conf (w_store w) = conf (w_store w0);
  sm_ram : w_ram w = w_ram w0;
  sm_init : nl_initialized (w_ndef w) = nl_initialized (w_ndef w0);
}.

Definition inv_from (w0 w : world E) : Prop := inv w ∧ same w0 w.

Lemma inv_from_refl w : inv w → inv_from w w.
Proof. by split. Qed.

Lemma inv_from_frame w0 w w1 e : inv_from w0 w → frame w w1 → nl_ok (w_ndef w1) → rest_ok w1 →
  nl_initialized (w_ndef w1) = nl_initialized (w_ndef w) → inv_from w0 (set_env e w1).
Proof.
  intros [_ []] [] ? [] ?. split; [split; [done|by constructor]|]. constructor; cbn; congruence.
Qed.

(** The listener discharges the dispatcher's interface. *)
#[export] Instance ndef_services w0 : Services (eq SVC_NDEF) (vtab other) (inv_from w0).
Proof.
  constructor.
  - by intros r w [[? []] []]. - by intros a w [[? []] []]. - by intros e w [[? []] []].
  - intros s w aid n <- HI _ _. pose proof HI as [[Hok Hr] _].
    set (w1 := set_ndef (nl_with_sel NDEF_FILE_NONE (w_ndef w)) w).
    destruct (send_sw_spec NFC_SW_OK w1) as (b & Hb & Hrun);
      [by apply nl_with_sel_ok|by unfold NFC_SW_OK|].
    eexists. split; [exact Hrun|].
    split; [|by apply frame_sends]. apply (inv_from_frame w0 w); try done; [|by destruct Hr].
    apply nl_with_response_ok; [by apply nl_with_sel_ok|done].
  - intros s w a <- HI Ha. pose proof HI as [[Hok Hr] _].
    destruct (on_apdu_spec rest_ok frame dirty a w Hr Hok Ha)
      as (w1 & Hrun & Ht & Hok1 & Hf & Hr1 & Hi).
    eexists. split; [exact Hrun|].
    split; [|by apply frame_sends]. apply (inv_from_frame w0 w); auto.
  - intros s w <- HI. pose proof HI as [[Hok Hr] []]. eexists. split; [done|].
    split; [|done]. split; [split; [by apply nl_with_sel_ok|by destruct Hr]|by constructor].
  - intros s w <- HI. pose proof HI as [[Hok Hr] []]. eexists. split; [done|].
    split; [|done]. split; [split; [by apply nl_with_sel_ok|by destruct Hr]|by constructor].
Qed.

(** Loading in this build, whatever is stored. *)
Lemma ndef_load_total `{!AppLoad} tag l w i :
  ndef_inv i w → store_ok (w_store w) → ram_ok (w_ram w) →
  ∃ ret w', nfc_store_load (vtab other) tag (Some l) (len l) w = Some (ret, w') ∧
    staged (ndef_inv i) w w'.
Proof. intros. by apply (load_total (vtab other) (ndef_inv i) image). Qed.
End System.

(** C14: In the build whose only emulated protocol is the NDEF tag ([NdefBuild]: the services of
    DESFire, EMV and Aliro are off), loading is total: with any name (or none), any list of services and whatever the
    callback finds under the name (arbitrary or truncated bytes included; a callback of the
    application returns a length or an error and writes only into the buffer it is given, [AppLoad]), a load returns, reads and
    writes only inside the staging buffer and the listener's arrays, and keeps the
    invariants of the listener, the store and the RAM backend, the registered callbacks and every stored
    card. *)
Theorem store_load_total `{KconfigRanges} `{!NdefBuild} `{Crc16} {E : Type} `{Trace E} `{!AppLoad}
    (other : svc_ptr → listener_ops (world E)) tag l w i :
  ndef_inv i w → store_ok (w_store w) → ram_ok (w_ram w) →
  ∃ ret w', nfc_store_load (vtab other) tag (Some l) (len l) w = Some (ret, w') ∧
    staged (ndef_inv i) w w'.
Proof. intros HP Hs Hm. by apply ndef_load_total. Qed.
