(* ===== verification/Reach.v ===== *)
(** * Reachable states of the stack

    The calls an application makes and the events the transport delivers, as one step relation
    on the whole state; the invariant of the program by induction on it; and the properties of
    the running system that follow. *)

From stdpp Require Import base list numbers option gmap.
From S2P Require Import Prelude Kconfig Transport Stats Apdu Service Router Ndef Envelope StoreRam World.
From S2P Require Import Dispatch NdefListener Store StoreSpec Stack System.

(** What can happen next. *)
Inductive event :=
  | EvInit (cfg : option Z)
  | EvStart (uid : option nfc_uid_t)
  | EvStop
  | EvShutdown
  | EvLoad (tag : option (list Z))
  | EvSave (tag : option (list Z))
  | EvStoreInit (cfg : option Z)
  | EvStoreShutdown
  | EvStoreSave (tag : option (list Z)) (svcs : list (option svc_ptr))
  | EvStoreLoad (tag : option (list Z)) (svcs : list (option svc_ptr))
  | EvStoreDirty (svc : option svc_ptr) (tag : option (list Z))
  | EvPeek (tag : option (list Z)) (pid flags : option Z)
  | EvImport (tag blob : option (list Z)) (n : Z)
  | EvRamInit
  | EvRamReset
  | EvRamImport (tag blob : option (list Z)) (n : Z)
  | EvRegisterSave (fn : option store_fn)
  | EvRegisterLoad (fn : option store_fn)
  | EvRegisterCommit (fn : option store_fn)
  | EvFieldOn
  | EvFieldOff
  | EvApdu (b : net_buf).

(** A buffer, or NULL, and the size that is passed with it. *)
Definition buffer_ok (b : option (list Z)) (n : Z) : Prop :=
  match b with Some b => bytes b ∧ n = len b | None => True end.

(** Buffers hold bytes and are passed with their size; the store is initialized with the build's
    limit on names, the default. *)
Definition event_ok `{Kconfig} (ev : event) : Prop :=
  match ev with
  | EvStoreInit (Some c) => c = 0 ∨ c = CONFIG_NFC_STORE_MAX_TAG_LEN
  | EvImport _ b n | EvRamImport _ b n => buffer_ok b n
  | EvApdu b => bytes (nb_data b)
  | _ => True
  end.

Section Reach.
Context `{KconfigRanges} `{!NdefBuild} `{Crc16} {E : Type} `{Trace E} `{!AppLoad}.
Context (other : svc_ptr → listener_ops (world E)).

Definition as_int (m : M (world E) unit) : M (world E) Z := m ;; mret 0.

(** The functions of the RAM backend, which the build may leave out. *)
Definition ram_api (absent : Z) (m : M (world E) Z) : M (world E) Z :=
  if CONFIG_NFC_STORE_RAM then m else mret absent.

Definition ram_reset : M (world E) Z :=
  m ← gets w_ram; m ← lift (nfc_store_ram_reset m); upd_ram (λ _, m) ;; mret 0.

Definition run_event (ev : event) : M (world E) Z :=
  match ev with
  | EvInit cfg => nfc_stack_init other cfg
  | EvStart uid => nfc_stack_start uid
  | EvStop => nfc_stack_stop
  | EvShutdown => nfc_stack_shutdown other
  | EvLoad tag => nfc_stack_load other tag
  | EvSave tag => nfc_stack_save other tag
  | EvStoreInit cfg => nfc_store_init cfg
  | EvStoreShutdown => nfc_store_shutdown
  | EvStoreSave tag l => nfc_store_save (vtab other) tag (Some l) (len l)
  | EvStoreLoad tag l => nfc_store_load (vtab other) tag (Some l) (len l)
  | EvStoreDirty svc tag => nfc_store_on_dirty (vtab other) svc tag
  | EvPeek tag pid flags => r ← nfc_store_peek_entry_meta tag pid flags; mret r.1.1
  | EvImport tag blob n => nfc_store_import_blob tag blob n
  | EvRamInit => ram_api (- ENOTSUP) nfc_store_ram_init
  | EvRamReset => ram_api 0 ram_reset
  | EvRamImport tag blob n => ram_api (- ENOTSUP) (nfc_store_ram_import tag blob n)
  | EvRegisterSave fn => nfc_store_register_save_cb fn
  | EvRegisterLoad fn => nfc_store_register_load_cb fn
  | EvRegisterCommit fn => nfc_store_register_commit_cb fn
  | EvFieldOn => as_int nfc_stack_on_field_on
  | EvFieldOff => as_int (nfc_stack_on_field_off other)
  | EvApdu b => as_int (nfc_stack_on_apdu other (Some b))
  end.

(** The states of a run: from boot, by events, while the environment moves on its own. *)
Inductive reachable : world E → Prop :=
  | reach_boot e : reachable (boot e)
  | reach_env w e : reachable w → reachable (set_env e w)
  | reach_event w ev ret w' :
      reachable w → event_ok ev → run_event ev w = Some (ret, w') → reachable w'.

(** ** The invariant *)

Record up (w : world E) : Prop := {
  up_asm : a_state (w_asm w) = APDU_ASSEMBLER_STATE_INITIALIZED;
  up_router : r_state (w_router w) = AID_ROUTER_STATE_INITIALIZED;
  up_ndef : nl_initialized (w_ndef w) = true;
  up_routes : routes (w_router w) = [(NDEF_AID, Some SVC_NDEF)];
}.

Record down (w : world E) : Prop := {
  down_asm : a_state (w_asm w) = APDU_ASSEMBLER_STATE_UNINITIALIZED;
  down_router : r_state (w_router w) = AID_ROUTER_STATE_UNINITIALIZED;
  down_routes : routes (w_router w) = [];
}.

Record sys_ok (w : world E) : Prop := {
  sy_inv : inv w;
  sy_router : router_ok (w_router w);
  sy_state : match k_state (w_stack w) with
             | NFC_STACK_STATE_UNINITIALIZED => down w
             | _ => up w
             end;
}.

Lemma sys_routed w : sys_ok w → routed (eq SVC_NDEF) (w_router w).
Proof.
  intros [_ _ Hst] k s Hin. destruct (k_state (w_stack w));
    (rewrite (down_routes _ Hst) in Hin || rewrite (up_routes _ Hst) in Hin).
  all: try (apply list_elem_of_singleton in Hin; by injection Hin). by apply not_elem_of_nil in Hin.
Qed.

Lemma boot_ok e : sys_ok (boot e).
Proof.
  pose proof max_tag_len_range. constructor; [split; [|constructor]| |].
  - apply listener_boot_ok.
  - apply store_boot_ok.
  - by right.
  - apply ram_boot_ok.
  - cbn. apply len_zeros. lia.
  - apply router_boot_ok.
  - done.
Qed.

Lemma env_ok w e : sys_ok w → sys_ok (set_env e w).
Proof.
  intros [[? []] ? Hst]. constructor; [split; [done|by constructor]|done|].
  cbn. destruct (k_state (w_stack w)); by destruct Hst.
Qed.

(** Changing the state of the stack between two states that are up. *)
Lemma stack_ok w k :
  sys_ok w → k_state (w_stack w) ≠ NFC_STACK_STATE_UNINITIALIZED →
  k_state k ≠ NFC_STACK_STATE_UNINITIALIZED → k_active_tag k = k_active_tag (w_stack w) →
  sys_ok (set_stack k w).
Proof.
  intros [[? []] ? Hst] Hk Hk' Ht. constructor; [split; [done|constructor; cbn; congruence]|done|].
  cbn. assert (up w) as [] by by destruct (k_state (w_stack w)).
  by destruct (k_state k).
Qed.

(** The states in which the stack can be started, and cards loaded and saved. *)
Definition idle (k : stack) : Prop :=
  k_state k = NFC_STACK_STATE_INITIALIZED ∨ k_state k = NFC_STACK_STATE_STOPPED.

(** The states each call of the life cycle leads to. *)
Definition next_state (ev : event) (s s' : nfc_stack_state_t) : Prop :=
  match ev, s with
  | EvInit _, NFC_STACK_STATE_UNINITIALIZED =>
      s' = NFC_STACK_STATE_UNINITIALIZED ∨ s' = NFC_STACK_STATE_INITIALIZED
  | EvStart _, (NFC_STACK_STATE_INITIALIZED | NFC_STACK_STATE_STOPPED) =>
      s' = s ∨ s' = NFC_STACK_STATE_STARTED ∨ s' = NFC_STACK_STATE_ERROR
  | EvStop, (NFC_STACK_STATE_STARTED | NFC_STACK_STATE_ERROR) =>
      s' = NFC_STACK_STATE_STOPPED ∨ s' = NFC_STACK_STATE_ERROR
  | EvShutdown, _ => s' = NFC_STACK_STATE_UNINITIALIZED
  | _, _ => s' = s
  end.

(** What every event guarantees. *)
Definition step_ok (ev : event) (w : world E) (_ : Z) (w' : world E) : Prop :=
  sys_ok w' ∧ next_state ev (k_state (w_stack w)) (k_state (w_stack w')).

Lemma start_ok uid w : sys_ok w → ensures (nfc_stack_start uid) w (step_ok (EvStart uid) w).
Proof.
  intros Hok. unfold nfc_stack_start, ensures. wred.
  assert (step_ok (EvStart uid) w 0 w) as Hrefl
    by (split; [done|]; destruct (k_state (w_stack w)); cbn; auto).
  case_bool; [by eexists _, w|]. case_bool; [by eexists _, w|]. case_bool; [by eexists _, w|].
  assert (idle (w_stack w)) as Hk
    by (apply andb_false_iff in E1 as [E1|E1]; bool_prop; [by left|by right]).
  wred. rewrite run_env_call. wred. case_bool; wred; eexists _, _; (split; [done|]); split.
  1,3: apply (stack_ok (set_env _ w)); [by apply env_ok| |done..]; destruct Hk; cbn; congruence.
  all: cbn; destruct Hk as [-> | ->]; cbn; auto.
Qed.

Lemma stop_spec w : sys_ok w →
  ensures nfc_stack_stop w (step_ok EvStop w).
Proof.
  intros Hok. unfold nfc_stack_stop, ensures. wred.
  case_bool; [bool_prop; eexists _, w; split; [done|]; split; [done|]; by rewrite E0|].
  case_bool; [eexists _, w; split; [done|]; split; [done|];
    apply orb_true_iff in E1 as [E1|E1]; bool_prop; by rewrite E1|]. bool_prop.
  rewrite run_env_call. wred. case_bool; wred; eexists _, _; (split; [done|]); split.
  1,3: by apply (stack_ok (set_env _ w)); [apply env_ok|..].
  all: cbn; destruct (k_state (w_stack w)); try done; auto.
Qed.

(** ** Cards *)

(** A step that keeps the configuration of the store and of the stack. *)
Lemma card_ok w w' :
  sys_ok w → ndef_inv (nl_initialized (w_ndef w)) w' → store_ok (w_store w') → ram_ok (w_ram w') →
  conf (w_store w') = conf (w_store w) → w_stack w' = w_stack w → w_router w' = w_router w →
  w_asm w' = w_asm w → sys_ok w'.
Proof.
  intros [[? []] ? Hst] [Hok' Hi] Hs Hm Hc Hk Hr Ha.
  constructor; [split; [done|constructor; try congruence; by eapply hooked_conf]|congruence|]. rewrite Hk.
  destruct (k_state (w_stack w)); destruct Hst; constructor; congruence.
Qed.

Lemma sys_parts w : sys_ok w →
  ndef_inv (nl_initialized (w_ndef w)) w ∧ store_ok (w_store w) ∧ ram_ok (w_ram w).
Proof. by intros [[? []] ? _]. Qed.

Lemma saved_ok w w' : sys_ok w → saved (ndef_inv (nl_initialized (w_ndef w))) w w' → sys_ok w'.
Proof. intros Hok []. by eapply card_ok. Qed.

Lemma staged_ok w w' : sys_ok w → staged (ndef_inv (nl_initialized (w_ndef w))) w w' → sys_ok w'.
Proof.
  intros Hok []. destruct (sys_parts w Hok) as (_ & _ & ?).
  eapply card_ok; try done. congruence.
Qed.

(** The name a card operation leaves in [s_active_tag]. *)
Lemma set_tag_ok w name count :
  sys_ok w → k_state (w_stack w) ≠ NFC_STACK_STATE_UNINITIALIZED →
  ∃ w', (t ← lift (strncpy (k_active_tag (w_stack w)) name (CONFIG_NFC_STORE_MAX_TAG_LEN - 1));
         t ← lift (st t (CONFIG_NFC_STORE_MAX_TAG_LEN - 1) 0);
         upd_stack (k_with_tag t) ;; upd_stack (k_inc count) ;; mret 0) w = Some (0, w') ∧ sys_ok w' ∧
    k_state (w_stack w') = k_state (w_stack w).
Proof.
  intros [[? []] ? Hst] Hk. pose proof max_tag_len_range.
  unfold strncpy. set (s := take _ (c_str name)).
  assert (len s <= CONFIG_NFC_STORE_MAX_TAG_LEN - 1) by (subst s; llia).
  destruct (blit (k_active_tag (w_stack w)) 0 _) as [t|] eqn:Hb.
  2: { rewrite blit_ok in Hb by llia. done. }
  apply blit_len in Hb as Hl. wred. rewrite st_ok by lia. wred. eexists. split; [done|].
  split; [|done].
  constructor; [split; [done|constructor; cbn; try done; rewrite len_insert; congruence]|done|].
  cbn. destruct (k_state (w_stack w)); by destruct Hst.
Qed.

(** Events that leave the state of the stack alone. *)
Definition calm (w : world E) (_ : Z) (w' : world E) : Prop :=
  sys_ok w' ∧ k_state (w_stack w') = k_state (w_stack w).

(** The common part of loading and saving: [op] returns and keeps the invariant. *)
Lemma stack_card_ok op count tag w :
  sys_ok w →
  (∀ l, ∃ ret w', op tag (Some l) (len l) w = Some (ret, w') ∧ sys_ok w' ∧
    w_stack w' = w_stack w) →
  ensures (stack_card op count tag) w (calm w).
Proof.
  intros Hok Hop. unfold stack_card, ensures. wred. case_bool; [by eexists _, w|].
  case_bool; [by eexists _, w|]. destruct tag as [name|]; [|by eexists _, w].
  case_bool; [by eexists _, w|].
  destruct (Hop (nfc_stack_listen_services (Some []) svcs_size)) as (ret & w1 & Hrun & Hok1 & Hst).
  rewrite (run_call _ _ _ _ _ Hrun).
  case_bool; [eexists _, w1; split; [done|]; split; [done|by rewrite Hst]|]. wred.
  assert (k_state (w_stack w1) ≠ NFC_STACK_STATE_UNINITIALIZED) as Hk
    by (rewrite Hst; apply andb_false_iff in E1 as [E1|E1]; bool_prop; congruence).
  destruct (set_tag_ok w1 name count Hok1 Hk) as (w' & Hw' & Hok' & Hk').
  exists 0, w'. split; [done|]. split; [done|]. by rewrite Hk', Hst.
Qed.

Lemma load_ok tag w : sys_ok w → ensures (nfc_stack_load other tag) w (calm w).
Proof.
  intros Hok. apply stack_card_ok; [done|]. intros l.
  destruct (sys_parts w Hok) as (HP & Hs & Hm).
  destruct (load_total (vtab other) _ image tag l w HP Hs Hm) as (ret & w' & Hrun & Hw').
  exists ret, w'. split; [done|]. split; [by eapply staged_ok|apply Hw'].
Qed.

Lemma save_ok tag w : sys_ok w → ensures (nfc_stack_save other tag) w (calm w).
Proof.
  intros Hok. apply stack_card_ok; [done|]. intros l.
  destruct (sys_parts w Hok) as (HP & Hs & Hm).
  destruct (save_total (vtab other) _ image tag l w HP Hs Hm) as (ret & w' & Hrun & Hw').
  exists ret, w'. split; [done|]. split; [by eapply saved_ok|apply Hw'].
Qed.

(** The functions of the store itself. *)
Lemma store_save_ok tag l w : sys_ok w →
  ensures (nfc_store_save (vtab other) tag (Some l) (len l)) w (calm w).
Proof.
  intros Hok. destruct (sys_parts w Hok) as (HP & Hs & Hm).
  destruct (save_total (vtab other) _ image tag l w HP Hs Hm) as (ret & w' & Hrun & Hw').
  exists ret, w'. split; [done|]. split; [by eapply saved_ok|]. by rewrite (sv_stack _ _ _ Hw').
Qed.

Lemma store_load_ok tag l w : sys_ok w →
  ensures (nfc_store_load (vtab other) tag (Some l) (len l)) w (calm w).
Proof.
  intros Hok. destruct (sys_parts w Hok) as (HP & Hs & Hm).
  destruct (load_total (vtab other) _ image tag l w HP Hs Hm) as (ret & w' & Hrun & Hw').
  exists ret, w'. split; [done|]. split; [by eapply staged_ok|]. by rewrite (sg_stack _ _ _ Hw').
Qed.

Lemma noted_ok s w w' : sys_ok w → noted (ndef_inv (nl_initialized (w_ndef w))) image s w w' → sys_ok w'.
Proof.
  intros Hok []. destruct (sys_parts w Hok) as (_ & _ & ?).
  eapply card_ok; try done. congruence.
Qed.

Lemma dirty_ok svc tag w : sys_ok w → ensures (nfc_store_on_dirty (vtab other) svc tag) w (calm w).
Proof.
  intros Hok. destruct (sys_parts w Hok) as (HP & Hs & _).
  destruct svc as [svc|], tag as [tag|].
  - destruct (on_dirty_spec (vtab other) _ image svc tag w HP Hs) as (ret & w' & Hrun & Hw').
    exists ret, w'. split; [done|]. split; [by eapply noted_ok|]. by rewrite (nt_stack _ _ _ _ _ Hw').
  - unfold nfc_store_on_dirty, ensures. wred. case_bool; by eexists _, w.
  - unfold nfc_store_on_dirty, ensures. wred. case_bool; by eexists _, w.
  - unfold nfc_store_on_dirty, ensures. wred. case_bool; by eexists _, w.
Qed.

Lemma peek_ok tag pid flags w : sys_ok w →
  ensures (r ← nfc_store_peek_entry_meta tag pid flags; mret r.1.1) w (calm w).
Proof.
  intros Hok. destruct (sys_parts w Hok) as (HP & Hs & Hm).
  destruct (peek_any (vtab other) _ image tag pid flags w HP Hs Hm) as (ret & w' & Hrun & Hw').
  unfold ensures. rewrite (run_call _ _ _ _ _ Hrun). eexists _, w'. split; [done|].
  split; [by eapply staged_ok|]. by rewrite (sg_stack _ _ _ Hw').
Qed.

Lemma import_ok tag blob n w : sys_ok w → buffer_ok blob n →
  ensures (nfc_store_import_blob tag blob n) w (calm w).
Proof.
  intros Hok Hb. destruct blob as [blob|]; [|destruct tag; by eexists _, w]. destruct Hb as [Hb ->].
  destruct (sys_parts w Hok) as (HP & Hs & Hm).
  destruct (import_total (vtab other) _ image tag blob w HP Hs Hm Hb) as (ret & w' & Hrun & Hw').
  exists ret, w'. split; [done|]. split; [by eapply saved_ok|]. by rewrite (sv_stack _ _ _ Hw').
Qed.

(** Another store or backend. *)
Lemma store_change_ok s w : sys_ok w → store_ok s → hooked s → sys_ok (set_store s w).
Proof.
  intros [[? []] ? Hst] ? ?. constructor; [split; [done|by constructor]|done|].
  cbn. destruct (k_state (w_stack w)); by destruct Hst.
Qed.

Lemma ram_change_ok m w : sys_ok w → ram_ok m → sys_ok (set_ram m w).
Proof.
  intros [[? []] ? Hst] ?. constructor; [split; [done|by constructor]|done|].
  cbn. destruct (k_state (w_stack w)); by destruct Hst.
Qed.

Lemma store_shutdown_ok s : store_ok s →
  store_ok (s_with_cbs (Some FN_DEFAULT) (Some FN_DEFAULT) (Some FN_DEFAULT)
              NFC_STORE_STATE_UNINITIALIZED s).
Proof. by intros []. Qed.

Lemma store_shutdown_event_ok w : sys_ok w → ensures nfc_store_shutdown w (calm w).
Proof.
  intros Hok. destruct (sys_parts w Hok) as (_ & Hs & _). eexists _, _. split; [done|].
  split; [|done]. apply store_change_ok; [done|by apply store_shutdown_ok|by right].
Qed.

Lemma store_init_event_ok cfg w : sys_ok w → event_ok (EvStoreInit cfg) →
  ensures (nfc_store_init cfg) w (calm w).
Proof.
  intros Hok Hcfg. unfold nfc_store_init, ensures. wred. case_bool; [by eexists _, w|].
  eexists _, _. split; [done|]. split; [|done].
  destruct (sys_parts w Hok) as (_ & [] & _). pose proof max_tag_len_range.
  apply store_change_ok; [done| |by left]. constructor; try done. intros _.
  split_and!; try by eexists. cbn in *. destruct cfg as [c|]; cbn.
  - destruct Hcfg as [-> | ->]; cbn; [|case_bool; bool_prop; [lia|done]]. apply u8_id. unfold is_byte. lia.
  - apply u8_id. unfold is_byte. lia.
Qed.

Lemma ram_init_event_ok w : sys_ok w → ensures nfc_store_ram_init w (calm w).
Proof.
  intros Hok. destruct (ram_ready (w_ram w)) eqn:Hr.
  { exists 0, w. unfold nfc_store_ram_init. wred. by rewrite Hr. }
  unfold ensures. rewrite ram_init_spec by done. destruct (sys_parts w Hok) as (_ & Hs & Hm).
  eexists _, _. split; [done|]. split; [|done].
  apply (ram_change_ok _ (set_store _ w)); [|by apply ram_ready_ok].
  apply store_change_ok; [done|by apply ram_registered_ok|]. left. unfold ram_registered. by case_bool; bool_prop.
Qed.

Lemma ram_reset_event_ok w : sys_ok w → ensures ram_reset w (calm w).
Proof.
  intros Hok. destruct (sys_parts w Hok) as (_ & _ & Hm).
  destruct (ram_reset_spec (w_ram w) Hm) as (m & Hrun & Hm' & _).
  unfold ram_reset, ensures. wred. rewrite Hrun. wred. eexists _, _. split; [done|].
  split; [by apply ram_change_ok|done].
Qed.

Lemma ram_import_event_ok tag blob n w : sys_ok w → buffer_ok blob n →
  ensures (nfc_store_ram_import tag blob n) w (calm w).
Proof.
  intros Hok Hb. unfold nfc_store_ram_import, ensures.
  destruct blob as [blob|]; [|by eexists _, w]. destruct Hb as [Hb ->].
  destruct (validate_blob_total blob Hb) as [ret ->]. wred.
  destruct (negb (ret =? 0)); [by eexists _, w|].
  destruct (ram_init_event_ok w Hok) as (r & w1 & Hrun & Hok1 & Hk1).
  rewrite (run_call _ _ _ _ _ Hrun). destruct (negb (r =? 0)); [by eexists _, w1|].
  unfold call_save. wred. destruct (sys_parts w1 Hok1) as (_ & _ & Hm).
  destruct (ram_save_any (w_ram w1) tag blob Hm Hb) as (q & m & -> & Hm'). wred.
  eexists _, _. split; [done|]. split; [by apply ram_change_ok|done].
Qed.

Lemma ram_api_ok a m w : sys_ok w → ensures m w (calm w) → ensures (ram_api a m) w (calm w).
Proof. intros Hok Hm. unfold ram_api. destruct CONFIG_NFC_STORE_RAM; [done|by eexists _, w]. Qed.

(** Registering a callback keeps the store usable. *)
Lemma register_ok (upd : store_fn → store → store) fn w :
  sys_ok w →
  (∀ f s, store_ok s → s_state s = NFC_STORE_STATE_INITIALIZED →
     store_ok (upd f s) ∧ s_state (upd f s) = s_state s) →
  ensures (register upd fn) w (calm w).
Proof.
  intros Hok Hupd. unfold register, ensures. wred. case_bool; [by eexists _, w|]. bool_prop. wred.
  eexists _, _. split; [done|]. destruct (sys_parts w Hok) as (_ & Hs & _).
  set (f := match fn with Some f => f | None => _ end).
  destruct (Hupd f (w_store w)) as [? Hss]; [done..|].
  split; [|done]. apply store_change_ok; [done..|]. left. congruence.
Qed.

(** ** Life cycle *)

Lemma listeners_ndef : listeners = [SVC_NDEF].
Proof.
  unfold listeners. by rewrite build_ndef, build_desfire, build_emv, build_aliro.
Qed.

Lemma profiles_ndef : listen_profiles = [(NDEF_AID, SVC_NDEF)].
Proof.
  unfold listen_profiles. by rewrite build_ndef, build_desfire, build_emv, build_aliro.
Qed.

(** The part of the invariant that survives every step of the life cycle. *)
Record parts (w : world E) : Prop := {
  pt_inv : inv w;
  pt_router : router_ok (w_router w);
}.

Lemma parts_env e w : parts w → parts (set_env e w).
Proof. by intros [[? []] ?]. Qed.

Lemma parts_ndef l w : parts w → nl_ok l → parts (set_ndef l w).
Proof. by intros [[? []] ?] ?. Qed.

Lemma parts_store x w : parts w → store_ok x → hooked x → parts (set_store x w).
Proof. by intros [[? []] ?] ? ?. Qed.

Lemma parts_router r w : parts w → router_ok r → parts (set_router r w).
Proof. by intros [[? []] ?] ?. Qed.

Lemma parts_asm a w : parts w → parts (set_asm a w).
Proof. by intros [[? []] ?]. Qed.

Lemma router_down_routes r : routes (aid_router_shutdown r).2 = [].
Proof. done. Qed.

Lemma listener_shutdown_ok l : nl_ok l → nl_ok (ndef_listener_shutdown l).2.
Proof. intros []. unfold ndef_listener_shutdown. case_bool; by constructor. Qed.

(** The end of every way down. *)
Lemma bring_down w k :
  parts w → len (k_active_tag k) = CONFIG_NFC_STORE_MAX_TAG_LEN →
  k_state k = NFC_STACK_STATE_UNINITIALIZED →
  sys_ok (set_stack k (set_asm (apdu_assembler_shutdown (w_asm w)).2
           (set_router (aid_router_shutdown (w_router w)).2 w))).
Proof.
  intros [[? []] ?] Hl Hk. constructor; [split; [done|by constructor]| |].
  - by apply aid_router_shutdown_ok.
  - cbn. by rewrite Hk.
Qed.

Lemma shutdown_listeners_run w :
  stack_shutdown_protocol_listeners other w =
  Some (tt, set_ndef (ndef_listener_shutdown (w_ndef w)).2 w).
Proof.
  unfold stack_shutdown_protocol_listeners. rewrite listeners_ndef. cbn [rev app shutdown_all].
  unfold listener_shutdown, on_ndef. wred.
  by destruct (ndef_listener_shutdown (w_ndef w)).
Qed.

Definition failed (r : Z) (w : world E) : Prop :=
  r = - EIO ∧ sys_ok w ∧ k_state (w_stack w) = NFC_STACK_STATE_UNINITIALIZED.

Lemma fail_router_ok ret w : parts w → ensures (fail_router ret) w failed.
Proof.
  intros Hw. eexists _, _. split; [done|]. split; [done|]. split; [|done].
  apply (bring_down w); [done|apply Hw|done].
Qed.

Lemma fail_store_ok ret w : parts w → ensures (fail_store ret) w failed.
Proof.
  intros Hw. apply (fail_router_ok ret (set_store _ w)), parts_store; [done| |by right].
  apply store_shutdown_ok, Hw.
Qed.

Lemma fail_transport_ok ret w : parts w → ensures (fail_transport ret) w failed.
Proof. intros Hw. by apply (fail_store_ok ret (set_env _ w)), parts_env. Qed.

Lemma fail_listeners_ok ret w : parts w → ensures (fail_listeners other ret) w failed.
Proof.
  intros Hw. unfold fail_listeners, ensures.
  rewrite (run_call _ _ _ _ _ (shutdown_listeners_run w)).
  apply fail_transport_ok, parts_ndef; [done|]. apply listener_shutdown_ok, Hw.
Qed.

Lemma shutdown_ok w : sys_ok w →
  ensures (nfc_stack_shutdown other) w (λ r w', r = 0 ∧ sys_ok w' ∧
    k_state (w_stack w') = NFC_STACK_STATE_UNINITIALIZED).
Proof.
  intros Hok. unfold nfc_stack_shutdown, ensures. wred. case_bool; [bool_prop; by eexists _, w|].
  assert (∃ w1, (if bool_decide (k_state (w_stack w) = NFC_STACK_STATE_STARTED)
    then nfc_stack_stop ≫= λ _, mret tt else mret tt) w = Some (tt, w1) ∧ sys_ok w1)
    as (w1 & Hw1 & [Hinv Hr _]).
  { case_bool; [|by exists w]. destruct (stop_spec w Hok) as (r & w1 & Hrun & [Hok1 _]).
    exists w1. by rewrite (run_call _ _ _ _ _ Hrun). }
  rewrite (run_call _ _ _ _ _ Hw1), run_env_call.
  rewrite (run_call _ _ _ _ _ (shutdown_listeners_run _)).
  assert (parts w1) as Hp1 by done.
  eexists _, _. split; [done|]. split; [done|]. split; [|done].
  eapply (bring_down (set_store _ (set_ndef _ (set_env _ w1)))); [|apply Hinv|done].
  apply parts_store; [|apply store_shutdown_ok, Hinv|by right].
  by apply parts_ndef, listener_shutdown_ok, Hinv; apply parts_env.
Qed.

(** The store after its initialization and that of the RAM backend. *)
Lemma init_store_ok w : parts w →
  ∃ ret w', nfc_store_init None w = Some (ret, w') ∧ (ret = 0 ∨ ret = - EALREADY) ∧ parts w' ∧
    s_state (w_store w') = NFC_STORE_STATE_INITIALIZED ∧ w' = set_store (w_store w') w.
Proof.
  intros Hw. destruct (decide (s_state (w_store w) = NFC_STORE_STATE_INITIALIZED)) as [Hs|Hs].
  - exists (- EALREADY), w. unfold nfc_store_init. wred. rewrite bool_decide_true by done.
    split; [done|]. split; [by right|]. split; [done|]. split; [done|]. by destruct w.
  - rewrite store_init_spec by done. eexists _, _. split; [done|]. split; [by left|].
    split; [|done]. apply parts_store; [done|apply store_initialized_ok, Hw|by left].
Qed.

Lemma init_ram_ok w : parts w → s_state (w_store w) = NFC_STORE_STATE_INITIALIZED →
  ∃ w', (if CONFIG_NFC_STORE_RAM then nfc_store_ram_init else mret 0) w = Some (0, w') ∧ parts w' ∧
    s_state (w_store w') = NFC_STORE_STATE_INITIALIZED ∧ w_asm w' = w_asm w ∧
    w_router w' = w_router w ∧ w_stack w' = w_stack w ∧ w_ndef w' = w_ndef w.
Proof.
  intros Hw Hs. destruct CONFIG_NFC_STORE_RAM; [|by exists w].
  destruct (ram_ready (w_ram w)) eqn:Hr.
  { exists w. unfold nfc_store_ram_init. wred. by rewrite Hr. }
  rewrite ram_init_spec by done. eexists. split; [done|].
  destruct Hw as [[? []] ?]. split; [constructor; [split; [done|constructor]|done]|]; cbn.
  - by apply ram_registered_ok.
  - left. unfold ram_registered. by rewrite bool_decide_true.
  - by apply ram_ready_ok.
  - done.
  - split; [|done]. unfold ram_registered. by rewrite bool_decide_true.
Qed.

Lemma init_listeners_ok w : parts w →
  ∃ l', stack_init_protocol_listeners other w = Some (0, set_ndef l' w) ∧ nl_ok l' ∧
    nl_initialized l' = true.
Proof.
  intros [[Hl _] _]. unfold stack_init_protocol_listeners. rewrite listeners_ndef.
  cbn [init_all]. unfold listener_init, on_ndef. wred.
  destruct (init_ok (w_ndef w) None None Hl ltac:(done)) as (ret & l' & -> & Hl' & Hi & Hr). wred.
  exists l'. destruct Hr as [-> | ->]; done.
Qed.

Lemma register_profiles_ok w :
  parts w → r_state (w_router w) = AID_ROUTER_STATE_INITIALIZED → r_table_count (w_router w) = 0 →
  ∃ r', stack_register_listen_profiles w = Some (0, set_router r' w) ∧ router_ok r' ∧
    r_state r' = AID_ROUTER_STATE_INITIALIZED ∧ routes r' = [(NDEF_AID, Some SVC_NDEF)].
Proof.
  intros [_ Hr] Hs Hc. unfold stack_register_listen_profiles. rewrite profiles_ndef.
  cbn [register_all]. unfold on_router. wred. pose proof max_aids_range.
  destruct (aid_router_register_spec (w_router w) NDEF_AID (len NDEF_AID) SVC_NDEF Hr Hs)
    as (r' & -> & Hr' & Hro & _ & Hs' & _); [done|lia|lia|]. wred. cbn [Z.eqb negb].
  exists r'. split; [done|]. split; [done|]. split; [congruence|]. rewrite Hro.
  unfold routes, live. by rewrite Hc.
Qed.

Lemma stack_init_ok cfg w : sys_ok w →
  ensures (nfc_stack_init other cfg) w (λ r w', step_ok (EvInit cfg) w r w' ∧
    (r = 0 → k_state (w_stack w') = NFC_STACK_STATE_INITIALIZED)).
Proof.
  intros Hok. unfold nfc_stack_init, ensures, step_ok. wred.
  case_bool; bool_prop; [eexists _, w; split; [done|]; split; [|done]; split; [done|];
    by destruct (k_state (w_stack w))|].
  pose proof (sy_inv _ Hok) as [Hl [Hs Hm Ht]]. pose proof (sy_router _ Hok) as Hr.
  pose proof (sy_state _ Hok) as Hd. rewrite E0 in Hd. destruct Hd as [Ha Hrs Hro].
  pose proof max_tag_len_range. rewrite st_ok by lia. wred.
  set (w0 := set_stack _ w).
  assert (parts w0) as Hp0.
  { constructor; [split; [done|constructor; [done..|cbn; by rewrite len_insert]]|done]. }
  rewrite E0. cbn [next_state].
  assert (∀ m w', ensures m w' failed → ∃ a w'', m w' = Some (a, w'') ∧
    (sys_ok w'' ∧ (k_state (w_stack w'') = NFC_STACK_STATE_UNINITIALIZED ∨
                   k_state (w_stack w'') = NFC_STACK_STATE_INITIALIZED)) ∧
    (a = 0 → k_state (w_stack w'') = NFC_STACK_STATE_INITIALIZED)) as Hfail.
  { intros m w' (a & w'' & Hrun & -> & Hok' & Hk'). exists (- EIO), w''.
    split; [done|]. split; [|done]. split; [done|by left]. }
  (* the assembler and the router *)
  unfold on_asm at 1. unfold apdu_assembler_init.
  erewrite run_call by done. cbn [w_asm set_stack w0]. rewrite bool_decide_false by (by rewrite Ha).
  cbn [fst snd Z.eqb negb]. set (w1 := set_asm _ w0).
  unfold on_router at 1. unfold aid_router_init. wred. cbn [w_router set_asm w1 set_stack w0].
  rewrite bool_decide_false by (by rewrite Hrs). wred. cbn [fst snd Z.eqb negb].
  set (r2 := {| r_state := _ |}). set (w2 := set_router r2 _).
  assert (router_ok r2) as Hr2.
  { pose proof (aid_router_init_ok (w_router w) Hr) as Hi. unfold aid_router_init in Hi.
    rewrite bool_decide_false in Hi by (by rewrite Hrs). exact Hi. }
  assert (parts w2) as Hp2 by (apply parts_router; [apply parts_asm|]; done).
  (* the store and its backend *)
  destruct (init_store_ok w2 Hp2) as (ret & w3 & Hrun3 & Hret & Hp3 & Hs3 & Hw3).
  rewrite (run_call _ _ _ _ _ Hrun3).
  assert (negb (ret =? 0) && negb (ret =? - EALREADY) = false) as -> by by destruct Hret as [-> | ->].
  destruct (init_ram_ok w3 Hp3 Hs3) as (w4 & Hrun4 & Hp4 & Hs4 & Ha4 & Hr4 & Hk4 & _).
  rewrite (run_call _ _ _ _ _ Hrun4). cbn [Z.eqb negb].
  (* the transport and the listeners *)
  rewrite run_env_call. case_bool; [apply Hfail, fail_store_ok, parts_env, Hp4|].
  set (w5 := set_env _ w4). assert (parts w5) as Hp5 by by apply parts_env.
  destruct (init_listeners_ok w5 Hp5) as (l' & Hrun6 & Hl' & Hi').
  rewrite (run_call _ _ _ _ _ Hrun6). cbn [Z.eqb negb].
  set (w6 := set_ndef l' w5). assert (parts w6) as Hp6 by by apply parts_ndef.
  rewrite run_env_call. case_bool; [apply Hfail, fail_listeners_ok, parts_env, Hp6|].
  set (w7 := set_env _ w6). assert (parts w7) as Hp7 by by apply parts_env.
  assert (w_router w7 = r2) as Hr7 by (cbn; rewrite Hr4, Hw3; done).
  assert (w_asm w7 = w_asm w1) as Ha7 by (cbn; rewrite Ha4, Hw3; done).
  assert (w_stack w7 = w_stack w0) as Hk7 by (cbn; rewrite Hk4, Hw3; done).
  destruct (register_profiles_ok w7 Hp7) as (r' & Hrun8 & Hr8 & Hs8 & Hro8); [by rewrite Hr7..|].
  rewrite (run_call _ _ _ _ _ Hrun8). cbn [Z.eqb negb]. eexists _, _. split; [done|].
  assert (k_state (w_stack (set_router r' w7)) = NFC_STACK_STATE_INITIALIZED) as Hkf
    by (change (w_stack (set_router r' w7)) with (w_stack w7); by rewrite Hk7).
  split; [split; [|by right]|done].
  destruct Hp7 as [Hinv7 _]. constructor; [by destruct Hinv7 as [? []]|done|].
  change (k_state (w_stack (set_router r' w7))) with (k_state (w_stack w7)). rewrite Hk7.
  constructor; try done. change (w_asm (set_router r' w7)) with (w_asm w7). by rewrite Ha7.
Qed.

(** ** Events of the transport *)

Lemma sys_listening w : sys_ok w → k_state (w_stack w) ≠ NFC_STACK_STATE_UNINITIALIZED →
  up w ∧ listening (eq SVC_NDEF) (inv_from w) w.
Proof.
  intros Hok Hk. pose proof (sys_routed w Hok). destruct Hok as [Hi Hr Hst].
  assert (up w) as Hup by by destruct (k_state (w_stack w)).
  split; [done|]. destruct Hup. by constructor.
Qed.

Lemma listening_ok w w' : sys_ok w → k_state (w_stack w) ≠ NFC_STACK_STATE_UNINITIALIZED →
  listening (eq SVC_NDEF) (inv_from w) w' → routes (w_router w') = routes (w_router w) →
  sys_ok w'.
Proof.
  intros Hok Hk [[Hi [Hst Hc Hm Hn]] Hr _ Hrs Has] Hro.
  destruct (sys_listening w Hok Hk) as [[] _].
  constructor; [done|done|]. assert (up w') by (constructor; congruence).
  rewrite Hst. by destruct (k_state (w_stack w)).
Qed.

Lemma down_unrouted w : sys_ok w → k_state (w_stack w) = NFC_STACK_STATE_UNINITIALIZED →
  down w ∧ r_active_svc (w_router w) = None.
Proof.
  intros [_ Hr Hst] Hk. rewrite Hk in Hst. split; [done|].
  destruct (r_active_svc (w_router w)) as [s|] eqn:Ha; [|done].
  destruct (ro_active _ Hr s Ha) as [k Hin]. rewrite (down_routes _ Hst) in Hin.
  by apply not_elem_of_nil in Hin.
Qed.

Lemma asm_stats_ok f w : sys_ok w → sys_ok (set_asm (a_inc f (w_asm w)) w).
Proof.
  intros [[? []] ? Hst]. constructor; [split; [done|by constructor]|done|].
  cbn. destruct (k_state (w_stack w)); destruct Hst; by constructor.
Qed.

Lemma router_stats_ok f w : sys_ok w →
  sys_ok (set_router (r_inc f (r_with_active None (w_router w))) w).
Proof.
  intros [[? []] Hr Hst]. constructor; [split; [done|by constructor]| |].
  - cbn. apply r_with_stats_ok. by apply r_with_active_ok.
  - cbn. destruct (k_state (w_stack w)); destruct Hst; by constructor.
Qed.

Lemma apdu_event_ok b w : sys_ok w → bytes (nb_data b) →
  ensures (as_int (nfc_stack_on_apdu other (Some b))) w (calm w).
Proof.
  intros Hok Hb. unfold as_int, ensures, nfc_stack_on_apdu.
  destruct (decide (k_state (w_stack w) = NFC_STACK_STATE_UNINITIALIZED)) as [Hk|Hk].
  - destruct (down_unrouted w Hok Hk) as [[Ha _ _] _].
    erewrite run_call; [eexists _, _; split; [done|]; split; [by apply env_ok|done]|].
    unfold apdu_assembler_on_apdu_handler. wred. rewrite bool_decide_false by congruence. done.
  - destruct (sys_listening w Hok Hk) as [_ Hls].
    destruct (on_apdu_handler_spec _ (vtab other) _ b w Hls Hb) as (w' & Hrun & Hls' & _ & _ & Hro & _).
    rewrite (run_call _ _ _ _ _ Hrun). eexists _, _. split; [done|].
    split; [by eapply listening_ok|]. destruct Hls' as [[_ []] _ _ _ _]. congruence.
Qed.

Lemma field_off_event_ok w : sys_ok w →
  ensures (as_int (nfc_stack_on_field_off other)) w (calm w).
Proof.
  intros Hok. unfold as_int, ensures, nfc_stack_on_field_off, apdu_assembler_on_field_off_handler.
  destruct (decide (k_state (w_stack w) = NFC_STACK_STATE_UNINITIALIZED)) as [Hk|Hk].
  - destruct (down_unrouted w Hok Hk) as [_ Ha]. unfold aid_router_field_off. wred. rewrite Ha. wred.
    eexists _, _. split; [done|]. split; [|done].
    apply (asm_stats_ok _ (set_router _ w)). by apply router_stats_ok.
  - destruct (sys_listening w Hok Hk) as [_ Hls].
    destruct (field_off_spec _ (vtab other) (inv_from w) w) as
      (w1 & Hrun & Hi & Hr & Hrs & Hro & _ & Ha & _ & _); [apply Hls..|].
    rewrite run_bind, (run_call _ _ _ _ _ Hrun). wred. eexists _, _. split; [done|].
    split; [|cbn; destruct Hi as [_ []]; congruence]. apply asm_stats_ok. eapply listening_ok; [done|done| |done].
    constructor; try done; [|rewrite Hrs; apply Hls|rewrite Ha; apply Hls].
    unfold routed. rewrite Hro. apply Hls.
Qed.

(** Every event returns, keeps the invariant and follows the state machine. *)
Lemma event_step ev w : sys_ok w → event_ok ev → ensures (run_event ev) w (step_ok ev w).
Proof.
  intros Hok Hev. destruct ev; cbn [run_event]; [| by apply start_ok | by apply stop_spec | | ..].
  3-20: apply (ensures_weaken _ _ (calm w)); [|intros r w' [? Hk]; split; [done|]; exact Hk].
  - eapply ensures_weaken; [by apply stack_init_ok|by intros a w' []].
  - eapply ensures_weaken; [by apply shutdown_ok|by intros a w' (_ & ? & ?)].
  - by apply load_ok.
  - by apply save_ok.
  - by apply store_init_event_ok.
  - by apply store_shutdown_event_ok.
  - by apply store_save_ok.
  - by apply store_load_ok.
  - by apply dirty_ok.
  - by apply peek_ok.
  - by apply import_ok.
  - by apply ram_api_ok, ram_init_event_ok.
  - by apply ram_api_ok, ram_reset_event_ok.
  - by apply ram_api_ok, ram_import_event_ok.
  - apply register_ok; [done|]. intros f s [? ? ? ? Hi] Hs. destruct (Hi Hs) as (_ & ? & ? & ?).
    split; [by constructor|done].
  - apply register_ok; [done|]. intros f s [? ? ? ? Hi] Hs. destruct (Hi Hs) as (? & _ & ? & ?).
    split; [by constructor|done].
  - apply register_ok; [done|]. intros f s [? ? ? ? Hi] Hs. destruct (Hi Hs) as (? & ? & _ & ?).
    split; [by constructor|done].
  - eexists _, _. split; [done|]. split; [by apply asm_stats_ok|done].
  - by apply field_off_event_ok.
  - by apply apdu_event_ok.
Qed.

Lemma reachable_ok w : reachable w → sys_ok w.
Proof.
  induction 1 as [e|w e _ IH|w ev ret w' _ IH Hev Hrun].
  - apply boot_ok.
  - by apply env_ok.
  - destruct (event_step ev w IH Hev) as (r' & w'' & Hrun' & Hok & _). rewrite Hrun in Hrun'.
    by injection Hrun' as _ <-.
Qed.

(** ** The emulated tag *)

Lemma view_parse (w : world E) b a : view_of w b = Some a →
  apdu_parse (Some b) (len b) (a_extended (w_asm w)) (Some apdu_zero) = Some (APDU_PARSE_OK, Some a).
Proof.
  unfold view_of. destruct (apdu_parse _ _ _ _) as [[res [a'|]]|]; [|by destruct res|done].
  destruct res; by intros [= ->].
Qed.

(** A command for the selected NDEF service. *)
Lemma ndef_command b a w :
  sys_ok w → k_state (w_stack w) ≠ NFC_STACK_STATE_UNINITIALIZED → bytes (nb_data b) →
  r_active_svc (w_router w) = Some SVC_NDEF → view_of w (nb_data b) = Some a →
  apdu_is_select_by_aid a = false →
  let out := tag_step (tag_of (w_ndef w)) a in
  ∃ w', nfc_stack_on_apdu other (Some b) w = Some (tt, w') ∧
    tx_of w' = tx_of w ++ [out.2] ∧ freed_of w' = freed_of w ++ [nb_id b] ∧
    tag_of (w_ndef w') = out.1 ∧ r_active_svc (w_router w') = Some SVC_NDEF.
Proof.
  intros Hok Hk Hb Hact Hv%view_parse Hns out.
  destruct (sys_listening w Hok Hk) as [Hup Hls]. destruct Hls as [[[Hl Hr] _] _ _ Hrs Has].
  destruct (parse_sound (a_extended (w_asm w)) apdu_zero (nb_data b) a Hb Hv) as (_&_&Ha&_).
  unfold nfc_stack_on_apdu, apdu_assembler_on_apdu_handler. wred.
  rewrite bool_decide_true by done. cbn [negb]. wred. rewrite Hv. wred.
  rewrite bool_decide_true by done. cbn [negb]. wred. set (w1 := set_asm _ _).
  unfold aid_router_dispatch. wred. rewrite bool_decide_true by done. cbn [negb]. rewrite Hns. wred.
  cbn [w_router set_asm w1]. rewrite Hact.
  destruct (on_apdu_spec rest_ok frame (dirty other) a w1) as (w2 & Hrun & Ht & Hok2 & Hf & _);
    [by destruct Hr|done..|].
  cbn [on_apdu vtab vtab_with s_ndef_listener_service].
  fold (dirty other). rewrite run_bind, (run_call _ _ _ _ _ Hrun). wred.
  eexists. split; [done|]. change (tag_of (w_ndef w1)) with (tag_of (w_ndef w)) in *. fold out in Ht |- *.
  destruct Hf as [F1 F2 _ _ _ F6 F7].
  split; [|split; [|split; [exact Ht|cbn; by rewrite F1]]]; unfold tx_of, freed_of; cbn.
  - rewrite tx_unref, tx_send. f_equal. exact F6.
  - rewrite freed_unref, freed_send. f_equal. exact F7.
Qed.

(** ** Cards of the emulated tag *)

Definition card_svcs : list (option svc_ptr) := nfc_stack_listen_services (Some []) svcs_size.

Lemma card_svcs_ndef : card_svcs = [Some SVC_NDEF].
Proof.
  unfold card_svcs, nfc_stack_listen_services.
  by rewrite build_ndef, build_desfire, build_emv, build_aliro.
Qed.

Lemma stack_card_success op count tag (w w' : world E) :
  stack_card op count tag w = Some (0, w') →
  ∃ name w1 k, tag = Some name ∧ idle (w_stack w) ∧
    op tag (Some card_svcs) (len card_svcs) w = Some (0, w1) ∧ w' = set_stack k w1.
Proof.
  unfold stack_card. fold card_svcs. rewrite run_gets. case_bool; [done|]. case_bool; [done|].
  destruct tag as [name|]; [|done]. case_bool; [done|]. intros (ret & w1 & Hop & Hrest)%run_inv.
  destruct (Z.eqb_spec ret 0) as [->|Hne]; [|by injection Hrest]. cbn [negb] in Hrest.
  revert Hrest. rewrite run_gets.
  destruct (strncpy _ _ _) as [t|]; [|by rewrite run_lift_None]. rewrite run_lift_Some.
  destruct (st t _ _) as [t'|]; [|by rewrite run_lift_None]. rewrite run_lift_Some.
  wred. intros [= <-]. exists name, w1, (k_inc count (k_with_tag t' (w_stack w1))).
  split; [done|]. split; [|done].
  apply andb_false_iff in E1 as [E1|E1]; bool_prop; [by left|by right].
Qed.

Lemma stack_card_run op count name (w w1 : world E) :
  sys_ok w1 → idle (w_stack w) → w_stack w1 = w_stack w →
  op (Some name) (Some card_svcs) (len card_svcs) w = Some (0, w1) →
  ∃ k, stack_card op count (Some name) w = Some (0, set_stack k w1).
Proof.
  intros Hok Hidle Hst Hop. unfold stack_card. fold card_svcs. wred.
  rewrite bool_decide_false by (destruct Hidle; congruence).
  assert (negb (bool_decide (k_state (w_stack w) = NFC_STACK_STATE_INITIALIZED)) &&
          negb (bool_decide (k_state (w_stack w) = NFC_STACK_STATE_STOPPED)) = false) as ->.
  { destruct Hidle; [rewrite bool_decide_true by done; done|].
    rewrite (bool_decide_true (_ = NFC_STACK_STATE_STOPPED)) by done. apply andb_false_r. }
  rewrite card_svcs_ndef in Hop |- *. change (len [Some SVC_NDEF] =? 0) with false. cbv iota.
  rewrite (run_call _ _ _ _ _ Hop). cbn [Z.eqb negb]. wred.
  destruct Hok as [[_ [_ _ Ht]] _ _]. pose proof max_tag_len_range.
  unfold strncpy. set (s := take _ (c_str name)).
  assert (len s <= CONFIG_NFC_STORE_MAX_TAG_LEN - 1) by (subst s; llia).
  rewrite blit_ok by llia. wred. rewrite st_ok by llia. wred. by eexists.
Qed.

(** A store with the RAM backend is initialized. *)
Lemma ram_store_init w : sys_ok w → s_save_cb (w_store w) = Some FN_RAM ∨ s_load_cb (w_store w) = Some FN_RAM →
  s_state (w_store w) = NFC_STORE_STATE_INITIALIZED.
Proof. intros [[_ [_ Hh _ _]] _ _] Hcb. destruct Hh as [|[]]; [done|]. by destruct Hcb. Qed.

Lemma sys_ready w : sys_ok w → s_state (w_store w) = NFC_STORE_STATE_INITIALIZED →
  idle (w_stack w) → ready (ndef_inv true) w.
Proof.
  intros Hok Hst Hidle. destruct (sys_parts w Hok) as ([Hl _] & Hs & Hm).
  destruct (sys_listening w Hok) as [[] _]; [destruct Hidle; congruence|].
  constructor; try done. intros _. destruct Hidle; congruence.
Qed.

(** What a successful save has stored. *)
Lemma save_entry tag w w1 :
  sys_ok w → s_state (w_store w) = NFC_STORE_STATE_INITIALIZED → idle (w_stack w) →
  nfc_store_save (vtab other) (Some tag) (Some card_svcs) (len card_svcs) w = Some (0, w1) →
  tag_ok tag ∧ ∃ b, image SVC_NDEF w = inr b ∧
    entries_of (vtab other) image w card_svcs 6 = inr [entry_of (vtab other) SVC_NDEF b].
Proof.
  intros Hok Hini Hidle Hrun. destruct (sys_ready w Hok Hini Hidle) as [HP Hs Hm Hst Hq].
  destruct (decide (tag_ok tag)) as [Ht|Ht].
  2: { revert Hrun. unfold nfc_store_save. rewrite run_quiescent by done. cbn [Z.eqb negb]. wred.
       destruct (sk_init _ Hs Hst) as (_&_&_&Hmax).
       rewrite bool_decide_true, validate_tag_spec, bool_decide_false by done. done. }
  destruct (save_spec (vtab other) (ndef_inv true) image tag card_svcs w HP Hs Hq Hst Ht)
    as (w' & _ & Hw').
  split; [done|]. rewrite Hrun in Hw'. rewrite card_svcs_ndef in *.
  assert (entries_of (vtab other) image w [Some SVC_NDEF] 6 =
    match image SVC_NDEF w with
    | inl e => if e =? - ENOTSUP then inr [] else inl (- EIO)
    | inr b => if CONFIG_NFC_STORE_BLOB_SIZE <? 6 + (4 + len b) + 2 then inl (- ENOMEM)
               else inr [entry_of (vtab other) SVC_NDEF b]
    end) as Hent by done.
  rewrite Hent in Hw' |- *. destruct (image SVC_NDEF w) as [e|b] eqn:Him.
  - assert ((e =? - ENOTSUP) = false) as He
      by (revert Him; cbn; repeat case_bool; by intros [= <-]).
    by rewrite He in Hw'.
  - exists b. split; [done|]. by case_bool.
Qed.

Lemma feed_ndef w b ret w' :
  ndef_listener_deserialize b (len b) w = Some (ret, w') → ret = 0 →
  feed_all (vtab other) [Some SVC_NDEF] [entry_of (vtab other) SVC_NDEF b] w =
  Some (0, set_store (s_inc ss_load_count (w_store w')) w').
Proof.
  intros Hrun ->. unfold feed_all. cbn [feed].
  change (nfc_store_find_service _ _ _) with (Some SVC_NDEF). cbn [mbind option_bind].
  change (deserialize (vtab other SVC_NDEF)) with (Some (ndef_listener_deserialize (E := E))).
  cbv iota beta. rewrite run_bind. cbn [en_body entry_of]. by rewrite (run_call _ _ _ _ _ Hrun).
Qed.

Lemma image_blob (w : world E) b : image SVC_NDEF w = inr b → b = ndef_blob (synced (nl_model (w_ndef w))).
Proof. cbn. repeat case_bool; by intros [= <-]. Qed.

(** Loading in an idle state goes through the store. *)
Lemma load_through tag w ret w' :
  sys_ok w → idle (w_stack w) →
  nfc_store_load (vtab other) (Some tag) (Some card_svcs) (len card_svcs) w = Some (0, w') →
  ret = 0 → ∃ k, nfc_stack_load other (Some tag) w = Some (ret, set_stack k w').
Proof.
  intros Hok Hidle Hrun ->. destruct (sys_parts w Hok) as (HP & Hs & Hm).
  destruct (load_total (vtab other) _ image (Some tag) card_svcs w HP Hs Hm) as (r & w'' & Hrun' & Hst).
  rewrite Hrun in Hrun'. injection Hrun' as <- <-.
  apply stack_card_run; [by eapply staged_ok|done|apply Hst|done].
Qed.

(** A card that was saved is restored by a load. *)
Lemma card_restored tag w w' :
  reachable w → s_save_cb (w_store w) = Some FN_RAM →
  nlen (nl_model (w_ndef w)) <= CONFIG_NFC_NDEF_MAX_SIZE →
  nfc_stack_save other (Some tag) w = Some (0, w') →
  let t := tag_of (w_ndef w) in
  let k := 2 + nlen (nl_model (w_ndef w)) in
  ∀ w2, reachable w2 → idle (w_stack w2) → s_load_cb (w_store w2) = Some FN_RAM →
    ram_map (w_ram w2) !! c_str tag = ram_map (w_ram w') !! c_str tag →
    ∃ w3, nfc_stack_load other (Some tag) w2 = Some (0, w3) ∧
      tag_of (w_ndef w3) =
        {| t_cc := if cc_zero (t_cc t) then cc_bytes (nl_writable (w_ndef w2)) else t_cc t;
           t_file := take (Z.to_nat k) (t_file t) ++ zeros (NDEF_FILE_BUF_SIZE - k);
           t_writable := nl_writable (w_ndef w2); t_sel := nl_file_sel (w_ndef w2) |}.
Proof.
  intros Hre Hcb Hn Hsave t k w2 Hre2 Hidle2 Hcb2 Hmap.
  apply reachable_ok in Hre as Hok, Hre2 as Hok2.
  destruct (stack_card_success (nfc_store_save (vtab other)) ks_save_count (Some tag) w w' Hsave) as (name & w1 & kk & [= <-] & Hidle & Hrun & ->).
  pose proof (ram_store_init w Hok (or_introl Hcb)) as Hini.
  pose proof (ram_store_init w2 Hok2 (or_intror Hcb2)) as Hini2.
  destruct (save_entry tag w w1 Hok Hini Hidle Hrun) as (Ht & b & Him & Hent).
  pose proof (sys_ready w Hok Hini Hidle) as Hrd. pose proof (sys_ready w2 Hok2 Hini2 Hidle2) as Hrd2.
  (* what was stored *)
  destruct (save_ram_spec (vtab other) _ image tag card_svcs w _ Hrd Ht Hcb Hent)
    as (w1' & ret & Hrun' & _ & _ & _ & _ & _ & _ & _ & Hres).
  rewrite Hrun in Hrun'. injection Hrun' as <- <-.
  destruct Hres as [(_ & _ & Hm)|(_ & ? & _)]; [|done].
  cbn [w_ram set_stack] in Hmap. rewrite Hm, lookup_insert_eq in Hmap.
  (* what is loaded *)
  pose proof (load_ram_spec (vtab other) _ image tag card_svcs w2 NFC_STORE_BLOB_VERSION 0 _ Hrd2
    Ht Hcb2 (or_introl eq_refl) (entries_of_ok _ _ _ w card_svcs 6 _ (rd_P _ _ Hrd) Hent) Hmap) as Hload.
  set (w2s := with_staged _ w2) in Hload. rewrite card_svcs_ndef in Hload.
  destruct (sys_listening w2 Hok2) as [Hup2 [[[Hl2 _] _] _ _ _ _]]; [destruct Hidle2; congruence|].
  apply image_blob in Him as ->. set (m := synced (nl_model (w_ndef w))) in *.
  assert (m = nd_with_file_len k (nl_model (w_ndef w))) as Hme
    by (unfold m, synced; by rewrite (proj2 (Z.leb_le _ _))).
  destruct (sys_parts w Hok) as ([Hl _] & _ & _).
  destruct (restore w2s m []) as (w3 & Hd & _ & Htag);
    [done|exact (up_ndef _ Hup2)|apply synced_ok, Hl|by rewrite Hme|by rewrite Hme|].
  rewrite app_nil_r in Hd. rewrite (feed_ndef w2s _ 0 w3 Hd eq_refl) in Hload.
  rewrite <-card_svcs_ndef in Hload.
  destruct (load_through tag w2 0 _ Hok2 Hidle2 Hload eq_refl) as [k3 Hk3].
  eexists. split; [exact Hk3|]. cbn [w_ndef set_stack set_store]. rewrite Htag, Hme. done.
Qed.

(** Selecting the NDEF application. *)
Lemma ndef_selection b a w :
  sys_ok w → k_state (w_stack w) ≠ NFC_STACK_STATE_UNINITIALIZED → bytes (nb_data b) →
  view_of w (nb_data b) = Some a → apdu_is_select_by_aid a = true →
  take (Z.to_nat (lc a)) (default [] (data a)) = NDEF_AID →
  ∃ w', nfc_stack_on_apdu other (Some b) w = Some (tt, w') ∧
    tx_of w' = tx_of w ++ [[0x90; 0x00]] ∧ freed_of w' = freed_of w ++ [nb_id b] ∧
    r_active_svc (w_router w') = Some SVC_NDEF ∧
    tag_of (w_ndef w') = tag_select NDEF_FILE_NONE (tag_of (w_ndef w)).
Proof.
  intros Hok Hk Hb Hv%view_parse Hsel Haid.
  destruct (sys_listening w Hok Hk) as [Hup Hls]. destruct Hls as [[[Hl Hr] _] Hro _ Hrs Has].
  destruct (parse_sound (a_extended (w_asm w)) apdu_zero (nb_data b) a Hb Hv) as (_&_&Ha&_).
  unfold nfc_stack_on_apdu, apdu_assembler_on_apdu_handler. wred.
  rewrite bool_decide_true by done. cbn [negb]. wred. rewrite Hv. wred.
  rewrite bool_decide_true by done. cbn [negb]. wred. set (w1 := set_asm _ _).
  unfold aid_router_dispatch. wred. rewrite bool_decide_true by done. cbn [negb]. rewrite Hsel.
  unfold dispatch_select. apply andb_true_iff in Hsel as [_ Hlc]. bool_prop.
  destruct Ha as (_&_&_&_&Hlc'&_&Ha). destruct (data a) as [d|]; [|lia]. destruct Ha as [Hd Hld].
  change (default [] (Some d)) with d in Haid.
  rewrite (proj2 (Z.eqb_neq (lc a) 0)) by lia. wred. rewrite u8_id by (unfold is_byte; lia).
  cbn [w_router set_asm w1].
  destruct (find_aid_spec (w_router w) d (lc a) Hro ltac:(lia)) as (o & Hf & Hroute & _).
  rewrite Haid, (up_routes _ Hup) in Hroute. cbn in Hroute. rewrite decide_True in Hroute by done.
  destruct o as [e|]; [|done]. injection Hroute as He. rewrite Hf. wred. rewrite He.
  assert (match r_active_svc (w_router w) with
    | Some s => if bool_decide (Some s = Some SVC_NDEF) then mret tt
                else call_opt (on_deselect (vtab other s))
    | None => mret tt end w1 = Some (tt, w1)) as Hde.
  { destruct (r_active_svc (w_router w)) as [s|] eqn:Hact; [|done].
    rewrite <-(routed_active _ _ s Hro (sys_routed w Hok) Hact). by rewrite bool_decide_true. }
  rewrite (run_call _ _ _ _ _ Hde). wred. set (w2 := set_router _ w1).
  set (w3 := set_ndef (nl_with_sel NDEF_FILE_NONE (w_ndef w2)) w2).
  destruct (send_sw_spec NFC_SW_OK w3) as (buf & Hbuf & Hrun);
    [by apply nl_with_sel_ok|by unfold NFC_SW_OK|].
  change (on_select (vtab other SVC_NDEF)) with (Some (ndef_listener_on_select (E := E))).
  cbv iota beta. rewrite (run_call (ndef_listener_on_select d (lc a)) _ w2 _ _ Hrun). wred.
  eexists. split; [done|]. unfold tx_of, freed_of. cbn.
  split; [rewrite tx_unref, tx_send; done|]. split; [rewrite freed_unref, freed_send; done|].
  done.
Qed.

(** Every call returns and leads to a reachable state. *)
Lemma event_reaches w ev : reachable w → event_ok ev →
  ∃ ret w', run_event ev w = Some (ret, w') ∧ reachable w'.
Proof.
  intros Hre Hev. destruct (event_step ev w (reachable_ok w Hre) Hev) as (ret & w' & Hrun & _).
  exists ret, w'. split; [done|]. by eapply reach_event.
Qed.

Lemma event_state w ev ret w' : reachable w → event_ok ev → run_event ev w = Some (ret, w') →
  next_state ev (k_state (w_stack w)) (k_state (w_stack w')).
Proof.
  intros Hre Hev Hrun. apply reachable_ok in Hre as Hok.
  destruct (event_step ev w Hok Hev) as (r & w1 & Hrun' & _ & Hn).
  rewrite Hrun in Hrun'. by injection Hrun' as _ <-.
Qed.
End Reach.

(** ** Properties

    Each is about the build whose only emulated protocol is the NDEF tag: the class [NdefBuild] among
    its arguments. *)

Section Properties.
Context `{KconfigRanges} {E : Type} `{Trace E}.

(** C1: In the build whose only emulated protocol is the NDEF tag ([NdefBuild]: DESFire, EMV and
    Aliro are off; the listeners of the first two can leave their arrays, see the findings), the stack and the store are safe in every reachable
    state: starting from boot, under any sequence of the calls and transport events of [event]
    and of changes of the environment, the invariant of all modules holds, no call leaves the bounds of
    its objects or fails to return, and the result is again a reachable state. The calls are those of
    [nfc_stack] (init, start, stop, shutdown, load, save), of [nfc_store] (init, shutdown, save,
    load, on_dirty, peek_entry_meta, import_blob and the three registrations) and of the RAM
    backend (init, reset, import), with any arguments, NULL included (but for the list of services of a save or load, which is any
    list); the events are field on and off and an APDU with any
    bytes. Conditions: a buffer or list is passed with its own size, [nfc_store_init] gets the
    default limit on names (every caller in the program passes NULL), and a load callback of
    the application writes at most the size it is given ([AppLoad]). *)
Theorem system_safe `{!NdefBuild} `{Crc16} `{!AppLoad} (other : svc_ptr → listener_ops (world E)) w :
  reachable other w → sys_ok w ∧
  ∀ ev, event_ok ev → ∃ ret w', run_event other ev w = Some (ret, w') ∧ reachable other w'.
Proof.
  intros Hre. split; [by eapply reachable_ok|]. intros ev Hev. by apply event_reaches.
Qed.

(** C11: In the build whose only emulated protocol is the NDEF tag ([NdefBuild]), the life cycle of
    the stack follows its state machine: in every reachable state the state changes only by the
    four calls that are meant to change it, and only along the documented transitions; loading,
    saving, importing, registering, initializing or shutting down the store, the functions of the
    RAM backend and anything the reader does leave it alone. *)
Theorem stack_state_machine `{!NdefBuild} `{Crc16} `{!AppLoad}
    (other : svc_ptr → listener_ops (world E)) w ev ret w' :
  reachable other w → event_ok ev → run_event other ev w = Some (ret, w') →
  next_state ev (k_state (w_stack w)) (k_state (w_stack w')).
Proof. apply event_state. Qed.

(** C2: End to end, in the build whose only emulated protocol is the NDEF tag ([NdefBuild]), the
    device is a Type 4 Tag: in every reachable state of an initialized
    stack in which the NDEF application is selected, an inbound command (other than a SELECT by
    AID) is answered by exactly the response the tag specification gives for the current tag,
    the tag becomes the one it prescribes, the application stays selected and the buffer is
    released once. *)
Theorem emulated_tag `{!NdefBuild} `{Crc16} `{!AppLoad} (other : svc_ptr → listener_ops (world E)) b a w :
  reachable other w → k_state (w_stack w) ≠ NFC_STACK_STATE_UNINITIALIZED → bytes (nb_data b) →
  r_active_svc (w_router w) = Some SVC_NDEF → view_of w (nb_data b) = Some a →
  apdu_is_select_by_aid a = false →
  let out := tag_step (tag_of (w_ndef w)) a in
  ∃ w', nfc_stack_on_apdu other (Some b) w = Some (tt, w') ∧
    tx_of w' = tx_of w ++ [out.2] ∧ freed_of w' = freed_of w ++ [nb_id b] ∧
    tag_of (w_ndef w') = out.1 ∧ r_active_svc (w_router w') = Some SVC_NDEF.
Proof. intros Hre%reachable_ok. by apply ndef_command. Qed.

(** C10: In the build whose only emulated protocol is the NDEF tag ([NdefBuild]) and with the RAM
    backend registered, a saved tag comes back: if [nfc_stack_save] succeeds in a reachable state while the tag holds a
    message that fits, then [nfc_stack_load] of that name succeeds in every reachable state that
    is idle (initialized or stopped), still has the RAM backend registered and
    still has the card, and restores the capability container, the NLEN field and the message, byte
    for byte, with the rest of the file cleared. *)
Theorem card_roundtrip `{!NdefBuild} `{Crc16} `{!AppLoad}
    (other : svc_ptr → listener_ops (world E)) tag w w' :
  reachable other w → s_save_cb (w_store w) = Some FN_RAM →
  nlen (nl_model (w_ndef w)) <= CONFIG_NFC_NDEF_MAX_SIZE →
  nfc_stack_save other (Some tag) w = Some (0, w') →
  let t := tag_of (w_ndef w) in
  let k := 2 + nlen (nl_model (w_ndef w)) in
  ∀ w2, reachable other w2 → idle (w_stack w2) → s_load_cb (w_store w2) = Some FN_RAM →
    ram_map (w_ram w2) !! c_str tag = ram_map (w_ram w') !! c_str tag →
    ∃ w3, nfc_stack_load other (Some tag) w2 = Some (0, w3) ∧
      tag_of (w_ndef w3) =
        {| t_cc := if cc_zero (t_cc t) then cc_bytes (nl_writable (w_ndef w2)) else t_cc t;
           t_file := take (Z.to_nat k) (t_file t) ++ zeros (NDEF_FILE_BUF_SIZE - k);
           t_writable := nl_writable (w_ndef w2); t_sel := nl_file_sel (w_ndef w2) |}.
Proof. apply card_restored. Qed.

(** In every reachable state of an initialized stack of this build, a SELECT of the NDEF AID is answered
    9000 and selects the NDEF application with no file selected; nothing else of the tag
    changes. *)
Theorem select_ndef_application `{!NdefBuild} `{Crc16} `{!AppLoad}
    (other : svc_ptr → listener_ops (world E)) b a w :
  reachable other w → k_state (w_stack w) ≠ NFC_STACK_STATE_UNINITIALIZED → bytes (nb_data b) →
  view_of w (nb_data b) = Some a → apdu_is_select_by_aid a = true →
  take (Z.to_nat (lc a)) (default [] (data a)) = NDEF_AID →
  ∃ w', nfc_stack_on_apdu other (Some b) w = Some (tt, w') ∧
    tx_of w' = tx_of w ++ [[0x90; 0x00]] ∧ freed_of w' = freed_of w ++ [nb_id b] ∧
    r_active_svc (w_router w') = Some SVC_NDEF ∧
    tag_of (w_ndef w') = tag_select NDEF_FILE_NONE (tag_of (w_ndef w)).
Proof. intros Hre%reachable_ok. by apply ndef_selection. Qed.
End Properties.
