(* ===== verification/Session.v ===== *)
(** * The reader's session with a card ([src/nfc/reader/nfc_reader_engine.c])

    The pollers reach the card through [nfc_reader_session_transceive].  The card is a parameter:
    [tag_transceive] stands for [nfc_transport_tag_transceive], which sends a command and returns an
    error or the bytes received; [C] is the state of the card. *)

From stdpp Require Import base list numbers option.
From S2P Require Import Prelude Kconfig Transport.

(** [nfc_reader_session_t] *)
Record session := { ses_active : bool; ses_tag : nfc_transport_tag_info_t }.

(** The sessions without and with a card whose controller reported nothing about it. *)
Definition session_zero : session := {| ses_active := false; ses_tag := tag_info_zero |}.
Definition active_session : session := {| ses_active := true; ses_tag := tag_info_zero |}.

Section Session.
Context {C : Type} (tag_transceive : list Z → M C (Z * list Z)).

(** [nfc_reader_session_transceive] ([src/nfc/reader/nfc_reader_engine.c]). *)
Definition nfc_reader_session_transceive (s : option session) (tx : list Z) : M C (Z * list Z) :=
  match s with
  | None => mret (- EINVAL, [])
  | Some s => if negb (ses_active s) then mret (- ENODEV, []) else tag_transceive tx
  end.

(** What the transport promises while [R] holds of the card: an exchange returns, with at most a
    response buffer of bytes, and [R] holds again. *)
Class CardWhile (R : C → Prop) : Prop := {
  card_while tx c : R c → bytes tx → ensures (tag_transceive tx) c (λ '(ret, rx) c',
    R c' ∧ bytes rx ∧ len rx <= NFC_TRANSPORT_MAX_RESPONSE_LEN);
}.

Lemma session_total (R : C → Prop) `{!CardWhile R} s tx c : R c → bytes tx →
  ensures (nfc_reader_session_transceive s tx) c (λ '(ret, rx) c', R c' ∧ bytes rx ∧ len rx <= NFC_TRANSPORT_MAX_RESPONSE_LEN).
Proof.
  intros Hc Hb. unfold nfc_reader_session_transceive.
  destruct s as [s|]; [destruct (ses_active s); cbn [negb]; [by apply card_while|]|];
    apply ensures_ret; (split; [done|]); (split; [by apply Forall_nil_2|by vm_compute]).
Qed.

Lemma session_active s tx c r : ses_active s = true → tag_transceive tx c = Some r → nfc_reader_session_transceive (Some s) tx c = Some r.
Proof. intros Hs Hr. unfold nfc_reader_session_transceive. by rewrite Hs. Qed.
End Session.
