(* ===== verification/NdefPoller.v ===== *)
(** * NDEF poller ([src/nfc/protocols/ndef/ndef_poller.c])

    Reading a Type 4 Tag in the field.  The card is a parameter: [tag_transceive] stands for
    [nfc_transport_tag_transceive], which sends a command and returns an error or the bytes
    received; [C] is the state of the card. *)

From stdpp Require Import base list numbers option.
From S2P Require Import Prelude Kconfig Apdu Ndef World Stack NdefListener Router Session.

Definition SELECT_APP_V2 : list Z :=
  [0x00; 0xA4; 0x04; 0x00; 0x07; 0xD2; 0x76; 0x00; 0x00; 0x85; 0x01; 0x01; 0x00].
Definition SELECT_APP_V1 : list Z :=
  [0x00; 0xA4; 0x04; 0x00; 0x07; 0xD2; 0x76; 0x00; 0x00; 0x85; 0x01; 0x00].
Definition SELECT_CC : list Z := [0x00; 0xA4; 0x00; 0x0C; 0x02; 0xE1; 0x03].
Definition READ_CC : list Z := [0x00; 0xB0; 0x00; 0x00; 0x0F].
Definition NDEF_CC_OFF_MLE : Z := 3.
Definition NDEF_CC_OFF_FILE_ID : Z := 9.
Definition NDEF_CC_TLV_T_NDEF : Z := 0x04.

Definition ndef_poller_session_valid (s : option session) : Z :=
  match s with
  | None => - EINVAL
  | Some s => if negb (ses_active s) then - EINVAL else 0
  end.

(** [rx] holds the [rx_len] bytes received. *)
Definition ndef_poller_sw_ok (rx : list Z) : option bool :=
  if len rx <? 2 then Some false else
  a ← ld rx (len rx - 2); b ← ld rx (len rx - 1); Some ((a =? 0x90) && (b =? 0x00)).

Definition ndef_poller_sw_not_found (rx : list Z) : option bool :=
  if len rx <? 2 then Some false else
  a ← ld rx (len rx - 2); b ← ld rx (len rx - 1); Some ((a =? 0x6A) && (b =? 0x82)).

Definition ndef_poller_cc_mle (c : list Z) : option Z :=
  a ← ld c NDEF_CC_OFF_MLE; b ← ld c (NDEF_CC_OFF_MLE + 1);
  let mle := be16 a b in Some (if mle <? 2 then 2 else mle).

Definition ndef_poller_read_chunk_le (remaining tag_mle : Z) : Z :=
  let mle_cap := u16 (tag_mle - 1) in
  let chunk := remaining in
  let chunk := if mle_cap <? chunk then mle_cap else chunk in
  let transport_cap := NFC_TRANSPORT_MAX_RESPONSE_LEN - 2 in
  if transport_cap <? chunk then transport_cap else chunk.

Section Poller.
Context `{Kconfig} {C : Type} (tag_transceive : list Z → M C (Z * list Z)).

Definition ndef_poller_transceive (s : option session) (tx : list Z) : M C (Z * list Z) :=
  '(ret, rx) ← nfc_reader_session_transceive tag_transceive s tx;
  if negb (ret =? 0) then mret (ret, rx) else
  ok ← lift (ndef_poller_sw_ok rx);
  if negb ok then mret (- EIO, rx) else mret (0, rx).

Definition ndef_poller_select_app (s : option session) : M C Z :=
  '(ret, rx) ← nfc_reader_session_transceive tag_transceive s SELECT_APP_V2;
  if negb (ret =? 0) then mret ret else
  ok ← lift (ndef_poller_sw_ok rx);
  if ok : bool then mret 0 else
  '(ret, rx) ← nfc_reader_session_transceive tag_transceive s SELECT_APP_V1;
  if negb (ret =? 0) then mret ret else
  ok ← lift (ndef_poller_sw_ok rx);
  if ok : bool then mret 0 else mret (- EIO).

Definition ndef_poller_detect (s : option session) : M C Z :=
  let ret := ndef_poller_session_valid s in
  if negb (ret =? 0) then mret ret else
  '(ret, rx) ← nfc_reader_session_transceive tag_transceive s SELECT_APP_V2;
  if negb (ret =? 0) then mret ret else
  ok ← lift (ndef_poller_sw_ok rx);
  if ok : bool then mret 0 else
  '(ret, rx) ← nfc_reader_session_transceive tag_transceive s SELECT_APP_V1;
  if negb (ret =? 0) then mret ret else
  ok ← lift (ndef_poller_sw_ok rx);
  if ok : bool then mret 0 else
  nf ← lift (ndef_poller_sw_not_found rx);
  if nf : bool then mret (- ENOTSUP) else mret (- EIO).

Definition ndef_poller_select_ndef_file (s : option session) (c : list Z) : M C Z :=
  f0 ← lift (ld c NDEF_CC_OFF_FILE_ID);
  f1 ← lift (ld c (NDEF_CC_OFF_FILE_ID + 1));
  '(ret, rx) ← nfc_reader_session_transceive tag_transceive s [0x00; 0xA4; 0x00; 0x0C; 0x02; f0; f1];
  if negb (ret =? 0) then mret ret else
  ok ← lift (ndef_poller_sw_ok rx);
  if negb ok then mret (- EIO) else mret 0.

Definition read_cmd (offset n : Z) : list Z :=
  [0x00; 0xB0; u8 (Z.shiftr offset 8); u8 (Z.land offset 0xFF); u8 n].

(** The loop [while (bytes_read < nlen)]: the error of an early return or 0, [bytes_read] and
    the file.  [fuel] bounds the iterations. *)
Fixpoint read_loop (fuel : nat) (s : option session) (nlen tag_mle bytes_read : Z)
    (file : list Z) : M C (Z * Z * list Z) :=
  match fuel with
  | O => lift None
  | S fuel =>
    if nlen <=? bytes_read then mret (0, bytes_read, file) else
    let offset := u16 (NFC_NDEF_NLEN_FIELD_LEN + bytes_read) in
    let chunk := ndef_poller_read_chunk_le (u16 (nlen - bytes_read)) tag_mle in
    '(ret, rx) ← nfc_reader_session_transceive tag_transceive s (read_cmd offset chunk);
    if negb (ret =? 0) then mret (ret, bytes_read, file) else
    ok ← lift (ndef_poller_sw_ok rx);
    if negb ok then mret (- EIO, bytes_read, file) else
    let data_len := len rx - 2 in
    if data_len <? chunk then mret (- EIO, bytes_read, file) else
    file ← lift (memcpy file (NFC_NDEF_NLEN_FIELD_LEN + bytes_read) rx 0 chunk);
    read_loop fuel s nlen tag_mle (u16 (bytes_read + u16 chunk)) file
  end.

(** The rest of [ndef_poller_read] once the NDEF file is selected: the NLEN field, then the
    message. *)
Definition ndef_poller_read_message (s : option session) (tag_mle : Z) (m : ndef_data_t)
    : M C (Z * option ndef_data_t) :=
  '(ret, rx) ← ndef_poller_transceive s [0x00; 0xB0; 0x00; 0x00; NFC_NDEF_NLEN_FIELD_LEN];
  if negb (ret =? 0) then mret (ret, Some m) else
  if negb (len rx - 2 =? NFC_NDEF_NLEN_FIELD_LEN) then mret (- EIO, Some m) else
  r0 ← lift (ld rx 0); r1 ← lift (ld rx 1);
  let nlen := be16 r0 r1 in
  if CONFIG_NFC_NDEF_MAX_SIZE <? nlen then mret (- ENOSPC, Some m) else
  f ← lift (st (ndef_file m) 0 r0);
  f ← lift (st f 1 r1);
  '(ret, bytes_read, f) ← read_loop (S (Z.to_nat nlen)) s nlen tag_mle 0 f;
  let m := nd_with_file f m in
  if negb (ret =? 0) then mret (ret, Some m) else
  if negb (bytes_read =? nlen) then mret (- EIO, Some m) else
  mret (0, Some (nd_with_file_len (u16 (NFC_NDEF_NLEN_FIELD_LEN + nlen)) m)).

(** [ndef_poller_read(session, out)]: the return value and what [out] points to. *)
Definition ndef_poller_read (s : option session) (out : option ndef_data_t)
    : M C (Z * option ndef_data_t) :=
  let ret := ndef_poller_session_valid s in
  if negb (ret =? 0) then mret (ret, out) else
  match out with
  | None => mret (- EINVAL, None)
  | Some _ =>
    let m := ndef_data_zero in
    ret ← ndef_poller_select_app s;
    if negb (ret =? 0) then mret (ret, Some m) else
    '(ret, _) ← ndef_poller_transceive s SELECT_CC;
    if negb (ret =? 0) then mret (ret, Some m) else
    '(ret, rx) ← ndef_poller_transceive s READ_CC;
    if negb (ret =? 0) then mret (ret, Some m) else
    if negb (len rx - 2 =? NFC_NDEF_CC_LEN) then mret (- EIO, Some m) else
    c ← lift (memcpy (cc m) 0 rx 0 NFC_NDEF_CC_LEN);
    let m := nd_with_cc c (nd_with_cc_len NFC_NDEF_CC_LEN m) in
    t ← lift (ld (cc m) 7);
    if negb (t =? NDEF_CC_TLV_T_NDEF) then mret (- EIO, Some m) else
    tag_mle ← lift (ndef_poller_cc_mle (cc m));
    ret ← ndef_poller_select_ndef_file s (cc m);
    if negb (ret =? 0) then mret (ret, Some m) else
    ndef_poller_read_message s tag_mle m
  end.
End Poller.

(** ** Correctness for any card *)

Section PollerFacts.
Context `{KconfigRanges} {C : Type} (tag_transceive : list Z → M C (Z * list Z)).

(** What the transport promises: an exchange returns, with at most a response buffer of bytes. *)
Class Card : Prop := {
  card_returns tx c : ensures (tag_transceive tx) c (λ '(ret, rx) _,
    bytes rx ∧ len rx <= NFC_TRANSPORT_MAX_RESPONSE_LEN);
}.

Lemma chunk_range remaining mle :
  1 <= remaining < 65536 → 2 <= mle < 65536 →
  1 <= ndef_poller_read_chunk_le remaining mle <= Z.min remaining 253.
Proof.
  intros Hr Hm. unfold ndef_poller_read_chunk_le, NFC_TRANSPORT_MAX_RESPONSE_LEN.
  rewrite u16_id by lia. repeat case_bool; bool_prop; lia.
Qed.

Lemma sw_ok_spec rx : ∃ b, ndef_poller_sw_ok rx = Some b ∧ (b = true → 2 <= len rx).
Proof.
  unfold ndef_poller_sw_ok. case_bool; [by exists false|]. bool_prop.
  ld_case (len rx - 2) x; [lia|]. ld_case (len rx - 1) y; [lia|]. eauto.
Qed.

Lemma sw_ok_data d : ndef_poller_sw_ok (d ++ [0x90; 0x00]) = Some true.
Proof.
  unfold ndef_poller_sw_ok. rewrite len_app. change (len [0x90; 0x00]) with 2.
  pose proof (len_nonneg d). rewrite (proj2 (Z.ltb_ge _ _)) by lia.
  replace (len d + 2 - 2) with (len d + 0) by lia. replace (len d + 2 - 1) with (len d + 1) by lia.
  by rewrite !ld_app_r by lia.
Qed.

Lemma sw_not_found_spec rx : ∃ b, ndef_poller_sw_not_found rx = Some b.
Proof.
  unfold ndef_poller_sw_not_found. case_bool; [by exists false|]. bool_prop.
  ld_case (len rx - 2) x; [lia|]. ld_case (len rx - 1) y; [lia|]. eauto.
Qed.

(** The file while the message is being read: [a] and [b] are the NLEN field. *)
Record reading (a b nlen : Z) (f : list Z) : Prop := {
  rg_len : len f = NDEF_FILE_BUF_SIZE;
  rg_bytes : bytes f;
  rg_head : take 2 f = [a; b];
  rg_tail : drop (Z.to_nat (2 + nlen)) f = zeros (NDEF_FILE_BUF_SIZE - (2 + nlen));
}.

Lemma reading_write a b nlen f off d f' :
  reading a b nlen f → bytes d → 2 <= off → off + len d <= 2 + nlen →
  blit f off d = Some f' → reading a b nlen f'.
Proof.
  intros [Hl Hb Hh Ht] Hd Ho Hod Hf. pose proof (blit_len _ _ _ _ Hf).
  pose proof (len_nonneg d).
  pose proof (blit_bytes _ _ _ _ Hb Hd Hf). apply blit_Some_inv in Hf as (_ & Hfit & ->).
  constructor; [lia|done| |].
  - rewrite take_app_le by llia. by rewrite take_take, Nat.min_l by lia.
  - rewrite (assoc_L (++)), drop_app_ge by llia. rewrite drop_drop, <-Ht. f_equal. llia.
Qed.

Lemma read_loop_total `{!Card} s a b nlen mle fuel : ∀ br f c,
  ses_active s = true → 2 <= mle < 65536 → 0 <= br → br <= nlen <= CONFIG_NFC_NDEF_MAX_SIZE →
  nlen - br < Z.of_nat fuel → reading a b nlen f →
  ensures (read_loop tag_transceive fuel (Some s) nlen mle br f) c (λ '(ret, br', f') _,
    reading a b nlen f' ∧ (ret = 0 → br' = nlen)).
Proof.
  pose proof ndef_max_size_range as Hmax. pose proof ndef_buf_size as Hbuf.
  induction fuel as [|fuel IH]; intros br f c Hs Hm Hbr Hn Hf Hr; [lia|]. cbn [read_loop].
  case_bool; bool_prop; [apply ensures_ret; split; [done|lia]|].
  rewrite (u16_id (nlen - br)) by lia. unfold NFC_NDEF_NLEN_FIELD_LEN.
  pose proof (chunk_range (nlen - br) mle ltac:(lia) Hm) as Hc.
  set (k := ndef_poller_read_chunk_le _ _) in *.
  eapply ensures_bind; [unfold nfc_reader_session_transceive; rewrite Hs; apply card_returns|].
  intros [ret rx] c' [Hb Hl]. case_bool; [apply ensures_ret; split; [done|]; intros ->; done|].
  destruct (sw_ok_spec rx) as (ok & -> & Hok). unfold ensures. rewrite run_lift_Some.
  destruct ok; cbn [negb]; [|eexists (_, _, _), c'; done].
  case_bool; [eexists (_, _, _), c'; done|]. bool_prop.
  pose proof (rg_len _ _ _ _ Hr) as Hlen. rewrite memcpy_prefix by lia.
  destruct (blit f (2 + br) (take (Z.to_nat k) rx)) as [f'|] eqn:Hblit;
    [|rewrite blit_ok in Hblit by llia; done].
  rewrite run_lift_Some. rewrite (u16_id k), (u16_id (br + k)) by lia.
  apply IH; try done; try lia.
  eapply reading_write; [done| | | |done]; [by apply bytes_take|lia|llia].
Qed.

(** The header of the file, and nothing after it. *)
Lemma reading_start r0 r1 nlen :
  is_byte r0 → is_byte r1 → 0 <= nlen <= CONFIG_NFC_NDEF_MAX_SIZE →
  ∃ f0 f, st (zeros NDEF_FILE_BUF_SIZE) 0 r0 = Some f0 ∧ st f0 1 r1 = Some f ∧
    reading r0 r1 nlen f.
Proof.
  intros H0' H1' Hn. pose proof ndef_max_size_range. pose proof ndef_buf_size as Hb.
  assert (zeros NDEF_FILE_BUF_SIZE = 0 :: 0 :: zeros CONFIG_NFC_NDEF_MAX_SIZE) as Hz.
  { rewrite Hb. unfold zeros. by replace (Z.to_nat (2 + _)) with (S (S (Z.to_nat CONFIG_NFC_NDEF_MAX_SIZE))) by lia. }
  rewrite Hz. exists (r0 :: 0 :: zeros CONFIG_NFC_NDEF_MAX_SIZE), (r0 :: r1 :: zeros CONFIG_NFC_NDEF_MAX_SIZE).
  pose proof (len_nonneg (zeros CONFIG_NFC_NDEF_MAX_SIZE)).
  split; [by rewrite st_ok by (rewrite !len_cons; lia)|].
  split; [by rewrite st_ok by (rewrite !len_cons; lia)|]. constructor.
  - rewrite !len_cons, len_zeros; lia.
  - unfold bytes. rewrite !Forall_cons_iff. split; [done|]. split; [done|apply bytes_zeros].
  - done.
  - replace (Z.to_nat (2 + nlen)) with (S (S (Z.to_nat nlen))) by lia. cbn [drop].
    unfold zeros. rewrite drop_replicate. f_equal. lia.
Qed.

Lemma reading_consistent c r0 r1 f m :
  len c = NFC_NDEF_CC_LEN → bytes c → is_byte r0 → is_byte r1 →
  be16 r0 r1 <= CONFIG_NFC_NDEF_MAX_SIZE → reading r0 r1 (be16 r0 r1) f →
  m = {| cc := c; ndef_file := f; cc_len := NFC_NDEF_CC_LEN;
         ndef_file_len := u16 (NFC_NDEF_NLEN_FIELD_LEN + be16 r0 r1) |} →
  ndef_consistent m ∧ nlen m = be16 r0 r1.
Proof.
  intros Hc Hbc Hr0 Hr1 Hn [Hl Hb Hh Ht] ->. pose proof ndef_max_size_range.
  assert (0 <= be16 r0 r1 < 65536) by apply u16_range.
  unfold NFC_NDEF_NLEN_FIELD_LEN. rewrite u16_id by lia.
  destruct f as [|x [|y f]]; [done..|]. cbn in Hh. injection Hh as -> ->.
  split; [|done]. constructor; try done.
  constructor; cbn; done || lia.
Qed.
End PollerFacts.

(** ** Reading any card *)

Section AnyCard.
Context `{KconfigRanges} {C : Type} (tag_transceive : list Z → M C (Z * list Z)).
Context `{!Card tag_transceive} (s : session) (Hs : ses_active s = true).

Lemma session_transceive_eq tx :
  nfc_reader_session_transceive tag_transceive (Some s) tx = tag_transceive tx.
Proof. unfold nfc_reader_session_transceive. by rewrite Hs. Qed.

(** One exchange, whose answer the caller checks. *)
Lemma exchange_total tx c :
  ensures (nfc_reader_session_transceive tag_transceive (Some s) tx) c (λ '(ret, rx) _,
    bytes rx ∧ len rx <= NFC_TRANSPORT_MAX_RESPONSE_LEN).
Proof. rewrite session_transceive_eq. by apply card_returns. Qed.

Lemma transceive_total tx c :
  ensures (ndef_poller_transceive tag_transceive (Some s) tx) c (λ '(ret, rx) _,
    bytes rx ∧ (ret = 0 → 2 <= len rx)).
Proof.
  unfold ndef_poller_transceive. eapply ensures_bind; [apply exchange_total|].
  intros [ret rx] c' [Hb _]. case_bool; [apply ensures_ret; split; [done|]; by intros ->|].
  destruct (sw_ok_spec rx) as (ok & -> & Hok). unfold ensures. rewrite run_lift_Some.
  destruct ok; eexists (_, _), c'; (split; [done|]); split; try done. intros _. by apply Hok.
Qed.

Lemma select_app_total c :
  ensures (ndef_poller_select_app tag_transceive (Some s)) c (λ _ _, True).
Proof.
  unfold ndef_poller_select_app. eapply ensures_bind; [apply exchange_total|].
  intros [ret rx] c' _. case_bool; [by apply ensures_ret|].
  destruct (sw_ok_spec rx) as ([] & -> & _); unfold ensures; rewrite run_lift_Some; [by eexists _, _|].
  eapply ensures_bind; [apply exchange_total|].
  intros [ret' rx'] c2 _. case_bool; [by apply ensures_ret|].
  destruct (sw_ok_spec rx') as ([] & -> & _); by eexists _, _.
Qed.

Lemma select_file_total cc c : len cc = NFC_NDEF_CC_LEN →
  ensures (ndef_poller_select_ndef_file tag_transceive (Some s) cc) c (λ _ _, True).
Proof.
  intros Hc. unfold ndef_poller_select_ndef_file, ensures, NFC_NDEF_CC_LEN in *.
  ld_case NDEF_CC_OFF_FILE_ID f0; [unfold NDEF_CC_OFF_FILE_ID; lia|]. rewrite run_lift_Some.
  ld_case (NDEF_CC_OFF_FILE_ID + 1) f1; [unfold NDEF_CC_OFF_FILE_ID; lia|]. rewrite run_lift_Some.
  eapply ensures_bind; [apply exchange_total|].
  intros [ret rx] c' _. case_bool; [by apply ensures_ret|].
  destruct (sw_ok_spec rx) as ([] & -> & _); by eexists _, _.
Qed.

Lemma cc_mle_total cc : len cc = NFC_NDEF_CC_LEN →
  ∃ m, ndef_poller_cc_mle cc = Some m ∧ 2 <= m < 65536.
Proof.
  intros Hc. unfold ndef_poller_cc_mle, NFC_NDEF_CC_LEN, NDEF_CC_OFF_MLE in *.
  ld_case 3 a; [lia|]. ld_case (3 + 1) b; [lia|]. eexists. split; [done|].
  pose proof (u16_range (Z.lor (Z.shiftl a 8) b)). unfold be16. case_bool; bool_prop; lia.
Qed.

(** The NLEN field and the message. *)
Lemma message_total m c0 mle c :
  len c0 = NFC_NDEF_CC_LEN → bytes c0 → 2 <= mle < 65536 →
  m = nd_with_cc c0 (nd_with_cc_len NFC_NDEF_CC_LEN ndef_data_zero) →
  ensures (ndef_poller_read_message tag_transceive (Some s) mle m) c
    (λ '(ret, out) _, ret = 0 → ∃ d, out = Some d ∧ ndef_consistent d).
Proof.
  intros Hc Hbc Hm ->. unfold ndef_poller_read_message.
  eapply ensures_bind; [apply transceive_total|]. intros [ret5 rx5] c5 [Hb5 _]. cbv beta.
  case_bool; [apply ensures_ret; by intros ->|]. case_bool; [by apply ensures_ret|]. bool_prop.
  unfold NFC_NDEF_NLEN_FIELD_LEN in *. unfold ensures.
  destruct (ld_Some rx5 0) as [r0 L0]; [lia|]. destruct (ld_Some rx5 1) as [r1 L1]; [lia|].
  rewrite L0, run_lift_Some, L1, run_lift_Some.
  case_bool; [eexists (_, _), _; done|]. bool_prop. rename E1 into Hn.
  assert (0 <= be16 r0 r1) as Hz by apply u16_range.
  destruct (reading_start r0 r1 (be16 r0 r1) (ld_byte _ _ _ Hb5 L0) (ld_byte _ _ _ Hb5 L1) (conj Hz Hn))
    as (f0 & f & F0 & F1 & Hr).
  cbn [ndef_file nd_with_cc nd_with_cc_len ndef_data_zero].
  rewrite F0, run_lift_Some, F1, run_lift_Some.
  eapply ensures_bind; [apply (read_loop_total _ s r0 r1 _ mle); try done; lia|].
  intros [[ret br] f'] c' [Hr' Hbr]. cbv beta iota zeta.
  case_bool; [apply ensures_ret; bool_prop; by intros ?|].
  bool_prop. rewrite (Hbr E1), Z.eqb_refl. cbn [negb]. apply ensures_ret. intros _. eexists; split; [done|].
  exact (proj1 (reading_consistent c0 r0 r1 f' _ Hc Hbc (ld_byte _ _ _ Hb5 L0) (ld_byte _ _ _ Hb5 L1)
    Hn Hr' eq_refl)).
Qed.
End AnyCard.

Section ReadAny.
Context `{KconfigRanges} {C : Type} (tag_transceive : list Z → M C (Z * list Z)).

Lemma ndef_poller_read_any `{!Card tag_transceive} s out c :
  ensures (ndef_poller_read tag_transceive s out) c (λ '(ret, m) _,
    ret = 0 → ∃ d, m = Some d ∧ ndef_consistent d).
Proof.
  unfold ndef_poller_read. cbv zeta. case_bool; [apply ensures_ret; bool_prop; by intros ?|].
  destruct s as [s|]; [|done]. cbn in E. destruct (ses_active s) eqn:Hs; [|done].
  destruct out as [out|]; [|by apply ensures_ret].
  eapply ensures_bind; [by apply select_app_total|]. intros ret c1 _. cbv beta.
  case_bool; [apply ensures_ret; by intros ->|].
  eapply ensures_bind; [by apply transceive_total|]. intros [ret2 rx2] c2 _. cbv beta.
  case_bool; [apply ensures_ret; by intros ->|].
  eapply ensures_bind; [by apply transceive_total|]. intros [ret3 rx] c3 [Hb _]. cbv beta.
  case_bool; [apply ensures_ret; by intros ->|]. case_bool; [by apply ensures_ret|]. bool_prop.
  set (c0 := take 15 rx). unfold NFC_NDEF_CC_LEN in *.
  assert (len c0 = 15) as Hc by (subst c0; llia).
  rewrite memcpy_prefix by lia. change (take (Z.to_nat 15) rx) with c0.
  rewrite blit_ok by (rewrite ?Hc; done). unfold ensures. rewrite run_lift_Some. rewrite Hc.
  change (take (Z.to_nat 0) (cc ndef_data_zero) ++ c0 ++ drop (Z.to_nat (0 + 15)) (cc ndef_data_zero))
    with (c0 ++ []). rewrite app_nil_r. cbn [cc nd_with_cc].
  ld_case 7 t; [lia|]. rewrite run_lift_Some. case_bool; [eexists (_, _), _; done|].
  destruct (cc_mle_total c0 Hc) as (mle & -> & Hmle). rewrite run_lift_Some.
  eapply ensures_bind; [by apply select_file_total|]. intros ret4 c4 _. cbv beta.
  case_bool; [apply ensures_ret; by intros ->|].
  by apply message_total with c0; [..|apply bytes_take| |].
Qed.

(** Reading a tag in the field is safe whatever the tag answers: for every card that
    returns bytes and at most a response buffer of them, [ndef_poller_read] returns without
    leaving its buffers, and when it reports success the model is consistent: 15 bytes of CC, an NLEN
    field within the configured maximum, exactly that much message, and zeros behind it (so it
    can be serialized and loaded again). *)
Theorem ndef_poller_read_safe `{!Card tag_transceive} s out c :
  ensures (ndef_poller_read tag_transceive s out) c (λ '(ret, m) _,
    ret = 0 → ∃ d, m = Some d ∧ ndef_consistent d).
Proof. apply ndef_poller_read_any. Qed.
End ReadAny.

(** ** Reading a Type 4 Tag *)

(** What a Type 4 Tag promises to a reader: [R0 c t] says that the card [c] presents the tag
    [t], [R c t] that its NDEF application is selected as well.  Its commands are those of the
    tag specification. *)
Class Type4Card {C} (tag_transceive : list Z → M C (Z * list Z)) (R0 R : C → tag → Prop) : Prop := {
  t4_select c t : R0 c t →
    ∃ c', tag_transceive SELECT_APP_V2 c = Some ((0, [0x90; 0x00]), c') ∧
      R c' (tag_select NDEF_FILE_NONE t);
  t4_step c t tx a : R c t → bytes tx →
    (∀ ext, apdu_parse (Some tx) (len tx) ext (Some apdu_zero) = Some (APDU_PARSE_OK, Some a)) →
    apdu_is_select_by_aid a = false →
    ∃ c', tag_transceive tx c = Some ((0, (tag_step t a).2), c') ∧ R c' (tag_step t a).1;
}.

(** A tag whose files a reader can find: version and length of the CC are free, its TLV names
    the NDEF file E104, and the file holds the message it announces. *)
Record readable `{Kconfig} (t : tag) : Prop := {
  rd_cc_len : len (t_cc t) = NFC_NDEF_CC_LEN;
  rd_cc_bytes : bytes (t_cc t);
  rd_tlv : t_cc t !! 7%nat = Some 0x04;
  rd_file_id : t_cc t !! 9%nat = Some 0xE1 ∧ t_cc t !! 10%nat = Some 0x04;
  rd_file_bytes : bytes (t_file t);
  rd_nlen_field : 2 <= len (t_file t);
}.

(** The NLEN field and the message of the tag's file, at most as much as there is. *)
Definition t_nlen (t : tag) : Z :=
  be16 (default 0 (t_file t !! 0%nat)) (default 0 (t_file t !! 1%nat)).

Section Type4.
Context `{KconfigRanges} {C : Type} (tag_transceive : list Z → M C (Z * list Z)).
Context (R0 R : C → tag → Prop) `{!Type4Card tag_transceive R0 R}.
Context (s : session) (Hs : ses_active s = true).

(** The model the poller builds of a tag. *)
Definition model_of (t : tag) : ndef_data_t :=
  let k := 2 + t_nlen t in
  {| cc := t_cc t; ndef_file := take (Z.to_nat k) (t_file t) ++ zeros (NDEF_FILE_BUF_SIZE - k);
     cc_len := NFC_NDEF_CC_LEN; ndef_file_len := k |}.

Definition read_view (off n : Z) : nfc_apdu_t :=
  {| cla := 0; ins := 0xB0; p1 := off / 256; p2 := off mod 256; data := None; lc := 0; le := n;
     has_le := true; extended := false |}.

(** A READ BINARY of [n] bytes at [off], inside the selected file. *)
Lemma read_exchange c t f off n tx :
  R c t → (t_sel t = NDEF_FILE_CC ∧ f = t_cc t ∨ t_sel t = NDEF_FILE_NDEF ∧ f = t_file t) →
  0 <= off < 65536 → 1 <= n <= 253 → off + n <= len f → tx = read_cmd off n →
  ∃ c', tag_transceive tx c =
    Some ((0, take (Z.to_nat n) (drop (Z.to_nat off) f) ++ [0x90; 0x00]), c') ∧ R c' t.
Proof.
  intros HR Hf Ho Hn Hlen ->.
  assert (read_cmd off n = [0; 0xB0; off / 256; off mod 256; n]) as ->.
  { unfold read_cmd.
    rewrite Z.shiftr_div_pow2 by lia. change (2 ^ 8) with 256.
    rewrite (lo8_eq off : u8 (Z.land off 0xFF) = _).
    rewrite (u8_id (off / 256)), (u8_id n) by (unfold is_byte; dlia). done. }
  destruct (t4_step c t [0; 0xB0; off / 256; off mod 256; n] (read_view off n) HR)
    as (c' & Hrun & HR'); [|done..|].
  { repeat constructor; unfold is_byte; dlia. }
  unfold tag_step in Hrun, HR'. cbn [cla ins read_view] in Hrun, HR'.
  change (negb (0 =? 0)) with false in *. cbv iota in *.
  change (0xB0 =? NFC_INS_SELECT) with false in *. change (0xB0 =? NFC_INS_READ_BINARY) with true in *.
  cbv iota in *. cbn [fst snd] in *. exists c'. split; [|done]. rewrite Hrun. do 3 f_equal.
  assert (tag_read t (read_view off n) = file_read f (read_view off n)) as ->
    by (unfold tag_read; destruct Hf as [[-> ->]|[-> ->]]; done).
  unfold file_read. cbn [p1 p2 read_view]. replace (256 * (off / 256) + off mod 256) with off by dlia.
  rewrite (proj2 (Z.leb_gt _ _)) by lia. unfold expected. cbn [has_le le read_view negb].
  rewrite (proj2 (Z.eqb_neq n 0)) by lia. by rewrite !Z.min_l by lia.
Qed.

(** SELECT of one of the two files. *)
Lemma select_exchange c t lo sel :
  R c t → (lo = 0x03 ∧ sel = NDEF_FILE_CC ∨ lo = 0x04 ∧ sel = NDEF_FILE_NDEF) →
  ∃ c', tag_transceive [0x00; 0xA4; 0x00; 0x0C; 0x02; 0xE1; lo] c = Some ((0, [0x90; 0x00]), c') ∧
    R c' (tag_select sel t).
Proof.
  intros HR Hlo.
  set (a := {| cla := 0; ins := 0xA4; p1 := 0; p2 := 0x0C; data := Some [0xE1; lo]; lc := 2; le := 0;
               has_le := false; extended := false |}).
  destruct (t4_step c t [0x00; 0xA4; 0x00; 0x0C; 0x02; 0xE1; lo] a HR) as (c' & Hrun & HR');
    [|done..|].
  { repeat constructor; unfold is_byte; lia. }
  exists c'. destruct Hlo as [[-> ->]|[-> ->]]; cbn in Hrun, HR'; done.
Qed.

(** The file as it is copied, [br] bytes of the message read. *)
Definition partial (t : tag) (br : Z) : list Z :=
  take (Z.to_nat (2 + br)) (t_file t) ++ zeros (NDEF_FILE_BUF_SIZE - (2 + br)).

Lemma partial_extend t br k : 0 <= br → 0 <= k → 2 + br + k <= len (t_file t) →
  2 + br + k <= NDEF_FILE_BUF_SIZE →
  blit (partial t br) (2 + br) (take (Z.to_nat k) (drop (Z.to_nat (2 + br)) (t_file t))) =
  Some (partial t (br + k)).
Proof.
  intros Hb Hk Hl Hbuf. unfold partial.
  set (d := take (Z.to_nat k) (drop (Z.to_nat (2 + br)) (t_file t))).
  assert (len d = k) as Hd by (subst d; llia).
  assert (zeros (NDEF_FILE_BUF_SIZE - (2 + br)) = zeros k ++ zeros (NDEF_FILE_BUF_SIZE - (2 + (br + k)))) as ->.
  { unfold zeros. rewrite <-replicate_add. f_equal. lia. }
  rewrite blit_app_mid; [|llia|rewrite len_zeros; lia]. rewrite (assoc_L (++)). do 2 f_equal. subst d.
  replace (Z.to_nat (2 + (br + k))) with (Z.to_nat (2 + br) + Z.to_nat k)%nat by lia.
  apply take_take_drop.
Qed.

Lemma read_loop_exact t mle fuel : ∀ br c,
  R c t → t_sel t = NDEF_FILE_NDEF → 2 <= mle < 65536 → 0 <= br <= t_nlen t →
  t_nlen t <= CONFIG_NFC_NDEF_MAX_SIZE → 2 + t_nlen t <= len (t_file t) →
  t_nlen t - br < Z.of_nat fuel →
  ∃ c', read_loop tag_transceive fuel (Some s) (t_nlen t) mle br (partial t br) c =
    Some ((0, t_nlen t, partial t (t_nlen t)), c') ∧ R c' t.
Proof.
  pose proof ndef_max_size_range as Hmax. pose proof ndef_buf_size as Hbuf.
  induction fuel as [|fuel IH]; intros br c HR Hsel Hm Hbr Hn Hl Hf; [lia|]. cbn [read_loop].
  case_bool; bool_prop; [replace br with (t_nlen t) by lia; eauto|].
  unfold NFC_NDEF_NLEN_FIELD_LEN. rewrite (u16_id (t_nlen t - br)), (u16_id (2 + br)) by lia.
  pose proof (chunk_range (t_nlen t - br) mle ltac:(lia) Hm) as Hc.
  set (k := ndef_poller_read_chunk_le _ _) in *.
  unfold nfc_reader_session_transceive. rewrite Hs. cbn [negb].
  destruct (read_exchange c t (t_file t) (2 + br) k _ HR ltac:(by right) ltac:(lia) ltac:(lia)
    ltac:(lia) eq_refl) as (c' & Hrun & HR').
  rewrite (run_call _ _ _ _ _ Hrun). cbv iota beta. cbn [Z.eqb negb].
  rewrite sw_ok_data, run_lift_Some. cbn [negb].
  set (d := take (Z.to_nat k) (drop (Z.to_nat (2 + br)) (t_file t))).
  assert (len d = k) as Hd by (subst d; llia).
  rewrite len_app. change (len [0x90; 0x00]) with 2.
  rewrite (proj2 (Z.ltb_ge _ _)) by lia. rewrite memcpy_prefix by (rewrite len_app; change (len [0x90; 0x00]) with 2; lia).
  rewrite take_app_length' by llia. unfold d. rewrite partial_extend by lia.
  rewrite run_lift_Some, (u16_id k), (u16_id (br + k)) by lia.
  apply IH; try done; lia.
Qed.

(** A command answered with data and 9000. *)
Lemma transceive_ok tx d c c' :
  tag_transceive tx c = Some ((0, d ++ [0x90; 0x00]), c') →
  ndef_poller_transceive tag_transceive (Some s) tx c = Some ((0, d ++ [0x90; 0x00]), c').
Proof.
  intros Hrun. unfold ndef_poller_transceive, nfc_reader_session_transceive. rewrite Hs. cbn [negb].
  rewrite (run_call _ _ _ _ _ Hrun). cbv iota beta. cbn [Z.eqb negb].
  by rewrite sw_ok_data, run_lift_Some.
Qed.

Lemma select_app_ok c t : R0 c t →
  ∃ c', ndef_poller_select_app tag_transceive (Some s) c = Some (0, c') ∧
    R c' (tag_select NDEF_FILE_NONE t).
Proof.
  intros (c' & Hrun & HR)%t4_select. exists c'. split; [|done].
  unfold ndef_poller_select_app, nfc_reader_session_transceive. rewrite Hs. cbn [negb].
  by rewrite (run_call _ _ _ _ _ Hrun).
Qed.

Lemma select_ndef_file_ok c t : readable t → R c t →
  ∃ c', ndef_poller_select_ndef_file tag_transceive (Some s) (t_cc t) c = Some (0, c') ∧
    R c' (tag_select NDEF_FILE_NDEF t).
Proof.
  intros Ht HR. destruct (rd_file_id t Ht) as [H9 H10].
  unfold ndef_poller_select_ndef_file, NDEF_CC_OFF_FILE_ID.
  rewrite (ld_eq _ 9 0xE1), (ld_eq _ (9 + 1) 0x04), !run_lift_Some by done.
  destruct (select_exchange c t 0x04 NDEF_FILE_NDEF HR ltac:(by right)) as (c' & Hrun & HR').
  exists c'. split; [|done]. unfold nfc_reader_session_transceive. rewrite Hs. cbn [negb].
  by rewrite (run_call _ _ _ _ _ Hrun).
Qed.

(** The first two bytes of the file are its NLEN field. *)
Lemma nlen_field t : readable t → ∃ r0 r1,
  take 2 (t_file t) = [r0; r1] ∧ t_nlen t = be16 r0 r1 ∧ 0 <= t_nlen t < 65536.
Proof.
  intros Ht. pose proof (rd_nlen_field t Ht) as Hl. unfold t_nlen.
  destruct (t_file t) as [|r0 [|r1 f]]; rewrite ?len_cons, ?len_nil in Hl; [lia..|].
  exists r0, r1. split; [done|]. split; [done|apply u16_range].
Qed.

(** The NLEN field as the first two bytes of the copy. *)
Lemma partial_start t r0 r1 : take 2 (t_file t) = [r0; r1] →
  ∃ f, st (zeros NDEF_FILE_BUF_SIZE) 0 r0 = Some f ∧ st f 1 r1 = Some (partial t 0).
Proof.
  intros Ht. pose proof ndef_max_size_range as Hm. pose proof ndef_buf_size as Hb.
  assert (zeros NDEF_FILE_BUF_SIZE = 0 :: 0 :: zeros (NDEF_FILE_BUF_SIZE - 2)) as ->.
  { unfold zeros. by replace (Z.to_nat NDEF_FILE_BUF_SIZE)
      with (S (S (Z.to_nat (NDEF_FILE_BUF_SIZE - 2)))) by lia. }
  exists (r0 :: 0 :: zeros (NDEF_FILE_BUF_SIZE - 2)). unfold partial.
  change (Z.to_nat (2 + 0)) with 2%nat. rewrite Ht.
  pose proof (len_nonneg (zeros (NDEF_FILE_BUF_SIZE - 2))).
  by rewrite !st_ok by (rewrite !len_cons; lia).
Qed.

(** The NLEN field and the message of the selected file. *)
Lemma message_ok c t mle :
  R c t → readable t → t_sel t = NDEF_FILE_NDEF → 2 <= mle < 65536 →
  t_nlen t <= CONFIG_NFC_NDEF_MAX_SIZE → 2 + t_nlen t <= len (t_file t) →
  ∃ c', ndef_poller_read_message tag_transceive (Some s) mle
      (nd_with_cc (t_cc t) (nd_with_cc_len NFC_NDEF_CC_LEN ndef_data_zero)) c =
    Some ((0, Some (model_of t)), c') ∧ R c' t.
Proof.
  intros HR Ht Hsel Hmle Hn Hl. pose proof ndef_max_size_range as Hmax.
  destruct (nlen_field t Ht) as (r0 & r1 & Hf & Hnl & Hr).
  destruct (read_exchange c t (t_file t) 0 2 (read_cmd 0 2) HR ltac:(by right) ltac:(lia) ltac:(lia)
    ltac:(lia) eq_refl) as (c5 & E5 & R5).
  change (Z.to_nat 0) with 0%nat in E5. change (Z.to_nat 2) with 2%nat in E5.
  rewrite drop_0, Hf in E5.
  apply transceive_ok in E5. change (read_cmd 0 2) with [0x00; 0xB0; 0x00; 0x00; 2] in E5.
  unfold ndef_poller_read_message, NFC_NDEF_NLEN_FIELD_LEN. rewrite (run_call _ _ _ _ _ E5). cbv iota beta. cbn [negb Z.eqb].
  change (negb (len ([r0; r1] ++ [0x90; 0x00]) - 2 =? 2)) with false. cbv iota.
  change (ld ([r0; r1] ++ [0x90; 0x00]) 0) with (Some r0).
  change (ld ([r0; r1] ++ [0x90; 0x00]) 1) with (Some r1). rewrite !run_lift_Some, <-Hnl.
  rewrite (proj2 (Z.ltb_ge _ _)) by lia. cbn [ndef_file nd_with_cc nd_with_cc_len ndef_data_zero].
  destruct (partial_start t r0 r1 Hf) as (f & -> & Hf1). rewrite run_lift_Some, Hf1, run_lift_Some.
  destruct (read_loop_exact t mle (S (Z.to_nat (t_nlen t))) 0 c5 R5) as (c6 & E6 & R6); try done; [lia..|].
  rewrite (run_call _ _ _ _ _ E6). cbv iota beta. cbn [negb Z.eqb]. rewrite Z.eqb_refl.
  exists c6. split; [|done]. by rewrite u16_id by lia.
Qed.

Lemma poller_reads_tag c t out :
  R0 c t → readable t → t_nlen t <= CONFIG_NFC_NDEF_MAX_SIZE → 2 + t_nlen t <= len (t_file t) →
  ∃ c', ndef_poller_read tag_transceive (Some s) (Some out) c = Some ((0, Some (model_of t)), c') ∧
    R c' (tag_select NDEF_FILE_NDEF t).
Proof.
  intros H0' Ht Hn Hl. pose proof (rd_cc_len t Ht) as Hc. unfold NFC_NDEF_CC_LEN in Hc.
  unfold ndef_poller_read, ndef_poller_session_valid. rewrite Hs. cbn [negb Z.eqb].
  destruct (select_app_ok c t H0') as (c1 & E1 & R1). rewrite (run_call _ _ _ _ _ E1). cbn [negb Z.eqb].
  destruct (select_exchange c1 _ 0x03 NDEF_FILE_CC R1 ltac:(by left)) as (c2 & E2 & R2).
  apply (transceive_ok SELECT_CC []) in E2.
  rewrite (run_call _ _ _ _ _ E2). cbv iota beta. cbn [negb Z.eqb].
  destruct (read_exchange c2 _ (t_cc t) 0 15 READ_CC R2 ltac:(by left) ltac:(lia) ltac:(lia) ltac:(lia) eq_refl)
    as (c3 & E3 & R3). change (Z.to_nat 0) with 0%nat in E3. rewrite drop_0, take_ge in E3 by llia.
  apply transceive_ok in E3. rewrite (run_call _ _ _ _ _ E3). cbv iota beta. cbn [negb Z.eqb].
  unfold NFC_NDEF_CC_LEN. rewrite len_app, Hc.
  change (negb (15 + len [0x90; 0x00] - 2 =? 15)) with false. cbv iota.
  rewrite memcpy_prefix by (rewrite len_app, Hc; done). rewrite take_app_length' by llia.
  assert (blit (cc ndef_data_zero) 0 (t_cc t) = Some (t_cc t)) as ->.
  { rewrite blit_ok by (rewrite ?Hc; done). rewrite Hc. cbn [Z.to_nat take app].
    by rewrite drop_ge, app_nil_r. }
  rewrite run_lift_Some. cbn [cc nd_with_cc nd_with_cc_len].
  rewrite (ld_eq _ 7 0x04), run_lift_Some by (done || apply Ht). cbn [negb Z.eqb Pos.eqb NDEF_CC_TLV_T_NDEF].
  destruct (cc_mle_total (t_cc t) (rd_cc_len t Ht)) as (mle & -> & Hmle). rewrite run_lift_Some.
  destruct (select_ndef_file_ok c3 (tag_select NDEF_FILE_CC (tag_select NDEF_FILE_NONE t))) as (c4 & E4 & R4);
    [by destruct Ht|done|].
  cbn [t_cc tag_select] in E4. rewrite (run_call _ _ _ _ _ E4). cbn [negb Z.eqb].
  destruct (message_ok c4 (tag_select NDEF_FILE_NDEF t) mle R4) as (c5 & E5 & R5); [by destruct Ht|done..|].
  exists c5. split; [|done]. exact E5.
Qed.
End Type4.

(** The tag specification itself as a card. *)
Definition t4t (tx : list Z) : M tag (Z * list Z) := λ t,
  match apdu_parse (Some tx) (len tx) false (Some apdu_zero) with
  | Some (APDU_PARSE_OK, Some a) =>
      if apdu_is_select_by_aid a then Some ((0, [0x90; 0x00]), tag_select NDEF_FILE_NONE t)
      else Some ((0, (tag_step t a).2), (tag_step t a).1)
  | _ => Some ((0, [0x67; 0x00]), t)
  end.

#[global] Instance t4t_type4 : Type4Card t4t eq eq.
Proof.
  constructor; [intros c t ->; by eexists|].
  intros c t tx a -> _ Hp Ha. unfold t4t. rewrite Hp, Ha. by eexists.
Qed.

Section ReadType4.
Context `{KconfigRanges} {C : Type} (tag_transceive : list Z → M C (Z * list Z)).
Context (R0 R : C → tag → Prop) `{!Type4Card tag_transceive R0 R}.

(** C12: Cloning a Type 4 Tag is exact: from any card that behaves as the tag specification
    prescribes, whose CC names the NDEF file and whose message fits the configured maximum,
    [ndef_poller_read] succeeds, whatever MLe the tag declares, and the model it fills holds the
    tag's CC, its NLEN field and its whole message; the card's files are unchanged. *)
Theorem ndef_poller_reads_type4 s c t out :
  ses_active s = true → R0 c t → readable t →
  t_nlen t <= CONFIG_NFC_NDEF_MAX_SIZE → 2 + t_nlen t <= len (t_file t) →
  ∃ c', ndef_poller_read tag_transceive (Some s) (Some out) c = Some ((0, Some (model_of t)), c') ∧
    R c' (tag_select NDEF_FILE_NDEF t).
Proof. intros Hs. by apply poller_reads_tag. Qed.
End ReadType4.
