(* ===== verification/Serial.v ===== *)
(** * Reading and writing serialized models

    The idiom the protocols' [*_serialize] and [*_deserialize] functions share: a buffer and an
    [offset] that moves past what has been written or read.  [out[offset++] = v] is [put],
    [memcpy(&out[offset], src, n); offset += n] is [puts]; [in[offset++]] is [get] and
    [memcpy(dst, &in[offset], n); offset += n] is [read_into].  The lemmas say what a sequence of
    such steps writes, and what it reads. *)

From stdpp Require Import base list numbers option.
From S2P Require Import Prelude.

(** ** Operations *)

(** The output buffer and [offset]. *)
Definition wstate : Type := list Z * Z.

Definition put (v : Z) : M wstate unit := λ s,
  o ← st s.1 s.2 v; Some (tt, (o, s.2 + 1)).

Definition puts (src : list Z) (n : Z) : M wstate unit := λ s,
  o ← memcpy s.1 s.2 src 0 n; Some (tt, (o, s.2 + n)).

(** [for (i = i0; i < i0 + n; i++)] around a body that may use [i]. *)
Fixpoint for_i {W} (n : nat) (i : Z) (body : Z → M W unit) : M W unit :=
  match n with O => mret tt | S n => body i ;; for_i n (i + 1) body end.

(** Reading: the state is [offset]. *)
Definition get (inp : list Z) : M Z Z := λ off, b ← ld inp off; Some (b, off + 1).

Definition read_into (inp dst : list Z) (n : Z) : M Z (list Z) := λ off,
  d ← memcpy dst 0 inp off n; Some (d, off + n).

(** [for (i = i0; i < i0 + n; i++)] that updates the elements of an array. *)
Fixpoint fill {A} (n : nat) (i : Z) (arr : list A) (body : A → M Z A) : M Z (list A) :=
  match n with
  | O => mret arr
  | S n => a ← lift (ld arr i); a ← body a; arr ← lift (st arr i a); fill n (i + 1) arr body
  end.

(** ** What is written *)

(** [writes m bs]: wherever there is room, [m] writes [bs] at the offset and moves past it. *)
Definition writes (m : M wstate unit) (bs : list Z) : Prop :=
  ∀ pre rest, len bs <= len rest →
    m (pre ++ rest, len pre) = Some (tt, (pre ++ bs ++ drop (length bs) rest, len pre + len bs)).

Lemma writes_ret : writes (mret tt) [].
Proof. intros pre rest _. rewrite len_nil, Z.add_0_r. done. Qed.

Lemma writes_bind m bs k cs : writes m bs → writes k cs → writes (m ;; k) (bs ++ cs).
Proof.
  intros Hm Hk pre rest Hl. rewrite len_app in Hl. pose proof (len_nonneg cs).
  rewrite (run_call _ _ _ _ _ (Hm pre rest ltac:(lia))).
  rewrite (assoc_L (++) pre), <-len_app. rewrite Hk by llia. f_equal. f_equal. f_equal.
  - rewrite <-!(assoc_L (++)). by rewrite drop_drop, length_app.
  - rewrite !len_app. lia.
Qed.

Lemma writes_puts src n : 0 <= n <= len src → writes (puts src n) (take (Z.to_nat n) src).
Proof.
  intros Hn pre rest Hl. unfold puts. cbn [fst snd]. rewrite memcpy_prefix by lia.
  assert (len (take (Z.to_nat n) src) = n) as Ht by llia.
  set (d := take (Z.to_nat n) src) in *. rewrite blit_ok by (rewrite ?len_app; pose proof (len_nonneg pre); lia).
  mred. rewrite Ht. f_equal. f_equal. f_equal. unfold len at 1 2. rewrite Nat2Z.id, take_app_length.
  f_equal. f_equal. rewrite <-Ht. unfold len. rewrite <-Nat2Z.inj_add, Nat2Z.id.
  by rewrite drop_app_add.
Qed.

Lemma writes_all src n : n = len src → writes (puts src n) src.
Proof.
  intros ->. pose proof (len_nonneg src). pose proof (writes_puts src (len src) ltac:(lia)) as Hw.
  by rewrite take_ge in Hw by llia.
Qed.

Lemma writes_put v : writes (put v) [v].
Proof.
  intros pre rest Hl. rewrite len_cons, len_nil in Hl. unfold put. cbn [fst snd].
  destruct rest as [|x rest]; [llia|].
  rewrite st_ok by (pose proof (len_nonneg pre); pose proof (len_nonneg rest); rewrite len_app, len_cons; lia).
  mred. unfold len at 1. rewrite Nat2Z.id, <-(Nat.add_0_r (length pre)), insert_app_r. done.
Qed.

(** A loop that writes each element of an array. *)
Lemma writes_for {A} (arr : list A) body (enc : A → list Z) :
  (∀ i a, ld arr i = Some a → writes (body i) (enc a)) →
  ∀ n i, 0 <= i → i + Z.of_nat n <= len arr →
    writes (for_i n i body) (mjoin (enc <$> take n (drop (Z.to_nat i) arr))).
Proof.
  intros Hb. induction n as [|n IH]; intros i Hi Hn; [apply writes_ret|]. cbn [for_i].
  destruct (ld_Some arr i) as [a Ha]; [lia|]. pose proof (ld_Some_inv _ _ _ Ha) as [_ Ha'].
  rewrite (drop_S _ _ _ Ha'). cbn [take fmap list_fmap mjoin list_join].
  apply writes_bind; [by apply Hb|]. replace (S (Z.to_nat i)) with (Z.to_nat (i + 1)) by lia.
  apply IH; lia.
Qed.

Lemma writes_array {A} (arr : list A) body (enc : A → list Z) n :
  (∀ i a, ld arr i = Some a → writes (body i) (enc a)) → 0 <= n <= len arr →
  writes (for_i (Z.to_nat n) 0 body) (mjoin (enc <$> take (Z.to_nat n) arr)).
Proof.
  intros Hb Hn. pose proof (writes_for arr body enc Hb (Z.to_nat n) 0 ltac:(lia) ltac:(lia)) as Hw.
  change (Z.to_nat 0) with 0%nat in Hw. by rewrite drop_0 in Hw.
Qed.

(** A loop that writes the first [n] strings of an array of strings, or bytes of a string. *)
Lemma writes_strings (arr : list (list Z)) n k : Forall (λ x, len x = k) arr → 0 <= n <= len arr →
  writes (for_i (Z.to_nat n) 0 (λ i, p ← lift (ld arr i); puts p k)) (mjoin (take (Z.to_nat n) arr)).
Proof.
  intros Hk Hn. pose proof (writes_array arr (λ i, p ← lift (ld arr i); puts p k) id n) as Hw.
  rewrite list_fmap_id in Hw. apply Hw; [|done]. intros i a Ha pre rest Hl.
  rewrite Ha, run_lift_Some. apply ld_Some_inv in Ha as [_ Ha].
  pose proof (Forall_lookup_1 _ _ _ _ Hk Ha) as Hs. by apply writes_all.
Qed.

Lemma mjoin_singletons (l : list Z) : mjoin ((λ x, [x]) <$> l) = l.
Proof. induction l as [|x l IH]; [done|]. transitivity (x :: mjoin ((λ x, [x]) <$> l)); [done|]. by rewrite IH. Qed.

Lemma writes_elements (arr : list Z) n : 0 <= n <= len arr →
  writes (for_i (Z.to_nat n) 0 (λ i, t ← lift (ld arr i); put t)) (take (Z.to_nat n) arr).
Proof.
  intros Hn. pose proof (writes_array arr (λ i, t ← lift (ld arr i); put t) (λ x, [x]) n) as Hw.
  rewrite mjoin_singletons in Hw. apply Hw; [|done]. intros i a Ha pre rest Hl.
  rewrite Ha, run_lift_Some. by apply writes_put.
Qed.

(** From the start of the buffer. *)
Lemma writes_run m bs out : writes m bs → len bs <= len out →
  m (out, 0) = Some (tt, (bs ++ drop (length bs) out, len bs)).
Proof. intros Hm Hl. exact (Hm [] out Hl). Qed.

(** [writes_tac]: a sequence of puts, step by step. *)
Ltac writes_tac :=
  repeat first [ apply writes_put | apply writes_ret | apply writes_bind ].

(** ** What is read *)

(** [ahead inp off l]: the rest of the input from [off] on is [l]. *)
Definition ahead (inp : list Z) (off : Z) (l : list Z) : Prop :=
  0 <= off <= len inp ∧ drop (Z.to_nat off) inp = l.

Lemma ahead_start inp : ahead inp 0 inp.
Proof. split; [pose proof (len_nonneg inp); lia|done]. Qed.

Lemma ahead_len inp off l : ahead inp off l → len l = len inp - off.
Proof. intros [Ho <-]. llia. Qed.

Lemma ahead_ld inp off l k : ahead inp off l → 0 <= k → ld inp (off + k) = ld l k.
Proof.
  intros [Ho <-] Hk. unfold ld. rewrite !(proj2 (Z.leb_le _ _)) by lia. rewrite lookup_drop. f_equal. lia.
Qed.

Lemma ahead_cons inp off b l : ahead inp off (b :: l) → ahead inp (off + 1) l ∧ ld inp off = Some b.
Proof.
  intros Ha. pose proof (ahead_len _ _ _ Ha) as Hl. destruct Ha as [Ho Hd].
  rewrite len_cons in Hl. pose proof (len_nonneg l). split; [split; [lia|]|].
  - replace (Z.to_nat (off + 1)) with (Z.to_nat off + 1)%nat by lia. by rewrite <-drop_drop, Hd.
  - apply ld_eq; [lia|]. rewrite <-(Nat.add_0_r (Z.to_nat off)), <-lookup_drop, Hd. done.
Qed.

Lemma ahead_app inp off s l : ahead inp off (s ++ l) → ahead inp (off + len s) l ∧
  sub inp off (len s) = Some s.
Proof.
  intros Ha. pose proof (ahead_len _ _ _ Ha) as Hl. destruct Ha as [Ho Hd].
  rewrite len_app in Hl. pose proof (len_nonneg l). pose proof (len_nonneg s). split; [split; [lia|]|].
  - rewrite Z2Nat.inj_add, <-drop_drop, Hd by lia. unfold len. by rewrite Nat2Z.id, drop_app_length.
  - rewrite sub_ok by lia. rewrite Hd. unfold len. by rewrite Nat2Z.id, take_app_length.
Qed.

Lemma run_get {B} inp off b l (k : Z → M Z B) :
  ahead inp off (b :: l) → (get inp ≫= k) off = k b (off + 1).
Proof. intros [_ Hld]%ahead_cons. unfold get, mbind, M_bind. by rewrite Hld. Qed.

(** Filling the first [n] bytes of an object. *)
Lemma run_read_into {B} inp off dst n s l (k : list Z → M Z B) :
  ahead inp off (s ++ l) → n = len s → n <= len dst →
  (read_into inp dst n ≫= k) off = k (s ++ drop (length s) dst) (off + n).
Proof.
  intros [_ Hs]%ahead_app -> Hn. unfold read_into, mbind, M_bind, memcpy. rewrite Hs. mred.
  rewrite blit_ok by lia. mred. change (Z.to_nat 0) with 0%nat. rewrite take_0, app_nil_l.
  unfold len. by rewrite Z.add_0_l, Nat2Z.id.
Qed.

Lemma run_read_all {B} inp off dst n s l (k : list Z → M Z B) :
  ahead inp off (s ++ l) → n = len s → n = len dst →
  (read_into inp dst n ≫= k) off = k s (off + n).
Proof.
  intros Ha Hn Hd. rewrite (run_read_into _ _ _ _ s l) by (done || lia).
  by rewrite drop_ge, app_nil_r by llia.
Qed.

(** A loop that reads the elements [xs] into an array. *)
Lemma fill_spec {A} inp (body : A → M Z A) (enc : A → list Z) (ok : A → Prop) (xs : list A) :
  (∀ off a x l, x ∈ xs → ok a → ahead inp off (enc x ++ l) → body a off = Some (x, off + len (enc x))) →
  ∀ pre rest off l, Forall ok rest → (length xs <= length rest)%nat →
    ahead inp off (mjoin (enc <$> xs) ++ l) →
    fill (length xs) (len pre) (pre ++ rest) body off =
    Some (pre ++ xs ++ drop (length xs) rest, off + len (mjoin (enc <$> xs))).
Proof.
  induction xs as [|x xs IH]; intros Hb pre rest off l Hok Hl Ha.
  { cbn. by rewrite drop_0, len_nil, Z.add_0_r. }
  destruct rest as [|a rest]; [cbn in Hl; lia|]. apply Forall_cons_iff in Hok as [Hoka Hok].
  cbn [length fill fmap list_fmap mjoin list_join] in *. rewrite <-(assoc_L (++)) in Ha.
  rewrite (ld_eq _ _ a); [|apply len_nonneg|unfold len; rewrite Nat2Z.id; by apply list_lookup_middle].
  rewrite run_lift_Some. rewrite (run_call _ _ _ _ _ (Hb off a x _ ltac:(left) Hoka Ha)).
  rewrite st_ok by (pose proof (len_nonneg pre); pose proof (len_nonneg rest); rewrite len_app, len_cons; lia).
  rewrite run_lift_Some. replace (Z.to_nat (len pre)) with (length pre + 0)%nat by llia.
  rewrite insert_app_r. cbn [insert list_insert]. apply ahead_app in Ha as [Ha _].
  assert (∀ off a y l, y ∈ xs → ok a → ahead inp off (enc y ++ l) →
    body a off = Some (y, off + len (enc y))) as Hb' by (intros o b y l' Hy; apply Hb; by right).
  pose proof (IH Hb' (pre ++ [x]) rest _ l Hok ltac:(lia) Ha) as Hrun.
  rewrite <-!(assoc_L (++)), len_app in Hrun. cbn [app] in Hrun.
  change (len [x]) with 1 in Hrun. etransitivity; [exact Hrun|].
  rewrite len_app. by rewrite Z.add_assoc.
Qed.


(** A byte string as [n] elements of [k] bytes. *)
Lemma split_chunks (l : list Z) (n : nat) k : 0 <= k → len l = Z.of_nat n * k →
  ∃ xs, l = mjoin xs ∧ length xs = n ∧ Forall (λ x, len x = k) xs.
Proof.
  intros Hk. revert l. induction n as [|n IH]; intros l Hl.
  { exists []. split; [|done]. destruct l; [done|]. rewrite len_cons in Hl. pose proof (len_nonneg l). lia. }
  destruct (len_split l k) as (s & l' & -> & Hs); [nia|]. rewrite len_app in Hl.
  destruct (IH l' ltac:(nia)) as (xs & -> & Hn & Hx). exists (s :: xs). split; [done|].
  split; [cbn; lia|by constructor].
Qed.

Lemma mjoin_cons {A} (x : list A) xs : mjoin (x :: xs) = x ++ mjoin xs.
Proof. done. Qed.

Lemma mjoin_len (xs : list (list Z)) k : Forall (λ x, len x = k) xs → len (mjoin xs) = len xs * k.
Proof.
  induction 1 as [|x xs Hx _ IH]; [done|]. rewrite mjoin_cons, len_app, Hx, len_cons. lia.
Qed.

Lemma bytes_mjoin (xs : list (list Z)) : bytes (mjoin xs) ↔ Forall bytes xs.
Proof.
  induction xs as [|x xs IH]; [by split; constructor|]. rewrite mjoin_cons, bytes_app, Forall_cons_iff. by rewrite IH.
Qed.

(** Reading an array of strings of the same size. *)
Lemma run_fill {B} inp off (arr xs : list (list Z)) k l (f : list (list Z) → M Z B) :
  ahead inp off (mjoin xs ++ l) → Forall (λ x, len x = k) xs → Forall (λ x, len x = k) arr →
  (length xs <= length arr)%nat → 0 <= k →
  (fill (length xs) 0 arr (λ p, read_into inp p k) ≫= f) off =
  f (xs ++ drop (length xs) arr) (off + len xs * k).
Proof.
  intros Ha Hx Harr Hl Hk.
  pose proof (fill_spec inp (λ p, read_into inp p k) id (λ a, len a = k) xs) as Hf.
  rewrite list_fmap_id in Hf.
  assert (∀ o a x l', x ∈ xs → len a = k → ahead inp o (id x ++ l') →
    read_into inp a k o = Some (x, o + len (id x))) as Hb.
  { intros o a x l' Hin Hlen Ho. pose proof (proj1 (List.Forall_forall _ _) Hx x (proj1 (list_elem_of_In _ _) Hin)) as Hxk.
    apply ahead_app in Ho as [_ Hsub]. unfold id in *. unfold read_into, memcpy. rewrite Hxk in Hsub |- *.
    rewrite Hsub. mred. rewrite blit_ok by lia. mred. f_equal. f_equal. change (Z.to_nat 0) with 0%nat.
    rewrite take_0, app_nil_l, drop_ge, app_nil_r by llia. done. }
  specialize (Hf Hb [] arr off l Harr Hl Ha). cbn [app] in Hf. change (len []) with 0 in Hf.
  rewrite (run_call _ _ _ _ _ Hf). by rewrite (mjoin_len xs k).
Qed.

(** Reading a string byte by byte. *)
Lemma run_fill_bytes {B} inp off (arr xs : list Z) l (f : list Z → M Z B) :
  ahead inp off (xs ++ l) → (length xs <= length arr)%nat →
  (fill (length xs) 0 arr (λ _, get inp) ≫= f) off = f (xs ++ drop (length xs) arr) (off + len xs).
Proof.
  intros Ha Hl. pose proof (fill_spec inp (λ _ : Z, get inp) (λ x, [x]) (λ _, True) xs) as Hf.
  rewrite mjoin_singletons in Hf.
  assert (∀ o (a x : Z) l', x ∈ xs → True → ahead inp o ([x] ++ l') →
    get inp o = Some (x, o + len [x])) as Hb.
  { intros o _ x l' _ _ [_ Hld]%ahead_cons. unfold get. by rewrite Hld. }
  specialize (Hf Hb [] arr off l ltac:(by apply Forall_true) Hl Ha). cbn [app] in Hf.
  change (len []) with 0 in Hf. by rewrite (run_call _ _ _ _ _ Hf).
Qed.

(** ** Reading inside the input *)

Lemma ensures_get {B} inp off (k : Z → M Z B) R : bytes inp → 0 <= off < len inp →
  (∀ b, is_byte b → ensures (k b) (off + 1) R) → ensures (get inp ≫= k) off R.
Proof.
  intros Hb Ho Hk. destruct (ld_Some inp off Ho) as [b Hld]. pose proof (ld_byte _ _ _ Hb Hld) as Hbyte.
  destruct (Hk b Hbyte) as (r & w & Hr & HR). exists r, w. split; [|done].
  unfold get, mbind, M_bind. by rewrite Hld.
Qed.

Lemma read_into_inside inp dst n off : bytes inp → 0 <= off → 0 <= n <= len dst → off + n <= len inp →
  ∃ s, read_into inp dst n off = Some (s ++ drop (Z.to_nat n) dst, off + n) ∧ len s = n ∧ bytes s.
Proof.
  intros Hb Ho Hn Hl. unfold read_into, memcpy. exists (take (Z.to_nat n) (drop (Z.to_nat off) inp)).
  rewrite sub_ok by lia. mred. assert (len (take (Z.to_nat n) (drop (Z.to_nat off) inp)) = n) as Hs by llia.
  rewrite blit_ok by lia. mred. rewrite Hs. split; [done|]. split; [done|]. auto with nfc.
Qed.

(** Filling the first elements of an array, each from [k] bytes of the input. *)
Lemma ensures_fill {A} (inp : list Z) k (ok : A → Prop) (body : A → M Z A) :
  0 <= k →
  (∀ a off, ok a → 0 <= off → off + k <= len inp → ensures (body a) off (λ a' off', ok a' ∧ off' = off + k)) →
  ∀ (n : nat) i arr off, Forall ok arr → 0 <= i → i + Z.of_nat n <= len arr →
    0 <= off → off + Z.of_nat n * k <= len inp →
    ensures (fill n i arr body) off (λ arr' off', Forall ok arr' ∧ len arr' = len arr ∧
      off' = off + Z.of_nat n * k ∧ drop (Z.to_nat (i + Z.of_nat n)) arr' = drop (Z.to_nat (i + Z.of_nat n)) arr).
Proof.
  intros Hk Hb. induction n as [|n IH]; intros i arr off Hok Hi Hn Ho Hl.
  { apply ensures_ret. split; [done|]. split; [done|]. split; [lia|done]. }
  cbn [fill]. destruct (ld_Some arr i) as [a Ha]; [lia|]. rewrite Ha.
  unfold ensures. rewrite run_lift_Some.
  pose proof (ld_Some_inv _ _ _ Ha) as [_ Ha'].
  destruct (Hb a off (Forall_lookup_1 _ _ _ _ Hok Ha') Ho ltac:(nia)) as (a' & off' & Hrun & Hoka & ->).
  rewrite (run_call _ _ _ _ _ Hrun), st_ok, run_lift_Some by lia.
  destruct (IH (i + 1) (<[Z.to_nat i := a']> arr) (off + k)) as (arr' & off' & Hrun' & Hok' & Hlen & -> & Hd);
    [by apply Forall_insert|lia|rewrite len_insert; lia|lia|nia|].
  exists arr', (off + k + Z.of_nat n * k). split; [exact Hrun'|]. split; [done|].
  rewrite len_insert in Hlen. split; [done|]. split; [nia|].
  replace (i + 1 + Z.of_nat n) with (i + Z.of_nat (S n)) in Hd by lia. rewrite Hd.
  apply drop_insert_lt. lia.
Qed.

Lemma ahead_bytes inp off l : bytes inp → ahead inp off l → bytes l.
Proof. intros Hb [_ <-]. by apply bytes_drop. Qed.

(** [rget H]: reads the next byte of the input described by [H]; [rread H s]: reads the string
    [s] into an object of its size. *)
Ltac rget H := rewrite (run_get _ _ _ _ _ H); apply ahead_cons in H as [H _]; cbv beta.
Ltac rread H s :=
  rewrite (run_read_all _ _ _ _ s _ _ H);
  [apply ahead_app in H as [H _]; cbv beta | try (unfold zeros; llia) ..].

(** [rnext H]: reads the next string of the input into an object of its size. *)
Lemma run_read_next {B} inp off dst n s l (k : list Z → M Z B) :
  ahead inp off (s ++ l) → len s = n → len dst = n →
  (read_into inp dst n ≫= k) off = k s (off + len s).
Proof. intros Ha Hn Hd. subst n. by apply (run_read_all _ _ _ _ s l). Qed.
Ltac rnext H :=
  match type of H with ahead _ _ (?s ++ _) =>
    rewrite (run_read_next _ _ _ _ s _ _ H);
    [apply ahead_app in H as [H _]; cbv beta | try done ..]
  end.
