(* ===== verification/Word32.v ===== *)
(** * 32-bit words

    [uint32_t] values, the big-endian bytes of a word and the word of four bytes; shared by the
    ciphers and the SLIX passwords. *)

From stdpp Require Import base list numbers.
From S2P Require Import Prelude.

(** ** Words *)

(** [x << n] and [x >> n] on [uint32_t]. *)
Definition shl (x n : Z) : Z := u32 (Z.shiftl x n).
Definition shr (x n : Z) : Z := Z.shiftr x n.

(** ** Words stay words *)

Definition is_word (x : Z) : Prop := 0 <= x < 4294967296.

Lemma word_bits x : 0 <= x → (∀ i, 32 <= i → Z.testbit x i = false) → is_word x.
Proof.
  intros Hx Hb. split; [done|]. rewrite <-(Z.mod_small x (2 ^ (Z.max 32 (Z.log2 x + 1)))) by
    (split; [done|]; destruct (Z.eq_dec x 0) as [->|]; [lia|apply Z.log2_lt_pow2; lia]).
  assert (x mod 2 ^ Z.max 32 (Z.log2 x + 1) = x mod 2 ^ 32) as ->; [|apply Z.mod_pos_bound; lia].
  apply Z.bits_inj'. intros i Hi. destruct (Z.lt_ge_cases i 32).
  - rewrite !Z.mod_pow2_bits_low by lia. done.
  - rewrite (Z.mod_pow2_bits_high x 32) by lia. destruct (Z.lt_ge_cases i (Z.max 32 (Z.log2 x + 1))).
    + rewrite Z.mod_pow2_bits_low by lia. by apply Hb.
    + by rewrite Z.mod_pow2_bits_high by lia.
Qed.

Lemma word_high x i : is_word x → 32 <= i → Z.testbit x i = false.
Proof. intros Hx. by apply testbit_above. Qed.

Lemma word_lxor x y : is_word x → is_word y → is_word (Z.lxor x y).
Proof.
  intros Hx Hy. apply word_bits; [apply Z.lxor_nonneg; destruct Hx, Hy; lia|].
  intros i Hi. by rewrite Z.lxor_spec, !word_high.
Qed.

Lemma word_lor x y : is_word x → is_word y → is_word (Z.lor x y).
Proof.
  intros Hx Hy. apply word_bits; [apply Z.lor_nonneg; destruct Hx, Hy; lia|].
  intros i Hi. by rewrite Z.lor_spec, !word_high.
Qed.

Lemma word_shl x n : is_word (shl x n).
Proof. apply u32_range. Qed.

Lemma word_shr x n : is_word x → 0 <= n → is_word (shr x n).
Proof.
  intros [H1 H2] Hn. unfold shr. rewrite Z.shiftr_div_pow2 by done. split.
  - apply Z.div_pos; [done|]. apply Z.pow_pos_nonneg; lia.
  - apply Z.le_lt_trans with x; [|done]. apply Z.div_le_upper_bound; [apply Z.pow_pos_nonneg; lia|].
    pose proof (Z.pow_pos_nonneg 2 n). nia.
Qed.

(** A masked value is below every power of two the mask is below. *)
Lemma land_below a mask k : 0 <= k → 0 <= mask < 2 ^ k → 0 <= Z.land a mask < 2 ^ k.
Proof.
  intros Hk Hm. assert (Z.land a mask = Z.land a mask mod 2 ^ k) as Heq.
  { rewrite <-Z.land_ones by done. rewrite <-Z.land_assoc. f_equal. rewrite Z.land_ones by done.
    by rewrite Z.mod_small. }
  rewrite Heq. apply Z.mod_pos_bound. lia.
Qed.

Lemma word_land a mask : is_word mask → is_word (Z.land a mask).
Proof. intros Hm. by apply (land_below a mask 32). Qed.

Lemma lxor_twice a b : Z.lxor (Z.lxor a b) b = a.
Proof. by rewrite Z.lxor_assoc, Z.lxor_nilpotent, Z.lxor_0_r. Qed.

(** ** Bytes *)

Definition be32 (b0 b1 b2 b3 : Z) : Z := b0 * 16777216 + b1 * 65536 + b2 * 256 + b3.
Definition word_bytes (n : Z) : list Z := [u8 (shr n 24); u8 (shr n 16); u8 (shr n 8); u8 n].

Lemma shl_byte b s : is_byte b → 0 ≤ s ≤ 24 → shl b s = Z.shiftl b s.
Proof.
  unfold is_byte, shl, u32. intros Hb Hs. apply Z.mod_small. rewrite Z.shiftl_mul_pow2 by lia.
  pose proof (Z.pow_le_mono_r 2 s 24 ltac:(lia) ltac:(lia)) as Hp. change (2 ^ 24) with 16777216 in Hp.
  change (2 ^ 32) with 4294967296. nia.
Qed.

Lemma be32_lor b0 b1 b2 b3 : is_byte b0 → is_byte b1 → is_byte b2 → is_byte b3 →
  Z.lor (Z.lor (Z.lor (shl b0 24) (shl b1 16)) (shl b2 8)) b3 = be32 b0 b1 b2 b3.
Proof.
  intros. rewrite !shl_byte by (done || lia). unfold is_byte, be32 in *.
  replace (Z.shiftl b0 24) with (Z.shiftl (Z.shiftl b0 8) 16) by (rewrite Z.shiftl_shiftl by lia; done).
  rewrite <-Z.shiftl_lor, (lor_shiftl_add b0 b1 8) by (change (2 ^ 8) with 256; lia). change (2 ^ 8) with 256.
  replace (Z.shiftl (b0 * 256 + b1) 16) with (Z.shiftl (Z.shiftl (b0 * 256 + b1) 8) 8) by (rewrite Z.shiftl_shiftl by lia; done).
  rewrite <-Z.shiftl_lor, (lor_shiftl_add _ b2 8) by (change (2 ^ 8) with 256; lia). change (2 ^ 8) with 256.
  rewrite lor_shiftl_add by (change (2 ^ 8) with 256; lia). change (2 ^ 8) with 256. lia.
Qed.

Lemma be32_word b0 b1 b2 b3 : is_byte b0 → is_byte b1 → is_byte b2 → is_byte b3 → is_word (be32 b0 b1 b2 b3).
Proof. unfold is_byte, is_word, be32. lia. Qed.

Lemma word_bytes_be32 b0 b1 b2 b3 : is_byte b0 → is_byte b1 → is_byte b2 → is_byte b3 →
  word_bytes (be32 b0 b1 b2 b3) = [b0; b1; b2; b3].
Proof.
  unfold is_byte, word_bytes, be32, u8, shr. intros. rewrite !Z.shiftr_div_pow2 by lia.
  change (2 ^ 24) with 16777216. change (2 ^ 16) with 65536. change (2 ^ 8) with 256.
  f_equal; [dlia|]. f_equal; [dlia|]. f_equal; [dlia|]. f_equal. dlia.
Qed.

Lemma be32_word_bytes n : is_word n →
  be32 (u8 (shr n 24)) (u8 (shr n 16)) (u8 (shr n 8)) (u8 n) = n.
Proof.
  unfold is_word, be32, u8, shr. intros. rewrite !Z.shiftr_div_pow2 by lia.
  change (2 ^ 24) with 16777216. change (2 ^ 16) with 65536. change (2 ^ 8) with 256. dlia.
Qed.

Lemma u8_land_255 x : u8 (Z.land x 0xFF) = u8 x.
Proof. change 0xFF with (Z.ones 8). unfold u8. by rewrite Z.land_ones, Z.mod_mod. Qed.
