(* ===== verification/Crc.v ===== *)
(** * Checksums of the contactless frames

    The three CRC-16 of the protocols: ISO 15693 ([src/nfc/protocols/iso15693_3/iso15693_3_poller_i.c]),
    ISO 14443 type A ([src/nfc/protocols/classic/iso14443_crc.c]) and FeliCa
    ([src/nfc/helpers/felica_crc.c]).  The second half treats them as one: a shift register that is
    linear over exclusive or ([CrcReg]), of which the code has two. *)

From stdpp Require Import base list numbers option.
From S2P Require Import Prelude.

(** ** The code *)

(** The loop over the bytes: [n] more from [i] on. *)
Fixpoint crc_loop (f : Z → Z → Z) (n : nat) (i : Z) (data : list Z) (crc : Z) : option Z :=
  match n with
  | O => Some crc
  | S n => b ← ld data i; crc_loop f n (i + 1) data (f crc b)
  end.

(** *** ISO 15693 *)

Definition ISO15693_CRC_SIZE : Z := 2.
Definition ISO15693_CRC_INIT : Z := 0xFFFF.
Definition ISO15693_CRC_POLY : Z := 0x8408.

Definition iso15693_3_crc_bit (crc : Z) : Z :=
  if negb (Z.land crc 1 =? 0) then u16 (Z.lxor (Z.shiftr crc 1) ISO15693_CRC_POLY) else Z.shiftr crc 1.
Definition iso15693_3_crc_byte (crc b : Z) : Z := Nat.iter 8 iso15693_3_crc_bit (Z.lxor crc b).

Definition iso15693_3_crc16 (data : option (list Z)) (n : Z) : option Z :=
  match data with
  | None => Some ISO15693_CRC_INIT
  | Some data => crc ← crc_loop iso15693_3_crc_byte (Z.to_nat n) 0 data ISO15693_CRC_INIT; Some (u16 (Z.lnot crc))
  end.

(** The length of the frame and the buffer. *)
Definition iso15693_3_crc_append (buf : option (list Z)) (buf_len payload_len : Z) : option (Z * option (list Z)) :=
  match buf with
  | None => Some (0, None)
  | Some b =>
    if (buf_len <? payload_len) || (buf_len <? payload_len + ISO15693_CRC_SIZE) then Some (0, buf) else
    crc ← iso15693_3_crc16 buf payload_len;
    b ← st b payload_len (lo8 crc); b ← st b (payload_len + 1) (hi8 crc);
    Some (payload_len + ISO15693_CRC_SIZE, Some b)
  end.

Definition iso15693_3_crc_check (buf : option (list Z)) (n : Z) : option bool :=
  match buf with
  | None => Some false
  | Some b =>
    if n <=? ISO15693_CRC_SIZE then Some false else
    lo ← ld b (n - 2); hi ← ld b (n - 1);
    crc_calc ← iso15693_3_crc16 buf (n - ISO15693_CRC_SIZE);
    Some (crc_calc =? le16 lo hi)
  end.

Definition iso15693_3_crc_trim (buf : option (list Z)) (n : Z) : Z :=
  match buf with None => 0 | Some _ => if n <=? ISO15693_CRC_SIZE then 0 else n - ISO15693_CRC_SIZE end.

(** *** ISO 14443 type A *)

Definition ISO14443_CRC_SIZE : Z := 2.
Definition ISO14443_3A_CRC_INIT : Z := 0x6363.

Definition iso14443_crc_byte (crc b : Z) : Z :=
  let byte := u8 (Z.lxor b (u8 (Z.land crc 0xFF))) in
  let byte := u8 (Z.lxor byte (u8 (Z.shiftl byte 4))) in
  u16 (Z.lxor (Z.lxor (Z.lxor (Z.shiftr crc 8) (Z.shiftl byte 8)) (Z.shiftl byte 3)) (Z.shiftr byte 4)).

Definition iso14443_crc_a (data : list Z) (n : Z) : option Z :=
  crc_loop iso14443_crc_byte (Z.to_nat n) 0 data ISO14443_3A_CRC_INIT.

(** The buffer and [*len]. *)
Definition iso14443_crc_append_a (buf : list Z) (n : Z) : option (list Z * Z) :=
  crc ← iso14443_crc_a buf n;
  buf ← st buf n (lo8 crc); buf ← st buf (n + 1) (hi8 crc);
  Some (buf, n + ISO14443_CRC_SIZE).

Definition iso14443_crc_check_a (data : list Z) (n : Z) : option bool :=
  if n <=? ISO14443_CRC_SIZE then Some false else
  lo ← ld data (n - 2); hi ← ld data (n - 1);
  crc_calc ← iso14443_crc_a data (n - ISO14443_CRC_SIZE);
  Some (crc_calc =? le16 lo hi).

Definition iso14443_crc_trim_a (buf : list Z) (n : Z) : option (list Z * Z) :=
  if ISO14443_CRC_SIZE <=? n then
    buf ← memset buf (n - ISO14443_CRC_SIZE) 0 ISO14443_CRC_SIZE; Some (buf, n - ISO14443_CRC_SIZE)
  else Some (buf, n).

(** *** FeliCa *)

Definition FELICA_CRC_SIZE : Z := 2.
Definition FELICA_CRC_POLY : Z := 0x1021.
Definition FELICA_CRC_INIT : Z := 0x0000.

Definition felica_crc_bit (crc : Z) : Z :=
  if negb (Z.land crc 0x8000 =? 0) then u16 (Z.lxor (Z.shiftl crc 1) FELICA_CRC_POLY) else u16 (Z.shiftl crc 1).
Definition felica_crc_byte (crc b : Z) : Z := Nat.iter 8 felica_crc_bit (Z.lxor crc (u16 (Z.shiftl b 8))).

Definition felica_crc_calculate (data : option (list Z)) (n : Z) : option Z :=
  match data with
  | None => Some 0
  | Some data =>
    crc ← crc_loop felica_crc_byte (Z.to_nat n) 0 data FELICA_CRC_INIT;
    Some (u16 (Z.lor (Z.shiftl crc 8) (Z.shiftr crc 8)))
  end.

Definition felica_crc_append (buf : option (list Z)) (n : Z) : option (option (list Z) * Z) :=
  match buf with
  | None => Some (None, n)
  | Some b =>
    crc ← felica_crc_calculate buf n;
    b ← st b n (lo8 crc); b ← st b (n + 1) (hi8 crc);
    Some (Some b, n + FELICA_CRC_SIZE)
  end.

Definition felica_crc_check (data : option (list Z)) (n : Z) : option bool :=
  match data with
  | None => Some false
  | Some b =>
    if n <=? FELICA_CRC_SIZE then Some false else
    lo ← ld b (n - 2); hi ← ld b (n - 1);
    crc_calc ← felica_crc_calculate data (n - FELICA_CRC_SIZE);
    Some (crc_calc =? le16 lo hi)
  end.

Definition felica_crc_trim (buf : option (list Z)) (n : Z) : option (option (list Z) * Z) :=
  match buf with
  | None => Some (None, n)
  | Some b =>
    if n <? FELICA_CRC_SIZE then Some (buf, n) else
    b ← memset b (n - FELICA_CRC_SIZE) 0 FELICA_CRC_SIZE; Some (Some b, n - FELICA_CRC_SIZE)
  end.

(** ** Shift registers *)

Definition word16 (z : Z) : Prop := 0 <= z < 65536.

(** One byte through a register: [T] shifts eight bits; [emb] is where a byte enters and [emb']
    where it is eight bits earlier. *)
Class CrcReg (T emb emb' : Z → Z) : Prop := {
  reg_emb b : is_byte b → word16 (emb b) ∧ word16 (emb' b);
  reg_T x : word16 x → word16 (T x);
  reg_lin x y : word16 x → word16 y → T (Z.lxor x y) = Z.lxor (T x) (T y);
  reg_kernel x : word16 x → T x = 0 → x = 0;
  reg_shift b : is_byte b → T (emb' b) = emb b;
  reg_pair a b a' b' : is_byte a → is_byte b → is_byte a' → is_byte b' →
    Z.lxor (emb a) (emb' b) = Z.lxor (emb a') (emb' b') → a = a' ∧ b = b';
}.

Definition reg (T emb : Z → Z) (c : Z) (l : list Z) : Z := foldl (λ c b, T (Z.lxor c (emb b))) c l.

Lemma word16_lxor x y : word16 x → word16 y → word16 (Z.lxor x y).
Proof.
  intros [Hx Hx'] [Hy Hy']. unfold word16. assert (0 <= Z.lxor x y) as H0 by (by apply Z.lxor_nonneg).
  split; [done|]. destruct (decide (Z.lxor x y = 0)) as [->|Hne]; [lia|].
  apply (Z.log2_lt_pow2 _ 16); [lia|]. eapply Z.le_lt_trans; [by apply Z.log2_lxor|].
  assert (∀ z, 0 <= z < 65536 → Z.log2 z < 16) as Hl.
  { intros z Hz. destruct (decide (z = 0)) as [->|]; [done|]. apply Z.log2_lt_pow2; [lia|]. change (2 ^ 16) with 65536. lia. }
  by apply Z.max_lub_lt; apply Hl.
Qed.

Lemma bytes_two a b : is_byte a → is_byte b → bytes [a; b].
Proof. intros Ha Hb. by apply Forall_cons_2, Forall_singleton. Qed.

Section Reg.
Context {T emb emb' : Z → Z} `{!CrcReg T emb emb'}.

Lemma reg_word c l : word16 c → bytes l → word16 (reg T emb c l).
Proof.
  intros Hc Hl. revert c Hc. induction Hl as [|b l Hb Hl IH]; intros c Hc; [done|]. apply IH, (reg_T (emb := emb)).
  apply word16_lxor; [done|]. by apply (reg_emb (T := T)).
Qed.

Lemma lxor_cancel x y : Z.lxor x y = 0 → x = y.
Proof. by rewrite Z.lxor_eq_0_iff. Qed.

Lemma T_inj x y : word16 x → word16 y → T x = T y → x = y.
Proof.
  intros Hx Hy Heq. apply lxor_cancel, (reg_kernel (emb := emb)); [by apply word16_lxor|].
  rewrite (reg_lin (emb := emb)), Heq by done. apply Z.lxor_nilpotent.
Qed.

Lemma lxor_inj_r x y z : Z.lxor x z = Z.lxor y z → x = y.
Proof.
  intros Heq. rewrite <-(Z.lxor_0_r x), <-(Z.lxor_0_r y), <-(Z.lxor_nilpotent z), <-!Z.lxor_assoc. by rewrite Heq.
Qed.

Lemma reg_inj c c' l : word16 c → word16 c' → bytes l → reg T emb c l = reg T emb c' l → c = c'.
Proof.
  intros Hc Hc' Hl. revert c c' Hc Hc'. induction Hl as [|b l Hb Hl IH]; intros c c' Hc Hc' Heq; [done|].
  pose proof (proj1 (reg_emb (T := T) (emb' := emb') b Hb)). cbn in Heq.
  apply IH in Heq; [|by apply (reg_T (emb := emb)), word16_lxor..]. apply T_inj in Heq; [|by apply word16_lxor..].
  by apply lxor_inj_r in Heq.
Qed.

Lemma reg_two c a b : word16 c → is_byte a → is_byte b →
  reg T emb c [a; b] = T (T (Z.lxor c (Z.lxor (emb a) (emb' b)))).
Proof.
  intros Hc Ha Hb. destruct (reg_emb (T := T) a Ha), (reg_emb (T := T) b Hb). cbn. f_equal.
  rewrite <-(reg_shift (T := T) (emb := emb) (emb' := emb') b Hb), <-(reg_lin (emb := emb)) by (try apply word16_lxor; done). by rewrite Z.lxor_assoc.
Qed.

(** Frames of the same register value that agree but for two neighbouring bytes are the same. *)
Lemma reg_burst c k a b a' b' r : word16 c → bytes k → bytes r → is_byte a → is_byte b → is_byte a' → is_byte b' →
  reg T emb c (k ++ [a; b] ++ r) = reg T emb c (k ++ [a'; b'] ++ r) → a = a' ∧ b = b'.
Proof.
  intros Hc Hk Hr Ha Hb Ha' Hb'. unfold reg. rewrite !foldl_app. fold (reg T emb c k). set (x := reg T emb c k).
  assert (word16 x) as Hx by by apply reg_word. fold (reg T emb x [a; b]) (reg T emb x [a'; b']). intros Heq.
  apply (reg_inj _ _ r) in Heq; [|by apply reg_word, bytes_two..|done].
  rewrite !reg_two in Heq by done. destruct (reg_emb (T := T) a Ha), (reg_emb (T := T) b Hb), (reg_emb (T := T) a' Ha'), (reg_emb (T := T) b' Hb').
  assert (∀ u v, word16 u → word16 v → word16 (Z.lxor x (Z.lxor u v))) as Hw by (intros; by repeat apply word16_lxor).
  apply T_inj in Heq; [|apply (reg_T (emb := emb)); by apply Hw..]. apply T_inj in Heq; [|by apply Hw..].
  rewrite !(Z.lxor_comm x) in Heq. apply lxor_inj_r in Heq. by apply (reg_pair (T := T)) in Heq.
Qed.

(** A frame whose last two bytes are the register's value, exclusive or [fx], leaves always the same. *)
Lemma reg_residue c fx p a b : word16 c → word16 fx → bytes p → is_byte a → is_byte b →
  reg T emb c p = Z.lxor fx (Z.lxor (emb a) (emb' b)) ↔ reg T emb c (p ++ [a; b]) = T (T fx).
Proof.
  intros Hc Hfx Hp Ha Hb. unfold reg at 2. rewrite foldl_app. fold (reg T emb c p). set (x := reg T emb c p).
  assert (word16 x) as Hx by by apply reg_word. fold (reg T emb x [a; b]). rewrite reg_two by done.
  destruct (reg_emb (T := T) a Ha), (reg_emb (T := T) b Hb). set (y := Z.lxor (emb a) (emb' b)).
  assert (word16 y) as Hy by by apply word16_lxor. split.
  - intros ->. by rewrite Z.lxor_assoc, Z.lxor_nilpotent, Z.lxor_0_r.
  - intros Heq. apply T_inj in Heq; [|by apply (reg_T (emb := emb)), word16_lxor|by apply (reg_T (emb := emb))].
    apply T_inj in Heq; [|by apply word16_lxor|done]. rewrite <-Heq. by rewrite Z.lxor_assoc, Z.lxor_nilpotent, Z.lxor_0_r.
Qed.
End Reg.

(** *** Frames *)

(** What the three codecs have in common: the register starts with [init], and the frame ends with
    the bytes of [fin] of its value, low byte first, which is the value itself but for [fx]. *)
Class CrcCodec (T emb emb' fin : Z → Z) (init fx : Z) : Prop := {
  codec_reg :: CrcReg T emb emb';
  codec_init : word16 init;
  codec_fx : word16 fx;
  codec_range x : word16 x → word16 (fin x);
  codec_fin x lo hi : word16 x → is_byte lo → is_byte hi →
    fin x = le16 lo hi ↔ x = Z.lxor fx (Z.lxor (emb lo) (emb' hi));
}.

Definition frame (T emb fin : Z → Z) (init : Z) (p : list Z) : list Z :=
  p ++ [lo8 (fin (reg T emb init p)); hi8 (fin (reg T emb init p))].

Section Codec.
Context {T emb emb' fin : Z → Z} {init fx : Z} `{!CrcCodec T emb emb' fin init fx}.
Notation frame := (frame T emb fin init).

Lemma frame_len p : len (frame p) = len p + 2.
Proof. unfold frame. rewrite len_app, !len_cons, len_nil. lia. Qed.

Lemma frame_bytes p : bytes (frame p) ↔ bytes p.
Proof.
  unfold frame. rewrite bytes_app. split; [by intros []|]. intros Hp. split; [done|].
  apply bytes_two; auto with nfc.
Qed.

Lemma frame_inj p q : frame p = frame q → p = q.
Proof. unfold frame. intros Heq. by apply app_inj_2 in Heq as [? _]. Qed.

(** The check of the last two bytes. *)
Lemma frame_check p lo hi : bytes p → is_byte lo → is_byte hi →
  (fin (reg T emb init p) =? le16 lo hi) = true ↔ p ++ [lo; hi] = frame p.
Proof.
  intros Hp Hlo Hhi. pose proof codec_init as Hi. pose proof (reg_word init p Hi Hp) as Hr.
  rewrite Z.eqb_eq. unfold frame. split.
  - intros ->. by rewrite lo8_le16, hi8_le16.
  - intros Heq. apply app_inv_head in Heq. injection Heq as -> ->. symmetry. apply le16_split.
    by apply (codec_range (T := T)).
Qed.

Lemma frame_residue p : bytes p → reg T emb init (frame p) = T (T fx).
Proof.
  intros Hp. pose proof codec_init as Hi. pose proof codec_fx as Hfx. unfold frame. set (x := reg T emb init p).
  assert (word16 x) as Hr by by apply reg_word. apply reg_residue; [done..|auto with nfc|auto with nfc|].
  apply (codec_fin (T := T)); [done|auto with nfc..|]. symmetry. apply le16_split. by apply (codec_range (T := T)).
Qed.

(** Two frames that agree but for two neighbouring bytes are the same. *)
Lemma frame_burst p q k a b a' b' r : bytes p → bytes q →
  frame p = k ++ [a; b] ++ r → frame q = k ++ [a'; b'] ++ r → p = q.
Proof.
  intros Hp Hq Hf Hg. pose proof (proj2 (frame_bytes p) Hp) as Hfb. pose proof (proj2 (frame_bytes q) Hq) as Hgb.
  pose proof (frame_residue p Hp) as Hpr. rewrite <-(frame_residue q Hq) in Hpr. rewrite Hf, Hg in Hpr.
  rewrite Hf, !bytes_app in Hfb. rewrite Hg, !bytes_app in Hgb. destruct Hfb as (Hk & Hab & Hr), Hgb as (_ & Hab' & _).
  inv_bytes. apply reg_burst in Hpr as [-> ->]; try done; [|apply codec_init]. apply frame_inj. by rewrite Hf, Hg.
Qed.
End Codec.

(** ** The two registers of the code *)

(** An equation of exclusive ors, by the values of the bits. *)
Ltac xor_bits :=
  repeat match goal with |- context [Z.testbit ?x ?i] => destruct (Z.testbit x i) end; reflexivity.

Lemma byte_all (P : Z → bool) : forallb P (seqZ 0 256) = true → ∀ b, is_byte b → P b = true.
Proof.
  intros HP b [Hb Hb']. rewrite forallb_forall in HP. apply HP. apply list_elem_of_In, elem_of_seqZ. lia.
Qed.

(** Eight linear bit steps that lose nothing. *)
Lemma iter_reg (B : Z → Z) n : (∀ x, word16 x → word16 (B x)) →
  (∀ x y, word16 x → word16 y → B (Z.lxor x y) = Z.lxor (B x) (B y)) → (∀ x, word16 x → B x = 0 → x = 0) →
  (∀ x, word16 x → word16 (Nat.iter n B x)) ∧
  (∀ x y, word16 x → word16 y → Nat.iter n B (Z.lxor x y) = Z.lxor (Nat.iter n B x) (Nat.iter n B y)) ∧
  (∀ x, word16 x → Nat.iter n B x = 0 → x = 0).
Proof.
  intros Hw Hl Hk. induction n as [|n (IHw & IHl & IHk)]; [done|].
  assert (∀ x, Nat.iter (S n) B x = B (Nat.iter n B x)) as HS by done. split; [|split].
  - intros x Hx. rewrite HS. auto.
  - intros x y Hx Hy. rewrite !HS, IHl by done. auto.
  - intros x Hx. rewrite HS. auto.
Qed.

Lemma lxor_shift_add a b : is_byte a → 0 <= b → Z.lxor a (Z.shiftl b 8) = 256 * b + a.
Proof.
  intros Ha Hb. rewrite Z.lxor_comm, <-Z.add_nocarry_lxor, Z.shiftl_mul_pow2 by
    (done || (apply Z.bits_inj'; intros i Hi; rewrite Z.land_spec, Z.bits_0, Z.shiftl_spec by done;
      destruct (Z.lt_ge_cases i 8); [by rewrite Z.testbit_neg_r by lia|];
      rewrite (testbit_above a 8) by (done || lia); apply andb_false_r)). lia.
Qed.

Lemma shiftl8_word b : is_byte b → word16 (Z.shiftl b 8) ∧ word16 b.
Proof. unfold is_byte, word16. intros Hb. rewrite Z.shiftl_mul_pow2 by done. lia. Qed.

Lemma bit_false_shift x n : 0 <= n → negb (Z.land x (2 ^ n) =? 0) = Z.testbit x n.
Proof.
  intros Hn. destruct (Z.testbit x n) eqn:Hx.
  - apply negb_true_iff, Z.eqb_neq. intros H0. assert (Z.testbit (Z.land x (2 ^ n)) n = true) as Ht.
    { by rewrite Z.land_spec, Hx, Z.pow2_bits_true. }
    by rewrite H0, Z.bits_0 in Ht.
  - apply negb_false_iff, Z.eqb_eq, Z.bits_inj'. intros i Hi. rewrite Z.land_spec, Z.bits_0, Z.pow2_bits_eqb by done.
    destruct (n =? i) eqn:E; [apply Z.eqb_eq in E as ->; by rewrite Hx|apply andb_false_r].
Qed.

Lemma iso_bit_eq x : word16 x →
  iso15693_3_crc_bit x = Z.lxor (Z.shiftr x 1) (if Z.testbit x 0 then ISO15693_CRC_POLY else 0).
Proof.
  intros Hx. unfold iso15693_3_crc_bit. change 1 with (2 ^ 0) at 1. rewrite bit_false_shift by done.
  destruct (Z.testbit x 0); [|by rewrite Z.lxor_0_r]. apply u16_id. apply word16_lxor; [|by vm_compute].
  unfold word16 in *. rewrite Z.shiftr_div_pow2 by done. dlia.
Qed.

#[global] Instance iso_reg : CrcReg (Nat.iter 8 iso15693_3_crc_bit) id (λ b, Z.shiftl b 8).
Proof.
  destruct (iter_reg iso15693_3_crc_bit 8) as (Hw & Hl & Hk).
  - intros x Hx. rewrite iso_bit_eq by done. apply word16_lxor; [|by destruct (Z.testbit x 0); vm_compute].
    unfold word16 in *. rewrite Z.shiftr_div_pow2 by done. dlia.
  - intros x y Hx Hy. rewrite !iso_bit_eq by (try apply word16_lxor; done). rewrite Z.shiftr_lxor, Z.lxor_spec.
    apply Z.bits_inj'. intros i Hi. rewrite !Z.lxor_spec.
    destruct (Z.testbit x 0), (Z.testbit y 0); cbn [xorb]; rewrite ?Z.bits_0; xor_bits.
  - intros x Hx. rewrite iso_bit_eq by done. unfold word16 in Hx. intros H0%lxor_cancel.
    rewrite Z.shiftr_div_pow2 in H0 by done. destruct (Z.testbit x 0) eqn:Hb; [exfalso; unfold ISO15693_CRC_POLY in H0; dlia|].
    rewrite Z.bit0_odd, Zodd_mod in Hb. apply Zeq_bool_neq in Hb. dlia.
  - constructor; try done.
    + intros b Hb. destruct (shiftl8_word b Hb). done.
    + intros b Hb. apply Z.eqb_eq. revert b Hb. apply byte_all. by vm_compute.
    + intros a b a' b' Ha Hb Ha' Hb'. unfold id. rewrite !lxor_shift_add by first [done | apply Hb | apply Hb'].
      unfold is_byte in *. lia.
Qed.

Lemma felica_bit_eq x : word16 x →
  felica_crc_bit x = Z.lxor (u16 (Z.shiftl x 1)) (if Z.testbit x 15 then FELICA_CRC_POLY else 0).
Proof.
  intros Hx. unfold felica_crc_bit. change 0x8000 with (2 ^ 15). rewrite bit_false_shift by done.
  destruct (Z.testbit x 15); [|by rewrite Z.lxor_0_r]. apply Z.bits_inj'. intros i Hi. unfold u16.
  change 65536 with (2 ^ 16). destruct (Z.lt_ge_cases i 16).
  - by rewrite Z.mod_pow2_bits_low, !Z.lxor_spec, Z.mod_pow2_bits_low.
  - rewrite Z.mod_pow2_bits_high, Z.lxor_spec, Z.mod_pow2_bits_high by lia.
    by rewrite (testbit_above FELICA_CRC_POLY 16).
Qed.

#[global] Instance felica_reg : CrcReg (Nat.iter 8 felica_crc_bit) (λ b, Z.shiftl b 8) id.
Proof.
  destruct (iter_reg felica_crc_bit 8) as (Hw & Hl & Hk).
  - intros x Hx. rewrite felica_bit_eq by done. apply word16_lxor; [apply u16_range|by destruct (Z.testbit x 15); vm_compute].
  - intros x y Hx Hy. rewrite !felica_bit_eq by (try apply word16_lxor; done). rewrite Z.shiftl_lxor, Z.lxor_spec.
    apply Z.bits_inj'. intros i Hi. unfold u16. change 65536 with (2 ^ 16). rewrite !Z.lxor_spec.
    destruct (Z.lt_ge_cases i 16).
    + rewrite !Z.mod_pow2_bits_low, Z.lxor_spec by done.
      destruct (Z.testbit x 15), (Z.testbit y 15); cbn [xorb]; rewrite ?Z.bits_0; xor_bits.
    + rewrite !Z.mod_pow2_bits_high by lia.
      destruct (Z.testbit x 15), (Z.testbit y 15); cbn [xorb]; rewrite ?Z.bits_0; xor_bits.
  - intros x Hx. rewrite felica_bit_eq by done. unfold word16 in Hx. intros H0%lxor_cancel.
    rewrite Z.shiftl_mul_pow2 in H0 by done. unfold u16 in H0.
    destruct (Z.testbit x 15) eqn:Hb; [exfalso; unfold FELICA_CRC_POLY in H0; dlia|].
    assert (x < 32768); [|dlia]. apply Z.nle_gt. intros Hge. apply Bool.not_true_iff_false in Hb. apply Hb.
    apply Z.testbit_true; [done|]. change (2 ^ 15) with 32768. dlia.
  - constructor; try done.
    + intros b Hb. destruct (shiftl8_word b Hb). done.
    + intros b Hb. apply Z.eqb_eq. revert b Hb. apply byte_all. by vm_compute.
    + intros a b a' b' Ha Hb Ha' Hb'. unfold id. rewrite !(Z.lxor_comm (Z.shiftl _ _)).
      rewrite !lxor_shift_add by first [done | apply Ha | apply Ha']. unfold is_byte in *. lia.
Qed.

(** ** The code computes the frames *)

Lemma crc_loop_fold f k s junk c : crc_loop f (length s) (len k) (k ++ s ++ junk) c = Some (foldl f c s).
Proof.
  revert k c. induction s as [|b s IH]; intros k c; [done|]. cbn [length crc_loop app].
  rewrite ld_mid by done. mred. replace (len k + 1) with (len (k ++ [b])) by llia.
  specialize (IH (k ++ [b]) (f c b)). rewrite <-(assoc_L (++)) in IH. apply IH.
Qed.

Lemma crc_loop_prefix f s junk c : crc_loop f (Z.to_nat (len s)) 0 (s ++ junk) c = Some (foldl f c s).
Proof. unfold len. rewrite Nat2Z.id. apply (crc_loop_fold f []). Qed.

Lemma u16_lnot x : word16 x → u16 (Z.lnot x) = Z.lxor x 0xFFFF ∧ u16 (Z.lnot x) = 65535 - x.
Proof.
  intros Hx. unfold word16 in Hx. assert (u16 (Z.lnot x) = 65535 - x) as Hn.
  { unfold u16, Z.lnot. dlia. }
  split; [|done]. rewrite Hn. apply Z.bits_inj'. intros i Hi. rewrite Z.lxor_spec, <-Hn. unfold u16.
  change 65536 with (2 ^ 16). change 0xFFFF with (Z.ones 16). destruct (Z.lt_ge_cases i 16).
  - rewrite Z.mod_pow2_bits_low, Z.lnot_spec, Z.ones_spec_low by lia. by destruct (Z.testbit x i).
  - rewrite Z.mod_pow2_bits_high, Z.ones_spec_high by lia. by rewrite (testbit_above x 16).
Qed.

Lemma le16_shift lo hi : is_byte lo → is_byte hi → le16 lo hi = Z.lxor lo (Z.shiftl hi 8) ∧ word16 (le16 lo hi).
Proof.
  intros Hlo Hhi. rewrite lxor_shift_add, le16_eq by (done || apply Hhi). unfold is_byte, word16 in *. lia.
Qed.

Definition inv16 (x : Z) : Z := u16 (Z.lnot x).

#[global] Instance iso_codec :
  CrcCodec (Nat.iter 8 iso15693_3_crc_bit) id (λ b, Z.shiftl b 8) inv16 0xFFFF 0xFFFF.
Proof.
  constructor; [apply _|by vm_compute..|intros; apply u16_range|]. intros x lo hi Hx Hlo Hhi.
  unfold inv16. destruct (u16_lnot x Hx) as [-> _]. unfold id. destruct (le16_shift lo hi Hlo Hhi) as [<- Hw]. split.
  - intros <-. by rewrite Z.lxor_comm, Z.lxor_assoc, Z.lxor_nilpotent, Z.lxor_0_r.
  - intros ->. by rewrite Z.lxor_comm, <-Z.lxor_assoc, Z.lxor_nilpotent, Z.lxor_0_l.
Qed.

#[global] Instance crc_a_codec :
  CrcCodec (Nat.iter 8 iso15693_3_crc_bit) id (λ b, Z.shiftl b 8) id 0x6363 0.
Proof.
  constructor; [apply _|by vm_compute..|done|]. intros x lo hi Hx Hlo Hhi. unfold id.
  destruct (le16_shift lo hi Hlo Hhi) as [<- _]. by rewrite Z.lxor_0_l.
Qed.

Definition swap16 (x : Z) : Z := u16 (Z.lor (Z.shiftl x 8) (Z.shiftr x 8)).

Lemma swap16_eq x : word16 x → swap16 x = 256 * (x mod 256) + x / 256.
Proof.
  intros Hx. unfold word16 in Hx. unfold swap16. rewrite Z.shiftr_div_pow2 by done. change (2 ^ 8) with 256.
  rewrite lor_shiftl_add by (done || (change (2 ^ 8) with 256; dlia)). unfold u16. change (2 ^ 8) with 256. dlia.
Qed.

#[global] Instance felica_codec :
  CrcCodec (Nat.iter 8 felica_crc_bit) (λ b, Z.shiftl b 8) id swap16 0 0.
Proof.
  constructor; [apply _|by vm_compute..|intros; apply u16_range|]. intros x lo hi Hx Hlo Hhi. unfold id.
  rewrite Z.lxor_0_l, (Z.lxor_comm (Z.shiftl _ _)), lxor_shift_add, swap16_eq, le16_eq by first [done | apply Hlo].
  unfold is_byte, word16 in *. dlia.
Qed.

Definition iso15693_frame : list Z → list Z := frame (Nat.iter 8 iso15693_3_crc_bit) id inv16 0xFFFF.
Definition iso14443_frame : list Z → list Z := frame (Nat.iter 8 iso15693_3_crc_bit) id id 0x6363.
Definition felica_frame : list Z → list Z := frame (Nat.iter 8 felica_crc_bit) (λ b, Z.shiftl b 8) swap16 0.

(** What a byte does to the register when its high byte is zero. *)
Definition crc_a_table (l : Z) : Z :=
  let byte := u8 (Z.lxor l (u8 (Z.shiftl l 4))) in
  Z.lxor (Z.shiftl byte 8) (Z.lxor (Z.shiftl byte 3) (Z.shiftr byte 4)).

Lemma crc_a_table_eq l : is_byte l → Nat.iter 8 iso15693_3_crc_bit l = crc_a_table l ∧ word16 (crc_a_table l).
Proof.
  intros Hl. assert (bool_decide (Nat.iter 8 iso15693_3_crc_bit l = crc_a_table l) && (0 <=? crc_a_table l) &&
    (crc_a_table l <? 65536) = true) as Ht by (revert l Hl; apply byte_all; by vm_compute).
  unfold word16. by bool_prop.
Qed.

Lemma low_high c b : word16 c → is_byte b →
  Z.lxor c b = Z.lxor (u8 (Z.lxor b (u8 (Z.land c 0xFF)))) (Z.shiftl (Z.shiftr c 8) 8).
Proof.
  intros Hc Hb. apply Z.bits_inj'. intros i Hi. unfold u8. change 256 with (2 ^ 8). change 0xFF with (Z.ones 8).
  rewrite !Z.lxor_spec, Z.shiftl_spec by done. destruct (Z.lt_ge_cases i 8).
  - rewrite Z.mod_pow2_bits_low, Z.lxor_spec, Z.mod_pow2_bits_low, Z.land_spec, Z.ones_spec_low by lia.
    rewrite (Z.testbit_neg_r _ (i - 8)) by lia. rewrite andb_true_r. xor_bits.
  - rewrite Z.mod_pow2_bits_high by lia. rewrite (testbit_above b 8), Z.shiftr_spec by (done || lia).
    replace (i - 8 + 8) with i by lia. xor_bits.
Qed.

(** The byte-wise CRC of ISO 14443 is the bit-wise one of ISO 15693, from another start. *)
Lemma crc_a_byte c b : word16 c → is_byte b → iso14443_crc_byte c b = iso15693_3_crc_byte c b.
Proof.
  intros Hc Hb. unfold iso15693_3_crc_byte. rewrite low_high by done. set (l := u8 (Z.lxor b _)).
  assert (is_byte l) as Hl by apply u8_range.
  assert (is_byte (Z.shiftr c 8)) as Hh by (unfold is_byte, word16 in *; rewrite Z.shiftr_div_pow2 by done; dlia).
  destruct (shiftl8_word _ Hh) as [? Hhw]. destruct (shiftl8_word _ Hl). destruct (crc_a_table_eq l Hl) as [Ht Htw].
  rewrite (reg_lin (CrcReg := iso_reg)), (reg_shift (CrcReg := iso_reg)), Ht by done. unfold id.
  unfold iso14443_crc_byte. fold l. rewrite !Z.lxor_assoc.
  change (u16 (Z.lxor (Z.shiftr c 8) (crc_a_table l)) = Z.lxor (crc_a_table l) (Z.shiftr c 8)).
  rewrite Z.lxor_comm. apply u16_id. by apply word16_lxor.
Qed.

Lemma crc_a_fold c l : word16 c → bytes l →
  foldl iso14443_crc_byte c l = reg (Nat.iter 8 iso15693_3_crc_bit) id c l.
Proof.
  intros Hc Hl. revert c Hc. induction Hl as [|b l Hb Hl IH]; intros c Hc; [done|]. cbn. rewrite crc_a_byte by done.
  apply IH. apply (reg_word (T := Nat.iter 8 iso15693_3_crc_bit) (emb := id) c [b]); [done|by apply Forall_singleton].
Qed.

Lemma felica_fold c l : bytes l → foldl felica_crc_byte c l = reg (Nat.iter 8 felica_crc_bit) (λ b, Z.shiftl b 8) c l.
Proof.
  intros Hl. revert c. induction Hl as [|b l Hb Hl IH]; intros c; [done|]. cbn. rewrite IH. unfold reg. f_equal.
  unfold felica_crc_byte. destruct (shiftl8_word b Hb) as [? _]. by rewrite (u16_id (Z.shiftl b 8)).
Qed.

(** *** The three codecs *)

(** Two bytes stored behind the payload. *)
Lemma two_behind (p buf : list Z) a b : len p + 2 <= len buf →
  ∃ b1, st (over p buf) (len p) a = Some b1 ∧ st b1 (len p + 1) b = Some (over (p ++ [a; b]) buf).
Proof.
  intros Hl. eexists. split; [apply put_exact; lia|]. replace (len p + 1) with (len (p ++ [a])) by llia.
  rewrite put_exact by llia. by rewrite <-(assoc_L (++)).
Qed.

Section CodecCode.
Context {T emb emb' fin : Z → Z} {init fx : Z} `{!CrcCodec T emb emb' fin init fx}.
Context (calc : list Z → Z → option Z).
Context (Hcalc : ∀ p junk, bytes p → calc (p ++ junk) (len p) = Some (fin (reg T emb init p))).

(** What is common to the [append] functions and to the [check] functions. *)
Lemma codec_append p buf : bytes p → len p + 2 <= len buf → ∃ crc b1,
  calc (over p buf) (len p) = Some crc ∧ st (over p buf) (len p) (lo8 crc) = Some b1 ∧
  st b1 (len p + 1) (hi8 crc) = Some (over (frame T emb fin init p) buf).
Proof.
  intros Hp Hl. destruct (two_behind p buf (lo8 (fin (reg T emb init p))) (hi8 (fin (reg T emb init p))) Hl) as (b1 & ? & ?).
  exists (fin (reg T emb init p)), b1. split; [|done]. by apply Hcalc.
Qed.

Lemma codec_check s junk : bytes s → 2 < len s → ∃ ok,
  (lo ← ld (s ++ junk) (len s - 2); hi ← ld (s ++ junk) (len s - 1); c ← calc (s ++ junk) (len s - 2); Some (c =? le16 lo hi)) = Some ok ∧
  (ok = true ↔ ∃ p, p ≠ [] ∧ s = frame T emb fin init p).
Proof.
  intros Hs Hl. destruct (len_split s (len s - 2)) as (p & f & -> & Hp); [lia|]. rewrite len_app in Hl, Hp.
  destruct f as [|a [|b [|]]]; try (exfalso; llia). rewrite bytes_app in Hs. destruct Hs as [Hpb Hf]. inv_bytes.
  rewrite <-(assoc_L (++)). cbn [app]. replace (len (p ++ [a; b]) - 2) with (len p) by llia.
  replace (len (p ++ [a; b]) - 1) with (len (p ++ [a])) by llia.
  rewrite (ld_mid p a (b :: junk) _ eq_refl). mred. pose proof (ld_mid (p ++ [a]) b junk _ eq_refl) as Hb. rewrite <-(assoc_L (++)) in Hb. cbn [app] in Hb. rewrite Hb. mred.
  rewrite Hcalc by done. mred. eexists. split; [done|]. rewrite frame_check by done. split.
  - intros ->. exists p. split; [|done]. intros ->. llia.
  - intros (q & _ & Hq). by pose proof Hq as [-> _]%app_inj_2.
Qed.
End CodecCode.

Lemma iso_calc p junk : bytes p →
  iso15693_3_crc16 (Some (p ++ junk)) (len p) = Some (inv16 (reg (Nat.iter 8 iso15693_3_crc_bit) id 0xFFFF p)).
Proof. intros _. unfold iso15693_3_crc16. by rewrite crc_loop_prefix. Qed.

Lemma iso_append p buf n : bytes p → len p + 2 <= n → n = len buf →
  iso15693_3_crc_append (Some (over p buf)) n (len p) = Some (len p + 2, Some (over (iso15693_frame p) buf)).
Proof.
  intros Hp Hl ->. unfold iso15693_3_crc_append, ISO15693_CRC_SIZE. rewrite !(proj2 (Z.ltb_ge _ _)) by lia. cbn [orb].
  destruct (codec_append (λ d, iso15693_3_crc16 (Some d)) iso_calc p buf Hp Hl) as (crc & b1 & Hc & Hb & Hb1).
  cbv beta in Hc. rewrite Hc. mred. rewrite Hb. mred. by rewrite Hb1.
Qed.

Lemma iso_check s junk : bytes s → ∃ ok, iso15693_3_crc_check (Some (s ++ junk)) (len s) = Some ok ∧
  (ok = true ↔ ∃ p, p ≠ [] ∧ s = iso15693_frame p).
Proof.
  intros Hs. unfold iso15693_3_crc_check, ISO15693_CRC_SIZE. case_bool.
  - exists false. split; [done|]. split; [done|]. intros (p & Hp & ->). unfold iso15693_frame in *. rewrite frame_len in *.
    destruct p; [done|]. bool_prop. llia.
  - bool_prop. apply (codec_check (λ d, iso15693_3_crc16 (Some d)) iso_calc); [done|lia].
Qed.

Lemma crc_a_calc p junk : bytes p →
  iso14443_crc_a (p ++ junk) (len p) = Some (id (reg (Nat.iter 8 iso15693_3_crc_bit) id 0x6363 p)).
Proof. intros Hp. unfold iso14443_crc_a. by rewrite crc_loop_prefix, crc_a_fold. Qed.

Lemma crc_a_append p buf : bytes p → len p + 2 <= len buf →
  iso14443_crc_append_a (over p buf) (len p) = Some (over (iso14443_frame p) buf, len p + 2).
Proof.
  intros Hp Hl. unfold iso14443_crc_append_a. destruct (codec_append iso14443_crc_a crc_a_calc p buf Hp Hl) as (crc & b1 & Hc & Hb & Hb1).
  cbv beta in Hc. rewrite Hc. mred. rewrite Hb. mred. by rewrite Hb1.
Qed.

Lemma crc_a_check s junk : bytes s → ∃ ok, iso14443_crc_check_a (s ++ junk) (len s) = Some ok ∧
  (ok = true ↔ ∃ p, p ≠ [] ∧ s = iso14443_frame p).
Proof.
  intros Hs. unfold iso14443_crc_check_a, ISO14443_CRC_SIZE. case_bool.
  - exists false. split; [done|]. split; [done|]. intros (p & Hp & ->). unfold iso14443_frame in *. rewrite frame_len in *.
    destruct p; [done|]. bool_prop. llia.
  - bool_prop. apply (codec_check iso14443_crc_a crc_a_calc); [done|lia].
Qed.

Lemma felica_calc p junk : bytes p →
  felica_crc_calculate (Some (p ++ junk)) (len p) = Some (swap16 (reg (Nat.iter 8 felica_crc_bit) (λ b, Z.shiftl b 8) 0 p)).
Proof. intros Hp. unfold felica_crc_calculate. by rewrite crc_loop_prefix, felica_fold. Qed.

Lemma felica_append p buf : bytes p → len p + 2 <= len buf →
  felica_crc_append (Some (over p buf)) (len p) = Some (Some (over (felica_frame p) buf), len p + 2).
Proof.
  intros Hp Hl. unfold felica_crc_append. destruct (codec_append (λ d, felica_crc_calculate (Some d)) felica_calc p buf Hp Hl) as (crc & b1 & Hc & Hb & Hb1).
  cbv beta in Hc. rewrite Hc. mred. rewrite Hb. mred. by rewrite Hb1.
Qed.

Lemma felica_check s junk : bytes s → ∃ ok, felica_crc_check (Some (s ++ junk)) (len s) = Some ok ∧
  (ok = true ↔ ∃ p, p ≠ [] ∧ s = felica_frame p).
Proof.
  intros Hs. unfold felica_crc_check, FELICA_CRC_SIZE. case_bool.
  - exists false. split; [done|]. split; [done|]. intros (p & Hp & ->). unfold felica_frame in *. rewrite frame_len in *.
    destruct p; [done|]. bool_prop. llia.
  - bool_prop. apply (codec_check (λ d, felica_crc_calculate (Some d)) felica_calc); [done|lia].
Qed.

(** What the trims leave of a frame: its payload, in two of them with zeros behind it. *)
Lemma trim_over (p buf : list Z) a b :
  memset (over (p ++ [a; b]) buf) (len p) 0 2 = Some (over (p ++ [0; 0]) buf).
Proof.
  unfold memset, over. change (replicate (Z.to_nat 2) 0) with [0; 0]. rewrite <-(assoc_L (++)).
  rewrite (blit_app_mid p [a; b] _ [0; 0]) by done. by rewrite <-(assoc_L (++)), !length_app.
Qed.

Lemma crc_a_trim p buf : iso14443_crc_trim_a (over (iso14443_frame p) buf) (len p + 2) = Some (over (p ++ [0; 0]) buf, len p).
Proof.
  unfold iso14443_crc_trim_a, ISO14443_CRC_SIZE. pose proof (len_nonneg p). rewrite (proj2 (Z.leb_le _ _)) by lia.
  replace (len p + 2 - 2) with (len p) by lia. unfold iso14443_frame, frame. by rewrite trim_over.
Qed.

Lemma felica_trim p buf : felica_crc_trim (Some (over (felica_frame p) buf)) (len p + 2) = Some (Some (over (p ++ [0; 0]) buf), len p).
Proof.
  unfold felica_crc_trim, FELICA_CRC_SIZE. pose proof (len_nonneg p). rewrite (proj2 (Z.ltb_ge _ _)) by lia.
  replace (len p + 2 - 2) with (len p) by lia. unfold felica_frame, frame. by rewrite trim_over.
Qed.

(** ** Properties *)

(** The byte-wise CRC of ISO 14443 type A is the bit-wise division: on any bytes and any length
    within them, [iso14443_crc_a] is the remainder that shifting one bit after the other through the
    register of the reflected polynomial 0x8408 leaves, from the start value 0x6363. *)
Theorem crc_a_bitwise data n : bytes data → 0 <= n <= len data →
  iso14443_crc_a data n = Some (foldl iso15693_3_crc_byte ISO14443_3A_CRC_INIT (take (Z.to_nat n) data)).
Proof.
  intros Hb Hn. rewrite <-(take_drop (Z.to_nat n) data) at 1. assert (n = len (take (Z.to_nat n) data)) as Hl by llia.
  rewrite Hl at 3. rewrite crc_a_calc by auto with nfc. done.
Qed.

(** What a checksum is for: [append] stores the frame of the payload in front of the buffer, [check]
    accepts exactly the frames of non-empty payloads, and accepted frames that agree but for two
    neighbouring bytes are the same. *)
Definition detects (append : list Z → Z → option (list Z)) (check : list Z → Z → option bool) (mk : list Z → list Z) : Prop :=
  (∀ p buf, bytes p → len p + 2 <= len buf → append (over p buf) (len p) = Some (over (mk p) buf)) ∧
  (∀ f, bytes f → ∃ ok, check f (len f) = Some ok ∧ (ok = true ↔ ∃ p, p ≠ [] ∧ f = mk p)) ∧
  (∀ k a b a' b' r, bytes (k ++ [a; b] ++ r) → bytes (k ++ [a'; b'] ++ r) →
    check (k ++ [a; b] ++ r) (len (k ++ [a; b] ++ r)) = Some true →
    check (k ++ [a'; b'] ++ r) (len (k ++ [a'; b'] ++ r)) = Some true → k ++ [a; b] ++ r = k ++ [a'; b'] ++ r).

Lemma codec_detects {T emb emb' fin init fx} `{!CrcCodec T emb emb' fin init fx} append check :
  (∀ p buf, bytes p → len p + 2 <= len buf → append (over p buf) (len p) = Some (over (frame T emb fin init p) buf)) →
  (∀ f, bytes f → ∃ ok, check f (len f) = Some ok ∧ (ok = true ↔ ∃ p, p ≠ [] ∧ f = frame T emb fin init p)) →
  detects append check (frame T emb fin init).
Proof.
  intros Ha Hc. split; [done|]. split; [done|]. intros k a b a' b' r Hf Hg Hcf Hcg.
  destruct (Hc _ Hf) as (? & Hcf' & Hfp), (Hc _ Hg) as (? & Hcg' & Hgp). rewrite Hcf' in Hcf. rewrite Hcg' in Hcg.
  injection Hcf as ->. injection Hcg as ->. destruct (proj1 Hfp eq_refl) as (p & _ & Hp), (proj1 Hgp eq_refl) as (q & _ & Hq).
  rewrite Hp, Hq. rewrite Hp in Hf. rewrite Hq in Hg.
  pose proof (proj1 (frame_bytes (T := T) (emb := emb) (fin := fin) (init := init) p) Hf).
  pose proof (proj1 (frame_bytes (T := T) (emb := emb) (fin := fin) (init := init) q) Hg). f_equal.
  by apply (frame_burst (T := T) (emb := emb) (fin := fin) (init := init) p q k a b a' b' r).
Qed.

(** C38: The three CRC-16 detect errors in neighbouring bytes.  For ISO 15693, ISO 14443 type A and
    FeliCa alike: the [append] function turns a payload in a buffer with room for it into its frame
    and leaves the rest of the buffer; the [check] function returns on any frame without reading
    outside it and accepts exactly the frames of non-empty payloads; and of two different frames that
    agree but for two neighbouring bytes (a burst of up to sixteen bits), it accepts at most one. *)
Theorem crc_detects_bursts :
  detects (λ buf n, '(_, buf) ← iso15693_3_crc_append (Some buf) (len buf) n; buf)
    (λ f, iso15693_3_crc_check (Some f)) iso15693_frame ∧
  detects (λ buf n, '(buf, _) ← iso14443_crc_append_a buf n; Some buf) iso14443_crc_check_a iso14443_frame ∧
  detects (λ buf n, '(buf, _) ← felica_crc_append (Some buf) n; buf) (λ f, felica_crc_check (Some f)) felica_frame.
Proof.
  split; [|split]; apply codec_detects.
  - intros p buf Hp Hl. rewrite iso_append; [done..|by rewrite over_len by lia|]. by rewrite over_len by lia.
  - intros f Hf. pose proof (iso_check f [] Hf) as Hc. by rewrite app_nil_r in Hc.
  - intros p buf Hp Hl. by rewrite crc_a_append.
  - intros f Hf. pose proof (crc_a_check f [] Hf) as Hc. by rewrite app_nil_r in Hc.
  - intros p buf Hp Hl. by rewrite felica_append.
  - intros f Hf. pose proof (felica_check f [] Hf) as Hc. by rewrite app_nil_r in Hc.
Qed.
