(* ===== verification/Response.v ===== *)
(** * Response buffers

    The listeners without an APDU layer build their answers in a static array, [s_resp], byte after
    byte behind a running [offset], and hand its first bytes to [nfc_transport_send_response].  The
    class [RespBuf] is what a listener's statics supply for it. *)

From stdpp Require Import base list numbers option.
From S2P Require Import Prelude.

(** The array of a state, and what was sent. *)
Class RespBuf (S : Type) := {
  resp : S → list Z;
  with_resp : list Z → S → S;
  with_sent : list Z → S → S;
  resp_with r s : resp (with_resp r s) = r;
  with_resp_twice r r' s : with_resp r (with_resp r' s) = with_resp r s;
  with_resp_same s : with_resp (resp s) s = s;
  resp_sent b s : resp (with_sent b s) = resp s;
  sent_resp b r s : with_sent b (with_resp r s) = with_resp r (with_sent b s);
}.

(** A copy of [bs] to the start of an array. *)
Lemma memcpy_start bs junk buf : len bs <= len buf → memcpy buf 0 (bs ++ junk) 0 (len bs) = Some (over bs buf).
Proof.
  intros Hl. pose proof (len_nonneg bs). pose proof (copy_exact buf [] (bs ++ junk) (len bs)) as Hc.
  rewrite over_nil in Hc. change (len (@nil Z)) with 0 in Hc. rewrite Hc by llia. f_equal. cbn [app].
  unfold len. by rewrite Nat2Z.id, take_app_length.
Qed.

Section Ops.
Context {S : Type} `{!RespBuf S}.

(** [s_resp[offset++] = v], [memcpy(&s_resp[offset], &src[soff], n); offset += n] and
    [memset(&s_resp[offset], v, n); offset += n]: the new offset. *)
Definition resp_put (offset v : Z) : M S Z :=
  s ← gets id; r ← lift (st (resp s) offset v); modify (with_resp r) ;; mret (offset + 1).
Definition resp_copy (offset : Z) (src : list Z) (soff n : Z) : M S Z :=
  s ← gets id; r ← lift (memcpy (resp s) offset src soff n); modify (with_resp r) ;; mret (offset + n).
Definition resp_fill (offset v n : Z) : M S Z :=
  s ← gets id; r ← lift (memset (resp s) offset v n); modify (with_resp r) ;; mret (offset + n).

(** [nfc_transport_send_response(data, n)] *)
Definition send_response (data : list Z) (n : Z) : M S unit := d ← lift (sub data 0 n); modify (with_sent d).

(** ** What they do to a buffer that starts with the bytes so far *)

Lemma run_resp_put {B} bs r v s (k : Z → M S B) : len bs < len r →
  (resp_put (len bs) v ≫= k) (with_resp (over bs r) s) = k (len (bs ++ [v])) (with_resp (over (bs ++ [v]) r) s).
Proof.
  intros Hl. apply run_call. unfold resp_put. rewrite run_gets. cbn [id]. rewrite resp_with, put_exact by done.
  rewrite run_lift_Some, run_modify, with_resp_twice. by rewrite len_app, len_cons, len_nil.
Qed.

Lemma run_resp_copy {B} bs r src soff n s (k : Z → M S B) : len bs + n <= len r → 0 <= soff → 0 <= n → soff + n <= len src →
  let b := take (Z.to_nat n) (drop (Z.to_nat soff) src) in
  (resp_copy (len bs) src soff n ≫= k) (with_resp (over bs r) s) =
  k (len (bs ++ b)) (with_resp (over (bs ++ b) r) s).
Proof.
  intros Hl Ho Hn Hs b. apply run_call. unfold resp_copy. rewrite run_gets. cbn [id]. rewrite resp_with.
  assert (memcpy (over bs r) (len bs) src soff n = Some (over (bs ++ b) r)) as ->.
  { unfold b. rewrite <-(copy_exact r bs (drop (Z.to_nat soff) src) n) by llia. unfold memcpy. f_equal.
    rewrite !sub_ok by llia. by rewrite drop_0. }
  rewrite run_lift_Some, run_modify, with_resp_twice. unfold mret, M_ret. do 2 f_equal. unfold b. llia.
Qed.

(** A source that is copied whole. *)
Lemma run_resp_all {B} bs r src n s (k : Z → M S B) : len src = n → len bs + n <= len r →
  (resp_copy (len bs) src 0 n ≫= k) (with_resp (over bs r) s) = k (len (bs ++ src)) (with_resp (over (bs ++ src) r) s).
Proof.
  intros Hs Hl. pose proof (len_nonneg src). rewrite run_resp_copy by lia. by rewrite drop_0, take_ge by llia.
Qed.

Lemma run_send_over {B} bs r s (k : unit → M S B) :
  (send_response (over bs r) (len bs) ≫= k) s = k tt (with_sent bs s).
Proof. apply run_call. unfold send_response. by rewrite sub_over, run_lift_Some. Qed.

(** [does m s s']: [m] returns, and but for the array leaves [s']. *)
Definition does (m : M S unit) (s s' : S) : Prop :=
  ∃ r, len r = len (resp s) ∧ m s = Some (tt, with_resp r s').

Lemma does_ret s : does (mret tt) s s.
Proof. exists (resp s). split; [done|]. by rewrite with_resp_same. Qed.

Lemma does_call m m' s s' : m s = m' s → does m' s s' → does m s s'.
Proof. intros Heq (r & ? & Hr). exists r. by rewrite Heq. Qed.

(** Starting to build an answer. *)
Lemma run_resp_first {B} v s (k : Z → M S B) : 0 < len (resp s) →
  (resp_put 0 v ≫= k) s = k (len [v]) (with_resp (over [v] (resp s)) s).
Proof.
  intros Hl. pose proof (run_resp_put [] (resp s) v s k Hl) as Hr. rewrite over_nil, with_resp_same in Hr. exact Hr.
Qed.
End Ops.

(** ** A listener as the card in front of a poller *)

Class RespSent (S : Type) `{!RespBuf S} := {
  sent : S → list (list Z);
  sent_with_resp r s : sent (with_resp r s) = sent s;
  sent_with_sent b s : sent (with_sent b s) = sent s ++ [b];
}.

Section Link.
Context {S : Type} `{!RespBuf S, !RespSent S}.

(** What a transport that brings a frame to the listener's handler reports: the frame that the handler
    has sent, and a timeout when it has sent none. *)
Definition link (on_tag_cmd : list Z → M S unit) (f : list Z) : M S (Z * list Z) :=
  n ← gets (λ s, length (sent s)); on_tag_cmd f ;;
  r ← gets (λ s, drop n (sent s));
  mret (match r with b :: _ => (0, b) | [] => (- ETIMEDOUT, []) end).

Lemma run_link_sent on_tag_cmd f l s s' : on_tag_cmd f s = Some (tt, s') → sent s' = sent s ++ l →
  link on_tag_cmd f s = Some (match l with b :: _ => (0, b) | [] => (- ETIMEDOUT, []) end, s').
Proof.
  intros Hrun Hs. unfold link. rewrite run_gets, (run_call _ _ _ _ _ Hrun), run_gets. by rewrite Hs, drop_app_length.
Qed.

Lemma run_link on_tag_cmd f (r : option (list Z)) s :
  does (on_tag_cmd f) s (match r with Some b => with_sent b s | None => s end) →
  ∃ rs, len rs = len (resp s) ∧
    link on_tag_cmd f s = Some (match r with Some b => (0, b) | None => (- ETIMEDOUT, []) end,
                                with_resp rs (match r with Some b => with_sent b s | None => s end)).
Proof.
  intros (rs & Hl & Hrun). exists rs. split; [done|]. destruct r as [b|].
  - apply (run_link_sent on_tag_cmd f [b]); [done|]. by rewrite sent_with_resp, sent_with_sent.
  - apply (run_link_sent on_tag_cmd f []); [done|]. by rewrite sent_with_resp, app_nil_r.
Qed.
End Link.
