(* ===== verification/Aliro.v ===== *)
(** * Aliro credential model ([src/nfc/protocols/aliro/aliro.c], [aliro.h])

    The data of an Aliro credential and its persistent form. *)

From stdpp Require Import base list numbers option.
From S2P Require Import Prelude Kconfig Service Serial.

Definition ALIRO_FORMAT_VERSION : Z := 0x01.
Definition ALIRO_P256_PUBLIC_KEY_SIZE : Z := 65.

Record aliro_data_t := {
  al_features : Z;
  al_protocol_major : Z;
  al_protocol_minor : Z;
  al_credential_pubkey : list Z;
  al_transcript_len : Z;
  al_transcript : list Z;
}.

Section Aliro.
Context `{Kconfig}.

Definition aliro_zero : aliro_data_t :=
  {| al_features := 0; al_protocol_major := 0; al_protocol_minor := 0;
     al_credential_pubkey := zeros ALIRO_P256_PUBLIC_KEY_SIZE; al_transcript_len := 0;
     al_transcript := zeros CONFIG_NFC_ALIRO_MAX_TRANSCRIPT |}.

Definition aliro_data_reset (d : option aliro_data_t) : option aliro_data_t :=
  match d with None => None | Some _ => Some aliro_zero end.

Definition aliro_persist_id : Z := NFC_PERSIST_ID_ALIRO.

(** [aliro_serialize(data, out, out_max, out_len)]: the return value and what [out] and
    [out_len] point to afterwards. *)
Definition aliro_serialize (data : option aliro_data_t) (out : option (list Z)) (out_max : Z)
    (out_len : option Z) : option (Z * option (list Z) * option Z) :=
  match data, out, out_len with
  | None, _, _ | _, None, _ | _, _, None => Some (- EINVAL, out, out_len)
  | Some d, Some o, Some _ =>
    let need := 1 + 2 + 2 + ALIRO_P256_PUBLIC_KEY_SIZE + 2 + al_transcript_len d in
    if out_max <? need then Some (- ENOSPC, out, out_len) else
    o ← st o 0 ALIRO_FORMAT_VERSION;
    o ← st o 1 (lo8 (al_features d));
    o ← st o 2 (hi8 (al_features d));
    o ← st o 3 (al_protocol_major d);
    o ← st o 4 (al_protocol_minor d);
    o ← memcpy o 5 (al_credential_pubkey d) 0 ALIRO_P256_PUBLIC_KEY_SIZE;
    o ← st o (5 + ALIRO_P256_PUBLIC_KEY_SIZE) (lo8 (al_transcript_len d));
    o ← st o (6 + ALIRO_P256_PUBLIC_KEY_SIZE) (hi8 (al_transcript_len d));
    o ← (if 0 <? al_transcript_len d then
           memcpy o (7 + ALIRO_P256_PUBLIC_KEY_SIZE) (al_transcript d) 0 (al_transcript_len d)
         else Some o);
    Some (0, Some o, Some need)
  end.

(** The body of [aliro_deserialize] after the NULL checks. *)
Definition aliro_parse (inp : list Z) (in_len : Z) : M Z (Z * aliro_data_t) :=
  let d := aliro_zero in
  if in_len <? 1 + 2 + 2 + ALIRO_P256_PUBLIC_KEY_SIZE + 2 then mret (- EBADMSG, d) else
  v ← get inp;
  if negb (v =? ALIRO_FORMAT_VERSION) then mret (- EBADMSG, d) else
  f0 ← get inp; f1 ← get inp;
  major ← get inp; minor ← get inp;
  key ← read_into inp (al_credential_pubkey d) ALIRO_P256_PUBLIC_KEY_SIZE;
  t0 ← get inp; t1 ← get inp;
  let tlen := le16 t0 t1 in
  let d := {| al_features := le16 f0 f1; al_protocol_major := major; al_protocol_minor := minor;
              al_credential_pubkey := key; al_transcript_len := 0;
              al_transcript := al_transcript d |} in
  if CONFIG_NFC_ALIRO_MAX_TRANSCRIPT <? tlen then mret (- EBADMSG, d) else
  offset ← gets id;
  if negb (offset + tlen =? in_len) then mret (- EBADMSG, d) else
  t ← (if 0 <? tlen then read_into inp (al_transcript d) tlen else mret (al_transcript d));
  mret (0, {| al_features := le16 f0 f1; al_protocol_major := major; al_protocol_minor := minor;
              al_credential_pubkey := key; al_transcript_len := tlen; al_transcript := t |}).

Definition aliro_deserialize (data : option aliro_data_t) (inp : option (list Z)) (in_len : Z)
    : option (Z * option aliro_data_t) :=
  match data, inp with
  | None, _ | _, None => Some (- EINVAL, data)
  | Some _, Some inp => '(ret, d, _) ← aliro_parse inp in_len 0; Some (ret, Some d)
  end.
End Aliro.

(** ** Well-formed credentials and their persistent form *)

Section AliroFacts.
Context `{KconfigRanges}.

(** The C type, a transcript that fits, and nothing behind it. *)
Record aliro_ok (d : aliro_data_t) : Prop := {
  alo_features : 0 <= al_features d < 65536;
  alo_major : is_byte (al_protocol_major d);
  alo_minor : is_byte (al_protocol_minor d);
  alo_key : len (al_credential_pubkey d) = ALIRO_P256_PUBLIC_KEY_SIZE;
  alo_key_bytes : bytes (al_credential_pubkey d);
  alo_size : len (al_transcript d) = CONFIG_NFC_ALIRO_MAX_TRANSCRIPT;
  alo_bytes : bytes (al_transcript d);
  alo_len : 0 <= al_transcript_len d <= CONFIG_NFC_ALIRO_MAX_TRANSCRIPT;
  alo_padding : drop (Z.to_nat (al_transcript_len d)) (al_transcript d) =
                zeros (CONFIG_NFC_ALIRO_MAX_TRANSCRIPT - al_transcript_len d);
}.

Definition aliro_blob (d : aliro_data_t) : list Z :=
  [ALIRO_FORMAT_VERSION; lo8 (al_features d); hi8 (al_features d); al_protocol_major d;
   al_protocol_minor d] ++ al_credential_pubkey d ++
  [lo8 (al_transcript_len d); hi8 (al_transcript_len d)] ++
  take (Z.to_nat (al_transcript_len d)) (al_transcript d).

Lemma aliro_blob_len d : aliro_ok d → len (aliro_blob d) = 72 + al_transcript_len d.
Proof.
  intros []. unfold aliro_blob, ALIRO_P256_PUBLIC_KEY_SIZE in *. rewrite !len_app, !len_cons, len_nil. llia.
Qed.

(** The transcript, split from the zeros behind it. *)
Lemma aliro_transcript d : aliro_ok d →
  al_transcript d = take (Z.to_nat (al_transcript_len d)) (al_transcript d) ++
                    zeros (CONFIG_NFC_ALIRO_MAX_TRANSCRIPT - al_transcript_len d).
Proof. intros []. rewrite <-alo_padding0. by rewrite take_drop. Qed.

(** The code's fixed indices are the successive offsets of a writer. *)
Definition aliro_writer (d : aliro_data_t) : M wstate unit :=
  put ALIRO_FORMAT_VERSION ;; put (lo8 (al_features d)) ;; put (hi8 (al_features d)) ;;
  put (al_protocol_major d) ;; put (al_protocol_minor d) ;;
  puts (al_credential_pubkey d) ALIRO_P256_PUBLIC_KEY_SIZE ;;
  put (lo8 (al_transcript_len d)) ;; put (hi8 (al_transcript_len d)) ;;
  if 0 <? al_transcript_len d then puts (al_transcript d) (al_transcript_len d) else mret tt.

Lemma aliro_writer_eq d out s n0 out_max : aliro_writer d (out, 0) = Some (tt, s) →
  72 + al_transcript_len d <= out_max →
  aliro_serialize (Some d) (Some out) out_max (Some n0) =
  Some (0, Some s.1, Some (72 + al_transcript_len d)).
Proof.
  intros Hw Hm. unfold aliro_serialize, ALIRO_P256_PUBLIC_KEY_SIZE.
  rewrite (proj2 (Z.ltb_ge _ _)) by lia. revert Hw.
  unfold aliro_writer, put, puts, ALIRO_P256_PUBLIC_KEY_SIZE, mbind, M_bind. cbn [fst snd]. zadds.
  repeat (match goal with |- context [option_bind _ _ _ ?e] =>
    destruct e; cbn [option_bind fst snd]; zadds; [|done] end).
  case_bool; [|by intros [= <-]].
  destruct (memcpy _ _ _ _ _); [|done]. cbn. by intros [= <-].
Qed.

Lemma aliro_writes d : aliro_ok d → writes (aliro_writer d) (aliro_blob d).
Proof.
  intros []. unfold aliro_blob, aliro_writer, ALIRO_P256_PUBLIC_KEY_SIZE in *. cbn [app].
  repeat apply (writes_bind _ [_]); try apply writes_put.
  apply writes_bind; [by apply writes_all|]. repeat apply (writes_bind _ [_]); try apply writes_put.
  case_bool; bool_prop; [apply writes_puts; lia|].
  replace (Z.to_nat (al_transcript_len d)) with 0%nat by lia. apply writes_ret.
Qed.

Lemma aliro_serialize_ok d out n0 : aliro_ok d → len (aliro_blob d) <= len out →
  aliro_serialize (Some d) (Some out) (len out) (Some n0) =
  Some (0, Some (aliro_blob d ++ drop (length (aliro_blob d)) out), Some (len (aliro_blob d))).
Proof.
  intros Hd Hl. rewrite (aliro_writer_eq d _ _ _ _ (writes_run _ _ out (aliro_writes d Hd) Hl)).
  - cbn [fst]. by rewrite aliro_blob_len.
  - by rewrite <-aliro_blob_len.
Qed.

(** What is read from an input of header length, field by field. *)
Definition aliro_of (f0 f1 ma mi : Z) (key : list Z) (n : Z) (t : list Z) : aliro_data_t :=
  {| al_features := le16 f0 f1; al_protocol_major := ma; al_protocol_minor := mi;
     al_credential_pubkey := key; al_transcript_len := n; al_transcript := t |}.

Lemma aliro_parse_spec f0 f1 ma mi key t0 t1 rest junk :
  let inp := [ALIRO_FORMAT_VERSION; f0; f1; ma; mi] ++ key ++ [t0; t1] ++ rest ++ junk in
  len key = ALIRO_P256_PUBLIC_KEY_SIZE →
  ∃ off, aliro_parse inp (72 + len rest) 0 =
    Some (if le16 t0 t1 <=? CONFIG_NFC_ALIRO_MAX_TRANSCRIPT then
            if le16 t0 t1 =? len rest
            then (0, aliro_of f0 f1 ma mi key (len rest)
                       (rest ++ zeros (CONFIG_NFC_ALIRO_MAX_TRANSCRIPT - len rest)))
            else (- EBADMSG, aliro_of f0 f1 ma mi key 0 (al_transcript aliro_zero))
          else (- EBADMSG, aliro_of f0 f1 ma mi key 0 (al_transcript aliro_zero)), off).
Proof.
  intros inp Hk. pose proof aliro_max_transcript_range as Hmax.
  pose proof (len_nonneg rest) as Hr. unfold ALIRO_P256_PUBLIC_KEY_SIZE in Hk.
  unfold aliro_parse, ALIRO_P256_PUBLIC_KEY_SIZE. rewrite (proj2 (Z.ltb_ge _ _)) by lia.
  pose proof (ahead_start inp) as Ha. unfold inp at 2 in Ha. cbn [app] in Ha.
  rget Ha. change (negb (ALIRO_FORMAT_VERSION =? ALIRO_FORMAT_VERSION)) with false. cbv iota.
  do 4 rget Ha. rread Ha key; [|done..]. rewrite Hk in Ha. do 2 rget Ha.
  assert (0 <= le16 t0 t1 < 65536) as Hle by apply u16_range.
  destruct (CONFIG_NFC_ALIRO_MAX_TRANSCRIPT <? le16 t0 t1) eqn:E; bool_prop.
  { rewrite (proj2 (Z.leb_gt _ _)) by lia. by eexists. }
  rewrite (proj2 (Z.leb_le _ _)) by lia. rewrite run_gets. cbn [al_transcript aliro_zero id].
  zadds. revert Ha. zadds. intros Ha.
  destruct (le16 t0 t1 =? len rest) eqn:E2; bool_prop.
  2: { rewrite (proj2 (Z.eqb_neq _ _)) by lia. by eexists. }
  rewrite E2, Z.eqb_refl. cbn [negb].
  assert (∀ B (k : list Z → M Z B) o, ahead inp o (rest ++ junk) →
    ((if 0 <? len rest then read_into inp (zeros CONFIG_NFC_ALIRO_MAX_TRANSCRIPT) (len rest)
      else mret (zeros CONFIG_NFC_ALIRO_MAX_TRANSCRIPT)) ≫= k) o =
    k (rest ++ zeros (CONFIG_NFC_ALIRO_MAX_TRANSCRIPT - len rest)) (o + len rest)) as Hread.
  { intros B k o Ho. case_bool; bool_prop.
    - rewrite (run_read_into _ _ _ _ rest junk _ Ho) by (done || (rewrite ?len_zeros; lia)).
      f_equal. f_equal. unfold zeros. rewrite drop_replicate. f_equal. llia.
    - destruct rest; [|rewrite len_cons in *; pose proof (len_nonneg rest); lia].
      rewrite run_ret. by rewrite len_nil, Z.add_0_r, Z.sub_0_r. }
  rewrite Hread by exact Ha. by eexists.
Qed.

Lemma aliro_of_ok f0 f1 ma mi key rest :
  is_byte f0 → is_byte f1 → is_byte ma → is_byte mi → len key = ALIRO_P256_PUBLIC_KEY_SIZE →
  bytes key → bytes rest → len rest <= CONFIG_NFC_ALIRO_MAX_TRANSCRIPT →
  aliro_ok (aliro_of f0 f1 ma mi key (len rest)
              (rest ++ zeros (CONFIG_NFC_ALIRO_MAX_TRANSCRIPT - len rest))).
Proof.
  intros. pose proof aliro_max_transcript_range. pose proof (len_nonneg rest).
  constructor; cbn; try done; try lia; [apply u16_range|llia| |].
  - apply bytes_app. auto with nfc.
  - by rewrite drop_app_len.
Qed.

(** What was written is read back, whatever follows it. *)
Lemma aliro_read_back d d0 out n0 : aliro_ok d → len (aliro_blob d) <= len out →
  ∃ o n, aliro_serialize (Some d) (Some out) (len out) (Some n0) = Some (0, Some o, Some n) ∧
    len o = len out ∧ aliro_deserialize (Some d0) (Some o) n = Some (0, Some d).
Proof.
  intros Hd Hl. eexists _, _. split; [by apply aliro_serialize_ok|].
  split; [llia|]. pose proof (alo_len d Hd). pose proof (alo_key d Hd). pose proof (alo_size d Hd).
  pose proof aliro_max_transcript_range. unfold aliro_deserialize. rewrite aliro_blob_len by done.
  set (tr := take (Z.to_nat (al_transcript_len d)) (al_transcript d)).
  assert (len tr = al_transcript_len d) as Htr by (subst tr; llia). rewrite <-Htr.
  unfold aliro_blob. fold tr. rewrite <-!(assoc_L (++)).
  destruct (aliro_parse_spec (lo8 (al_features d)) (hi8 (al_features d)) (al_protocol_major d)
    (al_protocol_minor d) (al_credential_pubkey d) (lo8 (al_transcript_len d))
    (hi8 (al_transcript_len d)) tr (drop (length (aliro_blob d)) out)) as (off & Hrun); [done|].
  unfold aliro_blob in Hrun. fold tr in Hrun. rewrite Hrun. mred.
  rewrite le16_split, Htr, (proj2 (Z.leb_le _ _)), Z.eqb_refl by lia. mred. do 3 f_equal.
  unfold aliro_of. rewrite le16_split, <-Htr by apply Hd. subst tr. rewrite Htr, <-aliro_transcript by done.
  by destruct d.
Qed.

(** What is accepted is a persistent form. *)
Lemma aliro_empty_ok f0 f1 ma mi key : is_byte f0 → is_byte f1 → is_byte ma → is_byte mi →
  len key = ALIRO_P256_PUBLIC_KEY_SIZE → bytes key → aliro_ok (aliro_of f0 f1 ma mi key 0 (al_transcript aliro_zero)).
Proof.
  intros. pose proof aliro_max_transcript_range.
  replace (al_transcript aliro_zero) with ([] ++ zeros (CONFIG_NFC_ALIRO_MAX_TRANSCRIPT - 0)) by (by rewrite Z.sub_0_r).
  apply (aliro_of_ok f0 f1 ma mi key []); try done; [by apply Forall_nil_2|rewrite len_nil; lia].
Qed.

Lemma aliro_zero_ok : aliro_ok aliro_zero.
Proof. apply (aliro_empty_ok 0 0 0 0 (zeros ALIRO_P256_PUBLIC_KEY_SIZE)); try done. apply bytes_zeros. Qed.

Lemma aliro_accepts d0 inp : bytes inp →
  ∃ ret d, aliro_deserialize (Some d0) (Some inp) (len inp) = Some (ret, Some d) ∧
    (ret = 0 ∨ ret = - EBADMSG) ∧ aliro_ok d ∧ (ret = 0 → aliro_blob d = inp).
Proof.
  intros Hb. unfold aliro_deserialize. destruct (len inp <? 72) eqn:E; bool_prop.
  { unfold aliro_parse. change (1 + 2 + 2 + ALIRO_P256_PUBLIC_KEY_SIZE + 2) with 72.
    rewrite (proj2 (Z.ltb_lt _ _)) by lia. mred. eexists _, _. split; [done|]. split; [by right|]. split; [apply aliro_zero_ok|done]. }
  destruct (len_split inp 5) as (h & r1 & -> & Hh); [lia|]. rewrite len_app in E.
  destruct (len_split r1 65) as (key & r2 & -> & Hk); [lia|]. rewrite len_app in E.
  destruct r2 as [|t0 [|t1 rest]]; [exfalso; llia..|].
  destruct h as [|v [|f0 [|f1 [|ma [|mi [|]]]]]]; try (exfalso; llia). inv_bytes.
  destruct (v =? ALIRO_FORMAT_VERSION) eqn:Ev; bool_prop.
  2: { unfold aliro_parse. rewrite (proj2 (Z.ltb_ge _ _)) by (unfold ALIRO_P256_PUBLIC_KEY_SIZE; llia).
       cbn [app]. rewrite (run_get _ _ v _ _ (ahead_start _)), (proj2 (Z.eqb_neq _ _)) by done. mred.
       eexists _, _. split; [done|]. split; [by right|]. split; [apply aliro_zero_ok|done]. }
  subst v. destruct (aliro_parse_spec f0 f1 ma mi key t0 t1 rest [] Hk) as (off & Hrun).
  rewrite app_nil_r in Hrun. cbn [app] in Hrun |- *.
  replace (len (_ :: _)) with (72 + len rest) by llia. rewrite Hrun. mred.
  repeat case_bool; bool_prop; eexists _, _; (split; [done|]); (split; [auto|]); (split; [first [by apply aliro_empty_ok|apply aliro_of_ok; try done; lia]|]); try done.
  intros _.
  unfold aliro_blob, aliro_of. cbn [al_features al_protocol_major al_protocol_minor al_credential_pubkey
    al_transcript_len al_transcript]. rewrite lo8_le16, hi8_le16 by done. rewrite <-E1.
  rewrite lo8_le16, hi8_le16, E1 by done. rewrite take_app_length' by llia. done.
Qed.

(** The persistent form of an Aliro credential is exact. Whatever [aliro_serialize] writes
    for a well-formed credential into a buffer with room, [aliro_deserialize] reads back as the
    same credential (whatever the buffer holds behind it); and every byte string that
    [aliro_deserialize] accepts is the persistent form of the well-formed credential it fills.
    On any bytes it returns, without leaving the buffer, and leaves a well-formed credential. *)
Theorem aliro_codec :
  (∀ d d0 out n0, aliro_ok d → len (aliro_blob d) <= len out →
     ∃ o n, aliro_serialize (Some d) (Some out) (len out) (Some n0) = Some (0, Some o, Some n) ∧
       len o = len out ∧ aliro_deserialize (Some d0) (Some o) n = Some (0, Some d)) ∧
  (∀ d0 inp, bytes inp →
     ∃ ret d, aliro_deserialize (Some d0) (Some inp) (len inp) = Some (ret, Some d) ∧
       (ret = 0 ∨ ret = - EBADMSG) ∧ aliro_ok d ∧ (ret = 0 → aliro_blob d = inp)).
Proof. split; [apply aliro_read_back|apply aliro_accepts]. Qed.
End AliroFacts.
