(* ===== verification/AliroListener.v ===== *)
(** * The Aliro listener ([src/nfc/protocols/aliro/aliro_listener.c], [aliro_vectors.h])

    The credential's side of the expedited protocol: SELECT, AUTH0, AUTH1 and EXCHANGE, each
    answered by a work item on the stack's queue.  The work item and the callbacks interleave, so
    the listener is a step relation over its static variables; the second half proves what every
    reachable state has. *)

From stdpp Require Import base list numbers option.
From S2P Require Import Prelude Kconfig Apdu Serial Stack Aliro.

(** ** Constants and vectors *)

Definition ALIRO_NONCE_SIZE : Z := 16.
Definition ALIRO_INS_AUTH0 : Z := 0x80.
Definition ALIRO_INS_AUTH1 : Z := 0x81.
Definition ALIRO_INS_EXCHANGE : Z := 0x82.
Definition ALIRO_CLA_PROP : Z := 0x80.
Definition ALIRO_AUTH0_DATA_SIZE : Z := 81.
Definition ALIRO_P256_SIGNATURE_SIZE : Z := 64.
Definition ALIRO_AUTH1_DATA_SIZE : Z := ALIRO_P256_SIGNATURE_SIZE.
Definition ALIRO_AUTH0_RSP_SIZE : Z := 2 + ALIRO_NONCE_SIZE + ALIRO_P256_PUBLIC_KEY_SIZE.
Definition ALIRO_AUTH1_RSP_SIZE : Z := 2 + ALIRO_P256_SIGNATURE_SIZE.
Definition ALIRO_EXCHANGE_DATA_SIZE : Z := 29.
Definition ALIRO_EXCHANGE_RSP_SIZE : Z := 2 + ALIRO_EXCHANGE_DATA_SIZE.
Definition ALIRO_TEST_SELECT_NONCE_FILL : Z := 0x11.
Definition ALIRO_TEST_READER_NONCE_FILL : Z := 0x22.
Definition ALIRO_TEST_READER_PUBKEY_FILL : Z := 0x33.
Definition ALIRO_TEST_CARD_NONCE_FILL : Z := 0xCC.
Definition ALIRO_TEST_CARD_PUBKEY_FILL : Z := 0xDD.
Definition ALIRO_TEST_READER_SIG_FILL : Z := 0x44.
Definition ALIRO_TEST_CARD_SIG_FILL : Z := 0x55.
Definition ALIRO_TEST_EXCHANGE_FILL : Z := 0x66.
Definition ALIRO_TEST_EXCHANGE_RSP_FILL : Z := 0x77.

(** [n] more turns of the loop, from [dst[i]] on. *)
Fixpoint fill_loop (n : nat) (i : Z) (dst : list Z) (v : Z) : option (list Z) :=
  match n with O => Some dst | S n => dst ← st dst i v; fill_loop n (i + 1) dst v end.
(** [aliro_vectors_fill(&dst[off], len, val)] *)
Definition aliro_vectors_fill (dst : list Z) (off n v : Z) : option (list Z) := fill_loop (Z.to_nat n) off dst v.

Definition aliro_vectors_build_select_rsp (out : list Z) : option (list Z * Z) :=
  out ← st out 0 0x00; out ← st out 1 0x00;
  out ← aliro_vectors_fill out 2 ALIRO_NONCE_SIZE ALIRO_TEST_SELECT_NONCE_FILL;
  Some (out, 2 + ALIRO_NONCE_SIZE).
Definition aliro_vectors_build_auth0_rsp (out : list Z) : option (list Z * Z) :=
  out ← st out 0 0x00; out ← st out 1 0x00;
  out ← aliro_vectors_fill out 2 ALIRO_NONCE_SIZE ALIRO_TEST_CARD_NONCE_FILL;
  out ← st out (2 + ALIRO_NONCE_SIZE) 0x04;
  out ← aliro_vectors_fill out (3 + ALIRO_NONCE_SIZE) (ALIRO_P256_PUBLIC_KEY_SIZE - 1) ALIRO_TEST_CARD_PUBKEY_FILL;
  Some (out, ALIRO_AUTH0_RSP_SIZE).
Definition aliro_vectors_build_auth1_rsp (out : list Z) : option (list Z * Z) :=
  out ← st out 0 0x00; out ← st out 1 0x00;
  out ← aliro_vectors_fill out 2 ALIRO_P256_SIGNATURE_SIZE ALIRO_TEST_CARD_SIG_FILL;
  Some (out, ALIRO_AUTH1_RSP_SIZE).
Definition aliro_vectors_build_exchange_rsp (out : list Z) : option (list Z * Z) :=
  out ← st out 0 0x00; out ← st out 1 0x00;
  out ← aliro_vectors_fill out 2 ALIRO_EXCHANGE_DATA_SIZE ALIRO_TEST_EXCHANGE_RSP_FILL;
  Some (out, ALIRO_EXCHANGE_RSP_SIZE).

(** What the reader sends. *)
Definition tx_header (out : list Z) (ins n : Z) : option (list Z) :=
  out ← st out 0 ALIRO_CLA_PROP; out ← st out 1 ins; out ← st out 2 0x00; out ← st out 3 0x00; st out 4 n.
Definition aliro_vectors_build_auth0_tx (out : list Z) : option (list Z * Z) :=
  out ← tx_header out ALIRO_INS_AUTH0 ALIRO_AUTH0_DATA_SIZE;
  out ← aliro_vectors_fill out 5 ALIRO_NONCE_SIZE ALIRO_TEST_READER_NONCE_FILL;
  out ← st out (5 + ALIRO_NONCE_SIZE) 0x04;
  out ← aliro_vectors_fill out (6 + ALIRO_NONCE_SIZE) (ALIRO_P256_PUBLIC_KEY_SIZE - 1) ALIRO_TEST_READER_PUBKEY_FILL;
  Some (out, 5 + ALIRO_AUTH0_DATA_SIZE).
Definition aliro_vectors_build_auth1_tx (out : list Z) : option (list Z * Z) :=
  out ← tx_header out ALIRO_INS_AUTH1 ALIRO_AUTH1_DATA_SIZE;
  out ← aliro_vectors_fill out 5 ALIRO_AUTH1_DATA_SIZE ALIRO_TEST_READER_SIG_FILL;
  Some (out, 5 + ALIRO_AUTH1_DATA_SIZE).
Definition aliro_vectors_build_exchange_tx (out : list Z) : option (list Z * Z) :=
  out ← tx_header out ALIRO_INS_EXCHANGE ALIRO_EXCHANGE_DATA_SIZE;
  out ← aliro_vectors_fill out 5 ALIRO_EXCHANGE_DATA_SIZE ALIRO_TEST_EXCHANGE_FILL;
  Some (out, 5 + ALIRO_EXCHANGE_DATA_SIZE).

(** ** State *)

Inductive aliro_state_t :=
  | ALIRO_STATE_IDLE | ALIRO_STATE_AWAIT_AUTH0 | ALIRO_STATE_AWAIT_AUTH1 | ALIRO_STATE_AWAIT_EXCHANGE
  | ALIRO_STATE_DONE | ALIRO_STATE_ERROR.
#[global] Instance aliro_state_eq_dec : EqDecision aliro_state_t.
Proof. solve_decision. Defined.

(** The static variables of the file; whether [s_crypto_work] is on the queue; and what was
    given to [nfc_transport_send_response]. *)
Record aliro_st := {
  av_model : aliro_data_t;
  av_state : aliro_state_t;
  av_inflight : Z;
  av_queued : bool;
  av_resp : list Z;
  av_sig : list Z;
  av_exchange : list Z;
  av_exchange_len : Z;
  av_sent : list (list Z);
}.

Definition av_with_model (m : aliro_data_t) (s : aliro_st) : aliro_st :=
  {| av_model := m; av_state := av_state s; av_inflight := av_inflight s; av_queued := av_queued s; av_resp := av_resp s;
     av_sig := av_sig s; av_exchange := av_exchange s; av_exchange_len := av_exchange_len s; av_sent := av_sent s |}.
Definition av_with_state (x : aliro_state_t) (s : aliro_st) : aliro_st :=
  {| av_model := av_model s; av_state := x; av_inflight := av_inflight s; av_queued := av_queued s; av_resp := av_resp s;
     av_sig := av_sig s; av_exchange := av_exchange s; av_exchange_len := av_exchange_len s; av_sent := av_sent s |}.
Definition av_with_inflight (n : Z) (s : aliro_st) : aliro_st :=
  {| av_model := av_model s; av_state := av_state s; av_inflight := n; av_queued := av_queued s; av_resp := av_resp s;
     av_sig := av_sig s; av_exchange := av_exchange s; av_exchange_len := av_exchange_len s; av_sent := av_sent s |}.
Definition av_with_queued (b : bool) (s : aliro_st) : aliro_st :=
  {| av_model := av_model s; av_state := av_state s; av_inflight := av_inflight s; av_queued := b; av_resp := av_resp s;
     av_sig := av_sig s; av_exchange := av_exchange s; av_exchange_len := av_exchange_len s; av_sent := av_sent s |}.
Definition av_with_out (r : list Z) (sent : list (list Z)) (s : aliro_st) : aliro_st :=
  {| av_model := av_model s; av_state := av_state s; av_inflight := av_inflight s; av_queued := av_queued s; av_resp := r;
     av_sig := av_sig s; av_exchange := av_exchange s; av_exchange_len := av_exchange_len s; av_sent := sent |}.
Definition av_with_reader (sg ex : list Z) (n : Z) (s : aliro_st) : aliro_st :=
  {| av_model := av_model s; av_state := av_state s; av_inflight := av_inflight s; av_queued := av_queued s; av_resp := av_resp s;
     av_sig := sg; av_exchange := ex; av_exchange_len := n; av_sent := av_sent s |}.

(** ** The handlers *)

Section AliroListener.
Context `{Kconfig}.

(** [s_resp[i] = v] and [nfc_transport_send_response(s_resp, n)] *)
Definition av_resp_set (i v : Z) : M aliro_st unit :=
  s ← gets id; r ← lift (st (av_resp s) i v); modify (av_with_out r (av_sent s)).
Definition av_resp_send (n : Z) : M aliro_st unit :=
  s ← gets id; d ← lift (sub (av_resp s) 0 n); modify (av_with_out (av_resp s) (av_sent s ++ [d])).
(** [build(s_resp, &resp_len)] followed by sending it *)
Definition av_resp_build (build : list Z → option (list Z * Z)) : M aliro_st unit :=
  s ← gets id; '(r, n) ← lift (build (av_resp s)); modify (av_with_out r (av_sent s)) ;; av_resp_send n.

Definition aliro_listener_send_sw (sw : Z) : M aliro_st unit :=
  av_resp_set 0 (hi8 sw) ;; av_resp_set 1 (lo8 sw) ;; av_resp_send 2.

Definition aliro_listener_reset : M aliro_st unit :=
  modify (av_with_state ALIRO_STATE_IDLE) ;; modify (av_with_inflight 0) ;;
  s ← gets id;
  sg ← lift (memset (av_sig s) 0 0 ALIRO_P256_SIGNATURE_SIZE);
  ex ← lift (memset (av_exchange s) 0 0 ALIRO_EXCHANGE_DATA_SIZE);
  modify (av_with_reader sg ex 0).

(** The end of a failed step of the protocol. *)
Definition crypto_fail (sw : Z) : M aliro_st unit :=
  modify (av_with_state ALIRO_STATE_ERROR) ;; aliro_listener_send_sw sw ;; modify (av_with_inflight 0).
(** The end of a step that succeeded. *)
Definition crypto_done (build : list Z → option (list Z * Z)) (next : aliro_state_t) : M aliro_st unit :=
  av_resp_build build ;; modify (av_with_state next) ;; modify (av_with_inflight 0).

Definition aliro_listener_crypto_handler : M aliro_st unit :=
  s ← gets id;
  match av_state s with
  | ALIRO_STATE_AWAIT_AUTH0 =>
    if CONFIG_NFC_ALIRO_PROTOCOL_VERIFIED then crypto_fail NFC_SW_CONDITIONS_NOT_SAT else
    crypto_done aliro_vectors_build_auth0_rsp ALIRO_STATE_AWAIT_AUTH1
  | ALIRO_STATE_AWAIT_AUTH1 =>
    if CONFIG_NFC_ALIRO_PROTOCOL_VERIFIED then crypto_fail NFC_SW_CONDITIONS_NOT_SAT else
    expected ← lift (aliro_vectors_fill (zeros ALIRO_AUTH1_DATA_SIZE) 0 ALIRO_AUTH1_DATA_SIZE ALIRO_TEST_READER_SIG_FILL);
    eq ← lift (memcmp_eq (av_sig s) 0 expected 0 ALIRO_AUTH1_DATA_SIZE);
    if negb eq then crypto_fail 0x6982 else
    crypto_done aliro_vectors_build_auth1_rsp ALIRO_STATE_AWAIT_EXCHANGE
  | ALIRO_STATE_AWAIT_EXCHANGE =>
    if CONFIG_NFC_ALIRO_PROTOCOL_VERIFIED then crypto_fail NFC_SW_CONDITIONS_NOT_SAT else
    if av_exchange_len s <? ALIRO_EXCHANGE_DATA_SIZE then crypto_fail 0x6982 else
    expected ← lift (aliro_vectors_fill (zeros ALIRO_EXCHANGE_DATA_SIZE) 0 ALIRO_EXCHANGE_DATA_SIZE ALIRO_TEST_EXCHANGE_FILL);
    eq ← lift (memcmp_eq (av_exchange s) 0 expected 0 ALIRO_EXCHANGE_DATA_SIZE);
    if negb eq then crypto_fail 0x6982 else
    crypto_done aliro_vectors_build_exchange_rsp ALIRO_STATE_DONE
  | _ => crypto_fail NFC_SW_CONDITIONS_NOT_SAT
  end.

Definition aliro_listener_on_select (aid : list Z) (aid_len : Z) : M aliro_st unit :=
  aliro_listener_reset ;;
  e ← lift (if aid_len =? len aliro_expedited_aid then memcmp_eq aid 0 aliro_expedited_aid 0 (len aliro_expedited_aid) else Some false);
  if e : bool then
    modify (av_with_state ALIRO_STATE_AWAIT_AUTH0) ;; av_resp_build aliro_vectors_build_select_rsp
  else
  u ← lift (if aid_len =? len aliro_stepup_aid then memcmp_eq aid 0 aliro_stepup_aid 0 (len aliro_stepup_aid) else Some false);
  if u : bool then aliro_listener_send_sw 0x6A81 else
  aliro_listener_send_sw NFC_SW_FILE_NOT_FOUND.

(** [atomic_set(&s_crypto_inflight, 1)] and [nfc_transport_submit_work(&s_crypto_work)]: an item
    that is on the queue already stays there once. *)
Definition submit_crypto : M aliro_st unit :=
  modify (av_with_inflight 1) ;; modify (av_with_queued true).
Definition protocol_error (sw : Z) : M aliro_st unit :=
  modify (av_with_state ALIRO_STATE_ERROR) ;; aliro_listener_send_sw sw.

Definition aliro_listener_on_apdu (apdu : option nfc_apdu_t) : M aliro_st unit :=
  s ← gets id;
  match apdu with
  | None => aliro_listener_send_sw NFC_SW_CONDITIONS_NOT_SAT
  | Some apdu =>
    if bool_decide (av_state s = ALIRO_STATE_ERROR) || bool_decide (av_state s = ALIRO_STATE_DONE)
    then aliro_listener_send_sw NFC_SW_CONDITIONS_NOT_SAT else
    if negb (cla apdu =? ALIRO_CLA_PROP) then protocol_error NFC_SW_CLA_NOT_SUPPORTED else
    if negb (av_inflight s =? 0) then protocol_error NFC_SW_CONDITIONS_NOT_SAT else
    if (ins apdu =? ALIRO_INS_AUTH0) && bool_decide (av_state s = ALIRO_STATE_AWAIT_AUTH0) then submit_crypto else
    if ins apdu =? ALIRO_INS_AUTH1 then
      if negb (bool_decide (av_state s = ALIRO_STATE_AWAIT_AUTH1)) then protocol_error NFC_SW_CONDITIONS_NOT_SAT else
      match data apdu with
      | Some d => if ALIRO_AUTH1_DATA_SIZE <=? lc apdu then
                    sg ← lift (memcpy (av_sig s) 0 d 0 ALIRO_AUTH1_DATA_SIZE);
                    modify (av_with_reader sg (av_exchange s) (av_exchange_len s))
                  else mret tt
      | None => mret tt
      end ;;
      submit_crypto
    else if ins apdu =? ALIRO_INS_EXCHANGE then
      if negb (bool_decide (av_state s = ALIRO_STATE_AWAIT_EXCHANGE)) then protocol_error NFC_SW_CONDITIONS_NOT_SAT else
      match data apdu with
      | Some d =>
        if lc apdu <? ALIRO_EXCHANGE_DATA_SIZE then protocol_error NFC_SW_WRONG_LENGTH else
        ex ← lift (memcpy (av_exchange s) 0 d 0 ALIRO_EXCHANGE_DATA_SIZE);
        modify (av_with_reader (av_sig s) ex ALIRO_EXCHANGE_DATA_SIZE) ;;
        submit_crypto
      | None => protocol_error NFC_SW_WRONG_LENGTH
      end
    else protocol_error NFC_SW_INS_NOT_SUPPORTED
  end.

Definition aliro_listener_on_deselect : M aliro_st unit := aliro_listener_reset.
Definition aliro_listener_on_field_off : M aliro_st unit := aliro_listener_reset.

Definition aliro_listener_serialize (out : option (list Z)) (out_max : Z) (out_len : option Z)
    : M aliro_st (Z * option (list Z) * option Z) :=
  s ← gets id; lift (aliro_serialize (Some (av_model s)) out out_max out_len).
Definition aliro_listener_deserialize (inp : option (list Z)) (in_len : Z) : M aliro_st Z :=
  aliro_listener_reset ;;
  s ← gets id; '(ret, m) ← lift (aliro_deserialize (Some (av_model s)) inp in_len);
  m ← lift m; modify (av_with_model m) ;; mret ret.

(** [k_work_init] on an item that is on the queue is not defined. *)
Definition aliro_listener_init (model : option aliro_data_t) : M aliro_st Z :=
  s ← gets id;
  lift (if av_queued s then None else Some tt) ;;
  m ← lift (match model with
            | Some m => Some m
            | None => key ← st (al_credential_pubkey aliro_zero) 0 0x04;
                      Some {| al_features := al_features aliro_zero; al_protocol_major := 0x00; al_protocol_minor := 0x09;
                              al_credential_pubkey := key; al_transcript_len := al_transcript_len aliro_zero;
                              al_transcript := al_transcript aliro_zero |}
            end);
  modify (av_with_model m) ;;
  aliro_listener_reset ;; mret 0.
Definition aliro_listener_shutdown : M aliro_st Z := aliro_listener_reset ;; mret 0.

(** The queue runs the work item. *)
Definition run_crypto_work : M aliro_st unit :=
  modify (av_with_queued false) ;; aliro_listener_crypto_handler.
End AliroListener.

(** ** The vectors *)

Lemma fill_loop_app v : ∀ n pre rest, (n <= length rest)%nat →
  fill_loop n (len pre) (pre ++ rest) v = Some (pre ++ replicate n v ++ drop n rest).
Proof.
  induction n as [|n IH]; intros pre rest Hn; [done|]. destruct rest as [|x rest]; [cbn in Hn; lia|]. cbn [length] in Hn.
  cbn [fill_loop]. rewrite st_mid by done. mred. replace (len pre + 1) with (len (pre ++ [v])) by llia.
  rewrite (cons_middle v pre rest : pre ++ v :: rest = pre ++ [v] ++ rest), (assoc_L (++) pre [v]), IH by lia.
  by rewrite <-(assoc_L (++)).
Qed.

Lemma fill_exact out bs n v : len bs + n <= len out → 0 <= n →
  aliro_vectors_fill (over bs out) (len bs) n v = Some (over (bs ++ replicate (Z.to_nat n) v) out).
Proof.
  intros Hl Hn. unfold aliro_vectors_fill, over. pose proof (len_nonneg bs).
  rewrite fill_loop_app by (rewrite length_drop; unfold len in *; lia).
  by rewrite <-(assoc_L (++)), drop_drop, length_app, length_replicate.
Qed.

(** [vec]: runs a vector builder into a buffer that is long enough, piece by piece. *)
Ltac vec_step out Hl :=
  lazymatch goal with
  | |- context [st (over ?bs out) ?i ?v] =>
      let E := fresh in assert (st (over bs out) i v = Some (over (bs ++ [v]) out)) as E
        by (apply (put_exact out bs v); rewrite Hl; by vm_compute); rewrite E; clear E
  | |- context [aliro_vectors_fill (over ?bs out) ?i ?n ?v] =>
      let E := fresh in assert (aliro_vectors_fill (over bs out) i n v = Some (over (bs ++ replicate (Z.to_nat n) v) out)) as E
        by (apply (fill_exact out bs n v); [rewrite Hl; by vm_compute|done]); rewrite E; clear E
  end; mred; cbn [app].

Definition select_rsp : list Z := [0; 0] ++ replicate 16 ALIRO_TEST_SELECT_NONCE_FILL.
Definition auth0_rsp : list Z :=
  [0; 0] ++ replicate 16 ALIRO_TEST_CARD_NONCE_FILL ++ [4] ++ replicate 64 ALIRO_TEST_CARD_PUBKEY_FILL.
Definition auth1_rsp : list Z := [0; 0] ++ replicate 64 ALIRO_TEST_CARD_SIG_FILL.
Definition exchange_rsp : list Z := [0; 0] ++ replicate 29 ALIRO_TEST_EXCHANGE_RSP_FILL.

Lemma select_rsp_exact out : len out = 255 → aliro_vectors_build_select_rsp out = Some (over select_rsp out, len select_rsp).
Proof.
  intros Hl. unfold aliro_vectors_build_select_rsp. rewrite <-(over_nil out) at 1. unfold ALIRO_NONCE_SIZE. repeat vec_step out Hl. done.
Qed.
Lemma auth0_rsp_exact out : len out = 255 → aliro_vectors_build_auth0_rsp out = Some (over auth0_rsp out, len auth0_rsp).
Proof.
  intros Hl. unfold aliro_vectors_build_auth0_rsp. rewrite <-(over_nil out) at 1.
  unfold ALIRO_NONCE_SIZE, ALIRO_P256_PUBLIC_KEY_SIZE. repeat vec_step out Hl. done.
Qed.
Lemma auth1_rsp_exact out : len out = 255 → aliro_vectors_build_auth1_rsp out = Some (over auth1_rsp out, len auth1_rsp).
Proof.
  intros Hl. unfold aliro_vectors_build_auth1_rsp. rewrite <-(over_nil out) at 1. unfold ALIRO_P256_SIGNATURE_SIZE. repeat vec_step out Hl. done.
Qed.
Lemma exchange_rsp_exact out : len out = 255 → aliro_vectors_build_exchange_rsp out = Some (over exchange_rsp out, len exchange_rsp).
Proof.
  intros Hl. unfold aliro_vectors_build_exchange_rsp. rewrite <-(over_nil out) at 1. unfold ALIRO_EXCHANGE_DATA_SIZE. repeat vec_step out Hl. done.
Qed.

(** ** What each handler does *)

Definition reader_sig : list Z := replicate 64 ALIRO_TEST_READER_SIG_FILL.
Definition reader_exchange : list Z := replicate 29 ALIRO_TEST_EXCHANGE_FILL.

Section AliroListenerFacts.
Context `{KconfigRanges}.

(** The static variables as their types say, and a flag that is up only while the work item is on
    the queue. *)
Record aliro_listener_ok (s : aliro_st) : Prop := {
  ao_model : aliro_ok (av_model s);
  ao_resp : len (av_resp s) = 255;
  ao_sig : len (av_sig s) = 64;
  ao_exchange : len (av_exchange s) = 29;
  ao_exchange_len : av_exchange_len s = 0 ∨ av_exchange_len s = 29;
  ao_inflight : av_inflight s = 0 ∨ av_inflight s = 1 ∧ av_queued s = true;
}.

(** [m] sends [r] and makes the change [f] besides. *)
Definition answers (m : M aliro_st unit) (s : aliro_st) (f : aliro_st → aliro_st) (r : list Z) : Prop :=
  ∃ buf, len buf = 255 ∧ m s = Some (tt, av_with_out buf (av_sent s ++ [r]) (f s)).

Lemma answers_bind f g m s r : (∀ s, av_with_out (av_resp s) (av_sent s) (f s) = f s) →
  answers m (f s) g r → answers (modify f ;; m) s (λ s, g (f s)) r.
Proof.
  intros Hf (buf & Hl & Hm). exists buf. split; [done|]. rewrite run_modify, Hm.
  assert (av_sent (f s) = av_sent s) as ->; [|done]. by rewrite <-Hf.
Qed.

Lemma send_sw_answers s sw : len (av_resp s) = 255 → answers (aliro_listener_send_sw sw) s id (sw_bytes sw).
Proof.
  intros Hl. unfold answers, aliro_listener_send_sw, av_resp_set, av_resp_send.
  destruct (av_resp s) as [|a [|b r]] eqn:E; [done|rewrite len_cons in Hl; discriminate|].
  exists (hi8 sw :: lo8 sw :: r). split; [by rewrite !len_cons in *|].
  rewrite run_bind, run_gets. cbn [id]. rewrite E, (st_mid [] a (b :: r)), run_bind, run_lift_Some, run_modify by done.
  rewrite run_bind, run_gets. cbn [id av_resp av_with_out app].
  rewrite (st_mid [hi8 sw] b r), run_bind, run_lift_Some, run_modify by done.
  rewrite run_gets. cbn [id av_resp av_with_out app]. by rewrite (sub_prefix (sw_bytes sw) r), run_lift_Some by done.
Qed.

Lemma build_answers s build rsp : build (av_resp s) = Some (over rsp (av_resp s), len rsp) → len (av_resp s) = 255 → len rsp <= 255 →
  answers (av_resp_build build) s id rsp.
Proof.
  intros Hb Hl Hr. exists (over rsp (av_resp s)). split; [by rewrite over_len by lia|].
  unfold av_resp_build, av_resp_send. rewrite run_gets. unfold id. rewrite Hb, run_lift_Some, run_modify, run_gets.
  cbn [av_resp av_with_out]. unfold over. by rewrite sub_prefix, run_lift_Some by done.
Qed.

Lemma fail_answers s sw : len (av_resp s) = 255 →
  answers (crypto_fail sw) s (λ s, av_with_inflight 0 (av_with_state ALIRO_STATE_ERROR s)) (sw_bytes sw).
Proof.
  intros Hl. destruct (send_sw_answers (av_with_state ALIRO_STATE_ERROR s) sw Hl) as (buf & Hb & Hrun). exists buf. split; [done|].
  unfold crypto_fail. by rewrite run_modify, (run_call _ _ _ _ _ Hrun).
Qed.

Lemma done_answers s build rsp next : build (av_resp s) = Some (over rsp (av_resp s), len rsp) → len (av_resp s) = 255 → len rsp <= 255 →
  answers (crypto_done build next) s (λ s, av_with_inflight 0 (av_with_state next s)) rsp.
Proof.
  intros Hb Hl Hr. destruct (build_answers s build rsp Hb Hl Hr) as (buf & Hbuf & Hrun). exists buf. split; [done|].
  unfold crypto_done. by rewrite (run_call _ _ _ _ _ Hrun).
Qed.

Lemma error_answers s sw : len (av_resp s) = 255 → answers (protocol_error sw) s (av_with_state ALIRO_STATE_ERROR) (sw_bytes sw).
Proof.
  intros Hl. destruct (send_sw_answers (av_with_state ALIRO_STATE_ERROR s) sw Hl) as (buf & Hb & Hrun). exists buf. split; [done|].
  unfold protocol_error. by rewrite run_modify, Hrun.
Qed.

(** *** The work item *)

(** The next state and the response. *)
Definition work_result (s : aliro_st) : aliro_state_t * list Z :=
  let refused := (ALIRO_STATE_ERROR, sw_bytes NFC_SW_CONDITIONS_NOT_SAT) in
  match av_state s with
  | ALIRO_STATE_AWAIT_AUTH0 =>
    if CONFIG_NFC_ALIRO_PROTOCOL_VERIFIED then refused else (ALIRO_STATE_AWAIT_AUTH1, auth0_rsp)
  | ALIRO_STATE_AWAIT_AUTH1 =>
    if CONFIG_NFC_ALIRO_PROTOCOL_VERIFIED then refused
    else if bool_decide (av_sig s = reader_sig) then (ALIRO_STATE_AWAIT_EXCHANGE, auth1_rsp)
    else (ALIRO_STATE_ERROR, sw_bytes 0x6982)
  | ALIRO_STATE_AWAIT_EXCHANGE =>
    if CONFIG_NFC_ALIRO_PROTOCOL_VERIFIED then refused
    else if (av_exchange_len s =? 29) && bool_decide (av_exchange s = reader_exchange) then (ALIRO_STATE_DONE, exchange_rsp)
    else (ALIRO_STATE_ERROR, sw_bytes 0x6982)
  | _ => refused
  end.

Lemma expected_fill n v : 0 <= n → aliro_vectors_fill (zeros n) 0 n v = Some (replicate (Z.to_nat n) v).
Proof.
  intros Hn. pose proof (fill_exact (zeros n) [] n v) as Hf. rewrite len_zeros in Hf by done.
  rewrite (Hf ltac:(rewrite len_nil; lia) Hn : aliro_vectors_fill (zeros n) 0 n v = _). unfold over. cbn [app].
  rewrite drop_ge, app_nil_r; [done|]. unfold zeros; by rewrite !length_replicate.
Qed.

Lemma work_answers s : aliro_listener_ok s → let (x, r) := work_result s in
  answers run_crypto_work s (λ s, av_with_inflight 0 (av_with_state x (av_with_queued false s))) r.
Proof.
  intros [_ Hr Hs He Hel _]. set (s0 := av_with_queued false s).
  assert (∀ m x r, answers m s0 (λ s, av_with_inflight 0 (av_with_state x s)) r → aliro_listener_crypto_handler s0 = m s0 →
    answers run_crypto_work s (λ s, av_with_inflight 0 (av_with_state x (av_with_queued false s))) r) as Hgo.
  { intros m x r (buf & Hb & Hm) Heq. exists buf. split; [done|]. unfold run_crypto_work. rewrite run_modify. fold s0. by rewrite Heq, Hm. }
  assert (∀ sw, answers (crypto_fail sw) s0 (λ s, av_with_inflight 0 (av_with_state ALIRO_STATE_ERROR s)) (sw_bytes sw)) as Hfail
    by (intros sw; by apply fail_answers).
  assert (∀ build rsp next, build (av_resp s0) = Some (over rsp (av_resp s0), len rsp) → len rsp <= 255 →
    answers (crypto_done build next) s0 (λ s, av_with_inflight 0 (av_with_state next s)) rsp) as Hdone
    by (intros; by apply done_answers).
  unfold work_result. unfold aliro_listener_crypto_handler in Hgo.
  destruct (av_state s) eqn:Est; try (eapply Hgo; [apply Hfail|]; rewrite run_gets; unfold id; cbn [av_state s0 av_with_queued]; by rewrite Est).
  - case_bool; (eapply Hgo; [first [apply Hfail|by apply Hdone; [apply auth0_rsp_exact|]]|]); rewrite run_gets; unfold id; cbn [av_state s0 av_with_queued]; by rewrite Est.
  - case_bool; [eapply Hgo; [apply Hfail|]; rewrite run_gets; unfold id; cbn [av_state s0 av_with_queued]; by rewrite Est|].
    case_bool; (eapply Hgo; [first [apply Hfail|by apply Hdone; [apply auth1_rsp_exact|]]|]); rewrite run_gets; unfold id; cbn [av_state s0 av_with_queued av_sig];
      rewrite Est, expected_fill, run_lift_Some by done; rewrite (memcmp_whole _ reader_sig), run_lift_Some by done; by rewrite E0.
  - case_bool; [eapply Hgo; [apply Hfail|]; rewrite run_gets; unfold id; cbn [av_state s0 av_with_queued]; by rewrite Est|].
    assert ((av_exchange_len s =? 29) = negb (av_exchange_len s <? ALIRO_EXCHANGE_DATA_SIZE)) as -> by (destruct Hel as [-> | ->]; done).
    destruct (av_exchange_len s <? ALIRO_EXCHANGE_DATA_SIZE) eqn:E1; cbn [negb andb].
    { eapply Hgo; [apply Hfail|]. rewrite run_gets. unfold id. cbn [av_state s0 av_with_queued av_exchange_len]. by rewrite Est, E1. }
    case_bool; (eapply Hgo; [first [apply Hfail|by apply Hdone; [apply exchange_rsp_exact|]]|]); rewrite run_gets; unfold id;
      cbn [av_state s0 av_with_queued av_exchange av_exchange_len]; rewrite Est, E1, expected_fill, run_lift_Some by done;
      rewrite (memcmp_whole _ reader_exchange), run_lift_Some by done; by rewrite E0.
Qed.

(** *** The callbacks *)

Definition reset_of (s : aliro_st) : aliro_st :=
  av_with_reader (zeros 64) (zeros 29) 0 (av_with_inflight 0 (av_with_state ALIRO_STATE_IDLE s)).

Lemma memset_whole dst v n : len dst = n → memset dst 0 v n = Some (replicate (Z.to_nat n) v).
Proof.
  intros Hl. unfold memset. pose proof (len_nonneg dst). rewrite blit_ok by (rewrite ?len_replicate; lia).
  change (Z.to_nat 0) with 0%nat. rewrite take_0, Z.add_0_l, len_replicate. cbn [app].
  by rewrite drop_ge, app_nil_r by (unfold len in *; lia).
Qed.

Lemma reset_run s : aliro_listener_ok s → aliro_listener_reset s = Some (tt, reset_of s).
Proof.
  intros []. unfold aliro_listener_reset. rewrite !run_modify, run_gets. unfold id. cbn [av_sig av_exchange av_with_inflight av_with_state].
  rewrite (memset_whole _ 0 64), run_lift_Some by done. by rewrite (memset_whole _ 0 29), run_lift_Some by done.
Qed.

Lemma reset_exact {B} (k : unit → M aliro_st B) s : aliro_listener_ok s → (aliro_listener_reset ≫= k) s = k tt (reset_of s).
Proof. intros Hs. by rewrite (run_call _ _ _ _ _ (reset_run s Hs)). Qed.

Lemma reset_ok s : aliro_listener_ok s → aliro_listener_ok (reset_of s).
Proof. intros []. constructor; try done; by left. Qed.

Definition select_result (aid : list Z) : aliro_state_t * list Z :=
  if bool_decide (aid = aliro_expedited_aid) then (ALIRO_STATE_AWAIT_AUTH0, select_rsp)
  else if bool_decide (aid = aliro_stepup_aid) then (ALIRO_STATE_IDLE, sw_bytes 0x6A81)
  else (ALIRO_STATE_IDLE, sw_bytes NFC_SW_FILE_NOT_FOUND).

(** The guarded comparison with an identifier. *)
Lemma aid_matches aid x : (if len aid =? len x then memcmp_eq aid 0 x 0 (len x) else Some false) = Some (bool_decide (aid = x)).
Proof.
  case_bool; bool_prop; [by apply memcmp_whole|]. f_equal. symmetry. apply bool_decide_eq_false. by intros ->.
Qed.

Lemma select_answers s aid : aliro_listener_ok s → let (x, r) := select_result aid in
  answers (aliro_listener_on_select aid (len aid)) s (λ s, av_with_state x (reset_of s)) r.
Proof.
  intros Hs. pose proof (ao_resp s Hs) as Hr. unfold select_result, answers, aliro_listener_on_select.
  case_bool_decide; [|case_bool_decide]; rewrite (reset_exact _ s Hs), (aid_matches aid aliro_expedited_aid), run_lift_Some.
  - rewrite bool_decide_eq_true_2 by done.
    destruct (build_answers (av_with_state ALIRO_STATE_AWAIT_AUTH0 (reset_of s)) aliro_vectors_build_select_rsp select_rsp) as (buf & Hb & Hrun);
      [by apply select_rsp_exact|done|done|]. exists buf. split; [done|]. by rewrite run_modify, Hrun.
  - rewrite bool_decide_eq_false_2 by done. cbv iota. rewrite (aid_matches aid aliro_stepup_aid), run_lift_Some, bool_decide_eq_true_2 by done.
    destruct (send_sw_answers (reset_of s) 0x6A81 Hr) as (buf & Hb & Hrun). exists buf. split; [done|]. by rewrite Hrun.
  - rewrite bool_decide_eq_false_2 by done. cbv iota. rewrite (aid_matches aid aliro_stepup_aid), run_lift_Some, bool_decide_eq_false_2 by done.
    destruct (send_sw_answers (reset_of s) NFC_SW_FILE_NOT_FOUND Hr) as (buf & Hb & Hrun). exists buf. split; [done|]. by rewrite Hrun.
Qed.

(** What a command carries. *)
Definition presents (a : nfc_apdu_t) (i : Z) (bs : list Z) : Prop :=
  cla a = ALIRO_CLA_PROP ∧ ins a = i ∧ ∃ d, data a = Some d ∧ len bs <= lc a ∧ take (length bs) d = bs.

(** What a command that is accepted leaves for the work item. *)
Inductive accepted (a : nfc_apdu_t) (s : aliro_st) : list Z → list Z → Z → Prop :=
  | accepted_auth0 : av_state s = ALIRO_STATE_AWAIT_AUTH0 → ins a = ALIRO_INS_AUTH0 →
      accepted a s (av_sig s) (av_exchange s) (av_exchange_len s)
  | accepted_auth1 sg : av_state s = ALIRO_STATE_AWAIT_AUTH1 → len sg = 64 → presents a ALIRO_INS_AUTH1 sg →
      accepted a s sg (av_exchange s) (av_exchange_len s)
  | accepted_auth1_empty : av_state s = ALIRO_STATE_AWAIT_AUTH1 → ins a = ALIRO_INS_AUTH1 →
      accepted a s (av_sig s) (av_exchange s) (av_exchange_len s)
  | accepted_exchange ex : av_state s = ALIRO_STATE_AWAIT_EXCHANGE → len ex = 29 → presents a ALIRO_INS_EXCHANGE ex →
      accepted a s (av_sig s) ex 29.

(** A command is answered at once, with the state kept or given up, or it is left to the work item. *)
Inductive command_outcome (s : aliro_st) (a : option nfc_apdu_t) : Prop :=
  | command_refused x sw : x = av_state s ∨ x = ALIRO_STATE_ERROR →
      answers (aliro_listener_on_apdu a) s (av_with_state x) (sw_bytes sw) → command_outcome s a
  | command_accepted c sg ex n : a = Some c → av_inflight s = 0 → accepted c s sg ex n →
      aliro_listener_on_apdu a s = Some (tt, av_with_queued true (av_with_inflight 1 (av_with_reader sg ex n s))) → command_outcome s a.

Lemma kept_answers m s r : answers m s id r → answers m s (av_with_state (av_state s)) r.
Proof. intros (buf & Hb & Hm). exists buf. split; [done|]. rewrite Hm. by destruct s. Qed.

Lemma command_runs s a : aliro_listener_ok s → match a with Some a => apdu_ok a | None => True end → command_outcome s a.
Proof.
  intros Hs Ha. pose proof (ao_resp s Hs) as Hr.
  assert (∀ sw, aliro_listener_on_apdu a s = protocol_error sw s → command_outcome s a) as Herr.
  { intros sw E. apply (command_refused s a ALIRO_STATE_ERROR sw); [by right|]. destruct (error_answers s sw Hr) as (b & ? & ?).
    exists b. by rewrite E. }
  assert (∀ sw, aliro_listener_on_apdu a s = aliro_listener_send_sw sw s → command_outcome s a) as Hkeep.
  { intros sw E. apply (command_refused s a (av_state s) sw); [by left|]. apply kept_answers.
    destruct (send_sw_answers s sw Hr) as (b & ? & ?). exists b. by rewrite E. }
  destruct a as [a|]; [|by apply (Hkeep NFC_SW_CONDITIONS_NOT_SAT)].
  assert (∀ sg ex n, av_inflight s = 0 → accepted a s sg ex n → aliro_listener_on_apdu (Some a) s =
    submit_crypto (av_with_reader sg ex n s) → command_outcome s (Some a)) as Hacc.
  { intros sg ex n Hi Hac E. apply (command_accepted s _ a sg ex n); [done..|]. by rewrite E. }
  assert (submit_crypto (av_with_reader (av_sig s) (av_exchange s) (av_exchange_len s) s) = submit_crypto s) as Hsame by by destruct s.
  destruct Ha as (_ & _ & _ & _ & _ & _ & Hd).
  revert Herr Hkeep Hacc. unfold aliro_listener_on_apdu. rewrite !run_gets. unfold id.
  case_bool; [intros _ Hkeep _; by apply (Hkeep NFC_SW_CONDITIONS_NOT_SAT)|].
  case_bool; [intros Herr _ _; by apply (Herr NFC_SW_CLA_NOT_SUPPORTED)|].
  case_bool; [intros Herr _ _; by apply (Herr NFC_SW_CONDITIONS_NOT_SAT)|]. bool_prop.
  case_bool; [intros _ _ Hacc; bool_prop; by apply (Hacc _ _ _ ltac:(done) ltac:(by apply accepted_auth0))|].
  case_bool.
  { case_bool; [intros Herr _ _; by apply (Herr NFC_SW_CONDITIONS_NOT_SAT)|]. bool_prop. intros _ _ Hacc.
    assert (accepted a s (av_sig s) (av_exchange s) (av_exchange_len s)) as He by by apply accepted_auth1_empty.
    destruct (data a) as [d|] eqn:Ed; [|by apply (Hacc _ _ _ ltac:(done) He)].
    destruct (ALIRO_AUTH1_DATA_SIZE <=? lc a) eqn:El; [|by apply (Hacc _ _ _ ltac:(done) He)]. bool_prop. 
    unfold ALIRO_AUTH1_DATA_SIZE, ALIRO_P256_SIGNATURE_SIZE in *. set (sg := take 64 d). assert (len sg = 64) as Hl by (unfold sg; llia).
    apply (Hacc sg (av_exchange s) (av_exchange_len s)); [done| |].
    - apply accepted_auth1; [done..|]. split; [done|]. split; [done|]. exists d. split; [done|]. split; [lia|].
      by assert (length sg = 64%nat) as -> by (unfold len in Hl; lia).
    - rewrite run_bind, memcpy_prefix by lia. change (Z.to_nat 64) with 64%nat. fold sg.
      rewrite <-(memcpy_all _ 0 sg 64), (memcpy_over _ sg 64), run_lift_Some by (done || apply Hs). by rewrite run_modify. }
  case_bool; [|intros Herr _ _; by apply (Herr NFC_SW_INS_NOT_SUPPORTED)].
  case_bool; [intros Herr _ _; by apply (Herr NFC_SW_CONDITIONS_NOT_SAT)|].
  destruct (data a) as [d|] eqn:Ed; [|intros Herr _ _; by apply (Herr NFC_SW_WRONG_LENGTH)].
  case_bool; [intros Herr _ _; by apply (Herr NFC_SW_WRONG_LENGTH)|]. bool_prop. intros _ _ Hacc.
  unfold ALIRO_EXCHANGE_DATA_SIZE in *. set (ex := take 29 d). assert (len ex = 29) as Hl by (unfold ex; llia).
  apply (Hacc (av_sig s) ex 29); [done| |].
  - apply accepted_exchange; [done..|]. split; [done|]. split; [done|]. exists d. split; [done|]. split; [lia|].
    by assert (length ex = 29%nat) as -> by (unfold len in Hl; lia).
  - rewrite memcpy_prefix by lia. change (Z.to_nat 29) with 29%nat. fold ex.
    by rewrite <-(memcpy_all _ 0 ex 29), (memcpy_over _ ex 29), run_lift_Some by (done || apply Hs).
Qed.

(** *** Loading and starting *)

Lemma ok_with_model m s : aliro_ok m → aliro_listener_ok s → aliro_listener_ok (av_with_model m s).
Proof. intros Hm []. by constructor. Qed.

Lemma load_runs s inp : aliro_listener_ok s → bytes inp →
  ∃ ret m, aliro_ok m ∧ aliro_listener_deserialize (Some inp) (len inp) s = Some (ret, av_with_model m (reset_of s)).
Proof.
  intros Hs Hb. destruct (aliro_accepts (av_model s) inp Hb) as (ret & m & Hrun & _ & Hm & _). exists ret, m. split; [done|].
  unfold aliro_listener_deserialize. rewrite (reset_exact _ s Hs), run_gets. unfold id. cbn [av_model reset_of av_with_reader av_with_inflight av_with_state].
  by rewrite Hrun, run_lift_Some.
Qed.

Definition start_model (model : option aliro_data_t) : aliro_data_t :=
  default (aliro_of 0 0 0x00 0x09 (0x04 :: zeros 64) 0 (al_transcript aliro_zero)) model.

Lemma init_runs s model : aliro_listener_ok s → av_queued s = false → match model with Some m => aliro_ok m | None => True end →
  aliro_ok (start_model model) ∧ aliro_listener_init model s = Some (0, reset_of (av_with_model (start_model model) s)).
Proof.
  intros Hs Hq Hm. assert (aliro_ok (start_model model)) as Hok.
  { destruct model as [m|]; [done|]. apply aliro_empty_ok; try done. apply Forall_cons_2; [done|apply bytes_zeros]. }
  split; [done|]. unfold aliro_listener_init. rewrite run_gets. unfold id. rewrite Hq, run_lift_Some.
  assert (aliro_listener_ok (av_with_model (start_model model) s)) as Hs' by by apply ok_with_model.
  destruct model as [m|]; cbv iota.
  - rewrite run_lift_Some, run_modify. exact (reset_exact _ _ Hs').
  - change (al_credential_pubkey aliro_zero) with (0 :: zeros 64). rewrite (st_mid [] 0 (zeros 64) 0 4 eq_refl : st (0 :: zeros 64) 0 4 = Some (4 :: zeros 64)). mred.
    exact (reset_exact _ _ Hs').
Qed.

(** ** Runs *)

Inductive aliro_event :=
  | ev_select (aid : list Z) | ev_apdu (a : option nfc_apdu_t) | ev_deselect | ev_field_off
  | ev_work | ev_load (inp : list Z) | ev_init (m : option aliro_data_t) | ev_shutdown.

(** Commands are parsed, stored images are bytes; the queue runs what is on it, and the listener
    is not set up again while its work item is. *)
Definition enabled (e : aliro_event) (s : aliro_st) : Prop :=
  match e with
  | ev_apdu (Some a) => apdu_ok a
  | ev_work => av_queued s = true
  | ev_load inp => bytes inp
  | ev_init m => av_queued s = false ∧ match m with Some m => aliro_ok m | None => True end
  | _ => True
  end.

Definition handle (e : aliro_event) : M aliro_st unit :=
  match e with
  | ev_select aid => aliro_listener_on_select aid (len aid)
  | ev_apdu a => aliro_listener_on_apdu a
  | ev_deselect => aliro_listener_on_deselect
  | ev_field_off => aliro_listener_on_field_off
  | ev_work => run_crypto_work
  | ev_load inp => aliro_listener_deserialize (Some inp) (len inp) ;; mret tt
  | ev_init m => aliro_listener_init m ;; mret tt
  | ev_shutdown => aliro_listener_shutdown ;; mret tt
  end.

Inductive steps (s : aliro_st) : list aliro_event → aliro_st → Prop :=
  | steps_nil : steps s [] s
  | steps_snoc evs s1 e s2 : steps s evs s1 → enabled e s1 → handle e s1 = Some (tt, s2) → steps s (evs ++ [e]) s2.

Definition aliro_boot : aliro_st :=
  {| av_model := aliro_zero; av_state := ALIRO_STATE_IDLE; av_inflight := 0; av_queued := false; av_resp := zeros 255;
     av_sig := zeros 64; av_exchange := zeros 29; av_exchange_len := 0; av_sent := [] |}.

(** The events that do not end the reader's session. *)
Definition stays (e : aliro_event) : Prop := match e with ev_apdu _ | ev_work => True | _ => False end.

(** In this session the reader has presented [bs] in a command [i], before it in [before]. *)
Definition presented (i : Z) (bs : list Z) (before : list aliro_event → Prop) (evs : list aliro_event) : Prop :=
  ∃ pre a post, evs = pre ++ ev_apdu (Some a) :: post ∧ presents a i bs ∧ Forall stays post ∧ before pre.

Definition signed : list aliro_event → Prop := presented ALIRO_INS_AUTH1 reader_sig (λ _, True).
Definition exchanged : list aliro_event → Prop := presented ALIRO_INS_EXCHANGE reader_exchange signed.

Lemma presented_snoc i bs P evs e : presented i bs P evs → stays e → presented i bs P (evs ++ [e]).
Proof.
  intros (pre & a & post & -> & Ha & Hp & HP) He. exists pre, a, (post ++ [e]). rewrite <-(assoc_L (++)). split; [done|].
  split; [done|]. split; [|done]. by apply Forall_app_2; [|apply Forall_singleton].
Qed.

Lemma presented_now i bs (P : list aliro_event → Prop) evs a : presents a i bs → P evs → presented i bs P (evs ++ [ev_apdu (Some a)]).
Proof. intros Ha HP. exists evs, a, []. split; [done|]. split; [done|]. by split. Qed.

(** What holds of every state that can be reached, and of the events that led there. *)
Record aliro_inv (evs : list aliro_event) (s : aliro_st) : Prop := {
  ai_ok : aliro_listener_ok s;
  ai_sig : av_sig s = reader_sig → signed evs;
  ai_auth : av_state s = ALIRO_STATE_AWAIT_EXCHANGE ∨ av_state s = ALIRO_STATE_DONE → av_sig s = reader_sig;
  ai_ex : av_exchange s = reader_exchange → exchanged evs;
  ai_done : av_state s = ALIRO_STATE_DONE → av_exchange s = reader_exchange;
  ai_build : CONFIG_NFC_ALIRO_PROTOCOL_VERIFIED = true →
    av_state s = ALIRO_STATE_IDLE ∨ av_state s = ALIRO_STATE_AWAIT_AUTH0 ∨ av_state s = ALIRO_STATE_ERROR;
}.

Lemma boot_inv : aliro_inv [] aliro_boot.
Proof. constructor; try done; [|by intros [|]|by left]. constructor; try done; [apply aliro_zero_ok|by left|by left]. Qed.

(** A reset forgets what the reader has presented. *)
Lemma reset_inv evs evs' s x r sent m : aliro_inv evs s → aliro_ok m → len r = 255 →
  x = ALIRO_STATE_IDLE ∨ x = ALIRO_STATE_AWAIT_AUTH0 →
  aliro_inv evs' (av_with_out r sent (av_with_state x (av_with_model m (reset_of s)))).
Proof.
  intros [[] _ _ _ _ _] Hm Hr Hx. constructor.
  - constructor; try done; by left.
  - done.
  - cbn. destruct Hx as [-> | ->]; by intros [|].
  - done.
  - cbn. by destruct Hx as [-> | ->].
  - cbn. naive_solver.
Qed.

(** An answer that leaves what the reader has presented alone. *)
Lemma answer_inv evs e s x r sent : aliro_inv evs s → stays e → len r = 255 → x = av_state s ∨ x = ALIRO_STATE_ERROR →
  aliro_inv (evs ++ [e]) (av_with_out r sent (av_with_state x s)).
Proof.
  intros [[] Hsg Ha Hex Hd Hb] He Hr Hx. constructor.
  - by constructor.
  - intros Hs. by apply presented_snoc; [apply Hsg|].
  - cbn. destruct Hx as [-> | ->]; [auto|by intros [|]].
  - intros Hs. by apply presented_snoc; [apply Hex|].
  - cbn. destruct Hx as [-> | ->]; auto; done.
  - cbn. destruct Hx as [-> | ->]; [auto|]. intros _. by right; right.
Qed.

Lemma accept_inv evs c s sg ex n : aliro_inv evs s → accepted c s sg ex n →
  aliro_inv (evs ++ [ev_apdu (Some c)]) (av_with_queued true (av_with_inflight 1 (av_with_reader sg ex n s))).
Proof.
  intros [[] Hsg Ha Hex Hd Hb] Hac.
  assert (av_sig s = reader_sig → signed (evs ++ [ev_apdu (Some c)])) as Hsg' by (intros Hs; by apply presented_snoc; [apply Hsg|]).
  assert (av_exchange s = reader_exchange → exchanged (evs ++ [ev_apdu (Some c)])) as Hex' by (intros Hs; by apply presented_snoc; [apply Hex|]).
  inversion Hac as [Hst|sg' Hst Hl Hp|Hst|ex' Hst Hl Hp]; subst; constructor; cbn; auto; try (constructor; cbn; auto; done).
  - intros ->. by apply presented_now.
  - rewrite Hst. by intros [|].
  - intros ->. apply presented_now; [done|]. by apply Hsg, Ha; left.
  - by rewrite Hst.
Qed.

Lemma work_inv evs s x r sent buf : aliro_inv evs s → work_result s = (x, r) → len buf = 255 →
  aliro_inv (evs ++ [ev_work]) (av_with_out buf sent (av_with_inflight 0 (av_with_state x (av_with_queued false s)))).
Proof.
  intros [[] Hsg Ha Hex Hd Hb] Hw Hbuf.
  assert (x = ALIRO_STATE_ERROR ∨ x = ALIRO_STATE_AWAIT_AUTH1 ∧ CONFIG_NFC_ALIRO_PROTOCOL_VERIFIED = false ∨
    x = ALIRO_STATE_AWAIT_EXCHANGE ∧ av_sig s = reader_sig ∧ CONFIG_NFC_ALIRO_PROTOCOL_VERIFIED = false ∨
    x = ALIRO_STATE_DONE ∧ av_sig s = reader_sig ∧ av_exchange s = reader_exchange ∧ CONFIG_NFC_ALIRO_PROTOCOL_VERIFIED = false) as Hx.
  { revert Hw. unfold work_result. destruct (av_state s) eqn:Est; repeat case_bool; bool_prop; intros [= <- <-];
      first [by left|by right; left|by right; right; left|right; right; right; split; [done|]; split; [apply Ha; by left|done]]. }
  assert (aliro_listener_ok (av_with_out buf sent (av_with_inflight 0 (av_with_state x (av_with_queued false s))))) as Hok
    by (constructor; cbn; auto).
  constructor; [done| | | | |]; cbn.
  1: intros Hs; by apply presented_snoc; [apply Hsg|].
  2: intros Hs; by apply presented_snoc; [apply Hex|].
  all: destruct Hx as [-> |[[-> E]|[(-> & E1 & E)|(-> & E1 & E2 & E)]]]; first [done|by intros [|]|congruence|tauto].
Qed.

Lemma plain_reset evs evs' s : aliro_inv evs s → aliro_inv evs' (reset_of s).
Proof.
  intros Hi. pose proof (ai_ok _ _ Hi) as Hs.
  pose proof (reset_inv evs evs' s ALIRO_STATE_IDLE (av_resp s) (av_sent s) (av_model s) Hi (ao_model s Hs) (ao_resp s Hs) ltac:(by left)) as Hr.
  by destruct s.
Qed.

(** In a state with the invariant, every event is handled and leads to such a state. *)
Lemma event_inv evs e s : aliro_inv evs s → enabled e s → ∃ s', handle e s = Some (tt, s') ∧ aliro_inv (evs ++ [e]) s'.
Proof.
  intros Hi He. pose proof (ai_ok _ _ Hi) as Hs. destruct e as [aid|a| | | |inp|m|]; cbn [handle enabled] in *.
  - pose proof (select_answers s aid Hs) as Hsel. destruct (select_result aid) as [x r] eqn:Ex. destruct Hsel as (buf & Hb & Hrun).
    eexists. split; [exact Hrun|].
    apply (reset_inv evs _ s x buf _ (av_model s) Hi (ao_model s Hs) Hb). revert Ex. unfold select_result. repeat case_bool; intros [= <- _]; auto.
  - destruct (command_runs s a Hs He) as [x sw Hx (buf & Hb & Hrun)|c sg ex n -> _ Hac Hrun]; eexists; (split; [exact Hrun|]).
    + by apply answer_inv.
    + by apply accept_inv.
  - exists (reset_of s). split; [by apply reset_run|by eapply plain_reset].
  - exists (reset_of s). split; [by apply reset_run|by eapply plain_reset].
  - pose proof (work_answers s Hs) as Hw. destruct (work_result s) as [x r] eqn:Ex. destruct Hw as (buf & Hb & Hrun).
    eexists. split; [exact Hrun|]. by eapply work_inv.
  - destruct (load_runs s inp Hs He) as (ret & m & Hm & Hrun). eexists. rewrite (run_call _ _ _ _ _ Hrun). split; [done|].
    by apply (reset_inv evs _ s ALIRO_STATE_IDLE (av_resp s) (av_sent s) m Hi Hm (ao_resp s Hs)); left.
  - destruct He as [Hq Hm]. destruct (init_runs s m Hs Hq Hm) as [Hok Hrun]. eexists. rewrite (run_call _ _ _ _ _ Hrun). split; [done|].
    pose proof (reset_inv evs (evs ++ [ev_init m]) s ALIRO_STATE_IDLE (av_resp s) (av_sent s) _ Hi Hok (ao_resp s Hs) ltac:(by left)) as Hr.
    by destruct s.
  - exists (reset_of s). unfold aliro_listener_shutdown. rewrite run_bind. split; [by rewrite (reset_exact _ s Hs)|by eapply plain_reset].
Qed.

Lemma steps_inv evs s : steps aliro_boot evs s → aliro_inv evs s.
Proof.
  induction 1 as [|evs s1 e s2 _ IH He Hrun]; [apply boot_inv|].
  destruct (event_inv evs e s1 IH He) as (s' & Hrun' & Hi). rewrite Hrun in Hrun'. by injection Hrun' as ->.
Qed.

(** While a command waits for the work item, other commands leave it waiting. *)
Lemma waiting_steps evs s more s2 : aliro_inv evs s → av_inflight s = 1 → Forall (λ e, ∃ c, e = ev_apdu c) more → steps s more s2 →
  aliro_listener_ok s2 ∧ av_inflight s2 = 1.
Proof.
  intros Hi H1 Hm Hsteps. cut (∃ evs2, aliro_inv evs2 s2 ∧ av_inflight s2 = 1); [intros (e & ? & ?); split; [by eapply ai_ok|done]|].
  induction Hsteps as [|more s1 e s2 _ IH He Hrun]; [by exists evs|].
  apply Forall_app in Hm as [Hm [[c ->] _]%Forall_cons_iff]. destruct (IH Hm) as (evs2 & Hi1 & Hn1).
  destruct (event_inv evs2 (ev_apdu c) s1 Hi1 He) as (s' & Hrun' & Hi'). rewrite Hrun in Hrun'. injection Hrun' as <-.
  exists (evs2 ++ [ev_apdu c]). split; [done|].
  destruct (command_runs s1 c (ai_ok _ _ Hi1) He) as [x sw Hx (buf & Hb & Hr)|c' sg ex n -> _ Hac Hr]; cbn [handle] in Hrun; rewrite Hrun in Hr; by injection Hr as ->.
Qed.

(** ** Theorems *)

(** C15: The Aliro listener is safe and never lets the reader skip authentication: from boot, under
    any interleaving of the callbacks, the stored images and the work item, every event is handled
    without an access outside an object; the protocol only reaches its last state in a
    build with the test vectors, and only if in the same session, with no selection, deselection,
    field loss, load or restart in between, the reader has first presented the expected signature in
    AUTH1 and then the expected data in EXCHANGE. *)
Theorem aliro_listener_authenticates evs s : steps aliro_boot evs s →
  (∀ e, enabled e s → ∃ s', handle e s = Some (tt, s')) ∧
  (av_state s = ALIRO_STATE_DONE → CONFIG_NFC_ALIRO_PROTOCOL_VERIFIED = false ∧
    ∃ pre a1 mid a2 post, evs = pre ++ [ev_apdu (Some a1)] ++ mid ++ [ev_apdu (Some a2)] ++ post ∧
      presents a1 ALIRO_INS_AUTH1 reader_sig ∧ presents a2 ALIRO_INS_EXCHANGE reader_exchange ∧ Forall stays (mid ++ post)).
Proof.
  intros Hr%steps_inv. split.
  - intros e He. destruct (event_inv evs e s Hr He) as (s' & ? & _). by exists s'.
  - intros Hd. split.
    + destruct CONFIG_NFC_ALIRO_PROTOCOL_VERIFIED eqn:E; [|done]. destruct (ai_build _ _ Hr E) as [|[|]]; congruence.
    + destruct (ai_ex _ _ Hr (ai_done _ _ Hr Hd)) as (pre2 & a2 & post & -> & H2 & Hp & (pre & a1 & mid & -> & H1 & Hm & _)).
      exists pre, a1, mid, a2, post. split; [by rewrite <-(assoc_L (++))|]. split; [done|]. split; [done|]. by apply Forall_app_2.
Qed.

(** C16: Every command to the Aliro listener is answered: in any reachable state a command is either
    answered at once with one response, or it is left to the work item, which then is on the queue; and
    as long as the session lasts, whatever other commands come first, the item stays there, and when
    the queue runs it sends one response and the listener takes commands again. *)
Theorem aliro_command_answered evs s a : steps aliro_boot evs s → match a with Some a => apdu_ok a | None => True end →
  ∃ s1, handle (ev_apdu a) s = Some (tt, s1) ∧
    ((∃ r, av_sent s1 = av_sent s ++ [r]) ∨
     av_sent s1 = av_sent s ∧ av_inflight s1 = 1 ∧
       ∀ more s2, Forall (λ e, ∃ c, e = ev_apdu c) more → steps s1 more s2 →
         av_queued s2 = true ∧ ∃ s3 r, handle ev_work s2 = Some (tt, s3) ∧ av_sent s3 = av_sent s2 ++ [r] ∧ av_inflight s3 = 0).
Proof.
  intros Hr Ha. pose proof (steps_inv evs s Hr) as Hi. pose proof (ai_ok _ _ Hi) as Hs.
  destruct (command_runs s a Hs Ha) as [x sw Hx (buf & Hb & Hrun)|c sg ex n -> _ Hac Hrun]; eexists; (split; [exact Hrun|]).
  - left. by eexists.
  - right. split; [done|]. split; [done|]. intros more s2 Hm Hsteps.
    destruct (waiting_steps _ _ _ _ (accept_inv _ _ _ _ _ _ Hi Hac) eq_refl Hm Hsteps) as [Hs2 H1].
    assert (av_queued s2 = true) as Hq by (destruct (ao_inflight s2 Hs2) as [|[]]; [congruence|done]). split; [done|].
    pose proof (work_answers s2 Hs2) as Hw. destruct (work_result s2) as [x r]. destruct Hw as (buf & Hb & Hw).
    eexists _, r. split; [exact Hw|]. by split.
Qed.
End AliroListenerFacts.
