(* ===== verification/AliroPoller.v ===== *)
(** * The Aliro poller ([src/nfc/protocols/aliro/aliro_poller.c])

    The reader's side of the expedited protocol: SELECT, AUTH0, AUTH1, EXCHANGE, with the public
    transcript of the answers.  The second half proves that it is safe against any card, and what it
    reads from the listener of another device. *)

From stdpp Require Import base list numbers option.
From S2P Require Import Prelude Kconfig Apdu Serial Stack Session Aliro AliroListener.

Definition aliro_poller_select_ok (rx : list Z) : option bool :=
  if len rx <? 2 then Some false else
  a ← ld rx 0; b ← ld rx 1;
  if (2 + ALIRO_NONCE_SIZE <=? len rx) && (a =? 0x00) && (b =? 0x00) then Some true else
  y ← ld rx (len rx - 2); z ← ld rx (len rx - 1); Some ((y =? 0x90) && (z =? 0x00)).

(** The shape of [aliro_poller_auth0_ok], [aliro_poller_auth1_ok] and [aliro_poller_exchange_ok]. *)
Definition rsp_ok (size : Z) (rx : list Z) : option bool :=
  if len rx <? size then Some false else a ← ld rx 0; b ← ld rx 1; Some ((a =? 0x00) && (b =? 0x00)).
Definition aliro_poller_auth0_ok : list Z → option bool := rsp_ok ALIRO_AUTH0_RSP_SIZE.
Definition aliro_poller_auth1_ok : list Z → option bool := rsp_ok ALIRO_AUTH1_RSP_SIZE.
Definition aliro_poller_exchange_ok : list Z → option bool := rsp_ok ALIRO_EXCHANGE_RSP_SIZE.

Definition ALIRO_SELECT_TX : list Z :=
  [0x00; 0xA4; 0x04; 0x00; 9; 0xA0; 0x00; 0x00; 0x08; 0x58; 0x01; 0x01; 0x01; 0x00].

Definition with_version (ma mi : Z) (d : aliro_data_t) : aliro_data_t :=
  {| al_features := al_features d; al_protocol_major := ma; al_protocol_minor := mi;
     al_credential_pubkey := al_credential_pubkey d; al_transcript_len := al_transcript_len d; al_transcript := al_transcript d |}.
Definition with_pubkey (key : list Z) (d : aliro_data_t) : aliro_data_t :=
  {| al_features := al_features d; al_protocol_major := al_protocol_major d; al_protocol_minor := al_protocol_minor d;
     al_credential_pubkey := key; al_transcript_len := al_transcript_len d; al_transcript := al_transcript d |}.
Definition with_transcript (n : Z) (t : list Z) (d : aliro_data_t) : aliro_data_t :=
  {| al_features := al_features d; al_protocol_major := al_protocol_major d; al_protocol_minor := al_protocol_minor d;
     al_credential_pubkey := al_credential_pubkey d; al_transcript_len := n; al_transcript := t |}.

Section AliroPoller.
Context `{Kconfig} {C : Type} (tag_transceive : list Z → M C (Z * list Z)).

Definition aliro_poller_append_transcript (out : option aliro_data_t) (rx : list Z) : option (Z * option aliro_data_t) :=
  match out with
  | None => Some (0, None)
  | Some d =>
    if len rx =? 0 then Some (0, Some d) else
    if CONFIG_NFC_ALIRO_MAX_TRANSCRIPT <? al_transcript_len d + len rx then Some (- ENOSPC, Some d) else
    t ← memcpy (al_transcript d) (al_transcript_len d) rx 0 (len rx);
    Some (0, Some (with_transcript (u16 (al_transcript_len d + len rx)) t d))
  end.

(** [rx] has room for a whole response. *)
Definition aliro_poller_tx (s : option session) (tx : list Z) : M C (Z * list Z) :=
  '(ret, rx) ← nfc_reader_session_transceive tag_transceive s tx;
  if NFC_TRANSPORT_MAX_RESPONSE_LEN <? len rx then lift None else mret (ret, rx).

Definition aliro_poller_detect (s : option session) : M C Z :=
  if match s with None => true | Some s => negb (ses_active s) end then mret (- EINVAL) else
  '(ret, rx) ← aliro_poller_tx s ALIRO_SELECT_TX;
  if negb (ret =? 0) then mret (- ENOTSUP) else
  ok ← lift (aliro_poller_select_ok rx);
  if negb ok then mret (- ENOTSUP) else mret 0.

(** Appending, for an image that is there. *)
Definition append (d : aliro_data_t) (rx : list Z) : option (Z * aliro_data_t) :=
  '(ret, d) ← aliro_poller_append_transcript (Some d) rx; d ← d; Some (ret, d).

(** The last two exchanges, whose answers are kept only if they are good: the error that ends the
    reading, or the image. *)
Definition optional_step (s : option session) (build : list Z → option (list Z * Z)) (n : Z) (ok : list Z → option bool)
    (d : aliro_data_t) : M C ((Z * aliro_data_t) + aliro_data_t) :=
  '(tx, tx_len) ← lift (build (zeros n)); tx ← lift (sub tx 0 tx_len);
  '(ret, rx) ← aliro_poller_tx s tx;
  if negb (ret =? 0) then mret (inr d) else
  good ← lift (ok rx);
  if negb good then mret (inr d) else
  '(ret, d) ← lift (append d rx);
  if negb (ret =? 0) then mret (inl (ret, d)) else mret (inr d).

Definition aliro_poller_read (s : option session) (out : option aliro_data_t) : M C (Z * option aliro_data_t) :=
  match s, out with
  | None, _ | _, None => mret (- EINVAL, out)
  | Some _, Some _ =>
    let d := aliro_zero in
    '(ret, rx) ← aliro_poller_tx s ALIRO_SELECT_TX;
    if negb (ret =? 0) then mret (ret, Some d) else
    ok ← lift (aliro_poller_select_ok rx);
    if negb ok then mret (- EIO, Some d) else
    let d := with_version 0x00 0x09 d in
    '(ret, d) ← lift (append d rx);
    if negb (ret =? 0) then mret (ret, Some d) else
    '(tx, tx_len) ← lift (aliro_vectors_build_auth0_tx (zeros (5 + ALIRO_AUTH0_DATA_SIZE))); tx ← lift (sub tx 0 tx_len);
    '(ret, rx) ← aliro_poller_tx s tx;
    if negb (ret =? 0) then mret (ret, Some d) else
    ok ← lift (aliro_poller_auth0_ok rx);
    if negb ok then mret (- EIO, Some d) else
    key ← lift (memcpy (al_credential_pubkey d) 0 rx (2 + ALIRO_NONCE_SIZE) ALIRO_P256_PUBLIC_KEY_SIZE);
    '(ret, d) ← lift (append (with_pubkey key d) rx);
    if negb (ret =? 0) then mret (ret, Some d) else
    r ← optional_step s aliro_vectors_build_auth1_tx (5 + ALIRO_AUTH1_DATA_SIZE) aliro_poller_auth1_ok d;
    match r with
    | inl (ret, d) => mret (ret, Some d)
    | inr d =>
      r ← optional_step s aliro_vectors_build_exchange_tx (5 + ALIRO_EXCHANGE_DATA_SIZE) aliro_poller_exchange_ok d;
      match r with inl (ret, d) => mret (ret, Some d) | inr d => mret (0, Some d) end
    end
  end.
End AliroPoller.

(** ** Correctness *)

Section AliroPollerFacts.
Context `{KconfigRanges} {C : Type} (tag_transceive : list Z → M C (Z * list Z)).

(** What appending does to a well-formed image: the answer behind the transcript. *)
Definition transcript (d : aliro_data_t) : list Z := take (Z.to_nat (al_transcript_len d)) (al_transcript d).
Definition appended (d : aliro_data_t) (rx : list Z) : aliro_data_t :=
  with_transcript (al_transcript_len d + len rx)
    (transcript d ++ rx ++ zeros (CONFIG_NFC_ALIRO_MAX_TRANSCRIPT - (al_transcript_len d + len rx))) d.

Lemma append_exact d rx : aliro_ok d → append d rx =
  Some (if CONFIG_NFC_ALIRO_MAX_TRANSCRIPT <? al_transcript_len d + len rx then (- ENOSPC, d) else (0, appended d rx)).
Proof.
  intros Hd. pose proof (aliro_transcript d Hd) as Ht. fold (transcript d) in Ht. pose proof Hd as [_ _ _ _ _ Hsz _ Hln _]. unfold append, aliro_poller_append_transcript.
  pose proof aliro_max_transcript_range. pose proof (len_nonneg rx). assert (len (transcript d) = al_transcript_len d) as Hl by (unfold transcript; llia).
  destruct (Z.eqb_spec (len rx) 0) as [Hz|Hz].
  { destruct rx; [|exfalso; rewrite len_cons in Hz; pose proof (len_nonneg rx); lia]. mred. rewrite Hz, Z.add_0_r, (proj2 (Z.ltb_ge _ _)) by lia.
    unfold appended. rewrite Hz, Z.add_0_r. cbn [app]. rewrite <-Ht. by destruct d. }
  case_bool; [by mred|]. bool_prop. rewrite memcpy_all by done.
  assert (blit (al_transcript d) (al_transcript_len d) rx = Some (transcript d ++ rx ++ zeros (CONFIG_NFC_ALIRO_MAX_TRANSCRIPT - (al_transcript_len d + len rx)))) as ->.
  { rewrite blit_ok by lia. fold (transcript d). do 3 f_equal. rewrite Ht, drop_app, drop_ge by (unfold len in *; lia).
    unfold zeros. rewrite drop_replicate. cbn [app]. f_equal. unfold len in *. lia. }
  mred. rewrite u16_id by lia. done.
Qed.

Lemma appended_ok d rx : aliro_ok d → bytes rx → al_transcript_len d + len rx <= CONFIG_NFC_ALIRO_MAX_TRANSCRIPT → aliro_ok (appended d rx).
Proof.
  intros [? ? ? ? ? Hsz Hb Hl ?] Hrx Hm. pose proof (len_nonneg rx).
  assert (len (transcript d) = al_transcript_len d) as Ht by (unfold transcript; llia).
  assert (bytes (transcript d)) as Hbt by (by apply bytes_take).
  constructor; try done; cbn.
  - llia.
  - rewrite !bytes_app. split; [done|]. split; [done|apply bytes_zeros].
  - lia.
  - rewrite (assoc_L (++)). by rewrite drop_app_length' by (rewrite length_app; unfold len in *; lia).
Qed.

Lemma transcript_appended d rx : aliro_ok d → transcript (appended d rx) = transcript d ++ rx.
Proof.
  intros [? ? ? ? ? Hsz Hb Hl ?]. pose proof (len_nonneg rx). assert (len (transcript d) = al_transcript_len d) as Ht by (unfold transcript; llia).
  unfold transcript at 1. cbn [al_transcript_len al_transcript appended with_transcript]. rewrite (assoc_L (++)).
  by rewrite take_app_length' by (rewrite length_app; unfold len in *; lia).
Qed.

Lemma with_version_ok d ma mi : aliro_ok d → is_byte ma → is_byte mi → aliro_ok (with_version ma mi d).
Proof. intros [] ? ?. by constructor. Qed.
Lemma with_pubkey_ok d key : aliro_ok d → len key = 65 → bytes key → aliro_ok (with_pubkey key d).
Proof. intros [] ? ?. by constructor. Qed.

Lemma rsp_ok_total size rx : 2 <= size → ∃ b, rsp_ok size rx = Some b ∧ (b = true → size <= len rx).
Proof.
  intros Hs. unfold rsp_ok. case_bool; bool_prop; [by exists false|]. ld_case 0 x; [lia|]. ld_case 1 y; [lia|]. eexists. split; [done|lia].
Qed.

Lemma select_ok_total rx : ∃ b, aliro_poller_select_ok rx = Some b.
Proof.
  unfold aliro_poller_select_ok. case_bool; bool_prop; [by exists false|]. ld_case 0 x; [lia|]. ld_case 1 y; [lia|].
  case_bool; [by eexists|]. ld_case (len rx - 2) z; [lia|]. ld_case (len rx - 1) w; [lia|]. by eexists.
Qed.

(** *** The frames *)

Definition auth0_tx : list Z :=
  [ALIRO_CLA_PROP; ALIRO_INS_AUTH0; 0; 0; 81] ++ replicate 16 ALIRO_TEST_READER_NONCE_FILL ++ [4] ++ replicate 64 ALIRO_TEST_READER_PUBKEY_FILL.
Definition auth1_tx : list Z := [ALIRO_CLA_PROP; ALIRO_INS_AUTH1; 0; 0; 64] ++ reader_sig.
Definition exchange_tx : list Z := [ALIRO_CLA_PROP; ALIRO_INS_EXCHANGE; 0; 0; 29] ++ reader_exchange.

Lemma frames_exact :
  aliro_vectors_build_auth0_tx (zeros (5 + ALIRO_AUTH0_DATA_SIZE)) = Some (auth0_tx, len auth0_tx) ∧
  aliro_vectors_build_auth1_tx (zeros (5 + ALIRO_AUTH1_DATA_SIZE)) = Some (auth1_tx, len auth1_tx) ∧
  aliro_vectors_build_exchange_tx (zeros (5 + ALIRO_EXCHANGE_DATA_SIZE)) = Some (exchange_tx, len exchange_tx).
Proof. split_and!; by vm_compute. Qed.

Lemma frames_bytes : bytes ALIRO_SELECT_TX ∧ bytes auth0_tx ∧ bytes auth1_tx ∧ bytes exchange_tx.
Proof. split_and!; by apply bytes_check. Qed.

(** ** Safety *)

Section Safe.
Context (R : C → Prop) `{!CardWhile tag_transceive R}.

Lemma tx_total s tx c : R c → bytes tx →
  ensures (aliro_poller_tx tag_transceive s tx) c (λ '(ret, rx) c', R c' ∧ bytes rx ∧ len rx <= NFC_TRANSPORT_MAX_RESPONSE_LEN).
Proof.
  intros Hc Hb. eapply ensures_bind; [by apply (session_total tag_transceive R)|]. intros [ret rx] c' (Hc' & Hrx & Hl).
  rewrite (proj2 (Z.ltb_ge _ _)) by done. by apply ensures_ret.
Qed.

Lemma append_total d rx : aliro_ok d → bytes rx → ∃ ret d', append d rx = Some (ret, d') ∧ aliro_ok d'.
Proof.
  intros Hd Hb. rewrite append_exact by done. case_bool; bool_prop; eexists _, _; (split; [done|]); [done|]. by apply appended_ok.
Qed.

Definition step_done (r : (Z * aliro_data_t) + aliro_data_t) (c : C) : Prop :=
  R c ∧ aliro_ok match r with inl (_, d) => d | inr d => d end.

Lemma optional_total s build n ok tx size d c : build (zeros n) = Some (tx, len tx) → bytes tx → ok = rsp_ok size → 2 <= size → R c → aliro_ok d →
  ensures (optional_step tag_transceive s build n ok d) c step_done.
Proof.
  intros Hb Htx -> Hsz Hc Hd. unfold optional_step. eapply ensures_lift; [exact Hb|]. eapply ensures_lift; [by apply sub_whole|].
  eapply ensures_bind; [by apply tx_total|]. intros [ret rx] c' (Hc' & Hrx & Hl).
  assert (∀ d, aliro_ok d → ensures (mret (inr d)) c' step_done) as Hend by (intros d' Hd'; by apply ensures_ret).
  case_bool; [by apply Hend|]. destruct (rsp_ok_total size rx Hsz) as (b & Hb' & Hlen). eapply ensures_lift; [done|].
  destruct b; cbn [negb]; [|by apply Hend]. destruct (append_total d rx Hd Hrx) as (r & d' & Ha & Hd'). eapply ensures_lift; [done|]. cbv iota beta.
  case_bool; [by apply ensures_ret|by apply Hend].
Qed.

(** Reading an Aliro credential is safe against any card: whatever it answers, the reader stays
    inside its buffers and the image, returns, and leaves a well-formed image, which can be saved. *)
Theorem aliro_poller_read_safe s out c : R c →
  ensures (aliro_poller_read tag_transceive (Some s) (Some out)) c (λ r c', R c' ∧ ∃ d, r.2 = Some d ∧ aliro_ok d).
Proof.
  intros Hc. pose proof frames_bytes as (Bs & B0 & B1 & B2).
  unfold aliro_poller_read. set (Q := λ (r : Z * option aliro_data_t) (c' : C), R c' ∧ _).
  assert (∀ ret d c', R c' → aliro_ok d → ensures (mret (ret, Some d)) c' Q) as Hend.
  { intros ret d c' Hc' Hd. apply ensures_ret. split; [done|]. by exists d. }
  pose proof aliro_zero_ok as Hz. eapply ensures_bind; [by apply tx_total|]. intros [ret rx] c1 (Hc1 & Hrx & Hl).
  case_bool; [by apply Hend|]. destruct (select_ok_total rx) as [b Hb]. eapply ensures_lift; [done|].
  destruct b; cbn [negb]; [|by apply Hend].
  destruct (append_total (with_version 0 9 aliro_zero) rx) as (r1 & d1 & Ha1 & Hd1); [by apply with_version_ok|done|].
  eapply ensures_lift; [done|]. cbv iota beta. case_bool; [by apply Hend|].
  eapply ensures_lift; [exact (proj1 frames_exact)|]. cbv iota beta. eapply ensures_lift; [by apply sub_whole|].
  eapply ensures_bind; [by apply tx_total|]. intros [ret2 rx2] c2 (Hc2 & Hrx2 & Hl2). case_bool; [by apply Hend|].
  destruct (rsp_ok_total ALIRO_AUTH0_RSP_SIZE rx2 ltac:(done)) as (b2 & Hb2 & Hlen2). eapply ensures_lift; [exact Hb2|].
  destruct b2; cbn [negb]; [|by apply Hend]. specialize (Hlen2 eq_refl).
  unfold ALIRO_AUTH0_RSP_SIZE, ALIRO_NONCE_SIZE, ALIRO_P256_PUBLIC_KEY_SIZE in *.
  destruct (memcpy_fits (al_credential_pubkey d1) 0 rx2 18 65) as (key & Hk & Lk & Bk); try lia; [by rewrite (alo_key d1 Hd1)|].
  eapply ensures_lift; [exact Hk|]. rewrite (alo_key d1 Hd1) in Lk.
  destruct (append_total (with_pubkey key d1) rx2) as (r2 & d2 & Ha2 & Hd2); [apply with_pubkey_ok; [done|done|apply Bk; [apply Hd1|done]]|done|].
  eapply ensures_lift; [done|]. cbv iota beta. case_bool; [by apply Hend|].
  eapply ensures_bind; [by apply (optional_total (Some s) _ _ _ auth1_tx ALIRO_AUTH1_RSP_SIZE _ _ (proj1 (proj2 frames_exact)))|]. intros [[r3 d3]|d3] c3 [Hc3 Hd3]; [by apply Hend|].
  eapply ensures_bind; [by apply (optional_total (Some s) _ _ _ exchange_tx ALIRO_EXCHANGE_RSP_SIZE _ _ (proj2 (proj2 frames_exact)))|]. intros [[r4 d4]|d4] c4 [Hc4 Hd4]; by apply Hend.
Qed.
End Safe.
End AliroPollerFacts.

(** ** The listener of another device as the card *)

(** A frame on the link: a SELECT by name is the router's [on_select], any other command reaches
    [on_apdu]; then the queue runs, and the response is the last one sent. *)

Section Link.
Context `{KconfigRanges}.

Definition aliro_link (tx : list Z) : M aliro_st (Z * list Z) :=
  '(r, a) ← lift (apdu_parse (Some tx) (len tx) false (Some apdu_zero));
  a ← lift a;
  (if selects a then let d := take (Z.to_nat (lc a)) (default [] (data a)) in aliro_listener_on_select d (len d)
   else aliro_listener_on_apdu (Some a)) ;;
  s ← gets id;
  (if av_queued s then run_crypto_work else mret tt) ;;
  s ← gets id; rx ← lift (list.last (av_sent s)); mret (0, rx).

(** The listener between two commands. *)
Record waits (x : aliro_state_t) (s : aliro_st) : Prop := {
  wt_ok : aliro_listener_ok s;
  wt_queued : av_queued s = false;
  wt_inflight : av_inflight s = 0;
  wt_state : av_state s = x;
}.

Lemma link_select s x : waits x s → ∃ s', aliro_link ALIRO_SELECT_TX s = Some ((0, select_rsp), s') ∧ waits ALIRO_STATE_AWAIT_AUTH0 s'.
Proof.
  intros [Hs Hq Hi Hx]. destruct (select_answers s aliro_expedited_aid Hs) as (buf & Hb & Hrun).
  eexists. split.
  - unfold aliro_link. change (apdu_parse _ _ _ _) with (Some (APDU_PARSE_OK, Some
      {| cla := 0; ins := 0xA4; p1 := 4; p2 := 0; data := Some aliro_expedited_aid; lc := 9; le := 0; has_le := false; extended := false |})).
    rewrite !run_lift_Some. cbv zeta. change (selects _) with true. cbv iota. cbn [lc data].
    change (take (Z.to_nat 9) (default [] (Some aliro_expedited_aid))) with aliro_expedited_aid.
    rewrite (run_call _ _ _ _ _ Hrun), run_gets. unfold id. change (av_queued (av_with_out _ _ _)) with (av_queued s). rewrite Hq, run_ret, run_gets.
    cbn [av_sent av_with_out]. by rewrite list.last_snoc, run_lift_Some.
  - constructor; try done. apply (reset_ok s) in Hs as []. by constructor.
Qed.

(** A command that is accepted is answered by the work item in the same exchange. *)
Lemma link_command s tx a s1 : apdu_parse (Some tx) (len tx) false (Some apdu_zero) = Some (APDU_PARSE_OK, Some a) → selects a = false →
  aliro_listener_on_apdu (Some a) s = Some (tt, s1) → aliro_listener_ok s1 → av_queued s1 = true →
  ∃ s2, aliro_link tx s = Some ((0, (work_result s1).2), s2) ∧ waits (work_result s1).1 s2 ∧
    av_sig s2 = av_sig s1 ∧ av_exchange s2 = av_exchange s1.
Proof.
  intros Hp Hsel Hrun Hs Hq. pose proof (work_answers s1 Hs) as Hw. destruct (work_result s1) as [x r]. destruct Hw as (buf & Hb & Hw).
  eexists. split.
  - unfold aliro_link. rewrite Hp, !run_lift_Some. rewrite Hsel. cbv iota. rewrite (run_call _ _ _ _ _ Hrun), run_gets. unfold id. rewrite Hq.
    rewrite (run_call _ _ _ _ _ Hw), run_gets. cbn [av_sent av_with_out]. by rewrite list.last_snoc, run_lift_Some.
  - split; [|done]. constructor; try done. destruct Hs. constructor; try done. by left.
Qed.

Definition prop_apdu (i : Z) (d : list Z) : nfc_apdu_t :=
  {| cla := ALIRO_CLA_PROP; ins := i; p1 := 0; p2 := 0; data := Some d; lc := len d; le := 0; has_le := false; extended := false |}.

Lemma link_auth0 s : waits ALIRO_STATE_AWAIT_AUTH0 s → CONFIG_NFC_ALIRO_PROTOCOL_VERIFIED = false →
  ∃ s', aliro_link auth0_tx s = Some ((0, auth0_rsp), s') ∧ waits ALIRO_STATE_AWAIT_AUTH1 s'.
Proof.
  intros [Hs Hq Hi Hx] Hv. set (a := prop_apdu ALIRO_INS_AUTH0 (drop 5 auth0_tx)).
  destruct (link_command s auth0_tx a (av_with_queued true (av_with_inflight 1 s))) as (s2 & Hrun & Hw & _);
    [done|done| |by destruct Hs; constructor; auto|done|].
  - unfold aliro_listener_on_apdu. rewrite run_gets. unfold id. rewrite Hx. cbn [cla a prop_apdu]. rewrite Hi. done.
  - unfold work_result in Hrun, Hw. cbn [av_state av_with_queued av_with_inflight] in Hrun, Hw. rewrite Hx, Hv in Hrun, Hw. by exists s2.
Qed.

Lemma link_auth1 s : waits ALIRO_STATE_AWAIT_AUTH1 s → CONFIG_NFC_ALIRO_PROTOCOL_VERIFIED = false →
  ∃ s', aliro_link auth1_tx s = Some ((0, auth1_rsp), s') ∧ waits ALIRO_STATE_AWAIT_EXCHANGE s'.
Proof.
  intros [Hs Hq Hi Hx] Hv. set (a := prop_apdu ALIRO_INS_AUTH1 reader_sig).
  destruct (link_command s auth1_tx a (av_with_queued true (av_with_inflight 1 (av_with_reader reader_sig (av_exchange s) (av_exchange_len s) s))))
    as (s2 & Hrun & Hw & _); [done|done| |by destruct Hs; constructor; auto|done|].
  - transitivity (((sg ← lift (memcpy (av_sig s) 0 reader_sig 0 64); modify (av_with_reader sg (av_exchange s) (av_exchange_len s))) ;; submit_crypto) s).
    + unfold aliro_listener_on_apdu. rewrite run_gets. unfold id. by rewrite Hx, Hi.
    + by rewrite run_bind, (memcpy_over (av_sig s) reader_sig 64), run_lift_Some by (done || apply Hs).
  - unfold work_result in Hrun, Hw. cbn [av_state av_sig av_with_queued av_with_inflight av_with_reader] in Hrun, Hw.
    rewrite Hx, Hv, bool_decide_eq_true_2 in Hrun, Hw by done. by exists s2.
Qed.

Lemma link_exchange s : waits ALIRO_STATE_AWAIT_EXCHANGE s → CONFIG_NFC_ALIRO_PROTOCOL_VERIFIED = false →
  ∃ s', aliro_link exchange_tx s = Some ((0, exchange_rsp), s') ∧ waits ALIRO_STATE_DONE s'.
Proof.
  intros [Hs Hq Hi Hx] Hv. set (a := prop_apdu ALIRO_INS_EXCHANGE reader_exchange).
  destruct (link_command s exchange_tx a (av_with_queued true (av_with_inflight 1 (av_with_reader (av_sig s) reader_exchange 29 s))))
    as (s2 & Hrun & Hw & _); [done|done| |by destruct Hs; constructor; auto|done|].
  - transitivity ((ex ← lift (memcpy (av_exchange s) 0 reader_exchange 0 29); modify (av_with_reader (av_sig s) ex 29) ;; submit_crypto) s).
    + unfold aliro_listener_on_apdu. rewrite run_gets. unfold id. by rewrite Hx, Hi.
    + by rewrite (memcpy_over (av_exchange s) reader_exchange 29), run_lift_Some by (done || apply Hs).
  - unfold work_result in Hrun, Hw. cbn [av_state av_exchange av_exchange_len av_with_queued av_with_inflight av_with_reader] in Hrun, Hw.
    rewrite Hx, Hv, bool_decide_eq_true_2 in Hrun, Hw by done. by exists s2.
Qed.

Section Read.
Context (ses : session) (Hses : ses_active ses = true) (Hv : CONFIG_NFC_ALIRO_PROTOCOL_VERIFIED = false).

Lemma tx_link tx rx s s' : aliro_link tx s = Some ((0, rx), s') → len rx <= 255 → aliro_poller_tx aliro_link (Some ses) tx s = Some ((0, rx), s').
Proof.
  intros Hr Hl. unfold aliro_poller_tx. rewrite (run_call _ _ _ _ _ (session_active aliro_link ses tx s _ Hses Hr)).
  by rewrite (proj2 (Z.ltb_ge _ _)).
Qed.

(** An exchange whose answer is good. *)
Lemma optional_exact build n tx ok rx s s' d : build (zeros n) = Some (tx, len tx) → aliro_link tx s = Some ((0, rx), s') → len rx <= 255 →
  ok rx = Some true → aliro_ok d →
  optional_step aliro_link (Some ses) build n ok d s =
    Some (if CONFIG_NFC_ALIRO_MAX_TRANSCRIPT <? al_transcript_len d + len rx then inl (- ENOSPC, d) else inr (appended d rx), s').
Proof.
  intros Hb Hl Hrx Hok Hd. unfold optional_step. rewrite Hb, run_lift_Some. cbv iota beta. rewrite sub_whole, run_lift_Some by done.
  rewrite (run_call _ _ _ _ _ (tx_link _ _ _ _ Hl Hrx)). cbn [Z.eqb negb]. rewrite Hok, run_lift_Some. cbn [negb]. rewrite append_exact, run_lift_Some by done. by case_bool.
Qed.

(** The public key in the answer to AUTH0. *)
Definition sub_key (rsp : list Z) : list Z := take 65 (drop 18 rsp).

(** What the listener's answers leave in the image. *)
Definition read_image (rest : list Z) : aliro_data_t :=
  aliro_of 0 0 0x00 0x09 (0x04 :: replicate 64 ALIRO_TEST_CARD_PUBKEY_FILL) (len (select_rsp ++ auth0_rsp ++ rest))
    ((select_rsp ++ auth0_rsp ++ rest) ++ zeros (CONFIG_NFC_ALIRO_MAX_TRANSCRIPT - len (select_rsp ++ auth0_rsp ++ rest))).

Lemma read_image_ok rest : bytes rest → len (select_rsp ++ auth0_rsp ++ rest) <= CONFIG_NFC_ALIRO_MAX_TRANSCRIPT → aliro_ok (read_image rest).
Proof.
  intros Hb Hl. apply aliro_of_ok; try done; [by apply bytes_check|]. rewrite !bytes_app. split_and!; [by apply bytes_check..|done].
Qed.

Lemma read_image_appended rest rx : len (select_rsp ++ auth0_rsp ++ rest) <= CONFIG_NFC_ALIRO_MAX_TRANSCRIPT → appended (read_image rest) rx = read_image (rest ++ rx).
Proof.
  intros Hl. set (a := select_rsp ++ auth0_rsp ++ rest) in *.
  assert (select_rsp ++ auth0_rsp ++ rest ++ rx = a ++ rx) as E by (unfold a; by rewrite <-!(assoc_L (++))).
  unfold appended, read_image, with_transcript, aliro_of, transcript. rewrite E. fold a.
  cbn [al_features al_protocol_major al_protocol_minor al_credential_pubkey al_transcript_len al_transcript].
  rewrite take_app_length' by (unfold len; lia). by rewrite len_app, <-(assoc_L (++) a rx).
Qed.

Lemma read_image_head rest : al_protocol_major (read_image rest) = 0x00 ∧ al_protocol_minor (read_image rest) = 0x09 ∧
  al_credential_pubkey (read_image rest) = sub_key auth0_rsp.
Proof. done. Qed.

Lemma start_image :
  appended (with_pubkey (sub_key auth0_rsp) (appended (with_version 0x00 0x09 aliro_zero) select_rsp)) auth0_rsp = read_image [].
Proof.
  set (d := appended (with_version 0x00 0x09 aliro_zero) select_rsp).
  assert (transcript d = select_rsp) as Ht.
  { unfold d. rewrite transcript_appended by (by apply with_version_ok; [apply aliro_zero_ok|..]). done. }
  unfold appended at 1. change (transcript (with_pubkey _ d)) with (transcript d). rewrite Ht. unfold read_image, aliro_of, with_transcript, with_pubkey.
  rewrite app_nil_r. cbn [al_features al_protocol_major al_protocol_minor al_credential_pubkey al_transcript_len al_transcript].
  change (al_transcript_len d + len auth0_rsp) with (len (select_rsp ++ auth0_rsp)). by rewrite (assoc_L (++)).
Qed.

(** C17: The Aliro reader and the Aliro listener of two devices understand each other: with the test
    vectors, from any state in which the listener waits, reading runs the whole protocol, and
    leaves in the image the version, the public key of the listener's answer to AUTH0 and the
    transcript of the four answers, and the listener in its last state. In a build whose
    transcript is too short for the answers it reports so. *)
Theorem aliro_poller_reads_listener out s x : waits x s →
  ∃ d s', aliro_poller_read aliro_link (Some ses) (Some out) s =
      Some ((if 198 <=? CONFIG_NFC_ALIRO_MAX_TRANSCRIPT then 0 else - ENOSPC, Some d), s') ∧
    aliro_ok d ∧ al_protocol_major d = 0x00 ∧ al_protocol_minor d = 0x09 ∧
    al_credential_pubkey d = sub_key auth0_rsp ∧
    (198 <= CONFIG_NFC_ALIRO_MAX_TRANSCRIPT → transcript d = select_rsp ++ auth0_rsp ++ auth1_rsp ++ exchange_rsp ∧ waits ALIRO_STATE_DONE s').
Proof.
  intros Hw. pose proof aliro_max_transcript_range as Hmax.
  destruct (link_select s x Hw) as (s1 & R1 & W1). destruct (link_auth0 s1 W1 Hv) as (s2 & R2 & W2).
  destruct (link_auth1 s2 W2 Hv) as (s3 & R3 & W3). destruct (link_exchange s3 W3 Hv) as (s4 & R4 & W4).
  pose proof (with_version_ok aliro_zero 0x00 0x09 aliro_zero_ok ltac:(done) ltac:(done)) as Hd0.
  assert (aliro_ok (read_image [])) as Hd2 by (apply read_image_ok; [by apply Forall_nil_2|change (len _) with 101; lia]).
  unfold aliro_poller_read. rewrite (run_call _ _ _ _ _ (tx_link _ _ _ _ R1 ltac:(done))). cbn [Z.eqb negb].
  change (lift (aliro_poller_select_ok select_rsp)) with (lift (Some true) : M aliro_st bool). rewrite run_lift_Some. cbn [negb].
  rewrite append_exact, (proj2 (Z.ltb_ge _ _)), run_lift_Some by (done || (change (0 + 18 <= CONFIG_NFC_ALIRO_MAX_TRANSCRIPT); lia)).
  cbv iota beta. cbn [Z.eqb negb]. rewrite (proj1 frames_exact), run_lift_Some. cbv iota beta. rewrite sub_whole, run_lift_Some by done.
  rewrite (run_call _ _ _ _ _ (tx_link _ _ _ _ R2 ltac:(done))). cbn [Z.eqb negb].
  change (lift (aliro_poller_auth0_ok auth0_rsp)) with (lift (Some true) : M aliro_st bool). rewrite run_lift_Some. cbn [negb].
  rewrite (memcpy_field _ _ 18 65 (sub_key auth0_rsp)), run_lift_Some by done.
  rewrite append_exact by (apply with_pubkey_ok; [apply appended_ok; [done|by apply bytes_check|change (0 + 18 <= CONFIG_NFC_ALIRO_MAX_TRANSCRIPT); lia]|done|by apply bytes_check]).
  rewrite (proj2 (Z.ltb_ge _ _)), run_lift_Some by (change (18 + 83 <= CONFIG_NFC_ALIRO_MAX_TRANSCRIPT); lia). cbv iota beta. cbn [Z.eqb negb].
  rewrite start_image. pose proof (optional_exact _ _ auth1_tx aliro_poller_auth1_ok auth1_rsp s2 s3 (read_image []) (proj1 (proj2 frames_exact)) R3 ltac:(done) eq_refl Hd2) as O1.
  rewrite (run_call _ _ _ _ _ O1). change (al_transcript_len (read_image []) + len auth1_rsp) with 167.
  pose proof read_image_head as Hf.
  destruct (Z.ltb_spec CONFIG_NFC_ALIRO_MAX_TRANSCRIPT 167).
  { rewrite (proj2 (Z.leb_gt _ _)) by lia. exists (read_image []), s3. destruct (Hf []) as (? & ? & ?). split_and!; [done..|lia]. }
  rewrite read_image_appended by (change (len _) with 101; lia). cbn [app].
  assert (aliro_ok (read_image auth1_rsp)) as Hd3 by (apply read_image_ok; [by apply bytes_check|change (len _) with 167; lia]).
  pose proof (optional_exact _ _ exchange_tx aliro_poller_exchange_ok exchange_rsp s3 s4 (read_image auth1_rsp) (proj2 (proj2 frames_exact)) R4 ltac:(done) eq_refl Hd3) as O2.
  rewrite (run_call _ _ _ _ _ O2). change (al_transcript_len (read_image auth1_rsp) + len exchange_rsp) with 198.
  destruct (Z.ltb_spec CONFIG_NFC_ALIRO_MAX_TRANSCRIPT 198).
  { rewrite (proj2 (Z.leb_gt _ _)) by lia. exists (read_image auth1_rsp), s4. destruct (Hf auth1_rsp) as (? & ? & ?). split_and!; [done..|lia]. }
  rewrite (proj2 (Z.leb_le _ _)) by lia. rewrite read_image_appended by (change (len _) with 167; lia).
  exists (read_image (auth1_rsp ++ exchange_rsp)), s4. destruct (Hf (auth1_rsp ++ exchange_rsp)) as (? & ? & ?).
  assert (aliro_ok (read_image (auth1_rsp ++ exchange_rsp))) as Hd4 by (apply read_image_ok; [by apply bytes_check|change (len _) with 198; lia]).
  split; [done|]. split; [done|]. do 3 (split; [done|]). intros _. split; [|done]. unfold transcript, read_image, aliro_of.
  cbn [al_transcript_len al_transcript]. by rewrite take_app_length' by done.
Qed.
End Read.
End Link.
