(* ===== verification/Iso15693.v ===== *)
(** * ISO 15693 and SLIX card models ([src/nfc/protocols/iso15693_3/iso15693_3.c],
    [src/nfc/protocols/slix/slix.c])

    The blocks of a vicinity card, the SLIX extension of it, their persistent forms and the
    comparison used to verify a clone. *)

From stdpp Require Import base list numbers option.
From S2P Require Import Prelude Service Serial.

(** ** [iso15693_3.c] *)

Definition ISO15693_FORMAT_VERSION : Z := 0x01.
Definition ISO15693_UID_SIZE : Z := 8.
Definition ISO15693_BLOCKS_MAX : Z := 128.
Definition ISO15693_BLOCK_SIZE_MAX : Z := 4.

Record iso15693_3_data_t := {
  v_uid : list Z;
  v_dsfid : Z;
  v_afi : Z;
  v_ic_ref : Z;
  v_lock_dsfid : Z;
  v_lock_afi : Z;
  v_block_count : Z;
  v_block_size : Z;
  v_block_data : list Z;
  v_block_security : list Z;
}.

Definition iso15693_zero : iso15693_3_data_t :=
  {| v_uid := zeros ISO15693_UID_SIZE; v_dsfid := 0; v_afi := 0; v_ic_ref := 0; v_lock_dsfid := 0;
     v_lock_afi := 0; v_block_count := 0; v_block_size := 0;
     v_block_data := zeros (ISO15693_BLOCKS_MAX * ISO15693_BLOCK_SIZE_MAX);
     v_block_security := zeros ISO15693_BLOCKS_MAX |}.

Definition iso15693_3_data_reset (d : option iso15693_3_data_t) : option iso15693_3_data_t :=
  match d with None => None | Some _ => Some iso15693_zero end.

Definition iso15693_3_persist_id : Z := NFC_PERSIST_ID_ISO15693.

Definition iso15693_write (d : iso15693_3_data_t) : M wstate unit :=
  let data_len := v_block_count d * v_block_size d in
  put ISO15693_FORMAT_VERSION ;;
  puts (v_uid d) ISO15693_UID_SIZE ;;
  put (v_dsfid d) ;; put (v_afi d) ;; put (v_ic_ref d) ;; put (v_lock_dsfid d) ;;
  put (v_lock_afi d) ;;
  put (lo8 (v_block_count d)) ;; put (hi8 (v_block_count d)) ;;
  put (v_block_size d) ;;
  puts (v_block_data d) data_len ;;
  puts (v_block_security d) (v_block_count d).

Definition iso15693_3_serialize (data : option iso15693_3_data_t) (out : option (list Z))
    (out_max : Z) (out_len : option Z) : option (Z * option (list Z) * option Z) :=
  match data, out, out_len with
  | None, _, _ | _, None, _ | _, _, None => Some (- EINVAL, out, out_len)
  | Some d, Some o, Some _ =>
    if (v_block_count d =? 0) || (ISO15693_BLOCKS_MAX <? v_block_count d) ||
       (v_block_size d =? 0) || (ISO15693_BLOCK_SIZE_MAX <? v_block_size d)
    then Some (- EINVAL, out, out_len) else
    let data_len := v_block_count d * v_block_size d in
    let need := 1 + ISO15693_UID_SIZE + 5 + 3 + data_len + v_block_count d in
    if out_max <? need then Some (- ENOSPC, out, out_len) else
    '(_, (o, offset)) ← iso15693_write d (o, 0);
    Some (0, Some o, Some offset)
  end.

(** The body of [iso15693_3_deserialize] after the NULL checks. *)
Definition iso15693_parse (inp : list Z) (in_len : Z) : M Z (Z * iso15693_3_data_t) :=
  let d := iso15693_zero in
  if in_len <? 1 + ISO15693_UID_SIZE + 5 + 3 then mret (- EBADMSG, d) else
  v ← get inp;
  if negb (v =? ISO15693_FORMAT_VERSION) then mret (- EBADMSG, d) else
  uid ← read_into inp (v_uid d) ISO15693_UID_SIZE;
  dsfid ← get inp; afi ← get inp; ic_ref ← get inp; lock_dsfid ← get inp; lock_afi ← get inp;
  c0 ← get inp; c1 ← get inp;
  let block_count := le16 c0 c1 in
  block_size ← get inp;
  let fields count bd bs :=
    {| v_uid := uid; v_dsfid := dsfid; v_afi := afi; v_ic_ref := ic_ref;
       v_lock_dsfid := lock_dsfid; v_lock_afi := lock_afi; v_block_count := count;
       v_block_size := block_size; v_block_data := bd; v_block_security := bs |} in
  if (block_count =? 0) || (ISO15693_BLOCKS_MAX <? block_count) ||
     (block_size =? 0) || (ISO15693_BLOCK_SIZE_MAX <? block_size)
  then mret (- EBADMSG, fields 0 (v_block_data d) (v_block_security d)) else
  let data_len := block_count * block_size in
  offset ← gets id;
  if in_len <? offset + data_len + block_count
  then mret (- EBADMSG, fields 0 (v_block_data d) (v_block_security d)) else
  bd ← read_into inp (v_block_data d) data_len;
  bs ← read_into inp (v_block_security d) block_count;
  mret (0, fields block_count bd bs).

Definition iso15693_3_deserialize (data : option iso15693_3_data_t) (inp : option (list Z))
    (in_len : Z) : option (Z * option iso15693_3_data_t) :=
  match data, inp with
  | None, _ | _, None => Some (- EINVAL, data)
  | Some _, Some inp => '(ret, d, _) ← iso15693_parse inp in_len 0; Some (ret, Some d)
  end.

Definition iso15693_3_compare (expected actual : option iso15693_3_data_t) : option Z :=
  match expected, actual with
  | None, _ | _, None => Some (- EINVAL)
  | Some e, Some a =>
    u ← memcmp_eq (v_uid e) 0 (v_uid a) 0 ISO15693_UID_SIZE;
    if negb u then Some (- EBADMSG) else
    if negb (v_dsfid e =? v_dsfid a) then Some (- EBADMSG) else
    if negb (v_afi e =? v_afi a) then Some (- EBADMSG) else
    if negb (v_ic_ref e =? v_ic_ref a) then Some (- EBADMSG) else
    if negb (v_block_count e =? v_block_count a) then Some (- EBADMSG) else
    if negb (v_block_size e =? v_block_size a) then Some (- EBADMSG) else
    let data_len := v_block_count e * v_block_size e in
    b ← memcmp_eq (v_block_data e) 0 (v_block_data a) 0 data_len;
    if negb b then Some (- EBADMSG) else
    s ← memcmp_eq (v_block_security e) 0 (v_block_security a) 0 (v_block_count e);
    if negb s then Some (- EBADMSG) else Some 0
  end.

(** ** [slix.c] *)

Definition SLIX_EXT_MAGIC_0 : Z := 0x53.
Definition SLIX_EXT_MAGIC_1 : Z := 0x4C.
Definition SLIX_EXT_VERSION : Z := 0x01.
Definition SLIX_PASSWORD_COUNT : Z := 5.
Definition SLIX_PASSWORD_SIZE : Z := 4.
Definition SLIX_SIGNATURE_SIZE : Z := 32.
Definition SLIX_NXP_MFG_CODE : Z := 0x04.
Definition SLIX_EXT_TAIL_SIZE : Z :=
  2 + 1 + 1 + SLIX_PASSWORD_COUNT * SLIX_PASSWORD_SIZE + SLIX_SIGNATURE_SIZE + 5.

Inductive slix_type_t :=
  SLIX_TYPE_UNKNOWN | SLIX_TYPE_SLIX | SLIX_TYPE_SLIX_S | SLIX_TYPE_SLIX_L | SLIX_TYPE_SLIX2.
#[global] Instance slix_type_eq_dec : EqDecision slix_type_t.
Proof. solve_decision. Defined.

(** [capabilities] is an enumeration any byte can be stored in. *)
Record slix_data_t := {
  x_parent : iso15693_3_data_t;
  x_capabilities : Z;
  x_type : slix_type_t;
  x_passwords : list (list Z);
  x_signature : list Z;
  x_privacy_mode : Z;
  x_protection_pointer : Z;
  x_protection_condition : Z;
  x_lock_eas : Z;
  x_lock_ppl : Z;
}.

Definition slix_zero : slix_data_t :=
  {| x_parent := iso15693_zero; x_capabilities := 0; x_type := SLIX_TYPE_UNKNOWN;
     x_passwords := replicate (Z.to_nat SLIX_PASSWORD_COUNT) (zeros SLIX_PASSWORD_SIZE);
     x_signature := zeros SLIX_SIGNATURE_SIZE; x_privacy_mode := 0; x_protection_pointer := 0;
     x_protection_condition := 0; x_lock_eas := 0; x_lock_ppl := 0 |}.

Definition slix_data_reset (d : option slix_data_t) : option slix_data_t :=
  match d with None => None | Some _ => Some slix_zero end.

Definition slix_persist_id : Z := NFC_PERSIST_ID_SLIX.

Definition slix_type_from_uid (uid : list Z) : option slix_type_t :=
  u0 ← ld uid 0;
  if negb (u0 =? 0xE0) then Some SLIX_TYPE_UNKNOWN else
  u1 ← ld uid 1;
  if negb (u1 =? SLIX_NXP_MFG_CODE) then Some SLIX_TYPE_UNKNOWN else
  u2 ← ld uid 2;
  Some (if u2 =? 0x01 then SLIX_TYPE_SLIX
        else if u2 =? 0x02 then SLIX_TYPE_SLIX_S
        else if u2 =? 0x03 then SLIX_TYPE_SLIX_L
        else if u2 =? 0x04 then SLIX_TYPE_SLIX2
        else SLIX_TYPE_SLIX).

(** What [slix_serialize] writes behind the parent. *)
Definition slix_write (d : slix_data_t) : M wstate unit :=
  put SLIX_EXT_MAGIC_0 ;; put SLIX_EXT_MAGIC_1 ;; put SLIX_EXT_VERSION ;;
  put (u8 (x_capabilities d)) ;;
  for_i (Z.to_nat SLIX_PASSWORD_COUNT) 0 (λ i,
    p ← lift (ld (x_passwords d) i); puts p SLIX_PASSWORD_SIZE) ;;
  puts (x_signature d) SLIX_SIGNATURE_SIZE ;;
  put (x_privacy_mode d) ;; put (x_protection_pointer d) ;; put (x_protection_condition d) ;;
  put (x_lock_eas d) ;; put (x_lock_ppl d).

Definition slix_serialize (data : option slix_data_t) (out : option (list Z)) (out_max : Z)
    (out_len : option Z) : option (Z * option (list Z) * option Z) :=
  match data, out, out_len with
  | None, _, _ | _, None, _ | _, _, None => Some (- EINVAL, out, out_len)
  | Some d, Some o, Some _ =>
    '(ret, o, parent_len) ← iso15693_3_serialize (Some (x_parent d)) (Some o) out_max (Some 0);
    if negb (ret =? 0) then Some (ret, o, out_len) else
    o ← o; parent_len ← parent_len;
    if out_max - parent_len <? SLIX_EXT_TAIL_SIZE then Some (- ENOSPC, Some o, out_len) else
    '(_, (o, offset)) ← slix_write d (o, parent_len);
    Some (0, Some o, Some offset)
  end.

(** The extension, read from [offset] on. *)
Definition slix_parse_ext (inp : list Z) (in_len : Z) (d : slix_data_t) : M Z (Z * slix_data_t) :=
  offset ← gets id;
  if in_len <? offset + SLIX_EXT_TAIL_SIZE then mret (- EBADMSG, d) else
  m0 ← lift (ld inp offset);
  m1 ← (if negb (m0 =? SLIX_EXT_MAGIC_0) then mret 0 else lift (ld inp (offset + 1)));
  if negb (m0 =? SLIX_EXT_MAGIC_0) || negb (m1 =? SLIX_EXT_MAGIC_1) then mret (- EBADMSG, d) else
  modify (λ offset, offset + 2) ;;
  v ← get inp;
  if negb (v =? SLIX_EXT_VERSION) then mret (- EBADMSG, d) else
  cap ← get inp;
  type ← lift (slix_type_from_uid (v_uid (x_parent d)));
  pws ← fill (Z.to_nat SLIX_PASSWORD_COUNT) 0 (x_passwords d)
          (λ p, read_into inp p SLIX_PASSWORD_SIZE);
  sig ← read_into inp (x_signature d) SLIX_SIGNATURE_SIZE;
  privacy ← get inp; pointer ← get inp; condition ← get inp; eas ← get inp; ppl ← get inp;
  mret (0, {| x_parent := x_parent d; x_capabilities := cap; x_type := type; x_passwords := pws;
              x_signature := sig; x_privacy_mode := privacy; x_protection_pointer := pointer;
              x_protection_condition := condition; x_lock_eas := eas; x_lock_ppl := ppl |}).

Definition slix_with_parent (p : iso15693_3_data_t) (d : slix_data_t) : slix_data_t :=
  {| x_parent := p; x_capabilities := x_capabilities d; x_type := x_type d;
     x_passwords := x_passwords d; x_signature := x_signature d; x_privacy_mode := x_privacy_mode d;
     x_protection_pointer := x_protection_pointer d;
     x_protection_condition := x_protection_condition d; x_lock_eas := x_lock_eas d;
     x_lock_ppl := x_lock_ppl d |}.

Definition slix_deserialize (data : option slix_data_t) (inp : option (list Z)) (in_len : Z)
    : option (Z * option slix_data_t) :=
  match data, inp with
  | None, _ | _, None => Some (- EINVAL, data)
  | Some _, Some inp =>
    '(ret, p) ← iso15693_3_deserialize (Some (x_parent slix_zero)) (Some inp) in_len;
    p ← p;
    let d := slix_with_parent p slix_zero in
    if negb (ret =? 0) then Some (ret, Some d) else
    if in_len <? 1 + ISO15693_UID_SIZE + 5 + 3 then Some (- EBADMSG, Some d) else
    let offset := 1 + ISO15693_UID_SIZE + 5 + 3 + v_block_count p * v_block_size p + v_block_count p in
    '(ret, d, _) ← slix_parse_ext inp in_len d offset; Some (ret, Some d)
  end.

Definition slix_compare (expected actual : option slix_data_t) : option Z :=
  match expected, actual with
  | None, _ | _, None => Some (- EINVAL)
  | Some e, Some a =>
    ret ← iso15693_3_compare (Some (x_parent e)) (Some (x_parent a));
    if negb (ret =? 0) then Some ret else
    if negb (x_capabilities e =? x_capabilities a) then Some (- EBADMSG) else
    if negb (bool_decide (x_type e = x_type a)) then Some (- EBADMSG) else
    if negb (bool_decide (x_passwords e = x_passwords a)) then Some (- EBADMSG) else
    s ← memcmp_eq (x_signature e) 0 (x_signature a) 0 SLIX_SIGNATURE_SIZE;
    if negb s then Some (- EBADMSG) else
    if negb (x_privacy_mode e =? x_privacy_mode a) then Some (- EBADMSG) else
    if negb (x_protection_pointer e =? x_protection_pointer a) then Some (- EBADMSG) else
    if negb (x_protection_condition e =? x_protection_condition a) then Some (- EBADMSG) else
    if negb (x_lock_eas e =? x_lock_eas a) then Some (- EBADMSG) else
    if negb (x_lock_ppl e =? x_lock_ppl a) then Some (- EBADMSG) else Some 0
  end.

(** ** Well-formed ISO 15693 models and their persistent form *)

Record iso_ok (d : iso15693_3_data_t) : Prop := {
  io_uid : len (v_uid d) = ISO15693_UID_SIZE;
  io_uid_bytes : bytes (v_uid d);
  io_fields : Forall is_byte [v_dsfid d; v_afi d; v_ic_ref d; v_lock_dsfid d; v_lock_afi d];
  io_count : 1 <= v_block_count d <= ISO15693_BLOCKS_MAX;
  io_size : 1 <= v_block_size d <= ISO15693_BLOCK_SIZE_MAX;
  io_data_len : len (v_block_data d) = ISO15693_BLOCKS_MAX * ISO15693_BLOCK_SIZE_MAX;
  io_data_bytes : bytes (v_block_data d);
  io_data_padding : drop (Z.to_nat (v_block_count d * v_block_size d)) (v_block_data d) =
    zeros (ISO15693_BLOCKS_MAX * ISO15693_BLOCK_SIZE_MAX - v_block_count d * v_block_size d);
  io_sec_len : len (v_block_security d) = ISO15693_BLOCKS_MAX;
  io_sec_bytes : bytes (v_block_security d);
  io_sec_padding : drop (Z.to_nat (v_block_count d)) (v_block_security d) =
    zeros (ISO15693_BLOCKS_MAX - v_block_count d);
}.

Definition iso_body (d : iso15693_3_data_t) : list Z :=
  take (Z.to_nat (v_block_count d * v_block_size d)) (v_block_data d) ++
  take (Z.to_nat (v_block_count d)) (v_block_security d).

Definition iso_blob (d : iso15693_3_data_t) : list Z :=
  [ISO15693_FORMAT_VERSION] ++ v_uid d ++
  [v_dsfid d; v_afi d; v_ic_ref d; v_lock_dsfid d; v_lock_afi d; lo8 (v_block_count d);
   hi8 (v_block_count d); v_block_size d] ++ iso_body d.

(** The number of data bytes stays inside the array. *)
Lemma block_bytes c s : 1 <= c <= ISO15693_BLOCKS_MAX → 1 <= s <= ISO15693_BLOCK_SIZE_MAX →
  1 <= c * s <= ISO15693_BLOCKS_MAX * ISO15693_BLOCK_SIZE_MAX.
Proof. unfold ISO15693_BLOCKS_MAX, ISO15693_BLOCK_SIZE_MAX. nia. Qed.

Lemma iso_body_len d : iso_ok d →
  len (iso_body d) = v_block_count d * v_block_size d + v_block_count d.
Proof.
  intros []. pose proof (block_bytes _ _ io_count0 io_size0). unfold iso_body.
  rewrite len_app, !len_take. lia.
Qed.

Lemma iso_blob_len d : iso_ok d →
  len (iso_blob d) = 17 + v_block_count d * v_block_size d + v_block_count d.
Proof.
  intros Hd. unfold iso_blob. rewrite !len_app, iso_body_len, (io_uid d Hd) by done.
  rewrite !len_cons, !len_nil. unfold ISO15693_UID_SIZE. lia.
Qed.

Lemma iso_writes d : iso_ok d → writes (iso15693_write d) (iso_blob d).
Proof.
  intros []. pose proof (block_bytes _ _ io_count0 io_size0).
  unfold iso15693_write, iso_blob, iso_body. cbn [app].
  apply (writes_bind _ [_]); [apply writes_put|].
  apply writes_bind; [by apply writes_all|]. cbn [app].
  repeat apply (writes_bind _ [_]); try apply writes_put.
  apply writes_bind; apply writes_puts; lia.
Qed.

(** The range checks of both directions. *)
Definition geometry_ok (count size : Z) : bool :=
  negb ((count =? 0) || (ISO15693_BLOCKS_MAX <? count) ||
        (size =? 0) || (ISO15693_BLOCK_SIZE_MAX <? size)).

Lemma geometry_spec c s : 0 <= c → 0 <= s → geometry_ok c s = true ↔
  1 <= c <= ISO15693_BLOCKS_MAX ∧ 1 <= s <= ISO15693_BLOCK_SIZE_MAX.
Proof.
  intros Hc Hs. unfold geometry_ok. rewrite negb_true_iff, !orb_false_iff, !Z.eqb_neq, !Z.ltb_ge. lia.
Qed.

Lemma geometry_true c s : 1 <= c <= ISO15693_BLOCKS_MAX → 1 <= s <= ISO15693_BLOCK_SIZE_MAX →
  geometry_ok c s = true.
Proof. intros. apply geometry_spec; lia. Qed.

Lemma iso_serialize_ok d out n0 : iso_ok d → len (iso_blob d) <= len out →
  iso15693_3_serialize (Some d) (Some out) (len out) (Some n0) =
  Some (0, Some (iso_blob d ++ drop (length (iso_blob d)) out), Some (len (iso_blob d))).
Proof.
  intros Hd Hl. unfold iso15693_3_serialize.
  pose proof (geometry_true _ _ (io_count d Hd) (io_size d Hd)) as Hg.
  apply negb_true_iff in Hg. rewrite Hg. rewrite (proj2 (Z.ltb_ge _ _)).
  - by rewrite (writes_run _ _ out (iso_writes d Hd) Hl).
  - rewrite iso_blob_len in Hl by done. unfold ISO15693_UID_SIZE. lia.
Qed.

Definition iso_of (uid : list Z) (a b c d e count size : Z) (bd bs : list Z) : iso15693_3_data_t :=
  {| v_uid := uid; v_dsfid := a; v_afi := b; v_ic_ref := c; v_lock_dsfid := d; v_lock_afi := e;
     v_block_count := count; v_block_size := size; v_block_data := bd; v_block_security := bs |}.

(** What is read from an input of [17 + n] bytes, field by field. *)
Lemma iso_parse_spec uid a b c d e c0 c1 sz rest n :
  let inp := [ISO15693_FORMAT_VERSION] ++ uid ++ [a; b; c; d; e; c0; c1; sz] ++ rest in
  let dl := le16 c0 c1 * sz in
  len uid = ISO15693_UID_SIZE → is_byte sz → 0 <= n <= len rest →
  ∃ off, iso15693_parse inp (17 + n) 0 =
    Some (if geometry_ok (le16 c0 c1) sz && (dl + le16 c0 c1 <=? n) then
            (0, iso_of uid a b c d e (le16 c0 c1) sz
                  (take (Z.to_nat dl) rest ++ zeros (512 - dl))
                  (take (Z.to_nat (le16 c0 c1)) (drop (Z.to_nat dl) rest) ++ zeros (128 - le16 c0 c1)))
          else (- EBADMSG, iso_of uid a b c d e 0 sz (zeros 512) (zeros 128)), off).
Proof.
  intros inp dl Hu Hsz Hn. unfold ISO15693_UID_SIZE in Hu. assert (0 <= le16 c0 c1 < 65536) as Hle by apply u16_range.
  pose proof (geometry_spec (le16 c0 c1) sz ltac:(lia) ltac:(destruct Hsz; lia)) as Hg.
  unfold iso15693_parse, ISO15693_UID_SIZE. rewrite (proj2 (Z.ltb_ge _ _)) by lia.
  pose proof (ahead_start inp) as Ha. unfold inp at 2 in Ha. cbn [app] in Ha.
  rget Ha. change (negb (ISO15693_FORMAT_VERSION =? ISO15693_FORMAT_VERSION)) with false. cbv iota.
  rread Ha uid; [|done..]. rewrite Hu in Ha. do 8 rget Ha. cbv zeta.
  unfold geometry_ok in *. destruct (_ || _); cbn [negb andb] in *; [by eexists|].
  destruct Hg as [Hg _]. destruct (Hg eq_refl) as [Hc Hs]. clear Hg.
  pose proof (block_bytes _ _ Hc Hs) as Hb. fold dl in Hb. rewrite run_gets. cbn [id]. revert Ha. zadds. intros Ha.
  fold dl. destruct (dl + le16 c0 c1 <=? n) eqn:E; bool_prop.
  2: { rewrite (proj2 (Z.ltb_lt _ _)) by lia. by eexists. }
  rewrite (proj2 (Z.ltb_ge _ _)) by lia. unfold ISO15693_BLOCKS_MAX, ISO15693_BLOCK_SIZE_MAX in *.
  rewrite <-(take_drop (Z.to_nat dl) rest) in Ha.
  rewrite (run_read_into _ _ _ _ _ _ _ Ha) by (cbn [v_block_data iso15693_zero]; rewrite ?len_take, ?len_zeros; unfold ISO15693_BLOCKS_MAX, ISO15693_BLOCK_SIZE_MAX; lia).
  apply ahead_app in Ha as [Ha _]. rewrite len_take in Ha. rewrite Z2Nat.id, Z.min_l in Ha by lia.
  rewrite <-(take_drop (Z.to_nat (le16 c0 c1)) (drop _ rest)) in Ha.
  rewrite (run_read_into _ _ _ _ _ _ _ Ha) by (cbn [v_block_security iso15693_zero]; rewrite ?len_take, ?len_drop, ?len_zeros; unfold ISO15693_BLOCKS_MAX; lia).
  eexists. unfold iso_of, mret, M_ret. cbn [v_block_data v_block_security iso15693_zero].
  unfold zeros, ISO15693_BLOCKS_MAX, ISO15693_BLOCK_SIZE_MAX. rewrite !drop_replicate, !length_take, !length_drop.
  repeat f_equal; llia.
Qed.

(** An object that is what was stored, and zeros behind it. *)
Lemma padded_object (l : list Z) k n : 0 <= k → drop (Z.to_nat k) l = zeros (n - k) →
  take (Z.to_nat k) l ++ zeros (n - k) = l.
Proof. intros Hk <-. apply take_drop. Qed.

(** The persistent form is read back, whatever follows it. *)
Lemma iso_parse_blob d junk k : iso_ok d → 0 <= k <= len junk →
  ∃ off, iso15693_parse (iso_blob d ++ junk) (len (iso_blob d) + k) 0 = Some ((0, d), off).
Proof.
  intros Hd Hk. pose proof Hd as []. pose proof (block_bytes _ _ io_count0 io_size0) as Hb.
  unfold ISO15693_BLOCKS_MAX, ISO15693_BLOCK_SIZE_MAX in *. pose proof (iso_body_len d Hd) as Hl.
  destruct (iso_parse_spec (v_uid d) (v_dsfid d) (v_afi d) (v_ic_ref d) (v_lock_dsfid d) (v_lock_afi d)
    (lo8 (v_block_count d)) (hi8 (v_block_count d)) (v_block_size d) (iso_body d ++ junk)
    (len (iso_body d) + k)) as (off & Hrun); [done|unfold is_byte; lia|rewrite len_app; pose proof (len_nonneg (iso_body d)); lia|].
  rewrite le16_split in Hrun by lia.
  rewrite geometry_true, (proj2 (Z.leb_le _ _)) in Hrun
    by (unfold ISO15693_BLOCKS_MAX, ISO15693_BLOCK_SIZE_MAX; lia).
  cbn [andb] in Hrun. exists off. unfold iso_blob at 1. rewrite <-!(assoc_L (++)).
  rewrite iso_blob_len by done. replace (17 + _ + _ + k) with (17 + (len (iso_body d) + k)) by lia.
  rewrite Hrun. f_equal. f_equal. f_equal. unfold iso_of.
  assert (take (Z.to_nat (v_block_count d * v_block_size d)) (iso_body d ++ junk) =
    take (Z.to_nat (v_block_count d * v_block_size d)) (v_block_data d)) as ->.
  { unfold iso_body. rewrite <-(assoc_L (++)). apply take_app_length'. llia. }
  assert (take (Z.to_nat (v_block_count d)) (drop (Z.to_nat (v_block_count d * v_block_size d)) (iso_body d ++ junk)) =
    take (Z.to_nat (v_block_count d)) (v_block_security d)) as ->.
  { unfold iso_body. rewrite <-(assoc_L (++)), drop_app_length' by llia. apply take_app_length'. llia. }
  rewrite (padded_object (v_block_data d)), (padded_object (v_block_security d)) by (done || lia).
  by destruct d.
Qed.

Lemma iso_of_ok uid a b c d e c0 c1 sz rest n :
  len uid = ISO15693_UID_SIZE → bytes uid → Forall is_byte [a; b; c; d; e] → is_byte sz → bytes rest →
  0 <= n <= len rest → geometry_ok (le16 c0 c1) sz = true → le16 c0 c1 * sz + le16 c0 c1 <= n →
  iso_ok (iso_of uid a b c d e (le16 c0 c1) sz
    (take (Z.to_nat (le16 c0 c1 * sz)) rest ++ zeros (512 - le16 c0 c1 * sz))
    (take (Z.to_nat (le16 c0 c1)) (drop (Z.to_nat (le16 c0 c1 * sz)) rest) ++ zeros (128 - le16 c0 c1))).
Proof.
  intros Hu Hub Hf Hsz Hr Hn Hg Hl. assert (0 <= le16 c0 c1 < 65536) as Hle by apply u16_range.
  apply geometry_spec in Hg as [Hc Hs]; [|lia|destruct Hsz; lia]. pose proof (block_bytes _ _ Hc Hs) as Hb.
  unfold ISO15693_BLOCKS_MAX, ISO15693_BLOCK_SIZE_MAX in *.
  constructor; cbn [iso_of v_uid v_dsfid v_afi v_ic_ref v_lock_dsfid v_lock_afi v_block_count v_block_size
    v_block_data v_block_security]; try done.
  - unfold ISO15693_BLOCKS_MAX, ISO15693_BLOCK_SIZE_MAX. llia.
  - apply bytes_app. auto with nfc.
  - rewrite drop_app_length' by llia. done.
  - unfold ISO15693_BLOCKS_MAX. llia.
  - apply bytes_app. auto 6 with nfc.
  - rewrite drop_app_length' by llia. done.
Qed.

Lemma iso_accepts d0 inp n : bytes inp → 0 <= n <= len inp →
  ∃ ret d, iso15693_3_deserialize (Some d0) (Some inp) n = Some (ret, Some d) ∧
    (ret = 0 ∨ ret = - EBADMSG) ∧
    (ret = 0 → iso_ok d ∧ ∃ junk, take (Z.to_nat n) inp = iso_blob d ++ junk).
Proof.
  intros Hb Hn. unfold iso15693_3_deserialize.
  destruct (n <? 17) eqn:E; bool_prop.
  { unfold iso15693_parse. change (1 + ISO15693_UID_SIZE + 5 + 3) with 17.
    rewrite (proj2 (Z.ltb_lt _ _)) by lia. mred. eexists _, _. split; [done|]. split; [by right|done]. }
  destruct (len_split inp 1) as (h & r1 & -> & Hh); [lia|]. rewrite len_app in Hn.
  destruct (len_split r1 8) as (uid & r2 & -> & Hu); [lia|]. rewrite len_app in Hn.
  destruct (len_split r2 8) as (f & rest & -> & Hf); [lia|]. rewrite len_app in Hn.
  destruct h as [|v [|]]; try (exfalso; llia).
  destruct f as [|a [|b [|c [|d [|e [|c0 [|c1 [|sz [|]]]]]]]]]; try (exfalso; llia). inv_bytes.
  destruct (v =? ISO15693_FORMAT_VERSION) eqn:Ev; bool_prop.
  2: { unfold iso15693_parse. rewrite (proj2 (Z.ltb_ge _ _)) by (unfold ISO15693_UID_SIZE; lia). cbn [app].
       rewrite (run_get _ _ v _ _ (ahead_start _)), (proj2 (Z.eqb_neq _ _)) by done. mred.
       eexists _, _. split; [done|]. split; [by right|done]. }
  subst v. destruct (iso_parse_spec uid a b c d e c0 c1 sz rest (n - 17)) as (off & Hrun); [done..|lia|].
  replace (17 + (n - 17)) with n in Hrun by lia. rewrite Hrun. mred.
  destruct (geometry_ok _ _) eqn:Eg; cbn [andb]; [|eexists _, _; split; [done|]; split; [by right|done]].
  case_bool; bool_prop; [|eexists _, _; split; [done|]; split; [by right|done]].
  eexists _, _. split; [done|]. split; [by left|]. intros _.
  split; [apply (iso_of_ok _ _ _ _ _ _ _ _ _ _ (n - 17)); try done; [by rewrite !Forall_cons_iff|lia]|].
  assert (0 <= le16 c0 c1 < 65536) as Hle by apply u16_range.
  apply geometry_spec in Eg as [Hc Hs]; [|lia|unfold is_byte in *; lia]. pose proof (block_bytes _ _ Hc Hs) as Hbb.
  set (dl := le16 c0 c1 * sz) in *. exists (take (Z.to_nat (n - 17 - dl - le16 c0 c1)) (drop (Z.to_nat (le16 c0 c1)) (drop (Z.to_nat dl) rest))).
  unfold iso_blob, iso_body. cbn [iso_of v_uid v_dsfid v_afi v_ic_ref v_lock_dsfid v_lock_afi v_block_count
    v_block_size v_block_data v_block_security]. fold dl. rewrite lo8_le16, hi8_le16 by done.
  rewrite (take_app_length' (take (Z.to_nat dl) rest)),
    (take_app_length' (take (Z.to_nat (le16 c0 c1)) (drop (Z.to_nat dl) rest))) by llia.
  rewrite <-!(assoc_L (++)). rewrite take_app_ge by llia. f_equal.
  rewrite take_app_ge by llia. f_equal. rewrite take_app_ge by llia. f_equal.
  rewrite !take_take_drop. f_equal. llia.
Qed.

(** ** Well-formed SLIX models and their persistent form *)

Record slix_ok (x : slix_data_t) : Prop := {
  xo_parent : iso_ok (x_parent x);
  xo_type : slix_type_from_uid (v_uid (x_parent x)) = Some (x_type x);
  xo_pw_count : length (x_passwords x) = Z.to_nat SLIX_PASSWORD_COUNT;
  xo_pw_size : Forall (λ p, len p = SLIX_PASSWORD_SIZE) (x_passwords x);
  xo_pw_bytes : Forall bytes (x_passwords x);
  xo_sig : len (x_signature x) = SLIX_SIGNATURE_SIZE;
  xo_sig_bytes : bytes (x_signature x);
  xo_fields : Forall is_byte [x_capabilities x; x_privacy_mode x; x_protection_pointer x;
                              x_protection_condition x; x_lock_eas x; x_lock_ppl x];
}.

Definition slix_ext (x : slix_data_t) : list Z :=
  [SLIX_EXT_MAGIC_0; SLIX_EXT_MAGIC_1; SLIX_EXT_VERSION; x_capabilities x] ++
  mjoin (x_passwords x) ++ x_signature x ++
  [x_privacy_mode x; x_protection_pointer x; x_protection_condition x; x_lock_eas x; x_lock_ppl x].

Definition slix_blob (x : slix_data_t) : list Z := iso_blob (x_parent x) ++ slix_ext x.

Lemma slix_ext_len x : slix_ok x → len (slix_ext x) = SLIX_EXT_TAIL_SIZE.
Proof.
  intros []. unfold slix_ext. rewrite !len_app, (mjoin_len _ _ xo_pw_size0), xo_sig0.
  unfold len at 2. rewrite xo_pw_count0. done.
Qed.

Lemma slix_writes x : slix_ok x → writes (slix_write x) (slix_ext x).
Proof.
  intros []. unfold slix_write, slix_ext. cbn [app]. apply Forall_cons_iff in xo_fields0 as [Hcap _].
  rewrite u8_id by done. repeat apply (writes_bind _ [_]); try apply writes_put.
  apply writes_bind.
  { pose proof (writes_strings (x_passwords x) SLIX_PASSWORD_COUNT SLIX_PASSWORD_SIZE xo_pw_size0) as Hw.
    rewrite <-xo_pw_count0, firstn_all in Hw. rewrite <-xo_pw_count0. apply Hw.
    unfold len. rewrite xo_pw_count0. done. }
  apply writes_bind; [by apply writes_all|].
  repeat apply (writes_bind _ [_]); apply writes_put.
Qed.

Lemma slix_serialize_ok x out n0 : slix_ok x → len (slix_blob x) <= len out →
  slix_serialize (Some x) (Some out) (len out) (Some n0) =
  Some (0, Some (slix_blob x ++ drop (length (slix_blob x)) out), Some (len (slix_blob x))).
Proof.
  intros Hx Hl. pose proof (slix_ext_len x Hx) as He. unfold slix_blob in *. rewrite len_app in Hl.
  pose proof (len_nonneg (slix_ext x)). unfold slix_serialize.
  rewrite (iso_serialize_ok (x_parent x)) by (lia || apply Hx). mred. cbn [negb Z.eqb].
  rewrite (proj2 (Z.ltb_ge _ _)) by lia.
  rewrite (slix_writes x Hx) by llia. mred. f_equal. f_equal; [|by rewrite len_app]. f_equal. f_equal.
  by rewrite <-(assoc_L (++)), drop_drop, length_app.
Qed.

Lemma slix_type_total uid : len uid = ISO15693_UID_SIZE → ∃ t, slix_type_from_uid uid = Some t.
Proof.
  intros Hu. unfold slix_type_from_uid, ISO15693_UID_SIZE in *.
  ld_case 0 u0; [lia|]. case_bool; [eauto|]. ld_case 1 u1; [lia|]. case_bool; [eauto|].
  ld_case 2 u2; [lia|]. eauto.
Qed.

(** What is read from the extension, field by field. *)
Lemma slix_ext_spec inp off d m0 m1 v cap pws sig a b c e f l in_len t :
  ahead inp off ([m0; m1; v; cap] ++ mjoin pws ++ sig ++ [a; b; c; e; f] ++ l) →
  length pws = Z.to_nat SLIX_PASSWORD_COUNT → Forall (λ p, len p = SLIX_PASSWORD_SIZE) pws →
  len sig = SLIX_SIGNATURE_SIZE → off + SLIX_EXT_TAIL_SIZE <= in_len →
  x_passwords d = x_passwords slix_zero → x_signature d = x_signature slix_zero →
  slix_type_from_uid (v_uid (x_parent d)) = Some t →
  ∃ o, slix_parse_ext inp in_len d off =
    Some (if (m0 =? SLIX_EXT_MAGIC_0) && (m1 =? SLIX_EXT_MAGIC_1) && (v =? SLIX_EXT_VERSION) then
            (0, {| x_parent := x_parent d; x_capabilities := cap; x_type := t; x_passwords := pws;
                   x_signature := sig; x_privacy_mode := a; x_protection_pointer := b;
                   x_protection_condition := c; x_lock_eas := e; x_lock_ppl := f |})
          else (- EBADMSG, d), o).
Proof.
  intros Ha Hpc Hps Hsig Hlen Hdp Hds Ht. unfold slix_parse_ext. rewrite run_gets. cbn [id].
  rewrite (proj2 (Z.ltb_ge _ _)) by lia. cbn [app] in Ha.
  apply ahead_cons in Ha as [Ha H0]. apply ahead_cons in Ha as [Ha H1]. rewrite H0, run_lift_Some.
  destruct (m0 =? SLIX_EXT_MAGIC_0) eqn:E0; cbn [negb andb orb]; [|rewrite run_ret; by eexists].
  rewrite H1, run_lift_Some. destruct (m1 =? SLIX_EXT_MAGIC_1) eqn:E1; cbn [negb andb]; [|by eexists].
  rewrite run_modify. replace (off + 1 + 1) with (off + 2) in Ha by lia. rget Ha.
  destruct (v =? SLIX_EXT_VERSION); cbn [negb]; [|by eexists]. rget Ha. rewrite Ht, run_lift_Some.
  rewrite <-Hpc. rewrite (run_fill _ _ _ pws SLIX_PASSWORD_SIZE _ _ Ha Hps); [|rewrite Hdp..|done];
    [|by repeat constructor|rewrite Hpc; done].
  apply ahead_app in Ha as [Ha _]. rewrite (mjoin_len _ _ Hps) in Ha.
  rewrite Hdp, drop_ge, app_nil_r by (rewrite Hpc; done).
  rread Ha sig; [|by rewrite Hds]. rewrite Hsig in Ha. do 5 rget Ha. by eexists.
Qed.

Lemma slix_read_back x d0 out n0 : slix_ok x → len (slix_blob x) <= len out →
  ∃ o n, slix_serialize (Some x) (Some out) (len out) (Some n0) = Some (0, Some o, Some n) ∧
    len o = len out ∧ slix_deserialize (Some d0) (Some o) n = Some (0, Some x).
Proof.
  intros Hx Hl. eexists _, _. split; [by apply slix_serialize_ok|]. split; [llia|].
  pose proof (slix_ext_len x Hx) as He. pose proof Hx as []. unfold slix_deserialize, iso15693_3_deserialize.
  set (junk := drop (length (slix_blob x)) out). unfold slix_blob. rewrite <-(assoc_L (++)), len_app.
  destruct (iso_parse_blob (x_parent x) (slix_ext x ++ junk) (len (slix_ext x)) xo_parent0) as (off & Hrun);
    [rewrite len_app; pose proof (len_nonneg junk); rewrite He; unfold SLIX_EXT_TAIL_SIZE, SLIX_PASSWORD_COUNT, SLIX_PASSWORD_SIZE, SLIX_SIGNATURE_SIZE; lia|].
  rewrite Hrun. mred. cbn [negb Z.eqb]. pose proof (iso_blob_len _ xo_parent0) as Hb.
  pose proof (block_bytes _ _ (io_count _ xo_parent0) (io_size _ xo_parent0)). pose proof (io_count _ xo_parent0).
  change (1 + ISO15693_UID_SIZE + 5 + 3) with 17. rewrite (proj2 (Z.ltb_ge _ 17)) by (rewrite He; unfold SLIX_EXT_TAIL_SIZE, SLIX_PASSWORD_COUNT, SLIX_PASSWORD_SIZE, SLIX_SIGNATURE_SIZE; lia).
  rewrite <-Hb. set (d := slix_with_parent (x_parent x) slix_zero).
  destruct (slix_ext_spec (iso_blob (x_parent x) ++ slix_ext x ++ junk) (len (iso_blob (x_parent x))) d
    SLIX_EXT_MAGIC_0 SLIX_EXT_MAGIC_1 SLIX_EXT_VERSION (x_capabilities x) (x_passwords x) (x_signature x)
    (x_privacy_mode x) (x_protection_pointer x) (x_protection_condition x) (x_lock_eas x) (x_lock_ppl x) junk
    (len (iso_blob (x_parent x)) + len (slix_ext x)) (x_type x)) as (o & Hext); try done.
  - split; [llia|]. unfold slix_ext. rewrite <-!(assoc_L (++)). by apply drop_app_len.
  - rewrite He. lia.
  - rewrite Hext. mred. by destruct x.
Qed.

Lemma slix_accepts d0 inp : bytes inp →
  ∃ ret x, slix_deserialize (Some d0) (Some inp) (len inp) = Some (ret, Some x) ∧
    (ret = 0 ∨ ret = - EBADMSG) ∧ (ret = 0 → slix_ok x ∧ ∃ junk, inp = slix_blob x ++ junk).
Proof.
  intros Hb. pose proof (len_nonneg inp). unfold slix_deserialize.
  destruct (iso_accepts (x_parent slix_zero) inp (len inp) Hb ltac:(lia)) as (r & p & -> & Hr & Hacc). mred.
  destruct (r =? 0) eqn:Er; bool_prop; cbn [negb]; [|eexists _, _; split; [done|]; split; [auto|done]].
  subst r. destruct (Hacc eq_refl) as (Hp & junk & Hin). rewrite take_ge in Hin by llia.
  pose proof (iso_blob_len p Hp) as Hbl. pose proof (block_bytes _ _ (io_count _ Hp) (io_size _ Hp)).
  pose proof (io_count _ Hp). pose proof (len_nonneg junk) as Hj.
  change (1 + ISO15693_UID_SIZE + 5 + 3) with 17. rewrite (proj2 (Z.ltb_ge _ 17)) by (rewrite Hin, len_app; lia).
  rewrite <-Hbl. assert (ahead inp (len (iso_blob p)) junk) as Ha
    by (split; [rewrite Hin; llia|rewrite Hin; by apply drop_app_len]).
  set (d := slix_with_parent p slix_zero).
  destruct (len junk <? SLIX_EXT_TAIL_SIZE) eqn:Ej; bool_prop.
  { unfold slix_parse_ext. rewrite run_gets. cbn [id]. rewrite (proj2 (Z.ltb_lt _ _)) by (rewrite Hin, len_app; lia).
    mred. eexists _, _. split; [done|]. split; [by right|done]. }
  change SLIX_EXT_TAIL_SIZE with 61 in Ej. rewrite Hin in Hb. apply bytes_app in Hb as [_ Hb].
  destruct (len_split junk 4) as (h & j1 & Hj1 & Hh); [lia|]. rewrite Hj1, len_app in Ej.
  destruct (len_split j1 20) as (pw & j2 & -> & Hpw); [lia|]. rewrite len_app in Ej.
  destruct (len_split j2 32) as (sig & j3 & -> & Hsig); [lia|]. rewrite len_app in Ej.
  destruct (len_split j3 5) as (f & j4 & -> & Hf); [lia|].
  destruct h as [|m0 [|m1 [|v [|cap [|]]]]]; try (exfalso; llia).
  destruct f as [|f0 [|f1 [|f2 [|f3 [|f4 [|]]]]]]; try (exfalso; llia).
  destruct (split_chunks pw 5 4 ltac:(lia) ltac:(lia)) as (pws & -> & Hpc & Hps).
  destruct (slix_type_total (v_uid p) (io_uid _ Hp)) as [t Ht].
  rewrite Hj1 in Ha, Hb. inv_bytes.
  destruct (slix_ext_spec inp (len (iso_blob p)) d m0 m1 v cap pws sig f0 f1 f2 f3 f4 j4 (len inp) t Ha) as (o & Hext);
    try done; [rewrite Hin, len_app; change SLIX_EXT_TAIL_SIZE with 61; rewrite Hj1, !len_app in *; llia|].
  rewrite Hext. mred. case_bool; [|eexists _, _; split; [done|]; split; [by right|done]]. bool_prop. subst m0 m1 v.
  eexists _, _. split; [done|]. split; [by left|]. intros _. split; [|exists j4].
  - constructor; cbn; try done; [by apply bytes_mjoin|by rewrite !Forall_cons_iff].
  - rewrite Hin, Hj1. unfold slix_blob, slix_ext. cbn [x_parent slix_with_parent]. by rewrite <-!(assoc_L (++)).
Qed.

(** ** Comparison *)

#[global] Instance iso15693_eq_dec : EqDecision iso15693_3_data_t.
Proof. solve_decision. Defined.

(** The model [e] with other lock bytes. *)
Definition iso_with_locks (ld la : Z) (e : iso15693_3_data_t) : iso15693_3_data_t :=
  {| v_uid := v_uid e; v_dsfid := v_dsfid e; v_afi := v_afi e; v_ic_ref := v_ic_ref e;
     v_lock_dsfid := ld; v_lock_afi := la; v_block_count := v_block_count e;
     v_block_size := v_block_size e; v_block_data := v_block_data e;
     v_block_security := v_block_security e |}.

Lemma iso_compare_spec e a : iso_ok e → iso_ok a →
  iso15693_3_compare (Some e) (Some a) =
  Some (if bool_decide (a = iso_with_locks (v_lock_dsfid a) (v_lock_afi a) e) then 0 else - EBADMSG).
Proof.
  intros He Ha. pose proof (block_bytes _ _ (io_count e He) (io_size e He)). pose proof (io_count e He).
  unfold iso15693_3_compare. rewrite (memcmp_all _ _ _ (io_uid e He) (io_uid a Ha)). mred.
  repeat (case_bool; bool_prop; [rewrite bool_decide_false; [done|]; intros Heq; rewrite Heq in *; cbn in *; congruence|]).
  rewrite (memcmp_padded _ _ (v_block_count e * v_block_size e) (ISO15693_BLOCKS_MAX * ISO15693_BLOCK_SIZE_MAX))
    by first [lia | apply He | apply Ha | rewrite E3, E4; apply Ha].
  mred. case_bool; bool_prop; [rewrite bool_decide_false; [done|]; intros Heq; rewrite Heq in *; cbn in *; congruence|].
  rewrite (memcmp_padded _ _ (v_block_count e) ISO15693_BLOCKS_MAX)
    by first [lia | apply He | apply Ha | rewrite E3; apply Ha].
  mred. case_bool; bool_prop; [rewrite bool_decide_false; [done|]; intros Heq; rewrite Heq in *; cbn in *; congruence|].
  rewrite bool_decide_true; [done|]. unfold iso_with_locks. destruct a; cbn in *; congruence.
Qed.

(** ** Properties *)

(** The persistent form of an ISO 15693 card is exact. What [iso15693_3_serialize] writes for a
    well-formed card is read back by [iso15693_3_deserialize] as the same card, whatever follows it;
    on any bytes and any length within them [iso15693_3_deserialize] returns without leaving the
    buffer, and what it accepts starts with the persistent form of the well-formed card it fills.
    Verifying a clone is exact up to the lock bytes: for two well-formed cards,
    [iso15693_3_compare] returns 0 exactly when they are the same card except possibly for
    [lock_dsfid] and [lock_afi], which it does not look at, and -EBADMSG otherwise. *)
Theorem iso15693_codec :
  (∀ d d0 out n0, iso_ok d → len (iso_blob d) <= len out →
     ∃ o n, iso15693_3_serialize (Some d) (Some out) (len out) (Some n0) = Some (0, Some o, Some n) ∧
       len o = len out ∧ iso15693_3_deserialize (Some d0) (Some o) n = Some (0, Some d)) ∧
  (∀ d0 inp n, bytes inp → 0 <= n <= len inp →
     ∃ ret d, iso15693_3_deserialize (Some d0) (Some inp) n = Some (ret, Some d) ∧
       (ret = 0 ∨ ret = - EBADMSG) ∧
       (ret = 0 → iso_ok d ∧ ∃ junk, take (Z.to_nat n) inp = iso_blob d ++ junk)) ∧
  (∀ e a, iso_ok e → iso_ok a →
     iso15693_3_compare (Some e) (Some a) =
     Some (if bool_decide (a = iso_with_locks (v_lock_dsfid a) (v_lock_afi a) e) then 0 else - EBADMSG)).
Proof.
  split; [|split; [apply iso_accepts|apply iso_compare_spec]]. intros d d0 out n0 Hd Hl. eexists _, _.
  split; [by apply iso_serialize_ok|]. split; [llia|]. unfold iso15693_3_deserialize.
  destruct (iso_parse_blob d (drop (length (iso_blob d)) out) 0 Hd) as (off & Hrun); [llia|].
  rewrite Z.add_0_r in Hrun. by rewrite Hrun.
Qed.

(** The persistent form of a SLIX card, the ISO 15693 form followed by the extension, is
    exact: what [slix_serialize] writes for a well-formed card is read back as the same card, and
    every byte string [slix_deserialize] accepts starts with the persistent form of the well-formed
    card it fills, whose type is the one its UID determines; on any bytes it returns without
    leaving the buffer. *)
Theorem slix_codec :
  (∀ x d0 out n0, slix_ok x → len (slix_blob x) <= len out →
     ∃ o n, slix_serialize (Some x) (Some out) (len out) (Some n0) = Some (0, Some o, Some n) ∧
       len o = len out ∧ slix_deserialize (Some d0) (Some o) n = Some (0, Some x)) ∧
  (∀ d0 inp, bytes inp →
     ∃ ret x, slix_deserialize (Some d0) (Some inp) (len inp) = Some (ret, Some x) ∧
       (ret = 0 ∨ ret = - EBADMSG) ∧ (ret = 0 → slix_ok x ∧ ∃ junk, inp = slix_blob x ++ junk)).
Proof. split; [apply slix_read_back|apply slix_accepts]. Qed.
