(* ===== verification/Iso15693Wire.v ===== *)
(** * ISO 15693 on the air ([src/nfc/protocols/iso15693_3/iso15693_3_poller.h], [iso15693_3_poller_i.c])

    Commands, flags and the parsers of a card's responses, which the listener and the poller of
    ISO 15693 and of SLIX share.  A function's result carries what its output pointers point to.
    Where a pointer is the address of an array of the only callers, it is not an [option]. *)

From stdpp Require Import base list numbers option.
From S2P Require Import Prelude Service Serial Crc Iso15693.

Definition ISO15693_CMD_INVENTORY : Z := 0x01.
Definition ISO15693_CMD_READ : Z := 0x20.
Definition ISO15693_CMD_GET_SYS_INFO : Z := 0x2B.
Definition ISO15693_CMD_GET_BLOCKS_SEC : Z := 0x2C.
Definition ISO15693_INV_FLAGS : Z := 0x26.
Definition ISO15693_CMD_FLAGS : Z := 0x02.
Definition ISO15693_ADDR_FLAGS : Z := 0x22.

Definition ISO15693_BLOCKS_PER_QUERY : Z := 32.
Definition ISO15693_SYSINFO_FLAG_DSFID : Z := 0x01.
Definition ISO15693_SYSINFO_FLAG_AFI : Z := 0x10.
Definition ISO15693_SYSINFO_FLAG_MEMORY : Z := 0x40.
Definition ISO15693_SYSINFO_FLAG_IC_REF : Z := 0x80.
Definition ISO15693_ADDR_FLAG_ADDRESSED : Z := 0x20.
Definition ISO15693_INV_FLAG_INVENTORY : Z := 0x04.
Definition ISO15693_RESP_FLAG_ERROR : Z := 0x01.

(** The loop of [iso15693_3_append_uid_reversed]: [n] more bytes from [i] on, to [out] from [off] on. *)
Fixpoint reversed_loop (n : nat) (i : Z) (uid out : list Z) (off : Z) : option (list Z) :=
  match n with
  | O => Some out
  | S n =>
    b ← ld uid (ISO15693_UID_SIZE - 1 - i); out ← st out (off + i) b;
    reversed_loop n (i + 1) uid out off
  end.

(** [iso15693_3_append_uid_reversed(uid, &out[off], &out_len)]: the array and [out_len]. *)
Definition iso15693_3_append_uid_reversed (uid : option (list Z)) (out : list Z) (off out_len : Z) : option (list Z * Z) :=
  match uid with
  | None => Some (out, out_len)
  | Some uid => out ← reversed_loop (Z.to_nat ISO15693_UID_SIZE) 0 uid out off; Some (out, ISO15693_UID_SIZE)
  end.

(** Whether the response reports an error, and [*err_out]. *)
Definition iso15693_3_error_response_parse (err : Z) (rx : list Z) (rx_len : Z) : option (bool * Z) :=
  if rx_len =? 0 then Some (false, err) else
  f ← ld rx 0;
  if Z.land f ISO15693_RESP_FLAG_ERROR =? 0 then Some (false, err) else
  if rx_len <? 2 then Some (true, - EIO) else
  c ← ld rx 1;
  Some (true, if (c =? 0x01) || (c =? 0x02) then - ENOTSUP else - EIO).

(** [uid[i] = rx[(8 + 1) - i]] *)
Fixpoint uid_loop (n : nat) (i : Z) (rx uid : list Z) : option (list Z) :=
  match n with
  | O => Some uid
  | S n => b ← ld rx (ISO15693_UID_SIZE + 1 - i); uid ← st uid i b; uid_loop n (i + 1) rx uid
  end.

(** The return value, [uid] and [*dsfid]. *)
Definition iso15693_3_inventory_response_parse (rx : list Z) (rx_len : Z) (uid : list Z) (dsfid : Z) : option (Z * list Z * Z) :=
  '(e, err) ← iso15693_3_error_response_parse 0 rx rx_len;
  if e : bool then Some (err, uid, dsfid) else
  if negb (rx_len =? 2 + ISO15693_UID_SIZE) then Some (- EIO, uid, dsfid) else
  dsfid ← ld rx 1;
  uid ← uid_loop (Z.to_nat ISO15693_UID_SIZE) 0 rx uid;
  Some (0, uid, dsfid).

Definition iso_with_uid (uid : list Z) (dsfid : Z) (d : iso15693_3_data_t) : iso15693_3_data_t :=
  {| v_uid := uid; v_dsfid := dsfid; v_afi := v_afi d; v_ic_ref := v_ic_ref d; v_lock_dsfid := v_lock_dsfid d;
     v_lock_afi := v_lock_afi d; v_block_count := v_block_count d; v_block_size := v_block_size d;
     v_block_data := v_block_data d; v_block_security := v_block_security d |}.
Definition iso_with_afi (afi : Z) (d : iso15693_3_data_t) : iso15693_3_data_t :=
  {| v_uid := v_uid d; v_dsfid := v_dsfid d; v_afi := afi; v_ic_ref := v_ic_ref d; v_lock_dsfid := v_lock_dsfid d;
     v_lock_afi := v_lock_afi d; v_block_count := v_block_count d; v_block_size := v_block_size d;
     v_block_data := v_block_data d; v_block_security := v_block_security d |}.
Definition iso_with_ic_ref (r : Z) (d : iso15693_3_data_t) : iso15693_3_data_t :=
  {| v_uid := v_uid d; v_dsfid := v_dsfid d; v_afi := v_afi d; v_ic_ref := r; v_lock_dsfid := v_lock_dsfid d;
     v_lock_afi := v_lock_afi d; v_block_count := v_block_count d; v_block_size := v_block_size d;
     v_block_data := v_block_data d; v_block_security := v_block_security d |}.
Definition iso_with_memory (n sz : Z) (d : iso15693_3_data_t) : iso15693_3_data_t :=
  {| v_uid := v_uid d; v_dsfid := v_dsfid d; v_afi := v_afi d; v_ic_ref := v_ic_ref d; v_lock_dsfid := v_lock_dsfid d;
     v_lock_afi := v_lock_afi d; v_block_count := n; v_block_size := sz;
     v_block_data := v_block_data d; v_block_security := v_block_security d |}.
Definition iso_with_blocks (bd bs : list Z) (d : iso15693_3_data_t) : iso15693_3_data_t :=
  {| v_uid := v_uid d; v_dsfid := v_dsfid d; v_afi := v_afi d; v_ic_ref := v_ic_ref d; v_lock_dsfid := v_lock_dsfid d;
     v_lock_afi := v_lock_afi d; v_block_count := v_block_count d; v_block_size := v_block_size d;
     v_block_data := bd; v_block_security := bs |}.

(** One optional field of a system information response, of [n] bytes from the offset on: whether
    the parser has returned for want of bytes, the offset behind the field, and the data. *)
Definition sysinfo_field (info_flags flag rx_len n : Z) (read : Z → iso15693_3_data_t → option iso15693_3_data_t)
    (s : bool * Z * iso15693_3_data_t) : option (bool * Z * iso15693_3_data_t) :=
  let '(short, offset, d) := s in
  if short || (Z.land info_flags flag =? 0) then Some s else
  if rx_len <=? offset + (n - 1) then Some (true, offset, d) else
  d ← read offset d; Some (false, offset + n, d).

(** The return value and [*data]. *)
Definition iso15693_3_system_info_response_parse (rx : list Z) (rx_len : Z) (d : iso15693_3_data_t)
    : option (Z * iso15693_3_data_t) :=
  '(e, err) ← iso15693_3_error_response_parse 0 rx rx_len;
  if e : bool then Some (err, d) else
  if rx_len <? 2 then Some (- EIO, d) else
  info_flags ← ld rx 1;
  s ← sysinfo_field info_flags ISO15693_SYSINFO_FLAG_DSFID rx_len 1
    (λ o d, b ← ld rx o; Some (iso_with_uid (v_uid d) b d)) (false, 2, d);
  s ← sysinfo_field info_flags ISO15693_SYSINFO_FLAG_AFI rx_len 1 (λ o d, b ← ld rx o; Some (iso_with_afi b d)) s;
  s ← sysinfo_field info_flags ISO15693_SYSINFO_FLAG_MEMORY rx_len 2
    (λ o d, n ← ld rx o; b ← ld rx (o + 1); Some (iso_with_memory (u16 (n + 1)) (u8 (Z.land b 0x1F + 1)) d)) s;
  '(short, offset, d) ← sysinfo_field info_flags ISO15693_SYSINFO_FLAG_IC_REF rx_len 1
    (λ o d, b ← ld rx o; Some (iso_with_ic_ref b d)) s;
  if short || negb (offset =? rx_len) then Some (- EIO, d) else
  if (v_block_count d =? 0) || (ISO15693_BLOCKS_MAX <? v_block_count d) ||
     (v_block_size d =? 0) || (ISO15693_BLOCK_SIZE_MAX <? v_block_size d)
  then Some (- EIO, d) else Some (0, d).

(** The return value and the array with [out = &arr[off]]. *)
Definition iso15693_3_read_block_response_parse (rx : list Z) (rx_len block_size : Z) (arr : list Z) (off : Z)
    : option (Z * list Z) :=
  '(e, err) ← iso15693_3_error_response_parse 0 rx rx_len;
  if e : bool then Some (err, arr) else
  if rx_len <=? 1 then Some (- EIO, arr) else
  let payload_len := rx_len - 1 in
  if negb (payload_len =? block_size) then Some (- EIO, arr) else
  arr ← memcpy arr off rx 1 block_size; Some (0, arr).

Definition iso15693_3_get_block_security_response_parse (rx : list Z) (rx_len : Z) (arr : list Z) (off block_count : Z)
    : option (Z * list Z) :=
  '(e, err) ← iso15693_3_error_response_parse 0 rx rx_len;
  if e : bool then Some (err, arr) else
  if rx_len <=? 1 then Some (- EIO, arr) else
  let payload_len := rx_len - 1 in
  if negb (payload_len =? block_count) then Some (- EIO, arr) else
  arr ← memcpy arr off rx 1 block_count; Some (0, arr).

Definition iso15693_3_optional_step_ok (ret : Z) : bool := (ret =? 0) || (ret =? - ENOTSUP) || (ret =? - ETIMEDOUT).
