(* ===== verification/Iso15693Listener.v ===== *)
(** * ISO 15693 emulation ([src/nfc/protocols/iso15693_3/iso15693_3_listener.c])

    A vicinity card as the reader sees it: inventory, system information, single blocks and the
    security status of blocks, in frames with a CRC.  The second half states what the card answers to
    a request and proves that the listener does that. *)

From stdpp Require Import base list numbers option.
From S2P Require Import Prelude Service Serial Crc Response Iso15693 Iso15693Wire.

(** ** State *)

Definition ISO15693_LISTENER_BUF_SIZE : Z := 256.

(** The static variables of the file, and what was given to [nfc_transport_send_response]. *)
Record iso_state := {
  is_model : iso15693_3_data_t;
  is_initialized : bool;
  is_resp : list Z;
  is_sent : list (list Z);
}.

Definition is_with_model (m : iso15693_3_data_t) (s : iso_state) : iso_state :=
  {| is_model := m; is_initialized := is_initialized s; is_resp := is_resp s; is_sent := is_sent s |}.
Definition is_with_initialized (b : bool) (s : iso_state) : iso_state :=
  {| is_model := is_model s; is_initialized := b; is_resp := is_resp s; is_sent := is_sent s |}.

#[global] Instance iso_resp : RespBuf iso_state.
Proof.
  refine {|
    resp := is_resp;
    with_resp r s := {| is_model := is_model s; is_initialized := is_initialized s; is_resp := r; is_sent := is_sent s |};
    with_sent b s := {| is_model := is_model s; is_initialized := is_initialized s; is_resp := is_resp s; is_sent := is_sent s ++ [b] |};
  |}; try done. by intros [].
Defined.

#[global] Instance iso_resp_sent : RespSent iso_state.
Proof. by refine {| sent := is_sent |}. Defined.

Definition iso_power_up : iso_state :=
  {| is_model := iso15693_zero; is_initialized := false; is_resp := zeros ISO15693_LISTENER_BUF_SIZE; is_sent := [] |}.

(** What the automatic arrays [frame] and [expected] hold before they are written. *)
Record iso_locals := { il_frame : list Z; il_expected : list Z }.

(** ** The handlers *)

Section Send.
Context {S : Type} `{!RespBuf S} (u : iso_locals).

(** The body of [iso15693_3_listener_send] and of [slix_listener_send]. *)
Definition send_frame (payload : list Z) (payload_len : Z) : M S unit :=
  if ISO15693_LISTENER_BUF_SIZE - ISO15693_CRC_SIZE <? payload_len then mret tt else
  frame ← lift (memcpy (il_frame u) 0 payload 0 payload_len);
  '(frame_len, frame) ← lift (iso15693_3_crc_append (Some frame) ISO15693_LISTENER_BUF_SIZE payload_len);
  if frame_len =? 0 then mret tt else
  frame ← lift frame; send_response frame frame_len.

End Send.

Section IsoListener.
Context (u : iso_locals).

Definition iso15693_3_listener_send : list Z → Z → M iso_state unit := send_frame u.

Definition iso15693_3_listener_sysinfo_flags : Z :=
  Z.lor (Z.lor (Z.lor (Z.lor 0 ISO15693_SYSINFO_FLAG_DSFID) ISO15693_SYSINFO_FLAG_AFI) ISO15693_SYSINFO_FLAG_MEMORY)
    ISO15693_SYSINFO_FLAG_IC_REF.

(** [iso15693_3_append_uid_reversed(s_model.uid, &s_resp[offset], &uid_len); offset += uid_len] *)
Definition resp_uid (offset : Z) (uid : list Z) : M iso_state Z :=
  s ← gets id;
  '(r, uid_len) ← lift (iso15693_3_append_uid_reversed (Some uid) (resp s) offset 0);
  modify (with_resp r) ;; mret (offset + uid_len).

Definition iso15693_3_listener_handle_inventory : M iso_state unit :=
  m ← gets is_model;
  offset ← resp_put 0 0; offset ← resp_put offset (v_dsfid m);
  offset ← resp_uid offset (v_uid m);
  s ← gets id; iso15693_3_listener_send (resp s) offset.

Definition iso15693_3_listener_handle_get_sys_info : M iso_state unit :=
  m ← gets is_model;
  offset ← resp_put 0 0; offset ← resp_put offset iso15693_3_listener_sysinfo_flags;
  offset ← resp_put offset (v_dsfid m); offset ← resp_put offset (v_afi m);
  offset ← resp_put offset (u8 (v_block_count m - 1));
  offset ← resp_put offset (u8 (Z.land (u32 (v_block_size m - 1)) 0x1F));
  offset ← resp_put offset (v_ic_ref m);
  s ← gets id; iso15693_3_listener_send (resp s) offset.

(** The error response of both block commands. *)
Definition send_error : M iso_state unit :=
  offset ← resp_put 0 ISO15693_RESP_FLAG_ERROR; offset ← resp_put offset 0x10;
  s ← gets id; iso15693_3_listener_send (resp s) offset.

Definition iso15693_3_listener_handle_read_block (block_num : Z) : M iso_state unit :=
  m ← gets is_model;
  if v_block_count m <=? block_num then send_error else
  let block_off := block_num * v_block_size m in
  offset ← resp_put 0 0;
  offset ← resp_copy offset (v_block_data m) block_off (v_block_size m);
  s ← gets id; iso15693_3_listener_send (resp s) offset.

(** The loop from [block] to [last], both [uint8_t]: more than 256 turns leave [s_resp]. *)
Fixpoint security_loop (fuel : nat) (block last offset : Z) : M iso_state Z :=
  match fuel with
  | O => lift None
  | S fuel =>
    if last <? block then mret offset else
    m ← gets is_model;
    b ← lift (ld (v_block_security m) block);
    offset ← resp_put offset b;
    security_loop fuel (u8 (block + 1)) last offset
  end.

Definition iso15693_3_listener_handle_get_blocks_security (first last : Z) : M iso_state unit :=
  m ← gets is_model;
  if (v_block_count m <=? first) || (v_block_count m <=? last) || (last <? first) then send_error else
  offset ← resp_put 0 0;
  offset ← security_loop 257 first last offset;
  s ← gets id; iso15693_3_listener_send (resp s) offset.

(** [rx_uid] is [&frame[off]]. *)
Definition iso15693_3_listener_uid_matches (frame : list Z) (off : Z) : M iso_state bool :=
  m ← gets is_model;
  '(expected, _) ← lift (iso15693_3_append_uid_reversed (Some (v_uid m)) (il_expected u) 0 0);
  lift (memcmp_eq frame off expected 0 ISO15693_UID_SIZE).

(** The switch over the command; the data are at [frame[data]]. *)
Definition iso_dispatch (command : Z) (frame : list Z) (data data_len : Z) : M iso_state unit :=
  if command =? ISO15693_CMD_INVENTORY then iso15693_3_listener_handle_inventory else
  if command =? ISO15693_CMD_GET_SYS_INFO then
    if data_len =? 0 then iso15693_3_listener_handle_get_sys_info else mret tt
  else if command =? ISO15693_CMD_READ then
    if 1 <=? data_len then b ← lift (ld frame data); iso15693_3_listener_handle_read_block b else mret tt
  else if command =? ISO15693_CMD_GET_BLOCKS_SEC then
    if 2 <=? data_len then
      first ← lift (ld frame data); last ← lift (ld frame (data + 1));
      iso15693_3_listener_handle_get_blocks_security first last
    else mret tt
  else mret tt.

(** The handler, once the CRC is checked: [frame] holds the frame, whose payload has [frame_len] bytes. *)
Definition iso_handle (frame : list Z) (frame_len : Z) : M iso_state unit :=
  if frame_len <? 2 then mret tt else
  flags ← lift (ld frame 0); command ← lift (ld frame 1);
  let data_len := frame_len - 2 in
  if (Z.land flags ISO15693_INV_FLAG_INVENTORY =? 0) && negb (Z.land flags ISO15693_ADDR_FLAG_ADDRESSED =? 0) then
    if data_len <? ISO15693_UID_SIZE then mret tt else
    same ← iso15693_3_listener_uid_matches frame 2;
    if negb same then mret tt else
    iso_dispatch command frame (2 + ISO15693_UID_SIZE) (data_len - ISO15693_UID_SIZE)
  else iso_dispatch command frame 2 data_len.

Definition iso15693_3_listener_on_tag_cmd (tx : option (list Z)) (tx_len : Z) : M iso_state unit :=
  s ← gets id;
  match tx with
  | None => mret tt
  | Some t =>
    if negb (is_initialized s) || (tx_len <? 1 + ISO15693_CRC_SIZE) then mret tt else
    ok ← lift (iso15693_3_crc_check tx tx_len);
    if negb ok then mret tt else
    if ISO15693_LISTENER_BUF_SIZE <? tx_len then mret tt else
    frame ← lift (memcpy (il_frame u) 0 t 0 tx_len);
    iso_handle frame (iso15693_3_crc_trim (Some frame) tx_len)
  end.

Definition iso15693_3_listener_serialize (out : option (list Z)) (out_max : Z) (out_len : option Z)
    : M iso_state (Z * option (list Z) * option Z) :=
  s ← gets id;
  if negb (is_initialized s) then mret (- ENODEV, out, out_len) else
  lift (iso15693_3_serialize (Some (is_model s)) out out_max out_len).

Definition iso15693_3_listener_deserialize (inp : option (list Z)) (in_len : Z) : M iso_state Z :=
  s ← gets id;
  if negb (is_initialized s) then mret (- ENODEV) else
  '(ret, m) ← lift (iso15693_3_deserialize (Some (is_model s)) inp in_len);
  m ← lift m; modify (is_with_model m) ;; mret ret.

Definition iso15693_3_listener_init (model : option iso15693_3_data_t) : M iso_state Z :=
  modify (is_with_model (default iso15693_zero model)) ;; modify (is_with_initialized true) ;; mret 0.

Definition iso15693_3_listener_shutdown : M iso_state Z :=
  modify (is_with_model iso15693_zero) ;; modify (is_with_initialized false) ;; mret 0.

Definition iso15693_3_listener_model (s : iso_state) : option iso15693_3_data_t :=
  if is_initialized s then Some (is_model s) else None.
End IsoListener.

(** ** What a card answers *)

Definition iso_block (d : iso15693_3_data_t) (b : Z) : list Z :=
  take (Z.to_nat (v_block_size d)) (drop (Z.to_nat (b * v_block_size d)) (v_block_data d)).
Definition iso_security (d : iso15693_3_data_t) (first last : Z) : list Z :=
  take (Z.to_nat (last - first + 1)) (drop (Z.to_nat first) (v_block_security d)).

(** A request not addressed to this card. *)
Definition iso_args (d : iso15693_3_data_t) (flags : Z) (args : list Z) : option (list Z) :=
  if (Z.land flags ISO15693_INV_FLAG_INVENTORY =? 0) && negb (Z.land flags ISO15693_ADDR_FLAG_ADDRESSED =? 0) then
    if (8 <=? len args) && bool_decide (take 8 args = reverse (v_uid d)) then Some (drop 8 args) else None
  else Some args.

Definition iso_error : list Z := [ISO15693_RESP_FLAG_ERROR; 0x10].

(** The payload of the answer to a command for this card; [None] where the card is silent. *)
Definition iso_reply (d : iso15693_3_data_t) (command : Z) (args : list Z) : option (list Z) :=
  if command =? ISO15693_CMD_INVENTORY then Some ([0; v_dsfid d] ++ reverse (v_uid d)) else
  if command =? ISO15693_CMD_GET_SYS_INFO then
    match args with
    | [] => Some [0; 0xD1; v_dsfid d; v_afi d; u8 (v_block_count d - 1); (v_block_size d - 1) mod 32; v_ic_ref d]
    | _ => None
    end
  else if command =? ISO15693_CMD_READ then
    match args with
    | b :: _ => Some (if v_block_count d <=? b then iso_error else 0 :: iso_block d b)
    | [] => None
    end
  else if command =? ISO15693_CMD_GET_BLOCKS_SEC then
    match args with
    | first :: last :: _ =>
      Some (if (v_block_count d <=? first) || (v_block_count d <=? last) || (last <? first) then iso_error
            else 0 :: iso_security d first last)
    | _ => None
    end
  else None.

Definition iso_answer (d : iso15693_3_data_t) (req : list Z) : option (list Z) :=
  match req with
  | flags :: command :: args => args ← iso_args d flags args; iso_reply d command args
  | _ => None
  end.

(** The payload of a frame that arrives: its CRC is right and it fits in the buffer. *)
Definition iso_payload (tx : list Z) : option (list Z) :=
  let p := take (length tx - 2) tx in
  if (len tx <=? ISO15693_LISTENER_BUF_SIZE) && bool_decide (tx = iso15693_frame p) then Some p else None.

(** The answer recorded as sent. *)
Definition iso_sent {S} `{!RespBuf S} (r : option (list Z)) (s : S) : S :=
  match r with Some r => with_sent (iso15693_frame r) s | None => s end.

Definition iso_step (s : iso_state) (tx : list Z) : iso_state :=
  if is_initialized s then
    iso_sent (p ← iso_payload tx; iso_answer (is_model s) p) s
  else s.

(** ** The listener answers that *)

(** What keeps every access inside the arrays. *)
Record iso_safe (d : iso15693_3_data_t) : Prop := {
  sf_uid : len (v_uid d) = ISO15693_UID_SIZE;
  sf_uid_bytes : bytes (v_uid d);
  sf_fields : Forall is_byte [v_dsfid d; v_afi d; v_ic_ref d];
  sf_count : 0 <= v_block_count d <= ISO15693_BLOCKS_MAX;
  sf_size : 0 <= v_block_size d <= ISO15693_BLOCK_SIZE_MAX;
  sf_data_len : len (v_block_data d) = ISO15693_BLOCKS_MAX * ISO15693_BLOCK_SIZE_MAX;
  sf_data_bytes : bytes (v_block_data d);
  sf_sec_len : len (v_block_security d) = ISO15693_BLOCKS_MAX;
  sf_sec_bytes : bytes (v_block_security d);
}.

Lemma iso_ok_safe d : iso_ok d → iso_safe d.
Proof.
  intros Hd. pose proof (io_fields d Hd) as Hf. pose proof (io_count d Hd). pose proof (io_size d Hd). inv_bytes.
  constructor; try apply Hd; try lia. by bytes_list.
Qed.

Lemma iso_zero_safe : iso_safe iso15693_zero.
Proof. constructor; try done; try (apply bytes_zeros); try (by vm_compute). by bytes_list. Qed.

Definition iso_locals_ok (u : iso_locals) : Prop := len (il_frame u) = 256 ∧ len (il_expected u) = 8.

Section SendFacts.
Context {S : Type} `{!RespBuf S} (u : iso_locals) (Hu : iso_locals_ok u).

Lemma run_send_frame bs r (s : S) : bytes bs → len bs <= 254 →
  send_frame u (over bs r) (len bs) s = Some (tt, with_sent (iso15693_frame bs) s).
Proof.
  intros Hb Hl. destruct Hu as [Hf _]. unfold send_frame, ISO15693_LISTENER_BUF_SIZE, ISO15693_CRC_SIZE.
  rewrite (proj2 (Z.ltb_ge _ _)) by lia.
  assert (memcpy (il_frame u) 0 (over bs r) 0 (len bs) = Some (over bs (il_frame u))) as ->.
  { apply memcpy_start. lia. }
  rewrite run_lift_Some, iso_append by (done || lia). rewrite run_lift_Some.
  pose proof (len_nonneg bs). rewrite (proj2 (Z.eqb_neq _ _)) by lia. rewrite run_lift_Some.
  assert (len bs + 2 = len (iso15693_frame bs)) as -> by (unfold iso15693_frame; by rewrite frame_len).
  unfold send_response. by rewrite sub_over, run_lift_Some.
Qed.

(** Sending what has been built. *)
Lemma send_does bs (s : S) : bytes bs → len bs <= 254 → 256 <= len (resp s) →
  ∃ r, len r = len (resp s) ∧
    (s' ← gets id; send_frame u (resp s') (len bs)) (with_resp (over bs (resp s)) s) =
    Some (tt, with_resp r (with_sent (iso15693_frame bs) s)).
Proof.
  intros Hb Hl Hr. exists (over bs (resp s)). split; [apply over_len; lia|].
  rewrite run_gets. cbn [id]. rewrite resp_with, run_send_frame by done. by rewrite sent_resp.
Qed.
End SendFacts.

Section IsoFacts.
Context (u : iso_locals) (Hu : iso_locals_ok u).

Record iso_state_ok (s : iso_state) : Prop := {
  so_model : iso_safe (is_model s);
  so_resp : len (is_resp s) = 256;
}.

Lemma reversed_loop_eq n (uid k l : list Z) i off : length uid = 8%nat → (n <= 8)%nat → i = 8 - Z.of_nat n → off + i = len k → (n <= length l)%nat →
  reversed_loop n i uid (k ++ l) off = Some (k ++ reverse (take n uid) ++ drop n l).
Proof.
  intros Hu8. revert k l i. induction n as [|n IH]; intros k l i Hn Hi Ho Hl; [done|]. cbn [reversed_loop].
  destruct l as [|x l]; [cbn in Hl; lia|]. destruct (lookup_lt_is_Some_2 uid n) as [b Hb]; [lia|].
  unfold ISO15693_UID_SIZE. rewrite (ld_eq uid (8 - 1 - i) b); [|lia|replace (Z.to_nat _) with n by lia; done]. mred.
  rewrite st_mid by done. mred. change (k ++ b :: l) with (k ++ [b] ++ l). rewrite (assoc_L (++)).
  rewrite IH by (cbn in Hl; llia || lia). rewrite <-(assoc_L (++)), (take_S_r uid n b Hb), reverse_snoc. done.
Qed.

Lemma append_uid_eq uid k l n0 : len uid = 8 → 8 <= len l →
  iso15693_3_append_uid_reversed (Some uid) (k ++ l) (len k) n0 = Some (k ++ reverse uid ++ drop 8 l, 8).
Proof.
  intros Hl8 Hl. unfold iso15693_3_append_uid_reversed. change (Z.to_nat ISO15693_UID_SIZE) with 8%nat.
  rewrite reversed_loop_eq by (unfold len in *; lia). mred. by rewrite take_ge by (unfold len in *; lia).
Qed.

Lemma run_resp_uid {B} bs r uid s (k : Z → M iso_state B) : len uid = 8 → len bs + 8 <= len r →
  (resp_uid (len bs) uid ≫= k) (with_resp (over bs r) s) =
  k (len (bs ++ reverse uid)) (with_resp (over (bs ++ reverse uid) r) s).
Proof.
  intros Hl8 Hl. apply run_call. unfold resp_uid. rewrite run_gets. cbn [id]. rewrite resp_with. unfold over at 1.
  rewrite append_uid_eq by (done || llia). rewrite run_lift_Some, run_modify, with_resp_twice. unfold mret, M_ret.
  assert (length (reverse uid) = 8%nat) as Hlr by (rewrite length_reverse; unfold len in *; lia).
  f_equal. f_equal; [unfold len; rewrite length_app, Hlr; lia|]. f_equal. unfold over. rewrite length_app, Hlr, drop_drop.
  by rewrite <-(assoc_L (++)).
Qed.

Lemma inventory_does s : iso_state_ok s →
  does (iso15693_3_listener_handle_inventory u) s
    (with_sent (iso15693_frame ([0; v_dsfid (is_model s)] ++ reverse (v_uid (is_model s)))) s).
Proof.
  intros [[] Hr]. change (len (resp s) = 256) in Hr. unfold ISO15693_UID_SIZE in *.
  unfold does, iso15693_3_listener_handle_inventory, iso15693_3_listener_send. rewrite run_gets.
  rewrite run_resp_first, run_resp_put, run_resp_uid by llia.
  assert (length (reverse (v_uid (is_model s))) = 8%nat) as Hlr by (rewrite length_reverse; unfold len in *; lia).
  apply (send_does u Hu); [|unfold len; rewrite !length_app, Hlr; cbn; lia|lia].
  rewrite !bytes_app. split; [|by apply Forall_reverse]. inv_bytes. by bytes_list.
Qed.

Lemma sys_info_does s : iso_state_ok s →
  does (iso15693_3_listener_handle_get_sys_info u) s
    (iso_sent (iso_reply (is_model s) ISO15693_CMD_GET_SYS_INFO []) s).
Proof.
  intros [[] Hr]. change (len (resp s) = 256) in Hr.
  unfold does, iso15693_3_listener_handle_get_sys_info, iso15693_3_listener_send. rewrite run_gets.
  rewrite run_resp_first, !run_resp_put by llia. cbn [app].
  assert (u8 (Z.land (u32 (v_block_size (is_model s) - 1)) 0x1F) = (v_block_size (is_model s) - 1) mod 32) as ->.
  { unfold ISO15693_BLOCK_SIZE_MAX in *. assert (∃ n, v_block_size (is_model s) = n ∧ (n = 0 ∨ n = 1 ∨ n = 2 ∨ n = 3 ∨ n = 4)) as (n & -> & Hn)
      by (eexists; split; [done|lia]). by repeat destruct Hn as [->|Hn]; subst. }
  apply (send_does u Hu); [|done|lia]. inv_bytes.
  assert (is_byte ((v_block_size (is_model s) - 1) mod 32)) by (unfold is_byte; dlia). by bytes_list.
Qed.

Lemma error_does s : iso_state_ok s → does (send_error u) s (with_sent (iso15693_frame iso_error) s).
Proof.
  intros [_ Hr]. change (len (resp s) = 256) in Hr. unfold does, send_error, iso15693_3_listener_send.
  rewrite run_resp_first, run_resp_put by llia. apply (send_does u Hu); [by bytes_list|done|lia].
Qed.

Lemma read_block_does s b : iso_state_ok s → is_byte b →
  does (iso15693_3_listener_handle_read_block u b) s
    (iso_sent (Some (if v_block_count (is_model s) <=? b then iso_error else 0 :: iso_block (is_model s) b)) s).
Proof.
  intros Hs Hb. pose proof Hs as [[] Hr]. change (len (resp s) = 256) in Hr. unfold is_byte in Hb.
  eapply (does_call _ (if v_block_count (is_model s) <=? b then send_error u else _)).
  { unfold iso15693_3_listener_handle_read_block. by rewrite run_gets. }
  case_bool; [by apply error_does|]. bool_prop. unfold ISO15693_BLOCKS_MAX, ISO15693_BLOCK_SIZE_MAX in *.
  assert (b * v_block_size (is_model s) + v_block_size (is_model s) <= 512) by nia.
  unfold does, iso15693_3_listener_send. rewrite run_resp_first, run_resp_copy by (nia || llia).
  fold (iso_block (is_model s) b). cbn [app iso_sent]. apply (send_does u Hu); [|unfold iso_block; llia|lia].
  apply Forall_cons_2; [done|]. by apply bytes_take, bytes_drop.
Qed.

Lemma security_loop_eq s : iso_state_ok s → ∀ fuel first last bs r, 0 <= first <= last + 1 → last < 128 →
  last - first + 1 < Z.of_nat fuel → len bs + (last - first + 1) <= len r →
  security_loop fuel first last (len bs) (with_resp (over bs r) s) =
  Some (len (bs ++ iso_security (is_model s) first last), with_resp (over (bs ++ iso_security (is_model s) first last) r) s).
Proof.
  intros [[] Hr] fuel. induction fuel as [|fuel IH]; intros first last bs r Hf Hl Hn Hlen; [lia|]. cbn [security_loop].
  unfold ISO15693_BLOCKS_MAX in *. case_bool; bool_prop.
  - assert (iso_security (is_model s) first last = []) as ->; [|by rewrite app_nil_r].
    unfold iso_security. by replace (Z.to_nat _) with 0%nat by lia.
  - rewrite run_gets. change (is_model (with_resp (over bs r) s)) with (is_model s).
    destruct (ld_Some (v_block_security (is_model s)) first) as [b Hb]; [lia|]. rewrite Hb, run_lift_Some.
    rewrite run_resp_put by lia. rewrite u8_id by (unfold is_byte; lia). rewrite IH by llia.
    assert (iso_security (is_model s) first last = b :: iso_security (is_model s) (first + 1) last) as ->;
      [|by rewrite <-(assoc_L (++))].
    unfold iso_security. apply ld_Some_inv in Hb as [_ Hb]. rewrite (drop_S _ b) by done.
    replace (Z.to_nat (last - first + 1)) with (S (Z.to_nat (last - (first + 1) + 1))) by lia. cbn [take].
    by replace (Z.to_nat (first + 1)) with (S (Z.to_nat first)) by lia.
Qed.

Lemma security_does s first last : iso_state_ok s → is_byte first → is_byte last →
  does (iso15693_3_listener_handle_get_blocks_security u first last) s
    (iso_sent (iso_reply (is_model s) ISO15693_CMD_GET_BLOCKS_SEC [first; last]) s).
Proof.
  intros Hs Hf Hl. pose proof Hs as [[] Hr]. change (len (resp s) = 256) in Hr. unfold is_byte in Hf, Hl.
  change (iso_reply (is_model s) ISO15693_CMD_GET_BLOCKS_SEC [first; last]) with
    (Some (if (v_block_count (is_model s) <=? first) || (v_block_count (is_model s) <=? last) || (last <? first) then iso_error
           else 0 :: iso_security (is_model s) first last)).
  set (bad := (_ || _)). eapply (does_call _ (if bad then send_error u else _)).
  { unfold iso15693_3_listener_handle_get_blocks_security. by rewrite run_gets. }
  unfold bad. case_bool; [by apply error_does|]. bool_prop. unfold ISO15693_BLOCKS_MAX in *.
  unfold does, iso15693_3_listener_send. rewrite run_resp_first by lia.
  rewrite (run_call _ _ _ _ _ (security_loop_eq s Hs 257 first last [0] (resp s) ltac:(lia) ltac:(lia) ltac:(lia) ltac:(llia))).
  cbn [app iso_sent]. apply (send_does u Hu); [|unfold iso_security; llia|lia].
  apply Forall_cons_2; [done|]. by apply bytes_take, bytes_drop.
Qed.

Lemma dispatch_does s command pre args junk : iso_state_ok s → bytes args →
  does (iso_dispatch u command (pre ++ args ++ junk) (len pre) (len args)) s (iso_sent (iso_reply (is_model s) command args) s).
Proof.
  intros Hs Hb. unfold iso_dispatch, iso_reply.
  case_bool; [by apply inventory_does|]. case_bool.
  { destruct args as [|a args]; [by apply sys_info_does|]. rewrite (proj2 (Z.eqb_neq _ _)) by (pose proof (len_nonneg args); llia).
    apply does_ret. }
  case_bool.
  { destruct args as [|a args]; [apply does_ret|]. rewrite (proj2 (Z.leb_le 1 _)) by (pose proof (len_nonneg args); llia).
    inv_bytes. eapply does_call; [cbn [app]; by rewrite ld_mid, run_lift_Some by done|]. by apply read_block_does. }
  case_bool; [|apply does_ret].
  destruct args as [|a [|b args]]; [apply does_ret..|].
  rewrite (proj2 (Z.leb_le 2 _)) by (pose proof (len_nonneg args); llia). inv_bytes.
  eapply does_call; [|by apply (security_does s a b)]. cbn [app].
  rewrite (ld_mid pre a (b :: args ++ junk) _ eq_refl), run_lift_Some.
  pose proof (ld_mid (pre ++ [a]) b (args ++ junk) (len pre + 1) ltac:(llia)) as Hld.
  rewrite <-(assoc_L (++)) in Hld. cbn [app] in Hld. by rewrite Hld, run_lift_Some.
Qed.

Lemma uid_matches_eq s pre x junk : iso_state_ok s → len x = 8 →
  iso15693_3_listener_uid_matches u (pre ++ x ++ junk) (len pre) s =
  Some (bool_decide (x = reverse (v_uid (is_model s))), s).
Proof.
  intros [[] _] Hx. destruct Hu as [_ He]. unfold ISO15693_UID_SIZE in *. unfold iso15693_3_listener_uid_matches. rewrite run_gets.
  pose proof (append_uid_eq (v_uid (is_model s)) [] (il_expected u) 0 ltac:(done) ltac:(lia)) as Ha. cbn [app] in Ha.
  change (len (@nil Z)) with 0 in Ha. rewrite Ha, run_lift_Some. unfold memcmp_eq, ISO15693_UID_SIZE.
  assert (len (reverse (v_uid (is_model s))) = 8) as Hr by (unfold len in *; rewrite length_reverse; lia).
  rewrite (sub_app_mid pre x junk), (sub_prefix (reverse _)) by lia. done.
Qed.

Lemma handle_does s p junk : iso_state_ok s → bytes p →
  does (iso_handle u (p ++ junk) (len p)) s (iso_sent (iso_answer (is_model s) p) s).
Proof.
  intros Hs Hb. unfold iso_handle. destruct p as [|flags [|command args]]; [apply does_ret..|].
  pose proof (len_nonneg args). rewrite (proj2 (Z.ltb_ge (len _) 2)) by llia. inv_bytes. cbn [iso_answer].
  change (ld ((flags :: command :: args) ++ junk) 0) with (Some flags). change (ld ((flags :: command :: args) ++ junk) 1) with (Some command).
  eapply does_call; [by rewrite !run_lift_Some|]. replace (len (flags :: command :: args) - 2) with (len args) by llia.
  unfold iso_args. destruct (_ && _).
  - unfold ISO15693_UID_SIZE. destruct (8 <=? len args) eqn:E8; bool_prop.
    2: { rewrite (proj2 (Z.ltb_lt _ _)) by lia. apply does_ret. }
    rewrite (proj2 (Z.ltb_ge _ _)) by lia. destruct (len_split args 8) as (x & args' & -> & Hx); [lia|].
    eapply does_call.
    { pose proof (uid_matches_eq s [flags; command] x (args' ++ junk) Hs Hx) as Hm.
      cbn [app] in Hm |- *. rewrite <-(assoc_L (++)). change (len [flags; command]) with 2 in Hm. rewrite (run_call _ _ _ _ _ Hm). reflexivity. }
    rewrite take_app_length' by (unfold len in *; lia). cbn [andb]. case_bool; bool_prop.
    + rewrite ?bool_decide_false by done. apply does_ret.
    + rewrite ?bool_decide_true by done. mred. rewrite drop_app_length' by (unfold len in *; lia).
      pose proof (dispatch_does s command (flags :: command :: x) args' junk Hs ltac:(by inv_bytes)) as Hd.
      replace (len (flags :: command :: x)) with (2 + 8) in Hd by llia. cbn [app] in Hd |- *.
      replace (len (x ++ args') - 8) with (len args') by llia. exact Hd.
  - apply (dispatch_does s command [flags; command] args junk Hs Hb).
Qed.

Lemma iso_payload_frame p : bytes p → len p <= 254 → iso_payload (iso15693_frame p) = Some p.
Proof.
  intros Hb Hl. unfold iso_payload, ISO15693_LISTENER_BUF_SIZE.
  assert (take (length (iso15693_frame p) - 2) (iso15693_frame p) = p) as ->.
  { unfold iso15693_frame, frame. rewrite length_app. cbn. by rewrite Nat.add_sub, take_app_length. }
  rewrite bool_decide_true by done. unfold iso15693_frame. rewrite frame_len, (proj2 (Z.leb_le _ _)) by lia. done.
Qed.

(** What the checks at the start of a handler of frames find out, and what is then the payload. *)
Inductive frame_case (tx : list Z) : Prop :=
| frame_short : len tx < 3 → (∀ p, iso_payload tx = Some p → p = []) → frame_case tx
| frame_broken : 3 <= len tx → iso15693_3_crc_check (Some tx) (len tx) = Some false → iso_payload tx = None → frame_case tx
| frame_long : 3 <= len tx → iso15693_3_crc_check (Some tx) (len tx) = Some true → 256 < len tx → iso_payload tx = None → frame_case tx
| frame_good p crc : iso15693_3_crc_check (Some tx) (len tx) = Some true → tx = p ++ crc → len crc = 2 → 3 <= len tx <= 256 →
    iso_payload tx = Some p → frame_case tx.

Lemma frame_cases tx : bytes tx → frame_case tx.
Proof.
  intros Hb. destruct (iso_check tx [] Hb) as (ok & Hc & Hok). rewrite app_nil_r in Hc.
  set (p := take (length tx - 2) tx). assert (iso_payload tx = if (len tx <=? 256) && bool_decide (tx = iso15693_frame p) then Some p else None) as Hp by done.
  destruct (decide (len tx < 3)) as [Hs|Hs].
  { apply frame_short; [done|]. intros q Hq. rewrite Hp in Hq. destruct (_ && _); [injection Hq as <-|done].
    apply nil_length_inv. unfold p, len in *. rewrite length_take. lia. }
  destruct ok.
  - destruct (proj1 Hok eq_refl) as (q & _ & Hq). assert (p = q) as Hpq.
    { unfold p. rewrite Hq. unfold iso15693_frame, frame. rewrite length_app. cbn. by rewrite Nat.add_sub, take_app_length. }
    rewrite bool_decide_true, andb_true_r in Hp by (by rewrite Hpq). destruct (decide (256 < len tx)).
    + apply frame_long; [lia|done|done|]. by rewrite Hp, (proj2 (Z.leb_gt _ _)) by lia.
    + apply (frame_good _ p (drop (length p) tx)); [done| | |lia|by rewrite Hp, (proj2 (Z.leb_le _ _)) by lia].
      * assert (length p = (length tx - 2)%nat) as -> by (unfold p; rewrite length_take; lia). symmetry. apply take_drop.
      * assert (len p = len tx - 2) by (unfold p; llia). unfold len in *. rewrite length_drop. lia.
  - apply frame_broken; [lia|done|]. rewrite Hp. rewrite bool_decide_false, andb_false_r; [done|].
    intros Htx. assert (false = true); [|done]. apply Hok. exists p. split; [|done].
    intros Hnil. rewrite Hnil in Htx. rewrite Htx in Hs. by apply Hs.
Qed.

Lemma iso_tag_cmd_does s tx : (is_initialized s = true → iso_state_ok s) → bytes tx →
  does (iso15693_3_listener_on_tag_cmd u (Some tx) (len tx)) s (iso_step s tx).
Proof.
  intros Hs Hb. unfold iso15693_3_listener_on_tag_cmd, iso_step.
  eapply does_call; [by rewrite run_gets|]. cbn [id]. destruct (is_initialized s) eqn:Hi; cbn [negb orb]; [|apply does_ret].
  specialize (Hs eq_refl). unfold ISO15693_CRC_SIZE, ISO15693_LISTENER_BUF_SIZE.
  destruct (frame_cases tx Hb) as [Hl Hp|Hl Hc ->|Hl Hc Hx ->|p crc Hc Htx Hcl Hl Hp].
  - rewrite (proj2 (Z.ltb_lt _ _)) by lia. destruct (iso_payload tx) as [p|]; [|apply does_ret].
    rewrite (Hp p eq_refl). apply does_ret.
  - rewrite (proj2 (Z.ltb_ge _ _)) by lia. eapply does_call; [by rewrite Hc, run_lift_Some|]. apply does_ret.
  - rewrite (proj2 (Z.ltb_ge _ _)) by lia. eapply does_call; [by rewrite Hc, run_lift_Some|]. cbn [negb].
    rewrite (proj2 (Z.ltb_lt _ _)) by lia. apply does_ret.
  - rewrite (proj2 (Z.ltb_ge _ _)) by lia. eapply does_call; [by rewrite Hc, run_lift_Some|]. cbn [negb].
    rewrite (proj2 (Z.ltb_ge 256 _)) by lia. destruct Hu as [Hf _].
    pose proof (memcpy_start tx [] (il_frame u) ltac:(lia)) as Hm. rewrite app_nil_r in Hm.
    eapply does_call; [by rewrite Hm, run_lift_Some|]. unfold iso15693_3_crc_trim, ISO15693_CRC_SIZE.
    rewrite (proj2 (Z.leb_gt _ _)) by lia. rewrite Hp. mred. replace (len tx - 2) with (len p) by (subst tx; llia).
    unfold over. rewrite Htx at 1. rewrite <-(assoc_L (++)). apply handle_does; [done|].
    rewrite Htx in Hb. by apply bytes_app in Hb as [? _].
Qed.
End IsoFacts.
