(* ===== verification/Iso15693Poller.v ===== *)
(** * ISO 15693 poller ([src/nfc/protocols/iso15693_3/iso15693_3_poller.c])

    Reading a vicinity card in the field: inventory, system information, every block and the security
    status in batches.  The card is the parameter [tag_transceive]; the first half is the code, the
    second proves that no card makes a read leave an array. *)

From stdpp Require Import base list numbers option.
From S2P Require Import Prelude Kconfig Transport Service Serial Crc Response Iso15693 Iso15693Wire Iso15693Listener Session.

Definition ISO15693_TX_MAX : Z := 32.

Section IsoPoller.
Context {C : Type} (tag_transceive : list Z → M C (Z * list Z)).
(** What the automatic array [tx] of each command holds before it is written. *)
Context (tx0 : list Z).

Definition iso15693_3_poller_session_valid (s : option session) : Z :=
  match s with None => - EINVAL | Some s => if negb (ses_active s) then - EINVAL else 0 end.

(** The return value, [tx], [rx] and [*rx_len]. *)
Definition iso15693_3_poller_send_frame (s : option session) (tx : list Z) (tx_payload_len rx_len : Z)
    : M C (Z * list Z * list Z * Z) :=
  '(tx_len, tx) ← lift (iso15693_3_crc_append (Some tx) ISO15693_TX_MAX tx_payload_len);
  tx ← lift tx;
  if tx_len =? 0 then mret (- EINVAL, tx, [], rx_len) else
  frame ← lift (sub tx 0 tx_len);
  '(ret, rx) ← nfc_reader_session_transceive tag_transceive s frame;
  if negb (ret =? 0) then mret (ret, tx, rx, rx_len) else
  if NFC_TRANSPORT_MAX_RESPONSE_LEN <? len rx then lift None else
  ok ← lift (iso15693_3_crc_check (Some rx) (len rx));
  if negb ok then mret (- EIO, tx, rx, rx_len) else
  mret (0, tx, rx, iso15693_3_crc_trim (Some rx) (len rx)).

(** The return value and [*data]. *)
Definition iso15693_3_poller_inventory (s : option session) (data : option iso15693_3_data_t)
    : M C (Z * option iso15693_3_data_t) :=
  match data with
  | None => mret (- EINVAL, None)
  | Some d =>
    tx ← lift (st tx0 0 ISO15693_INV_FLAGS); tx ← lift (st tx 1 ISO15693_CMD_INVENTORY);
    '(ret, _, rx, rx_len) ← iso15693_3_poller_send_frame s tx 2 0;
    if negb (ret =? 0) then mret (ret, Some d) else
    '(ret, uid, dsfid) ← lift (iso15693_3_inventory_response_parse rx rx_len (v_uid d) (v_dsfid d));
    mret (ret, Some (iso_with_uid uid dsfid d))
  end.

Definition iso15693_3_poller_get_system_info (s : option session) (d : iso15693_3_data_t) : M C (Z * iso15693_3_data_t) :=
  tx ← lift (st tx0 0 ISO15693_CMD_FLAGS); tx ← lift (st tx 1 ISO15693_CMD_GET_SYS_INFO);
  '(ret, _, rx, rx_len) ← iso15693_3_poller_send_frame s tx 2 0;
  if negb (ret =? 0) then mret (ret, d) else
  lift (iso15693_3_system_info_response_parse rx rx_len d).

(** The return value and the array with [out = &arr[off]]. *)
Definition iso15693_3_poller_read_block (s : option session) (block_num block_size : Z) (arr : list Z) (off : Z)
    : M C (Z * list Z) :=
  tx ← lift (st tx0 0 ISO15693_CMD_FLAGS); tx ← lift (st tx 1 ISO15693_CMD_READ); tx ← lift (st tx 2 block_num);
  '(ret, _, rx, rx_len) ← iso15693_3_poller_send_frame s tx 3 0;
  if negb (ret =? 0) then mret (ret, arr) else
  lift (iso15693_3_read_block_response_parse rx rx_len block_size arr off).

(** [n] more turns from [start] on; the return value and [data->block_security]. *)
Fixpoint security_batches (n : nat) (start block_count : Z) (s : option session) (tx : list Z) (rx_len : Z) (sec : list Z)
    : M C (Z * list Z) :=
  match n with
  | O => mret (0, sec)
  | S n =>
    let remaining := u16 (block_count - start) in
    let batch := if ISO15693_BLOCKS_PER_QUERY <? remaining then ISO15693_BLOCKS_PER_QUERY else u8 remaining in
    tx ← lift (st tx 0 ISO15693_CMD_FLAGS); tx ← lift (st tx 1 ISO15693_CMD_GET_BLOCKS_SEC);
    tx ← lift (st tx 2 (u8 start)); tx ← lift (st tx 3 (u8 (batch - 1)));
    '(ret, tx, rx, rx_len) ← iso15693_3_poller_send_frame s tx 4 rx_len;
    if negb (ret =? 0) then mret (ret, sec) else
    '(ret, sec) ← lift (iso15693_3_get_block_security_response_parse rx rx_len sec start batch);
    if negb (ret =? 0) then mret (ret, sec) else
    security_batches n (u16 (start + ISO15693_BLOCKS_PER_QUERY)) block_count s tx rx_len sec
  end.

Definition iso15693_3_poller_get_blocks_security (s : option session) (d : iso15693_3_data_t) : M C (Z * iso15693_3_data_t) :=
  if (v_block_count d =? 0) || (ISO15693_BLOCKS_MAX <? v_block_count d) then mret (- EINVAL, d) else
  '(ret, sec) ← security_batches (Z.to_nat ((v_block_count d + 31) / ISO15693_BLOCKS_PER_QUERY)) 0 (v_block_count d) s tx0 0
    (v_block_security d);
  mret (ret, iso_with_blocks (v_block_data d) sec d).

Definition iso15693_3_poller_detect (s : option session) : M C Z :=
  let ret := iso15693_3_poller_session_valid s in
  if negb (ret =? 0) then mret ret else
  '(ret, _) ← iso15693_3_poller_inventory s (Some iso15693_zero);
  if negb (ret =? 0) then mret (- ENOTSUP) else mret 0.

(** [n] more turns of the block loop from [block] on: what the function has returned, if it has, and
    [out->block_data]. *)
Fixpoint read_blocks (n : nat) (block : Z) (s : option session) (block_size : Z) (arr : list Z)
    : M C (option Z * list Z) :=
  match n with
  | O => mret (None, arr)
  | S n =>
    '(ret, arr) ← iso15693_3_poller_read_block s (u8 block) block_size arr (block * block_size);
    if negb (iso15693_3_optional_step_ok ret) then mret (Some ret, arr) else
    if negb (ret =? 0) then mret (None, arr) else
    read_blocks n (u16 (block + 1)) s block_size arr
  end.

(** The return value and what [out] points to. *)
Definition iso15693_3_poller_read (s : option session) (out : option iso15693_3_data_t) : M C (Z * option iso15693_3_data_t) :=
  let ret := iso15693_3_poller_session_valid s in
  if negb (ret =? 0) then mret (ret, out) else
  match out with
  | None => mret (- EINVAL, None)
  | Some _ =>
    '(ret, d) ← iso15693_3_poller_inventory s (Some iso15693_zero);
    if negb (ret =? 0) then mret (ret, d) else
    d ← lift d;
    '(ret, d) ← iso15693_3_poller_get_system_info s d;
    if negb (iso15693_3_optional_step_ok ret) then mret (ret, Some d) else
    if (v_block_count d =? 0) || (v_block_size d =? 0) then mret (0, Some d) else
    '(r, arr) ← read_blocks (Z.to_nat (v_block_count d)) 0 s (v_block_size d) (v_block_data d);
    let d := iso_with_blocks arr (v_block_security d) d in
    match r with
    | Some ret => mret (ret, Some d)
    | None =>
      '(ret, d) ← iso15693_3_poller_get_blocks_security s d;
      if negb (iso15693_3_optional_step_ok ret) then mret (ret, Some d) else mret (0, Some d)
    end
  end.
End IsoPoller.

(** ** What is sent and received *)

Section Exchange.
Context {C : Type} (tag_transceive : list Z → M C (Z * list Z)) (s : session) (Hs : ses_active s = true).

Lemma send_frame_run p tx n n0 : bytes p → p ≠ [] → len tx = 32 → n = len p → len p <= 30 →
  iso15693_3_poller_send_frame tag_transceive (Some s) (over p tx) n n0 =
  ('(ret, rx) ← tag_transceive (iso15693_frame p);
   if negb (ret =? 0) then mret (ret, over (iso15693_frame p) tx, rx, n0) else
   if NFC_TRANSPORT_MAX_RESPONSE_LEN <? len rx then lift None else
   ok ← lift (iso15693_3_crc_check (Some rx) (len rx));
   if negb ok then mret (- EIO, over (iso15693_frame p) tx, rx, n0) else
   mret (0, over (iso15693_frame p) tx, rx, iso15693_3_crc_trim (Some rx) (len rx))).
Proof.
  intros Hb Hp Htx -> Hl. unfold iso15693_3_poller_send_frame. rewrite iso_append by (done || (unfold ISO15693_TX_MAX; lia)).
  assert (∀ {A} (x : A) (k : A → M C (Z * list Z * list Z * Z)), (lift (Some x) ≫= k) = k x) as Hlift by done.
  rewrite !Hlift. pose proof (len_nonneg p). rewrite (proj2 (Z.eqb_neq _ _)) by lia.
  assert (len p + 2 = len (iso15693_frame p)) as -> by (unfold iso15693_frame; by rewrite frame_len).
  rewrite sub_over, Hlift. unfold nfc_reader_session_transceive. by rewrite Hs.
Qed.
(** An exchange that is answered by a frame, and one that fails. *)
Lemma send_frame_answered p tx n n0 c r c' : bytes p → p ≠ [] → len tx = 32 → n = len p → len p <= 30 →
  bytes r → r ≠ [] → len r <= 253 → tag_transceive (iso15693_frame p) c = Some ((0, iso15693_frame r), c') →
  iso15693_3_poller_send_frame tag_transceive (Some s) (over p tx) n n0 c =
    Some ((0, over (iso15693_frame p) tx, iso15693_frame r, len r), c').
Proof.
  intros Hb Hp Htx Hn Hl Hrb Hrn Hrl Hrun.
  rewrite send_frame_run by done. rewrite (run_call _ _ _ _ _ Hrun). cbn [Z.eqb negb].
  assert (len (iso15693_frame r) = len r + 2) as Hfl by (unfold iso15693_frame; apply frame_len).
  unfold NFC_TRANSPORT_MAX_RESPONSE_LEN. rewrite (proj2 (Z.ltb_ge _ _)) by lia.
  destruct (iso_check (iso15693_frame r) [] ltac:(by apply frame_bytes)) as (ok & Hok & Hiff). rewrite app_nil_r in Hok.
  assert (ok = true) as -> by (apply Hiff; by exists r). rewrite Hok, run_lift_Some. cbn [negb].
  unfold iso15693_3_crc_trim, ISO15693_CRC_SIZE. assert (1 <= len r) by (destruct r; [done|pose proof (len_nonneg r); llia]).
  rewrite (proj2 (Z.leb_gt _ _)) by lia. unfold mret, M_ret. do 3 f_equal. lia.
Qed.

Lemma send_frame_failed p tx n n0 c ret rx c' : bytes p → p ≠ [] → len tx = 32 → n = len p → len p <= 30 → ret ≠ 0 →
  tag_transceive (iso15693_frame p) c = Some ((ret, rx), c') →
  iso15693_3_poller_send_frame tag_transceive (Some s) (over p tx) n n0 c = Some ((ret, over (iso15693_frame p) tx, rx, n0), c').
Proof.
  intros Hb Hp Htx Hn Hl Hret Hrun. rewrite send_frame_run by done. rewrite (run_call _ _ _ _ _ Hrun).
  by rewrite (proj2 (Z.eqb_neq _ _)).
Qed.
End Exchange.

(** ** Safety against any card *)

(** The parts of a model that stay in shape whatever a card answers. *)
Record iso_arrays (d : iso15693_3_data_t) : Prop := {
  ia_uid : len (v_uid d) = ISO15693_UID_SIZE ∧ bytes (v_uid d);
  ia_fields : Forall is_byte [v_dsfid d; v_afi d; v_ic_ref d];
  ia_data : len (v_block_data d) = ISO15693_BLOCKS_MAX * ISO15693_BLOCK_SIZE_MAX ∧ bytes (v_block_data d);
  ia_sec : len (v_block_security d) = ISO15693_BLOCKS_MAX ∧ bytes (v_block_security d);
  ia_counts : 0 <= v_block_count d ∧ 0 <= v_block_size d;
}.

Lemma iso_zero_arrays : iso_arrays iso15693_zero.
Proof. constructor; try (split; [done|apply bytes_zeros]); [by bytes_list|done]. Qed.

Definition geometry (d : iso15693_3_data_t) : Prop :=
  1 <= v_block_count d <= ISO15693_BLOCKS_MAX ∧ 1 <= v_block_size d <= ISO15693_BLOCK_SIZE_MAX.

Lemma error_parse_total err rx n : 0 <= n <= len rx → ∃ e err', iso15693_3_error_response_parse err rx n = Some (e, err') ∧
  (e = true → err' = - ENOTSUP ∨ err' = - EIO).
Proof.
  intros Hn. unfold iso15693_3_error_response_parse. case_bool; bool_prop; [by eexists _, _|].
  ld_case 0 f; [lia|]. case_bool; [by eexists _, _|]. case_bool; bool_prop; [eexists _, _; split; [done|by right]|].
  ld_case 1 x; [lia|]. eexists _, _. split; [done|]. case_bool; auto.
Qed.

Lemma uid_loop_total n rx uid i : bytes rx → len rx >= 10 → bytes uid → len uid = 8 → 0 <= i → i + Z.of_nat n <= 8 →
  ∃ uid', uid_loop n i rx uid = Some uid' ∧ len uid' = 8 ∧ bytes uid'.
Proof.
  intros Hr Hrl. revert uid i. induction n as [|n IH]; intros uid i Hu Hul Hi Hn; [by exists uid|]. cbn [uid_loop].
  unfold ISO15693_UID_SIZE. ld_case (8 + 1 - i) b; [lia|]. rewrite st_ok by lia. mred.
  apply IH; [apply bytes_insert; [done|by apply (ld_byte rx (8 + 1 - i))]|by rewrite len_insert|lia..].
Qed.

Lemma inventory_parse_total rx n uid dsfid : bytes rx → 0 <= n <= len rx → bytes uid → len uid = 8 → is_byte dsfid →
  ∃ ret uid' dsfid', iso15693_3_inventory_response_parse rx n uid dsfid = Some (ret, uid', dsfid') ∧
    len uid' = 8 ∧ bytes uid' ∧ is_byte dsfid'.
Proof.
  intros Hr Hn Hu Hul Hd. unfold iso15693_3_inventory_response_parse.
  destruct (error_parse_total 0 rx n Hn) as (e & err & -> & _). mred. destruct e; [by eexists _, _, _|].
  case_bool; bool_prop; [by eexists _, _, _|]. unfold ISO15693_UID_SIZE in *. ld_case 1 b; [lia|].
  destruct (uid_loop_total (Z.to_nat 8) rx uid 0) as (uid' & -> & ? & ?); [first [done | lia]..|]. mred. eexists _, _, _.
  split; [done|]. split; [done|]. split; [done|]. by apply (ld_byte rx 1).
Qed.

Lemma sysinfo_field_total info flag n k read p : 0 <= n →
  (∀ o d, 0 <= o → o + k <= n → iso_arrays d → ∃ d', read o d = Some d' ∧ iso_arrays d') → 1 <= k →
  0 <= p.1.2 → iso_arrays p.2 →
  ∃ p', sysinfo_field info flag n k read p = Some p' ∧ 0 <= p'.1.2 ∧ iso_arrays p'.2.
Proof.
  destruct p as [[short o] d]. cbn. intros Hn Hread Hk Ho Hd. unfold sysinfo_field.
  case_bool; [by eexists|]. case_bool; bool_prop; [by eexists (true, o, d)|].
  destruct (Hread o d Ho ltac:(lia) Hd) as (d' & -> & Hd'). mred. eexists. split; [done|]. cbn. split; [lia|done].
Qed.

Lemma sysinfo_parse_total rx n d : bytes rx → 0 <= n <= len rx → iso_arrays d → ∃ ret d',
  iso15693_3_system_info_response_parse rx n d = Some (ret, d') ∧ iso_arrays d' ∧
  (ret = 0 → geometry d') ∧ (ret ≠ 0 → ret = - EIO ∨ d' = d).
Proof.
  intros Hr Hn Hd. unfold iso15693_3_system_info_response_parse.
  destruct (error_parse_total 0 rx n Hn) as (e & err & -> & He). mred.
  destruct e; [eexists _, _; split; [done|]; split; [done|]; destruct (He eq_refl) as [-> | ->]; split; auto; done|].
  case_bool; bool_prop; [eexists _, _; split; [done|]; split; [done|]; split; [done|auto]|]. ld_case 1 info; [lia|].
  assert (∀ o, 0 <= o → o + 1 <= n → ∃ b, ld rx o = Some b ∧ is_byte b) as Hb.
  { intros o Ho Hon. destruct (ld_Some rx o) as [b Hb]; [lia|]. exists b. split; [done|]. by apply (ld_byte rx o). }
  pose (p0 := (false, 2, d)). fold p0.
  destruct (sysinfo_field_total info ISO15693_SYSINFO_FLAG_DSFID n 1 (λ o d, b ← ld rx o; Some (iso_with_uid (v_uid d) b d)) p0)
    as (p1 & -> & Hp1 & Hd1); [lia| |done..|].
  { intros o d1 Ho Hon Hd1. destruct (Hb o Ho ltac:(lia)) as (b & -> & ?). mred. eexists. split; [done|]. destruct Hd1. inv_bytes.
    constructor; [done| |done..]. by bytes_list. }
  mred. destruct (sysinfo_field_total info ISO15693_SYSINFO_FLAG_AFI n 1 (λ o d, b ← ld rx o; Some (iso_with_afi b d)) p1)
    as (p2 & -> & Hp2 & Hd2); [lia| |done..|].
  { intros o d1 Ho Hon Hd1'. destruct (Hb o Ho ltac:(lia)) as (b & -> & ?). mred. eexists. split; [done|]. destruct Hd1'. inv_bytes.
    constructor; [done| |done..]. by bytes_list. }
  mred. destruct (sysinfo_field_total info ISO15693_SYSINFO_FLAG_MEMORY n 2
      (λ o d, n ← ld rx o; b ← ld rx (o + 1); Some (iso_with_memory (u16 (n + 1)) (u8 (Z.land b 0x1F + 1)) d)) p2)
    as (p3 & -> & Hp3 & Hd3); [lia| |done..|].
  { intros o d1 Ho Hon Hd1'. destruct (Hb o Ho ltac:(lia)) as (b & -> & ?), (Hb (o + 1) ltac:(lia) ltac:(lia)) as (b' & -> & ?). mred.
    eexists. split; [done|]. destruct Hd1'. constructor; try done. cbn. pose proof (u16_range (b + 1)). pose proof (u8_range (Z.land b' 31 + 1)) as [? _]. lia. }
  mred. destruct (sysinfo_field_total info ISO15693_SYSINFO_FLAG_IC_REF n 1 (λ o d, b ← ld rx o; Some (iso_with_ic_ref b d)) p3)
    as ([[short o] d4] & -> & Hp4 & Hd4); [lia| |done..|].
  { intros o d1 Ho Hon Hd1'. destruct (Hb o Ho ltac:(lia)) as (b & -> & ?). mred. eexists. split; [done|]. destruct Hd1'. inv_bytes.
    constructor; [done| |done..]. by bytes_list. }
  mred. cbn in Hp4, Hd4. case_bool; [eexists _, _; split; [done|]; split; [done|]; split; [done|auto]|].
  case_bool; bool_prop; [eexists _, _; split; [done|]; split; [done|]; split; [done|auto]|].
  eexists _, _. split; [done|]. split; [done|]. split; [|done]. intros _. destruct (ia_counts _ Hd4).
  unfold geometry. lia.
Qed.

(** The parsers of block responses store inside the array. *)
Lemma block_parse_total rx n size arr off : bytes rx → bytes arr → 0 <= n <= len rx → 0 <= off → 0 <= size → off + size <= len arr →
  (∃ ret arr', iso15693_3_read_block_response_parse rx n size arr off = Some (ret, arr') ∧ len arr' = len arr ∧ bytes arr') ∧
  (∃ ret arr', iso15693_3_get_block_security_response_parse rx n arr off size = Some (ret, arr') ∧ len arr' = len arr ∧ bytes arr').
Proof.
  intros Hr Ha Hn Ho Hs Hl. unfold iso15693_3_read_block_response_parse, iso15693_3_get_block_security_response_parse.
  destruct (error_parse_total 0 rx n Hn) as (e & err & -> & _). mred. destruct e; [by split; eexists _, _|].
  case_bool; bool_prop; [by split; eexists _, _|]. case_bool; bool_prop; [by split; eexists _, _|].
  destruct (memcpy_fits arr off rx 1 size) as (r & -> & Hrl & Hrb); [lia..|]. mred.
  split; eexists _, _; (split; [done|]); auto.
Qed.

Section IsoPollerSafe.
Context {C : Type} (tag_transceive : list Z → M C (Z * list Z)) (tx0 : list Z) (Htx0 : len tx0 = 32 ∧ bytes tx0).
Context (R : C → Prop) `{!CardWhile tag_transceive R} (s : session) (Hs : ses_active s = true).

(** The end of an exchange: what it received is the payload of a frame. *)
Lemma send_frame_total p tx n n0 c : R c → bytes p → p ≠ [] → len tx = 32 → n = len p → len p <= 30 →
  ensures (iso15693_3_poller_send_frame tag_transceive (Some s) (over p tx) n n0) c
    (λ '(ret, tx', rx, rx_len) c', R c' ∧ len tx' = 32 ∧ bytes rx ∧ (ret = 0 → 0 <= rx_len <= len rx)).
Proof.
  intros Hc Hb Hp Htx Hn Hl. unfold ensures. rewrite send_frame_run by done. fold (@ensures C (Z * list Z * list Z * Z)).
  assert (len (over (iso15693_frame p) tx) = 32) as Hlo by (rewrite over_len; [done|unfold iso15693_frame; rewrite frame_len; lia]).
  assert (bytes (iso15693_frame p)) as Hfb by by apply frame_bytes.
  eapply ensures_bind; [by apply card_while|]. intros [ret rx] c' (Hc' & Hrx & Hrl).
  case_bool; bool_prop; [by apply ensures_ret|]. rewrite (proj2 (Z.ltb_ge _ _)) by done.
  destruct (iso_check rx [] Hrx) as (ok & Hok & _). rewrite app_nil_r in Hok. eapply ensures_lift; [done|].
  destruct ok; cbn [negb]; apply ensures_ret; [|done]. split; [done|]. split; [done|]. split; [done|]. intros _.
  unfold iso15693_3_crc_trim, ISO15693_CRC_SIZE. pose proof (len_nonneg rx). case_bool; bool_prop; lia.
Qed.

Lemma inventory_total d c : R c → iso_arrays d →
  ensures (iso15693_3_poller_inventory tag_transceive tx0 (Some s) (Some d)) c
    (λ '(ret, d') c', R c' ∧ ∃ x, d' = Some x ∧ iso_arrays x ∧ v_block_count x = v_block_count d).
Proof.
  intros Hc Hd. destruct Htx0 as [Hl Hb]. unfold iso15693_3_poller_inventory.
  eapply ensures_lift; [apply st_first; lia|]. eapply ensures_lift; [apply st_next; llia|]. cbn [app].
  eapply ensures_bind; [apply send_frame_total; try done; by bytes_list|]. intros [[[ret tx'] rx] n] c' (Hc' & _ & Hrx & Hn).
  case_bool; bool_prop; [apply ensures_ret; eauto|]. destruct Hd as [[Hu Hub] Hf]. inv_bytes.
  destruct (inventory_parse_total rx n (v_uid d) (v_dsfid d)) as (ret' & uid' & dsfid' & Hrun & ? & ? & ?); auto.
  eapply ensures_lift; [exact Hrun|]. apply ensures_ret. split; [done|]. eexists. split; [done|]. split; [|done].
  constructor; try done. by bytes_list.
Qed.

Lemma system_info_total d c : R c → iso_arrays d →
  ensures (iso15693_3_poller_get_system_info tag_transceive tx0 (Some s) d) c
    (λ '(ret, d') c', R c' ∧ iso_arrays d' ∧ (ret = 0 → geometry d') ∧ (ret ≠ 0 → ret = - EIO ∨ d' = d)).
Proof.
  intros Hc Hd. destruct Htx0 as [Hl Hb]. unfold iso15693_3_poller_get_system_info.
  eapply ensures_lift; [apply st_first; lia|]. eapply ensures_lift; [apply st_next; llia|]. cbn [app].
  eapply ensures_bind; [apply send_frame_total; try done; by bytes_list|]. intros [[[ret tx'] rx] n] c' (Hc' & _ & Hrx & Hn).
  case_bool; bool_prop; [apply ensures_ret; split; [done|]; split; [done|]; split; [done|by right]|].
  destruct (sysinfo_parse_total rx n d Hrx (Hn E) Hd) as (ret' & d' & Hrun & ?).
  rewrite Hrun. by eexists (ret', d'), _.
Qed.

Lemma read_block_total b size arr off c : R c → is_byte b → bytes arr → 0 <= off → 0 <= size → off + size <= len arr →
  ensures (iso15693_3_poller_read_block tag_transceive tx0 (Some s) b size arr off) c
    (λ '(ret, arr') c', R c' ∧ len arr' = len arr ∧ bytes arr').
Proof.
  intros Hc Hbb Ha Ho Hsz Hfit. destruct Htx0 as [Hl Hb]. unfold iso15693_3_poller_read_block.
  eapply ensures_lift; [apply st_first; lia|]. eapply ensures_lift; [apply st_next; llia|]. cbn [app].
  eapply ensures_lift; [apply st_next; llia|]. cbn [app].
  eapply ensures_bind; [apply send_frame_total; try done; by bytes_list|]. intros [[[ret tx'] rx] n] c' (Hc' & _ & Hrx & Hn).
  case_bool; bool_prop; [by apply ensures_ret|].
  destruct (block_parse_total rx n size arr off) as [(ret' & arr' & Hrun & ?) _]; [done|done|exact (Hn E)|done..|].
  rewrite Hrun. by eexists (ret', arr'), _.
Qed.

Lemma read_blocks_total n size arr b c : R c → bytes arr → 0 <= b → 0 <= size → b + Z.of_nat n <= 256 →
  (b + Z.of_nat n) * size <= len arr →
  ensures (read_blocks tag_transceive tx0 n b (Some s) size arr) c
    (λ '(r, arr') c', R c' ∧ len arr' = len arr ∧ bytes arr').
Proof.
  revert b arr c. induction n as [|n IH]; intros b arr c Hc Ha Hb0 Hsz Hn Hfit; [by apply ensures_ret|]. cbn [read_blocks].
  eapply ensures_bind; [apply read_block_total; (done || apply u8_range || nia)|]. intros [ret arr'] c' (Hc' & Hla & Hba).
  case_bool; [by apply ensures_ret|]. case_bool; [by apply ensures_ret|].
  rewrite u16_id by lia. eapply ensures_weaken; [apply IH; (done || lia || nia)|]. intros [r arr2] c2 (? & -> & ?). done.
Qed.

Lemma security_batches_total n start count tx n0 sec c : R c → len tx = 32 → bytes sec → 0 <= start → count <= 256 → len sec <= 256 →
  start + 32 * Z.of_nat n <= count + 31 → count <= len sec →
  ensures (security_batches tag_transceive n start count (Some s) tx n0 sec) c
    (λ '(ret, sec') c', R c' ∧ len sec' = len sec ∧ bytes sec').
Proof.
  revert start tx n0 sec c. induction n as [|n IH]; intros start tx n0 sec c Hc Htx Hsec Hst Hcnt Hmax Hn Hl; [by apply ensures_ret|].
  cbn [security_batches]. unfold ISO15693_BLOCKS_PER_QUERY. rewrite (u16_id (count - start)) by lia.
  set (batch := if 32 <? count - start then 32 else u8 (count - start)).
  assert (1 <= batch <= 32 ∧ start + batch <= count) as Hbatch.
  { unfold batch. case_bool; bool_prop; [lia|]. rewrite u8_id by (unfold is_byte; lia). lia. }
  eapply ensures_lift; [apply st_first; lia|]. eapply ensures_lift; [apply st_next; llia|]. cbn [app].
  eapply ensures_lift; [apply st_next; llia|]. eapply ensures_lift; [apply st_next; llia|]. cbn [app].
  eapply ensures_bind; [apply send_frame_total; try done; by bytes_list|]. intros [[[ret tx'] rx] k] c' (Hc' & Htx' & Hrx & Hk).
  case_bool; bool_prop; [by apply ensures_ret|].
  destruct (block_parse_total rx k batch sec start) as [_ (ret' & sec' & Hrun & Hl' & Hb')]; [done|done|exact (Hk E)|lia..|].
  eapply ensures_lift; [exact Hrun|]. cbv beta iota. case_bool; [by apply ensures_ret|].
  destruct n as [|n]; [by apply ensures_ret|].
  rewrite u16_id by lia. eapply ensures_weaken; [apply IH; (done || lia)|]. intros [r sec2] c2 (? & -> & ?). done.
Qed.

Lemma blocks_security_total d c : R c → iso_arrays d →
  ensures (iso15693_3_poller_get_blocks_security tag_transceive tx0 (Some s) d) c
    (λ '(ret, d') c', R c' ∧ iso_arrays d' ∧ v_block_count d' = v_block_count d ∧ v_block_size d' = v_block_size d).
Proof.
  intros Hc Hd. pose proof Hd as [? ? ? [Hsl Hsb] [? ?]]. unfold iso15693_3_poller_get_blocks_security.
  case_bool; bool_prop; [by apply ensures_ret|]. unfold ISO15693_BLOCKS_MAX, ISO15693_BLOCKS_PER_QUERY in *.
  eapply ensures_bind; [apply security_batches_total; try done; try apply Htx0; try lia; dlia|].
  intros [ret sec] c' (Hc' & Hl' & Hb'). apply ensures_ret. split; [done|]. split; [|done]. constructor; try done.
  unfold ISO15693_BLOCKS_MAX. cbn. by rewrite Hl'.
Qed.

(** No card makes a read leave an array, and what a read that succeeds has filled is in shape. *)
Lemma iso_poller_read_total d c : R c →
  ensures (iso15693_3_poller_read tag_transceive tx0 (Some s) (Some d)) c
    (λ '(ret, d') c', R c' ∧ ∃ x, d' = Some x ∧ iso_arrays x ∧ (ret = 0 → v_block_count x = 0 ∨ geometry x)).
Proof.
  intros Hc. unfold iso15693_3_poller_read, iso15693_3_poller_session_valid. rewrite Hs. cbn [negb Z.eqb].
  eapply ensures_bind; [by apply inventory_total, iso_zero_arrays|]. intros [ret d1] c1 (Hc1 & x & -> & Hx & Hx0).
  case_bool; bool_prop; [apply ensures_ret; split; [done|]; by exists x|]. eapply ensures_lift; [done|].
  eapply ensures_bind; [by apply system_info_total|]. intros [ret2 d2] c2 (Hc2 & Hd2 & Hg & Hne).
  case_bool; [apply ensures_ret; split; [done|]; exists d2; split; [done|]; split; [done|]; intros ->; by right; apply Hg|].
  assert (v_block_count d2 = 0 ∨ geometry d2) as Hgeo.
  { destruct (decide (ret2 = 0)) as [->|Hr]; [right; auto|]. left. unfold iso15693_3_optional_step_ok in E.
    destruct (Hne Hr) as [-> | ->]; [done|by rewrite Hx0]. }
  case_bool; bool_prop; [apply ensures_ret; split; [done|]; by exists d2|].
  destruct Hgeo as [|Hgeo]; [done|]. destruct Hgeo as [Hcnt Hsz]. unfold ISO15693_BLOCKS_MAX, ISO15693_BLOCK_SIZE_MAX in *.
  pose proof Hd2 as [? ? [Hdl Hdb] ? ?]. unfold ISO15693_BLOCKS_MAX, ISO15693_BLOCK_SIZE_MAX in *.
  eapply ensures_bind; [apply read_blocks_total; (done || lia || nia)|]. intros [r arr] c3 (Hc3 & Hal & Hab).
  assert (iso_arrays (iso_with_blocks arr (v_block_security d2) d2)) as Hd3 by (constructor; try done; cbn; by rewrite Hal).
  destruct r as [ret3|].
  { apply ensures_ret. split; [done|]. eexists. split; [done|]. split; [done|]. intros _. by right. }
  eapply ensures_bind; [by apply blocks_security_total|]. intros [ret4 d4] c4 (Hc4 & Hd4 & Hn4 & Hs4).
  assert (geometry d4) by (unfold geometry; by rewrite Hn4, Hs4).
  case_bool; apply ensures_ret; (split; [done|]); exists d4; (split; [done|]); (split; [done|]); intros _; by right.
Qed.

Lemma iso_poller_detect_total c : R c →
  ensures (iso15693_3_poller_detect tag_transceive tx0 (Some s)) c (λ _, R).
Proof.
  intros Hc. unfold iso15693_3_poller_detect, iso15693_3_poller_session_valid. rewrite Hs. cbn [negb Z.eqb].
  eapply ensures_bind; [by apply inventory_total, iso_zero_arrays|]. intros [ret d1] c1 (Hc1 & _).
  case_bool; by apply ensures_ret.
Qed.
End IsoPollerSafe.
