(* ===== verification/Iso15693Loopback.v ===== *)
(** * Reading an emulated vicinity card

    The ISO 15693 poller in front of a card that answers as the ISO 15693 listener does; the interface
    between them is [VicinityCard], which the listener implements. *)

From stdpp Require Import base list numbers option.
From S2P Require Import Prelude Kconfig Transport Service Serial Crc Response Iso15693 Iso15693Wire Iso15693Listener Session Iso15693Poller.

(** Commands below the custom range of ISO 15693. *)
Definition standard (p : list Z) : Prop := match p with _ :: command :: _ => command < 0xA0 | _ => False end.

(** While [R] holds, the card [d] is in the field: it answers the frames of short standard requests, and
    where it is silent the transport reports an error. *)
Class VicinityCard {C} (tag_transceive : list Z → M C (Z * list Z)) (d : iso15693_3_data_t) (R : C → Prop) : Prop := {
  vc_answer c p : R c → bytes p → standard p → len p <= 30 → ∃ ret rx c', tag_transceive (iso15693_frame p) c = Some ((ret, rx), c') ∧ R c' ∧
    match iso_answer d p with Some r => ret = 0 ∧ rx = iso15693_frame r | None => ret ≠ 0 end;
}.

Section Loopback.
Context {C : Type} (tag_transceive : list Z → M C (Z * list Z)) (d : iso15693_3_data_t) (Hd : iso_ok d).
Context (R : C → Prop) `{!VicinityCard tag_transceive d R} (tx0 : list Z) (Htx0 : len tx0 = 32 ∧ bytes tx0).
Context (s : session) (Hs : ses_active s = true).

(** ** Exchanges *)

Lemma exchange_ok p tx n n0 c r : R c → bytes p → standard p → len tx = 32 → n = len p → len p <= 30 →
  iso_answer d p = Some r → bytes r → r ≠ [] → len r <= 253 →
  ∃ c', iso15693_3_poller_send_frame tag_transceive (Some s) (over p tx) n n0 c =
    Some ((0, over (iso15693_frame p) tx, iso15693_frame r, len r), c') ∧ R c'.
Proof.
  intros Hc Hb Hp Htx Hn Hl Hr Hrb Hrn Hrl. destruct (vc_answer c p Hc Hb Hp Hl) as (ret & rx & c' & Hrun & Hc' & Ha).
  rewrite Hr in Ha. destruct Ha as [-> ->]. exists c'. split; [|done].
  apply send_frame_answered; try done. by intros ->.
Qed.

Lemma frame_two p : ∃ a b, iso15693_frame p = p ++ [a; b].
Proof. by eexists _, _. Qed.

Lemma no_error err b r n : Z.land b ISO15693_RESP_FLAG_ERROR = 0 → iso15693_3_error_response_parse err (b :: r) n = Some (false, err).
Proof.
  intros Hb. unfold iso15693_3_error_response_parse. case_bool; [done|]. change (ld (b :: r) 0) with (Some b). mred. by rewrite Hb.
Qed.

Lemma uid_loop_rev (h0 h1 : Z) (uid acc junk : list Z) : length uid = 8%nat → length acc = 8%nat →
  uid_loop 8 0 (h0 :: h1 :: reverse uid ++ junk) acc = Some uid.
Proof.
  intros Hu Ha. do 8 (destruct uid as [|? uid]; [done|]). destruct uid; [|done].
  do 8 (destruct acc as [|? acc]; [done|]). by destruct acc.
Qed.

Lemma uid8 : length (v_uid d) = 8%nat.
Proof. pose proof (io_uid d Hd) as Hu. unfold ISO15693_UID_SIZE, len in Hu. lia. Qed.

Lemma fields_bytes : bytes (v_uid d) ∧ is_byte (v_dsfid d) ∧ is_byte (v_afi d) ∧ is_byte (v_ic_ref d).
Proof. pose proof (io_fields d Hd). pose proof (io_uid_bytes d Hd). by inv_bytes. Qed.

Lemma inventory_reads x c : R c → length (v_uid x) = 8%nat →
  ∃ c', iso15693_3_poller_inventory tag_transceive tx0 (Some s) (Some x) c =
    Some ((0, Some (iso_with_uid (v_uid d) (v_dsfid d) x)), c') ∧ R c'.
Proof.
  intros Hc Hx. destruct Htx0 as [Hl _], fields_bytes as (? & ? & _). pose proof uid8 as Hu8. unfold iso15693_3_poller_inventory.
  rewrite st_first by lia. rewrite run_lift_Some. rewrite st_next by llia. rewrite run_lift_Some. cbn [app].
  set (r := [0; v_dsfid d] ++ reverse (v_uid d)).
  assert (len r = 10) as Hlr by (unfold r, len; rewrite length_app, length_reverse, Hu8; done).
  destruct (exchange_ok [ISO15693_INV_FLAGS; ISO15693_CMD_INVENTORY] tx0 2 0 c r) as (c' & Hrun & Hc'); try done; try lia.
  { by bytes_list. }
  { apply bytes_app. split; [by bytes_list|]. by apply Forall_reverse. }
  exists c'. split; [|done]. rewrite (run_call _ _ _ _ _ Hrun). cbn [Z.eqb negb]. rewrite Hlr.
  unfold iso15693_3_inventory_response_parse, iso15693_frame, frame, r. rewrite <-!(assoc_L (++)). cbn [app].
  rewrite no_error by done. mred. cbn [Z.eqb negb]. change (negb (10 =? 2 + ISO15693_UID_SIZE)) with false. cbv iota.
  change (ld (0 :: v_dsfid d :: reverse (v_uid d) ++ ?l) 1) with (Some (v_dsfid d)). mred.
  change (Z.to_nat ISO15693_UID_SIZE) with 8%nat. rewrite uid_loop_rev by done. done.
Qed.

(** What the system information adds to the inventory. *)
Definition informed : iso15693_3_data_t :=
  iso_with_ic_ref (v_ic_ref d) (iso_with_memory (v_block_count d) (v_block_size d) (iso_with_afi (v_afi d)
    (iso_with_uid (v_uid d) (v_dsfid d) iso15693_zero))).

Lemma sysinfo_run dsfid afi n m ic x y d0 :
  iso15693_3_system_info_response_parse [0; 0xD1; dsfid; afi; n; m; ic; x; y] 7 d0 =
  let d := iso_with_ic_ref ic (iso_with_memory (u16 (n + 1)) (u8 (Z.land m 0x1F + 1)) (iso_with_afi afi (iso_with_uid (v_uid d0) dsfid d0))) in
  if (v_block_count d =? 0) || (ISO15693_BLOCKS_MAX <? v_block_count d) ||
     (v_block_size d =? 0) || (ISO15693_BLOCK_SIZE_MAX <? v_block_size d)
  then Some (- EIO, d) else Some (0, d).
Proof. reflexivity. Qed.

Lemma system_info_reads c : R c →
  ∃ c', iso15693_3_poller_get_system_info tag_transceive tx0 (Some s) (iso_with_uid (v_uid d) (v_dsfid d) iso15693_zero) c =
    Some ((0, informed), c') ∧ R c'.
Proof.
  intros Hc. destruct Htx0 as [Hl _], fields_bytes as (_ & ? & ? & ?). pose proof (io_count d Hd) as Hn. pose proof (io_size d Hd) as Hz.
  unfold ISO15693_BLOCKS_MAX, ISO15693_BLOCK_SIZE_MAX in *. unfold iso15693_3_poller_get_system_info.
  rewrite st_first by lia. rewrite run_lift_Some. rewrite st_next by llia. rewrite run_lift_Some. cbn [app].
  set (r := [0; 0xD1; v_dsfid d; v_afi d; u8 (v_block_count d - 1); (v_block_size d - 1) mod 32; v_ic_ref d]).
  destruct (exchange_ok [ISO15693_CMD_FLAGS; ISO15693_CMD_GET_SYS_INFO] tx0 2 0 c r) as (c' & Hrun & Hc'); try done.
  { by bytes_list. }
  { unfold r. assert (is_byte ((v_block_size d - 1) mod 32)) by (unfold is_byte; dlia). by bytes_list. }
  exists c'. split; [|done]. rewrite (run_call _ _ _ _ _ Hrun). cbn [Z.eqb negb].
  assert (iso15693_3_system_info_response_parse (iso15693_frame r) (len r) (iso_with_uid (v_uid d) (v_dsfid d) iso15693_zero) = Some (0, informed)) as ->; [|done].
  destruct (frame_two r) as (x & y & ->). change (len r) with 7.
  unfold r. cbn [app]. rewrite sysinfo_run. cbn zeta. cbn [v_uid v_block_count v_block_size iso_with_ic_ref iso_with_memory].
  rewrite (u8_id (v_block_count d - 1)) by (unfold is_byte; lia). replace (v_block_count d - 1 + 1) with (v_block_count d) by lia.
  rewrite u16_id by lia. change 31 with (Z.ones 5). rewrite Z.land_ones, Z.mod_mod by done. change (2 ^ 5) with 32.
  rewrite (Z.mod_small (v_block_size d - 1)) by lia. replace (v_block_size d - 1 + 1) with (v_block_size d) by lia.
  rewrite u8_id by (unfold is_byte; lia).
  rewrite !(proj2 (Z.eqb_neq _ 0)) by lia. unfold ISO15693_BLOCKS_MAX, ISO15693_BLOCK_SIZE_MAX. by rewrite !(proj2 (Z.ltb_ge _ _)) by lia.
Qed.

(** ** Blocks *)

Lemma read_block_reads b arr c : R c → 0 <= b < v_block_count d → len arr = len (v_block_data d) →
  ∃ c', iso15693_3_poller_read_block tag_transceive tx0 (Some s) b (v_block_size d)
    (mix (b * v_block_size d) (v_block_data d) arr) (b * v_block_size d) c =
    Some ((0, mix ((b + 1) * v_block_size d) (v_block_data d) arr), c') ∧ R c'.
Proof.
  intros Hc Hb Ha. destruct Htx0 as [Hl _]. pose proof Hd as []. unfold ISO15693_BLOCKS_MAX, ISO15693_BLOCK_SIZE_MAX in *.
  assert (b * v_block_size d + v_block_size d <= 512) as Hfit by nia. unfold iso15693_3_poller_read_block.
  rewrite st_first by lia. rewrite run_lift_Some. rewrite st_next by llia. rewrite run_lift_Some. cbn [app].
  rewrite st_next by llia. rewrite run_lift_Some. cbn [app].
  assert (len (iso_block d b) = v_block_size d) as Hbl by (unfold iso_block; llia).
  assert (bytes (iso_block d b)) as Hbb by (by apply bytes_take, bytes_drop).
  destruct (exchange_ok [ISO15693_CMD_FLAGS; ISO15693_CMD_READ; b] tx0 3 0 c (0 :: iso_block d b)) as (c' & Hrun & Hc'); try done.
  { bytes_list; unfold is_byte; lia. }
  { change (Some (if v_block_count d <=? b then iso_error else 0 :: iso_block d b) = Some (0 :: iso_block d b)).
    by rewrite (proj2 (Z.leb_gt _ _)) by lia. }
  { by apply Forall_cons_2. }
  { llia. }
  exists c'. split; [|done]. rewrite (run_call _ _ _ _ _ Hrun). cbn [Z.eqb negb].
  unfold iso15693_3_read_block_response_parse, iso15693_frame, frame. cbn [app]. rewrite no_error by done. mred.
  rewrite len_cons, Hbl. rewrite (proj2 (Z.leb_gt _ _)) by lia.
  replace (1 + v_block_size d - 1) with (v_block_size d) by lia. rewrite Z.eqb_refl. cbn [negb].
  unfold memcpy. change (0 :: ?l) with ([0] ++ l). rewrite sub_app_mid by done. mred.
  unfold iso_block. rewrite blit_mix by (unfold len in *; nia || lia). mred.
  by replace ((b + 1) * v_block_size d) with (b * v_block_size d + v_block_size d) by lia.
Qed.

Lemma read_blocks_reads n b arr c : R c → 0 <= b → b + Z.of_nat n = v_block_count d → len arr = len (v_block_data d) →
  ∃ c', read_blocks tag_transceive tx0 n b (Some s) (v_block_size d) (mix (b * v_block_size d) (v_block_data d) arr) c =
    Some ((None, mix (v_block_count d * v_block_size d) (v_block_data d) arr), c') ∧ R c'.
Proof.
  pose proof (io_count d Hd). unfold ISO15693_BLOCKS_MAX in *. revert b c. induction n as [|n IH]; intros b c Hc Hb Hn Ha.
  { exists c. split; [|done]. cbn. unfold mret, M_ret. do 3 f_equal. f_equal. lia. }
  destruct (read_block_reads b arr c Hc ltac:(lia) Ha) as (c1 & Hrun & Hc1).
  destruct (IH (b + 1) c1 Hc1 ltac:(lia) ltac:(lia) Ha) as (c2 & Hrun2 & Hc2).
  exists c2. split; [|done]. cbn [read_blocks]. rewrite (u8_id b) by (unfold is_byte; lia).
  rewrite (run_call _ _ _ _ _ Hrun). cbn [iso15693_3_optional_step_ok Z.eqb orb negb].
  by rewrite u16_id by lia.
Qed.

(** ** Security status *)

(** The security request of a batch: block numbers the poller means as first and number of blocks
    minus one, and the listener takes as first and last. *)
Lemma run_security start k tx n0 c : R c → 0 <= start < 256 → 0 <= k < 256 → len tx = 32 →
  ∃ r tx' c', (∀ B (K : Z * list Z * list Z * Z → M C B),
  (tx ← lift (st tx 0 ISO15693_CMD_FLAGS); tx ← lift (st tx 1 ISO15693_CMD_GET_BLOCKS_SEC);
   tx ← lift (st tx 2 start); tx ← lift (st tx 3 k);
   x ← iso15693_3_poller_send_frame tag_transceive (Some s) tx 4 n0; K x) c = K (0, tx', iso15693_frame r, len r) c') ∧
  R c' ∧ len tx' = 32 ∧
  r = (if (v_block_count d <=? start) || (v_block_count d <=? k) || (k <? start) then iso_error else 0 :: iso_security d start k).
Proof.
  intros Hc Hst Hk Hl. pose proof Hd as []. unfold ISO15693_BLOCKS_MAX in *.
  set (r := if (v_block_count d <=? start) || (v_block_count d <=? k) || (k <? start) then iso_error else 0 :: iso_security d start k).
  assert (bytes r ∧ r ≠ [] ∧ len r <= 253) as (Hrb & Hrn & Hrl).
  { unfold r. case_bool; [split; [by bytes_list|done]|]. bool_prop. split; [|split; [done|unfold iso_security; llia]].
    apply Forall_cons_2; [done|]. by apply bytes_take, bytes_drop. }
  destruct (exchange_ok [ISO15693_CMD_FLAGS; ISO15693_CMD_GET_BLOCKS_SEC; start; k] tx 4 n0 c r) as (c' & Hrun & Hc'); try done.
  { by bytes_list. }
  exists r, (over (iso15693_frame [ISO15693_CMD_FLAGS; ISO15693_CMD_GET_BLOCKS_SEC; start; k]) tx), c'.
  split; [|split; [done|]; split; [rewrite over_len; [done|unfold iso15693_frame; rewrite frame_len; llia]|done]].
  intros B K. rewrite st_first by lia. rewrite run_lift_Some.
  do 3 (rewrite st_next by llia; rewrite run_lift_Some; cbn [app]). by rewrite (run_call _ _ _ _ _ Hrun).
Qed.

(** The first batch: what the poller asks for is what the listener takes the request for. *)
Lemma security_first n sec c : R c → len sec = ISO15693_BLOCKS_MAX → ∃ tx k c',
  security_batches tag_transceive (S n) 0 (v_block_count d) (Some s) tx0 0 sec c =
  security_batches tag_transceive n 32 (v_block_count d) (Some s) tx k
    (mix (Z.min 32 (v_block_count d)) (v_block_security d) sec) c' ∧ R c' ∧ len tx = 32.
Proof.
  intros Hc Hsec. pose proof Hd as []. unfold ISO15693_BLOCKS_MAX in *. cbn [security_batches]. unfold ISO15693_BLOCKS_PER_QUERY.
  change (u8 0) with 0. rewrite Z.sub_0_r, (u16_id (v_block_count d)) by lia.
  assert ((if 32 <? v_block_count d then 32 else u8 (v_block_count d)) = Z.min 32 (v_block_count d)) as ->.
  { case_bool; bool_prop; [lia|]. rewrite u8_id by (unfold is_byte; lia). lia. }
  set (batch := Z.min 32 (v_block_count d)). rewrite (u8_id (batch - 1)) by (unfold is_byte; lia).
  destruct (run_security 0 (batch - 1) tx0 0 c) as (r & tx & c' & Hrun & Hc' & Htx & Hr); [done|lia|lia|apply Htx0|].
  rewrite Hrun. clear Hrun. cbv beta iota. cbn [Z.eqb negb].
  rewrite !(proj2 (Z.leb_gt _ _)), (proj2 (Z.ltb_ge _ _)) in Hr by lia. cbn [orb] in Hr.
  assert (len (iso_security d 0 (batch - 1)) = batch) as Hlen by (unfold iso_security; llia).
  assert (iso15693_3_get_block_security_response_parse (iso15693_frame r) (len r) sec 0 batch =
    Some (0, mix batch (v_block_security d) sec)) as ->.
  { subst r. unfold iso15693_3_get_block_security_response_parse, iso15693_frame, frame. cbn [app]. rewrite no_error by done. mred.
    rewrite len_cons, Hlen. rewrite (proj2 (Z.leb_gt _ _)) by lia.
    replace (1 + batch - 1) with batch by lia. rewrite Z.eqb_refl. cbn [negb].
    unfold memcpy. change (0 :: ?l) with ([0] ++ l). rewrite sub_app_mid by done. mred.
    unfold iso_security. change sec with (mix 0 (v_block_security d) sec) at 1. replace (batch - 1 - 0 + 1) with batch by lia.
    by rewrite blit_mix by (unfold len in *; lia). }
  rewrite run_lift_Some. cbn [Z.eqb negb]. change (u16 (0 + 32)) with 32. by exists tx, (len r), c'.
Qed.

(** The second batch: the number of blocks minus one lies below the first block. *)
Lemma security_second n tx rx sec c : R c → 32 < v_block_count d → len tx = 32 → ∃ c',
  security_batches tag_transceive (S n) 32 (v_block_count d) (Some s) tx rx sec c = Some ((- EIO, sec), c') ∧ R c'.
Proof.
  intros Hc Hn Htx. pose proof Hd as []. unfold ISO15693_BLOCKS_MAX in *. cbn [security_batches]. unfold ISO15693_BLOCKS_PER_QUERY.
  rewrite (u16_id (v_block_count d - 32)) by lia. change (u8 32) with 32.
  set (batch := if 32 <? v_block_count d - 32 then 32 else u8 (v_block_count d - 32)).
  assert (1 <= batch <= 32) as Hb. { unfold batch. case_bool; bool_prop; [lia|]. rewrite u8_id by (unfold is_byte; lia). lia. }
  rewrite (u8_id (batch - 1)) by (unfold is_byte; lia).
  destruct (run_security 32 (batch - 1) tx rx c) as (r & tx' & c' & Hrun & Hc' & Htx' & Hr); [done|lia|lia|done|].
  rewrite Hrun. clear Hrun. cbv beta iota. cbn [Z.eqb negb].
  rewrite (proj2 (Z.ltb_lt (batch - 1) 32)), orb_true_r in Hr by lia. subst r. by exists c'.
Qed.
(** ** The whole read *)

(** What a poll leaves in the model: the locks of the DSFID and the AFI are not read, and of the
    security status only the first batch is. *)
Definition iso_image : iso15693_3_data_t :=
  {| v_uid := v_uid d; v_dsfid := v_dsfid d; v_afi := v_afi d; v_ic_ref := v_ic_ref d; v_lock_dsfid := 0; v_lock_afi := 0;
     v_block_count := v_block_count d; v_block_size := v_block_size d; v_block_data := v_block_data d;
     v_block_security := mix (Z.min 32 (v_block_count d)) (v_block_security d) (zeros ISO15693_BLOCKS_MAX) |}.

(** A prefix of an array whose rest is zero, over zeros. *)
Lemma mix_padded (l : list Z) n k : 0 <= n → len l = k → drop (Z.to_nat n) l = zeros (k - n) → n <= k → mix n l (zeros k) = l.
Proof.
  intros Hn Hl Hpad Hk. rewrite <-(take_drop (Z.to_nat n) l) at 2. rewrite Hpad. unfold mix. f_equal. unfold zeros.
  rewrite drop_replicate. f_equal. lia.
Qed.

Lemma security_reads x c : R c → v_block_count x = v_block_count d → len (v_block_security x) = ISO15693_BLOCKS_MAX → ∃ c',
  iso15693_3_poller_get_blocks_security tag_transceive tx0 (Some s) x c =
    Some ((if v_block_count d <=? 32 then 0 else - EIO,
           iso_with_blocks (v_block_data x) (mix (Z.min 32 (v_block_count d)) (v_block_security d) (v_block_security x)) x), c') ∧ R c'.
Proof.
  intros Hc Hx Hsec. pose proof (io_count d Hd) as Hn. unfold iso15693_3_poller_get_blocks_security, ISO15693_BLOCKS_MAX in *.
  rewrite Hx. unfold ISO15693_BLOCKS_PER_QUERY. rewrite (proj2 (Z.eqb_neq _ 0)), (proj2 (Z.ltb_ge _ _)) by lia. cbn [orb].
  assert (∃ n, Z.to_nat ((v_block_count d + 31) / 32) = S n ∧ (v_block_count d <= 32 ↔ n = 0%nat)) as (n & -> & Hn0).
  { exists (Nat.pred (Z.to_nat ((v_block_count d + 31) / 32))). split; dlia. }
  destruct (security_first n (v_block_security x) c Hc Hsec) as (tx & k & c1 & Hrun & Hc1 & Htx).
  case_bool; bool_prop.
  - assert (n = 0%nat) as -> by (apply Hn0; lia). exists c1. split; [|done]. by rewrite (run_call _ _ _ _ _ Hrun).
  - destruct n as [|n]; [lia|].
    destruct (security_second n tx k (mix (Z.min 32 (v_block_count d)) (v_block_security d) (v_block_security x)) c1) as (c2 & Hrun2 & Hc2); [done|lia|done|].
    exists c2. split; [|done]. rewrite Hrun2 in Hrun. by rewrite (run_call _ _ _ _ _ Hrun).
Qed.

Lemma iso_poller_reads c out : R c → ∃ c', R c' ∧
  iso15693_3_poller_read tag_transceive tx0 (Some s) (Some out) c =
    Some ((if v_block_count d <=? 32 then 0 else - EIO, Some iso_image), c').
Proof.
  intros Hc. pose proof Hd as [Hu _ _ Hn Hz Hdl _ Hdp Hsl _ Hsp]. unfold ISO15693_BLOCKS_MAX, ISO15693_BLOCK_SIZE_MAX in *.
  unfold iso15693_3_poller_read, iso15693_3_poller_session_valid. rewrite Hs. cbn [negb Z.eqb].
  destruct (inventory_reads iso15693_zero c Hc eq_refl) as (c1 & Hrun1 & Hc1). rewrite (run_call _ _ _ _ _ Hrun1). cbn [Z.eqb negb].
  rewrite run_lift_Some. destruct (system_info_reads c1 Hc1) as (c2 & Hrun2 & Hc2). rewrite (run_call _ _ _ _ _ Hrun2).
  change (iso15693_3_optional_step_ok 0) with true. cbn [negb]. change (v_block_count informed) with (v_block_count d).
  change (v_block_size informed) with (v_block_size d). rewrite !(proj2 (Z.eqb_neq _ 0)) by lia. cbn [orb].
  change (v_block_data informed) with (zeros (128 * 4)). change (v_block_security informed) with (zeros 128).
  destruct (read_blocks_reads (Z.to_nat (v_block_count d)) 0 (zeros (128 * 4)) c2) as (c3 & Hrun3 & Hc3); [done|lia|lia|by rewrite Hdl|].
  change (mix (0 * _) _ ?l) with l in Hrun3. rewrite (run_call _ _ _ _ _ Hrun3). cbv zeta. rewrite mix_padded by (done || nia).
  destruct (security_reads (iso_with_blocks (v_block_data d) (zeros 128) informed) c3) as (c4 & Hrun4 & Hc4); [done..|].
  exists c4. split; [done|]. rewrite (run_call _ _ _ _ _ Hrun4). by case_bool.
Qed.

(** What a read of a card of at most one batch leaves is the card but for the lock flags. *)
Lemma iso_image_small : v_block_count d <= 32 → v_block_security iso_image = v_block_security d.
Proof.
  intros Hn. pose proof Hd as []. cbn. rewrite Z.min_r by done. by apply mix_padded; try lia.
Qed.
End Loopback.

(** ** The listener is such a card *)

Definition iso_shows (d : iso15693_3_data_t) (s : iso_state) : Prop :=
  is_initialized s = true ∧ is_model s = d ∧ len (is_resp s) = 256.

Definition iso_link (u : iso_locals) : list Z → M iso_state (Z * list Z) :=
  link (λ f, iso15693_3_listener_on_tag_cmd u (Some f) (len f)).

#[global] Instance iso_listener_card u d : iso_locals_ok u → iso_ok d → VicinityCard (iso_link u) d (iso_shows d).
Proof.
  intros Hu Hd. constructor. intros s p (Hi & Hm & Hr) Hb Hp Hl. unfold iso_link.
  assert (iso_step s (iso15693_frame p) = match iso15693_frame <$> iso_answer d p with Some b => with_sent b s | None => s end) as Hstep.
  { unfold iso_step. rewrite Hi, iso_payload_frame by (done || lia). cbn [mbind option_bind]. rewrite Hm. by destruct (iso_answer d p). }
  destruct (run_link (λ f, iso15693_3_listener_on_tag_cmd u (Some f) (len f)) (iso15693_frame p)
    (iso15693_frame <$> iso_answer d p) s) as (rs & Hrs & Hrun).
  { rewrite <-Hstep. apply (iso_tag_cmd_does u Hu); [|by apply frame_bytes].
    intros _. constructor; [rewrite Hm; by apply iso_ok_safe|done]. }
  destruct (iso_answer d p) as [r|]; cbn in Hrun; (eexists _, _, _; split; [exact Hrun|]; split; [|done]);
    repeat split; cbn; try done; by rewrite Hrs.
Qed.

(** C33: the ISO 15693 poller in front of a card that answers as this device's own listener reads the
    model of the card: the UID, the system information, every block and the block security are what
    the listener emulates and only the two lock flags, which no command reports, are left at zero.
    That is so for a card of at most 32 blocks; for a larger one the second security request, whose
    last byte the poller means as a number of blocks and the listener as a last block, is refused,
    and the read fails with [-EIO]. *)
Theorem iso15693_poller_reads_listener u d tx0 s c out : iso_locals_ok u → iso_ok d → len tx0 = 32 ∧ bytes tx0 → ses_active s = true →
  iso_shows d c → ∃ c', iso_shows d c' ∧
  iso15693_3_poller_read (iso_link u) tx0 (Some s) (Some out) c =
    Some ((if v_block_count d <=? 32 then 0 else - EIO, Some (iso_image d)), c') ∧
  (v_block_count d <= 32 → v_block_security (iso_image d) = v_block_security d).
Proof.
  intros Hu Hd Htx0 Hs Hc. pose proof (iso_listener_card u d Hu Hd) as Hcard.
  destruct (iso_poller_reads (iso_link u) d Hd (iso_shows d) tx0 Htx0 s Hs c out Hc) as (c' & Hc' & Hrun).
  exists c'. split; [done|]. split; [done|]. by apply iso_image_small.
Qed.
