(* ===== verification/SlixListener.v ===== *)
(** * SLIX emulation ([src/nfc/protocols/slix/slix_listener.c])

    An NXP vicinity card: the manufacturer's commands on top of the ISO 15693 listener, whose statics
    it shares.  The second half is the card as a state machine over what it means, [slix_card], and
    the proof that the listener implements it. *)

From stdpp Require Import base list numbers option.
From S2P Require Import Prelude Service Serial Word32 Crc Response Iso15693 Iso15693Wire Iso15693Listener.

(** ** State *)

Definition SLIX_LISTENER_BUF_SIZE : Z := 256.
Definition SLIX_CMD_GET_NXP_SYSINFO : Z := 0xAB.
Definition SLIX_CMD_READ_SIGNATURE : Z := 0xBD.
Definition SLIX_CMD_GET_RANDOM : Z := 0xB2.
Definition SLIX_CMD_SET_PASSWORD : Z := 0xB3.
Definition SLIX_CMD_CUSTOM_START : Z := 0xA0.
Definition SLIX_CAP_ACCEPT_ALL : Z := 1.
Definition SLIX_PASSWORD_PRIVACY : Z := 2.
Definition SLIX_PASSWORD_DESTROY : Z := 4.

(** The static variables of the file, and with [sx_iso] those of the ISO 15693 listener. *)
Record slix_state := {
  sx_model : slix_data_t;
  sx_initialized : bool;
  sx_resp : list Z;
  sx_match : list bool;
  sx_random : Z;
  sx_iso : iso_state;
}.

Definition sx_with_model (m : slix_data_t) (s : slix_state) : slix_state :=
  {| sx_model := m; sx_initialized := sx_initialized s; sx_resp := sx_resp s; sx_match := sx_match s;
     sx_random := sx_random s; sx_iso := sx_iso s |}.
Definition sx_with_initialized (b : bool) (s : slix_state) : slix_state :=
  {| sx_model := sx_model s; sx_initialized := b; sx_resp := sx_resp s; sx_match := sx_match s;
     sx_random := sx_random s; sx_iso := sx_iso s |}.
Definition sx_with_match (l : list bool) (s : slix_state) : slix_state :=
  {| sx_model := sx_model s; sx_initialized := sx_initialized s; sx_resp := sx_resp s; sx_match := l;
     sx_random := sx_random s; sx_iso := sx_iso s |}.
Definition sx_with_random (r : Z) (s : slix_state) : slix_state :=
  {| sx_model := sx_model s; sx_initialized := sx_initialized s; sx_resp := sx_resp s; sx_match := sx_match s;
     sx_random := r; sx_iso := sx_iso s |}.
Definition sx_with_iso (i : iso_state) (s : slix_state) : slix_state :=
  {| sx_model := sx_model s; sx_initialized := sx_initialized s; sx_resp := sx_resp s; sx_match := sx_match s;
     sx_random := sx_random s; sx_iso := i |}.

#[global] Instance slix_resp : RespBuf slix_state.
Proof.
  refine {|
    resp := sx_resp;
    with_resp r s := {| sx_model := sx_model s; sx_initialized := sx_initialized s; sx_resp := r; sx_match := sx_match s;
                        sx_random := sx_random s; sx_iso := sx_iso s |};
    with_sent b s := sx_with_iso (with_sent b (sx_iso s)) s;
  |}; try done. by intros [].
Defined.
#[global] Instance slix_resp_sent : RespSent slix_state.
Proof. by refine {| sent s := is_sent (sx_iso s) |}. Defined.

Definition slix_power_up : slix_state :=
  {| sx_model := slix_zero; sx_initialized := false; sx_resp := zeros SLIX_LISTENER_BUF_SIZE;
     sx_match := replicate (Z.to_nat (SLIX_PASSWORD_DESTROY + 1)) false; sx_random := 0; sx_iso := iso_power_up |}.

(** A call of the ISO 15693 listener. *)
Definition in_iso {A} (m : M iso_state A) : M slix_state A := λ s,
  '(a, i) ← m (sx_iso s); Some (a, sx_with_iso i s).

(** ** The handlers *)

(** [bytes] is [&b[off]]. *)
Definition slix_listener_read_be32 (b : list Z) (off : Z) : option Z :=
  b0 ← ld b off; b1 ← ld b (off + 1); b2 ← ld b (off + 2); b3 ← ld b (off + 3);
  Some (Z.lor (Z.lor (Z.lor (shl b0 24) (shl b1 16)) (shl b2 8)) b3).

Fixpoint password_type_loop (n : nat) (i id : Z) : Z :=
  match n with
  | O => SLIX_PASSWORD_COUNT
  | S n => if id =? u8 (Z.shiftl 1 i) then i else password_type_loop n (i + 1) id
  end.
Definition slix_listener_password_type_from_id (id : Z) : Z := password_type_loop (Z.to_nat SLIX_PASSWORD_COUNT) 0 id.

(** The mask that two bytes of the random number give. *)
Definition double_rand (random : Z) : Z :=
  let rn_l := u8 (shr random 8) in let rn_h := u8 (Z.land random 0xFF) in
  Z.lor (Z.lor (Z.lor (shl rn_h 24) (shl rn_l 16)) (shl rn_h 8)) rn_l.
Definition slix_listener_unxor_password (password_xored random : Z) : Z := Z.lxor password_xored (double_rand random).

Definition set_match (type : Z) : M slix_state unit :=
  s ← gets id; l ← lift (st (sx_match s) type true); modify (sx_with_match l).

Definition slix_listener_check_password (type password : Z) : M slix_state bool :=
  if SLIX_PASSWORD_COUNT <=? type then mret false else
  m ← gets sx_model;
  if x_capabilities m =? SLIX_CAP_ACCEPT_ALL then set_match type ;; mret true else
  let pw := [u8 (Z.land (shr password 24) 0xFF); u8 (Z.land (shr password 16) 0xFF);
             u8 (Z.land (shr password 8) 0xFF); u8 (Z.land password 0xFF)] in
  stored ← lift (ld (x_passwords m) type);
  same ← lift (memcmp_eq pw 0 stored 0 SLIX_PASSWORD_SIZE);
  if same : bool then set_match type ;; mret true else mret false.

Definition slix_listener_is_slix_custom (command : Z) : bool := (SLIX_CMD_CUSTOM_START <=? command) && (command <? 0xC0).

Section SlixListener.
(** The automatic arrays of this file and of the ISO 15693 listener. *)
Context (u ui : iso_locals).

Definition slix_listener_send : list Z → Z → M slix_state unit := send_frame u.

(** [if (field != 0) lock_bits |= bit] *)
Definition lock_bit (field bit lock_bits : Z) : Z := if negb (field =? 0) then Z.lor lock_bits bit else lock_bits.

Definition slix_listener_handle_get_nxp_sysinfo : M slix_state unit :=
  m ← gets sx_model;
  let feature_flags := 0x00000002 in
  offset ← resp_put 0 0; offset ← resp_put offset (x_protection_pointer m); offset ← resp_put offset (x_protection_condition m);
  let lock_bits := lock_bit (x_lock_ppl m) 0x08 (lock_bit (x_lock_eas m) 0x04
    (lock_bit (v_lock_afi (x_parent m)) 0x02 (lock_bit (v_lock_dsfid (x_parent m)) 0x01 0))) in
  offset ← resp_put offset lock_bits;
  offset ← resp_put offset (u8 (Z.land feature_flags 0xFF)); offset ← resp_put offset (u8 (Z.land (shr feature_flags 8) 0xFF));
  offset ← resp_put offset (u8 (Z.land (shr feature_flags 16) 0xFF)); offset ← resp_put offset (u8 (Z.land (shr feature_flags 24) 0xFF));
  s ← gets id; slix_listener_send (resp s) offset.

Definition slix_listener_handle_read_signature : M slix_state unit :=
  m ← gets sx_model;
  offset ← resp_put 0 0; offset ← resp_copy offset (x_signature m) 0 SLIX_SIGNATURE_SIZE;
  s ← gets id; slix_listener_send (resp s) offset.

Definition slix_listener_handle_get_random : M slix_state unit :=
  m ← gets sx_model;
  b ← lift (ld (v_uid (x_parent m)) 7);
  modify (sx_with_random (u16 (0x1234 + b))) ;;
  random ← gets sx_random;
  offset ← resp_put 0 0; offset ← resp_put offset (u8 (Z.land random 0xFF));
  offset ← resp_put offset (u8 (Z.land (shr random 8) 0xFF));
  s ← gets id; slix_listener_send (resp s) offset.

Definition sx_clear_privacy (m : slix_data_t) : slix_data_t :=
  {| x_parent := x_parent m; x_capabilities := x_capabilities m; x_type := x_type m; x_passwords := x_passwords m;
     x_signature := x_signature m; x_privacy_mode := 0; x_protection_pointer := x_protection_pointer m;
     x_protection_condition := x_protection_condition m; x_lock_eas := x_lock_eas m; x_lock_ppl := x_lock_ppl m |}.

(** [data] is [&frame[data]]. *)
Definition slix_listener_handle_set_password (frame : list Z) (data data_len : Z) : M slix_state unit :=
  if data_len <? 1 + SLIX_PASSWORD_SIZE then mret tt else
  i ← lift (ld frame data);
  let type := slix_listener_password_type_from_id i in
  xored ← lift (slix_listener_read_be32 frame (data + 1));
  random ← gets sx_random;
  ok ← slix_listener_check_password type (slix_listener_unxor_password xored random);
  if negb ok then mret tt else
  (if type =? SLIX_PASSWORD_PRIVACY then m ← gets sx_model; modify (sx_with_model (sx_clear_privacy m)) else mret tt) ;;
  offset ← resp_put 0 0;
  s ← gets id; slix_listener_send (resp s) offset.

(** The switch of [slix_listener_handle_custom]. *)
Definition slix_dispatch (command : Z) (frame : list Z) (data data_len : Z) : M slix_state unit :=
  if command =? SLIX_CMD_GET_NXP_SYSINFO then slix_listener_handle_get_nxp_sysinfo else
  if command =? SLIX_CMD_READ_SIGNATURE then slix_listener_handle_read_signature else
  if command =? SLIX_CMD_GET_RANDOM then slix_listener_handle_get_random else
  if command =? SLIX_CMD_SET_PASSWORD then slix_listener_handle_set_password frame data data_len else mret tt.

Definition slix_listener_handle_custom (frame : list Z) (frame_len : Z) (addressed : bool) : M slix_state unit :=
  if frame_len <? 3 then mret tt else
  command ← lift (ld frame 1); mfg ← lift (ld frame 2);
  if negb (mfg =? SLIX_NXP_MFG_CODE) then mret tt else
  let data_len := frame_len - 3 in
  if addressed then
    if data_len <? ISO15693_UID_SIZE then mret tt else
    slix_dispatch command frame (3 + ISO15693_UID_SIZE) (data_len - ISO15693_UID_SIZE)
  else slix_dispatch command frame 3 data_len.

Definition slix_listener_on_tag_cmd (tx : option (list Z)) (tx_len : Z) : M slix_state unit :=
  s ← gets id;
  match tx with
  | None => mret tt
  | Some t =>
    if negb (sx_initialized s) || (tx_len <? 1 + ISO15693_CRC_SIZE) then mret tt else
    ok ← lift (iso15693_3_crc_check tx tx_len);
    if negb ok then mret tt else
    if SLIX_LISTENER_BUF_SIZE <? tx_len then mret tt else
    frame ← lift (memcpy (il_frame u) 0 t 0 tx_len);
    let frame_len := iso15693_3_crc_trim (Some frame) tx_len in
    if frame_len <? 2 then mret tt else
    flags ← lift (ld frame 0); command ← lift (ld frame 1);
    let addressed := negb (Z.land flags ISO15693_ADDR_FLAG_ADDRESSED =? 0) && (Z.land flags ISO15693_INV_FLAG_INVENTORY =? 0) in
    if slix_listener_is_slix_custom command then slix_listener_handle_custom frame frame_len addressed else
    if negb (x_privacy_mode (sx_model s) =? 0) && (command =? ISO15693_CMD_INVENTORY) then mret tt else
    in_iso (iso15693_3_listener_init (Some (x_parent (sx_model s)))) ;;
    in_iso (iso15693_3_listener_on_tag_cmd ui tx tx_len)
  end.
End SlixListener.

Definition slix_listener_serialize (out : option (list Z)) (out_max : Z) (out_len : option Z)
    : M slix_state (Z * option (list Z) * option Z) :=
  s ← gets id;
  if negb (sx_initialized s) then mret (- ENODEV, out, out_len) else
  lift (slix_serialize (Some (sx_model s)) out out_max out_len).

Definition slix_listener_deserialize (inp : option (list Z)) (in_len : Z) : M slix_state Z :=
  s ← gets id;
  if negb (sx_initialized s) then mret (- ENODEV) else
  '(ret, m) ← lift (slix_deserialize (Some (sx_model s)) inp in_len);
  m ← lift m; modify (sx_with_model m) ;; mret ret.

(** [memset(s_password_match, 0, sizeof(s_password_match)); s_random = 0] *)
Definition forget_passwords : M slix_state unit :=
  modify (sx_with_match (replicate (Z.to_nat (SLIX_PASSWORD_DESTROY + 1)) false)) ;; modify (sx_with_random 0).

Definition slix_listener_init (model : option slix_data_t) : M slix_state Z :=
  modify (sx_with_model (default slix_zero model)) ;; forget_passwords ;; modify (sx_with_initialized true) ;; mret 0.

Definition slix_listener_shutdown : M slix_state Z :=
  modify (sx_with_model slix_zero) ;; forget_passwords ;; modify (sx_with_initialized false) ;; mret 0.

(** ** The card *)

Record slix_card := {
  sc_model : slix_data_t;
  sc_initialized : bool;
  sc_match : list bool;
  sc_random : Z;
  sc_sent : list (list Z);
}.

Definition sc_send (r : list Z) (c : slix_card) : slix_card :=
  {| sc_model := sc_model c; sc_initialized := sc_initialized c; sc_match := sc_match c; sc_random := sc_random c;
     sc_sent := sc_sent c ++ [iso15693_frame r] |}.
Definition sc_draw (r : Z) (c : slix_card) : slix_card :=
  {| sc_model := sc_model c; sc_initialized := sc_initialized c; sc_match := sc_match c; sc_random := r; sc_sent := sc_sent c |}.

(** The password of the type has been given: the privacy password ends privacy mode. *)
Definition sc_unlock (type : Z) (c : slix_card) : slix_card :=
  {| sc_model := if type =? SLIX_PASSWORD_PRIVACY then sx_clear_privacy (sc_model c) else sc_model c;
     sc_initialized := sc_initialized c; sc_match := <[Z.to_nat type := true]> (sc_match c); sc_random := sc_random c;
     sc_sent := sc_sent c |}.

(** The password a SET PASSWORD names: read, write, privacy, destroy and EAS/AFI; 5 is none of them. *)
Definition slix_password_type (id : Z) : Z :=
  if id =? 0x01 then 0 else if id =? 0x02 then 1 else if id =? 0x04 then 2 else if id =? 0x08 then 3
  else if id =? 0x10 then 4 else 5.

(** The password is sent masked with the two bytes of the random number, as GET RANDOM sends them, twice. *)
Definition slix_unmask (r : Z) (pw : list Z) : list Z := zip_with Z.lxor pw [lo8 r; hi8 r; lo8 r; hi8 r].

Definition slix_accepts (m : slix_data_t) (type : Z) (pw : list Z) : bool :=
  (type <? 5) &&
  ((x_capabilities m =? SLIX_CAP_ACCEPT_ALL) || bool_decide (x_passwords m !! Z.to_nat type = Some pw)).

(** The commands of this card, among those a manufacturer defines. *)
Definition slix_custom_command (command : Z) : bool := (0xA0 <=? command) && (command <? 0xC0).

Definition slix_locks (m : slix_data_t) : Z :=
  (if v_lock_dsfid (x_parent m) =? 0 then 0 else 1) + (if v_lock_afi (x_parent m) =? 0 then 0 else 2) +
  (if x_lock_eas m =? 0 then 0 else 4) + (if x_lock_ppl m =? 0 then 0 else 8).

(** The number a card draws is made from its UID. *)
Definition slix_draw (m : slix_data_t) : Z := u16 (0x1234 + default 0 (v_uid (x_parent m) !! 7%nat)).

(** What a manufacturer's command for this card does. *)
Definition slix_reply (c : slix_card) (command : Z) (args : list Z) : slix_card :=
  let m := sc_model c in
  if command =? SLIX_CMD_GET_NXP_SYSINFO then
    sc_send [0; x_protection_pointer m; x_protection_condition m; slix_locks m; 2; 0; 0; 0] c
  else if command =? SLIX_CMD_READ_SIGNATURE then sc_send (0 :: x_signature m) c
  else if command =? SLIX_CMD_GET_RANDOM then sc_send [0; lo8 (slix_draw m); hi8 (slix_draw m)] (sc_draw (slix_draw m) c)
  else if command =? SLIX_CMD_SET_PASSWORD then
    match args with
    | i :: b0 :: b1 :: b2 :: b3 :: _ =>
      let type := slix_password_type i in
      if slix_accepts m type (slix_unmask (sc_random c) [b0; b1; b2; b3])
      then sc_send [0] (sc_unlock type c) else c
    | _ => c
    end
  else c.

Definition slix_addressed (flags : Z) : bool :=
  negb (Z.land flags ISO15693_ADDR_FLAG_ADDRESSED =? 0) && (Z.land flags ISO15693_INV_FLAG_INVENTORY =? 0).

(** Whose UID an addressed command carries is not looked at. *)
Definition slix_custom (c : slix_card) (flags command : Z) (args : list Z) : slix_card :=
  match args with
  | mfg :: args =>
    if negb (mfg =? SLIX_NXP_MFG_CODE) then c else
    if slix_addressed flags then if len args <? 8 then c else slix_reply c command (drop 8 args)
    else slix_reply c command args
  | [] => c
  end.

Definition sc_answer (r : option (list Z)) (c : slix_card) : slix_card :=
  match r with Some r => sc_send r c | None => c end.

Definition slix_step (c : slix_card) (tx : list Z) : slix_card :=
  if sc_initialized c then
    match iso_payload tx with
    | Some (flags :: command :: args) =>
      if slix_custom_command command then slix_custom c flags command args else
      if negb (x_privacy_mode (sc_model c) =? 0) && (command =? ISO15693_CMD_INVENTORY) then c else
      sc_answer (iso_answer (x_parent (sc_model c)) (flags :: command :: args)) c
    | _ => c
    end
  else c.

Definition sx_abs (s : slix_state) : slix_card :=
  {| sc_model := sx_model s; sc_initialized := sx_initialized s; sc_match := sx_match s; sc_random := sx_random s;
     sc_sent := is_sent (sx_iso s) |}.

(** ** The listener is that card *)

(** What keeps every access inside the arrays. *)
Record slix_safe (m : slix_data_t) : Prop := {
  xs_parent : iso_safe (x_parent m);
  xs_pw_count : length (x_passwords m) = Z.to_nat SLIX_PASSWORD_COUNT;
  xs_pw_size : Forall (λ p, len p = SLIX_PASSWORD_SIZE) (x_passwords m);
  xs_sig : len (x_signature m) = SLIX_SIGNATURE_SIZE;
  xs_sig_bytes : bytes (x_signature m);
  xs_fields : Forall is_byte [x_protection_pointer m; x_protection_condition m];
}.

Lemma slix_ok_safe m : slix_ok m → slix_safe m.
Proof. intros []. inv_bytes. constructor; try done; [by apply iso_ok_safe|by bytes_list]. Qed.

Record slix_state_ok (s : slix_state) : Prop := {
  ss_model : slix_safe (sx_model s);
  ss_resp : len (sx_resp s) = 256;
  ss_match : length (sx_match s) = 5%nat;
  ss_random : 0 <= sx_random s < 65536;
  ss_iso : len (is_resp (sx_iso s)) = 256;
}.

Section SlixFacts.
Context (u ui : iso_locals) (Hu : iso_locals_ok u) (Hui : iso_locals_ok ui).

(** [m] returns, and leaves the card as [c]. *)
Definition becomes (m : M slix_state unit) (s : slix_state) (c : slix_card) : Prop :=
  ∃ s', m s = Some (tt, s') ∧ sx_abs s' = c ∧ slix_state_ok s'.

Lemma becomes_call m m' s s1 c : m s = m' s1 → becomes m' s1 c → becomes m s c.
Proof. intros Heq (s' & Hrun & ?). exists s'. by rewrite Heq. Qed.

Lemma becomes_nothing s : slix_state_ok s → becomes (mret tt) s (sx_abs s).
Proof. by exists s. Qed.

(** What only sends. *)
Lemma becomes_sent m s r : slix_state_ok s → does m s (with_sent (iso15693_frame r) s) → becomes m s (sc_send r (sx_abs s)).
Proof.
  intros [] (b & Hl & Hrun). eexists. split; [exact Hrun|]. split; [done|]. constructor; try done. cbn. by rewrite Hl.
Qed.

Lemma locks_eq m : lock_bit (x_lock_ppl m) 0x08 (lock_bit (x_lock_eas m) 0x04
    (lock_bit (v_lock_afi (x_parent m)) 0x02 (lock_bit (v_lock_dsfid (x_parent m)) 0x01 0))) = slix_locks m.
Proof. unfold lock_bit, slix_locks. repeat destruct (_ =? 0); done. Qed.

Lemma sysinfo_becomes s : slix_state_ok s →
  becomes (slix_listener_handle_get_nxp_sysinfo u) s (slix_reply (sx_abs s) SLIX_CMD_GET_NXP_SYSINFO []).
Proof.
  intros Hs. pose proof Hs as [[] Hr _ _ _]. change (len (resp s) = 256) in Hr. apply becomes_sent; [done|].
  unfold does, slix_listener_handle_get_nxp_sysinfo. rewrite run_gets. cbv zeta. rewrite locks_eq.
  rewrite run_resp_first, !run_resp_put by llia. cbn [app]. unfold slix_listener_send. inv_bytes.
  apply (send_does u Hu); [|done|lia]. assert (is_byte (slix_locks (sx_model s))) by (unfold slix_locks; repeat destruct (_ =? 0); done).
  change (bytes [0; x_protection_pointer (sx_model s); x_protection_condition (sx_model s); slix_locks (sx_model s); 2; 0; 0; 0]).
  by bytes_list.
Qed.

Lemma signature_becomes s : slix_state_ok s →
  becomes (slix_listener_handle_read_signature u) s (slix_reply (sx_abs s) SLIX_CMD_READ_SIGNATURE []).
Proof.
  intros Hs. pose proof Hs as [[] Hr _ _ _]. change (len (resp s) = 256) in Hr. apply becomes_sent; [done|].
  change (sc_model (sx_abs s)) with (sx_model s).
  unfold does, slix_listener_handle_read_signature, SLIX_SIGNATURE_SIZE in *. rewrite run_gets, run_resp_first by lia.
  rewrite run_resp_all by (done || llia). apply (send_does u Hu); [by apply Forall_cons_2|llia|lia].
Qed.

Lemma random_becomes s : slix_state_ok s →
  becomes (slix_listener_handle_get_random u) s (slix_reply (sx_abs s) SLIX_CMD_GET_RANDOM []).
Proof.
  intros Hs. pose proof Hs as [Hm Hr Hmt _ Hi]. pose proof Hm as [[] ? _ _ _ _]. unfold ISO15693_UID_SIZE in *.
  destruct (ld_Some (v_uid (x_parent (sx_model s))) 7) as [b Hb]; [lia|].
  assert (slix_draw (sx_model s) = u16 (0x1234 + b)) as Hd
    by (apply ld_Some_inv in Hb as [_ Hb]; change (Z.to_nat 7) with 7%nat in Hb; unfold slix_draw; by rewrite Hb).
  pose proof (u16_range (0x1234 + b)) as Hrr.
  eapply (becomes_call _ _ s (sx_with_random (slix_draw (sx_model s)) s)).
  { unfold slix_listener_handle_get_random. rewrite run_gets, Hb, run_lift_Some, run_modify, run_gets. by rewrite Hd. }
  assert (slix_state_ok (sx_with_random (slix_draw (sx_model s)) s)) as Hs1 by (constructor; try done; cbn; by rewrite Hd).
  cbn [sx_random sx_with_random]. rewrite <-Hd. set (s1 := sx_with_random _ s) in *.
  change (becomes (offset ← resp_put 0 0; offset ← resp_put offset (u8 (Z.land (slix_draw (sx_model s)) 0xFF));
    offset ← resp_put offset (u8 (Z.land (shr (slix_draw (sx_model s)) 8) 0xFF)); s ← gets id; slix_listener_send u (resp s) offset) s1
    (sc_send [0; lo8 (slix_draw (sx_model s)); hi8 (slix_draw (sx_model s))] (sx_abs s1))).
  apply becomes_sent; [done|]. change (len (resp s) = 256) in Hr.
  unfold does. rewrite run_resp_first, !run_resp_put by (change (resp s1) with (resp s); llia). cbn [app].
  unfold slix_listener_send. apply (send_does u Hu); [|done|change (resp s1) with (resp s); lia].
  pose proof (lo8_range (slix_draw (sx_model s))). pose proof (hi8_range (slix_draw (sx_model s))).
  change (bytes [0; lo8 (slix_draw (sx_model s)); hi8 (slix_draw (sx_model s))]). by bytes_list.
Qed.

(** *** Passwords *)

Lemma type_from_id_eq i : slix_listener_password_type_from_id i = slix_password_type i.
Proof. done. Qed.

Lemma password_type_range i : 0 <= slix_password_type i <= 5.
Proof. unfold slix_password_type. repeat case_bool; lia. Qed.

(** The mask of the code is the mask of the bytes. *)
Lemma word_bytes_lxor x y : word_bytes (Z.lxor x y) = zip_with Z.lxor (word_bytes x) (word_bytes y).
Proof.
  assert (∀ k, u8 (shr (Z.lxor x y) k) = Z.lxor (u8 (shr x k)) (u8 (shr y k))) as Hk.
  { intros k. unfold u8, shr. rewrite Z.shiftr_lxor. change 256 with (2 ^ 8). rewrite <-!Z.land_ones by lia.
    apply Z.bits_inj'. intros n Hn. rewrite Z.land_spec, !Z.lxor_spec, !Z.land_spec.
    by destruct (Z.testbit (Z.shiftr x k) n), (Z.testbit (Z.shiftr y k) n), (Z.testbit (Z.ones 8) n). }
  unfold word_bytes. rewrite !Hk. pose proof (Hk 0) as H0. unfold shr in H0. rewrite !Z.shiftr_0_r in H0. by rewrite H0.
Qed.

Lemma unxor_bytes r b0 b1 b2 b3 : bytes [b0; b1; b2; b3] →
  word_bytes (slix_listener_unxor_password (be32 b0 b1 b2 b3) r) = slix_unmask r [b0; b1; b2; b3].
Proof.
  intros Hb. inv_bytes. unfold slix_listener_unxor_password. rewrite word_bytes_lxor, word_bytes_be32 by done.
  unfold double_rand. cbv zeta. rewrite be32_lor by apply u8_range. rewrite word_bytes_be32 by apply u8_range.
  rewrite u8_land_255. unfold slix_unmask, lo8, hi8. by rewrite !u8_land_255.
Qed.

Lemma read_be32_mid pre b0 b1 b2 b3 l n : n = len pre → bytes [b0; b1; b2; b3] →
  slix_listener_read_be32 (pre ++ b0 :: b1 :: b2 :: b3 :: l) n = Some (be32 b0 b1 b2 b3).
Proof.
  intros -> Hb. inv_bytes. unfold slix_listener_read_be32. pose proof (len_nonneg pre). rewrite (ld_mid pre b0 _ _ eq_refl).
  rewrite !(ld_app_r pre) by lia.
  change (ld (b0 :: b1 :: b2 :: b3 :: l) 1) with (Some b1). change (ld (b0 :: b1 :: b2 :: b3 :: l) 2) with (Some b2).
  change (ld (b0 :: b1 :: b2 :: b3 :: l) 3) with (Some b3). mred. by rewrite be32_lor.
Qed.

Lemma check_password_eq s type w : slix_state_ok s → 0 <= type <= 5 →
  slix_listener_check_password type w s =
  Some (if slix_accepts (sx_model s) type (word_bytes w) then (true, sx_with_match (<[Z.to_nat type := true]> (sx_match s)) s) else (false, s)).
Proof.
  intros [[_ Hc Hp _ _ _] _ Hm _ _] Ht. unfold SLIX_PASSWORD_SIZE, SLIX_PASSWORD_COUNT in *. change (Z.to_nat 5) with 5%nat in Hc.
  unfold slix_listener_check_password, slix_accepts, SLIX_PASSWORD_COUNT. case_bool; bool_prop.
  { by rewrite (proj2 (Z.ltb_ge type 5)) by lia. }
  rewrite (proj2 (Z.ltb_lt type 5)) by lia. cbn [andb]. rewrite run_gets.
  assert (∀ b : bool, (set_match type ;; mret b) s = Some (b, sx_with_match (<[Z.to_nat type := true]> (sx_match s)) s)) as Hset.
  { intros b. unfold set_match. rewrite run_bind, run_gets. cbn [id]. rewrite st_ok by (unfold len; lia). done. }
  case_bool; bool_prop; cbn [orb]; [by rewrite Hset|].
  destruct (lookup_lt_is_Some_2 (x_passwords (sx_model s)) (Z.to_nat type)) as [p Hpt]; [lia|].
  pose proof (Forall_lookup_1 _ _ _ _ Hp Hpt) as Hpl. cbn in Hpl.
  rewrite (ld_eq (x_passwords (sx_model s)) type p) by (done || lia). rewrite run_lift_Some, Hpt.
  set (pw := [_; _; _; _]). assert (pw = word_bytes w) as ->.
  { unfold pw, word_bytes. change 0xFF with (Z.ones 8). unfold u8. by rewrite !Z.land_ones, !Z.mod_mod by done. }
  rewrite memcmp_whole by done. rewrite run_lift_Some. case_bool; bool_prop.
  - rewrite bool_decide_true by (by f_equal). by rewrite Hset.
  - rewrite bool_decide_false by congruence. done.
Qed.

Lemma unlock_ok s type : slix_state_ok s → slix_state_ok (sx_with_match (<[Z.to_nat type := true]> (sx_match s)) s).
Proof. intros []. constructor; try done. cbn. by rewrite length_insert. Qed.

Lemma clear_privacy_ok s : slix_state_ok s → slix_state_ok (sx_with_model (sx_clear_privacy (sx_model s)) s).
Proof. intros [[]]. by constructor. Qed.

(** Sending the positive answer. *)
Lemma send_ok_becomes s : slix_state_ok s →
  becomes (offset ← resp_put 0 0; s ← gets id; slix_listener_send u (resp s) offset) s (sc_send [0] (sx_abs s)).
Proof.
  intros Hs. pose proof Hs as [_ Hr _ _ _]. change (len (resp s) = 256) in Hr. apply becomes_sent; [done|].
  unfold does, slix_listener_send. rewrite run_resp_first by lia. apply (send_does u Hu); [by bytes_list|done|lia].
Qed.

Lemma set_password_becomes s pre args junk : slix_state_ok s → bytes args →
  becomes (slix_listener_handle_set_password u (pre ++ args ++ junk) (len pre) (len args)) s
    (slix_reply (sx_abs s) SLIX_CMD_SET_PASSWORD args).
Proof.
  intros Hs Hb. unfold slix_listener_handle_set_password, SLIX_PASSWORD_SIZE.
  destruct args as [|i [|b0 [|b1 [|b2 [|b3 args]]]]]; try by apply becomes_nothing.
  pose proof (len_nonneg args). rewrite (proj2 (Z.ltb_ge _ _)) by llia. cbn [app].
  assert (bytes [b0; b1; b2; b3]) as Hw by (inv_bytes; by bytes_list).
  set (type := slix_password_type i). pose proof (password_type_range i) as Ht. fold type in Ht.
  set (w := slix_listener_unxor_password (be32 b0 b1 b2 b3) (sx_random s)). pose proof (check_password_eq s type w Hs Ht) as Hchk.
  unfold w in Hchk at 2. rewrite unxor_bytes in Hchk by exact Hw. set (pw := slix_unmask _ _) in Hchk.
  eapply becomes_call.
  { rewrite (ld_mid pre i (b0 :: b1 :: b2 :: b3 :: args ++ junk) _ eq_refl), run_lift_Some. cbv zeta.
    pose proof (read_be32_mid (pre ++ [i]) b0 b1 b2 b3 (args ++ junk) (len pre + 1) ltac:(llia) Hw) as Hr.
    rewrite <-(assoc_L (++)) in Hr. cbn [app] in Hr. rewrite Hr, run_lift_Some, run_gets, type_from_id_eq. fold type w. reflexivity. }
  change (slix_reply (sx_abs s) SLIX_CMD_SET_PASSWORD (i :: b0 :: b1 :: b2 :: b3 :: args))
    with (if slix_accepts (sx_model s) type pw then sc_send [0] (sc_unlock type (sx_abs s)) else sx_abs s).
  destruct (slix_accepts (sx_model s) type pw).
  - set (s1 := sx_with_match (<[Z.to_nat type := true]> (sx_match s)) s) in *.
    eapply becomes_call; [rewrite (run_call _ _ _ _ _ Hchk); reflexivity|]. cbn [negb]. unfold sc_unlock.
    destruct (type =? SLIX_PASSWORD_PRIVACY).
    + eapply becomes_call; [rewrite run_bind, run_gets, run_modify; reflexivity|].
      apply (send_ok_becomes (sx_with_model (sx_clear_privacy (sx_model s1)) s1)). by apply clear_privacy_ok, unlock_ok.
    + eapply becomes_call; [rewrite run_ret; reflexivity|]. apply (send_ok_becomes s1). by apply unlock_ok.
  - eapply becomes_call; [rewrite (run_call _ _ _ _ _ Hchk); reflexivity|]. by apply becomes_nothing.
Qed.

Lemma slix_dispatch_becomes s command pre args junk : slix_state_ok s → bytes args →
  becomes (slix_dispatch u command (pre ++ args ++ junk) (len pre) (len args)) s (slix_reply (sx_abs s) command args).
Proof.
  intros Hs Hb. unfold slix_dispatch, slix_reply. case_bool; [by apply sysinfo_becomes|].
  case_bool; [by apply signature_becomes|]. case_bool; [by apply random_becomes|].
  case_bool; [by apply set_password_becomes|by apply becomes_nothing].
Qed.

Lemma custom_becomes s flags command args junk : slix_state_ok s → bytes args →
  becomes (slix_listener_handle_custom u ((flags :: command :: args) ++ junk) (len (flags :: command :: args)) (slix_addressed flags)) s
    (slix_custom (sx_abs s) flags command args).
Proof.
  intros Hs Hb. unfold slix_listener_handle_custom. destruct args as [|mfg args]; [by apply becomes_nothing|].
  pose proof (len_nonneg args). rewrite (proj2 (Z.ltb_ge _ 3)) by llia. cbn [slix_custom].
  change (ld ((flags :: command :: mfg :: args) ++ junk) 1) with (Some command).
  change (ld ((flags :: command :: mfg :: args) ++ junk) 2) with (Some mfg).
  eapply becomes_call; [by rewrite !run_lift_Some|]. inv_bytes. case_bool; [by apply becomes_nothing|].
  replace (len (flags :: command :: mfg :: args) - 3) with (len args) by llia. cbv zeta. unfold ISO15693_UID_SIZE.
  destruct (slix_addressed flags).
  - case_bool; bool_prop; [by apply becomes_nothing|]. destruct (len_split args 8) as (x & args' & -> & Hx); [lia|].
    rewrite drop_app_length' by (unfold len in *; lia).
    pose proof (slix_dispatch_becomes s command (flags :: command :: mfg :: x) args' junk Hs ltac:(by inv_bytes)) as Hd.
    replace (len (flags :: command :: mfg :: x)) with (3 + 8) in Hd by llia.
    replace (len (x ++ args') - 8) with (len args') by llia. cbn [app] in Hd |- *. by rewrite <-(assoc_L (++)).
  - by apply (slix_dispatch_becomes s command [flags; command; mfg] args junk).
Qed.

(** What is passed to the ISO 15693 listener. *)
Lemma parent_becomes s tx : slix_state_ok s → bytes tx →
  becomes (in_iso (iso15693_3_listener_init (Some (x_parent (sx_model s)))) ;; in_iso (iso15693_3_listener_on_tag_cmd ui (Some tx) (len tx))) s
    (sc_answer (p ← iso_payload tx; iso_answer (x_parent (sx_model s)) p) (sx_abs s)).
Proof.
  intros Hs Hb. pose proof Hs as [[Hp _ _ _ _ _] _ _ _ Hi].
  set (i0 := is_with_initialized true (is_with_model (x_parent (sx_model s)) (sx_iso s))).
  destruct (iso_tag_cmd_does ui Hui i0 tx) as (r & Hr & Hrun); [by intros _; constructor|done|].
  eexists. split.
  { change (in_iso (iso15693_3_listener_init (Some (x_parent (sx_model s)))) s) with (Some (0, sx_with_iso i0 s)).
    unfold mbind, M_bind. cbn [in_iso]. change (in_iso (iso15693_3_listener_init (Some (x_parent (sx_model s)))) s)
      with (Some (0, sx_with_iso i0 s)). cbv beta iota. unfold in_iso. cbn [sx_iso sx_with_iso]. rewrite Hrun. reflexivity. }
  unfold iso_step. change (is_initialized i0) with true. change (is_model i0) with (x_parent (sx_model s)). cbv iota.
  destruct (_ ≫= _) as [a|]; (split; [done|]); destruct Hs; constructor; try done; cbn; by rewrite Hr.
Qed.

Lemma slix_step_becomes s tx : slix_state_ok s → bytes tx →
  becomes (slix_listener_on_tag_cmd u ui (Some tx) (len tx)) s (slix_step (sx_abs s) tx).
Proof.
  intros Hs Hb. unfold slix_listener_on_tag_cmd, slix_step. eapply becomes_call; [by rewrite run_gets|]. cbn [id].
  change (sc_initialized (sx_abs s)) with (sx_initialized s).
  destruct (sx_initialized s) eqn:Hi; cbn [negb orb]; [|by apply becomes_nothing].
  unfold ISO15693_CRC_SIZE, SLIX_LISTENER_BUF_SIZE. pose proof (parent_becomes s tx Hs Hb) as Hparent.
  destruct (frame_cases tx Hb) as [Hl Hp|Hl Hc ->|Hl Hc Hx ->|p crc Hc Htx Hcl Hl Hp].
  - rewrite (proj2 (Z.ltb_lt _ _)) by lia. destruct (iso_payload tx) as [p|]; [|by apply becomes_nothing].
    rewrite (Hp p eq_refl). by apply becomes_nothing.
  - rewrite (proj2 (Z.ltb_ge _ _)) by lia. eapply becomes_call; [by rewrite Hc, run_lift_Some|]. by apply becomes_nothing.
  - rewrite (proj2 (Z.ltb_ge _ _)) by lia. eapply becomes_call; [by rewrite Hc, run_lift_Some|]. cbn [negb].
    rewrite (proj2 (Z.ltb_lt _ _)) by lia. by apply becomes_nothing.
  - rewrite (proj2 (Z.ltb_ge _ _)) by lia. eapply becomes_call; [by rewrite Hc, run_lift_Some|]. cbn [negb].
    rewrite (proj2 (Z.ltb_ge 256 _)) by lia. rewrite Hp in Hparent |- *. destruct Hu as [Hf _].
    pose proof (memcpy_start tx [] (il_frame u) ltac:(lia)) as Hm. rewrite app_nil_r in Hm.
    eapply becomes_call; [by rewrite Hm, run_lift_Some|]. unfold iso15693_3_crc_trim, ISO15693_CRC_SIZE.
    rewrite (proj2 (Z.leb_gt _ _)) by lia. cbv zeta. replace (len tx - 2) with (len p) by (subst tx; llia).
    assert (bytes p) as Hbp by (subst tx; by inv_bytes).
    destruct p as [|flags [|command args]]; [by apply becomes_nothing..|]. pose proof (len_nonneg args).
    rewrite (proj2 (Z.ltb_ge _ 2)) by llia.
    assert (over tx (il_frame u) = (flags :: command :: args) ++ (crc ++ drop (length tx) (il_frame u))) as ->.
    { unfold over. rewrite Htx at 1. by rewrite <-(assoc_L (++)). }
    eapply becomes_call.
    { change (ld ((flags :: command :: args) ++ ?l) 0) with (Some flags).
      change (ld ((flags :: command :: args) ++ ?l) 1) with (Some command). by rewrite !run_lift_Some. }
    cbv zeta. fold (slix_addressed flags).
    change (slix_listener_is_slix_custom command) with (slix_custom_command command). destruct (slix_custom_command command).
    { apply custom_becomes; [done|]. by inv_bytes. }
    change (sc_model (sx_abs s)) with (sx_model s).
    destruct (_ && _); [by apply becomes_nothing|]. exact Hparent.
Qed.

(** The handler given one frame after the other. *)
Fixpoint slix_deliver (txs : list (list Z)) : M slix_state unit :=
  match txs with
  | [] => mret tt
  | tx :: txs => slix_listener_on_tag_cmd u ui (Some tx) (len tx) ;; slix_deliver txs
  end.

Lemma slix_delivers txs s : slix_state_ok s → Forall bytes txs →
  becomes (slix_deliver txs) s (foldl slix_step (sx_abs s) txs).
Proof.
  intros Hs Hb. revert s Hs. induction Hb as [|tx txs Htx _ IH]; intros s Hs; [by apply becomes_nothing|].
  destruct (slix_step_becomes s tx Hs Htx) as (s1 & Hrun & Ha & Hs1). cbn [slix_deliver foldl]. rewrite <-Ha.
  eapply becomes_call; [|by apply IH]. by rewrite (run_call _ _ _ _ _ Hrun).
Qed.

(** C31: the SLIX listener refines the card described by [slix_step]: whatever frames arrive, well
    formed or not, every one of them is handled inside the arrays, the static variables stay in
    shape, and the model, the passwords given, the random number and the frames sent are those of the
    card after the same frames. *)
Theorem slix_listener_refines txs s : slix_state_ok s → Forall bytes txs →
  ∃ s', slix_deliver txs s = Some (tt, s') ∧ sx_abs s' = foldl slix_step (sx_abs s) txs ∧ slix_state_ok s'.
Proof. apply slix_delivers. Qed.
End SlixFacts.

(** ** Privacy mode *)

(** The kind of password and the masked password that a frame gives. *)
Definition slix_given (tx : list Z) : option (Z * list Z) :=
  p ← iso_payload tx;
  match p with
  | flags :: command :: mfg :: args =>
    if (command =? SLIX_CMD_SET_PASSWORD) && (mfg =? SLIX_NXP_MFG_CODE) then
      match (if slix_addressed flags then drop 8 args else args) with
      | i :: b0 :: b1 :: b2 :: b3 :: _ => Some (slix_password_type i, [b0; b1; b2; b3])
      | _ => None
      end
    else None
  | _ => None
  end.

(** The frame gives the privacy password, masked with the number the card has drawn. *)
Definition gives_privacy (c : slix_card) (tx : list Z) : Prop :=
  ∃ pw, slix_given tx = Some (2, pw) ∧ x_passwords (sc_model c) !! 2%nat = Some (slix_unmask (sc_random c) pw).

(** An inventory request, with whatever mask and further bytes. *)
Definition asks_inventory (tx : list Z) : Prop :=
  ∃ flags args, iso_payload tx = Some (flags :: ISO15693_CMD_INVENTORY :: args).

(** A frame leaves the model alone, or it gives a password that is accepted. *)
Lemma slix_step_model c tx : sc_model (slix_step c tx) = sc_model c ∨
  ∃ type pw, slix_given tx = Some (type, pw) ∧ slix_accepts (sc_model c) type (slix_unmask (sc_random c) pw) = true ∧
    sc_model (slix_step c tx) = sc_model (sc_unlock type c).
Proof.
  unfold slix_step, slix_given. destruct (sc_initialized c); [|by left]. destruct (iso_payload tx) as [[|flags [|command args]]|]; try by left.
  destruct (slix_custom_command command).
  2: { left. destruct (_ && _); [done|]. by destruct (iso_answer _ _). }
  cbn [mbind option_bind]. destruct args as [|mfg args]; [by left|]. cbn [slix_custom].
  destruct (mfg =? SLIX_NXP_MFG_CODE); cbn [negb]; [rewrite andb_true_r|by left].
  assert (∀ args, sc_model (slix_reply c command args) = sc_model c ∨ ∃ type pw,
    (if command =? SLIX_CMD_SET_PASSWORD then match args with
      | i :: b0 :: b1 :: b2 :: b3 :: _ => Some (slix_password_type i, [b0; b1; b2; b3]) | _ => None end else None)
      = Some (type, pw) ∧ slix_accepts (sc_model c) type (slix_unmask (sc_random c) pw) = true ∧
    sc_model (slix_reply c command args) = sc_model (sc_unlock type c)) as Hreply.
  { clear args. intros args. unfold slix_reply. repeat (case_bool; [by left|]). case_bool; [|by left].
    destruct args as [|i [|b0 [|b1 [|b2 [|b3 args]]]]]; try by left. destruct (slix_accepts _ _ _) eqn:Ha; [|by left].
    right. by eexists _, _. }
  destruct (slix_addressed flags); [|exact (Hreply args)].
  destruct (len args <? 8); [by left|exact (Hreply (drop 8 args))].
Qed.

Lemma slix_guarded txs c : x_capabilities (sc_model c) ≠ SLIX_CAP_ACCEPT_ALL → x_privacy_mode (sc_model c) ≠ 0 →
  x_privacy_mode (sc_model (foldl slix_step c txs)) = 0 →
  ∃ pre tx post, txs = pre ++ tx :: post ∧ gives_privacy (foldl slix_step c pre) tx.
Proof.
  revert c. induction txs as [|tx txs IH]; intros c Hcap Hpriv Hend; [done|]. cbn [foldl] in Hend.
  assert (sc_model (slix_step c tx) = sc_model c ∨ gives_privacy c tx) as [Hm|Hg].
  { destruct (slix_step_model c tx) as [Hm|(type & pw & Hgiv & Hacc & Hm)]; [by left|].
    unfold slix_accepts in Hacc. rewrite (proj2 (Z.eqb_neq _ _) Hcap) in Hacc. cbn [orb] in Hacc.
    apply andb_prop in Hacc as [_ Hacc]. apply bool_decide_eq_true in Hacc. unfold sc_unlock in Hm. cbn [sc_model] in Hm.
    destruct (type =? SLIX_PASSWORD_PRIVACY) eqn:Et; bool_prop; [|by left]. subst type. right. by exists pw. }
  - destruct (IH (slix_step c tx)) as (pre & tx' & post & -> & Hg); [by rewrite Hm..|done|].
    by exists (tx :: pre), tx', post.
  - by exists [], tx, txs.
Qed.

(** A card in privacy mode is silent to the inventory. *)
Lemma private_silent c tx : x_privacy_mode (sc_model c) ≠ 0 → asks_inventory tx → slix_step c tx = c.
Proof.
  intros Hp (flags & args & Htx). unfold slix_step. rewrite Htx. rewrite (proj2 (Z.eqb_neq _ _) Hp). by destruct (sc_initialized c).
Qed.

(** C32: privacy mode protects a SLIX card.  Whatever frames an attacker sends to a card in privacy
    mode that does not accept every password, privacy mode is still on afterwards unless one of
    them gave the privacy password itself (password 4 of SET PASSWORD), each byte masked by exclusive or with the two bytes, low
    byte first, of the random number that the card had drawn
    at that point (0 while it has drawn none); and as long as it is on, no inventory request (with any flags, mask and further
    bytes) has an answer. *)
Theorem slix_privacy_guarded u ui txs s s' : iso_locals_ok u → iso_locals_ok ui → slix_state_ok s → Forall bytes txs →
  x_capabilities (sx_model s) ≠ SLIX_CAP_ACCEPT_ALL → x_privacy_mode (sx_model s) ≠ 0 →
  slix_deliver u ui txs s = Some (tt, s') →
  (x_privacy_mode (sx_model s') ≠ 0 ∧
   ∀ tx, bytes tx → asks_inventory tx → ∃ s'',
     slix_listener_on_tag_cmd u ui (Some tx) (len tx) s' = Some (tt, s'') ∧
     is_sent (sx_iso s'') = is_sent (sx_iso s')) ∨
  (∃ pre tx post, txs = pre ++ tx :: post ∧ gives_privacy (foldl slix_step (sx_abs s) pre) tx).
Proof.
  intros Hu Hui Hs Hb Hcap Hpriv Hrun. destruct (slix_delivers u ui Hu Hui txs s Hs Hb) as (s1 & Hrun1 & Ha & Hs1).
  rewrite Hrun in Hrun1. injection Hrun1 as <-. destruct (decide (x_privacy_mode (sx_model s') = 0)) as [H0|H0].
  { right. apply slix_guarded; [done..|]. by rewrite <-Ha. }
  left. split; [done|]. intros tx Htx Hinv.
  destruct (slix_step_becomes u ui Hu Hui s' tx Hs1 Htx) as (s2 & Hrun2 & Ha2 & _).
  exists s2. split; [exact Hrun2|]. change (sc_sent (sx_abs s2) = sc_sent (sx_abs s')). rewrite Ha2.
  by rewrite private_silent.
Qed.
