(* ===== verification/SlixPoller.v ===== *)
(** * SLIX poller ([src/nfc/protocols/slix/slix_poller.c], [slix_poller_i.c])

    Reading an NXP vicinity card and giving it passwords, and what happens when the card is one that
    the SLIX listener emulates. *)

From stdpp Require Import base list numbers option.
From S2P Require Import Prelude Kconfig Transport Service Serial Word32 Crc Response Iso15693 Iso15693Wire Iso15693Listener Session Iso15693Poller Iso15693Loopback SlixListener.

Definition SLIX_TX_MAX : Z := 32.

(** The frame before its CRC, and its length; 0 where there is none. *)
Definition slix_poller_prepare_request (uid : option (list Z)) (command : Z) (skip_uid : bool) (tx : option (list Z)) (tx_max : Z)
    : option (option (list Z) * Z) :=
  match tx with
  | None => Some (None, 0)
  | Some tx =>
    if negb skip_uid && match uid with None => true | Some _ => false end then Some (Some tx, 0) else
    let flags := if negb skip_uid then ISO15693_ADDR_FLAGS else ISO15693_CMD_FLAGS in
    if tx_max <? 3 then Some (Some tx, 0) else
    tx ← st tx 0 flags; tx ← st tx 1 command; tx ← st tx 2 SLIX_NXP_MFG_CODE;
    if negb skip_uid then
      if tx_max <? 3 + ISO15693_UID_SIZE then Some (Some tx, 0) else
      '(tx, uid_len) ← iso15693_3_append_uid_reversed uid tx 3 0; Some (Some tx, 3 + uid_len)
    else Some (Some tx, 3)
  end.

Definition slix_poller_read_be32 : list Z → Z → option Z := slix_listener_read_be32.

Section SlixPoller.
Context {C : Type} (tag_transceive : list Z → M C (Z * list Z)).
(** What the automatic arrays hold before they are written. *)
Context (tx0 : list Z) (parent0 : iso15693_3_data_t).

(** Both are the body of [iso15693_3_poller_send_frame]. *)
Definition slix_poller_transceive : option session → list Z → Z → Z → M C (Z * list Z * list Z * Z) :=
  iso15693_3_poller_send_frame tag_transceive.
Definition slix_poller_transceive_crc : option session → list Z → Z → Z → M C (Z * list Z * list Z * Z) :=
  iso15693_3_poller_send_frame tag_transceive.

(** The return value and [*random_out]. *)
Definition slix_poller_get_random_number (s : option session) (random_out : option Z) : M C (Z * option Z) :=
  match s, random_out with
  | None, _ | _, None => mret (- EINVAL, random_out)
  | Some _, Some _ =>
    '(tx, tx_len) ← lift (slix_poller_prepare_request None SLIX_CMD_GET_RANDOM true (Some tx0) 32);
    if tx_len =? 0 then mret (- EINVAL, random_out) else
    tx ← lift tx;
    '(ret, _, rx, rx_len) ← slix_poller_transceive s tx tx_len 0;
    if negb (ret =? 0) then mret (ret, random_out) else
    if rx_len <? 3 then mret (- EIO, random_out) else
    r1 ← lift (ld rx 1); r2 ← lift (ld rx 2);
    mret (0, Some (le16 r1 r2))
  end.

Definition slix_poller_set_password (s : option session) (uid : option (list Z)) (type : Z) (password : option (list Z)) (random : Z)
    : M C Z :=
  match s, password with
  | None, _ | _, None => mret (- EINVAL)
  | Some _, Some password =>
    let skip_uid := type =? SLIX_PASSWORD_PRIVACY in
    '(tx, tx_len) ← lift (slix_poller_prepare_request uid SLIX_CMD_SET_PASSWORD skip_uid (Some tx0) 32);
    if tx_len =? 0 then mret (- EINVAL) else
    if 32 <? tx_len + 1 + SLIX_PASSWORD_SIZE then mret (- EINVAL) else
    tx ← lift tx;
    tx ← lift (st tx tx_len (u8 (Z.shiftl 1 type)));
    password_word ← lift (slix_poller_read_be32 password 0);
    let xored := Z.lxor password_word (double_rand random) in
    tx ← lift (st tx (tx_len + 1) (u8 (Z.land (shr xored 24) 0xFF))); tx ← lift (st tx (tx_len + 2) (u8 (Z.land (shr xored 16) 0xFF)));
    tx ← lift (st tx (tx_len + 3) (u8 (Z.land (shr xored 8) 0xFF))); tx ← lift (st tx (tx_len + 4) (u8 (Z.land xored 0xFF)));
    '(ret, _, _, _) ← slix_poller_transceive s tx (tx_len + 5) 0; mret ret
  end.

Definition slix_type_has_nxp_sysinfo (type : slix_type_t) : bool := bool_decide (type = SLIX_TYPE_SLIX2).
Definition slix_type_has_signature (type : slix_type_t) : bool := bool_decide (type = SLIX_TYPE_SLIX2).

Definition slix_poller_detect (s : option session) : M C Z :=
  match s with
  | None => mret (- EINVAL)
  | Some ses =>
    if negb (ses_active ses) then mret (- EINVAL) else
    '(ret, parent) ← iso15693_3_poller_inventory tag_transceive tx0 s (Some parent0);
    if negb (ret =? 0) then mret (- ENOTSUP) else
    parent ← lift parent;
    u0 ← lift (ld (v_uid parent) 0);
    if negb (u0 =? 0xE0) then mret (- ENOTSUP) else
    type ← lift (slix_type_from_uid (v_uid parent));
    if bool_decide (type = SLIX_TYPE_UNKNOWN) then mret (- ENOTSUP) else mret 0
  end.

Definition slix_with_type (t : slix_type_t) (d : slix_data_t) : slix_data_t :=
  {| x_parent := x_parent d; x_capabilities := x_capabilities d; x_type := t; x_passwords := x_passwords d;
     x_signature := x_signature d; x_privacy_mode := x_privacy_mode d; x_protection_pointer := x_protection_pointer d;
     x_protection_condition := x_protection_condition d; x_lock_eas := x_lock_eas d; x_lock_ppl := x_lock_ppl d |}.
Definition slix_with_signature (g : list Z) (d : slix_data_t) : slix_data_t :=
  {| x_parent := x_parent d; x_capabilities := x_capabilities d; x_type := x_type d; x_passwords := x_passwords d;
     x_signature := g; x_privacy_mode := x_privacy_mode d; x_protection_pointer := x_protection_pointer d;
     x_protection_condition := x_protection_condition d; x_lock_eas := x_lock_eas d; x_lock_ppl := x_lock_ppl d |}.
Definition slix_with_protection (p c : Z) (d : slix_data_t) : slix_data_t :=
  {| x_parent := x_parent d; x_capabilities := x_capabilities d; x_type := x_type d; x_passwords := x_passwords d;
     x_signature := x_signature d; x_privacy_mode := x_privacy_mode d; x_protection_pointer := p;
     x_protection_condition := c; x_lock_eas := x_lock_eas d; x_lock_ppl := x_lock_ppl d |}.

(** The two blocks of [slix_poller_read] behind the parent: whether it has returned with [-EINVAL], [tx], [rx_len] and [*out]. *)
Definition slix_read_sysinfo (s : option session) (tx : list Z) (d : slix_data_t) : M C (bool * list Z * Z * slix_data_t) :=
  if negb (slix_type_has_nxp_sysinfo (x_type d)) then mret (false, tx, 0, d) else
  '(tx, tx_len) ← lift (slix_poller_prepare_request (Some (v_uid (x_parent d))) SLIX_CMD_GET_NXP_SYSINFO false (Some tx) SLIX_TX_MAX);
  tx ← lift tx;
  if tx_len =? 0 then mret (true, tx, 0, d) else
  '(ret, tx, rx, rx_len) ← slix_poller_transceive_crc s tx tx_len 0;
  if (ret =? 0) && (2 <=? rx_len) then
    p ← lift (ld rx 1);
    if 3 <=? rx_len then c ← lift (ld rx 2); mret (false, tx, rx_len, slix_with_protection p c d)
    else mret (false, tx, rx_len, slix_with_protection p (x_protection_condition d) d)
  else mret (false, tx, rx_len, d).

Definition slix_read_signature (s : option session) (tx : list Z) (rx_len : Z) (d : slix_data_t) : M C (bool * slix_data_t) :=
  if negb (slix_type_has_signature (x_type d)) then mret (false, d) else
  '(tx, tx_len) ← lift (slix_poller_prepare_request (Some (v_uid (x_parent d))) SLIX_CMD_READ_SIGNATURE false (Some tx) SLIX_TX_MAX);
  tx ← lift tx;
  if tx_len =? 0 then mret (true, d) else
  '(ret, _, rx, rx_len) ← slix_poller_transceive_crc s tx tx_len rx_len;
  if ret =? 0 then
    let copy := if SLIX_SIGNATURE_SIZE <? rx_len then SLIX_SIGNATURE_SIZE else rx_len in
    g ← lift (memcpy (x_signature d) 0 rx 0 copy); mret (false, slix_with_signature g d)
  else mret (false, d).

(** The return value and what [out] points to. *)
Definition slix_poller_read (s : option session) (out : option slix_data_t) : M C (Z * option slix_data_t) :=
  match s, out with
  | None, _ | _, None => mret (- EINVAL, out)
  | Some _, Some _ =>
    let d := slix_zero in
    '(ret, parent) ← iso15693_3_poller_read tag_transceive tx0 s (Some (x_parent d));
    parent ← lift parent;
    let d := slix_with_parent parent d in
    if negb (ret =? 0) then mret (ret, Some d) else
    type ← lift (slix_type_from_uid (v_uid (x_parent d)));
    let d := slix_with_type type d in
    if bool_decide (type = SLIX_TYPE_UNKNOWN) then mret (- ENOTSUP, Some d) else
    '(bad, tx, rx_len, d) ← slix_read_sysinfo s tx0 d;
    if bad : bool then mret (- EINVAL, Some d) else
    '(bad, d) ← slix_read_signature s tx rx_len d;
    if bad : bool then mret (- EINVAL, Some d) else mret (0, Some d)
  end.
End SlixPoller.

(** ** Requests *)

Lemma prepare_addressed uid command tx : len uid = 8 → len tx = 32 →
  slix_poller_prepare_request (Some uid) command false (Some tx) 32 =
  Some (Some (over ([ISO15693_ADDR_FLAGS; command; SLIX_NXP_MFG_CODE] ++ reverse uid) tx), 11).
Proof.
  intros Hu Hl. unfold slix_poller_prepare_request. cbn [negb andb]. change (32 <? 3) with false. cbv iota.
  rewrite st_first by lia. mred. rewrite st_next by llia. mred. rewrite st_next by llia. mred. cbn [app].
  change (32 <? 3 + ISO15693_UID_SIZE) with false. cbv iota. unfold over.
  set (k := [ISO15693_ADDR_FLAGS; command; SLIX_NXP_MFG_CODE]).
  assert (length (reverse uid) = 8%nat) as Hr by (rewrite length_reverse; unfold len in Hu; lia).
  pose proof (append_uid_eq uid k (drop (length k) tx) 0 Hu ltac:(unfold k; llia)) as Ha. change (len k) with 3 in Ha. rewrite Ha. mred.
  rewrite drop_drop. unfold k. cbn [length app]. by rewrite Hr.
Qed.

Lemma prepare_open uid command tx : len tx = 32 →
  slix_poller_prepare_request uid command true (Some tx) 32 =
  Some (Some (over [ISO15693_CMD_FLAGS; command; SLIX_NXP_MFG_CODE] tx), 3).
Proof.
  intros Hl. unfold slix_poller_prepare_request. cbn [negb andb]. change (32 <? 3) with false. cbv iota.
  rewrite st_first by lia. mred. rewrite st_next by llia. mred. by rewrite st_next by llia.
Qed.

(** ** In front of the SLIX listener *)

Definition slix_link (u ui : iso_locals) : list Z → M slix_state (Z * list Z) :=
  link (λ f, slix_listener_on_tag_cmd u ui (Some f) (len f)).

Definition slix_shows (m : slix_data_t) (s : slix_state) : Prop :=
  slix_state_ok s ∧ sx_initialized s = true ∧ sx_model s = m.

Section SlixLoopback.
Context (u ui : iso_locals) (Hu : iso_locals_ok u) (Hui : iso_locals_ok ui).
Context (tx0 : list Z) (Htx0 : len tx0 = 32 ∧ bytes tx0) (ses : session) (Hses : ses_active ses = true).

Lemma slix_link_run p l s : slix_state_ok s → bytes p →
  sc_sent (slix_step (sx_abs s) (iso15693_frame p)) = sc_sent (sx_abs s) ++ l →
  ∃ s', slix_link u ui (iso15693_frame p) s = Some (match l with b :: _ => (0, b) | [] => (- ETIMEDOUT, []) end, s') ∧
    sx_abs s' = slix_step (sx_abs s) (iso15693_frame p) ∧ slix_state_ok s'.
Proof.
  intros Hs Hb Hl. destruct (slix_step_becomes u ui Hu Hui s (iso15693_frame p) Hs) as (s' & Hrun & Ha & Hs'); [by apply frame_bytes|].
  exists s'. split; [|done]. apply (run_link_sent _ _ l s s' Hrun).
  change (sc_sent (sx_abs s') = sc_sent (sx_abs s) ++ l). by rewrite Ha.
Qed.

(** What the frame of a short request does to the card. *)
Lemma slix_step_frame c flags command args : sc_initialized c = true → bytes (flags :: command :: args) → len args <= 250 →
  slix_step c (iso15693_frame (flags :: command :: args)) =
  if slix_custom_command command then slix_custom c flags command args else
  if negb (x_privacy_mode (sc_model c) =? 0) && (command =? ISO15693_CMD_INVENTORY) then c else
  sc_answer (iso_answer (x_parent (sc_model c)) (flags :: command :: args)) c.
Proof. intros Hi Hb Hl. unfold slix_step. by rewrite Hi, iso_payload_frame by (done || llia). Qed.

(** Outside privacy mode the card answers the standard requests as its ISO 15693 part. *)
#[local] Instance slix_listener_card m : slix_ok m → x_privacy_mode m = 0 →
  VicinityCard (slix_link u ui) (x_parent m) (slix_shows m).
Proof.
  intros Hm Hp. constructor. intros s p (Hs & Hi & Hsm) Hb Hst Hl. destruct p as [|flags [|command args]]; [done..|].
  assert (slix_step (sx_abs s) (iso15693_frame (flags :: command :: args)) =
    sc_answer (iso_answer (x_parent m) (flags :: command :: args)) (sx_abs s)) as Hstep.
  { rewrite slix_step_frame by (done || llia). change (sc_model (sx_abs s)) with (sx_model s). rewrite Hsm, Hp.
    cbn in Hst. unfold slix_custom_command, SLIX_CMD_CUSTOM_START. by rewrite (proj2 (Z.leb_gt _ _)). }
  destruct (slix_link_run (flags :: command :: args) (match iso_answer (x_parent m) (flags :: command :: args) with
    Some r => [iso15693_frame r] | None => [] end) s Hs Hb) as (s' & Hrun & Ha & Hs').
  { rewrite Hstep. destruct (iso_answer _ _); [done|]. by rewrite app_nil_r. }
  assert (slix_shows m s') as Hs2.
  { split; [done|]. rewrite Hstep in Ha. change (sc_initialized (sx_abs s') = true ∧ sc_model (sx_abs s') = m). rewrite Ha.
    by destruct (iso_answer _ _). }
  destruct (iso_answer _ _) as [r|]; eexists _, _, s'; (split; [exact Hrun|]); done.
Qed.

(** A manufacturer's command of the poller that the card answers, and one it does not. *)
Lemma slix_exchange p tx n n0 s c : slix_state_ok s → bytes p → p ≠ [] → len tx = 32 → n = len p → len p <= 30 →
  slix_step (sx_abs s) (iso15693_frame p) = c →
  (∀ r, sc_sent c = sc_sent (sx_abs s) ++ [iso15693_frame r] → bytes r → r ≠ [] → len r <= 253 →
    ∃ s', iso15693_3_poller_send_frame (slix_link u ui) (Some ses) (over p tx) n n0 s =
      Some ((0, over (iso15693_frame p) tx, iso15693_frame r, len r), s') ∧ sx_abs s' = c ∧ slix_state_ok s') ∧
  (sc_sent c = sc_sent (sx_abs s) →
    ∃ rx s', iso15693_3_poller_send_frame (slix_link u ui) (Some ses) (over p tx) n n0 s =
      Some ((- ETIMEDOUT, over (iso15693_frame p) tx, rx, n0), s') ∧ sx_abs s' = c ∧ slix_state_ok s').
Proof.
  intros Hs Hb Hp Htx Hn Hl Hstep. split.
  - intros r Hr Hrb Hrn Hrl. destruct (slix_link_run p [iso15693_frame r] s Hs Hb) as (s' & Hrun & Ha & Hs'); [by rewrite Hstep|].
    exists s'. split; [by apply send_frame_answered|]. by rewrite Ha.
  - intros Hr. destruct (slix_link_run p [] s Hs Hb) as (s' & Hrun & Ha & Hs'); [by rewrite Hstep, app_nil_r|].
    exists [], s'. split; [by apply send_frame_failed|]. by rewrite Ha.
Qed.

(** *** Passwords *)

Lemma double_rand_word r : is_word (double_rand r).
Proof.
  unfold double_rand. cbv zeta. rewrite be32_lor by apply u8_range. apply be32_word; apply u8_range.
Qed.

Lemma type_from_own_id type : 0 <= type < 5 → slix_password_type (u8 (Z.shiftl 1 type)) = type ∧ is_byte (u8 (Z.shiftl 1 type)).
Proof.
  intros Ht. split; [|apply u8_range]. assert (type = 0 ∨ type = 1 ∨ type = 2 ∨ type = 3 ∨ type = 4) as Hc by lia.
  by repeat destruct Hc as [->|Hc]; subst.
Qed.

Lemma get_random_runs m s : slix_shows m s →
  ∃ s1, slix_poller_get_random_number (slix_link u ui) tx0 (Some ses) (Some 0) s = Some ((0, Some (slix_draw m)), s1) ∧
    slix_state_ok s1 ∧ sx_abs s1 = sc_send [0; lo8 (slix_draw m); hi8 (slix_draw m)] (sc_draw (slix_draw m) (sx_abs s)).
Proof.
  intros (Hs & Hi & Hm). destruct Htx0 as [Hl Hb0]. pose proof (lo8_range (slix_draw m)). pose proof (hi8_range (slix_draw m)).
  set (c := sc_send [0; lo8 (slix_draw m); hi8 (slix_draw m)] (sc_draw (slix_draw m) (sx_abs s))).
  set (p := [ISO15693_CMD_FLAGS; SLIX_CMD_GET_RANDOM; SLIX_NXP_MFG_CODE]). assert (bytes p) as Hp by by bytes_list.
  assert (slix_step (sx_abs s) (iso15693_frame p) = c) as Hstep.
  { unfold p. rewrite slix_step_frame by done. unfold c. by rewrite <-Hm. }
  destruct (slix_exchange p tx0 3 0 s c) as [Hans _]; [done..|].
  destruct (Hans [0; lo8 (slix_draw m); hi8 (slix_draw m)]) as (s1 & Hrun & Ha & Hs1); [done|by bytes_list|done..|].
  exists s1. split; [|by split]. unfold slix_poller_get_random_number. rewrite prepare_open by done. rewrite run_lift_Some.
  change (3 =? 0) with false. cbv iota. rewrite run_lift_Some. unfold slix_poller_transceive. rewrite (run_call _ _ _ _ _ Hrun).
  cbn [Z.eqb negb]. change (len [0; lo8 (slix_draw m); hi8 (slix_draw m)] <? 3) with false. cbv iota.
  destruct (frame_two [0; lo8 (slix_draw m); hi8 (slix_draw m)]) as (x & y & ->). cbn [app].
  change (ld (0 :: lo8 (slix_draw m) :: ?l) 1) with (Some (lo8 (slix_draw m))).
  change (ld (0 :: lo8 (slix_draw m) :: hi8 (slix_draw m) :: ?l) 2) with (Some (hi8 (slix_draw m))).
  rewrite !run_lift_Some. by rewrite le16_split by (unfold slix_draw; apply u16_range).
Qed.

(** The request that gives the password [w]. *)
Definition password_request (uid : list Z) (type w : Z) : list Z :=
  (if type =? SLIX_PASSWORD_PRIVACY then [ISO15693_CMD_FLAGS; SLIX_CMD_SET_PASSWORD; SLIX_NXP_MFG_CODE]
   else [ISO15693_ADDR_FLAGS; SLIX_CMD_SET_PASSWORD; SLIX_NXP_MFG_CODE] ++ reverse uid) ++ u8 (Z.shiftl 1 type) :: word_bytes w.

Lemma password_request_ok uid type w : len uid = 8 → bytes uid →
  bytes (password_request uid type w) ∧ password_request uid type w ≠ [] ∧ len (password_request uid type w) <= 16.
Proof.
  intros Hul Hub. assert (length (reverse uid) = 8%nat) as Hr by (rewrite length_reverse; unfold len in Hul; lia).
  assert (bytes (u8 (Z.shiftl 1 type) :: word_bytes w)) as Hb by (pose proof u8_range; unfold word_bytes; by bytes_list).
  unfold password_request. case_bool; [by split; [apply bytes_app; split; [by bytes_list|]|]|].
  split; [|split; [done|unfold len; rewrite !length_app, Hr; done]].
  rewrite !bytes_app. split; [split; [by bytes_list|by apply Forall_reverse]|done].
Qed.

Lemma password_request_steps uid type w c : len uid = 8 → bytes uid → 0 <= type < 5 → is_word w → sc_initialized c = true →
  slix_step c (iso15693_frame (password_request uid type w)) =
  if slix_accepts (sc_model c) type (slix_unmask (sc_random c) (word_bytes w)) then sc_send [0] (sc_unlock type c) else c.
Proof.
  intros Hul Hub Ht Hw Hi. destruct (type_from_own_id type Ht) as [Htype Hbyte].
  assert (length (reverse uid) = 8%nat) as Hr by (rewrite length_reverse; unfold len in Hul; lia).
  assert (bytes (u8 (Z.shiftl 1 type) :: word_bytes w)) as Hb by (pose proof u8_range; unfold word_bytes; by bytes_list).
  assert (bytes (reverse uid)) as Hrb by by apply Forall_reverse.
  unfold password_request. destruct (type =? SLIX_PASSWORD_PRIVACY).
  - cbn [app]. rewrite slix_step_frame; [|done|by bytes_list; inv_bytes|done].
    change (slix_custom_command SLIX_CMD_SET_PASSWORD) with true. cbv iota.
    unfold slix_custom, slix_reply. cbn [Z.eqb]. change (slix_addressed ISO15693_CMD_FLAGS) with false.
    cbn -[slix_password_type u8 Z.shiftl be32 shr slix_accepts slix_unmask]. by rewrite Htype.
  - cbn [app]. rewrite slix_step_frame; [|done| |unfold len; cbn; rewrite length_app, Hr; done].
    2: { repeat (apply Forall_cons_2; [done|]). by apply bytes_app. }
    change (slix_custom_command SLIX_CMD_SET_PASSWORD) with true. cbv iota. unfold slix_custom.
    change (slix_addressed ISO15693_ADDR_FLAGS) with true. cbn [negb]. change (SLIX_NXP_MFG_CODE =? SLIX_NXP_MFG_CODE) with true. cbn [negb].
    rewrite (proj2 (Z.ltb_ge _ _)) by (unfold len; rewrite length_app, Hr; lia). rewrite drop_app_length' by done.
    unfold slix_reply, word_bytes. change (SLIX_CMD_SET_PASSWORD =? SLIX_CMD_GET_NXP_SYSINFO) with false.
    change (SLIX_CMD_SET_PASSWORD =? SLIX_CMD_READ_SIGNATURE) with false. change (SLIX_CMD_SET_PASSWORD =? SLIX_CMD_GET_RANDOM) with false.
    change (SLIX_CMD_SET_PASSWORD =? SLIX_CMD_SET_PASSWORD) with true. cbv iota zeta. by rewrite Htype.
Qed.

Lemma set_password_sends {C} (tag : list Z → M C (Z * list Z)) uid type pw r w c ret tx' rx n c' :
  len uid = 8 → 0 <= type < 5 → bytes pw → len pw = 4 →
  w = Z.lxor (default 0 (slix_poller_read_be32 pw 0)) (double_rand r) → is_word w →
  iso15693_3_poller_send_frame tag (Some ses) (over (password_request uid type w) tx0) (len (password_request uid type w)) 0 c =
    Some ((ret, tx', rx, n), c') →
  slix_poller_set_password tag tx0 (Some ses) (Some uid) type (Some pw) r c = Some (ret, c').
Proof.
  intros Hu8 Ht Hb Hpw Hw Hww Hrun. destruct Htx0 as [Hl _]. unfold slix_poller_set_password. cbv zeta.
  assert (length (reverse uid) = 8%nat) as Hr by (rewrite length_reverse; unfold len in Hu8; lia).
  destruct (len_split pw 4) as (x & l & Hpwx & Hx); [lia|].
  assert (slix_poller_read_be32 pw 0 = Some (default 0 (slix_poller_read_be32 pw 0))) as Hrd.
  { destruct pw as [|a [|b [|e [|f []]]]]; done. }
  set (pre := if type =? SLIX_PASSWORD_PRIVACY then [ISO15693_CMD_FLAGS; SLIX_CMD_SET_PASSWORD; SLIX_NXP_MFG_CODE]
              else [ISO15693_ADDR_FLAGS; SLIX_CMD_SET_PASSWORD; SLIX_NXP_MFG_CODE] ++ reverse uid).
  assert (slix_poller_prepare_request (Some uid) SLIX_CMD_SET_PASSWORD (type =? SLIX_PASSWORD_PRIVACY) (Some tx0) 32 =
    Some (Some (over pre tx0), len pre)) as ->.
  { unfold pre. destruct (type =? SLIX_PASSWORD_PRIVACY); [by apply prepare_open|]. rewrite prepare_addressed by done.
    f_equal. f_equal. unfold len. rewrite length_app, Hr. done. }
  assert (3 <= len pre <= 11) as Hpre by (unfold pre; case_bool; [done|unfold len; rewrite length_app, Hr; done]).
  rewrite run_lift_Some. rewrite (proj2 (Z.eqb_neq _ 0)) by lia. unfold SLIX_PASSWORD_SIZE.
  rewrite (proj2 (Z.ltb_ge 32 _)) by lia. rewrite run_lift_Some. rewrite st_next by lia. rewrite run_lift_Some.
  rewrite Hrd, run_lift_Some, !u8_land_255, <-Hw.
  do 4 (rewrite st_next by llia; rewrite run_lift_Some). rewrite <-!(assoc_L (++)). cbn [app].
  unfold slix_poller_transceive. unfold password_request, word_bytes in Hrun. fold pre in Hrun.
  replace (len pre + 5) with (len (pre ++ [u8 (Z.shiftl 1 type); u8 (shr w 24); u8 (shr w 16); u8 (shr w 8); u8 w])) by llia.
  by rewrite (run_call _ _ _ _ _ Hrun).
Qed.

(** A reader gets into a SLIX card with the right password and with no other.  The poller's
    request for a random number is answered by the listener, and the password it then sends, masked
    with that number, is accepted exactly when it is the password of that type in the model (or the
    model accepts every password): then the answer is positive, the password counts as given, and the
    privacy password ends privacy mode; otherwise there is no answer, the poller reports the timeout,
    and the card is as before. *)
Theorem slix_poller_unlocks m uid type pw s : slix_safe m → slix_shows m s → 0 <= type < 5 → len pw = 4 → bytes pw → len uid = 8 → bytes uid →
  let ok := (x_capabilities m =? SLIX_CAP_ACCEPT_ALL) || bool_decide (x_passwords m !! Z.to_nat type = Some pw) in
  ∃ r s1 s2, slix_poller_get_random_number (slix_link u ui) tx0 (Some ses) (Some 0) s = Some ((0, Some r), s1) ∧
    slix_poller_set_password (slix_link u ui) tx0 (Some ses) (Some uid) type (Some pw) r s1 = Some (if ok then 0 else - ETIMEDOUT, s2) ∧
    slix_state_ok s2 ∧ sx_initialized s2 = true ∧
    sx_match s2 = (if ok then <[Z.to_nat type := true]> (sx_match s) else sx_match s) ∧
    sx_model s2 = if ok && (type =? SLIX_PASSWORD_PRIVACY) then sx_clear_privacy m else m.
Proof.
  intros Hm Hs Ht Hpw Hpb Hul Hub ok. destruct (get_random_runs m s Hs) as (s1 & Hrun1 & Hs1 & Ha1).
  destruct Hs as (Hs & Hi & Hsm). exists (slix_draw m), s1.
  destruct pw as [|b0 [|b1 [|b2 [|b3 []]]]]; try (exfalso; unfold len in Hpw; cbn in Hpw; lia). inv_bytes.
  set (w := Z.lxor (be32 b0 b1 b2 b3) (double_rand (slix_draw m))).
  assert (is_word w) as Hw by (apply word_lxor; [by apply be32_word|apply double_rand_word]).
  pose proof (password_request_steps uid type w (sx_abs s1) Hul Hub Ht Hw) as Hstep.
  rewrite Ha1 in Hstep. specialize (Hstep Hi). cbn [sc_model sc_random sc_send sc_draw] in Hstep.
  change (sc_model (sx_abs s)) with (sx_model s) in Hstep. rewrite Hsm in Hstep.
  assert (slix_unmask (slix_draw m) (word_bytes w) = [b0; b1; b2; b3]) as Hun.
  { pose proof (u8_range (shr w 24)). pose proof (u8_range (shr w 16)). pose proof (u8_range (shr w 8)). pose proof (u8_range w).
    unfold word_bytes. rewrite <-unxor_bytes by by bytes_list. fold (word_bytes w). rewrite be32_word_bytes by done.
    unfold slix_listener_unxor_password, w. rewrite lxor_twice. by apply word_bytes_be32. }
  rewrite Hun in Hstep.
  assert (slix_accepts m type [b0; b1; b2; b3] = ok) as Hok.
  { unfold slix_accepts. by rewrite (proj2 (Z.ltb_lt type 5)) by lia. }
  rewrite Hok, <-Ha1 in Hstep. destruct (password_request_ok uid type w Hul Hub) as (Hpb' & Hpn & Hpl).
  destruct (slix_exchange (password_request uid type w) tx0 _ 0 s1 _ Hs1 Hpb' Hpn (proj1 Htx0) eq_refl ltac:(lia) Hstep) as [Hyes Hno].
  assert (∀ ret tx' rx n s2, iso15693_3_poller_send_frame (slix_link u ui) (Some ses) (over (password_request uid type w) tx0)
      (len (password_request uid type w)) 0 s1 = Some ((ret, tx', rx, n), s2) →
    slix_poller_set_password (slix_link u ui) tx0 (Some ses) (Some uid) type (Some [b0; b1; b2; b3]) (slix_draw m) s1 = Some (ret, s2)) as Hset.
  { intros ret tx' rx n s2 Hrun. eapply set_password_sends; [done..|by bytes_list|done| |exact Hw|exact Hrun].
    pose proof (read_be32_mid [] b0 b1 b2 b3 [] 0 eq_refl ltac:(by bytes_list)) as Hrd. cbn [app] in Hrd.
    unfold w, slix_poller_read_be32. by rewrite Hrd. }
  destruct ok; cbn [andb].
  - destruct (Hyes [0]) as (s2 & Hrun & Ha2 & Hs2); [by rewrite Ha1|by bytes_list|done..|]. exists s2.
    split; [done|]. split; [by eapply Hset|]. split; [done|].
    change (sx_initialized s2) with (sc_initialized (sx_abs s2)). change (sx_match s2) with (sc_match (sx_abs s2)).
    change (sx_model s2) with (sc_model (sx_abs s2)). rewrite Ha2, Ha1. cbn. by rewrite Hsm.
  - destruct Hno as (rx & s2 & Hrun & Ha2 & Hs2); [done|]. exists s2.
    split; [done|]. split; [by eapply Hset|]. split; [done|].
    change (sx_initialized s2) with (sc_initialized (sx_abs s2)). change (sx_match s2) with (sc_match (sx_abs s2)).
    change (sx_model s2) with (sc_model (sx_abs s2)). rewrite Ha2, Ha1. done.
Qed.

(** *** Reading *)

(** An addressed request for data that the card answers with [r]. *)
Lemma slix_query m uid command r tx n0 s : slix_shows m s → len uid = 8 → bytes uid → is_byte command → len tx = 32 →
  slix_custom_command command = true →
  slix_reply (sx_abs s) command [] = sc_send r (sx_abs s) → command ≠ SLIX_CMD_SET_PASSWORD → bytes r → r ≠ [] → len r <= 253 →
  ∃ tx' s', iso15693_3_poller_send_frame (slix_link u ui) (Some ses)
      (over ([ISO15693_ADDR_FLAGS; command; SLIX_NXP_MFG_CODE] ++ reverse uid) tx) 11 n0 s =
    Some ((0, tx', iso15693_frame r, len r), s') ∧ len tx' = 32 ∧ slix_shows m s'.
Proof.
  intros (Hs & Hi & Hm) Hul Hub Hc Htx Hcust Hrep Hne Hrb Hrn Hrl.
  assert (length (reverse uid) = 8%nat) as Hr by (rewrite length_reverse; unfold len in Hul; lia).
  set (p := [ISO15693_ADDR_FLAGS; command; SLIX_NXP_MFG_CODE] ++ reverse uid).
  assert (len p = 11) as Hpl by (unfold p, len; rewrite length_app, Hr; done).
  assert (bytes p) as Hpb by (apply bytes_app; split; [by bytes_list|by apply Forall_reverse]).
  assert (slix_step (sx_abs s) (iso15693_frame p) = sc_send r (sx_abs s)) as Hstep.
  { unfold p. cbn [app]. rewrite slix_step_frame; [|done|done|unfold len; cbn; rewrite Hr; done]. rewrite Hcust. unfold slix_custom.
    change (slix_addressed ISO15693_ADDR_FLAGS) with true. change (SLIX_NXP_MFG_CODE =? SLIX_NXP_MFG_CODE) with true. cbn [negb].
    rewrite (proj2 (Z.ltb_ge _ _)) by (unfold len; rewrite Hr; lia). by rewrite drop_ge by lia. }
  destruct (slix_exchange p tx 11 n0 s _ Hs Hpb ltac:(done) Htx ltac:(lia) ltac:(lia) Hstep) as [Hyes _].
  destruct (Hyes r eq_refl Hrb Hrn Hrl) as (s' & Hrun & Ha & Hs').
  exists (over (iso15693_frame p) tx), s'. split; [exact Hrun|].
  split; [rewrite over_len; [done|unfold iso15693_frame; rewrite frame_len; lia]|]. split; [done|].
  change (sc_initialized (sx_abs s') = true ∧ sc_model (sx_abs s') = m). by rewrite Ha.
Qed.

Definition slix_image (m : slix_data_t) : Z * slix_data_t :=
  let p := slix_with_parent (iso_image (x_parent m)) slix_zero in
  if negb (x_privacy_mode m =? 0) then (- ETIMEDOUT, slix_zero) else
  if 32 <? v_block_count (x_parent m) then (- EIO, p) else
  match x_type m with
  | SLIX_TYPE_UNKNOWN => (- ENOTSUP, p)
  | SLIX_TYPE_SLIX2 =>
    (0, slix_with_signature (take 32 (0 :: x_signature m))
          (slix_with_protection (x_protection_pointer m) (x_protection_condition m) (slix_with_type SLIX_TYPE_SLIX2 p)))
  | t => (0, slix_with_type t p)
  end.

Lemma sysinfo_reads m d s : slix_ok m → slix_shows m s → len (v_uid (x_parent d)) = 8 → bytes (v_uid (x_parent d)) →
  x_type d = SLIX_TYPE_SLIX2 → ∃ tx n s',
  slix_read_sysinfo (slix_link u ui) (Some ses) tx0 d s =
    Some ((false, tx, n, slix_with_protection (x_protection_pointer m) (x_protection_condition m) d), s') ∧ len tx = 32 ∧ slix_shows m s'.
Proof.
  intros Hm Hs Hul Hub Ht. pose proof Hm as []. inv_bytes. destruct Htx0 as [Hl _].
  set (r := [0; x_protection_pointer m; x_protection_condition m; slix_locks m; 2; 0; 0; 0]).
  assert (is_byte (slix_locks m)) by (unfold slix_locks; repeat destruct (_ =? 0); done).
  destruct (slix_query m (v_uid (x_parent d)) SLIX_CMD_GET_NXP_SYSINFO r tx0 0 s) as (tx' & s' & Hrun & Hl' & Hs'); try done.
  { destruct Hs as (_ & _ & <-). done. }
  { by bytes_list. }
  exists tx', (len r), s'. split; [|done]. unfold slix_read_sysinfo, slix_type_has_nxp_sysinfo. rewrite bool_decide_true by done. cbn [negb].
  unfold SLIX_TX_MAX. rewrite prepare_addressed by done. rewrite !run_lift_Some. change (11 =? 0) with false. cbv iota.
  unfold slix_poller_transceive_crc. rewrite (run_call _ _ _ _ _ Hrun). change (len r) with 8.
  change ((0 =? 0) && (2 <=? 8)) with true. change (3 <=? 8) with true. cbv iota.
  destruct (frame_two r) as (x & y & ->). unfold r. cbn [app].
  change (ld (0 :: x_protection_pointer m :: ?l) 1) with (Some (x_protection_pointer m)).
  change (ld (0 :: x_protection_pointer m :: x_protection_condition m :: ?l) 2) with (Some (x_protection_condition m)).
  rewrite run_lift_Some. by rewrite run_lift_Some.
Qed.

Lemma slix_signature_reads m tx n d s : slix_ok m → slix_shows m s → len (v_uid (x_parent d)) = 8 → bytes (v_uid (x_parent d)) →
  len tx = 32 → len (x_signature d) = 32 → x_type d = SLIX_TYPE_SLIX2 → ∃ s',
  slix_read_signature (slix_link u ui) (Some ses) tx n d s = Some ((false, slix_with_signature (take 32 (0 :: x_signature m)) d), s') ∧
  slix_shows m s'.
Proof.
  intros Hm Hs Hul Hub Hl Hsl Ht. pose proof Hm as [_ _ _ _ _ Hsig Hsb _]. unfold SLIX_SIGNATURE_SIZE in *.
  destruct (slix_query m (v_uid (x_parent d)) SLIX_CMD_READ_SIGNATURE (0 :: x_signature m) tx n s) as (tx' & s' & Hrun & _ & Hs'); try done.
  { destruct Hs as (_ & _ & <-). done. }
  { by apply Forall_cons_2. }
  { llia. }
  exists s'. split; [|done]. unfold slix_read_signature, slix_type_has_signature. rewrite bool_decide_true by done. cbn [negb].
  unfold SLIX_TX_MAX. rewrite prepare_addressed by done. rewrite !run_lift_Some. change (11 =? 0) with false. cbv iota.
  unfold slix_poller_transceive_crc. rewrite (run_call _ _ _ _ _ Hrun). cbn [Z.eqb].
  rewrite (proj2 (Z.ltb_lt SLIX_SIGNATURE_SIZE _)) by (unfold SLIX_SIGNATURE_SIZE; llia). cbv zeta.
  destruct (len_split (0 :: x_signature m) 32) as (g & rest & Hg & Hgl); [llia|]. rewrite Hg.
  unfold iso15693_frame, frame. rewrite <-(assoc_L (++)), (memcpy_field _ _ 0 32 g) by (done || by apply sub_prefix).
  rewrite run_lift_Some. by rewrite take_app_length' by (unfold len in Hgl; lia).
Qed.

(** A card in privacy mode does not answer the inventory. *)
Lemma private_inventory m x s : slix_shows m s → x_privacy_mode m ≠ 0 → ∃ s',
  iso15693_3_poller_inventory (slix_link u ui) tx0 (Some ses) (Some x) s = Some ((- ETIMEDOUT, Some x), s') ∧ slix_shows m s'.
Proof.
  intros (Hs & Hi & Hm) Hp. destruct Htx0 as [Hl _]. set (p := [ISO15693_INV_FLAGS; ISO15693_CMD_INVENTORY]).
  assert (bytes p) as Hpb by by bytes_list.
  assert (slix_step (sx_abs s) (iso15693_frame p) = sx_abs s) as Hstep.
  { unfold p. rewrite slix_step_frame by done. change (sc_model (sx_abs s)) with (sx_model s).
    by rewrite Hm, (proj2 (Z.eqb_neq _ _) Hp). }
  destruct (slix_exchange p tx0 2 0 s _ Hs Hpb ltac:(done) Hl eq_refl ltac:(done) Hstep) as [_ Hno].
  destruct (Hno eq_refl) as (rx & s' & Hrun & Ha & Hs'). exists s'. split.
  - unfold iso15693_3_poller_inventory. rewrite st_first by lia. rewrite run_lift_Some. rewrite st_next by llia. rewrite run_lift_Some.
    cbn [app]. fold p. by rewrite (run_call _ _ _ _ _ Hrun).
  - split; [done|]. change (sc_initialized (sx_abs s') = true ∧ sc_model (sx_abs s') = m). by rewrite Ha.
Qed.

(** C34: the SLIX poller in front of the SLIX listener reads the emulated card: its ISO 15693 part as
    the ISO 15693 poller reads it, the type that the UID tells, and from a SLIX2 the protection
    pointer and condition; the passwords, capabilities and locks, which no answer carries, are left
    at zero.  The signature it stores is not the model's: it starts with the flags byte of the answer,
    so that every byte is one place off and the last is lost.  A card in privacy mode cannot be read
    at all, and one of more than 32 blocks fails as it does for the ISO 15693 poller. *)
Theorem slix_poller_reads_listener m s out : slix_ok m → slix_shows m s → ∃ s', slix_shows m s' ∧
  slix_poller_read (slix_link u ui) tx0 (Some ses) (Some out) s = Some (((slix_image m).1, Some (slix_image m).2), s').
Proof.
  intros Hm Hs. pose proof Hm as [Hp Htype _ _ _ _ _ _]. unfold slix_poller_read, slix_image. cbv zeta.
  destruct (x_privacy_mode m =? 0) eqn:Hpriv; bool_prop; cbn [negb].
  - pose proof (slix_listener_card m Hm Hpriv) as Hcard.
    destruct (iso_poller_reads (slix_link u ui) (x_parent m) Hp (slix_shows m) tx0 Htx0 ses Hses s (x_parent slix_zero) Hs) as (s1 & Hs1 & Hrun).
    rewrite (run_call _ _ _ _ _ Hrun), run_lift_Some. rewrite (Z.ltb_antisym _ 32).
    destruct (v_block_count (x_parent m) <=? 32); cbn [negb Z.eqb]; [|by exists s1].
    set (d1 := slix_with_parent (iso_image (x_parent m)) slix_zero).
    change (v_uid (x_parent d1)) with (v_uid (x_parent m)). rewrite Htype, run_lift_Some.
    destruct (x_type m) eqn:Ht; try (rewrite bool_decide_false by done; exists s1; split; done); [exists s1; by split|].
    rewrite bool_decide_false by done. set (d2 := slix_with_type SLIX_TYPE_SLIX2 d1).
    pose proof (io_uid _ Hp) as Hul. pose proof (io_uid_bytes _ Hp) as Hub.
    destruct (sysinfo_reads m d2 s1 Hm Hs1 Hul Hub eq_refl) as (tx & n & s2 & Hrun2 & Hl2 & Hs2).
    rewrite (run_call _ _ _ _ _ Hrun2).
    destruct (slix_signature_reads m tx n (slix_with_protection (x_protection_pointer m) (x_protection_condition m) d2) s2 Hm Hs2 Hul Hub Hl2
      eq_refl eq_refl) as (s3 & Hrun3 & Hs3).
    rewrite (run_call _ _ _ _ _ Hrun3). by exists s3.
  - destruct (private_inventory m iso15693_zero s Hs Hpriv) as (s1 & Hrun & Hs1). exists s1. split; [done|].
    assert (iso15693_3_poller_read (slix_link u ui) tx0 (Some ses) (Some (x_parent slix_zero)) s = Some ((- ETIMEDOUT, Some iso15693_zero), s1)) as Hread.
    { unfold iso15693_3_poller_read, iso15693_3_poller_session_valid. rewrite Hses. cbn [negb Z.eqb]. by rewrite (run_call _ _ _ _ _ Hrun). }
    by rewrite (run_call _ _ _ _ _ Hread).
Qed.
End SlixLoopback.
