(* ===== verification/Crypto1.v ===== *)
(** * Crypto1 ([src/nfc/protocols/classic/crypto1.c])

    The stream cipher of MIFARE Classic and its nonce generator: a register of 48 bits kept as two
    words.  The theorems: which register bits feed back, and that a reader and a tag with the same
    key stay in step. *)

From stdpp Require Import base list numbers option.
From Stdlib Require Import Btauto.
From S2P Require Import Prelude Word32.

Definition LF_POLY_ODD : Z := 0x29CE5C.
Definition LF_POLY_EVEN : Z := 0x870804.

Record crypto1 := { k_odd : Z; k_even : Z }.

Definition SWAPENDIAN (x : Z) : Z :=
  let x := Z.lor (Z.land (shr x 8) 0x00FF00FF) (shl (Z.land x 0x00FF00FF) 8) in Z.lor (shr x 16) (shl x 16).

(** [BEBIT(x, n)] *)
Definition BEBIT (x n : Z) : Z := Z.land (shr x (Z.lxor n 24)) 1.

Definition nfc_util_even_parity32 (data : Z) : Z :=
  let data := Z.lxor data (shr data 16) in let data := Z.lxor data (shr data 8) in
  u8 (Z.land (shr 0x6996 (Z.land data 0x0F)) 1).

Definition crypto1_reset (c : option crypto1) : option crypto1 :=
  match c with None => None | Some _ => Some {| k_odd := 0; k_even := 0 |} end.

(** The loop of [crypto1_init]: [n] more turns from [i] down. *)
Fixpoint init_loop (n : nat) (i : Z) (key : Z) (c : crypto1) : crypto1 :=
  match n with
  | O => c
  | S n =>
    init_loop n (i - 2) key
      {| k_odd := Z.lor (shl (k_odd c) 1) (u32 (Z.land (Z.shiftr key (Z.lxor (i - 1) 7)) 1));
         k_even := Z.lor (shl (k_even c) 1) (u32 (Z.land (Z.shiftr key (Z.lxor i 7)) 1)) |}
  end.

Definition crypto1_init (c : option crypto1) (key : Z) : option crypto1 :=
  match c with None => None | Some _ => Some (init_loop 24 47 key {| k_odd := 0; k_even := 0 |}) end.

Definition crypto1_filter (inp : Z) : Z :=
  let out := Z.land (shr 0xF22C0 (Z.land inp 0xF)) 16 in
  let out := Z.lor out (Z.land (shr 0x6C9C0 (Z.land (shr inp 4) 0xF)) 8) in
  let out := Z.lor out (Z.land (shr 0x3C8B0 (Z.land (shr inp 8) 0xF)) 4) in
  let out := Z.lor out (Z.land (shr 0x1E458 (Z.land (shr inp 12) 0xF)) 2) in
  let out := Z.lor out (Z.land (shr 0x0D938 (Z.land (shr inp 16) 0xF)) 1) in
  Z.land (shr 0xEC57E80A out) 1.

(** [!!x] *)
Definition truth (x : Z) : Z := if x =? 0 then 0 else 1.

(** The return value and the cipher. *)
Definition crypto1_bit (c : crypto1) (inp is_encrypted : Z) : Z * crypto1 :=
  let out := u8 (crypto1_filter (k_odd c)) in
  let feed := Z.land out (truth is_encrypted) in
  let feed := Z.lxor feed (truth inp) in
  let feed := Z.lxor feed (Z.land LF_POLY_ODD (k_odd c)) in
  let feed := Z.lxor feed (Z.land LF_POLY_EVEN (k_even c)) in
  let even := Z.lor (shl (k_even c) 1) (nfc_util_even_parity32 feed) in
  (out, {| k_odd := even; k_even := k_odd c |}).

Fixpoint byte_loop (n : nat) (i : Z) (c : crypto1) (inp is_encrypted out : Z) : Z * crypto1 :=
  match n with
  | O => (out, c)
  | S n =>
    let '(b, c) := crypto1_bit c (u8 (Z.land (shr inp i) 1)) is_encrypted in
    byte_loop n (i + 1) c inp is_encrypted (Z.lor out (u8 (Z.shiftl b i)))
  end.
Definition crypto1_byte (c : crypto1) (inp is_encrypted : Z) : Z * crypto1 := byte_loop 8 0 c inp is_encrypted 0.

Fixpoint word_loop (n : nat) (i : Z) (c : crypto1) (inp is_encrypted out : Z) : Z * crypto1 :=
  match n with
  | O => (out, c)
  | S n =>
    let '(b, c) := crypto1_bit c (u8 (BEBIT inp i)) is_encrypted in
    word_loop n (i + 1) c inp is_encrypted (Z.lor out (shl b (Z.lxor 24 i)))
  end.
Definition crypto1_word (c : crypto1) (inp is_encrypted : Z) : Z * crypto1 := word_loop 32 0 c inp is_encrypted 0.

Definition prng_step (x : Z) : Z :=
  Z.lor (shr x 1) (shl (Z.lxor (Z.lxor (Z.lxor (shr x 16) (shr x 18)) (shr x 19)) (shr x 21)) 31).
Definition crypto1_prng_successor (x n : Z) : Z := SWAPENDIAN (Nat.iter (Z.to_nat n) prng_step (SWAPENDIAN x)).

(** [n] more bytes from [i] on: the cipher and [out]. *)
Fixpoint crypto1_decrypt_loop (n : nat) (i : Z) (c : crypto1) (inp out : list Z) : option (crypto1 * list Z) :=
  match n with
  | O => Some (c, out)
  | S n =>
    let '(k, c) := crypto1_byte c 0 0 in
    b ← ld inp i; out ← st out i (u8 (Z.lxor k b)); crypto1_decrypt_loop n (i + 1) c inp out
  end.
Definition crypto1_decrypt (c : option crypto1) (inp : option (list Z)) (in_len : Z) (out : option (list Z))
    : option (option crypto1 * option (list Z)) :=
  match c, inp, out with
  | Some c, Some inp, Some out => '(c, out) ← crypto1_decrypt_loop (Z.to_nat in_len) 0 c inp out; Some (Some c, Some out)
  | _, _, _ => Some (c, out)
  end.

Fixpoint crypto1_encrypt_loop (n : nat) (i : Z) (c : crypto1) (keystream : option (list Z)) (inp out : list Z) : option (crypto1 * list Z) :=
  match n with
  | O => Some (c, out)
  | S n =>
    ks ← match keystream with Some l => ld l i | None => Some 0 end;
    let '(k, c) := crypto1_byte c ks 0 in
    b ← ld inp i; out ← st out i (u8 (Z.lxor k b)); crypto1_encrypt_loop n (i + 1) c keystream inp out
  end.
Definition crypto1_encrypt (c : option crypto1) (keystream inp : option (list Z)) (in_len : Z) (out : option (list Z))
    : option (option crypto1 * option (list Z)) :=
  match c, inp, out with
  | Some c, Some inp, Some out => '(c, out) ← crypto1_encrypt_loop (Z.to_nat in_len) 0 c keystream inp out; Some (Some c, Some out)
  | _, _, _ => Some (c, out)
  end.

(** [(x[0] << 24) | (x[1] << 16) | (x[2] << 8) | x[3]] with [x = &l[off]] *)
Definition word_at (l : list Z) (off : Z) : option Z :=
  b0 ← ld l off; b1 ← ld l (off + 1); b2 ← ld l (off + 2); b3 ← ld l (off + 3);
  Some (Z.lor (Z.lor (Z.lor (shl b0 24) (shl b1 16)) (shl b2 8)) b3).

(** The two loops of [crypto1_encrypt_reader_nonce]. *)
Fixpoint nonce_loop (n : nat) (i : Z) (c : crypto1) (nr out : list Z) : option (crypto1 * list Z) :=
  match n with
  | O => Some (c, out)
  | S n =>
    b ← ld nr i;
    let '(k, c) := crypto1_byte c b 0 in
    out ← st out i (u8 (Z.lxor k b)); nonce_loop n (i + 1) c nr out
  end.
Fixpoint answer_loop (n : nat) (i : Z) (c : crypto1) (nt_num : Z) (out : list Z) : option (crypto1 * list Z) :=
  match n with
  | O => Some (c, out)
  | S n =>
    let nt_num := crypto1_prng_successor nt_num 8 in
    let '(k, c) := crypto1_byte c 0 0 in
    out ← st out i (u8 (Z.lxor k (u8 nt_num))); answer_loop n (i + 1) c nt_num out
  end.

Definition crypto1_encrypt_reader_nonce (c : option crypto1) (key cuid : Z) (nt nr out : option (list Z))
    : option (option crypto1 * option (list Z)) :=
  match c, nt, nr, out with
  | Some _, Some nt, Some nr, Some out =>
    nt_num ← word_at nt 0;
    c ← crypto1_init c key;
    let '(_, c) := crypto1_word c (Z.lxor nt_num cuid) 0 in
    '(c, out) ← nonce_loop 4 0 c nr out;
    let nt_num := crypto1_prng_successor nt_num 32 in
    '(c, out) ← answer_loop 4 4 c nt_num out; Some (Some c, Some out)
  | _, _, _, _ => Some (c, out)
  end.

Definition classic_cuid_from_uid (uid : list Z) (uid_len : Z) : option Z := word_at uid (if uid_len =? 7 then 3 else 0).

Example prng_known : crypto1_prng_successor 0x01200145 32 = crypto1_prng_successor (crypto1_prng_successor 0x01200145 8) 24.
Proof. by vm_compute. Qed.

(** The values of the test fixtures ([tests/fixtures/classic/MfClassic_1K_4b_mock.h], steps 3 and 4). *)
Example fixture_nonce :
  snd <$> crypto1_encrypt_reader_nonce (Some {| k_odd := 0; k_even := 0 |}) 0xFFFFFFFFFFFF 0x04DEADBE
    (Some [0x10; 0; 0; 0]) (Some [1; 2; 3; 4]) (Some (zeros 8)) =
  Some (Some [0x91; 0x07; 0xBD; 0x3A; 0xFF; 0xF9; 0xF4; 0x82]).
Proof. by vm_compute. Qed.

(** ** The feedback *)

(** The exclusive or of the bits of [x] at the positions [l]. *)
Definition xor_bits (l : list Z) (x : Z) : bool := foldr (λ i b, xorb (Z.testbit x i) b) false l.

(** The positions of the bits of a word that are set. *)
Definition taps (x : Z) : list Z := filter (λ i, Z.testbit x i = true) (Z.of_nat <$> seq 0 32).

Lemma low_nibble x : 0 <= x → Z.land x 0x0F = Z.b2z (Z.testbit x 0) + 2 * Z.b2z (Z.testbit x 1) + 4 * Z.b2z (Z.testbit x 2) + 8 * Z.b2z (Z.testbit x 3).
Proof.
  intros Hx. change 0x0F with (Z.ones 4). rewrite Z.land_ones by done. change (2 ^ 4) with 16.
  rewrite !Z.testbit_spec' by done. change (2 ^ 0) with 1. change (2 ^ 1) with 2. change (2 ^ 2) with 4. change (2 ^ 3) with 8. dlia.
Qed.

Lemma parity_nibble (a b c d : bool) :
  u8 (Z.land (shr 0x6996 (Z.b2z a + 2 * Z.b2z b + 4 * Z.b2z c + 8 * Z.b2z d)) 1) = Z.b2z (xorb a (xorb b (xorb c d))).
Proof. by destruct a, b, c, d. Qed.

(** The parity is that of the low nibbles of the four bytes. *)
Lemma parity_low_nibbles x : is_word x →
  nfc_util_even_parity32 x = Z.b2z (xor_bits [0; 1; 2; 3; 8; 9; 10; 11; 16; 17; 18; 19; 24; 25; 26; 27] x).
Proof.
  intros Hx. unfold nfc_util_even_parity32. cbv zeta. set (y := Z.lxor x (shr x 16)).
  assert (0 <= x) by apply Hx. assert (0 <= shr x 16) by (apply Z.shiftr_nonneg; lia).
  assert (0 <= y) by (apply Z.lxor_nonneg; lia). assert (0 <= shr y 8) by (apply Z.shiftr_nonneg; lia).
  rewrite low_nibble by (apply Z.lxor_nonneg; lia). rewrite parity_nibble. f_equal.
  unfold y, shr. rewrite !Z.lxor_spec, !Z.shiftr_spec, !Z.lxor_spec, !Z.shiftr_spec by lia. cbn [xor_bits foldr].
  zadds. btauto.
Qed.

Lemma filter_bit x : ∃ b, u8 (crypto1_filter x) = Z.b2z b.
Proof.
  unfold crypto1_filter. cbv zeta. set (y := shr _ _). change 1 with (Z.ones 1) at 1. rewrite Z.land_ones by done. change (2 ^ 1) with 2.
  assert (y mod 2 = 0 ∨ y mod 2 = 1) as [-> | ->] by dlia; [by exists false|by exists true].
Qed.

Lemma truth_bit x : ∃ b, truth x = Z.b2z b.
Proof. unfold truth. case_bool; [by exists false|by exists true]. Qed.

Lemma xor_bits_lxor l x y : xor_bits l (Z.lxor x y) = xorb (xor_bits l x) (xor_bits l y).
Proof. induction l as [|i l IH]; [done|]. cbn [xor_bits foldr] in *. fold (xor_bits l). rewrite Z.lxor_spec. unfold xor_bits in IH. rewrite IH. btauto. Qed.

Lemma xor_bits_land l m x : xor_bits l (Z.land m x) = xor_bits (filter (λ i, Z.testbit m i = true) l) x.
Proof.
  induction l as [|i l IH]; [done|]. unfold xor_bits in *. rewrite filter_cons. cbn [foldr]. rewrite IH, Z.land_spec.
  destruct (decide (Z.testbit m i = true)) as [Hm|Hm]; [by rewrite Hm|].
  apply not_true_is_false in Hm. by rewrite Hm.
Qed.

(** The positions at which the register feeds back. *)
Definition odd_feedback : list Z := [2; 3; 9; 10; 11; 16; 19].
Definition even_feedback : list Z := [2; 11; 16; 17; 18].

Definition crypto1_word_ok (c : crypto1) : Prop := is_word (k_odd c) ∧ is_word (k_even c).

(** C40: what one step of the cipher shifts in.  The bit is the exclusive or of the input, the filter's
    output when the input is encrypted, and of register bits; but of the 18 taps of the two feedback
    polynomials only 12 take part: the parity function folds a word to a byte and then looks at the low
    four bits, so that every tap at a position whose remainder modulo 8 is at least 4 (4, 6, 14, 15 and
    21 of the odd half, 23 of the even half) is lost.  The cipher is not Crypto1. *)
Theorem crypto1_feedback c inp is_encrypted : crypto1_word_ok c →
  crypto1_bit c inp is_encrypted =
    (u8 (crypto1_filter (k_odd c)),
     {| k_odd := Z.lor (shl (k_even c) 1)
          (Z.b2z (xorb (xorb (negb (inp =? 0)) (negb (is_encrypted =? 0) && negb (u8 (crypto1_filter (k_odd c)) =? 0)))
                       (xorb (xor_bits odd_feedback (k_odd c)) (xor_bits even_feedback (k_even c)))));
        k_even := k_odd c |}) ∧
  taps LF_POLY_ODD = [2; 3; 4; 6; 9; 10; 11; 14; 15; 16; 19; 21] ∧ taps LF_POLY_EVEN = [2; 11; 16; 17; 18; 23].
Proof.
  intros [Ho He]. split; [|by split; vm_compute]. unfold crypto1_bit. cbv zeta. f_equal. f_equal. f_equal.
  destruct (filter_bit (k_odd c)) as [o Hout]. rewrite Hout. unfold truth.
  assert (is_word LF_POLY_ODD ∧ is_word LF_POLY_EVEN) as [Hpo Hpe] by done.
  assert (∀ b : bool, is_word (Z.b2z b)) as Hbw by by intros [].
  set (A := if is_encrypted =? 0 then 0 else 1). set (B := if inp =? 0 then 0 else 1).
  assert (∃ a b, A = Z.b2z a ∧ B = Z.b2z b ∧ a = negb (is_encrypted =? 0) ∧ b = negb (inp =? 0)) as (a & b & -> & -> & Ha & Hb).
  { exists (negb (is_encrypted =? 0)), (negb (inp =? 0)). unfold A, B. by destruct (is_encrypted =? 0), (inp =? 0). }
  assert (Z.land (Z.b2z o) (Z.b2z a) = Z.b2z (o && a)) as -> by by destruct o, a.
  rewrite parity_low_nibbles.
  2: { repeat apply word_lxor; try apply Hbw; rewrite Z.land_comm; by apply word_land. }
  rewrite !xor_bits_lxor, !xor_bits_land. f_equal.
  change (filter (λ i, Z.testbit LF_POLY_ODD i = true) _) with odd_feedback.
  change (filter (λ i, Z.testbit LF_POLY_EVEN i = true) _) with even_feedback.
  rewrite <-Ha, <-Hb. assert (∀ b0 : bool, xor_bits [0; 1; 2; 3; 8; 9; 10; 11; 16; 17; 18; 19; 24; 25; 26; 27] (Z.b2z b0) = b0) as Hx by by intros [].
  rewrite !Hx. replace (negb (Z.b2z o =? 0)) with o by (by destruct o). btauto.
Qed.

(** ** Words and bytes *)

Lemma bit_out c inp e : ∃ b c', crypto1_bit c inp e = (Z.b2z b, c').
Proof. unfold crypto1_bit. cbv zeta. destruct (filter_bit (k_odd c)) as [b ->]. by eexists b, _. Qed.

(** A shifted bit. *)
Lemma bit_shifted (b : bool) i : 0 <= i < 32 → shl (Z.b2z b) i = Z.shiftl (Z.b2z b) i.
Proof.
  intros Hi. unfold shl. apply u32_id. rewrite Z.shiftl_mul_pow2 by lia. pose proof (Z.pow_le_mono_r 2 i 31 ltac:(lia) ltac:(lia)) as Hp.
  change (2 ^ 31) with 2147483648 in Hp. pose proof (Z.pow_pos_nonneg 2 i ltac:(lia) ltac:(lia)). destruct b; cbn [Z.b2z]; lia.
Qed.
Lemma bit_shifted8 (b : bool) i : 0 <= i < 8 → u8 (Z.shiftl (Z.b2z b) i) = Z.shiftl (Z.b2z b) i.
Proof.
  intros Hi. apply u8_id. unfold is_byte. rewrite Z.shiftl_mul_pow2 by lia. pose proof (Z.pow_le_mono_r 2 i 7 ltac:(lia) ltac:(lia)) as Hp.
  change (2 ^ 7) with 128 in Hp. pose proof (Z.pow_pos_nonneg 2 i ltac:(lia) ltac:(lia)). destruct b; cbn [Z.b2z]; lia.
Qed.

(** Eight turns of the word loop are the byte loop on that byte: [k] is the byte from the top, and
    bit [i] of it is bit [24 - 8 k + i] of the word. *)
Lemma word_loop_byte n : ∀ m i k c w x e base out, 0 <= i → 0 <= k <= 3 → i + Z.of_nat n <= 8 →
  (∀ j, 0 <= j < 8 → Z.testbit x j = Z.testbit w (24 - 8 * k + j)) →
  word_loop (n + m) (8 * k + i) c w e (Z.lor base (Z.shiftl out (24 - 8 * k))) =
  let '(o, c') := byte_loop n i c x e out in
  word_loop m (8 * k + i + Z.of_nat n) c' w e (Z.lor base (Z.shiftl o (24 - 8 * k))).
Proof.
  induction n as [|n IH]; intros m i k c w x e base out Hi Hk Hn Hx.
  { cbn. by rewrite Z.add_0_r. }
  assert (Z.lxor (8 * k + i) 24 = 24 - 8 * k + i ∧ Z.lxor 24 (8 * k + i) = 24 - 8 * k + i) as [Hxor Hxor'].
  { rewrite (Z.lxor_comm 24). assert (k = 0 ∨ k = 1 ∨ k = 2 ∨ k = 3) as Hkc by lia.
    assert (i = 0 ∨ i = 1 ∨ i = 2 ∨ i = 3 ∨ i = 4 ∨ i = 5 ∨ i = 6 ∨ i = 7) as Hic by lia.
    split; repeat destruct Hkc as [->|Hkc]; subst; repeat destruct Hic as [->|Hic]; subst; done. }
  cbn [Nat.add word_loop byte_loop].
  assert (BEBIT w (8 * k + i) = Z.land (shr x i) 1) as ->.
  { unfold BEBIT, shr. rewrite Hxor. change 1 with (Z.ones 1). rewrite !Z.land_ones by done. rewrite <-!Z.bit0_mod.
    f_equal. rewrite !Z.shiftr_spec by lia. rewrite !Z.add_0_l. rewrite Hx by lia. done. }
  destruct (bit_out c (u8 (Z.land (shr x i) 1)) e) as (b & c1 & ->). rewrite Hxor', bit_shifted, bit_shifted8 by lia.
  replace (8 * k + i + 1) with (8 * k + (i + 1)) by lia.
  assert (Z.lor (Z.lor base (Z.shiftl out (24 - 8 * k))) (Z.shiftl (Z.b2z b) (24 - 8 * k + i)) =
    Z.lor base (Z.shiftl (Z.lor out (Z.shiftl (Z.b2z b) i)) (24 - 8 * k))) as ->.
  { rewrite Z.shiftl_lor, Z.shiftl_shiftl by lia. rewrite Z.lor_assoc. do 2 f_equal. lia. }
  rewrite (IH m (i + 1) k c1 w x e base _) by (done || lia).
  destruct (byte_loop n (i + 1) c1 x e (Z.lor out (Z.shiftl (Z.b2z b) i))) as [o c2].
  f_equal. lia.
Qed.

Lemma byte_loop_range n : ∀ i c x e out, 0 <= i → i + Z.of_nat n <= 8 → 0 <= out < 2 ^ i →
  0 <= (byte_loop n i c x e out).1 < 2 ^ (i + Z.of_nat n).
Proof.
  induction n as [|n IH]; intros i c x e out Hi Hn Ho; [cbn; by rewrite Z.add_0_r|]. cbn [byte_loop].
  destruct (bit_out c (u8 (Z.land (shr x i) 1)) e) as (b & c1 & ->). rewrite bit_shifted8 by lia.
  pose proof (IH (i + 1) c1 x e (Z.lor out (Z.shiftl (Z.b2z b) i)) ltac:(lia) ltac:(lia)) as Hr.
  replace (i + Z.of_nat (S n)) with (i + 1 + Z.of_nat n) by lia. apply Hr.
  rewrite Z.lor_comm, lor_shiftl_add by lia. rewrite Z.pow_add_r by lia. destruct b; cbn [Z.b2z]; lia.
Qed.

Lemma crypto1_byte_range c x e : is_byte (crypto1_byte c x e).1.
Proof. unfold crypto1_byte. by apply (byte_loop_range 8 0). Qed.

(** Four bytes through the cipher. *)
Definition crypto1_bytes4 (c : crypto1) (b0 b1 b2 b3 e : Z) : Z * crypto1 :=
  let '(o0, c) := crypto1_byte c b0 e in let '(o1, c) := crypto1_byte c b1 e in
  let '(o2, c) := crypto1_byte c b2 e in let '(o3, c) := crypto1_byte c b3 e in (be32 o0 o1 o2 o3, c).

Lemma be32_testbit b0 b1 b2 b3 : is_byte b0 → is_byte b1 → is_byte b2 → is_byte b3 → ∀ j, 0 <= j < 8 →
  Z.testbit b0 j = Z.testbit (be32 b0 b1 b2 b3) (24 + j) ∧ Z.testbit b1 j = Z.testbit (be32 b0 b1 b2 b3) (16 + j) ∧
  Z.testbit b2 j = Z.testbit (be32 b0 b1 b2 b3) (8 + j) ∧ Z.testbit b3 j = Z.testbit (be32 b0 b1 b2 b3) j.
Proof.
  intros H0 H1 H2 H3 j Hj. pose proof (word_bytes_be32 b0 b1 b2 b3 H0 H1 H2 H3) as Hw. unfold word_bytes in Hw.
  injection Hw as E0 E1 E2 E3. set (w := be32 b0 b1 b2 b3) in *.
  assert (∀ s, 0 <= s → Z.testbit (u8 (shr w s)) j = Z.testbit w (s + j)) as Hs.
  { intros s Hs. unfold u8, shr. change 256 with (2 ^ 8). rewrite Z.mod_pow2_bits_low, Z.shiftr_spec by lia. f_equal. lia. }
  rewrite <-E0 at 1. rewrite <-E1 at 1. rewrite <-E2 at 1. rewrite <-E3 at 1. rewrite !Hs by lia.
  split; [done|]. split; [done|]. split; [done|]. unfold u8. change 256 with (2 ^ 8). by rewrite Z.mod_pow2_bits_low by lia.
Qed.

Lemma crypto1_word_bytes c b0 b1 b2 b3 e : is_byte b0 → is_byte b1 → is_byte b2 → is_byte b3 →
  crypto1_word c (be32 b0 b1 b2 b3) e = crypto1_bytes4 c b0 b1 b2 b3 e.
Proof.
  intros H0 H1 H2 H3. pose proof (be32_testbit b0 b1 b2 b3 H0 H1 H2 H3) as Hb. set (w := be32 b0 b1 b2 b3) in *.
  unfold crypto1_word, crypto1_bytes4, crypto1_byte.
  pose proof (word_loop_byte 8 24 0 0 c w b0 e 0 0 ltac:(lia) ltac:(lia) ltac:(lia) (λ j Hj, proj1 (Hb j Hj))) as E0.
  change (Z.lor 0 (Z.shiftl 0 (24 - 8 * 0))) with 0 in E0. change (8 * 0 + 0) with 0 in E0. change (8 + 24)%nat with 32%nat in E0.
  rewrite E0. clear E0. pose proof (crypto1_byte_range c b0 e) as R0. unfold crypto1_byte in R0.
  destruct (byte_loop 8 0 c b0 e 0) as [o0 c0]. cbn [fst] in R0.
  set (a1 := Z.lor 0 (Z.shiftl o0 (24 - 8 * 0))).
  pose proof (word_loop_byte 8 16 0 1 c0 w b1 e a1 0 ltac:(lia) ltac:(lia) ltac:(lia) (λ j Hj, proj1 (proj2 (Hb j Hj)))) as E1.
  rewrite Z.shiftl_0_l, Z.lor_0_r in E1. change (8 * 1 + 0) with 8 in E1. change (8 + 16)%nat with 24%nat in E1.
  change (0 + Z.of_nat 8) with 8. rewrite E1. clear E1. pose proof (crypto1_byte_range c0 b1 e) as R1. unfold crypto1_byte in R1.
  destruct (byte_loop 8 0 c0 b1 e 0) as [o1 c1]. cbn [fst] in R1.
  set (a2 := Z.lor a1 (Z.shiftl o1 (24 - 8 * 1))).
  pose proof (word_loop_byte 8 8 0 2 c1 w b2 e a2 0 ltac:(lia) ltac:(lia) ltac:(lia) (λ j Hj, proj1 (proj2 (proj2 (Hb j Hj))))) as E2.
  rewrite Z.shiftl_0_l, Z.lor_0_r in E2. change (8 * 2 + 0) with 16 in E2. change (8 + 8)%nat with 16%nat in E2.
  change (8 + Z.of_nat 8) with 16. rewrite E2. clear E2. pose proof (crypto1_byte_range c1 b2 e) as R2. unfold crypto1_byte in R2.
  destruct (byte_loop 8 0 c1 b2 e 0) as [o2 c2]. cbn [fst] in R2.
  set (a3 := Z.lor a2 (Z.shiftl o2 (24 - 8 * 2))).
  pose proof (word_loop_byte 8 0 0 3 c2 w b3 e a3 0 ltac:(lia) ltac:(lia) ltac:(lia) (λ j Hj, proj2 (proj2 (proj2 (Hb j Hj))))) as E3.
  rewrite Z.shiftl_0_l, Z.lor_0_r in E3. change (8 * 3 + 0) with 24 in E3. change (8 + 0)%nat with 8%nat in E3.
  change (16 + Z.of_nat 8) with 24. rewrite E3. clear E3. pose proof (crypto1_byte_range c2 b3 e) as R3. unfold crypto1_byte in R3.
  destruct (byte_loop 8 0 c2 b3 e 0) as [o3 c3]. cbn [fst] in R3. cbn [word_loop]. f_equal.
  unfold a3, a2, a1. rewrite Z.lor_0_l. zadds. change (24 - 8 * 0) with 24. change (24 - 8 * 1) with 16. change (24 - 8 * 2) with 8.
  change (24 - 8 * 3) with 0. rewrite Z.shiftl_0_r. pose proof (be32_lor o0 o1 o2 o3 R0 R1 R2 R3) as Hlor.
  rewrite !shl_byte in Hlor by (done || lia). exact Hlor.
Qed.

(** ** An encrypted input *)

Lemma byte_loop_low n : ∀ i c x e out j, 0 <= i → i + Z.of_nat n <= 8 → 0 <= j < i →
  Z.testbit (byte_loop n i c x e out).1 j = Z.testbit out j.
Proof.
  induction n as [|n IH]; intros i c x e out j Hi Hn Hj; [done|]. cbn [byte_loop].
  destruct (bit_out c (u8 (Z.land (shr x i) 1)) e) as (b & c1 & ->). rewrite bit_shifted8 by lia.
  rewrite IH by lia. rewrite Z.lor_spec, Z.shiftl_spec_low by lia. apply orb_false_r.
Qed.

Lemma input_bit x i : 0 <= i → u8 (Z.land (shr x i) 1) = Z.b2z (Z.testbit x i).
Proof.
  intros Hi. unfold shr. change 1 with (Z.ones 1). rewrite Z.land_ones by done. rewrite <-Z.bit0_mod, Z.shiftr_spec, Z.add_0_l by lia.
  by destruct (Z.testbit x i).
Qed.

Lemma bit_encrypted c (p b : bool) c' : crypto1_bit c (Z.b2z p) 0 = (Z.b2z b, c') → crypto1_bit c (Z.b2z (xorb p b)) 1 = (Z.b2z b, c').
Proof.
  unfold crypto1_bit. cbv zeta. destruct (filter_bit (k_odd c)) as [o ->]. intros Hc. injection Hc as Hob <-.
  assert (o = b) as -> by (by destruct o, b). f_equal. f_equal. f_equal. f_equal. f_equal. f_equal. by destruct p, b.
Qed.

Lemma byte_loop_encrypted n : ∀ i c x out o c' y, 0 <= i → i + Z.of_nat n <= 8 → 0 <= out < 2 ^ i → byte_loop n i c x 0 out = (o, c') →
  (∀ j, i <= j < i + Z.of_nat n → Z.testbit y j = xorb (Z.testbit x j) (Z.testbit o j)) → byte_loop n i c y 1 out = (o, c').
Proof.
  induction n as [|n IH]; intros i c x out o c' y Hi Hn Ho Hrun Hy; [done|]. cbn [byte_loop] in *.
  rewrite input_bit in Hrun |- * by lia. destruct (bit_out c (Z.b2z (Z.testbit x i)) 0) as (b & c1 & Hb). rewrite Hb in Hrun.
  rewrite bit_shifted8 in Hrun by lia.
  assert (Z.testbit o i = b) as Hob.
  { pose proof (byte_loop_low n (i + 1) c1 x 0 (Z.lor out (Z.shiftl (Z.b2z b) i)) i ltac:(lia) ltac:(lia) ltac:(lia)) as Hlow.
    rewrite Hrun in Hlow. cbn [fst] in Hlow. rewrite Hlow, Z.lor_spec, Z.shiftl_spec, Z.sub_diag by lia.
    rewrite (testbit_above out i i) by (done || lia). by destruct b. }
  rewrite Hy, Hob by lia. rewrite (bit_encrypted c (Z.testbit x i) b c1 Hb). rewrite bit_shifted8 by lia.
  apply (IH (i + 1) c1 x _ o c' y); [lia|lia| |done|intros j Hj; apply Hy; lia].
  rewrite Z.lor_comm, lor_shiftl_add by lia. rewrite Z.pow_add_r by lia. destruct b; cbn [Z.b2z]; lia.
Qed.

(** A tag that takes an encrypted byte in does what the reader did with the plain one. *)
Lemma crypto1_byte_encrypted c p o c' : crypto1_byte c p 0 = (o, c') → crypto1_byte c (Z.lxor o p) 1 = (o, c').
Proof.
  intros Hrun. unfold crypto1_byte in *. apply (byte_loop_encrypted 8 0 c p 0 o c' (Z.lxor o p)); [lia|lia|done|done|].
  intros j Hj. rewrite Z.lxor_spec. apply xorb_comm.
Qed.

(** ** Nonces *)

Lemma prng_step_eq y : is_word y → ∃ b : bool, prng_step y = y / 2 + 2147483648 * Z.b2z b.
Proof.
  intros Hy. unfold prng_step. set (f := Z.lxor _ _). assert (0 <= f) as Hf.
  { unfold f, shr. destruct Hy as [Hy _]. repeat (apply Z.lxor_nonneg; split; intros _); by apply Z.shiftr_nonneg. }
  exists (Z.testbit f 0). assert (shl f 31 = Z.shiftl (Z.b2z (Z.testbit f 0)) 31) as ->.
  { unfold shl, u32. rewrite !Z.shiftl_mul_pow2 by done. change (2 ^ 31) with 2147483648. rewrite Z.bit0_mod. dlia. }
  rewrite Z.lor_comm. unfold shr. rewrite Z.shiftr_div_pow2 by done. change (2 ^ 1) with 2. destruct Hy.
  rewrite lor_shiftl_add by (change (2 ^ 31) with 2147483648; lia || dlia). change (2 ^ 31) with 2147483648. lia.
Qed.

Lemma prng_word n y : is_word y → is_word (Nat.iter n prng_step y).
Proof.
  intros Hy. induction n as [|n IH]; [done|]. change (Nat.iter (S n) prng_step y) with (prng_step (Nat.iter n prng_step y)). destruct (prng_step_eq _ IH) as [b ->].
  unfold is_word in *. destruct b; cbn [Z.b2z]; dlia.
Qed.

Lemma prng_steps n y : is_word y → (n <= 32)%nat →
  ∃ b, 0 <= b < 2 ^ Z.of_nat n ∧ Nat.iter n prng_step y = y / 2 ^ Z.of_nat n + 2 ^ (32 - Z.of_nat n) * b.
Proof.
  intros Hy. induction n as [|n IH]; intros Hn; [exists 0; cbn; rewrite Z.div_1_r; split; [done|lia]|].
  destruct (IH ltac:(lia)) as (b & Hb & Heq). change (Nat.iter (S n) prng_step y) with (prng_step (Nat.iter n prng_step y)).
  destruct (prng_step_eq _ (prng_word n y Hy)) as [b0 ->]. exists (b + 2 ^ Z.of_nat n * Z.b2z b0). rewrite Heq.
  assert (2 ^ (32 - Z.of_nat n) = 2 * 2 ^ (32 - Z.of_nat (S n))) as -> by (rewrite <-Z.pow_succ_r by lia; f_equal; lia).
  assert (2 ^ Z.of_nat (S n) = 2 ^ Z.of_nat n * 2) as -> by (rewrite Nat2Z.inj_succ, Z.pow_succ_r by lia; lia).
  assert (2 ^ (32 - Z.of_nat (S n)) * 2 ^ Z.of_nat n = 2147483648) as Hp.
  { rewrite <-Z.pow_add_r by lia. replace (32 - Z.of_nat (S n) + Z.of_nat n) with 31 by lia. done. }
  pose proof (Z.pow_pos_nonneg 2 (Z.of_nat n) ltac:(lia) ltac:(lia)).
  split; [destruct b0; cbn [Z.b2z]; lia|]. rewrite <-Z.div_div by lia.
  rewrite <-Z.mul_assoc, (Z.mul_comm 2), Z.div_add by lia. rewrite Z.mul_add_distr_l, Z.mul_assoc, Hp. lia.
Qed.

(** Eight steps move the bytes down by one. *)
Lemma prng_8 y : is_word y → ∃ b, is_byte b ∧ Nat.iter 8 prng_step y = y / 256 + 16777216 * b.
Proof. intros Hy. destruct (prng_steps 8 y Hy ltac:(lia)) as (b & Hb & Heq). by exists b. Qed.

(** Reversing the bytes of a word. *)
Lemma mask_bytes x : 0 <= x → Z.land x 0x00FF00FF = (x / 65536 mod 256) * 65536 + x mod 256.
Proof.
  intros Hx. change 0x00FF00FF with (Z.lor (Z.shiftl 255 16) 255). rewrite Z.land_lor_distr_r.
  assert (Z.land x (Z.shiftl 255 16) = Z.shiftl (Z.land (Z.shiftr x 16) 255) 16) as ->.
  { apply Z.bits_inj'. intros j Hj. rewrite Z.land_spec. destruct (Z.lt_ge_cases j 16).
    - rewrite !Z.shiftl_spec_low by lia. apply andb_false_r.
    - rewrite !Z.shiftl_spec, Z.land_spec, Z.shiftr_spec by lia. by replace (j - 16 + 16) with j by lia. }
  change 255 with (Z.ones 8). rewrite !Z.land_ones, Z.shiftr_div_pow2 by done. change (2 ^ 8) with 256. change (2 ^ 16) with 65536.
  rewrite lor_shiftl_add; [done|done|]. change (2 ^ 16) with 65536. dlia.
Qed.

Lemma byte_cases x : is_word x → ∃ b0 b1 b2 b3, is_byte b0 ∧ is_byte b1 ∧ is_byte b2 ∧ is_byte b3 ∧ x = be32 b0 b1 b2 b3.
Proof.
  intros Hx. exists (u8 (shr x 24)), (u8 (shr x 16)), (u8 (shr x 8)), (u8 x). split_and!; try apply u8_range. by rewrite be32_word_bytes.
Qed.

Lemma swapendian_be32 b0 b1 b2 b3 : is_byte b0 → is_byte b1 → is_byte b2 → is_byte b3 →
  SWAPENDIAN (be32 b0 b1 b2 b3) = be32 b3 b2 b1 b0.
Proof.
  intros H0 H1 H2 H3. unfold SWAPENDIAN. cbv zeta.
  assert (Z.lor (Z.land (shr (be32 b0 b1 b2 b3) 8) 0x00FF00FF) (shl (Z.land (be32 b0 b1 b2 b3) 0x00FF00FF) 8) = be32 b1 b0 b3 b2) as ->.
  { rewrite <-(be32_lor b1 b0 b3 b2) by done.
    assert (Z.land (shr (be32 b0 b1 b2 b3) 8) 0x00FF00FF = Z.lor (shl b0 16) b2) as ->.
    { rewrite shl_byte, lor_shiftl_add by (done || lia || (unfold is_byte in *; change (2 ^ 16) with 65536; lia)).
      unfold shr. rewrite mask_bytes by (apply Z.shiftr_nonneg; by apply be32_word).
      rewrite Z.shiftr_div_pow2 by done. change (2 ^ 8) with 256. change (2 ^ 16) with 65536. unfold is_byte, be32 in *. dlia. }
    assert (shl (Z.land (be32 b0 b1 b2 b3) 0x00FF00FF) 8 = Z.lor (shl b1 24) (shl b3 8)) as ->.
    { rewrite !(shl_byte b1), !(shl_byte b3) by (done || lia). rewrite lor_shiftl_add.
      2: done. 2: { rewrite Z.shiftl_mul_pow2 by done. unfold is_byte in *. change (2 ^ 8) with 256. change (2 ^ 24) with 16777216. lia. }
      rewrite mask_bytes by (by apply be32_word). unfold shl. rewrite !Z.shiftl_mul_pow2 by done. change (2 ^ 8) with 256. change (2 ^ 24) with 16777216.
      unfold u32, is_byte, be32 in *. dlia. }
    rewrite (Z.lor_comm (shl b0 16) b2). rewrite (Z.lor_comm (Z.lor b2 (shl b0 16))), <-!Z.lor_assoc. f_equal.
    rewrite !Z.lor_assoc, (Z.lor_comm (shl b0 16) (shl b3 8)). rewrite <-!Z.lor_assoc. f_equal. apply Z.lor_comm. }
  assert (shr (be32 b1 b0 b3 b2) 16 = b1 * 256 + b0) as ->.
  { unfold shr. rewrite Z.shiftr_div_pow2 by done. change (2 ^ 16) with 65536. unfold is_byte, be32 in *. dlia. }
  assert (shl (be32 b1 b0 b3 b2) 16 = Z.shiftl (b3 * 256 + b2) 16) as ->.
  { unfold shl, u32. rewrite !Z.shiftl_mul_pow2 by done. change (2 ^ 16) with 65536. unfold is_byte, be32 in *. dlia. }
  rewrite Z.lor_comm, lor_shiftl_add by (done || (unfold is_byte in *; change (2 ^ 16) with 65536; lia)).
  change (2 ^ 16) with 65536. unfold be32. lia.
Qed.

Lemma swapendian_twice x : is_word x → SWAPENDIAN (SWAPENDIAN x) = x.
Proof. intros Hx. destruct (byte_cases x Hx) as (b0 & b1 & b2 & b3 & ? & ? & ? & ? & ->). by rewrite !swapendian_be32. Qed.

Lemma swapendian_word x : is_word x → is_word (SWAPENDIAN x).
Proof. intros Hx. destruct (byte_cases x Hx) as (b0 & b1 & b2 & b3 & ? & ? & ? & ? & ->). rewrite swapendian_be32 by done. by apply be32_word. Qed.

Lemma crypto1_successor_word x n : is_word x → is_word (crypto1_prng_successor x n).
Proof. intros Hx. unfold crypto1_prng_successor. by apply swapendian_word, prng_word, swapendian_word. Qed.

Lemma successor_add x a b : is_word x → 0 <= a → 0 <= b →
  crypto1_prng_successor (crypto1_prng_successor x a) b = crypto1_prng_successor x (a + b).
Proof.
  intros Hx Ha Hb. unfold crypto1_prng_successor. pose proof (swapendian_word x Hx) as Hs.
  rewrite swapendian_twice by (by apply prng_word). f_equal. rewrite Z2Nat.inj_add, Nat.add_comm by done. by rewrite Nat.iter_add.
Qed.

(** The four bytes of the answer that a reader makes one after the other are those of the 64th successor. *)
Lemma nonce_answer_bytes nt : is_word nt → ∃ a0 a1 a2 a3, is_byte a0 ∧ is_byte a1 ∧ is_byte a2 ∧ is_byte a3 ∧
  crypto1_prng_successor nt 64 = be32 a0 a1 a2 a3 ∧
  u8 (crypto1_prng_successor nt 40) = a0 ∧ u8 (crypto1_prng_successor nt 48) = a1 ∧
  u8 (crypto1_prng_successor nt 56) = a2 ∧ u8 (crypto1_prng_successor nt 64) = a3.
Proof.
  intros Hnt. pose proof (swapendian_word nt Hnt) as Hy.
  pose proof (prng_word 32 _ Hy) as Hz. set (y := Nat.iter 32 prng_step (SWAPENDIAN nt)) in *.
  assert (∀ n k, n = Z.of_nat (k + 32) → crypto1_prng_successor nt n = SWAPENDIAN (Nat.iter k prng_step y)) as Hk.
  { intros n k ->. unfold crypto1_prng_successor. by rewrite Nat2Z.id, Nat.iter_add. }
  rewrite (Hk 40 8%nat eq_refl), (Hk 48 (8 + 8)%nat eq_refl), (Hk 56 (8 + (8 + 8))%nat eq_refl), (Hk 64 (8 + (8 + (8 + 8)))%nat eq_refl).
  clear Hk. clearbody y. rewrite !(Nat.iter_add 8). set (step8 := Nat.iter 8 prng_step) in *.
  assert (∀ y, is_word y → ∃ b, is_byte b ∧ step8 y = y / 256 + 16777216 * b) as Hstep8 by exact prng_8. clearbody step8.
  destruct (byte_cases y Hz) as (y0 & y1 & y2 & y3 & ? & ? & ? & ? & ->).
  destruct (Hstep8 (be32 y0 y1 y2 y3) Hz) as (a0 & Ha0 & E0).
  assert (be32 y0 y1 y2 y3 / 256 + 16777216 * a0 = be32 a0 y0 y1 y2) as Hs0 by (unfold be32, is_byte in *; dlia). rewrite Hs0 in E0.
  destruct (Hstep8 (be32 a0 y0 y1 y2)) as (a1 & Ha1 & E1); [by apply be32_word|].
  assert (be32 a0 y0 y1 y2 / 256 + 16777216 * a1 = be32 a1 a0 y0 y1) as Hs1 by (unfold be32, is_byte in *; dlia). rewrite Hs1 in E1.
  destruct (Hstep8 (be32 a1 a0 y0 y1)) as (a2 & Ha2 & E2); [by apply be32_word|].
  assert (be32 a1 a0 y0 y1 / 256 + 16777216 * a2 = be32 a2 a1 a0 y0) as Hs2 by (unfold be32, is_byte in *; dlia). rewrite Hs2 in E2.
  destruct (Hstep8 (be32 a2 a1 a0 y0)) as (a3 & Ha3 & E3); [by apply be32_word|].
  assert (be32 a2 a1 a0 y0 / 256 + 16777216 * a3 = be32 a3 a2 a1 a0) as Hs3 by (unfold be32, is_byte in *; dlia). rewrite Hs3 in E3.
  exists a0, a1, a2, a3. rewrite !E0. rewrite !E1. rewrite !E2. rewrite E3. rewrite !swapendian_be32 by done.
  assert (∀ b0 b1 b2 b3, is_byte b3 → u8 (be32 b0 b1 b2 b3) = b3) as Hlow by (intros; unfold u8, be32, is_byte in *; dlia).
  rewrite !Hlow by done. by split_and!.
Qed.
