(* ===== verification/ClassicCipher.v ===== *)
(** * Keystreams and the three-pass authentication of MIFARE Classic

    What the loops of [src/nfc/protocols/classic/crypto1.c] compute on whole frames, and that a reader
    and a tag that share a key have the same cipher after an authentication. *)

From stdpp Require Import base list numbers option.
From S2P Require Import Prelude Word32 Crypto1.

(** ** Keystreams *)

(** The next [n] bytes of the cipher, and the cipher behind them. *)
Fixpoint keystream (n : nat) (c : crypto1) : list Z * crypto1 :=
  match n with
  | O => ([], c)
  | S n => let '(k, c) := crypto1_byte c 0 0 in let '(ks, c) := keystream n c in (k :: ks, c)
  end.

(** The bytes [l], en- or decrypted. *)
Definition masked (c : crypto1) (l : list Z) : list Z * crypto1 :=
  let '(ks, c) := keystream (length l) c in (zip_with Z.lxor ks l, c).

(** The bytes [l], encrypted while each of them is fed to the cipher. *)
Fixpoint fed (c : crypto1) (l : list Z) : list Z * crypto1 :=
  match l with
  | [] => ([], c)
  | b :: l => let '(k, c) := crypto1_byte c b 0 in let '(o, c) := fed c l in (Z.lxor k b :: o, c)
  end.

Lemma lxor_byte a b : is_byte a → is_byte b → is_byte (Z.lxor a b).
Proof.
  intros Ha Hb. unfold is_byte in *. assert (0 <= Z.lxor a b) as H0 by (apply Z.lxor_nonneg; lia). split; [done|].
  apply Z.nle_gt. intros Hge. assert (8 <= Z.log2 (Z.lxor a b)) as Hl by (apply (Z.log2_le_mono 256) in Hge; exact Hge).
  pose proof (Z.bit_log2 (Z.lxor a b) ltac:(lia)) as Hbit. rewrite Z.lxor_spec in Hbit.
  rewrite !(testbit_above _ 8) in Hbit by done. done.
Qed.

Lemma keystream_ok n c : length (keystream n c).1 = n ∧ bytes (keystream n c).1.
Proof.
  revert c. induction n as [|n IH]; intros c; [by split; [|constructor]|]. cbn [keystream].
  pose proof (crypto1_byte_range c 0 0) as Hk. destruct (crypto1_byte c 0 0) as [k c1]. specialize (IH c1).
  destruct (keystream n c1) as [ks c2]. cbn [fst] in *. destruct IH as [Hl Hb]. split; [cbn; by rewrite Hl|by constructor].
Qed.

Lemma masked_cons c b l : masked c (b :: l) =
  (Z.lxor (crypto1_byte c 0 0).1 b :: (masked (crypto1_byte c 0 0).2 l).1, (masked (crypto1_byte c 0 0).2 l).2).
Proof.
  unfold masked. cbn [length keystream]. destruct (crypto1_byte c 0 0) as [k c1]. cbn [fst snd].
  by destruct (keystream (length l) c1) as [ks c2].
Qed.

Lemma masked_len c l : length (masked c l).1 = length l.
Proof.
  unfold masked. destruct (keystream_ok (length l) c) as [Hl _]. destruct (keystream (length l) c) as [ks c'].
  cbn [fst] in *. rewrite length_zip_with. lia.
Qed.

Lemma masked_state c l : (masked c l).2 = (keystream (length l) c).2.
Proof. unfold masked. by destruct (keystream (length l) c). Qed.

Lemma masked_bytes c l : bytes l → bytes (masked c l).1.
Proof.
  revert c. induction l as [|b l IH]; intros c Hb; [constructor|]. inv_bytes. rewrite masked_cons. cbn [fst].
  constructor; [apply lxor_byte; [apply crypto1_byte_range|done]|by apply IH].
Qed.

(** Decrypting with the cipher that encrypted. *)
Lemma masked_twice c l : masked c (masked c l).1 = (l, (masked c l).2).
Proof.
  revert c. induction l as [|b l IH]; intros c; [done|]. rewrite masked_cons. cbn [fst snd]. rewrite masked_cons.
  rewrite IH. cbn [fst snd]. by rewrite Z.lxor_comm, (Z.lxor_comm _ b), lxor_twice.
Qed.

(** ** The loops *)

Lemma decrypt_loop_run c l : ∀ pre bs i rest out, bytes l → i = len pre → i = len bs → i + len l <= len out →
  crypto1_decrypt_loop (length l) i c (pre ++ l ++ rest) (over bs out) = Some ((masked c l).2, over (bs ++ (masked c l).1) out).
Proof.
  revert c. induction l as [|b l IH]; intros c pre bs i rest out Hb Hi Hi' Hl; [cbn; by rewrite app_nil_r|].
  inv_bytes. cbn [length crypto1_decrypt_loop app]. rewrite masked_cons. pose proof (crypto1_byte_range c 0 0) as Hk.
  destruct (crypto1_byte c 0 0) as [k c1]. cbn [fst snd] in *. rewrite ld_mid by done. mred.
  rewrite Hi', put_exact by llia. mred. rewrite u8_id by (by apply lxor_byte).
  change (pre ++ b :: l ++ rest) with (pre ++ [b] ++ l ++ rest). rewrite (assoc_L (++) pre).
  rewrite IH; [by rewrite <-(assoc_L (++))|done|llia..].
Qed.

Lemma encrypt_loop_run c l : ∀ pre bs i rest out, bytes l → i = len pre → i = len bs → i + len l <= len out →
  crypto1_encrypt_loop (length l) i c None (pre ++ l ++ rest) (over bs out) = Some ((masked c l).2, over (bs ++ (masked c l).1) out).
Proof.
  revert c. induction l as [|b l IH]; intros c pre bs i rest out Hb Hi Hi' Hl; [cbn; by rewrite app_nil_r|].
  inv_bytes. cbn [length crypto1_encrypt_loop app]. rewrite masked_cons. mred. pose proof (crypto1_byte_range c 0 0) as Hk.
  destruct (crypto1_byte c 0 0) as [k c1]. cbn [fst snd] in *. rewrite ld_mid by done. mred.
  rewrite Hi', put_exact by llia. mred. rewrite u8_id by (by apply lxor_byte).
  change (pre ++ b :: l ++ rest) with (pre ++ [b] ++ l ++ rest). rewrite (assoc_L (++) pre).
  rewrite IH; [by rewrite <-(assoc_L (++))|done|llia..].
Qed.

Lemma decrypt_run c l rest out n : bytes l → n = len l → n <= len out →
  crypto1_decrypt (Some c) (Some (l ++ rest)) n (Some out) = Some (Some (masked c l).2, Some (over (masked c l).1 out)).
Proof.
  intros Hb -> Hl. unfold crypto1_decrypt. replace (Z.to_nat (len l)) with (length l) by (unfold len; lia).
  pose proof (decrypt_loop_run c l [] [] 0 rest out Hb eq_refl eq_refl Hl) as Hrun. rewrite over_nil in Hrun.
  cbn [app] in Hrun. by rewrite Hrun.
Qed.

Lemma encrypt_run c l rest out n : bytes l → n = len l → n <= len out →
  crypto1_encrypt (Some c) None (Some (l ++ rest)) n (Some out) = Some (Some (masked c l).2, Some (over (masked c l).1 out)).
Proof.
  intros Hb -> Hl. unfold crypto1_encrypt. replace (Z.to_nat (len l)) with (length l) by (unfold len; lia).
  pose proof (encrypt_loop_run c l [] [] 0 rest out Hb eq_refl eq_refl Hl) as Hrun. rewrite over_nil in Hrun.
  cbn [app] in Hrun. by rewrite Hrun.
Qed.

(** ** Words *)

Lemma be32_lxor a0 a1 a2 a3 b0 b1 b2 b3 : bytes [a0; a1; a2; a3] → bytes [b0; b1; b2; b3] →
  Z.lxor (be32 a0 a1 a2 a3) (be32 b0 b1 b2 b3) = be32 (Z.lxor a0 b0) (Z.lxor a1 b1) (Z.lxor a2 b2) (Z.lxor a3 b3).
Proof.
  intros Ha Hb. inv_bytes.
  assert (bytes [Z.lxor a0 b0; Z.lxor a1 b1; Z.lxor a2 b2; Z.lxor a3 b3]) as Hx
    by (repeat first [apply Forall_nil_2|apply Forall_cons_2; [by apply lxor_byte|]]).
  inv_bytes.
  assert (is_word (be32 a0 a1 a2 a3) ∧ is_word (be32 b0 b1 b2 b3)) as [Hwa Hwb] by (split; by apply be32_word).
  assert (is_word (be32 (Z.lxor a0 b0) (Z.lxor a1 b1) (Z.lxor a2 b2) (Z.lxor a3 b3))) as Hw by by apply be32_word.
  apply Z.bits_inj'. intros i Hi. rewrite Z.lxor_spec. destruct (Z.le_gt_cases 32 i) as [Hge|Hlt]; [by rewrite !word_high|].
  pose proof (be32_testbit a0 a1 a2 a3) as Ta. pose proof (be32_testbit b0 b1 b2 b3) as Tb.
  pose proof (be32_testbit (Z.lxor a0 b0) (Z.lxor a1 b1) (Z.lxor a2 b2) (Z.lxor a3 b3)) as Tc.
  assert (∃ j, 0 <= j < 8 ∧ (i = 24 + j ∨ i = 16 + j ∨ i = 8 + j ∨ i = j)) as (j & Hj & Hij).
  { destruct (Z.le_gt_cases 24 i); [exists (i - 24); lia|]. destruct (Z.le_gt_cases 16 i); [exists (i - 16); lia|].
    destruct (Z.le_gt_cases 8 i); [exists (i - 8); lia|exists i; lia]. }
  destruct (Ta ltac:(done) ltac:(done) ltac:(done) ltac:(done) j Hj) as (A0 & A1 & A2 & A3).
  destruct (Tb ltac:(done) ltac:(done) ltac:(done) ltac:(done) j Hj) as (B0 & B1 & B2 & B3).
  destruct (Tc ltac:(done) ltac:(done) ltac:(done) ltac:(done) j Hj) as (C0 & C1 & C2 & C3).
  destruct Hij as [-> | [-> | [-> | ->]]]; first [rewrite <-C0, <-A0, <-B0|rewrite <-C1, <-A1, <-B1|rewrite <-C2, <-A2, <-B2|
    rewrite <-C3, <-A3, <-B3]; by rewrite Z.lxor_spec.
Qed.

Lemma word_at_run b0 b1 b2 b3 pre rest : bytes [b0; b1; b2; b3] →
  word_at (pre ++ b0 :: b1 :: b2 :: b3 :: rest) (len pre) = Some (be32 b0 b1 b2 b3).
Proof.
  intros Hb. inv_bytes. unfold word_at. set (l := b0 :: b1 :: b2 :: b3 :: rest).
  rewrite !ld_app_r by done. rewrite <-(Z.add_0_r (len pre)) at 1. rewrite ld_app_r by done.
  rewrite (ld_eq l 0 b0), (ld_eq l 1 b1), (ld_eq l 2 b2), (ld_eq l 3 b3) by done. mred. f_equal. by apply be32_lor.
Qed.

(** Feeding a word is feeding its bytes; the word that comes out holds the bytes of the keystream. *)
Lemma word_zero c : crypto1_word c 0 0 =
  (match (keystream 4 c).1 with [k0; k1; k2; k3] => be32 k0 k1 k2 k3 | _ => 0 end, (keystream 4 c).2).
Proof.
  change 0 with (be32 0 0 0 0) at 1. rewrite crypto1_word_bytes by done. unfold crypto1_bytes4. cbn [keystream].
  destruct (crypto1_byte c 0 0) as [k0 c0]. destruct (crypto1_byte c0 0 0) as [k1 c1]. destruct (crypto1_byte c1 0 0) as [k2 c2].
  by destruct (crypto1_byte c2 0 0) as [k3 c3].
Qed.

Lemma word_zero_state c : (crypto1_word c 0 0).2 = (keystream 4 c).2.
Proof. rewrite word_zero. generalize (keystream 4 c). by intros []. Qed.

Lemma fed_cons c b l k c1 : crypto1_byte c b 0 = (k, c1) → fed c (b :: l) = (Z.lxor k b :: (fed c1 l).1, (fed c1 l).2).
Proof. intros Hk. cbn [fed]. rewrite Hk. by destruct (fed c1 l). Qed.

Lemma fed_ok c l : bytes l → length (fed c l).1 = length l ∧ bytes (fed c l).1.
Proof.
  revert c. induction l as [|b l IH]; intros c Hb; [by split; [|constructor]|]. inv_bytes. cbn [fed].
  pose proof (crypto1_byte_range c b 0) as Hk. destruct (crypto1_byte c b 0) as [k c1]. cbn [fst] in Hk.
  destruct (IH c1) as [Hl Hb']; [done|]. destruct (fed c1 l) as [o c2]. cbn [fst] in *.
  split; [cbn; by rewrite Hl|constructor; [by apply lxor_byte|done]].
Qed.

Lemma bytes4_run c b0 b1 b2 b3 e o0 c0 o1 c1 o2 c2 o3 c3 :
  crypto1_byte c b0 e = (o0, c0) → crypto1_byte c0 b1 e = (o1, c1) → crypto1_byte c1 b2 e = (o2, c2) → crypto1_byte c2 b3 e = (o3, c3) →
  crypto1_bytes4 c b0 b1 b2 b3 e = (be32 o0 o1 o2 o3, c3).
Proof. unfold crypto1_bytes4. generalize crypto1_byte. intros f -> -> -> ->. reflexivity. Qed.

(** A tag that is fed the encrypted bytes follows the reader that was fed the plain ones. *)
Lemma word_fed c n0 n1 n2 n3 : bytes [n0; n1; n2; n3] →
  ∃ e0 e1 e2 e3, (fed c [n0; n1; n2; n3]).1 = [e0; e1; e2; e3] ∧ bytes [e0; e1; e2; e3] ∧
    (crypto1_word c (be32 e0 e1 e2 e3) 1).2 = (fed c [n0; n1; n2; n3]).2.
Proof.
  intros Hn. pose proof (proj2 (fed_ok c [n0; n1; n2; n3] Hn)) as Hb.
  destruct (crypto1_byte c n0 0) as [k0 c0] eqn:E0. destruct (crypto1_byte c0 n1 0) as [k1 c1] eqn:E1.
  destruct (crypto1_byte c1 n2 0) as [k2 c2] eqn:E2. destruct (crypto1_byte c2 n3 0) as [k3 c3] eqn:E3.
  assert (fed c [n0; n1; n2; n3] = ([Z.lxor k0 n0; Z.lxor k1 n1; Z.lxor k2 n2; Z.lxor k3 n3], c3)) as Hfed
    by (rewrite (fed_cons _ _ _ _ _ E0), (fed_cons _ _ _ _ _ E1), (fed_cons _ _ _ _ _ E2), (fed_cons _ _ _ _ _ E3); reflexivity).
  rewrite Hfed in *. cbn [fst snd] in Hb |- *. exists (Z.lxor k0 n0), (Z.lxor k1 n1), (Z.lxor k2 n2), (Z.lxor k3 n3).
  split; [reflexivity|]. split; [exact Hb|]. clear Hfed. inv_bytes. rewrite crypto1_word_bytes by assumption.
  rewrite (bytes4_run _ _ _ _ _ _ _ _ _ _ _ _ _ _ (crypto1_byte_encrypted _ _ _ _ E0) (crypto1_byte_encrypted _ _ _ _ E1)
    (crypto1_byte_encrypted _ _ _ _ E2) (crypto1_byte_encrypted _ _ _ _ E3)). reflexivity.
Qed.

(** ** The three passes *)

(** The cipher after the key and the tag's nonce, [nt], which both sides know. *)
Definition started (key cuid nt : Z) : crypto1 := (crypto1_word (init_loop 24 47 key {| k_odd := 0; k_even := 0 |}) (Z.lxor nt cuid) 0).2.

(** The reader's frame: its nonce [nr] encrypted while it is fed to the cipher, then its answer. *)
Definition reader_frame (c : crypto1) (nt : Z) (nr : list Z) : list Z :=
  (fed c nr).1 ++ (masked (fed c nr).2 (word_bytes (crypto1_prng_successor nt 64))).1.

(** The cipher behind that frame, and behind the tag's answer. *)
Definition answered (c : crypto1) (nr : list Z) : crypto1 := (keystream 4 (fed c nr).2).2.
Definition agreed (c : crypto1) (nr : list Z) : crypto1 := (keystream 4 (answered c nr)).2.

(** The tag's check of a frame: the cipher behind it if the answer in it is right. *)
Definition tag_checks (c : crypto1) (nt nr_word ar_word : Z) : option crypto1 :=
  let c := (crypto1_word c nr_word 1).2 in let '(ks, c) := crypto1_word c 0 0 in
  if Z.lxor ar_word ks =? crypto1_prng_successor nt 64 then Some c else None.

Lemma word_bytes_ok x : bytes (word_bytes x).
Proof. unfold word_bytes. repeat (apply Forall_cons_2; [apply u8_range|]). apply Forall_nil_2. Qed.

Lemma masked_word_state c x : (masked c (word_bytes x)).2 = (keystream 4 c).2.
Proof. rewrite masked_state. assert (length (word_bytes x) = 4%nat) as -> by reflexivity. reflexivity. Qed.

Lemma nonce_loop_run l : ∀ c pre bs i rest out, bytes l → i = len pre → i = len bs → i + len l <= len out →
  nonce_loop (length l) i c (pre ++ l ++ rest) (over bs out) = Some ((fed c l).2, over (bs ++ (fed c l).1) out).
Proof.
  induction l as [|b l IH]; intros c pre bs i rest out Hb Hi Hi' Hl; [cbn; by rewrite app_nil_r|].
  inv_bytes. cbn [length nonce_loop app]. rewrite ld_mid by done. mred. pose proof (crypto1_byte_range c b 0) as Hk.
  destruct (crypto1_byte c b 0) as [k c1] eqn:E. rewrite (fed_cons _ _ _ _ _ E). cbn [fst snd] in *.
  rewrite Hi', put_exact by llia. mred. rewrite u8_id by (by apply lxor_byte).
  change (pre ++ b :: l ++ rest) with (pre ++ [b] ++ l ++ rest). rewrite (assoc_L (++) pre).
  rewrite IH; [by rewrite <-(assoc_L (++))|done|llia..].
Qed.

(** The answer loop encrypts the low bytes of the successors it goes through. *)
Lemma answer_loop_run n : ∀ c bs i nt out l, len l = Z.of_nat n → i = len bs → i + len l <= len out → is_word nt →
  (∀ j, (j < n)%nat → l !! j = Some (u8 (crypto1_prng_successor nt (8 * (Z.of_nat j + 1))))) →
  answer_loop n i c nt (over bs out) = Some ((masked c l).2, over (bs ++ (masked c l).1) out).
Proof.
  induction n as [|n IH]; intros c bs i nt out l Hl Hi Ho Hnt Hj.
  { destruct l; [|unfold len in Hl; cbn in Hl; lia]. cbn. by rewrite app_nil_r. }
  destruct l as [|b l]; [unfold len in Hl; cbn in Hl; lia|]. pose proof (Hj 0%nat ltac:(lia)) as H0. cbn [lookup list_lookup] in H0.
  injection H0 as Hb. change (8 * (Z.of_nat 0 + 1)) with 8 in Hb. rewrite masked_cons. cbn [answer_loop]. pose proof (crypto1_byte_range c 0 0) as Hk.
  destruct (crypto1_byte c 0 0) as [k c1]. cbn [fst snd] in *. rewrite <-Hb.
  assert (is_byte b) by (rewrite Hb; apply u8_range). rewrite u8_id by (by apply lxor_byte).
  rewrite Hi, put_exact by (llia). mred. pose proof (crypto1_successor_word nt 8 Hnt) as Hw.
  rewrite (IH c1 (bs ++ [Z.lxor k b]) _ _ out l); [by rewrite <-(assoc_L (++))|llia|llia|llia|done|].
  intros j Hjn. rewrite successor_add by (done || lia). specialize (Hj (S j) ltac:(lia)). cbn [lookup list_lookup] in Hj.
  etransitivity; [exact Hj|]. do 3 f_equal. lia.
Qed.

(** The calls of [crypto1_encrypt_reader_nonce] one after the other. *)
Lemma reader_nonce_steps c key cuid nt nr out nt_num w c1 c2 o2 c3 o3 :
  word_at nt 0 = Some nt_num →
  crypto1_word (init_loop 24 47 key {| k_odd := 0; k_even := 0 |}) (Z.lxor nt_num cuid) 0 = (w, c1) →
  nonce_loop 4 0 c1 nr out = Some (c2, o2) → answer_loop 4 4 c2 (crypto1_prng_successor nt_num 32) o2 = Some (c3, o3) →
  crypto1_encrypt_reader_nonce (Some c) key cuid (Some nt) (Some nr) (Some out) = Some (Some c3, Some o3).
Proof.
  unfold crypto1_encrypt_reader_nonce, crypto1_init. generalize word_at, crypto1_word, nonce_loop, answer_loop, crypto1_prng_successor, init_loop.
  intros wa cw nl al su il Hw HW Hn Ha. rewrite Hw. mred. rewrite HW, Hn. mred. by rewrite Ha.
Qed.

Lemma answer_found nt a0 a1 a2 a3 : is_word nt → u8 (crypto1_prng_successor nt 40) = a0 → u8 (crypto1_prng_successor nt 48) = a1 →
  u8 (crypto1_prng_successor nt 56) = a2 → u8 (crypto1_prng_successor nt 64) = a3 → ∀ j, (j < 4)%nat →
  [a0; a1; a2; a3] !! j = Some (u8 (crypto1_prng_successor (crypto1_prng_successor nt 32) (8 * (Z.of_nat j + 1)))).
Proof.
  intros Hnt E0 E1 E2 E3 j Hj. rewrite successor_add by (done || lia). revert E0 E1 E2 E3. generalize (crypto1_prng_successor nt).
  intros f <- <- <- <-. by destruct j as [|[|[|[|j]]]]; [..|lia].
Qed.

Lemma reader_nonce_run c key cuid n0 n1 n2 n3 nr out : bytes [n0; n1; n2; n3] → bytes nr → len nr = 4 → len out = 8 →
  let nt := be32 n0 n1 n2 n3 in
  crypto1_encrypt_reader_nonce (Some c) key cuid (Some [n0; n1; n2; n3]) (Some nr) (Some out) =
  Some (Some (answered (started key cuid nt) nr), Some (reader_frame (started key cuid nt) nt nr)).
Proof.
  intros Hn Hnr Hl Ho nt. pose proof (word_at_run n0 n1 n2 n3 [] [] Hn) as Hw. change (len []) with 0 in Hw.
  assert (is_word nt) as Hnt by (inv_bytes; by apply be32_word).
  destruct (crypto1_word (init_loop 24 47 key {| k_odd := 0; k_even := 0 |}) (Z.lxor nt cuid) 0) as [w c1] eqn:HW.
  assert (started key cuid nt = c1) as -> by (unfold started; by rewrite HW).
  assert (length nr = 4%nat) as Hl4 by (unfold len in Hl; lia).
  pose proof (nonce_loop_run nr c1 [] [] 0 [] out Hnr eq_refl eq_refl ltac:(lia)) as Hrun. rewrite over_nil, app_nil_r, Hl4 in Hrun.
  destruct (fed_ok c1 nr Hnr) as [Hfl _].
  destruct (nonce_answer_bytes nt Hnt) as (a0 & a1 & a2 & a3 & ? & ? & ? & ? & H64 & E0 & E1 & E2 & E3).
  assert (word_bytes (crypto1_prng_successor nt 64) = [a0; a1; a2; a3]) as Hwb by (rewrite H64; by apply word_bytes_be32).
  pose proof (answer_loop_run 4 (fed c1 nr).2 (fed c1 nr).1 4 (crypto1_prng_successor nt 32) out [a0; a1; a2; a3] eq_refl
    ltac:(unfold len; lia) ltac:(by rewrite Ho) (crypto1_successor_word _ _ Hnt) (answer_found nt _ _ _ _ Hnt E0 E1 E2 E3)) as Hans.
  rewrite (reader_nonce_steps _ _ _ _ _ _ _ _ _ _ _ _ _ Hw HW Hrun Hans). unfold answered, reader_frame. rewrite Hwb, masked_state.
  assert (over ((fed c1 nr).1 ++ (masked (fed c1 nr).2 [a0; a1; a2; a3]).1) out =
    (fed c1 nr).1 ++ (masked (fed c1 nr).2 [a0; a1; a2; a3]).1) as ->; [|reflexivity].
  unfold over. rewrite drop_ge; [by rewrite app_nil_r|]. rewrite length_app, masked_len, Hfl, Hl4. unfold len in Ho. cbn [length]. lia.
Qed.

Lemma tag_checks_steps c nt nr ar w c1 ks c2 : crypto1_word c nr 1 = (w, c1) → crypto1_word c1 0 0 = (ks, c2) →
  tag_checks c nt nr ar = if Z.lxor ar ks =? crypto1_prng_successor nt 64 then Some c2 else None.
Proof. unfold tag_checks. generalize crypto1_word. intros f H1 H2. cbv zeta. rewrite H1. cbn [snd]. by rewrite H2. Qed.

(** The tag accepts the frame of a reader that has the same cipher, and is then in step with it. *)
Lemma tag_accepts c nt nr : is_word nt → bytes nr → len nr = 4 →
  ∃ e0 e1 e2 e3 r0 r1 r2 r3, reader_frame c nt nr = [e0; e1; e2; e3; r0; r1; r2; r3] ∧ bytes (reader_frame c nt nr) ∧
    tag_checks c nt (be32 e0 e1 e2 e3) (be32 r0 r1 r2 r3) = Some (answered c nr).
Proof.
  intros Hnt Hnr Hl. destruct nr as [|n0 [|n1 [|n2 [|n3 []]]]]; try (exfalso; unfold len in Hl; cbn in Hl; lia).
  destruct (word_fed c n0 n1 n2 n3 Hnr) as (e0 & e1 & e2 & e3 & Hfed & He & Hw). unfold reader_frame, answered, tag_checks.
  exists e0, e1, e2, e3. rewrite Hfed, Hw. set (c1 := (fed c [n0; n1; n2; n3]).2) in *. clearbody c1. clear Hw Hfed.
  set (su := crypto1_prng_successor nt 64). assert (is_word su) as Hsu by by apply crypto1_successor_word. clearbody su.
  destruct (byte_cases su Hsu) as (s0 & s1 & s2 & s3 & Hs0 & Hs1 & Hs2 & Hs3 & ->). rewrite word_bytes_be32 by done.
  assert (bytes [s0; s1; s2; s3]) as Hs by by bytes_list. clear Hs0 Hs1 Hs2 Hs3.
  rewrite word_zero. unfold masked. cbn [length]. destruct (keystream_ok 4 c1) as [Hkl Hkb].
  destruct (keystream 4 c1) as [ks c2]. cbn [fst snd] in *. destruct ks as [|k0 [|k1 [|k2 [|k3 []]]]]; try discriminate Hkl.
  cbn [zip_with app]. eexists _, _, _, _. split; [reflexivity|].
  assert (bytes [Z.lxor k0 s0; Z.lxor k1 s1; Z.lxor k2 s2; Z.lxor k3 s3]) as Hr.
  { inv_bytes. repeat (apply Forall_cons_2; [by apply lxor_byte|]). apply Forall_nil_2. }
  split; [apply (bytes_app [e0; e1; e2; e3]); by split|].
  rewrite be32_lxor by done. by rewrite !(Z.lxor_comm k0), !(Z.lxor_comm k1), !(Z.lxor_comm k2), !(Z.lxor_comm k3), !lxor_twice, Z.eqb_refl.
Qed.
