(* ===== verification/Classic.v ===== *)
(** * MIFARE Classic card model ([src/nfc/protocols/classic/classic.c], [classic_i.c])

    The sectors and blocks of a card, the masks of what was read and which keys were found, the
    persistent form and the comparison used to verify a clone. *)

From stdpp Require Import base list numbers option.
From S2P Require Import Prelude Kconfig Service Serial.

(** ** [classic.h], [classic_i.h] *)

Definition CLASSIC_FORMAT_VERSION : Z := 0x01.
Definition CLASSIC_BLOCK_SIZE : Z := 16.
Definition CLASSIC_BLOCK_COUNT_MAX : Z := 256.
Definition CLASSIC_SECTOR_COUNT_MAX : Z := 40.
Definition CLASSIC_KEY_SIZE : Z := 6.
Definition CLASSIC_BLOCK_MASK_WORDS : Z := 8.
Definition CLASSIC_CMD_AUTH_KEY_A : Z := 0x60.
Definition CLASSIC_CMD_AUTH_KEY_B : Z := 0x61.
Definition CLASSIC_CMD_READ_BLOCK : Z := 0x30.
Definition CLASSIC_DEFAULT_KEY : Z := 0xFFFFFFFFFFFF.

(** [classic_type_t], an enumeration any byte can be stored in. *)
Definition CLASSIC_TYPE_MINI : Z := 0.
Definition CLASSIC_TYPE_1K : Z := 1.
Definition CLASSIC_TYPE_4K : Z := 2.
Definition CLASSIC_TYPE_UNKNOWN : Z := 0xFF.

Record classic_data_t := {
  c_type : Z;
  c_uid : list Z;
  c_uid_len : Z;
  c_sak : Z;
  c_atqa : list Z;
  c_block_read_mask : list Z;
  c_key_a_mask : Z;
  c_key_b_mask : Z;
  c_blocks : list (list Z);
}.

(** ** [classic_i.c] *)

Definition classic_get_total_sectors (type : Z) : Z :=
  if type =? CLASSIC_TYPE_MINI then 5 else if type =? CLASSIC_TYPE_1K then 16 else if type =? CLASSIC_TYPE_4K then 40 else 0.
Definition classic_get_total_blocks (type : Z) : Z :=
  if type =? CLASSIC_TYPE_MINI then 20 else if type =? CLASSIC_TYPE_1K then 64 else if type =? CLASSIC_TYPE_4K then 256 else 0.
Definition classic_get_sector_by_block (block : Z) : Z :=
  if block <? 128 then u8 (Z.lor block 0x03 / 4) else u8 (32 + u32 (Z.lor block 0x0F - 32 * 4) / 16).
Definition classic_is_sector_trailer (block : Z) : bool :=
  if block <? 128 then Z.land block 0x03 =? 0x03 else Z.land block 0x0F =? 0x0F.
Definition classic_get_first_block_of_sector (sector : Z) : Z :=
  if sector <? 32 then u8 (sector * 4) else u8 (32 * 4 + (sector - 32) * 16).
Definition classic_get_blocks_in_sector (sector : Z) : Z := if sector <? 32 then 4 else 16.

Definition classic_is_block_read (data : option classic_data_t) (block : Z) : option bool :=
  match data with
  | None => Some false
  | Some d =>
    if CLASSIC_BLOCK_COUNT_MAX <=? block then Some false else
    w ← ld (c_block_read_mask d) (block / 32); Some (negb (Z.land w (Z.shiftl 1 (block mod 32)) =? 0))
  end.

Definition classic_with_block (blocks : list (list Z)) (mask : list Z) (d : classic_data_t) : classic_data_t :=
  {| c_type := c_type d; c_uid := c_uid d; c_uid_len := c_uid_len d; c_sak := c_sak d; c_atqa := c_atqa d;
     c_block_read_mask := mask; c_key_a_mask := c_key_a_mask d; c_key_b_mask := c_key_b_mask d; c_blocks := blocks |}.
Definition classic_with_keys (a b : Z) (d : classic_data_t) : classic_data_t :=
  {| c_type := c_type d; c_uid := c_uid d; c_uid_len := c_uid_len d; c_sak := c_sak d; c_atqa := c_atqa d;
     c_block_read_mask := c_block_read_mask d; c_key_a_mask := a; c_key_b_mask := b; c_blocks := c_blocks d |}.

(** [*data] afterwards. *)
Definition classic_set_block_read (data : option classic_data_t) (block : Z) (block_data : option (list Z))
    : option (option classic_data_t) :=
  match data, block_data with
  | Some d, Some src =>
    if CLASSIC_BLOCK_COUNT_MAX <=? block then Some data else
    dst ← ld (c_blocks d) block; dst ← memcpy dst 0 src 0 CLASSIC_BLOCK_SIZE; blocks ← st (c_blocks d) block dst;
    w ← ld (c_block_read_mask d) (block / 32);
    mask ← st (c_block_read_mask d) (block / 32) (u32 (Z.lor w (Z.shiftl 1 (block mod 32))));
    Some (Some (classic_with_block blocks mask d))
  | _, _ => Some data
  end.

Definition classic_is_key_found (data : option classic_data_t) (sector : Z) (key_b : bool) : bool :=
  match data with
  | None => false
  | Some d =>
    if CLASSIC_SECTOR_COUNT_MAX <=? sector then false else
    negb (Z.land (if key_b then c_key_b_mask d else c_key_a_mask d) (Z.shiftl 1 sector) =? 0)
  end.

(** [*data] afterwards; the key is not kept. *)
Definition classic_set_key_found (data : option classic_data_t) (sector : Z) (key_b : bool) (key : Z) : option classic_data_t :=
  match data with
  | None => None
  | Some d =>
    if CLASSIC_SECTOR_COUNT_MAX <=? sector then Some d else
    if key_b then Some (classic_with_keys (c_key_a_mask d) (Z.lor (c_key_b_mask d) (Z.shiftl 1 sector)) d)
    else Some (classic_with_keys (Z.lor (c_key_a_mask d) (Z.shiftl 1 sector)) (c_key_b_mask d) d)
  end.

(** The characters of a C string, terminated. *)
Definition classic_type_from_name (name : option (list Z)) : Z :=
  match name with
  | None => CLASSIC_TYPE_UNKNOWN
  | Some n =>
    if strcmp_eq n [0x4D; 0x49; 0x4E; 0x49; 0] then CLASSIC_TYPE_MINI else
    if strcmp_eq n [0x31; 0x4B; 0] then CLASSIC_TYPE_1K else
    if strcmp_eq n [0x34; 0x4B; 0] then CLASSIC_TYPE_4K else CLASSIC_TYPE_UNKNOWN
  end.

(** ** [classic.c] *)

Section Classic.
Context `{Kconfig}.

Definition CLASSIC_BLOCKS_IN_MODEL : Z := CONFIG_NFC_CLASSIC_BLOCK_COUNT.

Definition classic_zero : classic_data_t :=
  {| c_type := CLASSIC_TYPE_UNKNOWN; c_uid := zeros 10; c_uid_len := 0; c_sak := 0; c_atqa := zeros 2;
     c_block_read_mask := zeros CLASSIC_BLOCK_MASK_WORDS; c_key_a_mask := 0; c_key_b_mask := 0;
     c_blocks := replicate (Z.to_nat CLASSIC_BLOCKS_IN_MODEL) (zeros CLASSIC_BLOCK_SIZE) |}.

Definition classic_data_reset (d : option classic_data_t) : option classic_data_t :=
  match d with None => None | Some _ => Some classic_zero end.

Definition classic_persist_id : Z := NFC_PERSIST_ID_CLASSIC.

(** [out[offset++] = (v >> (8 * i)) & 0xFF] for [n] values of [i] *)
Fixpoint put_le (n : nat) (i v : Z) : M wstate unit :=
  match n with O => mret tt | S n => put (u8 (Z.land (Z.shiftr v (8 * i)) 0xFF)) ;; put_le n (i + 1) v end.

Definition classic_write (d : classic_data_t) (blocks_total : Z) : M wstate unit :=
  put CLASSIC_FORMAT_VERSION ;; put (u8 (c_type d)) ;; put (c_uid_len d) ;;
  puts (c_uid d) (c_uid_len d) ;;
  put (c_sak d) ;; for_i 2 0 (λ i, a ← lift (ld (c_atqa d) i); put a) ;;
  for_i (Z.to_nat CLASSIC_BLOCK_MASK_WORDS) 0 (λ i, w ← lift (ld (c_block_read_mask d) i); put_le 4 0 w) ;;
  put_le 8 0 (c_key_a_mask d) ;; put_le 8 0 (c_key_b_mask d) ;;
  for_i (Z.to_nat blocks_total) 0 (λ block, b ← lift (ld (c_blocks d) block); puts b CLASSIC_BLOCK_SIZE).

Definition classic_need (uid_len blocks_total : Z) : Z :=
  1 + 1 + 1 + uid_len + 1 + 2 + 4 * CLASSIC_BLOCK_MASK_WORDS + 8 * 2 + blocks_total * CLASSIC_BLOCK_SIZE.

Definition classic_serialize (data : option classic_data_t) (out : option (list Z)) (out_max : Z) (out_len : option Z)
    : option (Z * option (list Z) * option Z) :=
  match data, out, out_len with
  | None, _, _ | _, None, _ | _, _, None => Some (- EINVAL, out, out_len)
  | Some d, Some o, Some _ =>
    if (c_type d =? CLASSIC_TYPE_UNKNOWN) || (c_uid_len d =? 0) then Some (- EINVAL, out, out_len) else
    let blocks_total := classic_get_total_blocks (c_type d) in
    if blocks_total =? 0 then Some (- EINVAL, out, out_len) else
    if out_max <? classic_need (c_uid_len d) blocks_total then Some (- ENOSPC, out, out_len) else
    '(_, (o, offset)) ← classic_write d blocks_total (o, 0);
    Some (0, Some o, Some offset)
  end.

(** [acc |= (uint64_t)in[offset++] << (8 * i)] for [n] values of [i] *)
Fixpoint get_le (n : nat) (i : Z) (inp : list Z) (acc : Z) : M Z Z :=
  match n with O => mret acc | S n => b ← get inp; get_le n (i + 1) inp (Z.lor acc (Z.shiftl b (8 * i))) end.

Definition classic_with_header (type : Z) (uid : list Z) (uid_len sak : Z) (atqa : list Z) (d : classic_data_t) : classic_data_t :=
  {| c_type := type; c_uid := uid; c_uid_len := uid_len; c_sak := sak; c_atqa := atqa;
     c_block_read_mask := c_block_read_mask d; c_key_a_mask := c_key_a_mask d; c_key_b_mask := c_key_b_mask d; c_blocks := c_blocks d |}.

(** From the blocks on; [d] is the model so far. *)
Definition classic_parse_blocks (inp : list Z) (in_len : Z) (d : classic_data_t) : M Z (Z * classic_data_t) :=
  offset ← gets id;
  let blocks_total := classic_get_total_blocks (c_type d) in
  if CLASSIC_BLOCKS_IN_MODEL <? blocks_total then mret (- ENOSPC, d) else
  if negb (in_len =? offset + blocks_total * CLASSIC_BLOCK_SIZE) then mret (- EBADMSG, d) else
  blocks ← fill (Z.to_nat blocks_total) 0 (c_blocks d) (λ b, read_into inp b CLASSIC_BLOCK_SIZE);
  mret (0, classic_with_block blocks (c_block_read_mask d) d).

(** From the masks on. *)
Definition classic_parse_body (inp : list Z) (in_len : Z) (d : classic_data_t) : M Z (Z * classic_data_t) :=
  offset ← gets id;
  if in_len <? offset + 4 * CLASSIC_BLOCK_MASK_WORDS + 8 * 2 then mret (- EBADMSG, d) else
  mask ← fill (Z.to_nat CLASSIC_BLOCK_MASK_WORDS) 0 (c_block_read_mask d) (λ _, get_le 4 0 inp 0);
  ka ← get_le 8 0 inp 0; kb ← get_le 8 0 inp 0;
  classic_parse_blocks inp in_len (classic_with_keys ka kb (classic_with_block (c_blocks d) mask d)).

Definition classic_parse (inp : list Z) (in_len : Z) : M Z (Z * classic_data_t) :=
  let d := classic_zero in
  if in_len <? 4 then mret (- EBADMSG, d) else
  v ← get inp;
  if negb (v =? CLASSIC_FORMAT_VERSION) then mret (- EBADMSG, d) else
  type ← get inp;
  let d := classic_with_header type (c_uid d) (c_uid_len d) (c_sak d) (c_atqa d) d in
  if (type =? CLASSIC_TYPE_UNKNOWN) || (CLASSIC_TYPE_4K <? type) then mret (- EBADMSG, d) else
  uid_len ← get inp;
  let d := classic_with_header type (c_uid d) uid_len (c_sak d) (c_atqa d) d in
  if (uid_len =? 0) || (10 <? uid_len) then mret (- EBADMSG, d) else
  offset ← gets id;
  if in_len <? offset + uid_len + 3 then mret (- EBADMSG, d) else
  uid ← read_into inp (c_uid d) uid_len;
  sak ← get inp; atqa ← fill 2 0 (c_atqa d) (λ _, get inp);
  classic_parse_body inp in_len (classic_with_header type uid uid_len sak atqa d).

Definition classic_deserialize (data : option classic_data_t) (inp : option (list Z)) (in_len : Z)
    : option (Z * option classic_data_t) :=
  match data, inp with
  | None, _ | _, None => Some (- EINVAL, data)
  | Some _, Some inp => '(ret, d, _) ← classic_parse inp in_len 0; Some (ret, Some d)
  end.

(** [n] more blocks from [block] on. *)
Fixpoint compare_blocks (n : nat) (block : Z) (e a : classic_data_t) : option Z :=
  match n with
  | O => Some 0
  | S n =>
    read ← classic_is_block_read (Some a) block;
    if negb read then compare_blocks n (block + 1) e a else
    be ← ld (c_blocks e) block; ba ← ld (c_blocks a) block;
    same ← memcmp_eq be 0 ba 0 CLASSIC_BLOCK_SIZE;
    if same : bool then compare_blocks n (block + 1) e a else Some (- EBADMSG)
  end.

Definition classic_compare (expected actual : option classic_data_t) : option Z :=
  match expected, actual with
  | None, _ | _, None => Some (- EINVAL)
  | Some e, Some a =>
    if negb (c_type e =? c_type a) then Some (- EBADMSG) else
    if negb (c_uid_len e =? c_uid_len a) then Some (- EBADMSG) else
    same ← memcmp_eq (c_uid e) 0 (c_uid a) 0 (c_uid_len e);
    if negb same then Some (- EBADMSG) else
    e0 ← ld (c_atqa e) 0; a0 ← ld (c_atqa a) 0; e1 ← ld (c_atqa e) 1; a1 ← ld (c_atqa a) 1;
    if negb (c_sak e =? c_sak a) || negb (e0 =? a0) || negb (e1 =? a1) then Some (- EBADMSG) else
    compare_blocks (Z.to_nat (classic_get_total_blocks (c_type a))) 0 e a
  end.
End Classic.

(** ** Sectors and blocks *)

(** The block numbers of a card, by sector: the last block of each is its trailer. *)
Definition block_numbering (block : Z) : bool :=
  let s := classic_get_sector_by_block block in
  let first := classic_get_first_block_of_sector s in let n := classic_get_blocks_in_sector s in
  (0 <=? s) && (s <? 40) && (0 <=? first) && (first <=? block) && (block <? first + n) && (first + n <=? 256) &&
  Bool.eqb (classic_is_sector_trailer block) (block =? first + n - 1).

Lemma block_numbering_all block : is_byte block → block_numbering block = true.
Proof.
  intros Hb. assert (forallb block_numbering (Z.of_nat <$> seq 0 256) = true) as Hall by by vm_compute.
  rewrite forallb_forall in Hall. apply Hall. apply list_elem_of_In, list_elem_of_fmap. exists (Z.to_nat block).
  unfold is_byte in Hb. split; [lia|]. apply elem_of_seq. lia.
Qed.

(** ** Little-endian numbers *)

Fixpoint le_bytes (n : nat) (v : Z) : list Z := match n with O => [] | S n => u8 v :: le_bytes n (v / 256) end.
Fixpoint le_val (l : list Z) : Z := match l with [] => 0 | b :: l => b + 256 * le_val l end.

Lemma le_bytes_len n v : length (le_bytes n v) = n.
Proof. revert v. induction n; intros v; cbn; auto. Qed.
Lemma le_bytes_bytes n v : bytes (le_bytes n v).
Proof. revert v. induction n as [|n IH]; intros v; [constructor|]. apply Forall_cons_2; [apply u8_range|apply IH]. Qed.

Lemma le_val_range l : bytes l → 0 <= le_val l < 256 ^ len l.
Proof.
  induction 1 as [|b l Hb _ IH]; [done|]. cbn [le_val]. rewrite len_cons, Z.pow_add_r by (pose proof (len_nonneg l); lia).
  unfold is_byte in Hb. change (256 ^ 1) with 256. nia.
Qed.

Lemma le_val_bytes n v : 0 <= v < 256 ^ Z.of_nat n → le_val (le_bytes n v) = v.
Proof.
  revert v. induction n as [|n IH]; intros v Hv; [change (256 ^ Z.of_nat 0) with 1 in Hv; cbn; lia|]. cbn [le_bytes le_val].
  rewrite Nat2Z.inj_succ, Z.pow_succ_r in Hv by lia. rewrite IH.
  - unfold u8. pose proof (Z.div_mod v 256 ltac:(lia)). lia.
  - split; [apply Z.div_pos; lia|]. apply Z.div_lt_upper_bound; lia.
Qed.

Lemma le_bytes_val l : bytes l → le_bytes (length l) (le_val l) = l.
Proof.
  induction 1 as [|b l Hb _ IH]; [done|]. cbn [length le_bytes le_val]. unfold is_byte, u8 in *.
  assert ((b + 256 * le_val l) mod 256 = b ∧ (b + 256 * le_val l) / 256 = le_val l) as [-> ->] by (split; dlia).
  by rewrite IH.
Qed.

Lemma writes_put_le n : ∀ i v, 0 <= i → 0 <= v → writes (put_le n i v) (le_bytes n (v / 256 ^ i)).
Proof.
  induction n as [|n IH]; intros i v Hi Hv; [apply writes_ret|]. cbn [put_le le_bytes].
  assert (u8 (Z.land (Z.shiftr v (8 * i)) 0xFF) = u8 (v / 256 ^ i)) as ->.
  { change 0xFF with (Z.ones 8). unfold u8. rewrite Z.land_ones, Z.mod_mod, Z.shiftr_div_pow2 by lia.
    change (2 ^ 8) with 256. do 2 f_equal. by rewrite Z.pow_mul_r by lia. }
  apply (writes_bind _ [_]); [apply writes_put|]. pose proof (IH (i + 1) v ltac:(lia) Hv) as Hw.
  rewrite Z.pow_add_r, <-Z.div_div in Hw by (try apply Z.pow_nonzero; lia). exact Hw.
Qed.

Lemma get_le_reads inp n : ∀ i off acc l rest, length l = n → bytes l → 0 <= i → 0 <= acc < 256 ^ i → ahead inp off (l ++ rest) →
  get_le n i inp acc off = Some (acc + 256 ^ i * le_val l, off + len l).
Proof.
  induction n as [|n IH]; intros i off acc l rest Hl Hb Hi Hacc Ha.
  { destruct l; [|done]. cbn [le_val get_le]. change (len []) with 0. by rewrite Z.mul_0_r, (Z.add_0_r acc), (Z.add_0_r off). }
  destruct l as [|b l]; [done|]. inv_bytes. cbn [get_le app] in *. rewrite (run_get _ _ _ _ _ Ha). apply ahead_cons in Ha as [Ha _].
  unfold is_byte in *. assert (Z.lor acc (Z.shiftl b (8 * i)) = acc + 256 ^ i * b) as ->.
  { rewrite Z.lor_comm, lor_shiftl_add by (rewrite ?Z.pow_mul_r by lia; change (2 ^ 8) with 256; lia).
    rewrite Z.pow_mul_r by lia. change (2 ^ 8) with 256. lia. }
  rewrite (IH (i + 1) (off + 1) _ l rest); [|by injection Hl|done|lia| |done].
  - rewrite Z.pow_add_r by lia. cbn [le_val]. rewrite len_cons. f_equal. f_equal; lia.
  - rewrite Z.pow_add_r by lia. nia.
Qed.

Lemma run_get_le {B} inp n off l rest (k : Z → M Z B) : length l = n → bytes l → ahead inp off (l ++ rest) →
  (get_le n 0 inp 0 ≫= k) off = k (le_val l) (off + len l).
Proof.
  intros Hl Hb Ha. pose proof (get_le_reads inp n 0 off 0 l rest Hl Hb ltac:(lia) ltac:(done) Ha) as Hr.
  rewrite (run_call _ _ _ _ _ Hr). f_equal. lia.
Qed.

(** ** Well-formed models and their persistent form *)

Section Codec.
Context `{KR : KconfigRanges}.

Record classic_ok (d : classic_data_t) : Prop := {
  co_type : 0 <= c_type d <= 2;
  co_fits : classic_get_total_blocks (c_type d) <= CLASSIC_BLOCKS_IN_MODEL;
  co_uid_len : 1 <= c_uid_len d <= 10;
  co_uid : len (c_uid d) = 10;
  co_uid_bytes : bytes (c_uid d);
  co_uid_padding : drop (Z.to_nat (c_uid_len d)) (c_uid d) = zeros (10 - c_uid_len d);
  co_sak : is_byte (c_sak d);
  co_atqa : len (c_atqa d) = 2;
  co_atqa_bytes : bytes (c_atqa d);
  co_mask : length (c_block_read_mask d) = 8%nat;
  co_mask_words : Forall (λ w, 0 <= w < 256 ^ 4) (c_block_read_mask d);
  co_keys : 0 <= c_key_a_mask d < 256 ^ 8 ∧ 0 <= c_key_b_mask d < 256 ^ 8;
  co_blocks : len (c_blocks d) = CLASSIC_BLOCKS_IN_MODEL;
  co_block_size : Forall (λ b, len b = CLASSIC_BLOCK_SIZE) (c_blocks d);
  co_block_bytes : Forall bytes (c_blocks d);
  co_blocks_padding : drop (Z.to_nat (classic_get_total_blocks (c_type d))) (c_blocks d) =
    replicate (Z.to_nat (CLASSIC_BLOCKS_IN_MODEL - classic_get_total_blocks (c_type d))) (zeros CLASSIC_BLOCK_SIZE);
}.

Definition classic_stored (d : classic_data_t) : list (list Z) := take (Z.to_nat (classic_get_total_blocks (c_type d))) (c_blocks d).

Definition classic_blob (d : classic_data_t) : list Z :=
  [CLASSIC_FORMAT_VERSION; c_type d; c_uid_len d] ++ take (Z.to_nat (c_uid_len d)) (c_uid d) ++ [c_sak d] ++ c_atqa d ++
  mjoin (le_bytes 4 <$> c_block_read_mask d) ++ le_bytes 8 (c_key_a_mask d) ++ le_bytes 8 (c_key_b_mask d) ++ mjoin (classic_stored d).

Lemma total_blocks_range t : 0 <= t <= 2 → 20 <= classic_get_total_blocks t <= 256.
Proof.
  intros Ht. assert (t = 0 ∨ t = 1 ∨ t = 2) as [-> | [-> | ->]] by lia; by vm_compute.
Qed.

Lemma mask_len (l : list Z) : len (mjoin (le_bytes 4 <$> l)) = 4 * len l.
Proof.
  rewrite (mjoin_len _ 4), len_fmap; [lia|]. apply Forall_fmap, Forall_true. intros w. unfold compose, len. by rewrite le_bytes_len.
Qed.

Lemma classic_stored_ok d : classic_ok d → len (classic_stored d) = classic_get_total_blocks (c_type d) ∧
  Forall (λ b, len b = CLASSIC_BLOCK_SIZE) (classic_stored d).
Proof.
  intros []. pose proof (total_blocks_range _ co_type0). unfold classic_stored. split; [llia|by apply Forall_take].
Qed.

Lemma classic_blob_len d : classic_ok d → len (classic_blob d) = classic_need (c_uid_len d) (classic_get_total_blocks (c_type d)).
Proof.
  intros Hd. destruct (classic_stored_ok d Hd) as [Hs Hf]. destruct Hd. unfold classic_blob, classic_need.
  rewrite !len_app, mask_len, (mjoin_len _ _ Hf), Hs, len_take, co_uid0, co_atqa0.
  assert (∀ v, len (le_bytes 8 v) = 8) as -> by (intros v; unfold len; by rewrite le_bytes_len).
  assert (∀ v, len (le_bytes 8 v) = 8) as -> by (intros v; unfold len; by rewrite le_bytes_len).
  assert (len (c_block_read_mask d) = 8) as -> by (unfold len; by rewrite co_mask0).
  unfold CLASSIC_BLOCK_MASK_WORDS. rewrite Z.min_l by lia. change (len [c_sak d]) with 1.
  change (len [CLASSIC_FORMAT_VERSION; c_type d; c_uid_len d]) with 3. lia.
Qed.

Lemma classic_writes d : classic_ok d → writes (classic_write d (classic_get_total_blocks (c_type d))) (classic_blob d).
Proof.
  intros Hd. pose proof Hd as []. pose proof (total_blocks_range _ co_type0). unfold classic_write, classic_blob. cbn [app].
  rewrite (u8_id (c_type d)) by (unfold is_byte; lia).
  do 3 (apply (writes_bind _ [_]); [apply writes_put|]). apply writes_bind; [apply writes_puts; lia|].
  apply (writes_bind _ [_]); [apply writes_put|].
  apply writes_bind.
  { pose proof (writes_elements (c_atqa d) 2 ltac:(lia)) as Hw. rewrite take_ge in Hw by (unfold len in *; lia). exact Hw. }
  apply writes_bind.
  { assert (len (c_block_read_mask d) = 8) as Hl by (unfold len; by rewrite co_mask0).
    pose proof (writes_array (c_block_read_mask d) (λ i, w ← lift (ld (c_block_read_mask d) i); put_le 4 0 w) (le_bytes 4) 8) as Hw.
    rewrite take_ge in Hw by (rewrite co_mask0; lia). apply Hw; [|lia]. intros i w Hw' pre rest Hlen. rewrite Hw', run_lift_Some.
    apply ld_Some_inv in Hw' as [_ Hw']. pose proof (Forall_lookup_1 _ _ _ _ co_mask_words0 Hw') as Hr. cbn beta in Hr.
    pose proof (writes_put_le 4 0 w ltac:(lia) ltac:(lia)) as Hp. change (256 ^ 0) with 1 in Hp. rewrite Z.div_1_r in Hp. by apply Hp. }
  destruct co_keys0 as [[Ha _] [Hb _]].
  pose proof (writes_put_le 8 0 (c_key_a_mask d) ltac:(lia) Ha) as Hka. pose proof (writes_put_le 8 0 (c_key_b_mask d) ltac:(lia) Hb) as Hkb.
  change (256 ^ 0) with 1 in Hka, Hkb. rewrite Z.div_1_r in Hka, Hkb.
  apply writes_bind; [exact Hka|]. apply writes_bind; [exact Hkb|].
  apply (writes_strings (c_blocks d) _ CLASSIC_BLOCK_SIZE); [done|lia].
Qed.

Lemma classic_serialize_ok d out n0 : classic_ok d → len (classic_blob d) <= len out →
  classic_serialize (Some d) (Some out) (len out) (Some n0) =
  Some (0, Some (classic_blob d ++ drop (length (classic_blob d)) out), Some (len (classic_blob d))).
Proof.
  intros Hd Hl. pose proof (classic_blob_len d Hd) as Hbl. pose proof Hd as []. pose proof (total_blocks_range _ co_type0).
  unfold classic_serialize, CLASSIC_TYPE_UNKNOWN. rewrite !(proj2 (Z.eqb_neq _ _)) by lia. cbn [orb]. cbv zeta.
  rewrite (proj2 (Z.ltb_ge _ _)) by lia. by rewrite (writes_run _ _ out (classic_writes d Hd) Hl).
Qed.

(** ** Reading it back *)

(** What has been read before the blocks. *)
Definition classic_read_so_far (type : Z) (uid : list Z) (n sak a0 a1 : Z) (mask : list Z) (ka kb : Z) : classic_data_t :=
  {| c_type := type; c_uid := uid ++ zeros (10 - n); c_uid_len := n; c_sak := sak; c_atqa := [a0; a1];
     c_block_read_mask := mask; c_key_a_mask := ka; c_key_b_mask := kb; c_blocks := c_blocks classic_zero |}.

Lemma zero_blocks : len (c_blocks classic_zero) = CLASSIC_BLOCKS_IN_MODEL ∧
  Forall (λ b, len b = CLASSIC_BLOCK_SIZE) (c_blocks classic_zero) ∧ Forall bytes (c_blocks classic_zero).
Proof.
  pose proof classic_block_count_range. unfold CLASSIC_BLOCKS_IN_MODEL. split; [|split].
  - cbn. unfold len, CLASSIC_BLOCKS_IN_MODEL. rewrite length_replicate. lia.
  - apply Forall_replicate. done.
  - apply Forall_replicate, bytes_zeros.
Qed.

Lemma parse_classic_header type uid n sak a0 a1 rest : 0 <= type <= 2 → 1 <= n <= 10 → len uid = n →
  let inp := [CLASSIC_FORMAT_VERSION; type; n] ++ uid ++ [sak; a0; a1] ++ rest in
  classic_parse inp (len inp) 0 =
  classic_parse_body inp (len inp) (classic_with_header type (uid ++ zeros (10 - n)) n sak [a0; a1] classic_zero) (6 + n) ∧
  ahead inp (6 + n) rest.
Proof.
  intros Ht Hn Hu inp. pose proof (ahead_start inp) as Ha. unfold inp at 2 in Ha. cbn [app] in Ha.
  assert (len inp = 6 + n + len rest) as Hl by (unfold inp; llia). pose proof (len_nonneg rest).
  unfold classic_parse, CLASSIC_TYPE_UNKNOWN, CLASSIC_TYPE_4K. rewrite (proj2 (Z.ltb_ge _ _)) by lia.
  rget Ha. change (negb (CLASSIC_FORMAT_VERSION =? CLASSIC_FORMAT_VERSION)) with false. cbv iota.
  rget Ha. rewrite (proj2 (Z.eqb_neq type _)), (proj2 (Z.ltb_ge _ type)) by lia. cbn [orb].
  rget Ha. rewrite (proj2 (Z.eqb_neq n 0)), (proj2 (Z.ltb_ge _ n)) by lia. cbn [orb]. rewrite run_gets. cbn [id].
  revert Ha. zadds. intros Ha. rewrite (proj2 (Z.ltb_ge _ _)) by lia.
  rewrite (run_read_into _ _ _ _ uid _ _ Ha) by (done || (cbn; unfold zeros, len; rewrite length_replicate; lia)).
  apply ahead_app in Ha as [Ha _]. rewrite Hu in Ha. rget Ha.
  cbn [fill c_atqa classic_with_header classic_zero].
  assert (drop (length uid) (zeros 10) = zeros (10 - n)) as Hz.
  { unfold zeros. rewrite drop_replicate. f_equal. unfold len in Hu. lia. }
  cbn [c_uid classic_with_header classic_zero]. rewrite Hz.
  change (zeros 2) with [0; 0]. rewrite run_bind. change (ld [0; 0] 0) with (Some 0). rewrite run_lift_Some, run_bind.
  rget Ha. change (st [0; 0] 0 a0) with (Some [a0; 0]). rewrite run_bind, run_lift_Some, run_bind.
  change (ld [a0; 0] (0 + 1)) with (Some 0). rewrite run_lift_Some, run_bind.
  rget Ha. change (st [a0; 0] (0 + 1) a1) with (Some [a0; a1]). rewrite run_bind, run_lift_Some, run_ret.
  replace (3 + n + 1 + 1 + 1) with (6 + n) in * by lia. by split.
Qed.

Lemma parse_body inp d off mask ka kb rest : length mask = 8%nat → Forall (λ w, 0 <= w < 256 ^ 4) mask →
  0 <= ka < 256 ^ 8 → 0 <= kb < 256 ^ 8 → length (c_block_read_mask d) = 8%nat →
  ahead inp off (mjoin (le_bytes 4 <$> mask) ++ le_bytes 8 ka ++ le_bytes 8 kb ++ rest) →
  classic_parse_body inp (len inp) d off =
  classic_parse_blocks inp (len inp) (classic_with_keys ka kb (classic_with_block (c_blocks d) mask d)) (off + 48) ∧
  ahead inp (off + 48) rest.
Proof.
  intros Hm Hw Hka Hkb Hd Ha. assert (len mask = 8) as Hml by (unfold len; by rewrite Hm).
  assert (∀ v, len (le_bytes 8 v) = 8) as H8 by (intros v; unfold len; by rewrite le_bytes_len).
  pose proof (ahead_len _ _ _ Ha) as Hl. rewrite !len_app, mask_len, !H8, Hml in Hl. pose proof (len_nonneg rest).
  unfold classic_parse_body, CLASSIC_BLOCK_MASK_WORDS. rewrite run_gets. cbn [id]. rewrite (proj2 (Z.ltb_ge _ _)) by lia.
  pose proof (fill_spec inp (λ _ : Z, get_le 4 0 inp 0) (le_bytes 4) (λ _, True) mask) as Hf.
  assert (∀ o (a x : Z) l', x ∈ mask → True → ahead inp o (le_bytes 4 x ++ l') →
    get_le 4 0 inp 0 o = Some (x, o + len (le_bytes 4 x))) as Hb.
  { intros o _ x l' Hx _ Ho.
    pose proof (proj1 (List.Forall_forall _ _) Hw x (proj1 (list_elem_of_In _ _) Hx)) as Hxr. cbn beta in Hxr.
    rewrite (get_le_reads inp 4 0 o 0 (le_bytes 4 x) l') by (done || apply le_bytes_bytes || apply le_bytes_len).
    rewrite le_val_bytes by exact Hxr. change (256 ^ 0) with 1. by rewrite Z.mul_1_l. }
  specialize (Hf Hb [] (c_block_read_mask d) off _ ltac:(by apply Forall_true) ltac:(lia) Ha). cbn [app] in Hf.
  change (len []) with 0 in Hf. rewrite Hm in Hf. rewrite drop_ge, app_nil_r in Hf by lia.
  change (Z.to_nat 8) with 8%nat. rewrite (run_call _ _ _ _ _ Hf). apply ahead_app in Ha as [Ha _]. rewrite mask_len, Hml in Ha |- *.
  rewrite (run_get_le inp 8 _ _ _ _ (le_bytes_len 8 ka) (le_bytes_bytes 8 ka) Ha), le_val_bytes, H8 by done.
  apply ahead_app in Ha as [Ha _]. rewrite H8 in Ha.
  rewrite (run_get_le inp 8 _ _ _ _ (le_bytes_len 8 kb) (le_bytes_bytes 8 kb) Ha), le_val_bytes, H8 by done.
  apply ahead_app in Ha as [Ha _]. rewrite H8 in Ha. replace (off + 4 * 8 + 8 + 8) with (off + 48) in * by lia. by split.
Qed.

Lemma parse_blocks inp d off rest : ahead inp off rest → 0 <= c_type d <= 2 → len (c_blocks d) = CLASSIC_BLOCKS_IN_MODEL →
  Forall (λ b, len b = CLASSIC_BLOCK_SIZE) (c_blocks d) →
  let n := classic_get_total_blocks (c_type d) in
  (CLASSIC_BLOCKS_IN_MODEL < n → classic_parse_blocks inp (len inp) d off = Some ((- ENOSPC, d), off)) ∧
  (n <= CLASSIC_BLOCKS_IN_MODEL → len rest ≠ n * CLASSIC_BLOCK_SIZE → classic_parse_blocks inp (len inp) d off = Some ((- EBADMSG, d), off)) ∧
  (∀ xs, n <= CLASSIC_BLOCKS_IN_MODEL → rest = mjoin xs → len xs = n → Forall (λ b, len b = CLASSIC_BLOCK_SIZE) xs → ∃ off',
    classic_parse_blocks inp (len inp) d off =
    Some ((0, classic_with_block (xs ++ drop (Z.to_nat n) (c_blocks d)) (c_block_read_mask d) d), off')).
Proof.
  intros Ha Ht Hb Hbs n. pose proof (total_blocks_range _ Ht) as Hn. fold n in Hn. pose proof (ahead_len _ _ _ Ha) as Hl.
  unfold classic_parse_blocks. rewrite !run_gets. cbn [id]. fold n. cbv zeta. split; [|split].
  - intros Hlt. by rewrite (proj2 (Z.ltb_lt _ _)).
  - intros Hle Hne. rewrite (proj2 (Z.ltb_ge _ _)) by done. by rewrite (proj2 (Z.eqb_neq _ _)) by lia.
  - intros xs Hle -> Hxl Hxs. rewrite (proj2 (Z.ltb_ge _ _)) by done. rewrite (mjoin_len _ _ Hxs) in Hl.
    unfold CLASSIC_BLOCK_SIZE in *. rewrite (proj2 (Z.eqb_eq _ _)) by lia. cbn [negb].
    rewrite <-(app_nil_r (mjoin xs)) in Ha. replace (Z.to_nat n) with (length xs) by (unfold len in Hxl; lia).
    rewrite (run_fill inp off (c_blocks d) xs 16 [] _ Ha) by (done || (unfold len in *; lia)). by eexists.
Qed.

Lemma classic_read_back d d0 out n0 : classic_ok d → len (classic_blob d) <= len out →
  ∃ o n, classic_serialize (Some d) (Some out) (len out) (Some n0) = Some (0, Some o, Some n) ∧
    len o = len out ∧ classic_deserialize (Some d0) (sub o 0 n) n = Some (0, Some d).
Proof.
  intros Hd Hl. eexists _, _. split; [by apply classic_serialize_ok|]. split; [llia|].
  rewrite sub_prefix by done. unfold classic_deserialize. destruct (classic_stored_ok d Hd) as [Hsl Hsf]. pose proof Hd as [].
  assert (∃ a0 a1, c_atqa d = [a0; a1]) as (a0 & a1 & Hat).
  { destruct (c_atqa d) as [|a0 [|a1 [|]]]; try (exfalso; unfold len in *; cbn in *; lia). by exists a0, a1. }
  set (rest := mjoin (le_bytes 4 <$> c_block_read_mask d) ++ le_bytes 8 (c_key_a_mask d) ++ le_bytes 8 (c_key_b_mask d) ++ mjoin (classic_stored d)).
  assert (classic_blob d = [CLASSIC_FORMAT_VERSION; c_type d; c_uid_len d] ++ take (Z.to_nat (c_uid_len d)) (c_uid d) ++
    [c_sak d; a0; a1] ++ rest) as Hblob by (unfold classic_blob; by rewrite Hat). rewrite Hblob.
  destruct (parse_classic_header (c_type d) (take (Z.to_nat (c_uid_len d)) (c_uid d)) (c_uid_len d) (c_sak d) a0 a1 rest) as [-> Ha]; [done|done|llia|].
  unfold rest in Ha at 2. destruct co_keys0. set (inp := [_; _; _] ++ _) in *.
  destruct (parse_body inp (classic_with_header (c_type d) (take (Z.to_nat (c_uid_len d)) (c_uid d) ++ zeros (10 - c_uid_len d)) (c_uid_len d)
    (c_sak d) [a0; a1] classic_zero) _ _ (c_key_a_mask d) (c_key_b_mask d) _ co_mask0 co_mask_words0 ltac:(done) ltac:(done) eq_refl Ha) as [-> Ha2].
  destruct zero_blocks as (Hzl & Hzs & _). set (d1 := classic_with_keys _ _ _).
  destruct (parse_blocks inp d1 _ _ Ha2) as (_ & _ & Hok); [done..|].
  destruct (Hok (classic_stored d)) as (off & ->); [done..|]. mred. f_equal. f_equal. f_equal.
  unfold classic_with_block, d1. cbn. rewrite <-co_uid_padding0, take_drop, <-Hat.
  assert (classic_stored d ++ drop (Z.to_nat (classic_get_total_blocks (c_type d))) (replicate (Z.to_nat CLASSIC_BLOCKS_IN_MODEL) (zeros CLASSIC_BLOCK_SIZE)) = c_blocks d) as ->; [|by destruct d].
  rewrite drop_replicate. pose proof (total_blocks_range _ co_type0).
  replace (Z.to_nat CLASSIC_BLOCKS_IN_MODEL - _)%nat with (Z.to_nat (CLASSIC_BLOCKS_IN_MODEL - classic_get_total_blocks (c_type d))) by lia.
  rewrite <-co_blocks_padding0. apply take_drop.
Qed.

(** ** Any input *)

Definition classic_verdict (inp : list Z) (r : option (Z * classic_data_t)) : Prop :=
  ∃ ret d, r = Some (ret, d) ∧ (ret = 0 ∨ ret = - EBADMSG ∨ ret = - ENOSPC) ∧ (ret = 0 → classic_ok d ∧ inp = classic_blob d).

Lemma verdict_bad inp d : classic_verdict inp (Some (- EBADMSG, d)).
Proof. exists (- EBADMSG), d. split; [done|]. split; [tauto|done]. Qed.

(** The last part: everything before the blocks is as in a well-formed model. *)
Lemma parse_blocks_verdict inp type uid n sak a0 a1 mask ka kb rest off : bytes inp → 0 <= type <= 2 → 1 <= n <= 10 → len uid = n →
  length mask = 8%nat → Forall (λ w, 0 <= w < 256 ^ 4) mask → 0 <= ka < 256 ^ 8 → 0 <= kb < 256 ^ 8 → ahead inp off rest →
  inp = [CLASSIC_FORMAT_VERSION; type; n] ++ uid ++ [sak; a0; a1] ++ mjoin (le_bytes 4 <$> mask) ++ le_bytes 8 ka ++ le_bytes 8 kb ++ rest →
  classic_verdict inp (fst <$> classic_parse_blocks inp (len inp) (classic_read_so_far type uid n sak a0 a1 mask ka kb) off).
Proof.
  intros Hb Ht Hn Hu Hm Hmw Hka Hkb Ha Hinp. destruct zero_blocks as (Hzl & Hzs & Hzb). set (d := classic_read_so_far _ _ _ _ _ _ _ _ _).
  pose proof (total_blocks_range _ Ht) as Htot. pose proof classic_block_count_range.
  destruct (parse_blocks inp d off rest Ha Ht Hzl Hzs) as (Hsp & Hbad & Hok). change (c_type d) with type in *.
  set (total := classic_get_total_blocks type) in *.
  destruct (decide (CLASSIC_BLOCKS_IN_MODEL < total)) as [Hlt|Hge].
  { rewrite (Hsp Hlt). exists (- ENOSPC), d. split; [done|]. split; [tauto|done]. }
  destruct (decide (len rest = total * CLASSIC_BLOCK_SIZE)) as [Hrl|Hne].
  2: { rewrite (Hbad ltac:(lia) Hne). apply verdict_bad. }
  destruct (split_chunks rest (Z.to_nat total) CLASSIC_BLOCK_SIZE) as (xs & Hrest & Hxl & Hxs); [done|rewrite Z2Nat.id by lia; done|].
  destruct (Hok xs) as (off' & ->); [lia|done|unfold len; lia|done|].
  eexists _, _. split; [done|]. split; [by left|]. intros _.
  assert (bytes rest) as Hrb by (by eapply ahead_bytes). rewrite Hrest, bytes_mjoin in Hrb.
  rewrite Hinp in Hb. rewrite !bytes_app in Hb. destruct Hb as (_ & Hub & Hab & _). inv_bytes.
  assert (drop (Z.to_nat total) (c_blocks classic_zero) = replicate (Z.to_nat (CLASSIC_BLOCKS_IN_MODEL - total)) (zeros CLASSIC_BLOCK_SIZE)) as Hpad.
  { cbn. rewrite drop_replicate. f_equal. lia. }
  split.
  - constructor; cbn [d c_type c_uid c_uid_len c_sak c_atqa c_block_read_mask c_key_a_mask c_key_b_mask c_blocks classic_with_block classic_read_so_far]; fold total; try done.
    + lia.
    + llia.
    + apply bytes_app. auto with nfc.
    + rewrite drop_app_length' by (unfold len in Hu; lia). done.
    + by bytes_list.
    + rewrite Hpad. unfold len in *. rewrite length_app, length_replicate, Hxl. cbn in Hzl. lia.
    + rewrite Hpad. apply Forall_app. split; [done|]. by apply Forall_replicate.
    + rewrite Hpad. apply Forall_app. split; [done|]. apply Forall_replicate, bytes_zeros.
    + rewrite drop_app_length' by (unfold len; lia). done.
  - rewrite Hinp at 1. unfold classic_blob, classic_stored. cbn. fold total.
    rewrite take_app_length' by (unfold len in Hu; lia). rewrite Hrest. by rewrite take_app_length' by lia.
Qed.

(** Masks of any bytes. *)
Lemma words_of_bytes (l : list Z) n : bytes l → len l = Z.of_nat n * 4 →
  ∃ ws, l = mjoin (le_bytes 4 <$> ws) ∧ length ws = n ∧ Forall (λ w, 0 <= w < 256 ^ 4) ws.
Proof.
  intros Hb Hl. destruct (split_chunks l n 4) as (xs & -> & Hn & Hx); [done|done|]. rewrite bytes_mjoin in Hb.
  exists (le_val <$> xs). rewrite length_fmap. split; [|split; [done|]].
  - f_equal. clear Hn Hl. induction Hx as [|x xs Hx _ IH]; [done|]. apply Forall_cons_iff in Hb as [Hxb Hb].
    cbn [fmap list_fmap]. rewrite <-IH by done. f_equal. replace 4%nat with (length x) by (unfold len in Hx; lia). by rewrite le_bytes_val.
  - clear Hn Hl. induction Hx as [|x xs Hx _ IH]; [constructor|]. apply Forall_cons_iff in Hb as [Hxb Hb].
    constructor; [|by apply IH]. pose proof (le_val_range x Hxb) as Hr. by rewrite Hx in Hr.
Qed.

Lemma classic_parse_total inp : bytes inp → classic_verdict inp (fst <$> classic_parse inp (len inp) 0).
Proof.
  intros Hb. destruct (decide (len inp < 4)) as [Hs|Hs].
  { unfold classic_parse. rewrite (proj2 (Z.ltb_lt _ _)) by lia. apply verdict_bad. }
  destruct inp as [|v [|type [|n inp1]]]; try (exfalso; unfold len in Hs; cbn in Hs; lia).
  set (inp := v :: type :: n :: inp1) in *. pose proof (ahead_start inp) as Ha. unfold inp at 2 in Ha.
  assert (len inp = 3 + len inp1) as Hl by (unfold inp; llia). pose proof Hb as Hb'. unfold inp in Hb'. inv_bytes.
  destruct (decide (v = CLASSIC_FORMAT_VERSION ∧ 0 <= type <= 2 ∧ 1 <= n <= 10 ∧ n + 3 <= len inp1)) as [Hok|Hbad].
  2: { unfold classic_parse, CLASSIC_TYPE_UNKNOWN, CLASSIC_TYPE_4K, is_byte in *. rewrite (proj2 (Z.ltb_ge _ _)) by lia.
    rget Ha. case_bool; bool_prop; [apply verdict_bad|]. rget Ha. case_bool; bool_prop; [apply verdict_bad|].
    rget Ha. case_bool; bool_prop; [apply verdict_bad|]. rewrite run_gets. cbn [id].
    rewrite (proj2 (Z.ltb_lt _ _)) by lia. apply verdict_bad. }
  destruct Hok as (-> & Ht & Hn & Hlen). destruct (len_split inp1 n) as (uid & l2 & -> & Hu); [lia|].
  rewrite len_app in Hlen, Hl. destruct l2 as [|sak [|a0 [|a1 rest]]]; try (exfalso; unfold len in *; cbn in *; lia).
  assert (len (sak :: a0 :: a1 :: rest) = 3 + len rest) as H3 by llia.
  destruct (parse_classic_header type uid n sak a0 a1 rest Ht Hn Hu) as [Hp Ha2].
  change ([CLASSIC_FORMAT_VERSION; type; n] ++ uid ++ [sak; a0; a1] ++ rest) with inp in *. rewrite Hp. clear Hp.
  destruct (decide (len rest < 48)) as [Hshort|Hlong].
  { unfold classic_parse_body, CLASSIC_BLOCK_MASK_WORDS. rewrite run_gets. cbn [id].
    rewrite (proj2 (Z.ltb_lt _ _)) by lia. apply verdict_bad. }
  pose proof (ahead_bytes _ _ _ Hb Ha2) as Hrb.
  destruct (len_split rest 32) as (mk & r1 & -> & Hmk); [lia|]. rewrite len_app in Hlong.
  destruct (len_split r1 8) as (kab & r2 & -> & Hkab); [lia|]. rewrite len_app in Hlong.
  destruct (len_split r2 8) as (kbb & r3 & -> & Hkbb); [lia|]. rewrite !bytes_app in Hrb. destruct Hrb as (Hmb & Hkabb & Hkbbb & Hrb).
  destruct (words_of_bytes mk 8 Hmb Hmk) as (mask & -> & Hm & Hmw).
  assert (∀ l, bytes l → len l = 8 → le_bytes 8 (le_val l) = l) as H8.
  { intros l Hlb Hll. replace 8%nat with (length l) by (unfold len in Hll; lia). by apply le_bytes_val. }
  rewrite <-(H8 kab Hkabb Hkab), <-(H8 kbb Hkbbb Hkbb) in Ha2.
  pose proof (le_val_range kab Hkabb) as Hka. pose proof (le_val_range kbb Hkbbb) as Hkb. rewrite Hkab in Hka. rewrite Hkbb in Hkb.
  destruct (parse_body inp (classic_with_header type (uid ++ zeros (10 - n)) n sak [a0; a1] classic_zero) _ mask _ _ r3 Hm Hmw Hka Hkb eq_refl Ha2) as [-> Ha3].
  apply (parse_blocks_verdict inp type uid n sak a0 a1 mask (le_val kab) (le_val kbb) r3 _ Hb Ht Hn Hu Hm Hmw Hka Hkb Ha3).
  unfold inp. rewrite (H8 kab Hkabb Hkab), (H8 kbb Hkbbb Hkbb). done.
Qed.

(** C39: the persistent form of a MIFARE Classic card is exact.  A well-formed model whose blocks fit
    the configured array is stored in a buffer of sufficient size and read back as it was; and whatever
    bytes are given to the deserializer, it stays inside the input and the arrays and either refuses
    them with [-EBADMSG] or [-ENOSPC], or they are byte for byte the stored form of the well-formed
    model that it returns. *)
Theorem classic_codec :
  (∀ d d0 out n0, classic_ok d → len (classic_blob d) <= len out →
    ∃ o n, classic_serialize (Some d) (Some out) (len out) (Some n0) = Some (0, Some o, Some n) ∧
      len o = len out ∧ classic_deserialize (Some d0) (sub o 0 n) n = Some (0, Some d)) ∧
  (∀ d0 inp, bytes inp →
    ∃ ret d, classic_deserialize (Some d0) (Some inp) (len inp) = Some (ret, Some d) ∧
      (ret = 0 ∨ ret = - EBADMSG ∨ ret = - ENOSPC) ∧ (ret = 0 → classic_ok d ∧ inp = classic_blob d)).
Proof.
  split; [intros; by apply classic_read_back|]. intros d0 inp Hb.
  destruct (classic_parse_total inp Hb) as (ret & d & Hrun & Hv). exists ret, d. split; [|done].
  unfold classic_deserialize. destruct (classic_parse inp (len inp) 0) as [[[ret' d'] off]|]; [|done].
  injection Hrun as -> ->. done.
Qed.
End Codec.
