(* ===== verification/ClassicListener.v ===== *)
(** * MIFARE Classic listener ([src/nfc/protocols/classic/classic_listener.c])

    A MIFARE Classic card as the reader sees it: the three-pass authentication for a sector, then READ
    in the cipher.  The second half gives the card as a function of its model and its session
    ([tag_step]) and proves that the listener is that card. *)

From stdpp Require Import base list numbers option.
From S2P Require Import Prelude Kconfig Service Serial Word32 Crc Response Crypto1 ClassicCipher Classic.

Definition CLASSIC_LISTENER_NT_SIZE : Z := 4.
Definition CLASSIC_LISTENER_NRAR_SIZE : Z := 8.

(** The static variables of the file; the five of the authentication are a record of their own. *)
Record classic_auth := { ca_crypto : crypto1; ca_nt : list Z; ca_block : Z; ca_pending : bool; ca_complete : bool }.
Record classic_state := {
  cs_model : classic_data_t;
  cs_initialized : bool;
  cs_auth : classic_auth;
  cs_resp : list Z;
  cs_sent : list (list Z);
}.

Definition cs_with_model (m : classic_data_t) (s : classic_state) : classic_state :=
  {| cs_model := m; cs_initialized := cs_initialized s; cs_auth := cs_auth s; cs_resp := cs_resp s; cs_sent := cs_sent s |}.
Definition cs_with_initialized (b : bool) (s : classic_state) : classic_state :=
  {| cs_model := cs_model s; cs_initialized := b; cs_auth := cs_auth s; cs_resp := cs_resp s; cs_sent := cs_sent s |}.
Definition cs_with_auth (a : classic_auth) (s : classic_state) : classic_state :=
  {| cs_model := cs_model s; cs_initialized := cs_initialized s; cs_auth := a; cs_resp := cs_resp s; cs_sent := cs_sent s |}.
Definition ca_with_crypto (c : crypto1) (a : classic_auth) : classic_auth :=
  {| ca_crypto := c; ca_nt := ca_nt a; ca_block := ca_block a; ca_pending := ca_pending a; ca_complete := ca_complete a |}.
Definition ca_with_flags (pending complete : bool) (a : classic_auth) : classic_auth :=
  {| ca_crypto := ca_crypto a; ca_nt := ca_nt a; ca_block := ca_block a; ca_pending := pending; ca_complete := complete |}.
Definition ca_with_challenge (nt : list Z) (block : Z) (a : classic_auth) : classic_auth :=
  {| ca_crypto := ca_crypto a; ca_nt := nt; ca_block := block; ca_pending := ca_pending a; ca_complete := ca_complete a |}.

(** A change of the authentication's variables. *)
Definition change_auth (f : classic_auth → classic_auth) : M classic_state unit := modify (λ s, cs_with_auth (f (cs_auth s)) s).

#[global] Instance classic_resp : RespBuf classic_state.
Proof.
  refine {|
    resp := cs_resp;
    with_resp r s := {| cs_model := cs_model s; cs_initialized := cs_initialized s; cs_auth := cs_auth s; cs_resp := r; cs_sent := cs_sent s |};
    with_sent b s := {| cs_model := cs_model s; cs_initialized := cs_initialized s; cs_auth := cs_auth s; cs_resp := cs_resp s;
                        cs_sent := cs_sent s ++ [b] |};
  |}; try done. by intros [].
Defined.
#[global] Instance classic_resp_sent : RespSent classic_state.
Proof. by refine {| sent := cs_sent |}. Defined.

(** What the automatic arrays [at_enc] and [plain] hold before they are written. *)
Record classic_locals := { cl_at : list Z; cl_plain : list Z }.

(** ** The handlers *)

Section ClassicListener.
Context `{Kconfig} (u : classic_locals).

Definition classic_power_up : classic_state :=
  {| cs_model := {| c_type := 0; c_uid := zeros 10; c_uid_len := 0; c_sak := 0; c_atqa := zeros 2;
                    c_block_read_mask := zeros CLASSIC_BLOCK_MASK_WORDS; c_key_a_mask := 0; c_key_b_mask := 0;
                    c_blocks := replicate (Z.to_nat CLASSIC_BLOCKS_IN_MODEL) (zeros CLASSIC_BLOCK_SIZE) |};
     cs_initialized := false;
     cs_auth := {| ca_crypto := {| k_odd := 0; k_even := 0 |}; ca_nt := zeros CLASSIC_LISTENER_NT_SIZE; ca_block := 0;
                   ca_pending := false; ca_complete := false |};
     cs_resp := zeros 32; cs_sent := [] |}.

Definition classic_listener_reset_auth : M classic_state unit :=
  a ← gets cs_auth;
  c ← lift (crypto1_reset (Some (ca_crypto a)));
  change_auth (λ a, ca_with_flags false false (ca_with_challenge (ca_nt a) 0 (ca_with_crypto c a))).

(** The loop of [classic_listener_key_a_for_block]: [n] more bytes from [i] on; six bytes stay below 2^64. *)
Fixpoint key_loop (n : nat) (i : Z) (block : list Z) (key : Z) : option Z :=
  match n with
  | O => Some key
  | S n => b ← ld block i; key_loop n (i + 1) block (Z.lor (Z.shiftl key 8) b)
  end.
Definition classic_listener_key_a_for_block (block_num : Z) : M classic_state Z :=
  m ← gets cs_model;
  let sector := classic_get_sector_by_block block_num in
  let first := classic_get_first_block_of_sector sector in
  let trailer := u8 (first + classic_get_blocks_in_sector sector - 1) in
  block ← lift (ld (c_blocks m) trailer);
  lift (key_loop (Z.to_nat CLASSIC_KEY_SIZE) 0 block 0).

(** The four bytes that a word is stored in. *)
Definition store_word (n : Z) : list Z :=
  [u8 (Z.land (shr n 24) 0xFF); u8 (Z.land (shr n 16) 0xFF); u8 (Z.land (shr n 8) 0xFF); u8 (Z.land n 0xFF)].

Definition classic_listener_make_nt (sector : Z) : list Z := store_word (u32 (0x10000000 + sector)).

Definition classic_listener_send : list Z → Z → M classic_state unit := send_response.

Definition classic_listener_block_valid (block_num : Z) : M classic_state bool :=
  m ← gets cs_model;
  let total := classic_get_total_blocks (c_type m) in
  mret (negb (c_type m =? CLASSIC_TYPE_UNKNOWN) && (block_num <? total)).

(** The cipher for a sector's key and a nonce, and the nonce sent. *)
Definition send_challenge (key cuid : Z) : M classic_state unit :=
  a ← gets cs_auth;
  nt_num ← lift (word_at (ca_nt a) 0);
  c ← lift (crypto1_reset (Some (ca_crypto a)));
  c ← lift (crypto1_init (Some c) key);
  change_auth (ca_with_crypto (crypto1_word c (Z.lxor nt_num cuid) 0).2) ;;
  classic_listener_send (ca_nt a) CLASSIC_LISTENER_NT_SIZE ;;
  change_auth (ca_with_flags true false).

(** The key type is not used. *)
Definition classic_listener_handle_auth_first (tx : list Z) (tx_len : Z) (key_b : bool) : M classic_state unit :=
  if negb (tx_len =? 2) then mret tt else
  classic_listener_reset_auth ;;
  block_num ← lift (ld tx 1);
  valid ← classic_listener_block_valid block_num;
  if negb valid then mret tt else
  let sector := classic_get_sector_by_block block_num in
  key ← classic_listener_key_a_for_block block_num;
  change_auth (ca_with_challenge (classic_listener_make_nt sector) block_num) ;;
  m ← gets cs_model;
  cuid ← lift (classic_cuid_from_uid (c_uid m) (c_uid_len m));
  send_challenge key cuid.

(** The tag's answer, once the reader's is right. *)
Definition send_answer (nt_num : Z) : M classic_state unit :=
  a ← gets cs_auth;
  '(c, at_enc) ← lift (crypto1_encrypt (Some (ca_crypto a)) None (Some (store_word (crypto1_prng_successor nt_num 96))) 4 (Some (cl_at u)));
  c ← lift c; at_enc ← lift at_enc;
  change_auth (ca_with_crypto c) ;;
  classic_listener_send at_enc 4 ;;
  change_auth (ca_with_flags false true).

Definition classic_listener_handle_auth_second (tx : list Z) (tx_len : Z) : M classic_state unit :=
  a ← gets cs_auth;
  if negb (tx_len =? CLASSIC_LISTENER_NRAR_SIZE) || negb (ca_pending a) then mret tt else
  nr_num ← lift (word_at tx 0); ar_num ← lift (word_at tx 4);
  let c := (crypto1_word (ca_crypto a) nr_num 1).2 in
  nt_num ← lift (word_at (ca_nt a) 0);
  let '(ks, c) := crypto1_word c 0 0 in
  change_auth (ca_with_crypto c) ;;
  let secret_poller := Z.lxor ar_num ks in
  if negb (secret_poller =? crypto1_prng_successor nt_num 64) then classic_listener_reset_auth else
  send_answer nt_num.

(** The answer to a READ of [block_num]. *)
Definition send_block (plain : list Z) (block_num : Z) : M classic_state unit :=
  s ← gets id;
  block ← lift (ld (c_blocks (cs_model s)) block_num);
  plain ← lift (memcpy plain 0 block 0 CLASSIC_BLOCK_SIZE);
  '(plain, plain_len) ← lift (iso14443_crc_append_a plain CLASSIC_BLOCK_SIZE);
  '(c, r) ← lift (crypto1_encrypt (Some (ca_crypto (cs_auth s))) None (Some plain) plain_len (Some (cs_resp s)));
  c ← lift c; r ← lift r;
  change_auth (ca_with_crypto c) ;; modify (with_resp r) ;;
  classic_listener_send r plain_len.

(** From the check of the decrypted command on. *)
Definition read_plain (plain : list Z) (plain_len : Z) : M classic_state unit :=
  ok ← lift (iso14443_crc_check_a plain plain_len);
  if negb ok then mret tt else
  '(plain, plain_len) ← lift (iso14443_crc_trim_a plain plain_len);
  command ← lift (ld plain 0);
  if negb (plain_len =? 2) || negb (command =? CLASSIC_CMD_READ_BLOCK) then mret tt else
  block_num ← lift (ld plain 1);
  valid ← classic_listener_block_valid block_num;
  if negb valid then mret tt else
  a ← gets cs_auth;
  let auth_sector := classic_get_sector_by_block (ca_block a) in
  let read_sector := classic_get_sector_by_block block_num in
  if negb (auth_sector =? read_sector) then mret tt else
  send_block plain block_num.

Definition classic_listener_handle_read (tx : list Z) (tx_len : Z) : M classic_state unit :=
  a ← gets cs_auth;
  if negb (ca_complete a) || negb (tx_len =? 4) then mret tt else
  '(c, plain) ← lift (crypto1_decrypt (Some (ca_crypto a)) (Some tx) tx_len (Some (cl_plain u)));
  c ← lift c; plain ← lift plain;
  change_auth (ca_with_crypto c) ;;
  read_plain plain tx_len.

Definition classic_listener_on_tag_cmd (tx : option (list Z)) (tx_len : Z) : M classic_state unit :=
  s ← gets id;
  match tx with
  | None => mret tt
  | Some t =>
    if negb (cs_initialized s) || (tx_len =? 0) then mret tt else
    if ca_pending (cs_auth s) && (tx_len =? CLASSIC_LISTENER_NRAR_SIZE) then classic_listener_handle_auth_second t tx_len else
    if tx_len =? 2 then
      command ← lift (ld t 0);
      if command =? CLASSIC_CMD_AUTH_KEY_A then classic_listener_handle_auth_first t tx_len false else
      if command =? CLASSIC_CMD_AUTH_KEY_B then classic_listener_handle_auth_first t tx_len true else mret tt
    else if ca_complete (cs_auth s) && (tx_len =? 4) then classic_listener_handle_read t tx_len else mret tt
  end.

Definition classic_listener_serialize (out : option (list Z)) (out_max : Z) (out_len : option Z)
    : M classic_state (Z * option (list Z) * option Z) :=
  s ← gets id;
  if negb (cs_initialized s) then mret (- ENODEV, out, out_len) else
  lift (classic_serialize (Some (cs_model s)) out out_max out_len).

Definition classic_listener_deserialize (inp : option (list Z)) (in_len : Z) : M classic_state Z :=
  s ← gets id;
  if negb (cs_initialized s) then mret (- ENODEV) else
  '(ret, m) ← lift (classic_deserialize (Some (cs_model s)) inp in_len);
  m ← lift m; modify (cs_with_model m) ;; mret ret.

Definition classic_listener_init (model : option classic_data_t) : M classic_state Z :=
  modify (cs_with_model (default classic_zero model)) ;;
  classic_listener_reset_auth ;; modify (cs_with_initialized true) ;; mret 0.

Definition classic_listener_shutdown : M classic_state Z :=
  modify (cs_with_model classic_zero) ;;
  classic_listener_reset_auth ;; modify (cs_with_initialized false) ;; mret 0.
End ClassicListener.

(** ** The card *)

Section Tag.
Context `{Kconfig}.

Definition classic_block (m : classic_data_t) (n : Z) : list Z := default [] (c_blocks m !! Z.to_nat n).

(** The last block of the sector of [b], whose first six bytes are key A. *)
Definition sector_trailer (b : Z) : Z :=
  let s := classic_get_sector_by_block b in classic_get_first_block_of_sector s + classic_get_blocks_in_sector s - 1.
Definition sector_key (m : classic_data_t) (b : Z) : Z :=
  foldl (λ key x, Z.lor (Z.shiftl key 8) x) 0 (take 6 (classic_block m (sector_trailer b))).

Definition classic_cuid (m : classic_data_t) : Z := default 0 (classic_cuid_from_uid (c_uid m) (c_uid_len m)).
Definition sector_nonce (b : Z) : Z := 0x10000000 + classic_get_sector_by_block b.

(** The cipher after the tag has sent its nonce. *)
Definition tag_start (m : classic_data_t) (b : Z) : crypto1 := started (sector_key m b) (classic_cuid m) (sector_nonce b).

Definition has_block (m : classic_data_t) (b : Z) : bool :=
  negb (c_type m =? CLASSIC_TYPE_UNKNOWN) && (b <? classic_get_total_blocks (c_type m)).

(** What the reader has got to: nothing, a nonce for the sector of [b], or that sector. *)
Inductive classic_phase := idle | challenged (b : Z) (c : crypto1) | opened (b : Z) (c : crypto1).

Record classic_tag := {
  ct_model : classic_data_t;
  ct_initialized : bool;
  ct_phase : classic_phase;
  ct_sent : list (list Z);
}.

Definition ct_with_phase (p : classic_phase) (t : classic_tag) : classic_tag :=
  {| ct_model := ct_model t; ct_initialized := ct_initialized t; ct_phase := p; ct_sent := ct_sent t |}.
(** A frame is sent. *)
Definition ct_answer (f : list Z) (p : classic_phase) (t : classic_tag) : classic_tag :=
  {| ct_model := ct_model t; ct_initialized := ct_initialized t; ct_phase := p; ct_sent := ct_sent t ++ [f] |}.

(** The block that a decrypted command reads, if it may in the sector of [b]. *)
Definition tag_reads (m : classic_data_t) (b : Z) (p : list Z) : option Z :=
  match p with
  | [command; n; _; _] =>
    if bool_decide (p = iso14443_frame [command; n]) && (command =? CLASSIC_CMD_READ_BLOCK) && has_block m n &&
       (classic_get_sector_by_block b =? classic_get_sector_by_block n) then Some n else None
  | _ => None
  end.

(** An authentication command, for key A or B alike. *)
Definition tag_auth (b : Z) (t : classic_tag) : classic_tag :=
  if has_block (ct_model t) b then ct_answer (word_bytes (sector_nonce b)) (challenged b (tag_start (ct_model t) b)) t
  else ct_with_phase idle t.

(** The reader's answer to the nonce. *)
Definition tag_proof (b : Z) (c : crypto1) (nr ar : Z) (t : classic_tag) : classic_tag :=
  match tag_checks c (sector_nonce b) nr ar with
  | Some c =>
    let '(f, c) := masked c (word_bytes (crypto1_prng_successor (sector_nonce b) 96)) in ct_answer f (opened b c) t
  | None => ct_with_phase idle t
  end.

(** An encrypted command. *)
Definition tag_read (b : Z) (c : crypto1) (tx : list Z) (t : classic_tag) : classic_tag :=
  let '(p, c) := masked c tx in
  match tag_reads (ct_model t) b p with
  | Some n => let '(f, c) := masked c (iso14443_frame (classic_block (ct_model t) n)) in ct_answer f (opened b c) t
  | None => ct_with_phase (opened b c) t
  end.

(** What a frame does to the card. *)
Definition tag_step (t : classic_tag) (tx : list Z) : classic_tag :=
  if negb (ct_initialized t) then t else
  match tx, ct_phase t with
  | [n0; n1; n2; n3; a0; a1; a2; a3], challenged b c => tag_proof b c (be32 n0 n1 n2 n3) (be32 a0 a1 a2 a3) t
  | [command; b], _ => if (command =? CLASSIC_CMD_AUTH_KEY_A) || (command =? CLASSIC_CMD_AUTH_KEY_B) then tag_auth b t else t
  | [_; _; _; _], opened b c => tag_read b c tx t
  | _, _ => t
  end.

Definition phase_of (a : classic_auth) : classic_phase :=
  if ca_pending a then challenged (ca_block a) (ca_crypto a) else if ca_complete a then opened (ca_block a) (ca_crypto a) else idle.
Definition tag_of (s : classic_state) : classic_tag :=
  {| ct_model := cs_model s; ct_initialized := cs_initialized s; ct_phase := phase_of (cs_auth s); ct_sent := cs_sent s |}.

(** ** The listener is that card *)

(** What keeps every access inside the arrays. *)
Record classic_safe (m : classic_data_t) : Prop := {
  cf_fits : c_type m ≠ CLASSIC_TYPE_UNKNOWN → classic_get_total_blocks (c_type m) <= CLASSIC_BLOCKS_IN_MODEL;
  cf_blocks : len (c_blocks m) = CLASSIC_BLOCKS_IN_MODEL;
  cf_block_size : Forall (λ b, len b = CLASSIC_BLOCK_SIZE) (c_blocks m);
  cf_block_bytes : Forall bytes (c_blocks m);
  cf_uid : len (c_uid m) = 10 ∧ bytes (c_uid m);
}.

Record classic_state_ok (s : classic_state) : Prop := {
  cso_model : classic_safe (cs_model s);
  cso_resp : len (cs_resp s) = 32;
  cso_flags : ca_pending (cs_auth s) = true → ca_complete (cs_auth s) = false;
  cso_nt : ca_pending (cs_auth s) = true → ca_nt (cs_auth s) = word_bytes (sector_nonce (ca_block (cs_auth s)));
}.

Definition classic_locals_ok (u : classic_locals) : Prop := len (cl_at u) = 4 ∧ len (cl_plain u) = 20.

(** [m] returns, and leaves the card as [t]. *)
Definition shows (m : M classic_state unit) (s : classic_state) (t : classic_tag) : Prop :=
  ∃ s', m s = Some (tt, s') ∧ tag_of s' = t ∧ classic_state_ok s'.

Lemma shows_call m m' s s1 t : m s = m' s1 → shows m' s1 t → shows m s t.
Proof. intros Heq (s' & Hrun & ?). exists s'. by rewrite Heq. Qed.

Lemma shows_nothing s : classic_state_ok s → shows (mret tt) s (tag_of s).
Proof. by exists s. Qed.

Lemma run_change {B} f (k : unit → M classic_state B) s : (change_auth f ≫= k) s = k tt (cs_with_auth (f (cs_auth s)) s).
Proof. done. Qed.

Lemma run_send_all {B} d n s (k : unit → M classic_state B) : len d = n → (classic_listener_send d n ≫= k) s = k tt (with_sent d s).
Proof. intros Hl. apply run_call. unfold classic_listener_send, send_response. by rewrite sub_whole. Qed.

Lemma store_word_bytes n : store_word n = word_bytes n.
Proof. unfold store_word, word_bytes. by rewrite !u8_land_255. Qed.
End Tag.

Section ClassicFacts.
Context `{Kconfig} (u : classic_locals) (Hu : classic_locals_ok u).

(** *** Keys and nonces *)

Lemma trailer_fits T b : T = 20 ∨ T = 64 ∨ T = 256 → is_byte b → b < T →
  0 <= sector_trailer b < T ∧ u8 (sector_trailer b) = sector_trailer b.
Proof.
  intros HT Hb Hlt. assert (∀ T, forallb (λ b, negb (b <? T) || ((0 <=? sector_trailer b) && (sector_trailer b <? T) &&
    (u8 (sector_trailer b) =? sector_trailer b))) (seqZ 0 256) = true → b < T →
    0 <= sector_trailer b < T ∧ u8 (sector_trailer b) = sector_trailer b) as Hall.
  { intros T' Hf Hlt'. pose proof (byte_all _ Hf b Hb) as Hb'. cbv beta in Hb'.
    rewrite (proj2 (Z.ltb_lt _ _) Hlt') in Hb'. cbn [negb orb] in Hb'. bool_prop. lia. }
  destruct HT as [-> | [-> | ->]]; by apply Hall; [vm_compute|].
Qed.

Lemma has_block_fits m b : classic_safe m → is_byte b → has_block m b = true →
  b < len (c_blocks m) ∧ 0 <= sector_trailer b < len (c_blocks m) ∧ u8 (sector_trailer b) = sector_trailer b ∧ classic_get_sector_by_block b < 256.
Proof.
  intros [Hf Hl _ _ _] Hb Hh. unfold has_block in Hh. bool_prop. rewrite Hl. specialize (Hf ltac:(done)).
  destruct (trailer_fits (classic_get_total_blocks (c_type m)) b) as [Ht Hu8]; [|done|done|].
  - unfold classic_get_total_blocks in *. repeat case_bool; auto. unfold is_byte in *. lia.
  - split; [lia|]. split; [lia|]. split; [done|]. unfold classic_get_sector_by_block.
    case_bool; [|apply u8_range]. apply u8_range.
Qed.

Lemma block_found m n : classic_safe m → 0 <= n < len (c_blocks m) →
  ld (c_blocks m) n = Some (classic_block m n) ∧ len (classic_block m n) = 16 ∧ bytes (classic_block m n).
Proof.
  intros [_ _ Hs Hb _] Hn. destruct (ld_Some (c_blocks m) n Hn) as [b Hld]. pose proof Hld as Hl2.
  apply ld_Some_inv in Hl2 as [_ Hl2]. unfold classic_block. rewrite Hl2. cbn [default]. split; [done|].
  pose proof (Forall_lookup_1 _ _ _ _ Hs Hl2) as Hlb. by split; [|apply (Forall_lookup_1 _ _ _ _ Hb Hl2)].
Qed.

Lemma key_loop_run n : ∀ pre l key, (n <= length l)%nat →
  key_loop n (len pre) (pre ++ l) key = Some (foldl (λ key x, Z.lor (Z.shiftl key 8) x) key (take n l)).
Proof.
  induction n as [|n IH]; intros pre l key Hl; [done|]. destruct l as [|b l]; [cbn in Hl; lia|]. cbn [key_loop take foldl].
  rewrite ld_mid by done. mred. change (pre ++ b :: l) with (pre ++ [b] ++ l). rewrite (assoc_L (++)).
  replace (len pre + 1) with (len (pre ++ [b])) by llia. apply IH. cbn in Hl. lia.
Qed.

Lemma key_run b s : classic_safe (cs_model s) → is_byte b → has_block (cs_model s) b = true →
  classic_listener_key_a_for_block b s = Some (sector_key (cs_model s) b, s).
Proof.
  intros Hm Hb Hh. destruct (has_block_fits _ b Hm Hb Hh) as (_ & Ht & Hu8 & _). unfold classic_listener_key_a_for_block.
  rewrite run_gets. cbv zeta. fold (sector_trailer b). rewrite Hu8. destruct (block_found _ _ Hm Ht) as (Hld & Hl & _).
  rewrite Hld, run_lift_Some. change (Z.to_nat CLASSIC_KEY_SIZE) with 6%nat.
  pose proof (key_loop_run 6 [] (classic_block (cs_model s) (sector_trailer b)) 0 ltac:(unfold len in Hl; lia)) as Hk.
  cbn [app] in Hk. change (len []) with 0 in Hk. rewrite Hk. done.
Qed.

Lemma cuid_run m : classic_safe m → classic_cuid_from_uid (c_uid m) (c_uid_len m) = Some (classic_cuid m).
Proof.
  intros [_ _ _ _ [Hl Hb]]. unfold classic_cuid, classic_cuid_from_uid.
  assert (∀ off, 0 <= off <= 6 → ∃ w, word_at (c_uid m) off = Some w) as Hw.
  { intros off Ho. unfold word_at. destruct (ld_Some (c_uid m) off) as [b0 ->]; [lia|].
    destruct (ld_Some (c_uid m) (off + 1)) as [b1 ->]; [lia|]. destruct (ld_Some (c_uid m) (off + 2)) as [b2 ->]; [lia|].
    destruct (ld_Some (c_uid m) (off + 3)) as [b3 ->]; [lia|]. mred. by eexists. }
  destruct (Hw (if c_uid_len m =? 7 then 3 else 0)) as [w ->]; [by case_bool|done].
Qed.

Lemma nonce_word b : classic_get_sector_by_block b < 256 → 0 <= classic_get_sector_by_block b →
  is_word (sector_nonce b) ∧ classic_listener_make_nt (classic_get_sector_by_block b) = word_bytes (sector_nonce b).
Proof.
  intros Hs H0. unfold sector_nonce, classic_listener_make_nt, is_word. split; [lia|]. rewrite store_word_bytes, u32_id by lia. done.
Qed.

Lemma sector_nonneg b : 0 <= classic_get_sector_by_block b.
Proof. unfold classic_get_sector_by_block. case_bool; apply u8_range. Qed.

Lemma word_at_word x : is_word x → word_at (word_bytes x) 0 = Some x.
Proof.
  intros Hx. pose proof (word_at_run (u8 (shr x 24)) (u8 (shr x 16)) (u8 (shr x 8)) (u8 x) [] [] (word_bytes_ok x)) as Hw.
  rewrite (be32_word_bytes x Hx) in Hw. exact Hw.
Qed.

(** *** The handlers *)

Definition reset_of (a : classic_auth) : classic_auth :=
  {| ca_crypto := {| k_odd := 0; k_even := 0 |}; ca_nt := ca_nt a; ca_block := 0; ca_pending := false; ca_complete := false |}.

Lemma run_reset {B} s (k : unit → M classic_state B) :
  (classic_listener_reset_auth ≫= k) s = k tt (cs_with_auth (reset_of (cs_auth s)) s).
Proof. done. Qed.

Lemma reset_shows s : classic_state_ok s → shows classic_listener_reset_auth s (ct_with_phase idle (tag_of s)).
Proof. intros []. exists (cs_with_auth (reset_of (cs_auth s)) s). by split; [|split; [|constructor]]. Qed.

Lemma run_valid {B} b s (k : bool → M classic_state B) :
  (classic_listener_block_valid b ≫= k) s = k (has_block (cs_model s) b) s.
Proof. done. Qed.

Lemma challenge_run key cuid nt s : is_word nt → ca_nt (cs_auth s) = word_bytes nt →
  send_challenge key cuid s =
  Some (tt, cs_with_auth (ca_with_flags true false (ca_with_crypto (started key cuid nt) (cs_auth s))) (with_sent (word_bytes nt) s)).
Proof.
  intros Hw Hnt. unfold send_challenge, started, crypto1_init. generalize crypto1_word, init_loop. intros cw il.
  rewrite run_gets, Hnt, (word_at_word _ Hw), run_lift_Some. cbn [crypto1_reset]. rewrite !run_lift_Some, run_change, run_send_all by done.
  reflexivity.
Qed.

Lemma auth_first_shows command b key_b s : classic_state_ok s → bytes [command; b] →
  shows (classic_listener_handle_auth_first [command; b] 2 key_b) s (tag_auth b (tag_of s)).
Proof.
  intros Hs Hb. inv_bytes. pose proof Hs as [Hm Hr _ _]. unfold classic_listener_handle_auth_first.
  change (negb (2 =? 2)) with false. cbv iota. eapply shows_call; [apply run_reset|]. set (s1 := cs_with_auth (reset_of (cs_auth s)) s).
  assert (classic_state_ok s1) as Hs1 by by constructor.
  eapply shows_call; [change (ld [command; b] 1) with (Some b); rewrite run_lift_Some, run_valid; reflexivity|].
  change (cs_model s1) with (cs_model s). unfold tag_auth. change (ct_model (tag_of s)) with (cs_model s).
  destruct (has_block (cs_model s) b) eqn:Hh; cbn [negb]; [|by apply (shows_nothing s1)]. cbv zeta.
  destruct (has_block_fits (cs_model s) b Hm) as (_ & _ & _ & Hsec); [done..|].
  destruct (nonce_word b Hsec (sector_nonneg b)) as [Hnw Hnt].
  eapply shows_call; [by rewrite (run_call _ _ _ _ _ (key_run b s1 Hm ltac:(done) Hh))|]. change (cs_model s1) with (cs_model s).
  eapply shows_call; [rewrite run_change, run_gets, Hnt; change (cs_model (cs_with_auth _ s1)) with (cs_model s);
    rewrite (cuid_run _ Hm), run_lift_Some; reflexivity|].
  set (s2 := cs_with_auth _ s1). eexists. split; [apply (challenge_run _ _ (sector_nonce b) s2); done|].
  unfold tag_start. generalize (started (sector_key (cs_model s) b) (classic_cuid (cs_model s)) (sector_nonce b)). intros c1.
  split; [reflexivity|by constructor].
Qed.

Lemma answer_shows b c s : classic_state_ok s → is_word (sector_nonce b) → ca_block (cs_auth s) = b → ca_crypto (cs_auth s) = c →
  shows (send_answer u (sector_nonce b)) s
    (let '(f, c) := masked c (word_bytes (crypto1_prng_successor (sector_nonce b) 96)) in ct_answer f (opened b c) (tag_of s)).
Proof.
  intros Hs Hw Hb Hc. pose proof Hs as []. destruct Hu as [Ha _]. unfold shows, send_answer.
  pose proof (crypto1_successor_word (sector_nonce b) 96 Hw) as Hsu. rewrite store_word_bytes, run_gets, Hc.
  set (w := word_bytes (crypto1_prng_successor (sector_nonce b) 96)).
  assert (len w = 4 ∧ bytes w) as [Hl Hwb] by (split; [done|apply word_bytes_ok]). clearbody w. clear Hsu.
  pose proof (encrypt_run c w [] (cl_at u) 4 Hwb (eq_sym Hl) ltac:(lia)) as He. rewrite app_nil_r in He. rewrite He, run_lift_Some. clear He.
  pose proof (masked_len c w) as Hml. destruct (masked c w) as [f c1]. cbn [fst snd] in *. rewrite !run_lift_Some.
  assert (over f (cl_at u) = f) as -> by (unfold over; rewrite drop_ge, app_nil_r; unfold len in *; [done|lia]).
  rewrite run_change, run_send_all by (unfold len in *; lia). eexists. split; [reflexivity|]. rewrite <-Hb. split; [reflexivity|by constructor].
Qed.

Lemma auth_second_shows n0 n1 n2 n3 a0 a1 a2 a3 s : classic_state_ok s → bytes [n0; n1; n2; n3; a0; a1; a2; a3] → ca_pending (cs_auth s) = true →
  is_word (sector_nonce (ca_block (cs_auth s))) →
  shows (classic_listener_handle_auth_second u [n0; n1; n2; n3; a0; a1; a2; a3] 8) s
    (tag_proof (ca_block (cs_auth s)) (ca_crypto (cs_auth s)) (be32 n0 n1 n2 n3) (be32 a0 a1 a2 a3) (tag_of s)).
Proof.
  intros Hs Hb Hp Hw. pose proof Hs as [Hm Hr _ Hnt]. specialize (Hnt Hp). unfold shows, classic_listener_handle_auth_second, tag_proof.
  assert (bytes [n0; n1; n2; n3] ∧ bytes [a0; a1; a2; a3]) as [Hnb Hab] by (inv_bytes; split; by bytes_list).
  rewrite run_gets, Hp. change (negb (8 =? CLASSIC_LISTENER_NRAR_SIZE) || negb true) with false. cbv iota.
  pose proof (word_at_run n0 n1 n2 n3 [] [a0; a1; a2; a3] Hnb) as Hw1. pose proof (word_at_run a0 a1 a2 a3 [n0; n1; n2; n3] [] Hab) as Hw2.
  cbn [app] in Hw1, Hw2. change (len []) with 0 in Hw1. change (len [n0; n1; n2; n3]) with 4 in Hw2. rewrite Hw1, Hw2, !run_lift_Some.
  destruct (crypto1_word (ca_crypto (cs_auth s)) (be32 n0 n1 n2 n3) 1) as [w c1] eqn:E1.
  destruct (crypto1_word c1 0 0) as [ks c2] eqn:E2. rewrite (tag_checks_steps _ _ _ _ _ _ _ _ E1 E2). cbv zeta. cbn [snd].
  rewrite Hnt, (word_at_word _ Hw), run_lift_Some, E2, run_change. clear E1 E2.
  set (s1 := cs_with_auth (ca_with_crypto c2 (cs_auth s)) s). assert (classic_state_ok s1) as Hs1 by by destruct Hs; constructor.
  destruct (Z.lxor (be32 a0 a1 a2 a3) ks =? crypto1_prng_successor (sector_nonce (ca_block (cs_auth s))) 64); cbn [negb].
  - by apply (answer_shows (ca_block (cs_auth s)) c2 s1).
  - by apply (reset_shows s1).
Qed.

(** *** Reading *)

Lemma block_shows b c plain n s : classic_state_ok s → phase_of (cs_auth s) = opened b c → len plain = 20 → 0 <= n < len (c_blocks (cs_model s)) →
  shows (send_block plain n) s
    (let '(f, c) := masked c (iso14443_frame (classic_block (cs_model s) n)) in ct_answer f (opened b c) (tag_of s)).
Proof.
  intros Hs Hph Hpl Hn. pose proof Hs as [Hm Hr _ _]. destruct (block_found _ n Hm Hn) as (Hld & Hbl & Hbb).
  unfold phase_of in Hph. destruct (ca_pending (cs_auth s)) eqn:Hpend; [done|]. destruct (ca_complete (cs_auth s)) eqn:Hco; [|done].
  injection Hph as Hb Hc. unfold shows, send_block, CLASSIC_BLOCK_SIZE. rewrite run_gets. cbn [id]. rewrite Hld, run_lift_Some.
  set (d := classic_block (cs_model s) n) in *. clearbody d.
  pose proof (memcpy_start d [] plain ltac:(lia)) as Hcp. rewrite app_nil_r, Hbl in Hcp. rewrite Hcp, run_lift_Some.
  pose proof (crc_a_append d plain Hbb ltac:(lia)) as Hap. rewrite Hbl in Hap. rewrite Hap, run_lift_Some. clear Hcp Hap.
  assert (len (iso14443_frame d) = 18 ∧ bytes (iso14443_frame d)) as [Hfl Hfb]
    by (unfold iso14443_frame; rewrite frame_len; split; [lia|by apply frame_bytes]).
  set (f := iso14443_frame d) in *. clearbody f. unfold over at 1. rewrite Hc.
  pose proof (encrypt_run c f (drop (length f) plain) (cs_resp s) (16 + 2) Hfb ltac:(lia) ltac:(lia)) as He.
  rewrite He, run_lift_Some. clear He. pose proof (masked_len c f) as Hml. destruct (masked c f) as [e c1]. cbn [fst snd] in *.
  rewrite !run_lift_Some, run_change, run_modify. unfold classic_listener_send.
  replace (16 + 2) with (len e) by (unfold len in *; lia). unfold send_response. rewrite sub_over, run_lift_Some.
  eexists. split; [reflexivity|]. split.
  - unfold tag_of, ct_answer, phase_of. cbn. by rewrite Hpend, Hco, Hb.
  - constructor; [done|cbn; by rewrite over_len by (unfold len in *; lia)|cbn; by rewrite Hpend..].
Qed.

Lemma plain_shows b c p s : classic_state_ok s → phase_of (cs_auth s) = opened b c → bytes p → len p = 4 →
  shows (read_plain (over p (cl_plain u)) 4) s
    match tag_reads (cs_model s) b p with
    | Some n => let '(f, c) := masked c (iso14443_frame (classic_block (cs_model s) n)) in ct_answer f (opened b c) (tag_of s)
    | None => tag_of s
    end.
Proof.
  intros Hs Hph Hpb Hpl. pose proof Hs as [Hm Hr _ _]. destruct Hu as [_ Hcl]. unfold shows, read_plain.
  destruct p as [|p0 [|p1 [|p2 [|p3 []]]]]; try (exfalso; unfold len in Hpl; cbn in Hpl; lia).
  set (p := [p0; p1; p2; p3]) in *. destruct (crc_a_check p (drop (length p) (cl_plain u)) Hpb) as (ok & Hck & Hiff).
  change (len p) with 4 in Hck. fold (over p (cl_plain u)) in Hck. rewrite Hck, run_lift_Some. clear Hck. unfold tag_reads, p. fold p.
  destruct ok; cbn [negb]; cycle 1.
  { rewrite bool_decide_false; [by apply shows_nothing|]. intros Heq. enough (false = true) by done. apply Hiff. exists [p0; p1]. by split. }
  destruct (proj1 Hiff eq_refl) as (q & _ & Hq). clear Hiff.
  assert (q = [p0; p1]) as ->.
  { unfold iso14443_frame, frame in Hq. set (crc := id _) in Hq. clearbody crc. destruct q as [|q0 [|q1 [|q2 q]]]; try done.
    - unfold p in Hq. by injection Hq as -> -> _ _.
    - exfalso. apply (f_equal length) in Hq. rewrite length_app in Hq. cbn in Hq. lia. }
  rewrite bool_decide_true by done. cbn [andb].
  pose proof (crc_a_trim [p0; p1] (cl_plain u)) as Htr. rewrite <-Hq in Htr. change (len [p0; p1] + 2) with 4 in Htr. change (len [p0; p1]) with 2 in Htr.
  rewrite Htr, run_lift_Some. change (ld (over ([p0; p1] ++ [0; 0]) (cl_plain u)) 0) with (Some p0). rewrite run_lift_Some.
  change (negb (2 =? 2)) with false. cbn [orb]. destruct (p0 =? CLASSIC_CMD_READ_BLOCK); cbn [negb andb]; [|by apply shows_nothing].
  change (ld (over ([p0; p1] ++ [0; 0]) (cl_plain u)) 1) with (Some p1). rewrite run_lift_Some, run_valid.
  assert (is_byte p1) as Hp1 by (unfold p in Hpb; by inv_bytes).
  destruct (has_block (cs_model s) p1) eqn:Hh; cbn [negb andb]; [|by apply shows_nothing].
  rewrite run_gets. cbv zeta.
  assert (ca_block (cs_auth s) = b) as ->.
  { unfold phase_of in Hph. destruct (ca_pending (cs_auth s)); [done|]. destruct (ca_complete (cs_auth s)); [|done]. by injection Hph. }
  destruct (classic_get_sector_by_block b =? classic_get_sector_by_block p1); cbn [negb]; [|by apply shows_nothing].
  destruct (has_block_fits _ p1 Hm Hp1 Hh) as [Hlt _]. unfold is_byte in Hp1.
  apply block_shows; [done|done| |lia]. rewrite over_len; [done|]. change (len ([p0; p1] ++ [0; 0])) with 4. lia.
Qed.

Lemma read_shows b c tx s : classic_state_ok s → phase_of (cs_auth s) = opened b c → bytes tx → len tx = 4 →
  shows (classic_listener_handle_read u tx 4) s (tag_read b c tx (tag_of s)).
Proof.
  intros Hs Hph Hb Hl. pose proof Hs as [Hm Hr Hfl Hnt]. destruct Hu as [_ Hcl]. unfold shows, classic_listener_handle_read, tag_read.
  assert (ca_pending (cs_auth s) = false ∧ ca_complete (cs_auth s) = true ∧ ca_block (cs_auth s) = b ∧ ca_crypto (cs_auth s) = c) as (Hp & Hc & Hbl & Hcr).
  { unfold phase_of in Hph. destruct (ca_pending (cs_auth s)); [done|]. destruct (ca_complete (cs_auth s)); [|done]. by injection Hph. }
  rewrite run_gets, Hc, Hcr. change (negb true || negb (4 =? 4)) with false. cbv iota.
  pose proof (decrypt_run c tx [] (cl_plain u) 4 Hb (eq_sym Hl) ltac:(lia)) as Hd. rewrite app_nil_r in Hd. rewrite Hd, run_lift_Some. clear Hd.
  pose proof (masked_len c tx) as Hml. pose proof (masked_bytes c tx Hb) as Hmb. destruct (masked c tx) as [p c1]. cbn [fst snd] in *.
  rewrite !run_lift_Some, run_change. set (s1 := cs_with_auth (ca_with_crypto c1 (cs_auth s)) s).
  assert (phase_of (cs_auth s1) = opened b c1) as Hph1 by (unfold phase_of, s1; cbn; by rewrite Hp, Hc, Hbl).
  assert (classic_state_ok s1) as Hs1 by (constructor; try done; cbn; by rewrite Hp).
  pose proof (plain_shows b c1 p s1 Hs1 Hph1 Hmb ltac:(unfold len in *; lia)) as Hsh.
  assert (tag_of s1 = ct_with_phase (opened b c1) (tag_of s)) as Ht
    by (unfold tag_of, ct_with_phase; by rewrite Hph1).
  change (cs_model s1) with (cs_model s) in Hsh. change (ct_model (tag_of s)) with (cs_model s).
  rewrite Ht in Hsh. destruct (tag_reads (cs_model s) b p) as [n|]; exact Hsh.
Qed.

Lemma sector_byte b : is_byte (classic_get_sector_by_block b).
Proof. unfold classic_get_sector_by_block. case_bool; apply u8_range. Qed.

Lemma tag_step_shows s tx : classic_state_ok s → bytes tx →
  shows (classic_listener_on_tag_cmd u (Some tx) (len tx)) s (tag_step (tag_of s) tx).
Proof.
  intros Hs Hb. pose proof Hs as [_ _ Hfl _]. unfold shows, classic_listener_on_tag_cmd, tag_step. rewrite run_gets. cbn [id].
  change (ct_initialized (tag_of s)) with (cs_initialized s). destruct (cs_initialized s); cbn [negb orb]; [|by apply shows_nothing].
  change (ct_phase (tag_of s)) with (phase_of (cs_auth s)). unfold CLASSIC_LISTENER_NRAR_SIZE.
  assert (∀ b c, phase_of (cs_auth s) = opened b c → ca_pending (cs_auth s) = false ∧ ca_complete (cs_auth s) = true) as Hop.
  { intros b c Hph. unfold phase_of in Hph. destruct (ca_pending (cs_auth s)); [done|]. by destruct (ca_complete (cs_auth s)). }
  destruct tx as [|x0 [|x1 [|x2 [|x3 [|x4 [|x5 [|x6 [|x7 [|x8 tx]]]]]]]]];
    try (change (len [x0; x1; x2; x3; x4; x5; x6; x7]) with 8);
    try (match goal with |- context [len ?l] => change (len l) with (Z.of_nat (length l)); cbn [length] end);
    try (rewrite !(proj2 (Z.eqb_neq _ _)) by lia; rewrite ?andb_false_r; destruct (phase_of (cs_auth s)); by apply shows_nothing).
  - by apply shows_nothing.
  - change (Z.of_nat 2) with 2. rewrite andb_false_r. change (2 =? 2) with true. change (2 =? 0) with false. cbv iota.
    change (ld [x0; x1] 0) with (Some x0). rewrite run_lift_Some.
    destruct (x0 =? CLASSIC_CMD_AUTH_KEY_A); cbn [orb]; [by apply auth_first_shows|].
    destruct (x0 =? CLASSIC_CMD_AUTH_KEY_B); [by apply auth_first_shows|by apply shows_nothing].
  - change (Z.of_nat 4) with 4. rewrite andb_false_r. change (4 =? 0) with false. change (4 =? 2) with false. change (4 =? 4) with true. cbv iota.
    rewrite andb_true_r. destruct (phase_of (cs_auth s)) as [|b c|b c] eqn:Hph.
    + unfold phase_of in Hph. destruct (ca_pending (cs_auth s)); [done|]. destruct (ca_complete (cs_auth s)); [done|]. by apply shows_nothing.
    + unfold phase_of in Hph. destruct (ca_pending (cs_auth s)); [|by destruct (ca_complete (cs_auth s))]. rewrite Hfl by done. by apply shows_nothing.
    + destruct (Hop b c eq_refl) as [_ ->]. by apply read_shows.
  - change (8 =? 8) with true. change (8 =? 0) with false. change (8 =? 2) with false. change (8 =? 4) with false.
    rewrite andb_true_r, andb_false_r. unfold phase_of. destruct (ca_pending (cs_auth s)) eqn:Hp.
    + apply auth_second_shows; [done|done|done|]. apply nonce_word; [apply sector_byte|apply sector_nonneg].
    + destruct (ca_complete (cs_auth s)); by apply shows_nothing.
Qed.

(** The frames one after the other. *)
Fixpoint classic_deliver (txs : list (list Z)) : M classic_state unit :=
  match txs with [] => mret tt | tx :: txs => classic_listener_on_tag_cmd u (Some tx) (len tx) ;; classic_deliver txs end.

Lemma classic_delivers txs s : classic_state_ok s → Forall bytes txs →
  ∃ s', classic_deliver txs s = Some (tt, s') ∧ tag_of s' = foldl tag_step (tag_of s) txs ∧ classic_state_ok s'.
Proof.
  intros Hs Hb. revert s Hs. induction Hb as [|tx txs Htx _ IH]; intros s Hs; [by exists s|].
  destruct (tag_step_shows s tx Hs Htx) as (s1 & Hrun & Ha & Hs1). destruct (IH s1 Hs1) as (s2 & Hrun2 & Ha2 & Hs2).
  exists s2. cbn [classic_deliver foldl]. rewrite (run_call _ _ _ _ _ Hrun), <-Ha. done.
Qed.

(** C35: the MIFARE Classic listener refines the card that [tag_step] describes.  For a listener whose card's type has
    no more blocks than the build's array, whose buffers have their sizes and whose authentication flags agree
    ([classic_state_ok], which every frame keeps; a 4K image refused by a build with the smaller array
    breaks it, see the findings), whatever frames
    arrive, each of them is handled inside the arrays, and the listener's model, how far the reader has
    got (nothing, a nonce, a sector), the cipher and the frames sent are those of the card: a nonce for
    every authentication command of an existing block, an answer to a right authenticator, and the
    encrypted block for a READ of the authenticated sector. *)
Theorem classic_listener_refines txs s : classic_state_ok s → Forall bytes txs →
  ∃ s', classic_deliver txs s = Some (tt, s') ∧ tag_of s' = foldl tag_step (tag_of s) txs ∧ classic_state_ok s'.
Proof. apply classic_delivers. Qed.
End ClassicFacts.

(** ** Access to the blocks *)

Section Guard.
Context `{Kconfig}.

(** At some point the reader was given the nonce for the sector of [b] and answered it with the sector's key. *)
Definition authenticated (t0 : classic_tag) (txs : list (list Z)) (b : Z) : Prop :=
  ∃ pre n0 n1 n2 n3 a0 a1 a2 a3 post, txs = pre ++ [n0; n1; n2; n3; a0; a1; a2; a3] :: post ∧
    ct_phase (foldl tag_step t0 pre) = challenged b (tag_start (ct_model t0) b) ∧
    tag_checks (tag_start (ct_model t0) b) (sector_nonce b) (be32 n0 n1 n2 n3) (be32 a0 a1 a2 a3) ≠ None.

(** No sector for which [secret] holds has been authenticated to. *)
Definition locked (secret : Z → bool) (t0 : classic_tag) (txs : list (list Z)) : Prop :=
  ∀ b, secret (classic_get_sector_by_block b) = true → ¬ authenticated t0 txs b.

(** Two cards of the same type and UID whose sectors are the same but for the secret ones: those may differ in
    their data, their access bits and their keys. *)
Record same_but (secret : Z → bool) (m1 m2 : classic_data_t) : Prop := {
  sb_type : c_type m1 = c_type m2;
  sb_uid : c_uid m1 = c_uid m2;
  sb_uid_len : c_uid_len m1 = c_uid_len m2;
  sb_blocks : ∀ n, is_byte n → secret (classic_get_sector_by_block n) = false → classic_block m1 n = classic_block m2 n;
}.

Lemma trailer_sector b : is_byte b →
  is_byte (sector_trailer b) ∧ classic_get_sector_by_block (sector_trailer b) = classic_get_sector_by_block b.
Proof.
  intros Hb. pose (ok := λ b, (0 <=? sector_trailer b) && (sector_trailer b <? 256) &&
    (classic_get_sector_by_block (sector_trailer b) =? classic_get_sector_by_block b)).
  assert (ok b = true) as Hok.
  { assert (forallb (λ n, ok (Z.of_nat n)) (seq 0 256) = true) as Hall by (vm_compute; reflexivity).
    apply forallb_forall with (x := Z.to_nat b) in Hall; [by rewrite Z2Nat.id in Hall by apply Hb|].
    apply in_seq. unfold is_byte in Hb. lia. }
  unfold ok in Hok. bool_prop. split; [unfold is_byte; lia|done].
Qed.

Section TwoCards.
Context (secret : Z → bool) (m1 m2 : classic_data_t) (Hsame : same_but secret m1 m2).

Lemma same_has_block n : has_block m1 n = has_block m2 n.
Proof. destruct Hsame as [Ht _ _ _]. unfold has_block. by rewrite Ht. Qed.

Lemma same_start b : is_byte b → secret (classic_get_sector_by_block b) = false → tag_start m1 b = tag_start m2 b.
Proof.
  intros Hb Hs. destruct Hsame as [_ Hu Hl Hbl]. destruct (trailer_sector b Hb) as [Ht Hts].
  assert (sector_key m1 b = sector_key m2 b) as Hk by (unfold sector_key; rewrite Hbl by congruence; reflexivity).
  assert (classic_cuid m1 = classic_cuid m2) as Hc by (unfold classic_cuid; rewrite Hu, Hl; reflexivity).
  unfold tag_start. rewrite Hk, Hc. reflexivity.
Qed.

(** The readers of the two cards have got equally far. *)
Definition same_phase (p1 p2 : classic_phase) : Prop :=
  match p1, p2 with
  | idle, idle => True
  | challenged b1 c1, challenged b2 c2 => b1 = b2 ∧ is_byte b1 ∧ c1 = tag_start m1 b1 ∧ c2 = tag_start m2 b1
  | opened b1 c1, opened b2 c2 => b1 = b2 ∧ c1 = c2 ∧ secret (classic_get_sector_by_block b1) = false
  | _, _ => False
  end.

Record same_tags (t1 t2 : classic_tag) : Prop := {
  stg_model1 : ct_model t1 = m1;
  stg_model2 : ct_model t2 = m2;
  stg_initialized : ct_initialized t1 = ct_initialized t2;
  stg_phase : same_phase (ct_phase t1) (ct_phase t2);
  stg_sent : ct_sent t1 = ct_sent t2;
}.

Lemma same_answer t1 t2 f p1 p2 : same_tags t1 t2 → same_phase p1 p2 → same_tags (ct_answer f p1 t1) (ct_answer f p2 t2).
Proof. intros [? ? ? _ Hs] Hp. constructor; [done|done|done|done|]. cbn. by rewrite Hs. Qed.

Lemma same_with_phase t1 t2 p1 p2 : same_tags t1 t2 → same_phase p1 p2 → same_tags (ct_with_phase p1 t1) (ct_with_phase p2 t2).
Proof. intros [? ? ? _ Hs] Hp. by constructor. Qed.

Lemma same_auth b t1 t2 : is_byte b → same_tags t1 t2 → same_tags (tag_auth b t1) (tag_auth b t2).
Proof.
  intros Hb Hst. pose proof Hst as [H1 H2 _ _ _]. unfold tag_auth. rewrite H1, H2, same_has_block.
  destruct (has_block m2 b); [|by apply same_with_phase]. apply same_answer; [exact Hst|].
  unfold same_phase. split; [reflexivity|]. split; [exact Hb|]. split; reflexivity.
Qed.

Lemma same_read b c tx t1 t2 : secret (classic_get_sector_by_block b) = false → bytes tx → same_tags t1 t2 →
  same_tags (tag_read b c tx t1) (tag_read b c tx t2).
Proof.
  intros Hb Htx Hst. pose proof Hst as [H1 H2 _ _ _]. unfold tag_read. rewrite H1, H2.
  pose proof (masked_bytes c tx Htx) as Hp. destruct (masked c tx) as [p c1]. cbn [fst] in Hp.
  assert (tag_reads m1 b p = tag_reads m2 b p) as Hr.
  { unfold tag_reads. destruct p as [|? [|? [|? [|? []]]]]; try reflexivity. rewrite same_has_block. reflexivity. }
  rewrite Hr. destruct (tag_reads m2 b p) as [n|] eqn:Hn; [|apply same_with_phase; [exact Hst|]].
  - assert (is_byte n ∧ classic_get_sector_by_block b = classic_get_sector_by_block n) as [Hnb Hsec].
    { unfold tag_reads in Hn. destruct p as [|p0 [|p1 [|p2 [|p3 []]]]]; try discriminate Hn.
      destruct (bool_decide _); [|discriminate Hn]. destruct (p0 =? _); [|discriminate Hn]. destruct (has_block m2 p1); [|discriminate Hn].
      destruct (classic_get_sector_by_block b =? classic_get_sector_by_block p1) eqn:Hsec; [|discriminate Hn].
      cbn [andb] in Hn. injection Hn as <-. bool_prop. split; [by inv_bytes|exact Hsec]. }
    rewrite (sb_blocks _ _ _ Hsame n Hnb) by congruence. destruct (masked c1 _) as [f c2]. apply same_answer; [exact Hst|].
    unfold same_phase. split; [reflexivity|]. split; [reflexivity|exact Hb].
  - unfold same_phase. split; [reflexivity|]. split; [reflexivity|exact Hb].
Qed.

Lemma same_proof b c1 c2 nr ar t1 t2 : is_byte b → c1 = tag_start m1 b → c2 = tag_start m2 b → same_tags t1 t2 →
  (secret (classic_get_sector_by_block b) = true →
   tag_checks (tag_start m1 b) (sector_nonce b) nr ar = None ∧ tag_checks (tag_start m2 b) (sector_nonce b) nr ar = None) →
  same_tags (tag_proof b c1 nr ar t1) (tag_proof b c2 nr ar t2).
Proof.
  intros Hb -> -> Hst Hsec. unfold tag_proof. destruct (secret (classic_get_sector_by_block b)) eqn:Hs.
  - destruct (Hsec eq_refl) as [-> ->]. by apply same_with_phase.
  - clear Hsec. rewrite (same_start b Hb Hs). destruct (tag_checks _ _ _ _) as [c|]; [|by apply same_with_phase].
    destruct (masked c _) as [f c']. apply same_answer; [exact Hst|]. unfold same_phase. split; [reflexivity|]. split; [reflexivity|exact Hs].
Qed.

Lemma authenticated_snoc t0 txs tx b : authenticated t0 txs b → authenticated t0 (txs ++ [tx]) b.
Proof.
  intros (pre & n0 & n1 & n2 & n3 & a0 & a1 & a2 & a3 & post & -> & Hp).
  exists pre, n0, n1, n2, n3, a0, a1, a2, a3, (post ++ [tx]). by rewrite <-(assoc_L (++)).
Qed.

(** A proof of the key, sent last, would have authenticated. *)
Lemma locked_refuses t0 txs n0 n1 n2 n3 a0 a1 a2 a3 b :
  locked secret t0 (txs ++ [[n0; n1; n2; n3; a0; a1; a2; a3]]) → secret (classic_get_sector_by_block b) = true →
  ct_phase (foldl tag_step t0 txs) = challenged b (tag_start (ct_model t0) b) →
  tag_checks (tag_start (ct_model t0) b) (sector_nonce b) (be32 n0 n1 n2 n3) (be32 a0 a1 a2 a3) = None.
Proof.
  intros Hl Hs Hp. destruct (tag_checks _ _ _ _) eqn:Hc; [|reflexivity]. exfalso. apply (Hl b Hs).
  exists txs, n0, n1, n2, n3, a0, a1, a2, a3, []. split; [reflexivity|]. split; [exact Hp|]. rewrite Hc. discriminate.
Qed.

(** The two cards send the same. *)
Lemma same_steps t1 t2 txs : same_tags t1 t2 → ct_phase t1 = idle → Forall bytes txs →
  locked secret t1 txs → locked secret t2 txs → same_tags (foldl tag_step t1 txs) (foldl tag_step t2 txs).
Proof.
  intros Hst Hidle. pose proof Hst as [Hm1 Hm2 _ _ _].
  induction txs as [|tx txs IH] using rev_ind; intros Hb Hl1 Hl2; [exact Hst|].
  apply Forall_app in Hb as [Hbs Htx]. apply Forall_cons_iff in Htx as [Htx _].
  specialize (IH Hbs (λ b Hs Ha, Hl1 b Hs (authenticated_snoc _ _ _ _ Ha)) (λ b Hs Ha, Hl2 b Hs (authenticated_snoc _ _ _ _ Ha))).
  rewrite !foldl_snoc. pose proof (locked_refuses t1 txs) as Hr1. pose proof (locked_refuses t2 txs) as Hr2. rewrite Hm1 in Hr1. rewrite Hm2 in Hr2.
  set (u1 := foldl tag_step t1 txs) in *. set (u2 := foldl tag_step t2 txs) in *. clearbody u1 u2.
  pose proof IH as [_ _ Hi Hp _]. unfold tag_step. rewrite Hi. destruct (ct_initialized u2); cbn [negb]; [|exact IH].
  destruct tx as [|x0 [|x1 [|x2 [|x3 [|x4 [|x5 [|x6 [|x7 [|x8 tx]]]]]]]]]; try (destruct (ct_phase u1), (ct_phase u2); exact IH).
  - destruct (_ || _); [|destruct (ct_phase u1), (ct_phase u2); exact IH]. apply same_auth; [by inv_bytes|exact IH].
  - destruct (ct_phase u1) as [| |b1 c1], (ct_phase u2) as [| |b2 c2]; try exact IH; try (exfalso; exact Hp).
    destruct Hp as (<- & <- & Hs). by apply same_read.
  - destruct (ct_phase u1) as [|b1 c1|] eqn:Hph1, (ct_phase u2) as [|b2 c2|] eqn:Hph2; try exact IH; try (exfalso; exact Hp).
    destruct Hp as (<- & Hbyte & -> & ->). apply same_proof; [exact Hbyte|reflexivity|reflexivity|exact IH|].
    intros Hs. split; [by eapply Hr1|by eapply Hr2].
Qed.
End TwoCards.
End Guard.

(** C36: the sectors of a MIFARE Classic card are secret without their key.  Take two cards of the same type and UID
    whose blocks agree except in some secret sectors, where they may differ in everything: the data,
    the access bits and the keys.  Whatever frames an attacker sends to the one and to the other, starting from a listener that nobody
    has authenticated to and whose type's blocks fit the arrays, both send exactly the same frames, and so tell nothing of the secret sectors,
    unless one of the frames authenticates to a secret sector of one of the cards: answers the
    card's nonce for that sector as only the cipher started with the sector's key A does. *)
Theorem classic_blocks_guarded `{Kconfig} u secret txs s1 s2 s1' s2' : classic_locals_ok u →
  classic_state_ok s1 → classic_state_ok s2 → Forall bytes txs →
  same_but secret (cs_model s1) (cs_model s2) → cs_initialized s1 = cs_initialized s2 →
  phase_of (cs_auth s1) = idle → phase_of (cs_auth s2) = idle → cs_sent s1 = cs_sent s2 →
  locked secret (tag_of s1) txs → locked secret (tag_of s2) txs →
  classic_deliver u txs s1 = Some (tt, s1') → classic_deliver u txs s2 = Some (tt, s2') → cs_sent s1' = cs_sent s2'.
Proof.
  intros Hu Hs1 Hs2 Hb Hsame Hi Hp1 Hp2 Hsent Hl1 Hl2 Hrun1 Hrun2.
  destruct (classic_delivers u Hu txs s1 Hs1 Hb) as (r1 & Hr1 & Ht1 & _). rewrite Hrun1 in Hr1. injection Hr1 as <-.
  destruct (classic_delivers u Hu txs s2 Hs2 Hb) as (r2 & Hr2 & Ht2 & _). rewrite Hrun2 in Hr2. injection Hr2 as <-.
  change (ct_sent (tag_of s1') = ct_sent (tag_of s2')). rewrite Ht1, Ht2.
  apply (stg_sent secret (cs_model s1) (cs_model s2)), same_steps; [exact Hsame| |exact Hp1|exact Hb|exact Hl1|exact Hl2].
  constructor; [reflexivity|reflexivity|exact Hi| |exact Hsent]. cbn [ct_phase tag_of]. by rewrite Hp1, Hp2.
Qed.
