(* ===== verification/ClassicPoller.v ===== *)
(** * MIFARE Classic poller ([src/nfc/protocols/classic/classic_poller.c])

    Reading a MIFARE Classic card in the field with the default key: the type, then sector by sector the
    authentication and the blocks.  The card is the parameter [tag_transceive] as in the other pollers. *)

From stdpp Require Import base list numbers option.
From S2P Require Import Prelude Kconfig Transport Service Serial Word32 Crc Crypto1 Classic Session.

Definition CLASSIC_AUTH_NR_SIZE : Z := 4.
Definition CLASSIC_AUTH_AT_SIZE : Z := 4.
Definition CLASSIC_NT_SIZE : Z := 4.

(** What the automatic arrays hold before they are written. *)
Record classic_arrays := { cp_nt : list Z; cp_tx_auth : list Z; cp_tx_plain : list Z; cp_tx_enc : list Z; cp_rx_plain : list Z }.

(** [crypto1_byte] on [n] bytes of [nr] from [i] on, and on [n] zero bytes; the results are dropped. *)
Fixpoint feed_loop (n : nat) (i : Z) (c : crypto1) (nr : list Z) : option crypto1 :=
  match n with O => Some c | S n => b ← ld nr i; feed_loop n (i + 1) (crypto1_byte c b 0).2 nr end.
Definition skip_bytes (n : nat) (c : crypto1) : crypto1 := Nat.iter n (λ c, (crypto1_byte c 0 0).2) c.

Section ClassicPoller.
Context `{Kconfig} {C : Type} (tag_transceive : list Z → M C (Z * list Z)).
(** [nrs sector] is the four bytes that the authentication for that sector draws from the cycle counter,
    or the constant of the test build. *)
Context (u : classic_arrays) (nrs : Z → list Z).

Definition classic_poller_session_valid (s : option session) : Z :=
  match s with None => - EINVAL | Some s => if negb (ses_active s) then - EINVAL else 0 end.

(** The return value and the bytes received. *)
Definition classic_poller_transceive (s : option session) (tx : list Z) : M C (Z * list Z) :=
  '(ret, rx) ← nfc_reader_session_transceive tag_transceive s tx;
  if (ret =? 0) && (NFC_TRANSPORT_MAX_RESPONSE_LEN <? len rx) then lift None else mret (ret, rx).

(** The return value and [nt]. *)
Definition classic_poller_get_nt (s : option session) (block_num : Z) (nt : list Z) : M C (Z * list Z) :=
  '(ret, rx) ← classic_poller_transceive s [CLASSIC_CMD_AUTH_KEY_A; block_num];
  if negb (ret =? 0) then mret (ret, nt) else
  if negb (len rx =? CLASSIC_NT_SIZE) then mret (- EIO, nt) else
  nt ← lift (memcpy nt 0 rx 0 CLASSIC_NT_SIZE); mret (0, nt).

(** The cipher of a session that has been agreed, made anew from the key and both nonces; the two
    successors of [nt_num] are not used. *)
Definition follow_session (c : crypto1) (key cuid : Z) (nt nr : list Z) : option crypto1 :=
  nt_num ← word_at nt 0;
  c ← crypto1_init (Some c) key;
  c ← feed_loop 4 0 (crypto1_word c (Z.lxor nt_num cuid) 0).2 nr;
  Some (crypto1_word (skip_bytes 4 c) 0 0).2.

(** The return value and the cipher. *)
Definition classic_poller_auth (s : option session) (c : crypto1) (d : classic_data_t) (block_num key : Z) (nr : list Z)
    : M C (Z * crypto1) :=
  '(ret, nt) ← classic_poller_get_nt s block_num (cp_nt u);
  if negb (ret =? 0) then mret (ret, c) else
  cuid ← lift (classic_cuid_from_uid (c_uid d) (c_uid_len d));
  '(c, tx_auth) ← lift (crypto1_encrypt_reader_nonce (Some c) key cuid (Some nt) (Some nr) (Some (cp_tx_auth u)));
  c ← lift c; tx_auth ← lift tx_auth;
  '(ret, rx) ← classic_poller_transceive s tx_auth;
  if negb (ret =? 0) then mret (ret, c) else
  if negb (len rx =? CLASSIC_AUTH_AT_SIZE) then mret (- EIO, c) else
  c ← lift (follow_session c key cuid nt nr); mret (0, c).

(** The return value, the cipher and [out]. *)
Definition classic_poller_read_block (s : option session) (c : crypto1) (block_num : Z) (out : list Z) : M C (Z * crypto1 * list Z) :=
  tx_plain ← lift (st (cp_tx_plain u) 0 CLASSIC_CMD_READ_BLOCK); tx_plain ← lift (st tx_plain 1 block_num);
  '(tx_plain, tx_len) ← lift (iso14443_crc_append_a tx_plain 2);
  '(c, tx_enc) ← lift (crypto1_encrypt (Some c) None (Some tx_plain) tx_len (Some (cp_tx_enc u)));
  c ← lift c; tx_enc ← lift tx_enc;
  tx ← lift (sub tx_enc 0 tx_len);
  '(ret, rx_enc) ← classic_poller_transceive s tx;
  if negb (ret =? 0) then mret (ret, c, out) else
  if len rx_enc <? CLASSIC_BLOCK_SIZE + ISO14443_CRC_SIZE then mret (- EIO, c, out) else
  '(c, rx_plain) ← lift (crypto1_decrypt (Some c) (Some rx_enc) (len rx_enc) (Some (cp_rx_plain u)));
  c ← lift c; rx_plain ← lift rx_plain;
  ok ← lift (iso14443_crc_check_a rx_plain (len rx_enc));
  if negb ok then mret (- EIO, c, out) else
  '(rx_plain, plain_len) ← lift (iso14443_crc_trim_a rx_plain (len rx_enc));
  if negb (plain_len =? CLASSIC_BLOCK_SIZE) then mret (- EIO, c, out) else
  out ← lift (memcpy out 0 rx_plain 0 CLASSIC_BLOCK_SIZE); mret (0, c, out).

Definition classic_poller_detect_type (s : option session) : M C Z :=
  '(ret, nt) ← classic_poller_get_nt s 254 (cp_nt u);
  if ret =? 0 then mret CLASSIC_TYPE_4K else
  '(ret, _) ← classic_poller_get_nt s 62 nt;
  if ret =? 0 then mret CLASSIC_TYPE_1K else mret CLASSIC_TYPE_MINI.

Definition classic_poller_detect (s : option session) : M C Z :=
  let ret := classic_poller_session_valid s in
  if negb (ret =? 0) then mret ret else
  '(ret, _) ← classic_poller_get_nt s 0 (cp_nt u);
  if negb (ret =? 0) then mret (- ENOTSUP) else mret 0.

Definition classic_with_uid (uid : list Z) (uid_len : Z) (d : classic_data_t) : classic_data_t :=
  classic_with_header (c_type d) uid uid_len (c_sak d) (c_atqa d) d.

(** What blocks 0 and 1 tell of the UID. *)
Definition note_uid (block_num : Z) (buf : list Z) (d : classic_data_t) : option classic_data_t :=
  if block_num =? 0 then
    b0 ← ld buf 0;
    if b0 =? 0x88 then
      uid ← memcpy (c_uid d) 0 buf 1 4; sak ← ld buf 6;
      a0 ← ld buf 7; atqa ← st (c_atqa d) 0 a0; a1 ← ld buf 8; atqa ← st atqa 1 a1;
      Some (classic_with_header (c_type d) uid 7 sak atqa d)
    else if negb (b0 =? 0) then
      uid ← memcpy (c_uid d) 0 buf 0 4; sak ← ld buf 5;
      a0 ← ld buf 6; atqa ← st (c_atqa d) 0 a0; a1 ← ld buf 7; atqa ← st atqa 1 a1;
      Some (classic_with_header (c_type d) uid 4 sak atqa d)
    else Some d
  else if (block_num =? 1) && (c_uid_len d =? 7) then
    uid ← memcpy (c_uid d) 4 buf 0 3; Some (classic_with_uid uid (c_uid_len d) d)
  else Some d.

(** The body of the block loop once the block is in [buf]. *)
Definition keep_block (sector block_num : Z) (buf : list Z) (d : classic_data_t) : option classic_data_t :=
  d ← classic_set_block_read (Some d) block_num (Some buf); d ← d;
  d ← note_uid block_num buf d;
  if classic_is_sector_trailer block_num then classic_set_key_found (Some d) sector true CLASSIC_DEFAULT_KEY else Some d.

(** [n] more blocks of a sector from index [i] on; what the function has returned, if it has, [block_buf] and [*out].  [authed] is true. *)
Fixpoint block_loop (n : nat) (i : Z) (s : option session) (c : crypto1) (sector first blocks_total : Z) (buf : list Z) (d : classic_data_t)
    : M C (option Z * list Z * classic_data_t) :=
  match n with
  | O => mret (None, buf, d)
  | S n =>
    let block_num := u8 (first + i) in
    if blocks_total <=? block_num then mret (None, buf, d) else
    '(ret, c, buf) ← classic_poller_read_block s c block_num buf;
    if negb (ret =? 0) then mret (Some ret, buf, d) else
    d ← lift (keep_block sector block_num buf d);
    block_loop n (u8 (i + 1)) s c sector first blocks_total buf d
  end.

(** [n] more sectors. *)
Fixpoint sector_loop (n : nat) (sector : Z) (s : option session) (blocks_total : Z) (buf : list Z) (d : classic_data_t)
    : M C (option Z * classic_data_t) :=
  match n with
  | O => mret (None, d)
  | S n =>
    let first_block := classic_get_first_block_of_sector sector in
    let block_count := classic_get_blocks_in_sector sector in
    '(ret, c) ← classic_poller_auth s {| k_odd := 0; k_even := 0 |} d first_block CLASSIC_DEFAULT_KEY (nrs sector);
    if negb (ret =? 0) then sector_loop n (u8 (sector + 1)) s blocks_total buf d else
    d ← lift (classic_set_key_found (Some d) sector false CLASSIC_DEFAULT_KEY);
    '(r, buf, d) ← block_loop (Z.to_nat block_count) 0 s c sector first_block blocks_total buf d;
    match r with Some ret => mret (Some ret, d) | None => sector_loop n (u8 (sector + 1)) s blocks_total buf d end
  end.

(** The UID the controller has reported. *)
Definition reported_uid (s : session) (d : classic_data_t) : option classic_data_t :=
  let t := ses_tag s in
  if ti_valid t && (0 <? uid_len (ti_uid t)) then
    let n := if 10 <? uid_len (ti_uid t) then 10 else uid_len (ti_uid t) in
    uid ← memcpy (c_uid d) 0 (uid_bytes (ti_uid t)) 0 n; Some (classic_with_uid uid n d)
  else Some d.

(** The return value and what [out] points to; [buf0] is what [block_buf] holds at first. *)
Definition classic_poller_read (buf0 : list Z) (s : option session) (out : option classic_data_t) : M C (Z * option classic_data_t) :=
  let ret := classic_poller_session_valid s in
  if negb (ret =? 0) then mret (ret, out) else
  match s, out with
  | Some ses, Some _ =>
    d ← lift (reported_uid ses classic_zero);
    type ← classic_poller_detect_type s;
    let d := classic_with_header type (c_uid d) (c_uid_len d) (c_sak d) (c_atqa d) d in
    if type =? CLASSIC_TYPE_UNKNOWN then mret (- ENOTSUP, Some d) else
    '(r, d) ← sector_loop (Z.to_nat (classic_get_total_sectors type)) 0 s (classic_get_total_blocks type) buf0 d;
    match r with
    | Some ret => mret (ret, Some d)
    | None =>
      read ← lift (classic_is_block_read (Some d) 0);
      if negb read then mret (- EIO, Some d) else mret (0, Some d)
    end
  | _, _ => mret (- EINVAL, out)
  end.
End ClassicPoller.
