(* ===== verification/ClassicReads.v ===== *)
(** * Reading a MIFARE Classic card

    The poller in front of a card that answers as [tag_step] says, as the listener of another device
    does: first the exchanges, then what a whole read stores.  The interface between poller and card
    is the class [MifareCard], which the listener implements. *)

From stdpp Require Import base list numbers option.
From S2P Require Import Prelude Kconfig Transport Service Serial Word32 Crc Response Crypto1 ClassicCipher Classic ClassicListener Session ClassicPoller.

(** ** The interface between the poller and a card *)

(** The answer to a frame: its bytes, or an error. *)
Definition replies {C} (tag_transceive : list Z → M C (Z * list Z)) (tx : list Z) (c : C) (r : option (list Z)) (Q : C → Prop) : Prop :=
  ∃ ret rx c', tag_transceive tx c = Some ((ret, rx), c') ∧ Q c' ∧
    match r with Some f => ret = 0 ∧ rx = f | None => ret ≠ 0 end.

(** What a card sends for a right authenticator and for a block, with the cipher behind it. *)
Definition tag_finish (b : Z) (k : crypto1) : list Z * crypto1 := masked k (word_bytes (crypto1_prng_successor (sector_nonce b) 96)).
Definition tag_block (m : classic_data_t) (n : Z) (k : crypto1) : list Z * crypto1 := masked k (iso14443_frame (classic_block m n)).

(** What follows an authentication command, and an answer to the nonce. *)
Definition after_auth `{Kconfig} (m : classic_data_t) (b : Z) : option (list Z) * classic_phase :=
  if has_block m b then (Some (word_bytes (sector_nonce b)), challenged b (tag_start m b)) else (None, idle).
Definition after_proof (b : Z) (k : option crypto1) : option (list Z) * classic_phase :=
  match k with Some k => (Some (tag_finish b k).1, opened b (tag_finish b k).2) | None => (None, idle) end.

(** A card with the model [m]; [R] holds of its states and of what the reader has got to. *)
Class MifareCard `{Kconfig} {C} (tag_transceive : list Z → M C (Z * list Z)) (m : classic_data_t) (R : classic_phase → C → Prop) : Prop := {
  card_auth ph c b : R ph c → is_byte b →
    replies tag_transceive [CLASSIC_CMD_AUTH_KEY_A; b] c (after_auth m b).1 (R (after_auth m b).2);
  card_proof b k c n0 n1 n2 n3 a0 a1 a2 a3 : R (challenged b k) c → bytes [n0; n1; n2; n3; a0; a1; a2; a3] →
    let r := after_proof b (tag_checks k (sector_nonce b) (be32 n0 n1 n2 n3) (be32 a0 a1 a2 a3)) in
    replies tag_transceive [n0; n1; n2; n3; a0; a1; a2; a3] c r.1 (R r.2);
  card_read b k c p n : R (opened b k) c → bytes p → len p = 4 → tag_reads m b p = Some n →
    let r := tag_block m n (masked k p).2 in
    replies tag_transceive (masked k p).1 c (Some r.1) (R (opened b r.2));
}.

(** ** The two ends of a session *)

Lemma feed_loop_run l : ∀ c pre rest i, i = len pre → feed_loop (length l) i c (pre ++ l ++ rest) = Some (fed c l).2.
Proof.
  induction l as [|b l IH]; intros c pre rest i Hi; [done|]. cbn [length feed_loop app]. rewrite ld_mid by done. mred.
  destruct (crypto1_byte c b 0) as [k c1] eqn:E. rewrite (fed_cons _ _ _ _ _ E). cbn [snd].
  change (pre ++ b :: l ++ rest) with (pre ++ [b] ++ l ++ rest). rewrite (assoc_L (++) pre). apply IH. llia.
Qed.

Lemma skip_keystream n : ∀ c, skip_bytes n c = (keystream n c).2.
Proof.
  induction n as [|n IH]; intros c; [done|]. unfold skip_bytes in *. rewrite Nat.iter_succ_r. cbn [keystream].
  destruct (crypto1_byte c 0 0) as [k c1]. cbn [snd]. rewrite IH. by destruct (keystream n c1).
Qed.

Lemma follow_steps c key cuid nt nr nt_num c1 : word_at nt 0 = Some nt_num → feed_loop 4 0 (started key cuid nt_num) nr = Some c1 →
  follow_session c key cuid nt nr = Some (crypto1_word (skip_bytes 4 c1) 0 0).2.
Proof.
  unfold follow_session, crypto1_init, started. generalize word_at, crypto1_word, feed_loop, skip_bytes, init_loop.
  intros wa cw fl sb il Hw Hf. rewrite Hw. mred. rewrite Hf. done.
Qed.

Lemma follow_run c key cuid nt nr : is_word nt → len nr = 4 →
  follow_session c key cuid (word_bytes nt) nr = Some (agreed (started key cuid nt) nr).
Proof.
  intros Hnt Hl. pose proof (feed_loop_run nr (started key cuid nt) [] [] 0 eq_refl) as Hf. rewrite app_nil_r in Hf.
  assert (length nr = 4%nat) as Hl4 by (unfold len in Hl; lia). rewrite Hl4 in Hf.
  rewrite (follow_steps _ _ _ _ _ _ _ (word_at_word nt Hnt) Hf). unfold agreed, answered. rewrite skip_keystream, word_zero_state. reflexivity.
Qed.

(** ** What has been kept *)

Lemma lor_bit w i j : 0 <= w < 2 ^ 32 → 0 <= i < 32 → 0 <= j < 32 →
  Z.testbit (u32 (Z.lor w (Z.shiftl 1 i))) j = (j =? i) || Z.testbit w j.
Proof.
  intros Hw Hi Hj. unfold u32. change 4294967296 with (2 ^ 32). rewrite Z.mod_pow2_bits_low by lia.
  rewrite Z.lor_spec, Z.shiftl_1_l, Z.pow2_bits_eqb by lia. rewrite (Z.eqb_sym i j). apply orb_comm.
Qed.

Lemma block_read_bit d n w : is_byte n → ld (c_block_read_mask d) (n / 32) = Some w →
  classic_is_block_read (Some d) n = Some (Z.testbit w (n mod 32)).
Proof.
  intros Hn Hld. unfold classic_is_block_read. unfold is_byte in Hn. rewrite (proj2 (Z.leb_gt _ _)) by (unfold CLASSIC_BLOCK_COUNT_MAX; lia).
  rewrite Hld. mred. by rewrite Z.shiftl_1_l, bit_false_shift by dlia.
Qed.

(** Keeping a block marks that block and no other. *)
Lemma set_block_keeps d n src : is_byte n → n < len (c_blocks d) → len (c_block_read_mask d) = 8 → 
  Forall (λ w, 0 <= w < 2 ^ 32) (c_block_read_mask d) → Forall (λ b, len b = 16) (c_blocks d) → len src = 16 →
  ∃ mask, classic_set_block_read (Some d) n (Some src) = Some (Some (classic_with_block (<[Z.to_nat n := src]> (c_blocks d)) mask d)) ∧
    len mask = 8 ∧ Forall (λ w, 0 <= w < 2 ^ 32) mask ∧
    ∀ blocks k r, is_byte k → classic_is_block_read (Some d) k = Some r →
      classic_is_block_read (Some (classic_with_block blocks mask d)) k = Some ((k =? n) || r).
Proof.
  intros Hn Hlt Hm Hw Hs Hl. pose proof Hn as [Hn0 Hn1]. unfold classic_set_block_read. rewrite (proj2 (Z.leb_gt _ _)) by done.
  destruct (ld_Some (c_blocks d) n) as [dst Hd]; [lia|]. rewrite Hd. mred.
  assert (len dst = 16) as Hdl by (apply ld_Some_inv in Hd as [_ Hd]; exact (Forall_lookup_1 _ _ _ _ Hs Hd)).
  rewrite (memcpy_over dst src CLASSIC_BLOCK_SIZE) by done. mred. rewrite st_ok by lia. mred.
  assert (0 <= n / 32 < 8) as Hq by dlia. destruct (ld_Some (c_block_read_mask d) (n / 32)) as [w Hld]; [lia|]. rewrite Hld. mred.
  rewrite st_ok by lia. mred. eexists. split; [reflexivity|]. split; [by rewrite len_insert|]. apply ld_Some_inv in Hld as [_ Hlk]. split.
  - apply Forall_insert; [done|]. apply u32_range.
  - intros blocks k r Hk Hr. destruct (ld_Some (c_block_read_mask d) (k / 32)) as [wk Hldk]; [unfold is_byte in Hk; dlia|].
    rewrite (block_read_bit _ _ _ Hk Hldk) in Hr. injection Hr as <-. apply ld_Some_inv in Hldk as [_ Hlkk].
    pose proof (Forall_lookup_1 _ _ _ _ Hw Hlk) as Hww. cbv beta in Hww. unfold is_byte in Hk.
    destruct (Z.eq_dec (k / 32) (n / 32)) as [Heq|Hne].
    + rewrite (block_read_bit _ _ (u32 (Z.lor w (Z.shiftl 1 (n mod 32))))); [|done|].
      * rewrite lor_bit by (done || dlia). rewrite Heq, Hlk in Hlkk. injection Hlkk as ->. do 2 f_equal.
        destruct (Z.eqb_spec k n) as [->|Hne]; [apply Z.eqb_refl|]. apply Z.eqb_neq. intros He. apply Hne.
        rewrite (Z.div_mod k 32), (Z.div_mod n 32), Heq, He by lia. done.
      * rewrite Heq. apply ld_eq; [lia|]. cbn [classic_with_block c_block_read_mask]. apply list_lookup_insert_eq. unfold len in Hm. lia.
    + rewrite (block_read_bit _ _ wk); [|done|].
      * rewrite (proj2 (Z.eqb_neq _ _)); [done|]. by intros ->.
      * apply ld_eq; [dlia|]. cbn [classic_with_block c_block_read_mask]. rewrite list_lookup_insert_ne; [done|dlia].
Qed.

Lemma key_bit x s t : 0 <= s → 0 <= t → negb (Z.land (Z.lor x (Z.shiftl 1 s)) (Z.shiftl 1 t) =? 0) = (t =? s) || negb (Z.land x (Z.shiftl 1 t) =? 0).
Proof.
  intros Hs Ht. rewrite !Z.shiftl_1_l, !bit_false_shift by done. rewrite Z.lor_spec, Z.pow2_bits_eqb by done.
  rewrite (Z.eqb_sym s t). apply orb_comm.
Qed.

(** *** The sectors *)

(** The first block of a sector, also of the one behind the last. *)
Definition sector_start (s : Z) : Z := if s <? 32 then s * 4 else 128 + (s - 32) * 16.

Lemma sector_start_mono s t : s <= t → sector_start s <= sector_start t.
Proof. intros Hst. unfold sector_start. repeat case_bool; bool_prop; lia. Qed.

Lemma block_in_sector n : is_byte n → let s := classic_get_sector_by_block n in 0 <= s < 40 ∧ sector_start s <= n < sector_start (s + 1) ∧
  classic_is_sector_trailer n = (sector_start (s + 1) =? n + 1).
Proof.
  intros Hn. assert (let s := classic_get_sector_by_block n in (0 <=? s) && (s <? 40) && (sector_start s <=? n) && (n <? sector_start (s + 1)) &&
    Bool.eqb (classic_is_sector_trailer n) (sector_start (s + 1) =? n + 1) = true) as Hall by (revert n Hn; apply byte_all; by vm_compute).
  cbv zeta in *. bool_prop. split; [lia|]. split; [lia|]. by apply eqb_prop.
Qed.

Lemma sector_of_block n s : is_byte n → sector_start s <= n < sector_start (s + 1) → classic_get_sector_by_block n = s.
Proof.
  intros Hn Hs. destruct (block_in_sector n Hn) as (_ & Hr & _). set (t := classic_get_sector_by_block n) in *.
  destruct (Z.lt_trichotomy t s) as [Hlt|[Heq|Hlt]]; [|done|].
  - pose proof (sector_start_mono (t + 1) s ltac:(lia)). lia.
  - pose proof (sector_start_mono (s + 1) t ltac:(lia)). lia.
Qed.

Lemma sector_blocks s : 0 <= s < 40 → classic_get_first_block_of_sector s = sector_start s ∧ is_byte (sector_start s) ∧
  sector_start (s + 1) = sector_start s + classic_get_blocks_in_sector s ∧ 1 < classic_get_blocks_in_sector s <= 16 ∧ sector_start (s + 1) <= 256.
Proof.
  intros Hs. assert (forallb (λ s, (classic_get_first_block_of_sector s =? sector_start s) && (0 <=? sector_start s) && (sector_start s <? 256) &&
    (sector_start (s + 1) =? sector_start s + classic_get_blocks_in_sector s) && (1 <? classic_get_blocks_in_sector s) &&
    (classic_get_blocks_in_sector s <=? 16) && (sector_start (s + 1) <=? 256)) (seqZ 0 40) = true) as Hall by by vm_compute.
  rewrite forallb_forall in Hall. specialize (Hall s). cbv beta in Hall. unfold is_byte.
  assert (List.In s (seqZ 0 40)) as Hin by (apply list_elem_of_In, elem_of_seqZ; lia). specialize (Hall Hin). bool_prop. lia.
Qed.

Lemma sectors_of_type t : 0 <= t <= 2 → 0 <= classic_get_total_sectors t <= 40 ∧
  classic_get_total_blocks t = sector_start (classic_get_total_sectors t).
Proof. intros Ht. assert (t = 0 ∨ t = 1 ∨ t = 2) as [-> | [-> | ->]] by lia; done. Qed.

(** ** What a read stores *)

Section Stored.
Context `{Kconfig} (m : classic_data_t).

(** The sectors that open with the default key. *)
Definition default_key (s : Z) : bool := sector_key m (sector_start s) =? CLASSIC_DEFAULT_KEY.

(** UID, its length, SAK and ATQA. *)
Definition uid_header : Type := list Z * Z * Z * list Z.
Definition header_of (d : classic_data_t) : uid_header := (c_uid d, c_uid_len d, c_sak d, c_atqa d).
Definition set_header (h : uid_header) (d : classic_data_t) : classic_data_t :=
  let '(uid, uid_len, sak, atqa) := h in classic_with_header (c_type d) uid uid_len sak atqa d.

(** The header once the blocks below [n] are read: what the controller has reported, and then what
    blocks 0 and 1 tell. *)
Definition header_told (n : Z) : uid_header :=
  let uid := over (take (Z.to_nat (c_uid_len m)) (c_uid m)) (zeros 10) in
  let reported := (uid, c_uid_len m, 0, zeros 2) in
  if negb (default_key 0) || (n <=? 0) then reported else
  match classic_block m 0, classic_block m 1 with
  | x0 :: x1 :: x2 :: x3 :: x4 :: x5 :: x6 :: x7 :: x8 :: _, y0 :: y1 :: y2 :: _ =>
    if x0 =? 0x88 then (over (if n =? 1 then [x1; x2; x3; x4] else [x1; x2; x3; x4; y0; y1; y2]) uid, 7, x6, [x7; x8])
    else (over [x0; x1; x2; x3] uid, 4, x5, [x6; x7])
  | _, _ => reported
  end.

(** Block 0, with block 1 for a UID of seven bytes, tells the UID whose word the card's cipher starts with. *)
Definition tells_uid : Prop :=
  match classic_block m 0, classic_block m 1 with
  | x0 :: x1 :: x2 :: x3 :: x4 :: _, y0 :: y1 :: y2 :: _ =>
    if x0 =? 0x88 then be32 x4 y0 y1 y2 = classic_cuid m else x0 ≠ 0 ∧ be32 x0 x1 x2 x3 = classic_cuid m
  | _, _ => False
  end.

(** The image once the blocks below [n] and the sectors below [s] are done with. *)
Record cloned (n s : Z) (d : classic_data_t) : Prop := {
  cn_type : c_type d = c_type m;
  cn_header : header_of d = header_told n;
  cn_read k : is_byte k → classic_is_block_read (Some d) k = Some ((k <? n) && default_key (classic_get_sector_by_block k));
  cn_mask : len (c_block_read_mask d) = 8;
  cn_words : Forall (λ w, 0 <= w < 2 ^ 32) (c_block_read_mask d);
  cn_len : len (c_blocks d) = CLASSIC_BLOCKS_IN_MODEL;
  cn_size : Forall (λ b, len b = 16) (c_blocks d);
  cn_blocks k : 0 <= k < CLASSIC_BLOCKS_IN_MODEL →
    c_blocks d !! Z.to_nat k = Some (if (k <? n) && default_key (classic_get_sector_by_block k) then classic_block m k else zeros 16);
  cn_key_a t : 0 <= t < 40 → classic_is_key_found (Some d) t false = (t <? s) && default_key t;
  cn_key_b t : 0 <= t < 40 → classic_is_key_found (Some d) t true = (sector_start (t + 1) <=? n) && default_key t;
}.

Lemma header_later n k : 2 <= n → 2 <= k → header_told n = header_told k.
Proof.
  intros Hn Hk. unfold header_told. rewrite (proj2 (Z.leb_gt n 0)), (proj2 (Z.leb_gt k 0)), (proj2 (Z.eqb_neq n 1)), (proj2 (Z.eqb_neq k 1)) by lia. done.
Qed.

Lemma header_closed n k : default_key 0 = false → header_told n = header_told k.
Proof. intros Hk. unfold header_told. by rewrite Hk. Qed.

Lemma set_header_of d : set_header (header_of d) d = d.
Proof. by destruct d. Qed.

Lemma set_header_header h d : header_of (set_header h d) = h.
Proof. by destruct h as [[[uid l] sak] atqa]. Qed.

Lemma sector_end t n : 0 <= t < 40 → is_byte n →
  (sector_start (t + 1) =? n + 1) = (t =? classic_get_sector_by_block n) && classic_is_sector_trailer n.
Proof.
  intros Ht Hn. destruct (block_in_sector n Hn) as (_ & _ & ->). destruct (Z.eqb_spec t (classic_get_sector_by_block n)) as [->|Hne]; [done|].
  apply Z.eqb_neq. intros He. apply Hne. symmetry. apply sector_of_block; [done|]. destruct (sector_blocks t Ht) as (_ & _ & Heq & Hc & _). lia.
Qed.
Definition knows_uid (d : classic_data_t) : Prop := classic_cuid_from_uid (c_uid d) (c_uid_len d) = Some (classic_cuid m).

Context (Hm : classic_safe m) (Htells : default_key 0 = true → tells_uid) (Hlen : 4 <= c_uid_len m <= 10).

Lemma block_shape n : 0 <= n < len (c_blocks m) → ∃ x0 x1 x2 x3 x4 x5 x6 x7 x8 l,
  classic_block m n = x0 :: x1 :: x2 :: x3 :: x4 :: x5 :: x6 :: x7 :: x8 :: l ∧ len l = 7 ∧ bytes [x0; x1; x2; x3; x4; x5; x6; x7; x8].
Proof.
  intros Hn. destruct (block_found m n Hm Hn) as (_ & Hl & Hb).
  destruct (classic_block m n) as [|x0 [|x1 [|x2 [|x3 [|x4 [|x5 [|x6 [|x7 [|x8 l]]]]]]]]]; try (exfalso; unfold len in Hl; cbn in Hl; lia).
  eexists _, _, _, _, _, _, _, _, _, l. split; [done|]. split; [rewrite !len_cons in Hl; lia|]. inv_bytes. by bytes_list.
Qed.
Lemma classic_blocks_two : default_key 0 = true → 1 < len (c_blocks m) → ∃ x0 x1 x2 x3 x4 x5 x6 x7 x8 l y0 y1 y2 l',
  classic_block m 0 = x0 :: x1 :: x2 :: x3 :: x4 :: x5 :: x6 :: x7 :: x8 :: l ∧ classic_block m 1 = y0 :: y1 :: y2 :: l' ∧
  bytes [x0; x1; x2; x3; x4; x5; x6; x7; x8] ∧ bytes [y0; y1; y2] ∧ len l = 7 ∧ len l' = 13 ∧
  (if x0 =? 0x88 then be32 x4 y0 y1 y2 = classic_cuid m else x0 ≠ 0 ∧ be32 x0 x1 x2 x3 = classic_cuid m).
Proof.
  intros Hk Hl. destruct (block_shape 0 ltac:(lia)) as (x0 & x1 & x2 & x3 & x4 & x5 & x6 & x7 & x8 & l & H0 & Hl0 & Hb0).
  destruct (block_shape 1 ltac:(lia)) as (y0 & y1 & y2 & y3 & y4 & y5 & y6 & y7 & y8 & l' & H1 & Hl1 & Hb1).
  eexists _, _, _, _, _, _, _, _, _, _, _, _, _, _. split; [exact H0|]. split; [exact H1|]. split; [exact Hb0|]. split; [inv_bytes; by bytes_list|].
  split; [done|]. split; [rewrite !len_cons; lia|]. pose proof (Htells Hk) as Ht. unfold tells_uid in Ht. by rewrite H0, H1 in Ht.
Qed.

Lemma reported_len : len (over (take (Z.to_nat (c_uid_len m)) (c_uid m)) (zeros 10)) = 10.
Proof. destruct (cf_uid m Hm) as [Hl _]. rewrite over_len; [done|]. change (len (zeros 10)) with 10. llia. Qed.

(** [explode l H n]: the elements of a list [l] of [n], as [H] says. *)
Tactic Notation "explode" ident(l) ident(H) integer(n) :=
  do n (destruct l as [|? l]; [discriminate H|]); destruct l as [|? l]; [clear H|exfalso; unfold len in H; cbn [length] in H; lia].

(** What is noted of a block takes the header to the next one. *)
Lemma note_told n d : header_of d = header_told n → is_byte n → 1 < len (c_blocks m) → default_key (classic_get_sector_by_block n) = true →
  note_uid n (classic_block m n) d = Some (set_header (header_told (n + 1)) d).
Proof.
  intros Hh Hn Hl Hk. unfold is_byte in Hn. pose proof reported_len as Hrl.
  destruct (Z_lt_le_dec n 2) as [Hlt|Hge].
  - assert (default_key 0 = true) as Hk0 by (assert (n = 0 ∨ n = 1) as [-> | ->] by lia; exact Hk).
    destruct (classic_blocks_two Hk0 Hl) as (x0 & x1 & x2 & x3 & x4 & x5 & x6 & x7 & x8 & l & y0 & y1 & y2 & l' & H0 & H1 & _ & _ & Hll & Hll' & Ht).
    unfold header_told in Hh |- *. rewrite Hk0, H0, H1 in *. cbn [negb orb] in *. cbv zeta in *.
    revert Hrl Hh. generalize (over (take (Z.to_nat (c_uid_len m)) (c_uid m)) (zeros 10)). intros uid Hul.
    explode uid Hul 10. explode l Hll 7. explode l' Hll' 13. unfold header_of. destruct d as [ty du dl ds da dm dka dkb db]. cbn [c_uid c_uid_len c_sak c_atqa].
    assert (n = 0 ∨ n = 1) as [-> | ->] by lia.
    + intros [= -> -> -> ->]. rewrite H0. unfold note_uid. change (ld (x0 :: ?t) 0) with (Some x0).
      change (0 =? 0) with true. mred. destruct (x0 =? 0x88); [|destruct Ht as [Ht _]; rewrite (proj2 (Z.eqb_neq _ _) Ht)]; reflexivity.
    + change (1 <=? 0) with false. change (1 =? 1) with true. cbv iota. rewrite H1. unfold note_uid. cbn [c_uid_len]. destruct (x0 =? 0x88).
      * intros [= -> -> -> ->]. reflexivity.
      * intros [= -> -> -> ->]. reflexivity.
  - rewrite (header_later (n + 1) n), <-Hh, set_header_of by lia. unfold note_uid.
    rewrite (proj2 (Z.eqb_neq n 0)), (proj2 (Z.eqb_neq n 1)) by lia. done.
Qed.

(** The header knows the word of the UID except between blocks 0 and 1. *)
Lemma knows_told n d : header_of d = header_told n → n = 0 ∨ 2 <= n → 1 < len (c_blocks m) → knows_uid d.
Proof.
  intros Hh Hn Hl. unfold knows_uid. pose proof (cuid_run m Hm) as Hc. destruct (cf_uid m Hm) as [Hul Hub].
  assert (Hrep : classic_cuid_from_uid (over (take (Z.to_nat (c_uid_len m)) (c_uid m)) (zeros 10)) (c_uid_len m) = Some (classic_cuid m)).
  { rewrite <-Hc. revert Hul. clear -Hlen. generalize (c_uid m). intros uid Hul.
    explode uid Hul 10.
    assert (c_uid_len m = 4 ∨ c_uid_len m = 5 ∨ c_uid_len m = 6 ∨ c_uid_len m = 7 ∨ c_uid_len m = 8 ∨ c_uid_len m = 9 ∨ c_uid_len m = 10)
      as [-> | [-> | [-> | [-> | [-> | [-> | ->]]]]]] by lia; reflexivity. }
  unfold header_told in Hh. cbv zeta in Hh. destruct (negb (default_key 0) || (n <=? 0)) eqn:E.
  { injection Hh as -> -> _ _. exact Hrep. }
  apply orb_false_iff in E as [Hk Hn0]. bool_prop. destruct (classic_blocks_two Hk Hl) as
    (x0 & x1 & x2 & x3 & x4 & x5 & x6 & x7 & x8 & l & y0 & y1 & y2 & l' & H0 & H1 & Hb0 & Hb1 & _ & _ & Ht).
  rewrite H0, H1, (proj2 (Z.eqb_neq n 1)) in Hh by lia. inv_bytes. destruct (x0 =? 0x88).
  - injection Hh as -> -> _ _. rewrite <-Ht. apply (word_at_run x4 y0 y1 y2 [x1; x2; x3]). by bytes_list.
  - destruct Ht as [_ Ht]. injection Hh as -> -> _ _. rewrite <-Ht. apply (word_at_run x0 x1 x2 x3 []). by bytes_list.
Qed.
(** One more block of a sector that is open. *)
Lemma keep_block_ok n s d : cloned n s d → is_byte n → n < CLASSIC_BLOCKS_IN_MODEL → 1 < len (c_blocks m) →
  default_key (classic_get_sector_by_block n) = true →
  ∃ d', keep_block (classic_get_sector_by_block n) n (classic_block m n) d = Some d' ∧ cloned (n + 1) s d'.
Proof.
  intros [Hty Hh Hr Hml Hmw Hbl Hbs Hb Ha Hkb] Hn Hlt Htwo Hk. pose proof Hn as Hn'. unfold is_byte in Hn'.
  destruct (block_found m n Hm) as (_ & Hl & _); [rewrite (cf_blocks m Hm); lia|].
  destruct (set_block_keeps d n (classic_block m n) Hn ltac:(lia) Hml Hmw Hbs Hl) as (mask & Hset & Hml' & Hmw' & Hr').
  unfold keep_block. rewrite Hset. mred. rewrite (note_told n) by done. mred.
  set (h := header_told (n + 1)). set (d1 := set_header h _).
  assert (Hstep : ∀ k, (k <? n + 1) && default_key (classic_get_sector_by_block k) = (k =? n) || (k <? n) && default_key (classic_get_sector_by_block k)).
  { intros k. destruct (Z.eqb_spec k n) as [->|Hne]; [by rewrite Hk, (proj2 (Z.ltb_lt n (n + 1))) by lia|]. cbn [orb]. f_equal. repeat case_bool; bool_prop; lia. }
  assert (Hend : ∀ t, 0 <= t < 40 → (sector_start (t + 1) <=? n + 1) && default_key t =
    (t =? classic_get_sector_by_block n) && classic_is_sector_trailer n || (sector_start (t + 1) <=? n) && default_key t).
  { intros t Ht. rewrite <-(sector_end t n Ht Hn). destruct (Z.eqb_spec (sector_start (t + 1)) (n + 1)) as [He|Hne].
    - pose proof (sector_end t n Ht Hn) as Hse. rewrite He, Z.eqb_refl in Hse. symmetry in Hse. bool_prop. subst t. rewrite Hk, He.
      by rewrite Z.leb_refl.
    - cbn [orb]. f_equal. apply eq_true_iff_eq. rewrite !Z.leb_le. lia. }
  assert (Hread : ∀ ka kb k, is_byte k →
    classic_is_block_read (Some (classic_with_keys ka kb d1)) k = Some ((k <? n + 1) && default_key (classic_get_sector_by_block k))).
  { intros ka kb k Hk'. rewrite Hstep. rewrite <-(Hr' (<[Z.to_nat n := classic_block m n]> (c_blocks d)) k _ Hk' (Hr k Hk')). unfold d1. by destruct h as [[[? ?] ?] ?]. }
  assert (Hdone : ∀ kb, (∀ t, 0 <= t < 40 → classic_is_key_found (Some (classic_with_keys (c_key_a_mask d) kb d1)) t true =
      (sector_start (t + 1) <=? n + 1) && default_key t) → cloned (n + 1) s (classic_with_keys (c_key_a_mask d) kb d1)).
  { intros kb Hkb'. constructor; [| |apply Hread| | | | | | |exact Hkb']; unfold d1; destruct h as [[[? ?] ?] ?] eqn:Eh; try done.
    - cbn. by rewrite len_insert.
    - cbn. by apply Forall_insert.
    - intros k Hk'. cbn. rewrite Hstep. destruct (Z.eqb_spec k n) as [->|Hne].
      + rewrite list_lookup_insert_eq; [done|]. unfold len in Hbl. lia.
      + rewrite list_lookup_insert_ne by lia. by apply Hb. }
  assert (c_key_a_mask d1 = c_key_a_mask d ∧ c_key_b_mask d1 = c_key_b_mask d) as [Hka1 Hkb1] by (unfold d1; by destruct h as [[[? ?] ?] ?]).
  unfold classic_set_key_found. destruct (block_in_sector n Hn) as (Hs & _). cbv zeta in Hs.
  destruct (classic_is_sector_trailer n) eqn:Et.
  - rewrite (proj2 (Z.leb_gt _ _)) by (unfold CLASSIC_SECTOR_COUNT_MAX; lia). eexists. split; [reflexivity|]. rewrite Hka1, Hkb1.
    apply Hdone. intros t Ht. rewrite Hend, <-Hkb by done. unfold classic_is_key_found.
    rewrite (proj2 (Z.leb_gt _ _)) by (unfold CLASSIC_SECTOR_COUNT_MAX; lia). cbn [classic_with_keys c_key_b_mask].
    rewrite key_bit by lia. by rewrite andb_true_r.
  - exists d1. split; [done|]. replace d1 with (classic_with_keys (c_key_a_mask d) (c_key_b_mask d) d1).
    + apply Hdone. intros t Ht. rewrite Hend, andb_false_r by done. cbn [orb]. by rewrite <-Hkb.
    + rewrite <-Hka1, <-Hkb1. by destruct d1.
Qed.

(** A sector that does not open, or that has just been opened. *)
Lemma cloned_skip s d : 0 <= s < 40 → default_key s = false → cloned (sector_start s) s d → cloned (sector_start (s + 1)) (s + 1) d.
Proof.
  intros Hs Hk [Hty Hh Hr Hml Hmw Hbl Hbs Hb Ha Hkb]. pose proof (sector_start_mono s (s + 1) ltac:(lia)) as Hmono.
  assert (Hlt : ∀ k, is_byte k → (k <? sector_start (s + 1)) && default_key (classic_get_sector_by_block k) =
    (k <? sector_start s) && default_key (classic_get_sector_by_block k)).
  { intros k Hk'. destruct (Z.ltb_spec k (sector_start s)); [by rewrite (proj2 (Z.ltb_lt k (sector_start (s + 1)))) by lia|].
    destruct (Z.ltb_spec k (sector_start (s + 1))); [|done]. by rewrite (sector_of_block k s) by (done || lia). }
  constructor; [done| | |done|done|done|done| | |].
  - rewrite Hh. destruct (Z.eq_dec s 0) as [->|Hne]; [by apply header_closed|].
    apply header_later; unfold sector_start in *; repeat case_bool; bool_prop; lia.
  - intros k Hk'. rewrite Hlt by done. by apply Hr.
  - intros k Hk'. rewrite Hb by done. destruct (Z.lt_ge_cases k 256); [by rewrite Hlt by (unfold is_byte; lia)|].
    destruct (sector_blocks s Hs) as (_ & Hby & _ & _ & Hle). unfold is_byte in Hby. by rewrite !(proj2 (Z.ltb_ge _ _)) by lia.
  - intros t Ht. rewrite Ha by done. destruct (Z.eq_dec t s) as [->|Hne]; [by rewrite Hk, !andb_false_r|]. f_equal. apply eq_true_iff_eq. rewrite !Z.ltb_lt. lia.
  - intros t Ht. rewrite Hkb by done. destruct (Z.eq_dec t s) as [->|Hne]; [by rewrite Hk, !andb_false_r|]. f_equal. apply eq_true_iff_eq. rewrite !Z.leb_le.
    destruct (sector_blocks t Ht) as (_ & _ & Heq & Hc & _), (sector_blocks s Hs) as (_ & _ & Heq' & Hc' & _). split; [lia|]. intros Hle.
    destruct (Z.lt_ge_cases t s) as [Hts|Hts]; [|pose proof (sector_start_mono (s + 1) t ltac:(lia)); lia].
    pose proof (sector_start_mono (t + 1) s ltac:(lia)). lia.
Qed.

Lemma cloned_open n s d : 0 <= s < 40 → default_key s = true → cloned n s d →
  ∃ d', classic_set_key_found (Some d) s false CLASSIC_DEFAULT_KEY = Some d' ∧ cloned n (s + 1) d'.
Proof.
  intros Hs Hk [Hty Hh Hr Hml Hmw Hbl Hbs Hb Ha Hkb]. unfold classic_set_key_found. rewrite (proj2 (Z.leb_gt _ _)) by (unfold CLASSIC_SECTOR_COUNT_MAX; lia).
  eexists. split; [reflexivity|]. constructor; [done|done|exact Hr|done|done|done|done|done| |exact Hkb].
  intros t Ht. pose proof (Ha t Ht) as Hat. unfold classic_is_key_found in *. rewrite (proj2 (Z.leb_gt _ _)) in * by (unfold CLASSIC_SECTOR_COUNT_MAX; lia).
  cbn [classic_with_keys c_key_a_mask]. rewrite key_bit, Hat by lia. destruct (Z.eqb_spec t s) as [->|Hne].
  - by rewrite Hk, (proj2 (Z.ltb_lt s (s + 1))) by lia.
  - cbn [orb]. f_equal. apply eq_true_iff_eq. rewrite !Z.ltb_lt. lia.
Qed.
End Stored.

(** ** The commands in front of a card *)

Definition classic_arrays_ok (u : classic_arrays) : Prop :=
  len (cp_nt u) = 4 ∧ len (cp_tx_auth u) = 8 ∧ len (cp_tx_plain u) = 4 ∧ len (cp_tx_enc u) = 8 ∧
  len (cp_rx_plain u) = NFC_TRANSPORT_MAX_RESPONSE_LEN.

Section Exchanges.
Context `{Kconfig} {C : Type} (tag_transceive : list Z → M C (Z * list Z)) (m : classic_data_t) (R : classic_phase → C → Prop).
Context `{!MifareCard tag_transceive m R} (Hm : classic_safe m) (u : classic_arrays) (Hu : classic_arrays_ok u).
Context (ses : session) (Hses : ses_active ses = true).

Lemma transceive_replies tx c r (Q : C → Prop) : replies tag_transceive tx c r Q → match r with Some f => len f <= 255 | None => True end →
  ∃ ret rx c', classic_poller_transceive tag_transceive (Some ses) tx c = Some ((ret, rx), c') ∧ Q c' ∧
    match r with Some f => ret = 0 ∧ rx = f | None => ret ≠ 0 end.
Proof.
  intros (ret & rx & c' & Hrun & HQ & Hr) Hl. exists ret, rx, c'. split; [|done]. unfold classic_poller_transceive.
  rewrite (run_call _ _ _ _ _ (session_active _ _ _ _ _ Hses Hrun)).
  assert ((ret =? 0) && (NFC_TRANSPORT_MAX_RESPONSE_LEN <? len rx) = false) as ->; [|done].
  destruct r as [f|]; [destruct Hr as [-> ->]; apply (proj2 (Z.ltb_ge _ _)); exact Hl|by rewrite (proj2 (Z.eqb_neq _ _) Hr)].
Qed.

Lemma nonce_is_word b : is_word (sector_nonce b).
Proof. apply nonce_word; [apply sector_byte|apply sector_nonneg]. Qed.

(** Asking for a nonce. *)
Lemma get_nt_there ph c b nt0 : R ph c → is_byte b → has_block m b = true → len nt0 = 4 →
  ∃ c', classic_poller_get_nt tag_transceive (Some ses) b nt0 c = Some ((0, word_bytes (sector_nonce b)), c') ∧
    R (challenged b (tag_start m b)) c'.
Proof.
  intros Hc Hb Hh Hl. pose proof (card_auth ph c b Hc Hb) as Hr. unfold after_auth in Hr. rewrite Hh in Hr. cbn [fst snd] in Hr.
  assert (len (word_bytes (sector_nonce b)) = 4) as Hwl by done.
  destruct (transceive_replies _ _ _ _ Hr ltac:(cbn beta iota; rewrite Hwl; lia)) as (ret & rx & c' & Hrun & HR & -> & ->).
  exists c'. split; [|exact HR]. unfold classic_poller_get_nt. rewrite (run_call _ _ _ _ _ Hrun). cbn [Z.eqb negb]. rewrite Hwl.
  change (4 =? CLASSIC_NT_SIZE) with true. cbn [negb]. by rewrite memcpy_over, run_lift_Some.
Qed.

Lemma get_nt_absent ph c b nt0 : R ph c → is_byte b → has_block m b = false →
  ∃ ret c', classic_poller_get_nt tag_transceive (Some ses) b nt0 c = Some ((ret, nt0), c') ∧ ret ≠ 0 ∧ R idle c'.
Proof.
  intros Hc Hb Hh. pose proof (card_auth ph c b Hc Hb) as Hr. unfold after_auth in Hr. rewrite Hh in Hr. cbn [fst snd] in Hr.
  destruct (transceive_replies _ _ _ _ Hr I) as (ret & rx & c' & Hrun & HR & Hret). exists ret, c'. split; [|done].
  unfold classic_poller_get_nt. rewrite (run_call _ _ _ _ _ Hrun). by rewrite (proj2 (Z.eqb_neq _ _) Hret).
Qed.

(** The authentication with the default key: the frame the poller sends is [tried], and it is accepted or not. *)
Definition tried (b : Z) (nr : list Z) : list Z :=
  reader_frame (started CLASSIC_DEFAULT_KEY (classic_cuid m) (sector_nonce b)) (sector_nonce b) nr.
Definition tag_opens (b : Z) (nr : list Z) : bool :=
  match tried b nr with
  | [n0; n1; n2; n3; a0; a1; a2; a3] =>
    bool_decide (is_Some (tag_checks (tag_start m b) (sector_nonce b) (be32 n0 n1 n2 n3) (be32 a0 a1 a2 a3)))
  | _ => false
  end.

Lemma auth_steps ph c d b nr k : R ph c → is_byte b → has_block m b = true → knows_uid m d → bytes nr → len nr = 4 →
  ∃ c', R (challenged b (tag_start m b)) c' ∧
  classic_poller_auth tag_transceive u (Some ses) k d b CLASSIC_DEFAULT_KEY nr c =
  ('(ret, rx) ← classic_poller_transceive tag_transceive (Some ses) (tried b nr);
   let k1 := answered (started CLASSIC_DEFAULT_KEY (classic_cuid m) (sector_nonce b)) nr in
   if negb (ret =? 0) then mret (ret, k1) else
   if negb (len rx =? CLASSIC_AUTH_AT_SIZE) then mret (- EIO, k1) else
   k2 ← lift (follow_session k1 CLASSIC_DEFAULT_KEY (classic_cuid m) (word_bytes (sector_nonce b)) nr); mret (0, k2)) c'.
Proof.
  intros Hc Hb Hh Hk Hnr Hl. destruct Hu as (Hu1 & Hu2 & _). destruct (get_nt_there ph c b (cp_nt u) Hc Hb Hh Hu1) as (c' & Hrun & HR).
  exists c'. split; [exact HR|]. unfold classic_poller_auth. rewrite (run_call _ _ _ _ _ Hrun). cbn [Z.eqb negb]. rewrite Hk, run_lift_Some.
  pose proof (reader_nonce_run k CLASSIC_DEFAULT_KEY (classic_cuid m) _ _ _ _ nr (cp_tx_auth u) (word_bytes_ok (sector_nonce b)) Hnr Hl Hu2) as Hrn.
  cbv zeta in Hrn. rewrite (be32_word_bytes _ (nonce_is_word b)) in Hrn. fold (word_bytes (sector_nonce b)) in Hrn.
  rewrite Hrn, !run_lift_Some. reflexivity.
Qed.

Lemma auth_opens ph c d b nr k : R ph c → is_byte b → has_block m b = true → knows_uid m d → bytes nr → len nr = 4 →
  sector_key m b = CLASSIC_DEFAULT_KEY → ∃ k' c',
  classic_poller_auth tag_transceive u (Some ses) k d b CLASSIC_DEFAULT_KEY nr c = Some ((0, k'), c') ∧ R (opened b k') c'.
Proof.
  intros Hc Hb Hh Hk Hnr Hl Hkey. destruct (auth_steps ph c d b nr k Hc Hb Hh Hk Hnr Hl) as (c1 & HR1 & Hrun). rewrite Hrun. clear Hrun.
  pose proof (nonce_is_word b) as Hw. assert (tag_start m b = started CLASSIC_DEFAULT_KEY (classic_cuid m) (sector_nonce b)) as Hst
    by (unfold tag_start; by rewrite Hkey).
  rewrite <-Hst. unfold tried. rewrite <-Hst.
  destruct (tag_accepts (tag_start m b) (sector_nonce b) nr Hw Hnr Hl) as (e0 & e1 & e2 & e3 & r0 & r1 & r2 & r3 & Hf & Hfb & Hck).
  rewrite Hf in Hfb |- *. pose proof (card_proof b _ c1 _ _ _ _ _ _ _ _ HR1 Hfb) as Hr. cbv zeta in Hr. rewrite Hck in Hr.
  cbn [after_proof fst snd] in Hr. set (k1 := answered (tag_start m b) nr) in Hr |- *.
  assert ((tag_finish b k1).2 = agreed (tag_start m b) nr) as Hag by (unfold tag_finish, agreed; rewrite masked_word_state; unfold k1; reflexivity).
  assert (len (tag_finish b k1).1 = 4) as Hl4 by (unfold tag_finish, len; by rewrite masked_len).
  destruct (transceive_replies _ _ _ _ Hr ltac:(cbn beta iota; rewrite Hl4; lia)) as (ret & rx & c2 & Hrun & HR2 & -> & ->).
  rewrite (run_call _ _ _ _ _ Hrun). cbn [Z.eqb negb]. rewrite Hl4. change (4 =? CLASSIC_AUTH_AT_SIZE) with true. cbn [negb].
  rewrite (follow_run _ _ _ _ _ Hw Hl), <-Hst, run_lift_Some. exists (agreed (tag_start m b) nr), c2. split; [reflexivity|].
  rewrite <-Hag. exact HR2.
Qed.

Lemma auth_refused ph c d b nr k : R ph c → is_byte b → has_block m b = true → knows_uid m d → bytes nr → len nr = 4 →
  tag_opens b nr = false → ∃ ret k' c',
  classic_poller_auth tag_transceive u (Some ses) k d b CLASSIC_DEFAULT_KEY nr c = Some ((ret, k'), c') ∧ ret ≠ 0 ∧ R idle c'.
Proof.
  intros Hc Hb Hh Hk Hnr Hl Ho. destruct (auth_steps ph c d b nr k Hc Hb Hh Hk Hnr Hl) as (c1 & HR1 & Hrun). rewrite Hrun. clear Hrun.
  unfold tag_opens, tried in *.
  destruct (tag_accepts (started CLASSIC_DEFAULT_KEY (classic_cuid m) (sector_nonce b)) (sector_nonce b) nr (nonce_is_word b) Hnr Hl)
    as (e0 & e1 & e2 & e3 & r0 & r1 & r2 & r3 & Hf & Hfb & _).
  rewrite Hf in Hfb, Ho |- *. pose proof (card_proof b _ c1 _ _ _ _ _ _ _ _ HR1 Hfb) as Hr. cbv zeta in Hr.
  destruct (tag_checks _ _ _ _) as [k1|]; [rewrite bool_decide_true in Ho by done; discriminate Ho|]. cbn [after_proof fst snd] in Hr.
  destruct (transceive_replies _ _ _ _ Hr I) as (ret & rx & c2 & Hrun & HR2 & Hret).
  rewrite (run_call _ _ _ _ _ Hrun). cbv zeta. rewrite (proj2 (Z.eqb_neq _ _) Hret). cbn [negb]. by eexists _, _, _.
Qed.

(** Reading a block of the sector that is open. *)
Lemma classic_block_reads b k c n out : R (opened b k) c → is_byte n → has_block m n = true →
  classic_get_sector_by_block b = classic_get_sector_by_block n → len out = 16 → ∃ k' c',
  classic_poller_read_block tag_transceive u (Some ses) k n out c = Some ((0, k', classic_block m n), c') ∧ R (opened b k') c'.
Proof.
  intros Hc Hn Hh Hsec Ho. destruct Hu as (_ & _ & Hu3 & Hu4 & Hu5). unfold classic_poller_read_block.
  rewrite st_first by (rewrite Hu3; done). rewrite run_lift_Some.
  rewrite st_next by (done || (rewrite Hu3; done)). rewrite run_lift_Some. cbn [app].
  assert (bytes [CLASSIC_CMD_READ_BLOCK; n]) as Hpb by (by bytes_list).
  pose proof (crc_a_append [CLASSIC_CMD_READ_BLOCK; n] (cp_tx_plain u) Hpb ltac:(rewrite Hu3; done)) as Hap.
  change (len [CLASSIC_CMD_READ_BLOCK; n]) with 2 in Hap. rewrite Hap, run_lift_Some. clear Hap.
  set (p := iso14443_frame [CLASSIC_CMD_READ_BLOCK; n]).
  assert (len p = 4 ∧ bytes p) as [Hpl Hpb'] by (split; [done|by apply frame_bytes]).
  assert (tag_reads m b p = Some n) as Hrd.
  { unfold tag_reads, p, iso14443_frame, frame. cbn [app]. rewrite bool_decide_true by done. rewrite Hh, Hsec, !Z.eqb_refl. done. }
  pose proof (card_read b k c p n Hc Hpb' Hpl Hrd) as Hr. cbv zeta in Hr. clearbody p. clear Hrd. change (2 + 2) with 4.
  unfold over at 1.
  rewrite (encrypt_run k p (drop (length p) (cp_tx_plain u)) (cp_tx_enc u) 4 Hpb' (eq_sym Hpl)) by (rewrite Hu4; lia).
  rewrite !run_lift_Some. pose proof (masked_len k p) as Hml.
  destruct (masked k p) as [e k1]. cbn [fst snd] in *. rewrite ?run_lift_Some. replace 4 with (len e) by (unfold len in *; lia). rewrite sub_over, run_lift_Some.
  unfold tag_block in Hr. destruct (has_block_fits m n Hm Hn Hh) as [Hlt _]. unfold is_byte in Hn.
  destruct (block_found m n Hm ltac:(lia)) as (_ & Hbl & Hbb). set (d := classic_block m n) in *.
  assert (len (iso14443_frame d) = 18 ∧ bytes (iso14443_frame d)) as [Hfl Hfb]
    by (unfold iso14443_frame; rewrite frame_len; split; [lia|by apply frame_bytes]).
  pose proof (masked_len k1 (iso14443_frame d)) as Hml1. pose proof (masked_bytes k1 _ Hfb) as Hmb. pose proof (masked_twice k1 (iso14443_frame d)) as Htw.
  destruct (masked k1 (iso14443_frame d)) as [f k2]. cbn [fst snd] in *. assert (len f = 18) as Hf by (unfold len in *; lia).
  destruct (transceive_replies _ _ _ _ Hr ltac:(cbn beta iota; lia)) as (ret & rx & c2 & Hrun & HR2 & -> & ->).
  rewrite (run_call _ _ _ _ _ Hrun). cbn [Z.eqb negb]. rewrite Hf. change (18 <? CLASSIC_BLOCK_SIZE + ISO14443_CRC_SIZE) with false. cbv iota.
  pose proof (decrypt_run k1 f [] (cp_rx_plain u) 18 Hmb (eq_sym Hf) ltac:(rewrite Hu5; by vm_compute)) as Hd. rewrite app_nil_r, Htw in Hd.
  cbn [fst snd] in Hd. rewrite Hd, run_lift_Some, !run_lift_Some. clear Hd.
  destruct (crc_a_check (iso14443_frame d) (drop (length (iso14443_frame d)) (cp_rx_plain u)) Hfb) as (ok & Hck & Hiff).
  fold (over (iso14443_frame d) (cp_rx_plain u)) in Hck. rewrite Hfl in Hck. rewrite Hck, run_lift_Some. clear Hck.
  assert (ok = true) as -> by (apply Hiff; exists d; split; [intros ->; discriminate Hbl|done]). cbn [negb].
  pose proof (crc_a_trim d (cp_rx_plain u)) as Htr. rewrite Hbl in Htr. change (16 + 2) with 18 in Htr. rewrite Htr, run_lift_Some.
  change (negb (16 =? CLASSIC_BLOCK_SIZE)) with false. cbv iota.
  pose proof (memcpy_start d ([0; 0] ++ drop (length (d ++ [0; 0])) (cp_rx_plain u)) out ltac:(lia)) as Hcp. rewrite (assoc_L (++)), Hbl in Hcp.
  fold (over (d ++ [0; 0]) (cp_rx_plain u)) in Hcp. unfold CLASSIC_BLOCK_SIZE. rewrite Hcp, run_lift_Some.
  assert (over d out = d) as -> by (unfold over; rewrite drop_ge, app_nil_r; unfold len in *; [done|lia]).
  exists k2, c2. by split.
Qed.

(** The type, from which blocks the card has. *)
Lemma detect_type_reads ph c : R ph c → 0 <= c_type m <= 2 →
  ∃ ph' c', classic_poller_detect_type tag_transceive u (Some ses) c = Some (c_type m, c') ∧ R ph' c'.
Proof.
  intros Hc Ht. destruct Hu as (Hu1 & _). unfold classic_poller_detect_type.
  assert (c_type m = 0 ∨ c_type m = 1 ∨ c_type m = 2) as Ht3 by lia.
  assert (has_block m 254 = (c_type m =? 2) ∧ has_block m 62 = negb (c_type m =? 0)) as [H254 H62]
    by (unfold has_block; destruct Ht3 as [-> | [-> | ->]]; done).
  destruct (c_type m =? 2) eqn:E2.
  - apply Z.eqb_eq in E2. destruct (get_nt_there ph c 254 (cp_nt u) Hc ltac:(done) H254 Hu1) as (c1 & Hrun & HR1).
    rewrite (run_call _ _ _ _ _ Hrun), E2. by eexists _, _.
  - destruct (get_nt_absent ph c 254 (cp_nt u) Hc ltac:(done) H254) as (ret & c1 & Hrun & Hret & HR1).
    rewrite (run_call _ _ _ _ _ Hrun), (proj2 (Z.eqb_neq _ _) Hret). destruct (c_type m =? 0) eqn:E0.
    + apply Z.eqb_eq in E0. destruct (get_nt_absent idle c1 62 (cp_nt u) HR1 ltac:(done) H62) as (ret2 & c2 & Hrun2 & Hret2 & HR2).
      rewrite (run_call _ _ _ _ _ Hrun2), (proj2 (Z.eqb_neq _ _) Hret2), E0. by eexists _, _.
    + assert (c_type m = 1) as E1 by (apply Z.eqb_neq in E0, E2; lia).
      destruct (get_nt_there idle c1 62 (cp_nt u) HR1 ltac:(done) H62 Hu1) as (c2 & Hrun2 & HR2).
      rewrite (run_call _ _ _ _ _ Hrun2), E1. by eexists _, _.
Qed.
(** *** The sectors one after the other *)

Context (nrs : Z → list Z) (Hnrs : ∀ s, bytes (nrs s) ∧ len (nrs s) = 4).
Context (Htype : 0 <= c_type m <= 2) (Hlen : 4 <= c_uid_len m <= 10) (Htells : default_key m 0 = true → tells_uid m).
(** With another key than the sector's, the proof of the reader is wrong. *)
Context (Hrefuse : ∀ s, 0 <= s < classic_get_total_sectors (c_type m) → default_key m s = false → tag_opens (sector_start s) (nrs s) = false).

Lemma total_fits : 1 < classic_get_total_blocks (c_type m) <= CLASSIC_BLOCKS_IN_MODEL.
Proof.
  assert (c_type m ≠ CLASSIC_TYPE_UNKNOWN) as Hne by (unfold CLASSIC_TYPE_UNKNOWN; lia). split; [|by apply (cf_fits m Hm)].
  assert (c_type m = 0 ∨ c_type m = 1 ∨ c_type m = 2) as [-> | [-> | ->]] by lia; done.
Qed.

Lemma has_block_below n : n < classic_get_total_blocks (c_type m) → has_block m n = true.
Proof.
  intros Hn. unfold has_block. rewrite (proj2 (Z.eqb_neq _ _)) by (unfold CLASSIC_TYPE_UNKNOWN; lia). by rewrite (proj2 (Z.ltb_lt _ _)).
Qed.

Lemma two_blocks : 1 < len (c_blocks m).
Proof. rewrite (cf_blocks m Hm). pose proof total_fits. lia. Qed.

Lemma block_loop_reads s : 0 <= s < classic_get_total_sectors (c_type m) → default_key m s = true → ∀ j i k c buf d,
  0 <= i → i + Z.of_nat j = classic_get_blocks_in_sector s → R (opened (sector_start s) k) c → cloned m (sector_start s + i) (s + 1) d → len buf = 16 →
  ∃ buf' d' c' k', block_loop tag_transceive u j i (Some ses) k s (sector_start s) (classic_get_total_blocks (c_type m)) buf d c =
    Some ((None, buf', d'), c') ∧ len buf' = 16 ∧ cloned m (sector_start (s + 1)) (s + 1) d' ∧ R (opened (sector_start s) k') c'.
Proof.
  intros Hs Hk. destruct (sectors_of_type _ Htype) as [Hts Htot]. destruct (sector_blocks s ltac:(lia)) as (_ & Hfb & Hend & Hcnt & Hle).
  pose proof (sector_start_mono (s + 1) (classic_get_total_sectors (c_type m)) ltac:(lia)) as Hmono. unfold is_byte in Hfb.
  induction j as [|j IH]; intros i k c buf d Hi Hij Hc Hcl Hbuf.
  { exists buf, d, c, k. cbn [block_loop]. split; [done|]. split; [done|]. split; [|done].
    replace (sector_start (s + 1)) with (sector_start s + i) by lia. done. }
  cbn [block_loop]. cbv zeta. assert (is_byte (sector_start s + i)) as Hbn by (unfold is_byte; lia). rewrite u8_id by done.
  set (n := sector_start s + i) in *. rewrite (proj2 (Z.leb_gt _ _)) by lia.
  assert (classic_get_sector_by_block n = s) as Hsec by (apply sector_of_block; [done|lia]).
  destruct (classic_block_reads (sector_start s) k c n buf Hc Hbn (has_block_below n ltac:(lia))) as (k' & c' & Hrun & Hc'); [|done|].
  { rewrite Hsec. apply sector_of_block; [unfold is_byte; lia|lia]. }
  rewrite (run_call _ _ _ _ _ Hrun). cbn [Z.eqb negb].
  destruct (keep_block_ok m Hm Htells Hlen n (s + 1) d Hcl Hbn) as (d' & Hkeep & Hcl'); [pose proof total_fits; lia|apply two_blocks|by rewrite Hsec|].
  rewrite Hsec in Hkeep. rewrite Hkeep, run_lift_Some. rewrite (u8_id (i + 1)) by (unfold is_byte; lia).
  apply (IH (i + 1) k' c' (classic_block m n) d'); [lia|lia|done| |].
  - replace (sector_start s + (i + 1)) with (n + 1) by (unfold n; lia). done.
  - destruct (block_found m n Hm) as (_ & Hl & _); [|done]. rewrite (cf_blocks m Hm). pose proof total_fits. lia.
Qed.

Lemma sector_loop_reads : ∀ j s ph c buf d, 0 <= s → s + Z.of_nat j = classic_get_total_sectors (c_type m) → R ph c → cloned m (sector_start s) s d → len buf = 16 →
  ∃ d' c' ph', sector_loop tag_transceive u nrs j s (Some ses) (classic_get_total_blocks (c_type m)) buf d c = Some ((None, d'), c') ∧
    cloned m (classic_get_total_blocks (c_type m)) (classic_get_total_sectors (c_type m)) d' ∧ R ph' c'.
Proof.
  destruct (sectors_of_type _ Htype) as [Hts Htot]. induction j as [|j IH]; intros s ph c buf d Hs Hsj Hc Hcl Hbuf.
  { exists d, c, ph. cbn [sector_loop]. split; [done|]. split; [|done]. rewrite Htot. replace (classic_get_total_sectors (c_type m)) with s by lia. done. }
  cbn [sector_loop]. cbv zeta. destruct (sector_blocks s ltac:(lia)) as (-> & Hfb & Hend & Hcnt & Hle).
  pose proof (sector_start_mono (s + 1) (classic_get_total_sectors (c_type m)) ltac:(lia)) as Hmono.
  rewrite (u8_id (s + 1)) by (unfold is_byte; lia). destruct (Hnrs s) as [Hnb Hnl].
  pose proof (knows_told m Hm Htells Hlen (sector_start s) d (cn_header _ _ _ _ Hcl)
    ltac:(unfold sector_start; case_bool; bool_prop; lia) two_blocks) as Hkn.
  pose proof (has_block_below (sector_start s) ltac:(lia)) as Hh. destruct (default_key m s) eqn:Hk.
  - pose proof (proj1 (Z.eqb_eq _ _) Hk) as Hkey.
    destruct (auth_opens ph c d (sector_start s) (nrs s) {| k_odd := 0; k_even := 0 |} Hc Hfb Hh Hkn Hnb Hnl Hkey) as (k' & c1 & Hrun & Hc1).
    rewrite (run_call _ _ _ _ _ Hrun). cbn [Z.eqb negb].
    destruct (cloned_open m (sector_start s) s d ltac:(lia) Hk Hcl) as (d1 & Hset & Hcl1). rewrite Hset, run_lift_Some.
    destruct (block_loop_reads s ltac:(lia) Hk (Z.to_nat (classic_get_blocks_in_sector s)) 0 k' c1 buf d1) as (buf2 & d2 & c2 & k2 & Hrun2 & Hb2 & Hcl2 & Hc2);
      [done|lia|done|by rewrite Z.add_0_r|done|].
    rewrite (run_call _ _ _ _ _ Hrun2). by apply (IH (s + 1) (opened (sector_start s) k2)); [lia|lia|..].
  - destruct (auth_refused ph c d (sector_start s) (nrs s) {| k_odd := 0; k_even := 0 |} Hc Hfb Hh Hkn Hnb Hnl (Hrefuse s ltac:(lia) Hk))
      as (ret & k' & c1 & Hrun & Hret & Hc1).
    rewrite (run_call _ _ _ _ _ Hrun), (proj2 (Z.eqb_neq _ _) Hret). cbn [negb].
    apply (IH (s + 1) idle); [lia|lia|done| |done]. by apply cloned_skip; [lia|..].
Qed.

(** The controller has reported the card's UID. *)
Definition reports : Prop :=
  let t := ses_tag ses in ti_valid t = true ∧ uid_len (ti_uid t) = c_uid_len m ∧
  sub (uid_bytes (ti_uid t)) 0 (c_uid_len m) = Some (take (Z.to_nat (c_uid_len m)) (c_uid m)).

Lemma reported_read : reports → ∃ d, reported_uid ses classic_zero = Some d ∧
  cloned m 0 0 (classic_with_header (c_type m) (c_uid d) (c_uid_len d) (c_sak d) (c_atqa d) d).
Proof.
  intros (Hv & Hl & Hsub). unfold reported_uid. rewrite Hv, Hl, (proj2 (Z.ltb_lt _ _)), (proj2 (Z.ltb_ge _ _)) by lia. cbn [andb]. cbv zeta.
  unfold memcpy. rewrite Hsub. mred. pose proof (sub_len _ _ _ _ Hsub) as Htl. set (l := take _ _) in *.
  assert (blit (zeros 10) 0 l = Some (over l (zeros 10))) as Hbl.
  { rewrite blit_ok by (change (len (zeros 10)) with 10; lia). do 2 f_equal. change (take (Z.to_nat 0) (zeros 10)) with (@nil Z). cbn [app]. unfold over.
    do 2 f_equal. unfold len. lia. }
  change (c_uid classic_zero) with (zeros 10). rewrite Hbl. mred. eexists. split; [reflexivity|]. constructor; try done.
  - cbn. unfold header_of, header_told. cbn. by rewrite orb_true_r.
  - intros k Hk. unfold is_byte in Hk. rewrite (proj2 (Z.ltb_ge k 0)) by lia. cbn [andb]. unfold classic_is_block_read.
    rewrite (proj2 (Z.leb_gt _ _)) by (unfold CLASSIC_BLOCK_COUNT_MAX; lia).
    change (c_block_read_mask _) with (zeros 8). destruct (ld_Some (zeros 8) (k / 32)) as [w Hw]; [change (len (zeros 8)) with 8; dlia|].
    rewrite Hw. mred. apply ld_Some_inv in Hw as [_ Hw]. apply lookup_replicate_1 in Hw as [-> _]. by rewrite Z.land_0_l.
  - apply Forall_replicate. done.
  - cbn. rewrite len_replicate. pose proof total_fits. lia.
  - apply Forall_replicate. done.
  - intros k Hk. rewrite (proj2 (Z.ltb_ge k 0)) by lia. cbn [andb]. cbn. apply lookup_replicate_2. lia.
  - intros t Ht. rewrite (proj2 (Z.ltb_ge t 0)) by lia. unfold classic_is_key_found. rewrite (proj2 (Z.leb_gt _ _)) by (unfold CLASSIC_SECTOR_COUNT_MAX; lia).
    cbn [classic_with_header c_key_a_mask]. by rewrite Z.land_0_l.
  - intros t Ht. destruct (sector_blocks t Ht) as (_ & Hb & Heq & Hc & _). unfold is_byte in Hb. rewrite (proj2 (Z.leb_gt _ _)) by lia.
    unfold classic_is_key_found. rewrite (proj2 (Z.leb_gt _ _)) by (unfold CLASSIC_SECTOR_COUNT_MAX; lia).
    cbn [classic_with_header c_key_b_mask]. by rewrite Z.land_0_l.
Qed.

(** A whole read. *)
Lemma classic_reads ph c buf out : reports → R ph c → len buf = 16 → ∃ d c' ph',
  classic_poller_read tag_transceive u nrs buf (Some ses) (Some out) c = Some ((if default_key m 0 then 0 else - EIO, Some d), c') ∧
  cloned m (classic_get_total_blocks (c_type m)) (classic_get_total_sectors (c_type m)) d ∧ R ph' c'.
Proof.
  intros Hrep Hc Hbuf. unfold classic_poller_read, classic_poller_session_valid. rewrite Hses. cbn [negb Z.eqb].
  destruct (reported_read Hrep) as (d0 & Hd0 & Hcl0). rewrite Hd0, run_lift_Some.
  destruct (detect_type_reads ph c Hc Htype) as (ph1 & c1 & Hrun & Hc1). rewrite (run_call _ _ _ _ _ Hrun). cbv zeta.
  rewrite (proj2 (Z.eqb_neq _ CLASSIC_TYPE_UNKNOWN)) by (unfold CLASSIC_TYPE_UNKNOWN; lia). destruct (sectors_of_type _ Htype) as [Hts _].
  destruct (sector_loop_reads (Z.to_nat (classic_get_total_sectors (c_type m))) 0 ph1 c1 buf _ ltac:(done) ltac:(lia) Hc1 Hcl0 Hbuf)
    as (d & c2 & ph2 & Hrun2 & Hcl & Hc2).
  rewrite (run_call _ _ _ _ _ Hrun2). rewrite (cn_read _ _ _ _ Hcl 0 ltac:(done)), run_lift_Some. pose proof total_fits as Htf.
  rewrite (proj2 (Z.ltb_lt 0 _)) by lia. change (classic_get_sector_by_block 0) with 0. cbn [andb].
  exists d, c2, ph2. split; [|done]. by destruct (default_key m 0).
Qed.
End Exchanges.

(** ** The listener is such a card *)

Section ClassicLoopback.
Context `{Kconfig} (ul : classic_locals) (Hul : classic_locals_ok ul) (m : classic_data_t).

Definition classic_link : list Z → M classic_state (Z * list Z) := link (λ f, classic_listener_on_tag_cmd ul (Some f) (len f)).

Definition classic_shows (ph : classic_phase) (s : classic_state) : Prop :=
  classic_state_ok s ∧ cs_initialized s = true ∧ cs_model s = m ∧ phase_of (cs_auth s) = ph.

(** What the card does with a frame is what the link brings back. *)
Lemma link_replies ph f s r ph' : classic_shows ph s → bytes f →
  tag_step (tag_of s) f = match r with Some b => ct_answer b ph' (tag_of s) | None => ct_with_phase ph' (tag_of s) end →
  replies classic_link f s r (classic_shows ph').
Proof.
  intros (Hs & Hi & Hm & _) Hb Hstep. destruct (tag_step_shows ul Hul s f Hs Hb) as (s' & Hrun & Ha & Hs'). rewrite Hstep in Ha.
  assert (cs_sent s' = cs_sent s ++ match r with Some b => [b] | None => [] end ∧ classic_shows ph' s') as [Hsent Hsh].
  { unfold classic_shows. change (cs_sent s') with (ct_sent (tag_of s')). change (cs_initialized s') with (ct_initialized (tag_of s')).
    change (cs_model s') with (ct_model (tag_of s')). change (phase_of (cs_auth s')) with (ct_phase (tag_of s')). rewrite Ha.
    destruct r; cbn [ct_answer ct_with_phase ct_sent ct_initialized ct_model ct_phase tag_of]; [done|]. by rewrite app_nil_r. }
  pose proof (run_link_sent (λ f, classic_listener_on_tag_cmd ul (Some f) (len f)) f _ s s' Hrun Hsent) as Hl.
  destruct r as [b|]; [exists 0, b, s'|exists (- ETIMEDOUT), [], s']; (split; [exact Hl|split; [exact Hsh|]]); [by split|done].
Qed.

#[global] Instance classic_listener_card : MifareCard classic_link m classic_shows.
Proof.
  constructor.
  - intros ph s b Hs Hb. apply (link_replies ph); [exact Hs|by bytes_list|]. destruct Hs as (_ & Hi & Hm & Hph).
    unfold tag_step, after_auth, tag_auth. change (ct_initialized (tag_of s)) with (cs_initialized s). change (ct_model (tag_of s)) with (cs_model s).
    rewrite Hi, Hm, Z.eqb_refl. cbn [negb orb]. destruct (ct_phase (tag_of s)), (has_block m b); reflexivity.
  - intros b k s n0 n1 n2 n3 a0 a1 a2 a3 Hs Hb. cbv zeta. apply (link_replies (challenged b k)); [exact Hs|exact Hb|].
    destruct Hs as (_ & Hi & Hm & Hph). unfold tag_step, after_proof, tag_proof, tag_finish.
    change (ct_initialized (tag_of s)) with (cs_initialized s). change (ct_phase (tag_of s)) with (phase_of (cs_auth s)). rewrite Hi, Hph. cbn [negb].
    destruct (tag_checks _ _ _ _) as [k1|]; [|reflexivity]. destruct (masked k1 _); reflexivity.
  - intros b k s p n Hs Hb Hl Hr. cbv zeta. pose proof (masked_bytes k p Hb) as Hmb. pose proof (masked_len k p) as Hml. pose proof (masked_twice k p) as Htw.
    destruct (masked k p) as [e k1]. cbn [fst snd] in *. apply (link_replies (opened b k)); [exact Hs|exact Hmb|].
    destruct Hs as (_ & Hi & Hm & Hph). unfold tag_step. change (ct_initialized (tag_of s)) with (cs_initialized s).
    change (ct_phase (tag_of s)) with (phase_of (cs_auth s)). rewrite Hi, Hph. cbn [negb]. 
    destruct e as [|e0 [|e1 [|e2 [|e3 []]]]]; try (exfalso; unfold len in Hl; cbn in Hml; lia).
    unfold tag_read. rewrite Htw. change (ct_model (tag_of s)) with (cs_model s). rewrite Hm, Hr. unfold tag_block. destruct (masked k1 _); reflexivity.
Qed.
End ClassicLoopback.

(** C37: the MIFARE Classic poller in front of the MIFARE Classic listener.  It finds the type, opens
    exactly the sectors whose key A is the default key and reads every block of them: the image has those
    blocks, as they are, and zeros for the others, a mask of exactly the blocks read, key A marked for the
    sectors opened (and key B as well, although no answer tells it), and the UID, SAK and ATQA that
    blocks 0 and 1 tell, or only the UID the controller reported if sector 0 stays closed; in that case
    the poller returns -EIO.  Conditions: the type is Mini, 1K or 4K and its blocks fit the build's array; the UID has 4 to 10
    bytes, and the controller has reported exactly it for the session ([reports]); if sector 0 opens, blocks 0 and 1 tell
    a UID with the word the card's cipher starts with ([tells_uid]; without it the sectors after the first stay closed, see
    the findings); and the reader's nonces are arbitrary, but
    no proof made with the default key is accepted for another key by chance. *)
Theorem classic_poller_reads_listener `{Kconfig} ul u ses nrs m s buf out :
  classic_locals_ok ul → classic_arrays_ok u → classic_safe m → ses_active ses = true →
  0 <= c_type m <= 2 → 4 <= c_uid_len m <= 10 → reports m ses → (default_key m 0 = true → tells_uid m) →
  (∀ t, bytes (nrs t) ∧ len (nrs t) = 4) →
  (∀ t, 0 <= t < classic_get_total_sectors (c_type m) → default_key m t = false → tag_opens m (sector_start t) (nrs t) = false) →
  classic_state_ok s → cs_initialized s = true → cs_model s = m → len buf = 16 →
  ∃ d s', classic_poller_read (classic_link ul) u nrs buf (Some ses) (Some out) s = Some ((if default_key m 0 then 0 else - EIO, Some d), s') ∧
    cloned m (classic_get_total_blocks (c_type m)) (classic_get_total_sectors (c_type m)) d ∧ cs_model s' = m.
Proof.
  intros Hul Hu Hm Hses Ht Hl Hrep Htells Hnrs Href Hs Hi Hsm Hbuf. pose proof (classic_listener_card ul Hul m) as Hcard.
  destruct (classic_reads (classic_link ul) m (classic_shows m) Hm u Hu ses Hses nrs Hnrs Ht Hl Htells Href (phase_of (cs_auth s)) s buf out Hrep
    ltac:(done) Hbuf) as (d & s' & ph' & Hrun & Hcl & (_ & _ & Hm' & _)).
  exists d, s'. split; [exact Hrun|]. split; [exact Hcl|exact Hm'].
Qed.
