(* ===== verification/Felica.v ===== *)
(** * FeliCa card model ([src/nfc/protocols/felica/felica.c])

    The blocks of a FeliCa card with their status flags, the persistent form of the card and the
    comparison used to verify a clone. *)

From stdpp Require Import base list numbers option.
From S2P Require Import Prelude Service Serial.

(** ** Data *)

Definition FELICA_FORMAT_VERSION : Z := 0x02.
Definition FELICA_IDM_SIZE : Z := 8.
Definition FELICA_PMM_SIZE : Z := 8.
Definition FELICA_BLOCK_DATA_SIZE : Z := 16.
Definition FELICA_BLOCKS_MAX : Z := 64.

Inductive felica_workflow_type_t :=
  FELICA_WORKFLOW_UNKNOWN | FELICA_WORKFLOW_STANDARD | FELICA_WORKFLOW_LITE.

Record felica_block := { b_sf1 : Z; b_sf2 : Z; b_data : list Z }.
#[global] Instance felica_block_eq_dec : EqDecision felica_block.
Proof. solve_decision. Defined.

Record felica_data_t := {
  f_idm : list Z;
  f_pmm : list Z;
  f_blocks_total : Z;
  f_blocks_read : Z;
  f_blocks : list felica_block;
}.

Definition block_zero : felica_block :=
  {| b_sf1 := 0; b_sf2 := 0; b_data := zeros FELICA_BLOCK_DATA_SIZE |}.

Definition felica_zero : felica_data_t :=
  {| f_idm := zeros FELICA_IDM_SIZE; f_pmm := zeros FELICA_PMM_SIZE; f_blocks_total := 0;
     f_blocks_read := 0; f_blocks := replicate (Z.to_nat FELICA_BLOCKS_MAX) block_zero |}.

(** ** Operations *)

Definition felica_data_reset (d : option felica_data_t) : option felica_data_t :=
  match d with None => None | Some _ => Some felica_zero end.

Definition felica_get_workflow_type (pmm : option (list Z)) : option felica_workflow_type_t :=
  match pmm with
  | None => Some FELICA_WORKFLOW_UNKNOWN
  | Some pmm =>
    p1 ← ld pmm 1;
    Some (if (p1 =? 0xF0) || (p1 =? 0xF1) || (p1 =? 0xF2) then FELICA_WORKFLOW_LITE
          else if p1 =? 0xA2 then FELICA_WORKFLOW_STANDARD
          else if p1 <=? 0x48 then FELICA_WORKFLOW_STANDARD
          else FELICA_WORKFLOW_UNKNOWN)
  end.

Definition felica_persist_id : Z := NFC_PERSIST_ID_FELICA.

Definition felica_write (d : felica_data_t) : M wstate unit :=
  put FELICA_FORMAT_VERSION ;;
  puts (f_idm d) FELICA_IDM_SIZE ;;
  puts (f_pmm d) FELICA_PMM_SIZE ;;
  put (lo8 (f_blocks_total d)) ;; put (hi8 (f_blocks_total d)) ;;
  put (lo8 (f_blocks_read d)) ;; put (hi8 (f_blocks_read d)) ;;
  for_i (Z.to_nat (f_blocks_total d)) 0 (λ i,
    b ← lift (ld (f_blocks d) i);
    put (b_sf1 b) ;; put (b_sf2 b) ;; puts (b_data b) FELICA_BLOCK_DATA_SIZE).

Definition felica_serialize (data : option felica_data_t) (out : option (list Z)) (out_max : Z)
    (out_len : option Z) : option (Z * option (list Z) * option Z) :=
  match data, out, out_len with
  | None, _, _ | _, None, _ | _, _, None => Some (- EINVAL, out, out_len)
  | Some d, Some o, Some _ =>
    if (f_blocks_total d =? 0) || (FELICA_BLOCKS_MAX <? f_blocks_total d)
    then Some (- EINVAL, out, out_len) else
    let need := 1 + FELICA_IDM_SIZE + FELICA_PMM_SIZE + 4 +
      f_blocks_total d * (2 + FELICA_BLOCK_DATA_SIZE) in
    if out_max <? need then Some (- ENOSPC, out, out_len) else
    '(_, (o, offset)) ← felica_write d (o, 0);
    Some (0, Some o, Some offset)
  end.

Definition felica_read_block (inp : list Z) (b : felica_block) : M Z felica_block :=
  sf1 ← get inp; sf2 ← get inp;
  d ← read_into inp (b_data b) FELICA_BLOCK_DATA_SIZE;
  mret {| b_sf1 := sf1; b_sf2 := sf2; b_data := d |}.

(** The body of [felica_deserialize] after the NULL checks. *)
Definition felica_parse (inp : list Z) (in_len : Z) : M Z (Z * felica_data_t) :=
  let d := felica_zero in
  if in_len <? 1 + FELICA_IDM_SIZE + FELICA_PMM_SIZE + 4 then mret (- EBADMSG, d) else
  v ← get inp;
  if negb (v =? FELICA_FORMAT_VERSION) then mret (- EBADMSG, d) else
  idm ← read_into inp (f_idm d) FELICA_IDM_SIZE;
  pmm ← read_into inp (f_pmm d) FELICA_PMM_SIZE;
  t0 ← get inp; t1 ← get inp;
  let blocks_total := le16 t0 t1 in
  r0 ← get inp; r1 ← get inp;
  let fields total blocks :=
    {| f_idm := idm; f_pmm := pmm; f_blocks_total := total; f_blocks_read := le16 r0 r1;
       f_blocks := blocks |} in
  if (blocks_total =? 0) || (FELICA_BLOCKS_MAX <? blocks_total)
  then mret (- EBADMSG, fields 0 (f_blocks d)) else
  offset ← gets id;
  let need := offset + blocks_total * (2 + FELICA_BLOCK_DATA_SIZE) in
  if in_len <? need then mret (- EBADMSG, fields 0 (f_blocks d)) else
  blocks ← fill (Z.to_nat blocks_total) 0 (f_blocks d) (felica_read_block inp);
  mret (0, fields blocks_total blocks).

Definition felica_deserialize (data : option felica_data_t) (inp : option (list Z)) (in_len : Z)
    : option (Z * option felica_data_t) :=
  match data, inp with
  | None, _ | _, None => Some (- EINVAL, data)
  | Some _, Some inp => '(ret, d, _) ← felica_parse inp in_len 0; Some (ret, Some d)
  end.

(** The comparison of [n] more blocks from [i] on. *)
Fixpoint felica_compare_blocks (n : nat) (i : Z) (e a : felica_data_t) : option Z :=
  match n with
  | O => Some 0
  | S n =>
    x ← ld (f_blocks e) i; y ← ld (f_blocks a) i;
    if negb (b_sf1 x =? b_sf1 y) then Some (- EBADMSG) else
    if negb (b_sf2 x =? b_sf2 y) then Some (- EBADMSG) else
    s ← memcmp_eq (b_data x) 0 (b_data y) 0 FELICA_BLOCK_DATA_SIZE;
    if negb s then Some (- EBADMSG) else felica_compare_blocks n (i + 1) e a
  end.

Definition felica_compare (expected actual : option felica_data_t) : option Z :=
  match expected, actual with
  | None, _ | _, None => Some (- EINVAL)
  | Some e, Some a =>
    u ← memcmp_eq (f_idm e) 0 (f_idm a) 0 FELICA_IDM_SIZE;
    if negb u then Some (- EBADMSG) else
    p ← memcmp_eq (f_pmm e) 0 (f_pmm a) 0 FELICA_PMM_SIZE;
    if negb p then Some (- EBADMSG) else
    if negb (f_blocks_total e =? f_blocks_total a) then Some (- EBADMSG) else
    if negb (f_blocks_read e =? f_blocks_read a) then Some (- EBADMSG) else
    felica_compare_blocks (Z.to_nat (f_blocks_total e)) 0 e a
  end.

(** ** Well-formed cards and their persistent form *)

Definition block_ok (b : felica_block) : Prop :=
  is_byte (b_sf1 b) ∧ is_byte (b_sf2 b) ∧ len (b_data b) = FELICA_BLOCK_DATA_SIZE ∧ bytes (b_data b).

Record felica_ok (d : felica_data_t) : Prop := {
  fo_idm : len (f_idm d) = FELICA_IDM_SIZE;
  fo_idm_bytes : bytes (f_idm d);
  fo_pmm : len (f_pmm d) = FELICA_PMM_SIZE;
  fo_pmm_bytes : bytes (f_pmm d);
  fo_total : 1 <= f_blocks_total d <= FELICA_BLOCKS_MAX;
  fo_read : 0 <= f_blocks_read d < 65536;
  fo_len : len (f_blocks d) = FELICA_BLOCKS_MAX;
  fo_blocks : Forall block_ok (f_blocks d);
  fo_padding : drop (Z.to_nat (f_blocks_total d)) (f_blocks d) =
    drop (Z.to_nat (f_blocks_total d)) (f_blocks felica_zero);
}.

Definition felica_used (d : felica_data_t) : list felica_block :=
  take (Z.to_nat (f_blocks_total d)) (f_blocks d).

Definition enc_block (b : felica_block) : list Z := [b_sf1 b; b_sf2 b] ++ b_data b.

Definition felica_blob (d : felica_data_t) : list Z :=
  [FELICA_FORMAT_VERSION] ++ f_idm d ++ f_pmm d ++
  [lo8 (f_blocks_total d); hi8 (f_blocks_total d); lo8 (f_blocks_read d); hi8 (f_blocks_read d)] ++
  mjoin (enc_block <$> felica_used d).

Lemma enc_blocks_len bs : Forall block_ok bs → len (mjoin (enc_block <$> bs)) = len bs * 18.
Proof.
  intros Hb. rewrite (mjoin_len _ 18), len_fmap; [done|]. apply Forall_fmap. revert Hb.
  apply Forall_impl. intros b (_ & _ & Hd & _). unfold compose, enc_block. rewrite len_app, Hd. done.
Qed.

Lemma felica_used_len d : felica_ok d → len (felica_used d) = f_blocks_total d.
Proof. intros []. unfold felica_used. rewrite len_take. lia. Qed.

Lemma felica_blob_len d : felica_ok d → len (felica_blob d) = 21 + f_blocks_total d * 18.
Proof.
  intros Hd. pose proof Hd as []. unfold felica_blob. rewrite !len_app, fo_idm0, fo_pmm0.
  rewrite enc_blocks_len by (by apply Forall_take). rewrite felica_used_len by done.
  rewrite !len_cons, len_nil. unfold FELICA_IDM_SIZE, FELICA_PMM_SIZE. lia.
Qed.

Lemma felica_writes d : felica_ok d → writes (felica_write d) (felica_blob d).
Proof.
  intros []. unfold felica_write, felica_blob. cbn [app].
  apply (writes_bind _ [_]); [apply writes_put|].
  do 2 (apply writes_bind; [by apply writes_all|]). cbn [app].
  repeat (apply (writes_bind _ [_]); [apply writes_put|]).
  apply writes_array; [|lia]. intros i b Hb pre rest Hl. rewrite Hb, run_lift_Some.
  apply ld_Some_inv in Hb as [_ Hb]. destruct (Forall_lookup_1 _ _ _ _ fo_blocks0 Hb) as (_ & _ & Hd & _).
  revert pre rest Hl. change (writes (put (b_sf1 b) ;; put (b_sf2 b) ;; puts (b_data b) FELICA_BLOCK_DATA_SIZE) (enc_block b)).
  unfold enc_block. do 2 (apply (writes_bind _ [_]); [apply writes_put|]). by apply writes_all.
Qed.

Lemma felica_serialize_ok d out n0 : felica_ok d → len (felica_blob d) <= len out →
  felica_serialize (Some d) (Some out) (len out) (Some n0) =
  Some (0, Some (felica_blob d ++ drop (length (felica_blob d)) out), Some (len (felica_blob d))).
Proof.
  intros Hd Hl. pose proof (fo_total d Hd). unfold felica_serialize, FELICA_BLOCKS_MAX in *.
  rewrite (proj2 (Z.eqb_neq _ _)), !(proj2 (Z.ltb_ge _ _));
    [|rewrite felica_blob_len in Hl by done; unfold FELICA_IDM_SIZE, FELICA_PMM_SIZE, FELICA_BLOCK_DATA_SIZE; lia|lia..].
  cbn [orb]. by rewrite (writes_run _ _ out (felica_writes d Hd) Hl).
Qed.

(** One block is read as it was written. *)
Lemma read_block_ok inp off b x l : len (b_data b) = FELICA_BLOCK_DATA_SIZE → block_ok x →
  ahead inp off (enc_block x ++ l) → felica_read_block inp b off = Some (x, off + len (enc_block x)).
Proof.
  intros Hb (_ & _ & Hx & _) Ha. unfold enc_block in *. rewrite <-(assoc_L (++)) in Ha. cbn [app] in Ha.
  unfold felica_read_block. do 2 rget Ha. rnext Ha. unfold mret, M_ret. rewrite !len_app, !len_cons, len_nil.
  destruct x. cbn. f_equal. f_equal. lia.
Qed.

(** What is read from an input of [21 + n] bytes that holds the blocks [bs]. *)
Lemma felica_parse_spec idm pmm t0 t1 r0 r1 bs junk n :
  let inp := [FELICA_FORMAT_VERSION] ++ idm ++ pmm ++ [t0; t1; r0; r1] ++ mjoin (enc_block <$> bs) ++ junk in
  len idm = 8 → len pmm = 8 → le16 t0 t1 = len bs → 1 <= len bs <= 64 → Forall block_ok bs → len bs * 18 <= n →
  ∃ off, felica_parse inp (21 + n) 0 =
    Some ((0, {| f_idm := idm; f_pmm := pmm; f_blocks_total := len bs; f_blocks_read := le16 r0 r1;
                 f_blocks := bs ++ drop (length bs) (f_blocks felica_zero) |}), off).
Proof.
  intros inp Hi Hp Ht Hn Hb Hin. unfold felica_parse, FELICA_IDM_SIZE, FELICA_PMM_SIZE, FELICA_BLOCKS_MAX, FELICA_BLOCK_DATA_SIZE.
  rewrite (proj2 (Z.ltb_ge _ _)) by lia. pose proof (ahead_start inp) as Ha. unfold inp at 2 in Ha. cbn [app] in Ha.
  rget Ha. rewrite Z.eqb_refl. cbn [negb]. rread Ha idm; [|done..]. rewrite Hi in Ha. rread Ha pmm; [|done..]. rewrite Hp in Ha. do 4 rget Ha. cbv zeta.
  rewrite Ht. rewrite (proj2 (Z.eqb_neq _ _)), (proj2 (Z.ltb_ge _ _)) by lia. cbn [orb].
  rewrite run_gets. cbn [id]. revert Ha. zadds. intros Ha. rewrite (proj2 (Z.ltb_ge _ _)) by lia.
  pose proof (fill_spec inp (felica_read_block inp) enc_block (λ a, len (b_data a) = FELICA_BLOCK_DATA_SIZE) bs) as Hf.
  specialize (Hf ltac:(intros o a x l Hx Ha' Hah; eapply read_block_ok; [done| |exact Hah];
    apply (proj1 (List.Forall_forall _ _) Hb x), list_elem_of_In, Hx) [] (f_blocks felica_zero)).
  cbn [app] in Hf. change (len []) with 0 in Hf. replace (Z.to_nat (len bs)) with (length bs) by llia.
  eexists. rewrite (run_call _ _ _ _ _ (Hf _ junk ltac:(by apply Forall_replicate) ltac:(change (length (f_blocks felica_zero)) with 64%nat; unfold len in Hn; lia) Ha)). done.
Qed.

Lemma felica_read_back d d0 out n0 : felica_ok d → len (felica_blob d) <= len out →
  ∃ o n, felica_serialize (Some d) (Some out) (len out) (Some n0) = Some (0, Some o, Some n) ∧
    len o = len out ∧ felica_deserialize (Some d0) (Some o) n = Some (0, Some d).
Proof.
  intros Hd Hl. eexists _, _. split; [by apply felica_serialize_ok|].
  split; [rewrite len_app, len_drop; unfold len in *; lia|]. pose proof Hd as [].
  pose proof (felica_used_len d Hd) as Hu. unfold FELICA_BLOCKS_MAX in *.
  destruct (felica_parse_spec (f_idm d) (f_pmm d) (lo8 (f_blocks_total d)) (hi8 (f_blocks_total d))
    (lo8 (f_blocks_read d)) (hi8 (f_blocks_read d)) (felica_used d) (drop (length (felica_blob d)) out)
    (f_blocks_total d * 18)) as (off & Hrun); [done|done|rewrite le16_split; lia|lia|by apply Forall_take|lia|].
  unfold felica_deserialize. rewrite felica_blob_len by done. unfold felica_blob at 1. rewrite <-!(assoc_L (++)).
  rewrite Hrun. mred. rewrite le16_split, Hu by lia. unfold felica_used.
  replace (length (take _ (f_blocks d))) with (Z.to_nat (f_blocks_total d)) by llia.
  rewrite <-fo_padding0, take_drop. by destruct d.
Qed.

(** *** What is accepted *)

(** A byte string of whole blocks. *)
Lemma decode_blocks (n : nat) l : bytes l → Z.of_nat n * 18 <= len l →
  ∃ bs junk, l = mjoin (enc_block <$> bs) ++ junk ∧ len bs = Z.of_nat n ∧ Forall block_ok bs.
Proof.
  revert l. induction n as [|n IH]; intros l Hb Hl; [by exists [], l|].
  destruct (len_split l 18) as (c & l' & -> & Hc); [lia|]. rewrite len_app in Hl. apply bytes_app in Hb as [Hbc Hb].
  destruct (IH l' Hb ltac:(lia)) as (bs & junk & -> & Hn & Hok).
  destruct c as [|s1 [|s2 d]]; [exfalso; llia..|]. rewrite !len_cons in Hc. inv_bytes.
  exists ({| b_sf1 := s1; b_sf2 := s2; b_data := d |} :: bs), junk. rewrite fmap_cons, mjoin_cons.
  split; [unfold enc_block; cbn; by rewrite <-(assoc_L (++))|]. split; [rewrite len_cons; lia|].
  constructor; [|done]. unfold block_ok, FELICA_BLOCK_DATA_SIZE. cbn. split_and!; [done..|lia|done].
Qed.

(** A header with a number of blocks that is out of range or not there is refused. *)
Lemma felica_parse_refused idm pmm t0 t1 r0 r1 rest n :
  let inp := [FELICA_FORMAT_VERSION] ++ idm ++ pmm ++ [t0; t1; r0; r1] ++ rest in
  len idm = 8 → len pmm = 8 → 0 <= n →
  (le16 t0 t1 =? 0) || (FELICA_BLOCKS_MAX <? le16 t0 t1) = true ∨ n < le16 t0 t1 * 18 →
  ∃ d off, felica_parse inp (21 + n) 0 = Some ((- EBADMSG, d), off).
Proof.
  intros inp Hi Hp Hn Hbad. unfold felica_parse, FELICA_IDM_SIZE, FELICA_PMM_SIZE, FELICA_BLOCK_DATA_SIZE.
  rewrite (proj2 (Z.ltb_ge _ _)) by lia. pose proof (ahead_start inp) as Ha. unfold inp at 2 in Ha. cbn [app] in Ha.
  rget Ha. rewrite Z.eqb_refl. cbn [negb]. rread Ha idm; [|done..]. rewrite Hi in Ha.
  rread Ha pmm; [|done..]. rewrite Hp in Ha. do 4 rget Ha. cbv zeta.
  destruct (_ || _); [by eexists _, _|]. destruct Hbad as [Hbad|Hbad]; [done|].
  rewrite run_gets. cbn [id]. zadds. rewrite (proj2 (Z.ltb_lt _ _)) by lia. by eexists _, _.
Qed.

Lemma felica_accepts d0 inp n : bytes inp → 0 <= n <= len inp →
  ∃ ret d, felica_deserialize (Some d0) (Some inp) n = Some (ret, Some d) ∧
    (ret = 0 ∨ ret = - EBADMSG) ∧
    (ret = 0 → felica_ok d ∧ ∃ junk, take (Z.to_nat n) inp = felica_blob d ++ junk).
Proof.
  intros Hb Hn. unfold felica_deserialize.
  assert (∀ d off, felica_parse inp n 0 = Some ((- EBADMSG, d), off) →
    ∃ ret d', ('(ret, d, _) ← felica_parse inp n 0; Some (ret, Some d)) = Some (ret, Some d') ∧
      (ret = 0 ∨ ret = - EBADMSG) ∧ (ret = 0 → felica_ok d' ∧ ∃ junk, take (Z.to_nat n) inp = felica_blob d' ++ junk))
    as Hrefuse by (intros d off ->; eexists _, _; split; [done|]; split; [by right|done]).
  destruct (n <? 21) eqn:E; bool_prop.
  { eapply Hrefuse. unfold felica_parse. change (1 + FELICA_IDM_SIZE + FELICA_PMM_SIZE + 4) with 21.
    by rewrite (proj2 (Z.ltb_lt _ _)) by lia. }
  destruct (len_split_cons inp) as (v & r0 & ->); [lia|]. rewrite len_cons in Hn.
  destruct (len_split r0 8) as (idm & r1 & -> & Hi); [lia|]. rewrite len_app in Hn.
  destruct (len_split r1 8) as (pmm & r2 & -> & Hp); [lia|]. rewrite len_app in Hn.
  destruct (len_split r2 4) as (h & rest & -> & Hh); [lia|]. rewrite len_app in Hn.
  destruct h as [|t0 [|t1 [|q0 [|q1 [|]]]]]; try (exfalso; llia).
  destruct (v =? FELICA_FORMAT_VERSION) eqn:Ev; bool_prop.
  2: { eapply Hrefuse. unfold felica_parse. rewrite (proj2 (Z.ltb_ge _ _)) by (unfold FELICA_IDM_SIZE, FELICA_PMM_SIZE; lia).
       by rewrite (run_get _ _ v _ _ (ahead_start _)), (proj2 (Z.eqb_neq _ _)) by done. }
  subst v. inv_bytes. assert (0 <= le16 t0 t1) as Ht0 by (apply (u16_range _)).
  pose proof (felica_parse_refused idm pmm t0 t1 q0 q1 rest (n - 21) Hi Hp ltac:(lia)) as Hno.
  replace (21 + (n - 21)) with n in Hno by lia. cbn [app] in Hno.
  destruct ((le16 t0 t1 =? 0) || (FELICA_BLOCKS_MAX <? le16 t0 t1)) eqn:Et.
  { destruct Hno as (d & off & Hrun); [by left|]. by eapply Hrefuse. }
  destruct (Z.ltb_spec (n - 21) (le16 t0 t1 * 18)) as [Hs|Hs].
  { destruct Hno as (d & off & Hrun); [by right|]. by eapply Hrefuse. }
  clear Hno. bool_prop. unfold FELICA_BLOCKS_MAX in *.
  destruct (decode_blocks (Z.to_nat (le16 t0 t1)) (take (Z.to_nat (n - 21)) rest)) as (bs & junk & Hrest & Hbs & Hok);
    [by apply bytes_take|rewrite len_take; lia|].
  rewrite Z2Nat.id in Hbs by lia.
  destruct (felica_parse_spec idm pmm t0 t1 q0 q1 bs (junk ++ drop (Z.to_nat (n - 21)) rest) (n - 21))
    as (off & Hrun); [done|done|lia|lia|done|lia|].
  rewrite (assoc_L (++) _ junk), <-Hrest, take_drop in Hrun. replace (21 + (n - 21)) with n in Hrun by lia.
  clear Hrefuse. cbn [app] in Hrun |- *. rewrite Hrun. mred. eexists _, _. split; [done|]. split; [by left|]. intros _.
  split.
  - constructor; cbn [f_idm f_pmm f_blocks_total f_blocks_read f_blocks]; try done.
    + unfold FELICA_BLOCKS_MAX. lia.
    + apply u16_range.
    + rewrite len_app, len_drop. unfold FELICA_BLOCKS_MAX. change (len (f_blocks felica_zero)) with 64. unfold len in *. lia.
    + apply Forall_app. split; [done|]. apply Forall_drop, Forall_replicate. split_and!; [done..|by apply bytes_check].
    + rewrite drop_app_length' by llia. f_equal. unfold len. lia.
  - exists junk. unfold felica_blob, felica_used. cbn [f_idm f_pmm f_blocks_total f_blocks_read f_blocks].
    rewrite take_app_length', Hbs by llia. rewrite lo8_le16, hi8_le16, lo8_le16, hi8_le16 by done.
    rewrite <-!(assoc_L (++)). cbn [app]. rewrite <-Hrest.
    replace (Z.to_nat n) with (S (length idm + (length pmm + S (S (S (S (Z.to_nat (n - 21))))))))%nat by llia.
    cbn [take]. rewrite !take_app_add. cbn [take]. done.
Qed.

(** ** Verifying a clone *)

Lemma compare_blocks_spec e a : Forall block_ok (f_blocks e) → Forall block_ok (f_blocks a) →
  ∀ n i, 0 <= i → i + Z.of_nat n <= len (f_blocks e) → len (f_blocks a) = len (f_blocks e) →
    felica_compare_blocks n i e a = Some (if bool_decide
      (take n (drop (Z.to_nat i) (f_blocks e)) = take n (drop (Z.to_nat i) (f_blocks a))) then 0 else - EBADMSG).
Proof.
  intros He Ha. induction n as [|n IH]; intros i Hi Hn Hl; [done|]. cbn [felica_compare_blocks].
  destruct (ld_Some (f_blocks e) i) as [x Hx]; [lia|]. destruct (ld_Some (f_blocks a) i) as [y Hy]; [lia|].
  rewrite Hx, Hy. mred. apply ld_Some_inv in Hx as [_ Hx], Hy as [_ Hy].
  destruct (Forall_lookup_1 _ _ _ _ He Hx) as (_ & _ & Hdx & _). destruct (Forall_lookup_1 _ _ _ _ Ha Hy) as (_ & _ & Hdy & _).
  rewrite (drop_S _ _ _ Hx), (drop_S _ _ _ Hy). cbn [take]. replace (S (Z.to_nat i)) with (Z.to_nat (i + 1)) by lia.
  assert (memcmp_eq (b_data x) 0 (b_data y) 0 FELICA_BLOCK_DATA_SIZE = Some (bool_decide (b_data x = b_data y))) as Hm.
  { by apply memcmp_all. }
  rewrite Hm. mred. rewrite (IH (i + 1)) by (done || lia).
  assert (∀ l k, x :: l = y :: k ↔ b_sf1 x = b_sf1 y ∧ b_sf2 x = b_sf2 y ∧ b_data x = b_data y ∧ l = k) as Heq.
  { intros l k. split; [by intros [= -> ->]|]. destruct x, y. cbn. intros (-> & -> & -> & ->). done. }
  rewrite (bool_decide_ext _ _ (Heq _ _)), !bool_decide_and.
  destruct (Z.eqb_spec (b_sf1 x) (b_sf1 y)) as [E1|E1]; cbn [negb];
    [rewrite (bool_decide_eq_true_2 (b_sf1 x = _)) by done|by rewrite (bool_decide_eq_false_2 (b_sf1 x = _)) by done].
  destruct (Z.eqb_spec (b_sf2 x) (b_sf2 y)) as [E2|E2]; cbn [negb];
    [rewrite (bool_decide_eq_true_2 (b_sf2 x = _)) by done|by rewrite (bool_decide_eq_false_2 (b_sf2 x = _)) by done].
  by destruct (bool_decide (b_data x = b_data y)).
Qed.

(** Two well-formed cards with the same header and the same used blocks are the same. *)
Lemma felica_eq e a : felica_ok e → felica_ok a → e = a ↔
  f_idm e = f_idm a ∧ f_pmm e = f_pmm a ∧ f_blocks_total e = f_blocks_total a ∧
  f_blocks_read e = f_blocks_read a ∧ felica_used e = take (Z.to_nat (f_blocks_total e)) (f_blocks a).
Proof.
  intros He Ha. split; [by intros ->|]. intros (H1 & H2 & H3 & H4 & H5).
  assert (f_blocks e = f_blocks a) as Hb.
  { rewrite <-(take_drop (Z.to_nat (f_blocks_total e)) (f_blocks e)). fold (felica_used e).
    rewrite H5, (fo_padding e He), H3, <-(fo_padding a Ha). apply take_drop. }
  destruct e, a. cbn in *. congruence.
Qed.

(** [felica_compare] decides equality of well-formed cards. *)
Lemma felica_compare_spec e a : felica_ok e → felica_ok a →
  ∃ r, felica_compare (Some e) (Some a) = Some r ∧ (r = 0 ↔ e = a) ∧ (r = 0 ∨ r = - EBADMSG).
Proof.
  intros He Ha. setoid_rewrite (felica_eq e a He Ha). pose proof He as []. pose proof Ha as []. unfold felica_compare.
  rewrite !memcmp_all by done. mred.
  destruct (bool_decide_reflect (f_idm e = f_idm a)) as [E1|E1]; cbn [negb]; [|naive_solver].
  destruct (bool_decide_reflect (f_pmm e = f_pmm a)) as [E2|E2]; cbn [negb]; [|naive_solver].
  destruct (Z.eqb_spec (f_blocks_total e) (f_blocks_total a)) as [E3|E3]; cbn [negb]; [|naive_solver].
  destruct (Z.eqb_spec (f_blocks_read e) (f_blocks_read a)) as [E4|E4]; cbn [negb]; [|naive_solver].
  rewrite compare_blocks_spec by (done || lia). change (Z.to_nat 0) with 0%nat. rewrite !drop_0. fold (felica_used e).
  destruct (bool_decide_reflect (felica_used e = take (Z.to_nat (f_blocks_total e)) (f_blocks a))); naive_solver.
Qed.

(** The persistent form of a FeliCa card is exact, and so is the verification of a clone.  What
    [felica_serialize] writes for a well-formed card is read back as the same card; on any bytes
    and any length within them [felica_deserialize] returns without leaving the buffer, and what it
    accepts starts with the persistent form of the well-formed card it fills; and
    [felica_compare] of two well-formed cards returns 0 exactly when they are the same, -EBADMSG
    otherwise. *)
Theorem felica_codec :
  (∀ d d0 out n0, felica_ok d → len (felica_blob d) <= len out →
     ∃ o n, felica_serialize (Some d) (Some out) (len out) (Some n0) = Some (0, Some o, Some n) ∧
       len o = len out ∧ felica_deserialize (Some d0) (Some o) n = Some (0, Some d)) ∧
  (∀ d0 inp n, bytes inp → 0 <= n <= len inp →
     ∃ ret d, felica_deserialize (Some d0) (Some inp) n = Some (ret, Some d) ∧
       (ret = 0 ∨ ret = - EBADMSG) ∧
       (ret = 0 → felica_ok d ∧ ∃ junk, take (Z.to_nat n) inp = felica_blob d ++ junk)) ∧
  (∀ e a, felica_ok e → felica_ok a →
     ∃ r, felica_compare (Some e) (Some a) = Some r ∧ (r = 0 ↔ e = a) ∧ (r = 0 ∨ r = - EBADMSG)).
Proof. split; [apply felica_read_back|]. split; [apply felica_accepts|apply felica_compare_spec]. Qed.
