(* ===== verification/Emv.v ===== *)
(** * EMV card image ([src/nfc/protocols/emv/emv.c], [emv.h])

    The image of a payment card, the TLV writer its first record is built with, and its
    persistent form. *)

From stdpp Require Import base list numbers option.
From S2P Require Import Prelude Kconfig Service Stack Serial.

Definition EMV_FORMAT_VERSION : Z := 0x01.
Definition EMV_SERVICE_APP_AID_LEN : Z := 7.
Definition EMV_PAN_BYTES : Z := 8.
Definition EMV_EXPIRY_BYTES : Z := 3.
Definition EMV_NAME_BYTES : Z := 26.
Definition EMV_TRACK2_MAX_BYTES : Z := 19.
Definition EMV_AIP_BYTES : Z := 2.
Definition EMV_AFL_BYTES : Z := 4.
Definition EMV_APP_AID_MAX_BYTES : Z := 16.
Definition EMV_TAG_RECORD_TMPL : Z := 0x70.

Record emv_card_image_t := {
  pan : list Z;
  pan_len : Z;
  expiry : list Z;
  name : list Z;
  track2 : list Z;
  track2_len : Z;
  aip : list Z;
  afl : list Z;
  app_aid : list Z;
  app_aid_len : Z;
  record_count : Z;
  record_len : list Z;
  record_data : list (list Z);
}.

Definition with_records (count : Z) (lens : list Z) (data : list (list Z)) (i : emv_card_image_t)
    : emv_card_image_t :=
  {| pan := pan i; pan_len := pan_len i; expiry := expiry i; name := name i; track2 := track2 i;
     track2_len := track2_len i; aip := aip i; afl := afl i; app_aid := app_aid i;
     app_aid_len := app_aid_len i; record_count := count; record_len := lens; record_data := data |}.

(** ** The TLV writer *)

Record emv_tlv_writer_t := { w_buf : list Z; w_cap : Z; w_pos : Z; w_error : bool }.

Definition emv_tlv_init (buf : list Z) (cap : Z) : emv_tlv_writer_t :=
  {| w_buf := buf; w_cap := cap; w_pos := 0; w_error := false |}.

Definition w_fail (w : emv_tlv_writer_t) : emv_tlv_writer_t :=
  {| w_buf := w_buf w; w_cap := w_cap w; w_pos := w_pos w; w_error := true |}.

Definition emv_tlv_put_u8 (v : Z) : M emv_tlv_writer_t unit := λ w,
  if w_error w || (w_cap w <=? w_pos w) then Some (tt, w_fail w) else
  b ← st (w_buf w) (w_pos w) v;
  Some (tt, {| w_buf := b; w_cap := w_cap w; w_pos := w_pos w + 1; w_error := w_error w |}).

Definition emv_tlv_put_bytes (data : list Z) (n : Z) : M emv_tlv_writer_t unit :=
  for_i (Z.to_nat n) 0 (λ i, b ← lift (ld data i); emv_tlv_put_u8 b).

Definition emv_tlv_put_len (n : Z) : M emv_tlv_writer_t unit := emv_tlv_put_u8 (u8 n).

Definition emv_tlv_open (tag : Z) : M emv_tlv_writer_t unit :=
  emv_tlv_put_u8 tag ;; emv_tlv_put_u8 0.

(** [len] is a [size_t]. *)
Definition emv_tlv_close (start : Z) : M emv_tlv_writer_t unit := λ w,
  let n := u32 (w_pos w - start - 1) in
  if w_error w || (0x7F <? n) then Some (tt, w_fail w) else
  b ← st (w_buf w) start (u8 n);
  Some (tt, {| w_buf := b; w_cap := w_cap w; w_pos := w_pos w; w_error := w_error w |}).

Section Emv.
Context `{Kconfig}.

Definition emv_zero : emv_card_image_t :=
  {| pan := zeros EMV_PAN_BYTES; pan_len := 0; expiry := zeros EMV_EXPIRY_BYTES;
     name := zeros EMV_NAME_BYTES; track2 := zeros EMV_TRACK2_MAX_BYTES; track2_len := 0;
     aip := zeros EMV_AIP_BYTES; afl := zeros EMV_AFL_BYTES;
     app_aid := zeros EMV_APP_AID_MAX_BYTES; app_aid_len := 0; record_count := 0;
     record_len := zeros CONFIG_NFC_EMV_MAX_RECORDS;
     record_data := replicate (Z.to_nat CONFIG_NFC_EMV_MAX_RECORDS)
                      (zeros CONFIG_NFC_EMV_RECORD_SIZE) |}.

Definition emv_card_image_reset (i : option emv_card_image_t) : option emv_card_image_t :=
  match i with None => None | Some _ => Some emv_zero end.

(** The writer works in place on the first record. *)
Definition emv_build_record0 (i : emv_card_image_t) : option (Z * emv_card_image_t) :=
  r0 ← ld (record_data i) 0;
  let w := emv_tlv_init r0 CONFIG_NFC_EMV_RECORD_SIZE in
  let pan_bytes := pan_len i / 2 in
  let pan_bytes := if EMV_PAN_BYTES <? pan_bytes then EMV_PAN_BYTES else pan_bytes in
  '(_, w) ← (emv_tlv_open EMV_TAG_RECORD_TMPL ;;
             (if 0 <? pan_bytes then
                emv_tlv_put_u8 0x5A ;; emv_tlv_put_len pan_bytes ;;
                emv_tlv_put_bytes (pan i) pan_bytes
              else mret tt) ;;
             emv_tlv_put_u8 0x57 ;;
             emv_tlv_put_len (track2_len i) ;;
             emv_tlv_put_bytes (track2 i) (track2_len i) ;;
             emv_tlv_close 1) w;
  d ← st (record_data i) 0 (w_buf w);
  if w_error w then Some (- ENOSPC, with_records (record_count i) (record_len i) d i) else
  l ← st (record_len i) 0 (u8 (w_pos w));
  Some (0, with_records 1 l d i).

Definition default_pan : list Z := [0x99; 0x99; 0x99; 0x99; 0x99; 0x99; 0x99; 0x99].
Definition default_expiry : list Z := [0x99; 0x12; 0x31].
(** ["TEST/CARD                 "] without its NUL. *)
Definition default_name : list Z :=
  [0x54; 0x45; 0x53; 0x54; 0x2F; 0x43; 0x41; 0x52; 0x44] ++ replicate 17 0x20.
Definition default_track2 : list Z :=
  [0x99; 0x99; 0x99; 0x99; 0x99; 0x99; 0x99; 0x99; 0xD9; 0x12; 0x31; 0x00; 0x00; 0x00; 0x00; 0x0F].

Definition emv_card_image_load_default (i : option emv_card_image_t)
    : option (option emv_card_image_t) :=
  match i with
  | None => Some None
  | Some _ =>
    let z := emv_zero in
    p ← memcpy (pan z) 0 default_pan 0 (len default_pan);
    e ← memcpy (expiry z) 0 default_expiry 0 (len default_expiry);
    n ← memcpy (name z) 0 default_name 0 (len default_name);
    t ← memcpy (track2 z) 0 default_track2 0 (len default_track2);
    a ← memcpy (app_aid z) 0 emv_service_app_aid 0 EMV_SERVICE_APP_AID_LEN;
    let i := {| pan := p; pan_len := 16; expiry := e; name := n; track2 := t;
                track2_len := u8 (len default_track2); aip := [0x00; 0x00];
                afl := [0x08; 0x01; 0x01; 0x00]; app_aid := a;
                app_aid_len := EMV_SERVICE_APP_AID_LEN; record_count := record_count z;
                record_len := record_len z; record_data := record_data z |} in
    '(_, i) ← emv_build_record0 i; Some (Some i)
  end.

Definition emv_persist_id : Z := NFC_PERSIST_ID_EMV.

Definition emv_rebuild_caches (i : option emv_card_image_t) : Z :=
  match i with
  | None => - EINVAL
  | Some i => if (app_aid_len i =? 0) || (EMV_APP_AID_MAX_BYTES <? app_aid_len i) then - EBADMSG
              else 0
  end.

(** The loop that sums the record sizes, [n] iterations left. *)
Fixpoint records_need (n : nat) (k : Z) (lens : list Z) (need : Z) : option Z :=
  match n with
  | O => Some need
  | S n => l ← ld lens k; records_need n (k + 1) lens (need + (1 + l))
  end.

Definition emv_write (i : emv_card_image_t) : M wstate unit :=
  put EMV_FORMAT_VERSION ;; put (pan_len i) ;;
  puts (pan i) EMV_PAN_BYTES ;; puts (expiry i) EMV_EXPIRY_BYTES ;; puts (name i) EMV_NAME_BYTES ;;
  put (track2_len i) ;; puts (track2 i) EMV_TRACK2_MAX_BYTES ;;
  puts (aip i) EMV_AIP_BYTES ;; puts (afl i) EMV_AFL_BYTES ;;
  put (app_aid_len i) ;; puts (app_aid i) EMV_APP_AID_MAX_BYTES ;;
  put (record_count i) ;;
  for_i (Z.to_nat (record_count i)) 0 (λ k,
    l ← lift (ld (record_len i) k); put l ;;
    d ← lift (ld (record_data i) k); puts d l).

Definition emv_serialize (image : option emv_card_image_t) (out : option (list Z)) (out_max : Z)
    (out_len : option Z) : option (Z * option (list Z) * option Z) :=
  match image, out, out_len with
  | None, _, _ | _, None, _ | _, _, None => Some (- EINVAL, out, out_len)
  | Some i, Some o, Some _ =>
    need ← records_need (Z.to_nat (record_count i)) 0 (record_len i) 84;
    if out_max <? need then Some (- ENOSPC, out, out_len) else
    '(_, (o, offset)) ← emv_write i (o, 0);
    Some (0, Some o, Some offset)
  end.

(** The loop over the records, [n] iterations left: the error of an early return or 0. *)
Fixpoint emv_parse_records (inp : list Z) (in_len : Z) (n : nat) (k : Z) (i : emv_card_image_t)
    : M Z (Z * emv_card_image_t) :=
  match n with
  | O => mret (0, i)
  | S n =>
    offset ← gets Datatypes.id;
    if in_len <=? offset then mret (- EBADMSG, i) else
    l ← get inp;
    ls ← lift (st (record_len i) k l);
    let i := with_records (record_count i) ls (record_data i) i in
    offset ← gets Datatypes.id;
    if in_len <? offset + l then mret (- EBADMSG, i) else
    r ← lift (ld (record_data i) k);
    r ← read_into inp r l;
    d ← lift (st (record_data i) k r);
    emv_parse_records inp in_len n (k + 1) (with_records (record_count i) (record_len i) d i)
  end.

(** [emv_deserialize] after its first checks. *)
Definition emv_parse (inp : list Z) (in_len : Z) : M Z (Z * emv_card_image_t) :=
  let z := emv_zero in
  v ← get inp;
  if negb (v =? EMV_FORMAT_VERSION) then mret (- EBADMSG, z) else
  pl ← get inp;
  p ← read_into inp (pan z) EMV_PAN_BYTES;
  e ← read_into inp (expiry z) EMV_EXPIRY_BYTES;
  n ← read_into inp (name z) EMV_NAME_BYTES;
  tl ← get inp;
  t ← read_into inp (track2 z) EMV_TRACK2_MAX_BYTES;
  ai ← read_into inp (aip z) EMV_AIP_BYTES;
  af ← read_into inp (afl z) EMV_AFL_BYTES;
  al ← get inp;
  a ← read_into inp (app_aid z) EMV_APP_AID_MAX_BYTES;
  let i := {| pan := p; pan_len := pl; expiry := e; name := n; track2 := t; track2_len := tl;
              aip := ai; afl := af; app_aid := a; app_aid_len := al;
              record_count := record_count z; record_len := record_len z;
              record_data := record_data z |} in
  if EMV_APP_AID_MAX_BYTES <? al then mret (- EBADMSG, i) else
  rc ← get inp;
  '(ret, i) ← emv_parse_records inp in_len (Z.to_nat rc) 0
                (with_records rc (record_len i) (record_data i) i);
  if negb (ret =? 0) then mret (ret, i) else
  offset ← gets Datatypes.id;
  mret (if offset =? in_len then emv_rebuild_caches (Some i) else - EBADMSG, i).

Definition emv_deserialize (image : option emv_card_image_t) (inp : option (list Z)) (in_len : Z)
    : option (Z * option emv_card_image_t) :=
  match image, inp with
  | None, _ | _, None => Some (- EINVAL, image)
  | Some _, Some inp =>
    if in_len <? 84 then Some (- EINVAL, image) else
    '(ret, i, _) ← emv_parse inp in_len 0; Some (ret, Some i)
  end.
End Emv.

(** ** Images by their records *)

Section EmvFacts.
Context `{KconfigRanges}.

Definition pad_record (r : list Z) : list Z := r ++ zeros (CONFIG_NFC_EMV_RECORD_SIZE - len r).

(** The image [i] with the records [rs], and nothing in the other slots. *)
Definition filled (count : Z) (rs : list (list Z)) (i : emv_card_image_t) : emv_card_image_t :=
  with_records count
    ((len <$> rs) ++ zeros (CONFIG_NFC_EMV_MAX_RECORDS - len rs))
    ((pad_record <$> rs) ++ replicate (Z.to_nat (CONFIG_NFC_EMV_MAX_RECORDS - len rs))
                              (zeros CONFIG_NFC_EMV_RECORD_SIZE)) i.

Definition record_fits (r : list Z) : Prop := bytes r ∧ len r <= CONFIG_NFC_EMV_RECORD_SIZE.

(** The members in front of the records. *)
Record header_ok (i : emv_card_image_t) : Prop := {
  ho_pan : len (pan i) = EMV_PAN_BYTES ∧ bytes (pan i);
  ho_expiry : len (expiry i) = EMV_EXPIRY_BYTES ∧ bytes (expiry i);
  ho_name : len (name i) = EMV_NAME_BYTES ∧ bytes (name i);
  ho_track2 : len (track2 i) = EMV_TRACK2_MAX_BYTES ∧ bytes (track2 i);
  ho_aip : len (aip i) = EMV_AIP_BYTES ∧ bytes (aip i);
  ho_afl : len (afl i) = EMV_AFL_BYTES ∧ bytes (afl i);
  ho_app_aid : len (app_aid i) = EMV_APP_AID_MAX_BYTES ∧ bytes (app_aid i);
  ho_lens : is_byte (pan_len i) ∧ is_byte (track2_len i) ∧ is_byte (app_aid_len i);
}.

(** A card image with the records [rs]. *)
Record emv_ok (i : emv_card_image_t) (rs : list (list Z)) : Prop := {
  eo_header : header_ok i;
  eo_aid : 1 <= app_aid_len i <= EMV_APP_AID_MAX_BYTES;
  eo_count : len rs <= CONFIG_NFC_EMV_MAX_RECORDS;
  eo_fits : Forall record_fits rs;
  eo_records : i = filled (len rs) rs i;
}.

Definition enc_record (r : list Z) : list Z := len r :: r.

Definition emv_header (i : emv_card_image_t) : list Z :=
  [EMV_FORMAT_VERSION; pan_len i] ++ pan i ++ expiry i ++ name i ++ [track2_len i] ++ track2 i ++
  aip i ++ afl i ++ [app_aid_len i] ++ app_aid i.

Definition emv_blob (i : emv_card_image_t) (rs : list (list Z)) : list Z :=
  emv_header i ++ [len rs] ++ mjoin (enc_record <$> rs).

Lemma emv_header_len i : header_ok i → len (emv_header i) = 82.
Proof.
  intros []. destruct_and!. unfold emv_header. rewrite !len_app, !len_cons, !len_nil.
  repeat match goal with Hl : len _ = _ |- _ => rewrite Hl; clear Hl end. done.
Qed.

Lemma pad_record_len r : record_fits r → len (pad_record r) = CONFIG_NFC_EMV_RECORD_SIZE.
Proof. intros [_ Hr]. unfold pad_record. pose proof (len_nonneg r). rewrite len_app, len_zeros; lia. Qed.

(** A used slot. *)
Lemma filled_lookup c rs i (k : nat) r : rs !! k = Some r →
  record_len (filled c rs i) !! k = Some (len r) ∧
  record_data (filled c rs i) !! k = Some (pad_record r).
Proof.
  intros Hr. pose proof (lookup_lt_Some _ _ _ Hr). cbn [filled with_records record_len record_data].
  rewrite !lookup_app_l by (rewrite length_fmap; done). by rewrite !list_lookup_fmap, Hr.
Qed.

Lemma emv_records_write rs c i :
  Forall record_fits rs →
  writes (for_i (length rs) 0 (λ k,
    l ← lift (ld (record_len (filled c rs i)) k); put l ;;
    d ← lift (ld (record_data (filled c rs i)) k); puts d l)) (mjoin (enc_record <$> rs)).
Proof.
  intros Hf. pose proof (writes_array rs (λ k,
    l ← lift (ld (record_len (filled c rs i)) k); put l ;;
    d ← lift (ld (record_data (filled c rs i)) k); puts d l) enc_record (len rs)) as Hw.
  replace (Z.to_nat (len rs)) with (length rs) in Hw by llia. rewrite firstn_all in Hw. apply Hw; [|pose proof (len_nonneg rs); lia].
  intros k r Hk. apply ld_Some_inv in Hk as [Hk Hr]. destruct (filled_lookup c rs i _ r Hr) as [Hl Hd].
  pose proof (Forall_lookup_1 _ _ _ _ Hf Hr) as [Hb Hrl].
  intros pre rest Hroom. rewrite (ld_eq _ k _ (proj1 Hk) Hl), (ld_eq _ k _ (proj1 Hk) Hd), run_lift_Some.
  apply (writes_bind (put (len r)) [len r] _ r); [apply writes_put| |done].
  intros pre' rest' Hroom'. rewrite run_lift_Some.
  pose proof (writes_puts (pad_record r) (len r)) as Hp.
  assert (take (Z.to_nat (len r)) (pad_record r) = r) as Ht by (apply take_app_length'; llia).
  rewrite Ht in Hp. apply Hp; [|done]. rewrite pad_record_len by done. pose proof (len_nonneg r). lia.
Qed.

Lemma emv_writes i rs : emv_ok i rs → writes (emv_write i) (emv_blob i rs).
Proof.
  intros [[] _ _ Hf Hr]. destruct_and!. unfold emv_write, emv_blob, emv_header. rewrite <-!(assoc_L (++)). cbn [app].
  repeat first [ apply (writes_bind _ [_]); [apply writes_put|]
               | apply writes_bind; [by apply writes_all|] ]. cbn [app].
  rewrite Hr. cbn [record_count filled with_records]. apply (writes_bind _ [_]); [apply writes_put|].
  unfold len at 1. rewrite Nat2Z.id. by apply emv_records_write.
Qed.

Lemma enc_record_len r : len (enc_record r) = 1 + len r.
Proof. apply len_cons. Qed.

Lemma records_need_spec rs : ∀ pre rest need,
  records_need (length rs) (len pre) (pre ++ (len <$> rs) ++ rest) need =
  Some (need + len (mjoin (enc_record <$> rs))).
Proof.
  induction rs as [|r rs IH]; intros pre rest need; [cbn; by rewrite Z.add_0_r|].
  cbn [length records_need app fmap list_fmap]. rewrite (ld_eq _ _ (len r));
    [|apply len_nonneg|unfold len; rewrite Nat2Z.id; by apply list_lookup_middle].
  mred. specialize (IH (pre ++ [len r]) rest (need + (1 + len r))). rewrite <-(assoc_L (++)), len_app in IH.
  change (len [len r]) with 1 in IH. cbn [app] in IH. rewrite IH. f_equal.
  rewrite mjoin_cons, len_app. unfold enc_record at 2. rewrite len_cons.
  change (list_fmap _ _ enc_record rs) with (enc_record <$> rs). lia.
Qed.

Lemma emv_serialize_ok i rs out n0 : emv_ok i rs → 1 + len (emv_blob i rs) <= len out →
  emv_serialize (Some i) (Some out) (len out) (Some n0) =
  Some (0, Some (emv_blob i rs ++ drop (length (emv_blob i rs)) out), Some (len (emv_blob i rs))).
Proof.
  intros Hi Hl. pose proof (emv_writes i rs Hi) as Hw. unfold emv_serialize.
  pose proof (records_need_spec rs [] (zeros (CONFIG_NFC_EMV_MAX_RECORDS - len rs)) 84) as Hn.
  cbn [app] in Hn. change (len []) with 0 in Hn.
  assert (records_need (Z.to_nat (record_count i)) 0 (record_len i) 84 =
    Some (84 + len (mjoin (enc_record <$> rs)))) as ->.
  { rewrite (eo_records i rs Hi). cbn [record_count record_len filled with_records].
    unfold len at 1. by rewrite Nat2Z.id. }
  mred. rewrite (proj2 (Z.ltb_ge _ _)).
  - by rewrite (writes_run _ _ out Hw) by lia.
  - unfold emv_blob in Hl. rewrite !len_app, (emv_header_len i (eo_header i rs Hi)), len_cons, len_nil in Hl. lia.
Qed.

(** The next free slot, and filling it. *)
Lemma free_slot (pre : list (list Z)) : len pre < CONFIG_NFC_EMV_MAX_RECORDS →
  zeros (CONFIG_NFC_EMV_MAX_RECORDS - len pre) = 0 :: zeros (CONFIG_NFC_EMV_MAX_RECORDS - (len pre + 1)) ∧
  replicate (Z.to_nat (CONFIG_NFC_EMV_MAX_RECORDS - len pre)) (zeros CONFIG_NFC_EMV_RECORD_SIZE) =
  zeros CONFIG_NFC_EMV_RECORD_SIZE :: replicate (Z.to_nat (CONFIG_NFC_EMV_MAX_RECORDS - (len pre + 1)))
    (zeros CONFIG_NFC_EMV_RECORD_SIZE).
Proof.
  intros Hl. unfold zeros. by replace (Z.to_nat (CONFIG_NFC_EMV_MAX_RECORDS - len pre))
    with (S (Z.to_nat (CONFIG_NFC_EMV_MAX_RECORDS - (len pre + 1)))) by lia.
Qed.

Lemma fill_slot c pre r i :
  filled c (pre ++ [r]) i =
  with_records c ((len <$> pre) ++ len r :: zeros (CONFIG_NFC_EMV_MAX_RECORDS - (len pre + 1)))
    ((pad_record <$> pre) ++ (r ++ drop (length r) (zeros CONFIG_NFC_EMV_RECORD_SIZE)) ::
      replicate (Z.to_nat (CONFIG_NFC_EMV_MAX_RECORDS - (len pre + 1))) (zeros CONFIG_NFC_EMV_RECORD_SIZE)) i.
Proof.
  unfold filled. rewrite !fmap_app, <-!(assoc_L (++)), len_app. change (len [r]) with 1.
  cbn [fmap list_fmap app]. do 3 f_equal. unfold pad_record, zeros.
  rewrite drop_replicate. do 3 f_equal. llia.
Qed.

(** The record loop reads records that fit their slots, and goes on with the next. *)
Lemma emv_records_read inp in_len m c i rs : ∀ pre off l,
  Forall record_fits rs → len pre + len rs <= CONFIG_NFC_EMV_MAX_RECORDS →
  ahead inp off (mjoin (enc_record <$> rs) ++ l) →
  off + len (mjoin (enc_record <$> rs)) <= in_len →
  emv_parse_records inp in_len (length rs + m) (len pre) (filled c pre i) off =
  emv_parse_records inp in_len m (len (pre ++ rs)) (filled c (pre ++ rs) i)
    (off + len (mjoin (enc_record <$> rs))).
Proof.
  pose proof emv_record_size_range as Hsz.
  induction rs as [|r rs IH]; intros pre off l Hf Hc Ha Hin.
  { cbn. by rewrite !app_nil_r, Z.add_0_r. }
  apply Forall_cons_iff in Hf as [[Hb Hr] Hf].
  rewrite fmap_cons, mjoin_cons in Ha, Hin |- *. rewrite <-(assoc_L (++)) in Ha.
  rewrite (len_app (enc_record r)), enc_record_len in Hin |- *. rewrite len_cons in Hc.
  pose proof (len_nonneg (mjoin (enc_record <$> rs))). pose proof (len_nonneg r). pose proof (len_nonneg rs).
  pose proof (len_nonneg pre). cbn [length Nat.add emv_parse_records]. rewrite run_gets. cbn [id].
  rewrite (proj2 (Z.leb_gt _ _)) by lia. cbn [enc_record app] in Ha. rget Ha.
  destruct (free_slot pre) as [Hz Hd]; [lia|]. cbn [record_len filled with_records].
  rewrite Hz, st_mid, run_lift_Some, run_gets by (by rewrite len_fmap). cbn [id].
  rewrite (proj2 (Z.ltb_ge _ _)) by lia. cbn [record_data filled with_records record_count].
  rewrite Hd, ld_mid, run_lift_Some by (by rewrite len_fmap).
  rewrite (run_read_into _ _ _ _ r _ _ Ha) by (done || (rewrite len_zeros; lia)).
  rewrite st_mid, run_lift_Some by (by rewrite len_fmap).
  apply ahead_app in Ha as [Ha _]. specialize (IH (pre ++ [r]) (off + 1 + len r) l Hf).
  rewrite <-(assoc_L (++)), len_app in IH. change (len [r]) with 1 in IH. cbn [app] in IH.
  specialize (IH ltac:(lia) Ha ltac:(lia)).
  transitivity (emv_parse_records inp in_len (length rs + m) (len pre + 1) (filled c (pre ++ [r]) i) (off + 1 + len r)).
  - f_equal. by rewrite fill_slot.
  - rewrite IH. rewrite <-!Z.add_assoc. done.
Qed.

(** What follows the header decides: the record count and the records. *)
Lemma emv_parse_header inp in_len i rc l : header_ok i → app_aid_len i <= EMV_APP_AID_MAX_BYTES →
  inp = emv_header i ++ rc :: l →
  ahead inp 83 l ∧
  emv_parse inp in_len 0 =
  ('(ret, i) ← emv_parse_records inp in_len (Z.to_nat rc) 0 (filled rc [] i);
   if negb (ret =? 0) then mret (ret, i) else
   offset ← gets Datatypes.id;
   mret (if offset =? in_len then emv_rebuild_caches (Some i) else - EBADMSG, i)) 83.
Proof.
  intros Hi Hal Hinp. pose proof (emv_header_len i Hi) as Hlen. destruct Hi. destruct_and!.
  assert (ahead inp 0 (emv_header i ++ rc :: l)) as Ha by (rewrite <-Hinp; apply ahead_start).
  split. { apply ahead_app in Ha as [Ha _]. apply ahead_cons in Ha as [Ha _]. by rewrite Hlen in Ha. }
  unfold emv_header in Ha. rewrite <-!(assoc_L (++)) in Ha. cbn [app] in Ha. unfold emv_parse.
  rget Ha. change (negb (EMV_FORMAT_VERSION =? EMV_FORMAT_VERSION)) with false. cbv iota. rget Ha.
  do 3 rnext Ha. rget Ha. do 3 rnext Ha. rget Ha. rnext Ha.
  cbn [app_aid_len]. rewrite (proj2 (Z.ltb_ge _ _)) by lia. rget Ha.
  repeat match goal with Hl : len _ = _ |- _ => rewrite Hl; clear Hl end.
  unfold EMV_PAN_BYTES, EMV_EXPIRY_BYTES, EMV_NAME_BYTES, EMV_TRACK2_MAX_BYTES, EMV_AIP_BYTES, EMV_AFL_BYTES,
    EMV_APP_AID_MAX_BYTES. zadds. cbv zeta. cbn [record_len record_data].
  unfold filled, with_records. cbn. rewrite Z.sub_0_r. done.
Qed.

Lemma emv_read_back i rs d0 out n0 : emv_ok i rs → rs ≠ [] → 1 + len (emv_blob i rs) <= len out →
  ∃ o n, emv_serialize (Some i) (Some out) (len out) (Some n0) = Some (0, Some o, Some n) ∧
    len o = len out ∧ emv_deserialize (Some d0) (Some o) n = Some (0, Some i).
Proof.
  intros Hi Hne Hl. eexists _, _. split; [by apply emv_serialize_ok|]. split; [llia|].
  pose proof emv_max_records_range. pose proof (emv_header_len i (eo_header i rs Hi)) as Hh.
  assert (len (emv_blob i rs) = 83 + len (mjoin (enc_record <$> rs))) as Hb.
  { unfold emv_blob. rewrite !len_app, Hh, len_cons, len_nil. lia. }
  assert (1 <= len (mjoin (enc_record <$> rs))) as Hne'.
  { destruct rs as [|r rs]; [done|]. rewrite fmap_cons, mjoin_cons, len_app, enc_record_len.
    pose proof (len_nonneg r). pose proof (len_nonneg (mjoin (enc_record <$> rs))). lia. }
  unfold emv_deserialize. rewrite (proj2 (Z.ltb_ge _ _)) by lia.
  set (junk := drop _ out). unfold emv_blob. rewrite <-!(assoc_L (++)).
  destruct (emv_parse_header (emv_header i ++ [len rs] ++ mjoin (enc_record <$> rs) ++ junk)
    (len (emv_header i ++ [len rs] ++ mjoin (enc_record <$> rs))) i (len rs)
    (mjoin (enc_record <$> rs) ++ junk)) as [Ha Hrun]; [apply Hi|apply Hi|done|].
  rewrite Hrun. unfold emv_blob in Hb. rewrite Hb. pose proof (emv_records_read
    (emv_header i ++ [len rs] ++ mjoin (enc_record <$> rs) ++ junk) (83 + len (mjoin (enc_record <$> rs))) 0
    (len rs) i rs [] 83 junk (eo_fits i rs Hi)) as Hrec.
  change (len []) with 0 in Hrec. rewrite Nat.add_0_r in Hrec.
  replace (Z.to_nat (len rs)) with (length rs) by llia.
  specialize (Hrec ltac:(pose proof (eo_count i rs Hi); lia) Ha ltac:(lia)).
  cbn [emv_parse_records app] in Hrec. rewrite <-(eo_records i rs Hi) in Hrec.
  rewrite (run_call _ _ _ _ _ Hrec). cbn [negb Z.eqb]. rewrite run_gets. unfold Datatypes.id.
  rewrite Z.eqb_refl. cbn [emv_rebuild_caches].
  pose proof (eo_aid i rs Hi) as Haid.
  rewrite (proj2 (Z.eqb_neq _ _)), (proj2 (Z.ltb_ge _ _)) by lia. done.
Qed.

(** The persistent form of an EMV card image round-trips when the image has at least one
    record: for every well-formed image whose records fit their slots, [emv_serialize] into a
    buffer with room (it asks for one byte more than it writes) succeeds and [emv_deserialize]
    of what it wrote gives back the image, all records included. *)
Theorem emv_roundtrip i rs d0 out n0 : emv_ok i rs → rs ≠ [] → 1 + len (emv_blob i rs) <= len out →
  ∃ o n, emv_serialize (Some i) (Some out) (len out) (Some n0) = Some (0, Some o, Some n) ∧
    len o = len out ∧ emv_deserialize (Some d0) (Some o) n = Some (0, Some i).
Proof. apply emv_read_back. Qed.

(** An image without records is saved but cannot be loaded: [emv_serialize] succeeds and
    writes 83 bytes, and [emv_deserialize] refuses every input of fewer than 84 bytes with
    -EINVAL, this one included. *)
Theorem emv_no_records_unloadable i d0 out n0 : emv_ok i [] → 84 <= len out →
  ∃ o, emv_serialize (Some i) (Some out) (len out) (Some n0) = Some (0, Some o, Some 83) ∧
    emv_deserialize (Some d0) (Some o) 83 = Some (- EINVAL, Some d0).
Proof.
  intros Hi Hl. pose proof (emv_header_len i (eo_header i [] Hi)) as Hh.
  assert (len (emv_blob i []) = 83) as Hb by (unfold emv_blob; rewrite !len_app, Hh; done).
  rewrite (emv_serialize_ok i [] out n0 Hi), Hb by lia. by eexists.
Qed.

(** The record loop leaves the arrays when there are more records than slots. *)
Lemma emv_too_many inp in_len m c i l : ∀ off,
  ahead inp off (replicate (Z.to_nat CONFIG_NFC_EMV_MAX_RECORDS + S m) 0 ++ l) →
  off + CONFIG_NFC_EMV_MAX_RECORDS + 1 <= in_len →
  emv_parse_records inp in_len (Z.to_nat CONFIG_NFC_EMV_MAX_RECORDS + S m) 0 (filled c [] i) off = None.
Proof.
  intros off Ha Hin. pose proof emv_max_records_range. pose proof emv_record_size_range.
  set (rs := replicate (Z.to_nat CONFIG_NFC_EMV_MAX_RECORDS) ([] : list Z)).
  assert (mjoin (enc_record <$> rs) = replicate (Z.to_nat CONFIG_NFC_EMV_MAX_RECORDS) 0) as Hj.
  { subst rs. generalize (Z.to_nat CONFIG_NFC_EMV_MAX_RECORDS). intros n.
    induction n as [|n IHn]; [done|]. cbn [replicate]. rewrite fmap_cons, mjoin_cons, IHn. done. }
  assert (len rs = CONFIG_NFC_EMV_MAX_RECORDS) as Hrs by (subst rs; rewrite len_replicate; lia).
  rewrite replicate_add, <-(assoc_L (++)), <-Hj in Ha.
  assert (Forall record_fits rs) as Hf
    by (apply Forall_replicate; split; [constructor|rewrite len_nil; lia]).
  pose proof (emv_records_read inp in_len (S m) c i rs [] off _ Hf
    ltac:(rewrite Hrs, len_nil; lia) Ha ltac:(rewrite Hj, len_replicate; lia)) as Hrun.
  change (len []) with 0 in Hrun. replace (Z.to_nat CONFIG_NFC_EMV_MAX_RECORDS) with (length rs) by llia.
  rewrite Hrun.
  apply ahead_app in Ha as [Ha _]. rewrite Hj, len_replicate in *. cbn [emv_parse_records app].
  rewrite run_gets. unfold Datatypes.id. rewrite (proj2 (Z.leb_gt _ _)) by lia. cbn [replicate app] in Ha. rget Ha.
  cbn [record_len filled with_records]. unfold st.
  rewrite len_app, len_fmap, Hrs, Z.sub_diag. cbn [zeros Z.to_nat replicate].
  rewrite (proj2 (Z.ltb_ge _ (_ + len []))) by (rewrite (len_nil (A:=Z)); lia). rewrite andb_false_r. done.
Qed.

(** And when a record is longer than its slot. *)
Lemma emv_too_long inp in_len m c i r l off :
  CONFIG_NFC_EMV_RECORD_SIZE < len r → ahead inp off (len r :: r ++ l) → off + 1 + len r <= in_len →
  emv_parse_records inp in_len (S m) 0 (filled c [] i) off = None.
Proof.
  intros Hr Ha Hin. pose proof emv_max_records_range. pose proof emv_record_size_range. cbn [emv_parse_records].
  rewrite run_gets. unfold Datatypes.id. rewrite (proj2 (Z.leb_gt _ _)) by lia. rget Ha.
  destruct (free_slot []) as [Hz Hd]; [rewrite len_nil; lia|].
  cbn [record_len record_data filled with_records fmap list_fmap app]. rewrite Hz.
  rewrite (st_mid [] 0 _ 0 (len r) eq_refl : st (0 :: _) 0 (len r) = Some (len r :: _)).
  rewrite run_lift_Some, run_gets. unfold Datatypes.id.
  rewrite (proj2 (Z.ltb_ge _ _)) by lia. cbn [record_data with_records filled fmap list_fmap app]. rewrite Hd.
  rewrite (ld_mid [] _ _ 0 eq_refl : ld (_ :: _) 0 = Some _), run_lift_Some.
  apply ahead_app in Ha as [_ Hs].
  apply run_none. unfold read_into, memcpy. rewrite Hs. mred. unfold blit.
  rewrite (proj2 (Z.leb_gt (0 + len r) _)) by (rewrite len_zeros; lia). done.
Qed.

(** [emv_deserialize] does not bound what it reads by the size of the image: whatever the
    header of a card, a stored image that announces more records than
    [CONFIG_NFC_EMV_MAX_RECORDS], or whose first record is longer than
    [CONFIG_NFC_EMV_RECORD_SIZE], makes it write outside [record_len] or [record_data] (the
    model has no result), although the store's envelope around such an image is valid. *)
Theorem emv_deserialize_overruns i d0 (m : nat) r l :
  header_ok i → app_aid_len i <= EMV_APP_AID_MAX_BYTES →
  (CONFIG_NFC_EMV_MAX_RECORDS + 1 + Z.of_nat m < 256 →
   let n := (Z.to_nat CONFIG_NFC_EMV_MAX_RECORDS + S m)%nat in
   let inp := emv_header i ++ [Z.of_nat n] ++ replicate n 0 in
   emv_deserialize (Some d0) (Some inp) (len inp) = None) ∧
  (CONFIG_NFC_EMV_RECORD_SIZE < len r < 256 →
   let inp := emv_header i ++ [1] ++ (len r :: r) ++ l in
   emv_deserialize (Some d0) (Some inp) (len inp) = None).
Proof.
  intros Hi Hal. pose proof (emv_header_len i Hi) as Hh. pose proof emv_max_records_range.
  pose proof emv_record_size_range. split.
  - intros Hm n inp. unfold emv_deserialize.
    assert (len inp = 83 + Z.of_nat n) as Hin by (subst inp; rewrite !len_app, Hh, len_replicate, len_cons, len_nil; lia).
    rewrite (proj2 (Z.ltb_ge _ _)) by lia.
    destruct (emv_parse_header inp (len inp) i (Z.of_nat n) (replicate n 0) Hi Hal eq_refl) as [Ha ->].
    rewrite Nat2Z.id. unfold mbind at 2, M_bind at 1. rewrite <-(app_nil_r (replicate n 0)) in Ha.
    rewrite (emv_too_many _ _ m _ _ _ _ Ha) by lia. done.
  - intros Hr inp. unfold emv_deserialize.
    assert (len inp = 84 + len r + len l) as Hin by (subst inp; rewrite !len_app, Hh, !len_cons, len_nil; lia).
    pose proof (len_nonneg l). rewrite (proj2 (Z.ltb_ge _ _)) by lia.
    destruct (emv_parse_header inp (len inp) i 1 ((len r :: r) ++ l) Hi Hal eq_refl) as [Ha ->].
    change (Z.to_nat 1) with 1%nat. unfold mbind at 2, M_bind at 1.
    rewrite (emv_too_long _ _ 0 _ _ r l 83) by (done || lia). done.
Qed.
End EmvFacts.
