(* ===== verification/EmvListener.v ===== *)
(** * The EMV listener ([src/nfc/protocols/emv/emv_listener.c])

    A payment card as the terminal sees it: PPSE, application, processing options, records.  The
    second half states what a card answers, as a function of its image and of the session, and
    proves that the listener does that for every sequence of commands and field events. *)

From stdpp Require Import base list numbers option.
From S2P Require Import Prelude Kconfig Apdu Service Stack Serial Emv.

Definition EMV_INS_GPO : Z := 0xA8.
Definition EMV_INS_READ_RECORD : Z := 0xB2.
Definition EMV_CLA_GP : Z := 0x80.
Definition EMV_PPSE_AID_LEN : Z := 14.
Definition EMV_TAG_RESP_TMPL_FMT1 : Z := 0x80.

(** ** State *)

Inductive emv_session_state_t :=
  | EMV_SESSION_IDLE | EMV_SESSION_PPSE_SELECTED | EMV_SESSION_APP_SELECTED | EMV_SESSION_GPO_DONE.
#[global] Instance emv_session_eq_dec : EqDecision emv_session_state_t.
Proof. solve_decision. Defined.

(** The answers that are built once, each a buffer with its length. *)
Record emv_wire := {
  ew_ppse_fci : list Z; ew_ppse_fci_len : Z;
  ew_app_fci : list Z; ew_app_fci_len : Z;
  ew_gpo : list Z; ew_gpo_len : Z;
}.

(** The static variables of the file, and what was given to [nfc_transport_send_response]. *)
Record emv_st := {
  es_image : emv_card_image_t;
  es_session : emv_session_state_t;
  es_initialized : bool;
  es_wire : emv_wire;
  es_resp : list Z;
  es_sent : list (list Z);
}.

Definition es_with_session (x : emv_session_state_t) (s : emv_st) : emv_st :=
  {| es_image := es_image s; es_session := x; es_initialized := es_initialized s; es_wire := es_wire s;
     es_resp := es_resp s; es_sent := es_sent s |}.
Definition es_with_image (i : emv_card_image_t) (s : emv_st) : emv_st :=
  {| es_image := i; es_session := es_session s; es_initialized := es_initialized s; es_wire := es_wire s;
     es_resp := es_resp s; es_sent := es_sent s |}.
Definition es_with_wire (w : emv_wire) (s : emv_st) : emv_st :=
  {| es_image := es_image s; es_session := es_session s; es_initialized := es_initialized s; es_wire := w;
     es_resp := es_resp s; es_sent := es_sent s |}.
Definition es_with_initialized (b : bool) (s : emv_st) : emv_st :=
  {| es_image := es_image s; es_session := es_session s; es_initialized := b; es_wire := es_wire s;
     es_resp := es_resp s; es_sent := es_sent s |}.
Definition es_with_out (r : list Z) (sent : list (list Z)) (s : emv_st) : emv_st :=
  {| es_image := es_image s; es_session := es_session s; es_initialized := es_initialized s; es_wire := es_wire s;
     es_resp := r; es_sent := sent |}.

(** ** The answers that are built once *)

(** A run of [s_buf[s_len++] = b]. *)
Fixpoint put_each (bs : list Z) : M wstate unit :=
  match bs with [] => mret tt | b :: bs => put b ;; put_each bs end.

Definition ppse_fci_writer (i : emv_card_image_t) : M wstate unit :=
  put_each [0x6F; 0x1E; 0x84; EMV_PPSE_AID_LEN] ;;
  puts emv_ppse_aid EMV_PPSE_AID_LEN ;;
  put_each [0xA5; 0x10; 0xBF; 0x0C; 0x0E; 0x61; 0x0C; 0x4F; app_aid_len i] ;;
  puts (app_aid i) (app_aid_len i) ;;
  put_each [0x87; 0x01; 0x01].

Definition app_fci_writer (i : emv_card_image_t) : M wstate unit :=
  put_each [0x6F; 0x12; 0x84; app_aid_len i] ;;
  puts (app_aid i) (app_aid_len i) ;;
  put_each [0xA5; 0x07; 0x50; 0x04] ;;
  puts [0x56; 0x49; 0x53; 0x41] 4 ;;
  put_each [0x87; 0x01; 0x01].

Definition gpo_writer (i : emv_card_image_t) : M wstate unit :=
  put_each [EMV_TAG_RESP_TMPL_FMT1; 0x06] ;;
  a ← lift (ld (aip i) 0); put a ;;
  a ← lift (ld (aip i) 1); put a ;;
  puts (afl i) EMV_AFL_BYTES.

(** ** The handlers *)

Section EmvListener.
Context `{Kconfig}.

Definition emv_listener_rebuild_wire (i : emv_card_image_t) : M emv_st unit :=
  s ← gets id;
  '(_, (ppse, ppse_len)) ← lift (ppse_fci_writer i (ew_ppse_fci (es_wire s), 0));
  '(_, (app, app_len)) ← lift (app_fci_writer i (ew_app_fci (es_wire s), 0));
  '(_, (gpo, gpo_len)) ← lift (gpo_writer i (ew_gpo (es_wire s), 0));
  modify (es_with_wire {| ew_ppse_fci := ppse; ew_ppse_fci_len := ppse_len; ew_app_fci := app; ew_app_fci_len := app_len;
                          ew_gpo := gpo; ew_gpo_len := gpo_len |}).

(** What [emv_listener_send] leaves in [s_resp], and how much of it is sent. *)
Definition emv_fill_response (resp : list Z) (d : option (list Z)) (n sw : Z) : option (list Z * Z) :=
  if NFC_TRANSPORT_MAX_RESPONSE_LEN <? n + 2 then
    resp ← st resp 0 (hi8 NFC_SW_CONDITIONS_NOT_SAT);
    resp ← st resp 1 (lo8 NFC_SW_CONDITIONS_NOT_SAT);
    Some (resp, 2)
  else
    resp ← (if 0 <? n then d ← d; memcpy resp 0 d 0 n else Some resp);
    resp ← st resp n (hi8 sw);
    resp ← st resp (n + 1) (lo8 sw);
    Some (resp, n + 2).
Definition emv_listener_send (d : option (list Z)) (n sw : Z) : M emv_st unit :=
  s ← gets id;
  '(resp, m) ← lift (emv_fill_response (es_resp s) d n sw);
  sent ← lift (sub resp 0 m);
  modify (es_with_out resp (es_sent s ++ [sent])).

Definition emv_listener_on_select (aid : list Z) (aid_len : Z) : M emv_st unit :=
  s ← gets id;
  ppse ← lift (if aid_len =? EMV_PPSE_AID_LEN then memcmp_eq aid 0 emv_ppse_aid 0 EMV_PPSE_AID_LEN else Some false);
  if ppse : bool then
    modify (es_with_session EMV_SESSION_PPSE_SELECTED) ;;
    emv_listener_send (Some (ew_ppse_fci (es_wire s))) (ew_ppse_fci_len (es_wire s)) NFC_SW_OK
  else
  app ← lift (if aid_len =? app_aid_len (es_image s) then memcmp_eq aid 0 (app_aid (es_image s)) 0 aid_len else Some false);
  if app : bool then
    modify (es_with_session EMV_SESSION_APP_SELECTED) ;;
    emv_listener_send (Some (ew_app_fci (es_wire s))) (ew_app_fci_len (es_wire s)) NFC_SW_OK
  else
  modify (es_with_session EMV_SESSION_IDLE) ;;
  emv_listener_send None 0 NFC_SW_FILE_NOT_FOUND.

Definition emv_listener_on_apdu (apdu : option nfc_apdu_t) : M emv_st unit :=
  s ← gets id;
  match apdu with
  | None => emv_listener_send None 0 NFC_SW_CONDITIONS_NOT_SAT
  | Some apdu =>
    if (cla apdu =? EMV_CLA_GP) && (ins apdu =? EMV_INS_GPO) then
      if negb (bool_decide (es_session s = EMV_SESSION_APP_SELECTED)) then emv_listener_send None 0 NFC_SW_CONDITIONS_NOT_SAT else
      modify (es_with_session EMV_SESSION_GPO_DONE) ;;
      emv_listener_send (Some (ew_gpo (es_wire s))) (ew_gpo_len (es_wire s)) NFC_SW_OK
    else if (cla apdu =? NFC_CLA_ISO7816) && (ins apdu =? EMV_INS_READ_RECORD) then
      if negb (bool_decide (es_session s = EMV_SESSION_GPO_DONE)) then emv_listener_send None 0 NFC_SW_CONDITIONS_NOT_SAT else
      if negb (Z.land (p2 apdu) 0x07 =? 0x04) then emv_listener_send None 0 NFC_SW_WRONG_P1P2 else
      let sfi := u8 (Z.land (Z.shiftr (p2 apdu) 3) 0x1F) in
      let rec_no := p1 apdu in
      a0 ← lift (ld (afl (es_image s)) 0);
      a1 ← lift (ld (afl (es_image s)) 1);
      a2 ← lift (ld (afl (es_image s)) 2);
      if negb (sfi =? Z.shiftr a0 3) || (rec_no <? a1) || (a2 <? rec_no) then emv_listener_send None 0 0x6A83 else
      r ← lift (ld (record_data (es_image s)) (u32 (rec_no - 1)));
      n ← lift (ld (record_len (es_image s)) (u32 (rec_no - 1)));
      emv_listener_send (Some r) n NFC_SW_OK
    else emv_listener_send None 0 NFC_SW_INS_NOT_SUPPORTED
  end.

Definition emv_listener_on_deselect : M emv_st unit := modify (es_with_session EMV_SESSION_IDLE).
Definition emv_listener_on_field_off : M emv_st unit := modify (es_with_session EMV_SESSION_IDLE).

Definition emv_listener_serialize (out : option (list Z)) (out_max : Z) (out_len : option Z)
    : M emv_st (Z * option (list Z) * option Z) :=
  s ← gets id; lift (emv_serialize (Some (es_image s)) out out_max out_len).

Definition emv_listener_deserialize (inp : option (list Z)) (in_len : Z) : M emv_st Z :=
  s ← gets id;
  '(ret, i) ← lift (emv_deserialize (Some (es_image s)) inp in_len);
  i ← lift i;
  modify (es_with_image i) ;;
  if negb (ret =? 0) then mret ret else
  emv_listener_rebuild_wire i ;;
  modify (es_with_session EMV_SESSION_IDLE) ;; mret 0.

Definition emv_listener_init (image : option emv_card_image_t) : M emv_st Z :=
  s ← gets id;
  i ← lift (match image with
            | Some i => Some (Some i)
            | None => emv_card_image_load_default (Some (es_image s))
            end);
  i ← lift i;
  modify (es_with_image i) ;;
  emv_listener_rebuild_wire i ;;
  modify (es_with_session EMV_SESSION_IDLE) ;;
  modify (es_with_initialized true) ;; mret 0.

Definition emv_listener_shutdown : M emv_st Z :=
  modify (es_with_session EMV_SESSION_IDLE) ;; modify (es_with_initialized false) ;; mret 0.

Definition emv_listener_session_state : M emv_st emv_session_state_t := gets es_session.
End EmvListener.

(** ** What a card answers *)

Definition aid_bytes (i : emv_card_image_t) : list Z := take (Z.to_nat (app_aid_len i)) (app_aid i).
Definition ppse_fci (i : emv_card_image_t) : list Z :=
  [0x6F; 0x1E; 0x84; EMV_PPSE_AID_LEN] ++ emv_ppse_aid ++
  [0xA5; 0x10; 0xBF; 0x0C; 0x0E; 0x61; 0x0C; 0x4F; app_aid_len i] ++ aid_bytes i ++ [0x87; 0x01; 0x01].
Definition app_fci (i : emv_card_image_t) : list Z :=
  [0x6F; 0x12; 0x84; app_aid_len i] ++ aid_bytes i ++
  [0xA5; 0x07; 0x50; 0x04] ++ [0x56; 0x49; 0x53; 0x41] ++ [0x87; 0x01; 0x01].
Definition gpo_data (i : emv_card_image_t) : list Z := [EMV_TAG_RESP_TMPL_FMT1; 0x06] ++ aip i ++ afl i.

(** What reaches the service: a SELECT by name, a command, the end of a selection. *)
Inductive emv_event := Select (aid : list Z) | Command (a : nfc_apdu_t) | Deselect | FieldOff.

Definition emv_run_event (e : emv_event) : M emv_st unit :=
  match e with
  | Select aid => emv_listener_on_select aid (len aid)
  | Command a => emv_listener_on_apdu (Some a)
  | Deselect => emv_listener_on_deselect
  | FieldOff => emv_listener_on_field_off
  end.
Fixpoint emv_run (es : list emv_event) : M emv_st unit :=
  match es with [] => mret tt | e :: es => emv_run_event e ;; emv_run es end.

Section Spec.
Context (i : emv_card_image_t) (rs : list (list Z)).

(** The record that P1 and P2 name. *)
Definition record_answer (a : nfc_apdu_t) : list Z :=
  if negb (Z.land (p2 a) 0x07 =? 0x04) then sw_bytes NFC_SW_WRONG_P1P2
  else match afl i with
  | sfi :: first :: last :: _ =>
    if (Z.shiftr (p2 a) 3 =? Z.shiftr sfi 3) && (first <=? p1 a) && (p1 a <=? last) then
      default [] (rs !! Z.to_nat (p1 a - 1)) ++ sw_bytes NFC_SW_OK
    else sw_bytes 0x6A83
  | _ => []
  end.

(** The answer to a command, if it has one, and the session after it. *)
Definition emv_answer (x : emv_session_state_t) (e : emv_event) : option (list Z) * emv_session_state_t :=
  match e with
  | Select aid =>
    if decide (aid = emv_ppse_aid) then (Some (ppse_fci i ++ sw_bytes NFC_SW_OK), EMV_SESSION_PPSE_SELECTED)
    else if decide (aid = aid_bytes i) then (Some (app_fci i ++ sw_bytes NFC_SW_OK), EMV_SESSION_APP_SELECTED)
    else (Some (sw_bytes NFC_SW_FILE_NOT_FOUND), EMV_SESSION_IDLE)
  | Command a =>
    if (cla a =? EMV_CLA_GP) && (ins a =? EMV_INS_GPO) then
      if decide (x = EMV_SESSION_APP_SELECTED) then (Some (gpo_data i ++ sw_bytes NFC_SW_OK), EMV_SESSION_GPO_DONE)
      else (Some (sw_bytes NFC_SW_CONDITIONS_NOT_SAT), x)
    else if (cla a =? NFC_CLA_ISO7816) && (ins a =? EMV_INS_READ_RECORD) then
      if decide (x = EMV_SESSION_GPO_DONE) then (Some (record_answer a), x)
      else (Some (sw_bytes NFC_SW_CONDITIONS_NOT_SAT), x)
    else (Some (sw_bytes NFC_SW_INS_NOT_SUPPORTED), x)
  | Deselect | FieldOff => (None, EMV_SESSION_IDLE)
  end.

Fixpoint emv_answers (x : emv_session_state_t) (es : list emv_event) : list (list Z) * emv_session_state_t :=
  match es with
  | [] => ([], x)
  | e :: es => let (r, x) := emv_answer x e in let (rs, x) := emv_answers x es in (option_list r ++ rs, x)
  end.
End Spec.

(** ** Correctness *)

Section EmvListenerFacts.
Context `{KconfigRanges}.

(** *** Sending *)

Lemma fill_response_exact resp bs r sw : len resp = 255 → len bs <= 253 →
  emv_fill_response resp (Some (bs ++ r)) (len bs) sw = Some (over (bs ++ sw_bytes sw) resp, len bs + 2).
Proof.
  intros Hl Hb. pose proof (len_nonneg bs). pose proof (len_nonneg r). unfold emv_fill_response, NFC_TRANSPORT_MAX_RESPONSE_LEN.
  rewrite (proj2 (Z.ltb_ge _ _)) by lia.
  assert ((if 0 <? len bs then d ← Some (bs ++ r); memcpy resp 0 d 0 (len bs) else Some resp) = Some (over bs resp)) as ->.
  { destruct (Z.ltb_spec 0 (len bs)) as [Hp|Hp].
    - mred. pose proof (copy_exact resp [] (bs ++ r) (len bs)) as Hc. rewrite len_nil, over_nil, len_app in Hc.
      rewrite Hc by lia. cbn [app]. by rewrite take_app_length' by (unfold len; lia).
    - destruct bs; [done|]. rewrite len_cons in Hp. pose proof (len_nonneg bs). lia. }
  mred. rewrite put_exact by lia. mred. replace (len bs + 1) with (len (bs ++ [hi8 sw])) by llia.
  rewrite put_exact by llia. mred. by rewrite <-(assoc_L (++)).
Qed.

(** What an answer does to the state. *)
Definition sent_on (s : emv_st) (reply : list Z) : emv_st := es_with_out (over reply (es_resp s)) (es_sent s ++ [reply]) s.

Lemma emv_send_exact s bs r sw : len (es_resp s) = 255 → len bs <= 253 →
  emv_listener_send (Some (bs ++ r)) (len bs) sw s = Some (tt, sent_on s (bs ++ sw_bytes sw)).
Proof.
  intros Hl Hb. unfold emv_listener_send. rewrite run_gets. unfold id. rewrite fill_response_exact, run_lift_Some by done. cbv iota beta.
  set (reply := bs ++ sw_bytes sw). replace (len bs + 2) with (len reply) by (unfold reply, sw_bytes; rewrite len_app, !len_cons, len_nil; lia).
  by rewrite sub_over, run_lift_Some.
Qed.

Lemma emv_send_sw s sw : len (es_resp s) = 255 → emv_listener_send None 0 sw s = Some (tt, sent_on s (sw_bytes sw)).
Proof.
  intros Hl. pose proof (emv_send_exact s [] [] sw Hl ltac:(by vm_compute)) as Hs. cbn [app] in Hs. rewrite <-Hs. done.
Qed.

(** *** The wires *)

Definition wire_sized (w : emv_wire) : Prop := len (ew_ppse_fci w) = 128 ∧ len (ew_app_fci w) = 128 ∧ len (ew_gpo w) = 16.
Definition wire_of (i : emv_card_image_t) (w : emv_wire) : emv_wire :=
  {| ew_ppse_fci := over (ppse_fci i) (ew_ppse_fci w); ew_ppse_fci_len := len (ppse_fci i);
     ew_app_fci := over (app_fci i) (ew_app_fci w); ew_app_fci_len := len (app_fci i);
     ew_gpo := over (gpo_data i) (ew_gpo w); ew_gpo_len := len (gpo_data i) |}.

Lemma writes_each bs : writes (put_each bs) bs.
Proof. induction bs as [|b bs IH]; [apply writes_ret|]. by apply (writes_bind (put b) [b]); [apply writes_put|]. Qed.

(** The images whose header can be put on the wire. *)
Record wire_image (i : emv_card_image_t) : Prop := {
  wi_aid : 0 <= app_aid_len i <= 16;
  wi_app_aid : len (app_aid i) = 16;
  wi_aip : len (aip i) = 2;
  wi_afl : len (afl i) = 4;
}.
Lemma emv_ok_wire i rs : emv_ok i rs → wire_image i.
Proof.
  intros [[] Ha _ _ _]. destruct_and!. unfold EMV_APP_AID_MAX_BYTES, EMV_AIP_BYTES, EMV_AFL_BYTES in *. constructor; try done. lia.
Qed.

Lemma wire_lens i : wire_image i → len (aid_bytes i) = app_aid_len i ∧ len (ppse_fci i) = 30 + app_aid_len i ∧
  len (app_fci i) = 15 + app_aid_len i ∧ len (gpo_data i) = 8.
Proof.
  intros []. assert (len (aid_bytes i) = app_aid_len i) as Ha by (unfold aid_bytes; llia). split; [done|].
  unfold ppse_fci, app_fci, gpo_data. rewrite !len_app, Ha, wi_aip0, wi_afl0, !len_cons, len_nil.
  split; [change (len emv_ppse_aid) with 14; lia|]. split; [lia|done].
Qed.

Lemma rebuild_exact s i : wire_image i → wire_sized (es_wire s) →
  emv_listener_rebuild_wire i s = Some (tt, es_with_wire (wire_of i (es_wire s)) s).
Proof.
  intros Hi (H1 & H2 & H3). pose proof Hi as []. destruct (wire_lens i Hi) as (_ & L1 & L2 & L3).
  assert (writes (puts (app_aid i) (app_aid_len i)) (aid_bytes i)) as Haid by (apply writes_puts; lia).
  unfold emv_listener_rebuild_wire. rewrite run_gets. unfold id.
  assert (writes (ppse_fci_writer i) (ppse_fci i)) as W1.
  { repeat (apply writes_bind; [first [apply writes_each|by apply (writes_all emv_ppse_aid)|done]|]). apply writes_each. }
  assert (writes (app_fci_writer i) (app_fci i)) as W2.
  { repeat (apply writes_bind; [first [apply writes_each|by apply (writes_all [_; _; _; _])|done]|]). apply writes_each. }
  assert (writes (gpo_writer i) (gpo_data i)) as W3.
  { unfold gpo_writer, gpo_data. destruct (aip i) as [|a [|b [|]]] eqn:E; rewrite ?len_cons in wi_aip0; try (pose proof (len_nonneg l); lia); [done..|].
    change (ld [a; b] 0) with (Some a). change (ld [a; b] 1) with (Some b).
    apply writes_bind; [apply writes_each|]. intros pre rest Hr. rewrite run_lift_Some. revert pre rest Hr.
    change ([a; b] ++ afl i) with ([a] ++ [b] ++ afl i). apply writes_bind; [apply writes_put|].
    intros pre rest Hr. rewrite run_lift_Some. revert pre rest Hr. apply writes_bind; [apply writes_put|by apply writes_all]. }
  rewrite (writes_run _ _ _ W1), run_lift_Some by lia. cbv iota beta.
  rewrite (writes_run _ _ _ W2), run_lift_Some by lia. cbv iota beta.
  rewrite (writes_run _ _ _ W3), run_lift_Some by lia. done.
Qed.

Lemma wire_of_sized i w : wire_image i → wire_sized w → wire_sized (wire_of i w).
Proof.
  intros Hi (H1 & H2 & H3). destruct (wire_lens i Hi) as (_ & L1 & L2 & L3). destruct Hi.
  unfold wire_sized, wire_of. cbn [ew_ppse_fci ew_app_fci ew_gpo]. rewrite !over_len by lia. done.
Qed.

(** *** The invariant *)

(** The records that the AFL announces have slots. *)
Definition afl_ok (i : emv_card_image_t) : Prop :=
  ∃ sfi first last x, afl i = [sfi; first; last; x] ∧ 1 <= first ∧ last <= CONFIG_NFC_EMV_MAX_RECORDS.

(** A listener with the image [i] and its records [rs]. *)
Record emv_listener_ok (i : emv_card_image_t) (rs : list (list Z)) (s : emv_st) : Prop := {
  el_image : es_image s = i;
  el_ok : emv_ok i rs;
  el_sized : wire_sized (es_wire s);
  el_wire : ∃ w, es_wire s = wire_of i w;
  el_resp : len (es_resp s) = 255;
}.

Lemma sent_on_ok i rs s reply : len reply <= 255 → emv_listener_ok i rs s → emv_listener_ok i rs (sent_on s reply).
Proof. intros Hr []. constructor; try done. unfold sent_on. cbn [es_resp es_with_out]. rewrite over_len; lia. Qed.
Lemma with_session_ok i rs s x : emv_listener_ok i rs s → emv_listener_ok i rs (es_with_session x s).
Proof. by intros []. Qed.

(** Initializing with an image gives a listener that has it. *)
Lemma emv_init_ok s i rs : emv_ok i rs → wire_sized (es_wire s) → len (es_resp s) = 255 →
  ∃ s', emv_listener_init (Some i) s = Some (0, s') ∧ emv_listener_ok i rs s' ∧ es_session s' = EMV_SESSION_IDLE ∧ es_sent s' = es_sent s.
Proof.
  intros Hi Hw Hr. pose proof (emv_ok_wire i rs Hi) as Hwi. eexists. split.
  - unfold emv_listener_init. rewrite run_gets, !run_lift_Some, run_modify.
    rewrite (run_call _ _ _ _ _ (rebuild_exact (es_with_image i s) i Hwi Hw)). rewrite !run_modify. done.
  - split; [|done]. constructor; try done; [by apply wire_of_sized|by eexists].
Qed.

(** *** The handlers *)

(** [m] leads from [s] to the answer and session of the specification. *)
Definition answers_as (i : emv_card_image_t) (rs : list (list Z)) (m : M emv_st unit) (s : emv_st) (ans : option (list Z) * emv_session_state_t) : Prop :=
  ∃ s', m s = Some (tt, s') ∧ emv_listener_ok i rs s' ∧ es_sent s' = es_sent s ++ option_list ans.1 ∧ es_session s' = ans.2.

Lemma answers_sw i rs s sw : emv_listener_ok i rs s →
  answers_as i rs (emv_listener_send None 0 sw) s (Some (sw_bytes sw), es_session s).
Proof.
  intros Hs. eexists. split; [by apply emv_send_sw, Hs|]. split; [by apply sent_on_ok|done].
Qed.

Lemma answers_data i rs s bs r sw : emv_listener_ok i rs s → len bs <= 253 →
  answers_as i rs (emv_listener_send (Some (bs ++ r)) (len bs) sw) s (Some (bs ++ sw_bytes sw), es_session s).
Proof.
  intros Hs Hb. eexists. split; [by apply emv_send_exact; [apply Hs|]|].
  split; [|done]. apply sent_on_ok; [|done]. unfold sw_bytes. rewrite len_app, !len_cons, len_nil. lia.
Qed.

(** An answer in a new state of the session. *)
Lemma answers_in i rs m s x ans : emv_listener_ok i rs s → (∀ s, emv_listener_ok i rs s → es_session s = x → answers_as i rs m s ans) →
  answers_as i rs (modify (es_with_session x) ;; m) s ans.
Proof.
  intros Hs Hm. destruct (Hm (es_with_session x s)) as (s' & Hrun & Hok & Hsent & Hx); [by apply with_session_ok|done|].
  exists s'. by rewrite run_modify.
Qed.

Lemma aid_compare i rs aid : emv_ok i rs →
  (if len aid =? app_aid_len i then memcmp_eq aid 0 (app_aid i) 0 (len aid) else Some false) = Some (bool_decide (aid = aid_bytes i)).
Proof.
  intros Hi. destruct (emv_ok_wire i rs Hi). destruct (wire_lens i (emv_ok_wire i rs Hi)) as (La & _).
  destruct (Z.eqb_spec (len aid) (app_aid_len i)) as [E|E].
  - pose proof (len_nonneg aid). unfold memcmp_eq. rewrite (sub_whole aid), sub_ok by (done || lia). mred. change (Z.to_nat 0) with 0%nat. rewrite drop_0, E. done.
  - rewrite bool_decide_eq_false_2; [done|]. intros ->. by rewrite La in E.
Qed.

Lemma select_as i rs s aid : emv_listener_ok i rs s → answers_as i rs (emv_listener_on_select aid (len aid)) s (emv_answer i rs (es_session s) (Select aid)).
Proof.
  intros Hs. pose proof Hs as [Hi Hok _ [w Hw] _]. pose proof (emv_ok_wire i rs Hok) as Hwi.
  destruct (wire_lens i Hwi) as (_ & L1 & L2 & _). destruct Hwi as [Ha _ _ _].
  unfold emv_listener_on_select, emv_answer. 
  assert ((if len aid =? EMV_PPSE_AID_LEN then memcmp_eq aid 0 emv_ppse_aid 0 EMV_PPSE_AID_LEN else Some false) = Some (bool_decide (aid = emv_ppse_aid))) as Hp.
  { destruct (Z.eqb_spec (len aid) EMV_PPSE_AID_LEN) as [E|E]; [by apply memcmp_whole|]. rewrite bool_decide_eq_false_2; [done|by intros ->]. }
  unfold answers_as. rewrite run_gets. unfold id. rewrite Hp, run_lift_Some, Hi, (aid_compare i rs aid Hok), Hw.
  cbn [ew_ppse_fci ew_ppse_fci_len ew_app_fci ew_app_fci_len wire_of].
  destruct (decide (aid = emv_ppse_aid)) as [E|E]; [rewrite bool_decide_eq_true_2 by done|rewrite bool_decide_eq_false_2 by done].
  { apply answers_in; [done|]. intros s1 Hs1 <-. apply (answers_data i rs s1 (ppse_fci i)); [done|lia]. }
  rewrite run_lift_Some. destruct (decide (aid = aid_bytes i)) as [E'|E']; [rewrite bool_decide_eq_true_2 by done|rewrite bool_decide_eq_false_2 by done].
  { apply answers_in; [done|]. intros s1 Hs1 <-. apply (answers_data i rs s1 (app_fci i)); [done|lia]. }
  apply answers_in; [done|]. intros s1 Hs1 <-. by apply answers_sw.
Qed.

(** The slots of an image: a record, or nothing. *)
Lemma slot_exact i rs k : emv_ok i rs → 0 <= k < CONFIG_NFC_EMV_MAX_RECORDS →
  ∃ r, let bs := default [] (rs !! Z.to_nat k) in
    ld (record_data i) k = Some (bs ++ r) ∧ ld (record_len i) k = Some (len bs) ∧ len bs <= CONFIG_NFC_EMV_RECORD_SIZE.
Proof.
  intros [_ _ Hc Hf E] Hk. pose proof emv_record_size_range. rewrite E. destruct (rs !! Z.to_nat k) as [r|] eqn:Er; cbn [default].
  - destruct (filled_lookup (len rs) rs i _ r Er) as [Hl Hd]. exists (zeros (CONFIG_NFC_EMV_RECORD_SIZE - len r)).
    split; [by apply ld_eq; [lia|]|]. split; [by apply ld_eq; [lia|]|]. by apply (Forall_lookup_1 _ _ _ _ Hf Er).
  - apply lookup_ge_None in Er. exists (zeros CONFIG_NFC_EMV_RECORD_SIZE). cbn [filled with_records record_data record_len].
    unfold len in *. split; [|split; [|cbn; lia]]; apply ld_eq; try lia; rewrite lookup_app_r by (rewrite length_fmap; done); rewrite length_fmap;
      (apply lookup_replicate; split; [done|lia]).
Qed.

Definition emv_apdu_ok (a : nfc_apdu_t) : Prop := is_byte (p1 a) ∧ is_byte (p2 a).
Definition event_ok (e : emv_event) : Prop := match e with Command a => emv_apdu_ok a | _ => True end.

Lemma sfi_exact x : is_byte x → u8 (Z.land (Z.shiftr x 3) 0x1F) = Z.shiftr x 3.
Proof.
  unfold is_byte. intros Hx. change 0x1F with (Z.ones 5). rewrite Z.land_ones, Z.shiftr_div_pow2 by lia.
  change (2 ^ 3) with 8. change (2 ^ 5) with 32. rewrite (Z.mod_small (x / 8)) by dlia. apply u8_id. unfold is_byte. dlia.
Qed.

Lemma command_as i rs s a : emv_listener_ok i rs s → afl_ok i → emv_apdu_ok a →
  answers_as i rs (emv_listener_on_apdu (Some a)) s (emv_answer i rs (es_session s) (Command a)).
Proof.
  intros Hs (sfi & first & last & x & Ea & Hfirst & Hlast) [Hp1 Hp2]. pose proof Hs as [Hi Hok _ [w Hw] _]. pose proof (emv_ok_wire i rs Hok) as Hwi.
  destruct (wire_lens i Hwi) as (_ & _ & _ & L3). unfold emv_listener_on_apdu, emv_answer, answers_as. rewrite run_gets. unfold id.
  case_bool.
  { destruct (decide (es_session s = EMV_SESSION_APP_SELECTED)) as [Ex|Ex]; [rewrite bool_decide_eq_true_2 by done|rewrite bool_decide_eq_false_2 by done]; cbn [negb].
    - rewrite Hw. cbn [ew_gpo ew_gpo_len wire_of]. apply answers_in; [done|]. intros s1 Hs1 <-. apply (answers_data i rs s1 (gpo_data i)); [done|lia].
    - by apply answers_sw. }
  case_bool; [|by apply answers_sw].
  destruct (decide (es_session s = EMV_SESSION_GPO_DONE)) as [Ex|Ex]; [rewrite bool_decide_eq_true_2 by done|rewrite bool_decide_eq_false_2 by done]; cbn [negb];
    [|by apply answers_sw].
  unfold record_answer. case_bool; [by apply answers_sw|]. rewrite Hi, Ea, sfi_exact by done.
  change (ld [sfi; first; last; x] 0) with (Some sfi). change (ld [sfi; first; last; x] 1) with (Some first). change (ld [sfi; first; last; x] 2) with (Some last).
  rewrite !run_lift_Some. destruct (Z.eqb_spec (Z.shiftr (p2 a) 3) (Z.shiftr sfi 3)) as [Es|Es]; cbn [negb orb andb]; [|by apply answers_sw].
  rewrite Z.leb_antisym. destruct (Z.ltb_spec (p1 a) first); cbn [negb orb andb]; [by apply answers_sw|].
  rewrite Z.leb_antisym. destruct (Z.ltb_spec last (p1 a)); cbn [negb]; [by apply answers_sw|].
  unfold is_byte in Hp1. rewrite u32_id by lia. destruct (slot_exact i rs (p1 a - 1) Hok ltac:(lia)) as (r & Hd & Hl & Hsz).
  rewrite Hd, run_lift_Some, Hl, run_lift_Some. pose proof emv_record_size_range. apply answers_data; [done|lia].
Qed.

Lemma event_as i rs s e : emv_listener_ok i rs s → afl_ok i → event_ok e →
  answers_as i rs (emv_run_event e) s (emv_answer i rs (es_session s) e).
Proof.
  intros Hs Ha He. destruct e as [aid|a| |]; [by apply select_as|by apply command_as|..];
    (eexists; split; [done|]); (split; [by apply with_session_ok|]); (split; [|done]); by rewrite app_nil_r.
Qed.

(** C18: The EMV listener refines the specification of a card: whatever the sequence of
    selections, commands and field events, it answers each as [emv_answer] says, from the image
    and the session alone - PPSE and application directory entries, processing options only
    after the application is selected, records only after those and only in the range of the
    AFL - and it stays inside its buffers, for an image whose AFL names slots it has. *)
Theorem emv_listener_exact i rs s es : emv_listener_ok i rs s → afl_ok i → Forall event_ok es →
  ∃ s', emv_run es s = Some (tt, s') ∧ emv_listener_ok i rs s' ∧
    es_sent s' = es_sent s ++ (emv_answers i rs (es_session s) es).1 ∧
    es_session s' = (emv_answers i rs (es_session s) es).2.
Proof.
  intros Hs Ha He. revert s Hs. induction He as [|e es He _ IH]; intros s Hs; cbn [emv_run emv_answers].
  { exists s. by rewrite app_nil_r. }
  destruct (event_as i rs s e Hs Ha He) as (s1 & Hrun & Hs1 & Hsent & Hx). destruct (emv_answer i rs (es_session s) e) as [r x]. cbn [fst snd] in *.
  destruct (IH s1 Hs1) as (s2 & Hrun2 & Hs2 & Hsent2 & Hx2). rewrite Hx in Hsent2, Hx2.
  destruct (emv_answers i rs x es) as [ans y]. cbn [fst snd] in *. exists s2. rewrite (run_call _ _ _ _ _ Hrun).
  split; [done|]. split; [done|]. split; [by rewrite Hsent2, Hsent, <-(assoc_L (++))|done].
Qed.

(** An AFL that announces record 0 makes READ RECORD read in front of the records: the model has
    no result. *)
Lemma emv_record_zero_overruns i rs s sfi last x a : emv_listener_ok i rs s → afl i = [sfi; 0; last; x] → 0 <= last →
  es_session s = EMV_SESSION_GPO_DONE → cla a = NFC_CLA_ISO7816 → ins a = EMV_INS_READ_RECORD → p1 a = 0 → is_byte (p2 a) →
  Z.land (p2 a) 0x07 = 0x04 → Z.shiftr (p2 a) 3 = Z.shiftr sfi 3 →
  emv_listener_on_apdu (Some a) s = None.
Proof.
  intros [Hi Hok _ _ _] Ea Hlast Hx Hc Hn Hp1 Hp2 H4 Hsfi. unfold emv_listener_on_apdu. rewrite run_gets. unfold id.
  rewrite Hc, Hn, Hx, Hp1, H4, Hi, Ea, sfi_exact, Hsfi, Z.eqb_refl by done. cbn [Z.eqb Pos.eqb EMV_CLA_GP NFC_CLA_ISO7816 EMV_INS_GPO EMV_INS_READ_RECORD andb negb].
  rewrite bool_decide_eq_true_2 by done. cbn [negb]. change (ld [sfi; 0; last; x] 0) with (Some sfi).
  change (ld [sfi; 0; last; x] 1) with (Some 0). change (ld [sfi; 0; last; x] 2) with (Some last). rewrite !run_lift_Some.
  cbn [Z.ltb Z.compare negb orb]. rewrite (proj2 (Z.ltb_ge _ _)) by done. rewrite Z.eqb_refl. cbn [negb orb]. apply run_none.
  destruct (ld _ _) eqn:E; [|done]. apply ld_Some_inv in E as [E _]. destruct Hok as [_ _ Hcount _ Er]. rewrite Er in E.
  cbn [record_data filled with_records] in E. pose proof emv_max_records_range. exfalso. revert E. change (u32 (0 - 1)) with 4294967295.
  rewrite len_app, len_fmap, len_replicate. pose proof (len_nonneg rs). lia.
Qed.
End EmvListenerFacts.
