(* ===== verification/EmvPoller.v ===== *)
(** * The EMV poller ([src/nfc/protocols/emv/emv_poller.c])

    The terminal's side: select the PPSE, the application it names, ask for the processing options
    and read the records of the AFL.  The loop over the records counts in a [uint8_t]; the model
    runs it on fuel.  The second half proves that the reader is safe against any card whose AFL
    does not end with record 255, what is wrong with one that does, and what is read from the
    listener of another device. *)

From stdpp Require Import base list numbers option.
From S2P Require Import Prelude Kconfig Apdu Service Stack Serial Session Emv EmvListener.

Definition EMV_TAG_AID : Z := 0x4F.
Definition EMV_TAG_PAN : Z := 0x5A.
Definition EMV_TAG_TRACK2 : Z := 0x57.

Definition with_app_aid (a : list Z) (n : Z) (i : emv_card_image_t) : emv_card_image_t :=
  {| pan := pan i; pan_len := pan_len i; expiry := expiry i; name := name i; track2 := track2 i;
     track2_len := track2_len i; aip := aip i; afl := afl i; app_aid := a; app_aid_len := n;
     record_count := record_count i; record_len := record_len i; record_data := record_data i |}.
Definition with_options (ip fl : list Z) (i : emv_card_image_t) : emv_card_image_t :=
  {| pan := pan i; pan_len := pan_len i; expiry := expiry i; name := name i; track2 := track2 i;
     track2_len := track2_len i; aip := ip; afl := fl; app_aid := app_aid i; app_aid_len := app_aid_len i;
     record_count := record_count i; record_len := record_len i; record_data := record_data i |}.
Definition with_pan (p : list Z) (n : Z) (i : emv_card_image_t) : emv_card_image_t :=
  {| pan := p; pan_len := n; expiry := expiry i; name := name i; track2 := track2 i;
     track2_len := track2_len i; aip := aip i; afl := afl i; app_aid := app_aid i; app_aid_len := app_aid_len i;
     record_count := record_count i; record_len := record_len i; record_data := record_data i |}.
Definition with_track2 (t : list Z) (n : Z) (i : emv_card_image_t) : emv_card_image_t :=
  {| pan := pan i; pan_len := pan_len i; expiry := expiry i; name := name i; track2 := t;
     track2_len := n; aip := aip i; afl := afl i; app_aid := app_aid i; app_aid_len := app_aid_len i;
     record_count := record_count i; record_len := record_len i; record_data := record_data i |}.

Definition emv_poller_sw_ok (rx : list Z) : option Z :=
  if len rx <? 2 then Some (- EIO) else
  x ← ld rx (len rx - 2); y ← ld rx (len rx - 1);
  Some (if (x =? 0x90) && (y =? 0x00) then 0 else - EIO).

(** [n] more turns of the loop, from [i] on. *)
Fixpoint ppse_aid_loop (n : nat) (i : Z) (payload : list Z) (payload_len : Z) (aid : list Z) (aid_max : Z)
    : option (Z * list Z * Z) :=
  match n with
  | O => Some (- EBADMSG, aid, 0)
  | S n =>
    if i + 2 <? payload_len then
      t ← ld payload i;
      if negb (t =? EMV_TAG_AID) then ppse_aid_loop n (i + 1) payload payload_len aid aid_max else
      alen ← ld payload (i + 1);
      if (alen =? 0) || (aid_max <? alen) || (payload_len <? i + 2 + alen)
      then ppse_aid_loop n (i + 1) payload payload_len aid aid_max else
      aid ← memcpy aid 0 payload (i + 2) alen;
      Some (0, aid, alen)
    else Some (- EBADMSG, aid, 0)
  end.
(** The error, what is in [aid], [*aid_len]. *)
Definition emv_poller_parse_ppse_aid (payload : list Z) (payload_len : Z) (aid : list Z) (aid_max : Z)
    : option (Z * list Z * Z) := ppse_aid_loop (Z.to_nat payload_len) 0 payload payload_len aid aid_max.

(** What a tag sets, from the [tlen] bytes at [pos], and [tlen] after it. *)
Definition tlv_value (out : emv_card_image_t) (d : list Z) (tag pos tlen : Z) : option (emv_card_image_t * Z) :=
  if tag =? EMV_TAG_TRACK2 then
    let l := if EMV_TRACK2_MAX_BYTES <? tlen then EMV_TRACK2_MAX_BYTES else tlen in
    t ← memcpy (track2 out) 0 d pos l; Some (with_track2 t l out, tlen)
  else if tag =? EMV_TAG_PAN then
    let l := if EMV_PAN_BYTES <? tlen then EMV_PAN_BYTES else tlen in
    p ← memcpy (pan out) 0 d pos l; Some (with_pan p (u8 (tlen * 2)) out, l)
  else Some (out, tlen).
(** [n] more turns of the loop. *)
Fixpoint record_tlv_loop (n : nat) (out : emv_card_image_t) (d : list Z) (pos stop : Z) : option emv_card_image_t :=
  match n with
  | O => Some out
  | S n =>
    if pos + 2 <=? stop then
      tag ← ld d pos;
      tlen ← ld d (pos + 1);
      let pos := pos + 2 in
      if stop <? pos + tlen then Some out else
      '(out, tlen) ← tlv_value out d tag pos tlen;
      record_tlv_loop n out d (pos + tlen) stop
    else Some out
  end.
Definition emv_poller_parse_record_tlv (out : emv_card_image_t) (d : list Z) (n : Z) : option emv_card_image_t :=
  if n <? 2 then Some out else
  d0 ← ld d 0;
  '(pos, stop) ←
    (if d0 =? EMV_TAG_RECORD_TMPL then d1 ← ld d 1; Some (2, if d1 <? n - 2 then 2 + d1 else n) else Some (0, n));
  record_tlv_loop (Z.to_nat n) out d pos stop.

Definition tx_ppse : list Z :=
  [0x00; 0xA4; 0x04; 0x00; EMV_PPSE_AID_LEN;
   0x32; 0x50; 0x41; 0x59; 0x2E; 0x53; 0x59; 0x53; 0x2E; 0x44; 0x44; 0x46; 0x30; 0x31].
Definition tx_gpo : list Z := [0x80; 0xA8; 0x00; 0x00; 0x02; 0x83; 0x00; 0x00].

Section EmvPoller.
Context `{Kconfig} {C : Type} (tag_transceive : list Z → M C (Z * list Z)).

(** [rx] has room for a whole response. *)
Definition emv_poller_transceive (s : option session) (tx : list Z) : M C (Z * list Z) :=
  '(ret, rx) ← nfc_reader_session_transceive tag_transceive s tx;
  if NFC_TRANSPORT_MAX_RESPONSE_LEN <? len rx then lift None else mret (ret, rx).

Definition emv_poller_detect (s : option session) : M C Z :=
  if match s with None => true | Some s => negb (ses_active s) end then mret (- EINVAL) else
  '(ret, rx) ← emv_poller_transceive s tx_ppse;
  if negb (ret =? 0) then mret (- ENOTSUP) else
  lift (emv_poller_sw_ok rx).

(** An exchange and the check of its status word. *)
Definition emv_exchange (s : option session) (tx : list Z) : M C (Z * list Z) :=
  '(ret, rx) ← emv_poller_transceive s tx;
  if negb (ret =? 0) then mret (ret, rx) else
  ret ← lift (emv_poller_sw_ok rx); mret (ret, rx).

(** What the answer to GET PROCESSING OPTIONS sets. *)
Definition keep_options (out : emv_card_image_t) (rx : list Z) : option emv_card_image_t :=
  if 8 <=? len rx then
    ip ← memcpy (aip out) 0 rx 2 EMV_AIP_BYTES;
    fl ← memcpy (afl out) 0 rx 4 EMV_AFL_BYTES;
    Some (with_options ip fl out)
  else Some out.

(** The SELECT of the application, in [tx_app]. *)
Definition select_app_tx (aid : list Z) (aid_len : Z) : option (list Z) :=
  tx_app ← memcpy ([0x00; 0xA4; 0x04; 0x00; u8 aid_len] ++ zeros EMV_APP_AID_MAX_BYTES) 5 aid 0 aid_len;
  sub tx_app 0 (5 + aid_len).

(** A record that was read goes into its slot. *)
Definition keep_record (out : emv_card_image_t) (record_idx : Z) (rx : list Z) : option (emv_card_image_t * Z) :=
  let payload_len := len rx - 2 in
  if (0 <? payload_len) && (payload_len <=? CONFIG_NFC_EMV_RECORD_SIZE) then
    ls ← st (record_len out) record_idx (u8 payload_len);
    r ← ld (record_data out) record_idx;
    r ← memcpy r 0 rx 0 payload_len;
    ds ← st (record_data out) record_idx r;
    out ← emv_poller_parse_record_tlv (with_records (record_count out) ls ds out) rx payload_len;
    Some (out, u8 (record_idx + 1))
  else Some (out, record_idx).

(** The loop from [rec] on: the error of an early return or 0, the image and [record_idx]. *)
Fixpoint read_records (fuel : nat) (s : option session) (sfi last_rec rec record_idx : Z) (out : emv_card_image_t)
    : M C (Z * emv_card_image_t * Z) :=
  match fuel with
  | O => lift None
  | S fuel =>
    if (rec <=? last_rec) && (record_idx <? CONFIG_NFC_EMV_MAX_RECORDS) then
      '(ret, rx) ← emv_exchange s [0x00; 0xB2; rec; u8 (Z.lor (Z.shiftl sfi 3) 0x04); 0x00];
      if negb (ret =? 0) then mret (ret, out, record_idx) else
      '(out, record_idx) ← lift (keep_record out record_idx rx);
      read_records fuel s sfi last_rec (u8 (rec + 1)) record_idx out
    else mret (0, out, record_idx)
  end.

Definition emv_poller_read (fuel : nat) (s : option session) (out : option emv_card_image_t)
    : M C (Z * option emv_card_image_t) :=
  match s, out with
  | None, _ | _, None => mret (- EINVAL, out)
  | Some _, Some _ =>
    out ← lift (emv_card_image_reset out); 
    '(ret, rx) ← emv_exchange s tx_ppse;
    if negb (ret =? 0) then mret (ret, Some out) else
    if len rx <? 2 then mret (- EBADMSG, Some out) else
    '(ret, aid, aid_len) ← lift (emv_poller_parse_ppse_aid rx (len rx - 2) (zeros EMV_APP_AID_MAX_BYTES) EMV_APP_AID_MAX_BYTES);
    if negb (ret =? 0) then mret (ret, Some out) else
    a ← lift (memcpy (app_aid out) 0 aid 0 aid_len);
    let out := with_app_aid a (u8 aid_len) out in
    tx_app ← lift (select_app_tx aid aid_len);
    '(ret, rx) ← emv_exchange s tx_app;
    if negb (ret =? 0) then mret (ret, Some out) else
    '(ret, rx) ← emv_exchange s tx_gpo;
    if negb (ret =? 0) then mret (ret, Some out) else
    out ← lift (keep_options out rx);
    a0 ← lift (ld (afl out) 0); a1 ← lift (ld (afl out) 1); a2 ← lift (ld (afl out) 2);
    '(ret, out, record_idx) ← read_records fuel s (u8 (Z.shiftr a0 3)) a2 a1 0 out;
    if negb (ret =? 0) then mret (ret, Some out) else
    mret (0, Some (with_records record_idx (record_len out) (record_data out) out))
  end.
End EmvPoller.

(** ** Correctness *)

Section EmvPollerFacts.
Context `{KconfigRanges}.

Lemma sw_ok_total rx : ∃ r, emv_poller_sw_ok rx = Some r ∧ (r = 0 → 2 <= len rx).
Proof.
  unfold emv_poller_sw_ok. case_bool; bool_prop; [eexists; split; [done|done]|].
  ld_case (len rx - 2) x; [lia|]. ld_case (len rx - 1) y; [lia|]. eexists. split; [done|lia].
Qed.

(** *** The application's name in the answer to the PPSE *)

Lemma aid_loop_total payload n aid : bytes payload → 0 <= n <= len payload → bytes aid → len aid = 16 →
  ∀ k i, 0 <= i → ∃ ret a l, ppse_aid_loop k i payload n aid 16 = Some (ret, a, l) ∧ len a = 16 ∧ bytes a ∧
    (ret = 0 → 1 <= l <= 16).
Proof.
  intros Hb Hn Ba La. induction k as [|k IH]; intros i Hi; cbn [ppse_aid_loop]; [by eexists _, _, _|].
  destruct (Z.ltb_spec (i + 2) n); [|by eexists _, _, _]. ld_case i t; [lia|]. case_bool; [apply IH; lia|].
  ld_case (i + 1) al; [lia|]. pose proof (ld_byte _ _ _ Hb Hld0) as [? ?]. case_bool; [apply IH; lia|]. bool_prop.
  destruct (memcpy_fits aid 0 payload (i + 2) al) as (a & Ha & Hl & Hby); [lia..|]. rewrite Ha. mred.
  eexists _, _, _. split; [done|]. split; [lia|]. split; [by apply Hby|lia].
Qed.

(** *** The tags of a record *)

(** [i'] differs from [i] in what the tags of a record set. *)
Definition only_tlv (i i' : emv_card_image_t) : Prop :=
  ∃ p m t n, i' = with_pan p m (with_track2 t n i) ∧
    (len p = 8 ∧ bytes p ∧ is_byte m) ∧ (len t = 19 ∧ bytes t ∧ is_byte n).

Lemma only_tlv_refl i : header_ok i → only_tlv i i.
Proof.
  intros []. destruct_and!. exists (pan i), (pan_len i), (track2 i), (track2_len i). split; [by destruct i|done].
Qed.
Lemma only_tlv_trans i j k : only_tlv i j → only_tlv j k → only_tlv i k.
Proof. intros (p & m & t & n & -> & _) (p' & m' & t' & n' & -> & Hp & Ht). by exists p', m', t', n'. Qed.
Lemma only_tlv_header i i' : header_ok i → only_tlv i i' → header_ok i'.
Proof. intros [] (p & m & t & n & -> & ? & ?). destruct_and!. by constructor. Qed.
Lemma only_tlv_filled c rs i j : only_tlv (filled c rs i) j → ∃ i', only_tlv i i' ∧ j = filled c rs i'.
Proof. intros (p & m & t & n & -> & ? & ?). exists (with_pan p m (with_track2 t n i)). split; [by exists p, m, t, n|done]. Qed.
Lemma filled_header c rs i : header_ok i → header_ok (filled c rs i).
Proof. intros []. by constructor. Qed.

Lemma tlv_value_total out d tag pos tlen : bytes d → header_ok out → 0 <= pos → 0 <= tlen < 256 → pos + tlen <= len d →
  ∃ out' l, tlv_value out d tag pos tlen = Some (out', l) ∧ only_tlv out out' ∧ 0 <= l.
Proof.
  intros Hb Ho Hp Ht Hl. pose proof Ho as []. destruct_and!. unfold tlv_value, EMV_TRACK2_MAX_BYTES, EMV_PAN_BYTES in *. case_bool; [|case_bool].
  - set (l := if 19 <? tlen then 19 else tlen). assert (0 <= l <= tlen ∧ l <= 19) by (unfold l; destruct (Z.ltb_spec 19 tlen); lia).
    destruct (memcpy_fits (track2 out) 0 d pos l) as (t & Ht' & Lt & Bt); [lia..|]. cbv zeta. rewrite Ht'. mred.
    eexists _, _. split; [done|]. split; [|lia]. exists (pan out), (pan_len out), t, l. split; [by destruct out|].
    split; [done|]. split; [lia|]. split; [by apply Bt|unfold is_byte; lia].
  - set (l := if 8 <? tlen then 8 else tlen). assert (0 <= l <= tlen ∧ l <= 8) by (unfold l; destruct (Z.ltb_spec 8 tlen); lia).
    destruct (memcpy_fits (pan out) 0 d pos l) as (t & Ht' & Lt & Bt); [lia..|]. cbv zeta. rewrite Ht'. mred.
    eexists _, _. split; [done|]. split; [|lia]. exists t, (u8 (tlen * 2)), (track2 out), (track2_len out). split; [by destruct out|].
    split; [split; [lia|]; split; [by apply Bt|apply u8_range]|done].
  - eexists _, _. split; [done|]. split; [by apply only_tlv_refl|lia].
Qed.

Lemma tlv_loop_total d stop : bytes d → stop <= len d →
  ∀ k out pos, header_ok out → 0 <= pos → ∃ out', record_tlv_loop k out d pos stop = Some out' ∧ only_tlv out out'.
Proof.
  intros Hb Hs. induction k as [|k IH]; intros out pos Ho Hp; cbn [record_tlv_loop].
  { eexists. split; [done|by apply only_tlv_refl]. }
  destruct (Z.leb_spec (pos + 2) stop); [|eexists; split; [done|by apply only_tlv_refl]].
  ld_case pos tag; [lia|]. ld_case (pos + 1) tlen; [lia|]. pose proof (ld_byte _ _ _ Hb Hld0) as [? ?].
  destruct (Z.ltb_spec stop (pos + 2 + tlen)); [eexists; split; [done|by apply only_tlv_refl]|].
  destruct (tlv_value_total out d tag (pos + 2) tlen) as (out1 & l & -> & Ho1 & Hl); [done|done|lia|lia|lia|].
  mred. destruct (IH out1 (pos + 2 + l)) as (out2 & -> & Ho2); [by eapply only_tlv_header|lia|].
  exists out2. split; [done|by eapply only_tlv_trans].
Qed.

Lemma parse_record_total out d n : bytes d → n <= len d → header_ok out →
  ∃ out', emv_poller_parse_record_tlv out d n = Some out' ∧ only_tlv out out'.
Proof.
  intros Hb Hn Ho. unfold emv_poller_parse_record_tlv. case_bool; bool_prop; [eexists; split; [done|by apply only_tlv_refl]|].
  ld_case 0 d0; [lia|]. case_bool.
  - ld_case 1 d1; [lia|]. apply tlv_loop_total; [done| |done|lia]. destruct (Z.ltb_spec d1 (n - 2)); lia.
  - mred. by apply tlv_loop_total.
Qed.

(** *** Keeping a record *)

(** The records after one more answer. *)
Definition kept (rs : list (list Z)) (rx : list Z) : list (list Z) :=
  let r := take (Z.to_nat (len rx - 2)) rx in
  if (0 <? len r) && (len r <=? CONFIG_NFC_EMV_RECORD_SIZE) then rs ++ [r] else rs.

Lemma keep_record_exact c rs i rx : header_ok i → len rs < CONFIG_NFC_EMV_MAX_RECORDS → bytes rx → 2 <= len rx <= 255 →
  ∃ i', only_tlv i i' ∧ keep_record (filled c rs i) (len rs) rx = Some (filled c (kept rs rx) i', len (kept rs rx)) ∧
    (kept rs rx ≠ rs → emv_poller_parse_record_tlv (filled c (kept rs rx) i) rx (len rx - 2) = Some (filled c (kept rs rx) i')).
Proof.
  intros Hi Hrs Hb Hl. pose proof emv_record_size_range as Hsz. pose proof emv_max_records_range as Hmax.
  unfold keep_record, kept. set (r := take (Z.to_nat (len rx - 2)) rx).
  assert (len r = len rx - 2) as Lr by (unfold r; llia). rewrite <-Lr.
  destruct ((0 <? len r) && (len r <=? CONFIG_NFC_EMV_RECORD_SIZE)) eqn:E; [|by exists i; split; [apply only_tlv_refl|]].
  bool_prop. destruct (free_slot rs Hrs) as [Hz Hd]. 
  assert (st (record_len (filled c rs i)) (len rs) (u8 (len r)) =
    Some ((len <$> rs) ++ len r :: zeros (CONFIG_NFC_EMV_MAX_RECORDS - (len rs + 1)))) as ->.
  { cbn [record_len filled with_records]. by rewrite Hz, st_mid, u8_id by (rewrite ?len_fmap; unfold is_byte; lia || done). }
  mred. assert (ld (record_data (filled c rs i)) (len rs) = Some (zeros CONFIG_NFC_EMV_RECORD_SIZE)) as ->.
  { cbn [record_data filled with_records]. by rewrite Hd, ld_mid by (by rewrite len_fmap). }
  mred. rewrite memcpy_prefix by lia. replace (Z.to_nat (len r)) with (Z.to_nat (len rx - 2)) by lia. fold r.
  rewrite blit_ok by (rewrite ?len_zeros; lia). mred. cbn [take Z.to_nat app].
  assert (∀ x, st (record_data (filled c rs i)) (len rs) x = Some ((pad_record <$> rs) ++ x ::
      replicate (Z.to_nat (CONFIG_NFC_EMV_MAX_RECORDS - (len rs + 1))) (zeros CONFIG_NFC_EMV_RECORD_SIZE))) as ->.
  { intros x. cbn [record_data filled with_records]. by rewrite Hd, st_mid by (by rewrite len_fmap). }
  mred. replace (Z.to_nat (0 + len r)) with (length r) by llia.
  change (with_records (record_count (filled c rs i)) ?a ?b (filled c rs i)) with (with_records c a b i). change (take (Z.to_nat 0) ?z ++ ?x) with x. rewrite <-fill_slot.
  destruct (parse_record_total (filled c (rs ++ [r]) i) rx (len r)) as (j & Hj & Ho); [done|lia|by apply filled_header|].
  apply only_tlv_filled in Ho as (i' & Ho & ->). exists i'. split; [done|]. rewrite Hj. mred.
  split; [|done]. do 2 f_equal. rewrite len_app. change (len [r]) with 1. apply u8_id. unfold is_byte. pose proof (len_nonneg rs). lia.
Qed.

Lemma kept_ok rs rx : Forall record_fits rs → len rs < CONFIG_NFC_EMV_MAX_RECORDS → bytes rx →
  Forall record_fits (kept rs rx) ∧ len (kept rs rx) <= CONFIG_NFC_EMV_MAX_RECORDS.
Proof.
  intros Hf Hl Hb. unfold kept. destruct (_ && _) eqn:E; [|split; [done|lia]]. bool_prop.
  split; [|rewrite len_app; change (len [_]) with 1; lia]. apply Forall_app. split; [done|]. apply Forall_cons_2; [|done].
  split; [by apply bytes_take|done].
Qed.

(** *** The answers before the records *)

Lemma emv_zero_header : header_ok emv_zero.
Proof. constructor; cbn; split_and!; try done; apply bytes_zeros. Qed.
Lemma with_app_aid_header i a n : header_ok i → len a = 16 → bytes a → is_byte n → header_ok (with_app_aid a n i).
Proof. intros [] ? ? ?. destruct_and!. by constructor. Qed.
Lemma with_options_header i ip fl : header_ok i → len ip = 2 → bytes ip → len fl = 4 → bytes fl → header_ok (with_options ip fl i).
Proof. intros [] ? ? ? ?. destruct_and!. by constructor. Qed.
Lemma filled_zero : filled 0 [] emv_zero = emv_zero.
Proof. unfold filled, emv_zero, with_records. cbn. by rewrite Z.sub_0_r. Qed.

Lemma select_app_tx_total aid n : bytes aid → len aid = 16 → 1 <= n <= 16 → ∃ tx, select_app_tx aid n = Some tx ∧ bytes tx.
Proof.
  intros Ba La Hn. unfold select_app_tx. rewrite u8_id by (unfold is_byte; lia).
  destruct (memcpy_fits ([0; 164; 4; 0; n] ++ zeros EMV_APP_AID_MAX_BYTES) 5 aid 0 n) as (tx & Htx & Ltx & Btx); [lia|lia|lia|change (len _) with 21; lia|lia|].
  rewrite Htx. mred. change (len (_ ++ zeros _)) with 21 in Ltx. destruct (sub tx 0 (5 + n)) as [tx'|] eqn:Es; [|rewrite sub_ok in Es by lia; done].
  exists tx'. split; [done|]. eapply sub_bytes; [|exact Es]. apply Btx; [|done]. apply bytes_app. split; [|apply bytes_zeros].
  do 4 (apply Forall_cons_2; [done|]). by apply Forall_cons_2; [unfold is_byte; lia|].
Qed.

(** The answer to GET PROCESSING OPTIONS, before any record. *)
Lemma keep_options_exact d rx : 8 <= len rx → len (aip d) = 2 → len (afl d) = 4 →
  keep_options d rx = Some (with_options (take 2 (drop 2 rx)) (take 4 (drop 4 rx)) d).
Proof.
  intros Hl Hip Hfl. unfold keep_options, EMV_AIP_BYTES, EMV_AFL_BYTES. rewrite (proj2 (Z.leb_le _ _)) by done.
  assert (sub rx 2 2 = Some (take 2 (drop 2 rx))) as Hs2 by (apply sub_ok; lia).
  assert (sub rx 4 4 = Some (take 4 (drop 4 rx))) as Hs4 by (apply sub_ok; lia).
  by rewrite (memcpy_field _ _ _ _ _ Hs2), (memcpy_field _ _ _ _ _ Hs4) by done.
Qed.

Lemma keep_options_total d rx : header_ok d → bytes rx → ld rx 6 ≠ Some 255 → afl d = [0; 0; 0; 0] → filled 0 [] d = d →
  ∃ d' l0 l1 l2 l3, keep_options d rx = Some d' ∧ header_ok d' ∧ afl d' = [l0; l1; l2; l3] ∧ bytes (afl d') ∧ l2 ≠ 255 ∧
    app_aid_len d' = app_aid_len d ∧ filled 0 [] d' = d'.
Proof.
  intros Hd Hb H6 Ha Hf. destruct (Z.le_gt_cases 8 (len rx)) as [H8|H8].
  - pose proof Hd as []. destruct_and!. rewrite keep_options_exact by done.
    set (ip := take 2 (drop 2 rx)) in *. set (fl := take 4 (drop 4 rx)) in *.
    assert (len fl = 4) as Lfl by (unfold fl; llia). assert (bytes fl) as Bfl by (by apply bytes_take, bytes_drop).
    destruct fl as [|l0 [|l1 [|l2 [|l3 [|]]]]] eqn:Efl; rewrite ?len_cons, ?len_nil in Lfl; try lia; [|pose proof (len_nonneg l); lia].
    exists (with_options ip [l0; l1; l2; l3] d), l0, l1, l2, l3. split; [done|].
    split; [apply with_options_header; [done|unfold ip; llia|by apply bytes_take, bytes_drop|done|done]|]. split; [done|]. split; [done|].
    split; [|split; [done|]].
    + intros ->. apply H6. apply ld_eq; [lia|]. change (Z.to_nat 6) with (4 + 2)%nat. rewrite <-lookup_drop.
      rewrite <-(lookup_take_lt _ 4 2) by lia. fold fl. by rewrite Efl.
    + transitivity (with_options ip [l0; l1; l2; l3] (filled 0 [] d)); [done|]. by rewrite Hf.
  - unfold keep_options. rewrite (proj2 (Z.leb_gt _ _)) by done. exists d, 0, 0, 0, 0. rewrite Ha. split_and!; try done. by apply bytes_check.
Qed.

(** *** Any card *)

Section Safe.
Context {C : Type} (tag_transceive : list Z → M C (Z * list Z)) (R : C → Prop) `{!CardWhile tag_transceive R}.

Lemma emv_exchange_total s tx c : R c → bytes tx →
  ensures (emv_exchange tag_transceive s tx) c (λ '(ret, rx) c', R c' ∧ bytes rx ∧
    (ret = 0 → 2 <= len rx <= 255 ∧ tag_transceive tx c = Some ((0, rx), c'))).
Proof.
  intros Hc Hb. destruct (session_total tag_transceive R s tx c Hc Hb) as ([ret rx] & c' & Hrun & Hc' & Hrx & Hl).
  unfold emv_exchange, emv_poller_transceive, ensures. rewrite run_bind, (run_call _ _ _ _ _ Hrun), (proj2 (Z.ltb_ge _ _)), run_ret by done.
  destruct (Z.eqb_spec ret 0) as [->|Hr]; cbn [negb].
  - destruct (sw_ok_total rx) as (r & Hsw & Hlen). rewrite Hsw, run_lift_Some. eexists _, _. split; [done|]. split; [done|]. split; [done|].
    unfold NFC_TRANSPORT_MAX_RESPONSE_LEN in Hl. intros ->. split; [by split; [apply Hlen|]|].
    unfold nfc_reader_session_transceive in Hrun. destruct s as [s|]; [|done]. by destruct (ses_active s).
  - by eexists _, _.
Qed.

Definition records_read (i : emv_card_image_t) (r : Z * emv_card_image_t * Z) (c : C) : Prop :=
  R c ∧ ∃ rs i', Forall record_fits rs ∧ len rs <= CONFIG_NFC_EMV_MAX_RECORDS ∧ only_tlv i i' ∧ r.1.2 = filled 0 rs i' ∧ r.2 = len rs.

Lemma read_records_total s sfi last : last < 255 → ∀ fuel rec rs i c, 0 <= rec <= 255 → 1 + Z.max 0 (last + 1 - rec) <= Z.of_nat fuel →
  header_ok i → Forall record_fits rs → len rs <= CONFIG_NFC_EMV_MAX_RECORDS → R c →
  ensures (read_records tag_transceive fuel s sfi last rec (len rs) (filled 0 rs i)) c (records_read i).
Proof.
  intros Hlast. induction fuel as [|fuel IH]; intros rec rs i c Hrec Hfuel Hi Hf Hn Hc; [lia|]. cbn [read_records].
  assert (∀ ret rs i', Forall record_fits rs → len rs <= CONFIG_NFC_EMV_MAX_RECORDS → only_tlv i i' → ∀ c', R c' →
    ensures (mret (ret, filled 0 rs i', len rs)) c' (records_read i)) as Hend.
  { intros ret rs' i' ? ? ? c' Hc'. apply ensures_ret. split; [done|]. by exists rs', i'. }
  case_bool; [|by apply Hend; [..|apply only_tlv_refl|]]. bool_prop.
  eapply ensures_bind; [apply emv_exchange_total; [done|]|].
  { apply Forall_cons_2; [done|]. apply Forall_cons_2; [done|]. apply Forall_cons_2; [unfold is_byte; lia|].
    apply Forall_cons_2; [apply u8_range|]. by apply Forall_cons_2. }
  intros [ret rx] c' (Hc' & Hrx & Hok). case_bool; [by apply Hend; [..|apply only_tlv_refl|]|]. bool_prop.
  destruct (Hok ltac:(done)) as [Hl _]. destruct (keep_record_exact 0 rs i rx Hi ltac:(lia) Hrx Hl) as (i' & Hi' & Hk & _).
  eapply ensures_lift; [exact Hk|]. destruct (kept_ok rs rx Hf ltac:(lia) Hrx) as [Hf' Hn'].
  rewrite u8_id by (unfold is_byte; lia). eapply ensures_weaken; [apply IH; [lia|lia|by eapply only_tlv_header|done..]|].
  intros [[ret' out] idx] c2 (Hc2 & rs' & i2 & Hf2 & Hn2 & Hi2 & Ho & Hx). split; [done|]. exists rs', i2.
  split_and!; try done. by eapply only_tlv_trans.
Qed.

(** Reading a payment card is safe and ends against any card, whatever it answers, unless its
    AFL ends with record 255: the reader stays inside its buffers and the image, and when it
    reports success the image is a well-formed one, with the records that fit, which can be
    saved. 256 turns are enough for the loop over the records. *)
Theorem emv_poller_read_safe fuel s out c : R c → (256 <= fuel)%nat →
  (∀ c rx c', R c → tag_transceive tx_gpo c = Some ((0, rx), c') → ld rx 6 ≠ Some 255) →
  ensures (emv_poller_read tag_transceive fuel (Some s) (Some out)) c (λ r c',
    R c' ∧ ∃ d, r.2 = Some d ∧ header_ok d ∧ (r.1 = 0 → ∃ rs, emv_ok d rs)).
Proof.
  intros Hc Hfuel Hgpo. unfold emv_poller_read. set (Q := λ (r : Z * option emv_card_image_t) (c' : C), R c' ∧ _).
  assert (∀ ret d c', R c' → header_ok d → ret ≠ 0 → ensures (mret (ret, Some d)) c' Q) as Hend.
  { intros ret d c' Hc' Hd Hr. apply ensures_ret. split; [done|]. by exists d. }
  pose proof emv_zero_header as Hz. eapply ensures_lift; [done|].
  eapply ensures_bind; [by apply emv_exchange_total; [|apply bytes_check]|]. intros [ret rx] c1 (Hc1 & Hrx & Hok).
  destruct (Z.eqb_spec ret 0) as [->|Hr]; cbn [negb]; [|by apply Hend]. destruct (Hok eq_refl) as [Hl _]. rewrite (proj2 (Z.ltb_ge _ _)) by lia.
  destruct (aid_loop_total rx (len rx - 2) (zeros 16) Hrx ltac:(lia) (bytes_zeros 16) eq_refl (Z.to_nat (len rx - 2)) 0 ltac:(lia))
    as (ret & aid & al & Ha & La & Ba & Hal).
  eapply ensures_lift; [exact Ha|]. cbv iota beta. destruct (Z.eqb_spec ret 0) as [->|Hr]; cbn [negb]; [|by apply Hend]. specialize (Hal eq_refl).
  destruct (memcpy_fits (app_aid emv_zero) 0 aid 0 al) as (a & Hcp & Lap & Bap); [lia|lia|lia|change (len (app_aid emv_zero)) with 16; lia|lia|].
  eapply ensures_lift; [exact Hcp|]. rewrite u8_id by (unfold is_byte; lia). change (len (app_aid emv_zero)) with 16 in Lap.
  set (d1 := with_app_aid a al emv_zero). assert (header_ok d1) as Hd1 by (apply with_app_aid_header; [done|done|by apply Bap; [apply bytes_zeros|]|unfold is_byte; lia]).
  destruct (select_app_tx_total aid al Ba La Hal) as (tx & Htx & Btx). eapply ensures_lift; [exact Htx|].
  eapply ensures_bind; [by apply emv_exchange_total|]. intros [ret2 rx2] c2 (Hc2 & _ & _).
  destruct (Z.eqb_spec ret2 0) as [->|Hr]; cbn [negb]; [|by apply Hend].
  eapply ensures_bind; [by apply emv_exchange_total; [|apply bytes_check]|]. intros [ret3 rx3] c3 (Hc3 & Hrx3 & Hok3).
  destruct (Z.eqb_spec ret3 0) as [->|Hr]; cbn [negb]; [|by apply Hend]. destruct (Hok3 eq_refl) as [Hl3 Hrun3].
  destruct (keep_options_total d1 rx3 Hd1 Hrx3 (Hgpo _ _ _ Hc2 Hrun3) eq_refl) as (d2 & l0 & l1 & l2 & l3 & Ed2 & Hd2 & Efl & Hlb & Hl2 & Hal2 & Hf2).
  { transitivity (with_app_aid a al (filled 0 [] emv_zero)); [done|]. by rewrite filled_zero. }
  eapply ensures_lift; [exact Ed2|]. rewrite Efl in Hlb |- *. inv_bytes.
  eapply ensures_lift; [done|]. eapply ensures_lift; [done|]. eapply ensures_lift; [done|].
  unfold is_byte in *. rewrite <-Hf2. eapply ensures_bind; [apply (read_records_total (Some s) _ l2 ltac:(lia) fuel l1 [] d2); try done; try lia|].
  { pose proof emv_max_records_range. rewrite len_nil. lia. }
  intros [[ret4 d4] idx] c4 (Hc4 & rs & i' & Hfit & Hn & Ho & Hd4 & Hidx). cbn [fst snd] in Hd4, Hidx. subst d4 idx.
  pose proof (only_tlv_header _ _ Hd2 Ho) as Hi'.
  destruct (Z.eqb_spec ret4 0) as [->|Hr]; cbn [negb]; [|apply Hend; [done|by apply filled_header|done]].
  apply ensures_ret. split; [done|]. exists (filled (len rs) rs i'). split; [done|]. split; [by apply filled_header|]. intros _. exists rs.
  constructor; try done; [by apply filled_header|]. cbn. destruct Ho as (p & m & t & n & -> & _). cbn. rewrite Hal2. change (app_aid_len d1) with al. unfold EMV_APP_AID_MAX_BYTES. lia.
Qed.
End Safe.

(** *** A card that is never read to the end *)

(** A card whose AFL ends with record 255 and whose records hold nothing keeps the reader in its
    loop for ever: the counter wraps round before the condition can fail. *)
Lemma read_records_diverges {C} (tag_transceive : list Z → M C (Z * list Z)) ses sfi c :
  ses_active ses = true →
  (∀ r, tag_transceive [0x00; 0xB2; r; u8 (Z.lor (Z.shiftl sfi 3) 0x04); 0x00] c = Some ((0, sw_bytes NFC_SW_OK), c)) →
  ∀ fuel r idx out, 0 <= r < 256 → idx < CONFIG_NFC_EMV_MAX_RECORDS →
    read_records tag_transceive fuel (Some ses) sfi 255 r idx out c = None.
Proof.
  intros Hs Hcard. induction fuel as [|fuel IH]; intros r idx out Hr Hi; [done|]. cbn [read_records].
  rewrite (proj2 (Z.leb_le _ _)), (proj2 (Z.ltb_lt _ _)) by lia. cbn [andb].
  assert (emv_exchange tag_transceive (Some ses) [0x00; 0xB2; r; u8 (Z.lor (Z.shiftl sfi 3) 0x04); 0x00] c = Some ((0, sw_bytes NFC_SW_OK), c)) as Hx.
  { unfold emv_exchange, emv_poller_transceive. rewrite run_bind, (run_call _ _ _ _ _ (session_active _ ses _ c _ Hs (Hcard r))). done. }
  rewrite (run_call _ _ _ _ _ Hx). cbn [Z.eqb negb]. change (keep_record out idx (sw_bytes NFC_SW_OK)) with (Some (out, idx)).
  rewrite run_lift_Some. cbv iota beta. apply IH; [pose proof (u8_range (r + 1)) as [? ?]; lia|done].
Qed.

(** ** The listener of another device as the card *)

(** *** Records made of tags *)

Definition enc_tlv (x : Z * list Z) : list Z := x.1 :: len x.2 :: x.2.
Definition record_of (tl : list (Z * list Z)) : list Z :=
  EMV_TAG_RECORD_TMPL :: len (mjoin (enc_tlv <$> tl)) :: mjoin (enc_tlv <$> tl).
(** A value of a tag; the reader's loop takes a longer PAN apart. *)
Definition tlv_ok (x : Z * list Z) : Prop := is_byte x.1 ∧ bytes x.2 ∧ (x.1 = EMV_TAG_PAN → len x.2 <= EMV_PAN_BYTES).

(** What a tag sets in the image of the reader. *)
Definition apply_tlv (i : emv_card_image_t) (x : Z * list Z) : emv_card_image_t :=
  if x.1 =? EMV_TAG_TRACK2 then with_track2 (over (take 19 x.2) (track2 i)) (Z.min EMV_TRACK2_MAX_BYTES (len x.2)) i
  else if x.1 =? EMV_TAG_PAN then with_pan (over x.2 (pan i)) (2 * len x.2) i
  else i.

Lemma apply_tlv_only i x : header_ok i → tlv_ok x → len x.2 < 256 → only_tlv i (apply_tlv i x).
Proof.
  intros Hi (Ht & Hb & Hp) Hl. unfold apply_tlv. pose proof (len_nonneg x.2). pose proof Hi as []. destruct_and!.
  unfold EMV_TRACK2_MAX_BYTES, EMV_PAN_BYTES in *. case_bool; [|case_bool; [|by apply only_tlv_refl]].
  - exists (pan i), (pan_len i), (over (take 19 x.2) (track2 i)), (Z.min 19 (len x.2)). split; [by destruct i|]. split; [done|].
    rewrite over_len by (rewrite len_take; lia). split; [done|]. split; [|unfold is_byte; lia].
    apply bytes_app. split; [by apply bytes_take|by apply bytes_drop].
  - bool_prop. specialize (Hp ltac:(done)). exists (over x.2 (pan i)), (2 * len x.2), (track2 i), (track2_len i). split; [by destruct i|]. split; [|done].
    rewrite over_len by lia. split; [done|]. split; [|unfold is_byte; lia]. apply bytes_app. split; [done|by apply bytes_drop].
Qed.

Lemma memcpy_mid dst pre v post n : n <= len v → 0 <= n <= len dst → memcpy dst 0 (pre ++ v ++ post) (len pre) n = Some (over (take (Z.to_nat n) v) dst).
Proof.
  intros Hn Hd. pose proof (len_nonneg pre). pose proof (len_nonneg post).
  rewrite memcpy_ok by (rewrite ?len_app; lia). rewrite drop_app_len by done. rewrite take_app_le by (unfold len in *; lia).
  set (t := take (Z.to_nat n) v). assert (len t = n) as Lt by (unfold t; llia). rewrite blit_ok by lia. change (take (Z.to_nat 0) dst) with (@nil Z).
  unfold over. cbn [app]. do 3 f_equal. unfold len; lia.
Qed.

Lemma tlv_value_exact out pre x post : header_ok out → tlv_ok x → len x.2 < 256 →
  tlv_value out (pre ++ x.2 ++ post) x.1 (len pre) (len x.2) = Some (apply_tlv out x, len x.2).
Proof.
  intros [] (Ht & Hb & Hp) Hl. destruct_and!. pose proof (len_nonneg x.2). unfold tlv_value, apply_tlv, EMV_TRACK2_MAX_BYTES, EMV_PAN_BYTES in *.
  case_bool; [|case_bool; [|done]].
  - replace (if 19 <? len x.2 then 19 else len x.2) with (Z.min 19 (len x.2)) by (destruct (Z.ltb_spec 19 (len x.2)); lia).
    cbv zeta. rewrite memcpy_mid by lia. mred. do 4 f_equal.
    destruct (Z.min_spec 19 (len x.2)) as [[? ->]|[? ->]]; [done|]. rewrite !take_ge by (unfold len in *; lia). done.
  - bool_prop. specialize (Hp ltac:(done)). rewrite (proj2 (Z.ltb_ge 8 _)) by done. cbv zeta. rewrite memcpy_mid by lia. mred.
    rewrite take_ge by (unfold len; lia). rewrite Z.mul_comm. rewrite u8_id by (unfold is_byte; lia). done.
Qed.

Lemma tlv_loop_exact tl : ∀ k out pre post, header_ok out → Forall tlv_ok tl → (length tl <= k)%nat → len (mjoin (enc_tlv <$> tl)) < 256 →
  record_tlv_loop k out (pre ++ mjoin (enc_tlv <$> tl) ++ post) (len pre) (len pre + len (mjoin (enc_tlv <$> tl))) =
    Some (fold_left apply_tlv tl out).
Proof.
  induction tl as [|x tl IH]; intros k out pre post Ho Hf Hk Hl.
  { destruct k; [done|]. cbn [record_tlv_loop]. change (len (mjoin _)) with 0. by rewrite (proj2 (Z.leb_gt _ _)) by lia. }
  apply Forall_cons_iff in Hf as [Hx Hf]. destruct k as [|k]; [cbn in Hk; lia|]. cbn [length] in Hk.
  rewrite fmap_cons, mjoin_cons in Hl |- *. unfold enc_tlv at 1 3. unfold enc_tlv at 1 in Hl. cbn [app] in Hl |- *. 
  set (rest := mjoin (enc_tlv <$> tl)) in *. rewrite !len_cons, len_app in Hl |- *. pose proof (len_nonneg rest). pose proof (len_nonneg x.2).
  cbn [record_tlv_loop fold_left]. rewrite (proj2 (Z.leb_le _ _)) by lia. rewrite (ld_mid pre x.1 _ (len pre) eq_refl). mred.
  rewrite (cons_middle x.1 pre (len x.2 :: (x.2 ++ rest) ++ post) : pre ++ x.1 :: _ = pre ++ [x.1] ++ _), (assoc_L (++) pre [x.1]).
  rewrite ld_mid by (rewrite len_app, len_cons, len_nil; lia). mred. rewrite (proj2 (Z.ltb_ge _ _)) by lia.
  rewrite (cons_middle (len x.2) (pre ++ [x.1]) ((x.2 ++ rest) ++ post) : (pre ++ [x.1]) ++ len x.2 :: _ = (pre ++ [x.1]) ++ [len x.2] ++ _).
  rewrite (assoc_L (++) (pre ++ [x.1]) [len x.2]), <-(assoc_L (++) x.2 rest).
  set (pre' := (pre ++ [x.1]) ++ [len x.2]). assert (len pre' = len pre + 2) as Lp by (unfold pre'; rewrite !len_app, !len_cons, len_nil; lia).
  rewrite <-Lp, tlv_value_exact by (done || lia). mred. rewrite (assoc_L (++) pre' x.2).
  specialize (IH k (apply_tlv out x) (pre' ++ x.2) post). rewrite len_app in IH. rewrite <-IH; [f_equal; lia| |done|lia|lia].
  eapply only_tlv_header; [done|]. apply apply_tlv_only; [done|done|lia].
Qed.

Lemma tlv_count tl : Z.of_nat (length tl) <= len (mjoin (enc_tlv <$> tl)).
Proof.
  induction tl as [|x tl IH]; [done|]. rewrite fmap_cons, mjoin_cons, len_app. cbn [length]. unfold enc_tlv at 1. rewrite !len_cons.
  pose proof (len_nonneg x.2). lia.
Qed.

Lemma parse_record_exact out tl post : header_ok out → Forall tlv_ok tl → len (record_of tl) < 256 →
  emv_poller_parse_record_tlv out (record_of tl ++ post) (len (record_of tl)) = Some (fold_left apply_tlv tl out).
Proof.
  intros Ho Hf Hl. unfold emv_poller_parse_record_tlv, record_of in *. set (body := mjoin (enc_tlv <$> tl)) in *. cbn [app].
  pose proof (len_nonneg body). rewrite !len_cons in Hl |- *. rewrite (proj2 (Z.ltb_ge _ _)) by lia.
  rewrite (ld_mid [] EMV_TAG_RECORD_TMPL (len body :: body ++ post) 0 eq_refl : ld (EMV_TAG_RECORD_TMPL :: _) 0 = Some _). mred.
  rewrite Z.eqb_refl. rewrite (ld_mid [EMV_TAG_RECORD_TMPL] (len body) (body ++ post) 1 eq_refl : ld (EMV_TAG_RECORD_TMPL :: _) 1 = Some _). mred.
  rewrite (proj2 (Z.ltb_ge _ _)) by lia. pose proof (tlv_count tl). fold body in H2.
  pose proof (tlv_loop_exact tl (Z.to_nat (1 + (1 + len body))) out [EMV_TAG_RECORD_TMPL; len body] post Ho Hf ltac:(lia) ltac:(fold body; lia)) as Hr.
  fold body in Hr. cbn [app] in Hr. change (len [EMV_TAG_RECORD_TMPL; len body]) with 2 in Hr. rewrite <-Hr. f_equal. lia.
Qed.

(** The tags of a record leave the header well-formed and do not look at the records. *)
Lemma apply_tlvs_header tl : ∀ d, header_ok d → Forall tlv_ok tl → len (mjoin (enc_tlv <$> tl)) < 256 → header_ok (fold_left apply_tlv tl d).
Proof.
  induction tl as [|y tl IH]; intros d Hd Hf Hl; [done|]. apply Forall_cons_iff in Hf as [Hy Hf]. rewrite fmap_cons, mjoin_cons, len_app in Hl.
  pose proof (len_nonneg (enc_tlv y)). pose proof (len_nonneg (mjoin (enc_tlv <$> tl))). cbn [fold_left]. apply IH; [|done|lia].
  eapply only_tlv_header; [done|]. apply apply_tlv_only; [done|done|]. unfold enc_tlv in Hl at 1. rewrite !len_cons in Hl. lia.
Qed.
Lemma apply_tlvs_filled tl c rs : ∀ d, fold_left apply_tlv tl (filled c rs d) = filled c rs (fold_left apply_tlv tl d).
Proof.
  induction tl as [|y tl IH]; intros d; [done|]. cbn [fold_left]. rewrite <-IH. f_equal. unfold apply_tlv. by repeat case_bool.
Qed.

(** *** The link *)

(** A frame on the link: a SELECT by name is the router's [on_select], any other command reaches
    [on_apdu]; the response is the last one sent. *)
Definition event_of (a : nfc_apdu_t) : emv_event :=
  if selects a then Select (take (Z.to_nat (lc a)) (default [] (data a))) else Command a.
Definition emv_link (tx : list Z) : M emv_st (Z * list Z) :=
  '(r, a) ← lift (apdu_parse (Some tx) (len tx) false (Some apdu_zero));
  a ← lift (if bool_decide (r = APDU_PARSE_OK) then a else None);
  emv_run_event (event_of a) ;;
  s ← gets id; rx ← lift (list.last (es_sent s)); mret (0, rx).

(** The listener in the state [x] of its session. *)
Definition listens (i : emv_card_image_t) (rs : list (list Z)) (x : emv_session_state_t) (s : emv_st) : Prop :=
  emv_listener_ok i rs s ∧ es_session s = x.

Section Read.
Context (i : emv_card_image_t) (rs : list (list Z)) (Hafl : afl_ok i) (ses : session) (Hses : ses_active ses = true).

Lemma link_exact tx a x x' d s : apdu_parse (Some tx) (len tx) false (Some apdu_zero) = Some (APDU_PARSE_OK, Some a) →
  event_ok (event_of a) → emv_answer i rs x (event_of a) = (Some (d ++ sw_bytes NFC_SW_OK), x') → len d <= 253 → listens i rs x s →
  ∃ s', emv_exchange emv_link (Some ses) tx s = Some ((0, d ++ sw_bytes NFC_SW_OK), s') ∧ listens i rs x' s'.
Proof.
  intros Hp He Ha Hd [Hs Hx]. destruct (event_as i rs s (event_of a) Hs Hafl He) as (s' & Hrun & Hs' & Hsent & Hx').
  rewrite Hx, Ha in Hsent, Hx'. cbn [fst snd option_list] in Hsent, Hx'. exists s'. split; [|done].
  set (rx := d ++ sw_bytes NFC_SW_OK) in *. assert (len rx = len d + 2) as Lrx by (unfold rx; rewrite len_app; done).
  assert (emv_link tx s = Some ((0, rx), s')) as Hlink.
  { unfold emv_link. rewrite Hp, !run_lift_Some. cbv iota beta. rewrite bool_decide_eq_true_2, run_lift_Some by done.
    rewrite (run_call _ _ _ _ _ Hrun), run_gets. unfold id. rewrite Hsent. change (option_list _) with [rx]. by rewrite list.last_snoc, run_lift_Some. }
  unfold emv_exchange, emv_poller_transceive. rewrite run_bind, (run_call _ _ _ _ _ (session_active emv_link ses tx s _ Hses Hlink)).
  unfold NFC_TRANSPORT_MAX_RESPONSE_LEN. rewrite (proj2 (Z.ltb_ge _ _)), run_ret by lia. cbn [Z.eqb negb].
  assert (emv_poller_sw_ok rx = Some 0) as ->; [|by rewrite run_lift_Some]. unfold emv_poller_sw_ok. pose proof (len_nonneg d).
  assert (ld rx (len rx - 2) = Some 0x90) as -> by exact (ld_mid d 0x90 [0x00] (len rx - 2) ltac:(lia)).
  assert (ld rx (len rx - 1) = Some 0x00) as ->; [|by rewrite (proj2 (Z.ltb_ge _ _)) by lia].
  unfold rx at 1. rewrite (assoc_L (++) d [0x90] [0x00] : d ++ sw_bytes NFC_SW_OK = (d ++ [0x90]) ++ [0x00]).
  apply (ld_mid (d ++ [0x90]) 0x00 []). rewrite len_app, len_cons, len_nil. lia.
Qed.

(** The first exchange, and the name of the application in its answer. *)
Lemma exchange_ppse x s : listens i rs x s → emv_ok i rs →
  ∃ s', emv_exchange emv_link (Some ses) tx_ppse s = Some ((0, ppse_fci i ++ sw_bytes NFC_SW_OK), s') ∧ listens i rs EMV_SESSION_PPSE_SELECTED s'.
Proof.
  intros Hs Hi. destruct (wire_lens i (emv_ok_wire i rs Hi)) as (_ & L & _). pose proof (wi_aid i (emv_ok_wire i rs Hi)).
  eapply link_exact; [done|done| |lia|exact Hs]. done.
Qed.

Lemma aid_loop_skip n payload m aid : ∀ pre k i rest, payload = pre ++ rest → len pre = i → i + Z.of_nat m + 2 <= n →
  Forall (λ t, t ≠ EMV_TAG_AID) (take m rest) → (m <= length rest)%nat →
  ppse_aid_loop (m + k) i payload n aid 16 = ppse_aid_loop k (i + Z.of_nat m) payload n aid 16.
Proof.
  induction m as [|m IH]; intros pre k j rest Hp Hl Hn Hf Hm; [by rewrite Z.add_0_r|]. destruct rest as [|t rest]; [cbn in Hm; lia|].
  cbn [take length] in Hf, Hm. apply Forall_cons_iff in Hf as [Ht Hf]. cbn [Nat.add ppse_aid_loop]. rewrite (proj2 (Z.ltb_lt _ _)) by lia.
  rewrite Hp at 1. rewrite ld_mid by done. mred. rewrite (proj2 (Z.eqb_neq _ _)) by done. cbn [negb].
  rewrite (IH (pre ++ [t]) k (j + 1) rest); [f_equal; lia|by rewrite <-(assoc_L (++))|rewrite len_app, len_cons, len_nil; lia|lia|done|lia].
Qed.

Lemma ppse_aid_exact post : emv_ok i rs →
  emv_poller_parse_ppse_aid (ppse_fci i ++ post) (len (ppse_fci i)) (zeros EMV_APP_AID_MAX_BYTES) EMV_APP_AID_MAX_BYTES =
  Some (0, aid_bytes i ++ zeros (16 - app_aid_len i), app_aid_len i).
Proof.
  intros Hi. pose proof (emv_ok_wire i rs Hi) as Hw. destruct (wire_lens i Hw) as (La & L & _). pose proof (wi_aid i Hw). pose proof (eo_aid i rs Hi).
  unfold emv_poller_parse_ppse_aid, EMV_APP_AID_MAX_BYTES in *. rewrite L.
  set (head := take 25 (ppse_fci i)). set (tail := [0x87; 0x01; 0x01] ++ post).
  assert (ppse_fci i ++ post = head ++ EMV_TAG_AID :: app_aid_len i :: aid_bytes i ++ tail) as E by (unfold tail; by rewrite (assoc_L (++) (aid_bytes i))). rewrite E.
  replace (Z.to_nat (30 + app_aid_len i)) with (25 + S (Z.to_nat (4 + app_aid_len i)))%nat by lia.
  rewrite (aid_loop_skip _ (head ++ EMV_TAG_AID :: app_aid_len i :: aid_bytes i ++ tail) 25 _ [] _ 0 _ eq_refl eq_refl); [|lia| |rewrite length_app; change (length head) with 25%nat; lia].
  2:{ rewrite take_app_length' by done. apply (bool_decide_eq_true_1 _). by vm_compute. }
  change (0 + Z.of_nat 25) with 25. cbn [ppse_aid_loop]. rewrite (proj2 (Z.ltb_lt _ _)) by lia.
  rewrite (ld_mid head EMV_TAG_AID _ 25 eq_refl). mred. rewrite Z.eqb_refl. cbn [negb].
  rewrite (cons_middle EMV_TAG_AID head (app_aid_len i :: aid_bytes i ++ tail) : head ++ EMV_TAG_AID :: _ = head ++ [EMV_TAG_AID] ++ _), (assoc_L (++) head).
  rewrite (ld_mid (head ++ [EMV_TAG_AID]) (app_aid_len i) _ (25 + 1) eq_refl). mred.
  rewrite (proj2 (Z.eqb_neq _ _)), (proj2 (Z.ltb_ge 16 _)), (proj2 (Z.ltb_ge _ _)) by lia. cbn [orb].
  rewrite (cons_middle (app_aid_len i) (head ++ [EMV_TAG_AID]) (aid_bytes i ++ tail) : (head ++ [EMV_TAG_AID]) ++ app_aid_len i :: _ = (head ++ [EMV_TAG_AID]) ++ [app_aid_len i] ++ _).
  rewrite (assoc_L (++) (head ++ [EMV_TAG_AID]) [app_aid_len i]).
  pose proof (memcpy_mid (zeros 16) ((head ++ [EMV_TAG_AID]) ++ [app_aid_len i]) (aid_bytes i) tail (app_aid_len i)) as Hm.
  change (len ((head ++ [EMV_TAG_AID]) ++ [app_aid_len i])) with 27 in Hm. change (25 + 2) with 27. rewrite Hm by (rewrite ?len_zeros; lia). mred.
  rewrite take_ge by (unfold len in La; lia). unfold over. do 4 f_equal. unfold zeros. rewrite drop_replicate. f_equal. unfold len in La. lia.
Qed.

Lemma select_app_tx_exact n : emv_ok i rs → n = app_aid_len i →
  select_app_tx (aid_bytes i ++ zeros (16 - n)) n = Some ([0x00; 0xA4; 0x04; 0x00; n] ++ aid_bytes i).
Proof.
  intros Hi ->. destruct (wire_lens i (emv_ok_wire i rs Hi)) as (La & _). pose proof (eo_aid i rs Hi). unfold EMV_APP_AID_MAX_BYTES in *.
  unfold select_app_tx, EMV_APP_AID_MAX_BYTES. rewrite u8_id by (unfold is_byte; lia). rewrite memcpy_prefix by (rewrite len_app, len_zeros; lia).
  rewrite take_app_length' by (unfold len in La; lia).
  destruct (len_split (zeros 16) (app_aid_len i)) as (z1 & z2 & Ez & Lz); [rewrite len_zeros; lia|]. rewrite Ez.
  rewrite blit_app_mid by (done || lia). mred. rewrite (assoc_L (++)). apply sub_prefix. rewrite len_app, La. done.
Qed.

Lemma exchange_app s : listens i rs EMV_SESSION_PPSE_SELECTED s → emv_ok i rs → aid_bytes i ≠ emv_ppse_aid →
  ∃ s', emv_exchange emv_link (Some ses) ([0x00; 0xA4; 0x04; 0x00; app_aid_len i] ++ aid_bytes i) s =
    Some ((0, app_fci i ++ sw_bytes NFC_SW_OK), s') ∧ listens i rs EMV_SESSION_APP_SELECTED s'.
Proof.
  intros Hs Hi Hne. destruct (wire_lens i (emv_ok_wire i rs Hi)) as (La & _ & L & _). pose proof (eo_aid i rs Hi). unfold EMV_APP_AID_MAX_BYTES in *.
  set (a := {| cla := 0; ins := 0xA4; p1 := 4; p2 := 0; data := Some (aid_bytes i); lc := app_aid_len i; le := 0; has_le := false; extended := false |}).
  assert (event_of a = Select (aid_bytes i)) as Ea.
  { unfold event_of. cbn [a lc data]. change (selects a) with true. cbn [default]. by rewrite (take_ge (aid_bytes i)) by (unfold len in La; lia). }
  apply (link_exact _ a EMV_SESSION_PPSE_SELECTED); [| by rewrite Ea| |lia|done].
  - destruct (aid_bytes i) as [|b0 bs] eqn:Eb; [rewrite len_nil in La; lia|].
    change ([0; 164; 4; 0; app_aid_len i] ++ b0 :: bs) with (0 :: 164 :: 4 :: 0 :: app_aid_len i :: b0 :: bs).
    pose proof (parse_long false apdu_zero 0 164 4 0 (app_aid_len i) b0 bs) as Hp. unfold parse in Hp. cbv zeta in Hp. rewrite Hp.
    rewrite (proj2 (Z.eqb_neq _ _)) by lia. cbn [negb]. rewrite (proj2 (Z.eqb_eq _ _)); [done|]. rewrite <-La, !len_cons. lia.
  - rewrite Ea. unfold emv_answer. rewrite decide_False, decide_True by done. done.
Qed.

Lemma exchange_gpo s : listens i rs EMV_SESSION_APP_SELECTED s → emv_ok i rs →
  ∃ s', emv_exchange emv_link (Some ses) tx_gpo s = Some ((0, gpo_data i ++ sw_bytes NFC_SW_OK), s') ∧ listens i rs EMV_SESSION_GPO_DONE s'.
Proof.
  intros Hs Hi. destruct (wire_lens i (emv_ok_wire i rs Hi)) as (_ & _ & _ & L).
  eapply (link_exact _ _ EMV_SESSION_APP_SELECTED); [done|by split; vm_compute|done|lia|exact Hs].
Qed.

Lemma exchange_record s sfi last x k r : listens i rs EMV_SESSION_GPO_DONE s → emv_ok i rs → afl i = [sfi; 1; last; x] → is_byte sfi →
  rs !! k = Some r → 1 + Z.of_nat k <= last → 1 + Z.of_nat k < 256 →
  ∃ s', emv_exchange emv_link (Some ses) [0x00; 0xB2; 1 + Z.of_nat k; u8 (Z.lor (Z.shiftl (u8 (Z.shiftr sfi 3)) 3) 0x04); 0x00] s =
    Some ((0, r ++ sw_bytes NFC_SW_OK), s') ∧ listens i rs EMV_SESSION_GPO_DONE s'.
Proof.
  intros Hs Hi Ea Hsfi Hr Hk Hk'. pose proof emv_record_size_range. unfold is_byte in Hsfi.
  assert (0 <= Z.shiftr sfi 3 < 32) as Hs5 by (rewrite Z.shiftr_div_pow2 by lia; change (2 ^ 3) with 8; dlia).
  rewrite (u8_id (Z.shiftr sfi 3)) by (unfold is_byte; lia). rewrite lor_shiftl_add by (change (2 ^ 3) with 8; lia). change (2 ^ 3) with 8.
  set (v := u8 (Z.shiftr sfi 3 * 8 + 4)). assert (v = Z.shiftr sfi 3 * 8 + 4) as Ev by (apply u8_id; unfold is_byte; lia).
  set (a := {| cla := 0; ins := 0xB2; p1 := 1 + Z.of_nat k; p2 := v; data := None; lc := 0; le := 256; has_le := true; extended := false |}).
  pose proof (Forall_lookup_1 _ _ _ _ (eo_fits i rs Hi) Hr) as [_ Hrl].
  eapply link_exact; [reflexivity| | |lia|exact Hs].
  - split; cbn; [unfold is_byte; lia|rewrite Ev; unfold is_byte; lia].
  - unfold event_of, selects, emv_answer, record_answer. cbn [cla ins p1 p2 data lc andb Z.eqb Pos.eqb EMV_CLA_GP EMV_INS_GPO NFC_CLA_ISO7816 EMV_INS_READ_RECORD].
    rewrite decide_True by done. rewrite Ea, Ev.
    change 7 with (Z.ones 3). rewrite Z.land_ones, !Z.shiftr_div_pow2 by lia. change (2 ^ 3) with 8.
    rewrite Z.shiftr_div_pow2 in Hs5 by lia. change (2 ^ 3) with 8 in Hs5.
    replace ((sfi / 8 * 8 + 4) mod 8) with 4 by dlia. replace ((sfi / 8 * 8 + 4) / 8) with (sfi / 8) by dlia.
    rewrite Z.eqb_refl, (proj2 (Z.leb_le 1 _)), (proj2 (Z.leb_le _ last)) by lia. cbn [Z.eqb Pos.eqb negb andb].
    replace (Z.to_nat (1 + Z.of_nat k - 1)) with k by lia. by rewrite Hr, Z.eqb_refl.
Qed.
End Read.

(** Reading the records of the listener, from the next on. *)
Lemma read_records_exact i0 ses sfi x tls : afl_ok i0 → ses_active ses = true → emv_ok i0 (record_of <$> tls) → afl i0 = [sfi; 1; len tls; x] →
  is_byte sfi → Forall (Forall tlv_ok) tls → ∀ post pre d s fuel, tls = pre ++ post → header_ok d →
  listens i0 (record_of <$> tls) EMV_SESSION_GPO_DONE s → (length post < fuel)%nat →
  ∃ s', read_records emv_link fuel (Some ses) (u8 (Z.shiftr sfi 3)) (len tls) (1 + len pre) (len pre) (filled 0 (record_of <$> pre) d) s =
    Some ((0, filled 0 (record_of <$> tls) (fold_left apply_tlv (mjoin post) d), len tls), s') ∧
    listens i0 (record_of <$> tls) EMV_SESSION_GPO_DONE s'.
Proof.
  intros Hafl Hses Hi Ea Hsfi Hf. pose proof emv_max_records_range as Hmax. pose proof emv_record_size_range as Hsz.
  pose proof (eo_count _ _ Hi) as Hc. rewrite len_fmap in Hc.
  induction post as [|tl post IH]; intros pre d s fuel Hp Hd Hs Hfuel; (destruct fuel as [|fuel]; [cbn in Hfuel; lia|]); cbn [read_records].
  { rewrite app_nil_r in Hp. subst pre. rewrite (proj2 (Z.leb_gt _ _)) by lia. by exists s. }
  cbn [length] in Hfuel. assert (len tls = len pre + (1 + len post)) as Hl by (by rewrite Hp, len_app, len_cons).
  pose proof (len_nonneg pre). pose proof (len_nonneg post).
  rewrite (proj2 (Z.leb_le _ _)), (proj2 (Z.ltb_lt _ _)) by lia. cbn [andb].
  assert ((record_of <$> tls) !! length pre = Some (record_of tl)) as Hr by (by rewrite Hp, list_lookup_fmap, list_lookup_middle).
  destruct (exchange_record i0 (record_of <$> tls) Hafl ses Hses s sfi (len tls) x (length pre) (record_of tl) Hs Hi Ea Hsfi Hr) as (s1 & Hrun & Hs1);
    [unfold len in *; lia|unfold len in *; lia|]. fold (len pre) in Hrun. rewrite (run_call _ _ _ _ _ Hrun). cbn [Z.eqb negb].
  set (rx := record_of tl ++ sw_bytes NFC_SW_OK) in *.
  pose proof (Forall_lookup_1 _ _ _ _ (eo_fits _ _ Hi) Hr) as [Hrb Hrl].
  assert (0 < len (record_of tl)) as Hpos by (unfold record_of; rewrite !len_cons; pose proof (len_nonneg (mjoin (enc_tlv <$> tl))); lia).
  assert (len rx = len (record_of tl) + 2) as Lrx by (unfold rx; by rewrite len_app).
  assert (kept (record_of <$> pre) rx = record_of <$> (pre ++ [tl])) as Hkept.
  { unfold kept. assert (take (Z.to_nat (len rx - 2)) rx = record_of tl) as -> by (unfold rx at 2; apply take_app_length'; unfold len in *; lia).
    rewrite (proj2 (Z.ltb_lt _ _)), (proj2 (Z.leb_le _ _)) by lia. by rewrite fmap_app. }
  destruct (keep_record_exact 0 (record_of <$> pre) d rx Hd) as (d1 & Ho & Hk & Hparse);
    [rewrite len_fmap; lia|apply bytes_app; split; [done|by apply bytes_check]|lia|].
  assert (Forall tlv_ok tl) as Htl by (rewrite Hp in Hf; apply Forall_app in Hf as [_ Hf]; by apply Forall_cons_iff in Hf as [? _]).
  assert (filled 0 (record_of <$> (pre ++ [tl])) d1 = filled 0 (record_of <$> (pre ++ [tl])) (fold_left apply_tlv tl d)) as Ed.
  { rewrite Hkept in Hparse. assert (len rx - 2 = len (record_of tl)) as E2 by lia. rewrite E2 in Hparse. unfold rx in Hparse.
    rewrite parse_record_exact in Hparse by (done || (by apply filled_header) || lia).
    rewrite apply_tlvs_filled in Hparse. symmetry. enough (Some (filled 0 (record_of <$> pre ++ [tl]) (fold_left apply_tlv tl d)) = Some (filled 0 (record_of <$> pre ++ [tl]) d1)) as E by congruence.
    apply Hparse. rewrite fmap_app. intros E. apply (f_equal length) in E. rewrite length_app in E. cbn in E. lia. }
  rewrite len_fmap in Hk. rewrite Hk, run_lift_Some. cbv iota beta. rewrite Hkept, Ed, len_fmap.
  assert (header_ok (fold_left apply_tlv tl d)) as Hd1 by (apply apply_tlvs_header; [done|done|unfold record_of in Hrl; rewrite !len_cons in Hrl; lia]).
  rewrite (u8_id (1 + len pre + 1)) by (unfold is_byte; lia).
  destruct (IH (pre ++ [tl]) (fold_left apply_tlv tl d) s1 fuel) as (s2 & Hrun2 & Hs2); [by rewrite <-(assoc_L (++))|done|done|lia|].
  exists s2. split; [|done]. rewrite len_app in Hrun2. change (len [tl]) with 1 in Hrun2.
  rewrite mjoin_cons, fold_left_app, <-Hrun2, len_app. change (len [tl]) with 1. by rewrite Z.add_assoc.
Qed.

Lemma apply_tlvs_front tl ip fl a n : ∀ d,
  fold_left apply_tlv tl (with_options ip fl (with_app_aid a n d)) = with_options ip fl (with_app_aid a n (fold_left apply_tlv tl d)).
Proof.
  induction tl as [|y tl IH]; intros d; [done|]. cbn [fold_left]. rewrite <-IH. f_equal. unfold apply_tlv. by repeat case_bool.
Qed.

Lemma aid_copied i : wire_image i →
  memcpy (app_aid emv_zero) 0 (aid_bytes i ++ zeros (16 - app_aid_len i)) 0 (app_aid_len i) = Some (aid_bytes i ++ zeros (16 - app_aid_len i)).
Proof.
  intros Hw. destruct (wire_lens i Hw) as (La & _). pose proof (wi_aid i Hw).
  change (app_aid emv_zero) with (zeros 16). pose proof (memcpy_mid (zeros 16) [] (aid_bytes i) (zeros (16 - app_aid_len i)) (app_aid_len i)) as Hm.
  rewrite len_zeros in Hm by lia. change (len []) with 0 in Hm. cbn [app] in Hm. rewrite Hm by lia. f_equal. rewrite take_ge by (unfold len in La; lia).
  unfold over. f_equal. unfold zeros. rewrite drop_replicate. f_equal. unfold len in La. lia.
Qed.

(** What the reader makes of a card with the image [i] whose records are those of [tls]. *)
Definition read_image (i : emv_card_image_t) (tls : list (list (Z * list Z))) : emv_card_image_t :=
  filled (len tls) (record_of <$> tls)
    (with_options (aip i) (afl i)
      (with_app_aid (aid_bytes i ++ zeros (EMV_APP_AID_MAX_BYTES - app_aid_len i)) (app_aid_len i)
        (fold_left apply_tlv (mjoin tls) emv_zero))).

(** C19: The payment card reader and the EMV listener of two devices understand each other: whatever
    the session of the listener, if its AFL is records 1 to the number of its records, which are
    made of tags, reading succeeds and leaves in the image the application's name, the
    processing options, every record, and the PAN and track 2 of the tags; and the listener
    after the records. *)
Theorem emv_poller_reads_listener i tls ses out x y s sfi fuel :
  listens i (record_of <$> tls) x s → ses_active ses = true → afl i = [sfi; 1; len tls; y] → Forall (Forall tlv_ok) tls →
  aid_bytes i ≠ emv_ppse_aid → (256 <= fuel)%nat →
  ∃ s', emv_poller_read emv_link fuel (Some ses) (Some out) s = Some ((0, Some (read_image i tls)), s') ∧
    listens i (record_of <$> tls) EMV_SESSION_GPO_DONE s'.
Proof.
  intros Hs Hses Ea Hf Hne Hfuel. pose proof Hs as [[_ Hi _ _ _] _]. pose proof emv_max_records_range as Hmax.
  pose proof (emv_ok_wire _ _ Hi) as Hw. destruct (wire_lens i Hw) as (La & L1 & _ & L3). pose proof Hw as [_ _ Hip Hfl].
  pose proof (eo_aid _ _ Hi) as Haid. unfold EMV_APP_AID_MAX_BYTES in Haid.
  pose proof (eo_count _ _ Hi) as Hc. rewrite len_fmap in Hc. pose proof (len_nonneg tls).
  assert (afl_ok i) as Hafl by (exists sfi, 1, (len tls), y; split_and!; [done|lia|done]).
  assert (is_byte sfi) as Hsfi by (pose proof (proj2 (ho_afl i (eo_header _ _ Hi))) as Hb; rewrite Ea in Hb; by apply Forall_cons_iff in Hb as [? _]).
  destruct (exchange_ppse i _ Hafl ses Hses x s Hs Hi) as (s1 & R1 & S1). destruct (exchange_app i _ Hafl ses Hses s1 S1 Hi Hne) as (s2 & R2 & S2).
  destruct (exchange_gpo i _ Hafl ses Hses s2 S2 Hi) as (s3 & R3 & S3).
  unfold emv_poller_read. change (emv_card_image_reset (Some out)) with (Some emv_zero). rewrite run_lift_Some, (run_call _ _ _ _ _ R1). cbn [Z.eqb negb].
  assert (len (ppse_fci i ++ sw_bytes NFC_SW_OK) = 32 + app_aid_len i) as L by (rewrite len_app, L1; change (len (sw_bytes _)) with 2; lia).
  rewrite (proj2 (Z.ltb_ge _ _)) by lia. replace (len (ppse_fci i ++ sw_bytes NFC_SW_OK) - 2) with (len (ppse_fci i)) by lia.
  rewrite (ppse_aid_exact i _ _ Hi), run_lift_Some. cbv iota beta. cbn [Z.eqb negb].
  rewrite aid_copied, run_lift_Some by done. rewrite (select_app_tx_exact i _ _ Hi eq_refl), run_lift_Some.
  rewrite (run_call _ _ _ _ _ R2). cbn [Z.eqb negb]. rewrite (run_call _ _ _ _ _ R3). cbn [Z.eqb negb].
  rewrite u8_id by (unfold is_byte; lia). set (d1 := with_app_aid _ _ emv_zero).
  assert (keep_options d1 (gpo_data i ++ sw_bytes NFC_SW_OK) = Some (with_options (aip i) (afl i) d1)) as ->.
  { rewrite keep_options_exact by (done || (rewrite len_app, L3; by vm_compute)). unfold gpo_data.
    destruct (aip i) as [|a [|b [|]]]; rewrite ?len_cons in Hip; try (pose proof (len_nonneg l); lia); [done..|]. by rewrite Ea. }
  rewrite run_lift_Some. set (d2 := with_options _ _ d1). assert (afl d2 = [sfi; 1; len tls; y]) as -> by exact Ea. change (ld [sfi; 1; len tls; y] 0) with (Some sfi).
  change (ld [sfi; 1; len tls; y] 1) with (Some 1). change (ld [sfi; 1; len tls; y] 2) with (Some (len tls)). rewrite !run_lift_Some.
  assert (header_ok d2) as Hd2.
  { destruct (eo_header _ _ Hi). destruct_and!. apply with_options_header; try done. apply with_app_aid_header; try done;
      [apply emv_zero_header|rewrite len_app, len_zeros; lia|]. apply bytes_app. split; [by apply bytes_take|apply bytes_zeros]. }
  destruct (read_records_exact i ses sfi y tls Hafl Hses Hi Ea Hsfi Hf tls [] d2 s3 fuel eq_refl Hd2 S3) as (s4 & R4 & S4); [unfold len in *; lia|].
  change (len []) with 0 in R4. change (record_of <$> []) with ([] : list (list Z)) in R4.
  assert (filled 0 [] d2 = d2) as Hz.
  { transitivity (with_options (aip i) (afl i) (with_app_aid (aid_bytes i ++ zeros (16 - app_aid_len i)) (app_aid_len i) (filled 0 [] emv_zero))); [done|].
    by rewrite filled_zero. }
  rewrite Hz in R4. rewrite (run_call _ _ _ _ _ R4). cbn [Z.eqb negb]. exists s4. split; [|done].
  unfold read_image, d2, d1. by rewrite apply_tlvs_front.
Qed.
End EmvPollerFacts.
