(* ===== verification/Desfire.v ===== *)
(** * DESFire card model ([src/nfc/protocols/desfire/desfire.c], [desfire.h])

    The applications and files of a DESFire card and their persistent form.  The second half
    states the form as the encoding of an abstract card, a list of applications that are lists
    of files, and proves that the code writes and reads it. *)

From stdpp Require Import base list numbers option.
From S2P Require Import Prelude Kconfig Service Serial.

(** ** Data *)

Definition DESFIRE_FORMAT_VERSION : Z := 0x01.
Definition DESFIRE_APP_ID_SIZE : Z := 3.
Definition DESFIRE_MAX_KEYS : Z := 14.
Definition DESFIRE_AES_KEY_SIZE : Z := 16.
Definition DESFIRE_UID_SIZE : Z := 7.
Definition DESFIRE_BATCH_SIZE : Z := 5.
Definition DESFIRE_VERSION_SIZE : Z := 7.

Definition DESFIRE_FILE_TYPE_STANDARD : Z := 0.
Definition DESFIRE_FILE_TYPE_BACKUP : Z := 1.
Definition DESFIRE_FILE_TYPE_VALUE : Z := 2.
Definition DESFIRE_FILE_TYPE_LINEAR_REC : Z := 3.
Definition DESFIRE_FILE_TYPE_CYCLIC_REC : Z := 4.

Definition DESFIRE_COMM_PLAIN : Z := 0.

(** [desfire_file_settings_t].  The enumerations are read from bytes, so they hold any of them.
    The members of the union share its storage: [fs_word0] is [data.size], [value.lo_limit] (as
    an unsigned word) and [record.record_size], [fs_word1] [value.hi_limit] and
    [record.max_records], [fs_word2] [value.limited_credit_value] and [record.cur_records], and
    [fs_enabled] [value.limited_credit_enabled]. *)
Record desfire_file_settings_t := {
  fs_type : Z;
  fs_comm : Z;
  fs_access : Z;
  fs_word0 : Z;
  fs_word1 : Z;
  fs_word2 : Z;
  fs_enabled : Z;
}.

Record desfire_application_t := {
  a_id : list Z;
  a_key_settings : Z;
  a_key_count : Z;
  a_file_count : Z;
  a_keys : list (list Z);
  a_file_ids : list Z;
  a_file_settings : list desfire_file_settings_t;
  a_file_data_len : list Z;
  a_file_data : list (list Z);
}.

Record desfire_data_t := {
  d_hw_version : list Z;
  d_sw_version : list Z;
  d_uid : list Z;
  d_batch : list Z;
  d_prod_week : Z;
  d_prod_year : Z;
  d_free_memory : Z;
  d_master_key : list Z;
  d_master_key_settings : Z;
  d_app_count : Z;
  d_apps : list desfire_application_t;
}.

(** The bytes of a word, and words from bytes. *)
Definition byte_at (v k : Z) : Z := u8 (Z.land (Z.shiftr v (8 * k)) 0xFF).
Definition le24 (b0 b1 b2 : Z) : Z := Z.lor (Z.lor b0 (Z.shiftl b1 8)) (Z.shiftl b2 16).
Definition le32 (b0 b1 b2 b3 : Z) : Z := Z.lor (le24 b0 b1 b2) (Z.shiftl b3 24).

Definition settings_zero : desfire_file_settings_t :=
  {| fs_type := 0; fs_comm := 0; fs_access := 0; fs_word0 := 0; fs_word1 := 0; fs_word2 := 0; fs_enabled := 0 |}.

(** Assignments to [fs.settings.data.size] and the members it shares storage with. *)
Definition with_word0 (v : Z) (fs : desfire_file_settings_t) : desfire_file_settings_t :=
  {| fs_type := fs_type fs; fs_comm := fs_comm fs; fs_access := fs_access fs; fs_word0 := v;
     fs_word1 := fs_word1 fs; fs_word2 := fs_word2 fs; fs_enabled := fs_enabled fs |}.
Definition with_common (t c a : Z) (fs : desfire_file_settings_t) : desfire_file_settings_t :=
  {| fs_type := t; fs_comm := c; fs_access := a; fs_word0 := fs_word0 fs;
     fs_word1 := fs_word1 fs; fs_word2 := fs_word2 fs; fs_enabled := fs_enabled fs |}.

Definition with_app_header (id : list Z) (ks kc fc : Z) (a : desfire_application_t) : desfire_application_t :=
  {| a_id := id; a_key_settings := ks; a_key_count := kc; a_file_count := fc; a_keys := a_keys a;
     a_file_ids := a_file_ids a; a_file_settings := a_file_settings a;
     a_file_data_len := a_file_data_len a; a_file_data := a_file_data a |}.
Definition with_keys (ks : list (list Z)) (a : desfire_application_t) : desfire_application_t :=
  {| a_id := a_id a; a_key_settings := a_key_settings a; a_key_count := a_key_count a;
     a_file_count := a_file_count a; a_keys := ks;
     a_file_ids := a_file_ids a; a_file_settings := a_file_settings a;
     a_file_data_len := a_file_data_len a; a_file_data := a_file_data a |}.
Definition with_files (ids : list Z) (fss : list desfire_file_settings_t) (lens : list Z) (dat : list (list Z))
    (a : desfire_application_t) : desfire_application_t :=
  {| a_id := a_id a; a_key_settings := a_key_settings a; a_key_count := a_key_count a;
     a_file_count := a_file_count a; a_keys := a_keys a;
     a_file_ids := ids; a_file_settings := fss; a_file_data_len := lens; a_file_data := dat |}.
Definition with_apps (n : Z) (apps : list desfire_application_t) (d : desfire_data_t) : desfire_data_t :=
  {| d_hw_version := d_hw_version d; d_sw_version := d_sw_version d; d_uid := d_uid d; d_batch := d_batch d;
     d_prod_week := d_prod_week d; d_prod_year := d_prod_year d; d_free_memory := d_free_memory d;
     d_master_key := d_master_key d; d_master_key_settings := d_master_key_settings d;
     d_app_count := n; d_apps := apps |}.

Section Desfire.
Context `{Kconfig}.

Definition application_zero : desfire_application_t :=
  {| a_id := zeros DESFIRE_APP_ID_SIZE; a_key_settings := 0; a_key_count := 0; a_file_count := 0;
     a_keys := replicate (Z.to_nat DESFIRE_MAX_KEYS) (zeros DESFIRE_AES_KEY_SIZE);
     a_file_ids := zeros CONFIG_NFC_DESFIRE_MAX_FILES_PER_APP;
     a_file_settings := replicate (Z.to_nat CONFIG_NFC_DESFIRE_MAX_FILES_PER_APP) settings_zero;
     a_file_data_len := zeros CONFIG_NFC_DESFIRE_MAX_FILES_PER_APP;
     a_file_data := replicate (Z.to_nat CONFIG_NFC_DESFIRE_MAX_FILES_PER_APP) (zeros CONFIG_NFC_DESFIRE_MAX_FILE_SIZE) |}.

Definition desfire_zero : desfire_data_t :=
  {| d_hw_version := zeros DESFIRE_VERSION_SIZE; d_sw_version := zeros DESFIRE_VERSION_SIZE;
     d_uid := zeros DESFIRE_UID_SIZE; d_batch := zeros DESFIRE_BATCH_SIZE; d_prod_week := 0; d_prod_year := 0;
     d_free_memory := 0; d_master_key := zeros DESFIRE_AES_KEY_SIZE; d_master_key_settings := 0;
     d_app_count := 0; d_apps := replicate (Z.to_nat CONFIG_NFC_DESFIRE_MAX_APPS) application_zero |}.

(** ** Operations *)

Definition desfire_data_reset (d : option desfire_data_t) : option desfire_data_t :=
  match d with None => None | Some _ => Some desfire_zero end.

Definition desfire_persist_id : Z := NFC_PERSIST_ID_DESFIRE.

Definition desfire_rot_left_16 (value shift : Z) : Z :=
  let shift := Z.land shift 0x0F in
  u16 (Z.lor (u32 (Z.shiftl value shift)) (Z.shiftr value (16 - shift))).

Definition desfire_access_free_read (access_rights : Z) : bool :=
  let read_nibble := u8 (Z.land access_rights 0x0F) in
  let rw_nibble := u8 (Z.land (Z.shiftr access_rights 4) 0x0F) in
  (read_nibble =? 0x0E) || (rw_nibble =? 0x0E).

Definition desfire_build_version_bytes (data : option desfire_data_t) (out : option (list Z))
    : option (option (list Z)) :=
  match data, out with
  | None, _ | _, None => Some out
  | Some d, Some o =>
    o ← memcpy o 0 (d_hw_version d) 0 DESFIRE_VERSION_SIZE;
    o ← memcpy o DESFIRE_VERSION_SIZE (d_sw_version d) 0 DESFIRE_VERSION_SIZE;
    o ← memcpy o (DESFIRE_VERSION_SIZE * 2) (d_uid d) 0 DESFIRE_UID_SIZE;
    o ← memcpy o (DESFIRE_VERSION_SIZE * 2 + DESFIRE_UID_SIZE) (d_batch d) 0 DESFIRE_BATCH_SIZE;
    o ← st o (DESFIRE_VERSION_SIZE * 2 + DESFIRE_UID_SIZE + DESFIRE_BATCH_SIZE) (d_prod_week d);
    o ← st o (DESFIRE_VERSION_SIZE * 2 + DESFIRE_UID_SIZE + DESFIRE_BATCH_SIZE + 1) (d_prod_year d);
    Some (Some o)
  end.

(** The eight bytes it stores; a [memcpy] of [lo_limit] stores its bytes as the memory has them. *)
Definition desfire_write_file_settings (fs : desfire_file_settings_t) : list Z :=
  let w := fs_word0 fs in
  [u8 (fs_type fs); u8 (fs_comm fs); lo8 (fs_access fs); hi8 (fs_access fs)] ++
  if (fs_type fs =? DESFIRE_FILE_TYPE_STANDARD) || (fs_type fs =? DESFIRE_FILE_TYPE_BACKUP)
  then [byte_at w 0; byte_at w 1; byte_at w 2; 0]
  else if fs_type fs =? DESFIRE_FILE_TYPE_VALUE then [byte_at w 0; byte_at w 1; byte_at w 2; byte_at w 3]
  else [byte_at w 0; byte_at w 1; 0; 0].

(** Reads at [&in[off]]. *)
Definition desfire_read_file_settings (inp : list Z) (off : Z) (fs : desfire_file_settings_t)
    : option desfire_file_settings_t :=
  t ← ld inp off; c ← ld inp (off + 1); a0 ← ld inp (off + 2); a1 ← ld inp (off + 3);
  let fs := with_common t c (le16 a0 a1) fs in
  if (t =? DESFIRE_FILE_TYPE_STANDARD) || (t =? DESFIRE_FILE_TYPE_BACKUP) then
    b0 ← ld inp (off + 4); b1 ← ld inp (off + 5); b2 ← ld inp (off + 6);
    Some (with_word0 (le24 b0 b1 b2) fs)
  else if t =? DESFIRE_FILE_TYPE_VALUE then
    b0 ← ld inp (off + 4); b1 ← ld inp (off + 5); b2 ← ld inp (off + 6); b3 ← ld inp (off + 7);
    Some (with_word0 (le32 b0 b1 b2 b3) fs)
  else
    b0 ← ld inp (off + 4); b1 ← ld inp (off + 5); Some (with_word0 (Z.lor b0 (Z.shiftl b1 8)) fs).

(** *** Serialization *)

(** [n] more files of an application from [fi] on. *)
Fixpoint write_files (n : nat) (fi out_max : Z) (app : desfire_application_t) : M wstate Z :=
  match n with
  | O => mret 0
  | S n =>
    dl ← lift (ld (a_file_data_len app) fi);
    offset ← gets snd;
    let need := 1 + 1 + 1 + 2 + 8 + 2 + dl in
    if out_max <? offset + need then mret (- ENOSPC) else
    if CONFIG_NFC_DESFIRE_MAX_FILE_SIZE <? dl then mret (- EINVAL) else
    id ← lift (ld (a_file_ids app) fi);
    fs ← lift (ld (a_file_settings app) fi);
    put id ;; puts (desfire_write_file_settings fs) 8 ;; put (lo8 dl) ;; put (hi8 dl) ;;
    (if 0 <? dl then d ← lift (ld (a_file_data app) fi); puts d dl else mret tt) ;;
    write_files n (fi + 1) out_max app
  end.

(** [n] more applications from [ai] on. *)
Fixpoint write_apps (n : nat) (ai out_max : Z) (data : desfire_data_t) : M wstate Z :=
  match n with
  | O => mret 0
  | S n =>
    app ← lift (ld (d_apps data) ai);
    if CONFIG_NFC_DESFIRE_MAX_FILES_PER_APP <? a_file_count app then mret (- EINVAL) else
    if DESFIRE_MAX_KEYS <? a_key_count app then mret (- EINVAL) else
    offset ← gets snd;
    if out_max <? offset + 6 + a_key_count app * DESFIRE_AES_KEY_SIZE then mret (- ENOSPC) else
    puts (a_id app) DESFIRE_APP_ID_SIZE ;;
    put (a_key_settings app) ;; put (a_key_count app) ;; put (a_file_count app) ;;
    for_i (Z.to_nat (a_key_count app)) 0 (λ ki, k ← lift (ld (a_keys app) ki); puts k DESFIRE_AES_KEY_SIZE) ;;
    ret ← write_files (Z.to_nat (a_file_count app)) 0 out_max app;
    if negb (ret =? 0) then mret ret else
    write_apps n (ai + 1) out_max data
  end.

Definition desfire_write_header (d : desfire_data_t) : M wstate unit :=
  put DESFIRE_FORMAT_VERSION ;;
  puts (d_hw_version d) DESFIRE_VERSION_SIZE ;; puts (d_sw_version d) DESFIRE_VERSION_SIZE ;;
  puts (d_uid d) DESFIRE_UID_SIZE ;; puts (d_batch d) DESFIRE_BATCH_SIZE ;;
  put (d_prod_week d) ;; put (d_prod_year d) ;;
  put (byte_at (d_free_memory d) 0) ;; put (byte_at (d_free_memory d) 1) ;;
  put (byte_at (d_free_memory d) 2) ;; put (byte_at (d_free_memory d) 3) ;;
  puts (d_master_key d) DESFIRE_AES_KEY_SIZE ;;
  put (d_master_key_settings d) ;; put (d_app_count d).

(** The return value, the buffer and [*out_len]. *)
Definition desfire_serialize (data : option desfire_data_t) (out : option (list Z)) (out_max : Z)
    (out_len : option Z) : option (Z * option (list Z) * option Z) :=
  match data, out, out_len with
  | None, _, _ | _, None, _ | _, _, None => Some (- EINVAL, out, out_len)
  | Some d, Some o, Some n =>
    if CONFIG_NFC_DESFIRE_MAX_APPS <? d_app_count d then Some (- EINVAL, out, out_len) else
    if out_max <? 51 then Some (- ENOSPC, out, out_len) else
    '(ret, (o, offset)) ← (desfire_write_header d ;; write_apps (Z.to_nat (d_app_count d)) 0 out_max d) (o, 0);
    Some (ret, Some o, Some (if ret =? 0 then offset else n))
  end.

(** *** Deserialization *)

(** [n] more files from [fi] on: 0 or the error of an early return, and the application so far. *)
Fixpoint read_files (inp : list Z) (in_len : Z) (n : nat) (fi : Z) (app : desfire_application_t)
    : M Z (Z * desfire_application_t) :=
  match n with
  | O => mret (0, app)
  | S n =>
    offset ← gets id;
    if in_len <? offset + 12 then mret (- EBADMSG, app) else
    fid ← get inp;
    ids ← lift (st (a_file_ids app) fi fid);
    offset ← gets id;
    fs ← lift (ld (a_file_settings app) fi);
    fs ← lift (desfire_read_file_settings inp offset fs);
    fss ← lift (st (a_file_settings app) fi fs);
    modify (λ offset, offset + 8) ;;
    l0 ← get inp; l1 ← get inp;
    let app := with_files ids fss (a_file_data_len app) (a_file_data app) app in
    let data_len := le16 l0 l1 in
    if CONFIG_NFC_DESFIRE_MAX_FILE_SIZE <? data_len then mret (- EBADMSG, app) else
    offset ← gets id;
    if in_len <? offset + data_len then mret (- EBADMSG, app) else
    lens ← lift (st (a_file_data_len app) fi data_len);
    dat ← (if 0 <? data_len then
             d ← lift (ld (a_file_data app) fi); d ← read_into inp d data_len; lift (st (a_file_data app) fi d)
           else mret (a_file_data app));
    read_files inp in_len n (fi + 1) (with_files (a_file_ids app) (a_file_settings app) lens dat app)
  end.

Definition read_app (inp : list Z) (in_len : Z) (app : desfire_application_t) : M Z (Z * desfire_application_t) :=
  offset ← gets id;
  if in_len <? offset + 6 then mret (- EBADMSG, app) else
  aid ← read_into inp (a_id app) DESFIRE_APP_ID_SIZE;
  ks ← get inp; kc ← get inp; fc ← get inp;
  let app := with_app_header aid ks kc fc app in
  if DESFIRE_MAX_KEYS <? kc then mret (- EBADMSG, app) else
  if CONFIG_NFC_DESFIRE_MAX_FILES_PER_APP <? fc then mret (- EBADMSG, app) else
  offset ← gets id;
  if in_len <? offset + kc * DESFIRE_AES_KEY_SIZE then mret (- EBADMSG, app) else
  keys ← fill (Z.to_nat kc) 0 (a_keys app) (λ k, read_into inp k DESFIRE_AES_KEY_SIZE);
  read_files inp in_len (Z.to_nat fc) 0 (with_keys keys app).

Fixpoint read_apps (inp : list Z) (in_len : Z) (n : nat) (ai : Z) (d : desfire_data_t)
    : M Z (Z * desfire_data_t) :=
  match n with
  | O => mret (0, d)
  | S n =>
    app ← lift (ld (d_apps d) ai);
    '(ret, app) ← read_app inp in_len app;
    apps ← lift (st (d_apps d) ai app);
    let d := with_apps (d_app_count d) apps d in
    if negb (ret =? 0) then mret (ret, d) else read_apps inp in_len n (ai + 1) d
  end.

(** [desfire_deserialize] behind its first check. *)
Definition desfire_parse (inp : list Z) (in_len : Z) : M Z (Z * desfire_data_t) :=
  let z := desfire_zero in
  v ← get inp;
  if negb (v =? DESFIRE_FORMAT_VERSION) then mret (- EBADMSG, z) else
  hw ← read_into inp (d_hw_version z) DESFIRE_VERSION_SIZE;
  sw ← read_into inp (d_sw_version z) DESFIRE_VERSION_SIZE;
  uid ← read_into inp (d_uid z) DESFIRE_UID_SIZE;
  batch ← read_into inp (d_batch z) DESFIRE_BATCH_SIZE;
  week ← get inp; year ← get inp;
  m0 ← get inp; m1 ← get inp; m2 ← get inp; m3 ← get inp;
  key ← read_into inp (d_master_key z) DESFIRE_AES_KEY_SIZE;
  mks ← get inp; n ← get inp;
  let d := {| d_hw_version := hw; d_sw_version := sw; d_uid := uid; d_batch := batch; d_prod_week := week;
              d_prod_year := year; d_free_memory := le32 m0 m1 m2 m3; d_master_key := key;
              d_master_key_settings := mks; d_app_count := n; d_apps := d_apps z |} in
  if CONFIG_NFC_DESFIRE_MAX_APPS <? n then mret (- EBADMSG, d) else
  '(ret, d) ← read_apps inp in_len (Z.to_nat n) 0 d;
  if negb (ret =? 0) then mret (ret, d) else
  offset ← gets id;
  mret (if offset =? in_len then 0 else - EBADMSG, d).

Definition desfire_deserialize (data : option desfire_data_t) (inp : option (list Z)) (in_len : Z)
    : option (Z * option desfire_data_t) :=
  match data, inp with
  | None, _ | _, None => Some (- EINVAL, data)
  | Some _, Some inp =>
    if in_len <? 51 then Some (- EBADMSG, Some desfire_zero) else
    '(ret, d, _) ← desfire_parse inp in_len 0; Some (ret, Some d)
  end.
End Desfire.

(** ** The abstract card *)

Record file := { f_id : Z; f_settings : desfire_file_settings_t; f_data : list Z }.
Record application := { p_id : list Z; p_settings : Z; p_keys : list (list Z); p_files : list file }.
Record card := {
  c_hw : list Z; c_sw : list Z; c_uid : list Z; c_batch : list Z; c_week : Z; c_year : Z; c_memory : Z;
  c_master : list Z; c_master_settings : Z; c_apps : list application;
}.

(** The card an image holds: what the counts of its arrays say is there. *)
Definition file_at (a : desfire_application_t) (i : Z) : file :=
  {| f_id := default 0 (ld (a_file_ids a) i); f_settings := default settings_zero (ld (a_file_settings a) i);
     f_data := take (Z.to_nat (default 0 (ld (a_file_data_len a) i))) (default [] (ld (a_file_data a) i)) |}.
Definition view_app (a : desfire_application_t) : application :=
  {| p_id := a_id a; p_settings := a_key_settings a; p_keys := take (Z.to_nat (a_key_count a)) (a_keys a);
     p_files := file_at a <$> seqZ 0 (a_file_count a) |}.
Definition view (d : desfire_data_t) : card :=
  {| c_hw := d_hw_version d; c_sw := d_sw_version d; c_uid := d_uid d; c_batch := d_batch d;
     c_week := d_prod_week d; c_year := d_prod_year d; c_memory := d_free_memory d;
     c_master := d_master_key d; c_master_settings := d_master_key_settings d;
     c_apps := view_app <$> take (Z.to_nat (d_app_count d)) (d_apps d) |}.

(** Its persistent form. *)
Definition file_bytes (f : file) : list Z :=
  [f_id f] ++ desfire_write_file_settings (f_settings f) ++ [lo8 (len (f_data f)); hi8 (len (f_data f))] ++ f_data f.
Definition app_bytes (p : application) : list Z :=
  p_id p ++ [p_settings p; len (p_keys p); len (p_files p)] ++ mjoin (p_keys p) ++ mjoin (file_bytes <$> p_files p).
Definition header_bytes (c : card) : list Z :=
  [DESFIRE_FORMAT_VERSION] ++ c_hw c ++ c_sw c ++ c_uid c ++ c_batch c ++ [c_week c; c_year c] ++
  [byte_at (c_memory c) 0; byte_at (c_memory c) 1; byte_at (c_memory c) 2; byte_at (c_memory c) 3] ++
  c_master c ++ [c_master_settings c; len (c_apps c)].
Definition card_bytes (c : card) : list Z := header_bytes c ++ mjoin (app_bytes <$> c_apps c).

(** What is kept of a file's settings. *)
Definition stored_settings (fs : desfire_file_settings_t) : desfire_file_settings_t :=
  {| fs_type := fs_type fs; fs_comm := fs_comm fs; fs_access := fs_access fs;
     fs_word0 :=
       if (fs_type fs =? DESFIRE_FILE_TYPE_STANDARD) || (fs_type fs =? DESFIRE_FILE_TYPE_BACKUP)
       then fs_word0 fs mod 2 ^ 24
       else if fs_type fs =? DESFIRE_FILE_TYPE_VALUE then fs_word0 fs else fs_word0 fs mod 2 ^ 16;
     fs_word1 := 0; fs_word2 := 0; fs_enabled := 0 |}.
Definition stored_file (f : file) : file :=
  {| f_id := f_id f; f_settings := stored_settings (f_settings f); f_data := f_data f |}.
Definition stored_app (p : application) : application :=
  {| p_id := p_id p; p_settings := p_settings p; p_keys := p_keys p; p_files := stored_file <$> p_files p |}.
Definition stored_card (c : card) : card :=
  {| c_hw := c_hw c; c_sw := c_sw c; c_uid := c_uid c; c_batch := c_batch c; c_week := c_week c; c_year := c_year c;
     c_memory := c_memory c; c_master := c_master c; c_master_settings := c_master_settings c;
     c_apps := stored_app <$> c_apps c |}.

Section DesfireFacts.
Context `{KconfigRanges}.

(** The image of a card, zeros where it has nothing. *)
Definition pad_file (l : list Z) : list Z := l ++ zeros (CONFIG_NFC_DESFIRE_MAX_FILE_SIZE - len l).
Definition files_of (fs : list file) (a : desfire_application_t) : desfire_application_t :=
  let k := CONFIG_NFC_DESFIRE_MAX_FILES_PER_APP - len fs in
  with_files ((f_id <$> fs) ++ zeros k) ((f_settings <$> fs) ++ replicate (Z.to_nat k) settings_zero)
    ((len ∘ f_data <$> fs) ++ zeros k)
    ((pad_file ∘ f_data <$> fs) ++ replicate (Z.to_nat k) (zeros CONFIG_NFC_DESFIRE_MAX_FILE_SIZE)) a.
Definition app_of (p : application) : desfire_application_t :=
  files_of (p_files p)
    (with_keys (p_keys p ++ replicate (Z.to_nat (DESFIRE_MAX_KEYS - len (p_keys p))) (zeros DESFIRE_AES_KEY_SIZE))
      (with_app_header (p_id p) (p_settings p) (len (p_keys p)) (len (p_files p)) application_zero)).
Definition card_of (c : card) : desfire_data_t :=
  {| d_hw_version := c_hw c; d_sw_version := c_sw c; d_uid := c_uid c; d_batch := c_batch c;
     d_prod_week := c_week c; d_prod_year := c_year c; d_free_memory := c_memory c; d_master_key := c_master c;
     d_master_key_settings := c_master_settings c; d_app_count := len (c_apps c);
     d_apps := (app_of <$> c_apps c) ++
               replicate (Z.to_nat (CONFIG_NFC_DESFIRE_MAX_APPS - len (c_apps c))) application_zero |}.

(** Cards that fit the build. *)
Record settings_ok (fs : desfire_file_settings_t) : Prop := {
  so_type : is_byte (fs_type fs);
  so_comm : is_byte (fs_comm fs);
  so_access : 0 <= fs_access fs < 65536;
  so_word0 : 0 <= fs_word0 fs < 4294967296;
}.
Record file_ok (f : file) : Prop := {
  fo_id : is_byte (f_id f);
  fo_settings : settings_ok (f_settings f);
  fo_data : bytes (f_data f);
  fo_len : len (f_data f) <= CONFIG_NFC_DESFIRE_MAX_FILE_SIZE;
}.
Record application_ok (p : application) : Prop := {
  po_id : len (p_id p) = DESFIRE_APP_ID_SIZE ∧ bytes (p_id p);
  po_settings : is_byte (p_settings p);
  po_keys : Forall (λ k, len k = DESFIRE_AES_KEY_SIZE ∧ bytes k) (p_keys p);
  po_key_count : len (p_keys p) <= DESFIRE_MAX_KEYS;
  po_files : Forall file_ok (p_files p);
  po_file_count : len (p_files p) <= CONFIG_NFC_DESFIRE_MAX_FILES_PER_APP;
}.
Record card_ok (c : card) : Prop := {
  co_hw : len (c_hw c) = DESFIRE_VERSION_SIZE ∧ bytes (c_hw c);
  co_sw : len (c_sw c) = DESFIRE_VERSION_SIZE ∧ bytes (c_sw c);
  co_uid : len (c_uid c) = DESFIRE_UID_SIZE ∧ bytes (c_uid c);
  co_batch : len (c_batch c) = DESFIRE_BATCH_SIZE ∧ bytes (c_batch c);
  co_date : is_byte (c_week c) ∧ is_byte (c_year c);
  co_memory : 0 <= c_memory c < 4294967296;
  co_master : len (c_master c) = DESFIRE_AES_KEY_SIZE ∧ bytes (c_master c);
  co_master_settings : is_byte (c_master_settings c);
  co_apps : Forall application_ok (c_apps c);
  co_app_count : len (c_apps c) <= CONFIG_NFC_DESFIRE_MAX_APPS;
}.

(** Images whose counts stay inside their arrays. *)
Record image_app_ok (a : desfire_application_t) : Prop := {
  ia_id : len (a_id a) = DESFIRE_APP_ID_SIZE ∧ bytes (a_id a);
  ia_settings : is_byte (a_key_settings a);
  ia_key_count : 0 <= a_key_count a <= DESFIRE_MAX_KEYS;
  ia_file_count : 0 <= a_file_count a <= CONFIG_NFC_DESFIRE_MAX_FILES_PER_APP;
  ia_keys : len (a_keys a) = DESFIRE_MAX_KEYS ∧ Forall (λ k, len k = DESFIRE_AES_KEY_SIZE ∧ bytes k) (a_keys a);
  ia_ids : len (a_file_ids a) = CONFIG_NFC_DESFIRE_MAX_FILES_PER_APP ∧ bytes (a_file_ids a);
  ia_fs : len (a_file_settings a) = CONFIG_NFC_DESFIRE_MAX_FILES_PER_APP ∧ Forall settings_ok (a_file_settings a);
  ia_lens : len (a_file_data_len a) = CONFIG_NFC_DESFIRE_MAX_FILES_PER_APP ∧
    Forall (λ l, 0 <= l <= CONFIG_NFC_DESFIRE_MAX_FILE_SIZE) (a_file_data_len a);
  ia_data : len (a_file_data a) = CONFIG_NFC_DESFIRE_MAX_FILES_PER_APP ∧
    Forall (λ l, len l = CONFIG_NFC_DESFIRE_MAX_FILE_SIZE ∧ bytes l) (a_file_data a);
}.
Record image_ok (d : desfire_data_t) : Prop := {
  io_hw : len (d_hw_version d) = DESFIRE_VERSION_SIZE ∧ bytes (d_hw_version d);
  io_sw : len (d_sw_version d) = DESFIRE_VERSION_SIZE ∧ bytes (d_sw_version d);
  io_uid : len (d_uid d) = DESFIRE_UID_SIZE ∧ bytes (d_uid d);
  io_batch : len (d_batch d) = DESFIRE_BATCH_SIZE ∧ bytes (d_batch d);
  io_date : is_byte (d_prod_week d) ∧ is_byte (d_prod_year d);
  io_memory : 0 <= d_free_memory d < 4294967296;
  io_master : len (d_master_key d) = DESFIRE_AES_KEY_SIZE ∧ bytes (d_master_key d);
  io_master_settings : is_byte (d_master_key_settings d);
  io_app_count : 0 <= d_app_count d <= CONFIG_NFC_DESFIRE_MAX_APPS;
  io_apps : len (d_apps d) = CONFIG_NFC_DESFIRE_MAX_APPS ∧ Forall image_app_ok (d_apps d);
}.

(** *** Words and settings *)

Lemma byte_at_eq v k : 0 <= k → byte_at v k = (v / 2 ^ (8 * k)) mod 256.
Proof.
  intros Hk. unfold byte_at, u8. change 0xFF with (Z.ones 8). rewrite Z.land_ones by lia.
  rewrite Z.shiftr_div_pow2 by lia. change (2 ^ 8) with 256. apply Z.mod_mod. lia.
Qed.

Lemma byte_at_range v k : is_byte (byte_at v k).
Proof. apply u8_range. Qed.

Lemma le24_eq b0 b1 b2 : is_byte b0 → is_byte b1 → is_byte b2 → le24 b0 b1 b2 = b0 + 256 * b1 + 65536 * b2.
Proof.
  unfold is_byte, le24. intros. rewrite (Z.lor_comm b0), (lor_shiftl_add b1 b0 8) by lia.
  rewrite Z.lor_comm, lor_shiftl_add by lia. lia.
Qed.

Lemma le32_eq b0 b1 b2 b3 : is_byte b0 → is_byte b1 → is_byte b2 → is_byte b3 →
  le32 b0 b1 b2 b3 = b0 + 256 * b1 + 65536 * b2 + 16777216 * b3.
Proof.
  intros Hb0 Hb1 Hb2 Hb3. unfold le32. rewrite le24_eq by done. unfold is_byte in *.
  rewrite Z.lor_comm, lor_shiftl_add by lia. lia.
Qed.

Lemma le24_split v : le24 (byte_at v 0) (byte_at v 1) (byte_at v 2) = v mod 2 ^ 24.
Proof.
  rewrite le24_eq by apply byte_at_range. rewrite !byte_at_eq by lia. change (2 ^ 24) with 16777216.
  change (2 ^ (8 * 0)) with 1. change (2 ^ (8 * 1)) with 256. change (2 ^ (8 * 2)) with 65536. dlia.
Qed.

Lemma le32_split v : 0 <= v < 4294967296 → le32 (byte_at v 0) (byte_at v 1) (byte_at v 2) (byte_at v 3) = v.
Proof.
  intros Hv. rewrite le32_eq by apply byte_at_range. rewrite !byte_at_eq by lia.
  change (2 ^ (8 * 0)) with 1. change (2 ^ (8 * 1)) with 256. change (2 ^ (8 * 2)) with 65536.
  change (2 ^ (8 * 3)) with 16777216. dlia.
Qed.

Lemma le16_word v : Z.lor (byte_at v 0) (Z.shiftl (byte_at v 1) 8) = v mod 2 ^ 16.
Proof.
  pose proof (byte_at_range v 0). pose proof (byte_at_range v 1). unfold is_byte in *.
  rewrite Z.lor_comm, lor_shiftl_add by lia. rewrite !byte_at_eq by lia. change (2 ^ 16) with 65536.
  change (2 ^ (8 * 0)) with 1. change (2 ^ (8 * 1)) with 256. change (2 ^ 8) with 256. dlia.
Qed.

Lemma settings_len fs : len (desfire_write_file_settings fs) = 8.
Proof. unfold desfire_write_file_settings. by repeat case_bool. Qed.

Lemma settings_bytes fs : settings_ok fs → bytes (desfire_write_file_settings fs).
Proof.
  intros []. unfold desfire_write_file_settings. repeat case_bool; cbn [app];
    repeat first [apply Forall_nil_2 | apply Forall_cons_2; [first [apply u8_range|apply lo8_range|apply hi8_range|done]|]].
Qed.

Lemma read_settings inp off fs l : settings_ok fs → ahead inp off (desfire_write_file_settings fs ++ l) →
  desfire_read_file_settings inp off settings_zero = Some (stored_settings fs).
Proof.
  intros [Ht Hc Ha Hw]. unfold desfire_write_file_settings, desfire_read_file_settings.
  rewrite !(u8_id (fs_type fs)), !(u8_id (fs_comm fs)) by done. intros Hin.
  assert (∃ b0 b1 b2 b3,
    (if (fs_type fs =? DESFIRE_FILE_TYPE_STANDARD) || (fs_type fs =? DESFIRE_FILE_TYPE_BACKUP)
     then [byte_at (fs_word0 fs) 0; byte_at (fs_word0 fs) 1; byte_at (fs_word0 fs) 2; 0]
     else if fs_type fs =? DESFIRE_FILE_TYPE_VALUE
     then [byte_at (fs_word0 fs) 0; byte_at (fs_word0 fs) 1; byte_at (fs_word0 fs) 2; byte_at (fs_word0 fs) 3]
     else [byte_at (fs_word0 fs) 0; byte_at (fs_word0 fs) 1; 0; 0]) = [b0; b1; b2; b3]) as (b0 & b1 & b2 & b3 & Eb)
    by (repeat case_bool; by do 4 eexists).
  rewrite Eb in Hin. rewrite <-(Z.add_0_r off) at 1. rewrite !(ahead_ld _ _ _ _ Hin) by lia.
  repeat match goal with |- context [ld ?L ?k] =>
    let r := eval cbv [ld Z.leb Z.compare Z.to_nat Pos.to_nat Pos.iter_op Nat.add lookup list_lookup app] in (ld L k) in
    change (ld L k) with r end.
  mred. rewrite le16_split by done. unfold stored_settings.
  revert Eb. repeat case_bool; intros [= <- <- <- <-]; unfold with_word0, with_common;
    cbn [fs_type fs_comm fs_access fs_word0 fs_word1 fs_word2 fs_enabled settings_zero].
  - by rewrite le24_split.
  - by rewrite le32_split.
  - by rewrite le16_word.
Qed.

(** *** The view of an image *)

Lemma view_file_ok a i : image_app_ok a → 0 <= i < CONFIG_NFC_DESFIRE_MAX_FILES_PER_APP →
  file_ok (file_at a i) ∧ ld (a_file_ids a) i = Some (f_id (file_at a i)) ∧
  ld (a_file_settings a) i = Some (f_settings (file_at a i)) ∧
  ld (a_file_data_len a) i = Some (len (f_data (file_at a i))) ∧
  ∃ d, ld (a_file_data a) i = Some d ∧ f_data (file_at a i) = take (Z.to_nat (len (f_data (file_at a i)))) d ∧
    len (f_data (file_at a i)) <= len d.
Proof.
  intros [] Hi. unfold file_at.
  destruct ia_ids0 as [Li Bi]. destruct ia_fs0 as [Lf Of]. destruct ia_lens0 as [Ll Ol]. destruct ia_data0 as [Ld Od].
  destruct (ld_Some (a_file_ids a) i) as [id Eid]; [lia|]. destruct (ld_Some (a_file_settings a) i) as [fs Efs]; [lia|].
  destruct (ld_Some (a_file_data_len a) i) as [l El]; [lia|]. destruct (ld_Some (a_file_data a) i) as [d Ed]; [lia|].
  rewrite Eid, Efs, El, Ed. cbn [default f_id f_settings f_data].
  pose proof (ld_byte _ _ _ Bi Eid). apply ld_Some_inv in Efs as [_ Hfs]. apply ld_Some_inv in El as [_ Hl].
  apply ld_Some_inv in Ed as [_ Hd]. pose proof (Forall_lookup_1 _ _ _ _ Of Hfs).
  pose proof (Forall_lookup_1 _ _ _ _ Ol Hl) as Hll. pose proof (Forall_lookup_1 _ _ _ _ Od Hd) as [Hdl Hdb].
  cbv beta in Hll. assert (len (take (Z.to_nat l) d) = l) as Hlen by llia. change id with (Datatypes.id id). unfold Datatypes.id.
  rewrite Hlen. split; [constructor; cbn; [done|done|by apply bytes_take|lia]|]. split_and!; try done.
  exists d. split; [done|]. split; [done|lia].
Qed.

Lemma view_app_ok a : image_app_ok a → application_ok (view_app a).
Proof.
  intros Ha. pose proof Ha as []. constructor; cbn; try done.
  - apply Forall_take, ia_keys0.
  - destruct ia_keys0. llia.
  - apply Forall_fmap, Forall_forall. intros i Hi%list_elem_of_In%elem_of_seqZ. apply view_file_ok; [done|lia].
  - rewrite len_fmap. unfold len. rewrite length_seqZ. lia.
Qed.

Lemma view_ok d : image_ok d → card_ok (view d).
Proof.
  intros []. constructor; cbn; try done.
  - apply Forall_fmap, Forall_take. eapply Forall_impl; [|exact (proj2 io_apps0)]. intros a Ha. by apply view_app_ok.
  - rewrite len_fmap. destruct io_apps0. llia.
Qed.

(** *** Writing *)

(** [emits k out_max m bs]: wherever there is room for [bs] and [k] bytes more, [m] writes [bs]
    at the offset, moves past it and succeeds. *)
Definition emits (k out_max : Z) (m : M wstate Z) (bs : list Z) : Prop :=
  ∀ pre rest, len (pre ++ rest) = out_max → len bs + k <= len rest →
    m (pre ++ rest, len pre) = Some (0, (pre ++ bs ++ drop (length bs) rest, len pre + len bs)).

Lemma emits_ret k out_max : 0 <= k → emits k out_max (mret 0) [].
Proof. intros Hk pre rest _ _. change (len []) with 0. rewrite Z.add_0_r. done. Qed.

Lemma emits_writes k out_max m bs e cs : 0 <= k → writes m bs → emits k out_max e cs →
  emits k out_max (m ;; e) (bs ++ cs).
Proof.
  intros Hk Hm He pre rest Hl Hr. rewrite len_app in Hr. pose proof (len_nonneg cs).
  rewrite (run_call _ _ _ _ _ (Hm pre rest ltac:(lia))).
  rewrite (assoc_L (++) pre), <-len_app. rewrite He by (rewrite <-?Hl; llia). f_equal. f_equal. f_equal.
  - rewrite <-!(assoc_L (++)). by rewrite drop_drop, length_app.
  - rewrite !len_app. lia.
Qed.

Lemma emits_then k out_max m bs e cs : 0 <= k → emits k out_max m bs → emits k out_max e cs →
  emits k out_max (ret ← m; if negb (ret =? 0) then mret ret else e) (bs ++ cs).
Proof.
  intros Hk Hm He pre rest Hl Hr. rewrite len_app in Hr. pose proof (len_nonneg cs).
  rewrite (run_call _ _ _ _ _ (Hm pre rest Hl ltac:(lia))). cbn [Z.eqb negb].
  rewrite (assoc_L (++) pre), <-len_app. rewrite He by (rewrite <-?Hl; llia). f_equal. f_equal. f_equal.
  - rewrite <-!(assoc_L (++)). by rewrite drop_drop, length_app.
  - rewrite !len_app. lia.
Qed.

Lemma file_bytes_len f : len (file_bytes f) = 11 + len (f_data f).
Proof. unfold file_bytes. rewrite !len_app, settings_len, !len_cons, len_nil. lia. Qed.

(** An array from a position on. *)
Lemma seqZ_next i (n : nat) : seqZ i (Z.of_nat (S n)) = i :: seqZ (i + 1) (Z.of_nat n).
Proof. rewrite seqZ_cons by lia. unfold Z.succ. do 2 f_equal. lia. Qed.

Lemma emits_files a out_max : image_app_ok a → ∀ n i, 0 <= i → i + Z.of_nat n <= a_file_count a →
  emits 4 out_max (write_files n i out_max a) (mjoin (file_bytes <$> (file_at a <$> seqZ i (Z.of_nat n)))).
Proof.
  intros Ha. pose proof (ia_file_count a Ha) as Hfc. induction n as [|n IH]; intros i Hi Hn; [by apply emits_ret|].
  rewrite seqZ_next. cbn [fmap list_fmap]. rewrite mjoin_cons. cbn [write_files].
  destruct (view_file_ok a i Ha ltac:(lia)) as (Hf & Eid & Efs & El & d & Ed & Edd & Hdl).
  specialize (IH (i + 1) ltac:(lia) ltac:(lia)). set (f := file_at a i) in *.
  enough (emits 4 out_max (put (f_id f) ;; puts (desfire_write_file_settings (f_settings f)) 8 ;;
    put (lo8 (len (f_data f))) ;; put (hi8 (len (f_data f))) ;;
    (if 0 <? len (f_data f) then d ← lift (ld (a_file_data a) i); puts d (len (f_data f)) else mret tt) ;;
    write_files n (i + 1) out_max a) (file_bytes f ++ mjoin (file_bytes <$> (file_at a <$> seqZ (i + 1) (Z.of_nat n))))) as He.
  { intros pre rest Hl Hr. rewrite <-(He pre rest Hl Hr).
    pose proof (len_nonneg (mjoin (file_bytes <$> (file_at a <$> seqZ (i + 1) (Z.of_nat n))))).
    rewrite len_app, file_bytes_len in Hr. rewrite len_app in Hl.
    rewrite El, run_lift_Some, run_gets. cbn [snd].
    rewrite (proj2 (Z.ltb_ge _ _)) by lia. rewrite (proj2 (Z.ltb_ge _ _)) by apply Hf.
    by rewrite Eid, Efs, !run_lift_Some. }
  unfold file_bytes at 1. rewrite <-!(assoc_L (++)).
  apply (emits_writes 4 out_max _ [f_id f]); [done|apply writes_put|].
  apply (emits_writes 4 out_max _ (desfire_write_file_settings (f_settings f))); [done|apply writes_all, eq_sym, settings_len|].
  apply (emits_writes 4 out_max _ [_]); [done|apply writes_put|]. apply (emits_writes 4 out_max _ [_]); [done|apply writes_put|].
  apply emits_writes; [done| |done].
  destruct (Z.ltb_spec 0 (len (f_data f))) as [Hp|Hp].
  - assert (writes (puts d (len (f_data f))) (f_data f)) as Hw.
    { pose proof (writes_puts d (len (f_data f)) ltac:(lia)) as Hw. by rewrite <-Edd in Hw. }
    rewrite Ed. intros p r Hpr. rewrite run_lift_Some. by apply Hw.
  - assert (f_data f = []) as -> by (apply nil_length_inv; pose proof (len_nonneg (f_data f)); unfold len in *; lia).
    apply writes_ret.
Qed.

Lemma app_bytes_len p : application_ok p → 
  len (app_bytes p) = 6 + len (p_keys p) * 16 + len (mjoin (file_bytes <$> p_files p)).
Proof.
  intros []. unfold app_bytes. rewrite !len_app, !len_cons, len_nil, (proj1 po_id0).
  rewrite (mjoin_len (p_keys p) 16); [unfold DESFIRE_APP_ID_SIZE; lia|].
  eapply Forall_impl; [|done]. by intros ? [].
Qed.

Lemma emits_apps d out_max : image_ok d → ∀ n i, 0 <= i → i + Z.of_nat n <= d_app_count d →
  emits 4 out_max (write_apps n i out_max d)
    (mjoin (app_bytes <$> (view_app <$> take n (drop (Z.to_nat i) (d_apps d))))).
Proof.
  intros Hd. pose proof (io_app_count d Hd) as Hc. destruct (io_apps d Hd) as [Hl Ha].
  induction n as [|n IH]; intros i Hi Hn; [by apply emits_ret|]. cbn [write_apps].
  destruct (ld_Some (d_apps d) i) as [a Ea]; [lia|]. pose proof (ld_Some_inv _ _ _ Ea) as [_ Ea'].
  rewrite (drop_S _ _ _ Ea'). cbn [take fmap list_fmap]. rewrite mjoin_cons.
  replace (S (Z.to_nat i)) with (Z.to_nat (i + 1)) by lia. specialize (IH (i + 1) ltac:(lia) ltac:(lia)).
  pose proof (Forall_lookup_1 _ _ _ _ Ha Ea') as Hia. pose proof (view_app_ok a Hia) as Hp. pose proof Hia as [].
  pose proof (app_bytes_len _ Hp) as Hal.
  set (later := mjoin (app_bytes <$> (view_app <$> take n (drop (Z.to_nat (i + 1)) (d_apps d))))) in *.
  assert (len (p_keys (view_app a)) = a_key_count a) as Hk by (cbn; destruct ia_keys0; unfold DESFIRE_MAX_KEYS in *; llia).
  assert (len (p_files (view_app a)) = a_file_count a) as Hf by (cbn; rewrite len_fmap; unfold len; rewrite length_seqZ; lia).
  enough (emits 4 out_max (puts (a_id a) DESFIRE_APP_ID_SIZE ;;
    put (a_key_settings a) ;; put (a_key_count a) ;; put (a_file_count a) ;;
    for_i (Z.to_nat (a_key_count a)) 0 (λ ki, k ← lift (ld (a_keys a) ki); puts k DESFIRE_AES_KEY_SIZE) ;;
    ret ← write_files (Z.to_nat (a_file_count a)) 0 out_max a;
    if negb (ret =? 0) then mret ret else write_apps n (i + 1) out_max d) (app_bytes (view_app a) ++ later)) as He.
  { intros pre rest Hlen Hr. rewrite <-(He pre rest Hlen Hr). pose proof (len_nonneg later).
    pose proof (len_nonneg (mjoin (file_bytes <$> p_files (view_app a)))). rewrite len_app, Hal, Hk in Hr.
    rewrite Ea, run_lift_Some, !(proj2 (Z.ltb_ge _ _)) by lia. rewrite run_gets. cbn [snd].
    rewrite (proj2 (Z.ltb_ge _ _)) by (unfold DESFIRE_AES_KEY_SIZE; rewrite len_app in Hlen; lia). done. }
  unfold app_bytes. rewrite Hk, Hf, <-!(assoc_L (++)). cbn [app].
  apply emits_writes; [done|apply writes_all; by destruct ia_id0|].
  do 3 (apply (emits_writes 4 out_max _ [_]); [done|apply writes_put|]).
  apply emits_writes; [done|apply writes_strings; [by eapply Forall_impl; [|apply ia_keys0]; intros ? []|destruct ia_keys0; lia]|].
  apply emits_then; [done| |done]. cbn [p_files view_app].
  pose proof (emits_files a out_max Hia (Z.to_nat (a_file_count a)) 0 ltac:(lia) ltac:(lia)) as He. by rewrite Z2Nat.id in He by lia.
Qed.

(** *** Reading *)

Lemma replicate_Z {A} (x : A) k : 0 < k → replicate (Z.to_nat k) x = x :: replicate (Z.to_nat (k - 1)) x.
Proof. intros Hk. replace (Z.to_nat k) with (S (Z.to_nat (k - 1))) by lia. done. Qed.

Lemma zeros_Z k : 0 < k → zeros k = 0 :: zeros (k - 1).
Proof. apply replicate_Z. Qed.

(** Storing the next file of an application. *)
Lemma files_snoc fs f a : len fs < CONFIG_NFC_DESFIRE_MAX_FILES_PER_APP →
  let b := files_of fs a in
  ld (a_file_settings b) (len fs) = Some settings_zero ∧
  ld (a_file_data b) (len fs) = Some (zeros CONFIG_NFC_DESFIRE_MAX_FILE_SIZE) ∧
  ∃ ids fss lens dat, st (a_file_ids b) (len fs) (f_id f) = Some ids ∧
    st (a_file_settings b) (len fs) (f_settings f) = Some fss ∧
    st (a_file_data_len b) (len fs) (len (f_data f)) = Some lens ∧
    st (a_file_data b) (len fs) (pad_file (f_data f)) = Some dat ∧
    (f_data f = [] → dat = a_file_data b) ∧
    with_files ids fss lens dat a = files_of (fs ++ [f]) a.
Proof.
  intros Hl b. set (k := CONFIG_NFC_DESFIRE_MAX_FILES_PER_APP - len fs).
  assert (CONFIG_NFC_DESFIRE_MAX_FILES_PER_APP - len (fs ++ [f]) = k - 1) as Hk by (rewrite len_app, len_cons, len_nil; lia).
  unfold b, files_of. cbn [a_file_ids a_file_settings a_file_data_len a_file_data with_files]. fold k.
  rewrite !(zeros_Z k), !(replicate_Z _ k) by lia.
  split; [by apply ld_mid; rewrite len_fmap|]. split; [by apply ld_mid; rewrite len_fmap|].
  rewrite !st_mid by (by rewrite len_fmap). eexists _, _, _, _. do 4 (split; [done|]). split.
  - intros ->. unfold pad_file. rewrite len_nil, Z.sub_0_r. done.
  - rewrite Hk. rewrite !fmap_app, <-!(assoc_L (++)). done.
Qed.

Lemma run_get_len {B} inp off l (k : Z → M Z B) : ahead inp off l → (gets Datatypes.id ≫= k) off = k (len inp - len l) off.
Proof. intros Ha. rewrite run_gets. pose proof (ahead_len _ _ _ Ha). unfold Datatypes.id. do 2 f_equal. lia. Qed.

Lemma read_file_step inp a0 fs f l off n : ahead inp off (file_bytes f ++ l) → file_ok f → (f_data f ≠ [] ∨ l ≠ []) →
  len fs < CONFIG_NFC_DESFIRE_MAX_FILES_PER_APP →
  read_files inp (len inp) (S n) (len fs) (files_of fs a0) off =
  read_files inp (len inp) n (len fs + 1) (files_of (fs ++ [stored_file f]) a0) (off + len (file_bytes f)).
Proof.
  intros Ha Hf Hne Hl. cbn [read_files].
  destruct (files_snoc fs (stored_file f) a0 Hl) as (Ez & Ed & ids & fss & lens & dat & E1 & E2 & E3 & E4 & E5 & E6).
  rewrite (run_get_len _ _ _ _ Ha). pose proof (len_nonneg (f_data f)). pose proof (len_nonneg l).
  assert (1 <= len (f_data f) + len l) as Hlen.
  { destruct Hne as [Hne|Hne]; [destruct (f_data f)|destruct l]; try done; rewrite len_cons;
      pose proof (len_nonneg l); [pose proof (len_nonneg l0)|]; lia. }
  rewrite (proj2 (Z.ltb_ge _ _)) by (rewrite len_app, file_bytes_len; lia).
  unfold file_bytes in Ha. rewrite <-!(assoc_L (++)) in Ha. cbn [app] in Ha. rget Ha.
  change (f_id f) with (f_id (stored_file f)). rewrite E1, run_lift_Some, run_gets, Ez, run_lift_Some. unfold Datatypes.id.
  rewrite (read_settings _ _ _ _ (fo_settings _ Hf) Ha), run_lift_Some.
  change (stored_settings (f_settings f)) with (f_settings (stored_file f)). rewrite E2, run_lift_Some, run_modify.
  apply ahead_app in Ha as [Ha _]. rewrite settings_len in Ha. rget Ha. rget Ha.
  pose proof (fo_len _ Hf). pose proof desfire_max_file_size_range.
  rewrite le16_split by lia. rewrite (proj2 (Z.ltb_ge _ _)) by lia.
  rewrite (run_get_len _ _ _ _ Ha), (proj2 (Z.ltb_ge _ _)) by (rewrite len_app; lia).
  change (a_file_data_len (with_files _ _ (a_file_data_len ?b) _ _)) with (a_file_data_len b).
  change (f_data f) with (f_data (stored_file f)) in *. cbn [a_file_data_len a_file_data a_file_ids a_file_settings with_files].
  rewrite E3, run_lift_Some.
  assert (∀ m, m = off + len (file_bytes f) →
    read_files inp (len inp) n (len fs + 1) (with_files ids fss lens dat (files_of fs a0)) m =
    read_files inp (len inp) n (len fs + 1) (files_of (fs ++ [stored_file f]) a0) (off + len (file_bytes f))) as Hend
    by (intros m ->; by rewrite <-E6).
  pose proof (file_bytes_len f) as Hfl. change (f_data f) with (f_data (stored_file f)) in Hfl.
  destruct (Z.ltb_spec 0 (len (f_data (stored_file f)))) as [Hp|Hp].
  - rewrite Ed, run_bind, run_lift_Some.
    rewrite run_bind, (run_read_into _ _ _ _ (f_data (stored_file f)) l) by (try done; rewrite len_zeros; lia).
    replace (f_data (stored_file f) ++ drop _ _) with (pad_file (f_data (stored_file f))).
    2: { unfold pad_file, zeros. rewrite drop_replicate. do 2 f_equal. unfold len. lia. }
    rewrite E4, run_lift_Some. apply Hend. lia.
  - rewrite run_ret, <-E5. { apply Hend. lia. } apply nil_length_inv. unfold len in Hp. lia.
Qed.

(** The files of an application; the last one has data or something follows it. *)
Lemma read_files_list inp a0 l n : ∀ todo fs off, ahead inp off (mjoin (file_bytes <$> todo) ++ l) → Forall file_ok todo →
  (l ≠ [] ∨ ∀ k f, todo = k ++ [f] → f_data f ≠ []) → len fs + len todo <= CONFIG_NFC_DESFIRE_MAX_FILES_PER_APP →
  read_files inp (len inp) (length todo + n) (len fs) (files_of fs a0) off =
  read_files inp (len inp) n (len fs + len todo) (files_of (fs ++ (stored_file <$> todo)) a0)
    (off + len (mjoin (file_bytes <$> todo))).
Proof.
  induction todo as [|f todo IH]; intros fs off Ha Hok Hne Hl.
  { cbn. by rewrite app_nil_r, !Z.add_0_r. }
  apply Forall_cons_iff in Hok as [Hf Hok]. cbn [fmap list_fmap] in *. rewrite mjoin_cons, <-(assoc_L (++)) in Ha.
  rewrite len_cons in Hl. pose proof (len_nonneg todo). cbn [length Nat.add].
  rewrite (read_file_step _ _ _ f _ _ _ Ha Hf); [|destruct Hne as [Hne|Hne], todo as [|g todo]|lia].
  - apply ahead_app in Ha as [Ha _]. replace (len fs + 1) with (len (fs ++ [stored_file f])) by (rewrite len_app; done).
    rewrite (IH (fs ++ [stored_file f]) _ Ha Hok).
    + rewrite mjoin_cons, !len_app, !len_cons, len_nil, <-(assoc_L (++)), !Z.add_assoc, Z.add_0_r. done.
    + destruct Hne as [|Hne]; [by left|]. right. intros k g ->. by apply (Hne (f :: k)).
    + rewrite len_app, len_cons, len_nil. lia.
  - right. by intros [_ ?]%app_eq_nil.
  - right. by intros [_ ?]%app_eq_nil.
  - left. by apply (Hne []).
  - right. cbn [fmap list_fmap]. rewrite mjoin_cons. unfold file_bytes. by intros.
Qed.

Lemma files_of_nil a : a_file_ids a = a_file_ids application_zero → a_file_settings a = a_file_settings application_zero →
  a_file_data_len a = a_file_data_len application_zero → a_file_data a = a_file_data application_zero → files_of [] a = a.
Proof.
  intros E1 E2 E3 E4. unfold files_of. rewrite len_nil, Z.sub_0_r. cbn [fmap list_fmap app].
  destruct a; cbn in *. subst. done.
Qed.

(** The application before its files are read. *)
Definition app_keyed (p : application) : desfire_application_t :=
  with_keys (p_keys p ++ replicate (Z.to_nat (DESFIRE_MAX_KEYS - len (p_keys p))) (zeros DESFIRE_AES_KEY_SIZE))
    (with_app_header (p_id p) (p_settings p) (len (p_keys p)) (len (p_files p)) application_zero).

Lemma read_app_header inp p l off : ahead inp off (app_bytes p ++ l) → application_ok p →
  let off' := off + 6 + len (p_keys p) * 16 in
  ahead inp off' (mjoin (file_bytes <$> p_files p) ++ l) ∧
  read_app inp (len inp) application_zero off =
  read_files inp (len inp) (length (p_files p)) 0 (files_of [] (app_keyed p)) off'.
Proof.
  intros Ha Hp off'. pose proof (app_bytes_len p Hp) as Hlen. destruct Hp.
  assert (Forall (λ k, len k = 16) (p_keys p)) as Hk by (eapply Forall_impl; [|done]; by intros ? []).
  pose proof (len_nonneg l). pose proof (len_nonneg (mjoin (file_bytes <$> p_files p))). pose proof (len_nonneg (p_keys p)).
  unfold read_app. rewrite (run_get_len _ _ _ _ Ha), (proj2 (Z.ltb_ge _ _)) by (rewrite len_app; lia).
  unfold app_bytes in Ha. rewrite <-!(assoc_L (++)) in Ha. cbn [app] in Ha.
  rewrite (run_read_all _ _ _ _ (p_id p) _ _ Ha) by (done || by rewrite (proj1 po_id0)).
  apply ahead_app in Ha as [Ha _]. rewrite (proj1 po_id0) in Ha. do 3 rget Ha.
  rewrite !(proj2 (Z.ltb_ge _ _)) by done. rewrite (run_get_len _ _ _ _ Ha).
  pose proof (mjoin_len _ _ Hk) as Hkl. unfold DESFIRE_AES_KEY_SIZE. rewrite (proj2 (Z.ltb_ge _ _)) by (rewrite !len_app; lia).
  replace (Z.to_nat (len (p_keys p))) with (length (p_keys p)) by (unfold len; lia).
  rewrite (run_fill _ _ _ _ 16 _ _ Ha); [|done| |change (length (p_keys p) <= 14)%nat; unfold len, DESFIRE_MAX_KEYS in *; lia|done].
  2: { cbn. repeat constructor. }
  apply ahead_app in Ha as [Ha _]. rewrite Hkl in Ha. unfold DESFIRE_APP_ID_SIZE in *.
  replace (off + 3 + 1 + 1 + 1 + len (p_keys p) * 16) with off' in * by lia. split; [done|].
  replace (Z.to_nat (len (p_files p))) with (length (p_files p)) by (unfold len; lia).
  rewrite files_of_nil by done. unfold app_keyed. cbn [a_keys with_app_header application_zero].
  rewrite drop_replicate. replace (_ - _)%nat with (Z.to_nat (DESFIRE_MAX_KEYS - len (p_keys p))); [done|].
  unfold len, DESFIRE_MAX_KEYS. lia.
Qed.

Lemma read_app_ok inp p l off : ahead inp off (app_bytes p ++ l) → application_ok p →
  (l ≠ [] ∨ ∀ k f, p_files p = k ++ [f] → f_data f ≠ []) →
  read_app inp (len inp) application_zero off = Some ((0, app_of (stored_app p)), off + len (app_bytes p)).
Proof.
  intros Ha Hp Hne. destruct (read_app_header _ _ _ _ Ha Hp) as [Hf ->]. pose proof Hp as [].
  rewrite <-(Nat.add_0_r (length (p_files p))). change 0 with (len (@nil file)) at 1.
  rewrite (read_files_list _ _ _ _ _ _ _ Hf) by (done || rewrite len_nil; lia).
  cbn [read_files app]. unfold app_of. cbn [stored_app p_files p_keys p_id p_settings].
  rewrite (app_bytes_len p) by done. rewrite len_fmap, <-!Z.add_assoc. done.
Qed.

(** The last file of an image must have data. *)
Lemma read_app_empty inp p k f off : ahead inp off (app_bytes p) → application_ok p → p_files p = k ++ [f] → f_data f = [] →
  ∃ a off', read_app inp (len inp) application_zero off = Some ((- EBADMSG, a), off').
Proof.
  intros Ha Hp Hk Hf. rewrite <-(app_nil_r (app_bytes p)) in Ha. destruct (read_app_header _ _ _ _ Ha Hp) as [Hr ->].
  destruct Hp. rewrite Hk, fmap_app, <-(app_nil_r (file_bytes <$> [f])) in Hr.
  rewrite Hk in *. apply Forall_app in po_files0 as [Hok [Hfok _]%Forall_cons_iff].
  assert (mjoin ((file_bytes <$> k) ++ (file_bytes <$> [f]) ++ []) ++ [] = mjoin (file_bytes <$> k) ++ file_bytes f) as E
    by (rewrite app_nil_r, !join_app; cbn; by rewrite !app_nil_r).
  rewrite E in Hr. rewrite len_app, len_cons, len_nil in po_file_count0.
  rewrite length_app. change 0 with (len (@nil file)) at 1.
  rewrite (read_files_list _ _ _ _ _ _ _ Hr); [|done|left; unfold file_bytes; by destruct f|rewrite len_nil; lia].
  apply ahead_app in Hr as [Hr _]. cbn [length read_files]. rewrite (run_get_len _ _ _ _ Hr).
  pose proof (file_bytes_len f) as Hl. rewrite Hf, len_nil in Hl. rewrite (proj2 (Z.ltb_lt _ _)) by lia. by eexists _, _.
Qed.

(** The image while its applications are read. *)
Definition apps_of (ps : list application) (d : desfire_data_t) : desfire_data_t :=
  with_apps (d_app_count d)
    ((app_of <$> ps) ++ replicate (Z.to_nat (CONFIG_NFC_DESFIRE_MAX_APPS - len ps)) application_zero) d.

Lemma apps_snoc ps p d : len ps < CONFIG_NFC_DESFIRE_MAX_APPS →
  ld (d_apps (apps_of ps d)) (len ps) = Some application_zero ∧
  ∀ a, ∃ apps, st (d_apps (apps_of ps d)) (len ps) a = Some apps ∧
    (a = app_of p → with_apps (d_app_count d) apps d = apps_of (ps ++ [p]) d).
Proof.
  intros Hl. unfold apps_of. cbn [d_apps with_apps].
  rewrite (replicate_Z _ (CONFIG_NFC_DESFIRE_MAX_APPS - len ps)) by lia.
  split; [apply ld_mid; by rewrite len_fmap|]. intros a. rewrite st_mid by (by rewrite len_fmap).
  eexists. split; [done|]. intros ->. rewrite fmap_app, len_app, <-(assoc_L (++)), len_cons, len_nil. cbn [fmap list_fmap app].
  rewrite Z.add_0_r, Z.sub_add_distr. done.
Qed.

Lemma read_apps_list inp d l n : ∀ todo ps off, ahead inp off (mjoin (app_bytes <$> todo) ++ l) → Forall application_ok todo →
  (l ≠ [] ∨ ∀ qs p k f, todo = qs ++ [p] → p_files p = k ++ [f] → f_data f ≠ []) →
  len ps + len todo <= CONFIG_NFC_DESFIRE_MAX_APPS →
  read_apps inp (len inp) (length todo + n) (len ps) (apps_of ps d) off =
  read_apps inp (len inp) n (len ps + len todo) (apps_of (ps ++ (stored_app <$> todo)) d)
    (off + len (mjoin (app_bytes <$> todo))).
Proof.
  induction todo as [|p todo IH]; intros ps off Ha Hok Hne Hl; [by rewrite app_nil_r, !Z.add_0_r|].
  apply Forall_cons_iff in Hok as [Hp Hok]. cbn [fmap list_fmap] in *. rewrite mjoin_cons, <-(assoc_L (++)) in Ha.
  rewrite len_cons in Hl. pose proof (len_nonneg todo). cbn [length Nat.add read_apps].
  destruct (apps_snoc ps (stored_app p) d ltac:(lia)) as [E Hst]. rewrite E, run_lift_Some.
  assert (mjoin (app_bytes <$> todo) ++ l ≠ [] ∨ ∀ k f, p_files p = k ++ [f] → f_data f ≠ []) as Hne'.
  { destruct Hne as [Hne|Hne]; [left; by intros [_ ?]%app_eq_nil|]. destruct todo as [|q todo].
    - right. intros k f. by apply (Hne []).
    - left. cbn [fmap list_fmap]. rewrite mjoin_cons. unfold app_bytes at 1. rewrite <-!(assoc_L (++)). by intros [_ ?]%app_eq_nil. }
  rewrite (run_call _ _ _ _ _ (read_app_ok _ _ _ _ Ha Hp Hne')).
  destruct (Hst (app_of (stored_app p))) as (apps & -> & Happs). rewrite run_lift_Some. cbn [Z.eqb negb].
  change (with_apps (d_app_count (apps_of ps d)) apps (apps_of ps d)) with (with_apps (d_app_count d) apps d).
  rewrite Happs by done. apply ahead_app in Ha as [Ha _].
  replace (len ps + 1) with (len (ps ++ [stored_app p])) by (rewrite len_app; done).
  rewrite (IH (ps ++ [stored_app p]) _ Ha Hok).
  - rewrite mjoin_cons, !len_app, !len_cons, len_nil, <-(assoc_L (++)), !Z.add_assoc, Z.add_0_r. done.
  - destruct Hne as [|Hne]; [by left|]. right. intros qs q k g -> Hk. by apply (Hne (p :: qs) q k).
  - rewrite len_app, len_cons, len_nil. lia.
Qed.

Lemma header_len c : card_ok c → len (header_bytes c) = 51.
Proof.
  intros []. unfold header_bytes. rewrite !len_app, !len_cons, !len_nil.
  rewrite (proj1 co_hw0), (proj1 co_sw0), (proj1 co_uid0), (proj1 co_batch0), (proj1 co_master0). done.
Qed.

(** The header is read back. *)
Lemma parse_header c l : card_ok c → let inp := header_bytes c ++ l in
  ahead inp 51 l ∧
  desfire_parse inp (len inp) 0 =
  ('(ret, d) ← read_apps inp (len inp) (length (c_apps c)) 0
                 (apps_of [] {| d_hw_version := c_hw c; d_sw_version := c_sw c; d_uid := c_uid c; d_batch := c_batch c;
                                d_prod_week := c_week c; d_prod_year := c_year c; d_free_memory := c_memory c;
                                d_master_key := c_master c; d_master_key_settings := c_master_settings c;
                                d_app_count := len (c_apps c); d_apps := d_apps desfire_zero |});
   if negb (ret =? 0) then mret (ret, d) else
   offset ← gets Datatypes.id;
   mret (if offset =? len inp then 0 else - EBADMSG, d)) 51.
Proof.
  intros Hc inp. pose proof (header_len c Hc) as Hh. destruct Hc.
  destruct co_hw0 as [Lhw _], co_sw0 as [Lsw _], co_uid0 as [Luid _], co_batch0 as [Lb _], co_master0 as [Lm _].
  split. { pose proof (ahead_start inp) as Ha. apply ahead_app in Ha as [Ha _]. by rewrite Hh in Ha. }
  pose proof (ahead_start inp) as Ha. set (N := len inp). subst inp.
  unfold header_bytes in Ha at 2. rewrite <-!(assoc_L (++)) in Ha. cbn [app] in Ha. unfold desfire_parse.
  rget Ha. rewrite Z.eqb_refl. cbn [negb].
  rnext Ha. rnext Ha. rnext Ha. rnext Ha. do 6 rget Ha. rnext Ha. do 2 rget Ha.
  rewrite Lhw, Lsw, Luid, Lb, Lm, le32_split by done. rewrite (proj2 (Z.ltb_ge _ _)) by done.
  replace (Z.to_nat (len (c_apps c))) with (length (c_apps c)) by (unfold len; lia).
  unfold apps_of. change (len []) with 0. rewrite Z.sub_0_r. done.
Qed.

Definition ends_with_data (c : card) : Prop :=
  ∀ ps p k f, c_apps c = ps ++ [p] → p_files p = k ++ [f] → f_data f ≠ [].

Lemma deserialize_ok c d : card_ok c → ends_with_data c →
  desfire_deserialize (Some d) (Some (card_bytes c)) (len (card_bytes c)) = Some (0, Some (card_of (stored_card c))).
Proof.
  intros Hc He. unfold desfire_deserialize, card_bytes.
  destruct (parse_header c (mjoin (app_bytes <$> c_apps c)) Hc) as [Ha ->].
  pose proof (header_len c Hc) as Hh. pose proof (len_nonneg (mjoin (app_bytes <$> c_apps c))).
  rewrite (proj2 (Z.ltb_ge _ _)) by (rewrite len_app; lia).
  rewrite <-(app_nil_r (mjoin _)) in Ha at 2. rewrite <-(Nat.add_0_r (length (c_apps c))).
  pose proof (read_apps_list _ {| d_hw_version := c_hw c; d_sw_version := c_sw c; d_uid := c_uid c; d_batch := c_batch c;
    d_prod_week := c_week c; d_prod_year := c_year c; d_free_memory := c_memory c; d_master_key := c_master c;
    d_master_key_settings := c_master_settings c; d_app_count := len (c_apps c); d_apps := d_apps desfire_zero |}
    [] 0 (c_apps c) [] 51 Ha (co_apps c Hc) (or_intror He) (co_app_count c Hc)) as Hr.
  change (len (@nil application)) with 0 in Hr. cbn [read_apps app] in Hr. rewrite (run_call _ _ _ _ _ Hr). cbn [Z.eqb negb]. rewrite run_gets. unfold Datatypes.id.
  rewrite len_app, Hh, Z.eqb_refl. mred. unfold card_of, apps_of. cbn [stored_card c_apps]. rewrite len_fmap. done.
Qed.

Lemma ends_decided c : ends_with_data c ∨
  ∃ ps p k f, c_apps c = ps ++ [p] ∧ p_files p = k ++ [f] ∧ f_data f = [].
Proof.
  destruct (c_apps c) as [|p ps _] eqn:Ha using rev_ind.
  { left. intros ps p k f. rewrite Ha. by intros ?%app_cons_not_nil. }
  destruct (p_files p) as [|f k _] eqn:Hf using rev_ind.
  { left. intros qs q k f. rewrite Ha. intros [-> [= ->]]%app_inj_tail. rewrite Hf. by intros ?%app_cons_not_nil. }
  destruct (f_data f) as [|x y] eqn:Hd; [right; by exists ps, p, k, f|].
  left. intros qs q m g. rewrite Ha. intros [-> [= ->]]%app_inj_tail. rewrite Hf. intros [-> [= ->]]%app_inj_tail. by rewrite Hd.
Qed.

Lemma deserialize_empty c d ps p k f : card_ok c → c_apps c = ps ++ [p] → p_files p = k ++ [f] → f_data f = [] →
  ∃ d', desfire_deserialize (Some d) (Some (card_bytes c)) (len (card_bytes c)) = Some (- EBADMSG, Some d').
Proof.
  intros Hc Hps Hk Hf. unfold desfire_deserialize, card_bytes.
  destruct (parse_header c (mjoin (app_bytes <$> c_apps c)) Hc) as [Ha ->].
  pose proof (header_len c Hc) as Hh. pose proof (len_nonneg (mjoin (app_bytes <$> c_apps c))).
  rewrite (proj2 (Z.ltb_ge _ _)) by (rewrite len_app; lia).
  pose proof (co_apps c Hc) as Hok. pose proof (co_app_count c Hc) as Hn. set (N := len (c_apps c)) in *.
  set (z := {| d_hw_version := c_hw c |}). subst N. set (inp := header_bytes c ++ _) in *. clearbody z inp.
  rewrite Hps in *. apply Forall_app in Hok as [Hok [Hp _]%Forall_cons_iff]. rewrite length_app.
  assert (mjoin (app_bytes <$> (ps ++ [p])) = mjoin (app_bytes <$> ps) ++ app_bytes p) as E
    by (rewrite fmap_app, join_app; cbn; by rewrite app_nil_r).
  rewrite E in Ha. rewrite len_app, len_cons, len_nil in Hn.
  assert (app_bytes p ≠ []) as Hne.
  { pose proof (app_bytes_len p Hp). pose proof (len_nonneg (p_keys p)).
    pose proof (len_nonneg (mjoin (file_bytes <$> p_files p))). intros Hz. rewrite Hz, len_nil in *. lia. }
  pose proof (read_apps_list inp z (app_bytes p) 1 ps [] 51 Ha Hok (or_introl Hne)) as Hr.
  change (len (@nil application)) with 0 in Hr. rewrite !Z.add_0_l in Hr. specialize (Hr ltac:(lia)).
  apply ahead_app in Ha as [Ha _]. cbn [app read_apps] in Hr. 
  destruct (apps_snoc (stored_app <$> ps) p z) as [Eld Hst]; [rewrite len_fmap; lia|]. rewrite len_fmap in Eld, Hst.
  destruct (read_app_empty _ _ _ _ _ Ha Hp Hk Hf) as (a & off & Hread).
  destruct (Hst a) as (apps & Est & _). rewrite Eld, run_lift_Some, (run_call _ _ _ _ _ Hread), Est, run_lift_Some in Hr.
  cbn [length]. rewrite (run_call _ _ _ _ _ Hr). by eexists.
Qed.

Lemma serialize_ok d out n0 : image_ok d → let blob := card_bytes (view d) in len blob + 4 <= len out →
  desfire_serialize (Some d) (Some out) (len out) (Some n0) =
  Some (0, Some (blob ++ drop (length blob) out), Some (len blob)).
Proof.
  intros Hd blob Hl. pose proof (view_ok d Hd) as Hc. pose proof (header_len _ Hc) as Hh. unfold desfire_serialize.
  pose proof (io_app_count d Hd). destruct (io_apps d Hd) as [Hla _].
  assert (len (c_apps (view d)) = d_app_count d) as Hn by (cbn; rewrite len_fmap; llia).
  assert (emits 4 (len out) (desfire_write_header d ;; write_apps (Z.to_nat (d_app_count d)) 0 (len out) d) blob) as He.
  2: { pose proof (len_nonneg (mjoin (app_bytes <$> c_apps (view d)))).
    rewrite !(proj2 (Z.ltb_ge _ _)) by (unfold blob, card_bytes in Hl; rewrite ?len_app in Hl; lia).
    pose proof (He [] out eq_refl Hl) as Hr. cbn [app] in Hr. change (len []) with 0 in Hr. rewrite Hr. done. }
  pose proof (emits_apps d (len out) Hd (Z.to_nat (d_app_count d)) 0 ltac:(lia) ltac:(lia)) as Hw. rewrite drop_0 in Hw.
  unfold blob, card_bytes. cbn [c_apps view]. apply emits_writes; [done| |exact Hw].
  unfold header_bytes, desfire_write_header. rewrite Hn. cbn [view c_hw c_sw c_uid c_batch c_week c_year c_memory c_master c_master_settings].
  destruct (io_hw d Hd), (io_sw d Hd), (io_uid d Hd), (io_batch d Hd), (io_master d Hd). cbn [app].
  apply (writes_bind _ [_]); [apply writes_put|]. do 4 (apply writes_bind; [by apply writes_all|]).
  do 6 (apply (writes_bind _ [_]); [apply writes_put|]). apply writes_bind; [by apply writes_all|].
  apply (writes_bind _ [_]); apply writes_put.
Qed.

(** *** Images of cards *)

Lemma app_of_file p i f : p_files p !! i = Some f → file_at (app_of p) (Z.of_nat i) = f.
Proof.
  intros Hi. unfold file_at, app_of, files_of.
  cbn [a_file_ids a_file_settings a_file_data_len a_file_data with_files].
  assert (∀ A (g : file → A) r, ld ((g <$> p_files p) ++ r) (Z.of_nat i) = Some (g f)) as Hld.
  { intros A g r. apply ld_eq; [lia|]. rewrite Nat2Z.id. apply lookup_app_l_Some. by rewrite list_lookup_fmap, Hi. }
  rewrite !Hld. cbn. unfold pad_file, len. rewrite Nat2Z.id, take_app_length. by destruct f.
Qed.

Lemma view_app_of p : application_ok p → view_app (app_of p) = p.
Proof.
  intros []. destruct p as [pid ps ks fs]. cbn in *. unfold view_app. cbn [app_of files_of p_id p_settings p_keys p_files].
  f_equal.
  - cbn. unfold len. by rewrite Nat2Z.id, take_app_length.
  - apply list_eq. intros i. rewrite list_lookup_fmap. cbn [a_file_count app_of files_of with_files with_keys with_app_header].
    destruct (fs !! i) as [f|] eqn:Hf.
    + pose proof (lookup_lt_Some _ _ _ Hf). rewrite lookup_seqZ_lt by (cbn; unfold len; lia). cbn [fmap option_fmap option_map].
      rewrite Z.add_0_l. f_equal. by apply (app_of_file {| p_id := pid; p_settings := ps; p_keys := ks; p_files := fs |}).
    + apply lookup_ge_None in Hf. by rewrite lookup_seqZ_ge by (cbn; unfold len; lia).
Qed.

Lemma application_zero_ok : image_app_ok application_zero.
Proof.
  pose proof desfire_max_files_range. pose proof desfire_max_file_size_range. unfold is_byte.
  constructor; cbn; unfold DESFIRE_MAX_KEYS; try (unfold is_byte; lia).
  - split; [done|apply bytes_zeros].
  - split; [done|]. repeat constructor; unfold is_byte; lia.
  - split; [apply len_zeros; lia|apply bytes_zeros].
  - split; [rewrite len_replicate; lia|]. apply Forall_replicate. constructor; unfold is_byte; cbn; lia.
  - split; [apply len_zeros; lia|]. apply Forall_replicate. lia.
  - split; [rewrite len_replicate; lia|]. apply Forall_replicate. split; [apply len_zeros; lia|apply bytes_zeros].
Qed.

Lemma app_of_ok p : application_ok p → image_app_ok (app_of p).
Proof.
  intros []. pose proof application_zero_ok as Hz. destruct Hz. pose proof (len_nonneg (p_keys p)).
  pose proof (len_nonneg (p_files p)). pose proof desfire_max_file_size_range.
  assert (∀ A (P : A → Prop) (g : file → A) z k, Forall (λ f, file_ok f → P (g f)) (p_files p) → P z →
    Forall P ((g <$> p_files p) ++ replicate k z)) as Hall.
  { intros A P g z k Hg Pz. apply Forall_app. split; [|by apply Forall_replicate]. apply Forall_fmap.
    apply Forall_forall. intros f Hf. apply (proj1 (Forall_forall _ _) Hg f Hf), (proj1 (Forall_forall _ _) po_files0 f Hf). }
  assert (∀ P : file → Prop, (∀ f, P f) → Forall P (p_files p)) as Htrue by (intros; by apply Forall_true).
  constructor; cbn -[DESFIRE_MAX_KEYS]; try done; try lia.
  - split; [rewrite len_app, len_replicate; lia|]. apply Forall_app. split; [done|]. apply Forall_replicate.
    split; [done|apply bytes_zeros].
  - split; [unfold zeros; rewrite len_app, len_fmap, len_replicate; lia|]. apply Hall; [|by split].
    apply Htrue. by intros f [].
  - split; [rewrite len_app, len_fmap, len_replicate; lia|]. apply Hall; [|constructor; unfold is_byte; cbn; lia].
    apply Htrue. by intros f [].
  - split; [unfold zeros; rewrite len_app, len_fmap, len_replicate; lia|]. apply Hall; [|lia].
    apply Htrue. intros f []. split; [apply len_nonneg|done].
  - split; [rewrite len_app, len_fmap, len_replicate; lia|].
    apply Hall; [|split; [apply len_zeros; lia|apply bytes_zeros]].
    apply Htrue. intros f []. unfold pad_file. cbn. split; [unfold zeros; rewrite len_app, len_replicate; lia|].
    apply bytes_app. split; [done|apply bytes_zeros].
Qed.

Lemma card_of_ok c : card_ok c → image_ok (card_of c).
Proof.
  intros []. pose proof (len_nonneg (c_apps c)). constructor; cbn; try done.
  split; [rewrite len_app, len_fmap, len_replicate; lia|]. apply Forall_app. split.
  - apply Forall_fmap. eapply Forall_impl; [|done]. intros p Hp. by apply app_of_ok.
  - apply Forall_replicate, application_zero_ok.
Qed.

Lemma view_card_of c : card_ok c → view (card_of c) = c.
Proof.
  intros []. destruct c. unfold view. cbn in *. f_equal. unfold len. rewrite Nat2Z.id.
  rewrite <-(length_fmap app_of) at 1. rewrite take_app_length, <-list_fmap_compose.
  rewrite <-(list_fmap_id c_apps0) at 2. apply list_fmap_ext. intros i p Hp. cbn. apply view_app_of.
  by eapply Forall_lookup_1.
Qed.

Lemma stored_ok c : card_ok c → card_ok (stored_card c).
Proof.
  intros []. constructor; cbn; try done; [|by rewrite len_fmap]. apply Forall_fmap. eapply Forall_impl; [|done].
  intros p []. constructor; cbn; try done; [|by rewrite len_fmap]. apply Forall_fmap. eapply Forall_impl; [|done].
  intros f []. constructor; cbn; try done. destruct fo_settings0. constructor; cbn; try done.
  repeat case_bool; [|done|].
  - pose proof (Z.mod_pos_bound (fs_word0 (f_settings f)) (2 ^ 24) ltac:(lia)). lia.
  - pose proof (Z.mod_pos_bound (fs_word0 (f_settings f)) (2 ^ 16) ltac:(lia)). lia.
Qed.

(** *** Any input *)

Section AnyInput.
Context (inp : list Z) (Hb : bytes inp).

(** Either an early return, or a result with the property and an offset inside the input. *)
Definition parsed {A} (P : A → Prop) (r : Z * A) (off : Z) : Prop :=
  r.1 = - EBADMSG ∨ r.1 = 0 ∧ P r.2 ∧ 0 <= off <= len inp.

Lemma parsed_fail {A} (P : A → Prop) a (off : Z) : ensures (mret (- EBADMSG, a)) off (parsed P).
Proof. apply ensures_ret. by left. Qed.

Lemma ensures_offset {B} (k : Z → M Z B) off R : ensures (k off) off R → ensures (gets Datatypes.id ≫= k) off R.
Proof. done. Qed.

Lemma ensures_read {B} dst n off (k : list Z → M Z B) R : 0 <= off → len dst = n → off + n <= len inp →
  (∀ s, len s = n → bytes s → ensures (k s) (off + n) R) → ensures (read_into inp dst n ≫= k) off R.
Proof.
  intros Ho Hd Hl Hk. pose proof (len_nonneg dst).
  destruct (read_into_inside inp dst n off Hb Ho ltac:(lia) Hl) as (s & Hr & Hs & Hbs).
  unfold ensures. rewrite (run_call _ _ _ _ _ Hr). rewrite drop_ge, app_nil_r by llia. by apply Hk.
Qed.

Lemma settings_total off : 0 <= off → off + 8 <= len inp → ∀ fs, settings_ok fs →
  ∃ fs', desfire_read_file_settings inp off fs = Some fs' ∧ settings_ok fs'.
Proof.
  intros Ho Hl fs []. unfold desfire_read_file_settings.
  assert (∀ k, 0 <= k < 8 → ∃ b, ld inp (off + k) = Some b ∧ is_byte b) as Hld.
  { intros k Hk. destruct (ld_Some inp (off + k) ltac:(lia)) as [b E]. exists b. split; [done|by eapply ld_byte]. }
  destruct (Hld 0 ltac:(lia)) as (t & Et & Bt). destruct (Hld 1 ltac:(lia)) as (c & -> & Bc).
  destruct (Hld 2 ltac:(lia)) as (a0 & -> & Ba0). destruct (Hld 3 ltac:(lia)) as (a1 & -> & Ba1).
  destruct (Hld 4 ltac:(lia)) as (b0 & -> & B0). destruct (Hld 5 ltac:(lia)) as (b1 & -> & B1).
  destruct (Hld 6 ltac:(lia)) as (b2 & -> & B2). destruct (Hld 7 ltac:(lia)) as (b3 & -> & B3).
  rewrite Z.add_0_r in Et. rewrite Et. mred. unfold with_word0, with_common.
  assert (0 <= le16 a0 a1 < 65536) as Hac by apply u16_range.
  assert (Z.lor b0 (Z.shiftl b1 8) = 256 * b1 + b0) as E16
    by (unfold is_byte in *; rewrite Z.lor_comm, lor_shiftl_add by lia; lia).
  repeat case_bool; eexists; (split; [done|]); constructor; cbn [fs_type fs_comm fs_access fs_word0]; try done;
    rewrite ?le24_eq, ?le32_eq, ?E16 by done; unfold is_byte in *; lia.
Qed.

Lemma files_total : ∀ n fi a off, image_app_ok a → 0 <= fi → fi + Z.of_nat n <= CONFIG_NFC_DESFIRE_MAX_FILES_PER_APP →
  0 <= off <= len inp → ensures (read_files inp (len inp) n fi a) off (parsed image_app_ok).
Proof.
  pose proof desfire_max_file_size_range as Hms.
  induction n as [|n IH]; intros fi a off Ha Hfi Hn Ho; [apply ensures_ret; by right|]. cbn [read_files].
  apply ensures_offset. destruct (Z.ltb_spec (len inp) (off + 12)); [apply parsed_fail|].
  apply ensures_get; [done|lia|]. intros fid Hfid. destruct Ha.
  destruct ia_ids0 as [Li Bi]. destruct ia_fs0 as [Lf Of]. destruct ia_lens0 as [Ll Ol]. destruct ia_data0 as [Ld Od].
  unfold ensures. rewrite st_ok, run_lift_Some, run_gets by lia. unfold Datatypes.id.
  destruct (ld_Some (a_file_settings a) fi) as [fs Efs]; [lia|]. rewrite Efs, run_lift_Some.
  pose proof (ld_Some_inv _ _ _ Efs) as [_ Hfs].
  destruct (settings_total (off + 1) ltac:(lia) ltac:(lia) fs (Forall_lookup_1 _ _ _ _ Of Hfs)) as (fs' & -> & Hfs').
  rewrite run_lift_Some, st_ok, run_lift_Some, run_modify by lia.
  cbv beta. apply ensures_get; [done|lia|]. intros l0 Hl0. apply ensures_get; [done|lia|]. intros l1 Hl1. cbv zeta.
  pose proof (le16_eq l0 l1 Hl1 Hl0) as Hdl. set (dl := le16 l0 l1) in *. unfold is_byte in Hl0, Hl1.
  destruct (Z.ltb_spec CONFIG_NFC_DESFIRE_MAX_FILE_SIZE dl); [apply parsed_fail|]. apply ensures_offset.
  destruct (Z.ltb_spec (len inp) (off + 1 + 8 + 1 + 1 + dl)); [apply parsed_fail|].
  cbn [a_file_data_len a_file_data with_files]. unfold ensures. rewrite st_ok, run_lift_Some by lia.
  assert (∀ dat, len dat = CONFIG_NFC_DESFIRE_MAX_FILES_PER_APP →
    Forall (λ l, len l = CONFIG_NFC_DESFIRE_MAX_FILE_SIZE ∧ bytes l) dat →
    image_app_ok (with_files (<[Z.to_nat fi:=fid]> (a_file_ids a)) (<[Z.to_nat fi:=fs']> (a_file_settings a))
      (<[Z.to_nat fi:=dl]> (a_file_data_len a)) dat a)) as Hok.
  { intros dat L O. constructor; cbn; rewrite ?len_insert; try done.
    - split; [done|by apply bytes_insert]. - split; [done|by apply Forall_insert].
    - split; [done|apply Forall_insert; [done|lia]]. }
  destruct (Z.ltb_spec 0 dl).
  - destruct (ld_Some (a_file_data a) fi) as [d Ed]; [lia|]. rewrite Ed, run_bind, run_lift_Some, run_bind.
    apply ld_Some_inv in Ed as [_ Ed]. pose proof (Forall_lookup_1 _ _ _ _ Od Ed) as [Hd Hbd].
    destruct (read_into_inside inp d dl (off + 1 + 8 + 1 + 1) Hb ltac:(lia) ltac:(lia) ltac:(lia)) as (s & Hr & Hs & Hbs).
    rewrite (run_call _ _ _ _ _ Hr), st_ok, run_lift_Some by lia. apply IH; [|lia..].
    apply Hok; [by rewrite len_insert|]. apply Forall_insert; [done|]. split; [llia|]. apply bytes_app. auto with nfc.
  - rewrite run_ret. apply IH; [by apply Hok|lia..].
Qed.

Lemma app_total a off : image_app_ok a → 0 <= off <= len inp →
  ensures (read_app inp (len inp) a) off (parsed image_app_ok).
Proof.
  intros Ha Ho. pose proof Ha as []. destruct ia_id0 as [Lid _], ia_keys0 as [Lkeys Okeys].
  unfold read_app. apply ensures_offset. destruct (Z.ltb_spec (len inp) (off + 6)); [apply parsed_fail|].
  apply ensures_read; [lia|done|unfold DESFIRE_APP_ID_SIZE; lia|]. intros aid Haid Hbaid. unfold DESFIRE_APP_ID_SIZE in *.
  apply ensures_get; [done|lia|]. intros ks Hks. apply ensures_get; [done|lia|]. intros kc Hkc.
  apply ensures_get; [done|lia|]. intros fc Hfc. cbv zeta. unfold is_byte in Hkc, Hfc.
  destruct (Z.ltb_spec DESFIRE_MAX_KEYS kc); [apply parsed_fail|].
  destruct (Z.ltb_spec CONFIG_NFC_DESFIRE_MAX_FILES_PER_APP fc); [apply parsed_fail|]. apply ensures_offset.
  destruct (Z.ltb_spec (len inp) (off + 3 + 1 + 1 + 1 + kc * DESFIRE_AES_KEY_SIZE)); [apply parsed_fail|].
  eapply ensures_bind.
  { apply (ensures_fill inp 16 (λ k, len k = DESFIRE_AES_KEY_SIZE ∧ bytes k)); [done| |done|done| | |].
    - unfold DESFIRE_AES_KEY_SIZE. intros k o [Hk Hbk] Ho' Hl. destruct (read_into_inside inp k 16 o Hb Ho' ltac:(lia) Hl) as (s & Hr & Hs & Hbs).
      exists (s ++ drop (Z.to_nat 16) k), (o + 16). split; [exact Hr|]. split; [|done]. split; [llia|].
      apply bytes_app. auto with nfc.
    - unfold DESFIRE_MAX_KEYS in *. cbn [a_keys with_app_header]. lia.
    - lia. - unfold DESFIRE_AES_KEY_SIZE in *. rewrite Z2Nat.id by lia. lia. }
  intros keys off' (Hkeys & Hlk & -> & _). unfold DESFIRE_AES_KEY_SIZE in *. apply files_total; [|lia..].
  constructor; cbn; try done; first [lia|split; [by rewrite Hlk|done]].
Qed.

Lemma apps_total : ∀ n i d off, Forall image_app_ok (d_apps d) → 0 <= i → i + Z.of_nat n <= len (d_apps d) → 0 <= off <= len inp →
  ensures (read_apps inp (len inp) n i d) off
    (parsed (λ d', ∃ apps, d' = with_apps (d_app_count d) apps d ∧ len apps = len (d_apps d) ∧ Forall image_app_ok apps)).
Proof.
  induction n as [|n IH]; intros i d off Hd Hi Hn Ho; cbn [read_apps].
  { apply ensures_ret. right. split; [done|]. split; [|done]. exists (d_apps d). by destruct d. }
  destruct (ld_Some (d_apps d) i) as [a Ea]; [lia|]. unfold ensures. rewrite Ea, run_lift_Some.
  apply ld_Some_inv in Ea as [_ Ea]. pose proof (Forall_lookup_1 _ _ _ _ Hd Ea) as Ha.
  eapply ensures_bind; [by apply app_total|]. intros [ret b] off' Hr. unfold ensures. rewrite st_ok, run_lift_Some by lia.
  destruct Hr as [Hret|(Hret & Hb' & Ho')]; cbn [fst snd] in *; subst ret; cbn [Z.eqb negb Z.opp EBADMSG].
  { apply parsed_fail. }
  destruct (IH (i + 1) (with_apps (d_app_count d) (<[Z.to_nat i := b]> (d_apps d)) d) off') as (r & o & Hrun & Hq).
  - by apply Forall_insert.
  - lia.
  - cbn. rewrite len_insert. lia.
  - done.
  - exists r, o. split; [exact Hrun|]. destruct Hq as [Hq|(Hq & (apps & E & Hl & Hok) & Ho'')]; [by left|right].
    split; [done|]. split; [|done]. exists apps. split; [done|]. split; [|done]. rewrite Hl. apply len_insert.
Qed.

Lemma desfire_parse_total : 51 <= len inp → ensures (desfire_parse inp (len inp)) 0 (parsed image_ok).
Proof.
  intros Hl. unfold desfire_parse. apply ensures_get; [done|lia|]. intros v _. case_bool; [apply parsed_fail|].
  apply ensures_read; [lia|done|unfold DESFIRE_VERSION_SIZE; lia|]. intros hw Lhw Bhw.
  apply ensures_read; [unfold DESFIRE_VERSION_SIZE; lia|done|unfold DESFIRE_VERSION_SIZE; lia|]. intros sw Lsw Bsw.
  apply ensures_read; [unfold DESFIRE_VERSION_SIZE; lia|done|unfold DESFIRE_VERSION_SIZE, DESFIRE_UID_SIZE; lia|]. intros uid Luid Buid.
  unfold DESFIRE_VERSION_SIZE, DESFIRE_UID_SIZE, DESFIRE_BATCH_SIZE, DESFIRE_AES_KEY_SIZE in *.
  apply ensures_read; [lia|done|lia|]. intros batch Lbatch Bbatch.
  do 6 (apply ensures_get; [done|lia|]; intros ? ?).
  apply ensures_read; [lia|done|lia|]. intros key Lkey Bkey.
  apply ensures_get; [done|lia|]. intros mks Hmks. apply ensures_get; [done|lia|]. intros n Hn. cbv zeta.
  destruct (Z.ltb_spec CONFIG_NFC_DESFIRE_MAX_APPS n) as [|Hle]; [apply parsed_fail|]. unfold is_byte in Hn.
  set (d := Build_desfire_data_t hw _ _ _ _ _ _ _ _ _ _).
  assert (len (d_apps d) = CONFIG_NFC_DESFIRE_MAX_APPS) as Hla by (cbn; rewrite len_replicate; lia).
  eapply ensures_bind.
  { apply (apps_total _ _ d); [apply Forall_replicate, application_zero_ok|lia|lia|lia]. }
  intros [ret d'] off' [Hret|(Hret & (apps & Ed & Hl' & Hok) & Ho)]; cbn [fst snd] in *; subst; cbn [Z.eqb negb Z.opp EBADMSG].
  { apply parsed_fail. }
  apply ensures_offset. destruct (off' =? len inp); [|apply parsed_fail]. apply ensures_ret. right. split; [done|]. split; [|lia].
  cbn [snd]. constructor; cbn; try done; [|lia|by rewrite Hl'].
  rewrite le32_eq by done. unfold is_byte in *. lia.
Qed.
End AnyInput.

(** Whatever is loaded, no access leaves the input or the image, and an image that is accepted
    has its counts inside its arrays. *)
Lemma desfire_decided inp d : bytes inp →
  ∃ ret d', desfire_deserialize (Some d) (Some inp) (len inp) = Some (ret, Some d') ∧
    (ret = 0 ∨ ret = - EBADMSG) ∧ (ret = 0 → image_ok d').
Proof.
  intros Hb. unfold desfire_deserialize. destruct (Z.ltb_spec (len inp) 51); [by eexists _, _; split_and!; [|right|]|].
  destruct (desfire_parse_total inp Hb ltac:(lia)) as ([ret d'] & off & -> & Hp). mred. exists ret, d'. split; [done|].
  destruct Hp as [Hp|(Hp & Hok & _)]; cbn [fst snd] in *; subst ret; [|by split; [left|]]. by split; [right|].
Qed.

(** A stored DESFIRE card is read back: the persistent form of an image is the encoding of
    the card it holds, and loading it gives an image that holds that card again, except for what
    the form has no room for: the third and fourth byte of a record size, and the members of the
    settings that are not the size. But a card whose last application ends in a file without
    data cannot be loaded. *)
Theorem desfire_codec d out n0 d0 : image_ok d → let blob := card_bytes (view d) in len blob + 4 <= len out →
  desfire_serialize (Some d) (Some out) (len out) (Some n0) =
    Some (0, Some (blob ++ drop (length blob) out), Some (len blob)) ∧
  (ends_with_data (view d) →
    ∃ d', desfire_deserialize (Some d0) (Some blob) (len blob) = Some (0, Some d') ∧ image_ok d' ∧
      view d' = stored_card (view d)) ∧
  (∀ ps p k f, c_apps (view d) = ps ++ [p] → p_files p = k ++ [f] → f_data f = [] →
    ∃ d', desfire_deserialize (Some d0) (Some blob) (len blob) = Some (- EBADMSG, Some d')).
Proof.
  intros Hd blob Hl. pose proof (view_ok d Hd) as Hc. split; [by apply serialize_ok|]. split.
  - intros He. eexists. split; [by apply deserialize_ok|]. pose proof (stored_ok _ Hc).
    split; [by apply card_of_ok|by apply view_card_of].
  - intros ps p k f Hps Hk Hf. by apply (deserialize_empty _ d0 ps p k f).
Qed.
End DesfireFacts.
