(* ===== verification/DesfireListener.v ===== *)
(** * DESFire listener ([src/nfc/protocols/desfire/desfire_listener.c])

    A DESFire card as the reader sees it: the native commands in ISO 7816-4 frames.  The second
    half states what a card answers, as a function of the abstract card and of the session, and
    proves that the listener does that. *)

From stdpp Require Import base list numbers option.
From S2P Require Import Prelude Kconfig Apdu Service Serial Stack Desfire.

Definition DESFIRE_CLA_NATIVE : Z := 0x90.
Definition DESFIRE_CMD_GET_VERSION : Z := 0x60.
Definition DESFIRE_CMD_GET_FREE_MEMORY : Z := 0x6E.
Definition DESFIRE_CMD_GET_KEY_SETTINGS : Z := 0x45.
Definition DESFIRE_CMD_GET_KEY_VERSION : Z := 0x64.
Definition DESFIRE_CMD_GET_APPLICATION_IDS : Z := 0x6A.
Definition DESFIRE_CMD_SELECT_APPLICATION : Z := 0x5A.
Definition DESFIRE_CMD_GET_FILE_IDS : Z := 0x6F.
Definition DESFIRE_CMD_GET_FILE_SETTINGS : Z := 0xF5.
Definition DESFIRE_CMD_READ_DATA : Z := 0xBD.
Definition DESFIRE_CMD_GET_VALUE : Z := 0x6C.
Definition DESFIRE_CMD_READ_RECORDS : Z := 0xBB.
Definition DESFIRE_CMD_AUTHENTICATE_AES : Z := 0xAA.
Definition DESFIRE_CMD_AUTH_EV2_FIRST : Z := 0x71.
Definition DESFIRE_CMD_ADDITIONAL_FRAME : Z := 0xAF.

Definition DESFIRE_SW1 : Z := 0x91.
Definition DESFIRE_STATUS_OK : Z := 0x00.
Definition DESFIRE_STATUS_ILLEGAL_CMD : Z := 0x1C.
Definition DESFIRE_STATUS_LENGTH_ERROR : Z := 0x7E.
Definition DESFIRE_STATUS_NO_SUCH_KEY : Z := 0x40.
Definition DESFIRE_STATUS_PERMISSION_DENIED : Z := 0x9D.
Definition DESFIRE_STATUS_BOUNDARY_ERROR : Z := 0xBE.
Definition DESFIRE_STATUS_AUTH_ERROR : Z := 0xAE.
Definition DESFIRE_STATUS_ADDITIONAL_FRAME : Z := 0xAF.
Definition DESFIRE_STATUS_APP_NOT_FOUND : Z := 0xA0.
Definition DESFIRE_STATUS_FILE_NOT_FOUND : Z := 0xF0.
Definition DESFIRE_VERSION_TOTAL_BYTES : Z := 28.

(** ** State *)

Inductive desfire_auth_state_t :=
  | DESFIRE_AUTH_STATE_IDLE | DESFIRE_AUTH_STATE_STEP1 | DESFIRE_AUTH_STATE_STEP2
  | DESFIRE_AUTH_STATE_AUTHENTICATED.
#[global] Instance desfire_auth_eq_dec : EqDecision desfire_auth_state_t.
Proof. solve_decision. Defined.

Inductive desfire_pending_cmd_t :=
  | DESFIRE_PENDING_NONE | DESFIRE_PENDING_GET_VERSION | DESFIRE_PENDING_READ_DATA
  | DESFIRE_PENDING_READ_RECORDS.
#[global] Instance desfire_pending_eq_dec : EqDecision desfire_pending_cmd_t.
Proof. solve_decision. Defined.

(** The static variables of the file, and what was given to [nfc_transport_send_response]. *)
Record df_state := {
  l_model : desfire_data_t;
  l_initialized : bool;
  l_auth_state : desfire_auth_state_t;
  l_selected_app : Z;
  l_pending_cmd : desfire_pending_cmd_t;
  l_pending_frame : Z;
  l_pending_file_id : Z;
  l_pending_offset : Z;
  l_version_buf : list Z;
  l_resp_buf : list Z;
  l_sent : list (list Z);
}.

Definition with_model (m : desfire_data_t) (i : bool) (s : df_state) : df_state :=
  {| l_model := m; l_initialized := i; l_auth_state := l_auth_state s; l_selected_app := l_selected_app s;
     l_pending_cmd := l_pending_cmd s; l_pending_frame := l_pending_frame s;
     l_pending_file_id := l_pending_file_id s; l_pending_offset := l_pending_offset s;
     l_version_buf := l_version_buf s; l_resp_buf := l_resp_buf s; l_sent := l_sent s |}.
Definition with_session (a : desfire_auth_state_t) (app : Z) (c : desfire_pending_cmd_t) (f : Z) (s : df_state) : df_state :=
  {| l_model := l_model s; l_initialized := l_initialized s; l_auth_state := a; l_selected_app := app;
     l_pending_cmd := c; l_pending_frame := f;
     l_pending_file_id := l_pending_file_id s; l_pending_offset := l_pending_offset s;
     l_version_buf := l_version_buf s; l_resp_buf := l_resp_buf s; l_sent := l_sent s |}.
Definition with_pending (c : desfire_pending_cmd_t) (f : Z) (s : df_state) : df_state :=
  with_session (l_auth_state s) (l_selected_app s) c f s.
Definition with_position (id off : Z) (s : df_state) : df_state :=
  {| l_model := l_model s; l_initialized := l_initialized s; l_auth_state := l_auth_state s;
     l_selected_app := l_selected_app s; l_pending_cmd := l_pending_cmd s; l_pending_frame := l_pending_frame s;
     l_pending_file_id := id; l_pending_offset := off;
     l_version_buf := l_version_buf s; l_resp_buf := l_resp_buf s; l_sent := l_sent s |}.
Definition with_buffers (v r : list Z) (sent : list (list Z)) (s : df_state) : df_state :=
  {| l_model := l_model s; l_initialized := l_initialized s; l_auth_state := l_auth_state s;
     l_selected_app := l_selected_app s; l_pending_cmd := l_pending_cmd s; l_pending_frame := l_pending_frame s;
     l_pending_file_id := l_pending_file_id s; l_pending_offset := l_pending_offset s;
     l_version_buf := v; l_resp_buf := r; l_sent := sent |}.

(** The conversion to [int8_t]. *)
Definition i8 (z : Z) : Z := (z + 128) mod 256 - 128.

(** ** The handlers *)

Section DesfireListener.
Context `{Kconfig}.

Definition desfire_listener_session_reset : M df_state unit :=
  modify (with_session DESFIRE_AUTH_STATE_IDLE (-1) DESFIRE_PENDING_NONE 0).

(** [s_resp_buf[i] = v], [memcpy(&s_resp_buf[off], &src[soff], n)] and
    [nfc_transport_send_response(s_resp_buf, n)] *)
Definition resp_set (i v : Z) : M df_state unit :=
  s ← gets id; r ← lift (st (l_resp_buf s) i v); modify (with_buffers (l_version_buf s) r (l_sent s)).
Definition resp_copy (off : Z) (src : list Z) (soff n : Z) : M df_state unit :=
  s ← gets id; r ← lift (memcpy (l_resp_buf s) off src soff n); modify (with_buffers (l_version_buf s) r (l_sent s)).
Definition resp_send (n : Z) : M df_state unit :=
  s ← gets id; d ← lift (sub (l_resp_buf s) 0 n); modify (with_buffers (l_version_buf s) (l_resp_buf s) (l_sent s ++ [d])).

Definition desfire_listener_send_status (sw2 : Z) : M df_state unit :=
  resp_set 0 DESFIRE_SW1 ;; resp_set 1 sw2 ;; resp_send 2.

(** [data] is [&src[soff]]. *)
Definition desfire_listener_send_data_status (src : list Z) (soff data_len sw2 : Z) : M df_state unit :=
  if NFC_TRANSPORT_MAX_RESPONSE_LEN - 2 <? data_len then desfire_listener_send_status DESFIRE_STATUS_LENGTH_ERROR else
  (if 0 <? data_len then resp_copy 0 src soff data_len else mret tt) ;;
  resp_set data_len DESFIRE_SW1 ;; resp_set (data_len + 1) sw2 ;; resp_send (data_len + 2).

Definition desfire_listener_selected_app : M df_state (option desfire_application_t) :=
  s ← gets id;
  if (l_selected_app s <? 0) || (i8 (d_app_count (l_model s)) <=? l_selected_app s) then mret None else
  a ← lift (ld (d_apps (l_model s)) (l_selected_app s)); mret (Some a).

(** [n] more turns of the loop from [i] on; the result is [*idx_out], if it is set. *)
Fixpoint find_file_loop (n : nat) (i : Z) (ids : list Z) (file_id : Z) : option (option Z) :=
  match n with
  | O => Some None
  | S n => x ← ld ids i; if x =? file_id then Some (Some i) else find_file_loop n (i + 1) ids file_id
  end.
Definition desfire_listener_find_file (app : desfire_application_t) (file_id : Z) : option (Z * option Z) :=
  r ← find_file_loop (Z.to_nat (a_file_count app)) 0 (a_file_ids app) file_id;
  Some (match r with Some _ => (0, r) | None => (- ENOENT, None) end).

Fixpoint any_set (n : nat) (i : Z) (key : list Z) : option bool :=
  match n with
  | O => Some false
  | S n => k ← ld key i; if negb (k =? 0) then Some true else any_set n (i + 1) key
  end.
Definition desfire_listener_has_master_key : M df_state bool :=
  s ← gets id; lift (any_set (Z.to_nat DESFIRE_AES_KEY_SIZE) 0 (d_master_key (l_model s))).

Definition desfire_listener_cmd_get_version : M df_state unit :=
  s ← gets id;
  (if negb (bool_decide (l_pending_cmd s = DESFIRE_PENDING_GET_VERSION)) then
     v ← lift (desfire_build_version_bytes (Some (l_model s)) (Some (l_version_buf s)));
     v ← lift v;
     modify (with_buffers v (l_resp_buf s) (l_sent s)) ;;
     modify (with_pending DESFIRE_PENDING_GET_VERSION 0)
   else mret tt) ;;
  s ← gets id;
  let '(chunk_len, sw2) :=
    if l_pending_frame s =? 0 then (7, DESFIRE_STATUS_ADDITIONAL_FRAME)
    else if l_pending_frame s =? 1 then (7, DESFIRE_STATUS_ADDITIONAL_FRAME)
    else (u8 (DESFIRE_VERSION_TOTAL_BYTES - 14), DESFIRE_STATUS_OK) in
  desfire_listener_send_data_status (l_version_buf s) (l_pending_frame s * 7) chunk_len sw2 ;;
  if sw2 =? DESFIRE_STATUS_OK then modify (with_pending DESFIRE_PENDING_NONE (l_pending_frame s))
  else modify (with_pending DESFIRE_PENDING_GET_VERSION (u8 (l_pending_frame s + 1))).

Definition desfire_listener_cmd_get_free_memory : M df_state unit :=
  s ← gets id;
  let m := d_free_memory (l_model s) in
  desfire_listener_send_data_status [byte_at m 0; byte_at m 1; byte_at m 2; byte_at m 3] 0 4 DESFIRE_STATUS_OK.

Definition desfire_listener_cmd_get_key_settings : M df_state unit :=
  app ← desfire_listener_selected_app;
  s ← gets id;
  let buf := match app with
             | Some a => [a_key_settings a; a_key_count a]
             | None => [d_master_key_settings (l_model s); 0x0F]
             end in
  desfire_listener_send_data_status buf 0 2 DESFIRE_STATUS_OK.

(** [n] more turns of the loop from [i] on: [len] after it, [None] where the function has
    returned. *)
Fixpoint app_ids_loop (n : nat) (i len : Z) : M df_state (option Z) :=
  match n with
  | O => mret (Some len)
  | S n =>
    if NFC_TRANSPORT_MAX_RESPONSE_LEN - 2 <? len + DESFIRE_APP_ID_SIZE then
      desfire_listener_send_status DESFIRE_STATUS_LENGTH_ERROR ;; mret None
    else
      s ← gets id; a ← lift (ld (d_apps (l_model s)) i);
      resp_copy len (a_id a) 0 DESFIRE_APP_ID_SIZE ;;
      app_ids_loop n (i + 1) (len + DESFIRE_APP_ID_SIZE)
  end.
Definition desfire_listener_cmd_get_application_ids : M df_state unit :=
  s ← gets id;
  r ← app_ids_loop (Z.to_nat (d_app_count (l_model s))) 0 0;
  match r with
  | None => mret tt
  | Some len => s ← gets id; desfire_listener_send_data_status (l_resp_buf s) 0 len DESFIRE_STATUS_OK
  end.

Fixpoint file_ids_loop (n : nat) (i len : Z) (app : desfire_application_t) : M df_state (option Z) :=
  match n with
  | O => mret (Some len)
  | S n =>
    if NFC_TRANSPORT_MAX_RESPONSE_LEN - 2 <? len + 1 then
      desfire_listener_send_status DESFIRE_STATUS_LENGTH_ERROR ;; mret None
    else
      x ← lift (ld (a_file_ids app) i); resp_set len x ;; file_ids_loop n (i + 1) (len + 1) app
  end.
Definition desfire_listener_cmd_get_file_ids : M df_state unit :=
  app ← desfire_listener_selected_app;
  match app with
  | None => desfire_listener_send_status DESFIRE_STATUS_APP_NOT_FOUND
  | Some app =>
    r ← file_ids_loop (Z.to_nat (a_file_count app)) 0 0 app;
    match r with
    | None => mret tt
    | Some len => s ← gets id; desfire_listener_send_data_status (l_resp_buf s) 0 len DESFIRE_STATUS_OK
    end
  end.

(** What [buf] holds, if the type is one that is answered. *)
Definition file_settings_reply (fs : desfire_file_settings_t) : option (list Z) :=
  let w := fs_word0 fs in
  let head := [u8 (fs_type fs); u8 (fs_comm fs); lo8 (fs_access fs); hi8 (fs_access fs)] in
  let t := fs_type fs in
  if (t =? DESFIRE_FILE_TYPE_STANDARD) || (t =? DESFIRE_FILE_TYPE_BACKUP) then
    Some (head ++ [byte_at w 0; byte_at w 1; byte_at w 2; 0])
  else if t =? DESFIRE_FILE_TYPE_VALUE then
    Some (head ++ [byte_at w 0; byte_at w 1; byte_at w 2; byte_at w 3])
  else if (t =? DESFIRE_FILE_TYPE_LINEAR_REC) || (t =? DESFIRE_FILE_TYPE_CYCLIC_REC) then
    Some (head ++ [byte_at w 0; byte_at w 1; byte_at w 2; 0])
  else None.

Definition desfire_listener_cmd_get_file_settings (apdu : nfc_apdu_t) : M df_state unit :=
  app ← desfire_listener_selected_app;
  match app with
  | None => desfire_listener_send_status DESFIRE_STATUS_APP_NOT_FOUND
  | Some app =>
    match data apdu with
    | None => desfire_listener_send_status DESFIRE_STATUS_LENGTH_ERROR
    | Some d =>
      if lc apdu <? 1 then desfire_listener_send_status DESFIRE_STATUS_LENGTH_ERROR else
      id ← lift (ld d 0);
      '(ret, idx) ← lift (desfire_listener_find_file app id);
      if negb (ret =? 0) then desfire_listener_send_status DESFIRE_STATUS_FILE_NOT_FOUND else
      idx ← lift idx;
      fs ← lift (ld (a_file_settings app) idx);
      match file_settings_reply fs with
      | None => desfire_listener_send_status DESFIRE_STATUS_ILLEGAL_CMD
      | Some buf => desfire_listener_send_data_status buf 0 8 DESFIRE_STATUS_OK
      end
    end
  end.

Definition desfire_listener_cmd_get_key_version (apdu : nfc_apdu_t) : M df_state unit :=
  match data apdu with
  | None => desfire_listener_send_status DESFIRE_STATUS_LENGTH_ERROR
  | Some d =>
    if lc apdu <? 1 then desfire_listener_send_status DESFIRE_STATUS_LENGTH_ERROR else
    k ← lift (ld d 0);
    if negb (k =? 0) then desfire_listener_send_status DESFIRE_STATUS_NO_SUCH_KEY else
    desfire_listener_send_data_status [0x00] 0 1 DESFIRE_STATUS_OK
  end.

(** [n] more turns of the loop from [i] on: the index of the application. *)
Fixpoint find_app_loop (n : nat) (i : Z) (apps : list desfire_application_t) (aid : list Z) : option (option Z) :=
  match n with
  | O => Some None
  | S n =>
    a ← ld apps i; same ← memcmp_eq aid 0 (a_id a) 0 DESFIRE_APP_ID_SIZE;
    if same : bool then Some (Some i) else find_app_loop n (i + 1) apps aid
  end.
Definition desfire_listener_cmd_select_application (apdu : nfc_apdu_t) : M df_state unit :=
  match data apdu with
  | None => desfire_listener_send_status DESFIRE_STATUS_LENGTH_ERROR
  | Some d =>
    if lc apdu <? DESFIRE_APP_ID_SIZE then desfire_listener_send_status DESFIRE_STATUS_LENGTH_ERROR else
    desfire_listener_session_reset ;;
    s ← gets id;
    r ← lift (find_app_loop (Z.to_nat (d_app_count (l_model s))) 0 (d_apps (l_model s)) d);
    match r with
    | Some i =>
      modify (λ s, with_session (l_auth_state s) (i8 i) (l_pending_cmd s) (l_pending_frame s) s) ;;
      desfire_listener_send_status DESFIRE_STATUS_OK
    | None => desfire_listener_send_status DESFIRE_STATUS_APP_NOT_FOUND
    end
  end.

Definition desfire_listener_check_file_auth (app : desfire_application_t) (file_idx : Z) : M df_state bool :=
  fs ← lift (ld (a_file_settings app) file_idx);
  s ← gets id;
  mret (if negb (fs_comm fs =? DESFIRE_COMM_PLAIN)
        then bool_decide (l_auth_state s = DESFIRE_AUTH_STATE_AUTHENTICATED) else true).

(** The part the two reading commands share: from the position in the command to the answer;
    [mine] is the pending command of the caller. *)
Definition read_range (mine : desfire_pending_cmd_t) (d : list Z) (app : desfire_application_t) (file_idx : Z)
    : M df_state unit :=
  d0 ← lift (ld d 0); d1 ← lift (ld d 1); d2 ← lift (ld d 2); d3 ← lift (ld d 3);
  d4 ← lift (ld d 4); d5 ← lift (ld d 5); d6 ← lift (ld d 6);
  let offset := le24 d1 d2 d3 in
  let length := le24 d4 d5 d6 in
  flen ← lift (ld (a_file_data_len app) file_idx);
  if flen <? u32 (offset + length) then desfire_listener_send_status DESFIRE_STATUS_BOUNDARY_ERROR else
  s ← gets id;
  '(offset, length) ←
    (if bool_decide (l_pending_cmd s = mine) then
       mret (l_pending_offset s, u32 (flen - l_pending_offset s))
     else modify (with_position d0 (u16 offset)) ;; mret (offset, length));
  '(chunk, sw2) ←
    (if NFC_TRANSPORT_MAX_RESPONSE_LEN - 2 <? length then
       let chunk := NFC_TRANSPORT_MAX_RESPONSE_LEN - 2 in
       modify (λ s, with_pending mine (l_pending_frame s) s) ;;
       modify (λ s, with_position (l_pending_file_id s) (u16 (offset + chunk)) s) ;;
       mret (chunk, DESFIRE_STATUS_ADDITIONAL_FRAME)
     else
       modify (λ s, with_pending DESFIRE_PENDING_NONE (l_pending_frame s) s) ;; mret (length, DESFIRE_STATUS_OK));
  file ← lift (ld (a_file_data app) file_idx);
  desfire_listener_send_data_status file offset chunk sw2.

Definition desfire_listener_cmd_read_data (apdu : nfc_apdu_t) : M df_state unit :=
  app ← desfire_listener_selected_app;
  match app with
  | None => desfire_listener_send_status DESFIRE_STATUS_PERMISSION_DENIED
  | Some app =>
    match data apdu with
    | None => desfire_listener_send_status DESFIRE_STATUS_LENGTH_ERROR
    | Some d =>
      if lc apdu <? 7 then desfire_listener_send_status DESFIRE_STATUS_LENGTH_ERROR else
      id ← lift (ld d 0);
      '(ret, idx) ← lift (desfire_listener_find_file app id);
      if negb (ret =? 0) then desfire_listener_send_status DESFIRE_STATUS_FILE_NOT_FOUND else
      idx ← lift idx;
      fs ← lift (ld (a_file_settings app) idx);
      s ← gets Datatypes.id;
      if negb (fs_comm fs =? DESFIRE_COMM_PLAIN) &&
         negb (bool_decide (l_auth_state s = DESFIRE_AUTH_STATE_AUTHENTICATED))
      then desfire_listener_send_status DESFIRE_STATUS_AUTH_ERROR else
      read_range DESFIRE_PENDING_READ_DATA d app idx
    end
  end.

Definition desfire_listener_cmd_get_value (apdu : nfc_apdu_t) : M df_state unit :=
  app ← desfire_listener_selected_app;
  match app with
  | None => desfire_listener_send_status DESFIRE_STATUS_PERMISSION_DENIED
  | Some app =>
    match data apdu with
    | None => desfire_listener_send_status DESFIRE_STATUS_LENGTH_ERROR
    | Some d =>
      if lc apdu <? 1 then desfire_listener_send_status DESFIRE_STATUS_LENGTH_ERROR else
      id ← lift (ld d 0);
      '(ret, idx) ← lift (desfire_listener_find_file app id);
      if negb (ret =? 0) then desfire_listener_send_status DESFIRE_STATUS_FILE_NOT_FOUND else
      idx ← lift idx;
      fs ← lift (ld (a_file_settings app) idx);
      if negb (fs_type fs =? DESFIRE_FILE_TYPE_VALUE) then desfire_listener_send_status DESFIRE_STATUS_ILLEGAL_CMD else
      auth ← desfire_listener_check_file_auth app idx;
      if negb auth then desfire_listener_send_status DESFIRE_STATUS_AUTH_ERROR else
      flen ← lift (ld (a_file_data_len app) idx);
      if flen <? 4 then desfire_listener_send_status DESFIRE_STATUS_BOUNDARY_ERROR else
      file ← lift (ld (a_file_data app) idx);
      desfire_listener_send_data_status file 0 4 DESFIRE_STATUS_OK
    end
  end.

Definition desfire_listener_cmd_read_records (apdu : nfc_apdu_t) : M df_state unit :=
  app ← desfire_listener_selected_app;
  match app with
  | None => desfire_listener_send_status DESFIRE_STATUS_PERMISSION_DENIED
  | Some app =>
    match data apdu with
    | None => desfire_listener_send_status DESFIRE_STATUS_LENGTH_ERROR
    | Some d =>
      if lc apdu <? 7 then desfire_listener_send_status DESFIRE_STATUS_LENGTH_ERROR else
      id ← lift (ld d 0);
      '(ret, idx) ← lift (desfire_listener_find_file app id);
      if negb (ret =? 0) then desfire_listener_send_status DESFIRE_STATUS_FILE_NOT_FOUND else
      idx ← lift idx;
      fs ← lift (ld (a_file_settings app) idx);
      if negb (fs_type fs =? DESFIRE_FILE_TYPE_LINEAR_REC) && negb (fs_type fs =? DESFIRE_FILE_TYPE_CYCLIC_REC)
      then desfire_listener_send_status DESFIRE_STATUS_ILLEGAL_CMD else
      auth ← desfire_listener_check_file_auth app idx;
      if negb auth then desfire_listener_send_status DESFIRE_STATUS_AUTH_ERROR else
      read_range DESFIRE_PENDING_READ_RECORDS d app idx
    end
  end.

Definition desfire_listener_cmd_authenticate : M df_state unit :=
  has ← desfire_listener_has_master_key;
  if negb has then desfire_listener_send_status DESFIRE_STATUS_AUTH_ERROR else
  modify (λ s, with_session DESFIRE_AUTH_STATE_STEP1 (l_selected_app s) (l_pending_cmd s) (l_pending_frame s) s) ;;
  desfire_listener_send_data_status [0xAA; 0xBB; 0xCC; 0xDD] 0 4 DESFIRE_STATUS_ADDITIONAL_FRAME.

Definition desfire_listener_on_select (aid : list Z) (aid_len : Z) : M df_state unit :=
  desfire_listener_session_reset ;; resp_set 0 0x90 ;; resp_set 1 0x00 ;; resp_send 2.

Definition desfire_listener_on_apdu (apdu : option nfc_apdu_t) : M df_state unit :=
  s ← gets id;
  match apdu with
  | None => desfire_listener_send_status DESFIRE_STATUS_ILLEGAL_CMD
  | Some apdu =>
    if negb (l_initialized s) then desfire_listener_send_status DESFIRE_STATUS_ILLEGAL_CMD else
    if negb (cla apdu =? DESFIRE_CLA_NATIVE) then desfire_listener_send_status DESFIRE_STATUS_ILLEGAL_CMD else
    let cmd := ins apdu in
    if cmd =? DESFIRE_CMD_GET_VERSION then desfire_listener_cmd_get_version
    else if cmd =? DESFIRE_CMD_GET_FREE_MEMORY then desfire_listener_cmd_get_free_memory
    else if cmd =? DESFIRE_CMD_GET_KEY_SETTINGS then desfire_listener_cmd_get_key_settings
    else if cmd =? DESFIRE_CMD_GET_APPLICATION_IDS then desfire_listener_cmd_get_application_ids
    else if cmd =? DESFIRE_CMD_GET_FILE_IDS then desfire_listener_cmd_get_file_ids
    else if cmd =? DESFIRE_CMD_GET_FILE_SETTINGS then desfire_listener_cmd_get_file_settings apdu
    else if cmd =? DESFIRE_CMD_GET_KEY_VERSION then desfire_listener_cmd_get_key_version apdu
    else if cmd =? DESFIRE_CMD_SELECT_APPLICATION then desfire_listener_cmd_select_application apdu
    else if cmd =? DESFIRE_CMD_READ_DATA then desfire_listener_cmd_read_data apdu
    else if cmd =? DESFIRE_CMD_GET_VALUE then desfire_listener_cmd_get_value apdu
    else if cmd =? DESFIRE_CMD_READ_RECORDS then desfire_listener_cmd_read_records apdu
    else if (cmd =? DESFIRE_CMD_AUTHENTICATE_AES) || (cmd =? DESFIRE_CMD_AUTH_EV2_FIRST)
    then desfire_listener_cmd_authenticate
    else if cmd =? DESFIRE_CMD_ADDITIONAL_FRAME then
      match l_pending_cmd s with
      | DESFIRE_PENDING_GET_VERSION => desfire_listener_cmd_get_version
      | DESFIRE_PENDING_READ_DATA => desfire_listener_cmd_read_data apdu
      | DESFIRE_PENDING_READ_RECORDS => desfire_listener_cmd_read_records apdu
      | DESFIRE_PENDING_NONE => desfire_listener_send_status DESFIRE_STATUS_ILLEGAL_CMD
      end
    else desfire_listener_send_status DESFIRE_STATUS_ILLEGAL_CMD
  end.

Definition desfire_listener_on_deselect : M df_state unit := desfire_listener_session_reset.
Definition desfire_listener_on_field_off : M df_state unit := desfire_listener_session_reset.

Definition desfire_listener_serialize (out : option (list Z)) (out_max : Z) (out_len : option Z)
    : M df_state (Z * option (list Z) * option Z) :=
  s ← gets id; lift (desfire_serialize (Some (l_model s)) out out_max out_len).

Definition desfire_listener_deserialize (inp : option (list Z)) (in_len : Z) : M df_state Z :=
  desfire_listener_session_reset ;;
  s ← gets id;
  '(ret, m) ← lift (desfire_deserialize (Some (l_model s)) inp in_len);
  m ← lift m;
  modify (with_model m (l_initialized s)) ;; mret ret.

Definition with_free_memory (v : Z) (d : desfire_data_t) : desfire_data_t :=
  {| d_hw_version := d_hw_version d; d_sw_version := d_sw_version d; d_uid := d_uid d; d_batch := d_batch d;
     d_prod_week := d_prod_week d; d_prod_year := d_prod_year d; d_free_memory := v;
     d_master_key := d_master_key d; d_master_key_settings := d_master_key_settings d;
     d_app_count := d_app_count d; d_apps := d_apps d |}.

Definition desfire_listener_init (model : option desfire_data_t) : M df_state Z :=
  modify (with_model (match model with
                      | Some m => m
                      | None => with_free_memory CONFIG_NFC_DESFIRE_FREE_MEMORY desfire_zero
                      end) true) ;;
  desfire_listener_session_reset ;;
  mret 0.

Definition desfire_listener_shutdown : M df_state Z :=
  desfire_listener_session_reset ;;
  s ← gets id; modify (with_model (l_model s) false) ;; mret 0.
End DesfireListener.

(** ** What a card answers *)

(** The selected application and the next frame of a version that is being read. *)
Record df_session := { ss_app : option Z; ss_frame : option Z }.

Definition df_status (sw2 : Z) : list Z := [DESFIRE_SW1; sw2].
Definition version_bytes (c : card) : list Z := c_hw c ++ c_sw c ++ c_uid c ++ c_batch c ++ [c_week c; c_year c].
Definition version_frame (c : card) (k : Z) : list Z :=
  if k =? 0 then take 7 (version_bytes c) ++ df_status DESFIRE_STATUS_ADDITIONAL_FRAME
  else if k =? 1 then take 7 (drop 7 (version_bytes c)) ++ df_status DESFIRE_STATUS_ADDITIONAL_FRAME
  else drop 14 (version_bytes c) ++ df_status DESFIRE_STATUS_OK.

Definition app_at (c : card) (s : df_session) : option application := i ← ss_app s; ld (c_apps c) i.
Definition find_file (p : application) (id : Z) : option file := List.find (λ f, f_id f =? id) (p_files p).
(** The first application of that identifier and its index. *)
Definition find_app (c : card) (aid : list Z) : option (nat * application) :=
  list_find (λ p, p_id p = aid) (c_apps c).

(** The commands a file command's answers begin with: the selected application, [n] bytes of
    data, the file. *)
Definition on_file (c : card) (s : df_session) (a : nfc_apdu_t) (n no_app : Z) (k : file → list Z * df_session)
    : list Z * df_session :=
  match app_at c s with
  | None => (df_status no_app, s)
  | Some p =>
    if lc a <? n then (df_status DESFIRE_STATUS_LENGTH_ERROR, s) else
    match find_file p (default 0 (ld (default [] (data a)) 0)) with
    | None => (df_status DESFIRE_STATUS_FILE_NOT_FOUND, s)
    | Some f => k f
    end
  end.

(** The range of a file that a command names, for files that can be read in the plain. *)
Definition range_of (a : nfc_apdu_t) : Z * Z :=
  let b i := default 0 (ld (default [] (data a)) i) in (le24 (b 1) (b 2) (b 3), le24 (b 4) (b 5) (b 6)).
Definition read_answer (s : df_session) (a : nfc_apdu_t) (f : file) : list Z * df_session :=
  let '(off, n) := range_of a in
  if negb (fs_comm (f_settings f) =? DESFIRE_COMM_PLAIN) then (df_status DESFIRE_STATUS_AUTH_ERROR, s)
  else if len (f_data f) <? off + n then (df_status DESFIRE_STATUS_BOUNDARY_ERROR, s)
  else (take (Z.to_nat n) (drop (Z.to_nat off) (f_data f)) ++ df_status DESFIRE_STATUS_OK,
        {| ss_app := ss_app s; ss_frame := None |}).

Definition value_answer (s : df_session) (f : file) : list Z * df_session :=
  if negb (fs_type (f_settings f) =? DESFIRE_FILE_TYPE_VALUE) then (df_status DESFIRE_STATUS_ILLEGAL_CMD, s)
  else if negb (fs_comm (f_settings f) =? DESFIRE_COMM_PLAIN) then (df_status DESFIRE_STATUS_AUTH_ERROR, s)
  else if len (f_data f) <? 4 then (df_status DESFIRE_STATUS_BOUNDARY_ERROR, s)
  else (take 4 (f_data f) ++ df_status DESFIRE_STATUS_OK, s).

Definition records_answer (s : df_session) (a : nfc_apdu_t) (f : file) : list Z * df_session :=
  let t := fs_type (f_settings f) in
  if (t =? DESFIRE_FILE_TYPE_LINEAR_REC) || (t =? DESFIRE_FILE_TYPE_CYCLIC_REC) then read_answer s a f
  else (df_status DESFIRE_STATUS_ILLEGAL_CMD, s).

Definition version_answer (c : card) (s : df_session) : list Z * df_session :=
  let k := default 0 (ss_frame s) in
  (version_frame c k,
   {| ss_app := ss_app s; ss_frame := if (k =? 0) || (k =? 1) then Some (k + 1) else None |}).

(** The answer to a command and the session after it. *)
Definition df_answer (c : card) (s : df_session) (a : nfc_apdu_t) : list Z * df_session :=
  let cmd := ins a in
  let ok bs := (bs ++ df_status DESFIRE_STATUS_OK, s) in
  if negb (cla a =? DESFIRE_CLA_NATIVE) then (df_status DESFIRE_STATUS_ILLEGAL_CMD, s)
  else if cmd =? DESFIRE_CMD_GET_VERSION then version_answer c s
  else if cmd =? DESFIRE_CMD_GET_FREE_MEMORY then
    ok [byte_at (c_memory c) 0; byte_at (c_memory c) 1; byte_at (c_memory c) 2; byte_at (c_memory c) 3]
  else if cmd =? DESFIRE_CMD_GET_KEY_SETTINGS then
    ok (match app_at c s with Some p => [p_settings p; len (p_keys p)] | None => [c_master_settings c; 0x0F] end)
  else if cmd =? DESFIRE_CMD_GET_APPLICATION_IDS then ok (mjoin (p_id <$> c_apps c))
  else if cmd =? DESFIRE_CMD_GET_FILE_IDS then
    match app_at c s with
    | Some p => ok (f_id <$> p_files p)
    | None => (df_status DESFIRE_STATUS_APP_NOT_FOUND, s)
    end
  else if cmd =? DESFIRE_CMD_GET_FILE_SETTINGS then
    on_file c s a 1 DESFIRE_STATUS_APP_NOT_FOUND (λ f,
      match file_settings_reply (f_settings f) with
      | Some bs => ok bs
      | None => (df_status DESFIRE_STATUS_ILLEGAL_CMD, s)
      end)
  else if cmd =? DESFIRE_CMD_GET_KEY_VERSION then
    if lc a <? 1 then (df_status DESFIRE_STATUS_LENGTH_ERROR, s)
    else if default 0 (ld (default [] (data a)) 0) =? 0 then ok [0x00]
    else (df_status DESFIRE_STATUS_NO_SUCH_KEY, s)
  else if cmd =? DESFIRE_CMD_SELECT_APPLICATION then
    if lc a <? DESFIRE_APP_ID_SIZE then (df_status DESFIRE_STATUS_LENGTH_ERROR, s)
    else match find_app c (take 3 (default [] (data a))) with
         | Some (i, _) => (df_status DESFIRE_STATUS_OK, {| ss_app := Some (Z.of_nat i); ss_frame := None |})
         | None => (df_status DESFIRE_STATUS_APP_NOT_FOUND, {| ss_app := None; ss_frame := None |})
         end
  else if cmd =? DESFIRE_CMD_READ_DATA then on_file c s a 7 DESFIRE_STATUS_PERMISSION_DENIED (read_answer s a)
  else if cmd =? DESFIRE_CMD_GET_VALUE then on_file c s a 1 DESFIRE_STATUS_PERMISSION_DENIED (value_answer s)
  else if cmd =? DESFIRE_CMD_READ_RECORDS then on_file c s a 7 DESFIRE_STATUS_PERMISSION_DENIED (records_answer s a)
  else if (cmd =? DESFIRE_CMD_AUTHENTICATE_AES) || (cmd =? DESFIRE_CMD_AUTH_EV2_FIRST) then
    (if existsb (λ b, negb (b =? 0)) (c_master c) then [0xAA; 0xBB; 0xCC; 0xDD] ++ df_status DESFIRE_STATUS_ADDITIONAL_FRAME
     else df_status DESFIRE_STATUS_AUTH_ERROR, s)
  else if cmd =? DESFIRE_CMD_ADDITIONAL_FRAME then
    match ss_frame s with Some _ => version_answer c s | None => (df_status DESFIRE_STATUS_ILLEGAL_CMD, s) end
  else (df_status DESFIRE_STATUS_ILLEGAL_CMD, s).

(** Reading commands whose answer fits one response: by what the reader asks for, or by the size
    of the files. *)
Definition one_response (c : card) (a : nfc_apdu_t) : Prop :=
  (range_of a).2 <= NFC_TRANSPORT_MAX_RESPONSE_LEN - 2 ∨
  Forall (λ p, Forall (λ f, len (f_data f) <= NFC_TRANSPORT_MAX_RESPONSE_LEN - 2) (p_files p)) (c_apps c).

Section DesfireListenerFacts.
Context `{KconfigRanges}.

Definition session_of (s : df_state) : df_session :=
  {| ss_app := if l_selected_app s <? 0 then None else Some (l_selected_app s);
     ss_frame := if bool_decide (l_pending_cmd s = DESFIRE_PENDING_GET_VERSION) then Some (l_pending_frame s) else None |}.

(** A listener that is not in the middle of a long read. *)
Record df_ok (s : df_state) : Prop := {
  dk_model : image_ok (l_model s);
  dk_auth : l_auth_state s ≠ DESFIRE_AUTH_STATE_AUTHENTICATED;
  dk_selected : -1 <= l_selected_app s < 128;
  dk_pending : l_pending_cmd s = DESFIRE_PENDING_NONE ∨
    l_pending_cmd s = DESFIRE_PENDING_GET_VERSION ∧ 0 <= l_pending_frame s <= 2 ∧
    l_version_buf s = version_bytes (view (l_model s));
  dk_version_buf : len (l_version_buf s) = 28;
  dk_resp : len (l_resp_buf s) = NFC_TRANSPORT_MAX_RESPONSE_LEN;
}.

Record did (s s' : df_state) (reply : list Z) (ss : df_session) : Prop := {
  di_model : l_model s' = l_model s;
  di_initialized : l_initialized s' = l_initialized s;
  di_sent : l_sent s' = l_sent s ++ [reply];
  di_session : session_of s' = ss;
  di_ok : df_ok s';
}.

(** *** Sending *)

Lemma did_send s r reply : df_ok s → len r = NFC_TRANSPORT_MAX_RESPONSE_LEN →
  did s (with_buffers (l_version_buf s) r (l_sent s ++ [reply]) s) reply (session_of s).
Proof. intros [] Hr. by constructor. Qed.

Definition sends (m : M df_state unit) (s : df_state) (reply : list Z) : Prop :=
  ∃ r, len r = NFC_TRANSPORT_MAX_RESPONSE_LEN ∧
    m s = Some (tt, with_buffers (l_version_buf s) r (l_sent s ++ [reply]) s).

Lemma two_bytes_sends s x y : len (l_resp_buf s) = NFC_TRANSPORT_MAX_RESPONSE_LEN →
  sends (resp_set 0 x ;; resp_set 1 y ;; resp_send 2) s [x; y].
Proof.
  unfold NFC_TRANSPORT_MAX_RESPONSE_LEN. intros Hl. unfold sends, resp_set, resp_send.
  destruct (l_resp_buf s) as [|a [|b r]] eqn:E; [done|rewrite len_cons in Hl; discriminate|].
  exists (x :: y :: r). split; [by rewrite !len_cons in *|].
  rewrite run_bind, run_gets. cbn [id]. rewrite E, (st_mid [] a (b :: r)), run_bind, run_lift_Some, run_modify by done.
  rewrite run_bind, run_gets. cbn [id l_resp_buf with_buffers app].
  rewrite (st_mid [x] b r), run_bind, run_lift_Some, run_modify by done.
  rewrite run_gets. cbn [id l_resp_buf with_buffers app]. rewrite (sub_prefix [x; y] r), run_lift_Some by done. done.
Qed.

Lemma send_status_sends s sw : len (l_resp_buf s) = NFC_TRANSPORT_MAX_RESPONSE_LEN →
  sends (desfire_listener_send_status sw) s (df_status sw).
Proof. apply two_bytes_sends. Qed.

Lemma send_data_sends s src soff n sw : len (l_resp_buf s) = NFC_TRANSPORT_MAX_RESPONSE_LEN →
  0 <= n <= NFC_TRANSPORT_MAX_RESPONSE_LEN - 2 → 0 <= soff → soff + n <= len src →
  sends (desfire_listener_send_data_status src soff n sw) s (take (Z.to_nat n) (drop (Z.to_nat soff) src) ++ df_status sw).
Proof.
  unfold NFC_TRANSPORT_MAX_RESPONSE_LEN. intros Hl Hn Hs Hsn. unfold sends, desfire_listener_send_data_status.
  rewrite (proj2 (Z.ltb_ge _ _)) by (unfold NFC_TRANSPORT_MAX_RESPONSE_LEN; lia).
  set (bs := take (Z.to_nat n) (drop (Z.to_nat soff) src)).
  assert (len bs = n) as Hbs by (unfold bs; llia).
  set (rest := drop (Z.to_nat n) (l_resp_buf s)). assert (len rest = 255 - n) as Hrest by (unfold rest; llia).
  assert ((if 0 <? n then resp_copy 0 src soff n else mret tt) s =
    Some (tt, with_buffers (l_version_buf s) (bs ++ rest) (l_sent s) s)) as Hcopy.
  { destruct (Z.ltb_spec 0 n) as [Hp|Hp].
    - unfold resp_copy. rewrite run_gets. unfold id. rewrite memcpy_ok by lia. fold bs. rewrite blit_ok by lia.
      rewrite run_lift_Some. change (Z.to_nat 0) with 0%nat. rewrite take_0, Z.add_0_l, Hbs. done.
    - assert (n = 0) as En by lia. unfold rest, bs. rewrite En. change (Z.to_nat 0) with 0%nat. rewrite take_0, drop_0. by destruct s. }
  rewrite (run_call _ _ _ _ _ Hcopy). clearbody rest bs. destruct rest as [|x [|y rest]]; [llia|rewrite len_cons, len_nil in Hrest; lia|].
  exists (bs ++ DESFIRE_SW1 :: sw :: rest). split; [rewrite !len_cons in Hrest; rewrite len_app, !len_cons; unfold NFC_TRANSPORT_MAX_RESPONSE_LEN; lia|].
  unfold resp_set, resp_send. rewrite run_bind, run_gets. unfold id. cbn [l_resp_buf with_buffers].
  rewrite (st_mid bs) by done. rewrite run_bind, run_lift_Some, run_modify.
  rewrite run_bind, run_gets. unfold id. cbn [l_resp_buf with_buffers].
  rewrite (app_assoc bs [DESFIRE_SW1] (y :: rest) : bs ++ DESFIRE_SW1 :: y :: rest = (bs ++ [DESFIRE_SW1]) ++ y :: rest).
  rewrite (st_mid (bs ++ [DESFIRE_SW1])) by (rewrite len_app, len_cons, len_nil; lia).
  rewrite run_bind, run_lift_Some, run_modify, run_gets. unfold id. cbn [l_resp_buf with_buffers].
  replace ((bs ++ [DESFIRE_SW1]) ++ sw :: rest) with ((bs ++ df_status sw) ++ rest) by (unfold df_status; by rewrite <-!(assoc_L (++))).
  rewrite sub_prefix by (unfold df_status; rewrite len_app, !len_cons, len_nil; lia). rewrite run_lift_Some.
  unfold df_status. by rewrite <-!(assoc_L (++)).
Qed.

Lemma send_all_sends s bs n sw : len (l_resp_buf s) = NFC_TRANSPORT_MAX_RESPONSE_LEN →
  n = len bs → n <= NFC_TRANSPORT_MAX_RESPONSE_LEN - 2 →
  sends (desfire_listener_send_data_status bs 0 n sw) s (bs ++ df_status sw).
Proof.
  intros Hl -> Hn. pose proof (len_nonneg bs). pose proof (send_data_sends s bs 0 (len bs) sw Hl) as Hs.
  change (Z.to_nat 0) with 0%nat in Hs. rewrite drop_0, take_ge in Hs by llia. apply Hs; lia.
Qed.

(** A branch that answers and changes nothing. *)
Lemma sends_did m s reply : df_ok s → sends m s reply → ∃ s', m s = Some (tt, s') ∧ did s s' reply (session_of s).
Proof. intros Hs (r & Hr & ->). eexists. split; [done|]. by apply did_send. Qed.

Lemma status_did s sw : df_ok s → ∃ s', desfire_listener_send_status sw s = Some (tt, s') ∧ did s s' (df_status sw) (session_of s).
Proof. intros Hs. by apply sends_did, send_status_sends; [..|apply Hs]. Qed.

Lemma data_did s bs n sw : df_ok s → n = len bs → n <= NFC_TRANSPORT_MAX_RESPONSE_LEN - 2 →
  ∃ s', desfire_listener_send_data_status bs 0 n sw s = Some (tt, s') ∧ did s s' (bs ++ df_status sw) (session_of s).
Proof. intros Hs Hn Hl. apply sends_did; [done|]. by apply send_all_sends; [apply Hs|..]. Qed.

(** *** Looking up *)

Lemma view_count d : image_ok d → len (c_apps (view d)) = d_app_count d ∧ 0 <= d_app_count d <= 4 ∧ i8 (d_app_count d) = d_app_count d.
Proof.
  intros Hd. pose proof desfire_max_apps_range. pose proof (io_app_count d Hd). destruct (io_apps d Hd) as [Hl _].
  cbn. rewrite len_fmap, len_take. split; [lia|]. split; [lia|].
  unfold i8. rewrite Z.mod_small by lia. lia.
Qed.

Lemma view_app_ld d i : image_ok d → 0 <= i < d_app_count d →
  ∃ a, ld (d_apps d) i = Some a ∧ image_app_ok a ∧ ld (c_apps (view d)) i = Some (view_app a).
Proof.
  intros Hd Hi. pose proof (io_app_count d Hd). destruct (io_apps d Hd) as [Hl Ho]. destruct (ld_Some (d_apps d) i) as [a Ea]; [lia|]. exists a. split; [done|].
  apply ld_Some_inv in Ea as [_ Ea]. split; [by eapply Forall_lookup_1|]. apply ld_eq; [lia|].
  cbn. rewrite list_lookup_fmap, lookup_take_lt by lia. by rewrite Ea.
Qed.

(** The selected application, as the code and as the specification see it. *)
Lemma selected_run s : df_ok s →
  ∃ o, desfire_listener_selected_app s = Some (o, s) ∧
    app_at (view (l_model s)) (session_of s) = view_app <$> o ∧ match o with Some a => image_app_ok a | None => True end.
Proof.
  intros Hs. destruct (view_count _ (dk_model s Hs)) as (Hc & Hr & Hi8). unfold desfire_listener_selected_app, app_at, session_of.
  cbn [ss_app]. rewrite run_gets. unfold id. rewrite Hi8. pose proof (dk_selected s Hs).
  destruct (Z.ltb_spec (l_selected_app s) 0); cbn [orb].
  { by exists None. }
  destruct (Z.leb_spec (d_app_count (l_model s)) (l_selected_app s)) as [Hle|Hlt].
  - exists None. split; [done|]. split; [|done]. mred.
    destruct (ld _ _) eqn:E; [|done]. apply ld_Some_inv in E. lia.
  - destruct (view_app_ld _ (l_selected_app s) (dk_model s Hs) ltac:(lia)) as (a & Ea & Ha & Ev). exists (Some a).
    rewrite Ea. split; [done|]. split; [by mred|done].
Qed.

Lemma find_loop_spec a : image_app_ok a → ∀ n i id, 0 <= i → i + Z.of_nat n <= a_file_count a →
  match List.find (λ f, f_id f =? id) (file_at a <$> seqZ i (Z.of_nat n)) with
  | Some f => ∃ j, find_file_loop n i (a_file_ids a) id = Some (Some j) ∧ i <= j < i + Z.of_nat n ∧ file_at a j = f
  | None => find_file_loop n i (a_file_ids a) id = Some None
  end.
Proof.
  intros Ha. pose proof (ia_file_count a Ha). induction n as [|n IH]; intros i id Hi Hn; [done|].
  rewrite seqZ_next. cbn [fmap list_fmap List.find find_file_loop].
  destruct (view_file_ok a i Ha ltac:(lia)) as (_ & Eid & _). rewrite Eid. mred.
  destruct (f_id (file_at a i) =? id).
  - exists i. split; [done|]. split; [lia|done].
  - specialize (IH (i + 1) id ltac:(lia) ltac:(lia)). change (list_fmap Z file (file_at a)) with (@fmap list _ Z file (file_at a)).
    destruct (List.find _ _); [|done]. destruct IH as (j & Hj & Hr & Hf). exists j. split; [done|]. split; [lia|done].
Qed.

(** A file by its identifier, as the code and as the specification see it. *)
Lemma find_file_spec a id : image_app_ok a →
  match find_file (view_app a) id with
  | Some f => ∃ j, desfire_listener_find_file a id = Some (0, Some j) ∧ 0 <= j < CONFIG_NFC_DESFIRE_MAX_FILES_PER_APP ∧ file_at a j = f
  | None => desfire_listener_find_file a id = Some (- ENOENT, None)
  end.
Proof.
  intros Ha. unfold find_file, desfire_listener_find_file. cbn [p_files view_app]. pose proof (ia_file_count a Ha) as Hc.
  pose proof (find_loop_spec a Ha (Z.to_nat (a_file_count a)) 0 id ltac:(lia) ltac:(lia)) as Hf.
  rewrite Z2Nat.id in Hf by lia. destruct (List.find _ _) as [f|].
  - destruct Hf as (j & -> & Hj & <-). exists j. split; [done|]. split; [lia|done].
  - by rewrite Hf.
Qed.

(** *** The commands *)

Definition outcome (m : M df_state unit) (s : df_state) (ans : list Z * df_session) : Prop :=
  ∃ s', m s = Some (tt, s') ∧ did s s' ans.1 ans.2.

Lemma version_bytes_run d v : image_ok d → len v = 28 →
  desfire_build_version_bytes (Some d) (Some v) = Some (Some (version_bytes (view d))).
Proof.
  intros [[Lh _] [Ls _] [Lu _] [Lb _] _ _ _ _ _ _] Hv. unfold desfire_build_version_bytes, version_bytes.
  cbn [c_hw c_sw c_uid c_batch c_week c_year view].
  unfold DESFIRE_VERSION_SIZE, DESFIRE_UID_SIZE, DESFIRE_BATCH_SIZE in *. zadds.
  destruct (len_split v 7 ltac:(lia)) as (v1 & w1 & -> & L1). rewrite len_app in Hv.
  destruct (len_split w1 7 ltac:(lia)) as (v2 & w2 & -> & L2). rewrite len_app in Hv.
  destruct (len_split w2 7 ltac:(lia)) as (v3 & w3 & -> & L3). rewrite len_app in Hv.
  destruct (len_split w3 5 ltac:(lia)) as (v4 & w4 & -> & L4). rewrite len_app in Hv.
  destruct w4 as [|x [|y [|z w4]]]; rewrite ?len_cons, ?len_nil in Hv; [lia|lia| |pose proof (len_nonneg w4); lia].
  set (h := d_hw_version d) in *. set (w := d_sw_version d) in *. set (u := d_uid d) in *. set (b := d_batch d) in *.
  pose proof (blit_app_mid [] v1 (v2 ++ v3 ++ v4 ++ [x; y]) h 0 eq_refl ltac:(lia)) as B1. cbn [app] in B1.
  rewrite memcpy_all, B1 by lia. mred.
  rewrite memcpy_all, (blit_app_mid h v2) by lia. mred.
  rewrite memcpy_all by lia. rewrite (app_assoc h w), (blit_app_mid (h ++ w) v3) by (rewrite ?len_app; lia). mred.
  rewrite memcpy_all by lia. rewrite (app_assoc (h ++ w) u), (blit_app_mid ((h ++ w) ++ u) v4) by (rewrite ?len_app; lia). mred.
  rewrite (app_assoc ((h ++ w) ++ u) b), (st_mid (((h ++ w) ++ u) ++ b) x) by (rewrite !len_app; lia). mred.
  rewrite (app_assoc (((h ++ w) ++ u) ++ b) [d_prod_week d] [y] : (((h ++ w) ++ u) ++ b) ++ d_prod_week d :: [y] = ((((h ++ w) ++ u) ++ b) ++ [d_prod_week d]) ++ y :: []).
  rewrite st_mid by (rewrite !len_app, len_cons, len_nil; lia). mred. by rewrite <-!(assoc_L (++)).
Qed.

Lemma version_len c : card_ok c → len (version_bytes c) = 28.
Proof.
  intros [[Lh _] [Ls _] [Lu _] [Lb _] _ _ _ _ _ _]. unfold version_bytes.
  unfold DESFIRE_VERSION_SIZE, DESFIRE_UID_SIZE, DESFIRE_BATCH_SIZE in *.
  rewrite !len_app, Lh, Ls, Lu, Lb. done.
Qed.

Lemma get_version_outcome s : df_ok s →
  outcome desfire_listener_cmd_get_version s (version_answer (view (l_model s)) (session_of s)).
Proof.
  intros Hs. pose proof (version_len _ (view_ok _ (dk_model s Hs))) as Hv.
  unfold desfire_listener_cmd_get_version. unfold outcome. rewrite run_gets. unfold id.
  set (k := default 0 (ss_frame (session_of s))).
  set (vb := version_bytes (view (l_model s))) in *.
  set (s1 := with_pending DESFIRE_PENDING_GET_VERSION k (with_buffers vb (l_resp_buf s) (l_sent s) s)).
  assert ((if negb (bool_decide (l_pending_cmd s = DESFIRE_PENDING_GET_VERSION)) then
     v ← lift (desfire_build_version_bytes (Some (l_model s)) (Some (l_version_buf s)));
     v ← lift v;
     modify (with_buffers v (l_resp_buf s) (l_sent s)) ;; modify (with_pending DESFIRE_PENDING_GET_VERSION 0)
   else mret tt) s = Some (tt, s1)) as Hrun.
  { pose proof (dk_pending s Hs) as Hp. unfold s1, k, vb, session_of. cbn [ss_frame].
    destruct (bool_decide_reflect (l_pending_cmd s = DESFIRE_PENDING_GET_VERSION)) as [E|E]; cbn [negb default].
    - destruct Hp as [Hp|(_ & _ & Hb)]; [congruence|]. rewrite <-Hb. unfold with_pending. destruct s. cbn in *. by rewrite E.
    - by rewrite (version_bytes_run _ _ (dk_model s Hs) (dk_version_buf s Hs)). }
  assert (0 <= k <= 2) as Hk.
  { pose proof (dk_pending s Hs) as Hp. unfold k, session_of. cbn [ss_frame]. case_bool; cbn [default]; [|lia].
    bool_prop. destruct Hp as [Hp|(_ & Hp & _)]; [congruence|done]. }
  assert (len (l_resp_buf s1) = NFC_TRANSPORT_MAX_RESPONSE_LEN) as Hrb by apply Hs.
  rewrite (run_call _ _ _ _ _ Hrun), run_gets. unfold id. change (l_pending_frame s1) with k. change (l_version_buf s1) with vb.
  assert (∀ r f (more : bool), len r = NFC_TRANSPORT_MAX_RESPONSE_LEN → (more = true → 0 <= f <= 2) →
    did s (with_pending (if more then DESFIRE_PENDING_GET_VERSION else DESFIRE_PENDING_NONE) f
      (with_buffers vb r (l_sent s ++ [version_frame (view (l_model s)) k]) s1))
      (version_frame (view (l_model s)) k)
      {| ss_app := ss_app (session_of s); ss_frame := if more then Some f else None |}) as Hdid.
  { intros r f more Hr Hf. destruct Hs. constructor; try done; [by destruct more|]. constructor; try done.
    destruct more; [right|by left]. split; [done|]. split; [by apply Hf|done]. }
  unfold version_answer. fold k. cbn [fst snd]. unfold version_frame at 1 in Hdid. fold vb in Hdid.
  assert (k = 0 ∨ k = 1 ∨ k = 2) as [E|[E|E]] by lia; rewrite E in Hdid |- *; cbn [Z.eqb Pos.eqb orb Z.add Pos.add] in Hdid |- *.
  - destruct (send_data_sends s1 vb (0 * 7) 7 DESFIRE_STATUS_ADDITIONAL_FRAME Hrb) as (r & Hr & Hsend);
      [unfold NFC_TRANSPORT_MAX_RESPONSE_LEN; lia|lia|lia|]. rewrite (run_call _ _ _ _ _ Hsend). eexists. split; [done|].
    rewrite drop_0. by apply (Hdid r 1 true).
  - destruct (send_data_sends s1 vb (1 * 7) 7 DESFIRE_STATUS_ADDITIONAL_FRAME Hrb) as (r & Hr & Hsend);
      [unfold NFC_TRANSPORT_MAX_RESPONSE_LEN; lia|lia|lia|]. rewrite (run_call _ _ _ _ _ Hsend). eexists. split; [done|].
    by apply (Hdid r 2 true).
  - change (u8 (DESFIRE_VERSION_TOTAL_BYTES - 14)) with 14.
    destruct (send_data_sends s1 vb (2 * 7) 14 DESFIRE_STATUS_OK Hrb) as (r & Hr & Hsend);
      [unfold NFC_TRANSPORT_MAX_RESPONSE_LEN; lia|lia|lia|]. rewrite (run_call _ _ _ _ _ Hsend). eexists. split; [done|].
    rewrite take_ge by llia. by apply (Hdid r 2 false).
Qed.

Lemma outcome_status s sw : df_ok s → outcome (desfire_listener_send_status sw) s (df_status sw, session_of s).
Proof. apply status_did. Qed.

Lemma outcome_data s bs n sw : df_ok s → n = len bs → n <= NFC_TRANSPORT_MAX_RESPONSE_LEN - 2 →
  outcome (desfire_listener_send_data_status bs 0 n sw) s (bs ++ df_status sw, session_of s).
Proof. apply data_did. Qed.

(** [oget]: a read of the state at the head of an outcome. *)
Lemma outcome_gets {A} (f : df_state → A) k s ans : outcome (k (f s)) s ans → outcome (gets f ≫= k) s ans.
Proof. done. Qed.
Lemma outcome_lift {A} (o : option A) a k s ans : o = Some a → outcome (k a) s ans → outcome (lift o ≫= k) s ans.
Proof. by intros ->. Qed.

Lemma key_settings_outcome s : df_ok s →
  outcome desfire_listener_cmd_get_key_settings s
    ((match app_at (view (l_model s)) (session_of s) with
      | Some p => [p_settings p; len (p_keys p)] | None => [c_master_settings (view (l_model s)); 0x0F] end)
     ++ df_status DESFIRE_STATUS_OK, session_of s).
Proof.
  intros Hs. unfold desfire_listener_cmd_get_key_settings, outcome.
  destruct (selected_run s Hs) as (o & Hsel & -> & Ho). rewrite (run_call _ _ _ _ _ Hsel), run_gets. destruct o as [a|]; cbn [fmap option_fmap option_map].
  - assert (len (p_keys (view_app a)) = a_key_count a) as ->.
    { cbn. pose proof (ia_key_count a Ho). destruct (ia_keys a Ho). llia. }
    by apply outcome_data.
  - by apply outcome_data.
Qed.

(** The loops that collect identifiers in the response buffer. *)
Lemma app_ids_loop_run s : df_ok s → ∀ n i pre rest, l_resp_buf s = pre ++ rest → len pre = i * 3 → 0 <= i →
  i + Z.of_nat n <= d_app_count (l_model s) →
  ∃ rest', app_ids_loop n i (len pre) s =
    Some (Some (len pre + Z.of_nat n * 3),
      with_buffers (l_version_buf s) (pre ++ mjoin (p_id <$> take n (drop (Z.to_nat i) (c_apps (view (l_model s))))) ++ rest') (l_sent s) s) ∧
    len rest' = len rest - Z.of_nat n * 3.
Proof.
  intros Hs n. revert s Hs. pose proof desfire_max_apps_range as Hmax.
  induction n as [|n IH]; intros s Hs i pre rest Hr Hl Hi Hn; cbn [app_ids_loop].
  { exists rest. split; [|lia].
    transitivity (Some (Some (len pre + 0), with_buffers (l_version_buf s) (pre ++ rest) (l_sent s) s)); [|done].
    rewrite <-Hr, Z.add_0_r. by destruct s. }
  pose proof (io_app_count _ (dk_model s Hs)). pose proof (dk_resp s Hs) as Hlr. rewrite Hr, len_app in Hlr.
  unfold NFC_TRANSPORT_MAX_RESPONSE_LEN, DESFIRE_APP_ID_SIZE in *. rewrite (proj2 (Z.ltb_ge _ _)) by lia.
  destruct (view_app_ld _ i (dk_model s Hs) ltac:(lia)) as (a & Ea & Ha & Ev).
  rewrite run_gets. unfold id. rewrite Ea, run_lift_Some. unfold resp_copy. rewrite run_bind, run_gets. unfold id.
  destruct (ia_id a Ha) as [Lid _]. unfold DESFIRE_APP_ID_SIZE in Lid.
  destruct (len_split rest 3 ltac:(lia)) as (r1 & r2 & -> & L1). rewrite Hr, memcpy_all, (blit_app_mid pre r1) by lia.
  rewrite run_bind, run_lift_Some, run_modify. rewrite len_app in Hlr.
  apply ld_Some_inv in Ev as [_ Ev]. rewrite (drop_S _ _ _ Ev). cbn [take]. rewrite fmap_cons, mjoin_cons.
  replace (S (Z.to_nat i)) with (Z.to_nat (i + 1)) by lia.
  set (s1 := with_buffers (l_version_buf s) (pre ++ a_id a ++ r2) (l_sent s) s).
  assert (df_ok s1) as Hs1 by (destruct Hs; constructor; try done; cbn; unfold NFC_TRANSPORT_MAX_RESPONSE_LEN; rewrite !len_app; lia).
  destruct (IH s1 Hs1 (i + 1) (pre ++ a_id a) r2) as (rest' & Hrun & Hl'); [by rewrite <-(assoc_L (++))|rewrite len_app; lia|lia|cbn; lia|].
  replace (len pre + 3) with (len (pre ++ a_id a)) by (rewrite len_app; lia). exists rest'.
  rewrite Hrun. cbn [l_version_buf l_resp_buf l_sent l_model s1 with_buffers]. split; [|rewrite len_app; lia].
  rewrite <-!(assoc_L (++)). cbn [p_id view_app]. rewrite len_app. do 3 f_equal. lia.
Qed.

Lemma send_own s pre rest sw : df_ok s → len pre <= NFC_TRANSPORT_MAX_RESPONSE_LEN - 2 →
  len (pre ++ rest) = NFC_TRANSPORT_MAX_RESPONSE_LEN →
  ∃ s', (s ← gets (λ s, s); desfire_listener_send_data_status (l_resp_buf s) 0 (len pre) sw)
      (with_buffers (l_version_buf s) (pre ++ rest) (l_sent s) s) = Some (tt, s') ∧
    did s s' (pre ++ df_status sw) (session_of s).
Proof.
  intros Hs Hl Hb. rewrite run_gets. cbn [l_resp_buf with_buffers]. pose proof (len_nonneg pre).
  set (s1 := with_buffers _ _ _ _).
  destruct (send_data_sends s1 (pre ++ rest) 0 (len pre) sw) as (r & Hr & Hsend);
    [done|lia|lia|rewrite Hb; unfold NFC_TRANSPORT_MAX_RESPONSE_LEN in *; lia|].
  eexists. split; [exact Hsend|]. rewrite drop_0. unfold len at 1. rewrite Nat2Z.id, take_app_length.
  by apply (did_send s r).
Qed.

Lemma application_ids_outcome s : df_ok s →
  outcome desfire_listener_cmd_get_application_ids s
    (mjoin (p_id <$> c_apps (view (l_model s))) ++ df_status DESFIRE_STATUS_OK, session_of s).
Proof.
  intros Hs. destruct (view_count _ (dk_model s Hs)) as (Hc & Hn & _). unfold desfire_listener_cmd_get_application_ids, outcome.
  rewrite run_gets. unfold id.
  destruct (app_ids_loop_run s Hs (Z.to_nat (d_app_count (l_model s))) 0 [] (l_resp_buf s) eq_refl) as (rest & Hrun & Hl); [done|done|lia|].
  change (len []) with 0 in Hrun. rewrite (run_call _ _ _ _ _ Hrun). rewrite Z.add_0_l, drop_0, take_ge by (unfold len in Hc; lia). cbn [app].
  set (ids := mjoin _). assert (len ids = d_app_count (l_model s) * 3) as Hids.
  { unfold ids. rewrite (mjoin_len _ 3), len_fmap; [lia|]. apply Forall_fmap. eapply Forall_impl; [|apply (co_apps _ (view_ok _ (dk_model s Hs)))].
    by intros p [[? _] ? ? ? ? ?]. }
  rewrite Z2Nat.id, <-Hids in * by lia. pose proof (dk_resp s Hs) as Hr. unfold NFC_TRANSPORT_MAX_RESPONSE_LEN in *.
  apply send_own; [done|unfold NFC_TRANSPORT_MAX_RESPONSE_LEN; lia|]. rewrite len_app. unfold NFC_TRANSPORT_MAX_RESPONSE_LEN. lia.
Qed.

Lemma file_ids_loop_run a : image_app_ok a → ∀ n s i pre rest, df_ok s → l_resp_buf s = pre ++ rest → len pre = i → 0 <= i →
  i + Z.of_nat n <= a_file_count a →
  ∃ rest', file_ids_loop n i (len pre) a s =
    Some (Some (len pre + Z.of_nat n),
      with_buffers (l_version_buf s) (pre ++ (f_id <$> (file_at a <$> seqZ i (Z.of_nat n))) ++ rest') (l_sent s) s) ∧
    len rest' = len rest - Z.of_nat n.
Proof.
  intros Ha. pose proof (ia_file_count a Ha) as Hfc. pose proof desfire_max_files_range as Hmax.
  induction n as [|n IH]; intros s i pre rest Hs Hr Hl Hi Hn; cbn [file_ids_loop].
  { exists rest. split; [|lia].
    transitivity (Some (Some (len pre + 0), with_buffers (l_version_buf s) (pre ++ rest) (l_sent s) s)); [|done].
    rewrite <-Hr, Z.add_0_r. by destruct s. }
  pose proof (dk_resp s Hs) as Hlr. rewrite Hr, len_app in Hlr.
  unfold NFC_TRANSPORT_MAX_RESPONSE_LEN in *. rewrite (proj2 (Z.ltb_ge _ _)) by lia.
  destruct (view_file_ok a i Ha ltac:(lia)) as (_ & Eid & _). rewrite Eid, run_lift_Some. unfold resp_set. rewrite run_bind, run_gets. unfold id.
  destruct rest as [|x rest]; [rewrite len_nil in Hlr; lia|]. rewrite len_cons in Hlr. rewrite Hr, st_mid by done.
  rewrite run_bind, run_lift_Some, run_modify. rewrite seqZ_next, !fmap_cons.
  set (s1 := with_buffers (l_version_buf s) (pre ++ f_id (file_at a i) :: rest) (l_sent s) s).
  assert (df_ok s1) as Hs1 by (destruct Hs; constructor; try done; cbn; unfold NFC_TRANSPORT_MAX_RESPONSE_LEN; rewrite len_app, len_cons; lia).
  destruct (IH s1 (i + 1) (pre ++ [f_id (file_at a i)]) rest Hs1) as (rest' & Hrun & Hl');
    [by rewrite <-(assoc_L (++))|rewrite len_app, len_cons, len_nil; lia|lia|lia|].
  replace (len pre + 1) with (len (pre ++ [f_id (file_at a i)])) by (by rewrite len_app). exists rest'.
  rewrite Hrun. cbn [l_version_buf l_resp_buf l_sent l_model s1 with_buffers]. split; [|rewrite len_cons; lia].
  rewrite <-!(assoc_L (++)). rewrite len_app, len_cons, len_nil. do 3 f_equal. lia.
Qed.

Lemma file_ids_outcome s : df_ok s →
  outcome desfire_listener_cmd_get_file_ids s
    (match app_at (view (l_model s)) (session_of s) with
     | Some p => ((f_id <$> p_files p) ++ df_status DESFIRE_STATUS_OK, session_of s)
     | None => (df_status DESFIRE_STATUS_APP_NOT_FOUND, session_of s) end).
Proof.
  intros Hs. unfold desfire_listener_cmd_get_file_ids, outcome.
  destruct (selected_run s Hs) as (o & Hsel & -> & Ho). rewrite (run_call _ _ _ _ _ Hsel). destruct o as [a|]; cbn [fmap option_fmap option_map]; [|by apply outcome_status].
  pose proof (ia_file_count a Ho) as Hfc. pose proof desfire_max_files_range.
  destruct (file_ids_loop_run a Ho (Z.to_nat (a_file_count a)) s 0 [] (l_resp_buf s) Hs eq_refl) as (rest & Hrun & Hl); [done|done|lia|].
  change (len []) with 0 in Hrun. rewrite (run_call _ _ _ _ _ Hrun). rewrite Z.add_0_l, !Z2Nat.id in * by lia. cbn [app p_files view_app].
  set (ids := f_id <$> _). assert (len ids = a_file_count a) as Hids.
  { unfold ids. rewrite !len_fmap. unfold len. rewrite length_seqZ. lia. }
  rewrite <-Hids in Hl |- *. pose proof (dk_resp s Hs) as Hr.
  apply send_own; [done|unfold NFC_TRANSPORT_MAX_RESPONSE_LEN; lia|]. rewrite len_app. lia.
Qed.

(** The beginning of the commands on a file. *)
Lemma file_command_outcome s a n no_app (K : list Z → desfire_application_t → Z → M df_state unit) k :
  df_ok s → apdu_ok a → 1 <= n →
  (∀ d app j f, data a = Some d → bytes d → n <= len d → image_app_ok app → 0 <= j < CONFIG_NFC_DESFIRE_MAX_FILES_PER_APP →
    app_at (view (l_model s)) (session_of s) = Some (view_app app) → f ∈ p_files (view_app app) → file_at app j = f →
    outcome (K d app j) s (k f)) →
  outcome (app ← desfire_listener_selected_app;
    match app with
    | None => desfire_listener_send_status no_app
    | Some app =>
      match data a with
      | None => desfire_listener_send_status DESFIRE_STATUS_LENGTH_ERROR
      | Some d =>
        if lc a <? n then desfire_listener_send_status DESFIRE_STATUS_LENGTH_ERROR else
        id ← lift (ld d 0);
        '(ret, idx) ← lift (desfire_listener_find_file app id);
        if negb (ret =? 0) then desfire_listener_send_status DESFIRE_STATUS_FILE_NOT_FOUND else
        idx ← lift idx; K d app idx
      end
    end) s (on_file (view (l_model s)) (session_of s) a n no_app k).
Proof.
  intros Hs (_ & _ & _ & _ & Hlc & _ & Hd) Hn HK. unfold outcome, on_file.
  destruct (selected_run s Hs) as (o & Hsel & Ho & Hok). rewrite (run_call _ _ _ _ _ Hsel), Ho.
  destruct o as [app|]; cbn [fmap option_fmap option_map]; [|by apply outcome_status].
  destruct (data a) as [d|]; [destruct Hd as [Hbd Hld]|rewrite (proj2 (Z.ltb_lt _ _)) by lia; by apply outcome_status].
  destruct (Z.ltb_spec (lc a) n); [by apply outcome_status|].
  destruct (ld_Some d 0) as [id Eid]; [lia|]. change (default [] (Some d)) with d. rewrite Eid, run_lift_Some.
  change (default 0 (Some id)) with id.
  pose proof (find_file_spec app id Hok) as Hf. destruct (find_file (view_app app) id) as [f|] eqn:Ef.
  - destruct Hf as (j & -> & Hj & Hfj). rewrite run_lift_Some. cbn [Z.eqb negb]. rewrite run_lift_Some.
    apply (HK d app j f); try done; [lia|]. apply list_elem_of_In. by apply List.find_some in Ef as [Ef _].
  - rewrite Hf, run_lift_Some. cbn [Z.eqb negb Z.opp ENOENT]. by apply outcome_status.
Qed.

Lemma file_settings_outcome s a : df_ok s → apdu_ok a →
  outcome (desfire_listener_cmd_get_file_settings a) s
    (on_file (view (l_model s)) (session_of s) a 1 DESFIRE_STATUS_APP_NOT_FOUND (λ f,
      match file_settings_reply (f_settings f) with
      | Some bs => (bs ++ df_status DESFIRE_STATUS_OK, session_of s)
      | None => (df_status DESFIRE_STATUS_ILLEGAL_CMD, session_of s)
      end)).
Proof.
  intros Hs Ha. apply file_command_outcome; [done|done|lia|]. intros d app j f _ _ _ Happ Hj _ _ <-.
  destruct (view_file_ok app j Happ Hj) as (_ & _ & Efs & _). eapply outcome_lift; [exact Efs|].
  unfold file_settings_reply. cbv zeta. repeat case_bool; first [by apply outcome_data | by apply outcome_status].
Qed.

Lemma file_auth s app j f : df_ok s → image_app_ok app → 0 <= j < CONFIG_NFC_DESFIRE_MAX_FILES_PER_APP → file_at app j = f →
  desfire_listener_check_file_auth app j s = Some (fs_comm (f_settings f) =? DESFIRE_COMM_PLAIN, s).
Proof.
  intros Hs Happ Hj <-. destruct (view_file_ok app j Happ Hj) as (_ & _ & Efs & _).
  unfold desfire_listener_check_file_auth. rewrite Efs, run_lift_Some, run_gets. unfold id.
  rewrite (bool_decide_eq_false_2 _ (dk_auth s Hs)). by destruct (_ =? _).
Qed.

Lemma value_outcome s a : df_ok s → apdu_ok a →
  outcome (desfire_listener_cmd_get_value a) s
    (on_file (view (l_model s)) (session_of s) a 1 DESFIRE_STATUS_PERMISSION_DENIED (value_answer (session_of s))).
Proof.
  intros Hs Ha. apply file_command_outcome; [done|done|lia|]. intros d app j f _ _ _ Happ Hj _ _ Ef.
  pose proof (file_auth s app j f Hs Happ Hj Ef) as Hauth. destruct (view_file_ok app j Happ Hj) as (Hf & _ & Efs & El & dat & Ed & Edat & Hdl).
  rewrite Ef in *. eapply outcome_lift; [exact Efs|]. unfold value_answer. case_bool; [by apply outcome_status|].
  unfold outcome. rewrite (run_call _ _ _ _ _ Hauth). case_bool; [by apply outcome_status|].
  rewrite El, run_lift_Some. destruct (Z.ltb_spec (len (f_data f)) 4); [by apply outcome_status|].
  rewrite Ed, run_lift_Some. apply sends_did; [done|]. cbn [fst snd].
  pose proof (send_data_sends s dat 0 4 DESFIRE_STATUS_OK (dk_resp s Hs)) as Hsend.
  rewrite drop_0 in Hsend. rewrite Edat, take_take. unfold len in H1 |- *. replace (_ `min` _)%nat with (Z.to_nat 4) by lia.
  apply Hsend; unfold NFC_TRANSPORT_MAX_RESPONSE_LEN; unfold len in *; lia.
Qed.

(** A reading command whose answer fits the response. *)
Lemma read_range_outcome s a d app j f mine : df_ok s → data a = Some d → bytes d → 7 <= len d → image_app_ok app →
  0 <= j < CONFIG_NFC_DESFIRE_MAX_FILES_PER_APP → file_at app j = f → fs_comm (f_settings f) =? DESFIRE_COMM_PLAIN = true →
  mine = DESFIRE_PENDING_READ_DATA ∨ mine = DESFIRE_PENDING_READ_RECORDS →
  ((range_of a).2 <= NFC_TRANSPORT_MAX_RESPONSE_LEN - 2 ∨ len (f_data f) <= NFC_TRANSPORT_MAX_RESPONSE_LEN - 2) →
  outcome (read_range mine d app j) s (read_answer (session_of s) a f).
Proof.
  intros Hs Hd Hb Hl Happ Hj Ef Hplain Hmine Hone. unfold read_range, read_answer, range_of in *. rewrite Hd in *.
  change (default [] (Some d)) with d in *. rewrite Hplain. cbn [negb].
  assert (∀ i, 0 <= i < 7 → ∃ b, ld d i = Some b ∧ is_byte b) as Hld.
  { intros i Hi. destruct (ld_Some d i ltac:(lia)) as [b Eb]. exists b. split; [done|by eapply ld_byte]. }
  destruct (Hld 0 ltac:(lia)) as (d0 & E0 & _). destruct (Hld 1 ltac:(lia)) as (d1 & E1 & B1). destruct (Hld 2 ltac:(lia)) as (d2 & E2 & B2).
  destruct (Hld 3 ltac:(lia)) as (d3 & E3 & B3). destruct (Hld 4 ltac:(lia)) as (d4 & E4 & B4). destruct (Hld 5 ltac:(lia)) as (d5 & E5 & B5).
  destruct (Hld 6 ltac:(lia)) as (d6 & E6 & B6). unfold outcome.
  rewrite E1, E2, E3, E4, E5, E6 in *. rewrite E0, !run_lift_Some. cbn [fst snd] in Hone. cbv zeta.
  assert (0 <= le24 d1 d2 d3 < 2 ^ 24) as Ho by (rewrite le24_eq by done; unfold is_byte in *; lia).
  assert (0 <= le24 d4 d5 d6 < 2 ^ 24) as Hn by (rewrite le24_eq by done; unfold is_byte in *; lia).
  change (default 0 (Some ?x)) with x in *. set (off := le24 d1 d2 d3) in *. set (n := le24 d4 d5 d6) in *.
  destruct (view_file_ok app j Happ Hj) as (Hf & _ & _ & El & dat & Ed & Edat & Hdl). rewrite Ef in *.
  rewrite El, run_lift_Some. unfold u32 at 1. rewrite Z.mod_small by lia.
  destruct (Z.ltb_spec (len (f_data f)) (off + n)); [by apply outcome_status|].
  rewrite run_gets. unfold id. assert (l_pending_cmd s ≠ mine) as Hpm
    by (destruct (dk_pending s Hs) as [->|[-> _]], Hmine as [->| ->]; done).
  rewrite (bool_decide_eq_false_2 _ Hpm). rewrite run_bind, run_modify, run_ret.
  rewrite (proj2 (Z.ltb_ge _ _)) by lia. rewrite run_bind, run_modify, run_ret, Ed, run_lift_Some.
  set (s1 := with_pending _ _ _).
  destruct (send_data_sends s1 dat off n DESFIRE_STATUS_OK (dk_resp s Hs)) as (r & Hr & ->); [lia|lia|lia|].
  eexists. split; [done|]. cbn [fst snd]. rewrite Edat, skipn_firstn_comm, take_take. replace (_ `min` _)%nat with (Z.to_nat n) by (unfold len in *; lia).
  destruct Hs. constructor; try done. constructor; try done. by left.
Qed.

Lemma one_response_file c ses a p f : one_response c a → app_at c ses = Some p → f ∈ p_files p →
  (range_of a).2 <= NFC_TRANSPORT_MAX_RESPONSE_LEN - 2 ∨ len (f_data f) <= NFC_TRANSPORT_MAX_RESPONSE_LEN - 2.
Proof.
  intros [Hn|Hall] Hp Hf; [by left|right]. unfold app_at in Hp. destruct (ss_app ses) as [i|]; [|done]. mred in Hp.
  apply ld_Some_inv in Hp as [_ Hp]. pose proof (Forall_lookup_1 _ _ _ _ Hall Hp) as Hfs.
  apply list_elem_of_In in Hf. exact (proj1 (Forall_forall _ _) Hfs f Hf).
Qed.

Lemma read_data_outcome s a : df_ok s → apdu_ok a → one_response (view (l_model s)) a →
  outcome (desfire_listener_cmd_read_data a) s
    (on_file (view (l_model s)) (session_of s) a 7 DESFIRE_STATUS_PERMISSION_DENIED (read_answer (session_of s) a)).
Proof.
  intros Hs Ha Hone. apply file_command_outcome; [done|done|lia|]. intros d app j f Hd Hb Hl Happ Hj Hat Hin Ef.
  pose proof (one_response_file _ _ _ _ _ Hone Hat Hin) as Hfit. destruct (view_file_ok app j Happ Hj) as (_ & _ & Efs & _).
  rewrite Ef in Efs. eapply outcome_lift; [exact Efs|]. unfold outcome. rewrite run_gets.
  rewrite (bool_decide_eq_false_2 _ (dk_auth s Hs)). rewrite andb_true_r.
  destruct (fs_comm (f_settings f) =? DESFIRE_COMM_PLAIN) eqn:E; cbn [negb].
  - apply read_range_outcome; try done. by left.
  - unfold read_answer. rewrite E. destruct (range_of a). by apply outcome_status.
Qed.

Lemma read_records_outcome s a : df_ok s → apdu_ok a → one_response (view (l_model s)) a →
  outcome (desfire_listener_cmd_read_records a) s
    (on_file (view (l_model s)) (session_of s) a 7 DESFIRE_STATUS_PERMISSION_DENIED (records_answer (session_of s) a)).
Proof.
  intros Hs Ha Hone. apply file_command_outcome; [done|done|lia|]. intros d app j f Hd Hb Hl Happ Hj Hat Hin Ef.
  pose proof (one_response_file _ _ _ _ _ Hone Hat Hin) as Hfit. pose proof (file_auth s app j f Hs Happ Hj Ef) as Hauth.
  destruct (view_file_ok app j Happ Hj) as (_ & _ & Efs & _). rewrite Ef in Efs. eapply outcome_lift; [exact Efs|].
  unfold records_answer. rewrite <-negb_orb. destruct (_ || _); cbn [negb]; [|by apply outcome_status].
  unfold outcome. rewrite (run_call _ _ _ _ _ Hauth). destruct (fs_comm (f_settings f) =? DESFIRE_COMM_PLAIN) eqn:E; cbn [negb].
  - apply read_range_outcome; try done. by right.
  - unfold read_answer. rewrite E. destruct (range_of a). by apply outcome_status.
Qed.

Lemma key_version_outcome s a : df_ok s → apdu_ok a →
  outcome (desfire_listener_cmd_get_key_version a) s
    (if lc a <? 1 then (df_status DESFIRE_STATUS_LENGTH_ERROR, session_of s)
     else if default 0 (ld (default [] (data a)) 0) =? 0 then ([0x00] ++ df_status DESFIRE_STATUS_OK, session_of s)
     else (df_status DESFIRE_STATUS_NO_SUCH_KEY, session_of s)).
Proof.
  intros Hs (_ & _ & _ & _ & Hlc & _ & Hd). unfold desfire_listener_cmd_get_key_version.
  destruct (data a) as [d|]; [destruct Hd as [Hbd Hld]|rewrite (proj2 (Z.ltb_lt _ _)) by lia; by apply outcome_status].
  destruct (Z.ltb_spec (lc a) 1); [by apply outcome_status|]. change (default [] (Some d)) with d.
  destruct (ld_Some d 0) as [k Ek]; [lia|]. eapply outcome_lift; [exact Ek|]. rewrite Ek. change (default 0 (Some k)) with k.
  destruct (k =? 0); cbn [negb]; [by apply outcome_data|by apply outcome_status].
Qed.

(** The first application of an identifier, as the code and as the specification see it. *)
Lemma find_app_spec d aid : image_ok d → 3 <= len aid → ∀ n i, 0 <= i → i + Z.of_nat n = d_app_count d →
  find_app_loop n i (d_apps d) aid =
  Some ((λ r, i + Z.of_nat r.1) <$> list_find (λ p, p_id p = take 3 aid) (drop (Z.to_nat i) (c_apps (view d)))).
Proof.
  intros Hd Hl. destruct (view_count d Hd) as (Hc & _). induction n as [|n IH]; intros i Hi Hn; cbn [find_app_loop].
  { rewrite drop_ge by (unfold len in Hc; lia). done. }
  destruct (view_app_ld d i Hd ltac:(lia)) as (a & Ea & Ha & Ev). rewrite Ea. mred. destruct (ia_id a Ha) as [Lid _].
  apply ld_Some_inv in Ev as [_ Ev]. rewrite (drop_S _ _ _ Ev). cbn [list_find].
  unfold memcmp_eq. rewrite !sub_ok by (unfold DESFIRE_APP_ID_SIZE in *; lia). mred.
  change (Z.to_nat 0) with 0%nat. rewrite !drop_0, (take_ge (a_id a)) by (unfold DESFIRE_APP_ID_SIZE, len in *; lia).
  change (Z.to_nat DESFIRE_APP_ID_SIZE) with 3%nat.
  destruct (bool_decide_reflect (take 3 aid = a_id a)) as [E|E].
  - rewrite (decide_True (P := p_id (view_app a) = take 3 aid)) by done. cbn. by rewrite Z.add_0_r.
  - rewrite (decide_False (P := p_id (view_app a) = take 3 aid)) by (intros Hp; by apply E).
    rewrite IH by lia. replace (Z.to_nat (i + 1)) with (S (Z.to_nat i)) by lia.
    destruct (list_find _ (drop (S _) _)) as [[r q]|]; [|done]. cbn. do 2 f_equal. lia.
Qed.

Lemma select_application_outcome s a : df_ok s → apdu_ok a →
  outcome (desfire_listener_cmd_select_application a) s
    (if lc a <? DESFIRE_APP_ID_SIZE then (df_status DESFIRE_STATUS_LENGTH_ERROR, session_of s)
     else match find_app (view (l_model s)) (take 3 (default [] (data a))) with
          | Some (i, _) => (df_status DESFIRE_STATUS_OK, {| ss_app := Some (Z.of_nat i); ss_frame := None |})
          | None => (df_status DESFIRE_STATUS_APP_NOT_FOUND, {| ss_app := None; ss_frame := None |})
          end).
Proof.
  intros Hs (_ & _ & _ & _ & Hlc & _ & Hd). unfold desfire_listener_cmd_select_application.
  destruct (data a) as [d|]; [destruct Hd as [Hbd Hld]|rewrite (proj2 (Z.ltb_lt _ _)) by (unfold DESFIRE_APP_ID_SIZE; lia); by apply outcome_status].
  destruct (Z.ltb_spec (lc a) DESFIRE_APP_ID_SIZE) as [|Hn]; [by apply outcome_status|]. unfold DESFIRE_APP_ID_SIZE in Hn.
  change (default [] (Some d)) with d. destruct (view_count _ (dk_model s Hs)) as (Hc & Hr & _).
  unfold outcome, desfire_listener_session_reset. rewrite run_modify, run_gets. unfold id.
  set (s0 := with_session _ _ _ _ s).
  assert (∀ x, -1 <= x < 128 → df_ok (with_session DESFIRE_AUTH_STATE_IDLE x DESFIRE_PENDING_NONE 0 s)) as Hok
    by (intros x Hx; destruct Hs; constructor; try done; by left).
  change (l_model s0) with (l_model s).
  rewrite (find_app_spec (l_model s) d (dk_model s Hs) ltac:(lia) _ 0) by lia. rewrite run_lift_Some. rewrite drop_0.
  unfold find_app. destruct (list_find _ _) as [[i p]|] eqn:E; cbn [fmap option_fmap option_map fst snd].
  - apply list_find_Some in E as (Ei & _ & _). apply lookup_lt_Some in Ei. unfold len in Hc. rewrite run_modify.
    assert (i8 (0 + Z.of_nat i) = Z.of_nat i) as -> by (unfold i8; rewrite Z.mod_small by lia; lia).
    set (s1 := with_session _ _ _ _ s0). assert (df_ok s1) as Hs1 by (apply (Hok (Z.of_nat i)); lia).
    destruct (status_did s1 DESFIRE_STATUS_OK Hs1) as (s' & Hrun & []). exists s'. split; [done|]. constructor; try done.
    rewrite di_session0. unfold session_of. cbn. by rewrite (proj2 (Z.ltb_ge _ _)) by lia.
  - destruct (status_did s0 DESFIRE_STATUS_APP_NOT_FOUND (Hok (-1) ltac:(lia))) as (s' & Hrun & []). exists s'. by split.
Qed.

Lemma any_set_spec l : ∀ n i, 0 <= i → i + Z.of_nat n = len l →
  any_set n i l = Some (existsb (λ b, negb (b =? 0)) (drop (Z.to_nat i) l)).
Proof.
  induction n as [|n IH]; intros i Hi Hn; cbn [any_set]; [by rewrite drop_ge by (unfold len in *; lia)|].
  destruct (ld_Some l i) as [k Ek]; [lia|]. rewrite Ek. mred. apply ld_Some_inv in Ek as [_ Ek].
  rewrite (drop_S _ _ _ Ek). cbn [existsb]. destruct (negb (k =? 0)); [done|]. rewrite IH by lia.
  by replace (Z.to_nat (i + 1)) with (S (Z.to_nat i)) by lia.
Qed.

Lemma authenticate_outcome s : df_ok s →
  outcome desfire_listener_cmd_authenticate s
    (if existsb (λ b, negb (b =? 0)) (c_master (view (l_model s)))
     then [0xAA; 0xBB; 0xCC; 0xDD] ++ df_status DESFIRE_STATUS_ADDITIONAL_FRAME
     else df_status DESFIRE_STATUS_AUTH_ERROR, session_of s).
Proof.
  intros Hs. unfold desfire_listener_cmd_authenticate, desfire_listener_has_master_key, outcome.
  rewrite run_bind, run_gets. unfold id. destruct (io_master _ (dk_model s Hs)) as [Lm _]. unfold DESFIRE_AES_KEY_SIZE in *.
  rewrite any_set_spec by lia. rewrite run_lift_Some, drop_0. cbn [c_master view].
  destruct (existsb _ _); cbn [negb]; [|by apply outcome_status]. rewrite run_modify.
  set (s1 := with_session _ _ _ _ s). assert (df_ok s1) as Hs1 by (destruct Hs; by constructor).
  destruct (data_did s1 [0xAA; 0xBB; 0xCC; 0xDD] 4 DESFIRE_STATUS_ADDITIONAL_FRAME Hs1) as (s' & Hrun & []); [done|done|].
  exists s'. by split.
Qed.

Lemma on_apdu_outcome s a : df_ok s → l_initialized s = true → apdu_ok a → one_response (view (l_model s)) a →
  outcome (desfire_listener_on_apdu (Some a)) s (df_answer (view (l_model s)) (session_of s) a).
Proof.
  intros Hs Hi Ha Hone. unfold desfire_listener_on_apdu. apply outcome_gets. unfold id. rewrite Hi. cbn [negb].
  unfold df_answer. cbv zeta. case_bool; [by apply outcome_status|].
  case_bool; [by apply get_version_outcome|].
  case_bool; [by apply outcome_data|].
  case_bool; [by apply key_settings_outcome|].
  case_bool; [by apply application_ids_outcome|].
  case_bool; [by apply file_ids_outcome|].
  case_bool; [by apply file_settings_outcome|].
  case_bool; [by apply key_version_outcome|].
  case_bool; [by apply select_application_outcome|].
  case_bool; [by apply read_data_outcome|].
  case_bool; [by apply value_outcome|].
  case_bool; [by apply read_records_outcome|].
  case_bool; [by apply authenticate_outcome|].
  case_bool; [|by apply outcome_status].
  destruct (dk_pending s Hs) as [Hp|[Hp _]]; rewrite Hp.
  - assert (ss_frame (session_of s) = None) as -> by (unfold session_of; by rewrite Hp). by apply outcome_status.
  - assert (ss_frame (session_of s) = Some (l_pending_frame s)) as -> by (unfold session_of; by rewrite Hp).
    by apply get_version_outcome.
Qed.

(** *** Sequences of commands *)

Fixpoint df_commands (cmds : list nfc_apdu_t) : M df_state unit :=
  match cmds with [] => mret tt | a :: cmds => desfire_listener_on_apdu (Some a) ;; df_commands cmds end.

Fixpoint df_answers (c : card) (s : df_session) (cmds : list nfc_apdu_t) : list (list Z) * df_session :=
  match cmds with
  | [] => ([], s)
  | a :: cmds =>
    let '(r, s) := df_answer c s a in let '(rs, s) := df_answers c s cmds in (r :: rs, s)
  end.

Lemma commands_run cmds : ∀ s, df_ok s → l_initialized s = true →
  Forall (λ a, apdu_ok a ∧ one_response (view (l_model s)) a) cmds →
  ∃ s', df_commands cmds s = Some (tt, s') ∧ df_ok s' ∧ l_model s' = l_model s ∧ l_initialized s' = true ∧
    l_sent s' = l_sent s ++ (df_answers (view (l_model s)) (session_of s) cmds).1 ∧
    session_of s' = (df_answers (view (l_model s)) (session_of s) cmds).2.
Proof.
  induction cmds as [|a cmds IH]; intros s Hs Hi Hc.
  { exists s. cbn. by rewrite app_nil_r. }
  apply Forall_cons_iff in Hc as [[Ha Hone] Hc]. destruct (on_apdu_outcome s a Hs Hi Ha Hone) as (s1 & Hrun & [M1 I1 S1 E1 O1]).
  destruct (IH s1) as (s' & Hrun' & Hs' & M' & I' & S' & E'); [done|by rewrite I1|by rewrite M1|].
  exists s'. cbn [df_commands df_answers]. rewrite (run_call _ _ _ _ _ Hrun). rewrite M1, E1 in *. rewrite S1 in S'.
  destruct (df_answer _ _ a) as [r ses]. cbn [fst snd] in *. destruct (df_answers _ ses cmds) as [rs ses']. cbn [fst snd] in *.
  split_and!; try done. by rewrite S', <-(assoc_L (++)).
Qed.

(** C20: The listener is the card it holds: an initialized listener whose image has all its counts inside
    the arrays and that is neither authenticated nor in the middle of a read over several frames ([df_ok]; an image
    that was refused when it was loaded can break the first, see the findings, and the run keeps both) answers every sequence of
    well-formed commands, authentication included, exactly as the specification [df_answer]
    says for the card in its image, one response per command, and leaves the image alone, as
    long as each reading command asks for no more than one response holds or no file is longer than
    that ([one_response]). No access leaves an object. *)
Theorem desfire_listener_exact cmds s : df_ok s → l_initialized s = true →
  Forall (λ a, apdu_ok a ∧ one_response (view (l_model s)) a) cmds →
  ∃ s', df_commands cmds s = Some (tt, s') ∧ df_ok s' ∧ l_model s' = l_model s ∧
    l_sent s' = l_sent s ++ (df_answers (view (l_model s)) (session_of s) cmds).1 ∧
    session_of s' = (df_answers (view (l_model s)) (session_of s) cmds).2.
Proof.
  intros Hs Hi Hc. destruct (commands_run cmds s Hs Hi Hc) as (s' & ? & ? & ? & _ & ? & ?). by exists s'.
Qed.

(** *** Secrecy *)

(** The card without what its reader must not learn: the data of the files that are not read in
    the plain, and the keys, but for their number and whether the master key is set. *)
Definition mask_file (f : file) : file :=
  {| f_id := f_id f; f_settings := f_settings f;
     f_data := if fs_comm (f_settings f) =? DESFIRE_COMM_PLAIN then f_data f else [] |}.
Definition mask_app (p : application) : application :=
  {| p_id := p_id p; p_settings := p_settings p; p_keys := replicate (length (p_keys p)) [];
     p_files := mask_file <$> p_files p |}.
Definition mask (c : card) : card :=
  {| c_hw := c_hw c; c_sw := c_sw c; c_uid := c_uid c; c_batch := c_batch c; c_week := c_week c; c_year := c_year c;
     c_memory := c_memory c; c_master := [if existsb (λ b, negb (b =? 0)) (c_master c) then 1 else 0];
     c_master_settings := c_master_settings c; c_apps := mask_app <$> c_apps c |}.

Lemma ld_fmap {A B} (f : A → B) l i : ld (f <$> l) i = f <$> ld l i.
Proof. unfold ld. case_bool; [|done]. apply list_lookup_fmap. Qed.

Lemma mask_at c s : app_at (mask c) s = mask_app <$> app_at c s.
Proof. unfold app_at. destruct (ss_app s) as [i|]; [|done]. mred. cbn. by rewrite ld_fmap. Qed.

Lemma mask_find p id : find_file (mask_app p) id = mask_file <$> find_file p id.
Proof.
  unfold find_file. cbn. induction (p_files p) as [|f fs IH]; [done|]. cbn. destruct (f_id f =? id); [done|exact IH].
Qed.

Lemma mask_read s a f : read_answer s a (mask_file f) = read_answer s a f.
Proof. unfold read_answer. destruct (range_of a). cbn. by destruct (fs_comm (f_settings f) =? DESFIRE_COMM_PLAIN). Qed.

Lemma mask_on_file c s a n no_app k k' : (∀ f, k (mask_file f) = k' f) →
  on_file (mask c) s a n no_app k = on_file c s a n no_app k'.
Proof.
  intros Hk. unfold on_file. rewrite mask_at. destruct (app_at c s) as [p|]; cbn [fmap option_fmap option_map]; [|done].
  case_bool; [done|]. rewrite mask_find. destruct (find_file p _); cbn [fmap option_fmap option_map]; [apply Hk|done].
Qed.

Lemma mask_answer c s a : df_answer (mask c) s a = df_answer c s a.
Proof.
  unfold df_answer. cbv zeta. case_bool; [done|]. case_bool; [done|]. case_bool; [done|]. case_bool.
  { rewrite mask_at. destruct (app_at c s) as [p|]; [|done]. cbn. by rewrite len_replicate. }
  case_bool; [cbn; by rewrite <-list_fmap_compose|]. case_bool.
  { rewrite mask_at. destruct (app_at c s) as [p|]; [|done]. cbn. by rewrite <-list_fmap_compose. }
  case_bool; [by apply mask_on_file|]. case_bool; [done|]. case_bool.
  { case_bool; [done|]. unfold find_app. cbn [c_apps mask].
    replace (list_find (λ p, p_id p = take 3 (default [] (data a))) (mask_app <$> c_apps c))
      with (prod_map id mask_app <$> list_find (λ p, p_id p = take 3 (default [] (data a))) (c_apps c)); [by destruct (list_find _ _) as [[]|]|].
    symmetry. apply (list_find_fmap mask_app). }
  case_bool; [apply mask_on_file; intros f; apply mask_read|]. case_bool.
  { apply mask_on_file. intros f. unfold value_answer. cbn. case_bool; [done|]. by destruct (fs_comm (f_settings f) =? DESFIRE_COMM_PLAIN). }
  case_bool; [apply mask_on_file; intros f; unfold records_answer; by rewrite mask_read|]. case_bool.
  { cbn [c_master mask]. by destruct (existsb _ (c_master c)). }
  done.
Qed.

Lemma mask_answers c s cmds : df_answers (mask c) s cmds = df_answers c s cmds.
Proof.
  revert s. induction cmds as [|a cmds IH]; intros s; [done|]. cbn [df_answers]. rewrite mask_answer.
  destruct (df_answer c s a) as [r s']. by rewrite IH.
Qed.

(** C21: Files that are not read in the plain stay secret: take two initialized listeners with all counts of their images inside
    the arrays and not in the middle of a read over several frames ([df_ok]), in the same session, whose cards
    differ only in the data of files that are not read in the plain and in the bytes of keys, but agree
    in the rest, in the number of keys of each application (GET KEY SETTINGS tells it) and in whether the master key is all zero
    (AUTHENTICATE tells it). They send
    the same responses to every sequence of commands that each card answers in one response each,
    whatever the reader tries to authenticate with. *)
Theorem desfire_protected_files_secret cmds s1 s2 : df_ok s1 → df_ok s2 →
  l_initialized s1 = true → l_initialized s2 = true →
  mask (view (l_model s1)) = mask (view (l_model s2)) → session_of s1 = session_of s2 → l_sent s1 = l_sent s2 →
  Forall (λ a, apdu_ok a ∧ one_response (view (l_model s1)) a ∧ one_response (view (l_model s2)) a) cmds →
  ∃ s1' s2', df_commands cmds s1 = Some (tt, s1') ∧ df_commands cmds s2 = Some (tt, s2') ∧ l_sent s1' = l_sent s2'.
Proof.
  intros H1 H2 I1 I2 Hm Hses Hsent Hc.
  destruct (commands_run cmds s1 H1 I1) as (s1' & R1 & _ & _ & _ & S1 & _);
    [eapply Forall_impl; [|exact Hc]; by intros a (?&?&?)|].
  destruct (commands_run cmds s2 H2 I2) as (s2' & R2 & _ & _ & _ & S2 & _);
    [eapply Forall_impl; [|exact Hc]; by intros a (?&?&?)|].
  exists s1', s2'. split; [done|]. split; [done|]. rewrite S1, S2, Hsent, Hses.
  rewrite <-(mask_answers (view (l_model s1))), <-(mask_answers (view (l_model s2))), Hm. done.
Qed.
End DesfireListenerFacts.
