(* ===== verification/DesfirePoller.v ===== *)
(** * DESFire poller ([src/nfc/protocols/desfire/desfire_poller.c], [desfire_poller_i.c])

    Reading a DESFire card in the field: its version, its applications and the files that can
    be read without authentication.  The card is the parameter [tag_transceive] as in the NDEF
    poller. *)

From stdpp Require Import base list numbers option.
From S2P Require Import Prelude Kconfig Apdu Serial Stack Session NdefPoller Desfire DesfireListener.

Definition DESFIRE_POLLER_I_AUTH : Z := - EACCES.

(** A native command without data. *)
Definition native_cmd (cmd : Z) : list Z := [DESFIRE_CLA_NATIVE; cmd; 0x00; 0x00; 0x00].
Definition AF_CONT : list Z := native_cmd DESFIRE_CMD_ADDITIONAL_FRAME.
Definition SELECT_AID : list Z := [0x00; 0xA4; 0x04; 0x00; len desfire_aid] ++ desfire_aid.
Definition GET_KEY_VERSION : list Z := [DESFIRE_CLA_NATIVE; DESFIRE_CMD_GET_KEY_VERSION; 0x00; 0x00; 0x01; 0x00].
Definition GET_VERSION : list Z := native_cmd DESFIRE_CMD_GET_VERSION.
Definition GET_FREE_MEMORY : list Z := native_cmd DESFIRE_CMD_GET_FREE_MEMORY.
Definition GET_KEY_SETTINGS : list Z := native_cmd DESFIRE_CMD_GET_KEY_SETTINGS.

Inductive desfire_poller_state_t :=
  | DESFIRE_POLLER_STATE_READ_VERSION
  | DESFIRE_POLLER_STATE_READ_FREE_MEMORY
  | DESFIRE_POLLER_STATE_READ_MASTER_KEY_SETTINGS
  | DESFIRE_POLLER_STATE_READ_APPLICATION_IDS
  | DESFIRE_POLLER_STATE_READ_APPLICATIONS
  | DESFIRE_POLLER_STATE_DONE.

(** What automatic objects hold before they are written: response buffers of the commands,
    [version_buf] and [app_ids] of [desfire_poller_read], [file_ids] and [fs] of
    [desfire_poller_read_application]. *)
Record dp_locals := {
  dl_buf : list Z; dl_version_buf : list Z; dl_app_ids : list Z; dl_file_ids : list Z; dl_fs : desfire_file_settings_t;
}.

Section DesfirePoller.
Context `{Kconfig} {C : Type} (tag_transceive : list Z → M C (Z * list Z)) (u : dp_locals).

(** The turns of [desfire_poller_i_send_chunks] that are considered. *)
Context (fuel : nat).

(** ** Commands *)

Definition desfire_poller_i_status_ok (rx : list Z) (expect_sw2 : Z) : option bool :=
  if len rx <? 2 then Some false else
  a ← ld rx (len rx - 2); b ← ld rx (len rx - 1); Some ((a =? DESFIRE_SW1) && (b =? expect_sw2)).

Definition desfire_poller_i_status_to_errno (rx : list Z) : option Z :=
  if len rx <? 2 then Some (- EIO) else
  b ← ld rx (len rx - 1); Some (if b =? DESFIRE_STATUS_AUTH_ERROR then DESFIRE_POLLER_I_AUTH else - EIO).

Definition desfire_poller_i_transceive (s : option session) (tx : list Z) : M C (Z * list Z) :=
  '(ret, rx) ← nfc_reader_session_transceive tag_transceive s tx;
  if negb (ret =? 0) then mret (ret, rx) else
  if NFC_TRANSPORT_MAX_RESPONSE_LEN <? len rx then lift None else mret (ret, rx).

(** At most [n] more turns of the loop with the response [rx]: the return value, [out] and
    [total]. *)
Fixpoint send_chunks_loop (n : nat) (s : option session) (rx : list Z) (total : Z) (out : list Z) (out_max : Z)
    : M C (Z * list Z * Z) :=
  match n with
  | O => lift None
  | S n =>
    if len rx <? 2 then mret (- EIO, out, total) else
    let payload_len := len rx - 2 in
    if out_max <? total + payload_len then mret (- ENOSPC, out, total) else
    out ← lift (if 0 <? payload_len then memcpy out total rx 0 payload_len else Some out);
    let total := total + payload_len in
    ok ← lift (desfire_poller_i_status_ok rx DESFIRE_STATUS_OK);
    if ok : bool then mret (0, out, total) else
    more ← lift (desfire_poller_i_status_ok rx DESFIRE_STATUS_ADDITIONAL_FRAME);
    if negb more then e ← lift (desfire_poller_i_status_to_errno rx); mret (e, out, total) else
    '(ret, rx) ← desfire_poller_i_transceive s AF_CONT;
    if negb (ret =? 0) then mret (ret, out, total) else
    send_chunks_loop n s rx total out out_max
  end.

(** The return value, [out] and, on success, [*out_len]. *)
Definition desfire_poller_i_send_chunks (s : option session) (first_tx out : list Z) (out_max : Z) : M C (Z * list Z * Z) :=
  '(ret, rx) ← desfire_poller_i_transceive s first_tx;
  if negb (ret =? 0) then mret (ret, out, 0) else send_chunks_loop fuel s rx 0 out out_max.

(** The commands below write their outputs on success only. *)
Definition desfire_poller_i_read_application_ids (s : option session) (ids_out : list Z) (ids_max : Z)
    : M C (Z * list Z * Z) :=
  '(ret, buf, n) ← desfire_poller_i_send_chunks s (native_cmd DESFIRE_CMD_GET_APPLICATION_IDS) (dl_buf u)
                     NFC_TRANSPORT_MAX_RESPONSE_LEN;
  if negb (ret =? 0) then mret (ret, ids_out, 0) else
  if (n =? 0) || negb (n mod DESFIRE_APP_ID_SIZE =? 0) then mret (- EBADMSG, ids_out, 0) else
  let app_count := u8 (n / DESFIRE_APP_ID_SIZE) in
  let app_count := if CONFIG_NFC_DESFIRE_MAX_APPS <? app_count then CONFIG_NFC_DESFIRE_MAX_APPS else app_count in
  if ids_max <? n then mret (- ENOSPC, ids_out, 0) else
  ids ← lift (memcpy ids_out 0 buf 0 n); mret (0, ids, app_count).

Definition desfire_poller_i_select_application (s : option session) (app_id : list Z) : M C Z :=
  tx ← lift (memcpy [DESFIRE_CLA_NATIVE; DESFIRE_CMD_SELECT_APPLICATION; 0x00; 0x00; DESFIRE_APP_ID_SIZE; 0; 0; 0] 5
               app_id 0 DESFIRE_APP_ID_SIZE);
  '(ret, rx) ← desfire_poller_i_transceive s tx;
  if negb (ret =? 0) then mret ret else
  ok ← lift (desfire_poller_i_status_ok rx DESFIRE_STATUS_OK);
  if negb ok then lift (desfire_poller_i_status_to_errno rx) else mret 0.

(** The return value, [*settings_out] and [*max_keys_out]. *)
Definition desfire_poller_i_read_key_settings (s : option session) (settings_out max_keys_out : Z) : M C (Z * Z * Z) :=
  '(ret, buf, n) ← desfire_poller_i_send_chunks s GET_KEY_SETTINGS (dl_buf u) NFC_TRANSPORT_MAX_RESPONSE_LEN;
  if negb (ret =? 0) then mret (ret, settings_out, max_keys_out) else
  if n <? 2 then mret (- EBADMSG, settings_out, max_keys_out) else
  a ← lift (ld buf 0); b ← lift (ld buf 1); mret (0, a, b).

Definition desfire_poller_i_read_file_ids (s : option session) (ids_out : list Z) (ids_max : Z) : M C (Z * list Z * Z) :=
  '(ret, buf, n) ← desfire_poller_i_send_chunks s (native_cmd DESFIRE_CMD_GET_FILE_IDS) (dl_buf u)
                     NFC_TRANSPORT_MAX_RESPONSE_LEN;
  if negb (ret =? 0) then mret (ret, ids_out, 0) else
  if CONFIG_NFC_DESFIRE_MAX_FILES_PER_APP <? n then mret (- ENOSPC, ids_out, 0) else
  if ids_max <? n then mret (- ENOSPC, ids_out, 0) else
  ids ← lift (memcpy ids_out 0 buf 0 n); mret (0, ids, u8 n).

Definition with_records (fs : desfire_file_settings_t) : desfire_file_settings_t :=
  {| fs_type := fs_type fs; fs_comm := fs_comm fs; fs_access := fs_access fs; fs_word0 := fs_word0 fs;
     fs_word1 := 1; fs_word2 := 1; fs_enabled := fs_enabled fs |}.

(** The return value, [*fs] and [*size_out]. *)
Definition desfire_poller_i_parse_file_settings (inp : list Z) (in_len : Z) (fs : desfire_file_settings_t) (size : Z)
    : option (Z * desfire_file_settings_t * Z) :=
  if in_len <? 7 then Some (- EBADMSG, fs, size) else
  t ← ld inp 0; c ← ld inp 1; a0 ← ld inp 2; a1 ← ld inp 3;
  let fs := with_common t c (le16 a0 a1) fs in
  if (t =? DESFIRE_FILE_TYPE_STANDARD) || (t =? DESFIRE_FILE_TYPE_BACKUP) then
    b0 ← ld inp 4; b1 ← ld inp 5; b2 ← ld inp 6;
    Some (0, with_word0 (le24 b0 b1 b2) fs, le24 b0 b1 b2)
  else if t =? DESFIRE_FILE_TYPE_VALUE then
    b0 ← ld inp 4; b1 ← ld inp 5; b2 ← ld inp 6; b3 ← ld inp 7;
    Some (0, with_word0 (le32 b0 b1 b2 b3) fs, 4)
  else if (t =? DESFIRE_FILE_TYPE_LINEAR_REC) || (t =? DESFIRE_FILE_TYPE_CYCLIC_REC) then
    b0 ← ld inp 4; b1 ← ld inp 5; b2 ← ld inp 6;
    Some (0, with_records (with_word0 (le24 b0 b1 b2) fs), le24 b0 b1 b2)
  else Some (- ENOTSUP, fs, size).

Definition desfire_poller_i_read_file_settings (s : option session) (file_id : Z) (fs : desfire_file_settings_t) (size : Z)
    : M C (Z * desfire_file_settings_t * Z) :=
  '(ret, buf, n) ← desfire_poller_i_send_chunks s
    [DESFIRE_CLA_NATIVE; DESFIRE_CMD_GET_FILE_SETTINGS; 0x00; 0x00; 0x01; file_id] (dl_buf u) NFC_TRANSPORT_MAX_RESPONSE_LEN;
  if negb (ret =? 0) then mret (ret, fs, size) else lift (desfire_poller_i_parse_file_settings buf n fs size).

(** The loop of the two functions that read a range of a file, which differ in the command: the
    return value, [out] and [total]. *)
Fixpoint read_file_loop (n : nat) (cmd : Z) (s : option session) (file_id current_offset remaining total : Z)
    (chunk_buf out : list Z) (out_max : Z) : M C (Z * list Z * Z) :=
  match n with
  | O => mret (0, out, total)
  | S n =>
    if remaining <=? 0 then mret (0, out, total) else
    let chunk_size := if NFC_TRANSPORT_MAX_RESPONSE_LEN - 2 <? remaining then NFC_TRANSPORT_MAX_RESPONSE_LEN - 2 else remaining in
    if out_max <? total + chunk_size then mret (- ENOSPC, out, total) else
    '(ret, chunk_buf, chunk_len) ← desfire_poller_i_send_chunks s
      [DESFIRE_CLA_NATIVE; cmd; 0x00; 0x00; 0x07; file_id;
       byte_at current_offset 0; byte_at current_offset 1; byte_at current_offset 2;
       byte_at chunk_size 0; byte_at chunk_size 1; byte_at chunk_size 2] chunk_buf NFC_TRANSPORT_MAX_RESPONSE_LEN;
    if negb (ret =? 0) then mret (ret, out, total) else
    if remaining <? chunk_len then mret (- EBADMSG, out, total) else
    out ← lift (memcpy out total chunk_buf 0 chunk_len);
    let total := total + chunk_len in
    if chunk_len <? chunk_size then mret (0, out, total) else
    read_file_loop n cmd s file_id (u32 (current_offset + chunk_len)) (remaining - chunk_len) total chunk_buf out out_max
  end.

Definition desfire_poller_i_read_file_data (s : option session) (file_id offset length : Z) (out : list Z) (out_max : Z)
    : M C (Z * list Z * Z) :=
  read_file_loop (Z.to_nat length) DESFIRE_CMD_READ_DATA s file_id offset length 0 (dl_buf u) out out_max.

Definition desfire_poller_i_read_file_records (s : option session) (file_id offset length : Z) (out : list Z) (out_max : Z)
    : M C (Z * list Z * Z) :=
  read_file_loop (Z.to_nat length) DESFIRE_CMD_READ_RECORDS s file_id offset length 0 (dl_buf u) out out_max.

Definition desfire_poller_i_read_file_value (s : option session) (file_id : Z) (out : list Z) (out_max : Z)
    : M C (Z * list Z * Z) :=
  '(ret, buf, n) ← desfire_poller_i_send_chunks s
    [DESFIRE_CLA_NATIVE; DESFIRE_CMD_GET_VALUE; 0x00; 0x00; 0x01; file_id] (dl_buf u) NFC_TRANSPORT_MAX_RESPONSE_LEN;
  if negb (ret =? 0) then mret (ret, out, 0) else
  if out_max <? n then mret (- ENOSPC, out, 0) else
  out ← lift (memcpy out 0 buf 0 n); mret (0, out, n).

(** ** The poller *)

Definition desfire_poller_select (s : option session) : M C Z :=
  '(ret, rx) ← desfire_poller_i_transceive s SELECT_AID;
  if negb (ret =? 0) then mret ret else
  if len rx <? 2 then mret (- EIO) else
  a ← lift (ld rx (len rx - 2)); b ← lift (ld rx (len rx - 1));
  if negb (a =? 0x90) || negb (b =? 0x00) then mret (- EIO) else mret 0.

Definition desfire_poller_parse_version (buf : list Z) (n : Z) (out : desfire_data_t) : option (Z * desfire_data_t) :=
  if n <? DESFIRE_VERSION_TOTAL_BYTES then Some (- EBADMSG, out) else
  hw ← memcpy (d_hw_version out) 0 buf 0 DESFIRE_VERSION_SIZE;
  sw ← memcpy (d_sw_version out) 0 buf DESFIRE_VERSION_SIZE DESFIRE_VERSION_SIZE;
  uid ← memcpy (d_uid out) 0 buf (DESFIRE_VERSION_SIZE * 2) DESFIRE_UID_SIZE;
  batch ← memcpy (d_batch out) 0 buf (DESFIRE_VERSION_SIZE * 2 + DESFIRE_UID_SIZE) DESFIRE_BATCH_SIZE;
  week ← ld buf (DESFIRE_VERSION_SIZE * 2 + DESFIRE_UID_SIZE + DESFIRE_BATCH_SIZE);
  year ← ld buf (DESFIRE_VERSION_SIZE * 2 + DESFIRE_UID_SIZE + DESFIRE_BATCH_SIZE + 1);
  Some (0, {| d_hw_version := hw; d_sw_version := sw; d_uid := uid; d_batch := batch; d_prod_week := week;
              d_prod_year := year; d_free_memory := d_free_memory out; d_master_key := d_master_key out;
              d_master_key_settings := d_master_key_settings out; d_app_count := d_app_count out; d_apps := d_apps out |}).

Definition desfire_poller_free_directory_list (key_settings : Z) : bool := negb (Z.land key_settings 0x08 =? 0).

Definition with_key_counts (ks kc fc : Z) (a : desfire_application_t) : desfire_application_t :=
  with_app_header (a_id a) ks kc fc a.

(** Reading the data of the file in [slot]: the return value, the data and [read_len]. *)
Definition read_slot (s : option session) (file_id file_size : Z) (fs : desfire_file_settings_t) (d : list Z)
    : M C (Z * list Z * Z) :=
  if fs_type fs =? DESFIRE_FILE_TYPE_VALUE then
    desfire_poller_i_read_file_value s file_id d CONFIG_NFC_DESFIRE_MAX_FILE_SIZE
  else if (fs_type fs =? DESFIRE_FILE_TYPE_LINEAR_REC) || (fs_type fs =? DESFIRE_FILE_TYPE_CYCLIC_REC) then
    desfire_poller_i_read_file_records s file_id 0 file_size d CONFIG_NFC_DESFIRE_MAX_FILE_SIZE
  else desfire_poller_i_read_file_data s file_id 0 file_size d CONFIG_NFC_DESFIRE_MAX_FILE_SIZE.

(** [n] more turns of the loop over the files, from [fi] on. *)
Fixpoint read_app_files (n : nat) (fi : Z) (s : option session) (file_ids : list Z) (app : desfire_application_t)
    : M C desfire_application_t :=
  match n with
  | O => mret app
  | S n =>
    let slot := a_file_count app in
    if CONFIG_NFC_DESFIRE_MAX_FILES_PER_APP <=? slot then mret app else
    id ← lift (ld file_ids fi);
    '(ret, fs, file_size) ← desfire_poller_i_read_file_settings s id (dl_fs u) 0;
    if negb (ret =? 0) then read_app_files n (fi + 1) s file_ids app else
    let t := fs_type fs in
    if negb (t =? DESFIRE_FILE_TYPE_STANDARD) && negb (t =? DESFIRE_FILE_TYPE_BACKUP) &&
       negb (t =? DESFIRE_FILE_TYPE_VALUE) && negb (t =? DESFIRE_FILE_TYPE_LINEAR_REC) &&
       negb (t =? DESFIRE_FILE_TYPE_CYCLIC_REC)
    then read_app_files n (fi + 1) s file_ids app else
    if negb (desfire_access_free_read (fs_access fs)) then read_app_files n (fi + 1) s file_ids app else
    if CONFIG_NFC_DESFIRE_MAX_FILE_SIZE <? file_size then read_app_files n (fi + 1) s file_ids app else
    ids ← lift (st (a_file_ids app) slot id);
    fss ← lift (st (a_file_settings app) slot fs);
    lens ← lift (st (a_file_data_len app) slot (u16 file_size));
    let app := with_files ids fss lens (a_file_data app) app in
    let counted app := with_key_counts (a_key_settings app) (a_key_count app) (u8 (a_file_count app + 1)) app in
    if 0 <? file_size then
      d ← lift (ld (a_file_data app) slot);
      '(ret, d, read_len) ← read_slot s id file_size fs d;
      dat ← lift (st (a_file_data app) slot d);
      let app := with_files (a_file_ids app) (a_file_settings app) (a_file_data_len app) dat app in
      if negb (ret =? 0) then read_app_files n (fi + 1) s file_ids app else
      lens ← lift (st (a_file_data_len app) slot (u16 read_len));
      read_app_files n (fi + 1) s file_ids
        (counted (with_files (a_file_ids app) (a_file_settings app) lens (a_file_data app) app))
    else read_app_files n (fi + 1) s file_ids (counted app)
  end.

Definition desfire_poller_read_application (s : option session) (app : desfire_application_t)
    : M C (Z * desfire_application_t) :=
  '(ret, key_settings, max_keys) ← desfire_poller_i_read_key_settings s 0 0;
  if ret =? DESFIRE_POLLER_I_AUTH then
    mret (0, with_key_counts (u8 (Z.land key_settings (u8 (Z.lnot 0x08)))) 0 0 app)
  else if negb (ret =? 0) then mret (ret, app) else
  let app := with_key_counts key_settings max_keys (a_file_count app) app in
  '(ret, file_ids, file_count) ← desfire_poller_i_read_file_ids s (dl_file_ids u) CONFIG_NFC_DESFIRE_MAX_FILES_PER_APP;
  if negb (ret =? 0) then mret (ret, app) else
  app ← read_app_files (Z.to_nat file_count) 0 s file_ids (with_key_counts (a_key_settings app) (a_key_count app) 0 app);
  mret (0, app).

Definition desfire_poller_detect (s : option session) : M C Z :=
  if match s with None => true | Some s => negb (ses_active s) end then mret (- EINVAL) else
  ret ← desfire_poller_select s;
  if negb (ret =? 0) then mret (- ENOTSUP) else
  '(ret, rx) ← desfire_poller_i_transceive s GET_KEY_VERSION;
  ok ← lift (if ret =? 0 then desfire_poller_i_status_ok rx DESFIRE_STATUS_OK else Some false);
  if negb ok then mret (- ENOTSUP) else
  '(ret, rx) ← desfire_poller_i_transceive s GET_VERSION;
  if negb (ret =? 0) then mret (- ENOTSUP) else
  ok ← lift (desfire_poller_i_status_ok rx DESFIRE_STATUS_OK);
  more ← lift (desfire_poller_i_status_ok rx DESFIRE_STATUS_ADDITIONAL_FRAME);
  if negb ok && negb more then mret (- ENOTSUP) else mret 0.

(** The variables of [desfire_poller_read] that its states share. *)
Record dp_vars := { pv_out : desfire_data_t; pv_app_ids : list Z; pv_app_id_count : Z }.

Definition with_out (d : desfire_data_t) (v : dp_vars) : dp_vars :=
  {| pv_out := d; pv_app_ids := pv_app_ids v; pv_app_id_count := pv_app_id_count v |}.
Definition with_master_settings (x : Z) (d : desfire_data_t) : desfire_data_t :=
  {| d_hw_version := d_hw_version d; d_sw_version := d_sw_version d; d_uid := d_uid d; d_batch := d_batch d;
     d_prod_week := d_prod_week d; d_prod_year := d_prod_year d; d_free_memory := d_free_memory d;
     d_master_key := d_master_key d; d_master_key_settings := x; d_app_count := d_app_count d; d_apps := d_apps d |}.

(** [n] more turns of the loop over the applications, from [ai] on. *)
Fixpoint read_card_apps (n : nat) (ai : Z) (s : option session) (app_ids : list Z) (out : desfire_data_t)
    : M C desfire_data_t :=
  match n with
  | O => mret out
  | S n =>
    if CONFIG_NFC_DESFIRE_MAX_APPS <=? d_app_count out then mret out else
    aid ← lift (sub app_ids (ai * DESFIRE_APP_ID_SIZE) DESFIRE_APP_ID_SIZE);
    ret ← desfire_poller_i_select_application s aid;
    if negb (ret =? 0) then read_card_apps n (ai + 1) s app_ids out else
    app ← lift (ld (d_apps out) (d_app_count out));
    aid' ← lift (memcpy (a_id app) 0 aid 0 DESFIRE_APP_ID_SIZE);
    '(ret, app) ← desfire_poller_read_application s
                    (with_app_header aid' (a_key_settings app) (a_key_count app) (a_file_count app) app);
    apps ← lift (st (d_apps out) (d_app_count out) app);
    if negb (ret =? 0) then read_card_apps n (ai + 1) s app_ids (with_apps (d_app_count out) apps out) else
    read_card_apps n (ai + 1) s app_ids (with_apps (u8 (d_app_count out + 1)) apps out)
  end.

(** One turn of the state machine: the value of an early return and what [out] holds then, or
    the next state. *)
Definition desfire_poller_turn (s : option session) (st : desfire_poller_state_t) (v : dp_vars)
    : M C ((Z * desfire_data_t) + (desfire_poller_state_t * dp_vars)) :=
  match st with
  | DESFIRE_POLLER_STATE_READ_VERSION =>
    '(ret, version_buf, n) ← desfire_poller_i_send_chunks s GET_VERSION (dl_version_buf u) DESFIRE_VERSION_TOTAL_BYTES;
    if negb (ret =? 0) then mret (inl (ret, pv_out v)) else
    '(ret, out) ← lift (desfire_poller_parse_version version_buf n (pv_out v));
    if negb (ret =? 0) then mret (inl (ret, out)) else
    mret (inr (DESFIRE_POLLER_STATE_READ_FREE_MEMORY, with_out out v))
  | DESFIRE_POLLER_STATE_READ_FREE_MEMORY =>
    '(ret, rx) ← desfire_poller_i_transceive s GET_FREE_MEMORY;
    ok ← lift (if ret =? 0 then desfire_poller_i_status_ok rx DESFIRE_STATUS_OK else Some false);
    out ← lift (if ok && (6 <=? len rx) then
                  m0 ← ld rx 0; m1 ← ld rx 1; m2 ← ld rx 2; m3 ← ld rx 3;
                  Some (with_free_memory (le32 m0 m1 m2 m3) (pv_out v))
                else Some (pv_out v));
    mret (inr (DESFIRE_POLLER_STATE_READ_MASTER_KEY_SETTINGS, with_out out v))
  | DESFIRE_POLLER_STATE_READ_MASTER_KEY_SETTINGS =>
    '(ret, rx) ← desfire_poller_i_transceive s GET_KEY_SETTINGS;
    ok ← lift (if ret =? 0 then desfire_poller_i_status_ok rx DESFIRE_STATUS_OK else Some false);
    let next (free_directory : bool) out :=
      inr (if free_directory then DESFIRE_POLLER_STATE_READ_APPLICATION_IDS else DESFIRE_POLLER_STATE_DONE, with_out out v) in
    if ok && (3 <=? len rx) then
      k ← lift (ld rx 0);
      mret (next (desfire_poller_free_directory_list k) (with_master_settings k (pv_out v)))
    else
      denied ← lift (if (ret =? 0) && (2 <=? len rx)
                     then b ← ld rx (len rx - 1); Some (b =? DESFIRE_STATUS_AUTH_ERROR) else Some false);
      if denied : bool then mret (next false (with_master_settings 0 (pv_out v))) else
      if negb (ret =? 0) then mret (inl (ret, pv_out v)) else mret (next false (pv_out v))
  | DESFIRE_POLLER_STATE_READ_APPLICATION_IDS =>
    '(ret, ids, n) ← desfire_poller_i_read_application_ids s (pv_app_ids v)
                       (CONFIG_NFC_DESFIRE_MAX_APPS * DESFIRE_APP_ID_SIZE);
    if ret =? DESFIRE_POLLER_I_AUTH then mret (inr (DESFIRE_POLLER_STATE_DONE, v)) else
    if negb (ret =? 0) then mret (inl (ret, pv_out v)) else
    mret (inr (if n =? 0 then DESFIRE_POLLER_STATE_DONE else DESFIRE_POLLER_STATE_READ_APPLICATIONS,
               {| pv_out := pv_out v; pv_app_ids := ids; pv_app_id_count := n |}))
  | DESFIRE_POLLER_STATE_READ_APPLICATIONS =>
    out ← read_card_apps (Z.to_nat (pv_app_id_count v)) 0 s (pv_app_ids v) (with_apps 0 (d_apps (pv_out v)) (pv_out v));
    mret (inr (DESFIRE_POLLER_STATE_DONE, with_out out v))
  | DESFIRE_POLLER_STATE_DONE => mret (inr (DESFIRE_POLLER_STATE_DONE, v))
  end.

(** The loop: each turn moves to a later state, so five turns reach the last one. *)
Fixpoint desfire_poller_loop (n : nat) (s : option session) (st : desfire_poller_state_t) (v : dp_vars)
    : M C (Z * desfire_data_t) :=
  match st, n with
  | DESFIRE_POLLER_STATE_DONE, _ => mret (0, pv_out v)
  | _, O => lift None
  | _, S n =>
    r ← desfire_poller_turn s st v;
    match r with inl e => mret e | inr (st, v) => desfire_poller_loop n s st v end
  end.

Definition desfire_poller_read (s : option session) (out : option desfire_data_t) : M C (Z * option desfire_data_t) :=
  match s, out with
  | None, _ | _, None => mret (- EINVAL, out)
  | Some _, Some _ =>
    ret ← desfire_poller_select s;
    if negb (ret =? 0) then mret (ret, Some desfire_zero) else
    '(ret, rx) ← desfire_poller_i_transceive s GET_KEY_VERSION;
    ok ← lift (if ret =? 0 then desfire_poller_i_status_ok rx DESFIRE_STATUS_OK else Some false);
    if negb ok then mret (- EIO, Some desfire_zero) else
    '(ret, d) ← desfire_poller_loop 5 s DESFIRE_POLLER_STATE_READ_VERSION
      {| pv_out := desfire_zero; pv_app_ids := dl_app_ids u; pv_app_id_count := 0 |};
    mret (ret, Some d)
  end.
End DesfirePoller.

(** ** Safety against any card *)

(** *** The pieces *)

Section DesfirePollerParts.
Context `{KconfigRanges}.

Definition array_ok (n : Z) (l : list Z) : Prop := len l = n ∧ bytes l.

Lemma array_memcpy n dst doff src soff k : array_ok n dst → bytes src → 0 <= doff → 0 <= soff → 0 <= k →
  doff + k <= n → soff + k <= len src → ∃ r, memcpy dst doff src soff k = Some r ∧ array_ok n r.
Proof.
  intros [Hn Hb] Hs ? ? ? ? ?. destruct (memcpy_fits dst doff src soff k) as (r & Hr & Hl & Hrb); [lia..|].
  exists r. split; [done|]. split; [by rewrite Hl|auto].
Qed.

(** The last two bytes of an answer. *)
Lemma status_ok_eq rx sw : 2 <= len rx → ∃ a b l, rx = l ++ [a; b] ∧ len rx = len l + 2 ∧
  desfire_poller_i_status_ok rx sw = Some ((a =? DESFIRE_SW1) && (b =? sw)) ∧
  desfire_poller_i_status_to_errno rx = Some (if b =? DESFIRE_STATUS_AUTH_ERROR then DESFIRE_POLLER_I_AUTH else - EIO) ∧
  ld rx (len rx - 1) = Some b.
Proof.
  intros Hl. destruct rx as [|b k _] using rev_ind; [done|]. destruct k as [|a l _] using rev_ind; [done|].
  exists a, b, l. rewrite <-(assoc_L (++)). split; [done|]. pose proof (len_nonneg l). split; [llia|].
  assert (ld (l ++ [a] ++ [b]) (len l) = Some a) as Ha by (by apply (ld_mid l)).
  assert (ld (l ++ [a] ++ [b]) (len l + 1) = Some b) as Hb.
  { rewrite (assoc_L (++)). apply (ld_mid (l ++ [a])). llia. }
  assert (len (l ++ [a] ++ [b]) = len l + 2) as E by llia.
  unfold desfire_poller_i_status_ok, desfire_poller_i_status_to_errno. rewrite E, (proj2 (Z.ltb_ge _ _)) by lia.
  replace (len l + 2 - 2) with (len l) by lia. replace (len l + 2 - 1) with (len l + 1) by lia. rewrite Ha, Hb. by mred.
Qed.

Lemma status_total rx sw : ∃ b, desfire_poller_i_status_ok rx sw = Some b ∧ (b = true → 2 <= len rx).
Proof.
  destruct (Z.ltb_spec (len rx) 2) as [Hl|Hl].
  - exists false. unfold desfire_poller_i_status_ok. by rewrite (proj2 (Z.ltb_lt _ _)).
  - destruct (status_ok_eq rx sw Hl) as (a & b & l & _ & _ & -> & _). by eexists.
Qed.

Lemma errno_total rx : ∃ e, desfire_poller_i_status_to_errno rx = Some e ∧ e ≠ 0.
Proof.
  destruct (Z.ltb_spec (len rx) 2) as [Hl|Hl].
  - exists (- EIO). unfold desfire_poller_i_status_to_errno. by rewrite (proj2 (Z.ltb_lt _ _)).
  - destruct (status_ok_eq rx 0 Hl) as (a & b & l & _ & _ & _ & -> & _). eexists. split; [done|]. by case_bool.
Qed.

(** The settings of a file: every type that is accepted comes with a size. *)
Lemma parse_settings_total buf n fs size : array_ok 255 buf → n <= 255 → settings_ok fs → 0 <= size < 4294967296 →
  ∃ ret fs' size', desfire_poller_i_parse_file_settings buf n fs size = Some (ret, fs', size') ∧
    settings_ok fs' ∧ 0 <= size' < 4294967296.
Proof.
  intros [Hl Hb] Hn Hfs Hs. unfold desfire_poller_i_parse_file_settings.
  destruct (Z.ltb_spec n 7); [by eexists _, _, _|].
  assert (∀ k, 0 <= k < 8 → ∃ b, ld buf k = Some b ∧ is_byte b) as Hld.
  { intros k Hk. destruct (ld_Some buf k) as [b E]; [lia|]. exists b. split; [done|by eapply ld_byte]. }
  destruct (Hld 0 ltac:(lia)) as (t & -> & Bt). destruct (Hld 1 ltac:(lia)) as (c & -> & Bc).
  destruct (Hld 2 ltac:(lia)) as (a0 & -> & Ba0). destruct (Hld 3 ltac:(lia)) as (a1 & -> & Ba1).
  destruct (Hld 4 ltac:(lia)) as (b0 & -> & B0). destruct (Hld 5 ltac:(lia)) as (b1 & -> & B1).
  destruct (Hld 6 ltac:(lia)) as (b2 & -> & B2). destruct (Hld 7 ltac:(lia)) as (b3 & -> & B3). mred.
  assert (0 <= le16 a0 a1 < 65536) as Hac by apply u16_range. destruct Hfs.
  pose proof (le24_eq b0 b1 b2 B0 B1 B2) as E24. pose proof (le32_eq b0 b1 b2 b3 B0 B1 B2 B3) as E32.
  unfold is_byte in *. repeat case_bool; eexists _, _, _; (split; [done|]); (split; [|lia]);
    constructor; cbn [fs_type fs_comm fs_access fs_word0 with_common with_word0 with_records]; unfold is_byte; (done || lia).
Qed.

(** An application whose arrays are intact; a card may report any number of keys. *)
Definition keyed (kc : Z) (a : desfire_application_t) : desfire_application_t :=
  with_app_header (a_id a) (a_key_settings a) kc (a_file_count a) a.
Definition app_intact (a : desfire_application_t) : Prop := is_byte (a_key_count a) ∧ image_app_ok (keyed 0 a).

Lemma intact_header ids ks kc fc a : app_intact a → array_ok DESFIRE_APP_ID_SIZE ids → is_byte ks → is_byte kc →
  0 <= fc <= CONFIG_NFC_DESFIRE_MAX_FILES_PER_APP → app_intact (with_app_header ids ks kc fc a).
Proof. intros [_ []] ? ? ? ?. split; [done|]. constructor; try done. Qed.

Lemma intact_id a : app_intact a → array_ok DESFIRE_APP_ID_SIZE (a_id a).
Proof. by intros [_ []]. Qed.

Lemma intact_ok a : app_intact a → a_key_count a <= DESFIRE_MAX_KEYS → image_app_ok a.
Proof. intros [Hk []] ?. unfold is_byte in Hk. constructor; (done || lia). Qed.

(** Storing what was read of the file in a slot. *)
Lemma intact_data slot d a : app_intact a → 0 <= slot < CONFIG_NFC_DESFIRE_MAX_FILES_PER_APP →
  array_ok CONFIG_NFC_DESFIRE_MAX_FILE_SIZE d →
  st (a_file_data a) slot d = Some (<[Z.to_nat slot:=d]> (a_file_data a)) ∧
  app_intact (with_files (a_file_ids a) (a_file_settings a) (a_file_data_len a) (<[Z.to_nat slot:=d]> (a_file_data a)) a).
Proof.
  intros [Hk []] Hs Hd. destruct ia_data as [Ld Od]. cbn [a_file_data keyed with_app_header] in *.
  split; [apply st_ok; lia|]. split; [done|]. constructor; try done.
  split; cbn; [by rewrite len_insert|by apply Forall_insert].
Qed.

Lemma intact_len slot n a : app_intact a → 0 <= slot < CONFIG_NFC_DESFIRE_MAX_FILES_PER_APP →
  0 <= n <= CONFIG_NFC_DESFIRE_MAX_FILE_SIZE →
  st (a_file_data_len a) slot n = Some (<[Z.to_nat slot:=n]> (a_file_data_len a)) ∧
  app_intact (with_files (a_file_ids a) (a_file_settings a) (<[Z.to_nat slot:=n]> (a_file_data_len a)) (a_file_data a) a).
Proof.
  intros [Hk []] Hs Hn. destruct ia_lens as [Ll Ol]. cbn [a_file_data_len keyed with_app_header] in *.
  split; [apply st_ok; lia|]. split; [done|]. constructor; try done.
  split; cbn; [by rewrite len_insert|by apply Forall_insert].
Qed.

Lemma intact_slot slot id fs n a : app_intact a → 0 <= slot < CONFIG_NFC_DESFIRE_MAX_FILES_PER_APP →
  is_byte id → settings_ok fs → 0 <= n <= CONFIG_NFC_DESFIRE_MAX_FILE_SIZE →
  st (a_file_ids a) slot id = Some (<[Z.to_nat slot:=id]> (a_file_ids a)) ∧
  st (a_file_settings a) slot fs = Some (<[Z.to_nat slot:=fs]> (a_file_settings a)) ∧
  st (a_file_data_len a) slot n = Some (<[Z.to_nat slot:=n]> (a_file_data_len a)) ∧
  app_intact (with_files (<[Z.to_nat slot:=id]> (a_file_ids a)) (<[Z.to_nat slot:=fs]> (a_file_settings a))
    (<[Z.to_nat slot:=n]> (a_file_data_len a)) (a_file_data a) a).
Proof.
  intros Ha Hs Hid Hfs Hn. destruct (intact_len slot n a Ha Hs Hn) as [El Hl].
  destruct Ha as [Hk []]. destruct ia_ids as [Li Bi], ia_fs as [Lf Of]. cbn [a_file_ids a_file_settings keyed with_app_header] in *.
  split; [apply st_ok; lia|]. split; [apply st_ok; lia|]. split; [done|]. destruct Hl as [_ []].
  split; [done|]. constructor; try done; split; cbn; rewrite ?len_insert; try done; [by apply bytes_insert|by apply Forall_insert].
Qed.

Definition card_intact (d : desfire_data_t) : Prop :=
  image_ok (with_apps (d_app_count d) (keyed 0 <$> d_apps d) d) ∧ Forall (λ a, is_byte (a_key_count a)) (d_apps d).

Lemma intact_forall apps : Forall app_intact apps ↔
  Forall (λ a, is_byte (a_key_count a)) apps ∧ Forall image_app_ok (keyed 0 <$> apps).
Proof. rewrite Forall_fmap, !Forall_forall. unfold app_intact, compose. naive_solver. Qed.

Lemma intact_image d : card_intact d → Forall (λ a, a_key_count a <= DESFIRE_MAX_KEYS) (d_apps d) → image_ok d.
Proof.
  intros [[] Hb] Hk. destruct io_apps as [Hl Ha]. cbn [d_apps with_apps] in *. rewrite len_fmap in Hl. constructor; try done.
  split; [done|]. assert (Forall app_intact (d_apps d)) as Hi by (by apply intact_forall).
  eapply Forall_impl; [|exact (Forall_and Hi Hk)]. intros a []. by apply intact_ok.
Qed.

Lemma intact_card_apps d : card_intact d →
  len (d_apps d) = CONFIG_NFC_DESFIRE_MAX_APPS ∧ Forall app_intact (d_apps d) ∧ 0 <= d_app_count d <= CONFIG_NFC_DESFIRE_MAX_APPS.
Proof.
  intros [[] Hb]. destruct io_apps as [Hl Ha]. cbn [d_apps with_apps d_app_count] in *. rewrite len_fmap in Hl.
  split; [done|]. split; [by apply intact_forall|done].
Qed.

Lemma intact_with_apps d n apps : card_intact d → 0 <= n <= CONFIG_NFC_DESFIRE_MAX_APPS →
  len apps = CONFIG_NFC_DESFIRE_MAX_APPS → Forall app_intact apps → card_intact (with_apps n apps d).
Proof.
  intros [[] _] Hn Hl [Hk Ha]%intact_forall. split; [|done]. constructor; try done. cbn. by rewrite len_fmap.
Qed.

Lemma intact_zero : card_intact desfire_zero.
Proof.
  pose proof desfire_max_apps_range. pose proof application_zero_ok as Hz.
  assert (Forall app_intact (d_apps desfire_zero)) as Hf.
  { apply Forall_replicate. split; [done|]. by destruct Hz. }
  apply intact_forall in Hf as [Hk Ha]. split; [|done]. constructor; try (split; [done|apply bytes_zeros]); try done; [cbn; lia|].
  split; [|done]. change (len (keyed 0 <$> d_apps desfire_zero) = CONFIG_NFC_DESFIRE_MAX_APPS).
  rewrite len_fmap. cbn. rewrite len_replicate. lia.
Qed.

Lemma intact_memory m d : card_intact d → 0 <= m < 4294967296 → card_intact (with_free_memory m d).
Proof. intros [[] Hk] ?. split; [|done]. by constructor. Qed.

Lemma intact_master k d : card_intact d → is_byte k → card_intact (with_master_settings k d).
Proof. intros [[] Hk] ?. split; [|done]. by constructor. Qed.

Lemma parse_version_total buf n out : array_ok DESFIRE_VERSION_TOTAL_BYTES buf → card_intact out →
  ∃ ret out', desfire_poller_parse_version buf n out = Some (ret, out') ∧ card_intact out'.
Proof.
  intros Hb [[] Hk]. unfold desfire_poller_parse_version. case_bool; [by eexists _, _|].
  pose proof (proj1 Hb) as Hl. unfold DESFIRE_VERSION_TOTAL_BYTES in Hl.
  unfold DESFIRE_VERSION_SIZE, DESFIRE_UID_SIZE, DESFIRE_BATCH_SIZE.
  destruct (array_memcpy 7 (d_hw_version out) 0 buf 0 7) as (hw & -> & ?); [done|apply Hb|lia..|].
  destruct (array_memcpy 7 (d_sw_version out) 0 buf 7 7) as (sw & -> & ?); [done|apply Hb|lia..|].
  destruct (array_memcpy 7 (d_uid out) 0 buf (7 * 2) 7) as (uid & -> & ?); [done|apply Hb|lia..|].
  destruct (array_memcpy 5 (d_batch out) 0 buf (7 * 2 + 7) 5) as (batch & -> & ?); [done|apply Hb|lia..|].
  destruct (ld_Some buf (7 * 2 + 7 + 5)) as [week Ew]; [lia|]. destruct (ld_Some buf (7 * 2 + 7 + 5 + 1)) as [year Ey]; [lia|].
  mred. rewrite Ew, Ey. mred.
  eexists _, _. split; [done|]. split; [|done]. constructor; try done. split; by eapply ld_byte; [apply Hb|].
Qed.
End DesfirePollerParts.

Section DesfirePollerSafe.
Context `{KconfigRanges} {C : Type} (tag_transceive : list Z → M C (Z * list Z)) (u : dp_locals).

(** What the transport and the card promise while [R] holds: an exchange returns, with at most a
    response buffer of bytes, which is not a further frame without data; and [R] holds again. *)
Class FramesProgress (R : C → Prop) : Prop := {
  frame_progress tx c : R c → bytes tx → ensures (tag_transceive tx) c (λ '(ret, rx) c',
    R c' ∧ bytes rx ∧ len rx <= NFC_TRANSPORT_MAX_RESPONSE_LEN ∧
    rx ≠ [DESFIRE_SW1; DESFIRE_STATUS_ADDITIONAL_FRAME]);
}.

Record dp_locals_ok : Prop := {
  do_buf : array_ok NFC_TRANSPORT_MAX_RESPONSE_LEN (dl_buf u);
  do_version : array_ok DESFIRE_VERSION_TOTAL_BYTES (dl_version_buf u);
  do_app_ids : array_ok (CONFIG_NFC_DESFIRE_MAX_APPS * DESFIRE_APP_ID_SIZE) (dl_app_ids u);
  do_file_ids : array_ok CONFIG_NFC_DESFIRE_MAX_FILES_PER_APP (dl_file_ids u);
  do_fs : settings_ok (dl_fs u);
}.

Context (R : C → Prop) `{!FramesProgress R} (Hu : dp_locals_ok) (fuel : nat) (Hfuel : (256 <= fuel)%nat).
Context (s : option session).

Lemma dtransceive_total tx c : R c → bytes tx →
  ensures (desfire_poller_i_transceive tag_transceive s tx) c (λ '(ret, rx) c',
    R c' ∧ bytes rx ∧ len rx <= NFC_TRANSPORT_MAX_RESPONSE_LEN ∧ rx ≠ [DESFIRE_SW1; DESFIRE_STATUS_ADDITIONAL_FRAME]).
Proof.
  intros Hc Hb. unfold desfire_poller_i_transceive. eapply ensures_bind with (Q := λ '(ret, rx) c',
    R c' ∧ bytes rx ∧ len rx <= NFC_TRANSPORT_MAX_RESPONSE_LEN ∧ rx ≠ [DESFIRE_SW1; DESFIRE_STATUS_ADDITIONAL_FRAME]).
  { unfold nfc_reader_session_transceive. destruct s as [s'|]; [|by apply ensures_ret; split_and!; [|apply Forall_nil_2|vm_compute|]].
    destruct (ses_active s'); cbn [negb]; [by apply frame_progress|].
    by apply ensures_ret; split_and!; [|apply Forall_nil_2|vm_compute|]. }
  intros [ret rx] c' (Hc' & Hrx & Hl & Hp). case_bool; [by apply ensures_ret|].
  rewrite (proj2 (Z.ltb_ge _ _)) by done. by apply ensures_ret.
Qed.

(** A chained answer: every further frame brings a byte, so the turns are enough. *)
Lemma chunks_total m : ∀ n rx total out c, R c → bytes rx → len rx <= NFC_TRANSPORT_MAX_RESPONSE_LEN →
  rx ≠ [DESFIRE_SW1; DESFIRE_STATUS_ADDITIONAL_FRAME] → array_ok m out → 0 <= total <= m → m - total < Z.of_nat n →
  ensures (send_chunks_loop tag_transceive n s rx total out m) c (λ '(ret, out', total') c',
    R c' ∧ array_ok m out' ∧ 0 <= total' <= m).
Proof.
  induction n as [|n IH]; intros rx total out c Hc Hb Hl Hne Ho Ht Hn; [lia|]. cbn [send_chunks_loop].
  destruct (Z.ltb_spec (len rx) 2) as [|Hr]; [by apply ensures_ret|]. cbv zeta.
  destruct (Z.ltb_spec m (total + (len rx - 2))); [by apply ensures_ret|].
  assert (∃ out', (if 0 <? len rx - 2 then memcpy out total rx 0 (len rx - 2) else Some out) = Some out' ∧ array_ok m out')
    as (out' & -> & Ho').
  { case_bool; [|by exists out]. apply array_memcpy; (done || lia). }
  unfold ensures. rewrite run_lift_Some.
  destruct (status_ok_eq rx DESFIRE_STATUS_OK Hr) as (a & b & l & E & El & -> & Herr & _). rewrite run_lift_Some.
  case_bool; [apply ensures_ret; split_and!; (done || lia)|].
  destruct (status_ok_eq rx DESFIRE_STATUS_ADDITIONAL_FRAME Hr) as (a' & b' & l' & E' & El' & -> & _). rewrite run_lift_Some.
  rewrite E in E'. apply app_inj_2 in E' as [<- [= <- <-]]; [|done].
  case_bool; [rewrite Herr, run_lift_Some; apply ensures_ret; split_and!; (done || lia)|].
  assert (0 < len l).
  { destruct l; [|rewrite len_cons; pose proof (len_nonneg l); lia]. bool_prop. subst. by destruct Hne. }
  eapply ensures_bind; [by apply dtransceive_total; [|bytes_list]|]. intros [ret rx'] c' (Hc' & Hb' & Hl' & Hne').
  case_bool; [apply ensures_ret; split_and!; (done || lia)|]. apply IH; (done || lia).
Qed.

Lemma send_chunks_total tx m out c : R c → bytes tx → array_ok m out → m <= 255 →
  ensures (desfire_poller_i_send_chunks tag_transceive fuel s tx out m) c (λ '(ret, out', n) c',
    R c' ∧ array_ok m out' ∧ 0 <= n <= m).
Proof.
  intros Hc Hb Ho Hm. pose proof (len_nonneg out). assert (0 <= m) by (by rewrite <-(proj1 Ho)).
  eapply ensures_bind; [by apply dtransceive_total|]. intros [ret rx] c' (Hc' & Hbr & Hl & Hp).
  case_bool; [apply ensures_ret; split_and!; (done || lia)|]. apply chunks_total; (done || lia).
Qed.

(** *** Commands *)

Definition sent (m : Z) (r : Z * list Z * Z) (c' : C) : Prop := R c' ∧ array_ok m r.1.2 ∧ 0 <= r.2 <= m.

Lemma buf_chunks tx c : R c → bytes tx →
  ensures (desfire_poller_i_send_chunks tag_transceive fuel s tx (dl_buf u) NFC_TRANSPORT_MAX_RESPONSE_LEN) c
    (sent NFC_TRANSPORT_MAX_RESPONSE_LEN).
Proof.
  intros Hc Hb. eapply ensures_weaken; [by apply send_chunks_total; [..|apply Hu|]|]. by intros [[ret b] n] c' (? & ? & ?).
Qed.

Lemma application_ids_total ids m c : R c → array_ok m ids →
  ensures (desfire_poller_i_read_application_ids tag_transceive u fuel s ids m) c (λ '(ret, ids', n) c',
    R c' ∧ array_ok m ids' ∧ 0 <= n <= CONFIG_NFC_DESFIRE_MAX_APPS).
Proof.
  intros Hc Hi. pose proof desfire_max_apps_range. eapply ensures_bind; [apply buf_chunks; [done|bytes_list]|].
  intros [[ret buf] n] c' (Hc' & Hb & Hn). cbn [fst snd] in *. unfold NFC_TRANSPORT_MAX_RESPONSE_LEN in *.
  case_bool; [apply ensures_ret; split_and!; (done || lia)|]. case_bool; [apply ensures_ret; split_and!; (done || lia)|].
  cbv zeta. pose proof (u8_range (n / DESFIRE_APP_ID_SIZE)) as Hu8. unfold is_byte in Hu8.
  destruct (Z.ltb_spec m n); [apply ensures_ret; split_and!; (done || lia)|].
  destruct (array_memcpy m ids 0 buf 0 n) as (r & -> & Hr); [done|apply Hb|lia|lia|lia|lia|by rewrite (proj1 Hb); lia|].
  unfold ensures. rewrite run_lift_Some. eexists (_, _, _), c'. split; [done|]. split_and!; [done|by destruct Hr..| |];
    destruct (Z.ltb_spec CONFIG_NFC_DESFIRE_MAX_APPS (u8 (n / DESFIRE_APP_ID_SIZE))); lia.
Qed.

Lemma select_application_total aid c : R c → array_ok DESFIRE_APP_ID_SIZE aid →
  ensures (desfire_poller_i_select_application tag_transceive s aid) c (λ _ c', R c').
Proof.
  intros Hc [Hl Hb]. unfold desfire_poller_i_select_application.
  destruct (array_memcpy 8 [DESFIRE_CLA_NATIVE; DESFIRE_CMD_SELECT_APPLICATION; 0x00; 0x00; DESFIRE_APP_ID_SIZE; 0; 0; 0] 5
    aid 0 DESFIRE_APP_ID_SIZE) as (tx & -> & Htx); [split; [done|bytes_list]|done|done|done|done|done|by rewrite Hl|].
  unfold ensures. rewrite run_lift_Some. eapply ensures_bind; [by apply dtransceive_total; [|apply Htx]|].
  intros [ret rx] c' (Hc' & _). case_bool; [by apply ensures_ret|].
  destruct (status_total rx DESFIRE_STATUS_OK) as (ok & -> & _). unfold ensures. rewrite run_lift_Some.
  destruct ok; cbn [negb]; [by eexists _, _|]. destruct (errno_total rx) as (e & -> & _). by eexists _, _.
Qed.

Lemma key_settings_total a b c : R c → is_byte a → is_byte b →
  ensures (desfire_poller_i_read_key_settings tag_transceive u fuel s a b) c (λ '(ret, a', b') c',
    R c' ∧ is_byte a' ∧ is_byte b').
Proof.
  intros Hc Ha Hb. eapply ensures_bind; [apply buf_chunks; [done|bytes_list]|].
  intros [[ret buf] n] c' (Hc' & [Hl Hbuf] & Hn). cbn [fst snd] in *.
  case_bool; [by apply ensures_ret|]. destruct (Z.ltb_spec n 2); [by apply ensures_ret|].
  destruct (ld_Some buf 0) as [x Ex]; [lia|]. destruct (ld_Some buf 1) as [y Ey]; [lia|].
  unfold ensures. rewrite Ex, Ey, !run_lift_Some. eexists (_, _, _), c'. split; [done|].
  split_and!; [done|by eapply ld_byte..].
Qed.

Lemma file_ids_total ids m c : R c → array_ok m ids →
  ensures (desfire_poller_i_read_file_ids tag_transceive u fuel s ids m) c (λ '(ret, ids', n) c',
    R c' ∧ array_ok m ids' ∧ 0 <= n <= m).
Proof.
  intros Hc Hi. assert (0 <= m) by (rewrite <-(proj1 Hi); apply len_nonneg).
  eapply ensures_bind; [apply buf_chunks; [done|bytes_list]|].
  intros [[ret buf] n] c' (Hc' & Hb & Hn). cbn [fst snd] in *. unfold NFC_TRANSPORT_MAX_RESPONSE_LEN in *.
  repeat (case_bool; [apply ensures_ret; split_and!; (done || lia)|]). bool_prop.
  destruct (array_memcpy m ids 0 buf 0 n) as (r & -> & Hr); [done|apply Hb|lia|lia|lia|lia|by rewrite (proj1 Hb); lia|].
  unfold ensures. rewrite run_lift_Some. eexists (_, _, _), c'. split; [done|].
  split; [done|]. split; [done|]. unfold u8. rewrite Z.mod_small; lia.
Qed.

Lemma file_settings_total id fs size c : R c → is_byte id → settings_ok fs → 0 <= size < 4294967296 →
  ensures (desfire_poller_i_read_file_settings tag_transceive u fuel s id fs size) c (λ '(ret, fs', size') c',
    R c' ∧ settings_ok fs' ∧ 0 <= size' < 4294967296).
Proof.
  intros Hc Hid Hfs Hs. eapply ensures_bind; [apply buf_chunks; [done|]|].
  { do 5 (apply Forall_cons_2; [by vm_compute|]). by apply Forall_cons_2. }
  intros [[ret buf] n] c' (Hc' & Hb & Hn). cbn [fst snd] in *.
  case_bool; [by apply ensures_ret|].
  destruct (parse_settings_total buf n fs size Hb ltac:(apply Hn) Hfs Hs) as (r & fs' & size' & -> & ? & ?).
  by eexists (_, _, _), c'.
Qed.

(** Reading a range: the turns are enough since every turn that goes on has read a byte.  What a
    card sends beyond the chunk that was asked for is bounded by what remains, so the range has to
    fit [out]. *)
Lemma read_file_total cmd m : is_byte cmd → ∀ n id off remaining total chunk out c, R c → is_byte id →
  array_ok 255 chunk → array_ok m out → 0 <= total → remaining <= Z.of_nat n → total + remaining <= m → total <= m →
  ensures (read_file_loop tag_transceive fuel n cmd s id off remaining total chunk out m) c (λ '(ret, out', n') c',
    R c' ∧ array_ok m out' ∧ 0 <= n' <= m).
Proof.
  intros Hcmd. induction n as [|n IH]; intros id off remaining total chunk out c Hc Hid Hch Ho Ht Hn Hm Htm;
    cbn [read_file_loop]; [by apply ensures_ret|].
  destruct (Z.leb_spec remaining 0); [by apply ensures_ret|]. cbv zeta.
  set (cs := if NFC_TRANSPORT_MAX_RESPONSE_LEN - 2 <? remaining then NFC_TRANSPORT_MAX_RESPONSE_LEN - 2 else remaining).
  assert (1 <= cs <= remaining) as Hcs by (unfold cs, NFC_TRANSPORT_MAX_RESPONSE_LEN; case_bool; bool_prop; lia).
  destruct (Z.ltb_spec m (total + cs)); [by apply ensures_ret|].
  eapply ensures_bind; [apply send_chunks_total; [done| |exact Hch|done]|].
  { repeat (apply Forall_cons_2; [first [done|apply byte_at_range|by vm_compute]|]). apply Forall_nil_2. }
  intros [[ret chunk'] cl] c' (Hc' & Hch' & Hcl). case_bool; [by apply ensures_ret|].
  destruct (Z.ltb_spec remaining cl); [by apply ensures_ret|].
  destruct (array_memcpy m out total chunk' 0 cl) as (out' & -> & Ho'); [done|apply Hch'|lia|lia|lia|lia|by rewrite (proj1 Hch'); lia|].
  unfold ensures. rewrite run_lift_Some.
  destruct (Z.ltb_spec cl cs); [by eexists (_, _, _), c'; split_and!; [done|done|apply Ho'..|lia|lia]|].
  apply IH; (done || lia).
Qed.

Lemma read_value_total id out m c : R c → is_byte id → array_ok m out →
  ensures (desfire_poller_i_read_file_value tag_transceive u fuel s id out m) c (λ '(ret, out', n') c',
    R c' ∧ array_ok m out' ∧ 0 <= n' <= m).
Proof.
  intros Hc Hid Ho. assert (0 <= m) by (rewrite <-(proj1 Ho); apply len_nonneg).
  eapply ensures_bind; [apply buf_chunks; [done|]|].
  { do 5 (apply Forall_cons_2; [by vm_compute|]). by apply Forall_cons_2. }
  intros [[ret buf] n] c' (Hc' & Hb & Hn). cbn [fst snd] in *. unfold NFC_TRANSPORT_MAX_RESPONSE_LEN in *.
  repeat (case_bool; [apply ensures_ret; split_and!; (done || lia)|]). bool_prop.
  destruct (array_memcpy m out 0 buf 0 n) as (r & -> & Hr); [done|apply Hb|lia|lia|lia|lia|by rewrite (proj1 Hb); lia|].
  unfold ensures. rewrite run_lift_Some. eexists (_, _, _), c'. split; [done|]. split; [done|]. split; [done|lia].
Qed.

(** *** Applications and the card *)

Lemma read_slot_total id size fs d c : R c → is_byte id → 0 <= size <= CONFIG_NFC_DESFIRE_MAX_FILE_SIZE →
  array_ok CONFIG_NFC_DESFIRE_MAX_FILE_SIZE d →
  ensures (read_slot tag_transceive u fuel s id size fs d) c (λ '(ret, d', n) c',
    R c' ∧ array_ok CONFIG_NFC_DESFIRE_MAX_FILE_SIZE d' ∧ 0 <= n <= CONFIG_NFC_DESFIRE_MAX_FILE_SIZE).
Proof.
  intros Hc Hid Hs Hd. unfold read_slot. case_bool; [by apply read_value_total|].
  case_bool; (apply read_file_total; first [by vm_compute|done|apply Hu|lia]).
Qed.

Lemma app_files_total ids : bytes ids → ∀ n fi app c, R c → app_intact app → 0 <= fi → fi + Z.of_nat n <= len ids →
  ensures (read_app_files tag_transceive u fuel n fi s ids app) c (λ app' c',
    R c' ∧ app_intact app' ∧ a_id app' = a_id app).
Proof.
  intros Hids. pose proof desfire_max_file_size_range as Hms. pose proof desfire_max_files_range as Hmf.
  induction n as [|n IH]; intros fi app c Hc Ha Hfi Hn; cbn [read_app_files]; [by apply ensures_ret|]. cbv zeta.
  destruct (Z.leb_spec CONFIG_NFC_DESFIRE_MAX_FILES_PER_APP (a_file_count app)) as [|Hlt]; [by apply ensures_ret|].
  assert (0 <= a_file_count app < CONFIG_NFC_DESFIRE_MAX_FILES_PER_APP) as Hslot.
  { destruct Ha as [_ [_ _ _ Hfc _ _ _ _ _]]. cbn in Hfc. lia. }
  destruct (ld_Some ids fi) as [id Eid]; [lia|]. unfold ensures. rewrite Eid, run_lift_Some.
  pose proof (ld_byte _ _ _ Hids Eid) as Hid.
  assert (∀ c app', R c → app_intact app' → a_id app' = a_id app →
    ensures (read_app_files tag_transceive u fuel n (fi + 1) s ids app') c (λ app'' c', R c' ∧ app_intact app'' ∧ a_id app'' = a_id app)) as Hnext.
  { intros c0 app' Hc0 Ha' <-. apply IH; (done || lia). }
  eapply ensures_bind; [apply file_settings_total; [done|done|apply Hu|lia]|]. intros [[ret fs] size] c1 (Hc1 & Hfs & Hsz).
  case_bool; [by apply Hnext|]. case_bool; [by apply Hnext|]. case_bool; [by apply Hnext|].
  destruct (Z.ltb_spec CONFIG_NFC_DESFIRE_MAX_FILE_SIZE size) as [|Hle]; [by apply Hnext|].
  destruct (intact_slot (a_file_count app) id fs size app Ha Hslot Hid Hfs ltac:(lia)) as (Eid' & Efs' & Elen' & Ha1).
  unfold ensures. rewrite Eid', run_lift_Some, Efs', run_lift_Some. rewrite u16_id, Elen', run_lift_Some by lia. cbv zeta.
  set (app1 := with_files _ _ _ _ _) in *.
  assert (∀ a, app_intact a → a_file_count a = a_file_count app → 
    app_intact (with_key_counts (a_key_settings a) (a_key_count a) (u8 (a_file_count a + 1)) a)) as Hcount.
  { intros a Ha' Hfc. apply intact_header; [done|by apply intact_id|apply Ha'|apply Ha'|].
    rewrite Hfc. unfold u8. rewrite Z.mod_small; lia. }
  case_bool; [|by apply Hnext; [|apply Hcount|]].
  destruct (ld_Some (a_file_data app1) (a_file_count app)) as [d Ed].
  { destruct Ha1 as [_ [_ _ _ _ _ _ _ _ [Ld _]]]. cbn [a_file_data keyed with_app_header] in Ld. lia. }
  rewrite Ed, run_lift_Some. pose proof (ld_Some_inv _ _ _ Ed) as [_ Hd].
  assert (array_ok CONFIG_NFC_DESFIRE_MAX_FILE_SIZE d) as Hdok.
  { destruct Ha1 as [_ [_ _ _ _ _ _ _ _ [_ Od]]]. apply (Forall_lookup_1 _ _ _ _ Od Hd). }
  eapply ensures_bind; [by apply read_slot_total; [..|lia|]|]. intros [[ret2 d'] rl] c2 (Hc2 & Hd' & Hrl).
  destruct (intact_data (a_file_count app) d' app1 Ha1 Hslot Hd') as [E4 Ha2]. unfold ensures. rewrite E4, run_lift_Some. cbv zeta.
  match type of Ha2 with app_intact ?a => set (app2 := a) in * end. case_bool; [by apply Hnext|].
  destruct (intact_len (a_file_count app) rl app2 Ha2 Hslot Hrl) as [E5 Ha3]. rewrite u16_id, E5, run_lift_Some by lia.
  apply Hnext; [done|by apply Hcount|done].
Qed.

Lemma read_application_total app c : R c → app_intact app →
  ensures (desfire_poller_read_application tag_transceive u fuel s app) c (λ '(ret, app') c', R c' ∧ app_intact app').
Proof.
  intros Hc Ha. pose proof desfire_max_files_range.
  eapply ensures_bind; [by apply key_settings_total|]. intros [[ret ks] mk] c1 (Hc1 & Hks & Hmk).
  assert (∀ k n, is_byte k → is_byte n → app_intact (with_key_counts k n 0 app)) as Hz
    by (intros; apply intact_header; [done|by apply intact_id|done|done|lia]).
  case_bool; [apply ensures_ret; split; [done|]; apply Hz; [apply u8_range|done]|].
  case_bool; [by apply ensures_ret|]. cbv zeta. eapply ensures_bind; [apply file_ids_total; [done|apply Hu]|].
  intros [[ret2 ids] n] c2 (Hc2 & [Hl Hb] & Hn).
  assert (app_intact (with_key_counts ks mk (a_file_count app) app)) as Ha1.
  { apply intact_header; [done|by apply intact_id|done|done|]. destruct Ha as [_ []]. done. }
  case_bool; [by apply ensures_ret|]. eapply ensures_bind; [apply app_files_total; [done|done| |lia|lia]|].
  { apply (Hz ks mk); done. }
  intros app' c3 (? & ? & ?). by apply ensures_ret.
Qed.

Lemma card_apps_total ids : bytes ids → ∀ n ai out c, R c → card_intact out → 0 <= ai →
  (ai + Z.of_nat n) * DESFIRE_APP_ID_SIZE <= len ids →
  ensures (read_card_apps tag_transceive u fuel n ai s ids out) c (λ out' c', R c' ∧ card_intact out').
Proof.
  intros Hids. pose proof desfire_max_apps_range as Hma. unfold DESFIRE_APP_ID_SIZE in *.
  induction n as [|n IH]; intros ai out c Hc Ho Hai Hn; cbn [read_card_apps]; [by apply ensures_ret|].
  destruct (intact_card_apps out Ho) as (Hl & Hf & Hcnt). case_bool; [by apply ensures_ret|]. bool_prop.
  unfold DESFIRE_APP_ID_SIZE. rewrite sub_ok by lia. set (aid := take _ _).
  assert (array_ok 3 aid) as Haid by (split; [unfold aid; llia|by apply bytes_take, bytes_drop]).
  unfold ensures. rewrite run_lift_Some. eapply ensures_bind; [by apply select_application_total|]. intros ret c1 Hc1.
  case_bool; [by apply IH; (done || lia)|].
  destruct (ld_Some (d_apps out) (d_app_count out)) as [app Ea]; [lia|]. unfold ensures. rewrite Ea, run_lift_Some.
  pose proof (ld_Some_inv _ _ _ Ea) as [_ Hla]. pose proof (Forall_lookup_1 _ _ _ _ Hf Hla) as Happ.
  destruct (array_memcpy 3 (a_id app) 0 aid 0 3) as (aid' & -> & Haid'); [by apply intact_id|apply Haid|lia..|by rewrite (proj1 Haid)|].
  rewrite run_lift_Some. eapply ensures_bind; [apply read_application_total; [done|]|].
  { apply intact_header; [done|done|by destruct Happ as [_ []]|by destruct Happ|by destruct Happ as [_ []]]. }
  intros [ret2 app'] c2 (Hc2 & Happ'). unfold ensures. rewrite st_ok, run_lift_Some by lia.
  assert (∀ k, 0 <= k <= CONFIG_NFC_DESFIRE_MAX_APPS →
    card_intact (with_apps k (<[Z.to_nat (d_app_count out):=app']> (d_apps out)) out)) as Hout.
  { intros k Hk. apply intact_with_apps; [done|done|by rewrite len_insert|by apply Forall_insert]. }
  case_bool; apply IH; try (done || lia); apply Hout; [lia|]. unfold u8. rewrite Z.mod_small; lia.
Qed.

(** *** The state machine *)

Definition vars_intact (v : dp_vars) : Prop :=
  card_intact (pv_out v) ∧ array_ok (CONFIG_NFC_DESFIRE_MAX_APPS * DESFIRE_APP_ID_SIZE) (pv_app_ids v) ∧
  0 <= pv_app_id_count v <= CONFIG_NFC_DESFIRE_MAX_APPS.

Definition rank (st : desfire_poller_state_t) : nat :=
  match st with
  | DESFIRE_POLLER_STATE_READ_VERSION => 5
  | DESFIRE_POLLER_STATE_READ_FREE_MEMORY => 4
  | DESFIRE_POLLER_STATE_READ_MASTER_KEY_SETTINGS => 3
  | DESFIRE_POLLER_STATE_READ_APPLICATION_IDS => 2
  | DESFIRE_POLLER_STATE_READ_APPLICATIONS => 1
  | DESFIRE_POLLER_STATE_DONE => 0
  end%nat.

(** What a turn leaves: an intact image, and a state that is further on. *)
Definition turned (st : desfire_poller_state_t) (r : (Z * desfire_data_t) + (desfire_poller_state_t * dp_vars)) (c' : C) : Prop :=
  R c' ∧ match r with
         | inl (_, d) => card_intact d
         | inr (st', v') => vars_intact v' ∧ (rank st' < rank st)%nat
         end.

Lemma vars_with_out d v : vars_intact v → card_intact d → vars_intact (with_out d v).
Proof. intros (? & ? & ?) ?. done. Qed.

(** An exchange and whether its status is that of success. *)
Lemma ok_command {B} tx (k : Z → list Z → bool → M C B) c Q : R c → bytes tx →
  (∀ ret rx ok c', R c' → bytes rx → len rx <= NFC_TRANSPORT_MAX_RESPONSE_LEN → ensures (k ret rx ok) c' Q) →
  ensures ('(ret, rx) ← desfire_poller_i_transceive tag_transceive s tx;
    ok ← lift (if ret =? 0 then desfire_poller_i_status_ok rx DESFIRE_STATUS_OK else Some false); k ret rx ok) c Q.
Proof.
  intros Hc Hb Hk. eapply ensures_bind; [by apply dtransceive_total|]. intros [ret rx] c' (Hc' & Hrx & Hl & _).
  destruct (status_total rx DESFIRE_STATUS_OK) as (ok & E & _). rewrite E.
  unfold ensures. destruct (ret =? 0); rewrite run_lift_Some; by apply Hk.
Qed.

Lemma version_turn v c : R c → vars_intact v →
  ensures (desfire_poller_turn tag_transceive u fuel s DESFIRE_POLLER_STATE_READ_VERSION v) c (turned DESFIRE_POLLER_STATE_READ_VERSION).
Proof.
  intros Hc Hv. pose proof Hv as (Ho & _ & _). eapply ensures_bind; [apply send_chunks_total; [done|bytes_list|apply Hu|done]|].
  intros [[ret b] n] c1 (Hc1 & Hb & Hn). case_bool; [by apply ensures_ret|].
  destruct (parse_version_total b n _ Hb Ho) as (r & out' & -> & Ho'). unfold ensures. rewrite run_lift_Some.
  case_bool; eexists _, c1; (split; [done|]); (split; [done|]); [done|]. split; [by apply vars_with_out|cbn; lia].
Qed.

Lemma memory_turn v c : R c → vars_intact v →
  ensures (desfire_poller_turn tag_transceive u fuel s DESFIRE_POLLER_STATE_READ_FREE_MEMORY v) c (turned DESFIRE_POLLER_STATE_READ_FREE_MEMORY).
Proof.
  intros Hc Hv. pose proof Hv as (Ho & _ & _). apply ok_command; [done|bytes_list|]. intros ret rx ok c1 Hc1 Hrx Hl.
  assert (∀ d, card_intact d → ensures (mret (inr (DESFIRE_POLLER_STATE_READ_MASTER_KEY_SETTINGS, with_out d v))) c1
    (turned DESFIRE_POLLER_STATE_READ_FREE_MEMORY)) as Hgo.
  { intros d Hd. apply ensures_ret. split; [done|]. split; [by apply vars_with_out|cbn; lia]. }
  unfold ensures. destruct (ok && (6 <=? len rx)) eqn:E; [|by rewrite run_lift_Some; apply Hgo]. bool_prop.
  destruct (ld_Some rx 0) as [m0 E0]; [lia|]. destruct (ld_Some rx 1) as [m1 E1]; [lia|].
  destruct (ld_Some rx 2) as [m2 E2]; [lia|]. destruct (ld_Some rx 3) as [m3 E3]; [lia|].
  rewrite E0, E1, E2, E3. mred. rewrite run_lift_Some. apply Hgo, intact_memory; [done|].
  assert (is_byte m0 ∧ is_byte m1 ∧ is_byte m2 ∧ is_byte m3) as (? & ? & ? & ?) by (split_and!; by eapply ld_byte).
  rewrite le32_eq by done. unfold is_byte in *. lia.
Qed.

Lemma master_turn v c : R c → vars_intact v →
  ensures (desfire_poller_turn tag_transceive u fuel s DESFIRE_POLLER_STATE_READ_MASTER_KEY_SETTINGS v) c
    (turned DESFIRE_POLLER_STATE_READ_MASTER_KEY_SETTINGS).
Proof.
  intros Hc Hv. pose proof Hv as (Ho & _ & _). apply ok_command; [done|bytes_list|]. intros ret rx ok c1 Hc1 Hrx Hl. cbv zeta.
  assert (∀ (b : bool) d, card_intact d → ensures (mret (inr
    (if b then DESFIRE_POLLER_STATE_READ_APPLICATION_IDS else DESFIRE_POLLER_STATE_DONE, with_out d v))) c1
    (turned DESFIRE_POLLER_STATE_READ_MASTER_KEY_SETTINGS)) as Hgo.
  { intros b d Hd. apply ensures_ret. split; [done|]. split; [by apply vars_with_out|]. destruct b; cbn; lia. }
  destruct (ok && (3 <=? len rx)) eqn:E.
  { bool_prop. destruct (ld_Some rx 0) as [k Ek]; [lia|]. unfold ensures. rewrite Ek, run_lift_Some.
    apply Hgo, intact_master; [done|by eapply ld_byte]. }
  assert (∃ b, (if (ret =? 0) && (2 <=? len rx) then b ← ld rx (len rx - 1); Some (b =? DESFIRE_STATUS_AUTH_ERROR) else Some false)
    = Some b) as [denied Hd].
  { case_bool; [|by eexists]. bool_prop. destruct (ld_Some rx (len rx - 1)) as [b ->]; [lia|]. by eexists. }
  unfold ensures. rewrite Hd, run_lift_Some. destruct denied; [apply (Hgo false), intact_master; [done|by vm_compute]|].
  case_bool; [by eexists _, c1|]. by apply (Hgo false).
Qed.

Lemma turn_total st v c : R c → vars_intact v → st ≠ DESFIRE_POLLER_STATE_DONE →
  ensures (desfire_poller_turn tag_transceive u fuel s st v) c (turned st).
Proof.
  intros Hc Hv Hst. destruct st; [by apply version_turn|by apply memory_turn|by apply master_turn| | |done].
  - pose proof Hv as (Ho & Hi & _). eapply ensures_bind; [by apply application_ids_total|].
    intros [[ret ids] n] c1 (Hc1 & Hids & Hn). case_bool; [apply ensures_ret; split; [done|]; split; [done|cbn; lia]|].
    case_bool; [by apply ensures_ret|]. apply ensures_ret. split; [done|]. split; [done|]. case_bool; cbn; lia.
  - pose proof Hv as (Ho & [Hl Hb] & Hn). destruct (intact_card_apps _ Ho) as (Hla & Hf & _). pose proof desfire_max_apps_range.
    eapply ensures_bind.
    { apply card_apps_total; [done|done|apply intact_with_apps; (done || lia)|lia|]. unfold DESFIRE_APP_ID_SIZE in *. lia. }
    intros out' c1 [Hc1 Ho']. apply ensures_ret. split; [done|]. split; [by apply vars_with_out|cbn; lia].
Qed.

Lemma loop_total n : ∀ st v c, R c → vars_intact v → (rank st <= n)%nat →
  ensures (desfire_poller_loop tag_transceive u fuel n s st v) c (λ '(ret, d) c', R c' ∧ card_intact d).
Proof.
  induction n as [|n IH]; intros st v c Hc Hv Hn.
  { destruct st; cbn [rank] in Hn; try lia. apply ensures_ret. split; [done|apply Hv]. }
  assert (st = DESFIRE_POLLER_STATE_DONE ∨ st ≠ DESFIRE_POLLER_STATE_DONE) as [->|Hst] by (destruct st; auto).
  { apply ensures_ret. split; [done|apply Hv]. }
  assert (desfire_poller_loop tag_transceive u fuel (S n) s st v =
    (r ← desfire_poller_turn tag_transceive u fuel s st v;
     match r with inl e => mret e | inr (st', v') => desfire_poller_loop tag_transceive u fuel n s st' v' end)) as ->
    by by destruct st.
  eapply ensures_bind; [by apply turn_total|]. intros [[e d]|[st' v']] c1 [Hc1 Ht]; [by apply ensures_ret|].
  destruct Ht as [Hv' Hr]. apply IH; (done || lia).
Qed.

Lemma dselect_total c : R c → ensures (desfire_poller_select tag_transceive s) c (λ _ c', R c').
Proof.
  intros Hc. eapply ensures_bind; [apply dtransceive_total; [done|bytes_list]|]. intros [ret rx] c1 (Hc1 & Hrx & Hl & _).
  case_bool; [by apply ensures_ret|]. destruct (Z.ltb_spec (len rx) 2); [by apply ensures_ret|].
  destruct (ld_Some rx (len rx - 2)) as [a Ea]; [lia|]. destruct (ld_Some rx (len rx - 1)) as [b Eb]; [lia|].
  unfold ensures. rewrite Ea, Eb, !run_lift_Some. case_bool; by eexists _, c1.
Qed.
End DesfirePollerSafe.

Section DesfirePollerTheorems.
Context `{KconfigRanges} {C : Type} (tag_transceive : list Z → M C (Z * list Z)).

(** C23: Reading a DESFire card is safe against any card: whatever it answers, as long as a frame that
    announces a further one brings some data, the reader stays inside its buffers and the image,
    the loops end, and the image it leaves has its arrays intact and its counts inside them; so it
    is an image that can be saved, unless the card has reported more keys than an image holds. *)
Theorem desfire_poller_read_safe (R : C → Prop) `{!FramesProgress tag_transceive R} u fuel ses out c :
  dp_locals_ok u → (256 <= fuel)%nat → R c →
  ensures (desfire_poller_read tag_transceive u fuel (Some ses) (Some out)) c (λ r c',
    R c' ∧ ∃ d, r.2 = Some d ∧ card_intact d ∧
      (Forall (λ a, a_key_count a <= DESFIRE_MAX_KEYS) (d_apps d) → image_ok d)).
Proof.
  intros Hu Hf Hc. set (Q := λ (r : Z * option desfire_data_t) c', R c' ∧ _).
  assert (∀ ret d c', R c' → card_intact d → ensures (mret (ret, Some d)) c' Q) as Hend.
  { intros ret d c' Hc' Hd. apply ensures_ret. split; [done|]. exists d. split; [done|]. split; [done|]. by apply intact_image. }
  eapply ensures_bind; [by apply (dselect_total tag_transceive R fuel)|]. intros ret c1 Hc1.
  case_bool; [apply Hend; [done|apply intact_zero]|].
  apply (ok_command tag_transceive R); [done|bytes_list|]. intros ret2 rx ok c2 Hc2 _ _.
  destruct ok; cbn [negb]; [|apply Hend; [done|apply intact_zero]].
  eapply ensures_bind; [apply (loop_total tag_transceive u R Hu fuel Hf (Some ses)); [done| |cbn; lia]|].
  { split; [apply intact_zero|]. split; [apply Hu|]. pose proof desfire_max_apps_range. cbn. lia. }
  intros [ret3 d] c3 [Hc3 Hd]. by apply Hend.
Qed.

End DesfirePollerTheorems.
