(* ===== verification/DesfireLoopback.v ===== *)
(** * Reading a DESFire card

    The DESFire poller in front of a card that answers as [df_answer] says, which is what the
    listener of another device does: which copy of the card the poller makes, and that it makes
    it.  The interface between the two is the class [DesfireCard]. *)

From stdpp Require Import base list numbers option.
From S2P Require Import Prelude Kconfig Apdu Serial Stack Session NdefPoller Desfire DesfireListener DesfirePoller.

(** The command a transmitted frame is for the receiver's parser. *)
Definition frames (tx : list Z) (a : nfc_apdu_t) : Prop :=
  apdu_ok a ∧ ∀ ext, apdu_parse (Some tx) (len tx) ext (Some apdu_zero) = Some (APDU_PARSE_OK, Some a).

Section Readable.
Context `{KconfigRanges} {C : Type} (tag_transceive : list Z → M C (Z * list Z)).

(** From a state with [R0] the card can be selected; while [R] holds, it is the card [k] in a
    session. *)
Class DesfireCard (k : card) (R0 : C → Prop) (R : C → df_session → Prop) : Prop := {
  dc_select c : R0 c → ∃ c', tag_transceive SELECT_AID c = Some ((0, [0x90; 0x00]), c') ∧ R c' {| ss_app := None; ss_frame := None |};
  dc_command c ss tx a : R c ss → frames tx a → cla a = DESFIRE_CLA_NATIVE → one_response k a →
    ∃ c', tag_transceive tx c = Some ((0, (df_answer k ss a).1), c') ∧ R c' (df_answer k ss a).2;
}.

(** ** The copy *)

Definition known_type (fs : desfire_file_settings_t) : bool := (0 <=? fs_type fs) && (fs_type fs <=? 4).

Definition file_size (fs : desfire_file_settings_t) : Z :=
  if fs_type fs =? DESFIRE_FILE_TYPE_VALUE then 4 else fs_word0 fs mod 2 ^ 24.

(** The data of a file that can be read without authentication and that fits. *)
Definition clone_data (f : file) : option (list Z) :=
  let fs := f_settings f in
  if negb (known_type fs) || negb (desfire_access_free_read (fs_access fs)) || (CONFIG_NFC_DESFIRE_MAX_FILE_SIZE <? file_size fs) then None
  else if file_size fs =? 0 then Some []
  else if negb (fs_comm fs =? DESFIRE_COMM_PLAIN) || (len (f_data f) <? file_size fs) then None
  else Some (take (Z.to_nat (file_size fs)) (f_data f)).

(** The settings as they are read: the members that are not read are those of [u]. *)
Definition clone_settings (u fs : desfire_file_settings_t) : desfire_file_settings_t :=
  let r := (fs_type fs =? DESFIRE_FILE_TYPE_LINEAR_REC) || (fs_type fs =? DESFIRE_FILE_TYPE_CYCLIC_REC) in
  {| fs_type := fs_type fs; fs_comm := fs_comm fs; fs_access := fs_access fs;
     fs_word0 := if fs_type fs =? DESFIRE_FILE_TYPE_VALUE then fs_word0 fs else fs_word0 fs mod 2 ^ 24;
     fs_word1 := if r then 1 else fs_word1 u; fs_word2 := if r then 1 else fs_word2 u; fs_enabled := fs_enabled u |}.

Definition clone_file (u : desfire_file_settings_t) (f : file) : option file :=
  d ← clone_data f; Some {| f_id := f_id f; f_settings := clone_settings u (f_settings f); f_data := d |}.
Definition clone_app (u : desfire_file_settings_t) (p : application) : application :=
  {| p_id := p_id p; p_settings := p_settings p;
     p_keys := replicate (length (p_keys p)) (zeros DESFIRE_AES_KEY_SIZE); p_files := omap (clone_file u) (p_files p) |}.
Definition clone_card (u : desfire_file_settings_t) (k : card) : card :=
  {| c_hw := c_hw k; c_sw := c_sw k; c_uid := c_uid k; c_batch := c_batch k; c_week := c_week k; c_year := c_year k;
     c_memory := c_memory k; c_master := zeros DESFIRE_AES_KEY_SIZE; c_master_settings := c_master_settings k;
     c_apps := if desfire_poller_free_directory_list (c_master_settings k) then clone_app u <$> c_apps k else [] |}.

(** ** Commands *)

Lemma ok_end bs sw : desfire_poller_i_status_ok (bs ++ df_status sw) sw = Some true.
Proof.
  destruct (status_ok_eq (bs ++ df_status sw) sw) as (a & b & l & E & _ & -> & _); [unfold df_status; llia|].
  apply (app_inj_2 bs l) in E as [_ [= <- <-]]; [|done]. by rewrite !Z.eqb_refl.
Qed.

Lemma status_end bs sw sw' : desfire_poller_i_status_ok (bs ++ df_status sw) sw' = Some (sw =? sw').
Proof.
  destruct (status_ok_eq (bs ++ df_status sw) sw') as (a & b & l & E & _ & -> & _); [unfold df_status; llia|].
  apply (app_inj_2 bs l) in E as [_ [= <- <-]]; [|done]. by rewrite !Z.eqb_refl.
Qed.

Context (k : card) (Hk : card_ok k) (R0 : C → Prop) (R : C → df_session → Prop) `{!DesfireCard k R0 R}.
Context (u : dp_locals) (Hu : dp_locals_ok u) (fuel : nat) (Hfuel : (256 <= fuel)%nat).
Context (s : session) (Hs : ses_active s = true).

Lemma dcommand c ss tx a rx ss' : R c ss → frames tx a → cla a = DESFIRE_CLA_NATIVE → one_response k a →
  df_answer k ss a = (rx, ss') → len rx <= NFC_TRANSPORT_MAX_RESPONSE_LEN →
  ∃ c', desfire_poller_i_transceive tag_transceive (Some s) tx c = Some ((0, rx), c') ∧ R c' ss'.
Proof.
  intros Hc Hf Hcla Ho Ha Hl. destruct (dc_command c ss tx a Hc Hf Hcla Ho) as (c' & Hrun & Hc'). rewrite Ha in Hrun, Hc'.
  exists c'. split; [|done]. unfold desfire_poller_i_transceive, nfc_reader_session_transceive. rewrite Hs. cbn [negb].
  rewrite (run_call _ _ _ _ _ Hrun). cbn [fst snd Z.eqb negb]. by rewrite (proj2 (Z.ltb_ge _ _)).
Qed.

(** An answer in one frame: the array is [bs] and what it held behind. *)
Lemma chunks_done tx bs out m c c' : desfire_poller_i_transceive tag_transceive (Some s) tx c = Some ((0, bs ++ df_status DESFIRE_STATUS_OK), c') →
  len bs <= m → m <= len out →
  desfire_poller_i_send_chunks tag_transceive fuel (Some s) tx out m c = Some ((0, bs ++ drop (length bs) out, len bs), c').
Proof.
  intros Hrun Hm Ho. unfold desfire_poller_i_send_chunks. rewrite (run_call _ _ _ _ _ Hrun). cbn [Z.eqb negb].
  destruct fuel as [|n]; [lia|]. cbn [send_chunks_loop]. pose proof (len_nonneg bs).
  assert (len (bs ++ df_status DESFIRE_STATUS_OK) = len bs + 2) as El by (unfold df_status; llia). rewrite El.
  rewrite (proj2 (Z.ltb_ge _ _)) by lia. cbv zeta. replace (len bs + 2 - 2) with (len bs) by lia. rewrite (proj2 (Z.ltb_ge _ _)) by lia.
  assert ((if 0 <? len bs then memcpy out 0 (bs ++ df_status DESFIRE_STATUS_OK) 0 (len bs) else Some out) =
    Some (bs ++ drop (length bs) out)) as ->.
  { destruct (Z.ltb_spec 0 (len bs)) as [|Hz]; [|by destruct bs; [|rewrite len_cons in Hz; pose proof (len_nonneg bs); lia]].
    rewrite memcpy_prefix by lia. rewrite take_app_le by (unfold len; lia). rewrite take_ge by (unfold len; lia).
    rewrite blit_ok by lia. change (Z.to_nat 0) with 0%nat. rewrite take_0, Z.add_0_l. unfold len. by rewrite Nat2Z.id. }
  rewrite run_lift_Some, ok_end, run_lift_Some. done.
Qed.

(** A refusal. *)
Lemma chunks_refused tx sw out m c c' : desfire_poller_i_transceive tag_transceive (Some s) tx c = Some ((0, df_status sw), c') →
  sw ≠ DESFIRE_STATUS_OK → sw ≠ DESFIRE_STATUS_ADDITIONAL_FRAME → 0 <= m →
  ∃ e, e ≠ 0 ∧ desfire_poller_i_send_chunks tag_transceive fuel (Some s) tx out m c = Some ((e, out, 0), c').
Proof.
  intros Hrun H1 H2 Hm. destruct (errno_total (df_status sw)) as (e & He & Hne). exists e. split; [done|].
  unfold desfire_poller_i_send_chunks. rewrite (run_call _ _ _ _ _ Hrun). cbn [Z.eqb negb].
  destruct fuel as [|n]; [lia|]. cbn [send_chunks_loop]. change (len (df_status sw)) with 2. change (2 <? 2) with false.
  cbv zeta iota. change (2 - 2) with 0. change (0 + 0) with 0. rewrite (proj2 (Z.ltb_ge m 0)) by lia.
  change (0 <? 0) with false. cbv iota.
  rewrite run_lift_Some, (status_end [] sw DESFIRE_STATUS_OK : desfire_poller_i_status_ok (df_status sw) _ = _), run_lift_Some.
  rewrite (proj2 (Z.eqb_neq _ _)) by done.
  rewrite (status_end [] sw DESFIRE_STATUS_ADDITIONAL_FRAME : desfire_poller_i_status_ok (df_status sw) _ = _), run_lift_Some.
  rewrite (proj2 (Z.eqb_neq _ _)) by done. cbn [negb]. by rewrite He.
Qed.

Definition bare (cmd : Z) : nfc_apdu_t :=
  {| cla := DESFIRE_CLA_NATIVE; ins := cmd; p1 := 0; p2 := 0; data := None; lc := 0; le := 0; has_le := true; extended := false |}.
Definition with_data (cmd : Z) (d : list Z) : nfc_apdu_t :=
  {| cla := DESFIRE_CLA_NATIVE; ins := cmd; p1 := 0; p2 := 0; data := Some d; lc := len d; le := 0; has_le := false; extended := false |}.

Lemma frames_bare cmd : is_byte cmd → frames (native_cmd cmd) (bare cmd).
Proof. intros Hc. split; [|done]. unfold apdu_ok. by split_and!. Qed.

Lemma frames_data cmd d : is_byte cmd → bytes d → 1 <= len d <= 255 → frames ([DESFIRE_CLA_NATIVE; cmd; 0x00; 0x00; len d] ++ d) (with_data cmd d).
Proof.
  intros Hc Hd Hl. split; [unfold apdu_ok; cbn -[len]; split_and!; (done || lia)|]. intros ext. unfold apdu_parse.
  assert (len ([DESFIRE_CLA_NATIVE; cmd; 0; 0; len d] ++ d) = 5 + len d) as -> by (rewrite len_app; done).
  rewrite (proj2 (Z.ltb_ge _ _)) by lia. cbn [app]. mred.
  change (ld (?a :: ?b :: ?c :: ?e :: ?f :: d) 0) with (Some a). change (ld (?a :: ?b :: ?c :: ?e :: ?f :: d) 1) with (Some b).
  change (ld (?a :: ?b :: ?c :: ?e :: ?f :: d) 2) with (Some c). change (ld (?a :: ?b :: ?c :: ?e :: ?f :: d) 3) with (Some e).
  change (ld (?a :: ?b :: ?c :: ?e :: ?f :: d) 4) with (Some f). mred.
  rewrite !(proj2 (Z.eqb_neq _ _)) by lia. cbn [negb]. by rewrite Z.eqb_refl.
Qed.

(** Commands with the answer the card gives. *)
Lemma bare_command c ss cmd rx ss' : R c ss → is_byte cmd → df_answer k ss (bare cmd) = (rx, ss') → len rx <= NFC_TRANSPORT_MAX_RESPONSE_LEN →
  ∃ c', desfire_poller_i_transceive tag_transceive (Some s) (native_cmd cmd) c = Some ((0, rx), c') ∧ R c' ss'.
Proof. intros Hc Hcmd Ha Hl. apply (dcommand c ss _ (bare cmd)); first [done|by apply frames_bare|by left; vm_compute]. Qed.

Lemma data_command c ss cmd d rx ss' : R c ss → is_byte cmd → bytes d → 1 <= len d <= 255 → (range_of (with_data cmd d)).2 <= 253 →
  df_answer k ss (with_data cmd d) = (rx, ss') → len rx <= NFC_TRANSPORT_MAX_RESPONSE_LEN →
  ∃ c', desfire_poller_i_transceive tag_transceive (Some s) ([DESFIRE_CLA_NATIVE; cmd; 0x00; 0x00; len d] ++ d) c = Some ((0, rx), c') ∧ R c' ss'.
Proof. intros Hc Hcmd Hd Hl Hr Ha Hrx. apply (dcommand c ss _ (with_data cmd d)); first [done|by apply frames_data|by left]. Qed.

Definition ss_same (ss ss' : df_session) : Prop := ss_app ss' = ss_app ss.

(** The application that is selected, and its files. *)
Context (Hids : Forall (λ p, NoDup (f_id <$> p_files p)) (c_apps k)) (Happids : NoDup (p_id <$> c_apps k)).

Lemma selected_app_ok ss p : app_at k ss = Some p → application_ok p ∧ NoDup (f_id <$> p_files p).
Proof.
  unfold app_at. destruct (ss_app ss) as [i|]; [|done]. mred. intros [_ Hp]%ld_Some_inv.
  split; [apply (Forall_lookup_1 _ _ _ _ (co_apps k Hk) Hp)|exact (Forall_lookup_1 _ _ _ _ Hids Hp)].
Qed.

Lemma same_app ss ss' : ss_same ss ss' → app_at k ss' = app_at k ss.
Proof. unfold app_at. by intros ->. Qed.

Lemma file_in p f : NoDup (f_id <$> p_files p) → f ∈ p_files p → find_file p (f_id f) = Some f.
Proof.
  unfold find_file. induction (p_files p) as [|g fs IH]; [by intros _ ?%elem_of_nil|]. cbn [fmap list_fmap List.find].
  intros Hnd [->|Hf]%elem_of_cons; [by rewrite Z.eqb_refl|]. inversion Hnd as [|? ? Hg Hnd2]; subst.
  rewrite (proj2 (Z.eqb_neq _ _)); [by apply IH|]. intros E. apply Hg. rewrite E. by apply list_elem_of_fmap_2.
Qed.

(** ** Files *)

Section File.
Context (p : application) (Hp : application_ok p) (Hnd : NoDup (f_id <$> p_files p)) (f : file) (Hf : f ∈ p_files p).

Lemma file_is_ok : file_ok f.
Proof. exact (proj1 (Forall_forall _ _) (po_files p Hp) f (proj1 (list_elem_of_In _ _) Hf)). Qed.

Lemma on_file_in ss cmd d n no_app K : app_at k ss = Some p → n <= len d → ld d 0 = Some (f_id f) →
  on_file k ss (with_data cmd d) n no_app K = K f.
Proof.
  intros Ha Hn Hd. unfold on_file. rewrite Ha. change (lc (with_data cmd d)) with (len d). rewrite (proj2 (Z.ltb_ge _ _)) by done.
  change (default [] (data (with_data cmd d))) with d. rewrite Hd. change (default 0 (Some (f_id f))) with (f_id f). by rewrite (file_in p f Hnd Hf).
Qed.

Lemma settings_answer ss : app_at k ss = Some p → df_answer k ss (with_data DESFIRE_CMD_GET_FILE_SETTINGS [f_id f]) =
  match file_settings_reply (f_settings f) with
  | Some bs => (bs ++ df_status DESFIRE_STATUS_OK, ss)
  | None => (df_status DESFIRE_STATUS_ILLEGAL_CMD, ss)
  end.
Proof. intros Ha. by apply on_file_in. Qed.

Lemma value_answer_eq ss : app_at k ss = Some p → df_answer k ss (with_data DESFIRE_CMD_GET_VALUE [f_id f]) = value_answer ss f.
Proof. intros Ha. by apply (on_file_in ss DESFIRE_CMD_GET_VALUE). Qed.

(** The two reading commands, for the files they read. *)
Definition reads (cmd : Z) : Prop :=
  cmd = DESFIRE_CMD_READ_DATA ∨
  cmd = DESFIRE_CMD_READ_RECORDS ∧
    (fs_type (f_settings f) = DESFIRE_FILE_TYPE_LINEAR_REC ∨ fs_type (f_settings f) = DESFIRE_FILE_TYPE_CYCLIC_REC).

Definition range_data (off n : Z) : list Z :=
  [f_id f; byte_at off 0; byte_at off 1; byte_at off 2; byte_at n 0; byte_at n 1; byte_at n 2].

Lemma range_data_range cmd off n : 0 <= off < 2 ^ 24 → 0 <= n < 2 ^ 24 → range_of (with_data cmd (range_data off n)) = (off, n).
Proof.
  intros Ho Hn. unfold range_of. cbn [data with_data]. unfold range_data.
  transitivity (le24 (byte_at off 0) (byte_at off 1) (byte_at off 2), le24 (byte_at n 0) (byte_at n 1) (byte_at n 2)); [done|].
  by rewrite !le24_split, !Z.mod_small.
Qed.

Lemma read_command_answer ss cmd off n : app_at k ss = Some p → reads cmd →
  df_answer k ss (with_data cmd (range_data off n)) = read_answer ss (with_data cmd (range_data off n)) f.
Proof.
  intros Ha [->|[-> Ht]].
  - by apply (on_file_in ss DESFIRE_CMD_READ_DATA).
  - transitivity (records_answer ss (with_data DESFIRE_CMD_READ_RECORDS (range_data off n)) f).
    { by apply (on_file_in ss DESFIRE_CMD_READ_RECORDS). }
    unfold records_answer. by destruct Ht as [-> | ->].
Qed.

(** One chunk of the file. *)
Lemma read_chunk c ss cmd off n chunk : R c ss → app_at k ss = Some p → reads cmd → 0 <= off < 2 ^ 24 → 0 <= n <= 253 →
  array_ok 255 chunk →
  ∃ c' ss', R c' ss' ∧ ss_same ss ss' ∧
    let tx := [DESFIRE_CLA_NATIVE; cmd; 0x00; 0x00; 0x07] ++ range_data off n in
    if (fs_comm (f_settings f) =? DESFIRE_COMM_PLAIN) && (off + n <=? len (f_data f)) then
      let bs := take (Z.to_nat n) (drop (Z.to_nat off) (f_data f)) in
      desfire_poller_i_send_chunks tag_transceive fuel (Some s) tx chunk NFC_TRANSPORT_MAX_RESPONSE_LEN c =
        Some ((0, bs ++ drop (length bs) chunk, n), c')
    else ∃ e, e ≠ 0 ∧ desfire_poller_i_send_chunks tag_transceive fuel (Some s) tx chunk NFC_TRANSPORT_MAX_RESPONSE_LEN c =
      Some ((e, chunk, 0), c').
Proof.
  intros Hc Ha Hr Ho Hn Hch. pose proof (read_command_answer ss cmd off n Ha Hr) as Hans.
  pose proof (range_data_range cmd off n Ho ltac:(lia)) as Hrange.
  assert (is_byte cmd) as Hcmd by (destruct Hr as [->|[-> _]]; by vm_compute).
  assert (bytes (range_data off n)) as Hbd.
  { apply Forall_cons_2; [apply file_is_ok|]. repeat (apply Forall_cons_2; [apply byte_at_range|]). apply Forall_nil_2. }
  unfold read_answer in Hans. rewrite Hrange in Hans.
  assert (∀ rx ss', df_answer k ss (with_data cmd (range_data off n)) = (rx, ss') → len rx <= NFC_TRANSPORT_MAX_RESPONSE_LEN →
    ∃ c', desfire_poller_i_transceive tag_transceive (Some s) ([DESFIRE_CLA_NATIVE; cmd; 0x00; 0x00; 0x07] ++ range_data off n) c =
      Some ((0, rx), c') ∧ R c' ss') as Hgo.
  { intros rx ss' Hrx Hl. apply (data_command c ss cmd (range_data off n)); try done. rewrite Hrange. cbn. lia. }
  assert (∀ sw, df_answer k ss (with_data cmd (range_data off n)) = (df_status sw, ss) → sw ≠ DESFIRE_STATUS_OK → sw ≠ DESFIRE_STATUS_ADDITIONAL_FRAME →
    ∃ c' ss', R c' ss' ∧ ss_same ss ss' ∧ ∃ e, e ≠ 0 ∧ desfire_poller_i_send_chunks tag_transceive fuel (Some s)
      ([DESFIRE_CLA_NATIVE; cmd; 0x00; 0x00; 0x07] ++ range_data off n) chunk NFC_TRANSPORT_MAX_RESPONSE_LEN c = Some ((e, chunk, 0), c')) as Hno.
  { intros sw Hsw H1 H2. destruct (Hgo _ _ Hsw) as (c' & Hrun & Hc'); [done|]. exists c', ss. split; [done|]. split; [done|].
    by apply (chunks_refused _ sw). }
  cbv zeta. destruct (fs_comm (f_settings f) =? DESFIRE_COMM_PLAIN); cbn [negb andb] in *; [|by apply (Hno _ Hans)].
  destruct (Z.ltb_spec (len (f_data f)) (off + n)) as [Hlt|Hle].
  - rewrite (proj2 (Z.leb_gt _ _)) by lia. by apply (Hno _ Hans).
  - rewrite (proj2 (Z.leb_le _ _)) by lia. set (bs := take _ _) in *. assert (len bs = n) as Hbs by (unfold bs; llia).
    destruct (Hgo _ _ Hans) as (c' & Hrun & Hc').
    { rewrite len_app, Hbs. unfold NFC_TRANSPORT_MAX_RESPONSE_LEN. change (len (df_status DESFIRE_STATUS_OK)) with 2. lia. }
    eexists c', _. split; [exact Hc'|]. split; [done|].
    rewrite <-Hbs at 2. apply (chunks_done _ bs chunk NFC_TRANSPORT_MAX_RESPONSE_LEN c c' Hrun); [unfold NFC_TRANSPORT_MAX_RESPONSE_LEN; lia|].
    by rewrite (proj1 Hch).
Qed.

(** The chunks of a range from the beginning. *)
Definition range_read (size : Z) : bool := (fs_comm (f_settings f) =? DESFIRE_COMM_PLAIN) && (size <=? len (f_data f)).

Lemma file_loop_exact cmd size m : reads cmd → 0 < size <= m → m <= 65535 → ∀ n c ss total chunk out,
  R c ss → app_at k ss = Some p → 0 <= total < size → size - total <= Z.of_nat n → array_ok 255 chunk → array_ok m out →
  take (Z.to_nat total) out = take (Z.to_nat total) (f_data f) → (total <= len (f_data f)) →
  ∃ c' ss' r out' k', read_file_loop tag_transceive fuel n cmd (Some s) (f_id f) total (size - total) total chunk out m c = Some ((r, out', k'), c') ∧
    R c' ss' ∧ ss_same ss ss' ∧ array_ok m out' ∧
    if range_read size then r = 0 ∧ k' = size ∧ take (Z.to_nat size) out' = take (Z.to_nat size) (f_data f) else r ≠ 0.
Proof.
  intros Hcmd Hsize Hm. induction n as [|n IH]; intros c ss total chunk out Hc Ha Ht Hn Hch Ho Htake Htl; [lia|].
  cbn [read_file_loop]. rewrite (proj2 (Z.leb_gt _ _)) by lia. cbv zeta.
  set (cs := if NFC_TRANSPORT_MAX_RESPONSE_LEN - 2 <? size - total then _ else _).
  assert (1 <= cs <= size - total ∧ cs <= 253) as Hcs by (unfold cs, NFC_TRANSPORT_MAX_RESPONSE_LEN; case_bool; bool_prop; lia).
  rewrite (proj2 (Z.ltb_ge _ _)) by lia.
  destruct (read_chunk c ss cmd total cs chunk) as (c1 & ss1 & Hc1 & Hss & Hrun); [done|done|done|lia|lia|done|].
  unfold range_data in Hrun. cbv zeta in Hrun. cbn [app] in Hrun.
  destruct ((fs_comm (f_settings f) =? DESFIRE_COMM_PLAIN) && (total + cs <=? len (f_data f))) eqn:E.
  2: { destruct Hrun as (e & He & Hrun). rewrite (run_call _ _ _ _ _ Hrun), (proj2 (Z.eqb_neq _ _)) by done. cbn [negb].
    exists c1, ss1, e, out, total. split_and!; try done; try apply Ho. unfold range_read. case_bool; [|done]. bool_prop.
    apply andb_false_iff in E as [E|E]; [by apply Z.eqb_neq in E|]. bool_prop. lia. }
  rewrite (run_call _ _ _ _ _ Hrun). cbn [Z.eqb negb]. rewrite (proj2 (Z.ltb_ge _ _)) by lia. bool_prop.
  set (bs := take (Z.to_nat cs) _) in *. assert (len bs = cs) as Hbs by (unfold bs; llia).
  assert (bytes bs) as Hbb by (apply bytes_take, bytes_drop, file_is_ok).
  rewrite memcpy_prefix by llia. rewrite take_app_le, take_ge by (unfold len in *; lia). destruct Ho as [Lo Bo].
  rewrite blit_ok by lia. rewrite run_lift_Some, Hbs. set (out1 := _ ++ _).
  assert (array_ok m out1) as Ho1.
  { split; [unfold out1; llia|]. unfold out1. rewrite !bytes_app. split_and!; [by apply bytes_take|done|by apply bytes_drop]. }
  assert (take (Z.to_nat (total + cs)) out1 = take (Z.to_nat (total + cs)) (f_data f)) as Htake1.
  { unfold out1. rewrite (assoc_L (++)), take_app_le by llia. rewrite take_ge by llia. rewrite Htake. unfold bs.
    rewrite Z2Nat.inj_add by lia. by rewrite take_take_drop. }
  rewrite (proj2 (Z.ltb_ge cs cs)) by lia. pose proof (same_app _ _ Hss) as Hsame.
  destruct (Z.eq_dec (total + cs) size) as [Heq|Hne].
  - assert (size - total - cs = 0) as -> by lia. exists c1, ss1, 0, out1, (total + cs).
    split; [by destruct n|]. split_and!; try done; try apply Ho1. unfold range_read. rewrite (proj2 (Z.eqb_eq _ _)), (proj2 (Z.leb_le _ _)) by (done || lia).
    by rewrite <-Heq.
  - replace (size - total - cs) with (size - (total + cs)) by lia. replace (u32 (total + cs)) with (total + cs)
      by (unfold u32; rewrite Z.mod_small; lia).
    destruct (IH c1 ss1 (total + cs) (bs ++ drop (length bs) chunk) out1) as (c2 & ss2 & r & out2 & k' & Hrun2 & Hc2 & Hss2 & Ho2 & Hr2);
      [done|by rewrite Hsame|lia|lia| |done|done|lia|].
    { destruct Hch as [Lc Bc]. split; [llia|]. apply bytes_app. split; [done|by apply bytes_drop]. }
    exists c2, ss2, r, out2, k'. split; [done|]. split; [done|]. split; [unfold ss_same in *; by rewrite Hss2|done].
Qed.

Lemma read_value_exact c ss m out : R c ss → app_at k ss = Some p → array_ok m out → 4 <= m → fs_type (f_settings f) = DESFIRE_FILE_TYPE_VALUE →
  ∃ c' ss' r out' k', desfire_poller_i_read_file_value tag_transceive u fuel (Some s) (f_id f) out m c = Some ((r, out', k'), c') ∧
    R c' ss' ∧ ss_same ss ss' ∧ array_ok m out' ∧
    if range_read 4 then r = 0 ∧ k' = 4 ∧ take 4 out' = take 4 (f_data f) else r ≠ 0.
Proof.
  intros Hc Ha Ho Hm Ht. pose proof (value_answer_eq ss Ha) as Hans. unfold value_answer in Hans. rewrite Ht in Hans. cbn [Z.eqb negb DESFIRE_FILE_TYPE_VALUE Pos.eqb] in Hans.
  assert (bytes [f_id f]) as Hb by (apply Forall_singleton, file_is_ok). unfold range_read, desfire_poller_i_read_file_value.
  assert (∀ sw, df_answer k ss (with_data DESFIRE_CMD_GET_VALUE [f_id f]) = (df_status sw, ss) → sw ≠ DESFIRE_STATUS_OK → sw ≠ DESFIRE_STATUS_ADDITIONAL_FRAME →
    ∃ c' ss' r out' k', desfire_poller_i_read_file_value tag_transceive u fuel (Some s) (f_id f) out m c = Some ((r, out', k'), c') ∧
      R c' ss' ∧ ss_same ss ss' ∧ array_ok m out' ∧ r ≠ 0) as Hno.
  { intros sw Hsw H1 H2. destruct (data_command c ss DESFIRE_CMD_GET_VALUE [f_id f] (df_status sw) ss Hc ltac:(by vm_compute) Hb ltac:(done) ltac:(by vm_compute) Hsw ltac:(done)) as (c' & Hrun & Hc').
    destruct (chunks_refused _ sw (dl_buf u) NFC_TRANSPORT_MAX_RESPONSE_LEN c c' Hrun H1 H2 ltac:(done)) as (e & He & Hsend).
    exists c', ss, e, out, 0. unfold desfire_poller_i_read_file_value. cbn [app] in Hsend.
    rewrite (run_call _ _ _ _ _ Hsend), (proj2 (Z.eqb_neq _ _)) by done. by split_and!; try apply Ho. }
  destruct (fs_comm (f_settings f) =? DESFIRE_COMM_PLAIN); cbn [negb andb] in *; [|by apply (Hno _ Hans)].
  destruct (Z.ltb_spec (len (f_data f)) 4) as [Hlt|Hle].
  { rewrite (proj2 (Z.leb_gt _ _)) by lia. by apply (Hno _ Hans). }
  rewrite (proj2 (Z.leb_le _ _)) by lia. set (bs := take 4 (f_data f)) in *. assert (len bs = 4) as Hbs by (unfold bs; llia).
  destruct (data_command c ss DESFIRE_CMD_GET_VALUE [f_id f] _ ss Hc ltac:(by vm_compute) Hb ltac:(done) ltac:(by vm_compute) Hans) as (c' & Hrun & Hc').
  { rewrite len_app, Hbs. done. }
  destruct Hu as [[Lb Bb] _ _ _ _].
  pose proof (chunks_done _ bs (dl_buf u) NFC_TRANSPORT_MAX_RESPONSE_LEN c c' Hrun ltac:(by rewrite Hbs) ltac:(by rewrite Lb)) as Hsend.
  cbn [app] in Hsend. rewrite (run_call _ _ _ _ _ Hsend). cbn [Z.eqb negb]. rewrite Hbs, (proj2 (Z.ltb_ge _ _)) by lia.
  rewrite memcpy_prefix by llia. rewrite take_app_le, take_ge by (unfold len in *; lia). destruct Ho as [Lo Bo].
  rewrite blit_ok by lia. rewrite run_lift_Some. eexists c', ss, _, _, _. split; [done|]. change (Z.to_nat 0) with 0%nat. rewrite take_0, Hbs.
  assert (bytes bs) by (apply bytes_take, file_is_ok).
  split_and!; try done.
  { split; cbn [app]; [rewrite len_app, len_drop; lia|]. apply bytes_app. split; [done|by apply bytes_drop]. }
  cbn [app]. rewrite take_app_le by (unfold len in *; lia). apply take_ge. unfold len in *; lia.
Qed.

(** The data of a file that passes the tests of the reader. *)
Lemma read_slot_exact c ss fs out : R c ss → app_at k ss = Some p → array_ok CONFIG_NFC_DESFIRE_MAX_FILE_SIZE out →
  fs_type fs = fs_type (f_settings f) → known_type (f_settings f) = true → let size := file_size (f_settings f) in
  0 < size <= CONFIG_NFC_DESFIRE_MAX_FILE_SIZE →
  ∃ c' ss' r out' k', read_slot tag_transceive u fuel (Some s) (f_id f) size fs out c = Some ((r, out', k'), c') ∧
    R c' ss' ∧ ss_same ss ss' ∧ array_ok CONFIG_NFC_DESFIRE_MAX_FILE_SIZE out' ∧
    if range_read size then r = 0 ∧ k' = size ∧ take (Z.to_nat size) out' = take (Z.to_nat size) (f_data f) else r ≠ 0.
Proof.
  intros Hc Ha Ho Ht Hknown size Hsize. pose proof desfire_max_file_size_range. unfold read_slot. rewrite Ht.
  assert (∀ cmd, reads cmd → ∃ c' ss' r out' k', read_file_loop tag_transceive fuel (Z.to_nat size) cmd (Some s) (f_id f) 0 size 0 (dl_buf u) out
      CONFIG_NFC_DESFIRE_MAX_FILE_SIZE c = Some ((r, out', k'), c') ∧
    R c' ss' ∧ ss_same ss ss' ∧ array_ok CONFIG_NFC_DESFIRE_MAX_FILE_SIZE out' ∧
    if range_read size then r = 0 ∧ k' = size ∧ take (Z.to_nat size) out' = take (Z.to_nat size) (f_data f) else r ≠ 0) as Hread.
  { intros cmd Hcmd. pose proof (file_loop_exact cmd size CONFIG_NFC_DESFIRE_MAX_FILE_SIZE Hcmd Hsize ltac:(lia) (Z.to_nat size) c ss 0 (dl_buf u) out) as Hl.
    rewrite Z.sub_0_r in Hl. apply Hl; try done; try lia; [apply Hu|apply len_nonneg]. }
  destruct (Z.eqb_spec (fs_type (f_settings f)) DESFIRE_FILE_TYPE_VALUE) as [Hv|Hv].
  - unfold size, file_size in *. rewrite Hv in *. by apply read_value_exact; [..|lia|].
  - case_bool; apply Hread; [right|by left]. split; [done|]. apply orb_true_iff in E as [E|E]; bool_prop; auto.
Qed.

(** The settings, as the reader parses them. *)
Lemma parse_eight t x a0 a1 b0 b1 b2 b3 rest u0 sz :
  desfire_poller_i_parse_file_settings ([t; x; a0; a1; b0; b1; b2; b3] ++ rest) 8 u0 sz =
  let fs := with_common t x (le16 a0 a1) u0 in
  if (t =? DESFIRE_FILE_TYPE_STANDARD) || (t =? DESFIRE_FILE_TYPE_BACKUP) then Some (0, with_word0 (le24 b0 b1 b2) fs, le24 b0 b1 b2)
  else if t =? DESFIRE_FILE_TYPE_VALUE then Some (0, with_word0 (le32 b0 b1 b2 b3) fs, 4)
  else if (t =? DESFIRE_FILE_TYPE_LINEAR_REC) || (t =? DESFIRE_FILE_TYPE_CYCLIC_REC) then
    Some (0, with_records (with_word0 (le24 b0 b1 b2) fs), le24 b0 b1 b2)
  else Some (- ENOTSUP, fs, sz).
Proof. done. Qed.

Lemma parse_reply fs u0 sz bs rest : settings_ok fs → file_settings_reply fs = Some bs →
  desfire_poller_i_parse_file_settings (bs ++ rest) 8 u0 sz = Some (0, clone_settings u0 fs, file_size fs) ∧ known_type fs = true ∧
  len bs = 8 ∧ bytes bs.
Proof.
  intros [Ht Hc Ha Hw] Hr. unfold file_settings_reply in Hr. cbv zeta in Hr.
  pose proof (le24_split (fs_word0 fs)) as E24. pose proof (le32_split (fs_word0 fs) Hw) as E32.
  pose proof (le16_split (fs_access fs) Ha) as E16. rewrite !u8_id in Hr by done.
  unfold clone_settings, file_size, known_type. revert Hr. unfold DESFIRE_FILE_TYPE_STANDARD, DESFIRE_FILE_TYPE_BACKUP,
    DESFIRE_FILE_TYPE_VALUE, DESFIRE_FILE_TYPE_LINEAR_REC, DESFIRE_FILE_TYPE_CYCLIC_REC.
  destruct (Z.eqb_spec (fs_type fs) 0) as [->|]; [|destruct (Z.eqb_spec (fs_type fs) 1) as [->|];
    [|destruct (Z.eqb_spec (fs_type fs) 2) as [->|]; [|destruct (Z.eqb_spec (fs_type fs) 3) as [->|];
      [|destruct (Z.eqb_spec (fs_type fs) 4) as [->|]; [|done]]]]];
    intros [= <-]; (split; [etransitivity; [apply (parse_eight _ _ _ _ _ _ _ _ rest)|]; rewrite ?E24, ?E32, ?E16; done|]); (split; [done|]); (split; [done|]);
    repeat (apply Forall_cons_2; [first [done|apply byte_at_range|apply lo8_range|apply hi8_range]|]); apply Forall_nil_2.
Qed.

Lemma reply_known fs : settings_ok fs → known_type fs = bool_decide (file_settings_reply fs ≠ None).
Proof.
  intros []. unfold file_settings_reply, known_type, DESFIRE_FILE_TYPE_STANDARD, DESFIRE_FILE_TYPE_BACKUP,
    DESFIRE_FILE_TYPE_VALUE, DESFIRE_FILE_TYPE_LINEAR_REC, DESFIRE_FILE_TYPE_CYCLIC_REC.
  destruct (Z.leb_spec 0 (fs_type fs)); cbn [andb]; unfold is_byte in *; [|lia].
  destruct (Z.leb_spec (fs_type fs) 4).
  - assert (fs_type fs = 0 ∨ fs_type fs = 1 ∨ fs_type fs = 2 ∨ fs_type fs = 3 ∨ fs_type fs = 4) as [->|[->|[->|[->| ->]]]] by lia; done.
  - repeat (case_bool; [bool_prop; apply orb_true_iff in E as [E|E]; bool_prop; lia || (bool_prop; lia)|]).
    rewrite !(proj2 (Z.eqb_neq _ _)) by lia. done.
Qed.

Lemma file_settings_exact c ss : R c ss → app_at k ss = Some p →
  ∃ c' r fs' sz', desfire_poller_i_read_file_settings tag_transceive u fuel (Some s) (f_id f) (dl_fs u) 0 c = Some ((r, fs', sz'), c') ∧
    R c' ss ∧ if known_type (f_settings f) then r = 0 ∧ fs' = clone_settings (dl_fs u) (f_settings f) ∧ sz' = file_size (f_settings f) else r ≠ 0.
Proof.
  intros Hc Ha. pose proof (settings_answer ss Ha) as Hans. pose proof (fo_settings f file_is_ok) as Hok.
  assert (bytes [f_id f]) as Hb by (apply Forall_singleton, file_is_ok). unfold desfire_poller_i_read_file_settings.
  rewrite (reply_known _ Hok). destruct (file_settings_reply (f_settings f)) as [bs|] eqn:E.
  - destruct (parse_reply _ (dl_fs u) 0 bs (drop (length bs) (dl_buf u)) Hok E) as (Hparse & Hkn & Hl & Hbb).
    destruct (data_command c ss DESFIRE_CMD_GET_FILE_SETTINGS [f_id f] _ ss Hc ltac:(by vm_compute) Hb ltac:(done) ltac:(by vm_compute) Hans) as (c' & Hrun & Hc').
    { rewrite len_app, Hl. done. }
    pose proof (chunks_done _ bs (dl_buf u) NFC_TRANSPORT_MAX_RESPONSE_LEN c c' Hrun ltac:(by rewrite Hl) ltac:(by rewrite (proj1 (do_buf u Hu)))) as Hsend.
    cbn [app] in Hsend. rewrite (run_call _ _ _ _ _ Hsend). cbn [Z.eqb negb]. rewrite Hl, Hparse. by eexists c', _, _, _.
  - destruct (data_command c ss DESFIRE_CMD_GET_FILE_SETTINGS [f_id f] _ ss Hc ltac:(by vm_compute) Hb ltac:(done) ltac:(by vm_compute) Hans) as (c' & Hrun & Hc'); [done|].
    destruct (chunks_refused _ _ (dl_buf u) NFC_TRANSPORT_MAX_RESPONSE_LEN c c' Hrun ltac:(done) ltac:(done) ltac:(done)) as (e & He & Hsend).
    cbn [app] in Hsend. rewrite (run_call _ _ _ _ _ Hsend), (proj2 (Z.eqb_neq _ _)) by done. by eexists c', e, _, _.
Qed.
End File.

(** *** The files of an application *)

Definition files_view (a : desfire_application_t) : list file := file_at a <$> seqZ 0 (a_file_count a).

(** Only the slot may differ. *)
Record off_slot (slot : Z) (a a' : desfire_application_t) : Prop := {
  os_file i : 0 <= i → i ≠ slot → file_at a' i = file_at a i;
  os_count : a_file_count a' = a_file_count a;
  os_head : a_id a' = a_id a ∧ a_key_settings a' = a_key_settings a ∧ a_key_count a' = a_key_count a ∧ a_keys a' = a_keys a;
}.

Lemma off_slot_view a a' : off_slot (a_file_count a) a a' → files_view a' = files_view a.
Proof.
  intros [Hf Hc _]. unfold files_view. rewrite Hc. apply list_fmap_ext. intros i x Hx. apply lookup_seqZ in Hx as [-> Hi]. apply Hf; lia.
Qed.

Lemma ld_insert_ne {A} (l : list A) i j x : 0 <= i → 0 <= j → i ≠ j → ld (<[Z.to_nat j := x]> l) i = ld l i.
Proof. intros Hi Hj Hne. unfold ld. rewrite (proj2 (Z.leb_le _ _)) by done. apply list_lookup_insert_ne. lia. Qed.

Lemma ld_insert {A} (l : list A) i x : 0 <= i < len l → ld (<[Z.to_nat i := x]> l) i = Some x.
Proof. intros Hi. apply ld_eq; [lia|]. apply list_lookup_insert_eq. unfold len in Hi. lia. Qed.

Lemma off_slot_intro slot a ids fss lens dat : 0 <= slot → 
  (∀ i, 0 <= i → i ≠ slot → ld ids i = ld (a_file_ids a) i ∧ ld fss i = ld (a_file_settings a) i ∧
    ld lens i = ld (a_file_data_len a) i ∧ ld dat i = ld (a_file_data a) i) → off_slot slot a (with_files ids fss lens dat a).
Proof.
  intros Hsl Hl. constructor; try done. intros i Hi Hne. destruct (Hl i Hi Hne) as (E1 & E2 & E3 & E4).
  unfold file_at. cbn [a_file_ids a_file_settings a_file_data_len a_file_data with_files]. by rewrite E1, E2, E3, E4.
Qed.

Lemma off_slot_trans slot a b d : off_slot slot a b → off_slot slot b d → off_slot slot a d.
Proof.
  intros [F1 C1 (I1 & S1 & K1 & Y1)] [F2 C2 (I2 & S2 & K2 & Y2)]. constructor; [|by rewrite C2|by split_and!; etransitivity].
  intros i Hi Hne. by rewrite F2, F1.
Qed.

(** A slot that becomes part of the application. *)
Lemma counted_view a a' : app_intact a' → 0 <= a_file_count a < 255 → off_slot (a_file_count a) a a' →
  files_view (with_key_counts (a_key_settings a') (a_key_count a') (u8 (a_file_count a' + 1)) a') = files_view a ++ [file_at a' (a_file_count a)].
Proof.
  intros Ha Hc Ho. rewrite <-(off_slot_view a a' Ho). unfold files_view. cbn [a_file_count with_key_counts with_app_header].
  rewrite (os_count _ _ _ Ho). unfold u8. rewrite Z.mod_small by lia. rewrite seqZ_app by lia. rewrite fmap_app. done.
Qed.

(** The tests before a file is read, as [clone_data] makes them. *)
Lemma clone_data_split f : file_ok f → let fs := f_settings f in let size := file_size fs in
  clone_data f = if negb (known_type fs) then None else if negb (desfire_access_free_read (fs_access fs)) then None
    else if CONFIG_NFC_DESFIRE_MAX_FILE_SIZE <? size then None else if size =? 0 then Some []
    else if range_read f size then Some (take (Z.to_nat size) (f_data f)) else None.
Proof.
  intros _. unfold clone_data, range_read. cbv zeta. destruct (known_type _), (desfire_access_free_read _); cbn [negb orb]; try done.
  case_bool; [done|]. case_bool; [done|]. destruct (_ =? DESFIRE_COMM_PLAIN); cbn [negb orb andb]; [|done].
  rewrite Z.ltb_antisym. by destruct (file_size (f_settings f) <=? len (f_data f)).
Qed.

Lemma type_tests t : (negb (t =? DESFIRE_FILE_TYPE_STANDARD) && negb (t =? DESFIRE_FILE_TYPE_BACKUP) &&
  negb (t =? DESFIRE_FILE_TYPE_VALUE) && negb (t =? DESFIRE_FILE_TYPE_LINEAR_REC) && negb (t =? DESFIRE_FILE_TYPE_CYCLIC_REC)) =
  negb ((0 <=? t) && (t <=? 4)).
Proof.
  unfold DESFIRE_FILE_TYPE_STANDARD, DESFIRE_FILE_TYPE_BACKUP, DESFIRE_FILE_TYPE_VALUE, DESFIRE_FILE_TYPE_LINEAR_REC, DESFIRE_FILE_TYPE_CYCLIC_REC.
  rewrite <-!negb_orb. f_equal. apply eq_true_iff_eq. rewrite !orb_true_iff, !andb_true_iff, !Z.eqb_eq, !Z.leb_le. lia.
Qed.

Lemma files_of_app p : application_ok p → Forall file_ok (p_files p).
Proof. by intros []. Qed.

(** What the reading of one file leaves: the slot holds the file if it is one that is copied. *)
Definition slot_done (app app' : desfire_application_t) (f : file) : Prop :=
  app_intact app' ∧ a_id app' = a_id app ∧ a_key_settings app' = a_key_settings app ∧ a_key_count app' = a_key_count app ∧
  a_keys app' = a_keys app ∧ a_file_count app <= a_file_count app' <= a_file_count app + 1 ∧
  files_view app' = files_view app ++ option_list (clone_file (dl_fs u) f).

Lemma slot_skipped app app' f : app_intact app' → off_slot (a_file_count app) app app' → clone_data f = None → slot_done app app' f.
Proof.
  intros Ha Ho Hn. pose proof (os_head _ _ _ Ho) as (? & ? & ? & ?). pose proof (os_count _ _ _ Ho).
  unfold slot_done. split_and!; try done; [lia|lia|]. unfold clone_file. rewrite Hn. mred. cbn [option_list]. by rewrite app_nil_r, (off_slot_view _ _ Ho).
Qed.

Lemma slot_counted app app' f d : app_intact app' → off_slot (a_file_count app) app app' → 0 <= a_file_count app < CONFIG_NFC_DESFIRE_MAX_FILES_PER_APP →
  clone_data f = Some d → file_at app' (a_file_count app) = {| f_id := f_id f; f_settings := clone_settings (dl_fs u) (f_settings f); f_data := d |} →
  slot_done app (with_key_counts (a_key_settings app') (a_key_count app') (u8 (a_file_count app' + 1)) app') f.
Proof.
  intros Ha Ho Hc Hd Hf. pose proof desfire_max_files_range. pose proof (os_head _ _ _ Ho) as (? & ? & ? & ?). pose proof (os_count _ _ _ Ho).
  unfold slot_done. rewrite (counted_view app app') by (done || lia). cbn [a_id a_key_settings a_key_count a_keys a_file_count with_key_counts with_app_header].
  assert (u8 (a_file_count app' + 1) = a_file_count app + 1) as Hu8 by (unfold u8; rewrite Z.mod_small; lia). rewrite Hu8.
  split_and!; try done; try lia; [|unfold clone_file; rewrite Hd, Hf; done].
  apply intact_header; [done|by apply intact_id|by destruct Ha as [_ []]|apply Ha|lia].
Qed.

Lemma off_slot_refl slot a : off_slot slot a a.
Proof. by constructor. Qed.

(** The three assignments to a slot. *)
Lemma slot_filled app id fs n : app_intact app → 0 <= a_file_count app < CONFIG_NFC_DESFIRE_MAX_FILES_PER_APP →
  is_byte id → settings_ok fs → 0 <= n <= CONFIG_NFC_DESFIRE_MAX_FILE_SIZE →
  ∃ ids fss lens, st (a_file_ids app) (a_file_count app) id = Some ids ∧ st (a_file_settings app) (a_file_count app) fs = Some fss ∧
    st (a_file_data_len app) (a_file_count app) n = Some lens ∧ let app' := with_files ids fss lens (a_file_data app) app in
    app_intact app' ∧ off_slot (a_file_count app) app app' ∧
    file_at app' (a_file_count app) = {| f_id := id; f_settings := fs; f_data := take (Z.to_nat n) (default [] (ld (a_file_data app) (a_file_count app))) |}.
Proof.
  intros Ha Hc Hid Hfs Hn. destruct (intact_slot (a_file_count app) id fs n app Ha Hc Hid Hfs Hn) as (E1 & E2 & E3 & Ha').
  eexists _, _, _. split; [exact E1|]. split; [exact E2|]. split; [exact E3|]. cbv zeta. split; [exact Ha'|].
  destruct Ha as [_ [_ _ _ _ _ [Li _] [Lf _] [Ll _] _]]. cbn in Li, Lf, Ll. split.
  - apply off_slot_intro; [lia|]. intros i Hi Hne. rewrite !ld_insert_ne by lia. done.
  - unfold file_at. cbn [a_file_ids a_file_settings a_file_data_len a_file_data with_files]. rewrite !ld_insert by lia. done.
Qed.

Lemma clone_settings_ok fs : settings_ok fs → settings_ok (clone_settings (dl_fs u) fs).
Proof.
  intros []. constructor; cbn; try done. case_bool; [done|]. pose proof (Z.mod_pos_bound (fs_word0 fs) (2 ^ 24) ltac:(lia)). lia.
Qed.

Section Step.
Context (p : application) (Hp : application_ok p) (Hnd : NoDup (f_id <$> p_files p)) (f : file) (Hf : f ∈ p_files p).
Context (ids : list Z) (n : nat) (fi : Z) (Hid : ld ids fi = Some (f_id f)).

Definition stepped (ss : df_session) (app : desfire_application_t) (m : M C desfire_application_t) (c : C) : Prop :=
  ∃ app' c' ss', m c = read_app_files tag_transceive u fuel n (fi + 1) (Some s) ids app' c' ∧ R c' ss' ∧ ss_same ss ss' ∧ slot_done app app' f.

(** The data of a file whose settings pass. *)
Lemma data_step app1 c ss app : R c ss → app_at k ss = Some p → app_intact app1 → 0 <= a_file_count app < CONFIG_NFC_DESFIRE_MAX_FILES_PER_APP →
  off_slot (a_file_count app) app app1 → let slot := a_file_count app in
  let fs := clone_settings (dl_fs u) (f_settings f) in let size := file_size (f_settings f) in
  known_type (f_settings f) = true → 0 < size <= CONFIG_NFC_DESFIRE_MAX_FILE_SIZE →
  clone_data f = (if range_read f size then Some (take (Z.to_nat size) (f_data f)) else None) →
  ld (a_file_ids app1) slot = Some (f_id f) → ld (a_file_settings app1) slot = Some fs → ld (a_file_data_len app1) slot = Some size →
  stepped ss app (d ← lift (ld (a_file_data app1) slot);
    '(ret, d, read_len) ← read_slot tag_transceive u fuel (Some s) (f_id f) size fs d;
    dat ← lift (st (a_file_data app1) slot d);
    let app := with_files (a_file_ids app1) (a_file_settings app1) (a_file_data_len app1) dat app1 in
    if negb (ret =? 0) then read_app_files tag_transceive u fuel n (fi + 1) (Some s) ids app else
    lens ← lift (st (a_file_data_len app) slot (u16 read_len));
    read_app_files tag_transceive u fuel n (fi + 1) (Some s) ids
      (let app := with_files (a_file_ids app) (a_file_settings app) lens (a_file_data app) app in
       with_key_counts (a_key_settings app) (a_key_count app) (u8 (a_file_count app + 1)) app)) c.
Proof.
  intros Hc Ha Ha1 Hcnt Hoff slot fs size Hkn Hsize Hclone Eid Efs Elen. pose proof desfire_max_file_size_range.
  destruct (ld_Some (a_file_data app1) slot) as [d Ed].
  { destruct Ha1 as [_ [_ _ _ _ _ _ _ _ [Ld _]]]. cbn in Ld. lia. }
  pose proof (ld_Some_inv _ _ _ Ed) as [_ Hd]. assert (array_ok CONFIG_NFC_DESFIRE_MAX_FILE_SIZE d) as Hdok.
  { destruct Ha1 as [_ [_ _ _ _ _ _ _ _ [_ Od]]]. apply (Forall_lookup_1 _ _ _ _ Od Hd). }
  destruct (read_slot_exact p Hp Hnd f Hf c ss fs d Hc Ha Hdok eq_refl Hkn Hsize) as (c2 & ss2 & r & d2 & k2 & Hrun & Hc2 & Hss2 & Hd2 & Hr).
  unfold stepped. rewrite Ed, run_lift_Some. rewrite (run_call _ _ _ _ _ Hrun).
  destruct (intact_data slot d2 app1 Ha1 Hcnt Hd2) as [E4 Ha2]. rewrite E4, run_lift_Some. cbv zeta.
  match type of Ha2 with app_intact ?a => set (app2 := a) in * end.
  assert (off_slot slot app app2) as Hoff2.
  { eapply off_slot_trans; [exact Hoff|]. apply off_slot_intro; [lia|]. intros i Hi Hne. by rewrite ld_insert_ne by lia. }
  cbv zeta in Hr. fold size in Hr. destruct (range_read f size).
  - destruct Hr as (-> & -> & Htake). cbn [Z.eqb negb].
    destruct (intact_len slot size app2 Ha2 Hcnt ltac:(lia)) as [E5 Ha3]. rewrite u16_id, E5, run_lift_Some by lia.
    assert (<[Z.to_nat slot:=size]> (a_file_data_len app2) = a_file_data_len app2) as Hsame
      by (apply list_insert_id; by apply ld_Some_inv in Elen as [_ ?]).
    rewrite Hsame in *. eexists _, c2, ss2. split; [done|]. split; [done|]. split; [done|].
    apply slot_counted with (d := take (Z.to_nat size) (f_data f)); try done.
    unfold file_at. cbn [a_file_ids a_file_settings a_file_data_len a_file_data with_files app2].
    unfold app2. cbn [a_file_ids a_file_settings a_file_data_len a_file_data with_files]. fold slot.
    rewrite Eid, Efs, Elen, ld_insert; [|apply ld_Some_inv in Ed as [Hl _]; done]. cbn [default]. by rewrite <-Htake.
  - rewrite (proj2 (Z.eqb_neq _ _)) by done. cbn [negb]. exists app2, c2, ss2. split; [done|]. split; [done|]. split; [done|]. by apply slot_skipped.
Qed.

Lemma file_step c ss app : R c ss → app_at k ss = Some p → app_intact app → 0 <= a_file_count app < CONFIG_NFC_DESFIRE_MAX_FILES_PER_APP →
  stepped ss app (read_app_files tag_transceive u fuel (S n) fi (Some s) ids app) c.
Proof.
  intros Hc Ha Happ Hcnt. pose proof desfire_max_file_size_range. pose proof (file_is_ok p Hp f Hf) as Hfok.
  pose proof (clone_data_split f Hfok) as Hclone. cbv zeta in Hclone.
  destruct (file_settings_exact p Hp Hnd f Hf c ss Hc Ha) as (c1 & r & fs' & sz' & Hrun & Hc1 & Hr).
  assert (∀ app', app_intact app' → off_slot (a_file_count app) app app' → clone_data f = None →
    stepped ss app (read_app_files tag_transceive u fuel n (fi + 1) (Some s) ids app') c1) as Hskip.
  { intros app' Ha' Ho Hn. exists app', c1, ss. split; [done|]. split; [done|]. split; [done|]. by apply slot_skipped. }
  unfold stepped. cbn [read_app_files]. cbv zeta. rewrite (proj2 (Z.leb_gt _ _)) by lia. rewrite Hid, run_lift_Some.
  rewrite (run_call _ _ _ _ _ Hrun). destruct (known_type (f_settings f)) eqn:Hkn; cbn [negb] in Hclone.
  2: { rewrite (proj2 (Z.eqb_neq _ _)) by done. cbn [negb]. apply (Hskip app); [done|apply off_slot_refl|done]. }
  destruct Hr as (-> & -> & ->). cbn [Z.eqb negb]. rewrite type_tests.
  change (negb ((0 <=? fs_type (clone_settings (dl_fs u) (f_settings f))) && (fs_type (clone_settings (dl_fs u) (f_settings f)) <=? 4)))
    with (negb (known_type (f_settings f))). rewrite Hkn. cbn [negb fs_access clone_settings].
  destruct (desfire_access_free_read (fs_access (f_settings f))); cbn [negb] in *; [|by apply (Hskip app); [|apply off_slot_refl|]].
  destruct (Z.ltb_spec CONFIG_NFC_DESFIRE_MAX_FILE_SIZE (file_size (f_settings f))) as [|Hle]; [by apply (Hskip app); [|apply off_slot_refl|]|].
  set (fs := clone_settings _ _). set (size := file_size _) in *.
  assert (0 <= size) as Hsz0.
  { unfold size, file_size. case_bool; [lia|]. apply Z.mod_pos_bound. lia. }
  destruct (slot_filled app (f_id f) fs size Happ Hcnt (fo_id f Hfok) (clone_settings_ok _ (fo_settings f Hfok)) ltac:(lia))
    as (ids1 & fss1 & lens1 & E1 & E2 & E3 & Ha1 & Hoff1 & Hfile1).
  rewrite E1, run_lift_Some, E2, run_lift_Some, u16_id, E3, run_lift_Some by lia.
  set (app1 := with_files ids1 fss1 lens1 _ app) in *. destruct (Z.ltb_spec 0 size) as [Hpos|Hz].
  - rewrite (proj2 (Z.eqb_neq _ _)) in Hclone by lia.
    assert (len (a_file_ids app) = CONFIG_NFC_DESFIRE_MAX_FILES_PER_APP ∧ len (a_file_settings app) = CONFIG_NFC_DESFIRE_MAX_FILES_PER_APP ∧
      len (a_file_data_len app) = CONFIG_NFC_DESFIRE_MAX_FILES_PER_APP) as (Li & Lf & Ll)
      by (by destruct Happ as [_ [_ _ _ _ _ [? _] [? _] [? _] _]]).
    rewrite st_ok in E1 by lia. rewrite st_ok in E2 by lia. rewrite st_ok in E3 by lia. injection E1 as E1. injection E2 as E2. injection E3 as E3.
    apply (data_step app1 c1 ss app); try done;
      unfold app1; cbn [with_files a_file_ids a_file_settings a_file_data_len]; rewrite <-?E1, <-?E2, <-?E3; apply ld_insert; lia.
  - assert (size = 0) as Hz0 by lia. rewrite Hz0, Z.eqb_refl in Hclone. eexists _, c1, ss. split; [reflexivity|]. split; [done|]. split; [done|].
    apply slot_counted with (d := []); try done. rewrite Hfile1, Hz0. done.
Qed.
End Step.

(** *** Applications *)

Definition head_kept (a a' : desfire_application_t) : Prop :=
  a_id a' = a_id a ∧ a_key_settings a' = a_key_settings a ∧ a_key_count a' = a_key_count a ∧ a_keys a' = a_keys a.

Lemma app_files_exact p rest : application_ok p → NoDup (f_id <$> p_files p) → let ids := (f_id <$> p_files p) ++ rest in
  ∀ todo pre c ss app, p_files p = pre ++ todo → R c ss → app_at k ss = Some p → app_intact app → a_file_count app <= len pre →
  ∃ app' c' ss', read_app_files tag_transceive u fuel (length todo) (len pre) (Some s) ids app c = Some (app', c') ∧
    R c' ss' ∧ ss_same ss ss' ∧ app_intact app' ∧ head_kept app app' ∧
    files_view app' = files_view app ++ omap (clone_file (dl_fs u)) todo.
Proof.
  intros Hp Hnd ids. induction todo as [|f todo IH]; intros pre c ss app Hfiles Hc Ha Happ Hcnt.
  { exists app, c, ss. split; [done|]. split_and!; try done. by rewrite app_nil_r. }
  assert (f ∈ p_files p) as Hf by (rewrite Hfiles; apply list_elem_of_In, List.in_elt).
  assert (ld ids (len pre) = Some (f_id f)) as Hid.
  { unfold ids. rewrite Hfiles, fmap_app. cbn [fmap list_fmap]. rewrite <-(assoc_L (++)). apply ld_mid. unfold len. by rewrite length_fmap. }
  assert (0 <= a_file_count app < CONFIG_NFC_DESFIRE_MAX_FILES_PER_APP) as Hslot.
  { pose proof (po_file_count p Hp) as Hl. rewrite Hfiles, len_app, len_cons in Hl. pose proof (len_nonneg todo).
    destruct Happ as [_ [_ _ _ Hfc _ _ _ _ _]]. cbn in Hfc. lia. }
  destruct (file_step p Hp Hnd f Hf ids (length todo) (len pre) Hid c ss app Hc Ha Happ Hslot)
    as (app1 & c1 & ss1 & Hrun & Hc1 & Hss1 & Ha1 & I1 & S1 & K1 & Y1 & N1 & V1).
  destruct (IH (pre ++ [f]) c1 ss1 app1) as (app2 & c2 & ss2 & Hrun2 & Hc2 & Hss2 & Ha2 & (I2 & S2 & K2 & Y2) & V2);
    [by rewrite <-(assoc_L (++))|done|by rewrite (same_app _ _ Hss1)|done|rewrite len_app; change (len [f]) with 1; lia|].
  exists app2, c2, ss2. cbn [length]. rewrite Hrun. rewrite len_app in Hrun2. change (len [f]) with 1 in Hrun2. rewrite Hrun2.
  split; [done|]. split; [done|]. split; [unfold ss_same in *; by rewrite Hss2|]. split; [done|].
  split; [unfold head_kept; by rewrite I2, S2, K2, Y2|]. rewrite V2, V1, <-(assoc_L (++)). f_equal. cbn [omap list_omap].
  by destruct (clone_file (dl_fs u) f).
Qed.

Definition keys_zero (a : desfire_application_t) : Prop := a_keys a = replicate (Z.to_nat DESFIRE_MAX_KEYS) (zeros DESFIRE_AES_KEY_SIZE).

Lemma key_settings_exact p c ss a b : R c ss → app_at k ss = Some p →
  ∃ c', desfire_poller_i_read_key_settings tag_transceive u fuel (Some s) a b c = Some ((0, p_settings p, len (p_keys p)), c') ∧ R c' ss.
Proof.
  intros Hc Ha. destruct Hu as [[Lb Bb] _ _ _ _].
  assert (df_answer k ss (bare DESFIRE_CMD_GET_KEY_SETTINGS) = ([p_settings p; len (p_keys p)] ++ df_status DESFIRE_STATUS_OK, ss)) as Hks.
  { transitivity ((match app_at k ss with Some p => [p_settings p; len (p_keys p)] | None => [c_master_settings k; 0x0F] end)
      ++ df_status DESFIRE_STATUS_OK, ss); [done|]. by rewrite Ha. }
  destruct (bare_command c ss DESFIRE_CMD_GET_KEY_SETTINGS _ ss Hc ltac:(by vm_compute) Hks ltac:(done)) as (c1 & Hrun & Hc1).
  pose proof (chunks_done GET_KEY_SETTINGS _ (dl_buf u) NFC_TRANSPORT_MAX_RESPONSE_LEN c c1 Hrun ltac:(done) ltac:(by rewrite Lb)) as Hsend.
  exists c1. split; [|done]. unfold desfire_poller_i_read_key_settings. by rewrite (run_call _ _ _ _ _ Hsend).
Qed.

Lemma file_ids_exact p c ss : R c ss → app_at k ss = Some p →
  ∃ c' rest, desfire_poller_i_read_file_ids tag_transceive u fuel (Some s) (dl_file_ids u) CONFIG_NFC_DESFIRE_MAX_FILES_PER_APP c =
    Some ((0, (f_id <$> p_files p) ++ rest, len (p_files p)), c') ∧ R c' ss.
Proof.
  intros Hc Ha. destruct (selected_app_ok ss p Ha) as [Hp Hnd]. pose proof desfire_max_files_range as Hmf. destruct Hu as [[Lb Bb] _ _ [Lfi Bfi] _].
  pose proof (po_file_count p Hp) as Hfc. pose proof (len_nonneg (p_files p)).
  assert (df_answer k ss (bare DESFIRE_CMD_GET_FILE_IDS) = ((f_id <$> p_files p) ++ df_status DESFIRE_STATUS_OK, ss)) as Hfi.
  { transitivity (match app_at k ss with Some p => ((f_id <$> p_files p) ++ df_status DESFIRE_STATUS_OK, ss)
      | None => (df_status DESFIRE_STATUS_APP_NOT_FOUND, ss) end); [done|]. by rewrite Ha. }
  assert (len (f_id <$> p_files p) = len (p_files p)) as Hlf by apply len_fmap.
  destruct (bare_command c ss DESFIRE_CMD_GET_FILE_IDS _ ss Hc ltac:(by vm_compute) Hfi) as (c2 & Hrun & Hc2).
  { rewrite len_app, Hlf. unfold NFC_TRANSPORT_MAX_RESPONSE_LEN. change (len (df_status _)) with 2. lia. }
  pose proof (chunks_done _ _ (dl_buf u) NFC_TRANSPORT_MAX_RESPONSE_LEN c c2 Hrun ltac:(rewrite Hlf; unfold NFC_TRANSPORT_MAX_RESPONSE_LEN; lia)
    ltac:(by rewrite Lb)) as Hsend.
  eexists c2, _. split; [|done]. unfold desfire_poller_i_read_file_ids. rewrite (run_call _ _ _ _ _ Hsend). cbn [Z.eqb negb].
  rewrite Hlf, !(proj2 (Z.ltb_ge _ _)) by lia. rewrite memcpy_prefix by (rewrite len_app; pose proof (len_nonneg (drop (length (f_id <$> p_files p)) (dl_buf u))); lia).
  rewrite take_app_le, take_ge by (unfold len in *; lia). rewrite blit_ok by lia. rewrite run_lift_Some. change (Z.to_nat 0) with 0%nat.
  rewrite take_0. cbn [app]. do 3 f_equal. unfold u8. rewrite Z.mod_small by lia. done.
Qed.

Lemma read_application_exact p c ss app : R c ss → app_at k ss = Some p → app_intact app → keys_zero app → a_id app = p_id p →
  ∃ app' c' ss', desfire_poller_read_application tag_transceive u fuel (Some s) app c = Some ((0, app'), c') ∧
    R c' ss' ∧ app_intact app' ∧ keys_zero app' ∧ view_app app' = clone_app (dl_fs u) p ∧ a_key_count app' <= DESFIRE_MAX_KEYS.
Proof.
  intros Hc Ha Happ Hkeys Hid. destruct (selected_app_ok ss p Ha) as [Hp Hnd]. pose proof (po_key_count p Hp) as Hkc.
  pose proof (po_settings p Hp) as Hset. pose proof desfire_max_files_range. pose proof (len_nonneg (p_keys p)) as Hk0.
  unfold desfire_poller_read_application. destruct (key_settings_exact p c ss 0 0 Hc Ha) as (c1 & Hrun1 & Hc1).
  rewrite (run_call _ _ _ _ _ Hrun1). change (0 =? DESFIRE_POLLER_I_AUTH) with false. cbn [Z.eqb negb]. cbv zeta.
  destruct (file_ids_exact p c1 ss Hc1 Ha) as (c2 & rest & Hrun2 & Hc2). rewrite (run_call _ _ _ _ _ Hrun2). cbn [Z.eqb negb].
  set (app0 := with_key_counts _ _ 0 _).
  assert (app_intact app0) as Ha0.
  { unfold app0, with_key_counts. cbn [a_id a_key_settings a_key_count with_app_header].
    assert (is_byte (len (p_keys p))) by (unfold DESFIRE_MAX_KEYS in Hkc; split; lia).
    repeat (apply intact_header; [|by apply intact_id|done..|]); [done| |lia].
    by destruct Happ as [_ []]. }
  destruct (app_files_exact p rest Hp Hnd (p_files p) [] c2 ss app0) as (app' & c3 & ss3 & Hrun3 & Hc3 & _ & Ha3 & (I3 & S3 & K3 & Y3) & V3); try done.
  change (len []) with 0 in Hrun3. unfold len at 1. rewrite Nat2Z.id. rewrite (run_call _ _ _ _ _ Hrun3).
  exists app', c3, ss3. split; [done|]. split; [done|]. split; [done|]. split; [unfold keys_zero; by rewrite Y3|].
  split; [|by rewrite K3]. unfold view_app, clone_app. rewrite I3, S3, K3, Y3. fold (files_view app'). rewrite V3. cbn [app0 a_id a_key_settings a_key_count a_keys with_key_counts with_app_header].
  unfold app0. cbn [a_id a_key_settings a_key_count a_keys with_key_counts with_app_header]. rewrite Hid, Hkeys. f_equal.
  rewrite take_replicate. f_equal. unfold DESFIRE_MAX_KEYS, len in *. lia.
Qed.

(** *** The card *)

Lemma find_app_mid pre p todo : c_apps k = pre ++ p :: todo → find_app k (p_id p) = Some (length pre, p).
Proof.
  intros Hk'. unfold find_app. rewrite Hk' in *. apply list_find_Some. split; [by apply list_lookup_middle|]. split; [done|].
  intros j q Hj Hlt Heq. rewrite fmap_app, fmap_cons in Happids. rewrite lookup_app_l in Hj by done.
  apply list.NoDup_app in Happids as (_ & Hdis & _). apply (Hdis (p_id q)).
  - apply list_elem_of_fmap_2. apply list_elem_of_lookup. by exists j.
  - rewrite Heq. apply list_elem_of_In. by left.
Qed.

Lemma select_exact pre p todo c ss : c_apps k = pre ++ p :: todo → R c ss →
  ∃ c' ss', desfire_poller_i_select_application tag_transceive (Some s) (p_id p) c = Some (0, c') ∧ R c' ss' ∧ app_at k ss' = Some p.
Proof.
  intros Happs Hc. assert (application_ok p) as Hp.
  { pose proof (co_apps k Hk) as Hall. rewrite Happs in Hall. by apply Forall_app in Hall as [_ ?%Forall_cons_iff]; destruct_and?. }
  destruct (po_id p Hp) as [Hl Hb]. pose proof (find_app_mid pre p todo Happs) as Hfind. unfold DESFIRE_APP_ID_SIZE in Hl.
  destruct (p_id p) as [|x [|y [|z [|? ?]]]] eqn:Eid; try (exfalso; unfold len in Hl; cbn in Hl; lia).
  assert (df_answer k ss (with_data DESFIRE_CMD_SELECT_APPLICATION [x; y; z]) =
    (df_status DESFIRE_STATUS_OK, {| ss_app := Some (len pre); ss_frame := None |})) as Hans.
  { transitivity (match find_app k [x; y; z] with
         | Some (i, _) => (df_status DESFIRE_STATUS_OK, {| ss_app := Some (Z.of_nat i); ss_frame := None |})
         | None => (df_status DESFIRE_STATUS_APP_NOT_FOUND, {| ss_app := None; ss_frame := None |})
         end); [done|]. by rewrite Hfind. }
  destruct (data_command c ss DESFIRE_CMD_SELECT_APPLICATION [x; y; z] _ _ Hc ltac:(by vm_compute) Hb ltac:(done) ltac:(by vm_compute) Hans ltac:(done))
    as (c' & Hrun & Hc').
  eexists c', _. split; [|split; [exact Hc'|]].
  - unfold desfire_poller_i_select_application. change (memcpy _ 5 [x; y; z] 0 DESFIRE_APP_ID_SIZE) with
      (Some ([DESFIRE_CLA_NATIVE; DESFIRE_CMD_SELECT_APPLICATION; 0; 0; len [x; y; z]] ++ [x; y; z])).
    rewrite run_lift_Some. by rewrite (run_call _ _ _ _ _ Hrun).
  - unfold app_at. cbn [ss_app]. mred. rewrite Happs. by apply ld_mid.
Qed.

(** The image with the applications that have been read. *)
Record apps_read (d d' : desfire_data_t) (ps : list application) : Prop := {
  ar_intact : card_intact d';
  ar_keys : Forall keys_zero (d_apps d');
  ar_counts : Forall (λ a, a_key_count a <= DESFIRE_MAX_KEYS) (d_apps d');
  ar_rest : d' = with_apps (d_app_count d') (d_apps d') d;
  ar_apps : c_apps (view d') = ps;
}.

Lemma app_stored d d' ps a : apps_read d d' ps → app_intact a → keys_zero a → a_key_count a <= DESFIRE_MAX_KEYS →
  d_app_count d' < CONFIG_NFC_DESFIRE_MAX_APPS →
  ∃ apps, st (d_apps d') (d_app_count d') a = Some apps ∧ apps_read d (with_apps (u8 (d_app_count d' + 1)) apps d') (ps ++ [view_app a]).
Proof.
  intros [Hi Hz Hn Hr Hv] Ha Hak Han Hc. destruct (intact_card_apps d' Hi) as (Hl & Hf & Hcnt). pose proof desfire_max_apps_range.
  rewrite st_ok by lia. eexists. split; [done|]. assert (u8 (d_app_count d' + 1) = d_app_count d' + 1) as -> by (unfold u8; rewrite Z.mod_small; lia).
  constructor.
  - apply intact_with_apps; [done|lia|by rewrite len_insert|by apply Forall_insert].
  - by apply Forall_insert.
  - by apply Forall_insert.
  - by rewrite Hr.
  - rewrite <-Hv. cbn [view c_apps with_apps d_app_count d_apps]. replace (Z.to_nat (d_app_count d' + 1)) with (S (Z.to_nat (d_app_count d'))) by lia.
    rewrite (take_S_r _ _ a) by (apply list_lookup_insert_eq; unfold len in Hl; lia).
    rewrite fmap_app. cbn [fmap list_fmap]. by rewrite take_insert_ge by lia.
Qed.

Lemma card_apps_exact rest : ∀ todo pre c ss out d, c_apps k = pre ++ todo → R c ss → d_app_count out = len pre →
  apps_read d out (clone_app (dl_fs u) <$> pre) → let ids := mjoin (p_id <$> c_apps k) ++ rest in
  ∃ out' c' ss', read_card_apps tag_transceive u fuel (length todo) (len pre) (Some s) ids out c = Some (out', c') ∧ R c' ss' ∧
    apps_read d out' (clone_app (dl_fs u) <$> c_apps k).
Proof.
  induction todo as [|p todo IH]; intros pre c ss out d Happs Hc Hcnt Hout ids.
  { exists out, c, ss. split; [done|]. split; [done|]. by rewrite Happs, app_nil_r. }
  cbn [length read_card_apps]. pose proof (co_app_count k Hk) as Hmax. rewrite Happs, len_app, len_cons in Hmax. pose proof (len_nonneg todo).
  rewrite (proj2 (Z.leb_gt _ _)) by lia.
  assert (Forall (λ p, len (p_id p) = 3 ∧ bytes (p_id p)) (c_apps k)) as Hidl.
  { eapply Forall_impl; [|exact (co_apps k Hk)]. intros q Hq. apply (po_id q Hq). }
  assert (len (mjoin (p_id <$> pre)) = len pre * 3) as Hlpre.
  { rewrite (mjoin_len _ 3); [by rewrite len_fmap; lia|]. rewrite Happs in Hidl. apply Forall_app in Hidl as [Hidl _].
    apply Forall_fmap. eapply Forall_impl; [|exact Hidl]. by intros q []. }
  assert (len (p_id p) = 3 ∧ bytes (p_id p)) as [Hlp Hbp].
  { rewrite Happs in Hidl. apply Forall_app in Hidl as [_ Hidl]. by apply Forall_cons_iff in Hidl as [? _]. }
  assert (sub ids (len pre * DESFIRE_APP_ID_SIZE) DESFIRE_APP_ID_SIZE = Some (p_id p)) as ->.
  { unfold ids. rewrite Happs, fmap_app, fmap_cons, join_app, mjoin_cons, <-!(assoc_L (++)). by apply sub_app_mid. }
  rewrite run_lift_Some. destruct (select_exact pre p todo c ss Happs Hc) as (c1 & ss1 & Hsel & Hc1 & Hat).
  rewrite (run_call _ _ _ _ _ Hsel). cbn [Z.eqb negb]. destruct (intact_card_apps out (ar_intact _ _ _ Hout)) as (Hl & Hf & _).
  destruct (ld_Some (d_apps out) (d_app_count out)) as [app Eapp]; [pose proof (len_nonneg pre); lia|]. rewrite Eapp, run_lift_Some.
  apply ld_Some_inv in Eapp as [_ Eapp]. pose proof (Forall_lookup_1 _ _ _ _ Hf Eapp) as Happ.
  pose proof (Forall_lookup_1 _ _ _ _ (ar_keys _ _ _ Hout) Eapp) as Hkz.
  assert (memcpy (a_id app) 0 (p_id p) 0 DESFIRE_APP_ID_SIZE = Some (p_id p)) as ->.
  { apply memcpy_over; [exact (proj1 (intact_id app Happ))|exact Hlp]. }
  rewrite run_lift_Some. set (app0 := with_app_header _ _ _ _ _).
  assert (app_intact app0) as Ha0.
  { apply intact_header; [done|by split|by destruct Happ as [_ []]|by destruct Happ|by destruct Happ as [_ []]]. }
  destruct (read_application_exact p c1 ss1 app0 Hc1 Hat Ha0 Hkz eq_refl) as (app' & c2 & ss2 & Hrun2 & Hc2 & Ha' & Hkz' & Hv' & Hkn').
  rewrite (run_call _ _ _ _ _ Hrun2). destruct (app_stored d out _ app' Hout Ha' Hkz' Hkn' ltac:(lia)) as (apps & Est & Hout').
  rewrite Est, run_lift_Some. cbn [Z.eqb negb]. rewrite Hv' in Hout'.
  assert (len pre + 1 = len (pre ++ [p])) as Hlen by (rewrite len_app; done). rewrite Hlen.
  apply (IH (pre ++ [p]) c2 ss2 _ d); [by rewrite <-(assoc_L (++))|done| |by rewrite fmap_app].
  cbn [with_apps d_app_count]. rewrite Hcnt, <-Hlen. unfold u8. pose proof desfire_max_apps_range. pose proof (len_nonneg pre). rewrite Z.mod_small; lia.
Qed.

(** *** The version *)

Lemma chunk_step n pre bs rest sw m c : len bs <= len rest → len pre + len bs <= m →
  sw = DESFIRE_STATUS_OK ∨ sw = DESFIRE_STATUS_ADDITIONAL_FRAME → let out := pre ++ bs ++ drop (length bs) rest in
  send_chunks_loop tag_transceive (S n) (Some s) (bs ++ df_status sw) (len pre) (pre ++ rest) m c =
    if sw =? DESFIRE_STATUS_OK then Some ((0, out, len pre + len bs), c)
    else ('(ret, rx) ← desfire_poller_i_transceive tag_transceive (Some s) AF_CONT;
      if negb (ret =? 0) then mret (ret, out, len pre + len bs) else
      send_chunks_loop tag_transceive n (Some s) rx (len pre + len bs) out m) c.
Proof.
  intros Hl Hm Hsw out. cbn [send_chunks_loop]. pose proof (len_nonneg bs).
  assert (len (bs ++ df_status sw) = len bs + 2) as El by (rewrite len_app; done). rewrite El.
  rewrite (proj2 (Z.ltb_ge _ _)) by lia. cbv zeta. replace (len bs + 2 - 2) with (len bs) by lia. rewrite (proj2 (Z.ltb_ge _ _)) by lia.
  assert ((if 0 <? len bs then memcpy (pre ++ rest) (len pre) (bs ++ df_status sw) 0 (len bs) else Some (pre ++ rest)) = Some out) as ->.
  { unfold out. destruct (Z.ltb_spec 0 (len bs)) as [|Hz]; [|by destruct bs; [|rewrite len_cons in Hz; pose proof (len_nonneg bs); lia]].
    rewrite memcpy_prefix by lia. rewrite take_app_le by (unfold len; lia). rewrite take_ge by (unfold len; lia).
    rewrite <-(take_drop (length bs) rest) at 1. apply blit_app_mid; [done|]. unfold len in *. rewrite length_take. lia. }
  rewrite run_lift_Some, (status_end bs sw DESFIRE_STATUS_OK), run_lift_Some. destruct Hsw as [-> | ->]; [done|].
  change (DESFIRE_STATUS_ADDITIONAL_FRAME =? DESFIRE_STATUS_OK) with false. cbv iota. by rewrite status_end, run_lift_Some.
Qed.

Definition idle : df_session := {| ss_app := None; ss_frame := None |}.

Lemma version_exact c : R c idle →
  ∃ c', desfire_poller_i_send_chunks tag_transceive fuel (Some s) GET_VERSION (dl_version_buf u) DESFIRE_VERSION_TOTAL_BYTES c =
    Some ((0, version_bytes k, DESFIRE_VERSION_TOTAL_BYTES), c') ∧ R c' idle.
Proof.
  intros Hc. pose proof (version_len k Hk) as Hv. destruct Hu as [_ [Lv _] _ _ _]. unfold DESFIRE_VERSION_TOTAL_BYTES in *.
  destruct (len_split (version_bytes k) 7 ltac:(lia)) as (v1 & w1 & E1 & L1).
  assert (len w1 = 21) as Lw1 by (rewrite E1, len_app in Hv; lia).
  destruct (len_split w1 7 ltac:(lia)) as (v2 & v3 & -> & L2). rewrite len_app in Lw1.
  assert (∀ f, version_answer k {| ss_app := None; ss_frame := f |} = (version_frame k (default 0 f),
    {| ss_app := None; ss_frame := if (default 0 f =? 0) || (default 0 f =? 1) then Some (default 0 f + 1) else None |})) as Hans by done.
  assert (version_frame k 0 = v1 ++ df_status DESFIRE_STATUS_ADDITIONAL_FRAME ∧ version_frame k 1 = v2 ++ df_status DESFIRE_STATUS_ADDITIONAL_FRAME ∧
    version_frame k 2 = v3 ++ df_status DESFIRE_STATUS_OK) as (F1 & F2 & F3).
  { unfold version_frame. cbn [Z.eqb]. rewrite E1. assert (length v1 = 7%nat ∧ length v2 = 7%nat) as [N1 N2] by (unfold len in *; lia).
    assert (drop 14 (v1 ++ v2 ++ v3) = v3) as -> by (rewrite (assoc_L (++)); apply drop_app_length'; rewrite length_app; lia).
    rewrite (drop_app_length' v1), !take_app_length' by done. done. }
  destruct (bare_command c idle DESFIRE_CMD_GET_VERSION (version_frame k 0) {| ss_app := None; ss_frame := Some 1 |} Hc ltac:(by vm_compute) ltac:(done))
    as (c1 & R1 & Hc1); [rewrite F1, len_app, L1; done|].
  destruct (bare_command c1 _ DESFIRE_CMD_ADDITIONAL_FRAME (version_frame k 1) {| ss_app := None; ss_frame := Some 2 |} Hc1 ltac:(by vm_compute) ltac:(done))
    as (c2 & R2 & Hc2); [rewrite F2, len_app, L2; done|].
  destruct (bare_command c2 _ DESFIRE_CMD_ADDITIONAL_FRAME (version_frame k 2) idle Hc2 ltac:(by vm_compute) ltac:(done)) as (c3 & R3 & Hc3).
  { rewrite F3, len_app. unfold NFC_TRANSPORT_MAX_RESPONSE_LEN. change (len (df_status _)) with 2. lia. }
  exists c3. split; [|done]. unfold desfire_poller_i_send_chunks. rewrite (run_call _ _ _ _ _ R1). cbn [Z.eqb negb]. rewrite F1.
  assert (∃ n, fuel = S (S (S n))) as [n En] by (exists (fuel - 3)%nat; lia). rewrite En. pose proof (len_nonneg v3).
  pose proof (chunk_step (S (S n)) [] v1 (dl_version_buf u) DESFIRE_STATUS_ADDITIONAL_FRAME 28 c1 ltac:(lia)) as X.
  change (len [] + len v1) with (len v1) in X. specialize (X ltac:(lia) ltac:(by right)). change (len []) with 0 in X. cbn [app] in X. rewrite X. clear X.
  change (DESFIRE_STATUS_ADDITIONAL_FRAME =? DESFIRE_STATUS_OK) with false. cbv iota zeta. rewrite (run_call _ _ _ _ _ R2), F2. cbn [Z.eqb negb app].
  rewrite (chunk_step _ v1 v2 (drop (length v1) (dl_version_buf u)) _ 28 c2); [|rewrite len_drop; unfold len in *; lia|lia|by right].
  change (DESFIRE_STATUS_ADDITIONAL_FRAME =? DESFIRE_STATUS_OK) with false. cbv iota zeta. rewrite (run_call _ _ _ _ _ R3), F3. cbn [Z.eqb negb].
  replace (len v1 + len v2) with (len (v1 ++ v2)) by apply len_app. rewrite (assoc_L (++)).
  rewrite (chunk_step _ (v1 ++ v2) v3 _ _ 28 c3); [|rewrite !len_drop; unfold len in *; lia|rewrite len_app; lia|by left].
  cbn [Z.eqb]. rewrite (drop_ge (drop _ _)) by (rewrite !length_drop; unfold len in *; lia). rewrite app_nil_r, len_app, E1, <-(assoc_L (++)).
  do 3 f_equal. lia.
Qed.

(** The image after the first states. *)
Definition head_image (mem ms : Z) : desfire_data_t :=
  {| d_hw_version := c_hw k; d_sw_version := c_sw k; d_uid := c_uid k; d_batch := c_batch k; d_prod_week := c_week k;
     d_prod_year := c_year k; d_free_memory := mem; d_master_key := zeros DESFIRE_AES_KEY_SIZE; d_master_key_settings := ms;
     d_app_count := 0; d_apps := d_apps desfire_zero |}.

Lemma parse_version_exact : desfire_poller_parse_version (version_bytes k) DESFIRE_VERSION_TOTAL_BYTES desfire_zero = Some (0, head_image 0 0).
Proof.
  destruct Hk as [[Lh _] [Ls _] [Lu _] [Lb _] _ _ _ _ _ _]. unfold desfire_poller_parse_version, version_bytes.
  unfold DESFIRE_VERSION_SIZE, DESFIRE_UID_SIZE, DESFIRE_BATCH_SIZE, DESFIRE_VERSION_TOTAL_BYTES in *.
  change (28 <? 28) with false. cbv iota. zadds. change (7 * 2) with 14. zadds.
  rewrite (memcpy_field _ _ 0 7 (c_hw k)); [|by apply sub_prefix|done]. mred.
  rewrite (memcpy_field _ _ 7 7 (c_sw k)); [|by apply sub_app_mid|done]. mred.
  rewrite (assoc_L (++) (c_hw k)). rewrite (memcpy_field _ _ 14 7 (c_uid k)); [|apply sub_app_mid; rewrite ?len_app; lia|done]. mred.
  rewrite (assoc_L (++) (c_hw k ++ c_sw k)). rewrite (memcpy_field _ _ 21 5 (c_batch k)); [|apply sub_app_mid; rewrite ?len_app; lia|done]. mred.
  rewrite (assoc_L (++) ((c_hw k ++ c_sw k) ++ c_uid k)). rewrite (ld_mid _ (c_week k) _ 26) by (rewrite !len_app; lia). mred.
  change [c_week k; c_year k] with ([c_week k] ++ [c_year k]). rewrite (assoc_L (++)).
  rewrite (ld_mid _ (c_year k) [] 27); [done|]. rewrite !len_app. change (len [c_week k]) with 1. lia.
Qed.

(** *** The states of the poller *)

Definition turn_to (m : M C ((Z * desfire_data_t) + (desfire_poller_state_t * dp_vars))) (c : C)
    (r : (Z * desfire_data_t) + (desfire_poller_state_t * dp_vars)) (ss : df_session) : Prop :=
  ∃ c', m c = Some (r, c') ∧ R c' ss.
Notation turn := (desfire_poller_turn tag_transceive u fuel (Some s)).

Lemma version_turn_exact v c : R c idle → pv_out v = desfire_zero →
  turn_to (turn DESFIRE_POLLER_STATE_READ_VERSION v) c (inr (DESFIRE_POLLER_STATE_READ_FREE_MEMORY, with_out (head_image 0 0) v)) idle.
Proof.
  intros Hc Hv. destruct (version_exact c Hc) as (c' & Hrun & Hc'). exists c'. split; [|done].
  cbn [desfire_poller_turn]. rewrite (run_call _ _ _ _ _ Hrun). cbn [Z.eqb negb]. by rewrite Hv, parse_version_exact, run_lift_Some.
Qed.

Lemma memory_turn_exact v c : R c idle → pv_out v = head_image 0 0 →
  turn_to (turn DESFIRE_POLLER_STATE_READ_FREE_MEMORY v) c
    (inr (DESFIRE_POLLER_STATE_READ_MASTER_KEY_SETTINGS, with_out (head_image (c_memory k) 0) v)) idle.
Proof.
  intros Hc Hv. set (b := byte_at (c_memory k)).
  destruct (bare_command c idle DESFIRE_CMD_GET_FREE_MEMORY ([b 0; b 1; b 2; b 3] ++ df_status DESFIRE_STATUS_OK) idle Hc
    ltac:(by vm_compute) ltac:(done) ltac:(done)) as (c' & Hrun & Hc').
  exists c'. split; [|done]. cbn [desfire_poller_turn]. rewrite (run_call _ _ _ _ _ Hrun). cbn [Z.eqb].
  rewrite ok_end, run_lift_Some.
  change (lift _) with (lift (Some (with_free_memory (le32 (b 0) (b 1) (b 2) (b 3)) (pv_out v))) : M C _). rewrite run_lift_Some.
  unfold b. by rewrite le32_split, Hv by apply (co_memory k Hk).
Qed.

Lemma master_turn_exact v c : R c idle → pv_out v = head_image (c_memory k) 0 → let ms := c_master_settings k in
  turn_to (turn DESFIRE_POLLER_STATE_READ_MASTER_KEY_SETTINGS v) c
    (inr (if desfire_poller_free_directory_list ms then DESFIRE_POLLER_STATE_READ_APPLICATION_IDS else DESFIRE_POLLER_STATE_DONE,
          with_out (head_image (c_memory k) ms) v)) idle.
Proof.
  intros Hc Hv ms.
  destruct (bare_command c idle DESFIRE_CMD_GET_KEY_SETTINGS ([ms; 0x0F] ++ df_status DESFIRE_STATUS_OK) idle Hc
    ltac:(by vm_compute) ltac:(done) ltac:(done)) as (c' & Hrun & Hc').
  exists c'. split; [|done]. cbn [desfire_poller_turn]. rewrite (run_call _ _ _ _ _ Hrun). cbn [Z.eqb].
  rewrite ok_end, run_lift_Some. change (lift (ld _ 0)) with (lift (Some ms) : M C Z). cbv zeta.
  change (true && _) with true. cbv iota. rewrite run_lift_Some. by rewrite Hv.
Qed.

Definition card_head : desfire_data_t := head_image (c_memory k) (c_master_settings k).

Lemma application_ids_exact ids0 c : R c idle → len ids0 = CONFIG_NFC_DESFIRE_MAX_APPS * DESFIRE_APP_ID_SIZE →
  ∃ c', R c' idle ∧ desfire_poller_i_read_application_ids tag_transceive u fuel (Some s) ids0 (CONFIG_NFC_DESFIRE_MAX_APPS * DESFIRE_APP_ID_SIZE) c =
    Some (if bool_decide (c_apps k = []) then (- EBADMSG, ids0, 0)
          else (0, mjoin (p_id <$> c_apps k) ++ drop (length (mjoin (p_id <$> c_apps k))) ids0, len (c_apps k)), c').
Proof.
  intros Hc Lids. pose proof desfire_max_apps_range as Hma. pose proof (co_app_count k Hk) as Hn. pose proof (len_nonneg (c_apps k)).
  set (ids := mjoin (p_id <$> c_apps k)). destruct Hu as [[Lb _] _ _ _ _].
  assert (len ids = len (c_apps k) * 3) as Hl.
  { unfold ids. rewrite (mjoin_len _ 3); [by rewrite len_fmap; lia|]. apply Forall_fmap. eapply Forall_impl; [|exact (co_apps k Hk)].
    intros p Hp. apply (po_id p Hp). }
  destruct (bare_command c idle DESFIRE_CMD_GET_APPLICATION_IDS (ids ++ df_status DESFIRE_STATUS_OK) idle Hc
    ltac:(by vm_compute) ltac:(done)) as (c' & Hrun & Hc').
  { rewrite len_app, Hl. change (len (df_status _)) with 2. unfold NFC_TRANSPORT_MAX_RESPONSE_LEN. lia. }
  pose proof (chunks_done _ _ (dl_buf u) NFC_TRANSPORT_MAX_RESPONSE_LEN c c' Hrun ltac:(unfold NFC_TRANSPORT_MAX_RESPONSE_LEN; lia)
    ltac:(by rewrite Lb)) as Hsend.
  exists c'. split; [done|]. unfold desfire_poller_i_read_application_ids. rewrite (run_call _ _ _ _ _ Hsend). cbn [Z.eqb negb].
  unfold DESFIRE_APP_ID_SIZE in *. rewrite Hl, Z.mod_mul by lia. rewrite orb_false_r. case_bool_decide as Hnil; [by rewrite Hnil|].
  assert (0 < len (c_apps k)) by (destruct (c_apps k); [done|llia]).
  rewrite (proj2 (Z.eqb_neq _ 0)) by lia. rewrite Z.div_mul by lia. unfold u8. rewrite Z.mod_small by lia.
  rewrite !(proj2 (Z.ltb_ge _ _)) by lia.
  rewrite memcpy_prefix by (rewrite len_app; pose proof (len_nonneg (drop (length ids) (dl_buf u))); lia).
  rewrite take_app_le, take_ge by (unfold len in *; lia). rewrite blit_ok by lia. rewrite run_lift_Some. change (Z.to_nat 0) with 0%nat.
  rewrite take_0, Z.add_0_l. cbn [app]. unfold len at 1. by rewrite Nat2Z.id.
Qed.

Lemma ids_turn_exact v c : R c idle → len (pv_app_ids v) = CONFIG_NFC_DESFIRE_MAX_APPS * DESFIRE_APP_ID_SIZE →
  ∃ rest, turn_to (turn DESFIRE_POLLER_STATE_READ_APPLICATION_IDS v) c
    (if bool_decide (c_apps k = []) then inl (- EBADMSG, pv_out v)
     else inr (DESFIRE_POLLER_STATE_READ_APPLICATIONS, {| pv_out := pv_out v; pv_app_ids := mjoin (p_id <$> c_apps k) ++ rest;
            pv_app_id_count := len (c_apps k) |})) idle.
Proof.
  intros Hc Hids0. destruct (application_ids_exact _ c Hc Hids0) as (c' & Hc' & Hrun). eexists. exists c'. split; [|done].
  cbn [desfire_poller_turn]. rewrite (run_call _ _ _ _ _ Hrun). case_bool_decide as Hnil; [done|].
  assert (0 < len (c_apps k)) by (destruct (c_apps k); [done|llia]). change (0 =? DESFIRE_POLLER_I_AUTH) with false. cbn [Z.eqb negb].
  by rewrite (proj2 (Z.eqb_neq _ 0)) by lia.
Qed.

Lemma head_intact : card_intact card_head.
Proof.
  pose proof intact_zero as [[] Hk0]. destruct (co_date k Hk). split; [|done].
  constructor; first [done|apply (co_hw k Hk)|apply (co_sw k Hk)|apply (co_uid k Hk)|apply (co_batch k Hk)|apply (co_memory k Hk)|apply (co_master_settings k Hk)].
Qed.

Lemma head_read : apps_read card_head card_head [].
Proof.
  constructor; [apply head_intact|by apply Forall_replicate|by apply Forall_replicate|done|done].
Qed.

Lemma apps_turn_exact v rest c : R c idle → pv_out v = card_head → pv_app_ids v = mjoin (p_id <$> c_apps k) ++ rest → pv_app_id_count v = len (c_apps k) →
  ∃ out ss, turn_to (turn DESFIRE_POLLER_STATE_READ_APPLICATIONS v) c (inr (DESFIRE_POLLER_STATE_DONE, with_out out v)) ss ∧
    apps_read card_head out (clone_app (dl_fs u) <$> c_apps k).
Proof.
  intros Hc Hv Hi Hn. destruct (card_apps_exact rest (c_apps k) [] c idle card_head card_head eq_refl Hc eq_refl head_read) as (out & c' & ss & Hrun & Hc' & Hout).
  exists out, ss. split; [|done]. exists c'. split; [|done]. cbn [desfire_poller_turn]. rewrite Hv, Hi, Hn. unfold len at 1. rewrite Nat2Z.id.
  change (with_apps 0 (d_apps card_head) card_head) with card_head. change (len []) with 0 in Hrun. by rewrite (run_call _ _ _ _ _ Hrun).
Qed.

(** *** The whole read *)

Lemma loop_turn n st v c r ss : st ≠ DESFIRE_POLLER_STATE_DONE → turn_to (turn st v) c r ss →
  ∃ c', R c' ss ∧ desfire_poller_loop tag_transceive u fuel (S n) (Some s) st v c =
    match r with inl e => Some (e, c') | inr (st', v') => desfire_poller_loop tag_transceive u fuel n (Some s) st' v' c' end.
Proof.
  intros Hst (c' & Hrun & Hc'). exists c'. split; [done|].
  transitivity ((r ← turn st v; match r with inl e => mret e | inr (st', v') => desfire_poller_loop tag_transceive u fuel n (Some s) st' v' end) c);
    [by destruct st|]. rewrite (run_call _ _ _ _ _ Hrun). by destruct r as [|[]].
Qed.

Lemma read_view out : apps_read card_head out (clone_app (dl_fs u) <$> c_apps k) →
  desfire_poller_free_directory_list (c_master_settings k) = true ∨ c_apps k = [] → image_ok out ∧ view out = clone_card (dl_fs u) k.
Proof.
  intros [Hi _ Hn Hr Hv] Hl. split; [by apply intact_image|].
  transitivity {| c_hw := c_hw k; c_sw := c_sw k; c_uid := c_uid k; c_batch := c_batch k; c_week := c_week k; c_year := c_year k;
    c_memory := c_memory k; c_master := zeros DESFIRE_AES_KEY_SIZE; c_master_settings := c_master_settings k; c_apps := c_apps (view out) |}.
  - by rewrite Hr.
  - rewrite Hv. unfold clone_card. destruct Hl as [-> | ->]; [done|]. by destruct (desfire_poller_free_directory_list _).
Qed.

Lemma head_view : image_ok card_head ∧ view card_head = {| c_hw := c_hw k; c_sw := c_sw k; c_uid := c_uid k; c_batch := c_batch k; c_week := c_week k;
    c_year := c_year k; c_memory := c_memory k; c_master := zeros DESFIRE_AES_KEY_SIZE; c_master_settings := c_master_settings k; c_apps := [] |}.
Proof. destruct head_read as [Hi _ Hn _ _]. split; [by apply intact_image|done]. Qed.

(** What the reader returns: a card without applications whose directory can be listed is refused
    after it has been read. *)
Definition read_result : Z :=
  if desfire_poller_free_directory_list (c_master_settings k) && bool_decide (c_apps k = []) then - EBADMSG else 0.

Lemma loop_exact v c : R c idle → pv_out v = desfire_zero → len (pv_app_ids v) = CONFIG_NFC_DESFIRE_MAX_APPS * DESFIRE_APP_ID_SIZE →
  ∃ out c', desfire_poller_loop tag_transceive u fuel 5 (Some s) DESFIRE_POLLER_STATE_READ_VERSION v c = Some ((read_result, out), c') ∧
    image_ok out ∧ view out = clone_card (dl_fs u) k.
Proof.
  intros Hc Hv Hids0. set (v1 := with_out (head_image 0 0) v). set (v2 := with_out (head_image (c_memory k) 0) v1). set (v3 := with_out card_head v2).
  destruct (loop_turn 4 DESFIRE_POLLER_STATE_READ_VERSION v c _ _ ltac:(done) (version_turn_exact v c Hc Hv)) as (c1 & Hc1 & E1).
  destruct (loop_turn 3 DESFIRE_POLLER_STATE_READ_FREE_MEMORY v1 c1 _ _ ltac:(done) (memory_turn_exact v1 c1 Hc1 eq_refl)) as (c2 & Hc2 & E2).
  destruct (loop_turn 2 DESFIRE_POLLER_STATE_READ_MASTER_KEY_SETTINGS v2 c2 _ _ ltac:(done) (master_turn_exact v2 c2 Hc2 eq_refl)) as (c3 & Hc3 & E3).
  rewrite E1. cbv iota. fold v1. rewrite E2. cbv iota. fold v2. rewrite E3. cbv iota zeta. fold card_head. fold v3.
  unfold read_result. destruct (desfire_poller_free_directory_list (c_master_settings k)) eqn:Ef.
  2:{ exists card_head, c3. split; [done|]. destruct head_view as [Hi Hw]. split; [done|]. rewrite Hw. unfold clone_card. by rewrite Ef. }
  destruct (ids_turn_exact v3 c3 Hc3 Hids0) as (rest & Ht).
  destruct (loop_turn 1 DESFIRE_POLLER_STATE_READ_APPLICATION_IDS v3 c3 _ _ ltac:(done) Ht) as (c4 & Hc4 & E4). rewrite E4. cbn [andb]. case_bool_decide as Hnil.
  - exists card_head, c4. split; [done|]. destruct head_view as [Hi Hw]. split; [done|]. rewrite Hw. unfold clone_card. by rewrite Ef, Hnil.
  - set (v4 := Build_dp_vars _ _ _). destruct (apps_turn_exact v4 rest c4 Hc4 eq_refl eq_refl eq_refl) as (out & ss & Ht5 & Hout).
    destruct (loop_turn 0 DESFIRE_POLLER_STATE_READ_APPLICATIONS v4 c4 _ _ ltac:(done) Ht5) as (c5 & Hc5 & E5). fold v4. rewrite E5. exists out, c5. split; [done|]. by apply read_view; [|left].
Qed.

Lemma key_version_exact c ss : R c ss → ∃ c', desfire_poller_i_transceive tag_transceive (Some s) GET_KEY_VERSION c = Some ((0, [0; 0x91; 0x00]), c') ∧ R c' ss.
Proof. intros Hc. apply (data_command c ss DESFIRE_CMD_GET_KEY_VERSION [0] _ ss); [done|by vm_compute|by apply bytes_check|done|by vm_compute|done..]. Qed.
End Readable.

Section DesfireLoopbackTheorems.
Context `{KconfigRanges} {C : Type} (tag_transceive : list Z → M C (Z * list Z)).

(** C22: Reading a DESFire card makes a copy of what it shows without authentication: in front of any card that answers as the listener
    does ([DesfireCard]), whose counts and sizes fit the build's arrays ([card_ok]) and whose applications have identifiers of their own and files of their own, the reader,
    with its session open,
    leaves the image [clone_card]: the card's version, free memory and master key settings; and, if the
    master key settings let the directory be listed without authentication, every application with its
    settings, the number of its keys (as zero keys) and those files of a known type that can be read without authentication
    in the plain, that the build has room for and that hold the size their settings give, each with its data of that size (a value file: 4
    bytes; a file whose settings give the size 0 with no data); if the directory is not free, no application. The
    image's counts are inside the arrays ([image_ok]). The result is
    success, but -EBADMSG for a card with a free directory and no application. *)
Theorem desfire_poller_reads_card (k : card) (R0 : C → Prop) (R : C → df_session → Prop) `{!DesfireCard tag_transceive k R0 R} u fuel s out c :
  card_ok k → NoDup (p_id <$> c_apps k) → Forall (λ p, NoDup (f_id <$> p_files p)) (c_apps k) →
  dp_locals_ok u → (256 <= fuel)%nat → ses_active s = true → R0 c →
  ∃ d c', desfire_poller_read tag_transceive u fuel (Some s) (Some out) c = Some ((read_result k, Some d), c') ∧
    image_ok d ∧ view d = clone_card (dl_fs u) k.
Proof.
  intros Hk Hids Hfiles Hu Hf Hs Hc. destruct (dc_select tag_transceive c Hc) as (c1 & Hsel & Hc1).
  assert (desfire_poller_i_transceive tag_transceive (Some s) SELECT_AID c = Some ((0, [0x90; 0x00]), c1)) as Ht.
  { unfold desfire_poller_i_transceive, nfc_reader_session_transceive. rewrite Hs. cbn [negb]. by rewrite (run_call _ _ _ _ _ Hsel). }
  assert (desfire_poller_select tag_transceive (Some s) c = Some (0, c1)) as Hselect.
  { unfold desfire_poller_select. by rewrite (run_call _ _ _ _ _ Ht). }
  destruct (key_version_exact tag_transceive k R0 R fuel Hf s Hs c1 _ Hc1) as (c2 & Hkv & Hc2).
  set (v := {| pv_out := desfire_zero; pv_app_ids := dl_app_ids u; pv_app_id_count := 0 |}).
  destruct (loop_exact tag_transceive k Hk R0 R u Hu fuel Hf s Hs Hfiles Hids v c2 Hc2 eq_refl) as (d & c3 & Hloop & Hd); [apply Hu|].
  exists d, c3. split; [|done]. unfold desfire_poller_read. rewrite (run_call _ _ _ _ _ Hselect). cbn [Z.eqb negb].
  rewrite (run_call _ _ _ _ _ Hkv). cbn [Z.eqb].
  change (lift (desfire_poller_i_status_ok [0; 145; 0] DESFIRE_STATUS_OK)) with (lift (Some true) : M C bool). rewrite run_lift_Some. cbn [negb].
  by rewrite (run_call _ _ _ _ _ Hloop).
Qed.
End DesfireLoopbackTheorems.

(** ** The listener of another device as the card *)

Section Link.
Context `{KconfigRanges}.

(** A frame on the link: the SELECT of the card's identifier is the router's [on_select], any
    other command reaches [on_apdu], and the response is the last one sent. *)
Definition selects_desfire (a : nfc_apdu_t) : bool :=
  (cla a =? 0x00) && (ins a =? 0xA4) && (p1 a =? 0x04) && bool_decide (data a = Some desfire_aid).
Definition desfire_link (tx : list Z) : M df_state (Z * list Z) :=
  '(r, a) ← lift (apdu_parse (Some tx) (len tx) false (Some apdu_zero));
  a ← lift a;
  (if selects_desfire a then desfire_listener_on_select desfire_aid (len desfire_aid) else desfire_listener_on_apdu (Some a)) ;;
  s ← gets id; rx ← lift (list.last (l_sent s)); mret (0, rx).

Definition shows (k : card) (s : df_state) : Prop := df_ok s ∧ l_initialized s = true ∧ view (l_model s) = k.

Lemma on_select_outcome s aid n : df_ok s →
  outcome (desfire_listener_on_select aid n) s ([0x90; 0x00], {| ss_app := None; ss_frame := None |}).
Proof.
  intros Hs. unfold outcome, desfire_listener_on_select, desfire_listener_session_reset. rewrite run_modify. set (s0 := with_session _ _ _ _ s).
  assert (df_ok s0) as Hs0 by (destruct Hs; constructor; try done; by left).
  destruct (two_bytes_sends s0 0x90 0x00 (dk_resp s0 Hs0)) as (r & Hr & Hrun).
  eexists. split; [exact Hrun|]. by destruct (did_send s0 r [0x90; 0x00] Hs0 Hr).
Qed.

Lemma link_outcome s tx a ans : frames tx a → l_initialized s = true → df_ok s →
  outcome (if selects_desfire a then desfire_listener_on_select desfire_aid (len desfire_aid) else desfire_listener_on_apdu (Some a)) s ans →
  ∃ s', desfire_link tx s = Some ((0, ans.1), s') ∧ shows (view (l_model s)) s' ∧ session_of s' = ans.2.
Proof.
  intros [_ Hp] Hi Hs (s' & Hrun & [Hm Hn Hsent Hss Hok]). exists s'. split; [|split; [|done]].
  - unfold desfire_link. rewrite Hp, !run_lift_Some. rewrite (run_call _ _ _ _ _ Hrun), run_gets. unfold id.
    by rewrite Hsent, list.last_snoc, run_lift_Some.
  - split; [done|]. split; [by rewrite Hn|by rewrite Hm].
Qed.

(** The listener, initialized with an image of the card, is the card the poller reads. *)
#[global] Instance listener_card k : DesfireCard desfire_link k (shows k) (λ s ss, shows k s ∧ session_of s = ss).
Proof.
  constructor.
  - intros s (Hs & Hi & Hk).
    set (a := {| cla := 0; ins := 0xA4; p1 := 4; p2 := 0; data := Some desfire_aid; lc := 7; le := 0; has_le := false; extended := false |}).
    assert (frames SELECT_AID a) as Hf.
    { split; [|done]. unfold apdu_ok. cbn. split_and!; first [done|by vm_compute|by apply bytes_check]. }
    destruct (link_outcome s SELECT_AID a ([0x90; 0x00], {| ss_app := None; ss_frame := None |}) Hf Hi Hs) as (s' & Hrun & Hs' & Hss).
    { by apply on_select_outcome. }
    rewrite Hk in Hs'. by exists s'.
  - intros s ss tx a [(Hs & Hi & Hk) Hss] Hf Hcla Hone.
    destruct (link_outcome s tx a (df_answer k ss a) Hf Hi Hs) as (s' & Hrun & Hs' & Hss').
    { unfold selects_desfire. rewrite Hcla. cbn [andb Z.eqb DESFIRE_CLA_NATIVE]. rewrite <-Hk, <-Hss.
      apply on_apdu_outcome; [done|done|apply Hf|by rewrite Hk]. }
    rewrite Hk in Hs'. by exists s'.
Qed.
End Link.
