(* ===== verification/Ultralight.v ===== *)
(** * MIFARE Ultralight and NTAG card model ([src/nfc/protocols/ultralight/ultralight.c])

    The pages of a Type 2 tag with what its EV1 commands return, its persistent form, the scan of
    its memory for the NDEF message TLV, and the password configuration in its last pages. *)

From stdpp Require Import base list numbers option.
From S2P Require Import Prelude Kconfig Service Serial.

(** ** Data *)

Definition ULTRALIGHT_FORMAT_VERSION : Z := 0x01.
Definition ULTRALIGHT_PAGE_SIZE : Z := 4.
Definition ULTRALIGHT_CC_PAGE : Z := 3.
Definition ULTRALIGHT_DATA_START_PAGE : Z := 4.
Definition ULTRALIGHT_VERSION_SIZE : Z := 8.
Definition ULTRALIGHT_SIGNATURE_SIZE : Z := 32.
Definition ULTRALIGHT_COUNTER_NUM : Z := 3.
Definition ULTRALIGHT_TEARING_FLAG_NUM : Z := 3.
Definition ULTRALIGHT_TLV_NULL : Z := 0x00.
Definition ULTRALIGHT_TLV_NDEF : Z := 0x03.
Definition ULTRALIGHT_TLV_TERMINATOR : Z := 0xFE.
Definition ULTRALIGHT_TLV_LONG_FORM : Z := 0xFF.
Definition ULTRALIGHT_PWD_AUTH_RESP_LEN : Z := 2.
Definition ULTRALIGHT_AUTH0_NONE : Z := 0xFF.
Definition ULTRALIGHT_CONFIG_BLOCK_PAGES : Z := 5.
Definition ULTRALIGHT_NDEF_SCAN_MAX : Z := 564.

(** [ultralight_variant_t]: any byte of a stored card can be in a field of this type. *)
Definition UL_VARIANT_ORIGIN : Z := 0.
Definition UL_VARIANT_UL11 : Z := 1.
Definition UL_VARIANT_UL21 : Z := 2.
Definition UL_VARIANT_UNKNOWN : Z := 0xFF.

Inductive ultralight_type_t :=
  | UL_TYPE_ORIGIN | UL_TYPE_UL11 | UL_TYPE_UL21 | UL_TYPE_NTAG203 | UL_TYPE_NTAG213
  | UL_TYPE_NTAG215 | UL_TYPE_NTAG216 | UL_TYPE_MFUL_C | UL_TYPE_UNKNOWN.
#[global] Instance ultralight_type_eq_dec : EqDecision ultralight_type_t.
Proof. solve_decision. Defined.

Record ultralight_data_t := {
  u_pages : list (list Z);
  u_pages_total : Z;
  u_pages_read : Z;
  u_type : ultralight_type_t;
  u_variant : Z;
  u_version : list Z;
  u_has_version : bool;
  u_signature : list Z;
  u_has_signature : bool;
  u_counters : list (list Z);
  u_counter_count : Z;
  u_tearing_flags : list Z;
  u_tearing_flag_count : Z;
}.

Record ultralight_config_t := {
  c_auth0 : Z;
  c_prot : bool;
  c_authlim : Z;
  c_pwd : list Z;
  c_pack : list Z;
  c_valid : bool;
}.

(** ** Types and page counts *)

Definition ultralight_persist_id : Z := NFC_PERSIST_ID_ULTRALIGHT.

Definition ultralight_pages_total_for_type (type : ultralight_type_t) : Z :=
  match type with
  | UL_TYPE_ORIGIN => 16 | UL_TYPE_UL11 => 20 | UL_TYPE_UL21 => 41 | UL_TYPE_NTAG203 => 42
  | UL_TYPE_NTAG213 => 45 | UL_TYPE_NTAG215 => 135 | UL_TYPE_NTAG216 => 231
  | UL_TYPE_MFUL_C => 48 | UL_TYPE_UNKNOWN => 0
  end.

Definition variant_from_type (type : ultralight_type_t) : Z :=
  match type with
  | UL_TYPE_UL11 => UL_VARIANT_UL11 | UL_TYPE_UL21 => UL_VARIANT_UL21
  | UL_TYPE_ORIGIN => UL_VARIANT_ORIGIN | _ => UL_VARIANT_UNKNOWN
  end.

Definition type_from_pages_total (pages_total : Z) : ultralight_type_t :=
  if pages_total =? 16 then UL_TYPE_ORIGIN else
  if pages_total =? 20 then UL_TYPE_UL11 else
  if pages_total =? 41 then UL_TYPE_UL21 else
  if pages_total =? 42 then UL_TYPE_NTAG203 else
  if pages_total =? 45 then UL_TYPE_NTAG213 else
  if pages_total =? 48 then UL_TYPE_MFUL_C else
  if pages_total =? 135 then UL_TYPE_NTAG215 else
  if pages_total =? 231 then UL_TYPE_NTAG216 else UL_TYPE_UNKNOWN.

Definition ultralight_blob_pages_len (pages_total : Z) : Z := pages_total * ULTRALIGHT_PAGE_SIZE.

(** ** Assignments to the fields *)

Definition with_variant (v : Z) (d : ultralight_data_t) : ultralight_data_t :=
  {| u_pages := u_pages d; u_pages_total := u_pages_total d; u_pages_read := u_pages_read d;
     u_type := u_type d; u_variant := v; u_version := u_version d;
     u_has_version := u_has_version d; u_signature := u_signature d;
     u_has_signature := u_has_signature d; u_counters := u_counters d;
     u_counter_count := u_counter_count d; u_tearing_flags := u_tearing_flags d;
     u_tearing_flag_count := u_tearing_flag_count d |}.

Definition with_pages (total : Z) (type : ultralight_type_t) (p : list (list Z))
    (d : ultralight_data_t) : ultralight_data_t :=
  {| u_pages := p; u_pages_total := total; u_pages_read := u_pages_read d;
     u_type := type; u_variant := u_variant d; u_version := u_version d;
     u_has_version := u_has_version d; u_signature := u_signature d;
     u_has_signature := u_has_signature d; u_counters := u_counters d;
     u_counter_count := u_counter_count d; u_tearing_flags := u_tearing_flags d;
     u_tearing_flag_count := u_tearing_flag_count d |}.

Definition with_version (v : list Z) (d : ultralight_data_t) : ultralight_data_t :=
  {| u_pages := u_pages d; u_pages_total := u_pages_total d; u_pages_read := u_pages_read d;
     u_type := u_type d; u_variant := u_variant d; u_version := v;
     u_has_version := true; u_signature := u_signature d;
     u_has_signature := u_has_signature d; u_counters := u_counters d;
     u_counter_count := u_counter_count d; u_tearing_flags := u_tearing_flags d;
     u_tearing_flag_count := u_tearing_flag_count d |}.

Definition with_signature (s : list Z) (d : ultralight_data_t) : ultralight_data_t :=
  {| u_pages := u_pages d; u_pages_total := u_pages_total d; u_pages_read := u_pages_read d;
     u_type := u_type d; u_variant := u_variant d; u_version := u_version d;
     u_has_version := u_has_version d; u_signature := s;
     u_has_signature := true; u_counters := u_counters d;
     u_counter_count := u_counter_count d; u_tearing_flags := u_tearing_flags d;
     u_tearing_flag_count := u_tearing_flag_count d |}.

Definition with_counters (n : Z) (c : list (list Z)) (d : ultralight_data_t) : ultralight_data_t :=
  {| u_pages := u_pages d; u_pages_total := u_pages_total d; u_pages_read := u_pages_read d;
     u_type := u_type d; u_variant := u_variant d; u_version := u_version d;
     u_has_version := u_has_version d; u_signature := u_signature d;
     u_has_signature := u_has_signature d; u_counters := c;
     u_counter_count := n; u_tearing_flags := u_tearing_flags d;
     u_tearing_flag_count := u_tearing_flag_count d |}.

(** The last two assignments of [ultralight_deserialize]: the flags and [pages_read]. *)
Definition with_tearing (n : Z) (t : list Z) (read : Z) (d : ultralight_data_t) : ultralight_data_t :=
  {| u_pages := u_pages d; u_pages_total := u_pages_total d; u_pages_read := read;
     u_type := u_type d; u_variant := u_variant d; u_version := u_version d;
     u_has_version := u_has_version d; u_signature := u_signature d;
     u_has_signature := u_has_signature d; u_counters := u_counters d;
     u_counter_count := u_counter_count d; u_tearing_flags := t;
     u_tearing_flag_count := n |}.

Section Ultralight.
Context `{Kconfig}.

(** ** Operations *)

(** [memset] of the structure, with [type] and [variant] unknown. *)
Definition ultralight_blank : ultralight_data_t :=
  {| u_pages := replicate (Z.to_nat CONFIG_NFC_ULTRALIGHT_MAX_PAGES) (zeros ULTRALIGHT_PAGE_SIZE);
     u_pages_total := 0; u_pages_read := 0; u_type := UL_TYPE_UNKNOWN;
     u_variant := UL_VARIANT_UNKNOWN; u_version := zeros ULTRALIGHT_VERSION_SIZE;
     u_has_version := false; u_signature := zeros ULTRALIGHT_SIGNATURE_SIZE;
     u_has_signature := false;
     u_counters := replicate (Z.to_nat ULTRALIGHT_COUNTER_NUM) (zeros 3); u_counter_count := 0;
     u_tearing_flags := zeros ULTRALIGHT_TEARING_FLAG_NUM; u_tearing_flag_count := 0 |}.

Definition ultralight_data_reset (d : option ultralight_data_t) : option ultralight_data_t :=
  match d with None => None | Some _ => Some ultralight_blank end.

(** [need], and what is written, in [ultralight_serialize]. *)
Definition ultralight_need (d : ultralight_data_t) : Z :=
  4 + ultralight_blob_pages_len (u_pages_total d) + 1 +
  (if u_has_version d then ULTRALIGHT_VERSION_SIZE else 0) + 1 +
  (if u_has_signature d then ULTRALIGHT_SIGNATURE_SIZE else 0) +
  (1 + u_counter_count d * 3) + (1 + u_tearing_flag_count d).

Definition ultralight_write (d : ultralight_data_t) : M wstate unit :=
  put ULTRALIGHT_FORMAT_VERSION ;; put (u8 (u_variant d)) ;;
  put (lo8 (u_pages_total d)) ;; put (hi8 (u_pages_total d)) ;;
  for_i (Z.to_nat (u_pages_total d)) 0 (λ i,
    p ← lift (ld (u_pages d) i); puts p ULTRALIGHT_PAGE_SIZE) ;;
  put (if u_has_version d then 1 else 0) ;;
  (if u_has_version d then puts (u_version d) ULTRALIGHT_VERSION_SIZE else mret tt) ;;
  put (if u_has_signature d then 1 else 0) ;;
  (if u_has_signature d then puts (u_signature d) ULTRALIGHT_SIGNATURE_SIZE else mret tt) ;;
  put (u_counter_count d) ;;
  for_i (Z.to_nat (u_counter_count d)) 0 (λ i, c ← lift (ld (u_counters d) i); puts c 3) ;;
  put (u_tearing_flag_count d) ;;
  for_i (Z.to_nat (u_tearing_flag_count d)) 0 (λ i, t ← lift (ld (u_tearing_flags d) i); put t).

Definition ultralight_serialize (data : option ultralight_data_t) (out : option (list Z))
    (out_max : Z) (out_len : option Z) : option (Z * option (list Z) * option Z) :=
  match data, out, out_len with
  | None, _, _ | _, None, _ | _, _, None => Some (- EINVAL, out, out_len)
  | Some d, Some o, Some _ =>
    if (u_pages_total d =? 0) || (CONFIG_NFC_ULTRALIGHT_MAX_PAGES <? u_pages_total d)
    then Some (- EINVAL, out, out_len) else
    if out_max <? ultralight_need d then Some (- ENOSPC, out, out_len) else
    '(_, (o, offset)) ← ultralight_write d (o, 0);
    Some (0, Some o, Some offset)
  end.

(** [ultralight_deserialize], from its end to its beginning: each definition goes on with the
    next. *)
Definition ultralight_parse_tearing (inp : list Z) (in_len pages_total : Z)
    (d : ultralight_data_t) : M Z (Z * ultralight_data_t) :=
  offset ← gets id;
  if in_len <=? offset then mret (- EBADMSG, d) else
  tearing_count ← get inp;
  if ULTRALIGHT_TEARING_FLAG_NUM <? tearing_count then mret (- EBADMSG, d) else
  offset ← gets id;
  if in_len <? offset + tearing_count then mret (- EBADMSG, d) else
  t ← fill (Z.to_nat tearing_count) 0 (u_tearing_flags d) (λ _, get inp);
  mret (0, with_tearing tearing_count t pages_total d).

Definition ultralight_parse_counters (inp : list Z) (in_len pages_total : Z)
    (d : ultralight_data_t) : M Z (Z * ultralight_data_t) :=
  offset ← gets id;
  if in_len <=? offset then mret (- EBADMSG, d) else
  counter_count ← get inp;
  if ULTRALIGHT_COUNTER_NUM <? counter_count then mret (- EBADMSG, d) else
  offset ← gets id;
  if in_len <? offset + counter_count * 3 then mret (- EBADMSG, d) else
  c ← fill (Z.to_nat counter_count) 0 (u_counters d) (λ c, read_into inp c 3);
  ultralight_parse_tearing inp in_len pages_total (with_counters counter_count c d).

Definition ultralight_parse_signature (inp : list Z) (in_len pages_total : Z)
    (d : ultralight_data_t) : M Z (Z * ultralight_data_t) :=
  offset ← gets id;
  if in_len <=? offset then mret (- EBADMSG, d) else
  has_signature ← get inp;
  if has_signature =? 0 then ultralight_parse_counters inp in_len pages_total d else
  offset ← gets id;
  if in_len <? offset + ULTRALIGHT_SIGNATURE_SIZE then mret (- EBADMSG, d) else
  s ← read_into inp (u_signature d) ULTRALIGHT_SIGNATURE_SIZE;
  ultralight_parse_counters inp in_len pages_total (with_signature s d).

Definition ultralight_parse_version (inp : list Z) (in_len pages_total : Z)
    (d : ultralight_data_t) : M Z (Z * ultralight_data_t) :=
  offset ← gets id;
  if in_len <=? offset then mret (- EBADMSG, d) else
  has_version ← get inp;
  if has_version =? 0 then ultralight_parse_signature inp in_len pages_total d else
  offset ← gets id;
  if in_len <? offset + ULTRALIGHT_VERSION_SIZE then mret (- EBADMSG, d) else
  v ← read_into inp (u_version d) ULTRALIGHT_VERSION_SIZE;
  ultralight_parse_signature inp in_len pages_total (with_version v d).

Definition ultralight_parse_pages (inp : list Z) (in_len pages_total : Z)
    (d : ultralight_data_t) : M Z (Z * ultralight_data_t) :=
  let type := type_from_pages_total pages_total in
  let d := if u_variant d =? UL_VARIANT_UNKNOWN then with_variant (variant_from_type type) d else d in
  p ← fill (Z.to_nat pages_total) 0 (u_pages d) (λ p, read_into inp p ULTRALIGHT_PAGE_SIZE);
  ultralight_parse_version inp in_len pages_total (with_pages pages_total type p d).

Definition ultralight_parse (inp : list Z) (in_len : Z) (d0 : ultralight_data_t)
    : M Z (Z * ultralight_data_t) :=
  if in_len <? 4 then mret (- EBADMSG, d0) else
  v ← get inp;
  if negb (v =? ULTRALIGHT_FORMAT_VERSION) then mret (- EBADMSG, d0) else
  variant ← get inp;
  let d := with_variant variant ultralight_blank in
  t0 ← get inp; t1 ← get inp;
  let pages_total := le16 t0 t1 in
  if (pages_total =? 0) || (CONFIG_NFC_ULTRALIGHT_MAX_PAGES <? pages_total)
  then mret (- EBADMSG, d) else
  if in_len <? 4 + ultralight_blob_pages_len pages_total then mret (- EBADMSG, d) else
  ultralight_parse_pages inp in_len pages_total d.

Definition ultralight_deserialize (data : option ultralight_data_t) (inp : option (list Z))
    (in_len : Z) : option (Z * option ultralight_data_t) :=
  match data, inp with
  | None, _ | _, None => Some (- EINVAL, data)
  | Some d0, Some inp => '(ret, d, _) ← ultralight_parse inp in_len d0 0; Some (ret, Some d)
  end.

(** *** The NDEF message TLV *)

(** The scan loop.  [*msg_out = &data[offset]] is given by [offset] ([None] for NULL).  Each turn
    moves [offset] forward, so [data_len + 1] turns are enough. *)
Fixpoint ultralight_scan_loop (fuel : nat) (data : list Z) (data_len offset : Z)
    : option (Z * (option Z * Z)) :=
  match fuel with
  | O => None
  | S fuel =>
    if data_len <=? offset then Some (0, (None, 0)) else
    tag ← ld data offset;
    if tag =? ULTRALIGHT_TLV_NULL then ultralight_scan_loop fuel data data_len (offset + 1) else
    if tag =? ULTRALIGHT_TLV_TERMINATOR then Some (0, (None, 0)) else
    if data_len <=? offset + 1 then Some (- ENODATA, (None, 0)) else
    let offset := offset + 1 in
    b ← ld data offset;
    let body tlv_len offset :=
      if data_len <? offset + tlv_len then Some (- ENODATA, (None, 0)) else
      if tag =? ULTRALIGHT_TLV_NDEF then Some (0, (Some offset, tlv_len)) else
      ultralight_scan_loop fuel data data_len (offset + tlv_len) in
    if b =? ULTRALIGHT_TLV_LONG_FORM then
      if data_len <=? offset + 2 then Some (- ENODATA, (None, 0)) else
      hi ← ld data (offset + 1); lo ← ld data (offset + 2);
      body (Z.lor (Z.shiftl hi 8) lo) (offset + 3)
    else body b (offset + 1)
  end.

(** [msg_out] and [msg_len_out] are the caller's variables, [None] for a NULL argument. *)
Definition ultralight_scan_ndef_tlv (data : option (list Z)) (data_len : Z)
    (msg_out : option (option Z)) (msg_len_out : option Z)
    : option (Z * option (option Z) * option Z) :=
  match data, msg_out, msg_len_out with
  | None, _, _ | _, None, _ | _, _, None => Some (- EINVAL, msg_out, msg_len_out)
  | Some data, Some _, Some _ =>
    '(ret, (msg, n)) ← ultralight_scan_loop (S (Z.to_nat data_len)) data data_len 0;
    Some (ret, Some msg, Some n)
  end.

(** The copy of the data pages into [flat], at most [n] more pages from [page] on: the array and
    [flat_len]. *)
Fixpoint ultralight_flatten (n : nat) (d : ultralight_data_t) (page : Z) (flat : list Z)
    (flat_len : Z) : option (list Z * Z) :=
  match n with
  | O => Some (flat, flat_len)
  | S n =>
    if ULTRALIGHT_NDEF_SCAN_MAX <? flat_len + ULTRALIGHT_PAGE_SIZE then Some (flat, flat_len) else
    p ← ld (u_pages d) page;
    flat ← memcpy flat flat_len p 0 ULTRALIGHT_PAGE_SIZE;
    ultralight_flatten n d (page + 1) flat (flat_len + ULTRALIGHT_PAGE_SIZE)
  end.

(** [flat] is the automatic array of the function, with indeterminate contents at first; [*msg]
    is an offset into it.  The final [flat] is part of the result. *)
Definition ultralight_extract_ndef (flat : list Z) (data : option ultralight_data_t)
    (msg : option (option Z)) (msg_len : option Z)
    : option (Z * option (option Z) * option Z * list Z) :=
  match data, msg, msg_len with
  | None, _, _ | _, None, _ | _, _, None => Some (- EINVAL, msg, msg_len, flat)
  | Some d, Some _, Some _ =>
    if u_pages_total d <=? ULTRALIGHT_CC_PAGE then Some (0, Some None, Some 0, flat) else
    cc ← ld (u_pages d) ULTRALIGHT_CC_PAGE; cc0 ← ld cc 0;
    if negb (cc0 =? 0xE1) then Some (0, Some None, Some 0, flat) else
    '(flat, flat_len) ← ultralight_flatten
      (Z.to_nat (u_pages_total d - ULTRALIGHT_DATA_START_PAGE)) d ULTRALIGHT_DATA_START_PAGE flat 0;
    '(ret, msg, n) ← ultralight_scan_ndef_tlv (Some flat) flat_len (Some None) (Some 0);
    if ret =? - ENODATA then Some (0, Some None, Some 0, flat) else
    Some (ret, msg, n, flat)
  end.

(** *** Password configuration *)

Definition ultralight_type_has_password_config (type : ultralight_type_t) : bool :=
  match type with
  | UL_TYPE_NTAG213 | UL_TYPE_NTAG215 | UL_TYPE_NTAG216 => true
  | _ => false
  end.

(** [(auth0_page, access_page, pwd_page, pack_page)] *)
Definition ultralight_config_page_indices (pages_total : Z) : Z * Z * Z * Z :=
  if pages_total <? ULTRALIGHT_CONFIG_BLOCK_PAGES then (0, 0, 0, 0) else
  (u16 (pages_total - 4), u16 (pages_total - 3), u16 (pages_total - 2), u16 (pages_total - 1)).

Definition config_zero : ultralight_config_t :=
  {| c_auth0 := 0; c_prot := false; c_authlim := 0; c_pwd := zeros ULTRALIGHT_PAGE_SIZE;
     c_pack := zeros ULTRALIGHT_PWD_AUTH_RESP_LEN; c_valid := false |}.

Definition ultralight_parse_config (data : option ultralight_data_t)
    (cfg : option ultralight_config_t) : option (bool * option ultralight_config_t) :=
  match data, cfg with
  | None, _ | _, None => Some (false, cfg)
  | Some d, Some _ =>
    if negb (ultralight_type_has_password_config (u_type d)) then Some (false, Some config_zero) else
    if u_pages_total d <? ULTRALIGHT_CONFIG_BLOCK_PAGES then Some (false, Some config_zero) else
    let '(auth0_page, access_page, pwd_page, pack_page) :=
      ultralight_config_page_indices (u_pages_total d) in
    if u_pages_read d <=? auth0_page then Some (false, Some config_zero) else
    p ← ld (u_pages d) auth0_page; auth0 ← ld p 3;
    p ← ld (u_pages d) access_page; access ← ld p 0;
    p ← ld (u_pages d) pwd_page;
    pwd ← memcpy (c_pwd config_zero) 0 p 0 ULTRALIGHT_PAGE_SIZE;
    p ← ld (u_pages d) pack_page; k0 ← ld p 0; k1 ← ld p 1;
    Some (true, Some {| c_auth0 := auth0; c_prot := negb (Z.land access 0x80 =? 0);
      c_authlim := u8 (Z.land access 0x07); c_pwd := pwd; c_pack := [k0; k1]; c_valid := true |})
  end.

Definition ultralight_read_protection_enabled (cfg : option ultralight_config_t) : bool :=
  match cfg with
  | None => false
  | Some c => if negb (c_valid c) then false else negb (c_auth0 c =? ULTRALIGHT_AUTH0_NONE)
  end.

Definition ultralight_page_needs_auth (cfg : option ultralight_config_t) (page : Z) : option bool :=
  if negb (ultralight_read_protection_enabled cfg) then Some false else
  c ← cfg; if negb (c_prot c) then Some false else Some (u16 (c_auth0 c) <=? page).
End Ultralight.

(** ** The persistent form *)

Section UltralightCodec.
Context `{KconfigRanges}.

(** The sizes of the arrays, and counts that stay inside them. *)
Record ul_shape (d : ultralight_data_t) : Prop := {
  us_total : 1 <= u_pages_total d <= CONFIG_NFC_ULTRALIGHT_MAX_PAGES;
  us_pages : len (u_pages d) = CONFIG_NFC_ULTRALIGHT_MAX_PAGES;
  us_page : Forall (λ p, len p = ULTRALIGHT_PAGE_SIZE) (u_pages d);
  us_variant : is_byte (u_variant d);
  us_version : len (u_version d) = ULTRALIGHT_VERSION_SIZE;
  us_signature : len (u_signature d) = ULTRALIGHT_SIGNATURE_SIZE;
  us_counters : len (u_counters d) = ULTRALIGHT_COUNTER_NUM;
  us_counter : Forall (λ c, len c = 3) (u_counters d);
  us_counter_count : 0 <= u_counter_count d <= ULTRALIGHT_COUNTER_NUM;
  us_tearing : len (u_tearing_flags d) = ULTRALIGHT_TEARING_FLAG_NUM;
  us_tearing_count : 0 <= u_tearing_flag_count d <= ULTRALIGHT_TEARING_FLAG_NUM;
}.

Definition ul_pages_of (d : ultralight_data_t) := take (Z.to_nat (u_pages_total d)) (u_pages d).
Definition ul_counters_of (d : ultralight_data_t) := take (Z.to_nat (u_counter_count d)) (u_counters d).
Definition ul_tearing_of (d : ultralight_data_t) := take (Z.to_nat (u_tearing_flag_count d)) (u_tearing_flags d).

(** The card a stored card is loaded as: the arrays beyond their counts are cleared, and [type],
    [pages_read] and an unknown [variant] follow from the number of pages. *)
Definition ul_loaded (d : ultralight_data_t) : ultralight_data_t :=
  let type := type_from_pages_total (u_pages_total d) in
  {| u_pages := ul_pages_of d ++ drop (length (ul_pages_of d)) (u_pages ultralight_blank);
     u_pages_total := u_pages_total d; u_pages_read := u_pages_total d; u_type := type;
     u_variant := if u_variant d =? UL_VARIANT_UNKNOWN then variant_from_type type else u_variant d;
     u_version := if u_has_version d then u_version d else zeros ULTRALIGHT_VERSION_SIZE;
     u_has_version := u_has_version d;
     u_signature := if u_has_signature d then u_signature d else zeros ULTRALIGHT_SIGNATURE_SIZE;
     u_has_signature := u_has_signature d;
     u_counters := ul_counters_of d ++ drop (length (ul_counters_of d)) (u_counters ultralight_blank);
     u_counter_count := u_counter_count d;
     u_tearing_flags := ul_tearing_of d ++ drop (length (ul_tearing_of d)) (u_tearing_flags ultralight_blank);
     u_tearing_flag_count := u_tearing_flag_count d |}.

Definition ul_tail_t (d : ultralight_data_t) : list Z := [u_tearing_flag_count d] ++ ul_tearing_of d.
Definition ul_tail_c (d : ultralight_data_t) : list Z :=
  [u_counter_count d] ++ mjoin (ul_counters_of d) ++ ul_tail_t d.
Definition ul_tail_s (d : ultralight_data_t) : list Z :=
  [if u_has_signature d then 1 else 0] ++ (if u_has_signature d then u_signature d else []) ++ ul_tail_c d.
Definition ul_tail_v (d : ultralight_data_t) : list Z :=
  [if u_has_version d then 1 else 0] ++ (if u_has_version d then u_version d else []) ++ ul_tail_s d.
Definition ul_blob (d : ultralight_data_t) : list Z :=
  [ULTRALIGHT_FORMAT_VERSION; u_variant d; lo8 (u_pages_total d); hi8 (u_pages_total d)] ++
  mjoin (ul_pages_of d) ++ ul_tail_v d.

Lemma ul_counters_len d : ul_shape d → len (mjoin (ul_counters_of d)) = u_counter_count d * 3.
Proof.
  intros []. unfold ul_counters_of. rewrite (mjoin_len _ 3) by (by apply Forall_take).
  rewrite len_take. unfold ULTRALIGHT_COUNTER_NUM in *. lia.
Qed.

Lemma ul_pages_len d : ul_shape d →
  len (mjoin (ul_pages_of d)) = u_pages_total d * ULTRALIGHT_PAGE_SIZE.
Proof.
  intros []. unfold ul_pages_of. rewrite (mjoin_len _ ULTRALIGHT_PAGE_SIZE) by (by apply Forall_take).
  rewrite len_take. f_equal. lia.
Qed.

Lemma ul_blob_len d : ul_shape d → len (ul_blob d) = ultralight_need d.
Proof.
  intros Hd. unfold ul_blob, ul_tail_v, ul_tail_s, ul_tail_c, ul_tail_t, ultralight_need.
  rewrite !len_app, ul_pages_len, ul_counters_len by done. pose proof Hd as [].
  assert (len (ul_tearing_of d) = u_tearing_flag_count d) as ->
    by (unfold ul_tearing_of, ULTRALIGHT_TEARING_FLAG_NUM in *; rewrite len_take; lia).
  unfold ultralight_blob_pages_len. destruct (u_has_version d), (u_has_signature d); llia.
Qed.

Lemma ul_writes d : ul_shape d → writes (ultralight_write d) (ul_blob d).
Proof.
  intros []. unfold ultralight_write, ul_blob, ul_tail_v, ul_tail_s, ul_tail_c, ul_tail_t. cbn [app].
  rewrite u8_id by done. repeat apply (writes_bind _ [_]); try apply writes_put.
  apply writes_bind; [apply writes_strings; [done|lia]|].
  apply (writes_bind _ [_]); [apply writes_put|].
  apply writes_bind; [destruct (u_has_version d); [by apply writes_all|apply writes_ret]|].
  apply (writes_bind _ [_]); [apply writes_put|].
  apply writes_bind; [destruct (u_has_signature d); [by apply writes_all|apply writes_ret]|].
  apply (writes_bind _ [_]); [apply writes_put|].
  apply writes_bind; [apply writes_strings; [done|lia]|].
  apply (writes_bind _ [_]); [apply writes_put|]. apply writes_elements. lia.
Qed.

Lemma ul_serialize_ok d out n0 : ul_shape d → len (ul_blob d) <= len out →
  ultralight_serialize (Some d) (Some out) (len out) (Some n0) =
  Some (0, Some (ul_blob d ++ drop (length (ul_blob d)) out), Some (len (ul_blob d))).
Proof.
  intros Hd Hl. unfold ultralight_serialize. pose proof (us_total d Hd).
  rewrite (proj2 (Z.eqb_neq _ _)), !(proj2 (Z.ltb_ge _ _)) by (rewrite <-?ul_blob_len by done; lia).
  cbn [orb]. by rewrite (writes_run _ _ out (ul_writes d Hd) Hl).
Qed.

(** Reading it back, from its end to its beginning.  [d] is the stored card, [e] what has been
    read so far. *)
Definition load_tearing (d : ultralight_data_t) (total : Z) (e : ultralight_data_t) :=
  with_tearing (u_tearing_flag_count d)
    (ul_tearing_of d ++ drop (length (ul_tearing_of d)) (u_tearing_flags e)) total e.
Definition load_counters (d e : ultralight_data_t) :=
  with_counters (u_counter_count d)
    (ul_counters_of d ++ drop (length (ul_counters_of d)) (u_counters e)) e.
Definition load_signature (d e : ultralight_data_t) :=
  if u_has_signature d then with_signature (u_signature d) e else e.
Definition load_version (d e : ultralight_data_t) :=
  if u_has_version d then with_version (u_version d) e else e.

(** The sizes of the arrays of what has been read so far. *)
Record ul_sizes (e : ultralight_data_t) : Prop := {
  uz_pages : len (u_pages e) = CONFIG_NFC_ULTRALIGHT_MAX_PAGES;
  uz_page : Forall (λ p, len p = ULTRALIGHT_PAGE_SIZE) (u_pages e);
  uz_version : len (u_version e) = ULTRALIGHT_VERSION_SIZE;
  uz_signature : len (u_signature e) = ULTRALIGHT_SIGNATURE_SIZE;
  uz_counters : len (u_counters e) = ULTRALIGHT_COUNTER_NUM;
  uz_counter : Forall (λ c, len c = 3) (u_counters e);
  uz_tearing : len (u_tearing_flags e) = ULTRALIGHT_TEARING_FLAG_NUM;
}.

Lemma ul_sizes_blank v : ul_sizes (with_variant v ultralight_blank).
Proof.
  pose proof ultralight_max_pages_range. constructor; try done; cbn; try by apply Forall_replicate.
  unfold len. rewrite length_replicate. lia.
Qed.

Lemma tearing_reads inp in_len total d e off l :
  ul_shape d → ul_sizes e → ahead inp off (ul_tail_t d ++ l) → off + len (ul_tail_t d) <= in_len →
  ∃ off', ultralight_parse_tearing inp in_len total e off = Some (0, load_tearing d total e, off').
Proof.
  intros [] [] Ha Hin. unfold ul_tail_t in *. rewrite len_app, len_cons, len_nil in Hin.
  unfold ULTRALIGHT_TEARING_FLAG_NUM in *.
  assert (len (ul_tearing_of d) = u_tearing_flag_count d) as Ht
    by (unfold ul_tearing_of; rewrite len_take; lia).
  unfold ultralight_parse_tearing, ULTRALIGHT_TEARING_FLAG_NUM. rewrite run_gets. cbn [id app] in *.
  rewrite (proj2 (Z.leb_gt _ _)) by lia. rget Ha. rewrite (proj2 (Z.ltb_ge _ _)) by lia.
  rewrite run_gets. cbn [id]. rewrite (proj2 (Z.ltb_ge _ _)) by lia.
  rewrite <-Ht. replace (Z.to_nat (len (ul_tearing_of d))) with (length (ul_tearing_of d)) by llia.
  rewrite (run_fill_bytes _ _ _ _ _ _ Ha) by llia. rewrite Ht. by eexists.
Qed.

Lemma counters_reads inp in_len total d e off l :
  ul_shape d → ul_sizes e → ahead inp off (ul_tail_c d ++ l) → off + len (ul_tail_c d) <= in_len →
  ∃ off', ultralight_parse_counters inp in_len total e off =
    Some (0, load_tearing d total (load_counters d e), off').
Proof.
  intros Hd He Ha Hin. pose proof (ul_counters_len d Hd) as Hc. pose proof Hd as []. pose proof He as [].
  unfold ul_tail_c in *. rewrite !len_app, len_cons, len_nil, Hc in Hin. rewrite <-!(assoc_L (++)) in Ha.
  pose proof (len_nonneg (ul_tail_t d)). unfold ULTRALIGHT_COUNTER_NUM in *.
  assert (len (ul_counters_of d) = u_counter_count d) as Hn
    by (unfold ul_counters_of; rewrite len_take; lia).
  unfold ultralight_parse_counters, ULTRALIGHT_COUNTER_NUM. rewrite run_gets. cbn [id app] in *.
  rewrite (proj2 (Z.leb_gt _ _)) by lia. rget Ha. rewrite (proj2 (Z.ltb_ge _ _)) by lia.
  rewrite run_gets. cbn [id]. rewrite (proj2 (Z.ltb_ge _ _)) by lia.
  replace (Z.to_nat (u_counter_count d)) with (length (ul_counters_of d)) by llia.
  rewrite (run_fill _ _ _ _ _ _ _ Ha) by (done || lia || llia || by apply Forall_take).
  apply ahead_app in Ha as [Ha _]. rewrite Hc in Ha. rewrite Hn.
  eapply (tearing_reads _ _ _ _ (load_counters d e)); [done| |exact Ha|lia].
  constructor; try done; cbn; [rewrite len_app, len_drop; unfold ULTRALIGHT_COUNTER_NUM; llia|].
  apply Forall_app; split; [by apply Forall_take|by apply Forall_drop].
Qed.

Lemma signature_reads inp in_len total d e off l :
  ul_shape d → ul_sizes e → ahead inp off (ul_tail_s d ++ l) → off + len (ul_tail_s d) <= in_len →
  ∃ off', ultralight_parse_signature inp in_len total e off =
    Some (0, load_tearing d total (load_counters d (load_signature d e)), off').
Proof.
  intros Hd He Ha Hin. pose proof (us_signature d Hd) as Hs. pose proof (uz_signature e He) as Hz.
  unfold ul_tail_s in *. rewrite !len_app, len_cons, len_nil in Hin. rewrite <-!(assoc_L (++)) in Ha.
  pose proof (len_nonneg (ul_tail_c d)). unfold ultralight_parse_signature, load_signature.
  unfold ULTRALIGHT_SIGNATURE_SIZE in *.
  rewrite run_gets. cbn [id app] in *. destruct (u_has_signature d).
  - rewrite (proj2 (Z.leb_gt _ _)) by lia. rget Ha. cbn [Z.eqb]. rewrite run_gets. cbn [id].
    rewrite (proj2 (Z.ltb_ge _ _)) by lia. rnext Ha.
    eapply counters_reads; [done| |exact Ha|lia]. destruct He. by constructor.
  - rewrite (proj2 (Z.leb_gt _ _)) by llia. rget Ha. cbn [Z.eqb].
    eapply counters_reads; [done|done|exact Ha|llia].
Qed.

Lemma version_reads inp in_len total d e off l :
  ul_shape d → ul_sizes e → ahead inp off (ul_tail_v d ++ l) → off + len (ul_tail_v d) <= in_len →
  ∃ off', ultralight_parse_version inp in_len total e off =
    Some (0, load_tearing d total (load_counters d (load_signature d (load_version d e))), off').
Proof.
  intros Hd He Ha Hin. pose proof (us_version d Hd) as Hs. pose proof (uz_version e He) as Hz.
  unfold ul_tail_v in *. rewrite !len_app, len_cons, len_nil in Hin. rewrite <-!(assoc_L (++)) in Ha.
  pose proof (len_nonneg (ul_tail_s d)). unfold ultralight_parse_version, load_version.
  unfold ULTRALIGHT_VERSION_SIZE in *.
  rewrite run_gets. cbn [id app] in *. destruct (u_has_version d).
  - rewrite (proj2 (Z.leb_gt _ _)) by lia. rget Ha. cbn [Z.eqb]. rewrite run_gets. cbn [id].
    rewrite (proj2 (Z.ltb_ge _ _)) by lia. rnext Ha.
    eapply signature_reads; [done| |exact Ha|lia]. destruct He. by constructor.
  - rewrite (proj2 (Z.leb_gt _ _)) by llia. rget Ha. cbn [Z.eqb].
    eapply signature_reads; [done|done|exact Ha|llia].
Qed.

Lemma ul_deserialize_ok d d0 junk : ul_shape d →
  ultralight_deserialize (Some d0) (Some (ul_blob d ++ junk)) (len (ul_blob d)) =
  Some (0, Some (ul_loaded d)).
Proof.
  intros Hd. pose proof (ul_pages_len d Hd) as Hp. pose proof Hd as []. pose proof ultralight_max_pages_range.
  assert (len (ul_pages_of d) = u_pages_total d) as Hn by (unfold ul_pages_of; rewrite len_take; lia).
  assert (len (ul_blob d) = 4 + (u_pages_total d * 4 + len (ul_tail_v d))) as Hl.
  { unfold ul_blob. rewrite !len_app, Hp, !len_cons, len_nil. unfold ULTRALIGHT_PAGE_SIZE. lia. }
  pose proof (len_nonneg (ul_tail_v d)). unfold ultralight_deserialize, ultralight_parse.
  rewrite (proj2 (Z.ltb_ge _ _)) by lia.
  pose proof (ahead_start (ul_blob d ++ junk)) as Ha. unfold ul_blob at 2 in Ha.
  rewrite <-!(assoc_L (++)) in Ha. cbn [app] in Ha.
  rget Ha. rewrite Z.eqb_refl. cbn [negb]. do 3 rget Ha. rewrite le16_split by lia.
  rewrite (proj2 (Z.eqb_neq _ _)), (proj2 (Z.ltb_ge _ _)) by lia. cbn [orb].
  unfold ultralight_blob_pages_len, ULTRALIGHT_PAGE_SIZE in *. rewrite (proj2 (Z.ltb_ge _ _)) by lia.
  unfold ultralight_parse_pages, ULTRALIGHT_PAGE_SIZE.
  set (e := if _ =? _ then _ else _).
  assert (ul_sizes e) as He by (subst e; destruct (_ =? _); apply ul_sizes_blank).
  pose proof He as []. replace (Z.to_nat (u_pages_total d)) with (length (ul_pages_of d)) by llia.
  rewrite (run_fill _ _ _ _ _ _ _ Ha) by (done || lia || llia || by apply Forall_take).
  apply ahead_app in Ha as [Ha _]. rewrite Hp in Ha. rewrite Hn.
  match goal with |- context [ultralight_parse_version ?i ?n ?t ?f ?o] =>
    destruct (version_reads i n t d f o junk) as (off' & Hrun); [done| | |rewrite Hl; lia|rewrite Hrun] end.
  - constructor; try done; cbn; [rewrite len_app, len_drop; llia|].
    apply Forall_app; split; [by apply Forall_take|by apply Forall_drop].
  - exact Ha.
  - mred. unfold load_tearing, load_counters, load_signature, load_version, ul_loaded. subst e.
    cbn [u_variant with_variant].
    by destruct (u_has_version d), (u_has_signature d), (_ =? _).
Qed.

(** *** Every input is decided *)

(** The arrays hold bytes. *)
Record ul_bytes (e : ultralight_data_t) : Prop := {
  ub_pages : Forall bytes (u_pages e);
  ub_version : bytes (u_version e);
  ub_signature : bytes (u_signature e);
  ub_counters : Forall bytes (u_counters e);
  ub_tearing : bytes (u_tearing_flags e);
}.

(** What holds of the structure at every time, also when loading stops early. *)
Record ul_safe (e : ultralight_data_t) : Prop := {
  sf_sizes : ul_sizes e;
  sf_bytes : ul_bytes e;
  sf_total : 0 <= u_pages_total e <= CONFIG_NFC_ULTRALIGHT_MAX_PAGES;
  sf_type : u_type e = type_from_pages_total (u_pages_total e);
  sf_variant : is_byte (u_variant e);
  sf_counter_count : 0 <= u_counter_count e <= ULTRALIGHT_COUNTER_NUM;
  sf_tearing_count : 0 <= u_tearing_flag_count e <= ULTRALIGHT_TEARING_FLAG_NUM;
}.

(** What holds of the card at every stage once its pages are read. *)
Record ul_inv (e : ultralight_data_t) : Prop := {
  ui_sizes : ul_sizes e;
  ui_total : 1 <= u_pages_total e <= CONFIG_NFC_ULTRALIGHT_MAX_PAGES;
  ui_type : u_type e = type_from_pages_total (u_pages_total e);
  ui_variant : is_byte (u_variant e);
  ui_known : u_variant e = UL_VARIANT_UNKNOWN → variant_from_type (u_type e) = UL_VARIANT_UNKNOWN;
  ui_pages : drop (Z.to_nat (u_pages_total e)) (u_pages e) =
    drop (Z.to_nat (u_pages_total e)) (u_pages ultralight_blank);
  ui_version : u_has_version e = false → u_version e = zeros ULTRALIGHT_VERSION_SIZE;
  ui_signature : u_has_signature e = false → u_signature e = zeros ULTRALIGHT_SIGNATURE_SIZE;
  ui_counter_count : 0 <= u_counter_count e <= ULTRALIGHT_COUNTER_NUM;
  ui_counters : drop (Z.to_nat (u_counter_count e)) (u_counters e) =
    drop (Z.to_nat (u_counter_count e)) (u_counters ultralight_blank);
  ui_tearing_count : 0 <= u_tearing_flag_count e <= ULTRALIGHT_TEARING_FLAG_NUM;
  ui_tearing : drop (Z.to_nat (u_tearing_flag_count e)) (u_tearing_flags e) =
    drop (Z.to_nat (u_tearing_flag_count e)) (u_tearing_flags ultralight_blank);
  ui_bytes : ul_bytes e;
}.

Lemma inv_safe e : ul_inv e → ul_safe e.
Proof. intros []. constructor; (done || lia). Qed.

Lemma blank_bytes v : ul_bytes (with_variant v ultralight_blank).
Proof.
  constructor; cbn; try apply bytes_zeros; apply Forall_replicate, bytes_zeros.
Qed.

Lemma blank_safe v : is_byte v → ul_safe (with_variant v ultralight_blank).
Proof.
  pose proof ultralight_max_pages_range. intros Hv.
  constructor; [apply ul_sizes_blank|apply blank_bytes|cbn; lia|done|done|cbn; unfold ULTRALIGHT_COUNTER_NUM; lia|
    cbn; unfold ULTRALIGHT_TEARING_FLAG_NUM; lia].
Qed.

(** An array that is blank beyond its count is what it is loaded as. *)
Lemma take_blank {A} n (l b : list A) : 0 <= n <= len l → drop (Z.to_nat n) l = drop (Z.to_nat n) b →
  take (Z.to_nat n) l ++ drop (length (take (Z.to_nat n) l)) b = l.
Proof.
  intros Hn Hd. replace (length (take (Z.to_nat n) l)) with (Z.to_nat n) by llia.
  rewrite <-Hd. apply take_drop.
Qed.

Lemma inv_loaded d : ul_inv d → u_pages_read d = u_pages_total d → ul_shape d ∧ ul_loaded d = d.
Proof.
  intros [[]] Hr. split; [by constructor|].
  unfold ul_loaded, ul_pages_of, ul_counters_of, ul_tearing_of.
  rewrite !take_blank by (done || lia). rewrite <-ui_type0.
  assert ((if u_variant d =? UL_VARIANT_UNKNOWN then variant_from_type (u_type d) else u_variant d) =
    u_variant d) as -> by (destruct (Z.eqb_spec (u_variant d) UL_VARIANT_UNKNOWN) as [E|]; [rewrite E; auto|done]).
  assert ((if u_has_version d then u_version d else zeros ULTRALIGHT_VERSION_SIZE) = u_version d) as ->
    by (destruct (u_has_version d); [done|symmetry; auto]).
  assert ((if u_has_signature d then u_signature d else zeros ULTRALIGHT_SIGNATURE_SIZE) = u_signature d) as ->
    by (destruct (u_has_signature d); [done|symmetry; auto]).
  destruct d. cbn in *. by subst.
Qed.

(** The decision: an error, or a card that is its own loaded form. *)
Definition decided (r : Z * ultralight_data_t) (_ : Z) : Prop :=
  (r.1 = 0 ∨ r.1 = - EBADMSG) ∧ (r.1 = 0 → ul_shape r.2 ∧ ul_loaded r.2 = r.2) ∧ ul_safe r.2.

Lemma refused d off : ul_safe d → ensures (mret (- EBADMSG, d)) off decided.
Proof. intros Hd. apply ensures_ret. split; [by right|done]. Qed.

(** [next]: the reading of one flag or count byte behind its bounds check. *)
Lemma ensures_byte inp in_len e off (k : Z → M Z (Z * ultralight_data_t)) :
  bytes inp → in_len <= len inp → 0 <= off → ul_inv e →
  (∀ b, is_byte b → off < in_len → ensures (k b) (off + 1) decided) →
  ensures (offset ← gets id; if in_len <=? offset then mret (- EBADMSG, e) else get inp ≫= k) off decided.
Proof.
  intros Hb Hl Ho He Hk. unfold ensures. rewrite run_gets. cbn [id].
  destruct (in_len <=? off) eqn:E; bool_prop; [by apply refused, inv_safe|].
  apply ensures_get; [done|lia|]. intros b Hbyte. by apply Hk.
Qed.

Lemma tearing_decided inp in_len e off : bytes inp → in_len <= len inp → 0 <= off →
  ul_inv e → u_tearing_flag_count e = 0 →
  ensures (ultralight_parse_tearing inp in_len (u_pages_total e) e) off decided.
Proof.
  intros Hb Hl Ho He Ht. unfold ultralight_parse_tearing. apply ensures_byte; [done|done|done|done|]. intros n Hn _.
  destruct (ULTRALIGHT_TEARING_FLAG_NUM <? n) eqn:E1; bool_prop; [by apply refused, inv_safe|]. unfold ensures. rewrite run_gets.
  cbn [id]. destruct (in_len <? off + 1 + n) eqn:E2; bool_prop; [by apply refused, inv_safe|].
  pose proof (ui_tearing e He) as Hz. rewrite Ht in Hz. cbn [Z.to_nat] in Hz. rewrite !drop_0 in Hz.
  destruct (ensures_fill inp 1 is_byte (λ _, get inp) ltac:(lia)) with (n := Z.to_nat n) (i := 0)
    (arr := u_tearing_flags e) (off := off + 1) as (t & o & Hrun & Htb & Hlen & -> & Hd).
  - intros a o _ Ho' Hl'. destruct (ld_Some inp o ltac:(lia)) as [b Hld]. exists b, (o + 1).
    unfold get. rewrite Hld. split; [done|]. split; [by eapply ld_byte|done].
  - apply (ui_bytes e He).
  - lia.
  - rewrite (uz_tearing e (ui_sizes e He)). destruct Hn. lia.
  - lia.
  - destruct Hn. lia.
  - rewrite (run_call _ _ _ _ _ Hrun). apply ensures_ret. cbn [fst snd].
    assert (ul_inv (with_tearing n t (u_pages_total e) e)) as Hi.
    { destruct He as [[] ? ? ? ? ? ? ? ? ? ? ? []]. destruct Hn. rewrite Z.add_0_l, Z2Nat.id in Hd by lia.
      constructor; [constructor|..|constructor]; try done; cbn; [congruence|]. by rewrite Hd, Hz. }
    split; [by left|]. split; [|by apply inv_safe]. intros _. by apply inv_loaded.
Qed.

Lemma inv_version e v : ul_inv e → len v = ULTRALIGHT_VERSION_SIZE → bytes v → ul_inv (with_version v e).
Proof. intros [[] ? ? ? ? ? ? ? ? ? ? ? []] Hv Hb. by constructor. Qed.

Lemma inv_signature e s : ul_inv e → len s = ULTRALIGHT_SIGNATURE_SIZE → bytes s → ul_inv (with_signature s e).
Proof. intros [[] ? ? ? ? ? ? ? ? ? ? ? []] Hs Hb. by constructor. Qed.

(** The strings of an array are read inside the input. *)
Lemma read_string inp k a off : bytes inp → 0 <= k → len a = k → 0 <= off → off + k <= len inp →
  ensures (read_into inp a k) off (λ a' off', (len a' = k ∧ bytes a') ∧ off' = off + k).
Proof.
  intros Hb Hk Ha Ho Hl. destruct (read_into_inside inp a k off) as (s & Hrun & Hs & Hsb); [done|lia|lia|lia|].
  eexists _, _. split; [exact Hrun|]. split; [|done]. rewrite drop_ge by llia. by rewrite app_nil_r.
Qed.

Lemma counters_decided inp in_len e off : bytes inp → in_len <= len inp → 0 <= off →
  ul_inv e → u_counter_count e = 0 → u_tearing_flag_count e = 0 →
  ensures (ultralight_parse_counters inp in_len (u_pages_total e) e) off decided.
Proof.
  intros Hb Hl Ho He Hc Ht. unfold ultralight_parse_counters. apply ensures_byte; [done|done|done|done|]. intros n Hn _.
  destruct (ULTRALIGHT_COUNTER_NUM <? n) eqn:E1; bool_prop; [by apply refused, inv_safe|]. unfold ensures. rewrite run_gets.
  cbn [id]. destruct (in_len <? off + 1 + n * 3) eqn:E2; bool_prop; [by apply refused, inv_safe|].
  pose proof (ui_counters e He) as Hz. rewrite Hc in Hz. cbn [Z.to_nat] in Hz. rewrite !drop_0 in Hz.
  destruct Hn. destruct (ensures_fill inp 3 (λ c, len c = 3 ∧ bytes c) (λ c, read_into inp c 3) ltac:(lia))
    with (n := Z.to_nat n) (i := 0) (arr := u_counters e) (off := off + 1) as (t & o & Hrun & Hok & Hlen & -> & Hd).
  - intros a o [Ha _] Ho' Hl'. by apply read_string.
  - apply Forall_and; [apply (ui_sizes e He)|apply (ui_bytes e He)].
  - lia.
  - rewrite (uz_counters e (ui_sizes e He)). lia.
  - lia.
  - lia.
  - rewrite (run_call _ _ _ _ _ Hrun). rewrite Z.add_0_l, Z2Nat.id in Hd by lia.
    apply (tearing_decided _ _ (with_counters n t e)); [done|done|lia| |done].
    apply Forall_and_inv in Hok as [Hok Hob]. destruct He as [[] ? ? ? ? ? ? ? ? ? ? ? []].
    constructor; [constructor|..|constructor]; try done; cbn; [congruence|]. by rewrite Hd, Hz.
Qed.

Lemma signature_decided inp in_len e off : bytes inp → in_len <= len inp → 0 <= off →
  ul_inv e → u_counter_count e = 0 → u_tearing_flag_count e = 0 →
  ensures (ultralight_parse_signature inp in_len (u_pages_total e) e) off decided.
Proof.
  intros Hb Hl Ho He Hc Ht. unfold ultralight_parse_signature. apply ensures_byte; [done|done|done|done|]. intros n _ _.
  destruct (n =? 0); [apply counters_decided; (done || lia)|]. unfold ensures. rewrite run_gets. cbn [id].
  destruct (in_len <? _) eqn:E; bool_prop; [by apply refused, inv_safe|]. unfold ULTRALIGHT_SIGNATURE_SIZE in *.
  apply ensures_bind with (Q := λ s o, (len s = 32 ∧ bytes s) ∧ o = off + 1 + 32).
  - apply read_string; (done || lia || apply (ui_sizes e He)).
  - intros s o [[Hs Hsb] ->]. apply (counters_decided _ _ (with_signature s e)); try done; [lia|]. by apply inv_signature.
Qed.

Lemma version_decided inp in_len e off : bytes inp → in_len <= len inp → 0 <= off →
  ul_inv e → u_counter_count e = 0 → u_tearing_flag_count e = 0 →
  ensures (ultralight_parse_version inp in_len (u_pages_total e) e) off decided.
Proof.
  intros Hb Hl Ho He Hc Ht. unfold ultralight_parse_version. apply ensures_byte; [done|done|done|done|]. intros n _ _.
  destruct (n =? 0); [apply signature_decided; (done || lia)|]. unfold ensures. rewrite run_gets. cbn [id].
  destruct (in_len <? _) eqn:E; bool_prop; [by apply refused, inv_safe|]. unfold ULTRALIGHT_VERSION_SIZE in *.
  apply ensures_bind with (Q := λ s o, (len s = 8 ∧ bytes s) ∧ o = off + 1 + 8).
  - apply read_string; (done || lia || apply (ui_sizes e He)).
  - intros s o [[Hs Hsb] ->]. apply (signature_decided _ _ (with_version s e)); try done; [lia|]. by apply inv_version.
Qed.

Lemma variant_from_type_byte t : is_byte (variant_from_type t).
Proof. by destruct t. Qed.

Lemma pages_decided inp in_len v total off : bytes inp → in_len <= len inp → 0 <= off → is_byte v →
  1 <= total <= CONFIG_NFC_ULTRALIGHT_MAX_PAGES → off + total * ULTRALIGHT_PAGE_SIZE <= in_len →
  ensures (ultralight_parse_pages inp in_len total (with_variant v ultralight_blank)) off decided.
Proof.
  intros Hb Hl Ho Hv Ht Hin. unfold ultralight_parse_pages. set (e := if _ =? _ then _ else _).
  pose proof (ul_sizes_blank v) as Hz.
  assert (u_pages e = u_pages ultralight_blank) as Hp by (subst e; by destruct (_ =? _)).
  apply ensures_bind with (Q := λ p o, Forall (λ x, len x = ULTRALIGHT_PAGE_SIZE ∧ bytes x) p ∧
    len p = CONFIG_NFC_ULTRALIGHT_MAX_PAGES ∧ 0 <= o ∧
    drop (Z.to_nat total) p = drop (Z.to_nat total) (u_pages ultralight_blank)).
  - rewrite Hp. pose proof (uz_pages _ Hz) as Hlen. cbn [with_variant u_pages] in Hlen.
    apply ensures_weaken with (Q := λ p o, Forall (λ x, len x = ULTRALIGHT_PAGE_SIZE ∧ bytes x) p ∧
      len p = len (u_pages ultralight_blank) ∧ o = off + Z.of_nat (Z.to_nat total) * ULTRALIGHT_PAGE_SIZE ∧
      drop (Z.to_nat (0 + Z.of_nat (Z.to_nat total))) p =
      drop (Z.to_nat (0 + Z.of_nat (Z.to_nat total))) (u_pages ultralight_blank)).
    + apply (ensures_fill inp); unfold ULTRALIGHT_PAGE_SIZE in *; try lia;
        [|apply Forall_and; [apply (uz_page _ Hz)|apply (ub_pages _ (blank_bytes v))]].
      intros a o [Ha _] Ho' Hl'. by apply read_string.
    + intros p o (Hok & Hn & -> & Hd). rewrite Z.add_0_l, Z2Nat.id in Hd by lia.
      unfold ULTRALIGHT_PAGE_SIZE in *. split; [done|]. split; [lia|]. split; [lia|done].
  - intros p o ([Hok Hob]%Forall_and_inv & Hn & Ho' & Hd).
    apply (version_decided _ _ (with_pages total (type_from_pages_total total) p e)); try done;
      try (subst e; by destruct (_ =? _)).
    destruct Hz. assert (is_byte (u_variant e)) as Hve
      by (subst e; destruct (_ =? _); [apply variant_from_type_byte|done]).
    assert (u_variant e = UL_VARIANT_UNKNOWN → variant_from_type (type_from_pages_total total) = UL_VARIANT_UNKNOWN)
      as Hk by (subst e; cbn [u_variant with_variant]; destruct (Z.eqb_spec v UL_VARIANT_UNKNOWN); done).
    destruct (blank_bytes v).
    constructor; [constructor|..|constructor]; try done; cbn; try done; subst e; destruct (_ =? _); done.
Qed.

Lemma ul_decided inp in_len d0 : bytes inp → 0 <= in_len <= len inp →
  ∃ ret d, ultralight_deserialize (Some d0) (Some inp) in_len = Some (ret, Some d) ∧
    (ret = 0 ∨ ret = - EBADMSG) ∧ (ret = 0 → ul_shape d ∧ ul_loaded d = d) ∧ (ul_safe d0 → ul_safe d).
Proof.
  intros Hb Hl. enough (ensures (ultralight_parse inp in_len d0) 0
    (λ r _, (r.1 = 0 ∨ r.1 = - EBADMSG) ∧ (r.1 = 0 → ul_shape r.2 ∧ ul_loaded r.2 = r.2) ∧ (ul_safe d0 → ul_safe r.2)))
    as ([ret d] & o & Hrun & H1 & H2 & H3).
  { exists ret, d. unfold ultralight_deserialize. by rewrite Hrun. }
  unfold ultralight_parse. destruct (in_len <? 4) eqn:E; bool_prop; [apply ensures_ret; by split_and!; [right|..]|].
  apply ensures_get; [done|lia|]. intros v _. destruct (negb _); [apply ensures_ret; by split_and!; [right|..]|].
  apply ensures_get; [done|lia|]. intros w Hw. do 2 (apply ensures_get; [done|lia|]; intros ? ?).
  apply ensures_weaken with decided; [|by intros r o (? & ? & ?)].
  set (total := le16 _ _). assert (0 <= total) by (apply (u16_range _)).
  destruct ((total =? 0) || _) eqn:E2; bool_prop; [by apply refused, blank_safe|].
  destruct (in_len <? _) eqn:E3; bool_prop; [by apply refused, blank_safe|]. unfold ultralight_blob_pages_len in E3.
  apply pages_decided; (done || lia).
Qed.

(** The persistent form of an Ultralight or NTAG card round-trips, and every stored byte
    string is decided.  Storing a card whose counts stay inside its arrays writes exactly the
    announced number of bytes, and loading them gives the card back with its type, its number of
    pages read and an unknown variant recomputed from the number of pages.  Conversely, loading
    never reads outside the input or writes outside the card: it returns 0 or -EBADMSG, and with
    0 a card that storing and loading leaves as it is. *)
Theorem ultralight_codec d0 n0 :
  (∀ d out, ul_shape d → ultralight_need d <= len out →
    ∃ o n, ultralight_serialize (Some d) (Some out) (len out) (Some n0) = Some (0, Some o, Some n) ∧
      n = ultralight_need d ∧ len o = len out ∧
      ultralight_deserialize (Some d0) (Some o) n = Some (0, Some (ul_loaded d))) ∧
  (∀ inp n, bytes inp → 0 <= n <= len inp →
    ∃ ret d, ultralight_deserialize (Some d0) (Some inp) n = Some (ret, Some d) ∧
      (ret = 0 ∨ ret = - EBADMSG) ∧ (ret = 0 → ul_shape d ∧ ul_loaded d = d)).
Proof.
  split; [|intros inp n Hb Hn; destruct (ul_decided inp n d0 Hb Hn) as (? & ? & ? & ? & ? & _); eauto 10]. intros d out Hd Hl. rewrite <-ul_blob_len in * by done.
  rewrite (ul_serialize_ok d out n0 Hd Hl). eexists _, _. split; [done|]. split; [done|].
  split; [rewrite len_app, len_drop; unfold len in *; lia|]. by apply ul_deserialize_ok.
Qed.
End UltralightCodec.
