(* ===== verification/UltralightNdef.v ===== *)
(** * The NDEF message and the password configuration of an Ultralight card

    What [ultralight_scan_ndef_tlv], [ultralight_extract_ndef] and [ultralight_parse_config] of
    [src/nfc/protocols/ultralight/ultralight.c] compute, by the structure of the card's memory. *)

From stdpp Require Import base list numbers option.
From S2P Require Import Prelude Kconfig Serial Ultralight.

(** ** The NDEF message TLV *)

(** A TLV block with its length in the short or the long form. *)
Definition enc_tlv (long : bool) (t : Z) (v : list Z) : list Z :=
  t :: (if long then [ULTRALIGHT_TLV_LONG_FORM; hi8 (len v); lo8 (len v)] else [len v]) ++ v.

(** The length fits its form. *)
Definition tlv_fits (long : bool) (v : list Z) : Prop := len v < (if long then 65536 else 255).

(** What the scan passes over: NULL bytes, and blocks that are neither the message nor the
    terminator. *)
Inductive skipped : list Z → Prop :=
  | skipped_nil : skipped []
  | skipped_null l : skipped l → skipped (ULTRALIGHT_TLV_NULL :: l)
  | skipped_block long t v l :
      t ≠ ULTRALIGHT_TLV_NULL → t ≠ ULTRALIGHT_TLV_TERMINATOR → t ≠ ULTRALIGHT_TLV_NDEF →
      tlv_fits long v → skipped l → skipped (enc_tlv long t v ++ l).

(** A block that is not complete. *)
Definition truncated (l : list Z) : Prop :=
  ∃ t r, l = t :: r ∧ t ≠ ULTRALIGHT_TLV_NULL ∧ t ≠ ULTRALIGHT_TLV_TERMINATOR ∧
    (r = [] ∨
     (∃ k v, r = k :: v ∧ k ≠ ULTRALIGHT_TLV_LONG_FORM ∧ len v < k) ∨
     (∃ v, r = ULTRALIGHT_TLV_LONG_FORM :: v ∧ len v < 2) ∨
     (∃ hi lo v, r = ULTRALIGHT_TLV_LONG_FORM :: hi :: lo :: v ∧ len v < be16 hi lo)).

(** The cases the loop distinguishes. *)
Lemma tlv_cases l : bytes l →
  l = [] ∨ (∃ l', l = ULTRALIGHT_TLV_NULL :: l') ∨ (∃ l', l = ULTRALIGHT_TLV_TERMINATOR :: l') ∨
  (∃ long t v l', l = enc_tlv long t v ++ l' ∧ t ≠ ULTRALIGHT_TLV_NULL ∧
     t ≠ ULTRALIGHT_TLV_TERMINATOR ∧ tlv_fits long v) ∨
  truncated l.
Proof.
  intros Hb. destruct l as [|t r]; [by left|right]. inv_bytes.
  destruct (Z.eq_dec t ULTRALIGHT_TLV_NULL) as [->|Hn]; [left; eauto|right].
  destruct (Z.eq_dec t ULTRALIGHT_TLV_TERMINATOR) as [->|Ht]; [left; eauto|right].
  destruct r as [|k v]; [right; exists t, []; eauto 10|]. inv_bytes.
  destruct (Z.eq_dec k ULTRALIGHT_TLV_LONG_FORM) as [->|Hk].
  - destruct v as [|hi [|lo v]]; [right; eexists _, _; split; [done|]; split_and!; [done..|];
      right; right; left; eexists; split; [done|llia]..|]. inv_bytes.
    destruct (Z.ltb_spec (len v) (be16 hi lo)) as [Hv|Hv].
    { right. eexists _, _. split; [done|]. split_and!; [done..|]. right. right. right. eauto 10. }
    left. destruct (len_split v (be16 hi lo)) as (s & l' & -> & Hs).
    { split; [apply u16_range|done]. }
    exists true, t, s, l'. unfold enc_tlv, tlv_fits. rewrite Hs. split_and!; [|done..|apply u16_range].
    unfold is_byte in *. rewrite hi8_eq, lo8_eq, be16_eq by done. cbn [app].
    do 3 f_equal; [dlia|]. f_equal. dlia.
  - destruct (Z.ltb_spec (len v) k) as [Hv|Hv].
    { right. eexists _, _. split; [done|]. split_and!; [done..|]. right. left. eauto 10. }
    left. destruct (len_split v k) as (s & l' & -> & Hs); [unfold is_byte in *; lia|].
    exists false, t, s, l'. unfold enc_tlv, tlv_fits, is_byte, ULTRALIGHT_TLV_LONG_FORM in *.
    rewrite Hs. split_and!; [done..|lia].
Qed.

Section UltralightScan.
Implicit Types (data l junk v : list Z) (off n : Z).

Lemma scan_end fuel data n : ultralight_scan_loop (S fuel) data n n = Some (0, (None, 0)).
Proof. cbn. by rewrite (proj2 (Z.leb_le n n)) by lia. Qed.

Lemma scan_null fuel data n off l : ahead data off (ULTRALIGHT_TLV_NULL :: l) → off < n →
  ultralight_scan_loop (S fuel) data n off = ultralight_scan_loop fuel data n (off + 1).
Proof.
  intros [_ Hld]%ahead_cons Hn. cbn [ultralight_scan_loop].
  rewrite (proj2 (Z.leb_gt _ _)), Hld by lia. done.
Qed.

Lemma scan_terminator fuel data n off l : ahead data off (ULTRALIGHT_TLV_TERMINATOR :: l) → off < n →
  ultralight_scan_loop (S fuel) data n off = Some (0, (None, 0)).
Proof.
  intros [_ Hld]%ahead_cons Hn. cbn [ultralight_scan_loop].
  rewrite (proj2 (Z.leb_gt _ _)), Hld by lia. done.
Qed.

(** A complete block is the message, or passed over. *)
Lemma scan_block fuel data n off long t v l :
  ahead data off (enc_tlv long t v ++ l) → off + len (enc_tlv long t v) <= n →
  t ≠ ULTRALIGHT_TLV_NULL → t ≠ ULTRALIGHT_TLV_TERMINATOR → tlv_fits long v →
  ultralight_scan_loop (S fuel) data n off =
  if t =? ULTRALIGHT_TLV_NDEF then Some (0, (Some (off + len (enc_tlv long t v) - len v), len v))
  else ultralight_scan_loop fuel data n (off + len (enc_tlv long t v)).
Proof.
  intros Ha Hn H0 Ht Hf. unfold enc_tlv, tlv_fits in *. pose proof (len_nonneg v). cbn [ultralight_scan_loop].
  destruct long; cbn [app] in *; rewrite !len_cons in *;
    apply ahead_cons in Ha as [Ha Hld0]; apply ahead_cons in Ha as [Ha Hld1].
  - apply ahead_cons in Ha as [Ha Hld2]. apply ahead_cons in Ha as [_ Hld3].
    rewrite (proj2 (Z.leb_gt _ _)), Hld0 by lia. mred. rewrite !(proj2 (Z.eqb_neq t _)) by done.
    rewrite (proj2 (Z.leb_gt _ _)), Hld1 by lia. mred. rewrite Z.eqb_refl.
    rewrite (proj2 (Z.leb_gt _ _)), Hld2 by lia. mred. replace (off + 1 + 2) with (off + 1 + 1 + 1) by lia.
    rewrite Hld3. mred. rewrite lor_shiftl_add by (lia || apply lo8_range). change (2 ^ 8) with 256.
    assert (hi8 (len v) * 256 + lo8 (len v) = len v) as -> by (rewrite hi8_eq, lo8_eq; dlia).
    rewrite (proj2 (Z.ltb_ge _ _)) by lia. destruct (t =? _); [do 4 f_equal; lia|f_equal; lia].
  - rewrite (proj2 (Z.leb_gt _ _)), Hld0 by lia. mred. rewrite !(proj2 (Z.eqb_neq t _)) by done.
    rewrite (proj2 (Z.leb_gt _ _)), Hld1 by lia. mred.
    rewrite (proj2 (Z.eqb_neq _ _)) by (unfold ULTRALIGHT_TLV_LONG_FORM; lia).
    rewrite (proj2 (Z.ltb_ge _ _)) by lia. destruct (t =? _); [do 4 f_equal; lia|f_equal; lia].
Qed.

Lemma scan_truncated fuel data n off l junk : ahead data off (l ++ junk) → off + len l = n →
  bytes l → truncated l → ultralight_scan_loop (S fuel) data n off = Some (- ENODATA, (None, 0)).
Proof.
  intros Ha <- Hb (t & r & -> & H0 & Ht & Hr). cbn [app] in Ha. rewrite len_cons. pose proof (len_nonneg r).
  apply ahead_cons in Ha as [Ha Hld]. cbn [ultralight_scan_loop].
  rewrite (proj2 (Z.leb_gt _ _)), Hld by lia. mred. rewrite !(proj2 (Z.eqb_neq t _)) by done.
  destruct Hr as [->|[(k & v & -> & Hk & Hv)|[(v & -> & Hv)|(hi & lo & v & -> & Hv)]]].
  - by rewrite (proj2 (Z.leb_le _ _)) by llia.
  - cbn [app] in Ha. apply ahead_cons in Ha as [Ha Hld1]. rewrite len_cons in *. pose proof (len_nonneg v).
    rewrite (proj2 (Z.leb_gt _ _)), Hld1 by lia. mred. rewrite (proj2 (Z.eqb_neq k _)) by done.
    by rewrite (proj2 (Z.ltb_lt _ _)) by lia.
  - cbn [app] in Ha. apply ahead_cons in Ha as [Ha Hld1]. rewrite len_cons in *. pose proof (len_nonneg v).
    rewrite (proj2 (Z.leb_gt _ _)), Hld1 by lia. mred. rewrite Z.eqb_refl.
    by rewrite (proj2 (Z.leb_le _ _)) by lia.
  - cbn [app] in Ha. apply ahead_cons in Ha as [Ha Hld1]. apply ahead_cons in Ha as [Ha Hld2].
    apply ahead_cons in Ha as [Ha Hld3]. rewrite !len_cons in *. pose proof (len_nonneg v). inv_bytes.
    rewrite (proj2 (Z.leb_gt _ _)), Hld1 by lia. mred. rewrite Z.eqb_refl.
    rewrite (proj2 (Z.leb_gt _ _)), Hld2 by lia. mred. replace (off + 1 + 2) with (off + 1 + 1 + 1) by lia.
    rewrite Hld3. mred. rewrite lor_shiftl_add by (lia || done). rewrite be16_eq in Hv by done.
    change (2 ^ 8) with 256. by rewrite (proj2 (Z.ltb_lt _ _)) by lia.
Qed.

Lemma enc_tlv_len long t v : 2 <= len (enc_tlv long t v) - len v <= 4.
Proof. unfold enc_tlv. destruct long; rewrite len_cons, len_app, ?len_cons, len_nil; lia. Qed.

(** What is passed over takes as many turns as it has blocks, at most one per byte. *)
Lemma scan_skipped s data n l : skipped s → ∀ fuel off,
  ahead data off (s ++ l) → off + len s <= n →
  ∃ fuel', (fuel <= fuel')%nat ∧
    ultralight_scan_loop (length s + fuel) data n off = ultralight_scan_loop fuel' data n (off + len s).
Proof.
  induction 1 as [|s _ IH|long t v s Hn Ht H3 Hf _ IH]; intros fuel off Ha Hl.
  { exists fuel. rewrite len_nil, Z.add_0_r. split; [lia|done]. }
  - cbn [app] in Ha. rewrite len_cons in *. pose proof (len_nonneg s). cbn [length Nat.add].
    rewrite (scan_null _ _ _ _ _ Ha) by lia. apply ahead_cons in Ha as [Ha _].
    destruct (IH fuel _ Ha ltac:(lia)) as (f & Hf & ->). exists f. split; [lia|]. f_equal. lia.
  - rewrite <-(assoc_L (++)) in Ha. rewrite len_app in *. pose proof (len_nonneg s).
    pose proof (enc_tlv_len long t v). pose proof (len_nonneg v). rewrite length_app.
    assert (∃ k, length (enc_tlv long t v) = S k) as [k Hk] by (unfold enc_tlv; cbn [length]; eauto).
    rewrite Hk. cbn [Nat.add]. rewrite (scan_block _ _ _ _ _ _ _ _ Ha) by (done || lia).
    rewrite (proj2 (Z.eqb_neq t _)) by done. apply ahead_app in Ha as [Ha _].
    replace (k + length s + fuel)%nat with (length s + (k + fuel))%nat by lia.
    destruct (IH (k + fuel)%nat _ Ha ltac:(lia)) as (f & Hf' & ->). exists f. split; [lia|]. f_equal. lia.
Qed.

(** The result of the scan of a memory area, by the structure of the area. *)
Inductive scan_spec : list Z → Z * (option Z * Z) → Prop :=
  | scan_found s long v r : skipped s → tlv_fits long v →
      scan_spec (s ++ enc_tlv long ULTRALIGHT_TLV_NDEF v ++ r)
        (0, (Some (len s + len (enc_tlv long ULTRALIGHT_TLV_NDEF v) - len v), len v))
  | scan_none s : skipped s → scan_spec s (0, (None, 0))
  | scan_stop s r : skipped s → scan_spec (s ++ ULTRALIGHT_TLV_TERMINATOR :: r) (0, (None, 0))
  | scan_short s r : skipped s → truncated r → scan_spec (s ++ r) (- ENODATA, (None, 0)).

Lemma scan_prefix s data n l k : skipped s → ahead data 0 (s ++ l) → len s <= n →
  ∃ f, ultralight_scan_loop (S (length s + k)) data n 0 = ultralight_scan_loop (S f) data n (len s).
Proof.
  intros Hs Ha Hn. destruct (scan_skipped s data n l Hs (S k) 0 Ha ltac:(lia)) as (f & Hle & Hrun).
  destruct f as [|f]; [lia|]. exists f. by rewrite <-Nat.add_succ_r, Hrun, Z.add_0_l.
Qed.

Lemma scan_spec_run l junk res : bytes l → scan_spec l res →
  ultralight_scan_loop (S (length l)) (l ++ junk) (len l) 0 = Some res.
Proof.
  intros Hb Hs. pose proof (ahead_start (l ++ junk)) as Ha. revert Ha. generalize (l ++ junk) at 1 3.
  intros data. destruct Hs as [s long v r Hs Hf|s Hs|s r Hs|s r Hs Hr]; intros Ha; rewrite <-?(assoc_L (++)) in Ha.
  - rewrite length_app, !len_app. pose proof (len_nonneg r). pose proof (len_nonneg v).
    pose proof (enc_tlv_len long ULTRALIGHT_TLV_NDEF v).
    edestruct (scan_prefix s) as (f & ->); [done|exact Ha|lia|].
    apply ahead_app in Ha as [Ha _]. rewrite Z.add_0_l, <-?(assoc_L (++)) in Ha.
    by rewrite (scan_block _ _ _ _ _ _ _ _ Ha) by (done || lia).
  - destruct (scan_prefix s data (len s) junk 0) as (f & Hrun); [done|exact Ha|lia|].
    rewrite Nat.add_0_r in Hrun. rewrite Hrun. apply scan_end.
  - rewrite length_app, len_app. pose proof (len_nonneg r). rewrite len_cons.
    edestruct (scan_prefix s) as (f & ->); [done|exact Ha|lia|].
    apply ahead_app in Ha as [Ha _]. eapply scan_terminator; [exact Ha|lia].
  - rewrite length_app, len_app. pose proof (len_nonneg r).
    edestruct (scan_prefix s) as (f & ->); [done|exact Ha|lia|].
    apply ahead_app in Ha as [Ha _]. apply bytes_app in Hb as [_ Hb].
    eapply scan_truncated; [exact Ha|lia|done..].
Qed.

Lemma scan_spec_cons s l res : (∀ k, skipped k → skipped (s ++ k)) → scan_spec l res →
  ∃ res', scan_spec (s ++ l) res'.
Proof.
  intros Hs [k long v r Hk Hf|k Hk|k r Hk|k r Hk Hr]; rewrite ?(assoc_L (++) s k); eexists.
  - by apply scan_found; [apply Hs|].
  - by apply scan_none, Hs.
  - by apply scan_stop, Hs.
  - by apply scan_short; [apply Hs|].
Qed.

(** Every area has a result. *)
Lemma scan_spec_total l : bytes l → ∃ res, scan_spec l res.
Proof.
  remember (length l) as n eqn:Hn. revert l Hn. induction (lt_wf n) as [n _ IH]. intros l -> Hb.
  destruct (tlv_cases l Hb) as [->|[(l' & ->)|[(l' & ->)|[(long & t & v & l' & -> & H0 & Ht & Hf)|Hr]]]].
  - eexists. apply scan_none, skipped_nil.
  - inv_bytes. destruct (IH (length l') ltac:(cbn; lia) l' eq_refl Hb) as [res Hres].
    apply (scan_spec_cons [_] l' res); [intros k; apply skipped_null|done].
  - eexists. apply (scan_stop [] l'), skipped_nil.
  - destruct (Z.eq_dec t ULTRALIGHT_TLV_NDEF) as [->|H3].
    { eexists. apply (scan_found [] long v l'); [constructor|done]. }
    apply bytes_app in Hb as [_ Hb].
    assert (length l' < length (enc_tlv long t v ++ l'))%nat as Hlt by (rewrite length_app; unfold enc_tlv; cbn; lia).
    destruct (IH _ Hlt l' eq_refl Hb) as [res Hres].
    apply (scan_spec_cons _ l' res); [|done]. intros k Hk. by apply skipped_block.
  - eexists. apply (scan_short [] l); [constructor|done].
Qed.

Lemma scan_exact l junk : bytes l → ∃ res, scan_spec l res ∧
  ∀ res', ultralight_scan_loop (S (length l)) (l ++ junk) (len l) 0 = Some res' ↔ scan_spec l res'.
Proof.
  intros Hb. destruct (scan_spec_total l Hb) as [res Hres]. exists res. split; [done|]. intros res'. split.
  - rewrite (scan_spec_run l junk res Hb Hres). by intros [= <-].
  - by apply scan_spec_run.
Qed.

(** The NDEF scan is total and exact on every memory area: it terminates without reading
    outside the area, and its result is the one the structure of the area gives.  Behind NULL
    bytes and complete blocks of other types, the first complete NDEF message block gives the
    place and the length of the message; the end of the area or a terminator gives no message;
    a block that is cut off gives -ENODATA. *)
Theorem ultralight_scan_exact l junk m0 n0 : bytes l →
  ∃ ret m k, ultralight_scan_ndef_tlv (Some (l ++ junk)) (len l) (Some m0) (Some n0) =
      Some (ret, Some m, Some k) ∧
    ∀ ret' m' k', scan_spec l (ret', (m', k')) ↔ (ret', m', k') = (ret, m, k).
Proof.
  intros Hb. destruct (scan_exact l junk Hb) as ([ret [m k]] & Hres & Hex). exists ret, m, k.
  unfold ultralight_scan_ndef_tlv. replace (Z.to_nat (len l)) with (length l) by llia.
  pose proof (proj2 (Hex _) Hres) as Hrun. rewrite Hrun. split; [done|]. intros ret' m' k'.
  rewrite <-Hex, Hrun. split; congruence.
Qed.

(** The message is what is found at the place. *)
Lemma scan_found_sub l junk ret off k : scan_spec l (ret, (Some off, k)) →
  ret = 0 ∧ ∃ s long v r, l = s ++ enc_tlv long ULTRALIGHT_TLV_NDEF v ++ r ∧ skipped s ∧ tlv_fits long v ∧
    k = len v ∧ off = len s + len (enc_tlv long ULTRALIGHT_TLV_NDEF v) - len v ∧ sub (l ++ junk) off k = Some v.
Proof.
  inversion 1 as [s long v r Hs Hf| | |]; subst. split; [done|]. exists s, long, v, r.
  split_and!; try done. unfold enc_tlv. set (h := if long then _ else _).
  replace ((s ++ (ULTRALIGHT_TLV_NDEF :: h ++ v) ++ r) ++ junk) with ((s ++ ULTRALIGHT_TLV_NDEF :: h) ++ v ++ (r ++ junk)).
  - apply sub_app_mid; [|done]. rewrite !len_app, !len_cons, len_app. lia.
  - rewrite <-!(assoc_L (++)). cbn [app]. by rewrite <-!(assoc_L (++)).
Qed.
End UltralightScan.

(** ** The message of a card, and its password configuration *)

Section UltralightNdef.
Context `{KconfigRanges}.

(** The pages the scan sees: the data pages, as many as fit the scan buffer. *)
Definition ul_area (d : ultralight_data_t) : list (list Z) :=
  take 141 (drop 4 (ul_pages_of d)).

Lemma flatten_run n d : Forall (λ p, len p = 4) (u_pages d) → ∀ page flat done_,
  0 <= page → page + Z.of_nat n <= len (u_pages d) → len flat = ULTRALIGHT_NDEF_SCAN_MAX →
  len done_ <= 141 → Forall (λ p, len p = 4) done_ → take (Z.to_nat (len done_ * 4)) flat = mjoin done_ →
  let got := take (141 - length done_) (take n (drop (Z.to_nat page) (u_pages d))) in
  ∃ flat', ultralight_flatten n d page flat (len done_ * 4) =
    Some (flat', (len done_ + len got) * 4) ∧ len flat' = ULTRALIGHT_NDEF_SCAN_MAX ∧
    take (Z.to_nat ((len done_ + len got) * 4)) flat' = mjoin (done_ ++ got).
Proof.
  intros Hp. induction n as [|n IH]; intros page flat dn Hpg Hn Hf Hd Hds Ht got.
  { exists flat. subst got. rewrite take_0, take_nil, len_nil, app_nil_r, Z.add_0_r. done. }
  subst got. unfold ULTRALIGHT_NDEF_SCAN_MAX, ULTRALIGHT_PAGE_SIZE in *. cbn [ultralight_flatten].
  unfold ULTRALIGHT_NDEF_SCAN_MAX, ULTRALIGHT_PAGE_SIZE.
  destruct (564 <? len dn * 4 + 4) eqn:E; bool_prop.
  { exists flat. replace (141 - length dn)%nat with 0%nat by llia. rewrite take_0, len_nil, app_nil_r, Z.add_0_r. done. }
  destruct (ld_Some (u_pages d) page) as [p Hld]; [lia|]. rewrite Hld. mred.
  apply ld_Some_inv in Hld as [_ Hlk]. pose proof (Forall_lookup_1 _ _ _ _ Hp Hlk) as Hpl. cbv beta in Hpl.
  rewrite (memcpy_all _ _ p 4) by done. rewrite blit_ok by (pose proof (len_nonneg dn); lia). mred. rewrite Hpl.
  set (flat1 := take _ flat ++ p ++ _). assert (len flat1 = 564) as Hf1.
  { subst flat1. rewrite !len_app, len_take, len_drop. pose proof (len_nonneg dn). lia. }
  assert (len (dn ++ [p]) = len dn + 1) as Hl1 by (rewrite len_app; done).
  destruct (IH (page + 1) flat1 (dn ++ [p])) as (flat' & Hrun & Hlen & Htake); try lia.
  - apply Forall_app; split; [done|by constructor].
  - rewrite Hl1. subst flat1. rewrite (assoc_L (++)), Ht, join_app, mjoin_cons, app_nil_r. apply take_app_length'.
    rewrite length_app. pose proof (mjoin_len dn 4 Hds). llia.
  - rewrite Hl1 in *. replace ((len dn + 1) * 4) with (len dn * 4 + 4) in Hrun by lia.
    rewrite (drop_S _ _ _ Hlk). cbn [take]. replace (S (Z.to_nat page)) with (Z.to_nat (page + 1)) by lia.
    rewrite length_app in *. cbn [length] in *. replace (141 - length dn)%nat with (S (141 - (length dn + 1)))%nat by llia.
    cbn [take]. rewrite len_cons. exists flat'. rewrite Hrun. rewrite <-(assoc_L (++)) in Htake. cbn [app] in Htake.
    split; [do 2 f_equal; lia|]. split; [done|]. rewrite <-Htake. f_equal. lia.
Qed.

(** The capability container of the card is that of an NDEF tag. *)
Definition has_cc (d : ultralight_data_t) : Prop :=
  ULTRALIGHT_CC_PAGE < u_pages_total d ∧ ∃ cc, ld (u_pages d) ULTRALIGHT_CC_PAGE = Some cc ∧ ld cc 0 = Some 0xE1.

(** [v] is the NDEF message of the card. *)
Definition has_message (d : ultralight_data_t) (v : list Z) : Prop :=
  has_cc d ∧ ∃ s long r, mjoin (ul_area d) = s ++ enc_tlv long ULTRALIGHT_TLV_NDEF v ++ r ∧
    skipped s ∧ tlv_fits long v.

Lemma flatten_area flat d : ul_shape d → ULTRALIGHT_CC_PAGE < u_pages_total d → len flat = ULTRALIGHT_NDEF_SCAN_MAX →
  ∃ junk, ultralight_flatten (Z.to_nat (u_pages_total d - ULTRALIGHT_DATA_START_PAGE)) d
      ULTRALIGHT_DATA_START_PAGE flat 0 = Some (mjoin (ul_area d) ++ junk, len (mjoin (ul_area d))).
Proof.
  intros Hd Hcc Hf. pose proof (us_page d Hd) as Hpg. pose proof (us_pages d Hd). pose proof (us_total d Hd).
  unfold ULTRALIGHT_DATA_START_PAGE, ULTRALIGHT_CC_PAGE, ULTRALIGHT_PAGE_SIZE in *.
  destruct (flatten_run (Z.to_nat (u_pages_total d - 4)) d Hpg 4 flat []) as (flat' & Hrun & Hlen & Ht);
    [lia|lia|done|done|done|done|]. cbn [length Nat.sub app] in Hrun, Ht. change (len []) with 0 in *.
  assert (take 141 (take (Z.to_nat (u_pages_total d - 4)) (drop (Z.to_nat 4) (u_pages d))) = ul_area d) as Hg.
  { unfold ul_area, ul_pages_of. change (Z.to_nat 4) with 4%nat. rewrite take_drop_commute. do 3 f_equal. lia. }
  rewrite Hg in *. assert (len (mjoin (ul_area d)) = len (ul_area d) * 4) as Hm.
  { apply mjoin_len. unfold ul_area, ul_pages_of. by apply Forall_take, Forall_drop, Forall_take. }
  rewrite Z.add_0_l in *. exists (drop (Z.to_nat (len (ul_area d) * 4)) flat').
  change (0 * 4) with 0 in Hrun. rewrite Hrun, Hm. by rewrite <-Ht, take_drop.
Qed.

Lemma area_bytes d : Forall bytes (u_pages d) → bytes (mjoin (ul_area d)).
Proof.
  intros Hb. apply bytes_mjoin. unfold ul_area, ul_pages_of. by apply Forall_take, Forall_drop, Forall_take.
Qed.

(** [ultralight_extract_ndef] finds the message of every card that has one, and only then:
    on every card whose counts stay inside its arrays it returns 0 without an access outside an
    object, a place with the message of the card, or NULL and 0 when the card has no NDEF
    capability container or no complete message.  The place it returns is always inside [flat],
    the function's own automatic array, so it is no longer valid when the caller reads it. *)
Theorem ultralight_extract_exact flat d m0 n0 :
  ul_shape d → Forall bytes (u_pages d) → len flat = ULTRALIGHT_NDEF_SCAN_MAX →
  ∃ m k flat', ultralight_extract_ndef flat (Some d) (Some m0) (Some n0) = Some (0, Some m, Some k, flat') ∧
    match m with
    | Some off => ∃ v, has_message d v ∧ sub flat' off k = Some v
    | None => k = 0 ∧ ∀ v, ¬ has_message d v
    end.
Proof.
  intros Hd Hb Hf. unfold ultralight_extract_ndef. pose proof ultralight_max_pages_range.
  destruct (u_pages_total d <=? ULTRALIGHT_CC_PAGE) eqn:E; bool_prop.
  { eexists None, 0, _. split; [done|]. split; [done|]. intros v [[Hc _] _]. lia. }
  destruct (ld_Some (u_pages d) ULTRALIGHT_CC_PAGE) as [cc Hcc]; [rewrite (us_pages d Hd); unfold ULTRALIGHT_CC_PAGE; lia|].
  pose proof (ld_Some_inv _ _ _ Hcc) as [_ Hlk]. pose proof (Forall_lookup_1 _ _ _ _ (us_page d Hd) Hlk) as Hpl.
  destruct (ld_Some cc 0) as [c0 Hc0]; [cbv beta in Hpl; rewrite Hpl; unfold ULTRALIGHT_PAGE_SIZE; lia|].
  rewrite Hcc. mred. rewrite Hc0. mred. destruct (c0 =? 0xE1) eqn:E1; bool_prop; cbn [negb].
  2: { eexists None, 0, _. split; [done|]. split; [done|]. intros v [[_ (cc' & Hcc' & Hc')] _]. congruence. }
  subst c0. assert (has_cc d) as Hc by (split; [done|eauto]).
  destruct (flatten_area flat d Hd E Hf) as (junk & ->). mred. unfold ultralight_scan_ndef_tlv.
  destruct (scan_exact (mjoin (ul_area d)) junk (area_bytes d Hb)) as ([ret [m k]] & Hres & Hex).
  replace (Z.to_nat (len (mjoin (ul_area d)))) with (length (mjoin (ul_area d))) by llia.
  pose proof (proj2 (Hex _) Hres) as Hrun. rewrite Hrun. mred.
  assert (∀ v, has_message d v → ret = 0 ∧ m ≠ None) as Hno.
  { intros v (_ & s & long & r & Hl & Hs & Hv). pose proof (scan_found s long v r Hs Hv) as Hsp.
    rewrite <-Hl in Hsp. apply Hex in Hsp. rewrite Hrun in Hsp. injection Hsp as -> -> ->. done. }
  destruct (ret =? - ENODATA) eqn:E2; bool_prop.
  { eexists None, 0, _. split; [done|]. split; [done|]. intros v [-> _]%Hno. done. }
  destruct m as [off|].
  - destruct (scan_found_sub _ junk _ _ _ Hres) as (-> & s & long & v & r & Hl & Hs & Hv & -> & -> & Hsub).
    eexists _, _, _. split; [done|]. exists v. split; [|done]. split; [done|eauto 10].
  - assert (ret = 0 ∧ k = 0) as [-> ->] by (inversion Hres; by subst).
    eexists _, _, _. split; [done|]. split; [done|]. by intros v [_ []]%Hno.
Qed.

(** A byte of a page. *)
Definition page_byte (d : ultralight_data_t) (page i : Z) : option Z := p ← ld (u_pages d) page; ld p i.

Lemma page_byte_ok d page i : ul_shape d → Forall bytes (u_pages d) →
  0 <= page < CONFIG_NFC_ULTRALIGHT_MAX_PAGES → 0 <= i < 4 →
  ∃ p b, ld (u_pages d) page = Some p ∧ len p = 4 ∧ ld p i = Some b ∧ is_byte b ∧ page_byte d page i = Some b.
Proof.
  intros Hd Hb Hp Hi. unfold page_byte. pose proof (us_pages d Hd). destruct (ld_Some (u_pages d) page) as [p Hld]; [lia|].
  pose proof (ld_Some_inv _ _ _ Hld) as [_ Hlk]. pose proof (Forall_lookup_1 _ _ _ _ (us_page d Hd) Hlk) as Hpl.
  pose proof (Forall_lookup_1 _ _ _ _ Hb Hlk) as Hbp. cbv beta in Hpl. unfold ULTRALIGHT_PAGE_SIZE in Hpl.
  destruct (ld_Some p i) as [b Hb']; [lia|]. exists p, b. rewrite Hld. mred. split_and!; try done.
  by eapply ld_byte.
Qed.

(** The types with a password configuration are the three with these numbers of pages. *)
Lemma has_config_pages n :
  ultralight_type_has_password_config (type_from_pages_total n) = bool_decide (n ∈ [45; 135; 231]).
Proof.
  unfold type_from_pages_total.
  repeat match goal with
  | |- context [n =? ?c] => destruct (Z.eqb_spec n c) as [->|]; [done|]
  end. symmetry. apply bool_decide_eq_false. by rewrite !elem_of_cons, elem_of_nil; intros [|[|[|]]].
Qed.

Lemma land_128 b : negb (Z.land b 0x80 =? 0) = Z.testbit b 7.
Proof.
  change 0x80 with (2 ^ 7). rewrite Z.land_comm. destruct (Z.testbit b 7) eqn:E.
  - apply negb_true_iff, Z.eqb_neq. intros H1. apply (f_equal (λ z, Z.testbit z 7)) in H1.
    rewrite Z.land_spec, E, Z.bits_0, Z.pow2_bits_true in H1 by lia. done.
  - apply negb_false_iff, Z.eqb_eq, Z.bits_inj'. intros i Hi. rewrite Z.land_spec, Z.bits_0.
    destruct (Z.eq_dec i 7) as [->|]; [by rewrite E, andb_false_r|]. rewrite Z.pow2_bits_false by lia. done.
Qed.

(** The configuration of a loaded card with 45, 135 or 231 pages. *)
Lemma parse_config_loaded d cfg0 : ul_shape d → Forall bytes (u_pages d) → ul_loaded d = d →
  u_pages_total d ∈ [45; 135; 231] →
  ∃ auth0 access pwd k0 k1, let t := u_pages_total d in
    page_byte d (t - 4) 3 = Some auth0 ∧ page_byte d (t - 3) 0 = Some access ∧ is_byte auth0 ∧
    ld (u_pages d) (t - 2) = Some pwd ∧ page_byte d (t - 1) 0 = Some k0 ∧ page_byte d (t - 1) 1 = Some k1 ∧
    ultralight_parse_config (Some d) (Some cfg0) = Some (true, Some
      {| c_auth0 := auth0; c_prot := Z.testbit access 7; c_authlim := Z.land access 7; c_pwd := pwd;
         c_pack := [k0; k1]; c_valid := true |}).
Proof.
  intros Hd Hb Hl Ht. pose proof (us_total d Hd) as Htot. pose proof ultralight_max_pages_range.
  assert (45 <= u_pages_total d) as Hge by (rewrite !elem_of_cons, elem_of_nil in Ht; lia).
  assert (u_pages_read d = u_pages_total d) as Hread by (by rewrite <-Hl at 1).
  assert (u_type d = type_from_pages_total (u_pages_total d)) as Htype by (by rewrite <-Hl at 1).
  destruct (page_byte_ok d (u_pages_total d - 4) 3) as (p0 & auth0 & Hp0 & _ & Ha0 & Hba & Hpa); [done|done|lia|lia|].
  destruct (page_byte_ok d (u_pages_total d - 3) 0) as (p1 & access & Hp1 & _ & Ha1 & Hac & Hpc); [done|done|lia|lia|].
  destruct (page_byte_ok d (u_pages_total d - 2) 0) as (pwd & ? & Hp2 & Hl2 & _); [done|done|lia|lia|].
  destruct (page_byte_ok d (u_pages_total d - 1) 0) as (p3 & k0 & Hp3 & _ & Hk0 & _ & Hpk0); [done|done|lia|lia|].
  destruct (page_byte_ok d (u_pages_total d - 1) 1) as (p3' & k1 & Hp3' & _ & Hk1 & _ & Hpk1); [done|done|lia|lia|].
  assert (p3' = p3) as -> by congruence.
  exists auth0, access, pwd, k0, k1. split_and!; try done. unfold ultralight_parse_config.
  rewrite Htype, has_config_pages, bool_decide_eq_true_2 by done. cbn [negb].
  unfold ultralight_config_page_indices, ULTRALIGHT_CONFIG_BLOCK_PAGES. rewrite !(proj2 (Z.ltb_ge _ 5)) by lia.
  rewrite !u16_id by lia. rewrite Hread, (proj2 (Z.leb_gt _ _)) by lia.
  rewrite Hp0. mred. rewrite Ha0. mred. rewrite Hp1. mred. rewrite Ha1. mred. rewrite Hp2. mred.
  rewrite memcpy_all by done. unfold ULTRALIGHT_PAGE_SIZE. rewrite blit_ok by (rewrite ?Hl2; done). mred.
  rewrite Hp3. mred. rewrite Hk0. mred. rewrite Hk1. mred. rewrite land_128, Hl2.
  assert (u8 (Z.land access 7) = Z.land access 7) as ->.
  { apply u8_id. change 7 with (Z.ones 3). rewrite Z.land_ones by lia. unfold is_byte. dlia. }
  cbn [Z.to_nat take app config_zero c_pwd]. by rewrite (drop_ge _ (Z.to_nat (0 + 4))), app_nil_r by done.
Qed.

(** On every loaded card the password configuration is read inside the card's pages, and
    decides read protection as the tag does: it is there exactly when the card has the 45, 135
    or 231 pages of an NTAG213, 215 or 216, and a page then needs authentication exactly when
    AUTH0, byte 3 of the fourth page from the end, is not 0xFF and not above the page, and the
    protection bit of the ACCESS byte in the page behind it is set. *)
Theorem ultralight_protection_exact d cfg0 : ul_shape d → Forall bytes (u_pages d) → ul_loaded d = d →
  ∃ ok cfg, ultralight_parse_config (Some d) (Some cfg0) = Some (ok, Some cfg) ∧
    (ok = true ↔ u_pages_total d ∈ [45; 135; 231]) ∧
    ∀ page, ∃ b, ultralight_page_needs_auth (Some cfg) page = Some b ∧
      (b = true ↔ ok = true ∧ ∃ auth0 access,
        page_byte d (u_pages_total d - 4) 3 = Some auth0 ∧ page_byte d (u_pages_total d - 3) 0 = Some access ∧
        auth0 ≠ ULTRALIGHT_AUTH0_NONE ∧ auth0 <= page ∧ Z.testbit access 7 = true).
Proof.
  intros Hd Hb Hl. destruct (decide (u_pages_total d ∈ [45; 135; 231])) as [Ht|Ht].
  - destruct (parse_config_loaded d cfg0 Hd Hb Hl Ht) as
      (auth0 & access & pwd & k0 & k1 & Ha & Hc & Hba & _ & _ & _ & Hrun).
    eexists _, _. split; [exact Hrun|]. split; [done|]. intros page. unfold ultralight_page_needs_auth.
    cbn [ultralight_read_protection_enabled c_valid c_auth0 c_prot negb]. mred. cbn [c_prot c_auth0].
    rewrite Ha, Hc. rewrite u16_id by (destruct Hba; lia).
    exists (negb (auth0 =? ULTRALIGHT_AUTH0_NONE) && Z.testbit access 7 && (auth0 <=? page)).
    split; [by destruct (auth0 =? ULTRALIGHT_AUTH0_NONE), (Z.testbit access 7)|].
    destruct (Z.eqb_spec auth0 ULTRALIGHT_AUTH0_NONE), (Z.testbit access 7) eqn:E; cbn [negb andb];
      rewrite ?Z.leb_le; naive_solver.
  - eexists false, config_zero. split_and!.
    + unfold ultralight_parse_config. assert (u_type d = type_from_pages_total (u_pages_total d)) as ->
        by (by rewrite <-Hl at 1). by rewrite has_config_pages, bool_decide_eq_false_2.
    + done.
    + intros page. exists false. split; [done|]. naive_solver.
Qed.
End UltralightNdef.
