(* ===== verification/Des.v ===== *)
(** * DES ([src/nfc/protocols/ultralight/ultralight_des.c])

    The block cipher under the Ultralight C authentication: key schedule, initial and final
    permutation, rounds, and the theorem that decryption inverts encryption. *)

From stdpp Require Import base list numbers option.
From S2P Require Import Prelude Serial Word32.

(** ** Loads and stores *)

Definition GET_UINT32_BE (b : list Z) (i : Z) : option Z :=
  b0 ← ld b i; b1 ← ld b (i + 1); b2 ← ld b (i + 2); b3 ← ld b (i + 3);
  Some (Z.lor (Z.lor (Z.lor (shl b0 24) (shl b1 16)) (shl b2 8)) b3).

Definition PUT_UINT32_BE (n : Z) (b : list Z) (i : Z) : option (list Z) :=
  b ← st b i (u8 (shr n 24)); b ← st b (i + 1) (u8 (shr n 16));
  b ← st b (i + 2) (u8 (shr n 8)); st b (i + 3) (u8 n).

(** ** Tables *)

Definition SB1 : list Z :=
  [0x01010400; 0x00000000; 0x00010000; 0x01010404; 0x01010004; 0x00010404; 0x00000004; 0x00010000;
   0x00000400; 0x01010400; 0x01010404; 0x00000400; 0x01000404; 0x01010004; 0x01000000; 0x00000004;
   0x00000404; 0x01000400; 0x01000400; 0x00010400; 0x00010400; 0x01010000; 0x01010000; 0x01000404;
   0x00010004; 0x01000004; 0x01000004; 0x00010004; 0x00000000; 0x00000404; 0x00010404; 0x01000000;
   0x00010000; 0x01010404; 0x00000004; 0x01010000; 0x01010400; 0x01000000; 0x01000000; 0x00000400;
   0x01010004; 0x00010000; 0x00010400; 0x01000004; 0x00000400; 0x00000004; 0x01000404; 0x00010404;
   0x01010404; 0x00010004; 0x01010000; 0x01000404; 0x01000004; 0x00000404; 0x00010404; 0x01010400;
   0x00000404; 0x01000400; 0x01000400; 0x00000000; 0x00010004; 0x00010400; 0x00000000; 0x01010004].

Definition SB2 : list Z :=
  [0x80108020; 0x80008000; 0x00008000; 0x00108020; 0x00100000; 0x00000020; 0x80100020; 0x80008020;
   0x80000020; 0x80108020; 0x80108000; 0x80000000; 0x80008000; 0x00100000; 0x00000020; 0x80100020;
   0x00108000; 0x00100020; 0x80008020; 0x00000000; 0x80000000; 0x00008000; 0x00108020; 0x80100000;
   0x00100020; 0x80000020; 0x00000000; 0x00108000; 0x00008020; 0x80108000; 0x80100000; 0x00008020;
   0x00000000; 0x00108020; 0x80100020; 0x00100000; 0x80008020; 0x80100000; 0x80108000; 0x00008000;
   0x80100000; 0x80008000; 0x00000020; 0x80108020; 0x00108020; 0x00000020; 0x00008000; 0x80000000;
   0x00008020; 0x80108000; 0x00100000; 0x80000020; 0x00100020; 0x80008020; 0x80000020; 0x00100020;
   0x00108000; 0x00000000; 0x80008000; 0x00008020; 0x80000000; 0x80100020; 0x80108020; 0x00108000].

Definition SB3 : list Z :=
  [0x00000208; 0x08020200; 0x00000000; 0x08020008; 0x08000200; 0x00000000; 0x00020208; 0x08000200;
   0x00020008; 0x08000008; 0x08000008; 0x00020000; 0x08020208; 0x00020008; 0x08020000; 0x00000208;
   0x08000000; 0x00000008; 0x08020200; 0x00000200; 0x00020200; 0x08020000; 0x08020008; 0x00020208;
   0x08000208; 0x00020200; 0x00020000; 0x08000208; 0x00000008; 0x08020208; 0x00000200; 0x08000000;
   0x08020200; 0x08000000; 0x00020008; 0x00000208; 0x00020000; 0x08020200; 0x08000200; 0x00000000;
   0x00000200; 0x00020008; 0x08020208; 0x08000200; 0x08000008; 0x00000200; 0x00000000; 0x08020008;
   0x08000208; 0x00020000; 0x08000000; 0x08020208; 0x00000008; 0x00020208; 0x00020200; 0x08000008;
   0x08020000; 0x08000208; 0x00000208; 0x08020000; 0x00020208; 0x00000008; 0x08020008; 0x00020200].

Definition SB4 : list Z :=
  [0x00802001; 0x00002081; 0x00002081; 0x00000080; 0x00802080; 0x00800081; 0x00800001; 0x00002001;
   0x00000000; 0x00802000; 0x00802000; 0x00802081; 0x00000081; 0x00000000; 0x00800080; 0x00800001;
   0x00000001; 0x00002000; 0x00800000; 0x00802001; 0x00000080; 0x00800000; 0x00002001; 0x00002080;
   0x00800081; 0x00000001; 0x00002080; 0x00800080; 0x00002000; 0x00802080; 0x00802081; 0x00000081;
   0x00800080; 0x00800001; 0x00802000; 0x00802081; 0x00000081; 0x00000000; 0x00000000; 0x00802000;
   0x00002080; 0x00800080; 0x00800081; 0x00000001; 0x00802001; 0x00002081; 0x00002081; 0x00000080;
   0x00802081; 0x00000081; 0x00000001; 0x00002000; 0x00800001; 0x00002001; 0x00802080; 0x00800081;
   0x00002001; 0x00002080; 0x00800000; 0x00802001; 0x00000080; 0x00800000; 0x00002000; 0x00802080].

Definition SB5 : list Z :=
  [0x00000100; 0x02080100; 0x02080000; 0x42000100; 0x00080000; 0x00000100; 0x40000000; 0x02080000;
   0x40080100; 0x00080000; 0x02000100; 0x40080100; 0x42000100; 0x42080000; 0x00080100; 0x40000000;
   0x02000000; 0x40080000; 0x40080000; 0x00000000; 0x40000100; 0x42080100; 0x42080100; 0x02000100;
   0x42080000; 0x40000100; 0x00000000; 0x42000000; 0x02080100; 0x02000000; 0x42000000; 0x00080100;
   0x00080000; 0x42000100; 0x00000100; 0x02000000; 0x40000000; 0x02080000; 0x42000100; 0x40080100;
   0x02000100; 0x40000000; 0x42080000; 0x02080100; 0x40080100; 0x00000100; 0x02000000; 0x42080000;
   0x42080100; 0x00080100; 0x42000000; 0x42080100; 0x02080000; 0x00000000; 0x40080000; 0x42000000;
   0x00080100; 0x02000100; 0x40000100; 0x00080000; 0x00000000; 0x40080000; 0x02080100; 0x40000100].

Definition SB6 : list Z :=
  [0x20000010; 0x20400000; 0x00004000; 0x20404010; 0x20400000; 0x00000010; 0x20404010; 0x00400000;
   0x20004000; 0x00404010; 0x00400000; 0x20000010; 0x00400010; 0x20004000; 0x20000000; 0x00004010;
   0x00000000; 0x00400010; 0x20004010; 0x00004000; 0x00404000; 0x20004010; 0x00000010; 0x20400010;
   0x20400010; 0x00000000; 0x00404010; 0x20404000; 0x00004010; 0x00404000; 0x20404000; 0x20000000;
   0x20004000; 0x00000010; 0x20400010; 0x00404000; 0x20404010; 0x00400000; 0x00004010; 0x20000010;
   0x00400000; 0x20004000; 0x20000000; 0x00004010; 0x20000010; 0x20404010; 0x00404000; 0x20400000;
   0x00404010; 0x20404000; 0x00000000; 0x20400010; 0x00000010; 0x00004000; 0x20400000; 0x00404010;
   0x00004000; 0x00400010; 0x20004010; 0x00000000; 0x20404000; 0x20000000; 0x00400010; 0x20004010].

Definition SB7 : list Z :=
  [0x00200000; 0x04200002; 0x04000802; 0x00000000; 0x00000800; 0x04000802; 0x00200802; 0x04200800;
   0x04200802; 0x00200000; 0x00000000; 0x04000002; 0x00000002; 0x04000000; 0x04200002; 0x00000802;
   0x04000800; 0x00200802; 0x00200002; 0x04000800; 0x04000002; 0x04200000; 0x04200800; 0x00200002;
   0x04200000; 0x00000800; 0x00000802; 0x04200802; 0x00200800; 0x00000002; 0x04000000; 0x00200800;
   0x04000000; 0x00200800; 0x00200000; 0x04000802; 0x04000802; 0x04200002; 0x04200002; 0x00000002;
   0x00200002; 0x04000000; 0x04000800; 0x00200000; 0x04200800; 0x00000802; 0x00200802; 0x04200800;
   0x00000802; 0x04000002; 0x04200802; 0x04200000; 0x00200800; 0x00000000; 0x00000002; 0x04200802;
   0x00000000; 0x00200802; 0x04200000; 0x00000800; 0x04000002; 0x04000800; 0x00000800; 0x00200002].

Definition SB8 : list Z :=
  [0x10001040; 0x00001000; 0x00040000; 0x10041040; 0x10000000; 0x10001040; 0x00000040; 0x10000000;
   0x00040040; 0x10040000; 0x10041040; 0x00041000; 0x10041000; 0x00041040; 0x00001000; 0x00000040;
   0x10040000; 0x10000040; 0x10001000; 0x00001040; 0x00041000; 0x00040040; 0x10040040; 0x10041000;
   0x00001040; 0x00000000; 0x00000000; 0x10040040; 0x10000040; 0x10001000; 0x00041040; 0x00040000;
   0x00041040; 0x00040000; 0x10041000; 0x00001000; 0x00000040; 0x10040040; 0x00001000; 0x00041040;
   0x10001000; 0x00000040; 0x10000040; 0x10040000; 0x10040040; 0x10000000; 0x00040000; 0x10001040;
   0x00000000; 0x10041040; 0x00040040; 0x10000040; 0x10040000; 0x10001000; 0x10001040; 0x00000000;
   0x10041040; 0x00041000; 0x00041000; 0x00001040; 0x00001040; 0x00040040; 0x10000000; 0x10041000].

Definition LHs : list Z :=
  [0x00000000; 0x00000001; 0x00000100; 0x00000101; 0x00010000; 0x00010001; 0x00010100; 0x00010101;
   0x01000000; 0x01000001; 0x01000100; 0x01000101; 0x01010000; 0x01010001; 0x01010100; 0x01010101].

Definition RHs : list Z :=
  [0x00000000; 0x01000000; 0x00010000; 0x01010000; 0x00000100; 0x01000100; 0x00010100; 0x01010100;
   0x00000001; 0x01000001; 0x00010001; 0x01010001; 0x00000101; 0x01000101; 0x00010101; 0x01010101].


(** ** The cipher *)

(** [T = ((A >> n) ^ B) & mask; B ^= T; A ^= (T << n)] *)
Definition exchange (n mask : Z) (p : Z * Z) : Z * Z :=
  let '(a, b) := p in
  let T := Z.land (Z.lxor (shr a n) b) mask in
  (Z.lxor a (shl T n), Z.lxor b T).

(** The same with the roles of the two words exchanged. *)
Definition flip (p : Z * Z) : Z * Z := (p.2, p.1).
Definition exchange' (n mask : Z) (p : Z * Z) : Z * Z := flip (exchange n mask (flip p)).

(** [T = (X ^ Y) & 0xAAAAAAAA; Y ^= T; X ^= T] *)
Definition blend (p : Z * Z) : Z * Z :=
  let '(x, y) := p in
  let T := Z.land (Z.lxor x y) 0xAAAAAAAA in (Z.lxor x T, Z.lxor y T).

(** [((x << 1) | (x >> 31)) & 0xFFFFFFFF] and [((x << 31) | (x >> 1)) & 0xFFFFFFFF] *)
Definition rotl1 (x : Z) : Z := Z.land (Z.lor (shl x 1) (shr x 31)) 0xFFFFFFFF.
Definition rotr1 (x : Z) : Z := Z.land (Z.lor (shl x 31) (shr x 1)) 0xFFFFFFFF.

Definition DES_IP (p : Z * Z) : Z * Z :=
  let p := exchange 4 0x0F0F0F0F p in
  let p := exchange 16 0x0000FFFF p in
  let p := exchange' 2 0x33333333 p in
  let p := exchange' 8 0x00FF00FF p in
  let p := (p.1, rotl1 p.2) in
  let p := blend p in
  (rotl1 p.1, p.2).

Definition DES_FP (p : Z * Z) : Z * Z :=
  let p := (rotr1 p.1, p.2) in
  let p := blend p in
  let p := (p.1, rotr1 p.2) in
  let p := exchange' 8 0x00FF00FF p in
  let p := exchange' 2 0x33333333 p in
  let p := exchange 16 0x0000FFFF p in
  exchange 4 0x0F0F0F0F p.

(** [DES_ROUND(X, Y)] with [SK] at [sk[k]]: the new [Y]. *)
Definition DES_ROUND (sk : list Z) (k X Y : Z) : option Z :=
  k0 ← ld sk k;
  let T := Z.lxor k0 X in
  a ← ld SB8 (Z.land T 0x3F); b ← ld SB6 (Z.land (shr T 8) 0x3F);
  c ← ld SB4 (Z.land (shr T 16) 0x3F); d ← ld SB2 (Z.land (shr T 24) 0x3F);
  let Y := Z.lxor Y (Z.lxor (Z.lxor (Z.lxor a b) c) d) in
  k1 ← ld sk (k + 1);
  let T := Z.lxor k1 (Z.lor (shl X 28) (shr X 4)) in
  a ← ld SB7 (Z.land T 0x3F); b ← ld SB5 (Z.land (shr T 8) 0x3F);
  c ← ld SB3 (Z.land (shr T 16) 0x3F); d ← ld SB1 (Z.land (shr T 24) 0x3F);
  Some (Z.lxor Y (Z.lxor (Z.lxor (Z.lxor a b) c) d)).

(** The subkeys of one round, from the two halves of the key. *)
Definition subkey0 (X Y : Z) : Z :=
  foldl Z.lor (Z.land (shl X 4) 0x24000000)
    [Z.land (shl X 28) 0x10000000; Z.land (shl X 14) 0x08000000; Z.land (shl X 18) 0x02080000;
     Z.land (shl X 6) 0x01000000; Z.land (shl X 9) 0x00200000; Z.land (shr X 1) 0x00100000;
     Z.land (shl X 10) 0x00040000; Z.land (shl X 2) 0x00020000; Z.land (shr X 10) 0x00010000;
     Z.land (shr Y 13) 0x00002000; Z.land (shr Y 4) 0x00001000; Z.land (shl Y 6) 0x00000800;
     Z.land (shr Y 1) 0x00000400; Z.land (shr Y 14) 0x00000200; Z.land Y 0x00000100;
     Z.land (shr Y 5) 0x00000020; Z.land (shr Y 10) 0x00000010; Z.land (shr Y 3) 0x00000008;
     Z.land (shr Y 18) 0x00000004; Z.land (shr Y 26) 0x00000002; Z.land (shr Y 24) 0x00000001].

Definition subkey1 (X Y : Z) : Z :=
  foldl Z.lor (Z.land (shl X 15) 0x20000000)
    [Z.land (shl X 17) 0x10000000; Z.land (shl X 10) 0x08000000; Z.land (shl X 22) 0x04000000;
     Z.land (shr X 2) 0x02000000; Z.land (shl X 1) 0x01000000; Z.land (shl X 16) 0x00200000;
     Z.land (shl X 11) 0x00100000; Z.land (shl X 3) 0x00080000; Z.land (shr X 6) 0x00040000;
     Z.land (shl X 15) 0x00020000; Z.land (shr X 4) 0x00010000; Z.land (shr Y 2) 0x00002000;
     Z.land (shl Y 8) 0x00001000; Z.land (shr Y 14) 0x00000808; Z.land (shr Y 9) 0x00000400;
     Z.land Y 0x00000200; Z.land (shl Y 7) 0x00000100; Z.land (shr Y 7) 0x00000020;
     Z.land (shr Y 3) 0x00000011; Z.land (shl Y 2) 0x00000004; Z.land (shr Y 21) 0x00000002].

(** [n] more turns of the key loop from [i] on, writing at [sk[2 * i]]. *)
Fixpoint setkey_loop (n : nat) (i X Y : Z) (sk : list Z) : option (list Z) :=
  match n with
  | O => Some sk
  | S n =>
    let '(X, Y) :=
      if (i <? 2) || (i =? 8) || (i =? 15) then
        (Z.land (Z.lor (shl X 1) (shr X 27)) 0x0FFFFFFF, Z.land (Z.lor (shl Y 1) (shr Y 27)) 0x0FFFFFFF)
      else
        (Z.land (Z.lor (shl X 2) (shr X 26)) 0x0FFFFFFF, Z.land (Z.lor (shl Y 2) (shr Y 26)) 0x0FFFFFFF) in
    sk ← st sk (2 * i) (subkey0 X Y);
    sk ← st sk (2 * i + 1) (subkey1 X Y);
    setkey_loop n (i + 1) X Y sk
  end.

(** The eight table look-ups that spread a half of the key: at [X >> s] for the shifts [s]. *)
Definition spread (tab : list Z) (s0 s1 s2 s3 s4 s5 s6 s7 X : Z) : option Z :=
  a ← ld tab (Z.land (shr X s0) 0xF); b ← ld tab (Z.land (shr X s1) 0xF);
  c ← ld tab (Z.land (shr X s2) 0xF); d ← ld tab (Z.land (shr X s3) 0xF);
  e ← ld tab (Z.land (shr X s4) 0xF); f ← ld tab (Z.land (shr X s5) 0xF);
  g ← ld tab (Z.land (shr X s6) 0xF); h ← ld tab (Z.land (shr X s7) 0xF);
  Some (foldl Z.lor (shl a 3) [shl b 2; shl c 1; d; shl e 7; shl f 6; shl g 5; shl h 4]).

Definition ultralight_des_setkey (SK key : list Z) : option (list Z) :=
  X ← GET_UINT32_BE key 0; Y ← GET_UINT32_BE key 4;
  let '(Y, X) := exchange 4 0x0F0F0F0F (Y, X) in
  let T := Z.land (Z.lxor Y X) 0x10101010 in
  let X := Z.lxor X T in let Y := Z.lxor Y T in
  X ← spread LHs 0 8 16 24 5 13 21 29 X;
  Y ← spread RHs 1 9 17 25 4 12 20 28 Y;
  let X := Z.land X 0x0FFFFFFF in let Y := Z.land Y 0x0FFFFFFF in
  setkey_loop 16 0 X Y SK.

Definition ultralight_des_setkey_enc (sk key : list Z) : option (list Z) := ultralight_des_setkey sk key.

(** [SWAP(l[i], l[j])] *)
Definition SWAP (l : list Z) (i j : Z) : option (list Z) :=
  t ← ld l i; b ← ld l j; l ← st l i b; st l j t.

Fixpoint setkey_dec_loop (n : nat) (i : Z) (sk : list Z) : option (list Z) :=
  match n with
  | O => Some sk
  | S n => sk ← SWAP sk i (30 - i); sk ← SWAP sk (i + 1) (31 - i); setkey_dec_loop n (i + 2) sk
  end.

Definition ultralight_des_setkey_dec (sk key : list Z) : option (list Z) :=
  sk ← ultralight_des_setkey sk key; setkey_dec_loop 8 0 sk.

(** [n] more turns of the round loop with [SK] at [sk[k]]. *)
Fixpoint des_rounds (n : nat) (sk : list Z) (k X Y : Z) : option (Z * Z) :=
  match n with
  | O => Some (X, Y)
  | S n => X ← DES_ROUND sk k Y X; Y ← DES_ROUND sk (k + 2) X Y; des_rounds n sk (k + 4) X Y
  end.

Definition ultralight_des_crypt_ecb (sk input output : list Z) : option (list Z) :=
  X ← GET_UINT32_BE input 0; Y ← GET_UINT32_BE input 4;
  let '(X, Y) := DES_IP (X, Y) in
  '(X, Y) ← des_rounds 8 sk 0 X Y;
  let '(Y, X) := DES_FP (Y, X) in
  o ← PUT_UINT32_BE Y output 0; PUT_UINT32_BE X o 4.

(** The worked example of the algorithm's literature. *)
Example des_known_answer :
  (sk ← ultralight_des_setkey_enc (zeros 32) [0x13; 0x34; 0x57; 0x79; 0x9B; 0xBC; 0xDF; 0xF1];
   ultralight_des_crypt_ecb sk [0x01; 0x23; 0x45; 0x67; 0x89; 0xAB; 0xCD; 0xEF] (zeros 8)) =
  Some [0x85; 0xE8; 0x13; 0x54; 0x0F; 0x0A; 0xB4; 0x05].
Proof. by vm_compute. Qed.

#[local] Hint Resolve word_lxor word_lor word_shl word_shr word_land : nfc.

(** ** The permutations *)

Definition words (p : Z * Z) : Prop := is_word p.1 ∧ is_word p.2.

Lemma exchange_words n mask p : is_word mask → words p → words (exchange n mask p).
Proof. destruct p as [a b]. intros Hm [Ha Hb]. split; cbn; auto with nfc. Qed.

(** Exchanging bits twice is doing nothing, when no exchanged bit is shifted out. *)
Lemma exchange_twice n mask p : 0 <= n <= 32 → 0 <= mask < 2 ^ (32 - n) →
  exchange n mask (exchange n mask p) = p.
Proof.
  destruct p as [a b]. intros Hn Hm. unfold exchange. set (T := Z.land _ mask).
  assert (0 <= T < 2 ^ (32 - n)) as HT by (apply land_below; lia).
  assert (shr (shl T n) n = T) as Hs.
  { unfold shr, shl, u32. rewrite Z.shiftl_mul_pow2, Z.shiftr_div_pow2 by lia.
    assert (2 ^ 32 = 2 ^ (32 - n) * 2 ^ n) as Hp by (rewrite <-Z.pow_add_r by lia; f_equal; lia).
    change 4294967296 with (2 ^ 32). rewrite Z.mod_small by (pose proof (Z.pow_pos_nonneg 2 n); nia).
    apply Z.div_mul. pose proof (Z.pow_pos_nonneg 2 n). lia. }
  assert (Z.land (Z.lxor (shr (Z.lxor a (shl T n)) n) (Z.lxor b T)) mask = T) as ->.
  { unfold shr in *. rewrite Z.shiftr_lxor, Hs. subst T. f_equal.
    set (T := Z.land _ mask). rewrite (Z.lxor_comm b T), <-Z.lxor_assoc. by rewrite lxor_twice. }
  by rewrite !lxor_twice.
Qed.

Lemma exchange'_words n mask p : is_word mask → words p → words (exchange' n mask p).
Proof. intros Hm [Ha Hb]. destruct (exchange_words n mask (flip p) Hm) as [H1 H2]; by split. Qed.

Lemma exchange'_twice n mask p : 0 <= n <= 32 → 0 <= mask < 2 ^ (32 - n) →
  exchange' n mask (exchange' n mask p) = p.
Proof.
  intros Hn Hm. unfold exchange'. destruct (exchange n mask (flip p)) as [a b] eqn:E.
  unfold flip at 2 3. cbn [fst snd]. rewrite <-E, exchange_twice by done. by destruct p.
Qed.

Lemma blend_words p : words p → words (blend p).
Proof. destruct p as [a b]. intros [Ha Hb]. assert (is_word 0xAAAAAAAA) by done. split; cbn; auto with nfc. Qed.

Lemma blend_twice p : blend (blend p) = p.
Proof.
  destruct p as [a b]. unfold blend. set (T := Z.land _ 0xAAAAAAAA).
  assert (Z.lxor (Z.lxor a T) (Z.lxor b T) = Z.lxor a b) as ->
    by (rewrite (Z.lxor_comm b T), <-Z.lxor_assoc, lxor_twice; done).
  fold T. by rewrite !lxor_twice.
Qed.

Lemma rotl1_eq h l : 0 <= h < 2 → 0 <= l < 2 ^ 31 → rotl1 (h * 2 ^ 31 + l) = 2 * l + h.
Proof.
  intros Hh Hl. unfold rotl1, shl, shr, u32. rewrite Z.shiftl_mul_pow2, Z.shiftr_div_pow2 by lia.
  change (2 ^ 31) with 2147483648 in *. change (2 ^ 1) with 2.
  assert ((h * 2147483648 + l) * 2 mod 4294967296 = Z.shiftl l 1) as -> by (rewrite Z.shiftl_mul_pow2 by lia; dlia).
  assert ((h * 2147483648 + l) / 2147483648 = h) as -> by dlia.
  rewrite lor_shiftl_add by (change (2 ^ 1) with 2; lia). change 0xFFFFFFFF with (Z.ones 32).
  rewrite Z.land_ones by lia. change (2 ^ 1) with 2. rewrite Z.mod_small; lia.
Qed.

Lemma rotr1_eq h l : 0 <= h < 2 → 0 <= l < 2 ^ 31 → rotr1 (2 * l + h) = h * 2 ^ 31 + l.
Proof.
  intros Hh Hl. unfold rotr1, shl, shr, u32. rewrite Z.shiftl_mul_pow2, Z.shiftr_div_pow2 by lia.
  change (2 ^ 31) with 2147483648 in *. change (2 ^ 1) with 2.
  assert ((2 * l + h) * 2147483648 mod 4294967296 = Z.shiftl h 31) as ->
    by (rewrite Z.shiftl_mul_pow2 by lia; change (2 ^ 31) with 2147483648; dlia).
  assert ((2 * l + h) / 2 = l) as -> by dlia.
  rewrite lor_shiftl_add by (change (2 ^ 31) with 2147483648; lia). change 0xFFFFFFFF with (Z.ones 32).
  rewrite Z.land_ones by lia. change (2 ^ 31) with 2147483648. rewrite Z.mod_small; lia.
Qed.

Lemma rotr1_rotl1 x : is_word x → rotr1 (rotl1 x) = x.
Proof.
  intros Hx. unfold is_word in Hx. pose proof (Z.div_mod x (2 ^ 31) ltac:(lia)) as Hd.
  change (2 ^ 31) with 2147483648 in *. rewrite Hd, (Z.mul_comm 2147483648).
  rewrite rotl1_eq, rotr1_eq by dlia. done.
Qed.

Lemma rotl1_rotr1 x : is_word x → rotl1 (rotr1 x) = x.
Proof.
  intros Hx. unfold is_word in Hx. pose proof (Z.div_mod x 2 ltac:(lia)) as Hd. rewrite Hd.
  rewrite rotr1_eq, rotl1_eq by dlia. done.
Qed.

Lemma rotl1_word x : is_word (rotl1 x).
Proof. by apply word_land. Qed.
Lemma rotr1_word x : is_word (rotr1 x).
Proof. by apply word_land. Qed.

#[local] Hint Resolve rotl1_word rotr1_word : nfc.

Lemma DES_IP_words p : words p → words (DES_IP p).
Proof.
  intros Hp. unfold DES_IP.
  apply (exchange_words 4 0x0F0F0F0F), (exchange_words 16 0x0000FFFF), (exchange'_words 2 0x33333333),
    (exchange'_words 8 0x00FF00FF) in Hp; [|done..].
  split; cbn [fst snd]; [auto with nfc|]. apply blend_words. split; cbn [fst snd]; [apply Hp|auto with nfc].
Qed.

Lemma DES_FP_words p : words p → words (DES_FP p).
Proof.
  intros Hp. unfold DES_FP. apply exchange_words, exchange_words, exchange'_words, exchange'_words; try done.
  split; cbn [fst snd]; [|auto with nfc]. apply blend_words. split; cbn [fst snd]; [auto with nfc|apply Hp].
Qed.

(** The final permutation is the inverse of the initial one. *)
Lemma DES_FP_IP p : words p → DES_FP (DES_IP p) = p.
Proof.
  intros Hp. unfold DES_FP, DES_IP. cbn [fst snd].
  pose proof Hp as H1. apply (exchange_words 4 0x0F0F0F0F), (exchange_words 16 0x0000FFFF),
    (exchange'_words 2 0x33333333), (exchange'_words 8 0x00FF00FF) in H1; [|done..].
  set (q := exchange' 8 _ _) in *. assert (words (blend (q.1, rotl1 q.2))) as Hb
    by (apply blend_words; split; cbn [fst snd]; [apply H1|auto with nfc]).
  rewrite rotr1_rotl1 by apply Hb. rewrite <-surjective_pairing, blend_twice. cbn [fst snd].
  rewrite rotr1_rotl1, <-surjective_pairing by apply H1. subst q.
  by rewrite exchange'_twice, exchange'_twice, exchange_twice, exchange_twice by done.
Qed.

Lemma DES_IP_FP p : words p → DES_IP (DES_FP p) = p.
Proof.
  intros Hp. unfold DES_FP, DES_IP. cbn [fst snd].
  rewrite exchange_twice, exchange_twice, exchange'_twice, exchange'_twice by done. cbn [fst snd].
  assert (words (blend (rotr1 p.1, p.2))) as Hb by (apply blend_words; split; cbn [fst snd]; [auto with nfc|apply Hp]).
  rewrite rotl1_rotr1 by apply Hb. rewrite <-surjective_pairing, blend_twice. cbn [fst snd].
  rewrite rotl1_rotr1 by apply Hp. by destruct p.
Qed.

(** ** The rounds *)

(** One round and the exchange of the halves that the code does by naming them. *)
Definition feistel (f : Z → Z) (p : Z * Z) : Z * Z := (p.2, Z.lxor p.1 (f p.2)).

Definition feistels (fs : list (Z → Z)) (p : Z * Z) : Z * Z := foldl (λ p f, feistel f p) p fs.

Lemma feistel_inverse f p : feistel f (flip (feistel f p)) = flip p.
Proof. destruct p as [x y]. unfold feistel, flip. cbn [fst snd]. by rewrite lxor_twice. Qed.

(** Whatever the round functions, running them in reverse order on the exchanged halves undoes
    them. *)
Lemma feistels_inverse fs p : feistels (rev fs) (flip (feistels fs p)) = flip p.
Proof.
  revert p. induction fs as [|f fs IH]; intros p; [done|]. cbn [rev].
  unfold feistels in *. rewrite foldl_app. cbn [foldl]. rewrite IH. apply feistel_inverse.
Qed.

(** The round function of two subkeys. *)
Definition sbox (tab : list Z) (i : Z) : Z := default 0 (ld tab (Z.land i 0x3F)).
Definition round_f (k : Z * Z) (X : Z) : Z :=
  let T := Z.lxor k.1 X in
  let U := Z.lxor k.2 (Z.lor (shl X 28) (shr X 4)) in
  Z.lxor (Z.lxor (Z.lxor (Z.lxor (sbox SB8 T) (sbox SB6 (shr T 8))) (sbox SB4 (shr T 16))) (sbox SB2 (shr T 24)))
         (Z.lxor (Z.lxor (Z.lxor (sbox SB7 U) (sbox SB5 (shr U 8))) (sbox SB3 (shr U 16))) (sbox SB1 (shr U 24))).

Lemma sbox_ld tab i : length tab = 64%nat → ld tab (Z.land i 0x3F) = Some (sbox tab i).
Proof.
  intros Hl. pose proof (land_below i 0x3F 6 ltac:(lia) ltac:(lia)) as Hi. change (2 ^ 6) with 64 in Hi.
  unfold sbox. destruct (ld_Some tab (Z.land i 0x3F)) as [a ->]; [unfold len; lia|done].
Qed.

Lemma sbox_word tab i : forallb (λ w, (0 <=? w) && (w <? 4294967296)) tab = true → is_word (sbox tab i).
Proof.
  intros Ht. unfold sbox. destruct (ld tab (Z.land i 63)) as [w|] eqn:E; [|done].
  apply ld_Some_inv in E as [_ E]. apply list_elem_of_lookup_2, list_elem_of_In in E.
  rewrite forallb_forall in Ht. specialize (Ht _ E). bool_prop. done.
Qed.

Lemma round_f_word k X : is_word (round_f k X).
Proof. unfold round_f. repeat apply word_lxor; by apply sbox_word. Qed.

Lemma DES_ROUND_eq sk k X Y k0 k1 : ld sk k = Some k0 → ld sk (k + 1) = Some k1 →
  DES_ROUND sk k X Y = Some (Z.lxor Y (round_f (k0, k1) X)).
Proof.
  intros H0 H1. unfold DES_ROUND, round_f. cbn [fst snd]. rewrite H0. mred.
  rewrite !sbox_ld by done. mred. rewrite H1. mred. rewrite !sbox_ld by done. mred.
  f_equal. apply Z.lxor_assoc.
Qed.

(** A key schedule as pairs of subkeys. *)
Definition flatten_keys (ks : list (Z * Z)) : list Z := mjoin ((λ k, [k.1; k.2]) <$> ks).

Lemma flatten_keys_ld pre k ks i : i = 2 * len pre →
  ld (flatten_keys (pre ++ k :: ks)) i = Some k.1 ∧ ld (flatten_keys (pre ++ k :: ks)) (i + 1) = Some k.2.
Proof.
  intros ->. assert (len (flatten_keys pre) = 2 * len pre) as Hl.
  { unfold flatten_keys. induction pre as [|a pre IH]; [done|]. rewrite fmap_cons, mjoin_cons, len_app, IH, !len_cons, len_nil. lia. }
  unfold flatten_keys in *. rewrite fmap_app, join_app, fmap_cons, mjoin_cons. cbn [app].
  rewrite <-Hl. split.
  - rewrite <-(Z.add_0_r (len _)), ld_app_r by lia. done.
  - rewrite ld_app_r by lia. done.
Qed.

Lemma des_rounds_eq n : ∀ pre ks X Y, length ks = (2 * n)%nat →
  des_rounds n (flatten_keys (pre ++ ks)) (2 * len pre) X Y = Some (feistels (round_f <$> ks) (X, Y)).
Proof.
  induction n as [|n IH]; intros pre ks X Y Hl; [by destruct ks|].
  destruct ks as [|k0 [|k1 ks]]; [cbn in Hl; lia..|]. cbn [des_rounds].
  destruct (flatten_keys_ld pre k0 (k1 :: ks) _ eq_refl) as [H0 H1]. rewrite (DES_ROUND_eq _ _ _ _ _ _ H0 H1). mred.
  pose proof (IH ((pre ++ [k0]) ++ [k1]) ks) as IHk. rewrite <-!(assoc_L (++)) in IHk. cbn [app] in IHk.
  destruct (flatten_keys_ld (pre ++ [k0]) k1 ks (2 * len pre + 2)) as [H2 H3]; [rewrite len_app, len_cons, len_nil; lia|].
  rewrite <-(assoc_L (++)) in H2, H3. cbn [app] in H2, H3. rewrite (DES_ROUND_eq _ _ _ _ _ _ H2 H3). mred.
  rewrite !len_app, !len_cons, len_nil in IHk. replace (2 * len pre + 4) with (2 * (len pre + (1 + (1 + 0)))) by lia.
  rewrite IHk by (cbn in Hl; lia). rewrite !fmap_cons. unfold feistels. cbn [foldl]. unfold feistel. cbn [fst snd].
  by rewrite <-!surjective_pairing.
Qed.

Lemma feistels_words ks p : words p → words (feistels (round_f <$> ks) p).
Proof.
  revert p. induction ks as [|k ks IH]; intros p Hp; [done|]. rewrite fmap_cons. apply IH.
  split; cbn [feistel fst snd]; [apply Hp|]. apply word_lxor; [apply Hp|apply round_f_word].
Qed.

(** ** Blocks *)

(** A block as its two words, and back. *)
Definition block_words (b : list Z) : Z * Z :=
  match b with
  | [b0; b1; b2; b3; b4; b5; b6; b7] => (be32 b0 b1 b2 b3, be32 b4 b5 b6 b7)
  | _ => (0, 0)
  end.
Definition words_block (p : Z * Z) : list Z := word_bytes p.1 ++ word_bytes p.2.

(** [block b]: eight bytes. *)
Definition block (b : list Z) : Prop := len b = 8 ∧ bytes b.

Lemma block_cases b : block b → ∃ b0 b1 b2 b3 b4 b5 b6 b7, b = [b0; b1; b2; b3; b4; b5; b6; b7] ∧
  is_byte b0 ∧ is_byte b1 ∧ is_byte b2 ∧ is_byte b3 ∧ is_byte b4 ∧ is_byte b5 ∧ is_byte b6 ∧ is_byte b7.
Proof.
  intros [Hl Hb]. unfold len in Hl.
  destruct b as [|b0 [|b1 [|b2 [|b3 [|b4 [|b5 [|b6 [|b7 [|]]]]]]]]]; try (exfalso; cbn in Hl; lia).
  inv_bytes. eauto 20.
Qed.

Lemma block_words_block b : block b → words_block (block_words b) = b ∧ words (block_words b).
Proof.
  intros (b0 & b1 & b2 & b3 & b4 & b5 & b6 & b7 & -> & ? & ? & ? & ? & ? & ? & ? & ?)%block_cases.
  unfold words_block. cbn [block_words fst snd]. rewrite !word_bytes_be32 by done.
  split; [done|]. split; cbn; by apply be32_word.
Qed.

Lemma words_block_words p : words p → block_words (words_block p) = p ∧ block (words_block p).
Proof.
  destruct p as [x y]. intros [Hx Hy]. unfold words_block, word_bytes. cbn [fst snd app block_words].
  rewrite !be32_word_bytes by done. split; [done|]. split; [done|]. unfold bytes.
  repeat (constructor; [apply u8_range|]). constructor.
Qed.

Lemma GET_block b : block b →
  GET_UINT32_BE b 0 = Some (block_words b).1 ∧ GET_UINT32_BE b 4 = Some (block_words b).2.
Proof.
  intros (b0 & b1 & b2 & b3 & b4 & b5 & b6 & b7 & -> & ? & ? & ? & ? & ? & ? & ? & ?)%block_cases.
  cbn [block_words fst snd]. rewrite <-!be32_lor by done. done.
Qed.

Lemma GET_prefix b r : block b → GET_UINT32_BE (b ++ r) 0 = GET_UINT32_BE b 0 ∧ GET_UINT32_BE (b ++ r) 4 = GET_UINT32_BE b 4.
Proof. by intros (b0 & b1 & b2 & b3 & b4 & b5 & b6 & b7 & -> & _)%block_cases. Qed.

Lemma PUT_block x y o : len o = 8 →
  (o ← PUT_UINT32_BE x o 0; PUT_UINT32_BE y o 4) = Some (words_block (x, y)).
Proof.
  intros Ho. unfold len in Ho.
  destruct o as [|o0 [|o1 [|o2 [|o3 [|o4 [|o5 [|o6 [|o7 [|]]]]]]]]]; try (exfalso; cbn in Ho; lia). done.
Qed.

(** ** Keys *)

(** What the key loop writes. *)
Fixpoint schedule (n : nat) (i X Y : Z) : list (Z * Z) :=
  match n with
  | O => []
  | S n =>
    let '(X, Y) :=
      if (i <? 2) || (i =? 8) || (i =? 15) then
        (Z.land (Z.lor (shl X 1) (shr X 27)) 0x0FFFFFFF, Z.land (Z.lor (shl Y 1) (shr Y 27)) 0x0FFFFFFF)
      else
        (Z.land (Z.lor (shl X 2) (shr X 26)) 0x0FFFFFFF, Z.land (Z.lor (shl Y 2) (shr Y 26)) 0x0FFFFFFF) in
    (subkey0 X Y, subkey1 X Y) :: schedule n (i + 1) X Y
  end.

Lemma schedule_length n : ∀ i X Y, length (schedule n i X Y) = n.
Proof.
  induction n as [|n IH]; intros i X Y; [done|]. cbn [schedule].
  match goal with |- context [if ?c then ?a else ?b] => destruct (if c then a else b) end. cbn. by rewrite IH.
Qed.

Lemma setkey_loop_eq n : ∀ (pre rest : list Z) i X Y, len pre = 2 * i → length rest = (2 * n)%nat →
  setkey_loop n i X Y (pre ++ rest) = Some (pre ++ flatten_keys (schedule n i X Y)).
Proof.
  induction n as [|n IH]; intros pre rest i X Y Hi Hr; [by destruct rest|].
  destruct rest as [|r0 [|r1 rest]]; [cbn in Hr; lia..|]. cbn [setkey_loop schedule].
  match goal with |- context [if ?c then ?a else ?b] => destruct (if c then a else b) as [X' Y'] end.
  generalize (subkey0 X' Y') (subkey1 X' Y'). intros k0 k1.
  rewrite (st_mid pre) by lia. mred.
  change (pre ++ k0 :: r1 :: rest) with (pre ++ [k0] ++ r1 :: rest).
  rewrite (assoc_L (++)), (st_mid (pre ++ [_])) by (rewrite len_app, len_cons, len_nil; lia). mred.
  pose proof (IH (pre ++ [k0; k1]) rest (i + 1) X' Y') as IHk.
  rewrite <-!(assoc_L (++)) in IHk |- *. cbn [app] in IHk |- *. rewrite <-!(assoc_L (++)) in IHk. cbn [app] in IHk.
  rewrite IHk; [|rewrite len_app, !len_cons, len_nil; lia|cbn in Hr; lia].
  unfold flatten_keys. by rewrite fmap_cons, mjoin_cons.
Qed.

Lemma spread_total tab s0 s1 s2 s3 s4 s5 s6 s7 X : length tab = 16%nat →
  ∃ r, spread tab s0 s1 s2 s3 s4 s5 s6 s7 X = Some r.
Proof.
  intros Hl. unfold spread.
  assert (∀ i, ∃ a, ld tab (Z.land i 0xF) = Some a) as Ht.
  { intros i. pose proof (land_below i 0xF 4 ltac:(lia) ltac:(lia)) as Hi. change (2 ^ 4) with 16 in Hi.
    apply ld_Some. unfold len. lia. }
  repeat match goal with |- context [ld tab (Z.land (shr X ?s) 0xF)] =>
    let H := fresh in destruct (Ht (shr X s)) as [? H]; rewrite H; mred end.
  by eexists.
Qed.

(** The eight bytes of a key give sixteen pairs of subkeys, whatever the context held before. *)
Lemma setkey_total key : block key →
  ∃ ks, length ks = 16%nat ∧ ∀ sk r, len sk = 32 → ultralight_des_setkey sk (key ++ r) = Some (flatten_keys ks).
Proof.
  intros Hk. destruct (GET_block key Hk) as [H0 H1].
  assert (∀ sk r, ultralight_des_setkey sk (key ++ r) = ultralight_des_setkey sk key) as Hr.
  { intros sk r. destruct (GET_prefix key r Hk) as [E0 E1]. unfold ultralight_des_setkey. by rewrite E0, E1. }
  setoid_rewrite Hr. clear Hr. unfold ultralight_des_setkey. rewrite H0, H1. mred.
  destruct (exchange _ _ _) as [Y X].
  destruct (spread_total LHs 0 8 16 24 5 13 21 29 (Z.lxor X (Z.land (Z.lxor Y X) 0x10101010)) eq_refl) as [X' HX].
  destruct (spread_total RHs 1 9 17 25 4 12 20 28 (Z.lxor Y (Z.land (Z.lxor Y X) 0x10101010)) eq_refl) as [Y' HY].
  exists (schedule 16 0 (Z.land X' 0x0FFFFFFF) (Z.land Y' 0x0FFFFFFF)). split; [apply schedule_length|].
  intros sk _ Hsk. rewrite HX. mred. rewrite HY. mred. apply (setkey_loop_eq 16 [] sk 0); [done|unfold len in Hsk; lia].
Qed.

(** The decryption context has the pairs in reverse order. *)
Lemma setkey_dec_loop_eq ks : length ks = 16%nat → setkey_dec_loop 8 0 (flatten_keys ks) = Some (flatten_keys (rev ks)).
Proof. intros Hl. do 16 (destruct ks as [|[] ks]; [done|]). destruct ks; [|done]. reflexivity. Qed.

(** ** Encryption and decryption *)

Lemma crypt_eq ks b o : length ks = 16%nat → block b → len o = 8 →
  ultralight_des_crypt_ecb (flatten_keys ks) b o =
  Some (words_block (DES_FP (flip (feistels (round_f <$> ks) (DES_IP (block_words b)))))).
Proof.
  intros Hk Hb Ho. unfold ultralight_des_crypt_ecb. destruct (GET_block b Hb) as [-> ->]. mred.
  rewrite <-surjective_pairing. destruct (DES_IP _) as [x y].
  pose proof (des_rounds_eq 8 [] ks x y Hk) as Hr. cbn [app] in Hr. change (2 * len []) with 0 in Hr. rewrite Hr. mred.
  destruct (feistels _ _) as [x' y']. unfold flip. cbn [fst snd]. destruct (DES_FP (y', x')) as [u v]. by apply PUT_block.
Qed.

Lemma fmap_rev {A B} (f : A → B) l : f <$> rev l = rev (f <$> l).
Proof. apply map_rev. Qed.

Lemma flip_flip p : flip (flip p) = p.
Proof. by destruct p. Qed.

(** What sixteen pairs of subkeys make of a block. *)
Definition des_block (ks : list (Z * Z)) (b : list Z) : list Z :=
  words_block (DES_FP (flip (feistels (round_f <$> ks) (DES_IP (block_words b))))).

Lemma des_block_ok ks b : block b → block (des_block ks b) ∧
  block_words (des_block ks b) = DES_FP (flip (feistels (round_f <$> ks) (DES_IP (block_words b)))).
Proof.
  intros [_ Hw]%block_words_block. unfold des_block.
  assert (words (flip (feistels (round_f <$> ks) (DES_IP (block_words b))))) as Hf.
  { destruct (feistels_words ks _ (DES_IP_words _ Hw)). by split. }
  by destruct (words_block_words _ (DES_FP_words _ Hf)).
Qed.

Lemma des_block_rev ks b : block b → des_block (rev ks) (des_block ks b) = b.
Proof.
  intros Hb. destruct (des_block_ok ks b Hb) as [_ Hw]. unfold des_block at 1. rewrite Hw.
  destruct (block_words_block b Hb) as [Hbb Hp].
  rewrite DES_IP_FP by (destruct (feistels_words ks _ (DES_IP_words _ Hp)); by split).
  by rewrite fmap_rev, feistels_inverse, flip_flip, DES_FP_IP, Hbb by done.
Qed.

Lemma flatten_keys_len (l : list (Z * Z)) : length l = 16%nat → len (flatten_keys l) = 32.
Proof. intros Hl. do 16 (destruct l as [|[] l]; [done|]). by destruct l. Qed.

(** Every key gives two functions on blocks, inverse to each other, which the contexts for
    encryption and decryption compute whatever the context and the output held before. *)
Definition computes (set : list Z → list Z → option (list Z)) (key : list Z) (f : list Z → list Z) : Prop :=
  ∀ sk r b o, len sk = 32 → block b → len o = 8 →
    ∃ ctx, set sk (key ++ r) = Some ctx ∧ len ctx = 32 ∧ ultralight_des_crypt_ecb ctx b o = Some (f b).
Definition inverse_on_blocks (f g : list Z → list Z) : Prop := ∀ b, block b → block (f b) ∧ g (f b) = b.

Lemma des_key_functions key : block key → ∃ E D,
  computes ultralight_des_setkey_enc key E ∧ computes ultralight_des_setkey_dec key D ∧
  inverse_on_blocks E D ∧ inverse_on_blocks D E.
Proof.
  intros Hkey. destruct (setkey_total key Hkey) as (ks & Hl & Hset).
  assert (length (rev ks) = 16%nat) as Hr by by rewrite length_rev.
  exists (des_block ks), (des_block (rev ks)). split_and!.
  - intros sk r b o Hs Hb Ho. exists (flatten_keys ks). unfold ultralight_des_setkey_enc.
    rewrite Hset, crypt_eq, flatten_keys_len by done. done.
  - intros sk r b o Hs Hb Ho. exists (flatten_keys (rev ks)). unfold ultralight_des_setkey_dec. rewrite Hset by done. mred.
    rewrite setkey_dec_loop_eq, crypt_eq, flatten_keys_len by done. done.
  - intros b Hb. by split; [apply des_block_ok|apply des_block_rev].
  - intros b Hb. split; [by apply des_block_ok|]. rewrite <-(rev_involutive ks) at 1. by apply des_block_rev.
Qed.
