(* ===== verification/TripleDes.v ===== *)
(** * Two-key triple DES in CBC mode ([src/nfc/protocols/ultralight/ultralight_3des.c])

    The encryption of the Ultralight C authentication, with the theorem that decryption inverts
    encryption, and the rotation by one byte that the protocol applies to its random numbers. *)

From stdpp Require Import base list numbers option.
From S2P Require Import Prelude Kconfig Service Serial Ultralight Word32 Des.

(** ** The code *)

Definition ULTRALIGHT_C_AUTH_DES_KEY_SIZE : Z := 16.
Definition ULTRALIGHT_C_AUTH_IV_BLOCK_SIZE : Z := 8.
Definition ULTRALIGHT_C_AUTH_RND_BLOCK_SIZE : Z := 8.
Definition ULTRALIGHT_C_KEY_PAGE : Z := 44.
Definition ULTRALIGHT_DES_KEY_SIZE : Z := 8.
Definition ULTRALIGHT_DES_BLOCK_SIZE : Z := 8.

(** [n] more turns of the loop of [ultralight_3des_shift_data] from [i] on. *)
Fixpoint shift_loop (n : nat) (i : Z) (data : list Z) : option (list Z) :=
  match n with
  | O => Some data
  | S n => x ← ld data i; data ← st data (i - 1) x; shift_loop n (i + 1) data
  end.

Definition ultralight_3des_shift_data (data : list Z) : option (list Z) :=
  buf ← ld data 0;
  data ← shift_loop (Z.to_nat (ULTRALIGHT_C_AUTH_RND_BLOCK_SIZE - 1)) 1 data;
  st data (ULTRALIGHT_C_AUTH_RND_BLOCK_SIZE - 1) buf.

Definition ultralight_3des_key_valid (data : option ultralight_data_t) : bool :=
  match data with
  | None => false
  | Some d =>
    if negb (bool_decide (u_type d = UL_TYPE_MFUL_C)) then false else
    negb (u_pages_read d =? u16 (u_pages_total d - 4))
  end.

(** The pointer to page 44: the bytes of the page array from there on. *)
Definition ultralight_3des_get_key (d : ultralight_data_t) : list Z :=
  drop (Z.to_nat (ULTRALIGHT_C_KEY_PAGE * ULTRALIGHT_PAGE_SIZE)) (mjoin (u_pages d)).

(** [undef] is what the automatic [ctx] and [tmp] hold before they are written. *)
Definition tdes2_block (undef : list Z * list Z) (key inp out : list Z) (decrypt : bool) : option (list Z) :=
  let '(ctx, tmp) := undef in
  let key2 := drop (Z.to_nat ULTRALIGHT_DES_KEY_SIZE) key in
  if negb decrypt then
    ctx ← ultralight_des_setkey_enc ctx key;
    tmp ← ultralight_des_crypt_ecb ctx inp tmp;
    ctx ← ultralight_des_setkey_dec ctx key2;
    tmp ← ultralight_des_crypt_ecb ctx tmp tmp;
    ctx ← ultralight_des_setkey_enc ctx key;
    ultralight_des_crypt_ecb ctx tmp out
  else
    ctx ← ultralight_des_setkey_dec ctx key;
    tmp ← ultralight_des_crypt_ecb ctx inp tmp;
    ctx ← ultralight_des_setkey_enc ctx key2;
    tmp ← ultralight_des_crypt_ecb ctx tmp tmp;
    ctx ← ultralight_des_setkey_dec ctx key;
    ultralight_des_crypt_ecb ctx tmp out.

(** [a[off + i] ^ b[i]] for the eight [i] *)
Definition xor_block (a : list Z) (off : Z) (b : list Z) : option (list Z) :=
  mapM (λ i, x ← ld a (off + i); y ← ld b i; Some (u8 (Z.lxor x y))) (seqZ 0 ULTRALIGHT_DES_BLOCK_SIZE).

(** [input] is [None] where the caller passes the output buffer as the input too. *)
Fixpoint encrypt_loop (n : nat) (undef : list Z * list Z) (key : list Z) (input : option (list Z))
    (off : Z) (iv_mut out : list Z) : option (list Z) :=
  match n with
  | O => Some out
  | S n =>
    block ← xor_block (default out input) off iv_mut;
    block ← tdes2_block undef key block block false;
    out ← memcpy out off block 0 ULTRALIGHT_DES_BLOCK_SIZE;
    iv_mut ← memcpy iv_mut 0 block 0 ULTRALIGHT_DES_BLOCK_SIZE;
    encrypt_loop n undef key input (off + ULTRALIGHT_DES_BLOCK_SIZE) iv_mut out
  end.

(** The turns of [for (off = 0; off < length; off += 8)]. *)
Definition block_count (length : Z) : nat := Z.to_nat ((length + 7) / ULTRALIGHT_DES_BLOCK_SIZE).

Definition ultralight_3des_encrypt (undef : list Z * list Z) (key iv : list Z)
    (input : option (list Z)) (length : Z) (out : list Z) : option (list Z) :=
  iv_mut ← sub iv 0 ULTRALIGHT_C_AUTH_IV_BLOCK_SIZE;
  encrypt_loop (block_count length) undef key input 0 iv_mut out.

Fixpoint decrypt_loop (n : nat) (undef : list Z * list Z) (plain0 key input : list Z)
    (off : Z) (iv_mut out : list Z) : option (list Z) :=
  match n with
  | O => Some out
  | S n =>
    block ← sub input off ULTRALIGHT_DES_BLOCK_SIZE;
    plain ← tdes2_block undef key block plain0 true;
    x ← xor_block plain 0 iv_mut;
    out ← blit out off x;
    iv_mut ← memcpy iv_mut 0 block 0 ULTRALIGHT_DES_BLOCK_SIZE;
    decrypt_loop n undef plain0 key input (off + ULTRALIGHT_DES_BLOCK_SIZE) iv_mut out
  end.

(** [plain0] is what the automatic [plain] holds before it is written. *)
Definition ultralight_3des_decrypt (undef : list Z * list Z) (plain0 key iv input : list Z)
    (length : Z) (out : list Z) : option (list Z) :=
  iv_mut ← sub iv 0 ULTRALIGHT_C_AUTH_IV_BLOCK_SIZE;
  decrypt_loop (block_count length) undef plain0 key input 0 iv_mut out.

(** ** Rotation *)

(** The rotation of a list by one element. *)
Definition rotate {A} (l : list A) : list A :=
  match l with [] => [] | a :: l => l ++ [a] end.

Lemma shift_data_eq b : len b = 8 → ultralight_3des_shift_data b = Some (rotate b).
Proof.
  unfold len. intros Hl.
  destruct b as [|b0 [|b1 [|b2 [|b3 [|b4 [|b5 [|b6 [|b7 [|]]]]]]]]]; try (exfalso; cbn in Hl; lia). done.
Qed.

Lemma rotate_block b : block b → block (rotate b).
Proof.
  intros [Hl Hb]. destruct b as [|a b]; [done|]. unfold block, bytes in *. cbn [rotate].
  rewrite len_app, len_cons, len_nil. rewrite len_cons in Hl. split; [lia|].
  apply Forall_cons_iff in Hb as [? ?]. apply Forall_app. auto.
Qed.

Lemma rotate_inj (b c : list Z) : len b = len c → rotate b = rotate c → b = c.
Proof.
  destruct b as [|a b], c as [|d c]; try done. cbn [rotate]. intros _ E.
  by apply app_inj_2 in E as [-> [= ->]].
Qed.

(** ** One block *)

(** The bytewise exclusive or of two blocks. *)
Definition bxor (a b : list Z) : list Z := zip_with Z.lxor a b.

Lemma byte_lxor x y : is_byte x → is_byte y → is_byte (Z.lxor x y).
Proof.
  unfold is_byte. intros Hx Hy. assert (0 <= Z.lxor x y) by (rewrite Z.lxor_nonneg; lia).
  split; [done|]. destruct (Z.eq_dec (Z.lxor x y) 0) as [->|Hn]; [lia|].
  change 256 with (2 ^ 8). apply Z.log2_lt_pow2; [lia|].
  pose proof (Z.log2_lxor x y ltac:(lia) ltac:(lia)).
  assert (∀ z, 0 <= z < 256 → Z.log2 z < 8) as Hlog.
  { intros z Hz. destruct (Z.eq_dec z 0) as [->|]; [done|]. apply Z.log2_lt_pow2; [lia|]. change (2 ^ 8) with 256. lia. }
  pose proof (Hlog x Hx). pose proof (Hlog y Hy). lia.
Qed.

Lemma bxor_block a b : block a → block b → block (bxor a b).
Proof.
  intros [Ha HA] [Hb HB]. unfold block, bxor, bytes, len in *. rewrite length_zip_with. split; [lia|].
  clear Ha Hb. revert b HB. induction HA as [|x a Hx _ IH]; intros b HB; [by constructor|].
  destruct HB; [by constructor|]. constructor; [by apply byte_lxor|by apply IH].
Qed.

Lemma bxor_twice a b : length a = length b → bxor (bxor a b) b = a.
Proof.
  revert b. induction a as [|x a IH]; intros [|y b]; cbn; try done.
  intros [= E]. unfold bxor in IH. by rewrite lxor_twice, IH.
Qed.

Lemma xor_block_eq p a q off b : block a → block b → off = len p → xor_block (p ++ a ++ q) off b = Some (bxor a b).
Proof.
  intros Ha Hb ->. pose proof (bxor_block a b Ha Hb) as [_ Hx].
  unfold xor_block. change (seqZ 0 ULTRALIGHT_DES_BLOCK_SIZE) with [0; 1; 2; 3; 4; 5; 6; 7].
  cbn [mapM]. rewrite !ld_app_r by lia.
  destruct (block_cases a Ha) as (a0 & a1 & a2 & a3 & a4 & a5 & a6 & a7 & -> & _).
  destruct (block_cases b Hb) as (b0 & b1 & b2 & b3 & b4 & b5 & b6 & b7 & -> & _).
  unfold bxor in *. cbn [zip_with] in *. inv_bytes. cbn [app].
  trans (Some (u8 <$> zip_with Z.lxor [a0; a1; a2; a3; a4; a5; a6; a7] [b0; b1; b2; b3; b4; b5; b6; b7])); [done|].
  cbn [zip_with]. rewrite !fmap_cons, fmap_nil. by rewrite !u8_id by done.
Qed.

(** What the automatic variables can hold: arrays of their sizes. *)
Definition locals (undef : list Z * list Z) : Prop := len undef.1 = 32 ∧ len undef.2 = 8.

(** [tdes_key key E D]: on blocks, encryption under [key] is [E] and decryption is [D], and [D]
    undoes [E]. *)
Record tdes_key (key : list Z) (E D : list Z → list Z) : Prop := {
  tk_inverse : inverse_on_blocks E D;
  tk_decrypts : ∀ b, block b → block (D b);
  tk_enc : ∀ undef b o, locals undef → block b → len o = 8 → tdes2_block undef key b o false = Some (E b);
  tk_dec : ∀ undef b o, locals undef → block b → len o = 8 → tdes2_block undef key b o true = Some (D b);
}.

(** The functions on blocks that a key of sixteen bytes gives, whatever follows it in memory. *)
Lemma tdes2_functions key : len key = 16 → bytes key → ∃ E D, ∀ r, tdes_key (key ++ r) E D.
Proof.
  intros Hl Hk. set (k1 := take 8 key). set (k2 := drop 8 key).
  assert (block k1) as B1 by (split; [subst k1; rewrite len_take; lia|by apply bytes_take]).
  assert (block k2) as B2 by (split; [subst k2; rewrite len_drop; lia|by apply bytes_drop]).
  assert (∀ r, drop (Z.to_nat ULTRALIGHT_DES_KEY_SIZE) (key ++ r) = k2 ++ r) as Hd
    by (intros r; apply drop_app_le; unfold len in Hl; change (Z.to_nat ULTRALIGHT_DES_KEY_SIZE) with 8%nat; lia).
  assert (∀ r, key ++ r = k1 ++ (k2 ++ r)) as Hkey by (intros r; by rewrite (assoc_L (++)); subst k1 k2; rewrite take_drop).
  destruct (des_key_functions k1 B1) as (E1 & D1 & HE1 & HD1 & HED1 & HDE1).
  destruct (des_key_functions k2 B2) as (E2 & D2 & HE2 & HD2 & HED2 & HDE2).
  exists (λ b, E1 (D2 (E1 b))), (λ b, D1 (E2 (D1 b))). intros r. split.
  - intros b Hb. destruct (HED1 b Hb) as [B3 R1]. destruct (HDE2 _ B3) as [B4 R2]. destruct (HED1 _ B4) as [B5 R3].
    by rewrite R3, R2, R1.
  - intros b Hb. destruct (HDE1 b Hb) as [C1 _]. destruct (HED2 _ C1) as [C2 _]. by destruct (HDE1 _ C2).
  - intros [ctx tmp] b o [Hc Ht] Hb Ho. unfold tdes2_block. cbn [negb fst snd] in *. rewrite Hd, Hkey.
    destruct (HED1 b Hb) as [A1 _]. destruct (HDE2 _ A1) as [A2 _].
    destruct (HE1 ctx (k2 ++ r) b tmp Hc Hb Ht) as (x1 & -> & L1 & Q1). mred. rewrite Q1. mred.
    destruct (HD2 x1 r _ _ L1 A1 (proj1 A1)) as (x2 & -> & L2 & Q2). mred. rewrite Q2. mred.
    destruct (HE1 x2 (k2 ++ r) _ o L2 A2 Ho) as (x3 & -> & L3 & Q3). mred. by rewrite Q3.
  - intros [ctx tmp] b o [Hc Ht] Hb Ho. unfold tdes2_block. cbn [negb fst snd] in *. rewrite Hd, Hkey.
    destruct (HDE1 b Hb) as [C1 _]. destruct (HED2 _ C1) as [C2 _].
    destruct (HD1 ctx (k2 ++ r) b tmp Hc Hb Ht) as (x1 & -> & L1 & Q1). mred. rewrite Q1. mred.
    destruct (HE2 x1 r _ _ L1 C1 (proj1 C1)) as (x2 & -> & L2 & Q2). mred. rewrite Q2. mred.
    destruct (HD1 x2 (k2 ++ r) _ o L2 C2 Ho) as (x3 & -> & L3 & Q3). mred. by rewrite Q3.
Qed.

(** ** Cipher block chaining *)

Fixpoint cbc_enc (E : list Z → list Z) (iv : list Z) (bs : list (list Z)) : list (list Z) :=
  match bs with [] => [] | b :: bs => let c := E (bxor b iv) in c :: cbc_enc E c bs end.
Fixpoint cbc_dec (D : list Z → list Z) (iv : list Z) (cs : list (list Z)) : list (list Z) :=
  match cs with [] => [] | c :: cs => bxor (D c) iv :: cbc_dec D c cs end.

Lemma memcpy_block iv c : block iv → block c → memcpy iv 0 c 0 ULTRALIGHT_DES_BLOCK_SIZE = Some c.
Proof.
  intros [Hi _] [Hc _]. rewrite memcpy_all by done.
  rewrite <-(app_nil_r iv). rewrite (blit_app_mid [] iv [] c) by (done || by rewrite Hi). by rewrite app_nil_r.
Qed.

Section Cbc.
Context (key : list Z) (E D : list Z → list Z) (Hkey : tdes_key key E D).
Context (undef : list Z * list Z) (Hundef : locals undef).

Lemma cbc_enc_blocks bs : ∀ iv, block iv → Forall block bs → Forall block (cbc_enc E iv bs).
Proof.
  induction bs as [|b bs IH]; intros iv Hiv Hbs; [constructor|]. apply Forall_cons_iff in Hbs as [Hb Hbs].
  destruct (tk_inverse _ _ _ Hkey _ (bxor_block b iv Hb Hiv)) as [Hc _]. constructor; [done|by apply IH].
Qed.

Lemma cbc_dec_enc bs : ∀ iv, block iv → Forall block bs → cbc_dec D iv (cbc_enc E iv bs) = bs.
Proof.
  induction bs as [|b bs IH]; intros iv Hiv Hbs; [done|]. apply Forall_cons_iff in Hbs as [Hb Hbs].
  destruct (tk_inverse _ _ _ Hkey _ (bxor_block b iv Hb Hiv)) as [Hc Hdec]. cbn [cbc_enc cbc_dec].
  rewrite Hdec, IH, bxor_twice by (done || (destruct Hb, Hiv; unfold len in *; lia)). done.
Qed.

(** The encryption loop behind what it has written, reading from another buffer or in place. *)
Lemma encrypt_loop_eq bs : ∀ input iv p q po mid qo, Forall block bs → block iv → len p = len po →
  len mid = 8 * len bs → default (po ++ mid ++ qo) input = p ++ mjoin bs ++ q →
  encrypt_loop (length bs) undef key input (len po) iv (po ++ mid ++ qo) = Some (po ++ mjoin (cbc_enc E iv bs) ++ qo).
Proof.
  induction bs as [|b bs IH]; intros input iv p q po mid qo Hbs Hiv Hp Hm Hsrc.
  { destruct mid; [done|rewrite len_cons, (@len_nil (list Z)) in Hm; pose proof (len_nonneg mid); lia]. }
  apply Forall_cons_iff in Hbs as [Hb Hbs]. cbn [length encrypt_loop]. rewrite Hsrc, mjoin_cons, <-(assoc_L (++)).
  rewrite (xor_block_eq p b) by done. mred.
  pose proof (bxor_block b iv Hb Hiv) as Hx. destruct (tk_inverse _ _ _ Hkey _ Hx) as [Hc _].
  rewrite (tk_enc _ _ _ Hkey undef _ _ Hundef Hx (proj1 Hx)). mred. cbn [cbc_enc]. set (c := E (bxor b iv)) in *.
  rewrite len_cons in Hm. pose proof (len_nonneg bs).
  rewrite <-(take_drop 8 mid) in Hsrc |- *. set (m1 := take 8 mid) in *. set (m2 := drop 8 mid) in *.
  assert (len m1 = 8) as L1 by (subst m1; rewrite len_take; lia).
  assert (len m2 = 8 * len bs) as L2 by (subst m2; rewrite len_drop; lia).
  rewrite (memcpy_all (po ++ _)), <-(assoc_L (++) m1), (blit_app_mid po m1 _ c) by first [done|by rewrite (proj1 Hc)|by rewrite L1, (proj1 Hc)]. mred.
  rewrite memcpy_block by done. mred.
  replace (len po + ULTRALIGHT_DES_BLOCK_SIZE) with (len (po ++ c)) by (rewrite len_app, (proj1 Hc); done).
  rewrite (assoc_L (++) po c). rewrite mjoin_cons, <-(assoc_L (++) c), (assoc_L (++) po c).
  destruct input as [s|]; cbn [default from_option id] in *.
  - apply (IH (Some s) c (p ++ b) q); try done; [rewrite !len_app, (proj1 Hb), (proj1 Hc); lia|].
    cbn. by rewrite Hsrc, mjoin_cons, <-!(assoc_L (++)).
  - rewrite mjoin_cons, <-!(assoc_L (++)) in Hsrc. apply app_inj_1 in Hsrc as [-> Hsrc]; [|unfold len in Hp; lia].
    apply app_inj_1 in Hsrc as [_ Hsrc]; [|destruct Hb; unfold len in *; lia].
    apply (IH None c (p ++ c) q); try done. cbn. by rewrite Hsrc.
Qed.

(** Whole messages, and what stays of the output buffer behind them. *)
Lemma encrypt_eq bs iv input q mid qo : Forall block bs → block iv → len mid = 8 * len bs →
  default (mid ++ qo) input = mjoin bs ++ q →
  ultralight_3des_encrypt undef key iv input (8 * len bs) (mid ++ qo) = Some (mjoin (cbc_enc E iv bs) ++ qo).
Proof.
  intros Hbs Hiv Hm Hsrc. unfold ultralight_3des_encrypt.
  rewrite <-(app_nil_r iv) at 1. rewrite sub_prefix by (by rewrite (proj1 Hiv)). mred.
  assert (block_count (8 * len bs) = length bs) as ->.
  { unfold block_count, ULTRALIGHT_DES_BLOCK_SIZE, len. dlia. }
  by apply (encrypt_loop_eq bs input iv [] q []).
Qed.

Context (plain0 : list Z) (Hplain0 : len plain0 = 8).

(** The decryption loop behind what it has written. *)
Lemma decrypt_loop_eq cs : ∀ iv p q po mid qo, Forall block cs → block iv → len p = len po →
  len mid = 8 * len cs →
  decrypt_loop (length cs) undef plain0 key (p ++ mjoin cs ++ q) (len po) iv (po ++ mid ++ qo) =
  Some (po ++ mjoin (cbc_dec D iv cs) ++ qo).
Proof.
  induction cs as [|c cs IH]; intros iv p q po mid qo Hcs Hiv Hp Hm.
  { destruct mid; [done|rewrite len_cons, (@len_nil (list Z)) in Hm; pose proof (len_nonneg mid); lia]. }
  apply Forall_cons_iff in Hcs as [Hc Hcs]. cbn [length decrypt_loop]. rewrite mjoin_cons, <-(assoc_L (++)).
  rewrite (sub_app_mid p c) by (by rewrite ?(proj1 Hc)). mred.
  rewrite (tk_dec _ _ _ Hkey undef _ _ Hundef Hc Hplain0). mred.
  pose proof (tk_decrypts _ _ _ Hkey c Hc) as Hd. pose proof (bxor_block _ iv Hd Hiv) as Hx.
  pose proof (xor_block_eq [] (D c) [] 0 iv Hd Hiv eq_refl) as Hxe. rewrite app_nil_r in Hxe. cbn [app] in Hxe.
  rewrite Hxe. mred. cbn [cbc_dec]. set (x := bxor (D c) iv) in *.
  rewrite len_cons in Hm. pose proof (len_nonneg cs). rewrite <-(take_drop 8 mid).
  set (m1 := take 8 mid). set (m2 := drop 8 mid).
  assert (len m1 = 8) as L1 by (subst m1; rewrite len_take; lia).
  assert (len m2 = 8 * len cs) as L2 by (subst m2; rewrite len_drop; lia).
  rewrite <-(assoc_L (++) m1), (blit_app_mid po m1 _ x) by first [done|by rewrite L1, (proj1 Hx)]. mred.
  rewrite memcpy_block by done. mred.
  replace (len po + ULTRALIGHT_DES_BLOCK_SIZE) with (len (po ++ x)) by (rewrite len_app, (proj1 Hx); done).
  rewrite !(assoc_L (++) po x), mjoin_cons, <-(assoc_L (++) x), (assoc_L (++) po x), (assoc_L (++) p c).
  apply IH; try done. rewrite !len_app, (proj1 Hc), (proj1 Hx). lia.
Qed.

Lemma decrypt_eq cs iv q mid qo : Forall block cs → block iv → len mid = 8 * len cs →
  ultralight_3des_decrypt undef plain0 key iv (mjoin cs ++ q) (8 * len cs) (mid ++ qo) =
  Some (mjoin (cbc_dec D iv cs) ++ qo).
Proof.
  intros Hcs Hiv Hm. unfold ultralight_3des_decrypt.
  rewrite <-(app_nil_r iv) at 1. rewrite sub_prefix by (by rewrite (proj1 Hiv)). mred.
  assert (block_count (8 * len cs) = length cs) as ->.
  { unfold block_count, ULTRALIGHT_DES_BLOCK_SIZE, len. dlia. }
  by apply (decrypt_loop_eq cs iv [] q []).
Qed.
End Cbc.

Lemma in_blocks n : ∀ l, len l = 8 * Z.of_nat n → bytes l → ∃ bs, l = mjoin bs ∧ Forall block bs ∧ length bs = n.
Proof.
  induction n as [|n IH]; intros l Hl Hb.
  { exists []. split; [|by repeat constructor]. destruct l; [done|rewrite len_cons in Hl; pose proof (len_nonneg l); lia]. }
  destruct (IH (drop 8 l)) as (bs & E & Hbs & Hn); [rewrite len_drop; lia|by apply bytes_drop|].
  exists (take 8 l :: bs). rewrite mjoin_cons, <-E, take_drop. split_and!; [done| |by cbn; rewrite Hn].
  constructor; [|done]. split; [rewrite len_take; lia|by apply bytes_take].
Qed.

Lemma mjoin_blocks_len bs : Forall block bs → len (mjoin bs) = 8 * len bs.
Proof. intros Hb. rewrite (mjoin_len _ 8); [lia|]. eapply Forall_impl; [|exact Hb]. by intros b []. Qed.

Lemma mjoin_blocks_bytes bs : Forall block bs → bytes (mjoin bs).
Proof. induction 1 as [|b bs [_ Hb] _ IH]; [constructor|]. rewrite mjoin_cons. by apply Forall_app. Qed.

Lemma cbc_enc_length E bs : ∀ iv, length (cbc_enc E iv bs) = length bs.
Proof. induction bs as [|b bs IH]; intros iv; [done|]. cbn. by rewrite IH. Qed.

(** One block and two, as the authentication uses them. *)
Section Small.
Context (key : list Z) (E D : list Z → list Z) (Hkey : tdes_key key E D).
Context (undef : list Z * list Z) (Hundef : locals undef).

Lemma encrypt_one b iv out : block b → block iv → len out = 8 →
  ultralight_3des_encrypt undef key iv (Some b) 8 out = Some (E (bxor b iv)) ∧
  ultralight_3des_encrypt undef key iv None 8 b = Some (E (bxor b iv)).
Proof.
  intros Hb Hiv Ho.
  pose proof (encrypt_eq key E D Hkey undef Hundef [b] iv (Some b) [] out [] ltac:(by constructor) Hiv Ho) as H1.
  pose proof (encrypt_eq key E D Hkey undef Hundef [b] iv None [] b [] ltac:(by constructor) Hiv (proj1 Hb)) as H2.
  change (8 * len [b]) with 8 in H1, H2. cbn [mjoin list_join cbc_enc default from_option id] in H1, H2. rewrite !app_nil_r in H1. rewrite !app_nil_r in H2. by rewrite H1, H2, ?app_nil_r.
Qed.

Lemma encrypt_two_in_place b1 b2 iv : block b1 → block b2 → block iv →
  ultralight_3des_encrypt undef key iv None 16 (b1 ++ b2) =
  Some (E (bxor b1 iv) ++ E (bxor b2 (E (bxor b1 iv)))).
Proof.
  intros H1 H2 Hiv. assert (Forall block [b1; b2]) as Hbs by (apply Forall_cons; [done|by constructor]).
  pose proof (encrypt_eq key E D Hkey undef Hundef [b1; b2] iv None [] (b1 ++ b2) [] Hbs Hiv) as He.
  cbn [mjoin list_join cbc_enc default from_option id] in He. rewrite !app_nil_r in He.
  apply He; [|done]. by rewrite len_app, (proj1 H1), (proj1 H2).
Qed.

Context (plain0 : list Z) (Hplain0 : len plain0 = 8).

Lemma decrypt_one c iv out : block c → block iv → len out = 8 →
  ultralight_3des_decrypt undef plain0 key iv c 8 out = Some (bxor (D c) iv).
Proof.
  intros Hc Hiv Ho.
  pose proof (decrypt_eq key E D Hkey undef Hundef plain0 Hplain0 [c] iv [] out [] ltac:(by constructor) Hiv Ho) as H1.
  change (8 * len [c]) with 8 in H1. cbn [mjoin list_join cbc_dec] in H1. by rewrite !app_nil_r in H1.
Qed.

Lemma decrypt_two c1 c2 iv out : block c1 → block c2 → block iv → len out = 16 →
  ultralight_3des_decrypt undef plain0 key iv (c1 ++ c2) 16 out = Some (bxor (D c1) iv ++ bxor (D c2) c1).
Proof.
  intros H1 H2 Hiv Ho. assert (Forall block [c1; c2]) as Hbs by (apply Forall_cons; [done|by constructor]).
  pose proof (decrypt_eq key E D Hkey undef Hundef plain0 Hplain0 [c1; c2] iv [] out [] Hbs Hiv Ho) as He.
  cbn [mjoin list_join cbc_dec] in He. by rewrite !app_nil_r in He.
Qed.
End Small.

(** For every 16-byte key, initial vector and message of whole blocks, [ultralight_3des_encrypt]
    writes a ciphertext of the message's length in front of the output buffer and leaves the rest
    of the buffer alone, the same bytes when it works in place, and [ultralight_3des_decrypt]
    under the same key and vector writes the message back; no access leaves a buffer, and what
    the uninitialized automatic arrays of the functions held does not matter. *)
Theorem tdes_cbc_roundtrip key iv msg n : len key = 16 → bytes key → block iv →
  bytes msg → len msg = 8 * Z.of_nat n →
  ∃ cipher, len cipher = len msg ∧ bytes cipher ∧
    ∀ undef plain0, locals undef → len plain0 = 8 →
      (∀ out, len msg <= len out → ultralight_3des_encrypt undef key iv (Some msg) (len msg) out =
        Some (cipher ++ drop (length msg) out)) ∧
      (∀ rest, ultralight_3des_encrypt undef key iv None (len msg) (msg ++ rest) = Some (cipher ++ rest)) ∧
      (∀ out, len msg <= len out → ultralight_3des_decrypt undef plain0 key iv cipher (len msg) out =
        Some (msg ++ drop (length msg) out)).
Proof.
  intros Hk Hkb Hiv Hm Hl. destruct (tdes2_functions key Hk Hkb) as (E & D & HED).
  specialize (HED []). rewrite app_nil_r in HED. destruct (in_blocks n msg Hl Hm) as (bs & -> & Hbs & Hn).
  pose proof (cbc_enc_blocks _ _ _ HED bs iv Hiv Hbs) as Hcb. pose proof (mjoin_blocks_len _ Hbs) as Hlen.
  assert (len (cbc_enc E iv bs) = len bs) as Hcl by (unfold len; by rewrite cbc_enc_length).
  exists (mjoin (cbc_enc E iv bs)). split_and!; [by rewrite !mjoin_blocks_len, Hcl by done|by apply mjoin_blocks_bytes|].
  intros undef plain0 Hu Hp. rewrite Hlen.
  assert (∀ out : list Z, 8 * len bs <= len out → len (take (length (mjoin bs)) out) = 8 * len bs) as Htake
    by (intros out Ho; rewrite len_take; unfold len in *; lia).
  split_and!.
  - intros out Ho. rewrite <-(take_drop (length (mjoin bs)) out) at 1.
    apply (encrypt_eq _ _ _ HED undef Hu bs iv _ []); auto. cbn. by rewrite app_nil_r.
  - intros rest. by apply (encrypt_eq _ _ _ HED undef Hu bs iv _ rest).
  - intros out Ho. rewrite <-(take_drop (length (mjoin bs)) out) at 1.
    rewrite <-Hcl, <-(app_nil_r (mjoin (cbc_enc _ _ _))).
    rewrite (decrypt_eq _ _ _ HED undef Hu plain0 Hp) by (rewrite ?Hcl; auto). by rewrite (cbc_dec_enc _ _ _ HED).
Qed.
