(* ===== verification/UltralightT2.v ===== *)
(** * Type 2 Tag emulation ([src/nfc/protocols/ultralight/ultralight_listener_t2.c])

    An Ultralight, NTAG or Ultralight C card as the reader sees it: READ and the EV1 commands,
    the password of the NTAG types and the 3DES authentication of Ultralight C.  The random
    numbers of [sys_rand_get] are an argument of the command handler.  The second half states
    what each command answers and proves that the handler does that. *)

From stdpp Require Import base list numbers option.
From S2P Require Import Prelude Kconfig Apdu Service Serial Ultralight UltralightNdef Des TripleDes.

(** ** State *)

Definition ULTRALIGHT_CMD_READ : Z := 0x30.
Definition ULTRALIGHT_CMD_GET_VERSION : Z := 0x60.
Definition ULTRALIGHT_CMD_READ_SIG : Z := 0x3C.
Definition ULTRALIGHT_CMD_READ_CNT : Z := 0x39.
Definition ULTRALIGHT_CMD_CHECK_TEARING : Z := 0x3E.
Definition ULTRALIGHT_CMD_AUTH : Z := 0x1A.
Definition ULTRALIGHT_CMD_AUTH_CONT : Z := 0xAF.
Definition ULTRALIGHT_CMD_PWD_AUTH : Z := 0x1B.
Definition ULTRALIGHT_READ_RESP_LEN : Z := 16.
Definition ULTRALIGHT_C_AUTH_RESPONSE_SIZE : Z := 9.
Definition ULTRALIGHT_C_AUTH_DATA_SIZE : Z := 16.
Definition ULTRALIGHT_C_AUTH_RND_B_BLOCK_OFFSET : Z := 8.
Definition ULTRALIGHT_C_ENCRYPTED_PACK_SIZE : Z := 17.

Inductive ultralight_t2_auth_state_t := UL_T2_AUTH_IDLE | UL_T2_AUTH_WAIT_CONT | UL_T2_AUTH_SUCCESS.
#[global] Instance t2_auth_eq_dec : EqDecision ultralight_t2_auth_state_t.
Proof. solve_decision. Defined.

(** The static variables of the file, and what was given to [nfc_transport_send_response]. *)
Record t2_state := {
  t2_model : ultralight_data_t;
  t2_cfg : ultralight_config_t;
  t2_initialized : bool;
  t2_auth_state : ultralight_t2_auth_state_t;
  t2_rnd_b : list Z;
  t2_enc_b : list Z;
  t2_resp : list Z;
  t2_sent : list (list Z);
}.

Definition t2_with_card (m : ultralight_data_t) (c : ultralight_config_t) (s : t2_state) : t2_state :=
  {| t2_model := m; t2_cfg := c; t2_initialized := t2_initialized s; t2_auth_state := t2_auth_state s;
     t2_rnd_b := t2_rnd_b s; t2_enc_b := t2_enc_b s; t2_resp := t2_resp s; t2_sent := t2_sent s |}.
Definition t2_with_initialized (b : bool) (s : t2_state) : t2_state :=
  {| t2_model := t2_model s; t2_cfg := t2_cfg s; t2_initialized := b; t2_auth_state := t2_auth_state s;
     t2_rnd_b := t2_rnd_b s; t2_enc_b := t2_enc_b s; t2_resp := t2_resp s; t2_sent := t2_sent s |}.
Definition t2_with_auth (a : ultralight_t2_auth_state_t) (s : t2_state) : t2_state :=
  {| t2_model := t2_model s; t2_cfg := t2_cfg s; t2_initialized := t2_initialized s; t2_auth_state := a;
     t2_rnd_b := t2_rnd_b s; t2_enc_b := t2_enc_b s; t2_resp := t2_resp s; t2_sent := t2_sent s |}.
Definition t2_with_rnd (b e : list Z) (s : t2_state) : t2_state :=
  {| t2_model := t2_model s; t2_cfg := t2_cfg s; t2_initialized := t2_initialized s; t2_auth_state := t2_auth_state s;
     t2_rnd_b := b; t2_enc_b := e; t2_resp := t2_resp s; t2_sent := t2_sent s |}.
Definition t2_with_resp (r : list Z) (s : t2_state) : t2_state :=
  {| t2_model := t2_model s; t2_cfg := t2_cfg s; t2_initialized := t2_initialized s; t2_auth_state := t2_auth_state s;
     t2_rnd_b := t2_rnd_b s; t2_enc_b := t2_enc_b s; t2_resp := r; t2_sent := t2_sent s |}.
Definition t2_with_sent (r : list Z) (s : t2_state) : t2_state :=
  {| t2_model := t2_model s; t2_cfg := t2_cfg s; t2_initialized := t2_initialized s; t2_auth_state := t2_auth_state s;
     t2_rnd_b := t2_rnd_b s; t2_enc_b := t2_enc_b s; t2_resp := t2_resp s; t2_sent := t2_sent s ++ [r] |}.

(** What the automatic arrays of the handlers hold before they are written: the cipher's, and
    [plain] of [ultralight_t2_handle_auth_cont]. *)
Record t2_locals := { tl_undef : list Z * list Z; tl_block : list Z; tl_plain : list Z }.

(** ** The handlers *)

Section T2.
Context `{Kconfig} (u : t2_locals).

Definition ultralight_t2_type_supports_auth (type : ultralight_type_t) : bool :=
  bool_decide (type = UL_TYPE_MFUL_C).
Definition ultralight_t2_type_supports_pwd (type : ultralight_type_t) : bool :=
  ultralight_type_has_password_config type.

Definition ultralight_t2_page_readable (page : Z) : M t2_state bool :=
  m ← gets t2_model;
  if u_pages_total m <=? page then mret false else
  if ultralight_t2_type_supports_pwd (u_type m) then
    auth ← gets t2_auth_state; c ← gets t2_cfg;
    if negb (bool_decide (auth = UL_T2_AUTH_SUCCESS)) && c_valid c then
      needs ← lift (ultralight_page_needs_auth (Some c) page);
      mret (negb needs)
    else mret true
  else mret true.

Definition ultralight_t2_send (data : list Z) (n : Z) : M t2_state unit :=
  d ← lift (sub data 0 n); modify (t2_with_sent d).

(** [s_resp[i] = v] and [memcpy(&s_resp[off], src, n)] *)
Definition set_resp (i v : Z) : M t2_state unit :=
  r ← gets t2_resp; r ← lift (st r i v); modify (t2_with_resp r).
Definition copy_resp (off : Z) (src : list Z) (n : Z) : M t2_state unit :=
  r ← gets t2_resp; r ← lift (memcpy r off src 0 n); modify (t2_with_resp r).

(** [n] more turns of the page loop from [i] on; [None] where the function has returned. *)
Fixpoint read_pages_loop (n : nat) (i start_page : Z) (out : list Z) : M t2_state (option (list Z)) :=
  match n with
  | O => mret (Some out)
  | S n =>
    let page := u16 (start_page + i) in
    m ← gets t2_model;
    if u_pages_total m <=? page then read_pages_loop n (i + 1) start_page out else
    readable ← ultralight_t2_page_readable page;
    if negb readable then
      set_resp 0 0x00 ;; r ← gets t2_resp; ultralight_t2_send r 1 ;; mret None
    else
      p ← lift (ld (u_pages m) page);
      out ← lift (memcpy out (i * ULTRALIGHT_PAGE_SIZE) p 0 ULTRALIGHT_PAGE_SIZE);
      read_pages_loop n (i + 1) start_page out
  end.

Definition ultralight_t2_handle_read (tx : list Z) (tx_len : Z) : M t2_state unit :=
  if tx_len <? 2 then mret tt else
  start_page ← lift (ld tx 1);
  r ← read_pages_loop 4 0 start_page (zeros ULTRALIGHT_READ_RESP_LEN);
  match r with
  | None => mret tt
  | Some out => ultralight_t2_send out ULTRALIGHT_READ_RESP_LEN
  end.

Definition ultralight_t2_handle_get_version : M t2_state unit :=
  m ← gets t2_model;
  if u_has_version m then ultralight_t2_send (u_version m) ULTRALIGHT_VERSION_SIZE else mret tt.

Definition ultralight_t2_handle_read_sig : M t2_state unit :=
  m ← gets t2_model;
  if u_has_signature m then ultralight_t2_send (u_signature m) ULTRALIGHT_SIGNATURE_SIZE else mret tt.

Definition ultralight_t2_handle_read_cnt (tx : list Z) (tx_len : Z) : M t2_state unit :=
  m ← gets t2_model;
  if tx_len <? 2 then mret tt else
  i ← lift (ld tx 1);
  if u_counter_count m <=? i then mret tt else
  c ← lift (ld (u_counters m) i); ultralight_t2_send c 3.

Definition ultralight_t2_handle_tearing (tx : list Z) (tx_len : Z) : M t2_state unit :=
  m ← gets t2_model;
  if tx_len <? 2 then mret tt else
  i ← lift (ld tx 1);
  if u_tearing_flag_count m <=? i then mret tt else
  f ← lift (ld (u_tearing_flags m) i);
  set_resp 0 f ;; r ← gets t2_resp; ultralight_t2_send r 1.

Definition ultralight_t2_handle_pwd_auth (tx : list Z) (tx_len : Z) : M t2_state unit :=
  m ← gets t2_model;
  if negb (ultralight_t2_type_supports_pwd (u_type m)) || (tx_len <? 5) then mret tt else
  c ← gets t2_cfg;
  if negb (c_valid c) then mret tt else
  same ← lift (memcmp_eq tx 1 (c_pwd c) 0 ULTRALIGHT_PAGE_SIZE);
  if negb same then mret tt else
  modify (t2_with_auth UL_T2_AUTH_SUCCESS) ;;
  ultralight_t2_send (c_pack c) ULTRALIGHT_PWD_AUTH_RESP_LEN.

(** [rnd] is what [sys_rand_get] writes. *)
Definition ultralight_t2_fill_rnd_b (rnd : list Z) : M t2_state unit :=
  s ← gets id; b ← lift (memcpy (t2_rnd_b s) 0 rnd 0 ULTRALIGHT_C_AUTH_RND_BLOCK_SIZE);
  modify (t2_with_rnd b (t2_enc_b s)).

Definition ultralight_t2_handle_auth_start (rnd : list Z) : M t2_state unit :=
  let iv := zeros ULTRALIGHT_C_AUTH_IV_BLOCK_SIZE in
  m ← gets t2_model;
  if negb (ultralight_t2_type_supports_auth (u_type m)) then mret tt else
  let key := ultralight_3des_get_key m in
  ultralight_t2_fill_rnd_b rnd ;;
  s ← gets id;
  e ← lift (ultralight_3des_encrypt (tl_undef u) key iv (Some (t2_rnd_b s)) ULTRALIGHT_C_AUTH_RND_BLOCK_SIZE (t2_enc_b s));
  modify (t2_with_rnd (t2_rnd_b s) e) ;;
  set_resp 0 ULTRALIGHT_CMD_AUTH_CONT ;;
  copy_resp 1 e ULTRALIGHT_C_AUTH_RND_BLOCK_SIZE ;;
  r ← gets t2_resp; ultralight_t2_send r ULTRALIGHT_C_AUTH_RESPONSE_SIZE ;;
  modify (t2_with_auth UL_T2_AUTH_WAIT_CONT).

Definition ultralight_t2_handle_auth_cont (tx : list Z) (tx_len : Z) : M t2_state unit :=
  m ← gets t2_model;
  if negb (ultralight_t2_type_supports_auth (u_type m)) || negb (tx_len =? ULTRALIGHT_C_ENCRYPTED_PACK_SIZE)
  then mret tt else
  let key := ultralight_3des_get_key m in
  s ← gets id;
  plain ← lift (ultralight_3des_decrypt (tl_undef u) (tl_block u) key (t2_enc_b s) (drop 1 tx)
    ULTRALIGHT_C_AUTH_DATA_SIZE (tl_plain u));
  let decoded_shifted_b := drop (Z.to_nat ULTRALIGHT_C_AUTH_RND_B_BLOCK_OFFSET) plain in
  shifted_a ← lift (sub plain 0 ULTRALIGHT_C_AUTH_RND_BLOCK_SIZE);
  shifted_b ← lift (sub (t2_rnd_b s) 0 ULTRALIGHT_C_AUTH_RND_BLOCK_SIZE);
  shifted_a ← lift (ultralight_3des_shift_data shifted_a);
  shifted_b ← lift (ultralight_3des_shift_data shifted_b);
  same ← lift (memcmp_eq decoded_shifted_b 0 shifted_b 0 ULTRALIGHT_C_AUTH_RND_BLOCK_SIZE);
  if negb same then modify (t2_with_auth UL_T2_AUTH_IDLE) else
  modify (t2_with_auth UL_T2_AUTH_SUCCESS) ;;
  shifted_a ← lift (ultralight_3des_encrypt (tl_undef u) key (drop (Z.to_nat (1 + ULTRALIGHT_C_AUTH_RND_B_BLOCK_OFFSET)) tx)
    None ULTRALIGHT_C_AUTH_RND_BLOCK_SIZE shifted_a);
  set_resp 0 0x00 ;;
  copy_resp 1 shifted_a ULTRALIGHT_C_AUTH_RND_BLOCK_SIZE ;;
  r ← gets t2_resp; ultralight_t2_send r ULTRALIGHT_C_AUTH_RESPONSE_SIZE.

Definition ultralight_listener_t2_on_tag_cmd (rnd : list Z) (tx : option (list Z)) (tx_len : Z) : M t2_state unit :=
  s ← gets id;
  match tx with
  | None => mret tt
  | Some tx =>
    if (tx_len =? 0) || negb (t2_initialized s) then mret tt else
    cmd ← lift (ld tx 0);
    if cmd =? ULTRALIGHT_CMD_READ then ultralight_t2_handle_read tx tx_len else
    if cmd =? ULTRALIGHT_CMD_GET_VERSION then ultralight_t2_handle_get_version else
    if cmd =? ULTRALIGHT_CMD_READ_SIG then ultralight_t2_handle_read_sig else
    if cmd =? ULTRALIGHT_CMD_READ_CNT then ultralight_t2_handle_read_cnt tx tx_len else
    if cmd =? ULTRALIGHT_CMD_CHECK_TEARING then ultralight_t2_handle_tearing tx tx_len else
    if cmd =? ULTRALIGHT_CMD_PWD_AUTH then ultralight_t2_handle_pwd_auth tx tx_len else
    if cmd =? ULTRALIGHT_CMD_AUTH then ultralight_t2_handle_auth_start rnd else
    if cmd =? ULTRALIGHT_CMD_AUTH_CONT then
      if bool_decide (t2_auth_state s = UL_T2_AUTH_WAIT_CONT) then ultralight_t2_handle_auth_cont tx tx_len
      else mret tt
    else mret tt
  end.

Definition ultralight_listener_t2_serialize (out : option (list Z)) (out_max : Z) (out_len : option Z)
    : M t2_state (Z * option (list Z) * option Z) :=
  s ← gets id;
  if negb (t2_initialized s) then mret (- ENODEV, out, out_len) else
  lift (ultralight_serialize (Some (t2_model s)) out out_max out_len).

Definition ultralight_listener_t2_deserialize (inp : option (list Z)) (in_len : Z) : M t2_state Z :=
  s ← gets id;
  if negb (t2_initialized s) then mret (- ENODEV) else
  '(ret, m) ← lift (ultralight_deserialize (Some (t2_model s)) inp in_len);
  m ← lift m;
  modify (t2_with_card m (t2_cfg s)) ;;
  if negb (ret =? 0) then mret ret else
  '(_, c) ← lift (ultralight_parse_config (Some m) (Some config_zero));
  c ← lift c;
  modify (t2_with_card m c) ;;
  modify (t2_with_auth UL_T2_AUTH_IDLE) ;;
  (if ultralight_t2_type_supports_pwd (u_type m) && (u_pages_total m <=? u_pages_read m) && c_valid c &&
      (negb (ultralight_read_protection_enabled (Some c)) || negb (c_prot c))
   then modify (t2_with_auth UL_T2_AUTH_SUCCESS) else mret tt) ;;
  mret 0.

Definition ultralight_listener_t2_init : M t2_state Z :=
  s ← gets id;
  if t2_initialized s then mret (- EALREADY) else
  modify (t2_with_card ultralight_blank (t2_cfg s)) ;;
  modify (t2_with_auth UL_T2_AUTH_IDLE) ;;
  modify (t2_with_initialized true) ;;
  mret 0.

Definition ultralight_listener_t2_shutdown : M t2_state Z :=
  s ← gets id;
  if negb (t2_initialized s) then mret 0 else
  modify (t2_with_card ultralight_blank (t2_cfg s)) ;;
  modify (t2_with_auth UL_T2_AUTH_IDLE) ;;
  modify (t2_with_initialized false) ;;
  mret 0.
End T2.

(** ** What each command answers *)

(** The page is there and its content is withheld. *)
Definition t2_protected (s : t2_state) (page : Z) : bool :=
  let c := t2_cfg s in
  (page <? u_pages_total (t2_model s)) && ultralight_type_has_password_config (u_type (t2_model s)) &&
  negb (bool_decide (t2_auth_state s = UL_T2_AUTH_SUCCESS)) && c_valid c &&
  negb (c_auth0 c =? ULTRALIGHT_AUTH0_NONE) && c_prot c && (c_auth0 c <=? page).

(** The four bytes of a page, zeros behind the last one. *)
Definition t2_page (m : ultralight_data_t) (page : Z) : list Z :=
  if page <? u_pages_total m then default (zeros 4) (ld (u_pages m) page) else zeros 4.

Definition t2_window (start : Z) : list Z := [start; start + 1; start + 2; start + 3].

Definition t2_read_reply (s : t2_state) (start : Z) : list Z :=
  if existsb (t2_protected s) (t2_window start) then [0x00] else mjoin (t2_page (t2_model s) <$> t2_window start).

Section Answer.
Context (E D : list Z → list Z).

(** The answer to a command and the next state, where [E] and [D] are encryption and decryption
    of a block under the card's key. *)
Definition t2_answer (s : t2_state) (rnd tx : list Z) : option (list Z) * t2_state :=
  let m := t2_model s in
  let c := t2_cfg s in
  match tx with
  | [] => (None, s)
  | cmd :: args =>
    if cmd =? ULTRALIGHT_CMD_READ then
      (match args with [] => None | p :: _ => Some (t2_read_reply s p) end, s)
    else if cmd =? ULTRALIGHT_CMD_GET_VERSION then (if u_has_version m then Some (u_version m) else None, s)
    else if cmd =? ULTRALIGHT_CMD_READ_SIG then (if u_has_signature m then Some (u_signature m) else None, s)
    else if cmd =? ULTRALIGHT_CMD_READ_CNT then
      (match args with [] => None | i :: _ => if i <? u_counter_count m then ld (u_counters m) i else None end, s)
    else if cmd =? ULTRALIGHT_CMD_CHECK_TEARING then
      (match args with
       | [] => None
       | i :: _ => if i <? u_tearing_flag_count m then f ← ld (u_tearing_flags m) i; Some [f] else None
       end, s)
    else if cmd =? ULTRALIGHT_CMD_PWD_AUTH then
      if ultralight_type_has_password_config (u_type m) && (4 <=? len args) && c_valid c && bool_decide (take 4 args = c_pwd c)
      then (Some (c_pack c), t2_with_auth UL_T2_AUTH_SUCCESS s) else (None, s)
    else if cmd =? ULTRALIGHT_CMD_AUTH then
      if bool_decide (u_type m = UL_TYPE_MFUL_C) then
        let e := E (bxor rnd (zeros 8)) in
        (Some (ULTRALIGHT_CMD_AUTH_CONT :: e), t2_with_auth UL_T2_AUTH_WAIT_CONT (t2_with_rnd rnd e s))
      else (None, s)
    else if cmd =? ULTRALIGHT_CMD_AUTH_CONT then
      if bool_decide (t2_auth_state s = UL_T2_AUTH_WAIT_CONT) && bool_decide (u_type m = UL_TYPE_MFUL_C) && (len args =? 16) then
        let c1 := take 8 args in let c2 := drop 8 args in
        let a := bxor (D c1) (t2_enc_b s) in let b := bxor (D c2) c1 in
        if bool_decide (b = rotate (t2_rnd_b s)) then
          (Some (0x00 :: E (bxor (rotate a) c2)), t2_with_auth UL_T2_AUTH_SUCCESS s)
        else (None, t2_with_auth UL_T2_AUTH_IDLE s)
      else (None, s)
    else (None, s)
  end.

(** The next state with the answer recorded as sent. *)
Definition t2_step (s : t2_state) (rnd tx : list Z) : t2_state :=
  if negb (t2_initialized s) then s else
  let '(r, s') := t2_answer s rnd tx in match r with Some r => t2_with_sent r s' | None => s' end.
End Answer.

(** ** The handlers answer that *)

Section T2Facts.
Context `{KconfigRanges}.

Record t2_ok (s : t2_state) : Prop := {
  to_card : ul_safe (t2_model s);
  to_pwd : len (c_pwd (t2_cfg s)) = 4;
  to_pack : len (c_pack (t2_cfg s)) = 2 ∧ bytes (c_pack (t2_cfg s));
  to_auth0 : is_byte (c_auth0 (t2_cfg s));
  to_rnd : block (t2_rnd_b s);
  to_enc : block (t2_enc_b s);
  to_resp : len (t2_resp s) = NFC_TRANSPORT_MAX_RESPONSE_LEN;
}.

Record t2_locals_ok (u : t2_locals) : Prop := {
  tlo_undef : locals (tl_undef u);
  tlo_block : len (tl_block u) = 8;
  tlo_plain : len (tl_plain u) = 16;
}.

(** [s'] is [s] but for the response buffer. *)
Definition same_but_resp (s s' : t2_state) : Prop :=
  ∃ r, len r = NFC_TRANSPORT_MAX_RESPONSE_LEN ∧ s' = t2_with_resp r s.

Lemma same_but_resp_refl s : t2_ok s → same_but_resp s s.
Proof. intros []. exists (t2_resp s). split; [done|]. by destruct s. Qed.

Lemma st_head (x : Z) l y : st (x :: l) 0 y = Some (y :: l).
Proof. by apply (st_mid []). Qed.

Lemma ld_second (x y : Z) l : ld (x :: y :: l) 1 = Some y.
Proof. done. Qed.

Lemma run_send data n d s : sub data 0 n = Some d → ultralight_t2_send data n s = Some (tt, t2_with_sent d s).
Proof. intros Hd. unfold ultralight_t2_send. by rewrite Hd. Qed.

(** Sending from the response buffer, one byte and nine. *)
Lemma send_byte v s : len (t2_resp s) = NFC_TRANSPORT_MAX_RESPONSE_LEN → ∃ r, len r = NFC_TRANSPORT_MAX_RESPONSE_LEN ∧
  (set_resp 0 v ;; r ← gets t2_resp; ultralight_t2_send r 1) s = Some (tt, t2_with_sent [v] (t2_with_resp r s)).
Proof.
  intros Hr. destruct (t2_resp s) as [|r0 rest] eqn:E; [done|]. exists (v :: rest). split; [by rewrite len_cons in *|].
  unfold set_resp. repeat run_step. rewrite E, st_head. repeat run_step. cbn [t2_with_resp t2_resp app].
  by rewrite (run_send _ _ [v]) by by apply (sub_prefix [v]).
Qed.

Lemma send_block v e s : len (t2_resp s) = NFC_TRANSPORT_MAX_RESPONSE_LEN → len e = 8 →
  ∃ r, len r = NFC_TRANSPORT_MAX_RESPONSE_LEN ∧
  (set_resp 0 v ;; copy_resp 1 e ULTRALIGHT_C_AUTH_RND_BLOCK_SIZE ;; r ← gets t2_resp;
    ultralight_t2_send r ULTRALIGHT_C_AUTH_RESPONSE_SIZE) s =
  Some (tt, t2_with_sent (v :: e) (t2_with_resp r s)).
Proof.
  intros Hr He. destruct (t2_resp s) as [|r0 rest] eqn:E; [done|]. rewrite len_cons in Hr.
  unfold NFC_TRANSPORT_MAX_RESPONSE_LEN in *.
  assert (∃ r8 r', rest = r8 ++ r' ∧ len r8 = 8) as (r8 & r' & -> & H8)
    by (exists (take 8 rest), (drop 8 rest); rewrite take_drop, len_take; split; [done|lia]).
  exists (v :: e ++ r'). split; [rewrite len_cons, len_app in *; lia|].
  unfold set_resp, copy_resp. repeat run_step. rewrite E, st_head.
  repeat run_step. cbn [t2_with_resp t2_resp app].
  rewrite memcpy_all by done. change (v :: r8 ++ r') with ([v] ++ r8 ++ r').
  rewrite (blit_app_mid [v] r8 r' e) by (done || lia).
  repeat run_step. cbn [t2_with_resp t2_resp app].
  by rewrite (run_send _ _ (v :: e) _ (sub_prefix (v :: e) r' _ ltac:(rewrite len_cons, He; done))).
Qed.

Lemma page_readable_eq page s : t2_ok s → page < u_pages_total (t2_model s) →
  ultralight_t2_page_readable page s = Some (negb (t2_protected s page), s).
Proof.
  intros Hs Hp. unfold ultralight_t2_page_readable, t2_protected. rewrite run_gets.
  rewrite (proj2 (Z.leb_gt _ _)), (proj2 (Z.ltb_lt _ _)) by done. cbn [andb].
  unfold ultralight_t2_type_supports_pwd. destruct (ultralight_type_has_password_config _); [|done]. rewrite !run_gets.
  destruct (bool_decide _); [done|]. cbn [negb andb]. destruct (c_valid (t2_cfg s)) eqn:Hv; [|done].
  unfold ultralight_page_needs_auth. cbn [ultralight_read_protection_enabled]. rewrite Hv. cbn [negb].
  destruct (c_auth0 (t2_cfg s) =? ULTRALIGHT_AUTH0_NONE); [done|]. cbn [negb andb]. mred.
  destruct (c_prot (t2_cfg s)); [|done]. cbn [negb andb]. by rewrite u16_id by (pose proof (to_auth0 s Hs) as []; lia).
Qed.

Lemma t2_page_len m page : ul_safe m → 0 <= page → len (t2_page m page) = 4 ∧ bytes (t2_page m page).
Proof.
  intros Hm Hp. pose proof (sf_sizes m Hm) as Hz. unfold t2_page. case_bool; [|split; [done|apply bytes_zeros]]. bool_prop.
  destruct (ld_Some (u_pages m) page) as [p Hld]; [rewrite (uz_pages m Hz); pose proof (sf_total m Hm); lia|].
  rewrite Hld. apply ld_Some_inv in Hld as [_ Hl].
  split; [by apply (Forall_lookup_1 _ _ _ _ (uz_page m Hz) Hl)|by apply (Forall_lookup_1 _ _ _ _ (ub_pages m (sf_bytes m Hm)) Hl)].
Qed.

(** The page loop: it stops at the first protected page, or has copied the whole window. *)
Lemma read_pages_eq n : ∀ i start done_ s, t2_ok s → 0 <= start → start + i + Z.of_nat n <= 65536 → 0 <= i →
  len done_ = 4 * i →
  if existsb (t2_protected s) (seqZ (start + i) (Z.of_nat n))
  then ∃ r, len r = NFC_TRANSPORT_MAX_RESPONSE_LEN ∧
    read_pages_loop n i start (done_ ++ zeros (4 * Z.of_nat n)) s = Some (None, t2_with_sent [0x00] (t2_with_resp r s))
  else read_pages_loop n i start (done_ ++ zeros (4 * Z.of_nat n)) s =
    Some (Some (done_ ++ mjoin (t2_page (t2_model s) <$> seqZ (start + i) (Z.of_nat n))), s).
Proof.
  induction n as [|n IH]; intros i start done_ s Hs H0' Hb Hi Hd; [done|].
  rewrite seqZ_cons by lia. replace (Z.pred (Z.of_nat (S n))) with (Z.of_nat n) by lia.
  replace (Z.succ (start + i)) with (start + (i + 1)) by lia. cbn [existsb read_pages_loop].
  rewrite u16_id by lia. rewrite run_gets.
  assert (zeros (4 * Z.of_nat (S n)) = zeros 4 ++ zeros (4 * Z.of_nat n)) as Hz.
  { unfold zeros. rewrite <-replicate_add. f_equal. lia. }
  destruct (u_pages_total (t2_model s) <=? start + i) eqn:E; bool_prop.
  - assert (t2_protected s (start + i) = false) as -> by (unfold t2_protected; by rewrite (proj2 (Z.ltb_ge _ _))).
    rewrite fmap_cons, mjoin_cons, Hz. cbn [orb].
    assert (t2_page (t2_model s) (start + i) = zeros 4) as -> by (unfold t2_page; by rewrite (proj2 (Z.ltb_ge _ _))).
    rewrite !(assoc_L (++) done_). apply IH; try done; try lia. rewrite len_app, len_zeros by lia. lia.
  - rewrite (run_call _ _ _ _ _ (page_readable_eq _ s Hs E)). destruct (t2_protected s (start + i)); cbn [negb orb].
    { destruct (send_byte 0x00 s (to_resp s Hs)) as (r & Hr & Hrun). exists r. split; [done|].
      revert Hrun. rewrite <-!run_bind. intros Hrun. by rewrite (run_call _ _ _ _ _ Hrun). }
    pose proof (sf_sizes _ (to_card s Hs)) as Hsz. pose proof (sf_total _ (to_card s Hs)).
    destruct (ld_Some (u_pages (t2_model s)) (start + i)) as [p Hld]; [rewrite (uz_pages _ Hsz); lia|].
    assert (t2_page (t2_model s) (start + i) = p) as Hp by (unfold t2_page; rewrite (proj2 (Z.ltb_lt _ _)) by done; by rewrite Hld).
    pose proof (t2_page_len (t2_model s) (start + i) (to_card s Hs) ltac:(lia)) as [Hl _]. rewrite Hp in Hl.
    rewrite Hld, run_lift_Some, memcpy_all by done. unfold ULTRALIGHT_PAGE_SIZE.
    rewrite Hz, (blit_app_mid done_ (zeros 4) _ p) by (rewrite ?Hl; done || lia). rewrite run_lift_Some.
    rewrite fmap_cons, mjoin_cons, Hp, !(assoc_L (++) done_). apply IH; try done; try lia. rewrite len_app. lia.
Qed.

(** [does m s s1]: [m] leads from [s] to [s1], up to the response buffer. *)
Definition does (m : M t2_state unit) (s s1 : t2_state) : Prop := ∃ s', m s = Some (tt, s') ∧ same_but_resp s1 s'.

Lemma does_nothing s : t2_ok s → does (mret tt) s s.
Proof. intros Hs. exists s. split; [done|by apply same_but_resp_refl]. Qed.

Lemma does_send data n d s : t2_ok s → sub data 0 n = Some d → does (ultralight_t2_send data n) s (t2_with_sent d s).
Proof.
  intros Hs Hd. eexists. split; [by apply run_send|]. exists (t2_resp s). split; [apply Hs|]. by destruct s.
Qed.

Lemma read_does s args : t2_ok s → bytes args →
  does (ultralight_t2_handle_read (ULTRALIGHT_CMD_READ :: args) (len (ULTRALIGHT_CMD_READ :: args))) s
    match args with [] => s | p :: _ => t2_with_sent (t2_read_reply s p) s end.
Proof.
  intros Hs Hb. unfold ultralight_t2_handle_read. destruct args as [|p args]; [by apply does_nothing|].
  inv_bytes. rewrite !len_cons. pose proof (len_nonneg args). rewrite (proj2 (Z.ltb_ge _ _)) by lia.
  unfold does. rewrite ld_second, run_lift_Some.
  pose proof (read_pages_eq 4 0 p [] s Hs) as Hr. rewrite Z.add_0_r in Hr. cbn [app] in Hr.
  match goal with Hp : is_byte p |- _ => destruct Hp end. specialize (Hr ltac:(lia) ltac:(lia) ltac:(lia) eq_refl).
  unfold t2_read_reply. change (t2_window p) with [p; p + 1; p + 2; p + 3].
  assert (seqZ p (Z.of_nat 4) = [p; p + 1; p + 2; p + 3]) as Hw.
  { change (Z.of_nat 4) with 4. rewrite !seqZ_cons, seqZ_nil by lia. repeat f_equal; lia. }
  rewrite Hw in Hr. change (zeros (4 * Z.of_nat 4)) with (zeros ULTRALIGHT_READ_RESP_LEN) in Hr.
  destruct (existsb _ _).
  - destruct Hr as (r & Hlr & Hrun). rewrite (run_call _ _ _ _ _ Hrun). eexists. split; [done|]. by exists r.
  - rewrite (run_call _ _ _ _ _ Hr). apply does_send; [done|]. apply sub_whole. cbn [app].
    rewrite (mjoin_len _ 4); [done|]. rewrite !Forall_fmap. repeat constructor; apply t2_page_len; (apply Hs || lia).
Qed.

Lemma counter_does s args : t2_ok s → bytes args →
  does (ultralight_t2_handle_read_cnt (ULTRALIGHT_CMD_READ_CNT :: args) (len (ULTRALIGHT_CMD_READ_CNT :: args))) s
    match args with
    | [] => s
    | i :: _ => if i <? u_counter_count (t2_model s) then
        match ld (u_counters (t2_model s)) i with Some c => t2_with_sent c s | None => s end else s
    end.
Proof.
  intros Hs Hb. unfold ultralight_t2_handle_read_cnt, does. rewrite run_gets.
  destruct args as [|i args]; [by apply does_nothing|]. cbv iota. rewrite !len_cons. pose proof (len_nonneg args).
  rewrite (proj2 (Z.ltb_ge (1 + _) _)) by lia. rewrite ld_second, run_lift_Some.
  inv_bytes. match goal with Hi : is_byte i |- _ => destruct Hi end. destruct (Z.leb_spec (u_counter_count (t2_model s)) i).
  { rewrite (proj2 (Z.ltb_ge _ _)) by lia. by apply does_nothing. }
  rewrite (proj2 (Z.ltb_lt _ _)) by lia. pose proof (sf_sizes _ (to_card s Hs)) as Hz.
  pose proof (sf_counter_count _ (to_card s Hs)).
  destruct (ld_Some (u_counters (t2_model s)) i) as [c Hc]; [rewrite (uz_counters _ Hz); lia|].
  rewrite Hc, run_lift_Some. apply does_send; [done|]. apply sub_whole.
  apply ld_Some_inv in Hc as [_ Hc]. by apply (Forall_lookup_1 _ _ _ _ (uz_counter _ Hz) Hc).
Qed.

Lemma tearing_does s args : t2_ok s → bytes args →
  does (ultralight_t2_handle_tearing (ULTRALIGHT_CMD_CHECK_TEARING :: args) (len (ULTRALIGHT_CMD_CHECK_TEARING :: args))) s
    match args with
    | [] => s
    | i :: _ => if i <? u_tearing_flag_count (t2_model s) then
        match ld (u_tearing_flags (t2_model s)) i with Some f => t2_with_sent [f] s | None => s end else s
    end.
Proof.
  intros Hs Hb. unfold ultralight_t2_handle_tearing, does. rewrite run_gets.
  destruct args as [|i args]; [by apply does_nothing|]. cbv iota. rewrite !len_cons. pose proof (len_nonneg args).
  rewrite (proj2 (Z.ltb_ge (1 + _) _)) by lia. rewrite ld_second, run_lift_Some.
  inv_bytes. match goal with Hi : is_byte i |- _ => destruct Hi end. destruct (Z.leb_spec (u_tearing_flag_count (t2_model s)) i).
  { rewrite (proj2 (Z.ltb_ge _ _)) by lia. by apply does_nothing. }
  rewrite (proj2 (Z.ltb_lt _ _)) by lia. pose proof (sf_sizes _ (to_card s Hs)) as Hz.
  pose proof (sf_tearing_count _ (to_card s Hs)).
  destruct (ld_Some (u_tearing_flags (t2_model s)) i) as [f Hf]; [rewrite (uz_tearing _ Hz); lia|].
  rewrite Hf, run_lift_Some. destruct (send_byte f s (to_resp s Hs)) as (r & Hr & ->).
  eexists. split; [done|]. by exists r.
Qed.

Lemma pwd_does s args : t2_ok s → bytes args →
  does (ultralight_t2_handle_pwd_auth (ULTRALIGHT_CMD_PWD_AUTH :: args) (len (ULTRALIGHT_CMD_PWD_AUTH :: args))) s
    (if ultralight_type_has_password_config (u_type (t2_model s)) && (4 <=? len args) && c_valid (t2_cfg s) &&
        bool_decide (take 4 args = c_pwd (t2_cfg s))
     then t2_with_sent (c_pack (t2_cfg s)) (t2_with_auth UL_T2_AUTH_SUCCESS s) else s).
Proof.
  intros Hs Hb. unfold ultralight_t2_handle_pwd_auth, does, ultralight_t2_type_supports_pwd. rewrite run_gets.
  rewrite len_cons. destruct (ultralight_type_has_password_config _); cbn [negb orb andb]; [|by apply does_nothing].
  destruct (Z.ltb_spec (1 + len args) 5).
  { rewrite (proj2 (Z.leb_gt _ _)) by lia. by apply does_nothing. }
  rewrite (proj2 (Z.leb_le _ _)) by lia. rewrite run_gets. cbn [andb].
  destruct (c_valid (t2_cfg s)); cbn [negb andb]; [|by apply does_nothing].
  assert (memcmp_eq (ULTRALIGHT_CMD_PWD_AUTH :: args) 1 (c_pwd (t2_cfg s)) 0 ULTRALIGHT_PAGE_SIZE =
    Some (bool_decide (take 4 args = c_pwd (t2_cfg s)))) as ->.
  { unfold memcmp_eq, ULTRALIGHT_PAGE_SIZE. rewrite (sub_ok (_ :: _)) by (rewrite ?len_cons; lia). mred.
    by rewrite (sub_whole _ 4) by apply Hs. }
  rewrite run_lift_Some. destruct (bool_decide _); cbn [negb]; [|by apply does_nothing]. rewrite run_modify.
  apply (does_send _ _ _ (t2_with_auth UL_T2_AUTH_SUCCESS s)); [by destruct Hs|]. apply sub_whole. apply Hs.
Qed.

(** *** Authentication *)

Lemma type_ultralight_c n : type_from_pages_total n = UL_TYPE_MFUL_C → n = 48.
Proof. unfold type_from_pages_total. repeat case_bool; bool_prop; done. Qed.

(** The pages of an Ultralight C reach to its key. *)
Lemma get_key_ok m : ul_safe m → u_type m = UL_TYPE_MFUL_C →
  ∃ k r, ultralight_3des_get_key m = k ++ r ∧ len k = 16 ∧ bytes k.
Proof.
  intros Hm Ht. rewrite (sf_type m Hm) in Ht. apply type_ultralight_c in Ht. pose proof (sf_total m Hm).
  pose proof (sf_sizes m Hm) as Hz. pose proof (mjoin_len _ _ (uz_page m Hz)) as Hl. rewrite (uz_pages m Hz) in Hl.
  unfold ULTRALIGHT_PAGE_SIZE in Hl. unfold ultralight_3des_get_key.
  set (k := drop (Z.to_nat (ULTRALIGHT_C_KEY_PAGE * ULTRALIGHT_PAGE_SIZE)) (mjoin (u_pages m))).
  assert (bytes k) as Hb.
  { apply bytes_drop. pose proof (ub_pages m (sf_bytes m Hm)) as Hp. unfold bytes in *. by apply Forall_join. }
  exists (take 16 k), (drop 16 k). rewrite take_drop. split_and!; [done| |by apply bytes_take].
  rewrite len_take. subst k. rewrite len_drop, Hl.
  change (Z.of_nat (Z.to_nat (ULTRALIGHT_C_KEY_PAGE * ULTRALIGHT_PAGE_SIZE))) with 176. lia.
Qed.

(** [E] and [D] are encryption and decryption of a block under the key of [m], if it has one. *)
Record t2_keyed (m : ultralight_data_t) (E D : list Z → list Z) : Prop := {
  tk2_inverse : inverse_on_blocks E D;
  tk2_dec : ∀ b, block b → block (D b);
  tk2_key : u_type m = UL_TYPE_MFUL_C → tdes_key (ultralight_3des_get_key m) E D;
}.

Lemma t2_keyed_exists m : ul_safe m → ∃ E D, t2_keyed m E D.
Proof.
  intros Hm. destruct (decide (u_type m = UL_TYPE_MFUL_C)) as [Ht|Ht]; [|by exists id, id].
  destruct (get_key_ok m Hm Ht) as (k & r & Hk & Hl & Hb). destruct (tdes2_functions k Hl Hb) as (E & D & HED).
  specialize (HED r). exists E, D. constructor; [apply HED..|]. by rewrite Hk.
Qed.

Section Auth.
Context (u : t2_locals) (Hu : t2_locals_ok u) (E D : list Z → list Z).

Lemma zero_block : block (zeros 8).
Proof. split; [done|apply bytes_zeros]. Qed.

Lemma auth_start_does s rnd : t2_ok s → t2_keyed (t2_model s) E D → block rnd →
  let e := E (bxor rnd (zeros 8)) in
  does (ultralight_t2_handle_auth_start u rnd) s
    (if bool_decide (u_type (t2_model s) = UL_TYPE_MFUL_C)
     then t2_with_sent (ULTRALIGHT_CMD_AUTH_CONT :: e) (t2_with_auth UL_T2_AUTH_WAIT_CONT (t2_with_rnd rnd e s)) else s).
Proof.
  intros Hs [Hinv _ Hkey] Hr e. unfold ultralight_t2_handle_auth_start, does, ultralight_t2_type_supports_auth.
  rewrite run_gets. case_bool_decide as Ht; cbn [negb]; [|by apply does_nothing].
  unfold ultralight_t2_fill_rnd_b. repeat run_step. cbn [id].
  rewrite memcpy_over by (apply Hs || apply Hr). repeat run_step. cbn [id t2_with_rnd t2_rnd_b t2_enc_b].
  assert (ultralight_3des_encrypt (tl_undef u) (ultralight_3des_get_key (t2_model s)) (zeros ULTRALIGHT_C_AUTH_IV_BLOCK_SIZE)
    (Some rnd) ULTRALIGHT_C_AUTH_RND_BLOCK_SIZE (t2_enc_b s) = Some e) as He
    by exact (proj1 (encrypt_one _ _ _ (Hkey Ht) _ (tlo_undef u Hu) rnd (zeros 8) _ Hr zero_block (proj1 (to_enc s Hs)))).
  rewrite He. repeat run_step. cbn [id t2_with_rnd t2_rnd_b t2_enc_b]. fold e.
  pose proof (proj1 (Hinv _ (bxor_block _ _ Hr zero_block))) as [Hl _].
  match goal with |- context [(set_resp _ _ ≫= _) ?st] =>
    destruct (send_block ULTRALIGHT_CMD_AUTH_CONT e st (to_resp s Hs) Hl) as (r & Hlr & Hrun) end.
  revert Hrun. rewrite <-!run_bind. intros Hrun. rewrite (run_call _ _ _ _ _ Hrun).
  eexists. split; [done|]. by exists r.
Qed.

Lemma auth_cont_does s args : t2_ok s → t2_keyed (t2_model s) E D → bytes args →
  let c1 := take 8 args in let c2 := drop 8 args in
  does (ultralight_t2_handle_auth_cont u (ULTRALIGHT_CMD_AUTH_CONT :: args) (len (ULTRALIGHT_CMD_AUTH_CONT :: args))) s
    (if bool_decide (u_type (t2_model s) = UL_TYPE_MFUL_C) && (len args =? 16) then
       if bool_decide (bxor (D c2) c1 = rotate (t2_rnd_b s))
       then t2_with_sent (0x00 :: E (bxor (rotate (bxor (D c1) (t2_enc_b s))) c2)) (t2_with_auth UL_T2_AUTH_SUCCESS s)
       else t2_with_auth UL_T2_AUTH_IDLE s
     else s).
Proof.
  intros Hs [Hinv HD Hkey] Hb c1 c2. unfold ultralight_t2_handle_auth_cont, does, ultralight_t2_type_supports_auth.
  rewrite run_gets, len_cons. unfold ULTRALIGHT_C_ENCRYPTED_PACK_SIZE.
  case_bool_decide as Ht; cbn [negb orb andb]; [|by apply does_nothing].
  destruct (Z.eqb_spec (len args) 16) as [Hl|Hl]; [|rewrite (proj2 (Z.eqb_neq _ _)) by lia; by apply does_nothing].
  rewrite (proj2 (Z.eqb_eq _ _)) by lia. cbn [negb].
  assert (block c1) as B1 by (split; [subst c1; rewrite len_take; lia|by apply bytes_take]).
  assert (block c2) as B2 by (split; [subst c2; rewrite len_drop; lia|by apply bytes_drop]).
  assert (args = c1 ++ c2) as Ha by (symmetry; apply take_drop). clearbody c1 c2. subst args.
  specialize (Hkey Ht). pose proof (tlo_undef u Hu) as Hun. pose proof (to_enc s Hs) as Henc. pose proof (to_rnd s Hs) as Hrb.
  repeat run_step. cbn [id]. change (drop 1 (ULTRALIGHT_CMD_AUTH_CONT :: c1 ++ c2)) with (c1 ++ c2).
  change ULTRALIGHT_C_AUTH_DATA_SIZE with 16.
  rewrite (decrypt_two _ _ _ Hkey _ Hun _ (tlo_block u Hu) c1 c2 (t2_enc_b s) (tl_plain u) B1 B2 Henc (tlo_plain u Hu)).
  pose proof (bxor_block _ _ (HD _ B1) Henc) as BA. pose proof (bxor_block _ _ (HD _ B2) B1) as BB.
  set (a := bxor (D c1) (t2_enc_b s)) in *. set (b := bxor (D c2) c1) in *. repeat run_step.
  rewrite (sub_prefix a b) by (symmetry; apply BA). repeat run_step. rewrite (sub_whole (t2_rnd_b s)) by apply Hrb.
  repeat run_step. rewrite (shift_data_eq a), (shift_data_eq (t2_rnd_b s)) by (apply BA || apply Hrb). repeat run_step.
  pose proof (rotate_block a BA) as BR. pose proof (rotate_block _ Hrb) as BRB.
  assert (drop (Z.to_nat ULTRALIGHT_C_AUTH_RND_B_BLOCK_OFFSET) (a ++ b) = b) as ->
    by (apply drop_app_len; symmetry; apply BA).
  rewrite memcmp_all by (apply BB || apply BRB). repeat run_step.
  case_bool_decide as Hcmp; cbn [negb].
  2: { eexists. split; [done|]. apply same_but_resp_refl. by destruct Hs. }
  repeat run_step.
  change (drop (Z.to_nat (1 + ULTRALIGHT_C_AUTH_RND_B_BLOCK_OFFSET)) (ULTRALIGHT_CMD_AUTH_CONT :: c1 ++ c2)) with (drop 8 (c1 ++ c2)).
  assert (drop 8 (c1 ++ c2) = c2) as -> by (apply (drop_app_len c1 c2 8); symmetry; apply B1).
  assert (ultralight_3des_encrypt (tl_undef u) (ultralight_3des_get_key (t2_model s)) c2 None
    ULTRALIGHT_C_AUTH_RND_BLOCK_SIZE (rotate a) = Some (E (bxor (rotate a) c2))) as ->
    by exact (proj2 (encrypt_one _ _ _ Hkey _ Hun (rotate a) c2 (zeros 8) BR B2 eq_refl)). repeat run_step.
  pose proof (proj1 (Hinv _ (bxor_block _ _ BR B2))) as [Hle _].
  match goal with |- context [(set_resp _ _ ≫= _) ?st] =>
    destruct (send_block 0x00 (E (bxor (rotate a) c2)) st (to_resp s Hs) Hle) as (r & Hlr & Hrun) end.
  rewrite Hrun. eexists. split; [done|]. by exists r.
Qed.

(** *** All commands *)

Lemma t2_ok_sent r s : t2_ok s → t2_ok (t2_with_sent r s).
Proof. by intros []. Qed.
Lemma t2_ok_auth a s : t2_ok s → t2_ok (t2_with_auth a s).
Proof. by intros []. Qed.
Lemma t2_ok_resp r s : t2_ok s → len r = NFC_TRANSPORT_MAX_RESPONSE_LEN → t2_ok (t2_with_resp r s).
Proof. by intros [] ?. Qed.

Lemma t2_step_ok s rnd tx : t2_ok s → t2_keyed (t2_model s) E D → block rnd → t2_ok (t2_step E D s rnd tx).
Proof using Type.
  intros Hs Hk Hr. unfold t2_step. case_bool; [done|].
  assert (t2_ok (t2_answer E D s rnd tx).2) as Ha.
  { unfold t2_answer. destruct tx as [|cmd args]; [done|].
    repeat case_match; cbn [snd]; try done; try by apply t2_ok_auth.
    apply t2_ok_auth. destruct Hs. constructor; try done. cbn. by apply (tk2_inverse _ _ _ Hk), bxor_block, zero_block. }
  destruct (t2_answer E D s rnd tx) as [[r|] s']; [|done]. by apply t2_ok_sent.
Qed.

Lemma on_tag_cmd_does s rnd tx : t2_ok s → t2_keyed (t2_model s) E D → bytes tx → block rnd →
  does (ultralight_listener_t2_on_tag_cmd u rnd (Some tx) (len tx)) s (t2_step E D s rnd tx).
Proof.
  intros Hs Hk Hb Hr. unfold ultralight_listener_t2_on_tag_cmd, does. rewrite run_gets. cbn [id]. unfold t2_step.
  destruct tx as [|cmd args]; [destruct (t2_initialized s); by apply does_nothing|].
  rewrite (proj2 (Z.eqb_neq _ _)) by (rewrite len_cons; pose proof (len_nonneg args); lia). cbn [orb].
  destruct (t2_initialized s); cbn [negb]; [|by apply does_nothing]. inv_bytes.
  change (ld (cmd :: args) 0) with (Some cmd). rewrite run_lift_Some. unfold t2_answer.
  repeat match goal with |- context [cmd =? ?c] => destruct (Z.eqb_spec cmd c) as [->|]; [cbv iota|] end.
  - pose proof (read_does s args Hs Hb) as Hd. by destruct args.
  - unfold ultralight_t2_handle_get_version. rewrite run_gets. destruct (u_has_version _); [|by apply does_nothing].
    apply does_send; [done|]. apply sub_whole, (uz_version _ (sf_sizes _ (to_card s Hs))).
  - unfold ultralight_t2_handle_read_sig. rewrite run_gets. destruct (u_has_signature _); [|by apply does_nothing].
    apply does_send; [done|]. apply sub_whole, (uz_signature _ (sf_sizes _ (to_card s Hs))).
  - pose proof (counter_does s args Hs Hb) as Hd. destruct args; [done|]. by repeat case_match.
  - pose proof (tearing_does s args Hs Hb) as Hd. destruct args; [done|]. cbv iota in Hd |- *.
    case_match; [|done]. by destruct (ld _ _).
  - pose proof (pwd_does s args Hs Hb) as Hd. by destruct (_ && bool_decide _).
  - pose proof (auth_start_does s rnd Hs Hk Hr) as Hd. cbv zeta in Hd. by destruct (bool_decide _).
  - pose proof (auth_cont_does s args Hs Hk Hb) as Hd. cbv zeta in Hd.
    destruct (bool_decide (t2_auth_state s = _)); [|by apply does_nothing]. cbn [andb].
    by repeat case_match.
  - by apply does_nothing.
Qed.
End Auth.

(** C25: Emulating a Type 2 Tag is exact: for every card that can be loaded there are two functions
    on blocks, inverse to each other, such that in every well-formed state of the listener with
    that card and for every command, the command handler returns with at most one response sent,
    and the response and the next state are those of the specification [t2_step]: READ returns
    four pages, zeros behind the last one, or one zero byte when it touches a page that needs
    authentication; the EV1 commands return what the card holds and are silent otherwise; a
    password is accepted exactly when it is the card's; and an Ultralight C exchange succeeds
    exactly when the reader has returned the card's random number rotated. No access leaves an object, and
    well-formedness is kept. *)
Theorem ultralight_t2_exact m : ul_safe m → ∃ E D, t2_keyed m E D ∧
  ∀ u s rnd tx, t2_model s = m → t2_ok s → t2_locals_ok u → bytes tx → block rnd →
    ∃ s', ultralight_listener_t2_on_tag_cmd u rnd (Some tx) (len tx) s = Some (tt, s') ∧
      same_but_resp (t2_step E D s rnd tx) s' ∧ t2_ok s'.
Proof.
  intros Hm. destruct (t2_keyed_exists m Hm) as (E & D & Hk). exists E, D. split; [done|].
  intros u s rnd tx <- Hs Hu Hb Hr. destruct (on_tag_cmd_does u Hu E D s rnd tx Hs Hk Hb Hr) as (s' & Hrun & r & Hl & ->).
  eexists. split; [exact Hrun|]. split; [by exists r|]. by apply t2_ok_resp; [apply t2_step_ok|].
Qed.

(** *** What a reader without the password learns *)

(** A sequence of commands, each with the random number drawn if one is. *)
Fixpoint t2_commands (u : t2_locals) (cmds : list (list Z * list Z)) : M t2_state unit :=
  match cmds with
  | [] => mret tt
  | (rnd, tx) :: cmds =>
    ultralight_listener_t2_on_tag_cmd u rnd (Some tx) (len tx) ;; t2_commands u cmds
  end.

(** The command presents the password of the card. *)
Definition presents_password (s : t2_state) (tx : list Z) : Prop :=
  ∃ rest, tx = ULTRALIGHT_CMD_PWD_AUTH :: c_pwd (t2_cfg s) ++ rest.

(** Two listeners with an NTAG card whose reader is not authenticated, which differ in the
    contents of protected pages, and in the password and its acknowledge, only. *)
Record alike (s1 s2 : t2_state) : Prop := {
  al_type : ultralight_type_has_password_config (u_type (t2_model s1)) = true;
  al_types : u_type (t2_model s1) = u_type (t2_model s2);
  al_total : u_pages_total (t2_model s1) = u_pages_total (t2_model s2);
  al_pages : ∀ page, t2_protected s1 page = false → ld (u_pages (t2_model s1)) page = ld (u_pages (t2_model s2)) page;
  al_version : u_has_version (t2_model s1) = u_has_version (t2_model s2) ∧ u_version (t2_model s1) = u_version (t2_model s2);
  al_signature : u_has_signature (t2_model s1) = u_has_signature (t2_model s2) ∧
    u_signature (t2_model s1) = u_signature (t2_model s2);
  al_counters : u_counter_count (t2_model s1) = u_counter_count (t2_model s2) ∧
    u_counters (t2_model s1) = u_counters (t2_model s2);
  al_tearing : u_tearing_flag_count (t2_model s1) = u_tearing_flag_count (t2_model s2) ∧
    u_tearing_flags (t2_model s1) = u_tearing_flags (t2_model s2);
  al_auth0 : c_auth0 (t2_cfg s1) = c_auth0 (t2_cfg s2);
  al_prot : c_prot (t2_cfg s1) = c_prot (t2_cfg s2);
  al_valid : c_valid (t2_cfg s1) = c_valid (t2_cfg s2);
  al_auth : t2_auth_state s1 = t2_auth_state s2;
  al_locked : t2_auth_state s1 ≠ UL_T2_AUTH_SUCCESS;
  al_initialized : t2_initialized s1 = t2_initialized s2;
  al_sent : t2_sent s1 = t2_sent s2;
}.

Lemma alike_sent r s1 s2 : alike s1 s2 → alike (t2_with_sent r s1) (t2_with_sent r s2).
Proof. intros []. constructor; cbn; (done || congruence). Qed.

Lemma alike_resp r1 r2 s1 s2 : alike s1 s2 → alike (t2_with_resp r1 s1) (t2_with_resp r2 s2).
Proof. by intros []. Qed.

Lemma alike_protected s1 s2 page : alike s1 s2 → t2_protected s1 page = t2_protected s2 page.
Proof.
  intros []. unfold t2_protected. by rewrite al_types0, al_total0, al_auth1, al_valid0, al_auth2, al_prot0.
Qed.

Lemma alike_read s1 s2 start : alike s1 s2 → t2_read_reply s1 start = t2_read_reply s2 start.
Proof.
  intros Ha. unfold t2_read_reply.
  assert (∀ page, t2_protected s1 page = false → t2_page (t2_model s1) page = t2_page (t2_model s2) page) as Hp.
  { intros page Hp. unfold t2_page. by rewrite (al_total _ _ Ha), (al_pages _ _ Ha) by done. }
  cbn [t2_window existsb]. rewrite <-!(alike_protected s1 s2) by done.
  destruct (t2_protected s1 start) eqn:E0; [done|]. destruct (t2_protected s1 (start + 1)) eqn:E1; [done|].
  destruct (t2_protected s1 (start + 2)) eqn:E2; [done|]. destruct (t2_protected s1 (start + 3)) eqn:E3; [done|].
  cbn [orb]. unfold t2_window. rewrite !fmap_cons, !fmap_nil. by rewrite !Hp.
Qed.

(** A password that is not the card's is refused. *)
Lemma pwd_refused s args : len (c_pwd (t2_cfg s)) = 4 → ¬ presents_password s (ULTRALIGHT_CMD_PWD_AUTH :: args) →
  bool_decide (take 4 args = c_pwd (t2_cfg s)) = false.
Proof.
  intros Hl Hn. apply bool_decide_eq_false. intros Ht. apply Hn. exists (drop 4 args). by rewrite <-Ht, take_drop.
Qed.

Lemma alike_step E1 D1 E2 D2 rnd tx s1 s2 : t2_ok s1 → t2_ok s2 → alike s1 s2 →
  ¬ presents_password s1 tx → ¬ presents_password s2 tx → alike (t2_step E1 D1 s1 rnd tx) (t2_step E2 D2 s2 rnd tx).
Proof.
  intros Hs1 Hs2 Ha Hp1 Hp2. unfold t2_step. rewrite <-(al_initialized _ _ Ha). case_bool; [done|].
  assert (u_type (t2_model s1) ≠ UL_TYPE_MFUL_C) as Hc by (intros Ht; pose proof (al_type _ _ Ha) as Hq; by rewrite Ht in Hq).
  unfold t2_answer. destruct tx as [|cmd args]; [done|].
  destruct (al_version _ _ Ha) as [V1 V2]. destruct (al_signature _ _ Ha) as [S1 S2].
  destruct (al_counters _ _ Ha) as [C1 C2]. destruct (al_tearing _ _ Ha) as [T1 T2].
  rewrite <-V1, <-V2, <-S1, <-S2, <-C1, <-C2, <-T1, <-T2, <-(al_types _ _ Ha), <-(al_auth _ _ Ha).
  rewrite !(bool_decide_eq_false_2 _ Hc), !andb_false_r. cbn [andb].
  repeat match goal with |- context [cmd =? ?c] => destruct (Z.eqb_spec cmd c) as [->|]; [cbv iota|] end; try done.
  - destruct args; [done|]. rewrite (alike_read s1 s2) by done. by apply alike_sent.
  - destruct (u_has_version _); [by apply alike_sent|done].
  - destruct (u_has_signature _); [by apply alike_sent|done].
  - repeat case_match; (done || by apply alike_sent).
  - destruct args as [|i args]; [done|]. destruct (i <? _); [|done]. by destruct (ld _ i); [apply alike_sent|].
  - rewrite (pwd_refused s1), (pwd_refused s2) by (done || apply Hs1 || apply Hs2). by rewrite !andb_false_r.
Qed.

(** Commands keep the configuration. *)
Lemma t2_step_cfg E D s rnd tx : t2_cfg (t2_step E D s rnd tx) = t2_cfg s.
Proof.
  unfold t2_step. case_bool; [done|]. assert (t2_cfg (t2_answer E D s rnd tx).2 = t2_cfg s) as Ha
    by (unfold t2_answer; destruct tx; [done|]; by repeat case_match).
  by destruct (t2_answer E D s rnd tx) as [[]].
Qed.

(** C26: Password protection keeps its pages secret: take two well-formed listeners whose NTAG cards
    are the same except in the contents of the pages that need authentication, and in the
    password and its acknowledge, both not authenticated. Under every sequence of commands none
    of which presents one of the two passwords, both run without error, send exactly the same
    responses, and stay unauthenticated. *)
Theorem t2_protected_pages_secret u cmds : t2_locals_ok u → ∀ s1 s2, t2_ok s1 → t2_ok s2 → alike s1 s2 →
  Forall (λ c, block c.1 ∧ bytes c.2 ∧ ¬ presents_password s1 c.2 ∧ ¬ presents_password s2 c.2) cmds →
  ∃ s1' s2', t2_commands u cmds s1 = Some (tt, s1') ∧ t2_commands u cmds s2 = Some (tt, s2') ∧
    t2_sent s1' = t2_sent s2' ∧ t2_auth_state s1' ≠ UL_T2_AUTH_SUCCESS ∧ t2_auth_state s2' ≠ UL_T2_AUTH_SUCCESS.
Proof.
  intros Hu. induction cmds as [|[rnd tx] cmds IH]; intros s1 s2 Hs1 Hs2 Ha Hc.
  { exists s1, s2. split_and!; try done; [apply Ha..|]. rewrite <-(al_auth _ _ Ha). apply Ha. }
  apply Forall_cons_iff in Hc as [(Hr & Hb & Hp1 & Hp2) Hc]. cbn [fst snd] in *.
  destruct (t2_keyed_exists _ (to_card _ Hs1)) as (E1 & D1 & K1). destruct (t2_keyed_exists _ (to_card _ Hs2)) as (E2 & D2 & K2).
  destruct (on_tag_cmd_does u Hu E1 D1 s1 rnd tx Hs1 K1 Hb Hr) as (s1' & R1 & r1 & L1 & ->).
  destruct (on_tag_cmd_does u Hu E2 D2 s2 rnd tx Hs2 K2 Hb Hr) as (s2' & R2 & r2 & L2 & ->).
  cbn [t2_commands]. rewrite (run_call _ _ _ _ _ R1), (run_call _ _ _ _ _ R2). apply IH.
  - apply t2_ok_resp; [by apply t2_step_ok|done].
  - apply t2_ok_resp; [by apply t2_step_ok|done].
  - by apply alike_resp, alike_step.
  - unfold presents_password. cbn [t2_with_resp t2_cfg]. by rewrite !t2_step_cfg.
Qed.

(** *** Life cycle *)

(** The operations of the listener, a buffer of [size] bytes for storing. *)
Inductive t2_op :=
  | T2Init | T2Shutdown | T2Command (rnd tx : list Z) | T2Store (size : Z) | T2Load (blob : list Z).

Definition t2_run (u : t2_locals) (op : t2_op) : M t2_state Z :=
  match op with
  | T2Init => ultralight_listener_t2_init
  | T2Shutdown => ultralight_listener_t2_shutdown
  | T2Command rnd tx => ultralight_listener_t2_on_tag_cmd u rnd (Some tx) (len tx) ;; mret 0
  | T2Store size => '(ret, _, _) ← ultralight_listener_t2_serialize (Some (zeros size)) size (Some 0); mret ret
  | T2Load blob => ultralight_listener_t2_deserialize (Some blob) (len blob)
  end.

Fixpoint t2_runs (u : t2_locals) (ops : list t2_op) : M t2_state unit :=
  match ops with [] => mret tt | op :: ops => _ ← t2_run u op; t2_runs u ops end.

Definition t2_op_ok (op : t2_op) : Prop :=
  match op with
  | T2Init | T2Shutdown => True
  | T2Command rnd tx => block rnd ∧ bytes tx
  | T2Store size => 0 <= size
  | T2Load blob => bytes blob
  end.

(** The static variables at power-up: all zero. *)
Definition t2_power_up : t2_state :=
  {| t2_model :=
       {| u_pages := u_pages ultralight_blank; u_pages_total := 0; u_pages_read := 0; u_type := UL_TYPE_ORIGIN;
          u_variant := 0; u_version := zeros ULTRALIGHT_VERSION_SIZE; u_has_version := false;
          u_signature := zeros ULTRALIGHT_SIGNATURE_SIZE; u_has_signature := false;
          u_counters := u_counters ultralight_blank; u_counter_count := 0;
          u_tearing_flags := zeros ULTRALIGHT_TEARING_FLAG_NUM; u_tearing_flag_count := 0 |};
     t2_cfg := config_zero; t2_initialized := false; t2_auth_state := UL_T2_AUTH_IDLE;
     t2_rnd_b := zeros 8; t2_enc_b := zeros 8; t2_resp := zeros NFC_TRANSPORT_MAX_RESPONSE_LEN; t2_sent := [] |}.

(** An initialized listener is well-formed, and any listener is once its card is. *)
Record t2_inv (s : t2_state) : Prop := {
  ti_ok : t2_initialized s = true → t2_ok s;
  ti_rest : ∀ m, ul_safe m → t2_ok (t2_with_card m (t2_cfg s) s);
}.

Lemma t2_inv_ok s : t2_ok s → t2_inv s.
Proof. intros Hs. split; [done|]. intros m Hm. by destruct Hs. Qed.

Lemma power_up_inv : t2_inv t2_power_up.
Proof.
  split; [done|]. intros m Hm. constructor; try done; cbn; try apply zero_block. split; [done|apply bytes_zeros].
Qed.

Lemma blank_ok : ul_safe ultralight_blank.
Proof. by apply (blank_safe UL_VARIANT_UNKNOWN). Qed.

(** The configuration of a loaded card has the sizes the command handlers rely on. *)
Lemma parsed_config d : ul_shape d → Forall bytes (u_pages d) → ul_loaded d = d →
  ∃ ok c, ultralight_parse_config (Some d) (Some config_zero) = Some (ok, Some c) ∧
    len (c_pwd c) = 4 ∧ len (c_pack c) = 2 ∧ bytes (c_pack c) ∧ is_byte (c_auth0 c).
Proof.
  intros Hd Hb Hl. destruct (decide (u_pages_total d ∈ [45; 135; 231])) as [Ht|Ht].
  - destruct (parse_config_loaded d config_zero Hd Hb Hl Ht) as
      (auth0 & access & pwd & k0 & k1 & _ & _ & Hba & Hpwd & Hk0 & Hk1 & ->).
    eexists _, _. split; [done|]. cbn. apply ld_Some_inv in Hpwd as [_ Hpwd].
    split_and!; [by apply (Forall_lookup_1 _ _ _ _ (us_page d Hd) Hpwd)|done| |done].
    assert (∀ p i b, page_byte d p i = Some b → is_byte b) as Hpb.
    { unfold page_byte. intros p i b. destruct (ld (u_pages d) p) as [q|] eqn:E; [|done]. mred. intros Hq.
      apply ld_Some_inv in E as [_ E]. eapply ld_byte; [|done]. by apply (Forall_lookup_1 _ _ _ _ Hb E). }
    repeat constructor; by eapply Hpb.
  - exists false, config_zero. split; [|by split_and!; [..|apply bytes_zeros|]].
    unfold ultralight_parse_config. assert (u_type d = type_from_pages_total (u_pages_total d)) as ->
      by (by rewrite <-Hl at 1). by rewrite has_config_pages, bool_decide_eq_false_2.
Qed.

Lemma t2_load_ok s blob : t2_inv s → bytes blob →
  ensures (ultralight_listener_t2_deserialize (Some blob) (len blob)) s (λ _ s', t2_inv s').
Proof.
  intros Hs Hb. unfold ultralight_listener_t2_deserialize, ensures. rewrite run_gets. cbn [id].
  destruct (t2_initialized s) eqn:Hi; cbn [negb]; [|by eexists _, _].
  pose proof (to_card s (ti_ok s Hs Hi)) as Hm. pose proof (len_nonneg blob).
  destruct (ul_decided blob (len blob) (t2_model s) Hb ltac:(lia)) as (ret & d & -> & _ & Hd & Hsafe).
  specialize (Hsafe Hm). repeat run_step.
  destruct (Z.eqb_spec ret 0) as [->|]; cbn [negb].
  2: { eexists _, _. split; [done|]. by apply t2_inv_ok, (ti_rest s Hs). }
  destruct (Hd eq_refl) as [Hsh Hl].
  destruct (parsed_config d Hsh (ub_pages d (sf_bytes d Hsafe)) Hl) as (ok & c & -> & ? & ? & ? & ?).
  repeat run_step.
  assert (t2_ok (t2_with_card d c (t2_with_card d (t2_cfg s) s))) as Hok by (destruct (ti_ok s Hs Hi); by constructor).
  destruct (_ && _ && _ && _); repeat run_step; eexists _, _; (split; [done|]); apply t2_inv_ok; by repeat apply t2_ok_auth.
Qed.

Lemma store_ok s size : t2_inv s → 0 <= size →
  ensures (ultralight_listener_t2_serialize (Some (zeros size)) size (Some 0)) s (λ _ s', t2_inv s').
Proof.
  intros Hs Hn. unfold ultralight_listener_t2_serialize, ensures. rewrite run_gets. cbn [id].
  destruct (t2_initialized s) eqn:Hi; cbn [negb]; [|by eexists _, _].
  pose proof (to_card s (ti_ok s Hs Hi)) as Hm. set (m := t2_model s) in *.
  enough (∃ r, ultralight_serialize (Some m) (Some (zeros size)) size (Some 0) = Some r) as [r ->] by by eexists _, _.
  destruct (Z.eq_dec (u_pages_total m) 0) as [E|E]; [unfold ultralight_serialize; rewrite E; by eexists|].
  assert (ul_shape m) as Hsh by (destruct Hm as [[]]; constructor; (done || lia)).
  destruct (Z.ltb_spec size (ultralight_need m)) as [Hlt|Hge].
  - unfold ultralight_serialize. destruct (_ || _); [by eexists|]. rewrite (proj2 (Z.ltb_lt _ _)) by done. by eexists.
  - rewrite <-ul_blob_len in Hge by done. pose proof (ul_serialize_ok m (zeros size) 0 Hsh) as Hser.
    rewrite len_zeros in Hser by done. rewrite Hser by done. by eexists.
Qed.

Lemma t2_run_ok u op s : t2_locals_ok u → t2_op_ok op → t2_inv s → ensures (t2_run u op) s (λ _ s', t2_inv s').
Proof.
  intros Hu Ho Hs. destruct op; cbn [t2_run t2_op_ok] in *.
  - unfold ultralight_listener_t2_init, ensures. rewrite run_gets. cbn [id].
    destruct (t2_initialized s); [by eexists _, _|]. repeat run_step. eexists _, _. split; [done|].
    apply t2_inv_ok. pose proof (ti_rest s Hs _ blank_ok) as Hok. by destruct Hok.
  - unfold ultralight_listener_t2_shutdown, ensures. rewrite run_gets. cbn [id].
    destruct (t2_initialized s); [|by eexists _, _]. repeat run_step. eexists _, _. split; [done|].
    apply t2_inv_ok. pose proof (ti_rest s Hs _ blank_ok) as Hok. by destruct Hok.
  - destruct Ho as [Hr Hb]. destruct (t2_initialized s) eqn:Hi.
    + pose proof (ti_ok s Hs Hi) as Hok. destruct (t2_keyed_exists _ (to_card s Hok)) as (E & D & Hk).
      destruct (on_tag_cmd_does u Hu E D s rnd tx Hok Hk Hb Hr) as (s' & Hrun & r & Hl & ->).
      unfold ensures. rewrite (run_call _ _ _ _ _ Hrun). eexists _, _. split; [done|].
      by apply t2_inv_ok, t2_ok_resp; [apply t2_step_ok|].
    + unfold ultralight_listener_t2_on_tag_cmd, ensures. rewrite run_bind, run_gets. cbn [id]. rewrite Hi, orb_true_r.
      by eexists _, _.
  - eapply ensures_bind; [by apply store_ok|]. intros [[ret o] n] s' Hs'. by apply ensures_ret.
  - by apply t2_load_ok.
Qed.

(** The Type 2 Tag listener is safe: from power-up, under every sequence of initializations,
    shutdowns, commands, stores into a buffer of any size and loads of any byte string, every call
    returns and no access leaves an object; an initialized listener is always well-formed: the
    counts of its card stay inside the arrays, and its type is the one of its number of pages. *)
Theorem t2_safe u ops : t2_locals_ok u → Forall t2_op_ok ops →
  ∃ s, t2_runs u ops t2_power_up = Some (tt, s) ∧ (t2_initialized s = true → t2_ok s).
Proof.
  intros Hu Hops. enough (∀ s, t2_inv s → ensures (t2_runs u ops) s (λ _ s', t2_inv s')) as Hr.
  { destruct (Hr _ power_up_inv) as ([] & s & Hrun & Hs). exists s. split; [done|]. apply Hs. }
  induction Hops as [|op ops Hop _ IH]; intros s Hs; [by apply ensures_ret|].
  cbn [t2_runs]. eapply ensures_bind; [by apply t2_run_ok|]. intros ? s' Hs'. by apply IH.
Qed.
End T2Facts.
