(* ===== verification/UltralightPoller.v ===== *)
(** * Ultralight poller ([src/nfc/protocols/ultralight/ultralight_poller.c], [ultralight_poller_i.c])

    Reading an Ultralight, NTAG or Ultralight C card in the field: identification, the pages with
    the password if the card asks for it, and what the EV1 commands return.  The card is the
    parameter [tag_transceive] as in the NDEF poller; the random numbers of [sys_rand_get] are
    arguments. *)

From stdpp Require Import base list numbers option.
From S2P Require Import Prelude Kconfig Apdu Service Serial Ultralight UltralightNdef Des TripleDes UltralightT2 Session NdefPoller.

(** What the automatic arrays hold before they are written: the cipher's, and [output] and
    [decoded_shifted_rnda] of [ultralight_poller_i_authenticate]; [version] of
    [ultralight_poller_read] and [page_buf] of [ultralight_poller_read_pages]. *)
Record up_locals := {
  pl_undef : list Z * list Z; pl_block : list Z; pl_output : list Z; pl_decoded : list Z;
  pl_version : list Z; pl_page_buf : list Z;
}.

(** Assignments to fields the loading does not make. *)
Definition with_pages_read (n : Z) (d : ultralight_data_t) : ultralight_data_t :=
  {| u_pages := u_pages d; u_pages_total := u_pages_total d; u_pages_read := n;
     u_type := u_type d; u_variant := u_variant d; u_version := u_version d;
     u_has_version := u_has_version d; u_signature := u_signature d;
     u_has_signature := u_has_signature d; u_counters := u_counters d;
     u_counter_count := u_counter_count d; u_tearing_flags := u_tearing_flags d;
     u_tearing_flag_count := u_tearing_flag_count d |}.
Definition with_page_array (p : list (list Z)) (d : ultralight_data_t) : ultralight_data_t :=
  with_pages (u_pages_total d) (u_type d) p d.

Section UPoller.
Context `{Kconfig} {C : Type} (tag_transceive : list Z → M C (Z * list Z)) (u : up_locals).

(** ** Commands *)

(** [size] is the size of the array the answer is stored in. *)
Definition ultralight_poller_i_transceive (s : option session) (tx : list Z) (size : Z) : M C (Z * list Z) :=
  '(ret, rx) ← nfc_reader_session_transceive tag_transceive s tx;
  if negb (ret =? 0) then mret (ret, rx) else
  if size <? len rx then lift None else mret (ret, rx).

(** The commands write [out] on success only. *)
Definition ultralight_poller_i_read_page (s : option session) (page : Z) (out : list Z) : M C (Z * list Z) :=
  '(ret, rx) ← ultralight_poller_i_transceive s [ULTRALIGHT_CMD_READ; page] NFC_TRANSPORT_MAX_RESPONSE_LEN;
  if negb (ret =? 0) then mret (ret, out) else
  if len rx <? ULTRALIGHT_READ_RESP_LEN then mret (- EIO, out) else
  out ← lift (memcpy out 0 rx 0 ULTRALIGHT_READ_RESP_LEN); mret (0, out).

Definition ultralight_poller_i_get_version (s : option session) (ver : list Z) : M C (Z * list Z) :=
  '(ret, rx) ← ultralight_poller_i_transceive s [ULTRALIGHT_CMD_GET_VERSION] NFC_TRANSPORT_MAX_RESPONSE_LEN;
  if negb (ret =? 0) then mret (ret, ver) else
  if len rx <? ULTRALIGHT_VERSION_SIZE then mret (- EIO, ver) else
  ver ← lift (memcpy ver 0 rx 0 ULTRALIGHT_VERSION_SIZE); mret (0, ver).

Definition ultralight_poller_i_read_signature (s : option session) (sig : list Z) : M C (Z * list Z) :=
  '(ret, rx) ← ultralight_poller_i_transceive s [ULTRALIGHT_CMD_READ_SIG; 0x00] NFC_TRANSPORT_MAX_RESPONSE_LEN;
  if negb (ret =? 0) then mret (ret, sig) else
  if len rx <? ULTRALIGHT_SIGNATURE_SIZE then mret (- EIO, sig) else
  sig ← lift (memcpy sig 0 rx 0 ULTRALIGHT_SIGNATURE_SIZE); mret (0, sig).

Definition ultralight_poller_i_read_counter (s : option session) (index : Z) (out : list Z) : M C (Z * list Z) :=
  '(ret, rx) ← ultralight_poller_i_transceive s [ULTRALIGHT_CMD_READ_CNT; index] NFC_TRANSPORT_MAX_RESPONSE_LEN;
  if negb (ret =? 0) then mret (ret, out) else
  if len rx <? 3 then mret (- EIO, out) else
  out ← lift (memcpy out 0 rx 0 3); mret (0, out).

Definition ultralight_poller_i_read_tearing (s : option session) (index flag : Z) : M C (Z * Z) :=
  '(ret, rx) ← ultralight_poller_i_transceive s [ULTRALIGHT_CMD_CHECK_TEARING; index] NFC_TRANSPORT_MAX_RESPONSE_LEN;
  if negb (ret =? 0) then mret (ret, flag) else
  if len rx <? 1 then mret (- EIO, flag) else
  f ← lift (ld rx 0); mret (0, f).

Definition ultralight_poller_i_pwd_auth (s : option session) (pwd : list Z) : M C Z :=
  p0 ← lift (ld pwd 0); p1 ← lift (ld pwd 1); p2 ← lift (ld pwd 2); p3 ← lift (ld pwd 3);
  '(ret, rx) ← ultralight_poller_i_transceive s [ULTRALIGHT_CMD_PWD_AUTH; p0; p1; p2; p3] NFC_TRANSPORT_MAX_RESPONSE_LEN;
  if negb (ret =? 0) then mret ret else
  if len rx <? ULTRALIGHT_PWD_AUTH_RESP_LEN then mret (- EIO) else mret 0.

(** The nine bytes that [full_rx] gets; [response] gets the last eight of them. *)
Definition ultralight_poller_i_send_auth_cmd (s : option session) (cmd : list Z) (initial_cmd : bool) : M C (Z * list Z) :=
  '(ret, rx) ← ultralight_poller_i_transceive s cmd NFC_TRANSPORT_MAX_RESPONSE_LEN;
  if negb (ret =? 0) then mret (ret, []) else
  let expect_code := if initial_cmd then ULTRALIGHT_CMD_AUTH_CONT else 0x00 in
  if negb (len rx =? ULTRALIGHT_C_AUTH_RESPONSE_SIZE) then mret (- EACCES, []) else
  c ← lift (ld rx 0);
  if negb (c =? expect_code) then mret (- EACCES, []) else mret (0, rx).

Definition ultralight_poller_i_authentication_test (s : option session) : M C Z :=
  '(ret, _) ← ultralight_poller_i_send_auth_cmd s [ULTRALIGHT_CMD_AUTH; 0x00] true; mret ret.

(** [output] once it is encrypted: [rnda] and the card's random number, rotated. *)
Definition auth_output (rnda key enc_rnd_b : list Z) : option (list Z) :=
  let output := pl_output u in
  rnd_b ← ultralight_3des_decrypt (pl_undef u) (pl_block u) key (zeros ULTRALIGHT_C_AUTH_IV_BLOCK_SIZE)
    enc_rnd_b ULTRALIGHT_C_AUTH_RND_BLOCK_SIZE (drop (Z.to_nat ULTRALIGHT_C_AUTH_RND_B_BLOCK_OFFSET) output);
  rnd_b ← ultralight_3des_shift_data rnd_b;
  output ← blit output ULTRALIGHT_C_AUTH_RND_B_BLOCK_OFFSET rnd_b;
  output ← memcpy output 0 rnda 0 ULTRALIGHT_C_AUTH_RND_BLOCK_SIZE;
  ultralight_3des_encrypt (pl_undef u) key enc_rnd_b None ULTRALIGHT_C_AUTH_DATA_SIZE output.

(** [*authenticated]: whether the card has returned [rnda], rotated. *)
Definition auth_check (rnda key output auth_rx : list Z) : option bool :=
  let rnd_b := drop (Z.to_nat ULTRALIGHT_C_AUTH_RND_B_BLOCK_OFFSET) output in
  decoded ← ultralight_3des_decrypt (pl_undef u) (pl_block u) key rnd_b (drop 1 auth_rx)
    ULTRALIGHT_C_AUTH_RND_BLOCK_SIZE (pl_decoded u);
  rnda ← ultralight_3des_shift_data rnda;
  memcmp_eq rnda 0 decoded 0 ULTRALIGHT_C_AUTH_RND_BLOCK_SIZE.

(** [rnda] is what [sys_rand_get] writes; the result is the return value and [*authenticated]. *)
Definition ultralight_poller_i_authenticate (s : option session) (rnda : list Z) (key : list Z) : M C (Z * bool) :=
  match s with
  | None => mret (- EINVAL, false)
  | Some _ =>
    '(ret, rx) ← ultralight_poller_i_send_auth_cmd s [ULTRALIGHT_CMD_AUTH; 0x00] true;
    if negb (ret =? 0) then mret (ret, false) else
    output ← lift (auth_output rnda key (drop 1 rx));
    '(ret, auth_rx) ← ultralight_poller_i_send_auth_cmd s (ULTRALIGHT_CMD_AUTH_CONT :: output) false;
    if negb (ret =? 0) then mret (ret, false) else
    same ← lift (auth_check rnda key output auth_rx);
    mret (0, same)
  end.

(** ** The poller *)

Definition ultralight_poller_session_valid (s : option session) : Z :=
  match s with None => - EINVAL | Some s => if negb (ses_active s) then - EINVAL else 0 end.

Definition ultralight_version_is_zero (ver : list Z) : bool :=
  forallb (λ b, b =? 0) (take (Z.to_nat ULTRALIGHT_VERSION_SIZE) ver).

Definition ultralight_type_from_version (ver : list Z) : option ultralight_type_t :=
  if ultralight_version_is_zero ver then Some UL_TYPE_UNKNOWN else
  b ← ld ver 6;
  Some (if b =? 0x0B then UL_TYPE_UL11 else if b =? 0x0E then UL_TYPE_UL21 else
    if b =? 0x0F then UL_TYPE_NTAG213 else if b =? 0x11 then UL_TYPE_NTAG215 else
    if b =? 0x13 then UL_TYPE_NTAG216 else UL_TYPE_UNKNOWN).

Definition default_pwd : list Z := [0xFF; 0xFF; 0xFF; 0xFF].

(** The return value and [*authenticated]. *)
Definition ultralight_poller_try_pwd_auth (s : option session) (cfg : option ultralight_config_t)
    (authenticated : bool) : M C (Z * bool) :=
  match s with
  | None => mret (- EINVAL, authenticated)
  | Some _ =>
    if authenticated then mret (- EINVAL, authenticated) else
    match cfg with
    | None => mret (- ENOTSUP, authenticated)
    | Some c =>
      if negb (c_valid c) then mret (- ENOTSUP, authenticated) else
      ret ← ultralight_poller_i_pwd_auth s (c_pwd c);
      if ret =? 0 then mret (0, true) else
      if c_authlim c =? 0 then
        ret ← ultralight_poller_i_pwd_auth s default_pwd;
        if ret =? 0 then mret (0, true) else mret (ret, authenticated)
      else mret (ret, authenticated)
    end
  end.

(** [n] more turns from [i] on of the copy loop. *)
Fixpoint copy_chunk_loop (n : nat) (i start pages_total : Z) (page_buf : list Z) (pages : list (list Z))
    : option (list (list Z)) :=
  match n with
  | O => Some pages
  | S n =>
    let page := u16 (start + i) in
    if pages_total <=? page then Some pages else
    p ← ld pages page;
    p ← memcpy p 0 page_buf (i * ULTRALIGHT_PAGE_SIZE) ULTRALIGHT_PAGE_SIZE;
    pages ← st pages page p;
    copy_chunk_loop n (i + 1) start pages_total page_buf pages
  end.

Definition ultralight_poller_copy_read_chunk (out : ultralight_data_t) (start pages_total : Z) (page_buf : list Z)
    : option ultralight_data_t :=
  pages ← copy_chunk_loop 4 0 start pages_total page_buf (u_pages out);
  Some (with_pages_read (if start + 4 <? pages_total then u16 (start + 4) else pages_total) (with_page_array pages out)).

(** [n] more turns of the loop of [ultralight_poller_read_pages] from [start] on. *)
Fixpoint read_pages (n : nat) (s : option session) (pages_total start : Z) (page_buf : list Z)
    (authenticated : bool) (out : ultralight_data_t) : M C (Z * ultralight_data_t) :=
  match n with
  | O => mret (0, out)
  | S n =>
    '(_, cfg) ← lift (ultralight_parse_config (Some out) (Some config_zero));
    cfg ← lift cfg;
    let '(config_start, _, _, _) := ultralight_config_page_indices pages_total in
    authenticated ←
      (if ultralight_type_has_password_config (u_type out) && c_valid cfg && negb authenticated &&
          ultralight_read_protection_enabled (Some cfg) && (config_start <=? start)
       then '(_, a) ← ultralight_poller_try_pwd_auth s (Some cfg) authenticated; mret a
       else mret authenticated);
    needs ← lift (ultralight_page_needs_auth (Some cfg) start);
    '(ret, authenticated) ←
      (if needs && negb authenticated then ultralight_poller_try_pwd_auth s (Some cfg) authenticated
       else mret (0, authenticated));
    if negb (ret =? 0) then mret (0, out) else
    '(ret, page_buf) ← ultralight_poller_i_read_page s (u8 start) page_buf;
    '(ret, page_buf, authenticated) ←
      (if negb (ret =? 0) && (negb authenticated && c_valid cfg) then
         '(_, a) ← ultralight_poller_try_pwd_auth s (Some cfg) authenticated;
         if a : bool then
           '(ret, page_buf) ← ultralight_poller_i_read_page s (u8 start) page_buf; mret (ret, page_buf, a)
         else mret (ret, page_buf, a)
       else mret (ret, page_buf, authenticated));
    if negb (ret =? 0) then mret (0, out) else
    out ← lift (ultralight_poller_copy_read_chunk out start pages_total page_buf);
    read_pages n s pages_total (start + 4) page_buf authenticated out
  end.

Definition ultralight_poller_read_pages (s : option session) (out : ultralight_data_t) (pages_total : Z)
    : M C (Z * ultralight_data_t) :=
  read_pages (Z.to_nat ((pages_total + 3) / 4)) s pages_total 0 (pl_page_buf u) false (with_pages_read 0 out).

(** The return value, [*type_out], [version] and [*has_version]. *)
Definition ultralight_poller_identify_type (s : option session) (version : list Z)
    : M C (Z * ultralight_type_t * list Z * bool) :=
  '(ret, version) ← ultralight_poller_i_get_version s version;
  type ← lift (if ret =? 0 then ultralight_type_from_version version else Some UL_TYPE_UNKNOWN);
  let has_version := if ret =? 0 then negb (ultralight_version_is_zero version) else false in
  if (ret =? 0) && negb (bool_decide (type = UL_TYPE_UNKNOWN)) then mret (0, type, version, has_version) else
  ret ← ultralight_poller_i_authentication_test s;
  if ret =? 0 then mret (0, UL_TYPE_MFUL_C, version, has_version) else
  '(ret, _) ← ultralight_poller_i_read_page s 41 (zeros ULTRALIGHT_READ_RESP_LEN);
  if negb (ret =? 0) then mret (0, UL_TYPE_ORIGIN, version, has_version) else
  mret (0, UL_TYPE_NTAG203, version, has_version).

(** [memcpy(out->pages[44], key, 16)] *)
Definition store_key (pages : list (list Z)) (key : list Z) : option (list (list Z)) :=
  flat ← blit (mjoin pages) (ULTRALIGHT_C_KEY_PAGE * ULTRALIGHT_PAGE_SIZE) key;
  mapM (λ i, sub flat (i * ULTRALIGHT_PAGE_SIZE) ULTRALIGHT_PAGE_SIZE) (seqZ 0 (len pages)).

Definition ultralight_poller_auth_ultralight_c (s : option session) (rnda : list Z) (out : ultralight_data_t)
    : M C (Z * bool * ultralight_data_t) :=
  let key := zeros ULTRALIGHT_C_AUTH_DES_KEY_SIZE in
  key ← lift (if ULTRALIGHT_C_KEY_PAGE + 4 <=? u_pages_read out
              then memcpy key 0 (ultralight_3des_get_key out) 0 ULTRALIGHT_C_AUTH_DES_KEY_SIZE else Some key);
  '(ret, authenticated) ← ultralight_poller_i_authenticate s rnda key;
  pages ← lift (if (ret =? 0) && authenticated then store_key (u_pages out) key else Some (u_pages out));
  mret (ret, authenticated, with_page_array pages out).

Definition ultralight_poller_detect (s : option session) : M C Z :=
  let ret := ultralight_poller_session_valid s in
  if negb (ret =? 0) then mret ret else
  '(ret, rx) ← ultralight_poller_i_transceive s [ULTRALIGHT_CMD_READ; 0x00] ULTRALIGHT_READ_RESP_LEN;
  if negb (ret =? 0) then mret ret else
  if len rx <? ULTRALIGHT_READ_RESP_LEN then mret (- ENOTSUP) else mret 0.

(** [n] more turns from [i] on of the loops over counters and tearing flags. *)
Fixpoint read_counters (n : nat) (i : Z) (s : option session) (out : ultralight_data_t) : M C ultralight_data_t :=
  match n with
  | O => mret out
  | S n =>
    c ← lift (ld (u_counters out) i);
    '(ret, c) ← ultralight_poller_i_read_counter s i c;
    cs ← lift (st (u_counters out) i c);
    read_counters n (i + 1) s (with_counters (if ret =? 0 then u8 (i + 1) else u_counter_count out) cs out)
  end.

Fixpoint read_tearing (n : nat) (i : Z) (s : option session) (out : ultralight_data_t) : M C ultralight_data_t :=
  match n with
  | O => mret out
  | S n =>
    f ← lift (ld (u_tearing_flags out) i);
    '(ret, f) ← ultralight_poller_i_read_tearing s i f;
    fs ← lift (st (u_tearing_flags out) i f);
    read_tearing n (i + 1) s
      (with_tearing (if ret =? 0 then u8 (i + 1) else u_tearing_flag_count out) fs (u_pages_read out) out)
  end.

(** The part of [ultralight_poller_read] behind the pages. *)
Definition read_ev1 (s : option session) (out : ultralight_data_t) : M C ultralight_data_t :=
  '(ret, sig) ← ultralight_poller_i_read_signature s (u_signature out);
  let out := if ret =? 0 then with_signature sig out else out in
  out ← read_counters (Z.to_nat ULTRALIGHT_COUNTER_NUM) 0 s out;
  read_tearing (Z.to_nat ULTRALIGHT_TEARING_FLAG_NUM) 0 s out.

(** The part of [ultralight_poller_read] behind the identification. *)
Definition read_identified (rnda : list Z) (s : option session) (type : ultralight_type_t) (version : list Z) (has_version : bool)
    : M C (Z * option ultralight_data_t) :=
  let out := ultralight_blank in
  let pages_total := ultralight_pages_total_for_type type in
  if pages_total =? 0 then mret (- ENOTSUP, Some out) else
  let out := with_variant (variant_from_type type) (with_pages pages_total type (u_pages out) out) in
  out ← lift (if has_version then v ← memcpy (u_version out) 0 version 0 ULTRALIGHT_VERSION_SIZE; Some (with_version v out)
              else Some out);
  out ← (if bool_decide (type = UL_TYPE_MFUL_C)
         then r ← ultralight_poller_auth_ultralight_c s rnda out; mret r.2 else mret out);
  '(ret, out) ← ultralight_poller_read_pages s out pages_total;
  if negb (ret =? 0) then mret (ret, Some out) else
  if u_pages_read out <? pages_total then mret (0, Some out) else
  if has_version then out ← read_ev1 s out; mret (0, Some out) else mret (0, Some out).

(** The return value and what [out] points to. *)
Definition ultralight_poller_read (rnda : list Z) (s : option session) (out : option ultralight_data_t)
    : M C (Z * option ultralight_data_t) :=
  let ret := ultralight_poller_session_valid s in
  if negb (ret =? 0) then mret (ret, out) else
  match out with
  | None => mret (- EINVAL, None)
  | Some _ =>
    '(ret, type, version, has_version) ← ultralight_poller_identify_type s (pl_version u);
    if negb (ret =? 0) then mret (ret, Some ultralight_blank) else
    read_identified rnda s type version has_version
  end.
End UPoller.

(** ** Safety against any card *)

Section UPollerSafe.
Context `{KconfigRanges} {C : Type} (tag_transceive : list Z → M C (Z * list Z)) (u : up_locals).

Record up_locals_ok : Prop := {
  plo_undef : locals (pl_undef u);
  plo_block : len (pl_block u) = 8;
  plo_output : len (pl_output u) = 16;
  plo_decoded : len (pl_decoded u) = 8;
  plo_version : len (pl_version u) = 8 ∧ bytes (pl_version u);
  plo_page_buf : len (pl_page_buf u) = 16 ∧ bytes (pl_page_buf u);
}.

Context (R : C → Prop) `{!CardWhile tag_transceive R} (Hu : up_locals_ok) (s : session) (Hs : ses_active s = true).

Lemma utransceive_total tx c : R c → bytes tx →
  ensures (ultralight_poller_i_transceive tag_transceive (Some s) tx NFC_TRANSPORT_MAX_RESPONSE_LEN) c
    (λ '(ret, rx) c', R c' ∧ bytes rx ∧ len rx <= NFC_TRANSPORT_MAX_RESPONSE_LEN).
Proof.
  intros Hc Hb. unfold ultralight_poller_i_transceive. eapply ensures_bind.
  { unfold nfc_reader_session_transceive. rewrite Hs. cbn [negb]. by apply card_while. }
  intros [ret rx] c' (Hc' & Hrx & Hl). case_bool; [by apply ensures_ret|]. rewrite (proj2 (Z.ltb_ge _ _)) by done.
  by apply ensures_ret.
Qed.

(** The shape of the commands that fill an array of [n] bytes. *)
Lemma fill_command tx n (out : list Z) c : R c → bytes tx → len out = n → bytes out → 0 <= n →
  ensures ('(ret, rx) ← ultralight_poller_i_transceive tag_transceive (Some s) tx NFC_TRANSPORT_MAX_RESPONSE_LEN;
    if negb (ret =? 0) then mret (ret, out) else
    if len rx <? n then mret (- EIO, out) else
    out ← lift (memcpy out 0 rx 0 n); mret (0, out)) c
    (λ '(ret, out') c', R c' ∧ len out' = n ∧ bytes out').
Proof.
  intros Hc Hb Ho Hob Hn. eapply ensures_bind; [by apply utransceive_total|].
  intros [ret rx] c' (Hc' & Hrx & Hl). case_bool; [by apply ensures_ret|].
  destruct (Z.ltb_spec (len rx) n); [by apply ensures_ret|].
  rewrite memcpy_prefix by lia. unfold ensures. rewrite blit_ok by llia. rewrite run_lift_Some.
  eexists (_, _), c'. split; [done|]. split; [done|]. rewrite drop_ge by llia. rewrite app_nil_r. cbn [Z.to_nat take app].
  split; [llia|]. by apply bytes_take.
Qed.

Lemma byte_cmd b : is_byte b → ∀ c, is_byte c → bytes [c; b].
Proof. intros ? c ?. bytes_list. Qed.

Lemma read_page_total page out c : R c → is_byte page → len out = 16 → bytes out →
  ensures (ultralight_poller_i_read_page tag_transceive (Some s) page out) c (λ '(ret, out') c',
    R c' ∧ len out' = 16 ∧ bytes out').
Proof. intros Hc Hp Ho Hb. apply fill_command; try done. by apply byte_cmd. Qed.

Lemma get_version_total ver c : R c → len ver = 8 → bytes ver →
  ensures (ultralight_poller_i_get_version tag_transceive (Some s) ver) c (λ '(ret, v) c', R c' ∧ len v = 8 ∧ bytes v).
Proof. intros Hc Hv Hb. apply fill_command; try done. bytes_list. Qed.

Lemma signature_total sig c : R c → len sig = 32 → bytes sig →
  ensures (ultralight_poller_i_read_signature tag_transceive (Some s) sig) c (λ '(ret, v) c', R c' ∧ len v = 32 ∧ bytes v).
Proof. intros Hc Hv Hb. apply fill_command; try done. by apply byte_cmd. Qed.

Lemma counter_total i out c : R c → is_byte i → len out = 3 → bytes out →
  ensures (ultralight_poller_i_read_counter tag_transceive (Some s) i out) c (λ '(ret, v) c', R c' ∧ len v = 3 ∧ bytes v).
Proof. intros Hc Hi Ho Hb. apply fill_command; try done. by apply byte_cmd. Qed.

Lemma tearing_total i f c : R c → is_byte i → is_byte f →
  ensures (ultralight_poller_i_read_tearing tag_transceive (Some s) i f) c (λ '(ret, v) c', R c' ∧ is_byte v).
Proof.
  intros Hc Hi Hf. eapply ensures_bind; [apply utransceive_total; [done|by apply byte_cmd]|].
  intros [ret rx] c' (Hc' & Hrx & Hl). case_bool; [by apply ensures_ret|].
  destruct (Z.ltb_spec (len rx) 1); [by apply ensures_ret|].
  destruct (ld_Some rx 0) as [b Hb]; [lia|]. unfold ensures. rewrite Hb, run_lift_Some. eexists (_, _), c'.
  split; [done|]. split; [done|by eapply ld_byte].
Qed.

Lemma pwd_auth_total pwd c : R c → len pwd = 4 → bytes pwd →
  ensures (ultralight_poller_i_pwd_auth tag_transceive (Some s) pwd) c (λ _ c', R c').
Proof.
  intros Hc Hl Hb. unfold len in Hl. destruct pwd as [|p0 [|p1 [|p2 [|p3 [|]]]]]; try (exfalso; cbn in Hl; lia).
  unfold ultralight_poller_i_pwd_auth, ensures.
  change (ld [p0; p1; p2; p3] 0) with (Some p0). change (ld [p0; p1; p2; p3] 1) with (Some p1).
  change (ld [p0; p1; p2; p3] 2) with (Some p2). change (ld [p0; p1; p2; p3] 3) with (Some p3). rewrite !run_lift_Some.
  inv_bytes. eapply ensures_bind; [apply utransceive_total; [done|bytes_list]|].
  intros [ret rx] c' (Hc' & _). repeat case_bool; by apply ensures_ret.
Qed.

Lemma send_auth_total cmd initial c : R c → bytes cmd →
  ensures (ultralight_poller_i_send_auth_cmd tag_transceive (Some s) cmd initial) c (λ '(ret, rx) c',
    R c' ∧ (ret = 0 → len rx = 9 ∧ bytes rx)).
Proof.
  intros Hc Hb. eapply ensures_bind; [by apply utransceive_total|]. intros [ret rx] c' (Hc' & Hrx & Hl).
  case_bool; [apply ensures_ret; split; [done|]; by intros ->|].
  destruct (Z.eqb_spec (len rx) ULTRALIGHT_C_AUTH_RESPONSE_SIZE) as [Hn|]; cbn [negb]; [|by apply ensures_ret].
  unfold ULTRALIGHT_C_AUTH_RESPONSE_SIZE in Hn. destruct (ld_Some rx 0) as [b Hld]; [lia|].
  unfold ensures. rewrite Hld, run_lift_Some. destruct (negb (b =? _)); eexists (_, _), c'; (split; [done|]); by split; [|intros].
Qed.

(** What the two halves of the authentication compute. *)
Lemma auth_output_eq key E D rnda e : tdes_key key E D → block rnda → block e →
  let c1 := E (bxor rnda e) in
  auth_output u rnda key e = Some (c1 ++ E (bxor (rotate (bxor (D e) (zeros 8))) c1)).
Proof.
  intros HED Hr Be c1. destruct Hu as [Hun Hbl Ho Hdec _ _]. unfold auth_output.
  pose proof (bxor_block _ _ (tk_decrypts _ _ _ HED e Be) zero_block) as Bb.
  assert (∃ o1 o2, pl_output u = o1 ++ o2 ∧ len o1 = 8 ∧ len o2 = 8) as (o1 & o2 & -> & L1 & L2).
  { exists (take 8 (pl_output u)), (drop 8 (pl_output u)). rewrite take_drop, len_take, len_drop. split; [done|lia]. }
  rewrite (drop_app_len o1 o2) by done.
  assert (ultralight_3des_decrypt (pl_undef u) (pl_block u) key (zeros ULTRALIGHT_C_AUTH_IV_BLOCK_SIZE) e
    ULTRALIGHT_C_AUTH_RND_BLOCK_SIZE o2 = Some (bxor (D e) (zeros 8))) as ->
    by (apply (decrypt_one _ _ _ HED _ Hun _ Hbl); [done|apply zero_block|done]). mred.
  rewrite shift_data_eq by apply Bb. mred. pose proof (rotate_block _ Bb) as Br. set (rb := rotate _) in *.
  rewrite <-(app_nil_r (o1 ++ o2)), <-(assoc_L (++)).
  rewrite (blit_app_mid o1 o2 [] rb) by (done || by rewrite L2, (proj1 Br)). mred.
  rewrite memcpy_all by (symmetry; apply Hr). rewrite app_nil_r.
  rewrite (blit_app_mid [] o1 rb rnda) by (done || by rewrite L1, (proj1 Hr)). mred. cbn [app].
  by apply (encrypt_two_in_place _ _ _ HED _ Hun).
Qed.

Lemma auth_check_eq key E D rnda c1 c2 rx : tdes_key key E D → block rnda → block c1 → block c2 → block (drop 1 rx) →
  auth_check u rnda key (c1 ++ c2) rx = Some (bool_decide (rotate rnda = bxor (D (drop 1 rx)) c2)).
Proof.
  intros HED Hr B1 B2 Bx. destruct Hu as [Hun Hbl Ho Hdec _ _]. unfold auth_check.
  rewrite (drop_app_len c1 c2) by (symmetry; apply B1).
  rewrite (decrypt_one _ _ _ HED _ Hun _ Hbl _ _ _ Bx B2 Hdec : ultralight_3des_decrypt _ _ _ _ _ ULTRALIGHT_C_AUTH_RND_BLOCK_SIZE _ = _).
  mred. rewrite shift_data_eq by apply Hr. mred.
  apply memcmp_all; [apply (rotate_block _ Hr)|]. apply (bxor_block _ _ (tk_decrypts _ _ _ HED _ Bx) B2).
Qed.

(** The authentication with any key, whatever the card answers. *)
Lemma authenticate_total rnda key c : R c → block rnda → len key = 16 → bytes key →
  ensures (ultralight_poller_i_authenticate tag_transceive u (Some s) rnda key) c (λ _ c', R c').
Proof.
  intros Hc Hr Hl Hk. destruct (tdes2_functions key Hl Hk) as (E & D & HED). specialize (HED []). rewrite app_nil_r in HED.
  assert (∀ rx : list Z, len rx = 9 → bytes rx → block (drop 1 rx)) as Hblk
    by (intros rx Hn Hb; split; [rewrite len_drop; lia|by apply bytes_drop]).
  eapply ensures_bind; [apply send_auth_total; [done|bytes_list]|]. intros [ret rx] c' (Hc' & Hrx).
  case_bool; [by apply ensures_ret|]. bool_prop. destruct (Hrx E0) as [Hn Hb]. specialize (Hblk rx Hn Hb) as Be.
  unfold ensures. rewrite (auth_output_eq key E D) by done. rewrite run_lift_Some.
  pose proof (tk_inverse _ _ _ HED) as Hinv. pose proof (proj1 (Hinv _ (bxor_block _ _ Hr Be))) as B1.
  set (c1 := E (bxor rnda (drop 1 rx))) in *.
  pose proof (rotate_block _ (bxor_block _ _ (tk_decrypts _ _ _ HED _ Be) zero_block)) as Br.
  pose proof (proj1 (Hinv _ (bxor_block _ _ Br B1))) as B2. set (c2 := E _) in *.
  eapply ensures_bind.
  { apply send_auth_total; [done|]. apply Forall_cons_2; [by split; vm_compute|]. apply Forall_app. split; [apply B1|apply B2]. }
  intros [ret' rx'] c'' (Hc'' & Hrx'). case_bool; [by apply ensures_ret|]. bool_prop. destruct (Hrx' E1) as [Hn' Hb'].
  rewrite (auth_check_eq key E D) by auto. unfold ensures. rewrite run_lift_Some. by eexists _, c''.
Qed.

(** *** The pages *)

Lemma page_ok d page : ul_safe d → 0 <= page < CONFIG_NFC_ULTRALIGHT_MAX_PAGES →
  ∃ p, ld (u_pages d) page = Some p ∧ len p = 4 ∧ bytes p.
Proof.
  intros Hd Hp. pose proof (sf_sizes d Hd) as Hz. destruct (ld_Some (u_pages d) page) as [p Hld]; [rewrite (uz_pages d Hz); lia|].
  exists p. split; [done|]. apply ld_Some_inv in Hld as [_ Hl].
  split; [by apply (Forall_lookup_1 _ _ _ _ (uz_page d Hz) Hl)|by apply (Forall_lookup_1 _ _ _ _ (ub_pages d (sf_bytes d Hd)) Hl)].
Qed.

(** The configuration of a card that is being read. *)
Lemma config_total d : ul_safe d → ∃ ok c, ultralight_parse_config (Some d) (Some config_zero) = Some (ok, Some c) ∧
  len (c_pwd c) = 4 ∧ bytes (c_pwd c).
Proof.
  intros Hd. pose proof (sf_total d Hd) as Ht. pose proof ultralight_max_pages_range. unfold ultralight_parse_config.
  assert (∀ ok : bool, ∃ ok' c, Some (ok, Some config_zero) = Some (ok', Some c) ∧ len (c_pwd c) = 4 ∧ bytes (c_pwd c)) as Hzero.
  { intros ok. eexists _, _. split; [done|]. split; [done|]. apply bytes_zeros. }
  case_bool; [apply Hzero|]. unfold ULTRALIGHT_CONFIG_BLOCK_PAGES. case_bool; [apply Hzero|]. bool_prop.
  unfold ultralight_config_page_indices, ULTRALIGHT_CONFIG_BLOCK_PAGES. rewrite (proj2 (Z.ltb_ge _ _)) by lia.
  rewrite !u16_id by lia. case_bool; [apply Hzero|].
  destruct (page_ok d (u_pages_total d - 4) Hd ltac:(lia)) as (p0 & -> & L0 & _).
  destruct (page_ok d (u_pages_total d - 3) Hd ltac:(lia)) as (p1 & -> & L1 & _).
  destruct (page_ok d (u_pages_total d - 2) Hd ltac:(lia)) as (p2 & -> & L2 & B2).
  destruct (page_ok d (u_pages_total d - 1) Hd ltac:(lia)) as (p3 & -> & L3 & _). mred.
  ld_case 3 a; [lia|]. destruct (ld_Some p1 0) as [acc ->]; [lia|]. mred. cbn [config_zero c_pwd].
  rewrite memcpy_over by done. mred. destruct (ld_Some p3 0) as [k0 ->]; [lia|]. mred.
  destruct (ld_Some p3 1) as [k1 ->]; [lia|]. mred. by eexists _, _.
Qed.

Lemma needs_auth_total c page : ∃ b, ultralight_page_needs_auth (Some c) page = Some b.
Proof. unfold ultralight_page_needs_auth. case_bool; [by eexists|]. mred. case_bool; by eexists. Qed.

Lemma try_pwd_total cfg a c : R c → len (c_pwd cfg) = 4 → bytes (c_pwd cfg) →
  ensures (ultralight_poller_try_pwd_auth tag_transceive (Some s) (Some cfg) a) c (λ _ c', R c').
Proof.
  intros Hc Hl Hb. unfold ultralight_poller_try_pwd_auth. destruct a; [by apply ensures_ret|].
  destruct (c_valid cfg); cbn [negb]; [|by apply ensures_ret].
  eapply ensures_bind; [by apply pwd_auth_total|]. intros ret c' Hc'. case_bool; [by apply ensures_ret|].
  case_bool; [|by apply ensures_ret].
  eapply ensures_bind; [apply pwd_auth_total; [done|done|bytes_list]|]. intros ret' c'' Hc''. case_bool; by apply ensures_ret.
Qed.

(** The four bytes of an answer for the [j]-th page of the window. *)
Definition chunk (buf : list Z) (j : Z) : list Z := take 4 (drop (Z.to_nat (4 * j)) buf).

Lemma chunk_len buf j : len buf = 16 → 0 <= j < 4 → len (chunk buf j) = 4.
Proof. intros Hb Hj. unfold chunk. rewrite len_take, len_drop. lia. Qed.

(** The copy of a window: its pages that exist get their four bytes, no other page changes. *)
Lemma copy_chunk_eq n : ∀ i start total buf pages, len buf = 16 → 0 <= i → i + Z.of_nat n <= 4 → 0 <= start → start + 4 <= 65536 →
  total <= len pages → Forall (λ p, len p = 4) pages →
  ∃ pages', copy_chunk_loop n i start total buf pages = Some pages' ∧ len pages' = len pages ∧
    ∀ k, 0 <= k → pages' !! Z.to_nat k =
      if (start + i <=? k) && (k <? start + i + Z.of_nat n) && (k <? total) then Some (chunk buf (k - start))
      else pages !! Z.to_nat k.
Proof.
  induction n as [|n IH]; intros i start total buf pages Hb Hi Hn H0' Hw Ht Hp.
  { exists pages. split; [done|]. split; [done|]. intros k Hk. case_bool; [|done]. bool_prop. lia. }
  cbn [copy_chunk_loop]. rewrite u16_id by lia. destruct (Z.leb_spec total (start + i)) as [E|E].
  { exists pages. split; [done|]. split; [done|]. intros k Hk. case_bool; [|done]. bool_prop. lia. }
  destruct (ld_Some pages (start + i)) as [p Hld]; [lia|]. rewrite Hld. mred. apply ld_Some_inv in Hld as [_ Hld].
  pose proof (Forall_lookup_1 _ _ _ _ Hp Hld) as Hpl. cbv beta in Hpl.
  rewrite memcpy_ok by (unfold ULTRALIGHT_PAGE_SIZE; lia). unfold ULTRALIGHT_PAGE_SIZE.
  replace (i * 4) with (4 * i) by lia. change (take (Z.to_nat 4) (drop (Z.to_nat (4 * i)) buf)) with (chunk buf i).
  pose proof (chunk_len buf i Hb ltac:(lia)) as Hcl.
  rewrite <-(app_nil_r p), (blit_app_mid [] p [] (chunk buf i)) by (done || by rewrite Hpl, Hcl). mred.
  rewrite app_nil_r. cbn [app]. rewrite st_ok by lia. mred.
  destruct (IH (i + 1) start total buf (<[Z.to_nat (start + i):=chunk buf i]> pages)) as (pages' & -> & Hl' & Hk');
    [done|lia|lia|lia|lia|rewrite len_insert; lia|by apply Forall_insert|].
  exists pages'. split; [done|]. rewrite Hl', len_insert. split; [done|]. intros k Hk. rewrite Hk' by done.
  destruct (Z.eq_dec k (start + i)) as [->|Hne].
  - rewrite (proj2 (Z.leb_gt _ _)) by lia. cbn [andb]. rewrite list_lookup_insert_eq by (unfold len in Ht; lia).
    rewrite !(proj2 (Z.leb_le _ _)), !(proj2 (Z.ltb_lt _ _)) by lia. cbn [andb]. do 2 f_equal. lia.
  - rewrite list_lookup_insert_ne by lia.
    replace (start + (i + 1) <=? k) with (start + i <=? k) by (apply eq_true_iff_eq; rewrite !Z.leb_le; lia).
    by replace (start + (i + 1) + Z.of_nat n) with (start + i + Z.of_nat (S n)) by lia.
Qed.

(** What one window leaves of the card being read. *)
Lemma chunk_safe out start buf : ul_safe out → len buf = 16 → bytes buf → 0 <= start → start + 4 <= 65536 →
  ∃ out', ultralight_poller_copy_read_chunk out start (u_pages_total out) buf = Some out' ∧ ul_safe out' ∧
    u_pages_total out' = u_pages_total out.
Proof.
  intros Hd Hb Hbb H0' Hw. pose proof (sf_sizes out Hd) as Hz. pose proof (sf_total out Hd) as Ht.
  unfold ultralight_poller_copy_read_chunk.
  destruct (copy_chunk_eq 4 0 start (u_pages_total out) buf (u_pages out)) as (pages' & -> & Hl & Hk);
    [done|lia|lia|done|done|rewrite (uz_pages out Hz); lia|apply Hz|]. mred. eexists. split; [done|]. split; [|done].
  assert (∀ j p, pages' !! j = Some p → len p = 4 ∧ bytes p) as Hpages.
  { intros j p Hj. specialize (Hk (Z.of_nat j) ltac:(lia)). rewrite Nat2Z.id, Hj in Hk. revert Hk. case_bool.
    - bool_prop. intros [= ->]. split; [apply chunk_len; (done || lia)|by apply bytes_take, bytes_drop].
    - intros Hp. symmetry in Hp.
      split; [by apply (Forall_lookup_1 _ _ _ _ (uz_page out Hz) Hp)|by apply (Forall_lookup_1 _ _ _ _ (ub_pages out (sf_bytes out Hd)) Hp)]. }
  destruct Hd as [[] [] ? ? ? ? ?]. constructor; [constructor|constructor|..]; try done; cbn.
  - by rewrite Hl.
  - apply Forall_lookup_2. intros j p Hj. by apply (Hpages j).
  - apply Forall_lookup_2. intros j p Hj. by apply (Hpages j).
Qed.

Lemma safe_pages_read n d : ul_safe d → ul_safe (with_pages_read n d).
Proof. intros [[] [] ? ? ? ? ?]. by constructor. Qed.

Lemma read_pages_total n : ∀ start buf a out c, R c → ul_safe out → len buf = 16 → bytes buf →
  0 <= start → start + 4 * Z.of_nat n <= 65536 →
  ensures (read_pages tag_transceive n (Some s) (u_pages_total out) start buf a out) c (λ '(ret, out') c',
    R c' ∧ ret = 0 ∧ ul_safe out' ∧ u_pages_total out' = u_pages_total out).
Proof.
  induction n as [|n IH]; intros start buf a out c Hc Hd Hb Hbb H0' Hw; [by apply ensures_ret|].
  cbn [read_pages]. destruct (config_total out Hd) as (ok & cfg & -> & Hl & Hpb). unfold ensures. rewrite !run_lift_Some.
  destruct (ultralight_config_page_indices _) as [[[config_start ?] ?] ?].
  eapply ensures_bind with (Q := λ _ c', R c').
  { case_bool; [|by apply ensures_ret]. eapply ensures_bind; [by apply try_pwd_total|]. intros [? ?] c' Hc'. by apply ensures_ret. }
  intros a1 c1 Hc1. destruct (needs_auth_total cfg start) as [needs ->]. unfold ensures. rewrite run_lift_Some.
  eapply ensures_bind with (Q := λ _ c', R c').
  { destruct (needs && negb a1); [by apply try_pwd_total|by apply ensures_ret]. }
  intros [ret a2] c2 Hc2. case_bool; [by apply ensures_ret|].
  eapply ensures_bind; [apply read_page_total; (done || apply u8_range)|]. intros [ret2 buf2] c3 (Hc3 & L2 & B2).
  eapply ensures_bind with (Q := λ '(_, buf', _) c', R c' ∧ len buf' = 16 ∧ bytes buf').
  { destruct (negb (ret2 =? 0) && _); [|by apply ensures_ret].
    eapply ensures_bind; [by apply try_pwd_total|]. intros [? a3] c4 Hc4. destruct a3; [|by apply ensures_ret].
    eapply ensures_bind; [apply read_page_total; (done || apply u8_range)|]. intros [ret3 buf3] c5 Hc5. by apply ensures_ret. }
  intros [[ret3 buf3] a3] c4 (Hc4 & L3 & B3). case_bool; [by apply ensures_ret|].
  destruct (chunk_safe out start buf3 Hd L3 B3 H0' ltac:(lia)) as (out' & -> & Hd' & Ht'). unfold ensures.
  rewrite run_lift_Some, <-Ht'. apply IH; (done || lia).
Qed.


Lemma type_from_version_total v : len v = 8 → ∃ t, ultralight_type_from_version v = Some t.
Proof.
  intros Hv. unfold ultralight_type_from_version. case_bool; [by eexists|].
  destruct (ld_Some v 6) as [b ->]; [lia|]. mred. by eexists.
Qed.

(** The second half of the identification, of a card without a known version. *)
Lemma identify_rest (hv : bool) (v : list Z) c : R c → len v = 8 → bytes v →
  ensures (ret ← ultralight_poller_i_authentication_test tag_transceive (Some s);
    if ret =? 0 then mret (0, UL_TYPE_MFUL_C, v, hv) else
    '(ret, _) ← ultralight_poller_i_read_page tag_transceive (Some s) 41 (zeros ULTRALIGHT_READ_RESP_LEN);
    if negb (ret =? 0) then mret (0, UL_TYPE_ORIGIN, v, hv) else mret (0, UL_TYPE_NTAG203, v, hv)) c
    (λ '(ret, type, v', hv') c', R c' ∧ ret = 0 ∧ type ≠ UL_TYPE_UNKNOWN ∧ len v' = 8 ∧ bytes v' ∧ hv' = hv).
Proof.
  intros Hc Hv Hb. eapply ensures_bind with (Q := λ _ c', R c').
  { eapply ensures_bind; [apply send_auth_total; [done|bytes_list]|]. intros [? ?] c' [Hc' _]. by apply ensures_ret. }
  intros ret c' Hc'. case_bool; [by apply ensures_ret|].
  eapply ensures_bind; [apply read_page_total; [done|by split|done|apply bytes_zeros]|].
  intros [ret' ?] c2 (Hc2 & _). case_bool; by apply ensures_ret.
Qed.

Lemma identify_total v c : R c → len v = 8 → bytes v →
  ensures (ultralight_poller_identify_type tag_transceive (Some s) v) c (λ '(ret, type, v', hv) c',
    R c' ∧ ret = 0 ∧ type ≠ UL_TYPE_UNKNOWN ∧ len v' = 8 ∧ bytes v').
Proof.
  intros Hc Hv Hb. eapply ensures_bind; [by apply get_version_total|]. intros [ret v'] c' (Hc' & Hv' & Hb').
  destruct (type_from_version_total v' Hv') as [t Ht]. rewrite Ht.
  assert ((if ret =? 0 then Some t else Some UL_TYPE_UNKNOWN) = Some (if ret =? 0 then t else UL_TYPE_UNKNOWN)) as ->
    by by destruct (ret =? 0).
  unfold ensures. rewrite run_lift_Some.
  destruct (ret =? 0); cbn [andb]; [case_bool_decide; cbn [negb]; [|by apply ensures_ret]|];
    (eapply ensures_weaken; [by apply identify_rest|]; by intros [[[? ?] ?] ?] c2 (? & ? & ? & ? & ? & _)).
Qed.

(** Storing a zero key into zero pages changes nothing. *)
Lemma store_key_zero n : 48 <= n → store_key (replicate (Z.to_nat n) (zeros 4)) (zeros 16) = Some (replicate (Z.to_nat n) (zeros 4)).
Proof.
  intros Hn. unfold store_key. assert (∀ k, mjoin (replicate k (zeros 4)) = zeros (4 * Z.of_nat k)) as Hj.
  { induction k as [|k IH]; [done|]. cbn [replicate]. rewrite mjoin_cons, IH. unfold zeros. rewrite <-replicate_add. f_equal. lia. }
  rewrite Hj. change (ULTRALIGHT_C_KEY_PAGE * ULTRALIGHT_PAGE_SIZE) with 176.
  assert (zeros (4 * Z.of_nat (Z.to_nat n)) = zeros 176 ++ zeros 16 ++ zeros (4 * n - 192)) as ->.
  { unfold zeros. rewrite <-!replicate_add. f_equal. lia. }
  rewrite (blit_app_mid (zeros 176) (zeros 16)) by done. mred. rewrite len_replicate, Z2Nat.id by lia.
  apply mapM_Some_2. apply Forall2_same_length_lookup_2.
  { rewrite length_replicate, length_seqZ. done. }
  intros i x y Hx [-> Hi]%lookup_replicate. apply lookup_seqZ in Hx as [-> Hlt].
  unfold zeros. rewrite <-!replicate_add. unfold ULTRALIGHT_PAGE_SIZE. rewrite sub_ok by llia.
  rewrite drop_replicate, take_replicate. do 2 f_equal. lia.
Qed.

(** The authentication of an Ultralight C leaves a blank card blank. *)
Lemma auth_c_total rnda out c : R c → block rnda → u_pages_read out = 0 → u_pages out = u_pages ultralight_blank →
  48 <= CONFIG_NFC_ULTRALIGHT_MAX_PAGES →
  ensures (ultralight_poller_auth_ultralight_c tag_transceive u (Some s) rnda out) c (λ r c', R c' ∧ r.2 = out).
Proof.
  intros Hc Hr Hn Hp Hmax. unfold ultralight_poller_auth_ultralight_c. rewrite Hn. change (_ <=? 0) with false. cbv iota.
  unfold ensures. rewrite run_lift_Some. eapply ensures_bind; [by apply authenticate_total; [..|apply bytes_zeros]|].
  intros [ret a] c' Hc'. rewrite Hp.
  assert (store_key (u_pages ultralight_blank) (zeros ULTRALIGHT_C_AUTH_DES_KEY_SIZE) = Some (u_pages ultralight_blank)) as ->
    by by apply store_key_zero.
  destruct (_ && _); unfold ensures; rewrite run_lift_Some; eexists _, c'; (split; [done|]); (split; [done|]);
    unfold with_page_array, with_pages; rewrite <-Hp; by destruct out.
Qed.

(** *** What the EV1 commands return *)

Lemma counters_total n : ∀ i out c, R c → ul_safe out → 0 <= i → i + Z.of_nat n <= 3 →
  ensures (read_counters tag_transceive n i (Some s) out) c (λ out' c', R c' ∧ ul_safe out' ∧ u_pages_total out' = u_pages_total out).
Proof.
  induction n as [|n IH]; intros i out c Hc Hd Hi Hn; [by apply ensures_ret|]. cbn [read_counters].
  pose proof (uz_counters _ (sf_sizes out Hd)) as Hl. unfold ULTRALIGHT_COUNTER_NUM in Hl.
  destruct (ld_Some (u_counters out) i) as [x Hx]; [lia|]. unfold ensures. rewrite Hx, run_lift_Some.
  apply ld_Some_inv in Hx as [_ Hx].
  pose proof (Forall_lookup_1 _ _ _ _ (uz_counter _ (sf_sizes out Hd)) Hx) as Hxl.
  pose proof (Forall_lookup_1 _ _ _ _ (ub_counters _ (sf_bytes out Hd)) Hx) as Hxb.
  eapply ensures_bind; [by apply counter_total; [|split; lia|..]|]. intros [ret x'] c' (Hc' & Hl' & Hb').
  rewrite st_ok by lia. unfold ensures. rewrite run_lift_Some. match goal with |- ∃ _ _, read_counters _ _ _ _ ?o _ = _ ∧ _ => apply (IH (i + 1) o) | |- ∃ _ _, read_tearing _ _ _ _ ?o _ = _ ∧ _ => apply (IH (i + 1) o) end; [done| |lia|lia].
  destruct Hd as [[] [] ? ? ? ? ?]. constructor; [constructor|constructor|..]; try done; cbn; unfold ULTRALIGHT_COUNTER_NUM in *.
  - by rewrite len_insert.
  - by apply Forall_insert.
  - by apply Forall_insert.
  - case_bool; [rewrite u8_id by (split; lia)|]; lia.
Qed.

Lemma flags_total n : ∀ i out c, R c → ul_safe out → 0 <= i → i + Z.of_nat n <= 3 →
  ensures (read_tearing tag_transceive n i (Some s) out) c (λ out' c', R c' ∧ ul_safe out' ∧ u_pages_total out' = u_pages_total out).
Proof.
  induction n as [|n IH]; intros i out c Hc Hd Hi Hn; [by apply ensures_ret|]. cbn [read_tearing].
  pose proof (uz_tearing _ (sf_sizes out Hd)) as Hl. unfold ULTRALIGHT_TEARING_FLAG_NUM in Hl.
  destruct (ld_Some (u_tearing_flags out) i) as [x Hx]; [lia|]. unfold ensures. rewrite Hx, run_lift_Some.
  pose proof (ld_byte _ _ _ (ub_tearing _ (sf_bytes out Hd)) Hx) as Hxb.
  eapply ensures_bind; [by apply tearing_total; [|split; lia|..]|]. intros [ret x'] c' (Hc' & Hb').
  rewrite st_ok by lia. unfold ensures. rewrite run_lift_Some. match goal with |- ∃ _ _, read_counters _ _ _ _ ?o _ = _ ∧ _ => apply (IH (i + 1) o) | |- ∃ _ _, read_tearing _ _ _ _ ?o _ = _ ∧ _ => apply (IH (i + 1) o) end; [done| |lia|lia].
  destruct Hd as [[] [] ? ? ? ? ?]. constructor; [constructor|constructor|..]; try done; cbn; unfold ULTRALIGHT_TEARING_FLAG_NUM in *.
  - by rewrite len_insert.
  - by apply bytes_insert.
  - case_bool; [rewrite u8_id by (split; lia)|]; lia.
Qed.

Lemma ev1_total out c : R c → ul_safe out → ensures (read_ev1 tag_transceive (Some s) out) c (λ out' c', R c' ∧ ul_safe out' ∧ u_pages_total out' = u_pages_total out).
Proof.
  intros Hc Hd. unfold read_ev1. eapply ensures_bind.
  { apply signature_total; [done|apply (uz_signature _ (sf_sizes out Hd))|apply (ub_signature _ (sf_bytes out Hd))]. }
  intros [ret sig] c' (Hc' & Hl & Hb). eapply ensures_bind with (Q := λ out' c', R c' ∧ ul_safe out' ∧ u_pages_total out' = u_pages_total out).
  - destruct (ret =? 0); [|by apply counters_total]. apply (counters_total _ _ (with_signature sig out)); try done.
    destruct Hd as [[] [] ? ? ? ? ?]. by constructor.
  - intros out' c2 (Hc2 & Hd' & Ht). eapply ensures_weaken; [by apply flags_total|]. intros o c3 (? & ? & ->). done.
Qed.

Lemma pages_total_type t : type_from_pages_total (ultralight_pages_total_for_type t) = t.
Proof. by destruct t. Qed.

(** What is set before the pages are read. *)
Lemma start_safe t : t ≠ UL_TYPE_UNKNOWN → ultralight_pages_total_for_type t <= CONFIG_NFC_ULTRALIGHT_MAX_PAGES →
  ul_safe (with_variant (variant_from_type t)
    (with_pages (ultralight_pages_total_for_type t) t (u_pages ultralight_blank) ultralight_blank)).
Proof.
  intros Ht Hn. destruct blank_ok as [[] [] ? ? ? ? ?].
  constructor; [constructor|constructor|..]; try done; cbn; [|by rewrite pages_total_type|apply variant_from_type_byte].
  split; [by destruct t|done].
Qed.

Lemma identified_total rnda t v hv c : R c → block rnda → t ≠ UL_TYPE_UNKNOWN → len v = 8 → bytes v →
  ultralight_pages_total_for_type t <= CONFIG_NFC_ULTRALIGHT_MAX_PAGES →
  ensures (read_identified tag_transceive u rnda (Some s) t v hv) c (λ '(ret, out) c',
    R c' ∧ ret = 0 ∧ ∃ d, out = Some d ∧ ul_safe d ∧ u_pages_total d = ultralight_pages_total_for_type t).
Proof.
  intros Hc Hr Ht Hv Hb Hmax. unfold read_identified. rewrite (proj2 (Z.eqb_neq _ _)) by by destruct t.
  pose proof (start_safe t Ht Hmax) as Hd. set (d := with_variant _ _) in *.
  set (d1 := if hv then with_version v d else d).
  assert ((if hv then v0 ← memcpy (u_version d) 0 v 0 ULTRALIGHT_VERSION_SIZE; Some (with_version v0 d) else Some d) = Some d1) as ->.
  { subst d1. destruct hv; [|done]. by rewrite memcpy_over by (done || apply (uz_version _ (sf_sizes d Hd))). }
  unfold ensures. rewrite run_lift_Some.
  assert (ul_safe d1) as Hd1 by (subst d1; destruct hv; [|done]; destruct Hd as [[] [] ? ? ? ? ?]; by constructor).
  assert (u_pages_total d1 = ultralight_pages_total_for_type t) as Ht1 by by subst d1; destruct hv.
  eapply ensures_bind with (Q := λ o c', R c' ∧ o = d1).
  { case_bool_decide as Hmf; [|by apply ensures_ret]. eapply ensures_bind.
    { apply (auth_c_total rnda d1); try done; [by subst d1; destruct hv..|]. by rewrite Hmf in Hmax. }
    intros r c2 [Hc2 ->]. by apply ensures_ret. }
  intros ? c2 [Hc2 ->]. eapply ensures_bind.
  { unfold ultralight_poller_read_pages. rewrite <-Ht1.
    apply (read_pages_total _ 0 (pl_page_buf u) false (with_pages_read 0 d1)); try done;
      [by apply safe_pages_read|apply (plo_page_buf Hu)|apply (plo_page_buf Hu)|]. destruct Hd1 as [? ? Hr1 ? ? ? ?].
    pose proof ultralight_max_pages_range. dlia. }
  intros [ret out] c3 (Hc3 & -> & Hd3 & Ht3). cbn [negb Z.eqb].
  assert (u_pages_total out = ultralight_pages_total_for_type t) as Htt by (rewrite Ht3; exact Ht1).
  case_bool; [apply ensures_ret; eauto 10|]. destruct hv; [|apply ensures_ret; eauto 10].
  eapply ensures_bind; [by apply ev1_total|]. intros o c4 (Hc4 & Ho & Ht4). apply ensures_ret.
  split; [done|]. split; [done|]. exists o. by rewrite Ht4.
Qed.

Lemma poller_read_total rnda out0 c : R c → block rnda →
  (∀ t, ultralight_pages_total_for_type t <= CONFIG_NFC_ULTRALIGHT_MAX_PAGES) →
  ensures (ultralight_poller_read tag_transceive u rnda (Some s) (Some out0)) c (λ '(ret, out) c',
    R c' ∧ ret = 0 ∧ ∃ d, out = Some d ∧ ul_safe d ∧ 0 < u_pages_total d).
Proof.
  intros Hc Hr Hmax. unfold ultralight_poller_read, ultralight_poller_session_valid. rewrite Hs. cbn [negb Z.eqb].
  destruct (plo_version Hu) as [Hvl Hvb]. eapply ensures_bind; [by apply identify_total|].
  intros [[[ret t] v] hv] c1 (Hc1 & -> & Ht & Hv & Hb). cbn [negb Z.eqb].
  eapply ensures_weaken; [by apply identified_total|]. intros [ret o] c' (? & ? & d & ? & ? & Hd).
  split; [done|]. split; [done|]. exists d. split_and!; [done|done|]. rewrite Hd. by destruct t.
Qed.
End UPollerSafe.

(** The Ultralight poller is safe against any card: in a build whose page array holds the
    largest known type (231 pages), whatever the card answers, [ultralight_poller_read] ends
    with result 0 and leaves in the caller's structure a well-formed card of a known type (the
    counts inside the arrays, the type that of the number of pages); no access leaves an
    object, and what the uninitialized automatic arrays held does not matter. *)
Theorem ultralight_poller_read_safe `{KconfigRanges} {C : Type} (tag_transceive : list Z → M C (Z * list Z))
    (R : C → Prop) u s rnda out0 c :
  CardWhile tag_transceive R → up_locals_ok u → ses_active s = true → block rnda →
  231 <= CONFIG_NFC_ULTRALIGHT_MAX_PAGES → R c →
  ∃ d c', ultralight_poller_read tag_transceive u rnda (Some s) (Some out0) c = Some ((0, Some d), c') ∧
    R c' ∧ ul_safe d ∧ 0 < u_pages_total d.
Proof.
  intros Hcard Hu Hs Hr Hmax Hc.
  destruct (poller_read_total tag_transceive u R Hu s Hs rnda out0 c Hc Hr) as ([ret o] & c' & Hrun & Hc' & -> & d & -> & Hd & Hp);
    [intros []; cbn; lia|]. by exists d, c'.
Qed.
