(* ===== verification/UltralightLoopback.v ===== *)
(** * Reading an emulated Ultralight card

    The Ultralight poller of one device in front of the Type 2 Tag listener of another, and the
    mutual authentication of the two; the interface between them is [ReadableT2], what the poller
    needs of a card to read it completely. *)

From stdpp Require Import base list numbers option gmap.
From S2P Require Import Prelude Kconfig Apdu Service Serial Ultralight UltralightNdef Des TripleDes UltralightT2 Session NdefPoller UltralightPoller.

(** ** A card that can be read completely *)

Section Readable.
Context `{KconfigRanges} {C : Type} (tag_transceive : list Z → M C (Z * list Z)).

(** The answer to a command, or an error of the transport where the card is silent. *)
Definition replies (tx : list Z) (r : option (list Z)) (c c' : C) : Prop :=
  ∃ ret rx, tag_transceive tx c = Some ((ret, rx), c') ∧
    match r with Some d => ret = 0 ∧ rx = d | None => ret ≠ 0 end.

(** While [R] holds, the card behaves as a Type 2 Tag with the contents [m], whose pages can be
    read without a password. *)
Class ReadableT2 (m : ultralight_data_t) (R : C → Prop) : Prop := {
  rt_while :: CardWhile tag_transceive R;
  rt_read c p : R c → is_byte p → ∃ c', replies [ULTRALIGHT_CMD_READ; p] (Some (mjoin (t2_page m <$> t2_window p))) c c' ∧ R c';
  rt_version c : R c → ∃ c', replies [ULTRALIGHT_CMD_GET_VERSION] (if u_has_version m then Some (u_version m) else None) c c' ∧ R c';
  rt_signature c : R c → ∃ c', replies [ULTRALIGHT_CMD_READ_SIG; 0x00] (if u_has_signature m then Some (u_signature m) else None) c c' ∧ R c';
  rt_counter c i : R c → is_byte i →
    ∃ c', replies [ULTRALIGHT_CMD_READ_CNT; i] (if i <? u_counter_count m then ld (u_counters m) i else None) c c' ∧ R c';
  rt_tearing c i : R c → is_byte i →
    ∃ c', replies [ULTRALIGHT_CMD_CHECK_TEARING; i]
      (if i <? u_tearing_flag_count m then f ← ld (u_tearing_flags m) i; Some [f] else None) c c' ∧ R c';
  rt_auth c : R c → u_type m = UL_TYPE_MFUL_C →
    ∃ e c', replies [ULTRALIGHT_CMD_AUTH; 0x00] (Some (ULTRALIGHT_CMD_AUTH_CONT :: e)) c c' ∧ len e = 8 ∧ bytes e ∧ R c';
}.

(** The card needs no password for reading: AUTH0 is off or the protection bit is clear. *)
Definition open_card (m : ultralight_data_t) : Prop :=
  ultralight_type_has_password_config (u_type m) = true → ∀ auth0 access,
    page_byte m (u_pages_total m - 4) 3 = Some auth0 → page_byte m (u_pages_total m - 3) 0 = Some access →
    auth0 = ULTRALIGHT_AUTH0_NONE ∨ Z.testbit access 7 = false.

Context (m : ultralight_data_t) (Hm : ul_safe m) (Hopen : open_card m) (Hload : ul_loaded m = m).
Context (R : C → Prop) `{!ReadableT2 m R} (u : up_locals) (Hu : up_locals_ok u).
Context (s : session) (Hs : ses_active s = true).

(** *** Commands *)

Lemma utransceive_replies tx r c c' : replies tx r c c' → (∀ d, r = Some d → len d <= NFC_TRANSPORT_MAX_RESPONSE_LEN) →
  ∃ ret rx, ultralight_poller_i_transceive tag_transceive (Some s) tx NFC_TRANSPORT_MAX_RESPONSE_LEN c = Some ((ret, rx), c') ∧
    match r with Some d => ret = 0 ∧ rx = d | None => ret ≠ 0 end.
Proof.
  intros (ret & rx & Hrun & Hr) Hl. unfold ultralight_poller_i_transceive, nfc_reader_session_transceive. rewrite Hs.
  cbn [negb]. rewrite (run_call _ _ _ _ _ Hrun). exists ret, rx. split; [|done]. destruct r as [d|].
  - destruct Hr as [-> ->]. cbn [Z.eqb negb]. by rewrite (proj2 (Z.ltb_ge _ _)) by by apply Hl.
  - by rewrite (proj2 (Z.eqb_neq _ _)).
Qed.

Lemma fill_replies tx n (out d : list Z) c c' : replies tx (Some d) c c' → len d = n → len out = n →
  n <= NFC_TRANSPORT_MAX_RESPONSE_LEN →
  ('(ret, rx) ← ultralight_poller_i_transceive tag_transceive (Some s) tx NFC_TRANSPORT_MAX_RESPONSE_LEN;
    if negb (ret =? 0) then mret (ret, out) else
    if len rx <? n then mret (- EIO, out) else
    out ← lift (memcpy out 0 rx 0 n); mret (0, out)) c = Some ((0, d), c').
Proof.
  intros Hr Hd Ho Hn. destruct (utransceive_replies tx (Some d) c c' Hr) as (ret & rx & Hrun & -> & ->).
  { intros ? [= <-]. lia. }
  rewrite (run_call _ _ _ _ _ Hrun). cbn [Z.eqb negb]. rewrite (proj2 (Z.ltb_ge _ _)) by lia.
  by rewrite memcpy_over by done.
Qed.

Lemma silent_replies {A} tx (out : A) (k : list Z → M C (Z * A)) c c' : replies tx None c c' →
  ∃ ret, ret ≠ 0 ∧ ('(ret, rx) ← ultralight_poller_i_transceive tag_transceive (Some s) tx NFC_TRANSPORT_MAX_RESPONSE_LEN;
    if negb (ret =? 0) then mret (ret, out) else k rx) c = Some ((ret, out), c').
Proof.
  intros Hr. destruct (utransceive_replies tx None c c' Hr) as (ret & rx & Hrun & Hne); [done|].
  exists ret. split; [done|]. rewrite (run_call _ _ _ _ _ Hrun). by rewrite (proj2 (Z.eqb_neq _ _)).
Qed.

Lemma window_len p : 0 <= p → len (mjoin (t2_page m <$> t2_window p)) = 16.
Proof.
  intros Hp. rewrite (mjoin_len _ 4); [done|]. unfold t2_window. rewrite !fmap_cons, fmap_nil.
  repeat (apply Forall_cons_2; [apply t2_page_len; (done || lia)|]). apply Forall_nil_2.
Qed.

Lemma window_bytes p : 0 <= p → bytes (mjoin (t2_page m <$> t2_window p)).
Proof.
  intros Hp. apply Forall_join. unfold t2_window. rewrite !fmap_cons, fmap_nil.
  repeat (apply Forall_cons_2; [apply t2_page_len; (done || lia)|]). apply Forall_nil_2.
Qed.

Lemma read_page_exact p buf c : R c → is_byte p → len buf = 16 →
  ∃ c', ultralight_poller_i_read_page tag_transceive (Some s) p buf c = Some ((0, mjoin (t2_page m <$> t2_window p)), c') ∧ R c'.
Proof.
  intros Hc Hp Hb. destruct (rt_read c p Hc Hp) as (c' & Hr & Hc'). exists c'. split; [|done].
  apply (fill_replies _ 16); try done. apply window_len. apply Hp.
Qed.

(** *** Pages *)

Lemma chunk_four (a b c d : list Z) : len a = 4 → len b = 4 → len c = 4 → len d = 4 →
  ∀ j, 0 <= j < 4 → [a; b; c; d] !! Z.to_nat j = Some (chunk (a ++ b ++ c ++ d) j).
Proof.
  intros Ha Hb Hc Hd j Hj. unfold len in *.
  assert (∀ l : list Z, Z.of_nat (length l) = 4 → ∃ x0 x1 x2 x3, l = [x0; x1; x2; x3]) as H4.
  { intros l Hl. destruct l as [|x0 [|x1 [|x2 [|x3 [|]]]]]; try (exfalso; cbn in Hl; lia). eauto. }
  destruct (H4 a Ha) as (? & ? & ? & ? & ->), (H4 b Hb) as (? & ? & ? & ? & ->), (H4 c Hc) as (? & ? & ? & ? & ->), (H4 d Hd) as (? & ? & ? & ? & ->).
  assert (j = 0 ∨ j = 1 ∨ j = 2 ∨ j = 3) as [Ej|[Ej|[Ej|Ej]]] by lia; by rewrite Ej.
Qed.

Lemma chunk_window p j : 0 <= p → 0 <= j < 4 → chunk (mjoin (t2_page m <$> t2_window p)) j = t2_page m (p + j).
Proof.
  intros Hp Hj. pose proof (λ q Hq, proj1 (t2_page_len m q Hm Hq)) as Hl.
  pose proof (chunk_four _ _ _ _ (Hl p ltac:(lia)) (Hl (p + 1) ltac:(lia)) (Hl (p + 2) ltac:(lia)) (Hl (p + 3) ltac:(lia)) j Hj) as Hc.
  unfold t2_window. rewrite !fmap_cons, fmap_nil. cbn [mjoin list_join]. rewrite app_nil_r.
  apply (inj Some). rewrite <-Hc. assert (j = 0 ∨ j = 1 ∨ j = 2 ∨ j = 3) as [Ej|[Ej|[Ej|Ej]]] by lia; rewrite Ej; cbn; by rewrite ?Z.add_0_r.
Qed.

(** The page array once the first [k] pages are read. *)
Definition upto (k : Z) : list (list Z) := take (Z.to_nat k) (u_pages m) ++ drop (Z.to_nat k) (u_pages ultralight_blank).

Lemma pages_length : length (u_pages m) = Z.to_nat CONFIG_NFC_ULTRALIGHT_MAX_PAGES ∧
  length (u_pages ultralight_blank) = Z.to_nat CONFIG_NFC_ULTRALIGHT_MAX_PAGES.
Proof.
  pose proof (uz_pages _ (sf_sizes m Hm)). pose proof (uz_pages _ (sf_sizes _ blank_ok)). unfold len in *. lia.
Qed.

Lemma lookup_upto k j : upto k !! j = if (j <? Z.to_nat k)%nat then u_pages m !! j else u_pages ultralight_blank !! j.
Proof.
  destruct pages_length as [Hl Hb]. unfold upto. destruct (Nat.ltb_spec j (Z.to_nat k)).
  - destruct (decide (j < length (u_pages m))%nat) as [Hj|Hj].
    + rewrite lookup_app_l by (rewrite length_take; lia). by apply lookup_take_lt.
    + rewrite lookup_app_r by (rewrite length_take; lia). rewrite lookup_drop.
      rewrite !lookup_ge_None_2 by (rewrite ?length_take; lia). done.
  - destruct (decide (Z.to_nat k <= length (u_pages m))%nat) as [Hk|Hk].
    + rewrite lookup_app_r by (rewrite length_take; lia). rewrite lookup_drop, length_take. f_equal. lia.
    + rewrite !lookup_ge_None_2 by (rewrite ?length_app, ?length_take, ?length_drop; lia). done.
Qed.

Lemma pages_beyond j : (Z.to_nat (u_pages_total m) <= j)%nat → u_pages m !! j = u_pages ultralight_blank !! j.
Proof.
  intros Hj. pose proof (sf_total m Hm). destruct pages_length as [Hl _].
  rewrite <-Hload at 1. unfold ul_loaded, ul_pages_of. cbn [u_pages].
  rewrite lookup_app_r by (rewrite length_take; lia). rewrite lookup_drop, length_take. f_equal. lia.
Qed.

Lemma upto_all k : u_pages_total m <= k → upto k = u_pages m.
Proof.
  intros Hk. apply list_eq. intros j. rewrite lookup_upto. case_bool; [done|].
  symmetry. apply pages_beyond. apply Nat.ltb_ge in E. pose proof (sf_total m Hm). lia.
Qed.

Lemma upto_len k : len (upto k) = CONFIG_NFC_ULTRALIGHT_MAX_PAGES.
Proof.
  destruct pages_length as [Hl Hb]. pose proof ultralight_max_pages_range. unfold upto.
  rewrite len_app, len_take, len_drop. unfold len. rewrite Hl, Hb. lia.
Qed.

Lemma upto_pages k : Forall (λ p, len p = 4) (upto k).
Proof.
  apply Forall_app. split; [apply Forall_take, (uz_page _ (sf_sizes m Hm))|apply Forall_drop, (uz_page _ (sf_sizes _ blank_ok))].
Qed.

Lemma copy_window start : 0 <= start → start + 4 <= 65536 →
  copy_chunk_loop 4 0 start (u_pages_total m) (mjoin (t2_page m <$> t2_window start)) (upto start) = Some (upto (start + 4)).
Proof.
  intros H0' Hw. pose proof (sf_total m Hm) as Ht. destruct pages_length as [Hl _].
  destruct (copy_chunk_eq 4 0 start (u_pages_total m) (mjoin (t2_page m <$> t2_window start)) (upto start)) as (p' & -> & _ & Hk);
    [by apply window_len|lia|lia|done|done|rewrite upto_len; lia|apply upto_pages|].
  f_equal. apply list_eq. intros j. specialize (Hk (Z.of_nat j) ltac:(lia)). rewrite Nat2Z.id in Hk. rewrite Hk. clear Hk.
  rewrite !lookup_upto. destruct (_ && _ && _) eqn:E.
  - bool_prop. rewrite chunk_window by lia. replace (start + (Z.of_nat j - start)) with (Z.of_nat j) by lia.
    rewrite (proj2 (Nat.ltb_lt _ _)) by lia. unfold t2_page. rewrite (proj2 (Z.ltb_lt _ _)) by done.
    unfold ld. rewrite (proj2 (Z.leb_le _ _)), Nat2Z.id by lia.
    destruct (lookup_lt_is_Some_2 (u_pages m) j ltac:(lia)) as [x ->]. done.
  - destruct (Nat.ltb_spec j (Z.to_nat start)), (Nat.ltb_spec j (Z.to_nat (start + 4))); try done; [lia|].
    symmetry. apply pages_beyond. rewrite andb_false_iff, andb_false_iff, Z.leb_gt, !Z.ltb_ge in E. lia.
Qed.

(** A card whose first [k] pages are read: the configuration seen so far asks for no password. *)
Lemma config_partial out k : ul_safe out → u_pages out = upto k → u_pages_read out = k → 0 <= k →
  u_type out = u_type m → u_pages_total out = u_pages_total m →
  ∃ ok c, ultralight_parse_config (Some out) (Some config_zero) = Some (ok, Some c) ∧ len (c_pwd c) = 4 ∧ bytes (c_pwd c) ∧
    ∀ page, ultralight_page_needs_auth (Some c) page = Some false.
Proof.
  intros Hd Hp Hr H0' Hty Htot. destruct (config_total out Hd) as (ok & c & Hrun & Hl & Hb). exists ok, c. split_and!; try done.
  intros page. pose proof (sf_total m Hm) as Ht. pose proof ultralight_max_pages_range. revert Hrun. unfold ultralight_parse_config.
  assert (∀ ok' : bool, Some (ok', Some config_zero) = Some (ok, Some c) → ultralight_page_needs_auth (Some c) page = Some false)
    as Hzero by by intros ok' [= _ <-].
  rewrite Hty, Htot. destruct (ultralight_type_has_password_config (u_type m)) eqn:Hpw; cbn [negb]; [|apply Hzero].
  unfold ULTRALIGHT_CONFIG_BLOCK_PAGES. case_bool; [apply Hzero|]. bool_prop.
  unfold ultralight_config_page_indices, ULTRALIGHT_CONFIG_BLOCK_PAGES. rewrite (proj2 (Z.ltb_ge _ _)) by lia.
  rewrite !u16_id by lia. rewrite Hr. case_bool; [apply Hzero|]. bool_prop.
  destruct (page_ok m (u_pages_total m - 4) Hm ltac:(lia)) as (p0 & Hp0 & L0 & _).
  destruct (page_ok m (u_pages_total m - 3) Hm ltac:(lia)) as (p1 & Hp1 & L1 & _).
  assert (∀ q x, 0 <= q → q < k → ld (u_pages m) q = Some x → ld (u_pages out) q = Some x) as Hread.
  { intros q x Hq Hk [_ Hx]%ld_Some_inv. apply ld_eq; [done|]. rewrite Hp, lookup_upto. by rewrite (proj2 (Nat.ltb_lt _ _)) by lia. }
  rewrite (Hread (u_pages_total m - 4) p0 ltac:(lia) ltac:(lia) Hp0). mred. destruct (ld_Some p0 3) as [auth0 Ha]; [lia|]. rewrite Ha. mred.
  destruct (page_ok out (u_pages_total m - 3) Hd ltac:(lia)) as (p1' & Hp1' & L1' & _). rewrite Hp1'. mred.
  destruct (ld_Some p1' 0) as [access' Hacc']; [lia|]. rewrite Hacc'. mred.
  destruct (page_ok out (u_pages_total m - 2) Hd ltac:(lia)) as (p2 & -> & L2 & _). mred. rewrite memcpy_over by done. mred.
  destruct (page_ok out (u_pages_total m - 1) Hd ltac:(lia)) as (p3 & -> & L3 & _). mred.
  destruct (ld_Some p3 0) as [k0 ->]; [lia|]. mred. destruct (ld_Some p3 1) as [k1 ->]; [lia|]. mred.
  intros [= _ <-]. unfold ultralight_page_needs_auth. cbn [ultralight_read_protection_enabled c_valid c_auth0 negb].
  destruct (Z.eqb_spec auth0 ULTRALIGHT_AUTH0_NONE) as [|Hne]; [done|]. cbn [negb]. mred. cbn [c_prot]. rewrite land_128.
  assert (Z.testbit access' 7 = false) as ->; [|done].
  destruct (Z.ltb_spec (u_pages_total m - 3) k) as [Hin|Hout].
  - rewrite (Hread (u_pages_total m - 3) p1 ltac:(lia) Hin Hp1) in Hp1'. injection Hp1' as <-.
    destruct (Hopen Hpw auth0 access') as [|]; [| |done|done].
    + unfold page_byte. rewrite Hp0. done.
    + unfold page_byte. rewrite Hp1. done.
  - apply ld_Some_inv in Hp1' as [_ Hp1']. rewrite Hp, lookup_upto in Hp1'. rewrite (proj2 (Nat.ltb_ge _ _)) in Hp1' by lia.
    apply lookup_replicate in Hp1' as [-> _]. by injection Hacc' as <-.
Qed.

(** The loop over the pages reads them all. *)
Lemma read_pages_exact n : ∀ start buf a out c, R c → ul_safe out → len buf = 16 → bytes buf → 0 <= start →
  start + 4 * Z.of_nat n <= 256 → u_pages_total m <= start + 4 * Z.of_nat n → (n ≠ O → start < u_pages_total m - 4 * (Z.of_nat n - 1)) →
  u_type out = u_type m → u_pages_total out = u_pages_total m → u_pages out = upto start →
  u_pages_read out = Z.min start (u_pages_total m) →
  ∃ c', read_pages tag_transceive n (Some s) (u_pages_total m) start buf a out c =
    Some ((0, with_pages_read (u_pages_total m) (with_page_array (u_pages m) out)), c') ∧ R c'.
Proof.
  induction n as [|n IH]; intros start buf a out c Hc Hd Hb Hbb H0' Hw Hend Hlast Hty Htot Hp Hr.
  { exists c. split; [|done]. rewrite upto_all in Hp by lia. rewrite <-Hp. replace (u_pages_total m) with (u_pages_read out) by lia.
    unfold with_page_array. by destruct out. }
  specialize (Hlast ltac:(done)). cbn [read_pages]. assert (u_pages_read out = start) as Hr' by lia.
  destruct (config_partial out start Hd Hp Hr' H0' Hty Htot) as (ok & cfg & -> & Hl & Hpb & Hna). rewrite !run_lift_Some.
  destruct (ultralight_config_page_indices _) as [[[config_start ?] ?] ?].
  match goal with |- context [((if ?b then _ else _) ≫= _) c] => set (cond := b) end.
  destruct (try_pwd_total tag_transceive R s Hs cfg a c Hc Hl Hpb) as ([ret0 a0] & c0 & Hrun0 & Hc0).
  assert (∃ a1 c1, (if cond then '(_, a) ← ultralight_poller_try_pwd_auth tag_transceive (Some s) (Some cfg) a; mret a else mret a) c
    = Some (a1, c1) ∧ R c1) as (a1 & c1 & Hrun1 & Hc1).
  { destruct cond; [|by eexists _, _]. rewrite (run_call _ _ _ _ _ Hrun0). by eexists _, _. }
  rewrite (run_call _ _ _ _ _ Hrun1), Hna, run_lift_Some. cbn [andb]. rewrite run_ret. cbn [negb Z.eqb].
  destruct (read_page_exact start buf c1 Hc1 ltac:(split; lia) Hb) as (c2 & Hrun2 & Hc2).
  rewrite u8_id by (split; lia). rewrite (run_call _ _ _ _ _ Hrun2). cbn [negb Z.eqb andb]. rewrite run_ret. cbn [negb Z.eqb].
  destruct (chunk_safe out start (mjoin (t2_page m <$> t2_window start)) Hd) as (out' & Hcopy & Hd' & Ht');
    [apply window_len; lia|apply window_bytes; lia|lia|lia|]. rewrite Htot in Hcopy. rewrite Hcopy, run_lift_Some.
  unfold ultralight_poller_copy_read_chunk in Hcopy. rewrite Hp, copy_window in Hcopy by lia. revert Hcopy. mred.
  intros [= <-]. destruct (IH (start + 4) (mjoin (t2_page m <$> t2_window start)) a1 _ c2 Hc2 Hd') as (c3 & Hrun3 & Hc3);
    [apply window_len; lia|apply window_bytes; lia|..].
  all: try (cbn; done || lia).
  - cbn. destruct (Z.ltb_spec (start + 4) (u_pages_total m)); [rewrite u16_id by lia|]; lia.
  - exists c3. split; [|done]. rewrite Hrun3. by destruct out.
Qed.

(** *** Counters, flags and signature *)

Lemma blank_beyond {A} n (l b : list A) i : take (Z.to_nat n) l ++ drop (length (take (Z.to_nat n) l)) b = l →
  0 <= n <= len l → n <= i → ld l i = ld b i.
Proof.
  intros Hl Hn Hi. unfold ld. rewrite (proj2 (Z.leb_le _ _)) by lia. rewrite <-Hl at 1. unfold len in Hn.
  rewrite lookup_app_r by (rewrite length_take; lia). rewrite lookup_drop, length_take. f_equal. lia.
Qed.

Lemma loaded_counters : take (Z.to_nat (u_counter_count m)) (u_counters m) ++
  drop (length (take (Z.to_nat (u_counter_count m)) (u_counters m))) (u_counters ultralight_blank) = u_counters m.
Proof. exact (f_equal u_counters Hload). Qed.

Lemma loaded_flags : take (Z.to_nat (u_tearing_flag_count m)) (u_tearing_flags m) ++
  drop (length (take (Z.to_nat (u_tearing_flag_count m)) (u_tearing_flags m))) (u_tearing_flags ultralight_blank) = u_tearing_flags m.
Proof. exact (f_equal u_tearing_flags Hload). Qed.

Lemma counters_exact n : ∀ i out c, R c → 0 <= i → i + Z.of_nat n = 3 →
  u_counters out = mix i (u_counters m) (u_counters ultralight_blank) → u_counter_count out = Z.min i (u_counter_count m) →
  ∃ c', read_counters tag_transceive n i (Some s) out c = Some (with_counters (u_counter_count m) (u_counters m) out, c') ∧ R c'.
Proof.
  pose proof (uz_counters _ (sf_sizes m Hm)) as Hl. pose proof (sf_counter_count m Hm) as Hn. unfold ULTRALIGHT_COUNTER_NUM in *.
  assert (length (u_counters m) = length (u_counters ultralight_blank)) as Hlb
    by (unfold len in Hl; change (length (u_counters ultralight_blank)) with 3%nat; lia).
  induction n as [|n IH]; intros i out c Hc Hi Hend Hcs Hcnt.
  { exists c. split; [|done]. rewrite mix_all in Hcs by lia. rewrite <-Hcs. replace (u_counter_count m) with (u_counter_count out) by lia.
    by destruct out. }
  cbn [read_counters]. rewrite Hcs, mix_lookup by done.
  destruct (ld_Some (u_counters ultralight_blank) i) as [z Hz]; [change (len (u_counters ultralight_blank)) with 3; lia|]. rewrite Hz, run_lift_Some.
  destruct (ld_Some (u_counters m) i) as [x Hx]; [lia|].
  assert (len z = 3) as Hzl.
  { apply ld_Some_inv in Hz as [_ Hz]. by apply (Forall_lookup_1 _ _ _ _ (uz_counter _ (sf_sizes _ blank_ok)) Hz). }
  destruct (rt_counter c i Hc ltac:(split; lia)) as (c' & Hrep & Hc'). destruct (Z.ltb_spec i (u_counter_count m)).
  - rewrite Hx in Hrep. assert (len x = 3) as Hxl.
    { apply ld_Some_inv in Hx as [_ Hx']. by apply (Forall_lookup_1 _ _ _ _ (uz_counter _ (sf_sizes m Hm)) Hx'). }
    pose proof (fill_replies _ 3 z x c c' Hrep Hxl Hzl ltac:(done)) as Hrun.
    unfold ultralight_poller_i_read_counter. rewrite (run_call _ _ _ _ _ Hrun). rewrite mix_step by done. rewrite run_lift_Some.
    cbn [Z.eqb]. rewrite u8_id by (split; lia).
    destruct (IH (i + 1) (with_counters (i + 1) (mix (i + 1) (u_counters m) (u_counters ultralight_blank)) out) c')
      as (c2 & Hrun2 & Hc2); [done|lia|lia|done|cbn; lia|]. exists c2. split; [|done]. rewrite Hrun2. by destruct out.
  - destruct (silent_replies _ z (λ rx, if len rx <? 3 then mret (- EIO, z) else out ← lift (memcpy z 0 rx 0 3); mret (0, out)) c c' Hrep)
      as (ret & Hne & Hrun).
    unfold ultralight_poller_i_read_counter. rewrite (run_call _ _ _ _ _ Hrun). rewrite (proj2 (Z.eqb_neq _ _)) by done.
    assert (z = x) as ->.
    { rewrite (blank_beyond _ _ _ i loaded_counters) in Hx by lia. congruence. }
    rewrite mix_step by done. rewrite run_lift_Some.
    destruct (IH (i + 1) (with_counters (u_counter_count out) (mix (i + 1) (u_counters m) (u_counters ultralight_blank)) out) c')
      as (c2 & Hrun2 & Hc2); [done|lia|lia|done|cbn; lia|]. exists c2. split; [|done]. rewrite Hrun2. by destruct out.
Qed.

(** One tearing flag: read where the card has it, zero and left alone where not. *)
Lemma tearing_exact i c : R c → 0 <= i < 3 →
  ∃ ret f c', ultralight_poller_i_read_tearing tag_transceive (Some s) i 0 c = Some ((ret, f), c') ∧ R c' ∧
    ld (u_tearing_flags m) i = Some f ∧ (ret =? 0) = (i <? u_tearing_flag_count m).
Proof.
  intros Hc Hi. pose proof (uz_tearing _ (sf_sizes m Hm)) as Hl. pose proof (sf_tearing_count m Hm) as Hn.
  unfold ULTRALIGHT_TEARING_FLAG_NUM in *. destruct (ld_Some (u_tearing_flags m) i) as [x Hx]; [lia|].
  destruct (rt_tearing c i Hc ltac:(split; lia)) as (c' & Hrep & Hc'). unfold ultralight_poller_i_read_tearing.
  destruct (Z.ltb_spec i (u_tearing_flag_count m)).
  - rewrite Hx in Hrep. mred in Hrep. destruct (utransceive_replies _ _ c c' Hrep) as (ret & rx & Hrun & -> & ->);
      [by intros ? [= <-]|]. rewrite (run_call _ _ _ _ _ Hrun). by exists 0, x, c'.
  - destruct (silent_replies _ 0 (λ rx, if len rx <? 1 then mret (- EIO, 0) else f ← lift (ld rx 0); mret (0, f)) c c' Hrep)
      as (ret & Hne & Hrun).
    rewrite (blank_beyond _ _ _ i loaded_flags) in Hx by lia. rewrite (blank_beyond _ _ _ i loaded_flags) by lia.
    change (u_tearing_flags ultralight_blank) with [0; 0; 0] in *.
    assert (x = 0) as -> by (assert (i = 0 ∨ i = 1 ∨ i = 2) as [Ei|[Ei|Ei]] by lia; rewrite Ei in Hx; by injection Hx as <-).
    exists ret, 0, c'. split; [exact Hrun|]. by rewrite (proj2 (Z.eqb_neq _ _)).
Qed.

Lemma flags_exact n : ∀ i out c, R c → 0 <= i → i + Z.of_nat n = 3 →
  u_tearing_flags out = mix i (u_tearing_flags m) (u_tearing_flags ultralight_blank) →
  u_tearing_flag_count out = Z.min i (u_tearing_flag_count m) →
  ∃ c', read_tearing tag_transceive n i (Some s) out c =
    Some (with_tearing (u_tearing_flag_count m) (u_tearing_flags m) (u_pages_read out) out, c') ∧ R c'.
Proof.
  pose proof (uz_tearing _ (sf_sizes m Hm)) as Hl. pose proof (sf_tearing_count m Hm) as Hn. unfold ULTRALIGHT_TEARING_FLAG_NUM in *.
  assert (length (u_tearing_flags m) = length (u_tearing_flags ultralight_blank)) as Hlb
    by (unfold len in Hl; change (length (u_tearing_flags ultralight_blank)) with 3%nat; lia).
  induction n as [|n IH]; intros i out c Hc Hi Hend Hfs Hcnt.
  { exists c. split; [|done]. rewrite mix_all in Hfs by lia. rewrite <-Hfs.
    replace (u_tearing_flag_count m) with (u_tearing_flag_count out) by lia. by destruct out. }
  cbn [read_tearing]. rewrite Hfs, mix_lookup by done.
  assert (ld (u_tearing_flags ultralight_blank) i = Some 0) as ->.
  { assert (i = 0 ∨ i = 1 ∨ i = 2) as [Ei|[Ei|Ei]] by lia; by rewrite Ei. }
  rewrite run_lift_Some. destruct (tearing_exact i c Hc ltac:(lia)) as (ret & f & c' & Hrun & Hc' & Hf & Hret).
  rewrite (run_call _ _ _ _ _ Hrun), Hret. rewrite mix_step by done. rewrite run_lift_Some.
  match goal with |- context [read_tearing _ _ _ _ ?o _] => destruct (IH (i + 1) o c') as (c2 & Hrun2 & Hc2) end;
    [done|lia|lia|done| |exists c2; split; [rewrite Hrun2; by destruct out|done]].
  cbn. destruct (Z.ltb_spec i (u_tearing_flag_count m)); [rewrite u8_id by (split; lia)|]; lia.
Qed.

Lemma signature_exact c : R c →
  ∃ ret sig c', ultralight_poller_i_read_signature tag_transceive (Some s) (zeros 32) c = Some ((ret, sig), c') ∧ R c' ∧
    (ret =? 0) = u_has_signature m ∧ sig = u_signature m.
Proof.
  intros Hc. destruct (rt_signature c Hc) as (c' & Hrep & Hc'). unfold ultralight_poller_i_read_signature.
  pose proof (f_equal u_signature Hload) as Hsig. cbn in Hsig. destruct (u_has_signature m).
  - pose proof (fill_replies _ 32 (zeros 32) (u_signature m) c c' Hrep (uz_signature _ (sf_sizes m Hm)) eq_refl ltac:(done)) as Hrun.
    eexists _, _, _. split; [exact Hrun|done].
  - destruct (silent_replies _ (zeros 32) (λ rx, if len rx <? ULTRALIGHT_SIGNATURE_SIZE then mret (- EIO, zeros 32)
      else sig ← lift (memcpy (zeros 32) 0 rx 0 ULTRALIGHT_SIGNATURE_SIZE); mret (0, sig)) c c' Hrep) as (ret & Hne & Hrun).
    eexists _, _, _. split; [exact Hrun|]. by rewrite (proj2 (Z.eqb_neq _ _)).
Qed.

(** What the poller reads of a card with a version: everything. *)
Lemma ev1_exact out c : R c → u_signature out = zeros 32 → u_has_signature out = false →
  u_counters out = u_counters ultralight_blank → u_counter_count out = 0 →
  u_tearing_flags out = u_tearing_flags ultralight_blank → u_tearing_flag_count out = 0 →
  ∃ c', read_ev1 tag_transceive (Some s) out c = Some
    (with_tearing (u_tearing_flag_count m) (u_tearing_flags m) (u_pages_read out)
      (with_counters (u_counter_count m) (u_counters m)
        (if u_has_signature m then with_signature (u_signature m) out else out)), c') ∧ R c'.
Proof.
  intros Hc Hsig Hhas Hcs Hcn Hts Htn. unfold read_ev1. rewrite Hsig.
  destruct (signature_exact c Hc) as (ret & sig & c1 & Hrun1 & Hc1 & Hret & ->). rewrite (run_call _ _ _ _ _ Hrun1), Hret.
  set (o1 := if u_has_signature m then _ else _).
  pose proof (sf_counter_count m Hm). pose proof (sf_tearing_count m Hm).
  destruct (counters_exact 3 0 o1 c1 Hc1) as (c2 & Hrun2 & Hc2); [done|done|subst o1; by destruct (u_has_signature m)| |].
  { subst o1. destruct (u_has_signature m); cbn; lia. }
  change (Z.to_nat ULTRALIGHT_COUNTER_NUM) with 3%nat. rewrite (run_call _ _ _ _ _ Hrun2).
  destruct (flags_exact 3 0 (with_counters (u_counter_count m) (u_counters m) o1) c2 Hc2) as (c3 & Hrun3 & Hc3);
    [done|done|subst o1; by destruct (u_has_signature m)| |].
  { subst o1. destruct (u_has_signature m); cbn; lia. }
  exists c3. split; [|done]. change (Z.to_nat ULTRALIGHT_TEARING_FLAG_NUM) with 3%nat. rewrite Hrun3.
  subst o1. by destruct (u_has_signature m).
Qed.

(** *** The whole card *)

(** The poller recognizes the type of the card: by its version, or as an Ultralight C. *)
Definition identifiable : Prop :=
  (u_has_version m = true ∧ ultralight_type_from_version (u_version m) = Some (u_type m) ∧ u_type m ≠ UL_TYPE_UNKNOWN) ∨
  (u_has_version m = false ∧ u_type m = UL_TYPE_MFUL_C).

(** The copy the poller makes: the card itself with the variant of its type; without a version
    only its pages. *)
Definition ul_clone : ultralight_data_t :=
  if u_has_version m then with_variant (variant_from_type (u_type m)) m
  else with_pages_read (u_pages_total m) (with_pages (u_pages_total m) (u_type m) (u_pages m)
    (with_variant (variant_from_type (u_type m)) ultralight_blank)).

Lemma identify_exact c : identifiable → R c →
  ∃ v c', ultralight_poller_identify_type tag_transceive (Some s) (pl_version u) c =
    Some ((0, u_type m, v, u_has_version m), c') ∧ R c' ∧ (u_has_version m = true → v = u_version m).
Proof.
  intros Hid Hc. destruct (plo_version u Hu) as [Hvl Hvb]. destruct (rt_version c Hc) as (c1 & Hrep & Hc1).
  unfold ultralight_poller_identify_type. destruct Hid as [(Hv & Ht & Hk)|[Hv Ht]]; rewrite Hv in *.
  - pose proof (fill_replies _ 8 (pl_version u) (u_version m) c c1 Hrep (uz_version _ (sf_sizes m Hm)) Hvl ltac:(done)) as Hrun.
    unfold ultralight_poller_i_get_version. rewrite (run_call _ _ _ _ _ Hrun). cbn [Z.eqb]. rewrite Ht, run_lift_Some.
    rewrite bool_decide_eq_false_2 by done. cbn [negb andb]. exists (u_version m), c1. split; [|done]. do 3 f_equal.
    revert Ht. unfold ultralight_type_from_version. destruct (ultralight_version_is_zero _); [|done].
    intros [= Hu0]. by rewrite <-Hu0 in Hk.
  - destruct (silent_replies _ (pl_version u) (λ rx, if len rx <? ULTRALIGHT_VERSION_SIZE then mret (- EIO, pl_version u)
      else v ← lift (memcpy (pl_version u) 0 rx 0 ULTRALIGHT_VERSION_SIZE); mret (0, v)) c c1 Hrep) as (ret & Hne & Hrun).
    unfold ultralight_poller_i_get_version. rewrite (run_call _ _ _ _ _ Hrun). rewrite !(proj2 (Z.eqb_neq _ _)) by done.
    rewrite run_lift_Some. cbn [andb].
    destruct (rt_auth c1 Hc1 Ht) as (e & c2 & Hrep2 & Hel & Heb & Hc2).
    destruct (utransceive_replies _ _ c1 c2 Hrep2) as (ret2 & rx & Hrun2 & -> & ->).
    { intros ? [= <-]. rewrite len_cons, Hel. done. }
    unfold ultralight_poller_i_authentication_test, ultralight_poller_i_send_auth_cmd.
    rewrite !run_bind, (run_call _ _ _ _ _ Hrun2). cbn [Z.eqb negb]. rewrite len_cons, Hel.
    change (negb (1 + 8 =? ULTRALIGHT_C_AUTH_RESPONSE_SIZE)) with false. cbv iota.
    change (ld (ULTRALIGHT_CMD_AUTH_CONT :: e) 0) with (Some ULTRALIGHT_CMD_AUTH_CONT). rewrite run_bind, run_lift_Some.
    rewrite Z.eqb_refl. cbn [negb]. repeat run_step. cbn [Z.eqb]. rewrite Ht. by exists (pl_version u), c2.
Qed.

Lemma pages_total_m : u_type m ≠ UL_TYPE_UNKNOWN → ultralight_pages_total_for_type (u_type m) = u_pages_total m.
Proof.
  rewrite (sf_type m Hm). unfold type_from_pages_total.
  repeat match goal with |- context [?a =? ?c] => destruct (Z.eqb_spec a c) as [->|]; [done|] end. done.
Qed.

(** The copy, field by field. *)
Lemma clone_fields t v : u_has_version m = true →
  with_tearing (u_tearing_flag_count m) (u_tearing_flags m) (u_pages_total m)
    (with_counters (u_counter_count m) (u_counters m)
      (let o := with_pages_read (u_pages_total m) (with_page_array (u_pages m) (with_pages_read 0
         (with_version (u_version m) (with_variant v (with_pages (u_pages_total m) (u_type m) t ultralight_blank))))) in
       if u_has_signature m then with_signature (u_signature m) o else o)) = with_variant v m.
Proof.
  intros Hv. pose proof (f_equal u_pages_read Hload) as Hr. cbn in Hr. pose proof (f_equal u_signature Hload) as Hsig. cbn in Hsig.
  destruct m as [p tot r ty va ve hv sg hs cs cn tf tn]. cbn in *. subst r. rewrite Hv. destruct hs; [done|]. by rewrite <-Hsig.
Qed.

Lemma poller_reads_card rnda out0 c : identifiable → block rnda → R c →
  ∃ c', ultralight_poller_read tag_transceive u rnda (Some s) (Some out0) c = Some ((0, Some ul_clone), c') ∧ R c'.
Proof.
  intros Hid Hr Hc. assert (u_type m ≠ UL_TYPE_UNKNOWN) as Hk by (destruct Hid as [(_ & _ & ?)|[_ ->]]; done).
  pose proof (pages_total_m Hk) as Htot. pose proof (sf_total m Hm) as Ht. pose proof ultralight_max_pages_range.
  unfold ultralight_poller_read, ultralight_poller_session_valid. rewrite Hs. cbn [negb Z.eqb].
  destruct (identify_exact c Hid Hc) as (v & c1 & Hrun1 & Hc1 & Hv). rewrite (run_call _ _ _ _ _ Hrun1). cbn [negb Z.eqb].
  unfold read_identified.
  pose proof (start_safe (u_type m) Hk ltac:(rewrite Htot; lia)) as Hd. rewrite Htot in *.
  assert (u_pages_total m ≠ 0) as Hnz by (rewrite <-Htot; by destruct (u_type m)).
  rewrite (proj2 (Z.eqb_neq _ _)) by done. set (d := with_variant _ _) in *.
  set (d1 := if u_has_version m then with_version (u_version m) d else d).
  assert ((if u_has_version m then v0 ← memcpy (u_version d) 0 v 0 ULTRALIGHT_VERSION_SIZE; Some (with_version v0 d) else Some d) = Some d1) as ->.
  { subst d1. destruct (u_has_version m); [|done]. rewrite (Hv eq_refl).
    by rewrite memcpy_over by (apply (uz_version _ (sf_sizes d Hd)) || apply (uz_version _ (sf_sizes m Hm))). }
  rewrite run_lift_Some.
  assert (ul_safe d1) as Hd1 by (subst d1; destruct (u_has_version m); [|done]; destruct Hd as [[] [] ? ? ? ? ?], Hm as [[] [] ? ? ? ? ?]; by constructor).
  assert (∃ c2, (if bool_decide (u_type m = UL_TYPE_MFUL_C)
    then r ← ultralight_poller_auth_ultralight_c tag_transceive u (Some s) rnda d1; mret r.2 else mret d1) c1 = Some (d1, c2) ∧ R c2)
    as (c2 & Hrun2 & Hc2).
  { case_bool_decide as Hmf; [|by exists c1].
    destruct (auth_c_total tag_transceive u R Hu s Hs rnda d1 c1 Hc1 Hr) as (r & c2 & Hrun2 & Hc2 & Hr2);
      [by subst d1; destruct (u_has_version m)..|rewrite Hmf in Htot; cbn in Htot; lia|].
    exists c2. rewrite (run_call _ _ _ _ _ Hrun2), Hr2. done. }
  rewrite (run_call _ _ _ _ _ Hrun2). unfold ultralight_poller_read_pages.
  destruct (read_pages_exact (Z.to_nat ((u_pages_total m + 3) / 4)) 0 (pl_page_buf u) false (with_pages_read 0 d1) c2 Hc2)
    as (c3 & Hrun3 & Hc3);
    [by apply safe_pages_read|apply (plo_page_buf u Hu)|apply (plo_page_buf u Hu)|done|
     (* the turns cover the pages, the last one partly *)
     rewrite Z2Nat.id by dlia; assert (u_pages_total m <= 231) by (rewrite <-Htot; by destruct (u_type m)); dlia|
     rewrite Z2Nat.id by dlia; dlia|intros _; rewrite Z2Nat.id by dlia; dlia|
     by subst d1; destruct (u_has_version m)..|cbn; lia|].
  rewrite (run_call _ _ _ _ _ Hrun3). cbn [negb Z.eqb]. cbn [with_pages_read u_pages_read]. rewrite Z.ltb_irrefl.
  unfold ul_clone. subst d1 d. destruct (u_has_version m) eqn:Hv1; [|by exists c3].
  match goal with |- context [(read_ev1 _ _ ?o ≫= _) _] => destruct (ev1_exact o c3 Hc3) as (c4 & Hrun4 & Hc4) end; try done.
  rewrite (run_call _ _ _ _ _ Hrun4). exists c4. split; [|done].
  by rewrite <-(clone_fields (u_pages ultralight_blank) (variant_from_type (u_type m)) Hv1).
Qed.
End Readable.

(** ** The listener as such a card *)

Section Listener.
Context `{KconfigRanges} (u : t2_locals) (Hu : t2_locals_ok u).
(** The random numbers the device draws, and the transport's error when the tag stays silent. *)
Context (rnd : t2_state → list Z) (Hrnd : ∀ s, block (rnd s)) (no_answer : Z) (Hna : no_answer ≠ 0).

(** One exchange: the command goes to the listener, and what it sends comes back. *)
Definition t2_transceive (tx : list Z) : M t2_state (Z * list Z) :=
  s ← gets id;
  ultralight_listener_t2_on_tag_cmd u (rnd s) (Some tx) (len tx) ;;
  sent ← gets t2_sent;
  mret (if (length (t2_sent s) <? length sent)%nat then (0, default [] (last sent)) else (no_answer, [])).

Lemma answer_sent E D s r tx : t2_sent (t2_answer E D s r tx).2 = t2_sent s.
Proof. unfold t2_answer. destruct tx; [done|]. by repeat case_match. Qed.

(** The exchange gives the answer of the specification. *)
Lemma t2_transceive_eq E D s tx : t2_ok s → t2_initialized s = true → t2_keyed (t2_model s) E D → bytes tx →
  ∃ r, len r = NFC_TRANSPORT_MAX_RESPONSE_LEN ∧
    t2_transceive tx s = Some (match (t2_answer E D s (rnd s) tx).1 with Some d => (0, d) | None => (no_answer, []) end,
      t2_with_resp r (t2_step E D s (rnd s) tx)).
Proof.
  intros Hs Hi Hk Hb. destruct (on_tag_cmd_does u Hu E D s (rnd s) tx Hs Hk Hb (Hrnd s)) as (s' & Hrun & r & Hl & ->).
  exists r. split; [done|]. unfold t2_transceive. rewrite run_gets. cbn [id]. rewrite (run_call _ _ _ _ _ Hrun), run_gets.
  rewrite run_mret. do 2 f_equal. cbn [t2_with_resp t2_sent]. unfold t2_step. rewrite Hi. cbn [negb].
  pose proof (answer_sent E D s (rnd s) tx) as Hse. destruct (t2_answer E D s (rnd s) tx) as [[d|] s1]; cbn [fst snd] in *.
  - cbn [t2_with_sent t2_sent]. rewrite Hse, length_app. cbn [length]. rewrite (proj2 (Nat.ltb_lt _ _)) by lia. by rewrite last_snoc.
  - rewrite Hse, Nat.ltb_irrefl. done.
Qed.

(** An emulated card whose pages need no password. *)
Record emulates (m : ultralight_data_t) (s : t2_state) : Prop := {
  em_ok : t2_ok s;
  em_initialized : t2_initialized s = true;
  em_model : t2_model s = m;
  em_open : c_valid (t2_cfg s) = true → c_auth0 (t2_cfg s) = ULTRALIGHT_AUTH0_NONE ∨ c_prot (t2_cfg s) = false;
}.

Lemma emulates_step m E D s r tx b : emulates m s → t2_keyed m E D → block r →
  len b = NFC_TRANSPORT_MAX_RESPONSE_LEN → emulates m (t2_with_resp b (t2_step E D s r tx)).
Proof.
  intros [Hok Hi Hmod Hop] Hk Hr Hb. rewrite <-Hmod in Hk.
  assert (t2_model (t2_step E D s r tx) = t2_model s ∧ t2_initialized (t2_step E D s r tx) = t2_initialized s) as [E1 E2].
  { unfold t2_step. rewrite Hi. cbn [negb].
    assert (t2_model (t2_answer E D s r tx).2 = t2_model s ∧ t2_initialized (t2_answer E D s r tx).2 = t2_initialized s) as Ha
      by (unfold t2_answer; destruct tx; [done|]; by repeat case_match).
    destruct (t2_answer E D s r tx) as [[] ?]; cbn [fst snd] in Ha; by rewrite <-Hi. }
  constructor; [by apply t2_ok_resp; [apply t2_step_ok|]|cbn; congruence|cbn; congruence|].
  cbn. by rewrite t2_step_cfg.
Qed.

Lemma emulates_protected m s page : emulates m s → t2_protected s page = false.
Proof.
  intros [_ _ _ Hop]. unfold t2_protected. destruct (c_valid (t2_cfg s)) eqn:Hv; [|by rewrite andb_false_r].
  destruct (Hop eq_refl) as [->| ->]; [|by rewrite andb_false_r]. rewrite Z.eqb_refl. by rewrite andb_false_r.
Qed.

Lemma emulates_read m s p : emulates m s → t2_read_reply s p = mjoin (t2_page m <$> t2_window p).
Proof.
  intros He. unfold t2_read_reply. cbn [existsb t2_window]. rewrite !(emulates_protected m) by done. by rewrite (em_model m s He).
Qed.

(** An answer of the specification is a reply of the exchange. *)
Lemma emulates_replies m E D s tx : emulates m s → t2_keyed m E D → bytes tx →
  ∃ s', replies t2_transceive tx (t2_answer E D s (rnd s) tx).1 s s' ∧ emulates m s'.
Proof.
  intros He Hk Hb. destruct He as [Hok Hi Hmod Hop]. rewrite <-Hmod in Hk.
  destruct (t2_transceive_eq E D s tx Hok Hi Hk Hb) as (r & Hl & Hrun). eexists. split.
  - destruct ((t2_answer E D s (rnd s) tx).1) as [d|]; eexists _, _; (split; [exact Hrun|]); done.
  - apply emulates_step; [done|by rewrite <-Hmod|apply Hrnd|done].
Qed.

Lemma answer_bytes E D s r tx d : t2_ok s → t2_keyed (t2_model s) E D → block r → bytes tx →
  (t2_answer E D s r tx).1 = Some d → bytes d ∧ len d <= NFC_TRANSPORT_MAX_RESPONSE_LEN.
Proof.
  intros Hs Hk Hr Hb Hd. pose proof (to_card s Hs) as Hm. pose proof (sf_sizes _ Hm) as Hz. pose proof (sf_bytes _ Hm) as Hy.
  assert (∀ b, block b → ∀ x, is_byte x → bytes (x :: b) ∧ len (x :: b) <= NFC_TRANSPORT_MAX_RESPONSE_LEN) as Hcons.
  { intros b [Hl Hbb] x Hx. split; [by apply Forall_cons_2|]. rewrite len_cons, Hl. done. }
  assert (∀ l n, bytes l → len l = n → n <= 255 → bytes l ∧ len l <= NFC_TRANSPORT_MAX_RESPONSE_LEN) as Hfix.
  { intros l n Hlb Hln Hn. split; [done|]. unfold NFC_TRANSPORT_MAX_RESPONSE_LEN. lia. }
  pose proof (λ b Hb, proj1 (tk2_inverse _ _ _ Hk b Hb)) as HE. pose proof (tk2_dec _ _ _ Hk) as HD.
  unfold t2_answer in Hd. destruct tx as [|cmd args]; [done|]. inv_bytes.
  repeat match type of Hd with context [cmd =? ?c] => destruct (Z.eqb_spec cmd c) as [->|]; [cbv iota in Hd|] end;
    [| | | | | | | |done].
  - destruct args as [|p args]; [done|]. injection Hd as <-. inv_bytes. unfold t2_read_reply.
    case_bool; [split; [bytes_list|done]|]. match goal with Hp : is_byte p |- _ => destruct Hp end.
    apply (Hfix _ 16); [by apply window_bytes; [|lia]|by apply window_len; [|lia]|done].
  - destruct (u_has_version _); [|done]. injection Hd as <-. apply (Hfix _ 8); [apply Hy|apply Hz|done].
  - destruct (u_has_signature _); [|done]. injection Hd as <-. apply (Hfix _ 32); [apply Hy|apply Hz|done].
  - destruct args as [|p args]; [done|]. cbn [fst] in Hd. case_match; [|done]. apply ld_Some_inv in Hd as [_ Hd].
    apply (Hfix _ 3); [by apply (Forall_lookup_1 _ _ _ _ (ub_counters _ Hy) Hd)|by apply (Forall_lookup_1 _ _ _ _ (uz_counter _ Hz) Hd)|done].
  - destruct args as [|p args]; [done|]. cbn [fst] in Hd. case_match; [|done].
    destruct (ld (u_tearing_flags (t2_model s)) p) as [f|] eqn:Hf; [|done]. mred in Hd. injection Hd as <-.
    pose proof (ld_byte _ _ _ (ub_tearing _ Hy) Hf). split; [bytes_list|done].
  - destruct (_ && bool_decide _); [|done]. injection Hd as <-. destruct (to_pack s Hs). by apply (Hfix _ 2).
  - destruct (bool_decide _); [|done]. injection Hd as <-.
    apply Hcons; [apply HE, bxor_block, zero_block; done|by split; vm_compute].
  - destruct (_ && _) eqn:Ec; [|done]. bool_prop. cbv zeta in Hd.
    destruct (bool_decide (bxor _ _ = _)); [|done]. injection Hd as <-.
    assert (block (take 8 args)) as B1 by (split; [rewrite len_take; lia|by apply bytes_take]).
    assert (block (drop 8 args)) as B2 by (split; [rewrite len_drop; lia|by apply bytes_drop]).
    apply Hcons; [|by split]. apply HE, bxor_block; [|done]. apply rotate_block, bxor_block; [by apply HD|apply Hs].
Qed.

#[global] Instance listener_readable_t2 m : ul_safe m → ReadableT2 t2_transceive m (emulates m).
Proof.
  intros Hm. destruct (t2_keyed_exists m Hm) as (E & D & Hk).
  assert (∀ s tx, emulates m s → bytes tx → ∃ s', replies t2_transceive tx (t2_answer E D s (rnd s) tx).1 s s' ∧ emulates m s') as Hrep
    by (intros s tx He Hb; by apply (emulates_replies m E D)).
  constructor.
  - constructor. intros tx s He Hb. destruct He as [Hok Hi Hmod Hop]. subst m.
    destruct (t2_transceive_eq E D s tx Hok Hi Hk Hb) as (r & Hl & Hrun). eexists _, _. split; [exact Hrun|].
    destruct ((t2_answer E D s (rnd s) tx).1) as [d|] eqn:Ha; (split; [by apply emulates_step|]).
    + by apply (answer_bytes E D s (rnd s) tx).
    + by split; [apply Forall_nil_2|].
  - intros s p He Hp. destruct (Hrep s [ULTRALIGHT_CMD_READ; p] He) as (s' & Hr & He'); [bytes_list|]. exists s'.
    cbn in Hr. by rewrite (emulates_read m) in Hr.
  - intros s He. destruct (Hrep s [ULTRALIGHT_CMD_GET_VERSION] He) as (s' & Hr & He'); [bytes_list|]. exists s'.
    cbn in Hr. by rewrite (em_model m s He) in Hr.
  - intros s He. destruct (Hrep s [ULTRALIGHT_CMD_READ_SIG; 0] He) as (s' & Hr & He'); [bytes_list|]. exists s'.
    cbn in Hr. by rewrite (em_model m s He) in Hr.
  - intros s i He Hi. destruct (Hrep s [ULTRALIGHT_CMD_READ_CNT; i] He) as (s' & Hr & He'); [bytes_list|]. exists s'.
    cbn -[ld] in Hr. by rewrite (em_model m s He) in Hr.
  - intros s i He Hi. destruct (Hrep s [ULTRALIGHT_CMD_CHECK_TEARING; i] He) as (s' & Hr & He'); [bytes_list|]. exists s'.
    cbn -[ld] in Hr. by rewrite (em_model m s He) in Hr.
  - intros s He Ht. destruct (Hrep s [ULTRALIGHT_CMD_AUTH; 0] He) as (s' & Hr & He'); [bytes_list|].
    cbn in Hr. rewrite (em_model m s He), bool_decide_eq_true_2 in Hr by done. eexists _, s'. split; [exact Hr|].
    split_and!; [..|done]; apply (tk2_inverse _ _ _ Hk), bxor_block; (done || apply zero_block || apply Hrnd).
Qed.

(** Loading an open card makes the listener emulate it. *)
Lemma load_emulates s blob m : t2_ok s → t2_initialized s = true → bytes blob →
  ultralight_deserialize (Some (t2_model s)) (Some blob) (len blob) = Some (0, Some m) → open_card m →
  ∃ s', ultralight_listener_t2_deserialize (Some blob) (len blob) s = Some (0, s') ∧ emulates m s'.
Proof.
  intros Hs Hi Hb Hdes Hop. pose proof (len_nonneg blob).
  destruct (ul_decided blob (len blob) (t2_model s) Hb ltac:(lia)) as (ret & d & Hrun & _ & Hd & Hsafe).
  rewrite Hdes in Hrun. injection Hrun as <- <-. destruct (Hd eq_refl) as [Hsh Hl]. specialize (Hsafe (to_card s Hs)).
  pose proof (ub_pages m (sf_bytes m Hsafe)) as Hpb.
  destruct (parsed_config m Hsh Hpb Hl) as (ok & c & Hcfg & C1 & C2 & C3 & C4).
  assert (c_valid c = true → c_auth0 c = ULTRALIGHT_AUTH0_NONE ∨ c_prot c = false) as Hcopen.
  { destruct (decide (u_pages_total m ∈ [45; 135; 231])) as [Ht|Ht].
    - destruct (parse_config_loaded m config_zero Hsh Hpb Hl Ht) as (auth0 & access & pwd & k0 & k1 & Ha & Hac & _ & _ & _ & _ & Hpc).
      rewrite Hcfg in Hpc. injection Hpc as -> ->. cbn. intros _. apply Hop; [|done|done].
      rewrite (sf_type m Hsafe), has_config_pages. by apply bool_decide_eq_true_2.
    - revert Hcfg. unfold ultralight_parse_config. rewrite (sf_type m Hsafe), has_config_pages, bool_decide_eq_false_2 by done.
      by intros [= _ <-]. }
  unfold ultralight_listener_t2_deserialize. rewrite run_gets. cbn [id]. rewrite Hi. cbn [negb]. rewrite Hdes. repeat run_step.
  cbn [Z.eqb negb]. rewrite Hcfg. repeat run_step.
  assert (t2_ok (t2_with_card m c (t2_with_card m (t2_cfg s) s))) as Hok by (destruct Hs; by constructor).
  destruct (_ && _ && _ && _); repeat run_step; eexists; (split; [done|]); constructor; try done; by repeat apply t2_ok_auth.
Qed.

(** C24: End to end, one device clones the Ultralight or NTAG card of another: a device that is
    powered up, initializes its Type 2 Tag listener and loads any stored card [m] that needs no
    password for reading ([open_card]) and whose type the poller tells ([identifiable]: it has a version of a known type, or it has
    none and is an Ultralight C) is read by the poller of a second device, with its session open, with result 0; the emulated card
    is unchanged. What the poller fills in is [ul_clone m]: for a card with a version exactly the
    card, that is all pages, version, signature, counters and tearing flags, with the variant
    of the type; for an Ultralight C, which has no version to tell the commands for the others, its type and
    pages only: a signature, counters or tearing flags that the stored image holds are not read and are those of a blank card. *)
Theorem ultralight_clone up ses rnda out0 blob m : up_locals_ok up → ses_active ses = true → block rnda → bytes blob →
  ultralight_deserialize (Some ultralight_blank) (Some blob) (len blob) = Some (0, Some m) →
  open_card m → identifiable m →
  ∃ s s', t2_runs u [T2Init; T2Load blob] t2_power_up = Some (tt, s) ∧ t2_model s = m ∧
    ultralight_poller_read t2_transceive up rnda (Some ses) (Some out0) s = Some ((0, Some (ul_clone m)), s') ∧ t2_model s' = m.
Proof.
  intros Hup Hses Hr Hb Hdes Hop Hid. cbn [t2_runs t2_run].
  set (s0 := t2_with_initialized true (t2_with_auth UL_T2_AUTH_IDLE (t2_with_card ultralight_blank config_zero t2_power_up))).
  assert (t2_ok s0) as Hs0 by (pose proof (ti_rest _ power_up_inv _ blank_ok) as []; by constructor).
  destruct (load_emulates s0 blob m Hs0 eq_refl Hb Hdes Hop) as (s & Hload & He).
  pose proof (to_card s (em_ok m s He)) as Hm. rewrite (em_model m s He) in Hm.
  pose proof (len_nonneg blob). destruct (ul_decided blob (len blob) ultralight_blank Hb ltac:(lia)) as (ret & d & Hrun & _ & Hd & _).
  rewrite Hdes in Hrun. injection Hrun as <- <-. destruct (Hd eq_refl) as [_ Hl].
  pose proof (listener_readable_t2 m Hm) as Hread.
  destruct (poller_reads_card t2_transceive m Hm Hop Hl (emulates m) up Hup ses Hses rnda out0 s Hid Hr He) as (s' & Hpoll & He').
  exists s, s'. split_and!; [|apply He|done|apply He'].
  assert (ultralight_listener_t2_init t2_power_up = Some (0, s0)) as Hinit by done.
  rewrite (run_call _ _ _ _ _ Hinit), (run_call _ _ _ _ _ Hload). done.
Qed.

(** *** Mutual authentication *)

Lemma send_auth_replies ses cmd initial d s s' : ses_active ses = true → len d = 8 →
  replies t2_transceive cmd (Some ((if initial : bool then ULTRALIGHT_CMD_AUTH_CONT else 0x00) :: d)) s s' →
  ultralight_poller_i_send_auth_cmd t2_transceive (Some ses) cmd initial s =
  Some ((0, (if initial then ULTRALIGHT_CMD_AUTH_CONT else 0x00) :: d), s').
Proof.
  intros Hses Hd Hrep. destruct (utransceive_replies _ ses Hses _ _ s s' Hrep) as (ret & rx & Hrun & -> & ->).
  { intros ? [= <-]. rewrite len_cons, Hd. done. }
  unfold ultralight_poller_i_send_auth_cmd. rewrite (run_call _ _ _ _ _ Hrun). cbn [Z.eqb negb]. rewrite len_cons, Hd.
  change (negb (1 + 8 =? ULTRALIGHT_C_AUTH_RESPONSE_SIZE)) with false. cbv iota.
  match goal with |- context [ld (?x :: d) 0] => change (ld (x :: d) 0) with (Some x) end. by rewrite run_lift_Some, Z.eqb_refl.
Qed.

(** The card's side of the second pass. *)
Lemma answer_cont E D s r rnda e c1 c2 : t2_auth_state s = UL_T2_AUTH_WAIT_CONT → u_type (t2_model s) = UL_TYPE_MFUL_C →
  t2_enc_b s = e → block rnda → block e → block (t2_rnd_b s) → block c1 → block c2 → D c1 = bxor rnda e → D c2 = bxor (rotate (t2_rnd_b s)) c1 →
  t2_answer E D s r (ULTRALIGHT_CMD_AUTH_CONT :: c1 ++ c2) =
  (Some (0x00 :: E (bxor (rotate rnda) c2)), t2_with_auth UL_T2_AUTH_SUCCESS s).
Proof.
  intros Ha Ht He Hr Be Hb B1 B2 D1 D2. unfold t2_answer. cbn -[len]. rewrite Ha, Ht, len_app, (proj1 B1), (proj1 B2).
  assert (take 8 (c1 ++ c2) = c1) as -> by (apply take_app_length'; destruct B1; unfold len in *; lia).
  assert (drop 8 (c1 ++ c2) = c2) as -> by (apply (drop_app_len c1 c2 8); symmetry; apply B1).
  rewrite !bool_decide_eq_true_2 by done. cbn [andb Z.eqb Pos.eqb Z.add Pos.add]. rewrite D1, D2, He.
  pose proof (rotate_block _ Hb) as Bro. rewrite !bxor_twice by (destruct Hr, Be, Bro, B1; unfold len in *; lia).
  by rewrite bool_decide_eq_true_2.
Qed.

(** C27: The two sides of the Ultralight C authentication fit together: against an emulated
    Ultralight C whose key pages hold the poller's key, [ultralight_poller_i_authenticate]
    succeeds whatever random numbers the two devices draw, and at the end both sides are
    authenticated: the poller has seen its own random number come back rotated, and the listener
    is in its success state. *)
Theorem ultralight_c_mutual_authentication up ses rnda key rest s : up_locals_ok up → ses_active ses = true → block rnda →
  t2_ok s → t2_initialized s = true → u_type (t2_model s) = UL_TYPE_MFUL_C →
  len key = 16 → bytes key → ultralight_3des_get_key (t2_model s) = key ++ rest →
  ∃ s', ultralight_poller_i_authenticate t2_transceive up (Some ses) rnda key s = Some ((0, true), s') ∧
    t2_auth_state s' = UL_T2_AUTH_SUCCESS.
Proof.
  intros Hup Hses Hr Hs Hi Ht Hl Hb Hkey. destruct (tdes2_functions key Hl Hb) as (E & D & HED).
  pose proof (HED rest) as Hk2. rewrite <-Hkey in Hk2. specialize (HED []). rewrite app_nil_r in HED.
  assert (t2_keyed (t2_model s) E D) as Hk by (constructor; [apply HED..|done]). pose proof (tk_inverse _ _ _ HED) as Hinv.
  destruct (t2_transceive_eq E D s [ULTRALIGHT_CMD_AUTH; 0x00] Hs Hi Hk ltac:(bytes_list)) as (r1 & L1 & Hrun1).
  unfold t2_step in Hrun1. rewrite Hi in Hrun1. cbn in Hrun1. rewrite bool_decide_eq_true_2 in Hrun1 by done. cbn [fst] in Hrun1.
  pose proof (Hrnd s) as Brnd. destruct (Hinv _ (bxor_block _ _ Brnd zero_block)) as [Be De]. set (e := E (bxor (rnd s) (zeros 8))) in *.
  match type of Hrun1 with _ = Some (_, ?x) => set (s1 := x) in * end.
  unfold ultralight_poller_i_authenticate.
  rewrite (run_call _ _ _ _ _ (send_auth_replies ses _ true e s s1 Hses (proj1 Be) (ex_intro _ _ (ex_intro _ _ (conj Hrun1 (conj eq_refl eq_refl)))))).
  cbn [Z.eqb negb]. change (drop 1 (_ :: e)) with e. rewrite (auth_output_eq up Hup key E D) by done. rewrite run_lift_Some.
  assert (bxor (D e) (zeros 8) = rnd s) as -> by (rewrite De; apply bxor_twice; destruct Brnd, zero_block; unfold len in *; lia).
  destruct (Hinv _ (bxor_block _ _ Hr Be)) as [B1 D1]. set (c1 := E (bxor rnda e)) in *.
  pose proof (rotate_block _ Brnd) as Brot. destruct (Hinv _ (bxor_block _ _ Brot B1)) as [B2 D2].
  set (c2 := E (bxor (rotate (rnd s)) c1)) in *.
  assert (t2_ok s1) as Hs1 by (apply t2_ok_resp; [|done]; apply t2_ok_sent, t2_ok_auth; destruct Hs; by constructor).
  assert (bytes (ULTRALIGHT_CMD_AUTH_CONT :: c1 ++ c2)) as Hcb
    by (apply Forall_cons_2; [by split; vm_compute|apply Forall_app; split; [apply B1|apply B2]]).
  destruct (t2_transceive_eq E D s1 _ Hs1 Hi Hk Hcb) as (r2 & L2 & Hrun2).
  unfold t2_step in Hrun2. rewrite (answer_cont E D s1 _ rnda e c1 c2 eq_refl Ht eq_refl Hr Be Brnd B1 B2 D1 D2) in Hrun2.
  change (t2_initialized s1) with (t2_initialized s) in Hrun2. rewrite Hi in Hrun2. cbn [fst negb] in Hrun2.
  destruct (Hinv _ (bxor_block _ _ (rotate_block _ Hr) B2)) as [B3 D3]. set (x := E (bxor (rotate rnda) c2)) in *.
  match type of Hrun2 with _ = Some (_, ?y) => set (s2 := y) in * end.
  rewrite (run_call _ _ _ _ _ (send_auth_replies ses _ false x s1 s2 Hses (proj1 B3) (ex_intro _ _ (ex_intro _ _ (conj Hrun2 (conj eq_refl eq_refl)))))).
  cbn [Z.eqb negb]. rewrite (auth_check_eq up Hup key E D) by done. change (drop 1 (_ :: x)) with x. rewrite run_lift_Some.
  rewrite D3, bxor_twice by (destruct (rotate_block _ Hr), B2; unfold len in *; lia).
  rewrite bool_decide_eq_true_2 by done. by exists s2.
Qed.

(** *** The original Ultralight *)

(** A clone of an original Ultralight (16 pages, no version) is not faithful: the listener
    answers a READ of page 41, behind the last page, with sixteen zeros where the chip refuses
    it, and that is how the poller tells an NTAG203 from an original Ultralight. So the poller of
    a second device, reading any emulated 16-page card, ends with result 0 and a card of type
    NTAG203 with 42 pages. *)
Theorem ultralight_origin_cloned_as_ntag203 up ses rnda out0 m s : up_locals_ok up → ses_active ses = true → block rnda →
  42 <= CONFIG_NFC_ULTRALIGHT_MAX_PAGES → emulates m s → u_pages_total m = 16 → u_has_version m = false →
  ∃ d s', ultralight_poller_read t2_transceive up rnda (Some ses) (Some out0) s = Some ((0, Some d), s') ∧
    u_type m = UL_TYPE_ORIGIN ∧ u_type d = UL_TYPE_NTAG203 ∧ u_pages_total d = 42.
Proof.
  intros Hup Hses Hr Hmax He Htot Hv. pose proof (to_card s (em_ok m s He)) as Hm. rewrite (em_model m s He) in Hm.
  assert (u_type m = UL_TYPE_ORIGIN) as Hty by (by rewrite (sf_type m Hm), Htot).
  pose proof (listener_readable_t2 m Hm) as Hread. destruct (plo_version up Hup) as [Hvl Hvb].
  destruct (rt_version t2_transceive s He) as (s1 & Hrep1 & He1). rewrite Hv in Hrep1.
  destruct (silent_replies _ ses Hses _ (pl_version up) (λ rx, if len rx <? ULTRALIGHT_VERSION_SIZE then mret (- EIO, pl_version up)
    else v ← lift (memcpy (pl_version up) 0 rx 0 ULTRALIGHT_VERSION_SIZE); mret (0, v)) s s1 Hrep1) as (ret1 & Hne1 & Hrun1).
  destruct (t2_keyed_exists m Hm) as (E & D & Hk).
  destruct (emulates_replies m E D s1 [ULTRALIGHT_CMD_AUTH; 0x00] He1 Hk ltac:(bytes_list)) as (s2 & Hrep2 & He2).
  cbn in Hrep2. rewrite (em_model m s1 He1), Hty, bool_decide_eq_false_2 in Hrep2 by done. cbn [fst] in Hrep2.
  destruct (silent_replies _ ses Hses _ ([] : list Z) (λ rx, if negb (len rx =? ULTRALIGHT_C_AUTH_RESPONSE_SIZE) then mret (- EACCES, [])
    else c ← lift (ld rx 0); if negb (c =? ULTRALIGHT_CMD_AUTH_CONT) then mret (- EACCES, []) else mret (0, rx)) s1 s2 Hrep2) as (ret2 & Hne2 & Hrun2).
  destruct (read_page_exact t2_transceive m Hm (emulates m) ses Hses 41 (zeros ULTRALIGHT_READ_RESP_LEN) s2 He2 ltac:(by split) eq_refl) as (s3 & Hrun3 & He3).
  unfold ultralight_poller_read, ultralight_poller_session_valid. rewrite Hses. cbn [negb Z.eqb].
  assert (ultralight_poller_identify_type t2_transceive (Some ses) (pl_version up) s =
    Some ((0, UL_TYPE_NTAG203, pl_version up, false), s3)) as Hid.
  { unfold ultralight_poller_identify_type, ultralight_poller_i_get_version. rewrite (run_call _ _ _ _ _ Hrun1).
    rewrite !(proj2 (Z.eqb_neq ret1 0)), run_lift_Some by done. cbn [andb].
    unfold ultralight_poller_i_authentication_test, ultralight_poller_i_send_auth_cmd. rewrite run_bind, (run_call _ _ _ _ _ Hrun2).
    rewrite run_ret, (proj2 (Z.eqb_neq ret2 0)) by done. by rewrite (run_call _ _ _ _ _ Hrun3). }
  rewrite (run_call _ _ _ _ _ Hid). cbn [negb Z.eqb].
  destruct (identified_total t2_transceive up (emulates m) Hup ses Hses rnda UL_TYPE_NTAG203 (pl_version up) false s3 He3 Hr)
    as ([ret o] & s4 & Hrun4 & _ & -> & d & -> & Hd & Hdt); [done..|]. rewrite Hrun4. exists d, s4.
  split_and!; [done|done| |done]. by rewrite (sf_type d Hd), Hdt.
Qed.
End Listener.
