(* ===== verification/UltralightT4.v ===== *)
(** * An Ultralight card as a Type 4 Tag ([src/nfc/protocols/ultralight/ultralight_listener.c])

    The adapter keeps an Ultralight card and shows its NDEF message through the NDEF listener,
    read-only.  Its operations work on its own statics and on the listener's.

    [ultralight_extract_ndef] returns a pointer into its automatic array [flat]; the adapter copies the
    message from there after that function has returned.  What the memory then holds is outside the
    program: [stale] gives it from what the array held. *)

From stdpp Require Import base list numbers option.
From S2P Require Import Prelude Kconfig Transport Apdu Service Ndef World NdefListener Serial Ultralight UltralightNdef.

(** The statics of [ultralight_listener.c]. *)
Record ul_listener := { ull_model : ultralight_data_t; ull_initialized : bool }.

Section T4.
Context `{Kconfig} (flat0 : list Z) (stale : list Z → list Z).

Definition ull_boot : ul_listener := {| ull_model := ultralight_blank; ull_initialized := false |}.

(** The copy of the message into the NDEF file, with its length. *)
Definition ultralight_listener_fill (m : ndef_data_t) (msg : list Z) (off msg_len : Z) : option ndef_data_t :=
  f ← st (ndef_file m) 0 (u8 (Z.shiftr msg_len 8));
  f ← st f 1 (u8 (Z.land msg_len 0xFF));
  f ← memcpy f 2 msg off msg_len;
  Some (nd_with_file_len (u16 (NFC_NDEF_NLEN_FIELD_LEN + msg_len)) (nd_with_file f m)).

Definition ultralight_listener_bind_ndef (u : ul_listener) (l : ndef_listener) : option (Z * ndef_listener) :=
  '(ret, msg, msg_len, flat) ← ultralight_extract_ndef flat0 (Some (ull_model u)) (Some None) (Some 0);
  if negb (ret =? 0) then Some (ret, l) else
  msg ← msg; msg_len ← msg_len;
  match msg with
  | None => ndef_listener_init (Some ndef_data_zero) (Some false) l
  | Some off =>
    if CONFIG_NFC_NDEF_MAX_SIZE <? msg_len then Some (- EBADMSG, l) else
    m ← ultralight_listener_fill ndef_data_zero (stale flat) off msg_len;
    ndef_listener_init (Some m) (Some false) l
  end.

Notation S := (ul_listener * ndef_listener)%type.

Definition ultralight_listener_init : M S Z := λ s,
  if ull_initialized s.1 then Some (- EALREADY, s)
  else Some (0, ({| ull_model := ultralight_blank; ull_initialized := true |}, s.2)).

Definition ultralight_listener_load (model : option ultralight_data_t) : M S Z := λ s,
  if negb (ull_initialized s.1) then Some (- ENODEV, s) else
  match model with
  | None => Some (- EINVAL, s)
  | Some m =>
    let l := (ndef_listener_shutdown s.2).2 in
    let u := {| ull_model := m; ull_initialized := ull_initialized s.1 |} in
    '(ret, l) ← ultralight_listener_bind_ndef u l; Some (ret, (u, l))
  end.

Definition ultralight_listener_shutdown : M S Z := λ s,
  if negb (ull_initialized s.1) then Some (0, s) else
  Some (0, ({| ull_model := ultralight_blank; ull_initialized := false |}, (ndef_listener_shutdown s.2).2)).

Definition ultralight_listener_serialize (out : list Z) (out_max out_len : Z) : M S (Z * list Z * Z) := λ s,
  if negb (ull_initialized s.1) then Some ((- ENODEV, out, out_len), s) else
  '(ret, o, n) ← ultralight_serialize (Some (ull_model s.1)) (Some out) out_max (Some out_len);
  o ← o; n ← n; Some ((ret, o, n), s).

Definition ultralight_listener_deserialize (inp : list Z) (in_len : Z) : M S Z := λ s,
  if negb (ull_initialized s.1) then Some (- ENODEV, s) else
  let l := (ndef_listener_shutdown s.2).2 in
  '(ret, m) ← ultralight_deserialize (Some (ull_model s.1)) (Some inp) in_len;
  m ← m;
  let u := {| ull_model := m; ull_initialized := ull_initialized s.1 |} in
  if negb (ret =? 0) then Some (ret, (u, l)) else
  '(ret, l) ← ultralight_listener_bind_ndef u l; Some (ret, (u, l)).
End T4.

(** ** The service *)

Section T4Service.
Context `{Kconfig} {E : Type} `{Platform E} `{!Holds ul_listener E} (flat0 : list Z) (stale : list Z → list Z).
Context (dirty : svc_ptr → M (world E) unit).

(** An operation of the adapter, on the program's state. *)
Definition on_ul {A} (m : M (ul_listener * ndef_listener) A) : M (world E) A := λ w,
  '(a, (u, l)) ← m (held (w_env w), w_ndef w); Some (a, set_ndef l (set_env (hold u (w_env w)) w)).

(** The callbacks hand everything a reader does to the NDEF listener's. *)
Definition s_ultralight_listener_service : nfc_service_t (world E) :=
  let ndef_svc := s_ndef_listener_service dirty in {|
  on_select := on_select ndef_svc;
  on_apdu := on_apdu ndef_svc;
  on_tag_cmd := None;
  on_deselect := on_deselect ndef_svc;
  on_field_off := on_field_off ndef_svc;
  serialize := Some (λ out max n, on_ul (ultralight_listener_serialize out max n));
  deserialize := Some (λ inp n, on_ul (ultralight_listener_deserialize flat0 stale inp n));
  persist_id := NFC_PERSIST_ID_ULTRALIGHT;
|}.
End T4Service.

(** ** What a reader of the emulated tag sees *)

Section T4Facts.
Context `{KconfigRanges} (flat0 : list Z) (stale : list Z → list Z).

(** A read-only Type 4 Tag with the message [v] and no file selected. *)
Definition t4_of (v : list Z) : tag :=
  {| t_cc := cc_bytes false; t_file := hi8 (len v) :: lo8 (len v) :: v ++ zeros (CONFIG_NFC_NDEF_MAX_SIZE - len v);
     t_writable := false; t_sel := NDEF_FILE_NONE |}.

(** The model the adapter hands to the NDEF listener. *)
Definition t4_model (v : list Z) : ndef_data_t :=
  {| cc := zeros NFC_NDEF_CC_LEN; ndef_file := hi8 (len v) :: lo8 (len v) :: v ++ zeros (CONFIG_NFC_NDEF_MAX_SIZE - len v);
     cc_len := 0; ndef_file_len := 2 + len v |}.

Lemma t4_model_ok v : bytes v → len v <= CONFIG_NFC_NDEF_MAX_SIZE → ndef_ok (t4_model v).
Proof.
  intros Hv Hl. pose proof ndef_max_size_range. pose proof (len_nonneg v).
  constructor; cbn [cc ndef_file cc_len ndef_file_len t4_model]; try lia.
  - by rewrite len_zeros.
  - auto with nfc.
  - rewrite !len_cons, len_app, len_zeros by lia. unfold NDEF_FILE_BUF_SIZE, NFC_NDEF_NLEN_FIELD_LEN. lia.
  - repeat constructor; [apply hi8_range|apply hi8_range|apply lo8_range|apply lo8_range|]. apply bytes_app. auto with nfc.
Qed.

Lemma fill_spec_t4 v flat off : sub flat off (len v) = Some v → len v <= CONFIG_NFC_NDEF_MAX_SIZE →
  ultralight_listener_fill ndef_data_zero flat off (len v) = Some (t4_model v).
Proof.
  intros Hs Hl. pose proof ndef_max_size_range. pose proof (len_nonneg v).
  unfold ultralight_listener_fill, ndef_data_zero, NDEF_FILE_BUF_SIZE, NFC_NDEF_NLEN_FIELD_LEN. cbn [ndef_file].
  unfold zeros. replace (Z.to_nat (2 + CONFIG_NFC_NDEF_MAX_SIZE)) with (S (S (Z.to_nat CONFIG_NFC_NDEF_MAX_SIZE))) by lia.
  cbn [replicate]. rewrite st_ok by llia. mred. rewrite st_ok by (cbn; llia). mred.
  cbn [insert list_insert Z.to_nat Pos.to_nat]. unfold memcpy. rewrite Hs. mred.
  rewrite blit_ok by llia. mred. unfold t4_model, nd_with_file_len, nd_with_file. cbn [cc cc_len ndef_file ndef_file_len].
  rewrite u16_id by lia. do 2 f_equal.
  change (Z.to_nat 2) with 2%nat. change (Z.to_nat 1) with 1%nat. change (Z.to_nat 0) with 0%nat.
  replace (Z.to_nat (2 + len v)) with (S (S (length v))) by llia.
  change (take 2 _) with [u8 (Z.shiftr (len v) 8); u8 (Z.land (len v) 255)].
  change (drop (S (S (length v))) _) with (drop (length v) (replicate (Z.to_nat CONFIG_NFC_NDEF_MAX_SIZE) 0)).
  rewrite drop_replicate. cbn [app]. f_equal; [by rewrite hi8_eq, Z.shiftr_div_pow2 by lia|].
  change (u8 (Z.land (len v) 255)) with (lo8 (len v)). f_equal. f_equal. unfold zeros. f_equal. llia.
Qed.

Lemma tag_of_t4 v c w i b : bytes v → len v <= CONFIG_NFC_NDEF_MAX_SIZE → c = cc_bytes false →
  tag_of {| nl_model := padded (nd_with_cc_len NFC_NDEF_CC_LEN (nd_with_cc c (default ndef_data_zero (Some (t4_model v)))));
            nl_writable := default true (Some w); nl_initialized := i; nl_file_sel := NDEF_FILE_NONE;
            nl_response_buf := b |} = {| t_cc := c; t_file := t_file (t4_of v); t_writable := w; t_sel := NDEF_FILE_NONE |}.
Proof.
  intros Hv Hl ->. pose proof (len_nonneg v). unfold tag_of, padded. cbn [nl_model nl_writable nl_file_sel default].
  cbn [nd_with_file_len nd_with_file nd_with_cc_len nd_with_cc cc ndef_file cc_len ndef_file_len t4_model id].
  f_equal. unfold t4_of. cbn [t_file]. replace (Z.to_nat (2 + len v)) with (S (S (length v))) by llia. cbn [take app].
  rewrite take_app_length. unfold NDEF_FILE_BUF_SIZE, NFC_NDEF_NLEN_FIELD_LEN. do 4 f_equal. lia.
Qed.

(** Initializing the listener with a message. *)
Lemma init_t4 l v : nl_ok l → nl_initialized l = false → bytes v → len v <= CONFIG_NFC_NDEF_MAX_SIZE →
  ∃ l', ndef_listener_init (Some (t4_model v)) (Some false) l = Some (0, l') ∧ nl_ok l' ∧
    tag_of l' = t4_of v ∧ nl_initialized l' = true.
Proof.
  intros Hl Hi Hv Hle. assert (∀ m, Some (t4_model v) = Some m → ndef_ok m) as Hok by (intros ? [= <-]; by apply t4_model_ok).
  destruct (init_spec l (Some (t4_model v)) (Some false) Hl Hi Hok) as (c & Hrun & _ & _ & _ & Hcc).
  destruct (init_ok l (Some (t4_model v)) (Some false) Hl Hok) as (ret & l' & Hrun' & Hl' & _).
  rewrite Hrun in Hrun'. injection Hrun' as <- <-. eexists. split; [done|]. split; [done|]. split; [|done].
  rewrite tag_of_t4 by auto. by rewrite (Hcc ltac:(done)).
Qed.

Lemma init_empty l : nl_ok l → nl_initialized l = false →
  ∃ l', ndef_listener_init (Some ndef_data_zero) (Some false) l = Some (0, l') ∧ nl_ok l' ∧
    tag_of l' = t4_of [] ∧ nl_initialized l' = true.
Proof.
  intros Hl Hi. pose proof ndef_max_size_range.
  assert (∀ m, Some ndef_data_zero = Some m → ndef_ok m) as Hok by (intros ? [= <-]; apply ndef_data_zero_ok).
  destruct (init_spec l (Some ndef_data_zero) (Some false) Hl Hi Hok) as (c & Hrun & _ & _ & _ & Hcc).
  destruct (init_ok l (Some ndef_data_zero) (Some false) Hl Hok) as (ret & l' & Hrun' & Hl' & _).
  rewrite Hrun in Hrun'. injection Hrun' as <- <-. eexists. split; [done|]. split; [done|]. split; [|done].
  rewrite (Hcc ltac:(done)). unfold tag_of, padded, t4_of. cbn [nl_model nl_writable nl_file_sel default].
  cbn [nd_with_file_len nd_with_file nd_with_cc_len nd_with_cc cc ndef_file cc_len ndef_file_len ndef_data_zero id].
  f_equal. change (take (Z.to_nat 0) _) with (@nil Z). change (len (@nil Z)) with 0. rewrite !Z.sub_0_r. cbn [app].
  unfold NDEF_FILE_BUF_SIZE, NFC_NDEF_NLEN_FIELD_LEN, zeros.
  by replace (Z.to_nat (2 + CONFIG_NFC_NDEF_MAX_SIZE)) with (S (S (Z.to_nat CONFIG_NFC_NDEF_MAX_SIZE))) by lia.
Qed.

(** The card of a tag adapter: the listener shows exactly [v]. *)
Lemma bind_message u l v flat off n : nl_ok l → nl_initialized l = false → bytes v →
  ultralight_extract_ndef flat0 (Some (ull_model u)) (Some None) (Some 0) = Some (0, Some (Some off), Some n, flat) →
  sub (stale flat) off n = Some v →
  ∃ ret l', ultralight_listener_bind_ndef flat0 stale u l = Some (ret, l') ∧ nl_ok l' ∧
    if decide (len v <= CONFIG_NFC_NDEF_MAX_SIZE)
    then ret = 0 ∧ tag_of l' = t4_of v ∧ nl_initialized l' = true
    else ret = - EBADMSG ∧ l' = l.
Proof.
  intros Hl Hi Hv He Hs. assert (n = len v) as -> by (by apply sub_len in Hs).
  unfold ultralight_listener_bind_ndef. rewrite He. mred. cbn [Z.eqb negb].
  destruct (decide (len v <= CONFIG_NFC_NDEF_MAX_SIZE)) as [Hle|Hgt].
  - rewrite (proj2 (Z.ltb_ge _ _)) by lia. rewrite (fill_spec_t4 v) by done. mred.
    destruct (init_t4 l v) as (l' & Hrun & ? & ?); [done..|]. rewrite Hrun. by exists 0, l'.
  - rewrite (proj2 (Z.ltb_lt _ _)) by lia. by eexists _, _.
Qed.

Lemma shutdown_fresh l : nl_ok l → nl_ok (ndef_listener_shutdown l).2 ∧ nl_initialized (ndef_listener_shutdown l).2 = false.
Proof. intros Hl. unfold ndef_listener_shutdown. destruct (nl_initialized l) eqn:Hi; cbn; [|done]. split; [|done]. by destruct Hl. Qed.

Lemma message_bytes m v : Forall bytes (u_pages m) → has_message m v → bytes v.
Proof.
  intros Hb (_ & s & long & r & He & _). pose proof (area_bytes m Hb) as Ha. rewrite He in Ha.
  unfold enc_tlv in Ha. rewrite !bytes_app in Ha. destruct Ha as (_ & Ha & _). apply Forall_cons_iff in Ha as [_ Ha].
  apply bytes_app in Ha as [_ Ha]. exact Ha.
Qed.

(** The Type 4 adapter shows the card it is given: after loading any well-formed Ultralight card
    into an initialized adapter, a reader finds a read-only Type 4 Tag with exactly the card's
    NDEF message; without a message, an empty one; with a message longer than the tag can hold,
    the load fails with [-EBADMSG] and no tag is shown.  This holds as long as the memory of
    [ultralight_extract_ndef]'s automatic array, from which the adapter copies the message after that
    function has returned, is not reused before the copy. *)
Theorem ultralight_t4_presents m u l : nl_ok l → ull_initialized u = true → ul_shape m → Forall bytes (u_pages m) →
  len flat0 = ULTRALIGHT_NDEF_SCAN_MAX → (∀ f, stale f = f) →
  ∃ ret l', ultralight_listener_load flat0 stale (Some m) (u, l) =
      Some (ret, ({| ull_model := m; ull_initialized := true |}, l')) ∧ nl_ok l' ∧
    ((∃ v, has_message m v ∧
        if decide (len v <= CONFIG_NFC_NDEF_MAX_SIZE)
        then ret = 0 ∧ tag_of l' = t4_of v ∧ nl_initialized l' = true
        else ret = - EBADMSG ∧ nl_initialized l' = false) ∨
     ((∀ v, ¬ has_message m v) ∧ ret = 0 ∧ tag_of l' = t4_of [] ∧ nl_initialized l' = true)).
Proof.
  intros Hl Hu Hm Hb Hf Hst. unfold ultralight_listener_load. cbn [fst snd]. rewrite Hu. cbn [negb].
  set (l0 := (ndef_listener_shutdown l).2). set (u' := {| ull_model := m; ull_initialized := true |}).
  assert (nl_ok l0 ∧ nl_initialized l0 = false) as [Hl0 Hi0] by by apply shutdown_fresh.
  destruct (ultralight_extract_exact flat0 m None 0 Hm Hb Hf) as (msg & n & flat & He & Hmsg).
  destruct msg as [off|].
  - destruct Hmsg as (v & Hv & Hs). pose proof (message_bytes m v Hb Hv) as Hvb.
    destruct (bind_message u' l0 v flat off n Hl0 Hi0 Hvb He) as (ret & l' & Hrun & Hok & Hres); [by rewrite Hst|].
    rewrite Hrun. mred. exists ret, l'. split; [done|]. split; [done|]. left. exists v. split; [done|].
    destruct (decide _); [done|]. by destruct Hres as [-> ->].
  - destruct Hmsg as [-> Hno]. unfold ultralight_listener_bind_ndef. cbn [ull_model u'].
    rewrite He. mred. cbn [Z.eqb negb].
    destruct (init_empty l0 Hl0 Hi0) as (l' & Hrun & Hok & Ht & Hi). rewrite Hrun. mred.
    exists 0, l'. split; [done|]. split; [done|]. by right.
Qed.
End T4Facts.
