(* ===== verification/Reader.v ===== *)
(** * The reader ([src/nfc/reader/nfc_reader_engine.c], [nfc_reader_poller_registry.c])

    The engine brings a card into a session and runs three kinds of jobs on the work queue: scan,
    clone the card of the session, and read (scan and clone at once).  The registry is the table
    of pollers: a job walks it, and the first poller that knows the card reads it, binds it to its
    listener and saves it in the store.  A protocol takes part through [reader_protocol], what the
    nine [*_poller_clone] functions use of it. *)

From Stdlib Require Import String.
From stdpp Require Import base list numbers option.
From S2P Require Import Prelude Kconfig Transport Stats Service Envelope StoreRam World Store.
From S2P Require Import Stack Session.

(** ** State *)

(** The three [struct k_work] objects. *)
Inductive work_item := scan_work | clone_work | read_work.
#[global] Instance work_item_eq_dec : EqDecision work_item.
Proof. solve_decision. Defined.

(** The statics of the engine, and the items on [nfc_stack_wq].  A [k_timeout_t] is its ticks. *)
Record reader := {
  scan_timeout : Z;
  scan_busy : bool;
  clone_busy : bool;
  s_clone_tag : list Z;
  read_busy : bool;
  s_read_tag : list Z;
  read_timeout : Z;
  s_session : session;
  s_store_ready : bool;
  r_queue : list work_item;
}.

Definition r_with_scan (b : bool) (t : Z) (r : reader) : reader :=
  {| scan_timeout := t; scan_busy := b; clone_busy := clone_busy r; s_clone_tag := s_clone_tag r;
     read_busy := read_busy r; s_read_tag := s_read_tag r; read_timeout := read_timeout r;
     s_session := s_session r; s_store_ready := s_store_ready r; r_queue := r_queue r |}.
Definition r_with_clone (b : bool) (t : list Z) (r : reader) : reader :=
  {| scan_timeout := scan_timeout r; scan_busy := scan_busy r; clone_busy := b; s_clone_tag := t;
     read_busy := read_busy r; s_read_tag := s_read_tag r; read_timeout := read_timeout r;
     s_session := s_session r; s_store_ready := s_store_ready r; r_queue := r_queue r |}.
Definition r_with_read (b : bool) (t : list Z) (x : Z) (r : reader) : reader :=
  {| scan_timeout := scan_timeout r; scan_busy := scan_busy r; clone_busy := clone_busy r;
     s_clone_tag := s_clone_tag r; read_busy := b; s_read_tag := t; read_timeout := x;
     s_session := s_session r; s_store_ready := s_store_ready r; r_queue := r_queue r |}.
Definition r_with_session (s : session) (r : reader) : reader :=
  {| scan_timeout := scan_timeout r; scan_busy := scan_busy r; clone_busy := clone_busy r;
     s_clone_tag := s_clone_tag r; read_busy := read_busy r; s_read_tag := s_read_tag r;
     read_timeout := read_timeout r; s_session := s; s_store_ready := s_store_ready r;
     r_queue := r_queue r |}.
Definition r_with_ready (b : bool) (r : reader) : reader :=
  {| scan_timeout := scan_timeout r; scan_busy := scan_busy r; clone_busy := clone_busy r;
     s_clone_tag := s_clone_tag r; read_busy := read_busy r; s_read_tag := s_read_tag r;
     read_timeout := read_timeout r; s_session := s_session r; s_store_ready := b;
     r_queue := r_queue r |}.
Definition r_with_queue (q : list work_item) (r : reader) : reader :=
  {| scan_timeout := scan_timeout r; scan_busy := scan_busy r; clone_busy := clone_busy r;
     s_clone_tag := s_clone_tag r; read_busy := read_busy r; s_read_tag := s_read_tag r;
     read_timeout := read_timeout r; s_session := s_session r; s_store_ready := s_store_ready r;
     r_queue := q |}.

(** The poll side of [hal/nfc_transport.h], and [k_work_submit_to_queue], which queues an idle item
    unless it returns an error. *)
Class PollTransport (E : Type) := {
  hal_get_state : E → nfc_transport_state_t;
  hal_discover_start : Z → E → Z * E;
  hal_discover_stop : E → Z * E;
  hal_discover_wait : Z → nfc_transport_tag_info_t → E → Z * nfc_transport_tag_info_t * E;
  hal_tag_transceive : list Z → E → Z * list Z * E;
  hal_work_submit : E → Z * E;
}.

(** The reader over the rest of the program. *)
Record engine (E : Type) := { e_reader : reader; e_world : world E }.
Arguments e_reader {E} _.
Arguments e_world {E} _.

Definition upd_reader {E} (f : reader → reader) : M (engine E) unit :=
  modify (λ e, {| e_reader := f (e_reader e); e_world := e_world e |}).

Definition on_world {E A} (m : M (world E) A) : M (engine E) A := λ e,
  match m (e_world e) with
  | Some (a, w) => Some (a, {| e_reader := e_reader e; e_world := w |})
  | None => None
  end.

(** ** What the registry uses of a protocol *)

Record reader_protocol (W : Type) := {
  rp_data : Type;
  (** the local [data] after [*_data_reset] *)
  rp_fresh : rp_data;
  rp_detect : option session → M W Z;
  rp_read : option session → option rp_data → M W (Z * option rp_data);
  (** [*_listener_init(&data)] and [*_listener_load(&data)] *)
  rp_init : option (rp_data → M W Z);
  rp_load : option (rp_data → M W Z);
}.
Arguments rp_data {W} _.
Arguments rp_fresh {W} _.
Arguments rp_detect {W} _.
Arguments rp_read {W} _.
Arguments rp_init {W} _.
Arguments rp_load {W} _.

(** [nfc_reader_poller_entry_t]; the table's last entry is the end of the list. *)
Record nfc_reader_poller_entry_t (W : Type) := {
  pe_name : string;
  pe_persist_id : Z;
  pe_tech_mask : Z;
  pe_data : Type;
  pe_detect : option session → M W Z;
  pe_read : option session → option pe_data → M W (Z * option pe_data);
  pe_listener_get : option svc_ptr;
  pe_clone_fn : option (session → list Z → M W Z);
}.
Arguments pe_name {W} _.
Arguments pe_persist_id {W} _.
Arguments pe_tech_mask {W} _.
Arguments pe_data {W} _.
Arguments pe_detect {W} _.
Arguments pe_read {W} _.
Arguments pe_listener_get {W} _.
Arguments pe_clone_fn {W} _.

Section Reader.
Context `{Kconfig} `{Crc16} {E : Type} `{Platform E} `{!PollTransport E}.
Context (vtab : svc_ptr → nfc_service_t (world E)).
Context (proto : svc_ptr → reader_protocol (world E)).
Notation W := (world E).

(** ** Registry *)

(** [*_poller_clone(session, tag)]: read the card into fresh data, bind the data to the listener,
    which may be bound already, and save the service under [tag]. *)
Definition poller_clone (s : svc_ptr) (ses : session) (tag : list Z) : M W Z :=
  let p := proto s in
  '(ret, d) ← rp_read p (Some ses) (Some (rp_fresh p));
  if negb (ret =? 0) then mret ret else
  d ← lift d;
  ret ← match rp_init p with Some init => init d | None => mret 0 end;
  if negb (ret =? 0) && negb (ret =? - EALREADY) then mret ret else
  ret ← match rp_load p with Some load => load d | None => mret 0 end;
  if negb (ret =? 0) then mret ret else
  nfc_store_save vtab (Some tag) (Some [Some s]) 1.

(** The entry of a protocol of the build, and of one that is left out. *)
Definition poller_entry (name : string) (pid mask : Z) (s : svc_ptr) (listener : option svc_ptr)
    : nfc_reader_poller_entry_t W :=
  {| pe_name := name; pe_persist_id := pid; pe_tech_mask := mask; pe_data := rp_data (proto s);
     pe_detect := rp_detect (proto s); pe_read := rp_read (proto s);
     pe_listener_get := listener; pe_clone_fn := Some (poller_clone s) |}.
Definition poller_stub (name : string) (pid mask : Z) : nfc_reader_poller_entry_t W :=
  {| pe_name := name; pe_persist_id := pid; pe_tech_mask := mask; pe_data := unit;
     pe_detect _ := mret (- ENOTSUP); pe_read _ out := mret (- ENOTSUP, out);
     pe_listener_get := None; pe_clone_fn := None |}.

Definition ndef_entry := poller_entry "ndef" NFC_PERSIST_ID_NDEF NFC_TECH_ISO_DEP_A SVC_NDEF (Some SVC_NDEF).
Definition ultralight_entry :=
  if CONFIG_NFC_PROTOCOL_ULTRALIGHT
  then poller_entry "ultralight" NFC_PERSIST_ID_ULTRALIGHT NFC_TECH_TYPE2 SVC_ULTRALIGHT (Some SVC_ULTRALIGHT)
  else poller_stub "ultralight" NFC_PERSIST_ID_ULTRALIGHT NFC_TECH_TYPE2.
Definition classic_entry :=
  if CONFIG_NFC_PROTOCOL_CLASSIC
  then poller_entry "classic" NFC_PERSIST_ID_CLASSIC NFC_TECH_ISO14443_3A_RAW SVC_CLASSIC None
  else poller_stub "classic" NFC_PERSIST_ID_CLASSIC NFC_TECH_ISO14443_3A_RAW.
Definition felica_entry :=
  if CONFIG_NFC_PROTOCOL_FELICA
  then poller_entry "felica" NFC_PERSIST_ID_FELICA NFC_TECH_TYPE3_FELICA SVC_FELICA None
  else poller_stub "felica" NFC_PERSIST_ID_FELICA NFC_TECH_TYPE3_FELICA.
Definition slix_entry :=
  if CONFIG_NFC_PROTOCOL_SLIX
  then poller_entry "slix" NFC_PERSIST_ID_SLIX NFC_TECH_ISO15693 SVC_SLIX None
  else poller_stub "slix" NFC_PERSIST_ID_SLIX NFC_TECH_ISO15693.
Definition iso15693_3_entry :=
  if CONFIG_NFC_PROTOCOL_ISO15693_3
  then poller_entry "iso15693_3" NFC_PERSIST_ID_ISO15693 NFC_TECH_ISO15693 SVC_ISO15693 None
  else poller_stub "iso15693_3" NFC_PERSIST_ID_ISO15693 NFC_TECH_ISO15693.
Definition desfire_entry :=
  if CONFIG_NFC_PROTOCOL_DESFIRE
  then poller_entry "desfire" NFC_PERSIST_ID_DESFIRE NFC_TECH_ISO_DEP_A SVC_DESFIRE (Some SVC_DESFIRE)
  else poller_stub "desfire" NFC_PERSIST_ID_DESFIRE NFC_TECH_ISO_DEP_A.
Definition emv_entry :=
  if CONFIG_NFC_PROTOCOL_EMV
  then poller_entry "emv" NFC_PERSIST_ID_EMV NFC_TECH_ISO_DEP_A SVC_EMV (Some SVC_EMV)
  else poller_stub "emv" NFC_PERSIST_ID_EMV NFC_TECH_ISO_DEP_A.
Definition aliro_entry :=
  if CONFIG_NFC_PROTOCOL_ALIRO
  then poller_entry "aliro" NFC_PERSIST_ID_ALIRO NFC_TECH_ISO_DEP_A SVC_ALIRO (Some SVC_ALIRO)
  else poller_stub "aliro" NFC_PERSIST_ID_ALIRO NFC_TECH_ISO_DEP_A.

Definition s_pollers : list (nfc_reader_poller_entry_t W) :=
  when CONFIG_NFC_PROTOCOL_NDEF [ndef_entry] ++
  [ultralight_entry; classic_entry; felica_entry; slix_entry; iso15693_3_entry; desfire_entry;
   emv_entry; aliro_entry].

Definition nfc_reader_pollers_get : list (nfc_reader_poller_entry_t W) := s_pollers.

(** The loop of [nfc_reader_pollers_detect]: the entry it stops at. *)
Fixpoint first_detected (l : list (nfc_reader_poller_entry_t W)) (ses : session)
    : M W (option (nfc_reader_poller_entry_t W)) :=
  match l with
  | [] => mret None
  | e :: l => ret ← pe_detect e (Some ses); if negb (ret =? 0) then first_detected l ses else mret (Some e)
  end.

(** [nfc_reader_pollers_detect(session, &name)]: the return value and the name. *)
Definition nfc_reader_pollers_detect (ses : option session) : M W (Z * option string) :=
  match ses with
  | None => mret (- ENODEV, None)
  | Some ses =>
    e ← first_detected s_pollers ses;
    mret match e with Some e => (0, Some (pe_name e)) | None => (- ENOTSUP, None) end
  end.

(** The loop of [nfc_reader_pollers_run], with its [matched] and [ret]. *)
Fixpoint pollers_walk (l : list (nfc_reader_poller_entry_t W)) (ses : session) (tag : list Z)
    : M W (bool * Z) :=
  match l with
  | [] => mret (false, - ENOTSUP)
  | e :: l =>
    ret ← pe_detect e (Some ses);
    if negb (ret =? 0) then pollers_walk l ses tag else
    match pe_clone_fn e with
    | None => mret (true, - ENOTSUP)
    | Some clone =>
      ret ← clone ses tag;
      if ret =? 0 then _ ← nfc_store_peek_entry_meta (Some tag) (Some 0) (Some 0); mret (true, ret)
      else mret (true, ret)
    end
  end.

(** ** Sessions *)

Definition nfc_reader_session_clear : M (engine E) unit := upd_reader (r_with_session session_zero).

Definition nfc_reader_session_get : M (engine E) (option session) :=
  s ← gets (λ e, s_session (e_reader e)); mret (if ses_active s then Some s else None).

Definition nfc_transport_discover_stop : M (engine E) Z := on_world (env_call hal_discover_stop).

Definition nfc_reader_session_end : M (engine E) unit :=
  s ← gets (λ e, s_session (e_reader e));
  if negb (ses_active s) then mret tt else
  _ ← nfc_transport_discover_stop; nfc_reader_session_clear.

Definition nfc_reader_pollers_run (tag : list Z) : M (engine E) Z :=
  if CONFIG_NFC_STORE then
    ses ← nfc_reader_session_get;
    match ses with
    | None => mret (- ENODEV)
    | Some ses =>
      '(matched, ret) ← on_world (pollers_walk s_pollers ses tag);
      let ret := if negb matched then - ENOTSUP else ret in
      nfc_reader_session_end ;; mret ret
    end
  else
    ses ← nfc_reader_session_get;
    match ses with Some _ => nfc_reader_session_end | None => mret tt end ;;
    mret (- ENOTSUP).

Definition nfc_transport_discover_wait (timeout : Z) (info : nfc_transport_tag_info_t)
    : M W (Z * nfc_transport_tag_info_t) := λ w,
  let '(ret, info, e) := hal_discover_wait timeout info (w_env w) in Some ((ret, info), set_env e w).

(** [nfc_reader_discover_once(timeout, &info)]: the return value and [*info]. *)
Definition nfc_reader_discover_once (timeout : Z) (info : option nfc_transport_tag_info_t)
    : M (engine E) (Z * option nfc_transport_tag_info_t) :=
  match info with
  | None => mret (- EINVAL, None)
  | Some info =>
    st ← on_world (gets (λ w, hal_get_state (w_env w)));
    ret ← (if bool_decide (st = NFC_TRANSPORT_STATE_UNINITIALIZED) || bool_decide (st = NFC_TRANSPORT_STATE_STOPPED)
           then on_world (env_call hal_init) else mret 0);
    if negb (ret =? 0) && negb (ret =? - EALREADY) then mret (ret, Some info) else
    ret ← on_world (env_call (hal_discover_start NFC_TECH_ALL_READER));
    if negb (ret =? 0) then mret (ret, Some info) else
    '(ret, info) ← on_world (nfc_transport_discover_wait timeout info);
    if negb (ret =? 0) then
      _ ← nfc_transport_discover_stop; nfc_reader_session_clear ;; mret (ret, Some info)
    else
      upd_reader (r_with_session {| ses_active := true; ses_tag := info |}) ;; mret (0, Some info)
  end.

(** ** Jobs *)

Definition nfc_reader_store_ensure : M (engine E) Z :=
  r ← gets e_reader;
  if s_store_ready r then mret 0 else
  ret ← on_world (nfc_store_init None);
  if negb (ret =? 0) && negb (ret =? - EALREADY) then mret ret else
  ret ← (if CONFIG_NFC_STORE_RAM then on_world nfc_store_ram_init else mret 0);
  if negb (ret =? 0) then mret ret else
  upd_reader (r_with_ready true) ;; mret 0.

Definition nfc_reader_scan_busy (r : reader) : bool := scan_busy r.
Definition nfc_reader_clone_busy (r : reader) : bool := if CONFIG_NFC_STORE then clone_busy r else false.
Definition nfc_reader_read_busy (r : reader) : bool := if CONFIG_NFC_STORE then read_busy r else false.

Definition set_scan_busy (b : bool) : M (engine E) unit := upd_reader (λ r, r_with_scan b (scan_timeout r) r).
Definition set_clone_busy (b : bool) : M (engine E) unit := upd_reader (λ r, r_with_clone b (s_clone_tag r) r).
Definition set_read_busy (b : bool) : M (engine E) unit :=
  upd_reader (λ r, r_with_read b (s_read_tag r) (read_timeout r) r).

(** A handler's [info] is a local variable: the bytes [discover_wait] is given are arbitrary. *)
Context (info0 : nfc_transport_tag_info_t).

Definition scan_work_handler : M (engine E) unit :=
  t ← gets (λ e, scan_timeout (e_reader e));
  _ ← nfc_reader_discover_once t (Some info0);
  set_scan_busy false.

Definition clone_work_handler : M (engine E) unit :=
  t ← gets (λ e, s_clone_tag (e_reader e));
  _ ← nfc_reader_pollers_run t;
  set_clone_busy false.

Definition read_work_handler : M (engine E) unit :=
  r ← gets e_reader;
  '(ret, _) ← nfc_reader_discover_once (read_timeout r) (Some info0);
  if negb (ret =? 0) then set_read_busy false else
  _ ← nfc_reader_pollers_run (s_read_tag r);
  set_read_busy false.

(** [k_work_init], whose effect on an item that is queued is not defined, and the submission. *)
Definition k_work_init (x : work_item) : M (engine E) unit :=
  q ← gets (λ e, r_queue (e_reader e)); if bool_decide (x ∈ q) then lift None else mret tt.
Definition k_work_submit_to_queue (x : work_item) : M (engine E) Z :=
  ret ← on_world (env_call hal_work_submit);
  if ret <? 0 then mret ret else upd_reader (λ r, r_with_queue (r_queue r ++ [x]) r) ;; mret ret.

Definition nfc_reader_scan_start (timeout : Z) : M (engine E) Z :=
  r ← gets e_reader;
  if nfc_reader_scan_busy r || nfc_reader_read_busy r then mret (- EBUSY) else
  upd_reader (r_with_scan true timeout) ;;
  k_work_init scan_work ;;
  ret ← k_work_submit_to_queue scan_work;
  if ret <? 0 then set_scan_busy false ;; mret ret else mret 0.

(** [strncpy(dst, tag, sizeof(dst) - 1); dst[sizeof(dst) - 1] = 0] *)
Definition copy_tag (dst tag : list Z) : option (list Z) :=
  d ← strncpy dst tag (CONFIG_NFC_STORE_MAX_TAG_LEN - 1); st d (CONFIG_NFC_STORE_MAX_TAG_LEN - 1) 0.

Definition bad_tag (tag : list Z) : bool :=
  let n := strlen tag in (n =? 0) || (CONFIG_NFC_STORE_MAX_TAG_LEN <=? n).

Definition nfc_reader_read_start (tag : option (list Z)) (timeout : Z) : M (engine E) Z :=
  if CONFIG_NFC_STORE then
    ret ← nfc_reader_store_ensure;
    if negb (ret =? 0) then mret ret else
    match tag with
    | None => mret (- EINVAL)
    | Some tag =>
      if bad_tag tag then mret (- EINVAL) else
      r ← gets e_reader;
      if nfc_reader_read_busy r || nfc_reader_scan_busy r || nfc_reader_clone_busy r then mret (- EBUSY) else
      d ← lift (copy_tag (s_read_tag r) tag);
      upd_reader (r_with_read true d timeout) ;;
      k_work_init read_work ;;
      ret ← k_work_submit_to_queue read_work;
      if ret <? 0 then set_read_busy false ;; mret ret else mret 0
    end
  else mret (- ENOTSUP).

Definition nfc_reader_clone_start (tag : option (list Z)) : M (engine E) Z :=
  if CONFIG_NFC_STORE then
    ret ← nfc_reader_store_ensure;
    if negb (ret =? 0) then mret ret else
    match tag with
    | None => mret (- EINVAL)
    | Some tag =>
      if bad_tag tag then mret (- EINVAL) else
      r ← gets e_reader;
      if nfc_reader_clone_busy r || nfc_reader_read_busy r then mret (- EBUSY) else
      ses ← nfc_reader_session_get;
      match ses with
      | None => mret (- ENODEV)
      | Some _ =>
        d ← lift (copy_tag (s_clone_tag r) tag);
        upd_reader (r_with_clone true d) ;;
        k_work_init clone_work ;;
        ret ← k_work_submit_to_queue clone_work;
        if ret <? 0 then set_clone_busy false ;; mret ret else mret 0
      end
    end
  else mret (- ENOTSUP).

(** ** The reader as a state machine *)

Definition reader_boot : reader :=
  {| scan_timeout := 0; scan_busy := false; clone_busy := false;
     s_clone_tag := zeros CONFIG_NFC_STORE_MAX_TAG_LEN; read_busy := false;
     s_read_tag := zeros CONFIG_NFC_STORE_MAX_TAG_LEN; read_timeout := 0;
     s_session := session_zero; s_store_ready := false; r_queue := [] |}.

Definition work_handler (x : work_item) : M (engine E) unit :=
  match x with
  | scan_work => scan_work_handler
  | clone_work => clone_work_handler
  | read_work => read_work_handler
  end.

(** The work queue takes its first item and runs it. *)
Definition run_work : M (engine E) unit :=
  q ← gets (λ e, r_queue (e_reader e));
  match q with
  | [] => mret tt
  | x :: q => upd_reader (r_with_queue q) ;; work_handler x
  end.

(** What the reader's callers can do, the jobs they can start included; the applets end sessions
    and discover on their own; anything else the program does is a change [f] of its state. *)
Inductive reader_event :=
  | EvScan (timeout : Z)
  | EvClone (tag : option (list Z))
  | EvRead (tag : option (list Z)) (timeout : Z)
  | EvWork
  | EvDiscover (timeout : Z) (info : option nfc_transport_tag_info_t)
  | EvSessionEnd
  | EvWorld (f : W → W).

Definition reader_step (ev : reader_event) : M (engine E) unit :=
  match ev with
  | EvScan t => _ ← nfc_reader_scan_start t; mret tt
  | EvClone tag => _ ← nfc_reader_clone_start tag; mret tt
  | EvRead tag t => _ ← nfc_reader_read_start tag t; mret tt
  | EvWork => run_work
  | EvDiscover t info => _ ← nfc_reader_discover_once t info; mret tt
  | EvSessionEnd => nfc_reader_session_end
  | EvWorld f => λ e, Some (tt, {| e_reader := e_reader e; e_world := f (e_world e) |})
  end.

Fixpoint reader_steps (evs : list reader_event) : M (engine E) unit :=
  match evs with [] => mret tt | ev :: evs => reader_step ev ;; reader_steps evs end.
End Reader.
