(* ===== verification/ReaderSpec.v ===== *)
(** * What the reader promises

    The invariant of the engine's flags and queue, kept by every sequence of events; that every
    job is carried out; and that a job clones with the protocol the registry detects.  The pollers
    and the store enter through the interface [ReaderParts]: their calls return and keep an
    invariant [I] of the rest of the program. *)

From stdpp Require Import base list numbers option.
From S2P Require Import Prelude Kconfig Transport Stats Service Envelope StoreRam World Store.
From S2P Require Import StoreSpec Stack Session Reader.

(** ** The invariant *)

Definition busy (x : work_item) (r : reader) : bool :=
  match x with scan_work => scan_busy r | clone_work => clone_busy r | read_work => read_busy r end.

(** A job is queued, once, exactly while its flag is set; a read excludes the others; a queued
    clone or read has a name for its card. *)
Record reader_ok `{Kconfig} (r : reader) : Prop := {
  ro_nodup : NoDup (r_queue r);
  ro_busy x : x ∈ r_queue r ↔ busy x r = true;
  ro_read : read_busy r = true → scan_busy r = false ∧ clone_busy r = false;
  ro_clone_len : len (s_clone_tag r) = CONFIG_NFC_STORE_MAX_TAG_LEN;
  ro_read_len : len (s_read_tag r) = CONFIG_NFC_STORE_MAX_TAG_LEN;
  ro_clone_tag : clone_busy r = true → tag_ok (s_clone_tag r);
  ro_read_tag : read_busy r = true → tag_ok (s_read_tag r);
  ro_store : CONFIG_NFC_STORE = false → clone_busy r = false ∧ read_busy r = false;
}.

(** What a protocol promises: its calls return and keep [I], and a read that succeeds gives data for
    which its listener's calls do. *)
Class ProtocolTotal {W} (p : reader_protocol W) (I : W → Prop) (ok : rp_data p → Prop) : Prop := {
  pt_detect ses w : ses_active ses = true → I w → ensures (rp_detect p (Some ses)) w (λ _, I);
  pt_read ses w : ses_active ses = true → I w →
    ensures (rp_read p (Some ses) (Some (rp_fresh p))) w (λ '(ret, d) w', I w' ∧ (ret = 0 → ∃ d', d = Some d' ∧ ok d'));
  pt_init init d w : rp_init p = Some init → ok d → I w → ensures (init d) w (λ _, I);
  pt_load load d w : rp_load p = Some load → ok d → I w → ensures (load d) w (λ _, I);
}.

Section ReaderSpec.
Context `{KconfigRanges} `{Crc16} {E : Type} `{Platform E} `{!PollTransport E}.
Context (vtab : svc_ptr → nfc_service_t (world E)) (proto : svc_ptr → reader_protocol (world E)).
Notation W := (world E).
Notation entries := (s_pollers vtab proto).

(** What the pollers of the table and the store promise: while [I] holds of the program, a detect,
    a clone and the store's calls return, and [I] holds again. *)
Class ReaderParts (I : W → Prop) : Prop := {
  rp_env x w : I w → I (set_env x w);
  rp_detect_total p ses w : p ∈ entries → ses_active ses = true → I w →
    ensures (pe_detect p (Some ses)) w (λ _, I);
  rp_clone_total p clone ses tag w : p ∈ entries → pe_clone_fn p = Some clone → ses_active ses = true → tag_ok tag →
    I w → ensures (clone ses tag) w (λ _, I);
  rp_peek_total tag w : I w → ensures (nfc_store_peek_entry_meta (Some tag) (Some 0) (Some 0)) w (λ _, I);
  rp_store_init_total w : I w → ensures (nfc_store_init None) w (λ _, I);
  rp_ram_init_total w : I w → ensures nfc_store_ram_init w (λ _, I);
}.

Context (I : W → Prop) `{!ReaderParts I} (info0 : nfc_transport_tag_info_t).
Notation engine := (engine E).

(** ** Calls that touch the rest of the program only *)

Lemma ensures_on_world {A} (m : M W A) (e : engine) Q :
  ensures m (e_world e) Q →
  ensures (on_world m) e (λ a e', Q a (e_world e') ∧ e_reader e' = e_reader e).
Proof. intros (a & w & Hm & HQ). eexists a, _. unfold on_world. by rewrite Hm. Qed.

Lemma env_call_ok f (w : W) : I w → ensures (env_call f) w (λ _, I).
Proof. intros Hw. eexists _, _. split; [done|by apply rp_env]. Qed.

(** What a part of a job leaves: the engine's statics, but for the session. *)
Definition session_only (r r' : reader) : Prop := ∃ s, r' = r_with_session s r.

Lemma session_only_refl r : session_only r r.
Proof. exists (s_session r). by destruct r. Qed.

Lemma session_only_trans r1 r2 r3 : session_only r1 r2 → session_only r2 r3 → session_only r1 r3.
Proof. intros [s ->] [s' ->]. by exists s'. Qed.

(** [keeps m]: run where [I] holds, [m] returns, changes at most the session, and [I] holds. *)
Definition keeps {A} (m : M engine A) (Q : reader → A → reader → Prop) : Prop :=
  ∀ e, I (e_world e) → ensures m e (λ a e', I (e_world e') ∧ Q (e_reader e) a (e_reader e')).

Lemma keeps_world {A} (m : M W A) : (∀ w, I w → ensures m w (λ _, I)) →
  keeps (on_world m) (λ r _ r', r' = r).
Proof. intros Hm e He. by apply ensures_on_world, Hm. Qed.

Lemma keeps_bind {A B} (m : M engine A) (k : A → M engine B) Q R :
  keeps m Q → (∀ r0 a, keeps (k a) (λ r b r', Q r0 a r → R r0 b r')) → keeps (m ≫= k) R.
Proof.
  intros Hm Hk e He. eapply ensures_bind; [by apply Hm|]. intros a e1 [He1 HQ].
  eapply ensures_weaken; [exact (Hk (e_reader e) a e1 He1)|]. intros b e2 [? HR]. auto.
Qed.

Lemma keeps_weaken {A} (m : M engine A) (Q R : reader → A → reader → Prop) :
  keeps m Q → (∀ r a r', Q r a r' → R r a r') → keeps m R.
Proof. intros Hm HR e He. eapply ensures_weaken; [by apply Hm|]. intros a e' [? ?]. auto. Qed.

Lemma keeps_ret {A} (a : A) : keeps (mret a) (λ r b r', r' = r ∧ b = a).
Proof. intros e He. by apply ensures_ret. Qed.

Lemma keeps_gets {A} (f : reader → A) : keeps (gets (λ e, f (e_reader e))) (λ r a r', r' = r ∧ a = f r).
Proof. intros e He. by eexists _, _. Qed.

Lemma keeps_upd f : keeps (upd_reader f) (λ r _ r', r' = f r).
Proof. intros e He. by eexists _, _. Qed.

Lemma keeps_env f : keeps (on_world (env_call f)) (λ r _ r', r' = r).
Proof. apply keeps_world. intros w Hw. by apply env_call_ok. Qed.

(** [kstep]: takes the first call of a computation. *)
Ltac kstep :=
  eapply keeps_bind; [first [apply keeps_gets | apply keeps_upd | apply keeps_env | apply keeps_ret]|];
  intros ? ?; cbv beta.
(** [kdone]: a branch that returns. *)
Ltac kdone := eapply keeps_weaken; [first [apply keeps_ret | apply keeps_upd | apply keeps_env]|cbv beta].

(** ** Sessions *)

Definition ended (r : reader) : reader := if ses_active (s_session r) then r_with_session session_zero r else r.

Lemma ended_only r : session_only r (ended r).
Proof. unfold ended. destruct (ses_active _); [by exists session_zero|apply session_only_refl]. Qed.

Lemma ended_inactive r : ses_active (s_session (ended r)) = false.
Proof. unfold ended. by destruct (ses_active (s_session r)) eqn:Ea. Qed.

Lemma session_end_keeps : keeps nfc_reader_session_end (λ r _ r', r' = ended r).
Proof.
  unfold nfc_reader_session_end, nfc_transport_discover_stop, nfc_reader_session_clear, ended. intros e He.
  eapply ensures_bind; [by apply (keeps_gets s_session)|]. intros s e1 [He1 [Hr ->]]. rewrite <-Hr.
  destruct (ses_active (s_session (e_reader e1))); cbn [negb]; [|apply ensures_ret; done].
  eapply ensures_bind; [by apply keeps_env|]. intros ? e2 [He2 Hr2].
  eapply ensures_weaken; [by apply keeps_upd|]. intros ? e3 [? ->]. by rewrite Hr2.
Qed.

Lemma walk_total l ses tag w : l ⊆ entries → ses_active ses = true → tag_ok tag → I w →
  ensures (pollers_walk l ses tag) w (λ _, I).
Proof.
  intros Hl Hs Ht. revert w. induction l as [|p l IH]; intros w Hw; [by apply ensures_ret|]. cbn [pollers_walk].
  assert (p ∈ entries) as Hp by (apply Hl; left). assert (l ⊆ entries) as Hl' by (intros x Hx; apply Hl; by right).
  eapply ensures_bind; [by apply rp_detect_total|]. intros ret w1 Hw1. destruct (negb _); [by apply IH|].
  destruct (pe_clone_fn p) as [clone|] eqn:Hc; [|by apply ensures_ret].
  eapply ensures_bind; [by eapply rp_clone_total|]. intros ret' w2 Hw2.
  case_bool; [|by apply ensures_ret]. eapply ensures_bind; [by apply rp_peek_total|]. intros. by apply ensures_ret.
Qed.

(** The walk over the pollers ends the session, whatever it found. *)
Lemma pollers_run_keeps tag : tag_ok tag →
  keeps (nfc_reader_pollers_run vtab proto tag) (λ r _ r', r' = ended r).
Proof.
  intros Ht. unfold nfc_reader_pollers_run, nfc_reader_session_get. intros e He.
  assert (∀ x : Z, ensures (nfc_reader_session_end ;; mret x) e (λ _ e', I (e_world e') ∧ e_reader e' = ended (e_reader e))) as Hend.
  { intros x. eapply ensures_bind; [by apply session_end_keeps|]. intros [] e1 He1. by apply ensures_ret. }
  destruct (ses_active (s_session (e_reader e))) eqn:Ha;
    destruct CONFIG_NFC_STORE; unfold ensures; rewrite ?run_bind, ?run_gets, ?Ha; cbn [ses_active]; rewrite run_ret.
  - cut (ensures ('(matched, ret) ← on_world (pollers_walk entries (s_session (e_reader e)) tag);
                  let ret := if negb matched then - ENOTSUP else ret in nfc_reader_session_end ;; mret ret) e
          (λ _ e', I (e_world e') ∧ e_reader e' = ended (e_reader e))); [done|].
    eapply ensures_bind; [by apply ensures_on_world, walk_total|]. intros [m ret] e1 [He1 Hr1].
    eapply ensures_bind; [by apply session_end_keeps|]. intros [] e2 [He2 Hr2]. apply ensures_ret. by rewrite Hr2, Hr1.
  - apply Hend.
  - exists (- ENODEV), e. split; [done|]. split; [done|]. unfold ended. by rewrite Ha.
  - exists (- ENOTSUP), e. split; [done|]. split; [done|]. unfold ended. by rewrite Ha.
Qed.

Lemma keeps_wgets {A} (f : W → A) : keeps (on_world (gets f)) (λ r _ r', r' = r).
Proof. apply keeps_world. intros w Hw. by eexists _, _. Qed.

Lemma keeps_wait t info : keeps (on_world (nfc_transport_discover_wait t info)) (λ r _ r', r' = r).
Proof.
  apply keeps_world. intros w Hw. unfold nfc_transport_discover_wait.
  destruct (hal_discover_wait t info (w_env w)) as [[ret i] e] eqn:Ewait. eexists _, _. rewrite Ewait.
  split; [done|by apply rp_env].
Qed.

Lemma discover_once_keeps t info : keeps (nfc_reader_discover_once t info) (λ r _ r', session_only r r').
Proof.
  assert (∀ r r' : reader, r' = r → session_only r r') as Hsame by (intros r ? ->; apply session_only_refl).
  unfold nfc_reader_discover_once, nfc_transport_discover_stop, nfc_reader_session_clear.
  destruct info as [info|]; [|kdone; intros r a r' [-> _]; by apply Hsame].
  eapply keeps_bind; [apply keeps_wgets|]. intros r0 st. cbv beta.
  eapply keeps_bind with (Q := λ r _ r', r' = r).
  { case_bool; [apply keeps_env|kdone; by intros r a r' [-> _]]. }
  intros r1 ret. cbv beta. case_bool; [kdone; intros r a r' [-> _] ??; subst; by apply Hsame|].
  kstep. case_bool; [kdone; intros r a' r' [-> _] ???; subst; by apply Hsame|].
  eapply keeps_bind; [apply keeps_wait|]. intros r9 [ret9 i9]. cbv beta iota. case_bool.
  - kstep. kstep. kdone. intros r a' r' [-> _] ??????; subst. by exists session_zero.
  - kstep. kdone. intros r a' r' [-> _] ?????; subst. by eexists.
Qed.

(** ** Jobs *)

(** What a job leaves: its flag is cleared. *)
Definition cleared (x : work_item) (r : reader) : reader :=
  match x with
  | scan_work => r_with_scan false (scan_timeout r) r
  | clone_work => r_with_clone false (s_clone_tag r) r
  | read_work => r_with_read false (s_read_tag r) (read_timeout r) r
  end.

Definition job_tag_ok (x : work_item) (r : reader) : Prop :=
  match x with
  | scan_work => True
  | clone_work => tag_ok (s_clone_tag r)
  | read_work => tag_ok (s_read_tag r)
  end.

Lemma cleared_only x r r' : session_only r r' → session_only (cleared x r) (cleared x r').
Proof. intros [s ->]. exists s. by destruct x. Qed.

(** A handler returns, and leaves nothing but the session and its flag changed; after a clone or a
    completed read no session is left. *)
Lemma handler_ok x e : job_tag_ok x (e_reader e) → I (e_world e) →
  ensures (work_handler vtab proto info0 x) e (λ _ e', I (e_world e') ∧ session_only (cleared x (e_reader e)) (e_reader e')).
Proof.
  intros Ht He. destruct x; cbn [work_handler job_tag_ok] in *.
  - unfold scan_work_handler, set_scan_busy. unfold ensures. rewrite run_gets. fold (@ensures engine unit).
    eapply ensures_bind; [by apply discover_once_keeps|]. intros [ret i] e1 [He1 Hr1].
    eapply ensures_weaken; [by apply keeps_upd|]. intros [] e2 [He2 ->]. split; [done|].
    by apply (cleared_only scan_work).
  - unfold clone_work_handler, set_clone_busy. unfold ensures. rewrite run_gets. fold (@ensures engine unit).
    eapply ensures_bind; [by apply pollers_run_keeps|]. intros ret e1 [He1 Hr1].
    eapply ensures_weaken; [by apply keeps_upd|]. intros [] e2 [He2 ->]. split; [done|].
    apply (cleared_only clone_work). rewrite Hr1. apply ended_only.
  - unfold read_work_handler, set_read_busy. unfold ensures. rewrite run_gets. fold (@ensures engine unit).
    eapply ensures_bind; [by apply discover_once_keeps|]. intros [ret i] e1 [He1 Hr1]. case_bool.
    + eapply ensures_weaken; [by apply keeps_upd|]. intros [] e2 [He2 ->]. split; [done|].
      by apply (cleared_only read_work).
    + eapply ensures_bind; [by apply pollers_run_keeps|]. intros ret' e2 [He2 Hr2].
      eapply ensures_weaken; [by apply keeps_upd|]. intros [] e3 [He3 ->]. split; [done|].
      apply (cleared_only read_work). rewrite Hr2. eapply session_only_trans; [done|apply ended_only].
Qed.

(** [reader_ok] does not speak of the session. *)
Lemma reader_ok_session r r' : reader_ok r → session_only r r' → reader_ok r' ∧ r_queue r' = r_queue r.
Proof. intros [] [s ->]. split; [by constructor|done]. Qed.

Lemma busy_cleared x y r : busy y (cleared x r) = negb (bool_decide (y = x)) && busy y r.
Proof. by destruct x, y. Qed.

Lemma reader_ok_popped x q r : reader_ok r → r_queue r = x :: q → reader_ok (cleared x (r_with_queue q r)).
Proof.
  intros [Hn Hb Hr Hcl Hrl Hct Hrt Hst] Hq. rewrite Hq in Hn, Hb. apply list.NoDup_cons in Hn as [Hx Hn].
  assert (∀ b c : bool, b && c = true → c = true) as Hand by (by intros [] []).
  assert (∀ b c : bool, c = false → b && c = false) as Hand' by (by intros [] []).
  set (r' := cleared x (r_with_queue q r)).
  assert (r_queue r' = q) as Hq' by by destruct x.
  assert (s_clone_tag r' = s_clone_tag r ∧ s_read_tag r' = s_read_tag r) as [Hc' Hr'] by by destruct x.
  pose proof (busy_cleared x read_work (r_with_queue q r)) as Hbr.
  pose proof (busy_cleared x clone_work (r_with_queue q r)) as Hbc.
  pose proof (busy_cleared x scan_work (r_with_queue q r)) as Hbs. fold r' in Hbr, Hbc, Hbs. cbn in Hbr, Hbc, Hbs.
  constructor; rewrite ?Hq', ?Hc', ?Hr', ?Hbr, ?Hbc, ?Hbs; try done.
  - intros y. unfold r'. rewrite busy_cleared. change (busy y (r_with_queue q r)) with (busy y r).
    specialize (Hb y). rewrite elem_of_cons in Hb. destruct (decide (y = x)) as [->|Hne].
    + rewrite bool_decide_true by done. by split.
    + rewrite bool_decide_false by done. naive_solver.
  - intros Hy%Hand. destruct (Hr Hy). auto.
  - intros Hy%Hand. auto.
  - intros Hy%Hand. auto.
  - intros Hy. destruct (Hst Hy). auto.
Qed.

Lemma run_work_ok e : reader_ok (e_reader e) → I (e_world e) →
  ensures (run_work vtab proto info0) e (λ _ e', I (e_world e') ∧ reader_ok (e_reader e') ∧
    r_queue (e_reader e') = tail (r_queue (e_reader e))).
Proof.
  intros Hr He. unfold run_work, ensures. rewrite run_gets. fold (@ensures engine unit).
  destruct (r_queue (e_reader e)) as [|x q] eqn:Hq; [by apply ensures_ret|].
  unfold ensures, upd_reader. rewrite run_modify. fold (@ensures engine unit).
  set (e1 := {| e_reader := r_with_queue q (e_reader e); e_world := e_world e |}).
  eapply ensures_weaken; [apply (handler_ok x e1); [|done]|].
  - pose proof (ro_busy _ Hr x) as Hb. rewrite Hq in Hb. destruct Hb as [Hb _]. specialize (Hb ltac:(left)).
    destruct x; [done|by apply (ro_clone_tag _ Hr)|by apply (ro_read_tag _ Hr)].
  - intros [] e2 [He2 Hs]. split; [done|].
    destruct (reader_ok_session _ _ (reader_ok_popped x q _ Hr Hq) Hs) as [? ->]. split; [done|]. by destruct x.
Qed.

(** ** Starting a job *)

Lemma store_ensure_keeps : keeps nfc_reader_store_ensure (λ r _ r', r' = r ∨ r' = r_with_ready true r).
Proof.
  unfold nfc_reader_store_ensure. eapply keeps_bind; [apply (keeps_gets id)|]. intros r0 r. cbv beta.
  case_bool; [kdone; intros ? ? ? [-> _] [-> _]; by left|].
  eapply keeps_bind; [apply keeps_world, rp_store_init_total|]. intros r1 ret. cbv beta.
  case_bool; [kdone; intros ? ? ? [-> _] -> [-> _]; by left|].
  eapply keeps_bind with (Q := λ r _ r', r' = r).
  { case_bool; [apply keeps_world, rp_ram_init_total|kdone; by intros ? ? ? [-> _]]. }
  intros r2 ret2. cbv beta. case_bool; [kdone; intros ? ? ? [-> _] -> -> [-> _]; by left|].
  kstep. kdone. intros ? ? ? [-> _] -> -> -> [-> _]. by right.
Qed.

Lemma reader_ok_ready b r : reader_ok r → reader_ok (r_with_ready b r).
Proof. by intros []. Qed.

(** Initializing and submitting the item of a job whose flag was just set. *)
Definition launch (x : work_item) : M engine Z :=
  k_work_init x ;;
  ret ← k_work_submit_to_queue x;
  if ret <? 0 then upd_reader (cleared x) ;; mret ret else mret 0.

Lemma launch_ok x e : x ∉ r_queue (e_reader e) → I (e_world e) →
  ensures (launch x) e (λ ret e', I (e_world e') ∧
    ((ret < 0 ∧ e_reader e' = cleared x (e_reader e)) ∨
     (ret = 0 ∧ e_reader e' = r_with_queue (r_queue (e_reader e) ++ [x]) (e_reader e)))).
Proof.
  intros Hx He. unfold launch, k_work_init, k_work_submit_to_queue, ensures.
  rewrite run_bind, run_gets, bool_decide_false, run_ret, run_bind by done. fold (@ensures engine Z).
  eapply ensures_bind; [by apply keeps_env|]. intros ret e1 [He1 Hr1].
  destruct (ret <? 0) eqn:E1; unfold ensures, upd_reader;
    rewrite ?run_bind, ?run_modify, ?run_ret, E1, ?run_modify; bool_prop.
  - eexists _, _. split; [done|]. split; [done|]. left. by rewrite <-Hr1.
  - eexists _, _. split; [done|]. split; [done|]. right. cbn. by rewrite <-Hr1.
Qed.

(** The flag of a job set, with its arguments. *)
Definition requested (x : work_item) (r r' : reader) : Prop :=
  r_queue r' = r_queue r ∧ (∀ y, busy y r' = bool_decide (y = x) || busy y r) ∧
  len (s_clone_tag r') = CONFIG_NFC_STORE_MAX_TAG_LEN ∧ len (s_read_tag r') = CONFIG_NFC_STORE_MAX_TAG_LEN ∧
  job_tag_ok x r' ∧ (x ≠ clone_work → s_clone_tag r' = s_clone_tag r) ∧ (x ≠ read_work → s_read_tag r' = s_read_tag r).

Lemma reader_ok_launched x r r' : reader_ok r → busy x r = false → requested x r r' →
  (x = read_work → scan_busy r = false ∧ clone_busy r = false) → (x ≠ read_work → read_busy r = false) →
  (CONFIG_NFC_STORE = false → x = scan_work) →
  reader_ok (cleared x r') ∧ reader_ok (r_with_queue (r_queue r' ++ [x]) r').
Proof.
  intros [Hn Hb Hr Hcl Hrl Hct Hrt Hst] Hx (Hq & Hbu & Hl1 & Hl2 & Ht & Hc' & Hr') Hx1 Hx2 Hx3.
  assert (∀ y, busy y (cleared x r') = busy y r) as Hcb.
  { intros y. rewrite busy_cleared, Hbu. destruct (decide (y = x)) as [->|Hne].
    - by rewrite bool_decide_true.
    - by rewrite bool_decide_false. }
  pose proof (Hcb scan_work) as Cs. pose proof (Hcb clone_work) as Cc. pose proof (Hcb read_work) as Cr.
  pose proof (Hbu scan_work) as Bs. pose proof (Hbu clone_work) as Bc. pose proof (Hbu read_work) as Br.
  cbn [busy] in Cs, Cc, Cr, Bs, Bc, Br.
  assert (s_clone_tag (cleared x r') = s_clone_tag r' ∧ s_read_tag (cleared x r') = s_read_tag r') as [Tc Tr] by by destruct x.
  split; constructor.
  - replace (r_queue (cleared x r')) with (r_queue r) by (by rewrite <-Hq; destruct x). done.
  - intros y. rewrite Hcb. replace (r_queue (cleared x r')) with (r_queue r) by (by rewrite <-Hq; destruct x). done.
  - by rewrite Cs, Cc, Cr.
  - by rewrite Tc.
  - by rewrite Tr.
  - rewrite Cc, Tc. intros Hb'. rewrite Hc'; [auto|]. intros ->. cbn in Hx. congruence.
  - rewrite Cr, Tr. intros Hb'. rewrite Hr'; [auto|]. intros ->. cbn in Hx. congruence.
  - by rewrite Cc, Cr.
  - cbn. rewrite Hq. apply list.NoDup_app. split; [done|]. split; [|apply NoDup_singleton].
    intros y Hy%Hb Hyx%list_elem_of_singleton. congruence.
  - intros y. cbn [r_queue r_with_queue]. rewrite elem_of_app, list_elem_of_singleton, Hq, Hb.
    change (busy y (r_with_queue (r_queue r ++ [x]) r')) with (busy y r'). rewrite Hbu.
    destruct (decide (y = x)) as [->|Hne]; [rewrite bool_decide_true by done; naive_solver|].
    rewrite bool_decide_false by done. naive_solver.
  - cbn. rewrite Bs, Bc, Br. destruct x; cbn; [by rewrite Hx2|by rewrite Hx2|intros _; by apply Hx1].
  - done.
  - done.
  - cbn. rewrite Bc. destruct (decide (x = clone_work)) as [->|Hne]; [done|].
    rewrite bool_decide_false, Hc' by congruence. done.
  - cbn. rewrite Br. destruct (decide (x = read_work)) as [->|Hne]; [done|].
    rewrite bool_decide_false, Hr' by congruence. done.
  - intros Hs. specialize (Hx3 Hs). subst x. cbn. rewrite Bc, Br. by apply Hst.
Qed.

(** Requesting a job whose flag is clear: the flag is set and the item queued, or neither. *)
Lemma request_ok x f e : reader_ok (e_reader e) → I (e_world e) → busy x (e_reader e) = false →
  requested x (e_reader e) (f (e_reader e)) →
  (x = read_work → scan_busy (e_reader e) = false ∧ clone_busy (e_reader e) = false) →
  (x ≠ read_work → read_busy (e_reader e) = false) → (CONFIG_NFC_STORE = false → x = scan_work) →
  ensures (upd_reader f ;; launch x) e (λ ret e', I (e_world e') ∧ reader_ok (e_reader e') ∧
    (ret = 0 → r_queue (e_reader e') = r_queue (e_reader e) ++ [x]) ∧
    (ret ≠ 0 → r_queue (e_reader e') = r_queue (e_reader e))).
Proof.
  intros Hr He Hx Hf Hx1 Hx2 Hx3. destruct (reader_ok_launched x _ _ Hr Hx Hf Hx1 Hx2 Hx3) as [Hok1 Hok2].
  unfold ensures, upd_reader. rewrite run_modify. fold (@ensures engine Z).
  assert (r_queue (f (e_reader e)) = r_queue (e_reader e)) as Hq by apply Hf.
  eapply ensures_weaken; [apply launch_ok; [|done]|].
  - cbn. rewrite Hq, (ro_busy _ Hr). congruence.
  - cbn. intros ret e' [He' [[Hlt ->]|[-> ->]]]; split; try done; split; try done; split; try done; try lia.
    + intros _. rewrite <-Hq. by destruct x.
    + cbn. by rewrite Hq.
Qed.

Lemma copy_tag_spec dst tag : len dst = CONFIG_NFC_STORE_MAX_TAG_LEN → bad_tag tag = false →
  ∃ d, copy_tag dst tag = Some d ∧ len d = CONFIG_NFC_STORE_MAX_TAG_LEN ∧ c_str d = c_str tag ∧ tag_ok d.
Proof.
  intros Hl Hb. pose proof max_tag_len_range. unfold bad_tag in Hb. bool_prop. unfold copy_tag.
  destruct (strncpy_c_str dst tag (CONFIG_NFC_STORE_MAX_TAG_LEN - 1)) as (d & -> & Hd & Hc); [lia..|].
  mred. rewrite st_ok in Hc |- * by lia. specialize (Hc _ eq_refl). eexists. split; [done|].
  split; [rewrite len_insert; congruence|]. split; [done|]. unfold tag_ok, strlen in *. rewrite Hc.
  pose proof (len_nonneg (c_str tag)). lia.
Qed.

(** What a request leaves. *)
Definition asked (x : work_item) (e : engine) (ret : Z) (e' : engine) : Prop :=
  I (e_world e') ∧ reader_ok (e_reader e') ∧
  (ret = 0 → r_queue (e_reader e') = r_queue (e_reader e) ++ [x]) ∧
  (ret ≠ 0 → r_queue (e_reader e') = r_queue (e_reader e)).

Lemma asked_refused x e ret : reader_ok (e_reader e) → I (e_world e) → ret ≠ 0 → asked x e ret e.
Proof. done. Qed.

Lemma asked_from x e e1 ret e' : asked x e1 ret e' → r_queue (e_reader e1) = r_queue (e_reader e) → asked x e ret e'.
Proof. unfold asked. by intros ? <-. Qed.

Lemma scan_start_ok t e : reader_ok (e_reader e) → I (e_world e) →
  ensures (nfc_reader_scan_start t) e (asked scan_work e).
Proof.
  intros Hr He. unfold nfc_reader_scan_start, ensures. rewrite run_gets. fold (@ensures engine Z).
  destruct (nfc_reader_scan_busy (e_reader e) || nfc_reader_read_busy (e_reader e)) eqn:Eb;
    [apply ensures_ret; by apply asked_refused|]. bool_prop.
  apply (request_ok scan_work (r_with_scan true t)); try done.
  - pose proof (ro_clone_len _ Hr). pose proof (ro_read_len _ Hr). split; [done|]. split; [by intros []|done].
  - intros _. unfold nfc_reader_read_busy in *. destruct CONFIG_NFC_STORE eqn:Es; [done|]. by apply (ro_store _ Hr).
Qed.

(** The common start of a clone and a read: the store is brought up first. *)
Lemma ensure_then (k : Z → M engine Z) x e : reader_ok (e_reader e) → I (e_world e) →
  (∀ e1, reader_ok (e_reader e1) → I (e_world e1) → ensures (k 0) e1 (asked x e1)) →
  ensures (ret ← nfc_reader_store_ensure; if negb (ret =? 0) then mret ret else k ret) e (asked x e).
Proof.
  intros Hr He Hk. eapply ensures_bind; [by apply store_ensure_keeps|]. intros ret e1 [He1 Hr1].
  assert (reader_ok (e_reader e1) ∧ r_queue (e_reader e1) = r_queue (e_reader e)) as [Hok Hq]
    by (destruct Hr1 as [->| ->]; [done|split; [by apply reader_ok_ready|done]]).
  destruct (Z.eqb_spec ret 0) as [->|Hne]; cbn [negb].
  - eapply ensures_weaken; [by apply Hk|]. intros ret e2 Ha. by eapply asked_from.
  - apply ensures_ret. by eapply asked_from.
Qed.

Lemma read_start_ok tag t e : reader_ok (e_reader e) → I (e_world e) →
  ensures (nfc_reader_read_start tag t) e (asked read_work e).
Proof.
  intros Hr He. unfold nfc_reader_read_start. destruct CONFIG_NFC_STORE eqn:Es; [|by apply ensures_ret].
  apply (ensure_then (λ _, _) read_work); [done..|]. clear e Hr He. intros e Hr He.
  destruct tag as [tag|]; [|by apply ensures_ret].
  destruct (bad_tag tag) eqn:Ht; [by apply ensures_ret|]. unfold ensures. rewrite run_gets. fold (@ensures engine Z).
  destruct (nfc_reader_read_busy (e_reader e) || nfc_reader_scan_busy (e_reader e) || nfc_reader_clone_busy (e_reader e)) eqn:Eb;
    [by apply ensures_ret|]. unfold nfc_reader_read_busy, nfc_reader_clone_busy, nfc_reader_scan_busy in Eb. rewrite Es in Eb. bool_prop.
  destruct (copy_tag_spec (s_read_tag (e_reader e)) tag (ro_read_len _ Hr) Ht) as (d & Hc & Hd & Hdc & Hdt).
  eapply ensures_lift; [done|]. apply (request_ok read_work (r_with_read true d t)); try done; try congruence.
  pose proof (ro_clone_len _ Hr). split; [done|]. split; [by intros []|done].
Qed.

Lemma clone_start_ok tag e : reader_ok (e_reader e) → I (e_world e) →
  ensures (nfc_reader_clone_start tag) e (asked clone_work e).
Proof.
  intros Hr He. unfold nfc_reader_clone_start. destruct CONFIG_NFC_STORE eqn:Es; [|by apply ensures_ret].
  apply (ensure_then (λ _, _) clone_work); [done..|]. clear e Hr He. intros e Hr He.
  destruct tag as [tag|]; [|by apply ensures_ret].
  destruct (bad_tag tag) eqn:Ht; [by apply ensures_ret|]. unfold ensures, nfc_reader_session_get. rewrite run_gets. fold (@ensures engine Z).
  destruct (nfc_reader_clone_busy (e_reader e) || nfc_reader_read_busy (e_reader e)) eqn:Eb;
    [by apply ensures_ret|]. unfold nfc_reader_read_busy, nfc_reader_clone_busy in Eb. rewrite Es in Eb. bool_prop.
  unfold ensures. rewrite run_bind, run_gets, run_ret. fold (@ensures engine Z).
  destruct (ses_active (s_session (e_reader e))); [|by apply ensures_ret].
  destruct (copy_tag_spec (s_clone_tag (e_reader e)) tag (ro_clone_len _ Hr) Ht) as (d & Hc & Hd & Hdc & Hdt).
  eapply ensures_lift; [done|]. apply (request_ok clone_work (r_with_clone true d)); try done; try congruence.
  pose proof (ro_read_len _ Hr). split; [done|]. split; [by intros []|done].
Qed.

(** ** The walk over the pollers *)

(** What happens once the poller of the card is known. *)
Definition clone_with (o : option (nfc_reader_poller_entry_t W)) (ses : session) (tag : list Z) : M W Z :=
  match o ≫= pe_clone_fn with
  | None => mret (- ENOTSUP)
  | Some clone =>
    ret ← clone ses tag;
    if ret =? 0 then _ ← nfc_store_peek_entry_meta (Some tag) (Some 0) (Some 0); mret ret else mret ret
  end.

Definition is_found {A} (o : option A) : bool := match o with Some _ => true | None => false end.

Lemma walk_detected l ses tag w : pollers_walk l ses tag w =
  (o ← first_detected l ses; ret ← clone_with o ses tag; mret (is_found o, ret)) w.
Proof.
  revert w. induction l as [|p l IH]; intros w; [done|]. cbn [pollers_walk first_detected].
  rewrite run_bind. destruct (pe_detect p (Some ses) w) as [[ret w1]|] eqn:Hd; [|by rewrite !run_none].
  rewrite !(run_call _ _ _ _ _ Hd). destruct (negb (ret =? 0)); [by rewrite IH|]. rewrite run_ret.
  unfold clone_with. cbn [mbind option_bind is_found]. destruct (pe_clone_fn p) as [clone|]; [|done].
  rewrite run_bind. destruct (clone ses tag w1) as [[r w2]|] eqn:Hc; [|by rewrite !run_none].
  rewrite !(run_call _ _ _ _ _ Hc). destruct (r =? 0); [|done]. by rewrite run_bind.
Qed.

Lemma detected_in l ses (w : W) p w' : first_detected l ses w = Some (Some p, w') → p ∈ l.
Proof.
  revert w. induction l as [|q l IH]; intros w; [done|]. cbn [first_detected]. unfold mbind, M_bind.
  destruct (pe_detect q (Some ses) w) as [[ret w1]|]; [|done]. destruct (negb _).
  - intros Hf. right. by eapply IH.
  - intros [= -> _]. left.
Qed.

(** A clone returns, whatever the card answers. *)
Lemma clone_total s ok (J : W → Prop) `{!ProtocolTotal (proto s) J ok} ses tag w :
  (∀ w, J w → ensures (nfc_store_save vtab (Some tag) (Some [Some s]) 1) w (λ _, J)) →
  ses_active ses = true → J w → ensures (poller_clone vtab proto s ses tag) w (λ _, J).
Proof.
  intros Hsave Hs Hw. unfold poller_clone. cbv zeta.
  eapply ensures_bind; [by eapply pt_read|]. intros [ret d] w1 [Hw1 Hd]. cbv beta iota.
  destruct (Z.eqb_spec ret 0) as [->|]; cbn [negb]; [|by apply ensures_ret].
  destruct (Hd eq_refl) as (d' & -> & Hok). eapply ensures_lift; [done|].
  eapply ensures_bind with (Q := λ _, J).
  { destruct (rp_init (proto s)) as [init|] eqn:Hi; [by eapply pt_init|by apply ensures_ret]. }
  intros ret w2 Hw2. case_bool; [by apply ensures_ret|].
  eapply ensures_bind with (Q := λ _, J).
  { destruct (rp_load (proto s)) as [load|] eqn:Hl; [by eapply pt_load|by apply ensures_ret]. }
  intros ret' w3 Hw3. case_bool; [by apply ensures_ret|]. by apply Hsave.
Qed.

(** ** Sequences of events *)

(** What the rest of the program does keeps [I]. *)
Definition reader_event_ok (ev : reader_event) : Prop :=
  match ev with EvWorld f => ∀ w, I w → I (f w) | _ => True end.

Notation step := (reader_step vtab proto info0).
Notation steps := (reader_steps vtab proto info0).

Definition engine_ok (e : engine) : Prop := reader_ok (e_reader e) ∧ I (e_world e).

Lemma step_ok ev e : reader_event_ok ev → engine_ok e → ensures (step ev) e (λ _, engine_ok).
Proof.
  intros Hev [Hr He]. destruct ev as [t|tag|tag t| |t info| |f]; cbn [reader_step].
  - eapply ensures_bind; [by apply scan_start_ok|]. intros ret e1 (? & ? & _). by apply ensures_ret.
  - eapply ensures_bind; [by apply clone_start_ok|]. intros ret e1 (? & ? & _). by apply ensures_ret.
  - eapply ensures_bind; [by apply read_start_ok|]. intros ret e1 (? & ? & _). by apply ensures_ret.
  - eapply ensures_weaken; [by apply run_work_ok|]. by intros [] e1 (? & ? & _).
  - eapply ensures_bind; [by apply discover_once_keeps|]. intros [ret i] e1 [? Hs]. apply ensures_ret.
    split; [|done]. by eapply reader_ok_session.
  - eapply ensures_weaken; [by apply session_end_keeps|]. intros [] e1 [? Hs]. split; [|done].
    eapply reader_ok_session; [exact Hr|]. rewrite Hs. apply ended_only.
  - eexists _, _. split; [done|]. split; [done|by apply Hev].
Qed.

Lemma steps_ok evs e : Forall reader_event_ok evs → engine_ok e → ensures (steps evs) e (λ _, engine_ok).
Proof.
  intros Hev. revert e. induction Hev as [|ev evs Hev _ IH]; intros e He; [by apply ensures_ret|].
  cbn [reader_steps]. eapply ensures_bind; [by apply step_ok|]. intros [] e1 He1. by apply IH.
Qed.

Lemma boot_reader_ok : reader_ok reader_boot.
Proof.
  pose proof max_tag_len_range. constructor; cbn; try done; try (by rewrite len_zeros by lia); [by constructor|].
  intros x. split; [by intros ?%elem_of_nil|by destruct x].
Qed.

(** Draining the queue. *)
Lemma drain_ok e : engine_ok e →
  ensures (steps (replicate (length (r_queue (e_reader e))) EvWork)) e (λ _ e', engine_ok e' ∧ r_queue (e_reader e') = []).
Proof.
  remember (r_queue (e_reader e)) as q eqn:Hq. revert e Hq.
  induction q as [|x q IH]; intros e Hq He; [by apply ensures_ret|].
  cbn [length replicate reader_steps reader_step]. destruct He as [Hr He].
  eapply ensures_bind; [by apply run_work_ok|]. intros [] e1 (He1 & Hr1 & Hq1). rewrite <-Hq in Hq1. by apply IH.
Qed.

(** ** Properties *)

(** From boot, every sequence of events returns and keeps the invariants. *)
Lemma reader_requests_ok evs w : I w → Forall reader_event_ok evs →
  ∃ e, steps evs {| e_reader := reader_boot; e_world := w |} = Some (tt, e) ∧ reader_ok (e_reader e) ∧ I (e_world e).
Proof.
  intros Hw Hev. destruct (steps_ok evs {| e_reader := reader_boot; e_world := w |} Hev) as ([] & e & Hrun & He);
    [split; [apply boot_reader_ok|done]|]. exists e. by destruct He.
Qed.

(** From any state the reader can reach, the jobs that are queued are served. *)
Lemma reader_jobs_drain evs w e : I w → Forall reader_event_ok evs →
  steps evs {| e_reader := reader_boot; e_world := w |} = Some (tt, e) →
  ∃ e', steps (replicate (length (r_queue (e_reader e))) EvWork) e = Some (tt, e') ∧
    r_queue (e_reader e') = [] ∧ ∀ x, busy x (e_reader e') = false.
Proof.
  intros Hw Hev Hrun. destruct (steps_ok evs {| e_reader := reader_boot; e_world := w |} Hev) as ([] & e1 & Hrun1 & He1);
    [split; [apply boot_reader_ok|done]|]. rewrite Hrun in Hrun1. injection Hrun1 as <-.
  destruct (drain_ok e He1) as ([] & e' & Hd & [Hr _] & Hq). exists e'. split; [done|]. split; [done|].
  intros x. pose proof (ro_busy _ Hr x) as Hb. rewrite Hq in Hb. destruct (busy x (e_reader e')); [|done].
  destruct Hb as [_ Hb]. by apply elem_of_nil in Hb.
Qed.

(** Cloning and detecting agree: with an active session, a run of the registry clones the
    card with the very poller that [nfc_reader_pollers_detect] names for it (and fails with
    [-ENOTSUP] when that has none, or has no clone hook), then ends the session; the run is equal to that
    computation, in its result, its effects and its order of effects. *)
Theorem pollers_run_clones_detected tag e ret name w1 :
  CONFIG_NFC_STORE = true → ses_active (s_session (e_reader e)) = true →
  nfc_reader_pollers_detect vtab proto (Some (s_session (e_reader e))) (e_world e) = Some ((ret, name), w1) →
  ∃ o, name = pe_name <$> o ∧ ret = (if is_found o then 0 else - ENOTSUP) ∧ (∀ p, o = Some p → p ∈ entries) ∧
    nfc_reader_pollers_run vtab proto tag e =
    (r ← on_world (clone_with o (s_session (e_reader e)) tag); nfc_reader_session_end ;; mret r)
      {| e_reader := e_reader e; e_world := w1 |}.
Proof.
  intros Hs Ha Hd. cbn [nfc_reader_pollers_detect] in Hd. apply run_inv in Hd as (o & w & Hf & Hd).
  injection Hd as Hr <-. exists o. split; [by destruct o; injection Hr|]. split; [by destruct o; injection Hr|].
  split; [intros p ->; by eapply detected_in|].
  unfold nfc_reader_pollers_run, nfc_reader_session_get. rewrite Hs, run_bind, run_gets, Ha, run_ret.
  unfold on_world, mbind, M_bind. rewrite walk_detected. unfold mbind, M_bind. rewrite Hf. cbn [e_world e_reader].
  destruct (clone_with o (s_session (e_reader e)) tag w) as [[r w2]|] eqn:Hc; [|done]. cbn [mret M_ret].
  destruct o as [p|]; [done|]. cbn in Hc. by injection Hc as <- <-.
Qed.
End ReaderSpec.
