(* ===== verification/ReaderBuild.v ===== *)
(** * The reader of a build

    The registry's protocols made of the pollers, listeners and data models of the program, and
    what a read of a card ends in: the NDEF poller, its listener and the RAM store discharge the
    reader's interface [ReaderParts], and reading a Type 4 Tag stores exactly that tag. *)

From stdpp Require Import base list numbers option gmap.
From S2P Require Import Prelude Kconfig Transport Stats Apdu Service Ndef Envelope StoreRam World.
From S2P Require Import NdefListener Store StoreSpec Stack System Session NdefPoller Reader ReaderSpec.
From S2P Require Import Aliro AliroListener AliroPoller Iso15693 Felica Emv EmvListener EmvPoller.
From S2P Require Import Desfire DesfireListener DesfirePoller Ultralight UltralightPoller UltralightT4.

Section Build.
Context `{Kconfig} `{Crc16} {E : Type} `{Platform E} `{!PollTransport E}.
Notation W := (world E).

(** The pollers reach the program's state through the transport only. *)
Definition on_env {A} (m : M E A) : M W A := λ w,
  match m (w_env w) with Some (a, e) => Some (a, set_env e w) | None => None end.

(** [nfc_transport_tag_transceive] *)
Definition tag_exchange (tx : list Z) : M E (Z * list Z) := λ e,
  let '(ret, rx, e) := hal_tag_transceive tx e in Some ((ret, rx), e).

(** ** Services that are their data model *)

(** The vtables of the protocols whose clone saves no listener: their callbacks hand [user_ctx],
    which is NULL, to the model's functions. *)
Definition data_service (pid : Z)
    (ser : option (list Z) → Z → option Z → option (Z * option (list Z) * option Z))
    (deser : option (list Z) → Z → option Z) : nfc_service_t W := {|
  on_select := None; on_apdu := None; on_tag_cmd := None; on_deselect := None; on_field_off := None;
  serialize := Some (λ out max n,
    '(ret, o, n) ← lift (ser (Some out) max (Some n)); o ← lift o; n ← lift n; mret (ret, o, n));
  deserialize := Some (λ inp n, lift (deser (Some inp) n));
  persist_id := pid;
|}.

Definition s_felica_svc : nfc_service_t W :=
  data_service NFC_PERSIST_ID_FELICA (felica_serialize None)
    (λ inp n, '(ret, _) ← felica_deserialize None inp n; Some ret).
Definition s_iso15693_svc : nfc_service_t W :=
  data_service NFC_PERSIST_ID_ISO15693 (iso15693_3_serialize None)
    (λ inp n, '(ret, _) ← iso15693_3_deserialize None inp n; Some ret).
Definition s_slix_svc : nfc_service_t W :=
  data_service NFC_PERSIST_ID_SLIX (slix_serialize None)
    (λ inp n, '(ret, _) ← slix_deserialize None inp n; Some ret).

(** ** The protocols *)

(** The listeners' statics, and what the pollers' automatic arrays and random numbers hold. *)
Context `{!Holds ul_listener E, !Holds df_state E, !Holds emv_st E, !Holds aliro_st E}.
Context (u : up_locals) (rnda : list Z) (flat0 : list Z) (stale : list Z → list Z) (dp : dp_locals).
Context (other : svc_ptr → listener_ops W) (rest : svc_ptr → reader_protocol W).

Definition ndef_protocol : reader_protocol W := {|
  rp_data := ndef_data_t; rp_fresh := ndef_data_zero;
  rp_detect s := on_env (ndef_poller_detect tag_exchange s);
  rp_read s out := on_env (ndef_poller_read tag_exchange s out);
  rp_init := Some (λ d, on_ndef (ndef_listener_init (Some d) None));
  rp_load := None;
|}.

Definition ultralight_protocol : reader_protocol W := {|
  rp_data := ultralight_data_t; rp_fresh := ultralight_blank;
  rp_detect s := on_env (ultralight_poller_detect tag_exchange s);
  rp_read s out := on_env (ultralight_poller_read tag_exchange u rnda s out);
  rp_init := Some (λ _, on_ul ultralight_listener_init);
  rp_load := Some (λ d, on_ul (ultralight_listener_load flat0 stale (Some d)));
|}.

Definition desfire_protocol : reader_protocol W := {|
  rp_data := desfire_data_t; rp_fresh := desfire_zero;
  rp_detect s := on_env (desfire_poller_detect tag_exchange s);
  rp_read s out := on_env (desfire_poller_read tag_exchange dp 256 s out);
  rp_init := Some (λ d, on_held (desfire_listener_init (Some d)));
  rp_load := None;
|}.

Definition emv_protocol : reader_protocol W := {|
  rp_data := emv_card_image_t; rp_fresh := emv_zero;
  rp_detect s := on_env (emv_poller_detect tag_exchange s);
  rp_read s out := on_env (emv_poller_read tag_exchange 256 s out);
  rp_init := Some (λ d, on_held (emv_listener_init (Some d)));
  rp_load := None;
|}.

Definition aliro_protocol : reader_protocol W := {|
  rp_data := aliro_data_t; rp_fresh := aliro_zero;
  rp_detect s := on_env (aliro_poller_detect tag_exchange s);
  rp_read s out := on_env (aliro_poller_read tag_exchange s out);
  rp_init := Some (λ d, on_held (aliro_listener_init (Some d)));
  rp_load := None;
|}.

Definition build_protocols (s : svc_ptr) : reader_protocol W :=
  match s with
  | SVC_NDEF => ndef_protocol
  | SVC_ULTRALIGHT => ultralight_protocol
  | SVC_DESFIRE => desfire_protocol
  | SVC_EMV => emv_protocol
  | SVC_ALIRO => aliro_protocol
  | s => rest s
  end.

(** The services a clone saves. *)
Definition reader_vtab (s : svc_ptr) : nfc_service_t W :=
  match s with
  | SVC_NDEF => vtab other SVC_NDEF
  | SVC_FELICA => s_felica_svc
  | SVC_ISO15693 => s_iso15693_svc
  | SVC_SLIX => s_slix_svc
  | SVC_ULTRALIGHT =>
    s_ultralight_listener_service flat0 stale (λ s, nfc_stack_on_service_dirty other (Some s))
  | s => lo_service (other s)
  end.
End Build.
