(* ===== verification/ReaderNdef.v ===== *)
(** * Reading Type 4 Tags to the store

    The build whose only protocol is NDEF: its poller, listener and store discharge the reader's
    interface, whatever card is in the field; and reading a Type 4 Tag, from the request to the
    saved card, stores exactly that tag and emulates it. *)

From stdpp Require Import base list numbers option gmap.
From S2P Require Import Prelude Kconfig Transport Stats Apdu Service Ndef Envelope StoreRam World.
From S2P Require Import NdefListener Store StoreSpec Stack System Reach Session NdefPoller Reader ReaderSpec.
From S2P Require Import Aliro AliroListener AliroPoller Iso15693 Felica Emv EmvListener EmvPoller.
From S2P Require Import Desfire DesfireListener DesfirePoller Ultralight UltralightPoller UltralightT4 ReaderBuild.

(** The build. *)
Class NdefReader `{Kconfig} : Prop := {
  nr_store : CONFIG_NFC_STORE = true;
  nr_store_ram : CONFIG_NFC_STORE_RAM = true;
  nr_ultralight : CONFIG_NFC_PROTOCOL_ULTRALIGHT = false;
  nr_classic : CONFIG_NFC_PROTOCOL_CLASSIC = false;
  nr_felica : CONFIG_NFC_PROTOCOL_FELICA = false;
  nr_iso15693 : CONFIG_NFC_PROTOCOL_ISO15693_3 = false;
  nr_slix : CONFIG_NFC_PROTOCOL_SLIX = false;
}.

Section ReaderNdef.
Context `{KconfigRanges} `{!NdefBuild} `{!NdefReader} `{Crc16} {E : Type} `{Trace E} `{!PollTransport E} `{!AppLoad}.
Context `{!Holds ul_listener E, !Holds df_state E, !Holds emv_st E, !Holds aliro_st E}.
Context (u : up_locals) (rnda flat0 : list Z) (stale : list Z → list Z) (dp : dp_locals).
Context (other : svc_ptr → listener_ops (world E)) (rest : svc_ptr → reader_protocol (world E)).
Notation W := (world E).
Notation protocols := (build_protocols u rnda flat0 stale dp rest).
Notation services := (reader_vtab flat0 stale other).

(** ** The pollers touch the environment only *)

Lemma ensures_on_env {A} (m : M E A) (w : W) Q : ensures m (w_env w) Q →
  ensures (on_env m) w (λ a w', Q a (w_env w') ∧ w' = set_env (w_env w') w).
Proof. intros (a & e & Hm & HQ). eexists a, _. unfold on_env. by rewrite Hm. Qed.

(** The invariant: the listener's, the store's and the RAM backend's. *)
Definition storing (w : W) : Prop := nl_ok (w_ndef w) ∧ store_ok (w_store w) ∧ ram_ok (w_ram w).

Lemma storing_env e w : storing w → storing (set_env e w).
Proof. done. Qed.

Lemma on_env_storing {A} (m : M E A) (w : W) (Q : A → Prop) : ensures m (w_env w) (λ a _, Q a) → storing w →
  ensures (on_env m) w (λ a w', storing w' ∧ Q a).
Proof.
  intros Hm Hw. eapply ensures_weaken; [by apply ensures_on_env|]. intros a w' [HQ ->]. split; [|done]. exact Hw.
Qed.

Lemma detect_total `{!Card tag_exchange} ses e : ses_active ses = true →
  ensures (ndef_poller_detect tag_exchange (Some ses)) e (λ _ _, True).
Proof.
  intros Hs. unfold ndef_poller_detect. case_bool; [by apply ensures_ret|].
  eapply ensures_bind; [by apply exchange_total|]. intros [ret rx] e1 _. cbv beta iota. case_bool; [by apply ensures_ret|].
  destruct (sw_ok_spec rx) as (b & Hb & _). eapply ensures_lift; [exact Hb|]. destruct b; [by apply ensures_ret|].
  eapply ensures_bind; [by apply exchange_total|]. intros [ret' rx'] e2 _. cbv beta iota.
  case_bool; [by apply ensures_ret|].
  destruct (sw_ok_spec rx') as (b & Hb' & _). eapply ensures_lift; [exact Hb'|]. destruct b; [by apply ensures_ret|].
  destruct (sw_not_found_spec rx') as [b Hn]. eapply ensures_lift; [exact Hn|]. by destruct b; apply ensures_ret.
Qed.

#[export] Instance ndef_total `{!Card tag_exchange} : ProtocolTotal ndef_protocol storing ndef_consistent.
Proof.
  constructor.
  - intros ses w Hs Hw. eapply ensures_weaken; [by apply (on_env_storing _ w (λ _, True)), Hw; apply detect_total|].
    by intros ret w' [? _].
  - intros ses w Hs Hw. cbn [rp_read ndef_protocol rp_fresh].
    eapply ensures_weaken; [apply (on_env_storing _ w (λ '(ret, d), ret = 0 → ∃ d', d = Some d' ∧ ndef_consistent d')); [|done]|].
    + eapply ensures_weaken; [by apply ndef_poller_read_any|]. intros [ret d] e Hq. exact Hq.
    + intros [ret d] w' Hq. exact Hq.
  - intros init d. cbn [rp_data rp_init ndef_protocol] in *. intros w [= <-] Hd (Hl & Hs & Hm). unfold on_ndef, ensures. wred.
    destruct (NdefListener.init_ok (w_ndef w) (Some d) None Hl) as (ret & l' & Hrun & Hl' & _);
      [intros ? [= <-]; apply Hd|]. rewrite Hrun. wred. eexists _, _. split; [done|]. done.
  - done.
Qed.

(** ** The store's calls *)

Lemma storing_saved w i w' : saved (ndef_inv i) w w' → storing w'.
Proof. intros [[] ? ? _ _ _ _]. done. Qed.

Lemma storing_inv w : storing w → ndef_inv (nl_initialized (w_ndef w)) w.
Proof. by intros []. Qed.

Lemma save_storing tag w : storing w → ensures (nfc_store_save services (Some tag) (Some [Some SVC_NDEF]) 1) w (λ _, storing).
Proof.
  intros Hw. pose proof Hw as (Hl & Hs & Hm).
  destruct (save_total (vtab other) (ndef_inv (nl_initialized (w_ndef w))) image (Some tag) [Some SVC_NDEF] w)
    as (ret & w' & Hrun & Hsv); [by apply storing_inv|done|done|].
  exists ret, w'. split; [exact Hrun|by eapply storing_saved].
Qed.

Lemma storing_staged w i w' : storing w → staged (ndef_inv i) w w' → storing w'.
Proof. intros (? & ? & Hm) [[] ? _ Hr _ _ _]. split; [done|]. split; [done|]. by rewrite Hr. Qed.

Lemma storing_store x w : storing w → store_ok x → storing (set_store x w).
Proof. by intros (? & ? & ?). Qed.

Lemma peek_storing tag w : storing w → ensures (nfc_store_peek_entry_meta (Some tag) (Some 0) (Some 0)) w (λ _, storing).
Proof.
  intros Hw. pose proof Hw as (Hl & Hs & Hm).
  destruct (peek_total (vtab other) (ndef_inv (nl_initialized (w_ndef w))) image tag w (storing_inv w Hw) Hs Hm)
    as (r & w' & Hrun & Hsg). exists r, w'. split; [done|by eapply storing_staged].
Qed.

Lemma store_init_storing w : storing w → ensures (nfc_store_init None) w (λ _, storing).
Proof.
  intros Hw. destruct (decide (s_state (w_store w) = NFC_STORE_STATE_INITIALIZED)) as [Hi|Hi].
  - exists (- EALREADY), w. unfold nfc_store_init. wred. by rewrite bool_decide_true.
  - exists 0, (set_store (store_initialized (w_store w)) w). split; [by apply store_init_spec|].
    apply storing_store; [done|]. apply store_initialized_ok, Hw.
Qed.

Lemma ram_init_storing w : storing w → ensures nfc_store_ram_init w (λ _, storing).
Proof.
  intros Hw. destruct (ram_ready (w_ram w)) eqn:Hr.
  - exists 0, w. unfold nfc_store_ram_init. wred. by rewrite Hr.
  - eexists 0, _. split; [by apply ram_init_spec|]. destruct Hw as (? & ? & []). split; [done|].
    split; [by apply ram_registered_ok|by constructor].
Qed.

(** Every poller but NDEF's is a stub of this build. *)
Lemma entries_ndef (p : nfc_reader_poller_entry_t W) : p ∈ s_pollers services protocols →
  p = ndef_entry services protocols ∨
  (∀ ses, pe_detect p ses = mret (- ENOTSUP)) ∧ pe_clone_fn p = None.
Proof.
  unfold s_pollers, ultralight_entry, classic_entry, felica_entry, slix_entry, iso15693_3_entry, desfire_entry,
    emv_entry, aliro_entry.
  rewrite build_ndef, nr_ultralight, nr_classic, nr_felica, nr_slix, nr_iso15693, build_desfire, build_emv, build_aliro.
  cbn [when app]. rewrite !elem_of_cons, elem_of_nil. intros Hp.
  destruct Hp as [->|Hp]; [by left|right]. by repeat destruct Hp as [->|Hp].
Qed.

(** The build discharges the reader's interface, whatever card is in the field. *)
#[export] Instance ndef_reader_parts `{!Card tag_exchange} : ReaderParts services protocols storing.
Proof.
  constructor.
  - done.
  - intros p ses w Hp Hs Hw. destruct (entries_ndef p Hp) as [->|[Hd _]].
    + cbn [ndef_entry poller_entry pe_detect]. by apply (pt_detect (p := ndef_protocol) (ok := ndef_consistent)).
    + rewrite Hd. by apply ensures_ret.
  - intros p clone ses tag w Hp Hc Hs Ht Hw. destruct (entries_ndef p Hp) as [->|[_ Hd]]; [|congruence].
    injection Hc as <-. apply (clone_total services protocols SVC_NDEF ndef_consistent storing); [|done|done].
    intros w' Hw'. by apply save_storing.
  - intros tag w. apply peek_storing.
  - apply store_init_storing.
  - apply ram_init_storing.
Qed.

(** ** A Type 4 Tag in the field *)

(** [F e t] says that the tag [t] is in the field of the transport [e], [R e t] that its NDEF application is
    selected as well: work is accepted and discovery finds the tag. *)
Class FieldCard (F R : E → tag → Prop) : Prop := {
  fc_card :: Type4Card tag_exchange F R;
  fc_selected e t : R e t → F e t;
  fc_submit e t : F e t → 0 <= (hal_work_submit e).1 ∧ F (hal_work_submit e).2 t;
  fc_init e t : F e t → ((hal_init e).1 = 0 ∨ (hal_init e).1 = - EALREADY) ∧ F (hal_init e).2 t;
  fc_start e t : F e t → (hal_discover_start NFC_TECH_ALL_READER e).1 = 0 ∧ F (hal_discover_start NFC_TECH_ALL_READER e).2 t;
  fc_wait n info e t : F e t → (hal_discover_wait n info e).1.1 = 0 ∧ F (hal_discover_wait n info e).2 t;
}.

(** The clone of a tag: its NLEN field and message, and its CC with write access granted. *)
Definition clone_file (t : tag) : list Z :=
  take (Z.to_nat (2 + t_nlen t)) (t_file t) ++ zeros (NDEF_FILE_BUF_SIZE - (2 + t_nlen t)).
Definition clone_of (t : tag) : tag :=
  {| t_cc := <[14%nat := 0x00]> (t_cc t); t_file := clone_file t; t_writable := true; t_sel := NDEF_FILE_NONE |}.
Definition clone_blob (t : tag) : list Z :=
  NFC_NDEF_FORMAT_VERSION :: <[14%nat := 0x00]> (t_cc t) ++ take (Z.to_nat (2 + t_nlen t)) (t_file t).

Definition clonable (t : tag) : Prop :=
  readable t ∧ t_nlen t <= CONFIG_NFC_NDEF_MAX_SIZE ∧ 2 + t_nlen t <= len (t_file t) ∧
  30 + t_nlen t <= CONFIG_NFC_STORE_BLOB_SIZE.

Lemma t_nlen_range t : readable t → 0 <= t_nlen t < 65536.
Proof. intros _. apply u16_range. Qed.

(** The listener after [ndef_listener_init] with the model read from [t]. *)
Definition clone_listener (t : tag) (l : ndef_listener) : ndef_listener :=
  {| nl_model := {| cc := <[14%nat := 0x00]> (t_cc t); ndef_file := clone_file t; cc_len := NFC_NDEF_CC_LEN;
                    ndef_file_len := NDEF_FILE_BUF_SIZE |};
     nl_writable := true; nl_initialized := true; nl_file_sel := NDEF_FILE_NONE;
     nl_response_buf := nl_response_buf l |}.

Lemma clone_file_len t : clonable t → len (clone_file t) = NDEF_FILE_BUF_SIZE.
Proof.
  intros (Hr & Hn & Hl & _). pose proof (t_nlen_range t Hr). unfold clone_file, NDEF_FILE_BUF_SIZE, NFC_NDEF_NLEN_FIELD_LEN.
  rewrite len_app, len_take, len_zeros by lia. lia.
Qed.

Lemma init_clone t l : clonable t → nl_ok l → nl_initialized l = false →
  ndef_listener_init (Some (model_of t)) None l = Some (0, clone_listener t l) ∧ nl_ok (clone_listener t l).
Proof.
  intros Ht Hl Hi. pose proof (clone_file_len t Ht) as Hfl. destruct Ht as (Hr & Hn & Hlt & _).
  pose proof (t_nlen_range t Hr) as Hnr. pose proof ndef_max_size_range. pose proof ndef_buf_size.
  pose proof (rd_cc_len t Hr) as Hc. pose proof (rd_cc_bytes t Hr). pose proof (rd_file_bytes t Hr).
  assert (bytes (clone_file t)) as Hfb by (apply bytes_app; auto with nfc).
  assert (ndef_ok {| cc := <[14%nat := 0x00]> (t_cc t); ndef_file := clone_file t; cc_len := NFC_NDEF_CC_LEN;
                    ndef_file_len := 2 + t_nlen t |}) as Hok.
  { unfold NFC_NDEF_CC_LEN in *. constructor; cbn; rewrite ?len_insert; try done; try lia.
    apply Forall_insert; [done|unfold is_byte; lia]. }
  split.
  - unfold ndef_listener_init. rewrite Hi. unfold model_of. cbn [cc cc_len]. rewrite Z.eqb_refl.
    rewrite st_ok by (unfold NFC_NDEF_CC_LEN in Hc; lia). mred. change (Z.to_nat 14) with 14%nat.
    change NDEF_CC_WR_ACCESS_OPEN with 0. unfold nd_with_cc. cbn [cc ndef_file cc_len ndef_file_len].
    fold (clone_file t). rewrite (pad_spec _ Hok). mred. unfold clone_listener, padded. do 3 f_equal.
    unfold nd_with_file_len, nd_with_file. cbn [cc ndef_file cc_len ndef_file_len]. f_equal.
    unfold clone_file at 1. rewrite take_app_le by llia. rewrite take_ge by llia. done.
  - constructor; cbn; [|apply Hl|done]. destruct Hok. constructor; cbn; try done; lia.
Qed.

Lemma clone_nlen t l : clonable t → nlen (nl_model (clone_listener t l)) = t_nlen t.
Proof.
  intros (Hr & Hn & Hlt & _). pose proof (t_nlen_range t Hr). unfold nlen, t_nlen. cbn [nl_model clone_listener ndef_file].
  unfold clone_file. rewrite !lookup_app_l by (rewrite length_take; llia).
  by rewrite !lookup_take_lt by lia.
Qed.

Lemma image_clone t l (w : W) : clonable t → image SVC_NDEF (set_ndef (clone_listener t l) w) = inr (clone_blob t).
Proof.
  intros Ht. pose proof (clone_nlen t l Ht) as Hnl. pose proof (clone_file_len t Ht) as Hfl. destruct Ht as (Hr & Hn & Hlt & Hfit).
  pose proof (t_nlen_range t Hr) as Hnr. pose proof ndef_buf_size. pose proof (rd_cc_len t Hr) as Hc. pose proof blob_size_range.
  unfold image. cbn [w_ndef set_ndef nl_initialized clone_listener negb]. cbv zeta.
  unfold synced. rewrite Hnl, (proj2 (Z.leb_le _ _)) by lia.
  unfold ndef_blob_total_len, ndef_blob_payload_len, NFC_NDEF_CC_LEN. cbn [ndef_file_len nd_with_file_len].
  rewrite !(proj2 (Z.ltb_ge _ _)) by lia. unfold ndef_blob, clone_blob, nd_with_file_len.
  cbn [cc ndef_file ndef_file_len nl_model clone_listener]. do 3 f_equal.
  unfold clone_file. rewrite take_app_le by llia. by rewrite take_ge by llia.
Qed.

(** ** The job, step by step *)

(** The reader can save to RAM: the store is up with the RAM backend, or the reader will bring it up. *)
Definition backed (r : reader) (w : W) : Prop :=
  s_state (w_store w) = NFC_STORE_STATE_INITIALIZED ∧ s_save_cb (w_store w) = Some FN_RAM ∨
  s_store_ready r = false ∧ ram_ready (w_ram w) = false.

Record prepared (w w1 : W) : Prop := {
  pp_env : w_env w1 = w_env w;
  pp_ndef : w_ndef w1 = w_ndef w;
  pp_stack : w_stack w1 = w_stack w;
  pp_map : ram_map (w_ram w1) = ram_map (w_ram w);
  pp_storing : storing w1;
  pp_state : s_state (w_store w1) = NFC_STORE_STATE_INITIALIZED;
  pp_cb : s_save_cb (w_store w1) = Some FN_RAM;
}.

Lemma ram_init_prepared (w : W) : storing w →
  (ram_ready (w_ram w) = true → s_state (w_store w) = NFC_STORE_STATE_INITIALIZED ∧ s_save_cb (w_store w) = Some FN_RAM) →
  ∃ w1, nfc_store_ram_init w = Some (0, w1) ∧ prepared w w1.
Proof.
  intros Hw Hb. destruct (ram_ready (w_ram w)) eqn:Hr.
  - destruct (Hb eq_refl). exists w. split; [|done]. unfold nfc_store_ram_init. wred. by rewrite Hr.
  - destruct (ram_init_storing w Hw) as (ret & w1 & Hrun & Hst). pose proof (ram_init_spec w Hr) as Hs.
    rewrite Hrun in Hs. injection Hs as -> ->. eexists. split; [exact Hrun|]. constructor; try done.
    cbn. unfold ram_registered. destruct (bool_decide _) eqn:Eb; bool_prop; done.
Qed.

Lemma prepared_trans w1 w2 w3 : prepared w1 w2 → prepared w2 w3 → prepared w1 w3.
Proof. intros [] []. constructor; congruence || done. Qed.

Lemma run_on_world {A B} (m : M W A) (k : A → M (engine E) B) e a w1 : m (e_world e) = Some (a, w1) →
  (on_world m ≫= k) e = k a {| e_reader := e_reader e; e_world := w1 |}.
Proof. intros Hm. unfold on_world, mbind, M_bind. by rewrite Hm. Qed.

Lemma run_on_call {B} f (k : Z → M (engine E) B) e :
  (on_world (env_call f) ≫= k) e =
  k (f (w_env (e_world e))).1 {| e_reader := e_reader e; e_world := set_env (f (w_env (e_world e))).2 (e_world e) |}.
Proof. done. Qed.

Lemma ensure_prepared (e : engine E) : storing (e_world e) → backed (e_reader e) (e_world e) →
  ∃ w1, nfc_reader_store_ensure e = Some (0, {| e_reader := r_with_ready true (e_reader e); e_world := w1 |}) ∧
    prepared (e_world e) w1.
Proof.
  destruct e as [r w]. cbn [e_reader e_world]. intros Hw Hb. unfold nfc_reader_store_ensure. wred. cbn [e_reader].
  destruct (s_store_ready r) eqn:Hr.
  { destruct Hb as [[Hi Hc]|[? _]]; [|congruence]. exists w. split; [|done]. rewrite run_mret. do 3 f_equal. destruct r. cbn in *. by subst. }
  rewrite nr_store_ram. destruct (decide (s_state (w_store w) = NFC_STORE_STATE_INITIALIZED)) as [Hi|Hi].
  - assert (nfc_store_init None w = Some (- EALREADY, w)) as Hini
      by (unfold nfc_store_init; wred; by rewrite bool_decide_true).
    destruct (ram_init_prepared w Hw) as (w1 & Hrun & Hp); [intros Hrr; destruct Hb as [?|[_ ?]]; [done|congruence]|].
    exists w1. split; [|done]. rewrite (run_on_world _ _ {| e_reader := r; e_world := w |} _ _ Hini). cbn [Z.eqb negb andb].
    change (negb (- EALREADY =? 0) && negb (- EALREADY =? - EALREADY)) with false. cbv iota.
    by rewrite (run_on_world _ _ {| e_reader := r; e_world := w |} _ _ Hrun).
  - destruct Hb as [[? _]|[_ Hrr]]; [done|]. pose proof (store_init_spec w Hi) as Hini.
    set (w0 := set_store (store_initialized (w_store w)) w) in *.
    assert (storing w0) as Hw0 by (apply storing_store; [done|apply store_initialized_ok, Hw]).
    destruct (ram_init_prepared w0 Hw0) as (w1 & Hrun & Hp); [intros ?; cbn in *; congruence|].
    exists w1. split; [|by destruct Hp; constructor].
    rewrite (run_on_world _ _ {| e_reader := r; e_world := w |} _ _ Hini). change (negb (0 =? 0) && negb (0 =? - EALREADY)) with false. cbv iota.
    by rewrite (run_on_world _ _ {| e_reader := r; e_world := w0 |} _ _ Hrun).
Qed.

Lemma run_on_env {A B} (m : M E A) (k : A → M W B) (w : W) a e1 : m (w_env w) = Some (a, e1) →
  (on_env m ≫= k) w = k a (set_env e1 w).
Proof. intros Hm. unfold on_env, mbind, M_bind. by rewrite Hm. Qed.

(** The envelope of a card with the clone of [t]. *)
Definition clone_card (t : tag) : list Z :=
  envelope NFC_STORE_BLOB_VERSION 0 (encode_entries NFC_STORE_BLOB_VERSION
    [{| en_id := NFC_PERSIST_ID_NDEF; en_flags := 5; en_body := clone_blob t |}]).

Section InField.
Context (F R : E → tag → Prop) `{!FieldCard F R} (t : tag) (Ht : clonable t).

Lemma detect_ok ses e : ses_active ses = true → F e t →
  ∃ e', ndef_poller_detect tag_exchange (Some ses) e = Some (0, e') ∧ F e' (tag_select NDEF_FILE_NONE t).
Proof.
  intros Hs (e' & Hrun & HR)%t4_select. exists e'. split; [|by apply fc_selected].
  unfold ndef_poller_detect, ndef_poller_session_valid, nfc_reader_session_transceive. rewrite Hs. cbn [negb Z.eqb].
  by rewrite (run_call _ _ _ _ _ Hrun).
Qed.

(** Saving the clone, and looking at what was saved. *)
Lemma save_clone (w : W) name l : tag_ok name → has_room (w_ram w) name → quiescent w → prepared w w →
  nl_ok (clone_listener t l) →
  ∃ w', nfc_store_save services (Some name) (Some [Some SVC_NDEF]) 1 (set_ndef (clone_listener t l) w) = Some (0, w') ∧
    ram_map (w_ram w') = <[c_str name := clone_card t]> (ram_map (w_ram w)) ∧ storing w' ∧ quiescent w' ∧
    tag_of (w_ndef w') = clone_of t ∧ nl_initialized (w_ndef w') = true ∧ w_env w' = w_env w.
Proof.
  intros Hn Hroom Hq [_ _ _ _ (_ & Hs & Hm) Hst Hcb] Hl. set (w0 := set_ndef (clone_listener t l) w).
  pose proof (frozen_persist other (λ s, nfc_stack_on_service_dirty other (Some s)) (clone_of t) true) as Hp.
  set (v := muted (vtab_with other _)) in Hp.
  assert (entries_of v image w0 [Some SVC_NDEF] 6 =
    inr [{| en_id := NFC_PERSIST_ID_NDEF; en_flags := 5; en_body := clone_blob t |}]) as Hes.
  { transitivity (if CONFIG_NFC_STORE_BLOB_SIZE <? 6 + (4 + len (clone_blob t)) + 2 then inl (- ENOMEM)
      else inr [entry_of v SVC_NDEF (clone_blob t)]).
    - assert (image SVC_NDEF w0 = inr (clone_blob t)) as Him by (by apply image_clone).
      cbn [entries_of]. change (persisted v (Some SVC_NDEF)) with (Some SVC_NDEF). cbv iota. by rewrite Him.
    - destruct Ht as (Hr & _ & Hlt & Hfit). pose proof (t_nlen_range t Hr). pose proof (rd_cc_len t Hr) as Hc.
      unfold clone_blob, NFC_NDEF_CC_LEN in *. rewrite !len_cons, len_app, len_insert, len_take, Hc.
      by rewrite (proj2 (Z.ltb_ge _ _)) by lia. }
  destruct (save_ram_spec v _ image name [Some SVC_NDEF] w0 _ ltac:(constructor; [split; [done|done]|done|done|done|done]) Hn Hcb Hes)
    as (w' & ret & Hrun & (Hok' & Htag & Hini) & Hs' & Hm' & Hc' & Hstk & He' & _ & [(_ & -> & Hmap)|[Hno _]]); [|done].
  exists w'. split; [exact Hrun|]. split; [exact Hmap|]. split; [done|]. split; [|done].
  unfold quiescent in *. rewrite Hstk. exact Hq.
Qed.

Lemma peek_keeps name (w : W) : storing w → tag_of (w_ndef w) = clone_of t → nl_initialized (w_ndef w) = true →
  ∃ r w', nfc_store_peek_entry_meta (Some name) (Some 0) (Some 0) w = Some (r, w') ∧ storing w' ∧
    tag_of (w_ndef w') = clone_of t ∧ ram_map (w_ram w') = ram_map (w_ram w).
Proof.
  intros (Hl & Hs & Hm) Htag Hi.
  destruct (peek_total (muted (vtab_with other (λ _, mret tt))) _ image name w (conj Hl (conj Htag Hi)) Hs Hm)
    as (r & w' & Hrun & [(Hl' & Ht' & _) Hs' _ Hr' _ _ _]).
  exists r, w'. split; [done|]. unfold storing. rewrite Hr'. auto.
Qed.

(** The walk over the pollers clones the tag. *)
Lemma walk_clones ses name (w : W) : ses_active ses = true → tag_ok name → has_room (w_ram w) name → quiescent w →
  prepared w w → nl_initialized (w_ndef w) = false → F (w_env w) t →
  ∃ w', pollers_walk (s_pollers services protocols) ses name w = Some ((true, 0), w') ∧
    ram_map (w_ram w') = <[c_str name := clone_card t]> (ram_map (w_ram w)) ∧ storing w' ∧
    tag_of (w_ndef w') = clone_of t.
Proof.
  intros Hs Hn Hroom Hq Hp Hi HF. destruct (detect_ok ses (w_env w) Hs HF) as (e1 & Hd & HF1).
  destruct (poller_reads_tag tag_exchange F R ses Hs e1 _ ndef_data_zero HF1) as (e2 & Hr & _); [by destruct Ht as ([] & _); constructor|apply Ht|apply Ht|].
  change (model_of (tag_select NDEF_FILE_NONE t)) with (model_of t) in Hr.
  unfold s_pollers. rewrite build_ndef. cbn [when app pollers_walk pe_detect pe_clone_fn ndef_entry poller_entry].
  change (rp_detect (protocols SVC_NDEF) (Some ses)) with (on_env (ndef_poller_detect tag_exchange (Some ses)) : M W Z).
  rewrite (run_on_env _ _ _ _ _ Hd). cbn [Z.eqb negb]. unfold poller_clone. cbv zeta. rewrite run_bind.
  change (rp_read (protocols SVC_NDEF)) with (λ s out, on_env (ndef_poller_read tag_exchange s out) : M W (Z * option ndef_data_t)).
  cbv beta. change (rp_fresh (protocols SVC_NDEF)) with ndef_data_zero.
  rewrite (run_on_env _ _ (set_env e1 w) _ _ Hr). cbn [Z.eqb negb].
  set (w2 := set_env e2 (set_env e1 w)). rewrite run_bind, run_lift_Some.
  change (rp_init (protocols SVC_NDEF)) with (Some (λ d, on_ndef (ndef_listener_init (Some d) None) : M W Z)). cbv iota beta.
  pose proof (pp_storing _ _ Hp) as (Hl & _ & _).
  destruct (init_clone t (w_ndef w) Ht Hl Hi) as [Hini Hlok].
  assert (on_ndef (ndef_listener_init (Some (model_of t)) None) w2 = Some (0, set_ndef (clone_listener t (w_ndef w)) w2)) as Hon.
  { unfold on_ndef. wred. change (w_ndef w2) with (w_ndef w). rewrite Hini. by wred. }
  rewrite run_bind, (run_call _ _ _ _ _ Hon). change (negb (0 =? 0) && negb (0 =? - EALREADY)) with false. cbv iota.
  change (rp_load (protocols SVC_NDEF)) with (@None (ndef_data_t → M W Z)). cbv iota. rewrite run_bind, run_ret. cbn [Z.eqb negb].
  destruct (save_clone w2 name (w_ndef w) Hn Hroom Hq ltac:(by destruct Hp) Hlok)
    as (w3 & Hsave & Hmap & Hst3 & Hq3 & Ht3 & Hi3 & _).
  rewrite (run_call _ _ _ _ _ Hsave). cbn [Z.eqb].
  destruct (peek_keeps name w3 Hst3 Ht3 Hi3) as (r & w4 & Hpeek & Hst4 & Ht4 & Hm4).
  rewrite (run_call _ _ _ _ _ Hpeek). exists w4. split; [done|]. by rewrite Hm4.
Qed.

(** Discovery finds the tag, and opens a session. *)
Lemma discover_ok n info r (w : W) : F (w_env w) t →
  ∃ i e1, nfc_reader_discover_once n (Some info) {| e_reader := r; e_world := w |} =
    Some ((0, Some i), {| e_reader := r_with_session {| ses_active := true; ses_tag := i |} r; e_world := set_env e1 w |}) ∧
    F e1 t.
Proof.
  intros HF. unfold nfc_reader_discover_once.
  assert (∃ ret e1, (if bool_decide (hal_get_state (w_env w) = NFC_TRANSPORT_STATE_UNINITIALIZED) ||
                        bool_decide (hal_get_state (w_env w) = NFC_TRANSPORT_STATE_STOPPED)
           then on_world (env_call hal_init) else mret 0) {| e_reader := r; e_world := w |} =
      Some (ret, {| e_reader := r; e_world := set_env e1 w |}) ∧ F e1 t ∧ negb (ret =? 0) && negb (ret =? - EALREADY) = false)
    as (ret & e1 & Hini & HF1 & Hret).
  { destruct (_ || _).
    - destruct (fc_init _ t HF) as [Hr HF']. unfold on_world, env_call. cbn [e_world e_reader].
      destruct (hal_init (w_env w)) as [x e1]. cbn [fst snd] in *. exists x, e1. split; [done|]. split; [done|].
      by destruct Hr as [-> | ->].
    - exists 0, (w_env w). split; [by destruct w|done]. }
  unfold mbind at 1, M_bind. cbn [on_world gets e_world e_reader]. rewrite (run_call _ _ _ _ _ Hini), Hret.
  destruct (fc_start e1 t HF1) as [Hs HF2]. set (w1 := set_env e1 w).
  rewrite run_on_call. cbn [e_world e_reader]. change (w_env w1) with e1. rewrite Hs. cbn [Z.eqb negb].
  set (e2 := (hal_discover_start NFC_TECH_ALL_READER e1).2) in *. destruct (fc_wait n info e2 t HF2) as [Hw HF3].
  destruct (hal_discover_wait n info e2) as [[ret3 i] e3] eqn:Ew. cbn in Hw, HF3. subst ret3.
  assert (nfc_transport_discover_wait n info (set_env e2 w1) = Some ((0, i), set_env e3 w)) as Hwait.
  { unfold nfc_transport_discover_wait. change (w_env (set_env e2 w1)) with e2. by rewrite Ew. }
  rewrite (run_on_world _ _ {| e_reader := r; e_world := set_env e2 w1 |} _ _ Hwait). cbn [Z.eqb negb].
  by exists i, e3.
Qed.
End InField.

(** The request is accepted: the name is copied, the flag set, the item queued. *)
Lemma read_request_ok F R `{!FieldCard F R} t r (w : W) name timeout :
  F (w_env w) t → reader_ok r → r_queue r = [] → (∀ x, busy x r = false) → backed r w → storing w → tag_ok name →
  ∃ d w1 e1, nfc_reader_read_start (Some name) timeout {| e_reader := r; e_world := w |} =
      Some (0, {| e_reader := r_with_queue (r_queue r ++ [read_work]) (r_with_read true d timeout (r_with_ready true r));
                  e_world := set_env e1 w1 |}) ∧
    len d = CONFIG_NFC_STORE_MAX_TAG_LEN ∧ c_str d = c_str name ∧ tag_ok d ∧ prepared w w1 ∧ F e1 t.
Proof.
  intros HF Hr Hq Hidle Hb Hst Hn.
  destruct (ensure_prepared {| e_reader := r; e_world := w |} Hst Hb) as (w1 & Hens & Hp). cbn [e_reader e_world] in Hens, Hp.
  assert (bad_tag name = false) as Hbad.
  { unfold tag_ok in Hn. unfold bad_tag. by rewrite (proj2 (Z.eqb_neq _ _)), (proj2 (Z.leb_gt _ _)) by lia. }
  destruct (copy_tag_spec (s_read_tag r) name (ro_read_len r Hr) Hbad) as (d & Hcopy & Hdl & Hdc & Hdt).
  destruct (fc_submit (w_env w) t HF) as [Hsub HF1]. rewrite <-(pp_env _ _ Hp) in Hsub, HF1.
  exists d, w1, (hal_work_submit (w_env w1)).2. split; [|done].
  unfold nfc_reader_read_start. rewrite nr_store, (run_call _ _ _ _ _ Hens). cbn [Z.eqb negb]. rewrite Hbad, run_gets.
  cbn [e_reader]. unfold nfc_reader_read_busy, nfc_reader_scan_busy, nfc_reader_clone_busy. rewrite nr_store.
  change (read_busy (r_with_ready true r)) with (busy read_work r). change (scan_busy (r_with_ready true r)) with (busy scan_work r).
  change (clone_busy (r_with_ready true r)) with (busy clone_work r). rewrite !Hidle. cbn [orb].
  change (s_read_tag (r_with_ready true r)) with (s_read_tag r). rewrite Hcopy, run_lift_Some.
  unfold upd_reader, k_work_init, k_work_submit_to_queue. rewrite run_modify, run_bind, run_gets. cbn [e_reader e_world].
  change (r_queue (r_with_read true d timeout (r_with_ready true r))) with (r_queue r).
  rewrite Hq, bool_decide_false by by apply not_elem_of_nil. rewrite run_ret, run_bind.
  rewrite run_on_call. cbn [e_world e_reader].
  rewrite (proj2 (Z.ltb_ge _ _)) by done. rewrite run_bind. unfold upd_reader. rewrite run_modify, run_ret.
  rewrite (proj2 (Z.ltb_ge _ _)) by done. cbn [e_reader e_world].
  change (r_queue (r_with_read true d timeout (r_with_ready true r))) with (r_queue r). by rewrite Hq.
Qed.

(** The job discovers the tag, clones it, ends the session and clears its flag. *)
Lemma read_job_ok F R `{!FieldCard F R} t (Ht : clonable t) (w : W) r timeout info :
  read_timeout r = timeout → read_busy r = true → tag_ok (s_read_tag r) → has_room (w_ram w) (s_read_tag r) →
  quiescent w → prepared w w → nl_initialized (w_ndef w) = false → F (w_env w) t →
  ∃ e', run_work services protocols info {| e_reader := r_with_queue [read_work] r; e_world := w |} = Some (tt, e') ∧
    ram_map (w_ram (e_world e')) = <[c_str (s_read_tag r) := clone_card t]> (ram_map (w_ram w)) ∧
    tag_of (w_ndef (e_world e')) = clone_of t ∧ storing (e_world e') ∧
    r_queue (e_reader e') = [] ∧ read_busy (e_reader e') = false ∧ ses_active (s_session (e_reader e')) = false.
Proof.
  intros <- Hrb Hn Hroom Hq Hp Hi HF. unfold run_work. rewrite run_gets. cbn [e_reader r_queue r_with_queue].
  unfold upd_reader. rewrite run_modify. cbn [e_reader e_world]. set (r1 := r_with_queue [] (r_with_queue [read_work] r)).
  cbn [work_handler]. unfold read_work_handler. rewrite run_gets. cbn [e_reader].
  destruct (discover_ok F R t (read_timeout r1) info r1 w HF) as (i & e1 & Hd & HF1).
  rewrite (run_call _ _ _ _ _ Hd). cbn [Z.eqb negb]. set (s := {| ses_active := true; ses_tag := i |}).
  destruct (walk_clones F R t Ht s (s_read_tag r) (set_env e1 w)) as (w2 & Hw & Hmap & Hst & Htag); try done.
  { by destruct Hp. }
  unfold nfc_reader_pollers_run, nfc_reader_session_get. rewrite nr_store, run_bind, run_bind, run_gets. cbn [e_reader].
  cbn [s_session r_with_session ses_active s]. rewrite run_ret, run_bind.
  change (s_read_tag r1) with (s_read_tag r).
  rewrite (run_on_world _ _ {| e_reader := _; e_world := set_env e1 w |} _ _ Hw). cbn [negb e_reader].
  unfold nfc_reader_session_end, nfc_transport_discover_stop, nfc_reader_session_clear, set_read_busy, upd_reader.
  rewrite !run_bind, run_gets. cbn [e_reader s_session r_with_session ses_active negb s].
  rewrite run_bind, run_on_call. cbn [e_world e_reader].
  rewrite run_modify, run_ret. eexists. split; [done|]. done.
Qed.

(** A read request and its job save the tag in the field. *)
Lemma read_saves F R `{!FieldCard F R} t r (w : W) name timeout info :
  clonable t → F (w_env w) t → reader_ok r → r_queue r = [] → backed r w → storing w → quiescent w →
  nl_initialized (w_ndef w) = false → tag_ok name → has_room (w_ram w) name →
  ∃ e', reader_steps services protocols info [EvRead (Some name) timeout; EvWork] {| e_reader := r; e_world := w |} = Some (tt, e') ∧
    ram_map (w_ram (e_world e')) = <[c_str name := clone_card t]> (ram_map (w_ram w)) ∧
    tag_of (w_ndef (e_world e')) = clone_of t ∧ storing (e_world e') ∧
    r_queue (e_reader e') = [] ∧ read_busy (e_reader e') = false ∧ ses_active (s_session (e_reader e')) = false.
Proof.
  intros Ht HF Hr Hq Hb Hst Hqu Hi Hn Hroom.
  assert (∀ x, busy x r = false) as Hidle.
  { intros x. pose proof (ro_busy r Hr x) as Hx. rewrite Hq in Hx. destruct (busy x r); [|done].
    destruct Hx as [_ Hx]. by apply elem_of_nil in Hx. }
  cbn [reader_steps reader_step].
  destruct (read_request_ok F R t r w name timeout HF Hr Hq Hidle Hb Hst Hn) as (d & w1 & e1 & Hreq & Hdl & Hdc & Hdt & Hp & HF1).
  rewrite run_bind, (run_call _ _ _ _ _ Hreq), run_ret.
  destruct (read_job_ok F R t Ht (set_env e1 w1) (r_with_read true d timeout (r_with_ready true r)) timeout info
    ltac:(done) ltac:(done)) as (e' & Hjob & Hres); cbn [s_read_tag r_with_read]; try done.
  { unfold has_room. rewrite Hdc. cbn [w_ram set_env]. by rewrite (pp_map _ _ Hp). }
  { unfold quiescent. cbn. by rewrite (pp_stack _ _ Hp). }
  { by destruct Hp. }
  { cbn. by rewrite (pp_ndef _ _ Hp). }
  cbn [s_read_tag r_with_read w_ram set_env] in Hres. rewrite Hdc, (pp_map _ _ Hp) in Hres.
  cbn [r_queue r_with_read r_with_ready] in Hjob. rewrite Hq. cbn [app]. rewrite (run_call _ _ _ _ _ Hjob). by exists e'.
Qed.
End ReaderNdef.

(** ** Properties

    Each is about the build whose only protocol is NDEF: the classes [NdefBuild] and [NdefReader] among its
    arguments, which turn the other listeners and pollers off and the store and its RAM backend on. *)

Section Properties.
Context `{KconfigRanges} {E : Type} `{Trace E} `{!PollTransport E}.
Context `{!Holds ul_listener E, !Holds df_state E, !Holds emv_st E, !Holds aliro_st E}.
Context (u : up_locals) (rnda flat0 : list Z) (stale : list Z → list Z) (dp : dp_locals).
Context (other : svc_ptr → listener_ops (world E)) (rest : svc_ptr → reader_protocol (world E)).
Notation protocols := (build_protocols u rnda flat0 stale dp rest).
Notation services := (reader_vtab flat0 stale other).

(** C28: In the build whose only protocol is NDEF ([NdefBuild] and [NdefReader]: all other listeners and pollers
    are off, the store and its RAM backend on), reading a card saves it. From any state in which the reader has no
    job, the RAM backend is or can be registered with the store, the stack is not started and the NDEF
    listener is not initialized, a read request for a valid name (for which there is room)
    followed by one run of the work queue, with a Type 4 Tag in the field that the transport discovers
    ([FieldCard]) and that can be read and whose message fits the build and a blob ([clonable]), ends with exactly that tag stored under that name as
    a well-formed card (its CC with write access granted, its NLEN and message), every other card
    kept, the tag presented by the NDEF listener, the session closed and the reader idle. *)
Theorem read_saves_tag `{!NdefBuild} `{!NdefReader} `{Crc16} `{!AppLoad} F R `{!FieldCard F R}
    t r (w : world E) name timeout info :
  clonable t → F (w_env w) t → reader_ok r → r_queue r = [] → backed r w → storing w → quiescent w →
  nl_initialized (w_ndef w) = false → tag_ok name → has_room (w_ram w) name →
  ∃ e', reader_steps services protocols info [EvRead (Some name) timeout; EvWork] {| e_reader := r; e_world := w |} = Some (tt, e') ∧
    ram_map (w_ram (e_world e')) = <[c_str name := clone_card t]> (ram_map (w_ram w)) ∧
    tag_of (w_ndef (e_world e')) = clone_of t ∧ storing (e_world e') ∧
    r_queue (e_reader e') = [] ∧ read_busy (e_reader e') = false ∧ ses_active (s_session (e_reader e')) = false.
Proof. intros. by apply (read_saves u rnda flat0 stale dp other rest F R t). Qed.

(** C29: In the build whose only protocol is NDEF ([NdefBuild] and [NdefReader]), the reader's requests never
    collide. From boot, whatever requests are made (with any names and timeouts), jobs run,
    applets discover or end sessions, whatever card answers in the field (any bytes that fit the transport's
    response, [Card]; a load callback of the application stays inside the buffer it is given, [AppLoad]), and whatever the
    rest of the program does in between that keeps the invariants of the NDEF listener, the store and the RAM
    backend ([storing], which holds of a state to begin with), every
    call returns, nothing leaves its arrays, and no work item is initialized while it is queued; an item is queued once and exactly
    while its busy flag is set, a read excludes a scan and a clone, and a queued clone or read
    has a valid name for its card. *)
Theorem reader_requests_safe `{!NdefBuild} `{!NdefReader} `{Crc16} `{!AppLoad} `{!Card tag_exchange}
    info evs (w : world E) :
  storing w → Forall (reader_event_ok storing) evs →
  ∃ e, reader_steps services protocols info evs {| e_reader := reader_boot; e_world := w |} = Some (tt, e) ∧
    reader_ok (e_reader e) ∧ storing (e_world e).
Proof. intros Hw Hev. by apply reader_requests_ok; [apply _|..]. Qed.

(** C30: In the build whose only protocol is NDEF ([NdefBuild] and [NdefReader]), every accepted request is served, whatever
    card answers in the field (any bytes that fit the transport's response, [Card]): from any state the reader can reach, as
    in C29, as many runs of
    the work queue as there are jobs bring it to rest, with no job queued and no busy flag set, so that
    the next request is accepted. *)
Theorem reader_jobs_served `{!NdefBuild} `{!NdefReader} `{Crc16} `{!AppLoad} `{!Card tag_exchange}
    info evs (w : world E) e :
  storing w → Forall (reader_event_ok storing) evs →
  reader_steps services protocols info evs {| e_reader := reader_boot; e_world := w |} = Some (tt, e) →
  ∃ e', reader_steps services protocols info (replicate (length (r_queue (e_reader e))) EvWork) e = Some (tt, e') ∧
    r_queue (e_reader e') = [] ∧ ∀ x, busy x (e_reader e') = false.
Proof. intros Hw Hev Hrun. by eapply (reader_jobs_drain services protocols storing). Qed.
End Properties.
