(* ===== verification/Loopback.v ===== *)
(** * A device reading a device

    The two halves of the firmware against each other: the poller of one device in front of the
    emulated tag of another.  The exchange is the transport's: the command goes to
    [nfc_stack_on_apdu], and what the stack hands to [nfc_transport_send_response] comes back. *)

From stdpp Require Import base list numbers option gmap.
From S2P Require Import Prelude Kconfig Stats Apdu Service Router Ndef Envelope StoreRam World.
From S2P Require Import Dispatch NdefListener Store StoreSpec Stack System Reach Session NdefPoller.

Section Loopback.
Context `{KconfigRanges} `{!NdefBuild} `{Crc16} {E : Type} `{Trace E} `{!AppLoad}.
Context (other : svc_ptr → listener_ops (world E)).

Definition device_transceive (cmd : list Z) : M (world E) (Z * list Z) :=
  _ ← nfc_stack_on_apdu other (Some {| nb_id := 0; nb_data := cmd |});
  r ← gets tx_of; mret (0, default [] (last r)).

(** A device whose stack is initialized and presents the tag [t]. *)
Definition presents (w : world E) (t : tag) : Prop :=
  reachable other w ∧ k_state (w_stack w) ≠ NFC_STACK_STATE_UNINITIALIZED ∧ tag_of (w_ndef w) = t.

Definition presents_selected (w : world E) (t : tag) : Prop :=
  presents w t ∧ r_active_svc (w_router w) = Some SVC_NDEF.

(** A command leaves the device reachable and its stack initialized. *)
Lemma command_reachable w w' b :
  reachable other w → k_state (w_stack w) ≠ NFC_STACK_STATE_UNINITIALIZED → bytes (nb_data b) →
  nfc_stack_on_apdu other (Some b) w = Some (tt, w') →
  reachable other w' ∧ k_state (w_stack w') ≠ NFC_STACK_STATE_UNINITIALIZED.
Proof.
  intros Hre Hk Hb Hrun.
  assert (run_event other (EvApdu b) w = Some (0, w')) as Hev
    by (unfold run_event, as_int; by rewrite (run_call _ _ _ _ _ Hrun)).
  split; [by apply (reach_event other w (EvApdu b) 0 w')|].
  destruct (event_step other (EvApdu b) w (reachable_ok other w Hre) Hb) as (r & w1 & Hrun' & _ & Hn).
  rewrite Hev in Hrun'. injection Hrun' as <- <-. cbn in Hn.
  by destruct (k_state (w_stack w)); rewrite Hn.
Qed.

#[global] Instance device_type4 : Type4Card device_transceive presents presents_selected.
Proof.
  constructor.
  - intros w t (Hre & Hk & <-).
    assert (bytes SELECT_APP_V2) as Hb by (repeat constructor; unfold is_byte; lia).
    destruct (ndef_selection other {| nb_id := 0; nb_data := SELECT_APP_V2 |}
      {| cla := 0; ins := 0xA4; p1 := 0x04; p2 := 0; data := Some [0xD2; 0x76; 0x00; 0x00; 0x85; 0x01; 0x01; 0x00];
         lc := 7; le := 0; has_le := true; extended := false |} w (reachable_ok other w Hre) Hk Hb)
      as (w' & Hrun & Htx & _ & Hact & Htag); [done..|].
    exists w'. unfold device_transceive. rewrite (run_call _ _ _ _ _ Hrun), run_gets, Htx, last_snoc.
    split; [done|]. destruct (command_reachable w w' {| nb_id := 0; nb_data := _ |} Hre Hk Hb Hrun). by repeat split.
  - intros w t tx a [(Hre & Hk & <-) Hact] Hb Hp Hsel.
    destruct (ndef_command other {| nb_id := 0; nb_data := tx |} a w (reachable_ok other w Hre) Hk Hb Hact)
      as (w' & Hrun & Htx & _ & Htag & Hact'); [|done|].
    { unfold view_of. by rewrite Hp. }
    exists w'. unfold device_transceive. rewrite (run_call _ _ _ _ _ Hrun), run_gets, Htx, last_snoc.
    split; [done|]. destruct (command_reachable w w' {| nb_id := 0; nb_data := _ |} Hre Hk Hb Hrun). by repeat split.
Qed.

(** The tags the listener builds its own CC for can be read. *)
Lemma listener_readable l b : nl_ok l → cc (nl_model l) = cc_bytes b → readable (tag_of l).
Proof.
  intros Hok Hcc. pose proof ndef_max_size_range. pose proof ndef_buf_size.
  destruct (cc_bytes_ok b). constructor; cbn; rewrite ?Hcc; try done; [apply Hok|].
  rewrite (nd_file_size _ (nlo_model _ Hok)). lia.
Qed.

(** The poller in front of a reachable device. *)
Lemma device_read s w out b :
  ses_active s = true → reachable other w → k_state (w_stack w) ≠ NFC_STACK_STATE_UNINITIALIZED →
  cc (nl_model (w_ndef w)) = cc_bytes b → nlen (nl_model (w_ndef w)) <= CONFIG_NFC_NDEF_MAX_SIZE →
  ∃ w', ndef_poller_read device_transceive (Some s) (Some out) w =
      Some ((0, Some (model_of (tag_of (w_ndef w)))), w') ∧
    tag_of (w_ndef w') = tag_select NDEF_FILE_NDEF (tag_of (w_ndef w)) ∧ reachable other w'.
Proof.
  intros Hs Hre Hk Hcc Hn. destruct (sys_parts w (reachable_ok other w Hre)) as ([Hl _] & _ & _).
  pose proof (nd_file_size _ (nlo_model _ Hl)) as Hf. pose proof ndef_buf_size.
  destruct (poller_reads_tag device_transceive presents presents_selected s Hs w (tag_of (w_ndef w)) out)
    as (w' & Hrun & (Hre' & _ & Ht) & _);
    [done|by eapply listener_readable|exact Hn|cbn; rewrite Hf; change (t_nlen _) with (nlen (nl_model (w_ndef w))); lia|].
  exists w'. split_and!; done.
Qed.
End Loopback.

(** C13: End to end, one device can clone another. The device that is read runs the build whose only emulated
    protocol is the NDEF tag ([NdefBuild]); in every reachable state of it in which the
    stack is initialized and the tag carries the CC the listener builds and a message that
    fits, the poller of a second device, with its session open and each of its commands delivered as one buffer, reads
    it successfully and obtains exactly the CC, the
    NLEN field and the message of the emulated tag, which itself is not modified (but for the selected file), in a
    state that is reachable again. *)
Theorem device_reads_device `{KconfigRanges} `{!NdefBuild} `{Crc16} {E : Type} `{Trace E} `{!AppLoad}
    (other : svc_ptr → listener_ops (world E)) s w out b :
  ses_active s = true → reachable other w → k_state (w_stack w) ≠ NFC_STACK_STATE_UNINITIALIZED →
  cc (nl_model (w_ndef w)) = cc_bytes b → nlen (nl_model (w_ndef w)) <= CONFIG_NFC_NDEF_MAX_SIZE →
  ∃ w', ndef_poller_read (device_transceive other) (Some s) (Some out) w =
      Some ((0, Some (model_of (tag_of (w_ndef w)))), w') ∧
    tag_of (w_ndef w') = tag_select NDEF_FILE_NDEF (tag_of (w_ndef w)) ∧ reachable other w'.
Proof. apply device_read. Qed.
