(* ===== verification/Scenario.v ===== *)
(** * A concrete build

    The NDEF-only build with small buffers, a concrete checksum and the recording environment:
    runs of the program from boot, which the kernel evaluates. *)

From stdpp Require Import base list numbers option gmap.
From S2P Require Import Prelude Kconfig Stats Apdu Service Router Ndef Envelope StoreRam World.
From S2P Require Import Dispatch NdefListener Store StoreSpec Stack System Reach.

Definition ndef_config : Kconfig := {|
  CONFIG_NFC_APDU_EXTENDED_SUPPORT := false;
  CONFIG_NFC_ROUTER_MAX_AIDS := 8;
  CONFIG_NFC_STORE := true;
  CONFIG_NFC_STORE_BLOB_SIZE := 512;
  CONFIG_NFC_STORE_MAX_TAG_LEN := 16;
  CONFIG_NFC_STORE_RAM := true;
  CONFIG_NFC_STORE_RAM_SLOT_COUNT := 2;
  CONFIG_NFC_NDEF_MAX_SIZE := 32;
  CONFIG_NFC_ULTRALIGHT_MAX_PAGES := 16;
  CONFIG_NFC_CLASSIC_BLOCK_COUNT := 64;
  CONFIG_NFC_EMV_MAX_RECORDS := 1;
  CONFIG_NFC_EMV_RECORD_SIZE := 32;
  CONFIG_NFC_ALIRO_MAX_TRANSCRIPT := 128;
  CONFIG_NFC_DESFIRE_MAX_APPS := 1;
  CONFIG_NFC_DESFIRE_MAX_FILES_PER_APP := 2;
  CONFIG_NFC_DESFIRE_MAX_FILE_SIZE := 16;
  CONFIG_NFC_DESFIRE_FREE_MEMORY := 7520;
  CONFIG_NFC_ROLE_LISTEN := true;
  CONFIG_NFC_LISTEN_STACK := true;
  CONFIG_NFC_STACK_DEFAULT_PROFILE := 1;
  CONFIG_NFC_PROTOCOL_NDEF := true;
  CONFIG_NFC_PROTOCOL_DESFIRE := false;
  CONFIG_NFC_PROTOCOL_EMV := false;
  CONFIG_NFC_PROTOCOL_ALIRO := false;
  CONFIG_NFC_ALIRO_PROTOCOL_VERIFIED := false;
  CONFIG_NFC_PROTOCOL_ULTRALIGHT := false;
  CONFIG_NFC_PROTOCOL_CLASSIC := false;
  CONFIG_NFC_PROTOCOL_FELICA := false;
  CONFIG_NFC_PROTOCOL_ISO15693_3 := false;
  CONFIG_NFC_PROTOCOL_SLIX := false;
|}.

#[export] Existing Instance ndef_config.

#[export] Instance ndef_config_ranges : KconfigRanges.
Proof. constructor; cbn; lia. Qed.

#[export] Instance ndef_config_build : NdefBuild.
Proof. by constructor. Qed.

(** A concrete 16-bit checksum for the parameter [crc16_ccitt], one byte at a time. *)
Definition crc16_byte (seed b : Z) : Z :=
  let e := u8 (Z.lxor seed b) in
  let f := u8 (Z.lxor e (Z.shiftl e 4)) in
  u16 (Z.lxor (Z.lxor (Z.lxor (Z.shiftr seed 8) (Z.shiftl f 8)) (Z.shiftl f 3)) (Z.shiftr f 4)).

#[export] Instance crc16 : Crc16.
Proof.
  refine {| crc16_ccitt := λ seed l, u16 (foldl crc16_byte seed l) |}.
  intros. apply u16_range.
Defined.

#[export] Instance recorder_load : AppLoad (E := recorder).
Proof. by constructor. Qed.

(** The protocols that are not part of this build are never called. *)
Definition no_others : svc_ptr → listener_ops (world recorder) := λ _,
  {| lo_service := absent; lo_init := mret 0; lo_shutdown := mret 0 |}.

(** The results of a run and its final state. *)
Fixpoint run (evs : list event) (w : world recorder) : option (list Z * world recorder) :=
  match evs with
  | [] => Some ([], w)
  | ev :: evs =>
      match run_event no_others ev w with
      | Some (ret, w) => match run evs w with Some (rs, w) => Some (ret :: rs, w) | None => None end
      | None => None
      end
  end.

Definition state_after (evs : list event) : world recorder :=
  match run evs (boot recorder_boot) with Some (_, w) => w | None => boot recorder_boot end.

Lemma run_reachable evs w : reachable no_others w → Forall event_ok evs →
  ∃ rs w', run evs w = Some (rs, w') ∧ reachable no_others w'.
Proof.
  intros Hw He. revert w Hw. induction He as [|ev evs Hev _ IH]; intros w Hw; [by eexists _, _|].
  destruct (event_step no_others ev w (reachable_ok no_others w Hw) Hev) as (ret & w' & Hrun & _).
  destruct (IH w') as (rs & w2 & Hrun2 & Hre); [by apply (reach_event _ w ev ret)|].
  cbn. rewrite Hrun, Hrun2. by eexists _, _.
Qed.

Lemma state_after_reachable evs : Forall event_ok evs → reachable no_others (state_after evs).
Proof.
  intros He. destruct (run_reachable evs _ (reach_boot no_others recorder_boot) He)
    as (rs & w & Hrun & Hre).
  unfold state_after. by rewrite Hrun.
Qed.

(** The commands of a reader. *)
Definition cmd (l : list Z) : event := EvApdu {| nb_id := 7; nb_data := l |}.
Definition select_app : list Z :=
  [0x00; 0xA4; 0x04; 0x00; 0x07; 0xD2; 0x76; 0x00; 0x00; 0x85; 0x01; 0x01; 0x00].
Definition select_ndef : list Z := [0x00; 0xA4; 0x00; 0x0C; 0x02; 0xE1; 0x04].
(** NLEN 3, message D0 00 00. *)
Definition write_msg : list Z := [0x00; 0xD6; 0x00; 0x00; 0x05; 0x00; 0x03; 0xD0; 0x00; 0x00].
(** NLEN 33, one more than this build stores. *)
Definition write_big : list Z := [0x00; 0xD6; 0x00; 0x00; 0x02; 0x00; 0x21].
Definition read5 : list Z := [0x00; 0xB0; 0x00; 0x00; 0x05].
Definition card1 : list Z := [0x63; 0x61; 0x72; 0x64; 0x31; 0].

(** The reader writes a message, the card is saved, the message is overwritten, and loading the
    card brings it back. *)
Definition session_evs : list event :=
  [EvInit None; EvStart None; EvFieldOn; cmd select_app; cmd select_ndef; cmd write_msg; EvFieldOff;
   EvStop; EvSave (Some card1); EvStart None; cmd select_app; cmd select_ndef;
   cmd [0x00; 0xD6; 0x00; 0x00; 0x02; 0x00; 0x00]; EvStop; EvLoad (Some card1); EvStart None;
   cmd select_app; cmd select_ndef; cmd read5].

Example session_runs :
  fst <$> run session_evs (boot recorder_boot) = Some (replicate 19 0) ∧
  rec_tx (w_env (state_after session_evs)) =
    [[0x90; 0]; [0x90; 0]; [0x90; 0]; [0x90; 0]; [0x90; 0]; [0x90; 0]; [0x90; 0]; [0x90; 0];
     [0x00; 0x03; 0xD0; 0x00; 0x00; 0x90; 0x00]].
Proof. vm_compute. done. Qed.

(** A shutdown between saving and loading loses the cards: the RAM backend keeps the blob, but
    registers its callbacks only once. *)
Example restart_loses_cards :
  fst <$> run [EvInit None; EvSave (Some card1); EvLoad (Some card1); EvShutdown; EvInit None;
               EvLoad (Some card1)] (boot recorder_boot) =
  Some [0; 0; 0; 0; 0; - ENOENT].
Proof. vm_compute. done. Qed.
