(* ===== verification/Witnesses.v ===== *)
(** * The properties at concrete inputs

    For each property with hypotheses, an instance of it in the concrete build of [Scenario]: the
    hypotheses hold there, by evaluation. *)

From stdpp Require Import base list numbers option gmap.
From S2P Require Import Prelude Kconfig Stats Apdu Service Router Ndef Envelope StoreRam World.
From S2P Require Import Dispatch NdefListener Store StoreSpec Stack System Reach Session NdefPoller.
From S2P Require Import Loopback Scenario.

(** [run_ok]: the events of a concrete run hold bytes. *)
Ltac run_ok := repeat constructor; unfold is_byte; lia.

(** ** States of concrete runs *)

Definition up_evs : list event := [EvInit None].
Definition chosen_evs : list event := [EvInit None; cmd select_app; cmd select_ndef; cmd write_msg].
Definition big_evs : list event := [EvInit None; cmd select_app; cmd select_ndef; cmd write_big].
Definition saved_evs : list event := chosen_evs ++ [EvSave (Some card1)].

Definition w_up := state_after up_evs.
Definition w_chosen := state_after chosen_evs.
Definition w_big := state_after big_evs.
Definition w_saved := state_after saved_evs.

Lemma w_up_reachable : reachable no_others w_up.
Proof. apply state_after_reachable. run_ok. Qed.
Lemma w_chosen_reachable : reachable no_others w_chosen.
Proof. apply state_after_reachable. run_ok. Qed.
Lemma w_big_reachable : reachable no_others w_big.
Proof. apply state_after_reachable. run_ok. Qed.
Lemma w_saved_reachable : reachable no_others w_saved.
Proof. apply state_after_reachable. run_ok. Qed.

#[local] Opaque state_after w_up w_chosen w_big w_saved.

(** The parts of the invariant in a reachable state. *)
Lemma reachable_listener w : reachable no_others w → nl_ok (w_ndef w).
Proof. intros Hre. by destruct (sys_parts w (reachable_ok no_others w Hre)) as ([Hl _] & _). Qed.

Lemma reachable_ready w : reachable no_others w → s_state (w_store w) = NFC_STORE_STATE_INITIALIZED →
  k_state (w_stack w) ≠ NFC_STACK_STATE_STARTED →
  ready (ndef_inv (nl_initialized (w_ndef w))) w.
Proof.
  intros Hre Hs Hk. destruct (sys_parts w (reachable_ok no_others w Hre)) as (HP & Hst & Hr).
  constructor; try done. by intros _.
Qed.

Lemma reachable_listening w : reachable no_others w →
  k_state (w_stack w) ≠ NFC_STACK_STATE_UNINITIALIZED → listening (eq SVC_NDEF) (inv_from w) w.
Proof. intros Hre Hk. by apply (sys_listening w (reachable_ok no_others w Hre)). Qed.

(** ** Commands and routing *)

Definition read5_view : nfc_apdu_t :=
  {| cla := 0; ins := 0xB0; p1 := 0; p2 := 0; data := None; lc := 0; le := 5; has_le := true;
     extended := false |}.
Definition select_app_view : nfc_apdu_t :=
  {| cla := 0; ins := 0xA4; p1 := 4; p2 := 0;
     data := Some [0xD2; 0x76; 0x00; 0x00; 0x85; 0x01; 0x01; 0x00]; lc := 7; le := 0; has_le := true;
     extended := false |}.
Definition write_view : nfc_apdu_t :=
  {| cla := 0; ins := 0xD6; p1 := 0; p2 := 0; data := Some [0x00; 0x03; 0xD0; 0x00; 0x00]; lc := 5;
     le := 0; has_le := false; extended := false |}.

Lemma read5_ok : apdu_ok read5_view.
Proof. unfold apdu_ok, is_byte. cbn. lia. Qed.
Lemma write_view_ok : apdu_ok write_view.
Proof. unfold apdu_ok. cbn. split_and!; unfold is_byte; try lia; [run_ok|unfold len; cbn; lia..]. Qed.

Lemma apdu_parse_exact_witness :
  ∃ res a, apdu_parse (Some read5) (len read5) false (Some apdu_zero) = Some (res, Some a) ∧
    (res = APDU_PARSE_OK ↔
       ∃ c, command_ok c ∧ (is_extended c = true → false = true) ∧ read5 = encode c) ∧
    (res = APDU_PARSE_OK → read5 = encode (denote a) ∧ command_ok (denote a) ∧ apdu_ok a).
Proof. apply (apdu_parse_exact false apdu_zero read5). run_ok. Defined.

Definition read_command : command :=
  {| c_cla := 0; c_ins := 0xB0; c_p1 := 0; c_p2 := 0; c_body := Case2S 5 |}.

Lemma apdu_routed_once_witness :
  ∃ w', apdu_assembler_on_apdu_handler (vtab no_others) (Some {| nb_id := 1; nb_data := read5 |}) w_up =
      Some (tt, w') ∧ freed_of w' = freed_of w_up ++ [1%nat] ∧
    handled (vtab no_others) {| nb_id := 1; nb_data := read5 |} w_up w' ∧
    tx_of w' = tx_of w_up ++ [[0x69; 0x86]].
Proof.
  destruct (apdu_routed_once (eq SVC_NDEF) (vtab no_others) (inv_from w_up)
    {| nb_id := 1; nb_data := read5 |} w_up) as (w' & H1 & _ & H2 & H3 & _ & H4).
  - apply reachable_listening; [apply w_up_reachable|by vm_compute].
  - run_ok.
  - exists w'. do 3 (split; [assumption|]). 
    assert (view_of w_up read5 = Some read5_view) as Hv by (vm_compute; reflexivity).
    cbn [nb_data] in H4. rewrite Hv in H4. destruct H4 as [_ H4].
    assert (verdict_of (w_router w_up) read5_view = Refuse [0x69; 0x86]) as Hr by (vm_compute; reflexivity).
    rewrite Hr in H4. apply H4.
Defined.

(** ** The NDEF model and listener *)

Definition demo : ndef_data_t :=
  {| cc := cc_bytes true; ndef_file := [0x00; 0x03; 0xD0; 0x00; 0x00] ++ zeros 29; cc_len := 15;
     ndef_file_len := 5 |}.

Lemma demo_consistent : ndef_consistent demo.
Proof.
  constructor; try by vm_compute. constructor; try by vm_compute.
  - apply cc_bytes_ok.
  - apply bytes_app. split; [run_ok|apply bytes_zeros].
Qed.

Lemma ndef_on_apdu_refines_witness :
  responds rest_ok frame w_chosen (tag_step (tag_of (w_ndef w_chosen)) read5_view)
    (ndef_listener_on_apdu (dirty no_others) read5_view w_chosen).
Proof.
  apply (ndef_on_apdu_refines rest_ok frame (dirty no_others)).
  - apply (sy_inv _ (reachable_ok no_others w_chosen w_chosen_reachable)).
  - apply reachable_listener, w_chosen_reachable.
  - apply read5_ok.
Defined.

(** ** The store *)

Lemma validate_blob_exact_witness :
  ∃ ret, nfc_store_validate_blob (Some (envelope NFC_STORE_BLOB_VERSION 0 [])) 
      (len (envelope NFC_STORE_BLOB_VERSION 0 [])) = Some ret ∧
    (ret = 0 ∨ ret = - EBADMSG) ∧
    (ret = 0 ↔ ∃ v r p, version_ok v ∧ len p < 65536 ∧
       envelope NFC_STORE_BLOB_VERSION 0 [] = envelope v r p).
Proof. apply (validate_blob_exact (envelope NFC_STORE_BLOB_VERSION 0 [])). by apply bytes_check. Defined.

Lemma card1_ok : tag_ok card1.
Proof. by vm_compute. Qed.

Lemma ram_backend_refines_witness :
  ∃ m', nfc_store_ram_save_cb (Some card1) (Some [1; 2; 3]) 3 ram_boot = Some (0, m') ∧ ram_ok m' ∧
    ram_map m' = <[c_str card1 := [1; 2; 3]]> (ram_map ram_boot).
Proof.
  destruct (proj1 (ram_backend_refines ram_boot card1 ram_boot_ok) [1; 2; 3] 3 card1_ok) as (ret & m' & H1 & H2 & H3).
  - run_ok.
  - by vm_compute.
  - rewrite bool_decide_true in H3 by (right; by vm_compute). destruct H3 as (-> & H3 & _).
    exists m'. split; [exact H1|]. split; [done|exact H3].
Defined.

Definition card_vtab : svc_ptr → nfc_service_t (world recorder) :=
  vtab_with no_others (λ s, nfc_stack_on_service_dirty no_others (Some s)).

Definition save_list : list (option svc_ptr) := [Some SVC_NDEF].

Lemma chosen_ready : ready (ndef_inv true) w_chosen.
Proof.
  assert (nl_initialized (w_ndef w_chosen) = true) as Hi by by vm_compute. rewrite <-Hi.
  apply reachable_ready; [apply w_chosen_reachable|by vm_compute..].
Qed.

Lemma saved_ready : ready (ndef_inv true) w_saved.
Proof.
  assert (nl_initialized (w_ndef w_saved) = true) as Hi by by vm_compute. rewrite <-Hi.
  apply reachable_ready; [apply w_saved_reachable|by vm_compute..].
Qed.

(** The entry saved for the written tag. *)
Definition chosen_entries : list entry :=
  match entries_of card_vtab image w_chosen save_list 6 with inr es => es | inl _ => [] end.

Lemma chosen_entries_eq : entries_of card_vtab image w_chosen save_list 6 = inr chosen_entries.
Proof. vm_compute. reflexivity. Qed.

Lemma store_save_exact_witness :
  ∃ w' ret, nfc_store_save card_vtab (Some card1) (Some save_list) 1 w_chosen = Some (ret, w') ∧
    (has_room (w_ram w_chosen) card1 ∧ ret = 0 ∨ ¬ has_room (w_ram w_chosen) card1 ∧ ret = - EIO).
Proof.
  destruct (store_save_exact card_vtab (ndef_inv true) image card1 save_list w_chosen chosen_entries)
    as (w' & ret & H1 & _ & _ & H2).
  - apply chosen_ready.
  - apply card1_ok.
  - by vm_compute.
  - apply chosen_entries_eq.
  - exists w', ret. split; [exact H1|]. destruct H2 as [(? & ? & _)|(? & ? & _)]; [left|right]; split; assumption.
Defined.

(** A listener that was shut down cannot be saved. *)
Definition w_dead : world recorder :=
  set_ndef (ndef_listener_shutdown (w_ndef w_chosen)).2 w_chosen.

Lemma dead_ready : ready (ndef_inv false) w_dead.
Proof.
  pose proof chosen_ready as [[Hl _] Hs Hr Hst Hq]. constructor; [|exact Hs|exact Hr|exact Hst|exact Hq].
  split; [by apply listener_shutdown_ok|by vm_compute].
Qed.


(** The blob stored for the saved card. *)
Lemma saved_blob :
  ram_map (w_ram w_saved) !! c_str card1 =
  Some (envelope NFC_STORE_BLOB_VERSION 0 (encode_entries NFC_STORE_BLOB_VERSION chosen_entries)).
Proof. vm_compute. reflexivity. Qed.

Lemma store_load_refines_witness :
  nfc_store_load card_vtab (Some card1) (Some save_list) 1 w_saved =
  feed_all card_vtab save_list chosen_entries
    (with_staged (envelope NFC_STORE_BLOB_VERSION 0
                    (encode_entries NFC_STORE_BLOB_VERSION chosen_entries)) w_saved).
Proof.
  apply (store_load_refines card_vtab (ndef_inv true) image card1 save_list w_saved NFC_STORE_BLOB_VERSION 0).
  - apply saved_ready.
  - apply card1_ok.
  - by vm_compute.
  - by vm_compute; auto.
  - repeat constructor; by vm_compute.
  - apply saved_blob.
Defined.

(** Saving in the state before the save. *)
Definition w_stored : world recorder :=
  match nfc_store_save card_vtab (Some card1) (Some save_list) 1 w_chosen with
  | Some (_, w) => w | None => w_chosen
  end.

Lemma w_stored_eq :
  nfc_store_save card_vtab (Some card1) (Some save_list) 1 w_chosen = Some (0, w_stored).
Proof. vm_compute. reflexivity. Qed.

Lemma store_load_total_witness :
  ∃ ret w', nfc_store_load card_vtab (Some card1) (Some save_list) 1 w_up = Some (ret, w') ∧
    staged (ndef_inv (nl_initialized (w_ndef w_up))) w_up w'.
Proof.
  destruct (sys_parts w_up (reachable_ok no_others w_up w_up_reachable)) as (H1 & H2 & H3).
  apply (store_load_total no_others (Some card1) save_list w_up (nl_initialized (w_ndef w_up))); assumption.
Defined.

Definition w_started : world recorder := state_after [EvInit None; EvStart None].

(** ** The running system *)

Definition w_after_save : world recorder :=
  match nfc_stack_save no_others (Some card1) w_chosen with Some (_, w) => w | None => w_chosen end.

Lemma w_after_save_eq : nfc_stack_save no_others (Some card1) w_chosen = Some (0, w_after_save).
Proof. vm_compute. reflexivity. Qed.

Lemma card_roundtrip_witness :
  ∃ w3, nfc_stack_load no_others (Some card1) w_saved = Some (0, w3) ∧
    take 5 (t_file (tag_of (w_ndef w3))) = [0x00; 0x03; 0xD0; 0x00; 0x00].
Proof.
  destruct (card_roundtrip no_others card1 w_chosen w_after_save) with (w2 := w_saved) as (w3 & H1 & H2).
  - apply w_chosen_reachable.
  - vm_compute. reflexivity.
  - by vm_compute.
  - apply w_after_save_eq.
  - apply w_saved_reachable.
  - left. vm_compute. reflexivity.
  - vm_compute. reflexivity.
  - vm_compute. reflexivity.
  - exists w3. split; [exact H1|]. rewrite H2. vm_compute. reflexivity.
Defined.

Lemma system_safe_witness :
  sys_ok w_saved ∧
  ∀ ev, event_ok ev → ∃ ret w', run_event no_others ev w_saved = Some (ret, w') ∧ reachable no_others w'.
Proof. apply (system_safe no_others w_saved w_saved_reachable). Defined.

Lemma stack_state_machine_witness :
  next_state (EvStart None) (k_state (w_stack w_up)) (k_state (w_stack w_started)).
Proof.
  apply (stack_state_machine no_others w_up (EvStart None) 0).
  - apply w_up_reachable.
  - exact I.
  - vm_compute. reflexivity.
Defined.

Lemma emulated_tag_witness :
  ∃ w', nfc_stack_on_apdu no_others (Some {| nb_id := 1; nb_data := read5 |}) w_chosen = Some (tt, w') ∧
    tx_of w' = tx_of w_chosen ++ [[0x00; 0x03; 0xD0; 0x00; 0x00; 0x90; 0x00]].
Proof.
  destruct (emulated_tag no_others {| nb_id := 1; nb_data := read5 |} read5_view w_chosen)
    as (w' & H1 & H2 & _).
  - apply w_chosen_reachable.
  - by vm_compute.
  - run_ok.
  - vm_compute. reflexivity.
  - vm_compute. reflexivity.
  - reflexivity.
  - exists w'. split; [exact H1|]. rewrite H2. vm_compute. reflexivity.
Defined.

(** ** The poller *)

(** A read-only tag as a card: its state is the selected file. *)
Definition demo_tag (sel : ndef_file_sel_t) : tag :=
  {| t_cc := cc_bytes false; t_file := ndef_file demo; t_writable := false; t_sel := sel |}.

Definition demo_card (tx : list Z) : M ndef_file_sel_t (Z * list Z) := λ sel,
  match t4t tx (demo_tag sel) with Some (r, t) => Some (r, t_sel t) | None => None end.

Definition active : session := active_session.

Lemma file_read_bytes f a : bytes f → bytes (file_read f a) ∧ len (file_read f a) <= 255.
Proof.
  intros Hf. unfold file_read. case_bool; [split; [by apply bytes_check|by vm_compute]|].
  split; [apply bytes_app; split; [auto with nfc|by apply bytes_check]|].
  rewrite len_app, len_take. change (len (sw_bytes 0x9000)) with 2. lia.
Qed.

Lemma tag_step_bytes t a : bytes (t_cc t) → bytes (t_file t) →
  bytes (tag_step t a).2 ∧ len (tag_step t a).2 <= 255.
Proof.
  intros Hc Hf. unfold tag_step, tag_select_file, tag_update, tag_read.
  repeat first
    [ case_bool | apply file_read_bytes; assumption | split; [by apply bytes_check|by vm_compute]
    | match goal with |- context [match ?x with _ => _ end] => destruct x end ].
Qed.

#[local] Instance demo_card_ok : Card demo_card.
Proof.
  constructor. intros tx sel. unfold ensures, demo_card, t4t.
  assert (bytes (t_file (demo_tag sel))) by (by apply bytes_check).
  assert (bytes (t_cc (demo_tag sel))) by (by apply bytes_check).
  destruct (apdu_parse _ _ _ _) as [[[] [a|]]|];
    try (eexists (_, _), _; split; [reflexivity|]; split; [by apply bytes_check|by vm_compute]).
  case_bool; eexists (_, _), _; (split; [reflexivity|]).
  - split; [by apply bytes_check|by vm_compute].
  - by apply tag_step_bytes.
Qed.

Lemma ndef_poller_reads_type4_witness :
  ∃ c', ndef_poller_read t4t (Some active) (Some ndef_data_zero) (demo_tag NDEF_FILE_NONE) =
      Some ((0, Some (model_of (demo_tag NDEF_FILE_NONE))), c') ∧ c' = demo_tag NDEF_FILE_NDEF.
Proof.
  apply (ndef_poller_reads_type4 t4t eq eq active (demo_tag NDEF_FILE_NONE) (demo_tag NDEF_FILE_NONE)).
  - reflexivity.
  - reflexivity.
  - constructor; first [by vm_compute | by apply bytes_check].
  - by vm_compute.
  - by vm_compute.
Defined.

Lemma device_reads_device_witness :
  ∃ w', ndef_poller_read (device_transceive no_others) (Some active) (Some ndef_data_zero) w_chosen =
      Some ((0, Some demo), w') ∧
    tag_of (w_ndef w') = tag_select NDEF_FILE_NDEF (tag_of (w_ndef w_chosen)).
Proof.
  destruct (device_reads_device no_others active w_chosen ndef_data_zero true) as (w' & H1 & H2 & _).
  - reflexivity.
  - apply w_chosen_reachable.
  - by vm_compute.
  - vm_compute. reflexivity.
  - by vm_compute.
  - exists w'. split; [|exact H2]. rewrite H1. vm_compute. reflexivity.
Defined.
