(* ===== verification/CardWitnesses.v ===== *)
(** * The card models' properties at concrete cards

    For each property of a card model with hypotheses, an instance of it in the card-emulation
    build with the options at their defaults. *)

From stdpp Require Import base list numbers option.
From S2P Require Import Prelude Kconfig Serial Aliro Iso15693 Felica Emv Ultralight.
From S2P Require Import UltralightNdef.

#[local] Existing Instances card_emulation_config card_emulation_ranges.

(** [card_ok]: the well-formedness of a concrete card, by evaluation. *)
Ltac card_ok :=
  repeat first [ by apply bytes_check | done | by vm_compute | by (repeat constructor) | split | constructor ].

(** ** Aliro *)

Definition demo_credential : aliro_data_t :=
  {| al_features := 0x0103; al_protocol_major := 1; al_protocol_minor := 0;
     al_credential_pubkey := 4 :: replicate 64 7; al_transcript_len := 3;
     al_transcript := [1; 2; 3] ++ zeros 509 |}.

(** ** ISO 15693 and SLIX *)

Definition demo_vicinity : iso15693_3_data_t :=
  {| v_uid := [0xE0; 0x04; 0x01; 1; 2; 3; 4; 5]; v_dsfid := 0; v_afi := 7; v_ic_ref := 1;
     v_lock_dsfid := 0; v_lock_afi := 0; v_block_count := 2; v_block_size := 4;
     v_block_data := [1; 2; 3; 4; 5; 6; 7; 8] ++ zeros 504; v_block_security := [0; 1] ++ zeros 126 |}.

Definition demo_slix : slix_data_t :=
  {| x_parent := demo_vicinity; x_capabilities := 0; x_type := SLIX_TYPE_SLIX;
     x_passwords := replicate 5 [0; 0; 0; 1]; x_signature := replicate 32 9; x_privacy_mode := 0;
     x_protection_pointer := 1; x_protection_condition := 2; x_lock_eas := 0; x_lock_ppl := 0 |}.

Lemma demo_vicinity_ok : iso_ok demo_vicinity.
Proof. card_ok. Qed.

(** ** FeliCa *)

Definition demo_felica : felica_data_t :=
  {| f_idm := [1; 2; 3; 4; 5; 6; 7; 8]; f_pmm := [0; 0xF1; 0; 0; 0; 0; 0; 0]; f_blocks_total := 1; f_blocks_read := 1;
     f_blocks := {| b_sf1 := 0; b_sf2 := 0; b_data := replicate 16 5 |} :: replicate 63 block_zero |}.

(** ** EMV *)

Definition demo_image (rs : list (list Z)) : emv_card_image_t :=
  filled (len rs) rs
    {| pan := replicate 8 0x99; pan_len := 16; expiry := [0x99; 0x12; 0x31]; name := replicate 26 0x20;
       track2 := replicate 19 0; track2_len := 0; aip := [0; 0]; afl := [8; 1; 1; 0];
       app_aid := [0xA0; 0; 0; 0; 0x03; 0x10; 0x10] ++ zeros 9; app_aid_len := 7; record_count := 0;
       record_len := []; record_data := [] |}.

(** ** Ultralight *)

(** An NTAG213 with a message, read protected from page 8 on. *)
Definition demo_ntag : ultralight_data_t :=
  {| u_pages := [[4; 1; 2; 3]; [4; 5; 6; 7]; [0; 0; 0; 0]; [0xE1; 0x10; 0x12; 0]; [3; 3; 0xD0; 0]; [0; 0xFE; 0; 0]] ++
       replicate 35 (zeros 4) ++ [[0; 0; 0; 8]; [0x80; 0; 0; 0]; [1; 2; 3; 4]; [0xAA; 0xBB; 0; 0]] ++
       replicate 211 (zeros 4);
     u_pages_total := 45; u_pages_read := 45; u_type := UL_TYPE_NTAG213; u_variant := UL_VARIANT_UNKNOWN;
     u_version := [0; 4; 4; 2; 1; 0; 0x0F; 3]; u_has_version := true; u_signature := zeros 32;
     u_has_signature := false; u_counters := [[1; 0; 0]; zeros 3; zeros 3]; u_counter_count := 1;
     u_tearing_flags := [0xBD; 0; 0]; u_tearing_flag_count := 1 |}.

Lemma demo_ntag_shape : ul_shape demo_ntag.
Proof. card_ok. Qed.

Lemma demo_ntag_bytes : Forall bytes (u_pages demo_ntag).
Proof. apply bytes_mjoin. by apply bytes_check. Qed.
