(* ===== verification/UltralightWitnesses.v ===== *)
(** * The Ultralight and Type 2 Tag properties at concrete cards

    Instances of the properties of the cipher, the Type 2 Tag listener and the Ultralight poller
    in the card-emulation build, and the builds and cards for which the poller writes outside
    its buffers. *)

From stdpp Require Import base list numbers option.
From S2P Require Import Prelude Kconfig World NdefListener UltralightT4.
From S2P Require Import Serial Ultralight UltralightNdef Des TripleDes UltralightT2 Session NdefPoller UltralightPoller UltralightLoopback CardWitnesses.

#[local] Existing Instances card_emulation_config card_emulation_ranges.

(** ** The cipher *)

Definition demo_key : list Z := [0x49; 0x45; 0x4D; 0x4B; 0x41; 0x45; 0x52; 0x42; 0x21; 0x4E; 0x41; 0x43; 0x55; 0x4F; 0x59; 0x46].
Definition demo_block : list Z := [0x10; 0x11; 0x12; 0x13; 0x14; 0x15; 0x16; 0x17].

Lemma demo_block_ok : block demo_block.
Proof. split; [done|bytes_list]. Qed.

(** ** Listeners *)

Definition demo_locals : t2_locals := {| tl_undef := (zeros 32, zeros 8); tl_block := zeros 8; tl_plain := zeros 16 |}.

Lemma demo_locals_ok : t2_locals_ok demo_locals.
Proof. by repeat constructor. Qed.

(** [ul_ok]: a concrete card is well-formed, by evaluation. *)
Ltac ul_ok :=
  constructor;
  [ constructor; (done || (apply Forall_forall; intros ? Hin; repeat (apply elem_of_cons in Hin as [->|Hin]; [done|]); by apply elem_of_nil in Hin)
      || by (vm_compute; repeat constructor))
  | constructor; first [by apply bytes_check | apply bytes_mjoin; by apply bytes_check]
  | by vm_compute | done | by vm_compute | by vm_compute | by vm_compute ].

Lemma demo_ntag_safe : ul_safe demo_ntag.
Proof. ul_ok. Qed.

(** The listener with a card, its configuration and an unauthenticated reader. *)
Definition demo_t2 (m : ultralight_data_t) (c : ultralight_config_t) : t2_state :=
  {| t2_model := m; t2_cfg := c; t2_initialized := true; t2_auth_state := UL_T2_AUTH_IDLE;
     t2_rnd_b := zeros 8; t2_enc_b := zeros 8; t2_resp := zeros 255; t2_sent := [] |}.

Definition demo_config (pwd : list Z) : ultralight_config_t :=
  {| c_auth0 := 8; c_prot := true; c_authlim := 0; c_pwd := pwd; c_pack := [0xAA; 0xBB]; c_valid := true |}.

Lemma demo_t2_ok m pwd : ul_safe m → len pwd = 4 → t2_ok (demo_t2 m (demo_config pwd)).
Proof.
  intros Hm Hp. constructor; try done; try (split; [done|apply bytes_zeros]). split; [done|bytes_list].
Qed.

Lemma ultralight_t2_exact_witness : ∃ E D, t2_keyed demo_ntag E D ∧
  ∃ s', ultralight_listener_t2_on_tag_cmd demo_locals demo_block (Some [0x30; 4]) 2 (demo_t2 demo_ntag (demo_config [1; 2; 3; 4])) =
      Some (tt, s') ∧
    same_but_resp (t2_step E D (demo_t2 demo_ntag (demo_config [1; 2; 3; 4])) demo_block [0x30; 4]) s' ∧ t2_ok s'.
Proof.
  destruct (ultralight_t2_exact demo_ntag demo_ntag_safe) as (E & D & Hk & Hx). exists E, D. split; [done|].
  apply (Hx demo_locals (demo_t2 demo_ntag (demo_config [1; 2; 3; 4])) demo_block [0x30; 4]);
    [done|by apply demo_t2_ok; [apply demo_ntag_safe|]|apply demo_locals_ok|bytes_list|apply demo_block_ok].
Defined.

(** The same card with another content of page 20 and another password. *)
Definition demo_other : ultralight_data_t :=
  with_pages 45 UL_TYPE_NTAG213 (<[43%nat := [5; 6; 7; 8]]> (<[20%nat := [9; 9; 9; 9]]> (u_pages demo_ntag))) demo_ntag.

Lemma demo_other_safe : ul_safe demo_other.
Proof. ul_ok. Qed.

Lemma demo_alike : alike (demo_t2 demo_ntag (demo_config [1; 2; 3; 4])) (demo_t2 demo_other (demo_config [5; 6; 7; 8])).
Proof.
  constructor; try done. intros page Hp. cbn [demo_t2 t2_model demo_other with_pages u_pages].
  destruct (decide (page = 20)) as [->|H20]; [by vm_compute in Hp|].
  destruct (decide (page = 43)) as [->|H43]; [by vm_compute in Hp|]. unfold ld. case_bool; [|done]. bool_prop.
  by rewrite !list_lookup_insert_ne by lia.
Qed.

Definition demo_cmds : list (list Z * list Z) :=
  [(demo_block, [0x30; 0]); (demo_block, [0x30; 18]); (demo_block, [0x1B; 0; 0; 0; 0]); (demo_block, [0x60])].

Lemma t2_protected_pages_secret_witness : ∃ s1' s2',
  t2_commands demo_locals demo_cmds (demo_t2 demo_ntag (demo_config [1; 2; 3; 4])) = Some (tt, s1') ∧
  t2_commands demo_locals demo_cmds (demo_t2 demo_other (demo_config [5; 6; 7; 8])) = Some (tt, s2') ∧
  t2_sent s1' = t2_sent s2' ∧ t2_auth_state s1' ≠ UL_T2_AUTH_SUCCESS ∧ t2_auth_state s2' ≠ UL_T2_AUTH_SUCCESS.
Proof.
  apply (t2_protected_pages_secret demo_locals demo_cmds demo_locals_ok);
    [apply demo_t2_ok; [apply demo_ntag_safe|done]|apply demo_t2_ok; [apply demo_other_safe|done]|apply demo_alike|].
  repeat (apply Forall_cons_2; [split_and!; [apply demo_block_ok|bytes_list|by intros [? [=]]|by intros [? [=]]]|]). apply Forall_nil_2.
Defined.

(** ** Polling *)

Definition demo_up : up_locals :=
  {| pl_undef := (zeros 32, zeros 8); pl_block := zeros 8; pl_output := zeros 16; pl_decoded := zeros 8;
     pl_version := zeros 8; pl_page_buf := zeros 16 |}.

Lemma demo_up_ok : up_locals_ok demo_up.
Proof. constructor; try done; try (split; [done|apply bytes_zeros]). Qed.

Definition demo_session : session := active_session.

(** An NTAG213 that is not protected, and its stored form. *)
Definition demo_open : ultralight_data_t :=
  with_variant UL_VARIANT_UNKNOWN (with_pages 45 UL_TYPE_NTAG213 (<[41%nat := [0; 0; 0; 0xFF]]> (u_pages demo_ntag)) demo_ntag).

Lemma ultralight_clone_witness :
  let transceive := t2_transceive demo_locals (λ _, demo_block) (- 116) in
  ∃ s s', t2_runs demo_locals [T2Init; T2Load (ul_blob demo_open)] t2_power_up = Some (tt, s) ∧ t2_model s = demo_open ∧
    ultralight_poller_read transceive demo_up demo_block (Some demo_session) (Some ultralight_blank) s =
      Some ((0, Some (ul_clone demo_open)), s') ∧ t2_model s' = demo_open.
Proof.
  apply (ultralight_clone demo_locals demo_locals_ok (λ _, demo_block) (λ _, demo_block_ok) (- 116) ltac:(done));
    [apply demo_up_ok|done|apply demo_block_ok|by apply bytes_check|by vm_compute| |by left].
  intros _ auth0 access Ha _. left. by injection Ha as <-.
Defined.

(** An Ultralight C with the key [demo_key]. *)
Definition demo_ulc : ultralight_data_t :=
  {| u_pages := replicate 44 (zeros 4) ++ [take 4 demo_key; take 4 (drop 4 demo_key); take 4 (drop 8 demo_key); drop 12 demo_key] ++
       replicate 208 (zeros 4);
     u_pages_total := 48; u_pages_read := 48; u_type := UL_TYPE_MFUL_C; u_variant := UL_VARIANT_UNKNOWN;
     u_version := zeros 8; u_has_version := false; u_signature := zeros 32; u_has_signature := false;
     u_counters := replicate 3 (zeros 3); u_counter_count := 0; u_tearing_flags := zeros 3; u_tearing_flag_count := 0 |}.

Lemma ultralight_c_mutual_authentication_witness :
  let transceive := t2_transceive demo_locals (λ _, demo_block) (- 116) in
  ∃ s', ultralight_poller_i_authenticate transceive demo_up (Some demo_session) (rotate demo_block) demo_key
      (demo_t2 demo_ulc (demo_config [1; 2; 3; 4])) = Some ((0, true), s') ∧ t2_auth_state s' = UL_T2_AUTH_SUCCESS.
Proof.
  apply (ultralight_c_mutual_authentication demo_locals demo_locals_ok (λ _, demo_block) (λ _, demo_block_ok) (- 116) demo_up
    demo_session (rotate demo_block) demo_key (zeros 832) (demo_t2 demo_ulc (demo_config [1; 2; 3; 4])));
    [apply demo_up_ok|done|apply rotate_block, demo_block_ok|apply demo_t2_ok; [ul_ok|done]|done|done|done|by apply bytes_check|by vm_compute].
Defined.

(** A card that answers everything with sixteen zeros. *)
Definition zero_card (tx : list Z) : M unit (Z * list Z) := mret (0, zeros 16).

Lemma zero_card_ok : CardWhile zero_card (λ _, True).
Proof. constructor. intros tx c _ _. eexists _, _. split; [done|]. split; [done|]. split; [apply bytes_zeros|done]. Qed.

(** An original Ultralight. *)
Definition demo_origin : ultralight_data_t :=
  with_pages 16 UL_TYPE_ORIGIN (u_pages ultralight_blank) (with_variant UL_VARIANT_ORIGIN ultralight_blank).

Lemma demo_origin_emulated : emulates demo_origin (demo_t2 demo_origin config_zero).
Proof.
  constructor; [|done..]. constructor; try done; try (split; [done|apply bytes_zeros]). ul_ok.
Qed.

(** ** Where the poller writes outside its buffers *)

(** A build with a page array of [n] pages. *)
Definition with_max_pages (n : Z) (k : Kconfig) : Kconfig :=
  {| CONFIG_NFC_APDU_EXTENDED_SUPPORT := @CONFIG_NFC_APDU_EXTENDED_SUPPORT k;
     CONFIG_NFC_ROUTER_MAX_AIDS := @CONFIG_NFC_ROUTER_MAX_AIDS k;
     CONFIG_NFC_STORE := @CONFIG_NFC_STORE k;
     CONFIG_NFC_STORE_BLOB_SIZE := @CONFIG_NFC_STORE_BLOB_SIZE k;
     CONFIG_NFC_STORE_MAX_TAG_LEN := @CONFIG_NFC_STORE_MAX_TAG_LEN k;
     CONFIG_NFC_STORE_RAM := @CONFIG_NFC_STORE_RAM k;
     CONFIG_NFC_STORE_RAM_SLOT_COUNT := @CONFIG_NFC_STORE_RAM_SLOT_COUNT k;
     CONFIG_NFC_NDEF_MAX_SIZE := @CONFIG_NFC_NDEF_MAX_SIZE k;
     CONFIG_NFC_ULTRALIGHT_MAX_PAGES := n;
     CONFIG_NFC_CLASSIC_BLOCK_COUNT := @CONFIG_NFC_CLASSIC_BLOCK_COUNT k;
     CONFIG_NFC_EMV_MAX_RECORDS := @CONFIG_NFC_EMV_MAX_RECORDS k;
     CONFIG_NFC_EMV_RECORD_SIZE := @CONFIG_NFC_EMV_RECORD_SIZE k;
     CONFIG_NFC_ALIRO_MAX_TRANSCRIPT := @CONFIG_NFC_ALIRO_MAX_TRANSCRIPT k;
     CONFIG_NFC_DESFIRE_MAX_APPS := @CONFIG_NFC_DESFIRE_MAX_APPS k;
     CONFIG_NFC_DESFIRE_MAX_FILES_PER_APP := @CONFIG_NFC_DESFIRE_MAX_FILES_PER_APP k;
     CONFIG_NFC_DESFIRE_MAX_FILE_SIZE := @CONFIG_NFC_DESFIRE_MAX_FILE_SIZE k;
     CONFIG_NFC_DESFIRE_FREE_MEMORY := @CONFIG_NFC_DESFIRE_FREE_MEMORY k;
     CONFIG_NFC_ROLE_LISTEN := @CONFIG_NFC_ROLE_LISTEN k;
     CONFIG_NFC_LISTEN_STACK := @CONFIG_NFC_LISTEN_STACK k;
     CONFIG_NFC_STACK_DEFAULT_PROFILE := @CONFIG_NFC_STACK_DEFAULT_PROFILE k;
     CONFIG_NFC_PROTOCOL_NDEF := @CONFIG_NFC_PROTOCOL_NDEF k;
     CONFIG_NFC_PROTOCOL_DESFIRE := @CONFIG_NFC_PROTOCOL_DESFIRE k;
     CONFIG_NFC_PROTOCOL_EMV := @CONFIG_NFC_PROTOCOL_EMV k;
     CONFIG_NFC_PROTOCOL_ALIRO := @CONFIG_NFC_PROTOCOL_ALIRO k;
     CONFIG_NFC_ALIRO_PROTOCOL_VERIFIED := @CONFIG_NFC_ALIRO_PROTOCOL_VERIFIED k;
     CONFIG_NFC_PROTOCOL_ULTRALIGHT := @CONFIG_NFC_PROTOCOL_ULTRALIGHT k;
     CONFIG_NFC_PROTOCOL_CLASSIC := @CONFIG_NFC_PROTOCOL_CLASSIC k;
     CONFIG_NFC_PROTOCOL_FELICA := @CONFIG_NFC_PROTOCOL_FELICA k;
     CONFIG_NFC_PROTOCOL_ISO15693_3 := @CONFIG_NFC_PROTOCOL_ISO15693_3 k;
     CONFIG_NFC_PROTOCOL_SLIX := @CONFIG_NFC_PROTOCOL_SLIX k |}.

(** A card whose version is that of an NTAG216. *)
Definition ntag216_card (tx : list Z) : M unit (Z * list Z) :=
  mret (match tx with
        | 0x60 :: _ => (0, [0; 4; 4; 2; 1; 0; 0x13; 3])
        | 0x30 :: _ => (0, zeros 16)
        | _ => (- EIO, [])
        end).

(** A card that answers READ with the two bytes of its checksum still behind the data. *)
Definition crc_card (tx : list Z) : M unit (Z * list Z) := mret (0, zeros 18).

(** Two buffers of the Ultralight poller are overrun by cards that answer within the limits of
    the transport. In a build with the smallest page array the option allows (16 pages),
    [ultralight_poller_read] stores the pages of a card that calls itself NTAG216 (231 pages)
    beyond the end of the caller's structure; and in every build [ultralight_poller_detect]
    offers its 16-byte array to the transport as one of 255 bytes, so that an answer of 18 bytes
    overruns it. *)
Theorem ultralight_poller_overruns :
  @KconfigRanges (with_max_pages 16 card_emulation_config) ∧
  CardWhile ntag216_card (λ _, True) ∧
  @ultralight_poller_read (with_max_pages 16 card_emulation_config) unit ntag216_card demo_up demo_block
    (Some demo_session) (Some (@ultralight_blank (with_max_pages 16 card_emulation_config))) tt = None ∧
  CardWhile crc_card (λ _, True) ∧
  ultralight_poller_detect crc_card (Some demo_session) tt = None.
Proof.
  split_and!; [constructor; cbn; lia| |by vm_compute| |by vm_compute].
  - constructor. intros tx c _ _. eexists (_, _), _. split; [unfold ntag216_card, mret, M_ret; by rewrite <-surjective_pairing|].
    split; [done|]. repeat case_match; cbn; (split; [first [by bytes_list|apply bytes_zeros]|done]).
  - constructor. intros tx c _ _. eexists _, _. split; [done|]. split; [done|]. split; [apply bytes_zeros|done].
Qed.

(** ** The card as a Type 4 Tag *)
