(* ===== verification/DesfireWitnesses.v ===== *)
(** * The DESFire properties at concrete cards

    Instances of the properties of the DESFire model, listener and poller in the card-emulation
    build, and the states in which the listener reads outside its image. *)

From stdpp Require Import base list numbers option.
From S2P Require Import Prelude Kconfig Apdu Serial Stack Session NdefPoller Desfire DesfireListener DesfirePoller DesfireLoopback CardWitnesses.

#[local] Existing Instances card_emulation_config card_emulation_ranges.

(** ** Cards *)

Definition demo_file (id type comm : Z) (d : list Z) : file :=
  {| f_id := id; f_settings := {| fs_type := type; fs_comm := comm; fs_access := 0xEEEE; fs_word0 := len d;
                                  fs_word1 := 0; fs_word2 := 0; fs_enabled := 0 |}; f_data := d |}.
Definition demo_card (secret : list Z) : card :=
  {| c_hw := [4; 1; 1; 1; 0; 0x16; 5]; c_sw := [4; 1; 1; 1; 0; 0x16; 5]; c_uid := [4; 1; 2; 3; 4; 5; 6]; c_batch := [0; 0; 0; 0; 0];
     c_week := 1; c_year := 0x26; c_memory := 0x1400; c_master := zeros 16; c_master_settings := 0x0F;
     c_apps := [{| p_id := [1; 2; 3]; p_settings := 0x0F; p_keys := [zeros 16];
                   p_files := [demo_file 2 DESFIRE_FILE_TYPE_STANDARD 3 secret;
                               demo_file 1 DESFIRE_FILE_TYPE_STANDARD DESFIRE_COMM_PLAIN [0x68; 0x69]] |}] |}.

Ltac card_parts := repeat (constructor; cbn); try done; try (by apply bytes_check); try (by vm_compute).

Lemma demo_card_ok secret : len secret = 2 → bytes secret → card_ok (demo_card secret).
Proof.
  intros Hl Hb. assert (application_ok (default (Build_application [] 0 [] []) (head (c_apps (demo_card secret))))) as Happ.
  { constructor; cbn; try (by vm_compute); try (split; [done|by apply bytes_check]).
    - apply Forall_singleton. split; [done|apply bytes_zeros].
    - apply Forall_cons_2; [|apply Forall_singleton]; (constructor; [by vm_compute| |first [done|by apply bytes_check]|]); cbn;
        try (rewrite Hl); try done; constructor; cbn; try (rewrite Hl); by vm_compute. }
  constructor; try (split; [done|by apply bytes_check]); try (by vm_compute). by apply Forall_singleton.
Qed.

Definition demo_df (d : desfire_data_t) : df_state :=
  {| l_model := d; l_initialized := true; l_auth_state := DESFIRE_AUTH_STATE_IDLE; l_selected_app := -1;
     l_pending_cmd := DESFIRE_PENDING_NONE; l_pending_frame := 0; l_pending_file_id := 0; l_pending_offset := 0;
     l_version_buf := zeros 28; l_resp_buf := zeros 255; l_sent := [] |}.

Lemma demo_df_ok d : image_ok d → df_ok (demo_df d).
Proof. intros Hd. by constructor; [..|left| |]. Qed.

(** ** The persistent form *)

(** ** The listener *)

Definition native (cmd : Z) (d : list Z) : nfc_apdu_t :=
  {| cla := DESFIRE_CLA_NATIVE; ins := cmd; p1 := 0; p2 := 0; data := Some d; lc := len d; le := 0;
     has_le := false; extended := false |}.
(** Selecting the application, reading the open file and trying the closed one. *)
Definition demo_commands : list nfc_apdu_t :=
  [native DESFIRE_CMD_SELECT_APPLICATION [1; 2; 3]; native DESFIRE_CMD_READ_DATA [1; 0; 0; 0; 2; 0; 0];
   native DESFIRE_CMD_READ_DATA [2; 0; 0; 0; 2; 0; 0]].

Lemma demo_commands_ok : Forall (λ a, apdu_ok a ∧ ∀ c, one_response c a) demo_commands.
Proof.
  repeat (apply Forall_cons_2); [..|by apply Forall_nil_2];
    (split; [unfold apdu_ok; cbn; split_and!; first [done|by vm_compute|by apply bytes_check]|intros c; left; by vm_compute]).
Qed.

Lemma demo_view secret : len secret = 2 → bytes secret → image_ok (card_of (demo_card secret)) ∧
  view (card_of (demo_card secret)) = demo_card secret.
Proof. intros Hl Hb. pose proof (demo_card_ok secret Hl Hb). split; [by apply card_of_ok|by apply view_card_of]. Qed.

Lemma desfire_listener_exact_witness :
  ∃ s', df_commands demo_commands (demo_df (card_of (demo_card [1; 2]))) = Some (tt, s') ∧
    l_sent s' = [[0x91; 0x00]; [0x68; 0x69; 0x91; 0x00]; [0x91; 0xAE]].
Proof.
  destruct (demo_view [1; 2] eq_refl ltac:(by apply bytes_check)) as [Hi Hv].
  destruct (desfire_listener_exact demo_commands (demo_df (card_of (demo_card [1; 2])))) as (s' & H1 & _ & _ & H2 & _).
  - by apply demo_df_ok.
  - done.
  - eapply Forall_impl; [|exact demo_commands_ok]. by intros a [].
  - exists s'. split; [exact H1|]. rewrite H2. cbn [l_model demo_df]. rewrite Hv. by vm_compute.
Defined.

Lemma desfire_protected_files_secret_witness :
  ∃ s1 s2, df_commands demo_commands (demo_df (card_of (demo_card [1; 2]))) = Some (tt, s1) ∧
    df_commands demo_commands (demo_df (card_of (demo_card [3; 4]))) = Some (tt, s2) ∧ l_sent s1 = l_sent s2.
Proof.
  destruct (demo_view [1; 2] eq_refl ltac:(by apply bytes_check)) as [H1 V1].
  destruct (demo_view [3; 4] eq_refl ltac:(by apply bytes_check)) as [H2 V2].
  apply (desfire_protected_files_secret demo_commands); try by apply demo_df_ok.
  - done.
  - done.
  - cbn [l_model demo_df]. by rewrite V1, V2.
  - done.
  - done.
  - eapply Forall_impl; [|exact demo_commands_ok]. by intros a [].
Defined.

(** A long read of one file, left pending, makes a read of a shorter file start behind its end: the
    listener reads outside the file's array. *)
Definition long_card : card :=
  {| c_hw := zeros 7; c_sw := zeros 7; c_uid := zeros 7; c_batch := zeros 5; c_week := 0; c_year := 0; c_memory := 0;
     c_master := zeros 16; c_master_settings := 0x0F;
     c_apps := [{| p_id := [1; 2; 3]; p_settings := 0x0F; p_keys := [];
                   p_files := [demo_file 1 DESFIRE_FILE_TYPE_STANDARD DESFIRE_COMM_PLAIN (zeros 256);
                               demo_file 2 DESFIRE_FILE_TYPE_STANDARD DESFIRE_COMM_PLAIN (zeros 16)] |}] |}.

Lemma desfire_listener_overruns :
  df_commands [native DESFIRE_CMD_SELECT_APPLICATION [1; 2; 3]; native DESFIRE_CMD_READ_DATA [1; 0; 0; 0; 0; 1; 0];
    native DESFIRE_CMD_READ_DATA [2; 0; 0; 0; 1; 0; 0]] (demo_df (card_of long_card)) = None.
Proof. by vm_compute. Qed.

(** A stored image that is rejected leaves its count of applications behind, and the next command
    reads outside the array of applications. *)
Lemma desfire_rejected_load_overruns :
  let inp := take 50 (header_bytes (demo_card [1; 2])) ++ [9] in
  fst <$> desfire_listener_deserialize (Some inp) (len inp) (demo_df desfire_zero) = Some (- EBADMSG) ∧
  (desfire_listener_deserialize (Some inp) (len inp) ;;
   desfire_listener_on_apdu (Some (native DESFIRE_CMD_GET_APPLICATION_IDS []))) (demo_df desfire_zero) = None.
Proof. split; by vm_compute. Qed.

(** ** The poller *)

Definition demo_dp_locals : dp_locals :=
  {| dl_buf := zeros 255; dl_version_buf := zeros 28; dl_app_ids := zeros 12; dl_file_ids := zeros 8; dl_fs := settings_zero |}.

Lemma demo_dp_locals_ok : dp_locals_ok demo_dp_locals.
Proof. constructor; try (split; [done|apply bytes_zeros]). by constructor; vm_compute. Qed.

(** A card that reports sixteen keys and an application without files. *)
Definition demo_tag (tx : list Z) : M unit (Z * list Z) :=
  mret (0, if bool_decide (tx = SELECT_AID) then [0x90; 0x00]
           else if bool_decide (tx = GET_VERSION) then zeros 28 ++ [0x91; 0x00]
           else if bool_decide (tx = GET_KEY_SETTINGS) then [0x0F; 16; 0x91; 0x00]
           else if bool_decide (tx = native_cmd DESFIRE_CMD_GET_APPLICATION_IDS) then [1; 2; 3; 0x91; 0x00]
           else [0x91; 0x00]).

#[local] Instance demo_tag_progress : FramesProgress demo_tag (λ _, True).
Proof.
  constructor. intros tx [] _ _. unfold demo_tag. apply ensures_ret.
  repeat case_bool_decide; split_and!; try done; by apply bytes_check.
Qed.

Lemma desfire_poller_read_safe_witness :
  ∃ d c', desfire_poller_read demo_tag demo_dp_locals 256 (Some active_session) (Some desfire_zero) tt =
    Some ((0, Some d), c') ∧ card_intact d.
Proof.
  destruct (desfire_poller_read_safe demo_tag (λ _, True) demo_dp_locals 256 active_session desfire_zero tt)
    as ([ret out] & c' & H1 & _ & d & H2 & H3 & _); [apply demo_dp_locals_ok|lia|done|].
  exists d, c'. split; [|exact H3]. cbn [snd] in H2. subst out. rewrite H1. do 3 f_equal.
  assert (fst <$> (fst <$> desfire_poller_read demo_tag demo_dp_locals 256 (Some active_session) (Some desfire_zero) tt) = Some 0) as Hz
    by by vm_compute.
  rewrite H1 in Hz. by injection Hz.
Defined.

(** ** The poller in front of the listener *)

Lemma desfire_poller_reads_card_witness :
  ∃ d c', desfire_poller_read desfire_link demo_dp_locals 256 (Some active_session) (Some desfire_zero) (demo_df (card_of (demo_card [1; 2]))) =
      Some ((0, Some d), c') ∧ image_ok d ∧
    c_apps (view d) = [{| p_id := [1; 2; 3]; p_settings := 0x0F; p_keys := [zeros 16];
                          p_files := [demo_file 1 DESFIRE_FILE_TYPE_STANDARD DESFIRE_COMM_PLAIN [0x68; 0x69]] |}].
Proof.
  destruct (demo_view [1; 2] eq_refl ltac:(by apply bytes_check)) as [Hi Hv].
  destruct (desfire_poller_reads_card desfire_link (demo_card [1; 2]) _ _ demo_dp_locals 256 active_session desfire_zero
    (demo_df (card_of (demo_card [1; 2])))) as (d & c' & Hrun & Hd & Hw).
  - apply demo_card_ok; [done|by apply bytes_check].
  - apply NoDup_singleton.
  - apply Forall_singleton. by apply (bool_decide_unpack (NoDup [2; 1])).
  - apply demo_dp_locals_ok.
  - lia.
  - done.
  - split; [by apply demo_df_ok|]. by split.
  - exists d, c'. split; [exact Hrun|]. split; [done|]. by rewrite Hw.
Defined.
