(* ===== verification/AliroWitnesses.v ===== *)
(** * The Aliro properties at concrete runs

    Runs of the Aliro listener and poller in the card-emulation build, among them the one in which a
    work item outlives the session it was queued for. *)

From stdpp Require Import base list numbers option.
From S2P Require Import Prelude Kconfig Apdu Serial Stack Session Aliro AliroListener AliroPoller.

#[local] Existing Instances card_emulation_config card_emulation_ranges.

(** ** Runs *)

(** The events one after the other. *)
Definition play (evs : list aliro_event) (s : aliro_st) : option aliro_st :=
  foldl (λ o e, s ← o; snd <$> handle e s) (Some s) evs.

Lemma steps_one s evs s1 e s2 : steps s evs s1 → enabled e s1 → snd <$> handle e s1 = Some s2 → steps s (evs ++ [e]) s2.
Proof.
  intros Hs He Hr. eapply steps_snoc; [done..|]. destruct (handle e s1) as [[[] w]|]; [|done]. by injection Hr as ->.
Qed.

Definition opening : list aliro_event :=
  [ev_init None; ev_select aliro_expedited_aid; ev_apdu (Some (prop_apdu ALIRO_INS_AUTH0 (drop 5 auth0_tx)))].
Definition closing : list aliro_event :=
  [ev_work; ev_apdu (Some (prop_apdu ALIRO_INS_AUTH1 reader_sig)); ev_work;
   ev_apdu (Some (prop_apdu ALIRO_INS_EXCHANGE reader_exchange)); ev_work].

Definition state_after (evs : list aliro_event) : aliro_st := default aliro_boot (play evs aliro_boot).

Lemma prop_apdu_ok i d : is_byte i → bytes d → 1 <= len d <= 255 → apdu_ok (prop_apdu i d).
Proof. intros. unfold apdu_ok, prop_apdu. cbn -[len]. split_and!; first [done|lia]. Qed.

Ltac event_enabled :=
  first [by vm_compute|split; by vm_compute|apply prop_apdu_ok; [by vm_compute|by apply bytes_check|by vm_compute]].

Lemma opening_steps : steps aliro_boot opening (state_after opening).
Proof.
  apply (steps_one _ (take 2 opening) (state_after (take 2 opening))); [|event_enabled|by vm_compute].
  apply (steps_one _ (take 1 opening) (state_after (take 1 opening))); [|event_enabled|by vm_compute].
  apply (steps_one _ [] aliro_boot); [apply steps_nil|event_enabled|by vm_compute].
Qed.

Lemma whole_steps : steps aliro_boot (opening ++ closing) (state_after (opening ++ closing)).
Proof.
  set (evs := opening ++ closing).
  apply (steps_one _ (take 7 evs) (state_after (take 7 evs))); [|event_enabled|by vm_compute].
  apply (steps_one _ (take 6 evs) (state_after (take 6 evs))); [|event_enabled|by vm_compute].
  apply (steps_one _ (take 5 evs) (state_after (take 5 evs))); [|event_enabled|by vm_compute].
  apply (steps_one _ (take 4 evs) (state_after (take 4 evs))); [|event_enabled|by vm_compute].
  apply (steps_one _ (take 3 evs) (state_after (take 3 evs))); [|event_enabled|by vm_compute].
  exact opening_steps.
Qed.

Lemma aliro_listener_authenticates_witness :
  av_state (state_after (opening ++ closing)) = ALIRO_STATE_DONE ∧
  ∃ pre a1 mid a2 post, opening ++ closing = pre ++ [ev_apdu (Some a1)] ++ mid ++ [ev_apdu (Some a2)] ++ post ∧
    presents a1 ALIRO_INS_AUTH1 reader_sig ∧ presents a2 ALIRO_INS_EXCHANGE reader_exchange ∧ Forall stays (mid ++ post).
Proof.
  assert (av_state (state_after (opening ++ closing)) = ALIRO_STATE_DONE) as Hd by by vm_compute. split; [done|].
  destruct (aliro_listener_authenticates _ _ whole_steps) as [_ Ha]. apply (Ha Hd).
Defined.

Lemma aliro_command_answered_witness :
  ∃ s1, handle (ev_apdu (Some (prop_apdu ALIRO_INS_AUTH1 reader_sig))) (state_after opening) = Some (tt, s1) ∧
    av_sent s1 = [select_rsp; sw_bytes 0x6985].
Proof.
  destruct (aliro_command_answered opening (state_after opening) (Some (prop_apdu ALIRO_INS_AUTH1 reader_sig)) opening_steps) as (s1 & Hrun & _);
    [event_enabled|]. exists s1. split; [done|].
  assert (av_sent ∘ snd <$> handle (ev_apdu (Some (prop_apdu ALIRO_INS_AUTH1 reader_sig))) (state_after opening) =
    Some [select_rsp; sw_bytes 0x6985]) as Hv by by vm_compute. rewrite Hrun in Hv. by injection Hv.
Defined.

(** A field loss does not take the work item from the queue: after the next selection it answers an
    AUTH0 that the reader of that session has not sent, and the protocol goes on from there. *)
Lemma aliro_stale_work_answers :
  let s := state_after (opening ++ [ev_field_off; ev_select aliro_expedited_aid; ev_work]) in
  av_sent s = [select_rsp; select_rsp; auth0_rsp] ∧ av_state s = ALIRO_STATE_AWAIT_AUTH1.
Proof. split; by vm_compute. Qed.

(** ** The poller *)

(** A card that answers everything with the longest response. *)
Definition long_tag (tx : list Z) : M unit (Z * list Z) := mret (0, zeros 255).
Lemma long_tag_ok : CardWhile long_tag (λ _, True).
Proof. constructor. intros tx [] _ _. apply ensures_ret. split; [done|]. split; [apply bytes_zeros|done]. Qed.

Lemma started_waits : waits ALIRO_STATE_IDLE (state_after [ev_init None]).
Proof.
  assert (steps aliro_boot [ev_init None] (state_after [ev_init None])) as Hs
    by (apply (steps_one _ [] aliro_boot); [apply steps_nil|event_enabled|by vm_compute]).
  constructor; [by eapply ai_ok, steps_inv|by vm_compute..].
Qed.

Lemma aliro_poller_reads_listener_witness :
  ∃ d s', aliro_poller_read aliro_link (Some active_session) (Some aliro_zero) (state_after [ev_init None]) = Some ((0, Some d), s') ∧
    transcript d = select_rsp ++ auth0_rsp ++ auth1_rsp ++ exchange_rsp ∧ av_state s' = ALIRO_STATE_DONE.
Proof.
  destruct (aliro_poller_reads_listener active_session eq_refl (eq_refl : @CONFIG_NFC_ALIRO_PROTOCOL_VERIFIED card_emulation_config = false) aliro_zero (state_after [ev_init None]) ALIRO_STATE_IDLE started_waits)
    as (d & s' & Hrun & _ & _ & _ & _ & Ht). destruct (Ht ltac:(by vm_compute)) as [Ht' [_ _ _ Hs]]. exists d, s'. split; [exact Hrun|]. split; [exact Ht'|exact Hs].
Defined.
