(* ===== verification/EmvWitnesses.v ===== *)
(** * The EMV properties at concrete runs

    The card a fresh listener emulates in the card-emulation build, its commands, and its reading by
    another device. *)

From stdpp Require Import base list numbers option.
From S2P Require Import Prelude Kconfig Apdu Service Stack Serial Session Emv EmvListener EmvPoller.

#[local] Existing Instances card_emulation_config card_emulation_ranges.

Definition emv_boot : emv_st :=
  {| es_image := emv_zero; es_session := EMV_SESSION_IDLE; es_initialized := false;
     es_wire := {| ew_ppse_fci := zeros 128; ew_ppse_fci_len := 0; ew_app_fci := zeros 128; ew_app_fci_len := 0;
                   ew_gpo := zeros 16; ew_gpo_len := 0 |};
     es_resp := zeros 255; es_sent := [] |}.

(** The default card. *)
Definition default_card : emv_card_image_t :=
  default emv_zero (mjoin (emv_card_image_load_default (Some emv_zero))).
Definition default_tags : list (list (Z * list Z)) := [[(EMV_TAG_PAN, default_pan); (EMV_TAG_TRACK2, default_track2)]].
Definition default_records : list (list Z) := record_of <$> default_tags.
Definition default_listener : emv_st := default emv_boot (snd <$> emv_listener_init None emv_boot).

Lemma default_card_ok : emv_ok default_card default_records.
Proof.
  constructor.
  - constructor; split_and!; first [by vm_compute|by apply bytes_check|by split; vm_compute].
  - by split; vm_compute.
  - by vm_compute.
  - repeat constructor; first [by apply bytes_check|by vm_compute].
  - by vm_compute.
Qed.

Lemma default_listener_ok : emv_listener_ok default_card default_records default_listener.
Proof.
  constructor; [by vm_compute|apply default_card_ok|split_and!; by vm_compute| |by vm_compute].
  exists (es_wire emv_boot). by vm_compute.
Qed.

Lemma default_afl : afl_ok default_card.
Proof. exists 0x08, 0x01, 0x01, 0x00. split_and!; by vm_compute. Qed.

Definition gpo_apdu : nfc_apdu_t :=
  {| cla := 0x80; ins := 0xA8; p1 := 0; p2 := 0; data := Some [0x83; 0x00; 0x00]; lc := 2; le := 0; has_le := true; extended := false |}.
Definition record_apdu (n : Z) : nfc_apdu_t :=
  {| cla := 0x00; ins := 0xB2; p1 := n; p2 := 0x0C; data := None; lc := 0; le := 0; has_le := true; extended := false |}.
Definition demo_events : list emv_event :=
  [Select emv_ppse_aid; Command gpo_apdu; Select emv_service_app_aid; Command (record_apdu 1); Command gpo_apdu;
   Command (record_apdu 1); Command (record_apdu 2); FieldOff; Command (record_apdu 1)].

Lemma emv_listener_exact_witness :
  ∃ s', emv_run demo_events default_listener = Some (tt, s') ∧
    es_sent s' = [ppse_fci default_card ++ sw_bytes NFC_SW_OK; sw_bytes NFC_SW_CONDITIONS_NOT_SAT;
                  app_fci default_card ++ sw_bytes NFC_SW_OK; sw_bytes NFC_SW_CONDITIONS_NOT_SAT;
                  gpo_data default_card ++ sw_bytes NFC_SW_OK; record_of (nth 0 default_tags []) ++ sw_bytes NFC_SW_OK;
                  sw_bytes 0x6A83; sw_bytes NFC_SW_CONDITIONS_NOT_SAT].
Proof.
  destruct (emv_listener_exact default_card default_records default_listener demo_events default_listener_ok default_afl)
    as (s' & Hrun & _ & Hsent & _).
  { repeat (apply Forall_cons_2; [first [done|by split; split; vm_compute]|]). by apply Forall_nil_2. }
  exists s'. split; [exact Hrun|]. rewrite Hsent. by vm_compute.
Defined.

(** A card that answers everything with the longest response. *)
Definition zero_tag (tx : list Z) : M unit (Z * list Z) := mret (0, zeros 253 ++ [0x90; 0x00]).
Lemma zero_tag_ok : CardWhile zero_tag (λ _, True).
Proof. constructor. intros tx [] _ _. apply ensures_ret. split; [done|]. split; [by apply bytes_check|done]. Qed.

(** What is read of the default card: all but the holder's name and the date, which are in no record. *)
Lemma emv_poller_reads_listener_witness :
  ∃ s', emv_poller_read emv_link 256 (Some active_session) (Some emv_zero) default_listener = Some ((0, Some (read_image default_card default_tags)), s') ∧
    pan (read_image default_card default_tags) = pan default_card ∧ track2 (read_image default_card default_tags) = track2 default_card ∧
    record_data (read_image default_card default_tags) = record_data default_card ∧
    expiry (read_image default_card default_tags) = zeros 3 ∧ expiry default_card = default_expiry.
Proof.
  destruct (emv_poller_reads_listener default_card default_tags active_session emv_zero EMV_SESSION_IDLE 0x00 default_listener 0x08 256)
    as (s' & Hrun & _).
  - split; [exact default_listener_ok|by vm_compute].
  - done.
  - by vm_compute.
  - repeat constructor; first [by apply bytes_check|by vm_compute|done].
  - by vm_compute.
  - lia.
  - exists s'. split; [exact Hrun|]. split_and!; by vm_compute.
Defined.
