(* ===== verification/ReaderWitnesses.v ===== *)
(** * A reader with a tag in its field

    The NDEF build over an environment that holds a read-only Type 4 Tag: runs of the reader, which
    the kernel evaluates, and inputs at which the reader's theorems apply. *)

From Stdlib Require Import String.
From stdpp Require Import base list numbers option gmap.
From S2P Require Import Prelude Kconfig Transport Stats Apdu Service Ndef Envelope StoreRam World.
From S2P Require Import NdefListener Store StoreSpec Stack System Reach Session NdefPoller Reader ReaderSpec.
From S2P Require Import Aliro AliroListener Emv EmvListener Desfire DesfireListener DesfirePoller.
From S2P Require Import Ultralight UltralightPoller UltralightNdef UltralightT4 ReaderBuild ReaderNdef.
From S2P Require Import UltralightWitnesses DesfireWitnesses EmvWitnesses Scenario Witnesses.

(** The environment: the recorder, the file selected in the tag, and the statics of the other listeners. *)
Record field := {
  f_rec : recorder; f_sel : ndef_file_sel_t;
  f_ul : ul_listener; f_df : df_state; f_emv : emv_st; f_aliro : aliro_st;
}.

Definition f_with_rec (r : recorder) (e : field) : field :=
  {| f_rec := r; f_sel := f_sel e; f_ul := f_ul e; f_df := f_df e; f_emv := f_emv e; f_aliro := f_aliro e |}.
Definition f_with_sel (s : ndef_file_sel_t) (e : field) : field :=
  {| f_rec := f_rec e; f_sel := s; f_ul := f_ul e; f_df := f_df e; f_emv := f_emv e; f_aliro := f_aliro e |}.

Definition on_rec (f : recorder → Z * recorder) (e : field) : Z * field := ((f (f_rec e)).1, f_with_rec (f (f_rec e)).2 e).

#[local] Instance field_platform : Platform field := {|
  hal_init e := on_rec hal_init e;
  hal_shutdown e := on_rec hal_shutdown e;
  hal_register_callbacks e := on_rec hal_register_callbacks e;
  hal_start u e := on_rec (hal_start u) e;
  hal_stop e := on_rec hal_stop e;
  hal_send_response b e := on_rec (hal_send_response b) e;
  net_buf_unref b e := f_with_rec (net_buf_unref b (f_rec e)) e;
  app_save _ _ _ e := (0, e);
  app_load _ _ _ e := (- ENOENT, None, e);
  app_commit _ _ _ e := (0, e);
|}.

#[local] Instance field_trace : Trace field.
Proof. by refine {| tx e := rec_tx (f_rec e); freed e := rec_freed (f_rec e) |}. Defined.

#[local] Instance field_load : AppLoad (E := field).
Proof. by constructor. Qed.

(** Discovery finds the tag at once. *)
#[local] Instance field_poll : PollTransport field := {|
  hal_get_state e := NFC_TRANSPORT_STATE_UNINITIALIZED;
  hal_discover_start _ e := (0, e);
  hal_discover_stop e := (0, e);
  hal_discover_wait _ info e := (0, info, e);
  hal_tag_transceive tx e :=
    match demo_card tx (f_sel e) with
    | Some ((ret, rx), s) => (ret, rx, f_with_sel s e)
    | None => (- EIO, [], e)
    end;
  hal_work_submit e := (1, e);
|}.

#[local] Instance field_ul : Holds ul_listener field.
Proof.
  by refine {| held := f_ul; hold s e := {| f_rec := f_rec e; f_sel := f_sel e; f_ul := s; f_df := f_df e; f_emv := f_emv e; f_aliro := f_aliro e |} |}.
Defined.
#[local] Instance field_df : Holds df_state field.
Proof.
  by refine {| held := f_df; hold s e := {| f_rec := f_rec e; f_sel := f_sel e; f_ul := f_ul e; f_df := s; f_emv := f_emv e; f_aliro := f_aliro e |} |}.
Defined.
#[local] Instance field_emv : Holds emv_st field.
Proof.
  by refine {| held := f_emv; hold s e := {| f_rec := f_rec e; f_sel := f_sel e; f_ul := f_ul e; f_df := f_df e; f_emv := s; f_aliro := f_aliro e |} |}.
Defined.
#[local] Instance field_aliro : Holds aliro_st field.
Proof.
  by refine {| held := f_aliro; hold s e := {| f_rec := f_rec e; f_sel := f_sel e; f_ul := f_ul e; f_df := f_df e; f_emv := f_emv e; f_aliro := s |} |}.
Defined.

#[local] Instance ndef_reader : NdefReader.
Proof. by constructor. Qed.

(** ** The tag *)

Lemma demo_card_sel tx sel : ∃ ret rx sel', demo_card tx sel = Some ((ret, rx), sel') ∧
  bytes rx ∧ len rx <= NFC_TRANSPORT_MAX_RESPONSE_LEN.
Proof. destruct (card_returns demo_card (Card := demo_card_ok) tx sel) as ([ret rx] & sel' & H & ?). by exists ret, rx, sel'. Qed.

Lemma field_exchange tx e : ∃ ret rx sel', demo_card tx (f_sel e) = Some ((ret, rx), sel') ∧
  tag_exchange tx e = Some ((ret, rx), f_with_sel sel' e).
Proof.
  destruct (demo_card_sel tx (f_sel e)) as (ret & rx & sel' & Hc & _). exists ret, rx, sel'.
  split; [done|]. unfold tag_exchange. cbn [hal_tag_transceive field_poll]. by rewrite Hc.
Qed.

#[local] Instance field_card_ok : Card (tag_exchange (E := field)).
Proof.
  constructor. intros tx e. destruct (demo_card_sel tx (f_sel e)) as (ret & rx & sel' & Hc & ?).
  eexists (ret, rx), _. split; [|done]. unfold tag_exchange. cbn [hal_tag_transceive field_poll]. by rewrite Hc.
Qed.

(** Commands to a read-only tag select at most another file. *)
Lemma readonly_step sel a : (tag_step (demo_tag sel) a).1 = demo_tag (t_sel (tag_step (demo_tag sel) a).1).
Proof.
  unfold tag_step, tag_select_file, tag_update. cbn [t_writable demo_tag negb t_sel].
  repeat case_bool; try done; destruct (data a) as [[|? [|? ?]]|]; repeat case_bool; try done; destruct sel; done.
Qed.

Definition in_field (e : field) (t : tag) : Prop := demo_tag (f_sel e) = t.

#[local] Instance field_type4 : Type4Card (tag_exchange (E := field)) in_field in_field.
Proof.
  constructor.
  - intros e t <-. exists (f_with_sel NDEF_FILE_NONE e). split; [|done]. unfold tag_exchange.
    cbn [hal_tag_transceive field_poll]. by destruct (f_sel e).
  - intros e t tx a <- _ Hp Ha. exists (f_with_sel (t_sel (tag_step (demo_tag (f_sel e)) a).1) e).
    split; [|unfold in_field; cbn; by rewrite <-readonly_step].
    unfold tag_exchange. cbn [hal_tag_transceive field_poll]. unfold demo_card, t4t. rewrite Hp, Ha.
    by destruct (tag_step (demo_tag (f_sel e)) a).
Qed.

#[local] Instance field_in : FieldCard in_field in_field.
Proof. constructor; try apply _; try done; intros e t He; split; try exact He; cbn; first [lia | by left | done]. Qed.

(** ** Runs *)

Definition field_boot : field :=
  {| f_rec := recorder_boot; f_sel := NDEF_FILE_NONE; f_ul := ull_boot; f_df := demo_df desfire_zero;
     f_emv := emv_boot; f_aliro := aliro_boot |}.

Definition no_listeners : svc_ptr → listener_ops (world field) := λ _,
  {| lo_service := absent; lo_init := mret 0; lo_shutdown := mret 0 |}.
Definition no_protocols : svc_ptr → reader_protocol (world field) := λ _,
  {| rp_data := unit; rp_fresh := (); rp_detect _ := mret (- ENOTSUP); rp_read _ out := mret (- ENOTSUP, out);
     rp_init := None; rp_load := None |}.

Definition demo_protocols := build_protocols (E := field) demo_up (zeros 8) (zeros ULTRALIGHT_NDEF_SCAN_MAX) id demo_dp_locals no_protocols.
Definition demo_services := reader_vtab (zeros ULTRALIGHT_NDEF_SCAN_MAX) id no_listeners.
Definition demo_steps := reader_steps demo_services demo_protocols tag_info_zero.
Definition reader_start : engine field := {| e_reader := reader_boot; e_world := boot field_boot |}.
Definition reader_after (evs : list (reader_event (E := field))) : engine field := default reader_start (snd <$> demo_steps evs reader_start).

Lemma storing_boot : storing (boot field_boot).
Proof. destruct (sys_parts (boot field_boot) (boot_ok field_boot)) as ([Hl _] & Hs & Hm). done. Qed.

Lemma demo_clonable : clonable (demo_tag NDEF_FILE_NONE).
Proof.
  split; [constructor; first [by vm_compute | by apply bytes_check]|]. split; [by vm_compute|]. by split; vm_compute.
Qed.

(** A read requested, run, and the same card cloned again under another name. *)
Definition read_evs : list (reader_event (E := field)) := [EvRead (Some card1) 5; EvWork].

(** A scan requested while a clone waits: the card of the scan is the one that is cloned. *)
Definition clash_evs : list (reader_event (E := field)) :=
  [EvScan 5; EvWork; EvScan 5; EvClone (Some card1); EvWork; EvWork].

Example reads_run :
  ram_map (w_ram (e_world (reader_after read_evs))) !! c_str card1 = Some (clone_card (demo_tag NDEF_FILE_NONE)) ∧
  e_reader (reader_after read_evs) =
    r_with_read false (s_read_tag (e_reader (reader_after read_evs))) 5 (r_with_ready true reader_boot).
Proof. vm_compute. done. Qed.

Lemma read_saves_tag_witness :
  ∃ e', demo_steps read_evs reader_start = Some (tt, e') ∧
    ram_map (w_ram (e_world e')) = <[c_str card1 := clone_card (demo_tag NDEF_FILE_NONE)]> (ram_map (w_ram (boot field_boot))).
Proof.
  destruct (read_saves_tag demo_up (zeros 8) (zeros ULTRALIGHT_NDEF_SCAN_MAX) id demo_dp_locals no_listeners no_protocols
    in_field in_field (demo_tag NDEF_FILE_NONE) reader_boot (boot field_boot) card1 5 tag_info_zero) as (e' & H1 & H2 & _).
  - apply demo_clonable.
  - reflexivity.
  - apply boot_reader_ok.
  - reflexivity.
  - right. split; reflexivity.
  - apply storing_boot.
  - intros _. discriminate.
  - reflexivity.
  - by vm_compute.
  - right. by vm_compute.
  - exists e'. split; [exact H1|exact H2].
Defined.

Lemma clash_ok : Forall (reader_event_ok storing) clash_evs.
Proof. by repeat constructor. Qed.

Lemma reader_requests_safe_witness :
  ∃ e, demo_steps clash_evs reader_start = Some (tt, e) ∧ reader_ok (e_reader e) ∧ storing (e_world e).
Proof.
  exact (reader_requests_safe demo_up (zeros 8) (zeros ULTRALIGHT_NDEF_SCAN_MAX) id demo_dp_locals no_listeners no_protocols
    tag_info_zero clash_evs (boot field_boot) storing_boot clash_ok).
Defined.

Lemma reader_jobs_served_witness :
  ∃ e', demo_steps (replicate 2 EvWork) (reader_after (take 4 clash_evs)) = Some (tt, e') ∧ r_queue (e_reader e') = [].
Proof.
  destruct (reader_jobs_served demo_up (zeros 8) (zeros ULTRALIGHT_NDEF_SCAN_MAX) id demo_dp_locals no_listeners no_protocols
    tag_info_zero (take 4 clash_evs) (boot field_boot) (reader_after (take 4 clash_evs)) storing_boot) as (e' & H1 & H2 & _).
  - by repeat constructor.
  - vm_compute. reflexivity.
  - exists e'. split; [exact H1|exact H2].
Defined.
