(* ===== verification/VicinityWitnesses.v ===== *)
(** * The checksum, ISO 15693 and SLIX properties at concrete cards

    A SLIX2 card and the same card in privacy mode, emulated by the listener, read by the poller and
    attacked with a wrong password. *)

From stdpp Require Import base list numbers option.
From S2P Require Import Prelude Kconfig Transport Serial Word32 Crc Response Iso15693 Iso15693Wire Iso15693Listener Session Iso15693Poller Iso15693Loopback SlixListener SlixPoller CardWitnesses.

(** ** Cards *)

Definition tx_buf : list Z := zeros 32.
Definition demo_iso_locals : iso_locals := {| il_frame := zeros 256; il_expected := zeros 8 |}.

Lemma demo_iso_locals_ok : iso_locals_ok demo_iso_locals.
Proof. by split. Qed.
Lemma tx_buf_ok : len tx_buf = 32 ∧ bytes tx_buf.
Proof. split; [done|apply bytes_zeros]. Qed.

(** The listener after it was given a model. *)
Definition iso_up (d : iso15693_3_data_t) : iso_state :=
  default iso_power_up (snd <$> iso15693_3_listener_init (Some d) iso_power_up).
Definition slix_up (m : slix_data_t) : slix_state := default slix_power_up (snd <$> slix_listener_init (Some m) slix_power_up).

(** A SLIX2 card with a password of each type. *)
Definition demo_vicinity2 : iso15693_3_data_t :=
  {| v_uid := [0xE0; 0x04; 0x04; 1; 2; 3; 4; 5]; v_dsfid := 0; v_afi := 7; v_ic_ref := 1;
     v_lock_dsfid := 0; v_lock_afi := 0; v_block_count := 2; v_block_size := 4;
     v_block_data := [1; 2; 3; 4; 5; 6; 7; 8] ++ zeros 504; v_block_security := [0; 1] ++ zeros 126 |}.
Definition demo_slix2 (privacy : Z) : slix_data_t :=
  {| x_parent := demo_vicinity2; x_capabilities := 0; x_type := SLIX_TYPE_SLIX2;
     x_passwords := [[1; 2; 3; 4]; [5; 6; 7; 8]; [0x0F; 0x0F; 0x0F; 0x0F]; zeros 4; zeros 4];
     x_signature := replicate 32 0x5A; x_privacy_mode := privacy; x_protection_pointer := 4; x_protection_condition := 0x32;
     x_lock_eas := 0; x_lock_ppl := 1 |}.

Lemma demo_slix2_ok privacy : is_byte privacy → slix_ok (demo_slix2 privacy).
Proof. intros Hp. constructor; [card_ok..|]. by bytes_list. Qed.

Lemma demo_slix2_shown privacy : is_byte privacy → slix_shows (demo_slix2 privacy) (slix_up (demo_slix2 privacy)).
Proof.
  intros Hp. split; [|done]. split; [by apply slix_ok_safe, demo_slix2_ok|done..].
Qed.

(** ** The properties *)

Lemma iso15693_poller_reads_listener_witness :
  iso_shows demo_vicinity (iso_up demo_vicinity) ∧ ∃ c', iso_shows demo_vicinity c' ∧
  iso15693_3_poller_read (iso_link demo_iso_locals) tx_buf (Some active_session) (Some iso15693_zero) (iso_up demo_vicinity) =
    Some ((0, Some (iso_image demo_vicinity)), c').
Proof.
  split; [by vm_compute|].
  destruct (iso15693_poller_reads_listener demo_iso_locals demo_vicinity tx_buf active_session (iso_up demo_vicinity) iso15693_zero
    demo_iso_locals_ok demo_vicinity_ok tx_buf_ok eq_refl ltac:(by vm_compute)) as (c' & Hc' & Hrun & _).
  exists c'. split; [exact Hc'|exact Hrun].
Defined.

(** A request for a random number, a wrong password, then an inventory. *)
Definition attack : list (list Z) :=
  [iso15693_frame [0x02; SLIX_CMD_GET_RANDOM; 0x04]; iso15693_frame [0x02; SLIX_CMD_SET_PASSWORD; 0x04; 4; 1; 2; 3; 4];
   iso15693_frame [0x26; 0x01; 0x00]].

Lemma attack_bytes : Forall bytes attack.
Proof. repeat constructor; by vm_compute. Qed.

Lemma slix_listener_refines_witness :
  ∃ s', slix_deliver demo_iso_locals demo_iso_locals attack (slix_up (demo_slix2 1)) = Some (tt, s') ∧
    sx_abs s' = foldl slix_step (sx_abs (slix_up (demo_slix2 1))) attack ∧ slix_state_ok s'.
Proof.
  apply (slix_listener_refines demo_iso_locals demo_iso_locals demo_iso_locals_ok demo_iso_locals_ok attack); [|exact attack_bytes].
  apply (demo_slix2_shown 1). by vm_compute.
Defined.

Definition attacked : slix_state :=
  default slix_power_up (snd <$> slix_deliver demo_iso_locals demo_iso_locals attack (slix_up (demo_slix2 1))).

Lemma slix_privacy_guarded_witness :
  slix_deliver demo_iso_locals demo_iso_locals attack (slix_up (demo_slix2 1)) = Some (tt, attacked) ∧
  ((x_privacy_mode (sx_model attacked) ≠ 0 ∧ ∀ tx, bytes tx → asks_inventory tx → ∃ s'',
     slix_listener_on_tag_cmd demo_iso_locals demo_iso_locals (Some tx) (len tx) attacked = Some (tt, s'') ∧
     is_sent (sx_iso s'') = is_sent (sx_iso attacked)) ∨
   (∃ pre tx post, attack = pre ++ tx :: post ∧ gives_privacy (foldl slix_step (sx_abs (slix_up (demo_slix2 1))) pre) tx)).
Proof.
  assert (slix_state_ok (slix_up (demo_slix2 1))) as H1 by (apply (demo_slix2_shown 1); by vm_compute).
  assert (x_capabilities (sx_model (slix_up (demo_slix2 1))) ≠ SLIX_CAP_ACCEPT_ALL) as H2 by by vm_compute.
  assert (x_privacy_mode (sx_model (slix_up (demo_slix2 1))) ≠ 0) as H3 by by vm_compute.
  assert (slix_deliver demo_iso_locals demo_iso_locals attack (slix_up (demo_slix2 1)) = Some (tt, attacked)) as Hrun by by vm_compute.
  split; [exact Hrun|].
  exact (slix_privacy_guarded demo_iso_locals demo_iso_locals attack (slix_up (demo_slix2 1)) attacked demo_iso_locals_ok demo_iso_locals_ok
    H1 attack_bytes H2 H3 Hrun).
Defined.

Lemma slix_poller_reads_listener_witness :
  ∃ s', slix_shows (demo_slix2 0) s' ∧
  slix_poller_read (slix_link demo_iso_locals demo_iso_locals) tx_buf (Some active_session) (Some slix_zero) (slix_up (demo_slix2 0)) =
    Some ((0, Some (slix_image (demo_slix2 0)).2), s').
Proof.
  apply (slix_poller_reads_listener demo_iso_locals demo_iso_locals demo_iso_locals_ok demo_iso_locals_ok tx_buf tx_buf_ok active_session eq_refl
    (demo_slix2 0) (slix_up (demo_slix2 0)) slix_zero); [apply demo_slix2_ok; by vm_compute|apply demo_slix2_shown; by vm_compute].
Defined.
