(* ===== verification/ClassicWitnesses.v ===== *)
(** * The MIFARE Classic properties at concrete cards

    A Mini card in the card-emulation build. *)

From stdpp Require Import base list numbers option.
From S2P Require Import Prelude Kconfig Transport Serial Word32 Crc Response Crypto1 ClassicCipher Classic ClassicListener Session ClassicPoller ClassicReads CardWitnesses.

#[local] Existing Instances card_emulation_config card_emulation_ranges.

Lemma crypto1_feedback_witness :
  crypto1_bit {| k_odd := 0x29CE5C; k_even := 0x870804 |} 1 0 =
    (1, {| k_odd := 0x10E1009; k_even := 0x29CE5C |}).
Proof.
  assert (crypto1_word_ok {| k_odd := 0x29CE5C; k_even := 0x870804 |}) as Hok by by vm_compute.
  destruct (crypto1_feedback {| k_odd := 0x29CE5C; k_even := 0x870804 |} 1 0 Hok) as [Heq _].
  rewrite Heq. by vm_compute.
Defined.

(** ** A Mini card *)

(** Block 0 tells the UID; the trailers have the default key except that of sector 2; the other blocks
    hold their numbers. *)
Definition demo_block16 (i : Z) : list Z :=
  if i =? 0 then [0xDE; 0xAD; 0xBE; 0xEF; 0x22; 0x09; 0x04; 0x00] ++ replicate 8 0xFF
  else if i =? 11 then [1; 2; 3; 4; 5; 6; 0xFF; 0x07; 0x80; 0x69] ++ replicate 6 0xFF
  else if classic_is_sector_trailer i then replicate 6 0xFF ++ [0xFF; 0x07; 0x80; 0x69] ++ replicate 6 0xFF
  else replicate 16 i.

Definition demo_mini : classic_data_t :=
  {| c_type := CLASSIC_TYPE_MINI; c_uid := [0xDE; 0xAD; 0xBE; 0xEF] ++ zeros 6; c_uid_len := 4; c_sak := 0x09; c_atqa := [0x04; 0];
     c_block_read_mask := 0xFFFFF :: zeros 7; c_key_a_mask := 0x1F; c_key_b_mask := 0x1F;
     c_blocks := (demo_block16 <$> (Z.of_nat <$> seq 0 20)) ++ replicate 236 (zeros 16) |}.

Lemma demo_mini_ok : classic_ok demo_mini.
Proof.
  assert (Forall bytes (c_blocks demo_mini)) as Hb by (apply bytes_mjoin; by apply bytes_check).
  assert (Forall (λ b, len b = 16) (c_blocks demo_mini)) as Hs.
  { apply List.Forall_forall. intros b Hb'. apply Z.eqb_eq.
    assert (forallb (λ b, len b =? 16) (c_blocks demo_mini) = true) as Hall by by vm_compute.
    rewrite List.forallb_forall in Hall. by apply Hall. }
  constructor; [by vm_compute|by vm_compute|by vm_compute|by vm_compute|by apply bytes_check|by vm_compute|by vm_compute|by vm_compute|
    by apply bytes_check|by vm_compute| |by split; vm_compute|by vm_compute|exact Hs|exact Hb|by vm_compute].
  repeat constructor; by vm_compute.
Qed.

Lemma classic_codec_witness :
  ∃ o n, classic_serialize (Some demo_mini) (Some (zeros 400)) 400 (Some 0) = Some (0, Some o, Some n) ∧
    classic_deserialize (Some classic_zero) (sub o 0 n) n = Some (0, Some demo_mini).
Proof.
  destruct (proj1 classic_codec demo_mini classic_zero (zeros 400) 0 demo_mini_ok) as (o & n & Hs & _ & Hd).
  - by vm_compute.
  - exists o, n. split; [exact Hs|exact Hd].
Defined.

(** ** The listener with that card *)

Definition demo_classic : classic_state :=
  {| cs_model := demo_mini; cs_initialized := true;
     cs_auth := {| ca_crypto := {| k_odd := 0; k_even := 0 |}; ca_nt := zeros 4; ca_block := 0; ca_pending := false; ca_complete := false |};
     cs_resp := zeros 32; cs_sent := [] |}.
Definition demo_classic_locals : classic_locals := {| cl_at := zeros 4; cl_plain := zeros 20 |}.

Lemma demo_mini_safe : classic_safe demo_mini.
Proof.
  pose proof demo_mini_ok as Hok. constructor; [by vm_compute|exact (co_blocks _ Hok)|exact (co_block_size _ Hok)|exact (co_block_bytes _ Hok)|].
  split; [exact (co_uid _ Hok)|exact (co_uid_bytes _ Hok)].
Qed.

Lemma demo_classic_ok : classic_state_ok demo_classic.
Proof. constructor; [exact demo_mini_safe|done|done|done]. Qed.

Lemma demo_classic_locals_ok : classic_locals_ok demo_classic_locals.
Proof. done. Qed.

(** An authentication for sector 1 and a READ of block 5; the reader's frames as the cipher makes them. *)
Definition demo_start : crypto1 := Eval vm_compute in started CLASSIC_DEFAULT_KEY 0xDEADBEEF 0x10000001.
Definition demo_proof : list Z := Eval vm_compute in reader_frame demo_start 0x10000001 [1; 2; 3; 4].
Definition demo_read : list Z := Eval vm_compute in (masked (agreed demo_start [1; 2; 3; 4]) (iso14443_frame [CLASSIC_CMD_READ_BLOCK; 5])).1.
Definition demo_frames : list (list Z) := [[CLASSIC_CMD_AUTH_KEY_A; 4]; demo_proof; demo_read].

Lemma demo_frames_bytes : Forall bytes demo_frames.
Proof. apply bytes_mjoin. by apply bytes_check. Qed.

(** The card sends a nonce, its answer and the block. *)
Lemma classic_listener_refines_witness :
  ∃ s', classic_deliver demo_classic_locals demo_frames demo_classic = Some (tt, s') ∧ length <$> cs_sent s' = [4; 4; 18]%nat.
Proof.
  destruct (classic_listener_refines demo_classic_locals demo_classic_locals_ok demo_frames demo_classic demo_classic_ok demo_frames_bytes)
    as (s' & Hrun & Ht & _).
  exists s'. split; [exact Hrun|]. change (cs_sent s') with (ct_sent (tag_of s')). rewrite Ht. by vm_compute.
Defined.

(** The same frames for sector 2, whose key is another. *)
Definition demo_attack : list (list Z) := [[CLASSIC_CMD_AUTH_KEY_A; 8]; demo_proof; demo_read].

Lemma demo_attack_bytes : Forall bytes demo_attack.
Proof. apply bytes_mjoin. by apply bytes_check. Qed.

(** The same card but for sector 2, whose data and keys are others. *)
Definition demo_mini2 : classic_data_t :=
  {| c_type := CLASSIC_TYPE_MINI; c_uid := [0xDE; 0xAD; 0xBE; 0xEF] ++ zeros 6; c_uid_len := 4; c_sak := 0x09; c_atqa := [0x04; 0];
     c_block_read_mask := 0xFFFFF :: zeros 7; c_key_a_mask := 0x1F; c_key_b_mask := 0x1F;
     c_blocks := ((λ i, if (8 <=? i) && (i <? 12) then replicate 16 (0x70 + i) else demo_block16 i) <$> (Z.of_nat <$> seq 0 20)) ++
                 replicate 236 (zeros 16) |}.
Definition demo_classic2 : classic_state := cs_with_model demo_mini2 demo_classic.

Lemma demo_classic2_ok : classic_state_ok demo_classic2.
Proof.
  assert (Forall bytes (c_blocks demo_mini2)) as Hb by (apply bytes_mjoin; by apply bytes_check).
  assert (Forall (λ b, len b = 16) (c_blocks demo_mini2)) as Hs.
  { apply List.Forall_forall. intros b Hb'. apply Z.eqb_eq.
    assert (forallb (λ b, len b =? 16) (c_blocks demo_mini2) = true) as Hall by by vm_compute.
    rewrite List.forallb_forall in Hall. by apply Hall. }
  constructor; [|done|done|done]. constructor; [by vm_compute|by vm_compute|exact Hs|exact Hb|]. split; [by vm_compute|by apply bytes_check].
Qed.

Definition second_sector (sector : Z) : bool := sector =? 2.

Lemma demo_same : same_but second_sector demo_mini demo_mini2.
Proof.
  constructor; [done..|]. intros n Hn Hs.
  assert (forallb (λ k, second_sector (classic_get_sector_by_block (Z.of_nat k)) ||
    bool_decide (classic_block demo_mini (Z.of_nat k) = classic_block demo_mini2 (Z.of_nat k))) (seq 0 256) = true) as Hall by by vm_compute.
  unfold is_byte in Hn. apply List.forallb_forall with (x := Z.to_nat n) in Hall; [|apply List.in_seq; lia].
  rewrite Z2Nat.id, Hs in Hall by lia. cbn [orb] in Hall. by apply bool_decide_eq_true in Hall.
Qed.

(** The proof of sector 1's key opens neither card's sector 2. *)
Definition proof_word (i : Z) : Z :=
  let at_ k := default 0 (demo_proof !! Z.to_nat (i + k)) in be32 (at_ 0) (at_ 1) (at_ 2) (at_ 3).

Lemma demo_locked t :
  match ct_phase (tag_step t [CLASSIC_CMD_AUTH_KEY_A; 8]) with challenged b _ => b =? 8 | _ => false end = true →
  match tag_checks (tag_start (ct_model t) 8) (sector_nonce 8) (proof_word 0) (proof_word 4) with Some _ => false | None => true end = true →
  locked second_sector t demo_attack.
Proof.
  intros Hp Hc b _ (pre & n0 & n1 & n2 & n3 & a0 & a1 & a2 & a3 & post & Htx & Hph & Hck).
  destruct pre as [|x0 [|x1 [|x2 [|x3 pre]]]]; try discriminate Htx.
  injection Htx as <- <- <- <- <- <- <- <- <- _. cbn [foldl] in Hph. rewrite Hph in Hp. bool_prop. subst b.
  apply Hck.
  match goal with |- tag_checks ?s ?n ?x ?y = None => change x with (proof_word 0); change y with (proof_word 4) end.
  destruct (tag_checks _ _ _ _); [discriminate Hc|reflexivity].
Qed.

Lemma classic_blocks_guarded_witness : ∃ s1 s2, classic_deliver demo_classic_locals demo_attack demo_classic = Some (tt, s1) ∧
  classic_deliver demo_classic_locals demo_attack demo_classic2 = Some (tt, s2) ∧ cs_sent s1 = cs_sent s2.
Proof.
  destruct (classic_delivers demo_classic_locals demo_classic_locals_ok demo_attack demo_classic demo_classic_ok demo_attack_bytes)
    as (s1 & Hrun1 & _).
  destruct (classic_delivers demo_classic_locals demo_classic_locals_ok demo_attack demo_classic2 demo_classic2_ok demo_attack_bytes)
    as (s2 & Hrun2 & _).
  exists s1, s2. split; [exact Hrun1|]. split; [exact Hrun2|].
  refine (classic_blocks_guarded demo_classic_locals second_sector demo_attack demo_classic demo_classic2 s1 s2 demo_classic_locals_ok
    demo_classic_ok demo_classic2_ok demo_attack_bytes demo_same eq_refl eq_refl eq_refl eq_refl _ _ Hrun1 Hrun2);
    apply demo_locked; by vm_compute.
Defined.

(** ** The poller in front of it *)

Definition demo_classic_session : session :=
  {| ses_active := true;
     ses_tag := {| ti_uid := {| uid_bytes := [0xDE; 0xAD; 0xBE; 0xEF] ++ zeros 6; uid_len := 4 |}; ti_protocol := 0; ti_interface := 0;
                   ti_mode_tech := NFC_TECH_ISO14443_3A_RAW; ti_valid := true |} |}.
Definition demo_classic_arrays : classic_arrays :=
  {| cp_nt := zeros 4; cp_tx_auth := zeros 8; cp_tx_plain := zeros 4; cp_tx_enc := zeros 8; cp_rx_plain := zeros 255 |}.

Lemma demo_refuses t : 0 <= t < classic_get_total_sectors (c_type demo_mini) → default_key demo_mini t = false →
  tag_opens demo_mini (sector_start t) [1; 2; 3; 4] = false.
Proof.
  intros Ht. change (classic_get_total_sectors (c_type demo_mini)) with 5 in Ht.
  assert (t = 0 ∨ t = 1 ∨ t = 2 ∨ t = 3 ∨ t = 4) as [-> | [-> | [-> | [-> | ->]]]] by lia; by vm_compute.
Qed.

Lemma classic_poller_reads_listener_witness : ∃ d s',
  classic_poller_read (classic_link demo_classic_locals) demo_classic_arrays (λ _, [1; 2; 3; 4]) (zeros 16) (Some demo_classic_session)
    (Some classic_zero) demo_classic = Some ((0, Some d), s') ∧ cloned demo_mini 20 5 d ∧ cs_model s' = demo_mini.
Proof.
  assert (tells_uid demo_mini) as Htells by by vm_compute.
  assert (default_key demo_mini 0 = true) as Hk by by vm_compute.
  destruct (classic_poller_reads_listener demo_classic_locals demo_classic_arrays demo_classic_session (λ _, [1; 2; 3; 4]) demo_mini demo_classic
    (zeros 16) classic_zero demo_classic_locals_ok) as (d & s' & Hrun & Hcl & Hm).
  - by vm_compute.
  - exact demo_mini_safe.
  - done.
  - by vm_compute.
  - by vm_compute.
  - by vm_compute.
  - intros _. exact Htells.
  - intros t. split; [by apply bytes_check|done].
  - exact demo_refuses.
  - exact demo_classic_ok.
  - done.
  - done.
  - done.
  - rewrite Hk in Hrun. exists d, s'. split; [exact Hrun|]. split; [exact Hcl|exact Hm].
Defined.
